(* ===== verification/_CoqProject ===== *)
-Q . S2P
Prelude.v
Domain.v
Events.v
Message.v
World.v
Text.v
Paginator.v
PaginatorRules.v
BotControlStore.v
MediaProcessor.v
Samples.v
BotControl.v
DialogStore.v
Paging.v
PreviewStore.v
VariableStore.v
ThreadStore.v
PermissionStore.v
Permissions.v
PermissionRules.v
TagStore.v
Outbox.v
TagService.v
Tags.v
MessageStatus.v
StatusService.v
MessageStore.v
ExternalStore.v
ReactionStore.v
References.v
ControlEvents.v
BotFlow.v
Members.v
DirectThread.v
Commands.v
Variables.v
Previews.v
MessageService.v
MessageActions.v
MessageView.v
HistoryQueries.v
History.v
HistoryMapper.v
QueryObject.v
ThreadQueries.v
ThreadReads.v
Journal.v
ThreadMapper.v
Handlers.v
Updates.v
TypingService.v
Invariant.v
Safety.v
ServiceSafety.v
System.v
MessageFacts.v
Atomicity.v
Seats.v
MemberRules.v
BotRules.v
DirectRules.v
MessageRules.v
StatusRules.v
EditRules.v
DeleteRules.v
UnreadRules.v
SendRules.v
PreviewRules.v
ReactionRules.v
HistoryFacts.v
HistoryRules.v
JournalRules.v
MessageHandlers.v
Providers.v
ThreadRules.v
UpdatesRules.v
VariableRules.v
TypingRules.v
Leader.v
Relay.v
