(* ===== verification/Prelude.v ===== *)
(** * im-thread-service: a verified model of threads, messages and updates

    The service keeps conversations ("threads") of contacts in PostgreSQL.  A
    contact takes part in a thread through a "dialog", a row with a role,
    rights and a title.  Bots take turns in controlling a thread: a stack says
    who resumes when the bot on top leaves, and human operators interrupt them.
    Members send messages of several kinds, numbered within their thread, edit,
    delete, forward and react to them; every member has a delivered and a read
    horizon and an unread count.  Every change is announced by events that
    commit with it (an outbox) and by journal rows and marks of contacts, from
    which clients catch up (GetUpdates).  History, search and lists of threads
    are read page by page.  What is said reaches external messengers through
    im-providers, and the events reach a message broker through a relay that one
    of the service's nodes runs, elected over Consul.

    ** Method

    The program is embedded shallowly.  A table is a list of rows in the order
    of insertion, a database ([World.DB]) a record of tables, an SQL statement
    a function on it ([push_sql], [edit_sql], [v_messages], ...), with the
    constraints of migrations/ as boolean preconditions ([push_accepted],
    [create_accepted], ...).  A store method or a service call is an action of
    the error monad [M World], executable on any state.  Each statement can
    fail: the environment's [env_fault] says at which count of statements, so a
    theorem about every environment covers every pattern of faults.  A failed
    statement aborts the open transaction, as the server does, and
    [WithinTransaction] (postgres/uow.go) commits or restores the tables.

    What the program calls and does not define is a field of a class:
    - [Env]: faults, the privacy checker, the contacts service, the providers
      adapter, the replicated contact data, the uuid text functions;
    - [MessageEnv]: storage service, emoji, normalisation and URL packages, the
      parsing of uuids;
    - [HistoryEnv]: the links of files, case folding and JSON text of the server;
    - [ThreadReadEnv]: the contact table, the text of a variable, POSIX
      matching, the order of texts;
    - [JournalEnv]: the horizon of settled transactions, the casts of the
      server, the time journal rows are kept;
    - [ProvidersEnv]: the client of im-providers, the text of odd values;
    - [LockService]: the sessions and the lock of Consul; [Watermill]: the
      broker with the retry and poison queue middlewares; [CleanupEnv]: the
      clock, the faults and the context of a cleanup call.  The first two carry
      the documented behaviour of these services as laws.
    The cache behind the typing limiter and the JSON codec of cursors are
    arguments.  The theorems hold for all of them; where one needs a documented
    behaviour (ids that read back as written, a codec that decodes what it
    encodes, case folding that keeps the wildcards, no fault in the run) it is
    a premise, and a witness applies the theorem to a concrete environment.

    Interfaces between components are classes with laws: [Quiet] (Outbox) is
    what announcing promises, it leaves alone any view of the state that
    outbox, journal, marks and clocks do not enter; [ThreadTagHooks]
    (TagService) what the thread and message services call of the tags;
    [Entity] (QueryObject) what the base query object asks of a query;
    [TotalOrder] (PaginatorRules) what the keyset paginator asks of column
    values.

    Integers are [Z]; conversions to int32, the smallint bound of stack
    positions, 64-bit cursors and the page limit that wraps around are written
    out ([to_int32], [smallint_max], [ParseInt], [limit_plus_one]).  Loops over
    lists are structural.  Three take fuel: [cleanup_loop], as many batches as
    the journal has full ones and one more ([Cleanup_trims] shows that it ends
    with every old row gone), [load_batches], one per id, of which every batch
    takes at least one, and [cleanup_from], one more than the outbox has rows
    ([Cleanup_removes_consumed_only] shows that it never runs out).

    ** Files

    Foundations
    - Prelude: identifiers, errors, results, the state monad with its tactics
      and hint databases, table operations ([select_where], [update_where],
      [delete_where], [find_first], [max_by]) and their lemmas;
    - Domain, Events, Message, Text: internal/domain/{shared,model,event};
      Text is the normalisation of bodies with their formatting spans;
    - World: tables, statements, faults, internal/store/postgres/uow.go; the
      predicate [preserves], which says what an action leaves alone;
    - Samples: concrete databases on which theorems are applied.

    Stores (internal/store/postgres, one file of the source each unless said)
    - BotControlStore with its invariant, its theorems in BotControl;
      DialogStore, ThreadStore, PermissionStore, TagStore, PreviewStore,
      VariableStore, MessageStatus, MessageStore (with forwards),
      ReactionStore (reactions and revisions), ExternalStore, Outbox; Paging:
      utils.go; References: reference_store.go with internal/service/reference_cache.go.

    Queries (internal/store/query_object)
    - Paginator: the keyset paginator; QueryObject: the base query object with
      fields, sorts, joins and windows; ThreadQueries: the queries of threads
      and left memberships; MessageView: the view of messages and its columns;
      HistoryQueries: the queries of the history.

    Services (internal/service)
    - Permissions, TagService, StatusService, Variables, Previews, Commands,
      TypingService, MediaProcessor: the file of the same subject;
    - ControlEvents, BotFlow, Members, DirectThread: thread_manager.go, in
      this order the control events, the hand-over between bots and operators,
      the membership operations, the direct threads; ThreadReads: its reads;
    - MessageService, MessageActions: message.go and message_forward.go with
      guards and dto, the sends first, then the operations on messages that
      exist, then the press of a button;
    - History: message_history.go and its enricher with file links;
    - Providers: providers_adapter.go and reaction_capability.go.

    Catching up and handlers
    - Journal: internal/adapter/journal; Updates: handler/grpc/updates.go;
    - HistoryMapper, ThreadMapper, Handlers: the handlers of
      internal/handler/grpc for threads, variables, tags and history, with
      their mappers; MessageHandlers: those of messages, permissions and
      previews.

    Publication
    - Relay: internal/adapter/pubsub/{forwarder,subscriber}.go with the cleanup
      of postgres/outbox.go, a step relation over the rows, the progress of the
      subscriber and the broker;
    - Leader: infra/discovery/consul/leader.go, a step relation over the nodes
      and the lock service; a node relays between the start of its term and the
      cancellation of its context, which is when Relay takes steps.

    Whole system
    - Invariant: [db_wf] over all tables and how each table change keeps it;
      Safety, ServiceSafety: [keeps], the invariant on every path of every
      store method and service call; System: the 35 state-changing calls of
      the services as a step relation ([service_call], [run_call],
      [service_step]), with the invariant theorem and a conversation run by it; Atomicity: failed calls;
      Seats, MessageFacts, HistoryFacts: lemmas shared by the theorems; the
      files named ...Rules: the theorems on one component.

    ** What is shown

    - Invariants.  Any sequence of calls, failed ones and faults included, keeps
      the database well formed: a thread is controlled only by a bot of its
      stack or its owner bot, a contact is active at most once in a thread,
      every dialog has its rights and its title, numbers of messages do not
      repeat ([service_invariant]); the reads that decide permissions then never
      fail on the data ([reachable_reads_succeed]).  Unread counters stay exact
      ([unread_counters_exact]), a contact has one unrevoked preview of a thread
      ([previews_at_most_one]), the stack is a stack ([bot_control_reachable]).
    - Atomicity.  A call that fails at any point changes no table, sends
      nothing and leaves no transaction open ([failed_call_changes_nothing],
      [failed_send_leaves_thread]).
    - Authorisation.  Who may add, transfer and remove members, change rights,
      delete messages, press a button; what searches show ([AddMember_authorized],
      [RemoveMember_authorized], [UpdatePermissions_no_escalation],
      [DeleteMessages_exactly_own], [SearchMessages_scope],
      [SearchThreadsFor_own], [GetUpdates_for_members]).
    - Functional behaviour of each operation ([SendText_stores_once],
      [EditMessage_appends], [SetReaction_last_wins], [EnsureDirectThread_creates],
      [SendInteractiveCallback_once], and per component many that are not
      among the named properties, as [Publish_spec], [EnrichedSearch_links],
      [GetCounters_add_up], [AddMember_person], [Transfer_person],
      [Complete_hands_on], [SaveSystemMessage_numbers]); a keyboard that uses
      an id twice is refused, any other is passed on as it is
      ([SendInteractiveHandler_buttons]) and reaches the provider so
      ([keyboard_reaches_provider]).
    - Refinement and equivalence.  Receipts against the specification of a
      monotone horizon ([MarkRead_refines], [MarkDelivered_monotone]); the
      condition of a cursor against the order of rows
      ([cursorPredicate_lexicographic]); LIKE patterns against containment
      ([LikeContains_literal]).
    - Pages.  Keyset pages tile the rows, lead back, and surround a row
      ([walk_tiles], [next_then_prev], [around_window]); the history is such
      pages of what the request selects ([Search_pages]).
    - Catching up.  A committed change is served to every contact it marked
      ([published_change_served]), an answer stays within its budget or says to
      reload ([GetUpdates_within_budget]), retention ends, removes the old rows
      and remembers how far ([Cleanup_trims]), cursors read back
      ([cursor_roundtrip]), and exactly the events of a thread are journaled
      ([ProjectEvent_journaled]).
    - External messengers.  Every external peer but the sender is told of every
      message, whatever fails ([SendMessage_reaches_every_peer]); reactions go
      to the gates that have the message and may show them
      ([SendReaction_forwards]), under the id the gate gave its copy
      ([reactions_name_the_copy]).
    - Publication.  No committed event is lost between the outbox and the
      broker, through failures, repetitions and cleanups
      ([relay_loses_nothing]); the outbox drains while dead letters can be
      published ([relay_drains]); cleanup takes only what every group consumed
      ([Cleanup_removes_consumed_only]).  While no session is lost two nodes
      relay at once only when one is giving up the lock
      ([relays_overlap_only_in_release]); a node that lost it steps down at its
      next read of the key ([lost_leader_steps_down]).

    ** Behaviour worth knowing

    The model follows the code, also where the code does not do what its
    comments or tests say.  Theorems and examples that show it include
    [UpdatePermissions_react_refused], [UpdatePermissions_target_mismatch],
    [UpdatePermissions_trusted], [RemoveMember_seats], [ensureBotControl_spec],
    [search_pages_show] (thread pages do not tile when their size is not 20),
    [dedupReadReceipts_best], [list_pages], [without_id_starts_over],
    [overwritten_mark_loses_change], [preview_duration_wraps] and
    [overlap_reached] (two nodes relaying at once).

    ** Limits

    - Two transactions never interleave in the model.  The services take the
      row lock of the thread first ([LockForUpdate]), but read the actors of a
      call before their transaction; a change between the two is not modelled.
      Transactions still in flight appear in the journal reads, through the
      horizon.
    - Rows without ORDER BY come in the order of insertion, sets of Go in the
      order of their first use.  Text is valid UTF-8 without NUL; unless an
      order is a parameter it is compared bytewise.  JSON columns are returned
      as they were written; coordinates keep their digits.
    - Times are numbers, the zero time of Go is 0.  A uuid that does not parse
      reads as the nil one where the source ignores the error.
    - Requests and dereferenced peers are not nil pointers, unless the source
      handles that; where it dereferences nil the model throws
      [nil_dereference].
    - Without a providers adapter nothing is sent.  Logging, metrics, tracing
      and time limits have no counterpart.
    - The goroutines of the providers adapter run one after the other, in any
      order; the relay stops taking messages with the cancellation of its
      context.  A subscriber reads no transaction that could be followed by an
      older one, and its progress is a step of its own, lost or not.
    - Not modelled, as transport, start-up or code without a caller: the
      clients of other services, the publishers and timers, the query object
      and stores of direct settings, whose operations end in a panic or nobody
      calls, the deletion of a thread, the text of SQL statements, the JSON of
      events, configuration, wiring and generated code. *)

From stdpp Require Export base decidable list gmap strings pretty numbers sorting.
#[export] Set Default Goal Selector "!".

(** ** Identifiers and clocks

    A [uuid.UUID] is a 128-bit number compared bytewise (big endian), which is
    the order of [N]; [uuid.Nil] is zero.  A [time.Time] is a count of
    nanoseconds since the Unix epoch. *)
Definition uuid : Type := N.
Bind Scope N_scope with uuid.
Definition uuid_Nil : uuid := 0%N.
Definition Time : Type := Z.

#[export] Instance uuid_eq_dec : EqDecision uuid := N.eq_dec.
#[export] Instance uuid_countable : Countable uuid := N_countable.
#[export] Instance uuid_inhabited : Inhabited uuid := populate uuid_Nil.

(** [t.UnixMilli()] of the Go standard library: the millisecond containing
    [t], rounded towards minus infinity. *)
Definition UnixMilli (t : Time) : Z := (t `div` 1000000)%Z.

(** [int32(x)] truncates to 32 bits, two's complement. *)
Definition to_int32 (x : Z) : Z :=
  ((x + 2147483648) `mod` 4294967296 - 2147483648)%Z.

(** ** Errors

    The constructors of [webitel-go-kit/pkg/errors] the program uses, with the
    optional gRPC code given by [errors.WithCode]. *)
Inductive code :=
  | CodeUnset
  | CodeInvalidArgument
  | CodeNotFound
  | CodeAlreadyExists
  | CodeForbidden
  | CodeFailedPrecondition
  | CodeInternal.

#[export] Instance code_eq_dec : EqDecision code.
Proof. solve_decision. Defined.

Inductive error := MkError (e_code : code) (e_msg : string) (e_cause : option error).

Definition Code (e : error) : code := let 'MkError c _ _ := e in c.
Definition errors_New (msg : string) : error := MkError CodeUnset msg None.
Definition InvalidArgument (msg : string) : error := MkError CodeInvalidArgument msg None.
Definition NotFound (msg : string) : error := MkError CodeNotFound msg None.
Definition Forbidden (msg : string) : error := MkError CodeForbidden msg None.
Definition Internal (msg : string) : error := MkError CodeInternal msg None.
Definition WithCode (c : code) (e : error) : error :=
  let 'MkError _ m k := e in MkError c m k.
Definition WithCause (cause : error) (e : error) : error :=
  let 'MkError c m _ := e in MkError c m (Some cause).

Inductive result (A : Type) : Type :=
  | OK (a : A)
  | Err (e : error).
Arguments OK {A} a.
Arguments Err {A} e.

Definition is_ok {A} (r : result A) : bool :=
  match r with OK _ => true | Err _ => false end.

#[export] Instance result_ret : MRet result := fun A => OK.
#[export] Instance result_bind : MBind result := fun A B f r =>
  match r with OK a => f a | Err e => Err e end.
#[export] Instance result_fmap : FMap result := fun A B f r =>
  match r with OK a => OK (f a) | Err e => Err e end.

(** ** The service monad: explicit state passing with Go-style errors

    A computation receives the world and gives a result and the world it
    leaves.  An error stops the computation but keeps the effects made so far:
    undoing them is the business of a transaction, not of the monad. *)
Section service_monad.
Context {W : Type}.

Definition M (A : Type) : Type := W -> result A * W.

Definition throw {A} (e : error) : M A := fun w => (Err e, w).
Definition get : M W := fun w => (OK w, w).
Definition gets {A} (f : W -> A) : M A := fun w => (OK (f w), w).
Definition modify (f : W -> W) : M unit := fun w => (OK tt, f w).
Definition of_result {A} (r : result A) : M A := fun w => (r, w).

(** [catch m] hands the error of [m] over as a value, the way Go code that
    logs [err] and goes on does. *)
Definition catch {A} (m : M A) : M (result A) := fun w =>
  let '(r, w') := m w in (OK r, w').
End service_monad.
Arguments M W A : clear implicits.

#[export] Instance M_ret {W} : MRet (M W) := fun A a w => (OK a, w).
#[export] Instance M_bind {W} : MBind (M W) := fun A B f m w =>
  match m w with
  | (OK a, w') => f a w'
  | (Err e, w') => (Err e, w')
  end.
#[export] Instance M_fmap {W} : FMap (M W) := fun A B f m w =>
  match m w with
  | (OK a, w') => (OK (f a), w')
  | (Err e, w') => (Err e, w')
  end.

(** [guard_err b e]: the Go idiom [if b { return e }]. *)
Definition guard_err {W} (b : bool) (e : error) : M W unit :=
  if b then throw e else mret tt.

(** [for _, x := range xs { if err := f(x); err != nil { return err } }] *)
Fixpoint for_each {W A} (f : A -> M W unit) (xs : list A) : M W unit :=
  match xs with
  | [] => mret tt
  | x :: xs' => f x;; for_each f xs'
  end.

Lemma M_bind_unfold {W A B} (m : M W A) (f : A -> M W B) (w : W) :
  mbind f m w = match m w with
                | (OK a, w') => f a w'
                | (Err e, w') => (Err e, w')
                end.
Proof. reflexivity. Qed.

Lemma M_bind_ret_l {W A B} (a : A) (f : A -> M W B) (w : W) :
  mbind f (mret a) w = f a w.
Proof. reflexivity. Qed.

Lemma M_bind_ret_r {W A} (m : M W A) (w : W) : mbind mret m w = m w.
Proof. rewrite M_bind_unfold. by destruct (m w) as [[a|e] w']. Qed.

Lemma M_bind_assoc {W A B C} (m : M W A) (f : A -> M W B) (g : B -> M W C) (w : W) :
  mbind g (mbind f m) w = mbind (fun a => mbind g (f a)) m w.
Proof. rewrite !M_bind_unfold. by destruct (m w) as [[a|e] w']. Qed.

(** A successful sequence is a successful first step followed by a successful rest. *)
Lemma M_bind_ok {W A B} (m : M W A) (f : A -> M W B) (w w2 : W) (b : B) :
  mbind f m w = (OK b, w2) <->
  exists a w1, m w = (OK a, w1) /\ f a w1 = (OK b, w2).
Proof.
  rewrite M_bind_unfold. destruct (m w) as [[a|e] w']; split.
  - eauto.
  - by intros (a' & w1 & [= <- <-] & H).
  - done.
  - by intros (a' & w1 & [=] & H).
Qed.

Lemma for_each_cons {W A} (f : A -> M W unit) x xs (w : W) :
  for_each f (x :: xs) w = mbind (fun _ => for_each f xs) (f x) w.
Proof. reflexivity. Qed.

(** Running the primitive computations. *)
Lemma run_ret {W A} (a : A) (w : W) : (mret a : M W A) w = (OK a, w).
Proof. reflexivity. Qed.
Lemma run_throw {W A} e (w : W) : (throw e : M W A) w = (Err e, w).
Proof. reflexivity. Qed.
Lemma bind_ret {W A B} (a : A) (k : A -> M W B) (w : W) : mbind k (mret a) w = k a w.
Proof. reflexivity. Qed.
Lemma bind_throw {W A B} e (k : A -> M W B) (w : W) : mbind k (throw e) w = (Err e, w).
Proof. reflexivity. Qed.
Lemma bind_gets {W A B} (f : W -> A) (k : A -> M W B) (w : W) : mbind k (gets f) w = k (f w) w.
Proof. reflexivity. Qed.
Lemma bind_modify {W B} (f : W -> W) (k : unit -> M W B) (w : W) : mbind k (modify f) w = k tt (f w).
Proof. reflexivity. Qed.

Lemma run_gets {W A} (f : W -> A) (w : W) : gets f w = (OK (f w), w).
Proof. reflexivity. Qed.
Lemma run_modify {W} (f : W -> W) (w : W) : modify f w = (OK tt, f w).
Proof. reflexivity. Qed.

Create HintDb run discriminated.
#[export] Hint Rewrite @run_ret @run_throw @run_gets @run_modify @bind_ret @bind_throw @bind_gets @bind_modify : run.

(** [run in H]: executes the primitive steps of the run in [H]. *)
Tactic Notation "run" "in" hyp(H) :=
  repeat (progress (autorewrite with run in H; cbv beta in H)).
Tactic Notation "run" := repeat (progress (autorewrite with run; cbv beta)).

(** ** Automation

    [step_ok H] takes a successful monadic run apart into its steps;
    [break H] cases on the innermost scrutinee. *)
Create HintDb svc.

Ltac step_ok H :=
  lazymatch type of H with
  | mbind _ _ _ = (OK _, _) =>
      let a := fresh "a" in let w := fresh "w" in
      let H1 := fresh "Hs" in
      apply M_bind_ok in H as (a & w & H1 & H)
  end.

Ltac break_hyp :=
  match goal with
  | H : context [ match ?x with _ => _ end ] |- _ =>
      lazymatch x with
      | context [ match _ with _ => _ end ] => fail
      | _ => let E := fresh "E" in destruct x eqn:E; simplify_eq/=
      end
  end.

Ltac break_goal :=
  match goal with
  | |- context [ match ?x with _ => _ end ] =>
      lazymatch x with
      | context [ match _ with _ => _ end ] => fail
      | _ => let E := fresh "E" in destruct x eqn:E; simplify_eq/=
      end
  end.

(** ** Option helpers: pointers of the source *)
Definition opt_eqb (a b : option uuid) : bool := bool_decide (a = b).

(** [COALESCE(a, b)] of SQL. *)
Definition coalesce {A} (a b : option A) : option A :=
  match a with Some _ => a | None => b end.

Lemma coalesce_None_r {A} (a : option A) : coalesce a None = a.
Proof. by destruct a. Qed.

(** ** Tables: lists of rows in insertion order *)

(** The first row that satisfies [P], as [LIMIT 1] returns it. *)
Fixpoint find_first {A} (P : A -> bool) (l : list A) : option A :=
  match l with
  | [] => None
  | x :: l' => if P x then Some x else find_first P l'
  end.

(** [UPDATE ... SET f WHERE P]. *)
Definition update_where {A} (P : A -> bool) (f : A -> A) (l : list A) : list A :=
  (fun x => if P x then f x else x) <$> l.

(** [DELETE ... WHERE P]. *)
Definition delete_where {A} (P : A -> bool) (l : list A) : list A :=
  List.filter (fun x => negb (P x)) l.

(** [SELECT ... WHERE P]. *)
Definition select_where {A} (P : A -> bool) (l : list A) : list A := List.filter P l.

(** The row with the largest key, the first one among equals
    ([ORDER BY key DESC LIMIT 1]). *)
Fixpoint max_by {A} (key : A -> Z) (l : list A) : option A :=
  match l with
  | [] => None
  | x :: l' =>
      match max_by key l' with
      | None => Some x
      | Some y => if (key x <? key y)%Z then Some y else Some x
      end
  end.

Lemma find_first_Some {A} (P : A -> bool) l x :
  find_first P l = Some x -> x ∈ l /\ P x = true.
Proof.
  induction l as [|y l IH]; simpl; [done|].
  destruct (P y) eqn:E; [intros [= ->]; split; [left|done] |].
  intros [??]%IH. split; [by right|done].
Qed.

Lemma find_first_None {A} (P : A -> bool) l :
  find_first P l = None <-> (forall x, x ∈ l -> P x = false).
Proof.
  induction l as [|y l IH]; simpl.
  { split; [intros _ x Hx; by apply not_elem_of_nil in Hx | done]. }
  destruct (P y) eqn:E.
  - split; [done|]. intros H. specialize (H y (list_elem_of_here _ _)). congruence.
  - rewrite IH. split.
    + intros H x [->|Hx]%elem_of_cons; auto.
    + intros H x Hx. apply H. by right.
Qed.

Lemma elem_of_select {A} (P : A -> bool) l x :
  x ∈ select_where P l <-> x ∈ l /\ P x = true.
Proof. unfold select_where. by rewrite !list_elem_of_In, filter_In. Qed.

Lemma elem_of_delete {A} (P : A -> bool) l x :
  x ∈ delete_where P l <-> x ∈ l /\ P x = false.
Proof.
  unfold delete_where. rewrite !list_elem_of_In, filter_In.
  by rewrite negb_true_iff.
Qed.

Lemma elem_of_update {A} (P : A -> bool) f l y :
  y ∈ update_where P f l <->
  exists x, x ∈ l /\ y = (if P x then f x else x).
Proof. unfold update_where. rewrite list_elem_of_fmap. naive_solver. Qed.

Lemma update_where_length {A} (P : A -> bool) f (l : list A) :
  length (update_where P f l) = length l.
Proof. apply length_fmap. Qed.

Lemma update_where_none {A} (P : A -> bool) f (l : list A) :
  (forall x, x ∈ l -> P x = false) -> update_where P f l = l.
Proof.
  induction l as [|x l IH]; intros H; [done|]. unfold update_where in *. simpl.
  rewrite (H x) by left. f_equal. apply IH. intros y Hy. apply H. by right.
Qed.

(** A projection the update leaves alone is unchanged on the whole table. *)
Lemma update_where_proj {A B} (g : A -> B) (P : A -> bool) f (l : list A) :
  (forall x, g (f x) = g x) -> g <$> update_where P f l = g <$> l.
Proof.
  intros H. unfold update_where. rewrite <- list_fmap_compose.
  apply list_fmap_ext. intros i x _. simpl. destruct (P x); auto.
Qed.

Lemma max_by_elem {A} (key : A -> Z) l x : max_by key l = Some x -> x ∈ l.
Proof.
  revert x. induction l as [|y l IH]; simpl; intros x; [done|].
  destruct (max_by key l) as [z|] eqn:E.
  - destruct (key y <? key z)%Z; intros [= <-]; [right; auto|left].
  - intros [= <-]. left.
Qed.

Lemma max_by_None {A} (key : A -> Z) l : max_by key l = None <-> l = [].
Proof.
  destruct l as [|y l]; simpl; [done|].
  split; [|done]. destruct (max_by key l); [case_match|]; done.
Qed.

Lemma max_by_ge {A} (key : A -> Z) l x y :
  max_by key l = Some x -> y ∈ l -> (key y <= key x)%Z.
Proof.
  revert x. induction l as [|z l IH]; simpl; intros x; [done|].
  destruct (max_by key l) as [u|] eqn:E; intros Hx [->|Hy]%elem_of_cons.
  - destruct (Z.ltb_spec (key z) (key u)); simplify_eq; lia.
  - specialize (IH u eq_refl Hy).
    destruct (Z.ltb_spec (key z) (key u)); simplify_eq; lia.
  - simplify_eq. lia.
  - apply max_by_None in E as ->. by apply not_elem_of_nil in Hy.
Qed.

(** Appending a row with a strictly larger key makes it the maximum. *)
Lemma max_by_app_gt {A} (key : A -> Z) l x :
  (forall y, y ∈ l -> (key y < key x)%Z) -> max_by key (l ++ [x]) = Some x.
Proof.
  induction l as [|z l IH]; simpl; intros H; [done|].
  rewrite IH; [|intros y Hy; apply H; by right].
  assert (key z < key x)%Z by (apply H; left).
  destruct (Z.ltb_spec (key z) (key x)); [done|lia].
Qed.

Lemma select_app {A} (P : A -> bool) l1 l2 :
  select_where P (l1 ++ l2) = select_where P l1 ++ select_where P l2.
Proof. unfold select_where. apply List.filter_app. Qed.

Lemma delete_app {A} (P : A -> bool) l1 l2 :
  delete_where P (l1 ++ l2) = delete_where P l1 ++ delete_where P l2.
Proof. unfold delete_where. apply List.filter_app. Qed.

Lemma delete_where_none {A} (P : A -> bool) (l : list A) :
  (forall x, x ∈ l -> P x = false) -> delete_where P l = l.
Proof.
  induction l as [|x l IH]; intros H; [done|]. unfold delete_where in *. simpl.
  rewrite (H x) by left. simpl. f_equal. apply IH. intros y Hy. apply H. by right.
Qed.

Lemma filter_all {A} (P : A -> bool) (l : list A) :
  (forall x, x ∈ l -> P x = true) -> List.filter P l = l.
Proof.
  induction l as [|x l IH]; intros H; [done|]. simpl.
  rewrite (H x) by left. f_equal. apply IH. intros y Hy. apply H. by right.
Qed.

Lemma find_first_update {A} (Q P : A -> bool) f (l : list A) :
  (forall x, Q (f x) = Q x) ->
  find_first Q (update_where P f l) = (fun x => if P x then f x else x) <$> find_first Q l.
Proof.
  intros H. induction l as [|x l IH]; [done|].
  unfold update_where in *. simpl.
  assert (Q (if P x then f x else x) = Q x) as -> by (destruct (P x); auto).
  destruct (Q x); [done|]. apply IH.
Qed.

Lemma find_first_elem {A} (P : A -> bool) l x :
  x ∈ l -> P x = true -> is_Some (find_first P l).
Proof.
  intros Hx HP. destruct (find_first P l) eqn:E; [done|].
  rewrite find_first_None in E. specialize (E x Hx). congruence.
Qed.

(** With a unique key, a row is the one its key finds. *)
Lemma find_first_key {A K} `{EqDecision K} (key : A -> K) (l : list A) x :
  NoDup (key <$> l) -> x ∈ l -> find_first (fun y => bool_decide (key y = key x)) l = Some x.
Proof.
  induction l as [|y l IH]; simpl; [by intros _ ?%not_elem_of_nil|].
  intros [Hy Hnd]%NoDup_cons [->|Hx]%elem_of_cons; [by rewrite bool_decide_true|].
  rewrite bool_decide_false; [auto|].
  intros Heq. apply Hy. rewrite Heq. by apply list_elem_of_fmap_2.
Qed.

Lemma select_delete_comm {A} (P Q : A -> bool) l :
  select_where P (delete_where Q l) = delete_where Q (select_where P l).
Proof.
  unfold select_where, delete_where. induction l as [|x l IH]; [done|]. simpl.
  destruct (Q x) eqn:EQ, (P x) eqn:EP; simpl; rewrite ?EP, ?EQ; simpl; congruence.
Qed.

Lemma NoDup_fmap_filter {A B} (g : A -> B) (P : A -> bool) l :
  NoDup (g <$> l) -> NoDup (g <$> List.filter P l).
Proof.
  induction l as [|x l IH]; simpl; [done|].
  intros [Hx Hnd]%NoDup_cons. destruct (P x); [|auto].
  simpl. apply NoDup_cons. split; [|auto].
  rewrite list_elem_of_fmap. intros (y & Hy & Hin). apply Hx. rewrite Hy.
  apply list_elem_of_fmap_2.
  apply list_elem_of_In, filter_In in Hin as [Hin _]. by apply list_elem_of_In.
Qed.

Lemma NoDup_fmap_snoc {A B} (g : A -> B) l x :
  NoDup (g <$> l) -> g x ∉ g <$> l -> NoDup (g <$> (l ++ [x])).
Proof.
  intros Hnd Hx. rewrite fmap_app. apply NoDup_app.
  split; [done|split; [|apply NoDup_singleton]].
  intros y Hy Hy'. simpl in Hy'. by apply list_elem_of_singleton in Hy' as ->.
Qed.

(** Rows with the same value of a unique key are the same row. *)
Lemma NoDup_fmap_inj {A B} (g : A -> B) l x y :
  NoDup (g <$> l) -> x ∈ l -> y ∈ l -> g x = g y -> x = y.
Proof.
  induction l as [|z l IH]; [by intros _ ?%not_elem_of_nil|].
  rewrite fmap_cons. intros [Hz Hnd]%NoDup_cons [->|Hx]%elem_of_cons [->|Hy]%elem_of_cons Heq; auto.
  - exfalso. apply Hz. rewrite Heq. by apply list_elem_of_fmap_2.
  - exfalso. apply Hz. rewrite <- Heq. by apply list_elem_of_fmap_2.
Qed.

#[export] Hint Resolve update_where_length : svc.
#[export] Hint Rewrite @elem_of_select @elem_of_delete @elem_of_update : svc.
