(* ===== verification/Domain.v ===== *)
(** * Domain: peers, thread members, roles, permissions, bot-control records

    The data of internal/domain/shared/base.go and of
    internal/domain/model/{thread,thread_dialog,thread_permission,bot_control,
    thread_tag,thread_ref,commands,message_status,pagination}.go with their
    methods.  Pointers are options; entries of slices of pointers are never
    nil here, since every such slice is built by a store's row mapper. *)
From S2P Require Import Prelude.
#[local] Open Scope Z_scope.

(** ** shared/base.go: peers *)
Module Shared.
Definition PeerContact : Z := 1.
Definition PeerGroup : Z := 2.
Definition PeerChannel : Z := 3.
Definition PeerThread : Z := 4.

Record ViaInfo := MkViaInfo { via_ID : string; via_Name : string; via_Type : string }.

Record Identity := MkIdentity {
  idn_Issuer : string; idn_Name : string; idn_ChatName : string;
  idn_ViaInfo : option ViaInfo }.

Record Peer := MkPeer {
  peer_ID : uuid; peer_Type : Z; peer_Identity : option Identity }.

Definition ResolveContactID (p : Peer) : option uuid :=
  if decide (peer_Type p <> PeerContact) then None else Some (peer_ID p).

Definition ResolveThreadID (p : Peer) : option uuid :=
  if decide (peer_Type p <> PeerThread) then None else Some (peer_ID p).

Definition ResolveVia (p : Peer) : option string :=
  match peer_Identity p with
  | None => None
  | Some identity =>
      match idn_ViaInfo identity with
      | None => None
      | Some v => if decide (via_ID v = "") then None else Some (via_ID v)
      end
  end.

Definition ResolveViaInfo (p : Peer) : option ViaInfo :=
  match peer_Identity p with
  | None => None
  | Some identity => idn_ViaInfo identity
  end.

(** [shared.BaseModel] of a stored row. *)
Record BaseModel := MkBase {
  bm_ID : uuid; bm_DomainID : Z; bm_CreatedAt : Time; bm_UpdatedAt : Time }.

Definition CreatedAtMilliseconds (b : BaseModel) : Z := Z.max (UnixMilli (bm_CreatedAt b)) 0.
Definition UpdatedAtMilliseconds (b : BaseModel) : Z := Z.max (UnixMilli (bm_UpdatedAt b)) 0.

(** [shared.Entity]: a formatting span of a message text (byte offsets). *)
Record Entity := MkEntity {
  ent_Type : string; ent_Offset : Z; ent_Length : Z; ent_Value : string }.
End Shared.

(** ** model/thread_dialog.go: roles *)
Module Role.
Definition UnspecifiedRole : Z := 0.
Definition RoleMember : Z := 1.
Definition RoleAdmin : Z := 2.
Definition RoleSupervisor : Z := 3.
Definition RoleOwner : Z := 4.

(** [ThreadRole.String]. *)
Definition role_String (r : Z) : string :=
  if decide (r = RoleMember) then "ROLE_MEMBER"
  else if decide (r = RoleAdmin) then "ROLE_ADMIN"
  else if decide (r = RoleSupervisor) then "ROLE_SUPERVISOR"
  else if decide (r = RoleOwner) then "ROLE_OWNER"
  else "ROLE_UNSPECIFIED".
End Role.

(** ** model/thread.go: thread kinds (threadkind_string.go) *)
Module Kind.
Definition ThreadUnspecified : Z := 0.
Definition ThreadDirect : Z := 1.
Definition ThreadGroup : Z := 2.
Definition ThreadChannel : Z := 3.

(** [ThreadKind.String]. *)
Definition kind_String (i : Z) : string :=
  if decide (i = ThreadUnspecified) then "ThreadUnspecified"
  else if decide (i = ThreadDirect) then "ThreadDirect"
  else if decide (i = ThreadGroup) then "ThreadGroup"
  else if decide (i = ThreadChannel) then "ThreadChannel"
  else ("ThreadKind(" +:+ pretty i +:+ ")")%string.
End Kind.

(** ** model/thread_permission.go *)
Record ThreadPermissions := MkPerms {
  CanSendMessages : bool;
  CanAddMembers : bool;
  CanRemoveMembers : bool;
  CanChangeMembersPermissions : bool;
  CanChangeThreadInfo : bool;
  CanDeleteMessages : bool;
  CanReactMessages : bool }.

#[export] Instance perms_eq_dec : EqDecision ThreadPermissions.
Proof. solve_decision. Defined.

Record UpdateThreadPermissionRequest := MkUpdatePerm {
  up_InitiatorContactID : option uuid;
  up_TargetMemberID : uuid;
  up_ThreadID : uuid;
  up_CanSendMessages : option bool;
  up_CanAddMembers : option bool;
  up_CanRemoveMembers : option bool;
  up_CanChangeMembersPermissions : option bool;
  up_CanChangeThreadInfo : option bool;
  up_CanDeleteMessages : option bool;
  up_CanReactMessages : option bool }.

(** [model.ThreadPermission]: one stored permission row, as stores return it. *)
Record ThreadPermission := MkThreadPermission {
  tp_Permissions : ThreadPermissions;
  tp_ID : uuid;
  tp_ThreadID : uuid;
  tp_ThreadDialogID : uuid;
  tp_CreatedAt : Time;
  tp_UpdatedAt : Time }.

(** ** model/thread_dialog.go: members of a thread *)
Record ThreadDialogExtended := MkDialogExt {
  tde_ID : uuid;
  tde_DomainID : Z;
  tde_CreatedAt : Time;
  tde_UpdatedAt : Time;
  tde_ContactID : uuid;
  tde_ThreadID : uuid;
  tde_ThreadRole : Z;
  tde_DeletedAt : option Time;
  tde_InvitedBy : option uuid;
  tde_LeaveReason : option string;
  tde_Via : option string;
  tde_QueueID : option Z;
  tde_IsBot : bool;
  tde_AutoLeave : bool;
  tde_Permissions : ThreadPermissions;
  tde_Title : string (** [Settings.Title] *) }.

Record ThreadDialog := MkDialog {
  td_ID : uuid;
  td_DomainID : Z;
  td_CreatedAt : Time;
  td_UpdatedAt : Time;
  td_ContactID : uuid;
  td_ThreadID : uuid;
  td_ThreadRole : Z;
  td_DeletedAt : option Time;
  td_InvitedBy : option uuid;
  td_LeaveReason : option string;
  td_Via : option string;
  td_IsBot : bool;
  td_AutoLeave : bool }.

(** The zero values [ThreadPermissions{}], [ThreadDialogExtended{}] and [ThreadDialog{}]. *)
Definition zero_perms : ThreadPermissions := MkPerms false false false false false false false.
Definition zero_tde : ThreadDialogExtended :=
  MkDialogExt uuid_Nil 0 0 0 uuid_Nil uuid_Nil 0 None None None None None false false zero_perms "".
Definition zero_td : ThreadDialog :=
  MkDialog uuid_Nil 0 0 0 uuid_Nil uuid_Nil 0 None None None None false false.

Record ExternalPeerPair := MkExternalPeer { ep_ContactID : uuid; ep_Via : string }.

#[export] Instance external_peer_eq_dec : EqDecision ExternalPeerPair.
Proof. solve_decision. Defined.

(** [td.Via != nil && *td.Via != ""]. *)
Definition has_via (d : ThreadDialog) : bool :=
  match td_Via d with Some v => negb (bool_decide (v = "")) | None => false end.

(** [*td.Via], with "" where the pointer is nil (only read behind [has_via]). *)
Definition via_of (d : ThreadDialog) : string := default "" (td_Via d).

(** [ThreadDialogs.ExtractExternalPeers]: the first loop collects the gate of
    the thread and the non-bot members, the second addresses the members that
    carry a gate, and a lone non-bot member inherits the gate of the thread. *)
Fixpoint gate_via (ds : list ThreadDialog) : string :=
  match ds with
  | [] => ""
  | d :: ds' => if has_via d then via_of d else gate_via ds'
  end.

Definition nonBots (ds : list ThreadDialog) : list ThreadDialog :=
  List.filter (fun d => negb (td_IsBot d)) ds.

Definition external_of (d : ThreadDialog) : ExternalPeerPair :=
  MkExternalPeer (td_ContactID d) (via_of d).

Definition ExtractExternalPeers (ds : list ThreadDialog) : list ExternalPeerPair :=
  let gateVia := gate_via ds in
  let nb := nonBots ds in
  let external := external_of <$> List.filter has_via nb in
  match external, nb with
  | [], [d] => if decide (gateVia <> "") then [MkExternalPeer (td_ContactID d) gateVia] else []
  | _, _ => external
  end.

Lemma elem_of_nonBots ds d : d ∈ nonBots ds <-> d ∈ ds /\ td_IsBot d = false.
Proof.
  unfold nonBots. rewrite !list_elem_of_In, filter_In.
  by rewrite negb_true_iff.
Qed.

Lemma gate_via_spec ds :
  gate_via ds <> "" -> exists d, d ∈ ds /\ td_Via d = Some (gate_via ds).
Proof.
  induction ds as [|d ds IH]; simpl; [done|].
  destruct (has_via d) eqn:E.
  - intros _. exists d. split; [left|]. unfold has_via, via_of in *.
    by destruct (td_Via d).
  - intros H. destruct (IH H) as (d' & ? & ?). exists d'. split; [by right|done].
Qed.

Lemma has_via_spec d : has_via d = true -> td_Via d = Some (via_of d) /\ via_of d <> "".
Proof.
  unfold has_via, via_of. destruct (td_Via d) as [v|]; [|done].
  simpl. by destruct (bool_decide_reflect (v = "")).
Qed.

(** Every extracted peer is a non-bot member of the thread, addressed through
    a non-empty gate some member of the thread carries. *)
Definition external_peer_ok (ds : list ThreadDialog) (p : ExternalPeerPair) : Prop :=
  (exists d, d ∈ ds /\ td_IsBot d = false /\ td_ContactID d = ep_ContactID p) /\
  ep_Via p <> "" /\
  (exists d, d ∈ ds /\ td_Via d = Some (ep_Via p)).

Lemma external_of_ok ds d :
  d ∈ List.filter has_via (nonBots ds) -> external_peer_ok ds (external_of d).
Proof.
  rewrite list_elem_of_In, filter_In, <- list_elem_of_In.
  intros [[Hin Hb]%elem_of_nonBots [Hv Hne]%has_via_spec].
  split; [|split]; simpl; eauto.
Qed.

(** ** model/bot_control.go *)
Inductive BotControlReason :=
  | ReasonInitial | ReasonTransfer | ReasonCompleted | ReasonRemoved | ReasonClientLeave
  | ReasonHandoff | ReasonAgentTakeover | ReasonAgentHandback | ReasonAgentLeft.

#[export] Instance reason_eq_dec : EqDecision BotControlReason.
Proof. solve_decision. Defined.

(** [string(reason)]. *)
Definition reason_string (r : BotControlReason) : string :=
  match r with
  | ReasonInitial => "initial"
  | ReasonTransfer => "transfer"
  | ReasonCompleted => "completed"
  | ReasonRemoved => "removed"
  | ReasonClientLeave => "client_leave"
  | ReasonHandoff => "handoff"
  | ReasonAgentTakeover => "agent_takeover"
  | ReasonAgentHandback => "agent_handback"
  | ReasonAgentLeft => "agent_left"
  end.

Record BotControlTransition := MkTransition {
  tr_ThreadID : uuid;
  tr_NewMemberID : uuid;
  tr_Reason : BotControlReason;
  tr_TriggeredBy : option uuid }.

Record BotControlStackEntry := MkEntry {
  be_ID : uuid;
  be_ThreadID : uuid;
  be_MemberID : option uuid;
  be_Position : Z;
  be_ContactID : uuid;
  be_DomainID : Z;
  be_AutoLeave : bool }.

(** ** model/thread_tag.go, model/thread_ref.go *)
Record ThreadTag := MkTag {
  tag_ID : uuid; tag_ThreadID : uuid; tag_ContactID : uuid; tag_Tag : string; tag_CreatedAt : Time }.

Record SourceRef := MkSourceRef {
  sr_GateID : string; sr_DomainID : Z; sr_Name : string; sr_Type : string }.
Record QueueRef := MkQueueRef { qr_DomainID : Z; qr_QueueID : Z; qr_Name : string }.
Record QueueInfo := MkQueueInfo { qi_ID : Z; qi_Name : string }.

(** ** model/thread.go: queries and the thread itself *)
Record ResolveThreadQuery := MkResolveQuery {
  rq_From : Shared.Peer; rq_To : Shared.Peer; rq_SendAs : option uuid }.

Definition SendAsPtr (q : option ResolveThreadQuery) : option uuid :=
  match q with
  | None => None
  | Some q =>
      match rq_SendAs q with
      | Some s => if decide (s <> uuid_Nil) then Some s else None
      | None => None
      end
  end.

Record Thread := MkThread {
  thr_ID : uuid;
  thr_DomainID : Z;
  thr_CreatedAt : Time;
  thr_UpdatedAt : Time;
  thr_Kind : Z;
  thr_Subject : string;
  thr_Description : string;
  thr_Owner : uuid;
  thr_Members : list ThreadDialog;
  thr_BotControllerID : option uuid;
  thr_OwnerBotID : option uuid;
  thr_CRMContactID : string }.

Definition thr_set_BotControllerID (v : option uuid) (t : Thread) : Thread :=
  MkThread (thr_ID t) (thr_DomainID t) (thr_CreatedAt t) (thr_UpdatedAt t) (thr_Kind t)
    (thr_Subject t) (thr_Description t) (thr_Owner t) (thr_Members t) v (thr_OwnerBotID t)
    (thr_CRMContactID t).

Definition thr_set_Members (v : list ThreadDialog) (t : Thread) : Thread :=
  MkThread (thr_ID t) (thr_DomainID t) (thr_CreatedAt t) (thr_UpdatedAt t) (thr_Kind t)
    (thr_Subject t) (thr_Description t) (thr_Owner t) v (thr_BotControllerID t) (thr_OwnerBotID t)
    (thr_CRMContactID t).

(** [Thread.CreatedAtUnix], [Thread.UpdatedAtUnix]. *)
Definition CreatedAtUnix (t : Thread) : Z := Z.max (UnixMilli (thr_CreatedAt t)) 0.
Definition UpdatedAtUnix (t : Thread) : Z := Z.max (UnixMilli (thr_UpdatedAt t)) 0.

(** ** model/message_status.go *)
Module Delivery.
Definition StatusUnspecified : Z := 0.
Definition StatusSent : Z := 1.
Definition StatusDelivered : Z := 2.
Definition StatusRead : Z := 3.
Definition StatusFailed : Z := 4.

Definition status_String (s : Z) : string :=
  if decide (s = StatusSent) then "sent"
  else if decide (s = StatusDelivered) then "delivered"
  else if decide (s = StatusRead) then "read"
  else if decide (s = StatusFailed) then "failed"
  else "unspecified".

(** [MessageDeliveryStatus.Valid]: what an external provider may report. *)
Definition Valid (s : Z) : bool :=
  if decide (s = StatusDelivered) then true
  else if decide (s = StatusRead) then true
  else if decide (s = StatusFailed) then true
  else false.
End Delivery.
