(* ===== verification/Events.v ===== *)
(** * Events: the domain events of internal/domain/event

    One record per event, the sum [Event] of the values an [event.Outboxer]
    can hold, and the methods every event has: type, version, recipient,
    topic, and the journal interface ([JournalEvent]) used by the outbox. *)
From S2P Require Import Prelude Domain.
#[local] Open Scope Z_scope.

(** A [float64] is carried as its IEEE bit pattern and never computed with. *)
Definition float64 : Type := Z.

(** Values of a Go [map[string]any] used as metadata. *)
Inductive any :=
  | AnyNil
  | AnyBool (b : bool)
  | AnyInt (z : Z)
  | AnyString (s : string)
  | AnyUUID (u : uuid)
  | AnyRole (r : Z)
  | AnyEntities (es : list Shared.Entity)
  | AnyRaw (json : string).
Abbreviation metadata := (gmap string any).
Abbreviation headers := (gmap string string).

(** ** Payloads *)
Record ThreadMember := MkMember {
  ev_member_ID : option uuid; ev_member_ContactID : uuid;
  ev_member_Role : Z; ev_member_IsBot : bool }.

Record MemberContact := MkMemberContact {
  mc_ID : uuid; mc_Sub : string; mc_Iss : string; mc_Name : string;
  mc_Username : string; mc_Type : string; mc_IsBot : bool }.

(** [event.Member]; the id is the textual form of an uuid or "" ([None]). *)
Record Member := MkEvMember {
  em_ID : option uuid; em_Contact : option MemberContact; em_Role : string }.

Record ImagePayload := MkImagePayload {
  ip_FileID : Z; ip_Mime : string; ip_Name : string; ip_URL : string }.
Record DocumentPayload := MkDocumentPayload {
  dp_FileID : Z; dp_Mime : string; dp_Name : string; dp_Size : Z; dp_URL : string }.
Record LocationPayload := NewLocationPayload {
  lp_Latitude : float64; lp_Longitude : float64; lp_Address : option string; lp_Name : option string }.
Record ContactPayload := NewContactPayload {
  cp_Name : option string; cp_Phone : option string; cp_Email : option string }.
Record SystemPayload := NewSystemPayload { sp_Type : string; sp_Metadata : metadata }.

Record EvKeyboardButton := MkEvButton {
  eb_ID : string; eb_Label : string; eb_Metadata : metadata; eb_Type : string;
  eb_URL : option string; eb_Callback : option string; eb_Request : option string }.
Record EvKeyboardRowWithSection := MkEvSection {
  es_Section : string; es_Buttons : list EvKeyboardButton }.
Record EvKeyboardListReply := MkEvListReply {
  el_MainButtonTitle : string; el_Sections : list EvKeyboardRowWithSection }.
Record InteractivePayload := MkInteractivePayload {
  xp_SingleUse : bool;
  xp_Markup : option (list (list EvKeyboardButton));
  xp_ListReply : option EvKeyboardListReply }.

Record ReplyToPayload := MkReplyToPayload {
  rp_MessageID : uuid; rp_SenderID : uuid; rp_Type : string; rp_Body : string;
  rp_CreatedAt : Z;
  rp_AttachmentKind : option string; rp_AttachmentName : option string;
  rp_AttachmentMime : option string; rp_AttachmentAddress : option string;
  rp_IsDeleted : bool }.

Record ForwardOriginPayload := MkForwardOriginPayload {
  fp_Kind : Z; fp_SenderID : option uuid; fp_SenderName : string;
  fp_OriginalSentAt : Z; fp_SourceMessageID : option uuid }.

(** ** Events *)
Record MessageCreated := MkMessageCreated {
  mcr_MessageID : uuid; mcr_ThreadID : uuid; mcr_DomainID : Z;
  mcr_From : option ThreadMember; mcr_To : list ThreadMember;
  mcr_SendID : string; mcr_Body : string; mcr_Type : string; mcr_OccurredAt : Time;
  mcr_Metadata : metadata;
  mcr_Images : list ImagePayload; mcr_Documents : list DocumentPayload;
  mcr_Location : option LocationPayload; mcr_Contact : option ContactPayload;
  mcr_Interactive : option InteractivePayload; mcr_System : option SystemPayload;
  mcr_BotControllerMemberID : option uuid; mcr_ReplyTo : option ReplyToPayload;
  mcr_ForwardOrigin : option ForwardOriginPayload; mcr_Seq : Z;
  mcr_External : headers }.

Record MessageEdited := MkMessageEdited {
  med_MessageID : uuid; med_ThreadID : uuid; med_DomainID : Z;
  med_EditedBy : option ThreadMember; med_To : list ThreadMember;
  med_Body : string; med_Type : string; med_Revision : Z;
  med_CreatedAt : Time; med_OccurredAt : Time; med_Metadata : metadata;
  med_External : headers }.

Record MessageDeleted := MkMessageDeleted {
  mdl_MessageID : uuid; mdl_ThreadID : uuid; mdl_DomainID : Z;
  mdl_DeletedBy : option Member; mdl_To : list ThreadMember; mdl_Type : string;
  mdl_CreatedAt : Time; mdl_OccurredAt : Time; mdl_External : headers }.

Record ReactionAggregate := MkReactionAggregate {
  ra_Emoji : string; ra_Count : Z; ra_ReactorIDs : list uuid; ra_LastReactedAt : Z }.

Record EvReaction := MkEvReaction {
  mre_MessageID : uuid; mre_ThreadID : uuid; mre_DomainID : Z;
  mre_Reactor : option ThreadMember; mre_To : list ThreadMember; mre_Emoji : string;
  mre_Action : string; mre_OccurredAt : Time; mre_SendID : string;
  mre_Reactions : list ReactionAggregate; mre_External : headers }.

(** [MemberJoined] and [MemberLeft] have the same fields. *)
Record MemberMoved := MkMemberMoved {
  mm_MessageID : uuid; mm_ThreadID : uuid; mm_DomainID : Z; mm_ContactID : uuid;
  mm_OccurredAt : Time; mm_System : SystemPayload; mm_Participants : list uuid }.

Record Recipient := MkRecipient { rcp_ID : uuid; rcp_Name : string }.

Record ThreadCreated := MkThreadCreated {
  tc_ID : uuid; tc_DomainID : Z; tc_CreatedAt : Time; tc_Subject : string;
  tc_Recipient : Recipient; tc_Kind : string; tc_Members : list ThreadMember }.

Record ThreadUpdated := MkThreadUpdated {
  tu_ThreadID : uuid; tu_DomainID : Z; tu_UpdatedBy : uuid; tu_CRMContactID : string;
  tu_OccurredAt : Time; tu_Participants : list uuid }.

Record ThreadTagsChanged := MkThreadTagsChanged {
  ttc_ThreadID : uuid; ttc_DomainID : Z; ttc_ContactID : uuid; ttc_Tags : list string;
  ttc_OccurredAt : Time; ttc_Participants : list uuid }.

Record BotControlAgent := MkAgent { ag_MemberID : uuid; ag_Sub : option Z }.

Record BotControlGranted := MkGranted {
  bg_ThreadID : uuid; bg_DomainID : Z; bg_MemberID : uuid; bg_ContactID : uuid;
  bg_Position : Z; bg_AutoLeave : bool; bg_Reason : string; bg_IsResume : bool;
  bg_PreviousPosition : option Z; bg_PreviousMemberID : option uuid;
  bg_Sub : option Z; bg_ReleasedSub : option Z; bg_Agents : list BotControlAgent;
  bg_OccurredAt : Time }.

Record BotControlReleased := MkReleased {
  br_ThreadID : uuid; br_DomainID : Z; br_MemberID : uuid; br_Position : Z;
  br_Reason : string; br_NextMemberID : option uuid; br_Sub : option Z;
  br_OccurredAt : Time }.

(** An [error] map of a failed delivery; [None] is the nil map. *)
Record MessageStatusChanged := MkStatusChanged {
  msc_ThreadID : uuid; msc_DomainID : Z; msc_MemberID : uuid; msc_Member : option ThreadMember;
  msc_MessageIDs : list uuid; msc_UpToSeq : Z; msc_UnreadCount : option Z; msc_Status : string;
  msc_Via : string; msc_Error : option metadata; msc_OccurredAt : Time; msc_Participants : list uuid }.

(** [event.Typing] is not an outbox event: it is published straight to the broker. *)
Record Typing := MkTyping {
  ty_ThreadID : uuid; ty_MemberID : uuid; ty_Role : Z; ty_TimeoutMS : Z; ty_OccurredAt : Time;
  ty_To : list uuid; ty_DomainID : Z; ty_PreviewText : string; ty_PreviewVisibleTo : list uuid }.
Definition TypingVersion : string := "v1".

(** event/interactive_callback.go *)
Record InteractiveCallbackPayload := MkCallbackPayload {
  icp_ReactedBy : Shared.Peer; icp_InReplyTo : uuid; icp_ButtonCode : string; icp_CallbackData : string;
  icp_ReactedAt : Time; icp_DomainID : Z; icp_ThreadID : uuid; icp_Receiver : uuid;
  icp_metadata : headers }.

Inductive Event :=
  | EvMessageCreated (e : MessageCreated)
  | EvMessageEdited (e : MessageEdited)
  | EvMessageDeleted (e : MessageDeleted)
  | EvMessageReaction (e : EvReaction)
  | EvMessageStatus (e : MessageStatusChanged)
  | EvMemberJoined (e : MemberMoved)
  | EvMemberLeft (e : MemberMoved)
  | EvThreadCreated (e : ThreadCreated)
  | EvThreadUpdated (e : ThreadUpdated)
  | EvThreadTagsChanged (e : ThreadTagsChanged)
  | EvBotControlGranted (e : BotControlGranted)
  | EvBotControlReleased (e : BotControlReleased)
  | EvInteractiveCallback (e : InteractiveCallbackPayload).

Definition MessageVersionV1 : string := "v1".
Definition Version (e : Event) : string := MessageVersionV1.

Definition EventType (e : Event) : string :=
  match e with
  | EvMessageCreated _ => "im.message.created"
  | EvMessageEdited _ => "im.message.edited"
  | EvMessageDeleted _ => "im.message.deleted"
  | EvMessageReaction _ => "im.message.reaction"
  | EvMessageStatus _ => "im.message.status"
  | EvMemberJoined _ => "im.thread.member.joined"
  | EvMemberLeft _ => "im.thread.member.left"
  | EvThreadCreated _ => "im.thread.created"
  | EvThreadUpdated _ => "im.thread.thread.updated"
  | EvThreadTagsChanged _ => "im.thread.tags.changed"
  | EvBotControlGranted _ => "im.thread.bot.control.granted"
  | EvBotControlReleased _ => "im.thread.bot.control.released"
  | EvInteractiveCallback _ => "reacted"
  end.

(** [e.RecipientID()]: the thread, except for a thread-created event, which is
    addressed to one participant, and a pressed button, addressed to the
    message it belongs to. *)
Definition RecipientID (e : Event) : uuid :=
  match e with
  | EvMessageCreated e => mcr_ThreadID e
  | EvMessageEdited e => med_ThreadID e
  | EvMessageDeleted e => mdl_ThreadID e
  | EvMessageReaction e => mre_ThreadID e
  | EvMessageStatus e => msc_ThreadID e
  | EvMemberJoined e | EvMemberLeft e => mm_ThreadID e
  | EvThreadCreated e => rcp_ID (tc_Recipient e)
  | EvThreadUpdated e => tu_ThreadID e
  | EvThreadTagsChanged e => ttc_ThreadID e
  | EvBotControlGranted e => bg_ThreadID e
  | EvBotControlReleased e => br_ThreadID e
  | EvInteractiveCallback e => icp_InReplyTo e
  end.

(** The journal interface: [None] for the bot-control events and the pressed
    buttons, which are not [JournalEvent]s and never reach the update journal. *)
Definition JournalThreadID (e : Event) : option uuid :=
  match e with
  | EvMessageCreated e => Some (mcr_ThreadID e)
  | EvMessageEdited e => Some (med_ThreadID e)
  | EvMessageDeleted e => Some (mdl_ThreadID e)
  | EvMessageReaction e => Some (mre_ThreadID e)
  | EvMessageStatus e => Some (msc_ThreadID e)
  | EvMemberJoined e | EvMemberLeft e => Some (mm_ThreadID e)
  | EvThreadCreated e => Some (tc_ID e)
  | EvThreadUpdated e => Some (tu_ThreadID e)
  | EvThreadTagsChanged e => Some (ttc_ThreadID e)
  | EvBotControlGranted _ | EvBotControlReleased _ | EvInteractiveCallback _ => None
  end.

(** [JournalSubject]: a contact marked besides the active members. *)
Definition JournalSubject (e : Event) : option uuid :=
  match e with
  | EvMemberJoined e | EvMemberLeft e => Some (mm_ContactID e)
  | EvThreadCreated e => Some (rcp_ID (tc_Recipient e))
  | _ => None
  end.

(** [JournalAudience]: the events private to some contacts. *)
Definition JournalAudience (e : Event) : option (list uuid) :=
  match e with
  | EvThreadTagsChanged e => Some [ttc_ContactID e]
  | _ => None
  end.

(** [event.NewThreadTagsChanged]. *)
Definition NewThreadTagsChanged (now : Time) (threadID contactID : uuid) (domainID : Z)
    (tags : list string) : ThreadTagsChanged :=
  MkThreadTagsChanged threadID domainID contactID tags now [contactID].

Section topics.
(** [uuid.UUID.String] of google/uuid. *)
Context (uuid_string : uuid -> string).

(** [e.Topic()] of the thread events. *)
Definition thread_topic (e : Event) : string :=
  match e with
  | EvMemberJoined m =>
      "im_thread." +:+ uuid_string (mm_ThreadID m) +:+ ".member." +:+
      uuid_string (mm_ContactID m) +:+ ".joined." +:+ Version e
  | EvMemberLeft m =>
      "im_thread." +:+ uuid_string (mm_ThreadID m) +:+ ".member." +:+
      uuid_string (mm_ContactID m) +:+ ".left." +:+ Version e
  | EvThreadCreated _ =>
      "im_thread." +:+ uuid_string (RecipientID e) +:+ ".thread.created." +:+ Version e
  | EvThreadUpdated t =>
      "im_thread." +:+ uuid_string (tu_ThreadID t) +:+ ".thread.updated." +:+ Version e
  | EvThreadTagsChanged t =>
      "im_thread." +:+ uuid_string (ttc_ThreadID t) +:+ ".thread.tags." +:+ Version e
  | EvBotControlGranted b =>
      "im_thread." +:+ uuid_string (bg_ThreadID b) +:+ ".bot.control.granted." +:+ Version e
  | EvBotControlReleased b =>
      "im_thread." +:+ uuid_string (br_ThreadID b) +:+ ".bot.control.released." +:+ Version e
  | _ => ""
  end%string.

(** [messageEventAction] and the topic built by [dispatchMessageEvents]. *)
Definition messageEventAction (e : Event) : string :=
  match e with
  | EvMessageEdited _ => "edited"
  | EvMessageDeleted _ => "deleted"
  | EvMessageReaction _ => "reaction"
  | _ => "created"
  end.

Definition message_topic (e : Event) : string :=
  ("im_message." +:+ uuid_string (RecipientID e) +:+ ".message." +:+
   messageEventAction e +:+ "." +:+ Version e)%string.

(** The topic of dispatchStatusChangeEvents. *)
Definition status_topic (e : Event) : string :=
  ("im_message." +:+ uuid_string (RecipientID e) +:+ ".message.status." +:+ Version e)%string.

Definition TypingTopic (threadID : uuid) : string :=
  ("im_message." +:+ uuid_string threadID +:+ ".typing." +:+ TypingVersion)%string.

(** The topic of dispatchReactionEvents. *)
Definition reaction_topic (e : Event) : string :=
  ("im_message." +:+ uuid_string (RecipientID e) +:+ ".message.reaction." +:+ Version e)%string.

(** [buildMessageCreatedTopic]. *)
Definition buildMessageCreatedTopic (recipientID : uuid) (version : string) : string :=
  ("im_message." +:+ uuid_string recipientID +:+ ".message.created." +:+ version)%string.
End topics.
