(* ===== verification/Message.v ===== *)
(** * Message: the message entity and the events it stages

    internal/domain/model/message.go, message_content.go, message_reaction.go,
    attachments.go, context.go and messages_slice.go.  A method that mutates
    its receiver returns the new value; the contents of the request context
    that reach an event are an argument ([Ctx]). *)
From S2P Require Import Prelude Domain Events.
#[local] Open Scope Z_scope.

(** ** Message types *)
Definition MessageTypeUnknown : Z := 0.
Definition MessageTypeText : Z := 1.
Definition MessageTypeFile : Z := 2.
Definition MessageTypeImage : Z := 3.
Definition MessageTypeSystem : Z := 4.
Definition MessageTypeInteractive : Z := 5.
Definition MessageTypeLocation : Z := 6.
Definition MessageTypeContact : Z := 7.

(** [MessageType.String]: names of the map, "text" outside it. *)
Definition type_String (t : Z) : string :=
  if decide (t = MessageTypeText) then "text"
  else if decide (t = MessageTypeFile) then "document"
  else if decide (t = MessageTypeImage) then "image"
  else if decide (t = MessageTypeSystem) then "system"
  else if decide (t = MessageTypeInteractive) then "interactive"
  else if decide (t = MessageTypeLocation) then "location"
  else if decide (t = MessageTypeContact) then "contact"
  else "text".

(** ** Skip reasons and forward origins *)
Definition MessageSkipUnspecified : Z := 0.
Definition MessageSkipNotFound : Z := 1.
Definition MessageSkipNotAuthor : Z := 2.
Definition MessageSkipAlreadyDeleted : Z := 3.
Definition MessageSkipChatClosed : Z := 4.
Definition MessageSkipNotAllowed : Z := 5.

Definition skip_String (r : Z) : string :=
  if decide (r = MessageSkipNotFound) then "not_found"
  else if decide (r = MessageSkipNotAuthor) then "not_author"
  else if decide (r = MessageSkipAlreadyDeleted) then "already_deleted"
  else if decide (r = MessageSkipChatClosed) then "chat_closed"
  else if decide (r = MessageSkipNotAllowed) then "not_allowed"
  else "unspecified".

Definition ForwardOriginUnspecified : Z := 0.
Definition ForwardOriginInternal : Z := 1.
Definition ForwardOriginExternalUser : Z := 2.
Definition ForwardOriginExternalHiddenUser : Z := 3.
Definition ForwardOriginExternalChat : Z := 4.

Definition IsExternal (k : Z) : bool :=
  bool_decide (k = ForwardOriginExternalUser) ||
  bool_decide (k = ForwardOriginExternalHiddenUser) ||
  bool_decide (k = ForwardOriginExternalChat).

Record ForwardOrigin := MkForwardOrigin {
  fo_Kind : Z; fo_SenderID : option uuid; fo_SenderName : string; fo_SenderIss : string;
  fo_SenderSub : string; fo_OriginalSentAt : Z; fo_SourceMessageID : option uuid }.

(** ** Content *)
Record MessageImage := MkImage {
  img_FileID : Z; img_Name : string; img_Mime : string; img_URL : string }.
Record MessageDocument := MkDocument {
  doc_FileID : Z; doc_Name : string; doc_Mime : string; doc_Size : Z; doc_URL : string }.
Record MessageLocation := MkLocation {
  loc_Address : option string; loc_Latitude : float64; loc_Longitude : float64; loc_Name : option string }.
Record MessageContact := MkContact {
  con_PhoneNumber : option string; con_Name : option string; con_Email : option string }.
Record MessageSystem := MkSystem { sys_Type : string; sys_Metadata : metadata }.

Definition ActionTypeNone : string := "unknown".
Definition ActionTypeURL : string := "url".
Definition ActionTypeCallback : string := "callback".
Definition ActionTypeRequest : string := "request".

(** Pointers to buttons, rows and sections may be nil in a decoded message. *)
Record KeyboardButton := MkButton {
  btn_ID : string; btn_Label : string; btn_Metadata : metadata; btn_Type : string;
  btn_URL : option string; btn_Data : option string; btn_Action : option string }.
Record KeyboardButtonRow := MkRow { row_Buttons : list (option KeyboardButton) }.
Record KeyboardButtonMarkup := MkMarkup { mk_Rows : list (option KeyboardButtonRow) }.
Record ListReplySection := MkSection {
  sec_Section : string; sec_Buttons : list (option KeyboardButton) }.
Record KeyboardListReply := MkListReply {
  lr_Title : string; lr_Sections : list (option ListReplySection) }.
Record MessageContent := MkContent { mct_Images : bool; mct_Documents : bool }.

Definition MenuPlacementUnspecified : Z := 0.
Definition MenuPlacementInline : Z := 1.
Definition MenuPlacementPersistent : Z := 2.

Definition InputFieldStateUnspecified : Z := 0.
Definition InputFieldStateRegular : Z := 1.
Definition InputFieldStateMinimized : Z := 2.
Definition InputFieldStateHidden : Z := 3.

Record MessageInteractive := MkInteractive {
  int_Attachments : option MessageContent;
  int_SingleUse : bool;
  int_Markup : option KeyboardButtonMarkup;
  int_ListReply : option KeyboardListReply;
  int_Placement : Z;
  int_InputFieldState : Z }.

Record ReplyAttachment := MkReplyAttachment {
  rat_Kind : string; rat_Name : option string; rat_Mime : option string; rat_Address : option string }.
Record ReplyToPreview := MkReplyTo {
  rto_MessageID : uuid; rto_ThreadID : uuid; rto_SenderID : uuid; rto_Type : Z; rto_Body : string;
  rto_CreatedAt : Z; rto_Attachment : option ReplyAttachment; rto_IsDeleted : bool }.

Definition NewReplyTarget (id : option uuid) : option ReplyToPreview :=
  match id with
  | None => None
  | Some id => Some (MkReplyTo id uuid_Nil uuid_Nil 0 "" 0 None false)
  end.

(** ** The message

    [msg_To] is [None] for a nil slice. *)
Record Message := MkMessage {
  msg_ID : uuid;
  msg_SendAs : option uuid;
  msg_IdempotencyKey : string;
  msg_ExternalID : string;
  msg_ReplyToExternalID : string;
  msg_ThreadID : uuid;
  msg_DomainID : Z;
  msg_From : Shared.Peer;
  msg_SendTo : Shared.Peer;
  msg_To : option (list ThreadDialog);
  msg_Body : string;
  msg_Type : Z;
  msg_Metadata : metadata;
  msg_CreatedAt : Time;
  msg_UpdatedAt : Time;
  msg_Edited : bool;
  msg_SenderID : uuid;
  msg_MemberID : uuid;
  msg_DeletedAt : option Time;
  msg_SkipReason : Z;
  msg_Version : Z;
  msg_Seq : Z;
  msg_Images : list MessageImage;
  msg_Documents : list MessageDocument;
  msg_Location : option MessageLocation;
  msg_Contact : option MessageContact;
  msg_Interactive : option MessageInteractive;
  msg_System : option MessageSystem;
  msg_Member : option ThreadDialog;
  msg_BotControllerMemberID : option uuid;
  msg_ReplyTo : option ReplyToPreview;
  msg_ForwardOrigin : option ForwardOrigin;
  msg_domainEvents : list Event }.

Definition zero_peer : Shared.Peer := Shared.MkPeer uuid_Nil 0 None.

(** Field updates. *)
Definition msg_set_domainEvents (v : list Event) (m : Message) : Message :=
  MkMessage (msg_ID m) (msg_SendAs m) (msg_IdempotencyKey m) (msg_ExternalID m)
    (msg_ReplyToExternalID m) (msg_ThreadID m) (msg_DomainID m)
    (msg_From m) (msg_SendTo m) (msg_To m) (msg_Body m) (msg_Type m) (msg_Metadata m)
    (msg_CreatedAt m) (msg_UpdatedAt m) (msg_Edited m) (msg_SenderID m) (msg_MemberID m) (msg_DeletedAt m) (msg_SkipReason m)
    (msg_Version m) (msg_Seq m) (msg_Images m) (msg_Documents m) (msg_Location m) (msg_Contact m)
    (msg_Interactive m) (msg_System m) (msg_Member m) (msg_BotControllerMemberID m)
    (msg_ReplyTo m) (msg_ForwardOrigin m) v.
Definition msg_set_member (id : uuid) (mem : ThreadDialog) (m : Message) : Message :=
  MkMessage (msg_ID m) (msg_SendAs m) (msg_IdempotencyKey m) (msg_ExternalID m)
    (msg_ReplyToExternalID m) (msg_ThreadID m) (msg_DomainID m)
    (msg_From m) (msg_SendTo m) (msg_To m) (msg_Body m) (msg_Type m) (msg_Metadata m)
    (msg_CreatedAt m) (msg_UpdatedAt m) (msg_Edited m) (msg_SenderID m) id (msg_DeletedAt m) (msg_SkipReason m)
    (msg_Version m) (msg_Seq m) (msg_Images m) (msg_Documents m) (msg_Location m) (msg_Contact m)
    (msg_Interactive m) (msg_System m) (Some mem) (msg_BotControllerMemberID m)
    (msg_ReplyTo m) (msg_ForwardOrigin m) (msg_domainEvents m).
Definition msg_set_route (to : option (list ThreadDialog)) (from : Shared.Peer) (m : Message) : Message :=
  MkMessage (msg_ID m) (msg_SendAs m) (msg_IdempotencyKey m) (msg_ExternalID m)
    (msg_ReplyToExternalID m) (msg_ThreadID m) (msg_DomainID m)
    from (msg_SendTo m) to (msg_Body m) (msg_Type m) (msg_Metadata m)
    (msg_CreatedAt m) (msg_UpdatedAt m) (msg_Edited m) (msg_SenderID m) (msg_MemberID m) (msg_DeletedAt m) (msg_SkipReason m)
    (msg_Version m) (msg_Seq m) (msg_Images m) (msg_Documents m) (msg_Location m) (msg_Contact m)
    (msg_Interactive m) (msg_System m) (msg_Member m) (msg_BotControllerMemberID m)
    (msg_ReplyTo m) (msg_ForwardOrigin m) (msg_domainEvents m).

Definition msg_set_ID (id : uuid) (m : Message) : Message :=
  MkMessage id (msg_SendAs m) (msg_IdempotencyKey m) (msg_ExternalID m) (msg_ReplyToExternalID m)
    (msg_ThreadID m) (msg_DomainID m) (msg_From m) (msg_SendTo m) (msg_To m) (msg_Body m) (msg_Type m)
    (msg_Metadata m) (msg_CreatedAt m) (msg_UpdatedAt m) (msg_Edited m) (msg_SenderID m) (msg_MemberID m)
    (msg_DeletedAt m) (msg_SkipReason m) (msg_Version m) (msg_Seq m) (msg_Images m) (msg_Documents m)
    (msg_Location m) (msg_Contact m) (msg_Interactive m) (msg_System m) (msg_Member m)
    (msg_BotControllerMemberID m) (msg_ReplyTo m) (msg_ForwardOrigin m) (msg_domainEvents m).
(** What the service puts back on a saved message. *)
Definition msg_sent (to : option (list ThreadDialog)) (key : string) (reply : option ReplyToPreview) (m : Message) : Message :=
  MkMessage (msg_ID m) (msg_SendAs m) key (msg_ExternalID m) (msg_ReplyToExternalID m) (msg_ThreadID m)
    (msg_DomainID m) (msg_From m) (msg_SendTo m) to (msg_Body m) (msg_Type m) (msg_Metadata m)
    (msg_CreatedAt m) (msg_UpdatedAt m) (msg_Edited m) (msg_SenderID m) (msg_MemberID m) (msg_DeletedAt m)
    (msg_SkipReason m) (msg_Version m) (msg_Seq m) (msg_Images m) (msg_Documents m) (msg_Location m)
    (msg_Contact m) (msg_Interactive m) (msg_System m) (msg_Member m) (msg_BotControllerMemberID m) reply
    (msg_ForwardOrigin m) (msg_domainEvents m).
Definition msg_saved_as (id : uuid) (from : Shared.Peer) (seq : Z) (m : Message) : Message :=
  MkMessage id (msg_SendAs m) (msg_IdempotencyKey m) (msg_ExternalID m) (msg_ReplyToExternalID m)
    (msg_ThreadID m) (msg_DomainID m) from (msg_SendTo m) (msg_To m) (msg_Body m) (msg_Type m)
    (msg_Metadata m) (msg_CreatedAt m) (msg_UpdatedAt m) (msg_Edited m) (msg_SenderID m) (msg_MemberID m)
    (msg_DeletedAt m) (msg_SkipReason m) (msg_Version m) seq (msg_Images m) (msg_Documents m) (msg_Location m)
    (msg_Contact m) (msg_Interactive m) (msg_System m) (msg_Member m) (msg_BotControllerMemberID m)
    (msg_ReplyTo m) (msg_ForwardOrigin m) (msg_domainEvents m).
Definition msg_set_attachments (docs : list MessageDocument) (imgs : list MessageImage) (m : Message) : Message :=
  MkMessage (msg_ID m) (msg_SendAs m) (msg_IdempotencyKey m) (msg_ExternalID m) (msg_ReplyToExternalID m)
    (msg_ThreadID m) (msg_DomainID m) (msg_From m) (msg_SendTo m) (msg_To m) (msg_Body m) (msg_Type m)
    (msg_Metadata m) (msg_CreatedAt m) (msg_UpdatedAt m) (msg_Edited m) (msg_SenderID m) (msg_MemberID m)
    (msg_DeletedAt m) (msg_SkipReason m) (msg_Version m) (msg_Seq m) imgs docs (msg_Location m)
    (msg_Contact m) (msg_Interactive m) (msg_System m) (msg_Member m) (msg_BotControllerMemberID m)
    (msg_ReplyTo m) (msg_ForwardOrigin m) (msg_domainEvents m).
Definition msg_prepared (tid : uuid) (to : option (list ThreadDialog)) (bot : option uuid) (m : Message) : Message :=
  MkMessage (msg_ID m) (msg_SendAs m) (msg_IdempotencyKey m) (msg_ExternalID m) (msg_ReplyToExternalID m) tid
    (msg_DomainID m) (msg_From m) (msg_SendTo m) to (msg_Body m) (msg_Type m) (msg_Metadata m)
    (msg_CreatedAt m) (msg_UpdatedAt m) (msg_Edited m) (msg_SenderID m) (msg_MemberID m) (msg_DeletedAt m)
    (msg_SkipReason m) (msg_Version m) (msg_Seq m) (msg_Images m) (msg_Documents m) (msg_Location m)
    (msg_Contact m) (msg_Interactive m) (msg_System m) (msg_Member m) bot (msg_ReplyTo m)
    (msg_ForwardOrigin m) (msg_domainEvents m).
Definition msg_set_ReplyTo (reply : option ReplyToPreview) (m : Message) : Message :=
  MkMessage (msg_ID m) (msg_SendAs m) (msg_IdempotencyKey m) (msg_ExternalID m) (msg_ReplyToExternalID m)
    (msg_ThreadID m) (msg_DomainID m) (msg_From m) (msg_SendTo m) (msg_To m) (msg_Body m) (msg_Type m)
    (msg_Metadata m) (msg_CreatedAt m) (msg_UpdatedAt m) (msg_Edited m) (msg_SenderID m) (msg_MemberID m)
    (msg_DeletedAt m) (msg_SkipReason m) (msg_Version m) (msg_Seq m) (msg_Images m) (msg_Documents m)
    (msg_Location m) (msg_Contact m) (msg_Interactive m) (msg_System m) (msg_Member m)
    (msg_BotControllerMemberID m) reply (msg_ForwardOrigin m) (msg_domainEvents m).
Definition msg_sourced (sendAs bot : option uuid) (reply : option ReplyToPreview) (origin : option ForwardOrigin) (m : Message) : Message :=
  MkMessage (msg_ID m) sendAs (msg_IdempotencyKey m) (msg_ExternalID m) (msg_ReplyToExternalID m)
    (msg_ThreadID m) (msg_DomainID m) (msg_From m) (msg_SendTo m) (msg_To m) (msg_Body m) (msg_Type m)
    (msg_Metadata m) (msg_CreatedAt m) (msg_UpdatedAt m) (msg_Edited m) (msg_SenderID m) (msg_MemberID m)
    (msg_DeletedAt m) (msg_SkipReason m) (msg_Version m) (msg_Seq m) (msg_Images m) (msg_Documents m)
    (msg_Location m) (msg_Contact m) (msg_Interactive m) (msg_System m) (msg_Member m) bot reply origin
    (msg_domainEvents m).
(** A copy after saving carries the contents of the message it was built from. *)
Definition msg_forwarded (src : Message) (to : option (list ThreadDialog)) (from : Shared.Peer) (sendAs bot : option uuid) (m : Message) : Message :=
  MkMessage (msg_ID m) sendAs (msg_IdempotencyKey m) (msg_ExternalID m) (msg_ReplyToExternalID m)
    (msg_ThreadID m) (msg_DomainID m) from (msg_SendTo m) to (msg_Body m) (msg_Type m) (msg_Metadata m)
    (msg_CreatedAt m) (msg_UpdatedAt m) (msg_Edited m) (msg_SenderID m) (msg_MemberID m) (msg_DeletedAt m)
    (msg_SkipReason m) (msg_Version m) (msg_Seq m) (msg_Images src) (msg_Documents src) (msg_Location src)
    (msg_Contact src) (msg_Interactive m) (msg_System m) (msg_Member src) bot (msg_ReplyTo m)
    (msg_ForwardOrigin src) (msg_domainEvents m).

(** [range m.To]: a nil slice has no element. *)
Definition to_list (m : Message) : list ThreadDialog := default [] (msg_To m).

Definition CreatedAtUnixMillis (m : Message) : Z := Z.max (UnixMilli (msg_CreatedAt m)) 0.
Definition UpdatedAtUnixMillis (m : Message) : Z := Z.max (UnixMilli (msg_UpdatedAt m)) 0.
Definition DeletedAtUnixMillis (m : Message) : Z :=
  match msg_DeletedAt m with None => 0 | Some t => Z.max (UnixMilli t) 0 end.
Definition DeletedAtOrNow (now : Time) (m : Message) : Time :=
  match msg_DeletedAt m with Some t => t | None => now end.
Definition IsDeleted (m : option Message) : bool :=
  match m with Some m => match msg_DeletedAt m with Some _ => true | None => false end | None => false end.

(** ** Sender and recipients *)
Definition send_as (m : Message) : option uuid :=
  match msg_SendAs m with
  | Some s => if decide (s <> uuid_Nil) then Some s else None
  | None => None
  end.

Definition GetSender (m : Message) : uuid :=
  match send_as m with Some s => s | None => Shared.peer_ID (msg_From m) end.

Definition GetOriginSender (m : Message) : option uuid :=
  match send_as m with Some _ => Some (Shared.peer_ID (msg_From m)) | None => None end.

Definition Recipients (m : Message) : list ThreadDialog :=
  let sender := GetSender m in
  List.filter (fun d => negb (bool_decide (td_ContactID d = sender))) (to_list m).

Definition RecipientIDs (m : Message) : list uuid := td_ContactID <$> Recipients m.

Definition FirstViaOrDefault (m : Message) : string := gate_via (to_list m).

(** The loop stops at the first member whose contact is the sender. *)
Definition SetMemberFromSlice (members : list ThreadDialog) (m : Message) : Message :=
  match find_first (fun d => bool_decide (GetSender m = td_ContactID d)) members with
  | None => m
  | Some d =>
      msg_set_member (td_ID d)
        (MkDialog (td_ID d) 0 0 0 uuid_Nil uuid_Nil 0 None None None None false false) m
  end.

Definition NewInternalForwardOrigin (src : option Message) (senderName : string) : option ForwardOrigin :=
  match src with
  | None => None
  | Some src =>
      Some (MkForwardOrigin ForwardOriginInternal (Some (msg_SenderID src)) senderName "" ""
              (CreatedAtUnixMillis src) (Some (msg_ID src)))
  end.

(** ** Events staged on the message *)
Definition AddEvent (e : Event) (m : Message) : Message :=
  msg_set_domainEvents (msg_domainEvents m ++ [e]) m.

(** [Message.Events] drains the queue. *)
Definition Message_Events (m : Message) : list Event * Message :=
  (msg_domainEvents m, msg_set_domainEvents [] m).

(** ** Payload mappers *)
Definition ForwardOrigin_AsEvent (f : option ForwardOrigin) : option ForwardOriginPayload :=
  f ← f;
  Some (MkForwardOriginPayload (fo_Kind f) (fo_SenderID f) (fo_SenderName f)
          (fo_OriginalSentAt f) (fo_SourceMessageID f)).

Definition mapImagesToPayload (imgs : list MessageImage) : list ImagePayload :=
  (fun i => MkImagePayload (img_FileID i) (img_Mime i) (img_Name i) (img_URL i)) <$> imgs.

Definition mapDocumentsToPayload (docs : list MessageDocument) : list DocumentPayload :=
  (fun d => MkDocumentPayload (doc_FileID d) (doc_Mime d) (doc_Name d) (doc_Size d) (doc_URL d)) <$> docs.

Definition buttonToEvent (b : KeyboardButton) : EvKeyboardButton :=
  MkEvButton (btn_ID b) (btn_Label b) (btn_Metadata b) (btn_Type b)
    (if decide (btn_Type b = ActionTypeURL) then btn_URL b else None)
    (if decide (btn_Type b = ActionTypeCallback) then btn_Data b else None)
    (if decide (btn_Type b = ActionTypeRequest) then btn_Action b else None).

Definition mapButtonsToEvent (btns : list (option KeyboardButton)) : list EvKeyboardButton :=
  buttonToEvent <$> omap id btns.

Definition mapMarkupToEvent (markup : option KeyboardButtonMarkup) : option (list (list EvKeyboardButton)) :=
  markup ← markup;
  Some ((fun row => mapButtonsToEvent (row_Buttons row)) <$> omap id (mk_Rows markup)).

Definition mapListReplyToEvent (l : option KeyboardListReply) : option EvKeyboardListReply :=
  l ← l;
  Some (MkEvListReply (lr_Title l)
          ((fun s => MkEvSection (sec_Section s) (mapButtonsToEvent (sec_Buttons s)))
             <$> omap id (lr_Sections l))).

Definition Interactive_AsEvent (m : option MessageInteractive) : option InteractivePayload :=
  m ← m;
  Some (MkInteractivePayload (int_SingleUse m)
          (mapMarkupToEvent (int_Markup m)) (mapListReplyToEvent (int_ListReply m))).

Definition memberPtr (id : uuid) : option uuid := if decide (id = uuid_Nil) then None else Some id.

Definition dialogAsEventMember (d : ThreadDialog) : ThreadMember :=
  MkMember (memberPtr (td_ID d)) (td_ContactID d) (td_ThreadRole d) (td_IsBot d).

Definition threadDialogsAsEventMembers (members : list ThreadDialog) : list ThreadMember :=
  dialogAsEventMember <$> members.

Definition ReplyTo_AsEvent (r : ReplyToPreview) : ReplyToPayload :=
  MkReplyToPayload (rto_MessageID r) (rto_SenderID r) (type_String (rto_Type r)) (rto_Body r)
    (rto_CreatedAt r)
    (a ← rto_Attachment r; Some (rat_Kind a))
    (a ← rto_Attachment r; rat_Name a)
    (a ← rto_Attachment r; rat_Mime a)
    (a ← rto_Attachment r; rat_Address a)
    (rto_IsDeleted r).

(** [messageFrom] of [WithCreatedEvent]: the loop has no break, so the last
    member with the sender's contact wins; its id is a pointer to the member's
    own id even when that is nil. *)
Definition messageFrom (m : Message) : option ThreadMember :=
  fold_left (fun acc d =>
    if decide (td_ContactID d = Shared.peer_ID (msg_From m))
    then Some (MkMember (Some (td_ID d)) (td_ContactID d) (td_ThreadRole d) (td_IsBot d))
    else acc) (to_list m) None.

(** ** Request context and external metadata (model/context.go, constants.go) *)
Definition XJWTPayload : string := "x-jwt-payload".
Definition XWebitelDevice : string := "x-webitel-device".
Definition XWebitelVia : string := "x-webitel-via".

Record Ctx := MkCtx { ctx_jwt : option string; ctx_device : option string }.

(** [WithContextPropogatedMetadata]: [AddMetadata] overwrites an existing key. *)
Definition WithContextPropogatedMetadata (ctx : Ctx) (h : headers) : headers :=
  let h := match ctx_jwt ctx with Some p => <[XJWTPayload := p]> h | None => h end in
  match ctx_device ctx with Some d => <[XWebitelDevice := d]> h | None => h end.

Section events.
(** [uuid.Validate(s) == nil] of google/uuid. *)
Context (uuid_Valid : string -> bool).

Definition with_via (via : string) (h : headers) : headers :=
  if negb (bool_decide (via = "")) && uuid_Valid via then <[XWebitelVia := via]> h else h.

(** [Message.WithCreatedEvent]. *)
Definition created_event (ctx : Ctx) (sendID : string) (m : Message) : MessageCreated :=
  let h0 : headers := match ctx_jwt ctx with Some p => <[XJWTPayload := p]> ∅ | None => ∅ end in
  MkMessageCreated (msg_ID m) (msg_ThreadID m) (msg_DomainID m)
    (messageFrom m) (threadDialogsAsEventMembers (to_list m))
    sendID (msg_Body m) (type_String (msg_Type m)) (msg_CreatedAt m) (msg_Metadata m)
    (mapImagesToPayload (msg_Images m)) (mapDocumentsToPayload (msg_Documents m))
    (l ← msg_Location m;
     Some (NewLocationPayload (loc_Latitude l) (loc_Longitude l) (loc_Address l) (loc_Name l)))
    (c ← msg_Contact m; Some (NewContactPayload (con_Name c) (con_PhoneNumber c) (con_Email c)))
    (Interactive_AsEvent (msg_Interactive m))
    (s ← msg_System m; Some (NewSystemPayload (sys_Type s) (sys_Metadata s)))
    (msg_BotControllerMemberID m)
    (r ← msg_ReplyTo m; Some (ReplyTo_AsEvent r))
    (ForwardOrigin_AsEvent (msg_ForwardOrigin m)) (msg_Seq m)
    (with_via (FirstViaOrDefault m) (WithContextPropogatedMetadata ctx h0)).

Definition WithCreatedEvent (ctx : Ctx) (sendID : string) (m : Message) : Message :=
  AddEvent (EvMessageCreated (created_event ctx sendID m)) m.

(** [Message.actorAsEventMember]. *)
Definition actorAsEventMember (m : Message) : option ThreadMember :=
  let from := Shared.peer_ID (msg_From m) in
  if decide (from = uuid_Nil) then None
  else
    let id0 := memberPtr (msg_MemberID m) in
    match find_first (fun d => bool_decide (td_ContactID d = from)) (to_list m) with
    | None => Some (MkMember id0 from 0 false)
    | Some d =>
        Some (MkMember (if decide (td_ID d = uuid_Nil) then id0 else Some (td_ID d))
                from (td_ThreadRole d) (td_IsBot d))
    end.

(** [Message.WithEditedEvent]. *)
Definition WithEditedEvent (ctx : Ctx) (m : Message) : Message :=
  AddEvent (EvMessageEdited
    (MkMessageEdited (msg_ID m) (msg_ThreadID m) (msg_DomainID m) (actorAsEventMember m)
       (threadDialogsAsEventMembers (to_list m)) (msg_Body m) (type_String (msg_Type m))
       (msg_Version m) (msg_CreatedAt m) (msg_UpdatedAt m) (msg_Metadata m)
       (with_via (FirstViaOrDefault m) (WithContextPropogatedMetadata ctx ∅)))) m.

(** [model.ContactIdentity] of contact.go. *)
Record ContactIdentity := MkContactIdentity {
  ci_Sub : string; ci_Issuer : string; ci_Type : string; ci_Name : string;
  ci_Username : string; ci_IsBot : bool }.

(** [Message.actorAsMember]: the deleter as it travels in a deletion event. *)
Definition actorAsMember (m : Message) (contact : option ContactIdentity) : option Member :=
  let from := Shared.peer_ID (msg_From m) in
  if decide (from = uuid_Nil) then None
  else
    let hit := find_first (fun d => bool_decide (td_ContactID d = from)) (to_list m) in
    let id0 := memberPtr (msg_MemberID m) in
    let id := match hit with
              | Some d => if decide (td_ID d = uuid_Nil) then id0 else Some (td_ID d)
              | None => id0 end in
    let role := match hit with
                | Some d => Role.role_String (td_ThreadRole d)
                | None => Role.role_String Role.UnspecifiedRole end in
    let isBot := match hit with Some d => td_IsBot d | None => false end in
    let c0 := match contact with
              | Some c => MkMemberContact from (ci_Sub c) (ci_Issuer c) (ci_Name c)
                            (ci_Username c) (ci_Type c) (ci_IsBot c)
              | None => MkMemberContact from "" "" "" "" "" isBot end in
    let c1 := match Shared.peer_Identity (msg_From m) with
              | Some i =>
                  MkMemberContact from (mc_Sub c0)
                    (if decide (mc_Iss c0 = "") then Shared.idn_Issuer i else mc_Iss c0)
                    (if decide (mc_Name c0 = "") then Shared.idn_Name i else mc_Name c0)
                    (mc_Username c0) (mc_Type c0) (mc_IsBot c0)
              | None => c0 end in
    Some (MkEvMember id (Some c1) role).

(** [Message.WithDeletedEvent]. *)
Definition WithDeletedEvent (now : Time) (ctx : Ctx) (deleter : option ContactIdentity)
    (m : Message) : Message :=
  AddEvent (EvMessageDeleted
    (MkMessageDeleted (msg_ID m) (msg_ThreadID m) (msg_DomainID m) (actorAsMember m deleter)
       (threadDialogsAsEventMembers (to_list m)) (type_String (msg_Type m)) (msg_CreatedAt m)
       (DeletedAtOrNow now m)
       (with_via (FirstViaOrDefault m) (WithContextPropogatedMetadata ctx ∅)))) m.

(** ** Reactions (message_reaction.go) *)
Inductive ReactionAction := ActionUnspecified | ActionSet | ActionRemoved | ActionUnchanged.

Record Reaction := MkReaction {
  rct_MessageID : uuid; rct_ThreadID : uuid; rct_DomainID : Z; rct_ReactorID : uuid;
  rct_ReactorMemberID : option uuid; rct_Emoji : string; rct_IdempotencyKey : string;
  rct_ExternalID : string; rct_Reactor : Shared.Peer; rct_To : list ThreadDialog; rct_domainEvents : list Event }.

Record ReactionResult := MkReactionResult {
  rr_Action : ReactionAction; rr_Emoji : string; rr_ThreadID : uuid; rr_ReactedAt : Time;
  rr_Changed : bool }.

(** [model.MessageReaction]: the per-emoji read model. *)
Record MessageReaction := MkMessageReaction {
  mrx_Emoji : string; mrx_Count : Z; mrx_ReactorIDs : list uuid; mrx_LastReactedAt : Z }.

Definition ReactedBy (r : MessageReaction) (contactID : uuid) : bool :=
  bool_decide (contactID ∈ mrx_ReactorIDs r).

Definition IsRemoval (r : option Reaction) : bool :=
  match r with None => true | Some r => bool_decide (rct_Emoji r = "") end.

Definition reactor_member (r : Reaction) : option ThreadMember :=
  if decide (rct_ReactorID r = uuid_Nil) then None
  else Some (MkMember (m ← rct_ReactorMemberID r; memberPtr m) (rct_ReactorID r) 0 false).

(** [Reaction.WithReactionEvent]: nothing is staged unless the store changed something. *)
Definition WithReactionEvent (ctx : Ctx) (r : Reaction) (res : option ReactionResult)
    (aggregate : list MessageReaction) : Reaction :=
  match res with
  | None => r
  | Some res =>
      if negb (rr_Changed res) then r
      else
        let action := match rr_Action res with ActionRemoved => "removed" | _ => "set" end in
        let e := EvMessageReaction
          (MkEvReaction (rct_MessageID r) (rct_ThreadID r) (rct_DomainID r) (reactor_member r)
             (threadDialogsAsEventMembers (rct_To r)) (rr_Emoji res) action (rr_ReactedAt res)
             (rct_IdempotencyKey r)
             ((fun a => MkReactionAggregate (mrx_Emoji a) (mrx_Count a) (mrx_ReactorIDs a)
                          (mrx_LastReactedAt a)) <$> aggregate)
             (with_via (gate_via (rct_To r)) (WithContextPropogatedMetadata ctx ∅))) in
        MkReaction (rct_MessageID r) (rct_ThreadID r) (rct_DomainID r) (rct_ReactorID r)
          (rct_ReactorMemberID r) (rct_Emoji r) (rct_IdempotencyKey r) (rct_ExternalID r) (rct_Reactor r) (rct_To r)
          (rct_domainEvents r ++ [e])
  end.
End events.

(** ** History pages (messages_slice.go) *)
Record MessageCursor := NewMessageCursor {
  cur_ID : uuid; cur_CreatedAt : Time; cur_Direction : bool }.
Record Paging := MkPaging { pg_After : option MessageCursor; pg_Before : option MessageCursor }.

Definition cursor_of (direction : bool) (m : Message) : MessageCursor :=
  NewMessageCursor (msg_ID m) (msg_CreatedAt m) direction.

(** [MessageSlice.GetPaging]: [None] for an empty page. *)
Definition GetPaging (ms : list Message) (hasMore isBackward hadCursor : bool) : option Paging :=
  match ms, last ms with
  | first :: _, Some lst =>
      let oldest := if isBackward then lst else first in
      let newest := if isBackward then first else lst in
      if negb hadCursor then
        Some (MkPaging None (if hasMore then Some (cursor_of false oldest) else None))
      else if isBackward then
        Some (MkPaging (Some (cursor_of true newest))
                (if hasMore then Some (cursor_of false oldest) else None))
      else
        Some (MkPaging (if hasMore then Some (cursor_of true newest) else None)
                (Some (cursor_of false oldest)))
  | _, _ => None
  end.
