(* ===== verification/World.v ===== *)
(** * World: the database, statements and transactions

    The tables of schemas im_thread and im_message the modelled stores touch
    (migrations/), the state a service call runs in, and
    internal/store/postgres/uow.go.  A statement can fail ([env_fault]); a
    failed statement inside a transaction leaves the transaction aborted, so
    that every later statement and the commit fail, as PostgreSQL does. *)
From S2P Require Import Prelude Domain Events Message.
#[local] Open Scope Z_scope.

(** ** Rows *)
Record ThreadRow := MkThreadRow {
  t_id : uuid; t_domain_id : Z; t_created_at : Time; t_updated_at : Time;
  t_kind : Z; t_owner : uuid; t_subject : string; t_description : string;
  t_bot_controller_id : option uuid; t_owner_bot_id : option uuid;
  t_crm_contact_id : option string; t_last_seq : Z }.

Record DialogRow := MkDialogRow {
  d_id : uuid; d_domain_id : Z; d_created_at : Time; d_updated_at : Time;
  d_member_id : uuid (** the contact *); d_thread_id : uuid; d_thread_role : Z;
  d_deleted_at : option Time; d_invited_by : option uuid; d_leave_reason : option string;
  d_via : option string; d_queue_id : option Z; d_is_bot : bool; d_auto_leave : bool;
  d_last_read_message_id : option uuid; d_last_read_seq : option Z; d_last_delivered_seq : option Z;
  d_unread_count : Z }.

Record PermRow := MkPermRow {
  p_id : uuid; p_thread_id : uuid; p_thread_dialog_id : uuid; p_perms : ThreadPermissions;
  p_created_at : Time; p_updated_at : Time }.

Record SettingRow := MkSettingRow { st_thread_dialog_id : uuid; st_domain_id : Z; st_title : string }.

(** im_thread.bot_control_stack *)
Record StackRow := MkStackRow {
  s_id : uuid; s_thread_id : uuid; s_member_id : option uuid; s_position : Z }.

(** The forward_origin columns of im_message.messages; all NULL is [None]. *)
Record ForwardRow := MkForwardRow {
  fw_kind : Z; fw_sender_id : option uuid; fw_sender_name : string; fw_sender_iss : option string;
  fw_sender_sub : option string; fw_sent_at : option Time; fw_from_message_id : option uuid }.

(** im_message.messages with its one-to-one tables system_messages,
    message_locations and message_contacts. *)
Record MessageRow := MkMessageRow {
  m_id : uuid; m_thread_id : uuid; m_domain_id : Z; m_sender_id : uuid; m_member_id : uuid;
  m_type : Z; m_body : string; m_metadata : metadata; m_created_at : Time; m_updated_at : Time;
  m_seq : Z; m_system : option MessageSystem; m_location : option MessageLocation;
  m_contact : option MessageContact; m_interactive : option MessageInteractive;
  m_origin_sender : option uuid; m_reply_to : option uuid; m_forward : option ForwardRow;
  m_edited : bool; m_deleted_at : option Time; m_deleted_by : option uuid }.

(** im_message.message_documents and message_images *)
Record DocumentRow := MkDocumentRow {
  do_id : uuid; do_message_id : uuid; do_file_id : Z; do_name : string; do_mime : string; do_size : Z;
  do_created_at : Time }.
Record ImageRow := MkImageRow {
  im_id : uuid; im_message_id : uuid; im_file_id : Z; im_mime : string; im_created_at : Time }.

Record RevisionRow := MkRevisionRow {
  rv_message_id : uuid; rv_domain_id : Z; rv_version : Z; rv_body : string; rv_changed_by : uuid;
  rv_changed_at : Time }.

Record ReactionRow := MkReactionRow {
  re_id : uuid; re_message_id : uuid; re_thread_id : uuid; re_domain_id : Z; re_reactor_id : uuid;
  re_reactor_member_id : option uuid; re_emoji : string; re_created_at : Time; re_updated_at : Time }.

(** im_message.message_external_ids *)
Record ExternalRow := MkExternalRow {
  ex_message_id : uuid; ex_thread_id : uuid; ex_gate_id : string; ex_external_id : string;
  ex_direction : Z; ex_delivered_at : option Time; ex_read_at : option Time;
  ex_failed_at : option Time; ex_failed_reason : option string }.

(** im_message.message_errors *)
Record ErrorRow := MkErrorRow {
  er_domain_id : Z; er_thread_id : uuid; er_message_id : uuid; er_member_id : uuid;
  er_failed_at : Time; er_error : option metadata; er_via : option string; er_updated_at : Time }.

(** im_thread.thread_variables: value, set_by, set_at of each key *)
Record VariableEntry := MkVariable { va_Value : any; va_SetBy : uuid; va_SetAt : Time }.
Record VariablesRow := MkVariablesRow { vr_thread_id : uuid; vr_variables : gmap string VariableEntry }.

(** im_thread.thread_preview *)
Record PreviewRow := MkPreviewRow {
  pv_id : uuid; pv_domain_id : Z; pv_thread_id : uuid; pv_contact_id : uuid; pv_initiator_id : uuid;
  pv_created_at : Time; pv_expires_at : Time; pv_revoked_at : option Time; pv_revoke_reason : option string }.

Record TagRow := MkTagRow {
  g_id : uuid; g_thread_id : uuid; g_contact_id : uuid; g_tag : string; g_created_at : Time }.

(** im_message.buttons_callback *)
Record CallbackRow := MkCallbackRow {
  cb_in_reply_to : uuid; cb_button_code : string; cb_callback_data : string; cb_reacted_at : Time;
  cb_reacted_by : uuid }.

(** im_thread.contact_updates *)
Record MarkRow := MkMarkRow { k_contact_id : uuid; k_thread_id : uuid; k_tx_id : Z; k_updated_at : Time }.

Record OutboxRow := MkOutboxRow { o_topic : string; o_event : Event; o_cursor : option string }.
(** im_message.thread_updates, in the order of its ids *)
Record JournalRow := MkJournalRow { j_thread_id : uuid; j_tx_id : Z; j_created_at : Time; j_event : Event }.

Record DB := MkDB {
  db_threads : list ThreadRow;
  db_dialogs : list DialogRow;
  db_perms : list PermRow;
  db_settings : list SettingRow;
  db_stack : list StackRow;
  db_messages : list MessageRow;
  db_tags : list TagRow;
  db_outbox : list OutboxRow;
  db_journal : list JournalRow;
  db_marks : list MarkRow;
  db_source_refs : list SourceRef;
  db_queue_refs : list QueueRef;
  db_documents : list DocumentRow;
  db_images : list ImageRow;
  db_revisions : list RevisionRow;
  db_reactions : list ReactionRow;
  db_externals : list ExternalRow;
  db_errors : list ErrorRow;
  db_variables : list VariablesRow;
  db_previews : list PreviewRow;
  db_callbacks : list CallbackRow;
  db_trim : option Z (** the one row of im_message.thread_updates_trim *) }.

(** What leaves the process without the outbox: broker messages and calls of
    the external providers other than messages. *)
Inductive Signal :=
  | SigVariables (topic : string) (variables : gmap string VariableEntry) (members : list uuid)
  | SigTyping (topic : string) (e : Typing)
  | SigProviderTyping (thread : uuid) (domain : Z) (on : bool) (peers : list ExternalPeerPair)
  | SigProviderReaction (r : Reaction) (res : ReactionResult).

(** ** The world of one service process

    [w_now] is both [NOW()] and [time.Now()]; [w_next] feeds uuidv7(), whose
    values increase with time and are never reused; [w_tx] numbers the
    transactions; [w_ticks] counts the statements executed; [w_sent] is what
    was handed to the external providers; the two caches are the process-local
    ReferenceCache; [w_armed] the keys of the typing rate limiter with the
    time each expires; [w_signals] is what was published or handed over without
    the outbox.  Only [w_db] is undone by a rollback. *)
Record World := MkWorld {
  w_db : DB;
  w_now : Time;
  w_next : N;
  w_tx : Z;
  w_in_tx : bool;
  w_aborted : bool;
  w_ticks : nat;
  w_sent : list Message;
  w_source_cache : gmap string SourceRef;
  w_queue_cache : gmap string string;
  w_armed : gmap string Time;
  w_signals : list Signal }.

Definition set_db (v : DB) (w : World) : World :=
  MkWorld v (w_now w) (w_next w) (w_tx w) (w_in_tx w) (w_aborted w) (w_ticks w) (w_sent w)
    (w_source_cache w) (w_queue_cache w) (w_armed w) (w_signals w).
Definition set_tick (aborted : bool) (w : World) : World :=
  MkWorld (w_db w) (w_now w) (w_next w) (w_tx w) (w_in_tx w) aborted (S (w_ticks w)) (w_sent w)
    (w_source_cache w) (w_queue_cache w) (w_armed w) (w_signals w).
Definition set_next (v : N) (w : World) : World :=
  MkWorld (w_db w) (w_now w) v (w_tx w) (w_in_tx w) (w_aborted w) (w_ticks w) (w_sent w)
    (w_source_cache w) (w_queue_cache w) (w_armed w) (w_signals w).
Definition set_sent (v : list Message) (w : World) : World :=
  MkWorld (w_db w) (w_now w) (w_next w) (w_tx w) (w_in_tx w) (w_aborted w) (w_ticks w) v
    (w_source_cache w) (w_queue_cache w) (w_armed w) (w_signals w).
Definition set_caches (s : gmap string SourceRef) (q : gmap string string) (w : World) : World :=
  MkWorld (w_db w) (w_now w) (w_next w) (w_tx w) (w_in_tx w) (w_aborted w) (w_ticks w) (w_sent w) s q
    (w_armed w) (w_signals w).
Definition set_txstate (tx : Z) (in_tx aborted : bool) (w : World) : World :=
  MkWorld (w_db w) (w_now w) (w_next w) tx in_tx aborted (w_ticks w) (w_sent w)
    (w_source_cache w) (w_queue_cache w) (w_armed w) (w_signals w).

Definition set_armed (v : gmap string Time) (w : World) : World :=
  MkWorld (w_db w) (w_now w) (w_next w) (w_tx w) (w_in_tx w) (w_aborted w) (w_ticks w) (w_sent w)
    (w_source_cache w) (w_queue_cache w) v (w_signals w).
Definition set_signals (v : list Signal) (w : World) : World :=
  MkWorld (w_db w) (w_now w) (w_next w) (w_tx w) (w_in_tx w) (w_aborted w) (w_ticks w) (w_sent w)
    (w_source_cache w) (w_queue_cache w) (w_armed w) v.

(** Table updates. *)
Definition on_threads (f : list ThreadRow -> list ThreadRow) (d : DB) : DB :=
  MkDB (f (db_threads d)) (db_dialogs d) (db_perms d) (db_settings d) (db_stack d) (db_messages d)
    (db_tags d) (db_outbox d) (db_journal d) (db_marks d) (db_source_refs d) (db_queue_refs d)
    (db_documents d) (db_images d) (db_revisions d) (db_reactions d) (db_externals d) (db_errors d) (db_variables d) (db_previews d)
    (db_callbacks d) (db_trim d).
Definition on_dialogs (f : list DialogRow -> list DialogRow) (d : DB) : DB :=
  MkDB (db_threads d) (f (db_dialogs d)) (db_perms d) (db_settings d) (db_stack d) (db_messages d)
    (db_tags d) (db_outbox d) (db_journal d) (db_marks d) (db_source_refs d) (db_queue_refs d)
    (db_documents d) (db_images d) (db_revisions d) (db_reactions d) (db_externals d) (db_errors d) (db_variables d) (db_previews d)
    (db_callbacks d) (db_trim d).
Definition on_perms (f : list PermRow -> list PermRow) (d : DB) : DB :=
  MkDB (db_threads d) (db_dialogs d) (f (db_perms d)) (db_settings d) (db_stack d) (db_messages d)
    (db_tags d) (db_outbox d) (db_journal d) (db_marks d) (db_source_refs d) (db_queue_refs d)
    (db_documents d) (db_images d) (db_revisions d) (db_reactions d) (db_externals d) (db_errors d) (db_variables d) (db_previews d)
    (db_callbacks d) (db_trim d).
Definition on_settings (f : list SettingRow -> list SettingRow) (d : DB) : DB :=
  MkDB (db_threads d) (db_dialogs d) (db_perms d) (f (db_settings d)) (db_stack d) (db_messages d)
    (db_tags d) (db_outbox d) (db_journal d) (db_marks d) (db_source_refs d) (db_queue_refs d)
    (db_documents d) (db_images d) (db_revisions d) (db_reactions d) (db_externals d) (db_errors d) (db_variables d) (db_previews d)
    (db_callbacks d) (db_trim d).
Definition on_stack (f : list StackRow -> list StackRow) (d : DB) : DB :=
  MkDB (db_threads d) (db_dialogs d) (db_perms d) (db_settings d) (f (db_stack d)) (db_messages d)
    (db_tags d) (db_outbox d) (db_journal d) (db_marks d) (db_source_refs d) (db_queue_refs d)
    (db_documents d) (db_images d) (db_revisions d) (db_reactions d) (db_externals d) (db_errors d) (db_variables d) (db_previews d)
    (db_callbacks d) (db_trim d).
Definition on_messages (f : list MessageRow -> list MessageRow) (d : DB) : DB :=
  MkDB (db_threads d) (db_dialogs d) (db_perms d) (db_settings d) (db_stack d) (f (db_messages d))
    (db_tags d) (db_outbox d) (db_journal d) (db_marks d) (db_source_refs d) (db_queue_refs d)
    (db_documents d) (db_images d) (db_revisions d) (db_reactions d) (db_externals d) (db_errors d) (db_variables d) (db_previews d)
    (db_callbacks d) (db_trim d).
Definition on_tags (f : list TagRow -> list TagRow) (d : DB) : DB :=
  MkDB (db_threads d) (db_dialogs d) (db_perms d) (db_settings d) (db_stack d) (db_messages d)
    (f (db_tags d)) (db_outbox d) (db_journal d) (db_marks d) (db_source_refs d) (db_queue_refs d)
    (db_documents d) (db_images d) (db_revisions d) (db_reactions d) (db_externals d) (db_errors d) (db_variables d) (db_previews d)
    (db_callbacks d) (db_trim d).
Definition on_outbox (f : list OutboxRow -> list OutboxRow) (d : DB) : DB :=
  MkDB (db_threads d) (db_dialogs d) (db_perms d) (db_settings d) (db_stack d) (db_messages d)
    (db_tags d) (f (db_outbox d)) (db_journal d) (db_marks d) (db_source_refs d) (db_queue_refs d)
    (db_documents d) (db_images d) (db_revisions d) (db_reactions d) (db_externals d) (db_errors d) (db_variables d) (db_previews d)
    (db_callbacks d) (db_trim d).
Definition on_journal (f : list JournalRow -> list JournalRow) (d : DB) : DB :=
  MkDB (db_threads d) (db_dialogs d) (db_perms d) (db_settings d) (db_stack d) (db_messages d)
    (db_tags d) (db_outbox d) (f (db_journal d)) (db_marks d) (db_source_refs d) (db_queue_refs d)
    (db_documents d) (db_images d) (db_revisions d) (db_reactions d) (db_externals d) (db_errors d) (db_variables d) (db_previews d)
    (db_callbacks d) (db_trim d).
Definition on_marks (f : list MarkRow -> list MarkRow) (d : DB) : DB :=
  MkDB (db_threads d) (db_dialogs d) (db_perms d) (db_settings d) (db_stack d) (db_messages d)
    (db_tags d) (db_outbox d) (db_journal d) (f (db_marks d)) (db_source_refs d) (db_queue_refs d)
    (db_documents d) (db_images d) (db_revisions d) (db_reactions d) (db_externals d) (db_errors d) (db_variables d) (db_previews d)
    (db_callbacks d) (db_trim d).
Definition on_source_refs (f : list SourceRef -> list SourceRef) (d : DB) : DB :=
  MkDB (db_threads d) (db_dialogs d) (db_perms d) (db_settings d) (db_stack d) (db_messages d)
    (db_tags d) (db_outbox d) (db_journal d) (db_marks d) (f (db_source_refs d)) (db_queue_refs d)
    (db_documents d) (db_images d) (db_revisions d) (db_reactions d) (db_externals d) (db_errors d) (db_variables d) (db_previews d)
    (db_callbacks d) (db_trim d).
Definition on_queue_refs (f : list QueueRef -> list QueueRef) (d : DB) : DB :=
  MkDB (db_threads d) (db_dialogs d) (db_perms d) (db_settings d) (db_stack d) (db_messages d)
    (db_tags d) (db_outbox d) (db_journal d) (db_marks d) (db_source_refs d) (f (db_queue_refs d))
    (db_documents d) (db_images d) (db_revisions d) (db_reactions d) (db_externals d) (db_errors d) (db_variables d) (db_previews d)
    (db_callbacks d) (db_trim d).
Definition on_documents (f : list DocumentRow -> list DocumentRow) (d : DB) : DB :=
  MkDB (db_threads d) (db_dialogs d) (db_perms d) (db_settings d) (db_stack d) (db_messages d)
    (db_tags d) (db_outbox d) (db_journal d) (db_marks d) (db_source_refs d) (db_queue_refs d)
    (f (db_documents d)) (db_images d) (db_revisions d) (db_reactions d) (db_externals d) (db_errors d) (db_variables d) (db_previews d)
    (db_callbacks d) (db_trim d).
Definition on_images (f : list ImageRow -> list ImageRow) (d : DB) : DB :=
  MkDB (db_threads d) (db_dialogs d) (db_perms d) (db_settings d) (db_stack d) (db_messages d)
    (db_tags d) (db_outbox d) (db_journal d) (db_marks d) (db_source_refs d) (db_queue_refs d)
    (db_documents d) (f (db_images d)) (db_revisions d) (db_reactions d) (db_externals d) (db_errors d) (db_variables d) (db_previews d)
    (db_callbacks d) (db_trim d).
Definition on_revisions (f : list RevisionRow -> list RevisionRow) (d : DB) : DB :=
  MkDB (db_threads d) (db_dialogs d) (db_perms d) (db_settings d) (db_stack d) (db_messages d)
    (db_tags d) (db_outbox d) (db_journal d) (db_marks d) (db_source_refs d) (db_queue_refs d)
    (db_documents d) (db_images d) (f (db_revisions d)) (db_reactions d) (db_externals d) (db_errors d) (db_variables d) (db_previews d)
    (db_callbacks d) (db_trim d).
Definition on_reactions (f : list ReactionRow -> list ReactionRow) (d : DB) : DB :=
  MkDB (db_threads d) (db_dialogs d) (db_perms d) (db_settings d) (db_stack d) (db_messages d)
    (db_tags d) (db_outbox d) (db_journal d) (db_marks d) (db_source_refs d) (db_queue_refs d)
    (db_documents d) (db_images d) (db_revisions d) (f (db_reactions d)) (db_externals d) (db_errors d) (db_variables d) (db_previews d)
    (db_callbacks d) (db_trim d).
Definition on_externals (f : list ExternalRow -> list ExternalRow) (d : DB) : DB :=
  MkDB (db_threads d) (db_dialogs d) (db_perms d) (db_settings d) (db_stack d) (db_messages d)
    (db_tags d) (db_outbox d) (db_journal d) (db_marks d) (db_source_refs d) (db_queue_refs d)
    (db_documents d) (db_images d) (db_revisions d) (db_reactions d) (f (db_externals d)) (db_errors d) (db_variables d) (db_previews d)
    (db_callbacks d) (db_trim d).
Definition on_errors (f : list ErrorRow -> list ErrorRow) (d : DB) : DB :=
  MkDB (db_threads d) (db_dialogs d) (db_perms d) (db_settings d) (db_stack d) (db_messages d)
    (db_tags d) (db_outbox d) (db_journal d) (db_marks d) (db_source_refs d) (db_queue_refs d)
    (db_documents d) (db_images d) (db_revisions d) (db_reactions d) (db_externals d) (f (db_errors d)) (db_variables d) (db_previews d)
    (db_callbacks d) (db_trim d).
Definition on_variables (f : list VariablesRow -> list VariablesRow) (d : DB) : DB :=
  MkDB (db_threads d) (db_dialogs d) (db_perms d) (db_settings d) (db_stack d) (db_messages d)
    (db_tags d) (db_outbox d) (db_journal d) (db_marks d) (db_source_refs d) (db_queue_refs d)
    (db_documents d) (db_images d) (db_revisions d) (db_reactions d) (db_externals d) (db_errors d) (f (db_variables d)) (db_previews d)
    (db_callbacks d) (db_trim d).
Definition on_previews (f : list PreviewRow -> list PreviewRow) (d : DB) : DB :=
  MkDB (db_threads d) (db_dialogs d) (db_perms d) (db_settings d) (db_stack d) (db_messages d)
    (db_tags d) (db_outbox d) (db_journal d) (db_marks d) (db_source_refs d) (db_queue_refs d)
    (db_documents d) (db_images d) (db_revisions d) (db_reactions d) (db_externals d) (db_errors d) (db_variables d) (f (db_previews d))
    (db_callbacks d) (db_trim d).

Definition on_callbacks (f : list CallbackRow -> list CallbackRow) (d : DB) : DB :=
  MkDB (db_threads d) (db_dialogs d) (db_perms d) (db_settings d) (db_stack d) (db_messages d)
    (db_tags d) (db_outbox d) (db_journal d) (db_marks d) (db_source_refs d) (db_queue_refs d)
    (db_documents d) (db_images d) (db_revisions d) (db_reactions d) (db_externals d) (db_errors d) (db_variables d) (db_previews d)
    (f (db_callbacks d)) (db_trim d).
Definition on_trim (f : option Z -> option Z) (d : DB) : DB :=
  MkDB (db_threads d) (db_dialogs d) (db_perms d) (db_settings d) (db_stack d) (db_messages d)
    (db_tags d) (db_outbox d) (db_journal d) (db_marks d) (db_source_refs d) (db_queue_refs d)
    (db_documents d) (db_images d) (db_revisions d) (db_reactions d) (db_externals d) (db_errors d) (db_variables d) (db_previews d)
    (db_callbacks d) (f (db_trim d)).

(** ** The environment: what the program calls and does not define

    Remote services behind interfaces ([ThreadPrivacyChecker],
    [ContactInfoProvider], [ProvidersAdapter]; [None] is a nil interface),
    third-party packages (google/uuid, the grapheme count of rivo/uniseg), the
    row PostgreSQL uses when an UPDATE ... FROM joins several rows to one (at a
    count of statements, of a number of candidates), the replicated table im_contact.contact, the request context and the
    faults of the database. *)
Record ContactInfo := MkContactInfo {
  IsBot : uuid -> Z -> result bool;
  GetSub : uuid -> Z -> result (option Z) }.

Class Env := {
  env_fault : nat -> bool;
  env_can_invite : uuid -> uuid -> result unit;
  env_can_send : uuid -> uuid -> result unit;
  env_contact_info : option ContactInfo;
  env_providers : option (Message -> result unit);
  env_contact_is_bot : uuid -> option bool;
  env_uuid_string : uuid -> string;
  env_uuid_valid : string -> bool;
  env_graphemes : string -> Z;
  env_join_pick : nat -> nat -> nat;
  env_ctx : Ctx }.

Abbreviation SM := (M World).

(** ** Statements *)
Section statements.
Context {E : Env}.

Definition db_error : error := errors_New "database statement failed".
Definition aborted_error : error :=
  errors_New "current transaction is aborted, commands ignored until end of transaction block".

(** Sends one statement to the server. *)
Definition statement : SM unit := fun w =>
  if w_in_tx w && w_aborted w then (Err aborted_error, w)
  else if env_fault (w_ticks w) then (Err db_error, set_tick (w_in_tx w) w)
  else (OK tt, set_tick (w_aborted w) w).

(** A statement the server rejects (constraint violation, scan of a NULL into
    a non-pointer excepted: that error is the client's). *)
Definition reject {A} (e : error) : SM A := fun w =>
  (Err e, set_txstate (w_tx w) (w_in_tx w) (w_in_tx w || w_aborted w) w).

(** An error of the driver as the stores wrap it: [errors.Internal(msg, WithCause(err))]. *)
Definition internal (msg : string) (cause : error) : error := WithCause cause (Internal msg).
Definition constraint_error : error := errors_New "constraint violation".
Definition no_rows : error := errors_New "no rows in result set".
Definition scan_error : error := errors_New "cannot scan NULL".

Definition map_err {A} (f : error -> error) (m : SM A) : SM A := fun w =>
  match m w with (Err e, w') => (Err (f e), w') | (OK a, w') => (OK a, w') end.

Definition statement_as (msg : string) : SM unit := map_err (internal msg) statement.
Definition reject_as {A} (msg : string) : SM A := reject (internal msg constraint_error).

Definition query {A} (f : DB -> A) : SM A := statement;; gets (fun w => f (w_db w)).
Definition exec (f : DB -> DB) : SM unit := statement;; modify (fun w => set_db (f (w_db w)) w).

(** [uuidv7()] *)
Definition fresh : SM uuid := fun w => (OK (w_next w), set_next (w_next w + 1) w).
Definition now : SM Time := fun w => (OK (w_now w), w).

Lemma bind_fresh {B} (k : uuid -> SM B) w :
  mbind k fresh w = k (w_next w) (set_next (w_next w + 1) w).
Proof. reflexivity. Qed.
Lemma bind_now {B} (k : Time -> SM B) w : mbind k now w = k (w_now w) w.
Proof. reflexivity. Qed.

(** ** postgres/uow.go: WithinTransaction

    Inside an open transaction the function joins it.  Otherwise: begin, run
    the function on a transactional unit of work, roll back on error, commit. *)
Definition begin_error : error := errors_New "failed to start transaction".
Definition commit_error : error := errors_New "failed to commit transaction".
Definition rollback_error (cause : error) : error := WithCause cause (errors_New "tx error").

Definition rollback (saved : DB) (w : World) : World :=
  set_txstate (w_tx w) false false (set_db saved w).

Definition WithinTransaction {A} (fn : SM A) : SM A := fun w =>
  if w_in_tx w then fn w
  else if env_fault (w_ticks w) then (Err begin_error, set_tick false w)
  else
    match fn (set_txstate (w_tx w + 1) true false (set_tick false w)) with
    | (Err e, w1) =>
        let r := if env_fault (w_ticks w1) then rollback_error e else e in
        (Err r, rollback (w_db w) (set_tick false w1))
    | (OK a, w1) =>
        if w_aborted w1 || env_fault (w_ticks w1)
        then (Err commit_error, rollback (w_db w) (set_tick false w1))
        else (OK a, set_txstate (w_tx w1) false false (set_tick false w1))
    end.

(** The same function when the closure assigns a variable of its caller: the
    variable keeps the value assigned, whatever becomes of the transaction. *)
Definition WithinTransactionAssigning {A L} (var : L) (fn : World -> result A * L * World)
    : World -> result A * L * World := fun w =>
  if w_in_tx w then fn w
  else if env_fault (w_ticks w) then (Err begin_error, var, set_tick false w)
  else
    match fn (set_txstate (w_tx w + 1) true false (set_tick false w)) with
    | (Err e, var', w1) =>
        let r := if env_fault (w_ticks w1) then rollback_error e else e in
        (Err r, var', rollback (w_db w) (set_tick false w1))
    | (OK a, var', w1) =>
        if w_aborted w1 || env_fault (w_ticks w1)
        then (Err commit_error, var', rollback (w_db w) (set_tick false w1))
        else (OK a, var', set_txstate (w_tx w1) false false (set_tick false w1))
    end.

(** *** Facts *)

(** Forgetting the variable gives [WithinTransaction]. *)
Lemma WithinTransactionAssigning_forget {A L} (var : L) (fn : World -> result A * L * World) w :
  (let '(r, _, w') := WithinTransactionAssigning var fn w in (r, w')) =
  WithinTransaction (fun w => let '(r, _, w') := fn w in (r, w')) w.
Proof.
  unfold WithinTransactionAssigning, WithinTransaction. destruct (w_in_tx w); [done|].
  destruct (env_fault (w_ticks w)); [done|].
  destruct (fn _) as [[[a|e] l] w1]; [|done]. by destruct (w_aborted w1 || env_fault (w_ticks w1)).
Qed.

Lemma WithinTransaction_err {A} (fn : SM A) w e w' :
  w_in_tx w = false -> WithinTransaction fn w = (Err e, w') ->
  w_db w' = w_db w /\ w_in_tx w' = false.
Proof.
  intros Htx. unfold WithinTransaction. rewrite Htx.
  destruct (env_fault (w_ticks w)); [by intros [= <- <-]|].
  destruct (fn _) as [[a|e1] w1].
  - destruct (w_aborted w1 || env_fault (w_ticks w1)); intros [= <- <-]; done.
  - intros [= <- <-]; done.
Qed.

Lemma WithinTransaction_ok {A} (fn : SM A) w a w' :
  w_in_tx w = false -> WithinTransaction fn w = (OK a, w') ->
  exists w1, fn (set_txstate (w_tx w + 1) true false (set_tick false w)) = (OK a, w1) /\
             w_db w' = w_db w1 /\ w_sent w' = w_sent w1 /\ w_in_tx w' = false /\
             w_aborted w1 = false.
Proof.
  intros Htx. unfold WithinTransaction. rewrite Htx.
  destruct (env_fault (w_ticks w)); [done|].
  destruct (fn _) as [[a1|e1] w1]; [|done].
  destruct (w_aborted w1) eqn:Ha; [done|]; simpl.
  destruct (env_fault (w_ticks w1)); [done|].
  intros [= <- <-]. exists w1. done.
Qed.

Lemma map_err_ok {A} f (m : SM A) w a w' : map_err f m w = (OK a, w') -> m w = (OK a, w').
Proof. unfold map_err. by destruct (m w) as [[?|?] ?]; intros [= <- <-]. Qed.

Lemma statement_ok w u w' : statement w = (OK u, w') ->
  w' = set_tick (w_aborted w) w /\ env_fault (w_ticks w) = false /\ (w_in_tx w && w_aborted w = false).
Proof.
  unfold statement. destruct (w_in_tx w && w_aborted w); [done|].
  destruct (env_fault _); [done|]. by intros [= _ <-].
Qed.

Lemma statement_as_ok msg w u w' : statement_as msg w = (OK u, w') ->
  w' = set_tick (w_aborted w) w /\ env_fault (w_ticks w) = false /\ (w_in_tx w && w_aborted w = false).
Proof. intros H%map_err_ok. by apply statement_ok in H. Qed.

(** A successful transaction is a successful run of the function inside one. *)
Lemma WithinTransaction_run {A} (fn : SM A) w a w' :
  WithinTransaction fn w = (OK a, w') ->
  exists w0 w1, fn w0 = (OK a, w1) /\ w_in_tx w0 = true /\
    w_db w0 = w_db w /\ w_next w0 = w_next w /\ w_now w0 = w_now w /\ w_sent w0 = w_sent w /\
    w_db w' = w_db w1 /\ w_next w' = w_next w1 /\ w_now w' = w_now w1 /\ w_sent w' = w_sent w1.
Proof.
  unfold WithinTransaction. destruct (w_in_tx w) eqn:Htx.
  { intros H. exists w, w'. done. }
  destruct (env_fault (w_ticks w)); [done|].
  destruct (fn _) as [[a1|e1] w1] eqn:Hfn; [|done].
  destruct (w_aborted w1 || env_fault (w_ticks w1)); [done|].
  intros [= <- <-]. eexists _, w1. split; [exact Hfn|done].
Qed.

Lemma query_ok {A} (f : DB -> A) w a w' :
  query f w = (OK a, w') ->
  a = f (w_db w) /\ w' = set_tick (w_aborted w) w /\ env_fault (w_ticks w) = false /\
  (w_in_tx w && w_aborted w = false).
Proof.
  unfold query, statement. rewrite M_bind_unfold.
  destruct (w_in_tx w && w_aborted w); [done|].
  destruct (env_fault (w_ticks w)); [done|]. by intros [= <- <-].
Qed.

Lemma exec_ok f w a w' :
  exec f w = (OK a, w') ->
  w' = set_db (f (w_db w)) (set_tick (w_aborted w) w) /\ env_fault (w_ticks w) = false /\
  (w_in_tx w && w_aborted w = false).
Proof.
  unfold exec, statement. rewrite M_bind_unfold.
  destruct (w_in_tx w && w_aborted w); [done|].
  destruct (env_fault (w_ticks w)); [done|]. by intros [= <- <-].
Qed.
End statements.

#[export] Hint Rewrite @bind_fresh @bind_now : run.

(** ** Effects a computation leaves alone

    [preserves P m]: whatever its outcome, [m] does not change [P] of the world. *)
Definition preserves {B A} (P : World -> B) (m : SM A) : Prop :=
  forall w, P (snd (m w)) = P w.

Section preserves.
Context {E : Env} {B : Type} (P : World -> B).

Lemma preserves_ret {A} (a : A) : preserves P (mret a).
Proof. done. Qed.

Lemma preserves_throw {A} e : preserves P (throw e : SM A).
Proof. done. Qed.

Lemma preserves_get : preserves P get.
Proof. done. Qed.

Lemma preserves_bind {A C} (m : SM A) (f : A -> SM C) :
  preserves P m -> (forall a, preserves P (f a)) -> preserves P (mbind f m).
Proof.
  intros Hm Hf w. rewrite M_bind_unfold. specialize (Hm w).
  destruct (m w) as [[a|e] w']; simpl in *; [by rewrite Hf|done].
Qed.

Lemma preserves_gets {A} (f : World -> A) : preserves P (gets f).
Proof. done. Qed.

Lemma preserves_of_result {A} (r : result A) : preserves P (of_result r).
Proof. done. Qed.

Lemma preserves_guard b e : preserves P (guard_err b e).
Proof. by destruct b. Qed.

Lemma preserves_for_each {A} (f : A -> SM unit) xs :
  (forall x, preserves P (f x)) -> preserves P (for_each f xs).
Proof.
  intros Hf. induction xs as [|x xs IH]; simpl; [apply preserves_ret|].
  by apply preserves_bind.
Qed.

Lemma preserves_catch {A} (m : SM A) : preserves P m -> preserves P (catch m).
Proof. intros H w. unfold catch. specialize (H w). by destruct (m w). Qed.

Lemma preserves_map_err {A} f (m : SM A) : preserves P m -> preserves P (map_err f m).
Proof. intros H w. unfold map_err. specialize (H w). by destruct (m w) as [[?|?] ?]. Qed.

Lemma preserves_ok {A} (m : SM A) w r w' : preserves P m -> m w = (r, w') -> P w' = P w.
Proof. intros H Hm. specialize (H w). by rewrite Hm in H. Qed.

Lemma preserves_statement :
  (forall b w, P (set_tick b w) = P w) -> preserves P statement.
Proof.
  intros H w. unfold statement. destruct (w_in_tx w && w_aborted w); [done|].
  destruct (env_fault _); simpl; apply H.
Qed.

Lemma preserves_query {A} (f : DB -> A) :
  (forall b w, P (set_tick b w) = P w) -> preserves P (query f).
Proof. intros H. apply preserves_bind; [by apply preserves_statement|done]. Qed.

Lemma preserves_exec f :
  (forall b w, P (set_tick b w) = P w) ->
  (forall w, P (set_db (f (w_db w)) w) = P w) -> preserves P (exec f).
Proof.
  intros H1 H2. apply preserves_bind; [by apply preserves_statement|].
  intros _ w. apply H2.
Qed.

Lemma preserves_fresh : (forall n w, P (set_next n w) = P w) -> preserves P fresh.
Proof. intros H w. apply H. Qed.

Lemma preserves_now : preserves P now.
Proof. done. Qed.

Lemma preserves_reject {A} e :
  (forall b w, P (set_txstate (w_tx w) (w_in_tx w) b w) = P w) -> preserves P (reject e : SM A).
Proof. intros H w. apply H. Qed.
End preserves.

(** Two worlds with the same database. *)
Abbreviation reads_only m := (preserves w_db m).

(** A computation that runs inside a transaction stays in it. *)
Abbreviation keeps_tx m := (preserves w_in_tx m).

#[export] Hint Resolve preserves_ret preserves_throw preserves_get preserves_gets preserves_guard
  preserves_of_result preserves_now : svc.

(** [frame] proves that a computation preserves a component, by following its
    structure; leaves are closed by the [svc] database. *)
Ltac frame_step :=
  lazymatch goal with
  | |- forall _, _ => intros ?
  | |- preserves _ (mbind _ _) => apply preserves_bind
  | |- preserves _ (for_each _ _) => apply preserves_for_each
  | |- preserves _ (catch _) => apply preserves_catch
  | |- preserves _ (query _) => apply preserves_query; done
  | |- preserves _ (exec _) => apply preserves_exec; done
  | |- preserves _ (map_err _ _) => apply preserves_map_err
  | |- preserves _ (statement_as _) => apply preserves_map_err
  | |- preserves _ (reject_as _) => apply preserves_reject; done
  | |- preserves _ statement => apply preserves_statement; done
  | |- preserves _ fresh => apply preserves_fresh; done
  | |- preserves _ (reject _) => apply preserves_reject; done
  | |- preserves _ (match ?x with _ => _ end) => destruct x
  end.
Ltac frame := repeat (first [ solve [ eauto with svc ] | frame_step ]).
