(* ===== verification/Text.v ===== *)
(** * Text: formatting spans and normalisation of message bodies

    internal/domain/model/mesaage_processing.go.  A Go string is its bytes;
    the two regular expressions are matchers on them.  Offsets and lengths of
    spans are int32 on the wire, so that their sums do not overflow an int. *)
From Stdlib Require Import Ascii.
From S2P Require Import Prelude Domain Events Message World.
#[local] Open Scope Z_scope.

(** ** UTF-8, as package unicode/utf8 reads it *)
Definition byte_at (s : string) (i : nat) : option N := N_of_ascii <$> String.get i s.

Definition in_range (lo hi : N) (b : option N) : bool :=
  match b with Some b => (lo <=? b)%N && (b <=? hi)%N | None => false end.

(** The number of bytes of the rune at the head, 0 when there is none or it is
    not valid; [utf8.DecodeRuneInString] then says (RuneError, 1). *)
Definition rune_size (s : string) : nat :=
  let b0 := byte_at s 0 in let b1 := byte_at s 1 in
  let cont i := in_range 128 191 (byte_at s i) in
  if in_range 0 127 b0 then 1%nat
  else if in_range 194 223 b0 && cont 1%nat then 2%nat
  else if in_range 224 224 b0 && in_range 160 191 b1 && cont 2%nat then 3%nat
  else if (in_range 225 236 b0 || in_range 238 239 b0) && cont 1%nat && cont 2%nat then 3%nat
  else if in_range 237 237 b0 && in_range 128 159 b1 && cont 2%nat then 3%nat
  else if in_range 240 240 b0 && in_range 144 191 b1 && cont 2%nat && cont 3%nat then 4%nat
  else if in_range 241 243 b0 && cont 1%nat && cont 2%nat && cont 3%nat then 4%nat
  else if in_range 244 244 b0 && in_range 128 143 b1 && cont 2%nat && cont 3%nat then 4%nat
  else 0%nat.

Definition rune_width (s : string) : nat := Nat.max 1 (rune_size s).

(** [utf8.RuneStart(b)]: not a continuation byte. *)
Definition RuneStart (c : ascii) : bool :=
  negb (N.land (N_of_ascii c) 192 =? 128)%N.

(** The runes of a string, each with the bytes it occupies. *)
Fixpoint runes (skip : nat) (s : string) : list string :=
  match s with
  | EmptyString => []
  | String _ s' =>
      match skip with
      | S k => runes k s'
      | O => String.substring 0 (rune_width s) s :: runes (rune_width s - 1) s'
      end
  end.

Definition concat_runes (l : list string) : string := String.concat "" l.

(** [unicode.IsSpace] on the bytes of one rune. *)
Definition is_space (r : string) : bool :=
  match N_of_ascii <$> String.list_ascii_of_string r with
  | [b] => bool_decide (b ∈ [9; 10; 11; 12; 13; 32]%N)
  | [194; b]%N => bool_decide (b ∈ [133; 160]%N)
  | [225; 154; 128]%N => true
  | [226; 128; b]%N => ((128 <=? b)%N && (b <=? 138)%N) || bool_decide (b ∈ [168; 169; 175]%N)
  | [226; 129; 159]%N => true
  | [227; 128; 128]%N => true
  | _ => false
  end.

Fixpoint drop_spaces (l : list string) : list string :=
  match l with
  | r :: l' => if is_space r then drop_spaces l' else l
  | [] => []
  end.

(** [strings.TrimSpace], [strings.ToValidUTF8(s, "")]. *)
Definition TrimSpace (s : string) : string :=
  concat_runes (reverse (drop_spaces (reverse (drop_spaces (runes 0 s))))).
Definition ToValidUTF8 (s : string) : string :=
  concat_runes (List.filter (fun r => negb (rune_size r =? 0)%nat) (runes 0 s)).

(** [prepareText]; [nfc] is norm.NFC.String of golang.org/x/text. *)
Definition prepareText (nfc : string -> string) (s : string) : string := nfc (ToValidUTF8 (TrimSpace s)).

(** ** The regular expressions

    A matcher gives the length of the match at the head of a string, 0 for
    none.  [\s] is tab, newline, form feed, carriage return and space. *)
Definition re_space (c : ascii) : bool :=
  bool_decide (N_of_ascii c ∈ [9; 10; 12; 13; 32]%N).
Definition re_word (c : ascii) : bool :=
  let b := N_of_ascii c in
  ((48 <=? b)%N && (b <=? 57)%N) || ((65 <=? b)%N && (b <=? 90)%N) || ((97 <=? b)%N && (b <=? 122)%N) ||
  (b =? 95)%N.
(** The characters that may not open the host of a link: [[\s/$.?#]]. *)
Definition link_stop (c : ascii) : bool :=
  re_space c || bool_decide (N_of_ascii c ∈ [47; 36; 46; 63; 35]%N).

Fixpoint span_length (P : ascii -> bool) (s : string) : nat :=
  match s with
  | String c s' => if P c then S (span_length P s') else 0%nat
  | EmptyString => 0%nat
  end.

Definition drop (n : nat) (s : string) : string := String.substring n (String.length s - n) s.

(** [[^\s/$.?#].[^\s]*]: one rune, one rune that is not a newline, then all up to a space. *)
Definition link_rest (s : string) : option nat :=
  match s with
  | EmptyString => None
  | String c _ =>
      if link_stop c then None
      else
        let n1 := rune_width s in
        let s1 := drop n1 s in
        match s1 with
        | EmptyString => None
        | String c1 _ =>
            if (N_of_ascii c1 =? 10)%N then None
            else let n2 := rune_width s1 in
                 Some (n1 + n2 + span_length (fun c => negb (re_space c)) (drop n2 s1))%nat
        end
  end.

(** [linkRegex], [mentionRegex]. *)
Definition link_at (s : string) : nat :=
  let after n := match link_rest (drop n s) with Some k => (n + k)%nat | None => 0%nat end in
  if String.prefix "https://" s then after 8%nat
  else if String.prefix "http://" s then after 7%nat
  else 0%nat.

Definition mention_at (s : string) : nat :=
  match s with
  | String c s' =>
      if (N_of_ascii c =? 64)%N
      then match span_length re_word s' with O => 0%nat | n => S n end
      else 0%nat
  | EmptyString => 0%nat
  end.

(** [re.FindAllStringIndex(text, -1)] as entities: leftmost matches that do not overlap. *)
Fixpoint find_all (typ : string) (m : string -> nat) (pos : Z) (skip : nat) (s : string) : list Shared.Entity :=
  match s with
  | EmptyString => []
  | String _ s' =>
      match skip with
      | S k => find_all typ m (pos + 1) k s'
      | O =>
          match m s with
          | O => find_all typ m (pos + 1) 0 s'
          | S n => Shared.MkEntity typ pos (Z.of_nat (S n)) (String.substring 0 (S n) s)
                   :: find_all typ m (pos + 1) n s'
          end
      end
  end.

Definition extractEntities (text : string) : list Shared.Entity :=
  find_all "link" link_at 0 0 text ++ find_all "mention" mention_at 0 0 text.

(** ** Spans *)
Definition ent_end (e : Shared.Entity) : Z := Shared.ent_Offset e + Shared.ent_Length e.

Definition overlaps (c e : Shared.Entity) : bool :=
  (Shared.ent_Offset c <? ent_end e) && (Shared.ent_Offset e <? ent_end c).

Definition nonOverlapping (candidates existing : list Shared.Entity) : list Shared.Entity :=
  List.filter (fun c => negb (existsb (overlaps c) existing)) candidates.

(** [utf8.RuneStart(text[i])] for an index inside the text. *)
Definition rune_start_at (text : string) (i : Z) : bool :=
  match String.get (Z.to_nat i) text with Some c => RuneStart c | None => false end.

Definition valid_entity (text : string) (e : Shared.Entity) : bool :=
  let n := Z.of_nat (String.length text) in
  if (Shared.ent_Offset e <? 0) || (Shared.ent_Length e <=? 0) || (n <? ent_end e) then false
  else if negb (rune_start_at text (Shared.ent_Offset e)) then false
  else negb ((ent_end e <? n) && negb (rune_start_at text (ent_end e))).

Definition validateEntityBounds (text : string) (entities : list Shared.Entity) : list Shared.Entity :=
  List.filter (valid_entity text) entities.

Definition entities_to_use (text : string) (entities : list Shared.Entity) : list Shared.Entity :=
  match entities with
  | [] => extractEntities text
  | _ => entities ++ nonOverlapping (extractEntities text) entities
  end.

Definition BuildMetadata {E : Env} (text : string) (entities : list Shared.Entity) : metadata :=
  <["entities" := AnyEntities (validateEntityBounds text (entities_to_use text entities))]>
    (<["graphemes" := AnyInt (env_graphemes text)]> ∅).

(** [DecodeEntitiesFromMetadata] on metadata built in the process; values
    decoded from JSON are not interpreted here. *)
Definition DecodeEntitiesFromMetadata (decode : string -> list Shared.Entity) (m : metadata) : list Shared.Entity :=
  match m !! "entities" with
  | Some (AnyEntities es) => es
  | Some (AnyRaw json) => decode json
  | _ => []
  end.

(** ** Facts *)
Lemma substring_full s : String.substring 0 (String.length s) s = s.
Proof. induction s as [|c s IH]; simpl; [done|by f_equal]. Qed.

Lemma span_length_le P s : (span_length P s <= String.length s)%nat.
Proof. induction s as [|c s IH]; simpl; [lia|]. destruct (P c); lia. Qed.

(** Every match of [find_all] is the text it names: offset, length and value agree. *)
Definition slice (text : string) (off len : Z) : string :=
  String.substring (Z.to_nat off) (Z.to_nat len) text.

Lemma find_all_slice typ m e s : forall p text k,
  (forall i n, String.substring (k + i) n text = String.substring i n s) ->
  e ∈ find_all typ m (Z.of_nat k) p s ->
  Shared.ent_Type e = typ /\ 0 <= Shared.ent_Offset e /\ 0 < Shared.ent_Length e /\
  Shared.ent_Value e = slice text (Shared.ent_Offset e) (Shared.ent_Length e).
Proof.
  induction s as [|c s IH]; intros p text k Hs He; [by apply not_elem_of_nil in He|].
  assert (forall i n, String.substring (S k + i) n text = String.substring i n s) as Hs'.
  { intros i n. rewrite Nat.add_succ_comm. by rewrite Hs. }
  assert (Z.of_nat k + 1 = Z.of_nat (S k)) as Hk by lia.
  simpl in He. rewrite Hk in He. destruct p as [|p]; [|by eapply IH].
  destruct (m (String c s)) as [|n] eqn:Em; [by eapply IH|].
  apply elem_of_cons in He as [->|He]; [|by eapply IH].
  cbn [Shared.ent_Type Shared.ent_Offset Shared.ent_Length Shared.ent_Value]. split_and!; [done|lia|lia|].
  unfold slice. rewrite !Nat2Z.id.
  pose proof (Hs 0%nat (S n)) as H0. rewrite Nat.add_0_r in H0. by rewrite H0.
Qed.

Lemma extractEntities_slice text e : e ∈ extractEntities text ->
  Shared.ent_Value e = slice text (Shared.ent_Offset e) (Shared.ent_Length e) /\
  (Shared.ent_Type e = "link" \/ Shared.ent_Type e = "mention").
Proof.
  unfold extractEntities.
  intros [H|H]%elem_of_app; apply (find_all_slice _ _ _ _ _ text 0) in H; try done; naive_solver.
Qed.

Lemma elem_of_validate text es e :
  e ∈ validateEntityBounds text es <-> e ∈ es /\ valid_entity text e = true.
Proof. unfold validateEntityBounds. by rewrite !list_elem_of_In, filter_In. Qed.

Lemma elem_of_nonOverlapping cs es c :
  c ∈ nonOverlapping cs es <-> c ∈ cs /\ forall e, e ∈ es -> overlaps c e = false.
Proof.
  unfold nonOverlapping. rewrite !list_elem_of_In, filter_In, negb_true_iff, <- not_true_iff_false, existsb_exists.
  split; intros [Hc Hn]; (split; [done|]).
  - intros e He. apply not_true_iff_false. intros Ho. apply Hn. exists e. by rewrite <- list_elem_of_In.
  - intros (e & He & Ho). rewrite <- list_elem_of_In in He. specialize (Hn e He). congruence.
Qed.

(** A span inside the text that starts and ends between runes. *)
Definition span_ok (text : string) (e : Shared.Entity) : Prop :=
  let n := Z.of_nat (String.length text) in
  0 <= Shared.ent_Offset e /\ 0 < Shared.ent_Length e /\ ent_end e <= n /\
  rune_start_at text (Shared.ent_Offset e) = true /\
  (ent_end e = n \/ rune_start_at text (ent_end e) = true).

Lemma valid_entity_spec text e : valid_entity text e = true <-> span_ok text e.
Proof.
  unfold valid_entity, span_ok. set (n := Z.of_nat (String.length text)).
  destruct (Z.ltb_spec (Shared.ent_Offset e) 0), (Z.leb_spec (Shared.ent_Length e) 0),
    (Z.ltb_spec n (ent_end e)); simpl; try (split; [done|lia]).
  destruct (rune_start_at text (Shared.ent_Offset e)); simpl; [|split; [done|by intros (_ & _ & _ & [=] & _)]].
  destruct (Z.ltb_spec (ent_end e) n); simpl.
  - destruct (rune_start_at text (ent_end e)); simpl.
    + split; [intros _; split_and!; lia|done].
    + split; [done|]. intros (_ & _ & _ & _ & [Hn|Hn]); [lia|done].
  - split; [intros _; split_and!; lia|done].
Qed.


Example link_found : extractEntities "see https://a.io, @bob" =
  [Shared.MkEntity "link" 4 13 "https://a.io,"; Shared.MkEntity "mention" 18 4 "@bob"].
Proof. reflexivity. Qed.

Example trimmed : TrimSpace (String (Ascii.ascii_of_N 194) (String (Ascii.ascii_of_N 160) " /close ")) = "/close".
Proof. reflexivity. Qed.
