(* ===== verification/Paginator.v ===== *)
(** * Paginator: keyset pages of ordered queries

    internal/store/query_object/paginator.go.  A page is cut from an ordered
    query by a cursor, the values of the order columns in the row the page
    starts after.  The builder of the SQL library is a record of what was added
    to the statement, [run_select] is what the server answers to it: filter,
    order, limit.  Column values have one type with an order, since the cursors
    of the program hold uuids only; the conversion of JSON numbers is the
    identity on them. *)
From S2P Require Import Prelude Domain Text.
#[local] Open Scope Z_scope.

Definition DirectionAfter : string := "after".
Definition DirectionBefore : string := "before".
Definition DirectionAround : string := "around".

Definition OrderAsc : string := "ASC".
Definition OrderDesc : string := "DESC".

(** [Order.reverse] *)
Definition reverse (o : string) : string := if decide (o = OrderAsc) then OrderDesc else OrderAsc.

Record Column := MkColumn { col_Name : string; col_Order : string }.

Section paginator.
Context {V : Type} `{EqDecision V} (vlt : V -> V -> bool).
Context {Row : Type} (column : string -> Row -> V).
Context {C : Type}.

Definition CursorValues : Type := gmap string V.

Record CursorCodec := MkCodec { Encode : C -> result string; Decode : string -> result (C * bool) }.
Record CursorMapper := MkMapper { ToValues : C -> result CursorValues; FromValues : CursorValues -> result C }.

Record Config := MkConfig {
  cfg_Limit : Z; cfg_Cursor : C; cfg_HasCursor : bool; cfg_Direction : string; cfg_Columns : list Column;
  cfg_Codec : option CursorCodec; cfg_Mapper : option CursorMapper }.

(** The zero cursor stands where a page has no neighbour. *)
Record PageInfo := MkPageInfo {
  pi_HasNextPage : bool; pi_HasPrevPage : bool; pi_NextCursor : C; pi_PrevCursor : C;
  pi_NextToken : string; pi_PrevToken : string }.

(** ** Statements

    [WHERE] conditions, [ORDER BY] terms and [LIMIT] of a select builder. *)
Inductive Atom := AEq (col : string) (v : V) | ACmp (col op : string) (v : V).

Record SelectBuilder := MkSelect {
  sb_where : list (Row -> bool); sb_order : list (string * string); sb_limit : option Z }.

Definition Where (p : Row -> bool) (b : SelectBuilder) : SelectBuilder :=
  MkSelect (sb_where b ++ [p]) (sb_order b) (sb_limit b).
Definition OrderBy (t : string * string) (b : SelectBuilder) : SelectBuilder :=
  MkSelect (sb_where b) (sb_order b ++ [t]) (sb_limit b).
Definition Limit (n : Z) (b : SelectBuilder) : SelectBuilder :=
  MkSelect (sb_where b) (sb_order b) (Some n).

Definition atom_holds (r : Row) (a : Atom) : bool :=
  match a with
  | AEq c v => bool_decide (column c r = v)
  | ACmp c op v =>
      if decide (op = ">") then vlt v (column c r)
      else if decide (op = "<") then vlt (column c r) v
      else if decide (op = ">=") then negb (vlt (column c r) v)
      else if decide (op = "<=") then negb (vlt v (column c r))
      else false
  end.

(** [sq.Or] of [sq.And]s. *)
Definition or_holds (cs : list (list Atom)) (r : Row) : bool := existsb (forallb (atom_holds r)) cs.

(** [a] comes before [b] in the given order. *)
Definition precedes (o : string) (a b : V) : bool := if decide (o = OrderAsc) then vlt a b else vlt b a.

Fixpoint row_before (order : list (string * string)) (a b : Row) : bool :=
  match order with
  | [] => false
  | (c, o) :: order' =>
      precedes o (column c a) (column c b) ||
      (bool_decide (column c a = column c b) && row_before order' a b)
  end.

Definition row_le (order : list (string * string)) (a b : Row) : Prop := row_before order b a = false.

#[export] Instance row_le_dec order : RelDecision (row_le order).
Proof. intros a b. unfold row_le. apply _. Defined.

Definition limited {A} (n : option Z) (l : list A) : list A :=
  match n with Some n => take (Z.to_nat n) l | None => l end.

Definition run_select (b : SelectBuilder) (rows : list Row) : list Row :=
  limited (sb_limit b)
    (merge_sort (row_le (sb_order b)) (List.filter (fun r => forallb (fun p => p r) (sb_where b)) rows)).

(** ** Configuration *)
Definition known_order (o : string) : bool := bool_decide (o = OrderAsc) || bool_decide (o = OrderDesc).
Definition known_direction (d : string) : bool :=
  bool_decide (d = DirectionAfter) || bool_decide (d = DirectionBefore) || bool_decide (d = DirectionAround) ||
  bool_decide (d = "").

Definition blank (s : string) : bool := bool_decide (TrimSpace s = "").

Fixpoint check_columns (i : Z) (cols : list Column) : result unit :=
  match cols with
  | [] => OK tt
  | c :: cols' =>
      if blank (col_Name c) then Err (errors_New ("paginator: column[" +:+ pretty i +:+ "] has empty Name"))
      else if negb (known_order (col_Order c))
      then Err (errors_New ("paginator: column[" +:+ pretty i +:+ "] has invalid Order"))
      else check_columns (i + 1) cols'
  end.

Definition ValidateConfig (cfg : Config) : result unit :=
  if decide (cfg_Limit cfg = 0) then Err (errors_New "paginator: Limit must be > 0")
  else if decide (length (cfg_Columns cfg) = 0%nat) then Err (errors_New "paginator: at least one Column is required")
  else
    check_columns 0 (cfg_Columns cfg);;
    if negb (known_direction (cfg_Direction cfg)) then Err (errors_New "paginator: invalid Direction")
    else match cfg_Codec cfg, cfg_Mapper cfg with
         | None, _ => Err (errors_New "paginator: Codec is required")
         | _, None => Err (errors_New "paginator: Mapper is required")
         | _, _ => OK tt
         end.

Definition EffectiveOrder (c : Column) (dir : string) : string :=
  if decide (dir = DirectionBefore) then reverse (col_Order c) else col_Order c.

Definition applyOrderBy (b : SelectBuilder) (cols : list Column) (dir : string) : SelectBuilder :=
  fold_left (fun b c => OrderBy (col_Name c, EffectiveOrder c dir) b) cols b.

Definition inequalityOp (order dir : string) : string :=
  if (bool_decide (order = OrderAsc) && bool_decide (dir = DirectionAfter)) ||
     (bool_decide (order = OrderDesc) && bool_decide (dir = DirectionBefore)) then ">" else "<".

(** The conjunction for column number [length before]: the columns before it
    are equal, it is past the cursor, or at it when it is the last one and the
    predicate includes the cursor's own row. *)
Definition column_terms (before : list (Column * V)) (c : Column) (v : V) (dir : string) (orEqual : bool) : list Atom :=
  ((fun p => AEq (col_Name p.1) p.2) <$> before) ++
  [ACmp (col_Name c) (inequalityOp (col_Order c) dir +:+ (if orEqual then "=" else "")) v].

Fixpoint predicate_terms (before todo : list (Column * V)) (dir : string) (inclusive : bool) : list (list Atom) :=
  match todo with
  | [] => []
  | (c, v) :: todo' =>
      column_terms before c v dir (inclusive && bool_decide (todo' = [])) ::
      predicate_terms (before ++ [(c, v)]) todo' dir inclusive
  end.

Fixpoint cursor_columns (cols : list Column) (values : CursorValues) : result (list (Column * V)) :=
  match cols with
  | [] => OK []
  | c :: cols' =>
      match values !! col_Name c with
      | None => Err (errors_New ("paginator: cursor is missing value for column " +:+ col_Name c))
      | Some v => rest ← cursor_columns cols' values; OK ((c, v) :: rest)
      end
  end.

Definition cursorPredicate (cols : list Column) (values : CursorValues) (dir : string) (inclusive : bool)
    : result (list (list Atom)) :=
  cvs ← cursor_columns cols values;
  OK (predicate_terms [] cvs dir inclusive).

Definition buildCursorPredicate cols values dir := cursorPredicate cols values dir false.

(** ** Pages after and before a cursor *)
Definition wrap {A} (msg : string) (r : result A) : result A :=
  match r with OK a => OK a | Err e => Err (WithCause e (errors_New msg)) end.

Definition cursor_values (m : CursorMapper) (c : C) : result CursorValues :=
  wrap "paginator: cursor mapper ToValues" (ToValues m c).

(** [uint64]: the limit plus one wraps around. *)
Definition limit_plus_one (n : Z) : Z := (n + 1) `mod` 2 ^ 64.

Definition Apply (b : SelectBuilder) (cfg : Config) : result SelectBuilder :=
  ValidateConfig cfg;;
  match cfg_Mapper cfg with
  | None => Err (errors_New "paginator: Mapper is required")
  | Some m =>
      values ← (if cfg_HasCursor cfg then Some <$> cursor_values m (cfg_Cursor cfg) else OK None);
      let b := applyOrderBy b (cfg_Columns cfg) (cfg_Direction cfg) in
      b ← match values with
          | None => OK b
          | Some v =>
              pred ← buildCursorPredicate (cfg_Columns cfg) v (cfg_Direction cfg);
              OK (Where (or_holds pred) b)
          end;
      OK (Limit (limit_plus_one (cfg_Limit cfg)) b)
  end.

Context (zero : C).
Definition no_page_info : PageInfo := MkPageInfo false false zero zero "" "".

(** The cursor and the token of the row at an edge of the page. *)
Definition edge_if (b : bool) (side : string) (codec : CursorCodec) (cursor : result C) : result (C * string) :=
  if b then
    cur ← wrap ("paginator: extract " +:+ side +:+ " cursor") cursor;
    token ← wrap ("paginator: encode " +:+ side +:+ " cursor") (Encode codec cur);
    OK (cur, token)
  else OK (zero, "").

Definition page_info (codec : CursorCodec) (hasNext hasPrev : bool) (next prev : result C) : result PageInfo :=
  n ← edge_if hasNext "next" codec next;
  p ← edge_if hasPrev "prev" codec prev;
  OK (MkPageInfo hasNext hasPrev n.1 p.1 n.2 p.2).

Definition empty_page : error := errors_New "paginator: empty page".
Definition extract_at (extract : Row -> result C) (r : option Row) : result C :=
  match r with Some r => extract r | None => Err empty_page end.

(** [int(cfg.Limit)] is the limit itself below 2^63. *)
Definition BuildPageInfo (rows : list Row) (cfg : Config) (extract : Row -> result C)
    : result (list Row * PageInfo) :=
  ValidateConfig cfg;;
  match cfg_Codec cfg with
  | None => Err (errors_New "paginator: Codec is required")
  | Some codec =>
      let limit := cfg_Limit cfg in
      let hasExtra := limit <? Z.of_nat (length rows) in
      let rows := if hasExtra then take (Z.to_nat limit) rows else rows in
      let rows := if decide (cfg_Direction cfg = DirectionBefore) then rev rows else rows in
      match rows with
      | [] => OK (rows, no_page_info)
      | first :: _ =>
          if decide (cfg_Direction cfg = DirectionAround)
          then Err (errors_New "paginator: around pages are built by BuildAroundPageInfo")
          else
            let after := bool_decide (cfg_Direction cfg = DirectionAfter) in
            let before := bool_decide (cfg_Direction cfg = DirectionBefore) in
            let hasNext := (after && hasExtra) || (before && cfg_HasCursor cfg) in
            let hasPrev := (after && cfg_HasCursor cfg) || (before && hasExtra) in
            info ← page_info codec hasNext hasPrev (extract_at extract (last rows)) (extract first);
            OK (rows, info)
      end
  end.

(** ** Pages around a cursor *)
Definition aroundLimits (limit : Z) : Z * Z := let prev := limit `div` 2 in (limit - prev, prev).

(** The two statements of the union and its final order. *)
Record AroundQuery := MkAround { aq_next : SelectBuilder; aq_prev : SelectBuilder; aq_order : list (string * string) }.

Definition ApplyAround (b : SelectBuilder) (cfg : Config) : result AroundQuery :=
  ValidateConfig cfg;;
  if negb (cfg_HasCursor cfg) then Err (errors_New "paginator: around requires a cursor")
  else
    match cfg_Mapper cfg with
    | None => Err (errors_New "paginator: Mapper is required")
    | Some m =>
        values ← cursor_values m (cfg_Cursor cfg);
        nextPred ← cursorPredicate (cfg_Columns cfg) values DirectionAfter true;
        prevPred ← cursorPredicate (cfg_Columns cfg) values DirectionBefore false;
        let '(nextLimit, prevLimit) := aroundLimits (cfg_Limit cfg) in
        OK (MkAround
          (Limit (limit_plus_one nextLimit) (applyOrderBy (Where (or_holds nextPred) b) (cfg_Columns cfg) DirectionAfter))
          (Limit (limit_plus_one prevLimit) (applyOrderBy (Where (or_holds prevPred) b) (cfg_Columns cfg) DirectionBefore))
          ((fun c => (col_Name c, col_Order c)) <$> cfg_Columns cfg))
    end.

(** [(next) UNION ALL (prev) ORDER BY ...] *)
Definition run_around (q : AroundQuery) (rows : list Row) : list Row :=
  merge_sort (row_le (aq_order q)) (run_select (aq_next q) rows ++ run_select (aq_prev q) rows).

(** [slices.IndexFunc] splits the rows at the first one that is not newer than the cursor. *)
Fixpoint split_at (isPrev : Row -> bool) (rows : list Row) : list Row * list Row :=
  match rows with
  | [] => ([], [])
  | r :: rows' => if isPrev r then let '(p, n) := split_at isPrev rows' in (r :: p, n) else ([], rows)
  end.

Definition BuildAroundPageInfo (rows : list Row) (cfg : Config) (extract : Row -> result C) (isPrev : Row -> bool)
    : result (list Row * PageInfo) :=
  ValidateConfig cfg;;
  match cfg_Codec cfg with
  | None => Err (errors_New "paginator: Codec is required")
  | Some codec =>
      let '(nextLimit, prevLimit) := aroundLimits (cfg_Limit cfg) in
      let '(prevRows, nextRows) := split_at isPrev rows in
      let hasPrev := prevLimit <? Z.of_nat (length prevRows) in
      let prevRows := if hasPrev then skipn (length prevRows - Z.to_nat prevLimit) prevRows else prevRows in
      let hasNext := nextLimit <? Z.of_nat (length nextRows) in
      let nextRows := if hasNext then take (Z.to_nat nextLimit) nextRows else nextRows in
      let window := prevRows ++ nextRows in
      let edgeCursor r := match r with Some r => extract r | None => OK (cfg_Cursor cfg) end in
      info ← page_info codec hasNext hasPrev (edgeCursor (last window)) (edgeCursor (head window));
      OK (window, info)
  end.
End paginator.

Arguments MkCodec {C}.
Arguments MkMapper {V C}.
Arguments MkConfig {V C}.
Arguments MkPageInfo {C}.
Arguments MkSelect {Row}.
