(* ===== verification/PaginatorRules.v ===== *)
(** * PaginatorRules: keyset pages tile the ordered rows

    The disjunction of conjunctions a cursor becomes is the lexicographic
    order of the statement; a page after, before or around a row is the window
    of the ordered rows there; following the cursors walks through all of them
    and back. *)
From S2P Require Import Prelude Domain Text Paginator.
#[local] Open Scope Z_scope.

(** The comparison of a column type. *)
Class TotalOrder {V : Type} (lt : V -> V -> bool) : Prop := {
  lt_irrefl v : lt v v = false;
  lt_trans a b c : lt a b = true -> lt b c = true -> lt a c = true;
  lt_total a b : lt a b = false -> lt b a = false -> a = b }.

Section order.
Context {V : Type} `{EqDecision V} (vlt : V -> V -> bool) {T : TotalOrder vlt}.
Context {Row : Type} (column : string -> Row -> V).

#[local] Abbreviation precedes := (precedes vlt).
#[local] Abbreviation row_before := (row_before vlt column).

Lemma precedes_irrefl o v : precedes o v v = false.
Proof. unfold Paginator.precedes. destruct (decide _); apply lt_irrefl. Qed.

Lemma precedes_trans o a b c : precedes o a b = true -> precedes o b c = true -> precedes o a c = true.
Proof. unfold Paginator.precedes. destruct (decide _); eauto using lt_trans. Qed.

Lemma precedes_total o a b : precedes o a b = false -> precedes o b a = false -> a = b.
Proof. unfold Paginator.precedes. destruct (decide _); intros; eauto using lt_total. Qed.

Lemma precedes_asym o a b : precedes o a b = true -> precedes o b a = false.
Proof.
  intros H. apply not_true_iff_false. intros H'. pose proof (precedes_trans _ _ _ _ H H') as Hc.
  by rewrite precedes_irrefl in Hc.
Qed.

Lemma precedes_reverse o a b : precedes (reverse o) a b = precedes o b a.
Proof. unfold Paginator.precedes, reverse. destruct (decide (o = OrderAsc)); [by rewrite decide_False|by rewrite decide_True]. Qed.

(** ** Rows under an ORDER BY *)
Definition key (order : list (string * string)) (r : Row) : list V := (fun p => column p.1 r) <$> order.

Lemma row_before_step c o order a b :
  row_before ((c, o) :: order) a b = true <->
  precedes o (column c a) (column c b) = true \/ (column c a = column c b /\ row_before order a b = true).
Proof. simpl. by rewrite orb_true_iff, andb_true_iff, bool_decide_eq_true. Qed.

Lemma row_before_irrefl order a : row_before order a a = false.
Proof.
  induction order as [|[c o] order IH]; [done|]. apply not_true_iff_false. rewrite row_before_step.
  rewrite precedes_irrefl, IH. naive_solver.
Qed.

Lemma row_before_trans order a b c : row_before order a b = true -> row_before order b c = true -> row_before order a c = true.
Proof.
  induction order as [|[x o] order IH]; [done|]. rewrite !row_before_step.
  intros [H1|[E1 H1]] [H2|[E2 H2]]; try rewrite E1 in *; try rewrite <- E2 in *; eauto using precedes_trans.
Qed.

Lemma row_before_total order a b : row_before order a b = false -> row_before order b a = false -> key order a = key order b.
Proof.
  induction order as [|[c o] order IH]; [done|]. intros H1 H2. simpl in *.
  apply orb_false_iff in H1 as [P1 H1], H2 as [P2 H2].
  pose proof (precedes_total _ _ _ P1 P2) as E. f_equal; [done|].
  rewrite bool_decide_true in H1, H2 by done. by apply IH.
Qed.

Lemma row_before_asym order a b : row_before order a b = true -> row_before order b a = false.
Proof.
  intros H. apply not_true_iff_false. intros H'. pose proof (row_before_trans _ _ _ _ H H') as Hc.
  by rewrite row_before_irrefl in Hc.
Qed.

Definition reversed (order : list (string * string)) := (fun p : string * string => (p.1, reverse p.2)) <$> order.

Lemma row_before_reversed order a b : row_before (reversed order) a b = row_before order b a.
Proof.
  induction order as [|[c o] order IH]; [done|]. simpl in *. rewrite precedes_reverse. f_equal.
  rewrite IH. f_equal. apply bool_decide_ext. naive_solver.
Qed.

Lemma row_before_key order a b c : key order a = key order b -> row_before order a c = row_before order b c.
Proof. induction order as [|[x o] order IH]; [done|]. simpl. intros [= -> K]. by rewrite IH. Qed.

Lemma row_before_key_r order a b c : key order a = key order b -> row_before order c a = row_before order c b.
Proof. induction order as [|[x o] order IH]; [done|]. simpl. intros [= -> K]. by rewrite IH. Qed.

#[export] Instance row_le_transitive order : Transitive (row_le vlt column order).
Proof.
  intros a b c Hab Hbc. unfold row_le in *. apply not_true_iff_false. intros Hca.
  destruct (row_before order a b) eqn:E1.
  - pose proof (row_before_trans _ _ _ _ Hca E1) as Hcb. congruence.
  - pose proof (row_before_total _ _ _ E1 Hab) as K.
    rewrite (row_before_key_r _ _ _ c K) in Hca. congruence.
Qed.
#[export] Instance row_le_total order : Total (row_le vlt column order).
Proof.
  intros a b. unfold row_le. destruct (row_before order b a) eqn:E; [right|by left]. by apply row_before_asym.
Qed.

(** ** Sorting *)
#[local] Abbreviation sort order := (merge_sort (row_le vlt column order)).

Section sorted.
Context (order : list (string * string)) (F : list Row) (Huniq : NoDup (key order <$> F)).

Lemma sort_sorted G : StronglySorted (row_le vlt column order) (sort order G).
Proof. apply StronglySorted_merge_sort; apply _. Qed.

Lemma sort_unique G : G ≡ₚ F -> StronglySorted (row_le vlt column order) G -> G = sort order F.
Proof.
  intros HG HS. eapply StronglySorted_unique_strong; [| exact HS | apply sort_sorted | by rewrite merge_sort_Permutation].
  intros a b Ha Hb H1 H2. rewrite merge_sort_Permutation in Hb. rewrite HG in Ha.
  eapply NoDup_fmap_inj; [exact Huniq|done|done|]. by apply row_before_total.
Qed.
End sorted.

Lemma StronglySorted_filter {A} (R : A -> A -> Prop) (P : A -> bool) l :
  StronglySorted R l -> StronglySorted R (List.filter P l).
Proof.
  induction 1 as [|x l Hl IH Hx]; [constructor|]. simpl. destruct (P x); [|done]. constructor; [done|].
  apply Forall_forall. intros y [Hy _]%list_elem_of_In%filter_In. rewrite Forall_forall in Hx. by apply Hx, list_elem_of_In.
Qed.

Lemma StronglySorted_rev {A} (R : A -> A -> Prop) l :
  StronglySorted R l -> StronglySorted (fun x y => R y x) (rev l).
Proof.
  induction 1 as [|x l Hl IH Hx]; [constructor|]. simpl. apply StronglySorted_app_2; [|done|repeat constructor].
  intros a b Ha ->%list_elem_of_singleton. rewrite Forall_forall in Hx. apply Hx.
  rewrite list_elem_of_In in *. by apply in_rev.
Qed.

Lemma StronglySorted_weaken {A} (R R' : A -> A -> Prop) l :
  (forall x y, R x y -> R' x y) -> StronglySorted R l -> StronglySorted R' l.
Proof. intros HR. induction 1; constructor; [done|]. eapply Forall_impl; [eassumption|]. intros y. apply HR. Qed.

Lemma sort_filter order F (P : Row -> bool) : NoDup (key order <$> F) ->
  sort order (List.filter P F) = List.filter P (sort order F).
Proof.
  intros Hu. symmetry. apply sort_unique; [by apply NoDup_fmap_filter| |apply StronglySorted_filter, sort_sorted].
  assert (forall l1 l2 : list Row, l1 ≡ₚ l2 -> List.filter P l1 ≡ₚ List.filter P l2) as Hf.
  { induction 1 as [|x l1 l2 _ IH|x y l|l1 l2 l3 _ IH1 _ IH2]; simpl; [done|by destruct (P x); [f_equiv|]| |by etransitivity].
    destruct (P x), (P y); try done. apply Permutation_swap. }
  apply Hf, merge_sort_Permutation.
Qed.

Lemma sort_reversed order F : NoDup (key order <$> F) -> sort (reversed order) F = rev (sort order F).
Proof.
  intros Hu. symmetry.
  assert (NoDup (key (reversed order) <$> F)) as Hu'.
  { assert (key (reversed order) <$> F = key order <$> F) as ->; [|done]. apply list_fmap_ext. intros _ r _.
    unfold key, reversed. by rewrite <- list_fmap_compose. }
  apply sort_unique; [done| |].
  - rewrite <- Permutation_rev. apply merge_sort_Permutation.
  - eapply StronglySorted_weaken; [|apply StronglySorted_rev, sort_sorted].
    intros a b. unfold row_le. by rewrite row_before_reversed.
Qed.

(** The rows after and before one of a sorted list without equal keys. *)
Lemma sorted_neighbours order S i r : StronglySorted (row_le vlt column order) S -> NoDup (key order <$> S) ->
  S !! i = Some r ->
  List.filter (row_before order r) S = skipn (Datatypes.S i) S /\
  List.filter (fun x => row_before order x r) S = firstn i S.
Proof.
  intros HS. revert i. induction HS as [|x S HS IH Hx]; intros i Hnd Hi; [done|].
  apply NoDup_cons in Hnd as [Hk Hnd]. rewrite Forall_forall in Hx. destruct i as [|i]; simpl in *.
  - injection Hi as ->. rewrite row_before_irrefl, drop_0. split.
    + apply filter_all. intros y Hy. apply not_false_iff_true. intros Hf.
      apply Hk. rewrite (row_before_total _ _ _ Hf (Hx y Hy)). by apply list_elem_of_fmap_2.
    + clear -Hx. induction S as [|y S IH]; [done|]. simpl.
      assert (row_before order y r = false) as -> by (apply (Hx y); left).
      apply IH. intros z Hz. apply Hx. by right.
  - destruct (IH i Hnd Hi) as [H1 H2]. assert (r ∈ S) as Hr by by eapply list_elem_of_lookup_2.
    rewrite H1. assert (row_before order r x = false) as -> by by apply Hx.
    assert (row_before order x r = true) as ->.
    { apply not_false_iff_true. intros Hf. apply Hk. rewrite (row_before_total _ _ _ Hf (Hx r Hr)).
      by apply list_elem_of_fmap_2. }
    split; [done|]. by rewrite H2.
Qed.
End order.

(** ** The cursor predicate *)
Lemma forallb_fmap {A B} (f : A -> B) (P : B -> bool) l : forallb P (f <$> l) = forallb (fun x => P (f x)) l.
Proof. induction l as [|x l IH]; [done|]. cbn. f_equal. apply IH. Qed.

Section predicate.
Context {V : Type} `{EqDecision V} (vlt : V -> V -> bool) {T : TotalOrder vlt}.
Context {Row : Type} (column : string -> Row -> V).

(** The row comes after the position [vs] of the order: a lexicographic comparison. *)
Fixpoint past (order : list (string * string)) (vs : list V) (r : Row) : bool :=
  match order, vs with
  | (c, o) :: order', v :: vs' =>
      precedes vlt o v (column c r) || (bool_decide (v = column c r) && past order' vs' r)
  | _, _ => false
  end.

Definition effective (cols : list Column) (dir : string) : list (string * string) :=
  (fun c => (col_Name c, EffectiveOrder c dir)) <$> cols.

Definition at_position (cvs : list (Column * V)) (r : Row) : bool :=
  forallb (fun p => bool_decide (column (col_Name p.1) r = p.2)) cvs.

Definition page_direction (dir : string) : Prop := dir = DirectionAfter \/ dir = DirectionBefore.

Lemma inequality_holds c v dir r (orEqual : bool) : known_order (col_Order c) = true -> page_direction dir ->
  atom_holds vlt column r (ACmp (col_Name c) (inequalityOp (col_Order c) dir +:+ (if orEqual then "=" else "")) v) =
  precedes vlt (EffectiveOrder c dir) v (column (col_Name c) r) ||
  (orEqual && bool_decide (column (col_Name c) r = v)).
Proof.
  intros Ho Hd. unfold known_order in Ho. apply orb_true_iff in Ho as [Ho|Ho]; apply bool_decide_eq_true in Ho;
    destruct Hd as [-> | ->]; unfold EffectiveOrder, inequalityOp, precedes, reverse; rewrite Ho;
    destruct orEqual; simpl; rewrite ?orb_false_r; try done;
    set (x := column (col_Name c) r);
    (destruct (bool_decide_reflect (x = v)) as [->|Hne];
     [by rewrite lt_irrefl, orb_true_r|rewrite orb_false_r]);
    (destruct (vlt x v) eqn:E1, (vlt v x) eqn:E2; try done;
     [pose proof (lt_trans _ _ _ E1 E2) as Hc; by rewrite lt_irrefl in Hc|by destruct Hne; apply lt_total]).
Qed.

Lemma terms_hold before todo dir (inclusive : bool) r :
  forallb (fun p : Column * V => known_order (col_Order p.1)) todo = true -> page_direction dir ->
  or_holds vlt column (predicate_terms before todo dir inclusive) r =
  at_position before r &&
  (past (effective (fst <$> todo) dir) (snd <$> todo) r ||
   (inclusive && negb (bool_decide (todo = [])) && at_position todo r)).
Proof.
  intros Ho Hd. revert before. induction todo as [|[c v] todo IH]; intros before; simpl in *.
  { by rewrite !andb_false_r. }
  apply andb_true_iff in Ho as [Hc Ho]. unfold or_holds in *. simpl. rewrite IH by done. clear IH.
  unfold column_terms. rewrite forallb_app. cbn [forallb]. rewrite inequality_holds by done.
  assert (forallb (atom_holds vlt column r) ((fun p : Column * V => AEq (col_Name p.1) p.2) <$> before) = at_position before r)
    as -> by by rewrite forallb_fmap.
  assert (at_position (before ++ [(c, v)]) r = at_position before r && bool_decide (column (col_Name c) r = v)) as ->
    by (unfold at_position; rewrite forallb_app; simpl; by rewrite andb_true_r).
  rewrite (bool_decide_ext (v = column (col_Name c) r) (column (col_Name c) r = v)) by naive_solver.
  generalize (precedes vlt (EffectiveOrder c dir) v (column (col_Name c) r)),
    (bool_decide (column (col_Name c) r = v)), (at_position before r).
  intros p e b. destruct todo as [|x todo]; [by destruct b, p, e, inclusive|].
  change (past (effective (list_fmap (Column * V)%type Column fst (x :: todo)) dir)
    (list_fmap (Column * V)%type V snd (x :: todo)) r) with (past (effective (fst <$> x :: todo) dir) (snd <$> x :: todo) r).
  generalize (past (effective (fst <$> x :: todo) dir) (snd <$> x :: todo) r), (at_position (x :: todo) r).
  intros q a. rewrite !bool_decide_false by done. by destruct b, p, e, q, inclusive, a.
Qed.

(** The values a row gives its cursor. *)
Definition values_of (cols : list Column) (r : Row) : list V := (fun c => column (col_Name c) r) <$> cols.

Lemma past_row cols dir r x :
  past (effective cols dir) (values_of cols r) x = row_before vlt column (effective cols dir) r x.
Proof. induction cols as [|c cols IH]; [done|]. simpl. by rewrite IH. Qed.

Lemma cursor_columns_of (cols : list Column) (values : @CursorValues V) r : (forall c, c ∈ cols -> values !! col_Name c = Some (column (col_Name c) r)) ->
  cursor_columns cols values = OK ((fun c => (c, column (col_Name c) r)) <$> cols).
Proof.
  induction cols as [|c cols IH]; intros H; [done|]. simpl. rewrite (H c) by left.
  rewrite IH by (intros x Hx; apply H; by right). done.
Qed.

Lemma predicate_of_row (cols : list Column) (values : @CursorValues V) r dir (inclusive : bool) :
  (forall c, c ∈ cols -> values !! col_Name c = Some (column (col_Name c) r)) ->
  forallb (fun c => known_order (col_Order c)) cols = true -> page_direction dir ->
  exists pred, cursorPredicate cols values dir inclusive = OK pred /\
    forall x, or_holds vlt column pred x =
      row_before vlt column (effective cols dir) r x ||
      (inclusive && negb (bool_decide (cols = [])) && bool_decide (values_of cols x = values_of cols r)).
Proof.
  intros Hv Ho Hd. unfold cursorPredicate. rewrite (cursor_columns_of _ _ _ Hv). simpl. eexists. split; [done|].
  intros x. rewrite terms_hold; [|by rewrite forallb_fmap|done]. simpl.
  rewrite <- !list_fmap_compose. unfold compose. simpl. rewrite list_fmap_id.
  change ((fun c => column (col_Name c) r) <$> cols) with (values_of cols r). rewrite past_row. f_equal. f_equal.
  - f_equal. f_equal. apply bool_decide_ext. by destruct cols.
  - unfold at_position, values_of. clear. induction cols as [|c cols IH]; [done|].
    rewrite !fmap_cons. cbn [forallb fst snd]. rewrite IH.
    destruct (bool_decide_reflect (column (col_Name c) x = column (col_Name c) r)); simpl.
    + apply bool_decide_ext. split; [congruence|by intros [=]].
    + symmetry. apply bool_decide_false. by intros [=].
Qed.
End predicate.

(** ** Statements of pages *)
Lemma filter_filter {A} (P Q : A -> bool) l : List.filter P (List.filter Q l) = List.filter (fun x => Q x && P x) l.
Proof. induction l as [|x l IH]; [done|]. simpl. destruct (Q x); simpl; [|done]. destruct (P x); by rewrite IH. Qed.

Section statements.
Context {V : Type} `{EqDecision V} (vlt : V -> V -> bool) {T : TotalOrder vlt}.
Context {Row : Type} (column : string -> Row -> V) {C : Type}.
Context (cols : list Column) (b : @SelectBuilder Row) (rows : list Row).

#[local] Abbreviation base := (fun r => forallb (fun p => p r) (sb_where b)).

(** The rows the pages are cut from, in the order of the columns. *)
Definition selected : list Row := List.filter base rows.
Definition ordered : list Row := merge_sort (row_le vlt column (effective cols DirectionAfter)) selected.

Context (Hbase : sb_order b = []) (Huniq : NoDup (key column (effective cols DirectionAfter) <$> selected)).
Context (Hknown : forallb (fun c => known_order (col_Order c)) cols = true).

Lemma applyOrderBy_fields (b' : @SelectBuilder Row) dir :
  sb_where (applyOrderBy b' cols dir) = sb_where b' /\
  sb_order (applyOrderBy b' cols dir) = sb_order b' ++ effective cols dir.
Proof.
  unfold applyOrderBy, effective. clear Hbase Huniq Hknown. revert b'.
  induction cols as [|c l IH]; intros b'; simpl; [by rewrite app_nil_r|].
  destruct (IH (OrderBy (col_Name c, EffectiveOrder c dir) b')) as [-> ->]. simpl. by rewrite <- app_assoc.
Qed.

Lemma effective_before : effective cols DirectionBefore = reversed (effective cols DirectionAfter).
Proof. unfold effective, reversed. rewrite <- list_fmap_compose. by apply list_fmap_ext. Qed.

(** What the server answers, before the limit. *)
Lemma select_after (P : Row -> bool) :
  merge_sort (row_le vlt column (effective cols DirectionAfter)) (List.filter P selected) = List.filter P ordered.
Proof. by apply sort_filter. Qed.

Lemma select_before (P : Row -> bool) :
  merge_sort (row_le vlt column (effective cols DirectionBefore)) (List.filter P selected) = rev (List.filter P ordered).
Proof.
  rewrite effective_before, (sort_reversed vlt column) by by apply NoDup_fmap_filter. by rewrite select_after.
Qed.

Lemma ordered_unique : NoDup (key column (effective cols DirectionAfter) <$> ordered).
Proof. unfold ordered. by rewrite merge_sort_Permutation. Qed.

Lemma neighbours i r : ordered !! i = Some r ->
  List.filter (row_before vlt column (effective cols DirectionAfter) r) ordered = skipn (S i) ordered /\
  List.filter (fun x => row_before vlt column (effective cols DirectionAfter) x r) ordered = firstn i ordered.
Proof. apply sorted_neighbours; [done|apply sort_sorted; done|apply ordered_unique]. Qed.

(** The mapper gives the order columns of [r] for the cursor [c]. *)
Definition names (m : CursorMapper) (c : C) (r : Row) : Prop :=
  exists values : @CursorValues V, ToValues m c = OK values /\
    forall col, col ∈ cols -> values !! col_Name col = Some (column (col_Name col) r).

Lemma valid_parts (cfg : @Config V C) : ValidateConfig cfg = OK tt ->
  cfg_Limit cfg <> 0 /\ cfg_Columns cfg <> [] /\ is_Some (cfg_Codec cfg) /\ is_Some (cfg_Mapper cfg).
Proof.
  unfold ValidateConfig. destruct (decide (cfg_Limit cfg = 0)); [done|].
  destruct (decide (length (cfg_Columns cfg) = 0%nat)) as [|Hl]; [done|].
  destruct (check_columns 0 (cfg_Columns cfg)); simpl; [|done]. destruct (known_direction _); simpl; [|done].
  destruct (cfg_Codec cfg), (cfg_Mapper cfg); try done. intros _. split_and!; eauto. intros Hn. by rewrite Hn in Hl.
Qed.

Context (cfg : @Config V C) (m : CursorMapper) (Hcols : cfg_Columns cfg = cols) (Hm : cfg_Mapper cfg = Some m).
Context (Hvalid : ValidateConfig cfg = OK tt) (Hlimit : 0 < cfg_Limit cfg < 2 ^ 64 - 1).

Lemma limit_next : Z.to_nat (limit_plus_one (cfg_Limit cfg)) = S (Z.to_nat (cfg_Limit cfg)).
Proof. unfold limit_plus_one. rewrite Z.mod_small by lia. lia. Qed.

Lemma apply_first : cfg_HasCursor cfg = false -> cfg_Direction cfg = DirectionAfter ->
  exists q, Apply vlt column b cfg = OK q /\
    run_select vlt column q rows = firstn (S (Z.to_nat (cfg_Limit cfg))) ordered.
Proof.
  intros Hc Hd. unfold Apply. rewrite Hvalid, Hm, Hc. simpl. eexists. split; [done|].
  unfold run_select. simpl. rewrite limit_next, Hcols, Hd.
  destruct (applyOrderBy_fields b DirectionAfter) as [-> ->]. by rewrite Hbase.
Qed.

Lemma apply_cursor i r : cfg_HasCursor cfg = true -> page_direction (cfg_Direction cfg) ->
  ordered !! i = Some r -> names m (cfg_Cursor cfg) r ->
  exists q, Apply vlt column b cfg = OK q /\
    run_select vlt column q rows = firstn (S (Z.to_nat (cfg_Limit cfg)))
      (if decide (cfg_Direction cfg = DirectionBefore) then rev (firstn i ordered) else skipn (S i) ordered).
Proof.
  intros Hc Hd Hr (values & Hv & Hval). unfold Apply. rewrite Hvalid, Hm, Hc. simpl. unfold cursor_values. rewrite Hv. simpl.
  destruct (predicate_of_row vlt column cols values r (cfg_Direction cfg) false Hval Hknown Hd) as (pred & Hp & Hholds).
  unfold buildCursorPredicate. rewrite Hcols, Hp. simpl. eexists. split; [done|].
  unfold run_select. simpl. rewrite limit_next. f_equal.
  destruct (applyOrderBy_fields b (cfg_Direction cfg)) as [-> ->]. rewrite Hbase. simpl.
  assert (forall P : Row -> bool, List.filter (fun x => forallb (fun p => p x) (sb_where b ++ [P])) rows = List.filter P selected) as Hf.
  { intros P. unfold selected. rewrite filter_filter. apply List.filter_ext. intros x. rewrite forallb_app. simpl.
    by rewrite andb_true_r. }
  rewrite Hf. assert (forall x, or_holds vlt column pred x = row_before vlt column (effective cols (cfg_Direction cfg)) r x) as Hpx.
  { intros x. by rewrite Hholds, orb_false_r. }
  rewrite (List.filter_ext _ _ Hpx). destruct (neighbours i r Hr) as [H1 H2]. destruct Hd as [-> | ->].
  - rewrite decide_False by done. by rewrite select_after, H1.
  - rewrite decide_True by done. rewrite select_before. f_equal. rewrite <- H2. apply List.filter_ext. intros x.
    by rewrite effective_before, row_before_reversed.
Qed.
End statements.

(** ** Pages *)
Lemma skipn_skipn' {A} (n i : nat) (l : list A) : skipn n (skipn i l) = skipn (i + n) l.
Proof. apply drop_drop. Qed.

Lemma firstn_app_skipn' {A} (n k : nat) (l : list A) : firstn n l ++ firstn k (skipn n l) = firstn (n + k) l.
Proof. apply take_take_drop. Qed.

Section pages.
Context {V : Type} `{EqDecision V} (vlt : V -> V -> bool) {T : TotalOrder vlt}.
Context {Row : Type} (column : string -> Row -> V) {C : Type} (zero : C).

(** A query and how cursors are made from its rows: no order of its own, order
    columns that tell its rows apart, and cursors that carry their values. *)
Record keyset (b : @SelectBuilder Row) (rows : list Row) (cfg : @Config V C) (extract : Row -> result C) : Prop := {
  ks_valid : ValidateConfig cfg = OK tt;
  ks_limit : 0 < cfg_Limit cfg < 2 ^ 64 - 1;
  ks_order : sb_order b = [];
  ks_known : forallb (fun c => known_order (col_Order c)) (cfg_Columns cfg) = true;
  ks_unique : NoDup (key column (effective (cfg_Columns cfg) DirectionAfter) <$> selected b rows);
  ks_codec codec c : cfg_Codec cfg = Some codec -> is_ok (Encode codec c) = true;
  ks_extract r : exists c, extract r = OK c;
  ks_mapper m r c : r ∈ rows -> cfg_Mapper cfg = Some m -> extract r = OK c -> names column (cfg_Columns cfg) m c r }.

(** One page, as the services fetch it. *)
Definition fetch (b : @SelectBuilder Row) (rows : list Row) (extract : Row -> result C) (cfg : @Config V C)
    : result (list Row * @PageInfo C) :=
  q ← Apply vlt column b cfg;
  BuildPageInfo zero (run_select vlt column q rows) cfg extract.

Definition with_cursor (c : C) (dir : string) (cfg : @Config V C) : @Config V C :=
  MkConfig (cfg_Limit cfg) c true dir (cfg_Columns cfg) (cfg_Codec cfg) (cfg_Mapper cfg).

Lemma with_cursor_valid cfg c dir : ValidateConfig cfg = OK tt -> page_direction dir ->
  ValidateConfig (with_cursor c dir cfg) = OK tt.
Proof.
  intros Hv Hd. unfold ValidateConfig in *. simpl. destruct (decide _); [done|]. destruct (decide _); [done|].
  destruct (check_columns _ _); simpl in *; [|done]. destruct (known_direction (cfg_Direction cfg)); simpl in *; [|done].
  assert (known_direction dir = true) as ->; [|done]. by destruct Hd as [-> | ->].
Qed.

Lemma keyset_cursor b rows cfg extract c dir : keyset b rows cfg extract -> page_direction dir ->
  keyset b rows (with_cursor c dir cfg) extract.
Proof. intros [] Hd. split; try done. by apply with_cursor_valid. Qed.

Context (b : @SelectBuilder Row) (rows : list Row) (extract : Row -> result C).

(** What a page says about its neighbours. *)
Definition tells (cfg : @Config V C) (extra : bool) (page : list Row) (info : @PageInfo C) : Prop :=
  let some := negb (bool_decide (page = [])) in
  let before := bool_decide (cfg_Direction cfg = DirectionBefore) in
  pi_HasNextPage info = some && (if before then cfg_HasCursor cfg else extra) /\
  pi_HasPrevPage info = some && (if before then extra else cfg_HasCursor cfg) /\
  (pi_HasNextPage info = true -> exists r, last page = Some r /\ extract r = OK (pi_NextCursor info)) /\
  (pi_HasPrevPage info = true -> exists r, head page = Some r /\ extract r = OK (pi_PrevCursor info)).

Lemma edge_ok codec hb side r c : is_ok (Encode codec c) = true -> extract r = OK c ->
  exists t, edge_if zero hb side codec (extract r) = OK (if hb then (c, t) else (zero, "")).
Proof.
  intros Hc Hr. unfold edge_if. destruct hb; [|by exists ""]. rewrite Hr. simpl.
  destruct (Encode codec c) as [t|]; [|done]. by exists t.
Qed.

Lemma build_page cfg answer : keyset b rows cfg extract -> page_direction (cfg_Direction cfg) ->
  let n := Z.to_nat (cfg_Limit cfg) in
  let page := if decide (cfg_Direction cfg = DirectionBefore) then rev (firstn n answer) else firstn n answer in
  exists info, BuildPageInfo zero answer cfg extract = OK (page, info) /\
    tells cfg (n <? length answer)%nat page info.
Proof.
  intros K Hd n page. destruct (valid_parts cfg (ks_valid _ _ _ _ K)) as (_ & _ & [codec Hcodec] & [m Hm]).
  pose proof (ks_limit _ _ _ _ K) as Hl. unfold BuildPageInfo. rewrite (ks_valid _ _ _ _ K), Hcodec. simpl.
  assert ((cfg_Limit cfg <? Z.of_nat (length answer)) = (n <? length answer)%nat) as ->.
  { destruct (Z.ltb_spec (cfg_Limit cfg) (Z.of_nat (length answer))); symmetry;
      [apply Nat.ltb_lt|apply Nat.ltb_ge]; unfold n; lia. }
  fold n. assert ((if (n <? length answer)%nat then firstn n answer else answer) = firstn n answer) as ->.
  { destruct (Nat.ltb_spec n (length answer)); [done|]. by rewrite firstn_all2. }
  fold page. destruct page as [|first rest] eqn:Hp.
  { eexists. split; [done|]. by unfold tells. }
  assert (cfg_Direction cfg <> DirectionAround) as Hna by (by destruct Hd as [-> | ->]).
  rewrite decide_False by done.
  assert (exists lst, last (first :: rest) = Some lst) as [lst Hlst].
  { destruct (last (first :: rest)) eqn:E; [by eexists|by apply last_None in E]. }
  destruct (ks_extract _ _ _ _ K lst) as (cl & Hcl). destruct (ks_extract _ _ _ _ K first) as (cf & Hcf).
  unfold page_info, extract_at. rewrite Hlst.
  set (hn := _ || _). destruct (edge_ok codec hn "next" lst cl (ks_codec _ _ _ _ K _ _ Hcodec) Hcl) as [tl ->]. simpl.
  set (hp := _ || _). destruct (edge_ok codec hp "prev" first cf (ks_codec _ _ _ _ K _ _ Hcodec) Hcf) as [tf ->]. simpl.
  eexists. split; [done|]. unfold tells. simpl. subst hn hp.
  destruct Hd as [-> | ->]; simpl; rewrite ?orb_false_r; split_and!; try done; intros ->; eauto.
Qed.

(** The page, from the rows the server has past the cursor. *)
Lemma fetch_page cfg X q : keyset b rows cfg extract -> page_direction (cfg_Direction cfg) ->
  Apply vlt column b cfg = OK q ->
  run_select vlt column q rows = firstn (S (Z.to_nat (cfg_Limit cfg))) X ->
  let n := Z.to_nat (cfg_Limit cfg) in
  let page := if decide (cfg_Direction cfg = DirectionBefore) then rev (firstn n X) else firstn n X in
  exists info, fetch b rows extract cfg = OK (page, info) /\ tells cfg (n <? length X)%nat page info.
Proof.
  intros K Hd Hq Hrun n page. unfold fetch. rewrite Hq. simpl. rewrite Hrun.
  destruct (build_page cfg (firstn (S n) X) K Hd) as (info & Hb & Ht).
  fold n in Hb, Ht. rewrite firstn_firstn, Nat.min_l in Hb, Ht by lia. exists info. split; [done|].
  assert ((n <? length (firstn (S n) X)) = (n <? length X))%nat as <-; [|done].
  rewrite length_firstn. destruct (Nat.ltb_spec n (length X)); [apply Nat.ltb_lt|apply Nat.ltb_ge]; lia.
Qed.
#[local] Abbreviation sorted cfg := (ordered vlt column (cfg_Columns cfg) b rows).
#[local] Abbreviation page_at := (fetch b rows extract).

Lemma sorted_row (cfg : @Config V C) i r : sorted cfg !! i = Some r -> r ∈ rows.
Proof.
  intros Hr%list_elem_of_lookup_2. unfold ordered in Hr. rewrite merge_sort_Permutation in Hr.
  by apply list_elem_of_In, filter_In in Hr as [Hr%list_elem_of_In _].
Qed.

(** The page without a cursor, and the ones after and before a row. *)
Lemma first_page cfg : keyset b rows cfg extract -> cfg_HasCursor cfg = false -> cfg_Direction cfg = DirectionAfter ->
  let n := Z.to_nat (cfg_Limit cfg) in
  exists info, page_at cfg = OK (firstn n (sorted cfg), info) /\
    tells cfg (n <? length (sorted cfg))%nat (firstn n (sorted cfg)) info.
Proof.
  intros K Hc Hd n. destruct (valid_parts cfg (ks_valid _ _ _ _ K)) as (_ & _ & _ & [m Hm]).
  destruct (apply_first vlt column (cfg_Columns cfg) b rows (ks_order _ _ _ _ K) cfg m eq_refl Hm
    (ks_valid _ _ _ _ K) (ks_limit _ _ _ _ K) Hc Hd) as (q & Hq & Hrun).
  assert (page_direction (cfg_Direction cfg)) as Hpd by by left.
  pose proof (fetch_page cfg _ q K Hpd Hq Hrun) as Hf. simpl in Hf. by rewrite Hd, decide_False in Hf.
Qed.

Lemma cursor_page cfg dir i r c : keyset b rows cfg extract -> page_direction dir ->
  sorted cfg !! i = Some r -> extract r = OK c ->
  let n := Z.to_nat (cfg_Limit cfg) in
  let page := if decide (dir = DirectionBefore) then skipn (i - n) (firstn i (sorted cfg))
              else firstn n (skipn (S i) (sorted cfg)) in
  let extra := if decide (dir = DirectionBefore) then (n <? i)%nat else (n <? length (sorted cfg) - S i)%nat in
  exists info, page_at (with_cursor c dir cfg) = OK (page, info) /\ tells (with_cursor c dir cfg) extra page info.
Proof.
  intros K Hd Hr Hc n page extra. pose proof (keyset_cursor _ _ _ _ c dir K Hd) as K'.
  destruct (valid_parts cfg (ks_valid _ _ _ _ K)) as (_ & _ & _ & [m Hm]).
  assert (names column (cfg_Columns cfg) m c r) as Hn by (eapply ks_mapper; eauto using sorted_row).
  destruct (apply_cursor vlt column (cfg_Columns cfg) b rows (ks_order _ _ _ _ K) (ks_unique _ _ _ _ K)
    (ks_known _ _ _ _ K) (with_cursor c dir cfg) m eq_refl Hm (ks_valid _ _ _ _ K') (ks_limit _ _ _ _ K) i r
    eq_refl Hd Hr Hn) as (q & Hq & Hrun).
  pose proof (fetch_page (with_cursor c dir cfg) _ q K' Hd Hq Hrun) as (info & Hf & Ht). simpl in *.
  exists info. subst page extra. fold n in Hf, Ht. apply lookup_lt_Some in Hr. destruct (decide (dir = DirectionBefore)).
  - rewrite !firstn_rev, !rev_involutive in Hf, Ht.
    rewrite length_firstn, Nat.min_l in Hf by lia. rewrite List.length_rev, !length_firstn, Nat.min_l in Ht by lia. by split.
  - rewrite length_skipn in Ht. by split.
Qed.

(** Following the cursor of the next page, [pages] pages at most. *)
Fixpoint walk (pages : nat) (cfg : @Config V C) : result (list (list Row)) :=
  match pages with
  | O => OK []
  | S pages' =>
      p ← page_at cfg;
      if pi_HasNextPage p.2 then
        rest ← walk pages' (with_cursor (pi_NextCursor p.2) DirectionAfter cfg);
        OK (p.1 :: rest)
      else OK [p.1]
  end.

(** Whether another page follows rows [X] of which the first [n] are shown. *)
Lemma forward_next cfg X info : keyset b rows cfg extract -> cfg_Direction cfg = DirectionAfter ->
  let n := Z.to_nat (cfg_Limit cfg) in
  tells cfg (n <? length X)%nat (firstn n X) info ->
  (pi_HasNextPage info = true ->
     (n < length X)%nat /\ exists r, X !! pred n = Some r /\ extract r = OK (pi_NextCursor info)) /\
  (pi_HasNextPage info = false -> (length X <= n)%nat).
Proof.
  intros K Hd n (Hn & _ & Hnc & _). rewrite Hd in Hn. simpl in Hn.
  assert (n <> 0%nat) as Hn0 by (pose proof (ks_limit _ _ _ _ K); unfold n; lia). split; intros Hnext.
  - rewrite Hnext in Hn. symmetry in Hn. apply andb_true_iff in Hn as [_ Hn]. apply Nat.ltb_lt in Hn. split; [done|].
    destruct (Hnc Hnext) as (r & Hr & Hc). exists r. split; [|done].
    rewrite last_lookup, length_firstn, Nat.min_l in Hr by lia. by rewrite lookup_take_lt in Hr by lia.
  - rewrite Hnext in Hn. symmetry in Hn. apply andb_false_iff in Hn as [Hn|Hn]; [|by apply Nat.ltb_ge in Hn].
    apply negb_false_iff, bool_decide_eq_true in Hn. destruct X as [|x X]; [simpl; lia|]. by destruct n.
Qed.

Lemma limit_pos cfg : keyset b rows cfg extract -> (0 < Z.to_nat (cfg_Limit cfg))%nat.
Proof. intros K. pose proof (ks_limit _ _ _ _ K). lia. Qed.

(** The walk over rows [X] once its first page is known. *)
Lemma walk_step cfg X pages info (n := Z.to_nat (cfg_Limit cfg)) :
  keyset b rows cfg extract -> cfg_Direction cfg = DirectionAfter ->
  page_at cfg = OK (firstn n X, info) -> tells cfg (n <? length X)%nat (firstn n X) info ->
  (forall r, X !! pred n = Some r -> extract r = OK (pi_NextCursor info) ->
     exists ps, walk pages (with_cursor (pi_NextCursor info) DirectionAfter cfg) = OK ps /\
       concat ps = firstn (pages * n) (skipn n X)) ->
  exists ps, walk (S pages) cfg = OK ps /\ concat ps = firstn (S pages * n) X.
Proof.
  intros K Hd Hf Ht IH. simpl. rewrite Hf. simpl.
  destruct (forward_next cfg X info K Hd Ht) as [Hnext Hlast]. fold n in Hnext, Hlast.
  destruct (pi_HasNextPage info).
  - destruct (Hnext eq_refl) as (_ & r & Hr & Hc). destruct (IH r Hr Hc) as (ps & Hw & Hps).
    rewrite Hw. simpl. eexists. split; [done|]. simpl. rewrite Hps. apply firstn_app_skipn'.
  - specialize (Hlast eq_refl). eexists. split; [done|]. simpl. rewrite app_nil_r, !firstn_all2; [done|lia|done].
Qed.

Lemma walk_from cfg pages i r c : keyset b rows cfg extract -> sorted cfg !! i = Some r -> extract r = OK c ->
  exists ps, walk pages (with_cursor c DirectionAfter cfg) = OK ps /\
    concat ps = firstn (pages * Z.to_nat (cfg_Limit cfg)) (skipn (S i) (sorted cfg)).
Proof.
  intros K. revert i r c. induction pages as [|pages IH]; intros i r c Hr Hc; [by exists []|].
  pose proof (or_introl eq_refl : page_direction DirectionAfter) as Hd.
  destruct (cursor_page cfg DirectionAfter i r c K Hd Hr Hc) as (info & Hf & Ht). simpl in Hf, Ht.
  rewrite <- length_skipn in Ht.
  apply (walk_step (with_cursor c DirectionAfter cfg) _ pages info); [by apply keyset_cursor|done|done|done|].
  simpl. intros r' Hr' Hc'. rewrite lookup_drop in Hr'. pose proof (limit_pos cfg K).
  replace (S i + pred (Z.to_nat (cfg_Limit cfg)))%nat with (i + Z.to_nat (cfg_Limit cfg))%nat in Hr' by lia.
  destruct (IH _ _ _ Hr' Hc') as (ps & Hw & Hps). exists ps. split; [done|]. rewrite Hps, skipn_skipn'. by do 2 f_equal.
Qed.

(** (C10) Pages of a keyset query tile its rows.  Following the cursor of the
    next page from the first page on, for any number of pages, gives the rows of
    the query in its order up to the size of that many pages: none is lost,
    none is shown twice, and with enough pages all of them come. *)
Theorem walk_tiles cfg pages :
  keyset b rows cfg extract -> cfg_HasCursor cfg = false -> cfg_Direction cfg = DirectionAfter ->
  exists ps, walk pages cfg = OK ps /\
    concat ps = firstn (pages * Z.to_nat (cfg_Limit cfg)) (sorted cfg) /\
    ((length (selected b rows) <= pages * Z.to_nat (cfg_Limit cfg))%nat -> concat ps ≡ₚ selected b rows).
Proof.
  intros K Hc Hd.
  assert (exists ps, walk pages cfg = OK ps /\ concat ps = firstn (pages * Z.to_nat (cfg_Limit cfg)) (sorted cfg))
    as (ps & Hw & Hps).
  { destruct pages as [|pages]; [by exists []|]. destruct (first_page cfg K Hc Hd) as (info & Hf & Ht).
    apply (walk_step cfg _ pages info); [done..|]. intros r Hr Hcr. pose proof (limit_pos cfg K).
    destruct (walk_from cfg pages _ r _ K Hr Hcr) as (ps & Hw & Hps). exists ps. split; [done|]. rewrite Hps. do 2 f_equal. lia. }
  exists ps. split; [done|]. split; [done|]. intros Hle. rewrite Hps, firstn_all2; [apply merge_sort_Permutation|].
  unfold ordered. by rewrite merge_sort_Permutation.
Qed.

(** Going to the next page and back shows the same page again: from the
    first page, or from the page after any row, the cursor of the next page
    leads to a page that is not empty and whose previous page is the one left. *)
Theorem next_then_prev cfg cfg' P info :
  keyset b rows cfg extract ->
  cfg' = cfg /\ cfg_HasCursor cfg = false /\ cfg_Direction cfg = DirectionAfter \/
  (exists r c, r ∈ sorted cfg /\ extract r = OK c /\ cfg' = with_cursor c DirectionAfter cfg) ->
  page_at cfg' = OK (P, info) -> pi_HasNextPage info = true ->
  exists Q info2 info3,
    page_at (with_cursor (pi_NextCursor info) DirectionAfter cfg) = OK (Q, info2) /\
    Q <> [] /\ pi_HasPrevPage info2 = true /\
    page_at (with_cursor (pi_PrevCursor info2) DirectionBefore cfg) = OK (P, info3) /\
    pi_HasNextPage info3 = true.
Proof.
  intros K Hcfg Hp Hnext. set (n := Z.to_nat (cfg_Limit cfg)). pose proof (limit_pos cfg K) as Hn. fold n in Hn.
  assert (exists j, P = firstn n (skipn j (sorted cfg)) /\ (n + j < length (sorted cfg))%nat /\
    exists r, sorted cfg !! (j + pred n)%nat = Some r /\ extract r = OK (pi_NextCursor info)) as (j & -> & Hlt & r & Hr & Hc).
  { destruct Hcfg as [(-> & Hc & Hd)|(r & c & [i Hr]%list_elem_of_lookup_1 & Hc & ->)].
    - destruct (first_page cfg K Hc Hd) as (info' & Hf & Ht). rewrite Hp in Hf. injection Hf as -> <-.
      destruct (forward_next cfg _ info K Hd Ht) as [[Hl (r & Hr & Hcr)] _]; [done|]. exists 0%nat. fold n in Hl, Hr.
      rewrite drop_0. split; [done|]. split; [lia|]. by exists r.
    - destruct (cursor_page cfg DirectionAfter i r c K (or_introl eq_refl) Hr Hc) as (info' & Hf & Ht).
      rewrite Hp in Hf. injection Hf as -> <-. simpl in Ht. rewrite <- length_skipn in Ht.
      destruct (forward_next (with_cursor c DirectionAfter cfg) _ info
        (keyset_cursor _ _ _ _ _ _ K (or_introl eq_refl)) eq_refl Ht) as [[Hl (r' & Hr' & Hcr)] _]; [done|].
      simpl in Hl, Hr'. fold n in Hl, Hr'. rewrite length_skipn in Hl. rewrite lookup_drop in Hr'.
      exists (S i). simpl. split; [done|]. split; [lia|]. by exists r'. }
  destruct (cursor_page cfg DirectionAfter _ r _ K (or_introl eq_refl) Hr Hc) as (info2 & Hf2 & Ht2). simpl in Hf2, Ht2.
  fold n in Hf2, Ht2. replace (S (j + pred n)) with (n + j)%nat in Hf2, Ht2 by lia.
  destruct (lookup_lt_is_Some_2 (sorted cfg) (n + j)%nat Hlt) as [r2 Hr2].
  assert (head (firstn n (skipn (n + j) (sorted cfg))) = Some r2) as Hhead.
  { rewrite head_lookup, lookup_take_lt, lookup_drop by lia. by rewrite Nat.add_0_r. }
  destruct Ht2 as (_ & Hprev & _ & Hpc). rewrite bool_decide_false in Hprev by (intros E; by rewrite E in Hhead).
  simpl in Hprev. destruct (Hpc Hprev) as (r2' & Hh & Hc2). rewrite Hhead in Hh. injection Hh as <-.
  destruct (cursor_page cfg DirectionBefore _ r2 _ K (or_intror eq_refl) Hr2 Hc2) as (info3 & Hf3 & Ht3). simpl in Hf3, Ht3.
  fold n in Hf3, Ht3. replace (n + j - n)%nat with j in Hf3, Ht3 by lia.
  assert (skipn j (firstn (n + j) (sorted cfg)) = firstn n (skipn j (sorted cfg))) as Hw.
  { rewrite (Nat.add_comm n j). symmetry. apply firstn_skipn_comm. }
  rewrite Hw in Hf3, Ht3. exists (firstn n (skipn (n + j) (sorted cfg))), info2, info3.
  split; [done|]. split; [intros E; by rewrite E in Hhead|]. split; [done|]. split; [done|].
  destruct Ht3 as (Hn3 & _). rewrite Hn3. simpl. rewrite bool_decide_false; [done|].
  intros E%(f_equal length). rewrite length_firstn, length_skipn in E. simpl in E. lia.
Qed.

(** ** Around a row *)
Definition fetch_around (isPrev : Row -> bool) (cfg : @Config V C) : result (list Row * @PageInfo C) :=
  q ← ApplyAround vlt column b cfg;
  BuildAroundPageInfo zero (run_around vlt column q rows) cfg extract isPrev.

Lemma split_at_app (P : Row -> bool) l1 l2 : (forall x, x ∈ l1 -> P x = true) -> (forall x, head l2 = Some x -> P x = false) ->
  split_at P (l1 ++ l2) = (l1, l2).
Proof.
  intros H1 H2. induction l1 as [|x l1 IH]; simpl.
  - destruct l2 as [|y l2]; [done|]. simpl. by rewrite (H2 y eq_refl).
  - rewrite (H1 x) by left. rewrite IH; [done|]. intros y Hy. apply H1. by right.
Qed.

Lemma segment_sorted cfg j k : keyset b rows cfg extract ->
  let seg := skipn j (firstn k (sorted cfg)) in
  StronglySorted (row_le vlt column (effective (cfg_Columns cfg) DirectionAfter)) seg /\
  NoDup (key column (effective (cfg_Columns cfg) DirectionAfter) <$> seg).
Proof.
  intros K seg. split.
  - assert (sorted cfg = firstn j (firstn k (sorted cfg)) ++ seg ++ skipn k (sorted cfg)) as Hs.
    { unfold seg. rewrite app_assoc, firstn_skipn. by rewrite firstn_skipn. }
    pose proof (sort_sorted vlt column (effective (cfg_Columns cfg) DirectionAfter) (selected b rows)) as HS.
    fold (sorted cfg) in HS. rewrite Hs in HS.
    apply StronglySorted_app_1_r, StronglySorted_app_1_l in HS. done.
  - pose proof (ordered_unique vlt column (cfg_Columns cfg) b rows (ks_unique _ _ _ _ K)) as Hu.
    rewrite <- (firstn_skipn k (sorted cfg)), fmap_app in Hu. apply NoDup_app in Hu as (Hu & _ & _).
    rewrite <- (firstn_skipn j (firstn k (sorted cfg))), fmap_app in Hu. by apply NoDup_app in Hu as (_ & _ & Hu).
Qed.

Lemma filter_prefix {A} (P Q : A -> bool) (l : list A) i : (forall x, Q x = negb (P x)) ->
  List.filter P l = firstn i l -> List.filter Q l = skipn i l.
Proof.
  intros HQ. revert i. induction l as [|x l IH]; intros i H; [by destruct i|]. simpl in *. rewrite (HQ x).
  destruct i as [|i]; simpl in *.
  - destruct (P x); [done|]. simpl. f_equal. assert (List.filter P l = firstn 0 l) as H' by done. by rewrite (IH 0%nat H').
  - destruct (P x) eqn:E; simpl; [injection H as H; by apply IH|].
    exfalso. assert (x ∈ List.filter P l) as Hx by (rewrite H; left).
    apply list_elem_of_In, filter_In in Hx as [_ Hx]. congruence.
Qed.

Lemma at_or_after cfg x r : keyset b rows cfg extract ->
  let eff := effective (cfg_Columns cfg) DirectionAfter in
  row_before vlt column eff r x || true && negb (bool_decide (cfg_Columns cfg = [])) &&
    bool_decide (values_of column (cfg_Columns cfg) x = values_of column (cfg_Columns cfg) r) =
  negb (row_before vlt column eff x r).
Proof.
  intros K eff. destruct (valid_parts cfg (ks_valid _ _ _ _ K)) as (_ & Hne & _). rewrite (bool_decide_false _ Hne). simpl.
  assert (forall y, values_of column (cfg_Columns cfg) y = key column eff y) as Hk.
  { intros y. unfold values_of, key, eff, effective. by rewrite <- list_fmap_compose. }
  rewrite !Hk. destruct (row_before vlt column eff x r) eqn:E1; simpl.
  - rewrite (row_before_asym vlt column _ _ _ E1). simpl. apply bool_decide_false. intros E.
    by rewrite (row_before_key vlt column eff x r r E), row_before_irrefl in E1.
  - destruct (row_before vlt column eff r x) eqn:E2; [done|]. simpl. apply bool_decide_true.
    by apply (row_before_total vlt).
Qed.

(** What the two statements of the union return, in the final order. *)
Lemma around_rows cfg i r c m : keyset b rows cfg extract -> cfg_Mapper cfg = Some m -> cfg_HasCursor cfg = true ->
  sorted cfg !! i = Some r -> extract r = OK c -> cfg_Cursor cfg = c ->
  let '(nextLimit, prevLimit) := aroundLimits (cfg_Limit cfg) in
  exists q, ApplyAround vlt column b cfg = OK q /\
    run_around vlt column q rows =
    skipn (i - S (Z.to_nat prevLimit)) (firstn (i + S (Z.to_nat nextLimit)) (sorted cfg)).
Proof.
  intros K Hm Hc Hr Hcr Hcc. unfold aroundLimits. pose proof (ks_limit _ _ _ _ K) as Hl.
  set (prev := cfg_Limit cfg `div` 2). set (next := cfg_Limit cfg - prev).
  assert (0 <= prev /\ 0 <= next /\ next <= cfg_Limit cfg /\ prev <= cfg_Limit cfg) as (Hp & Hn & Hn2 & Hp2).
  { unfold next, prev. pose proof (Z.div_pos (cfg_Limit cfg) 2). pose proof (Z.div_le_upper_bound (cfg_Limit cfg) 2 (cfg_Limit cfg)). lia. }
  assert (names column (cfg_Columns cfg) m (cfg_Cursor cfg) r) as (values & Hv & Hval).
  { rewrite Hcc. eapply ks_mapper; eauto using sorted_row. }
  unfold ApplyAround. rewrite (ks_valid _ _ _ _ K), Hc, Hm. simpl. unfold cursor_values. rewrite Hv. simpl.
  destruct (predicate_of_row vlt column (cfg_Columns cfg) values r DirectionAfter true Hval (ks_known _ _ _ _ K) (or_introl eq_refl))
    as (np & Hnp & Hnholds).
  destruct (predicate_of_row vlt column (cfg_Columns cfg) values r DirectionBefore false Hval (ks_known _ _ _ _ K) (or_intror eq_refl))
    as (pp & Hpp & Hpholds).
  rewrite Hnp, Hpp. simpl. unfold aroundLimits. fold prev next. eexists. split; [done|].
  assert (effective (cfg_Columns cfg) DirectionAfter = (fun c0 => (col_Name c0, col_Order c0)) <$> cfg_Columns cfg) as Heff.
  { apply list_fmap_ext. done. }
  unfold run_around. simpl. rewrite <- Heff. set (eff := effective (cfg_Columns cfg) DirectionAfter) in *.
  destruct (neighbours vlt column (cfg_Columns cfg) b rows (ks_unique _ _ _ _ K) i r Hr) as [H1 H2]. fold eff in H1, H2.
  assert (forall P : Row -> bool, List.filter (fun x => forallb (fun p => p x) (sb_where b ++ [P])) rows = List.filter P (selected b rows)) as Hf.
  { intros P. unfold selected. rewrite filter_filter. apply List.filter_ext. intros x. rewrite forallb_app. simpl. by rewrite andb_true_r. }
  assert (forall z, 0 <= z <= cfg_Limit cfg -> Z.to_nat (limit_plus_one z) = S (Z.to_nat z)) as Hlim.
  { intros z Hz. unfold limit_plus_one. rewrite Z.mod_small by lia. lia. }
  unfold run_select. simpl. rewrite !Hlim by lia.
  destruct (applyOrderBy_fields (cfg_Columns cfg) (Where (or_holds vlt column np) b) DirectionAfter) as [-> ->].
  destruct (applyOrderBy_fields (cfg_Columns cfg) (Where (or_holds vlt column pp) b) DirectionBefore) as [-> ->].
  simpl. rewrite (ks_order _ _ _ _ K), !Hf. simpl. rewrite (select_after vlt column), (select_before vlt column) by apply K.
  fold (sorted cfg).
  assert (List.filter (or_holds vlt column np) (sorted cfg) = skipn i (sorted cfg)) as ->.
  { apply (filter_prefix (fun x => row_before vlt column eff x r)); [|done]. intros x. rewrite Hnholds.
    by apply at_or_after. }
  assert (List.filter (or_holds vlt column pp) (sorted cfg) = firstn i (sorted cfg)) as ->.
  { rewrite <- H2. apply List.filter_ext. intros x. rewrite Hpholds, orb_false_r, effective_before. apply row_before_reversed. }
  set (p := Z.to_nat prev). set (n := Z.to_nat next). apply lookup_lt_Some in Hr as Hi.
  assert (firstn (S p) (rev (firstn i (sorted cfg))) = rev (skipn (i - S p) (firstn i (sorted cfg)))) as ->.
  { rewrite firstn_rev, length_firstn, Nat.min_l by lia. done. }
  destruct (segment_sorted cfg (i - S p) (i + S n) K) as [HS Hu]. fold eff in HS, Hu.
  assert (skipn (i - S p) (firstn (i + S n) (sorted cfg)) ≡ₚ
    firstn (S n) (skipn i (sorted cfg)) ++ rev (skipn (i - S p) (firstn i (sorted cfg)))) as HP.
  { rewrite <- take_take_drop, drop_app_le by (rewrite length_firstn; lia). rewrite <- Permutation_rev. apply Permutation_app_comm. }
  symmetry. apply sort_unique; [done| |done|done]. by rewrite <- HP.
Qed.

(** The rows of the union, and what is left of them when both sides are cut to size. *)
Lemma window_pieces {A} (O : list A) i prev next : (i < length O)%nat ->
  let before := skipn (i - S prev) (firstn i O) in
  let from := firstn (S next) (skipn i O) in
  skipn (i - S prev) (firstn (i + S next) O) = before ++ from /\
  (prev <? length before)%nat = (prev <? i)%nat /\
  (next <? length from)%nat = (i + next <? length O)%nat /\
  (if (prev <? i)%nat then skipn (length before - prev) before else before) ++
  (if (i + next <? length O)%nat then firstn next from else from) = skipn (i - prev) (firstn (i + next) O).
Proof.
  intros Hi before from.
  assert (length before = i - (i - S prev))%nat as Hlb by (unfold before; rewrite length_skipn, length_firstn; lia).
  assert (length from = S next `min` (length O - i))%nat as Hlf by (unfold from; by rewrite length_firstn, length_skipn).
  split_and!.
  - unfold before, from. rewrite <- take_take_drop, drop_app_le; [done|]. rewrite length_firstn. lia.
  - destruct (Nat.ltb_spec prev i); [apply Nat.ltb_lt|apply Nat.ltb_ge]; lia.
  - destruct (Nat.ltb_spec (i + next) (length O)); [apply Nat.ltb_lt|apply Nat.ltb_ge]; lia.
  - rewrite <- take_take_drop, drop_app_le by (rewrite length_firstn; lia). f_equal.
    + rewrite Hlb. unfold before. destruct (Nat.ltb_spec prev i); [rewrite skipn_skipn'|]; f_equal; lia.
    + unfold from. destruct (Nat.ltb_spec (i + next) (length O)); [rewrite firstn_firstn; f_equal; lia|].
      rewrite !firstn_all2; [done|rewrite length_skipn; lia|rewrite length_skipn; lia].
Qed.

(** A page around a row shows the rows next to it: at most half of the page
    before it, the row itself and the rest after it, in the order of the query,
    without a gap; and it says exactly whether more rows lie before and after. *)
Theorem around_window cfg i r c (isPrev : Row -> bool) :
  keyset b rows cfg extract -> cfg_HasCursor cfg = true -> cfg_Cursor cfg = c ->
  sorted cfg !! i = Some r -> extract r = OK c ->
  (forall x, isPrev x = row_before vlt column (effective (cfg_Columns cfg) DirectionAfter) x r) ->
  let prev := Z.to_nat (cfg_Limit cfg `div` 2) in
  let next := (Z.to_nat (cfg_Limit cfg) - prev)%nat in
  let window := skipn (i - prev) (firstn (i + next) (sorted cfg)) in
  exists info, fetch_around isPrev cfg = OK (window, info) /\
    r ∈ window /\ (length window <= Z.to_nat (cfg_Limit cfg))%nat /\
    pi_HasPrevPage info = (prev <? i)%nat /\ pi_HasNextPage info = (i + next <? length (sorted cfg))%nat /\
    (pi_HasNextPage info = true -> exists x, last window = Some x /\ extract x = OK (pi_NextCursor info)) /\
    (pi_HasPrevPage info = true -> exists x, head window = Some x /\ extract x = OK (pi_PrevCursor info)).
Proof.
  intros K Hc Hcc Hr Hcr HP prev next window.
  destruct (valid_parts cfg (ks_valid _ _ _ _ K)) as (_ & _ & [codec Hcodec] & [m Hm]).
  pose proof (around_rows cfg i r c m K Hm Hc Hr Hcr Hcc) as Hrows. pose proof (ks_limit _ _ _ _ K) as Hl.
  unfold aroundLimits in Hrows. destruct Hrows as (q & Hq & Hrun).
  assert (0 <= cfg_Limit cfg `div` 2 < cfg_Limit cfg) as Hdiv.
  { split; [apply Z.div_pos; lia|]. apply Z.div_lt; lia. }
  assert (Z.to_nat (cfg_Limit cfg - cfg_Limit cfg `div` 2) = next) as Hnext by (unfold next, prev; lia).
  rewrite Hnext in Hrun. fold prev in Hrun. apply lookup_lt_Some in Hr as Hi.
  assert (0 < next)%nat as Hn0 by (unfold next, prev; lia).
  unfold fetch_around. rewrite Hq. simpl. unfold BuildAroundPageInfo, aroundLimits.
  rewrite (ks_valid _ _ _ _ K), Hcodec, Hrun. simpl. rewrite Hnext.
  destruct (neighbours vlt column (cfg_Columns cfg) b rows (ks_unique _ _ _ _ K) i r Hr) as [_ Hbefore].
  set (O := sorted cfg) in *. destruct (window_pieces O i prev next Hi) as (Hpieces & Hb & Hf & Hw).
  set (before := skipn (i - S prev) (firstn i O)) in *. set (from := firstn (S next) (skipn i O)) in *.
  rewrite Hpieces, (split_at_app isPrev before from).
  2: { intros x Hx. rewrite HP. assert (x ∈ firstn i O) as Hx'
         by (rewrite <- (firstn_skipn (i - S prev) (firstn i O)); apply elem_of_app; by right).
       rewrite <- Hbefore in Hx'. by apply list_elem_of_In, filter_In in Hx' as [_ Hx']. }
  2: { intros x Hx. unfold from in Hx. rewrite head_lookup, lookup_take_lt, lookup_drop, Nat.add_0_r in Hx by lia.
       rewrite Hr in Hx. injection Hx as <-. rewrite HP. apply row_before_irrefl. done. }
  assert (forall z (k l : nat), Z.to_nat z = k -> 0 <= z -> (z <? Z.of_nat l) = (k <? l)%nat) as Hz.
  { intros z k l <- Hz. destruct (Nat.ltb_spec (Z.to_nat z) l); [apply Z.ltb_lt|apply Z.ltb_ge]; lia. }
  rewrite (Hz _ prev) by (unfold prev; lia). rewrite (Hz _ next) by lia. rewrite Hb, Hf. fold prev. rewrite Hw. fold window.
  assert (r ∈ window) as Hrw.
  { unfold window. apply list_elem_of_lookup_2 with (i - (i - prev))%nat. rewrite lookup_drop.
    rewrite lookup_take_lt by lia. replace (i - prev + (i - (i - prev)))%nat with i by lia. done. }
  assert (exists x, head window = Some x) as [x0 Hx0] by (destruct window; [by apply not_elem_of_nil in Hrw|by eexists]).
  assert (exists x, last window = Some x) as [x1 Hx1].
  { destruct (last window) eqn:E; [by eexists|]. apply last_None in E. rewrite E in Hrw. by apply not_elem_of_nil in Hrw. }
  rewrite Hx0, Hx1. destruct (ks_extract _ _ _ _ K x0) as (c0 & Hc0), (ks_extract _ _ _ _ K x1) as (c1 & Hc1).
  unfold page_info.
  destruct (edge_ok codec (i + next <? length O)%nat "next" x1 c1 (ks_codec _ _ _ _ K _ _ Hcodec) Hc1) as [t1 ->]. simpl.
  destruct (edge_ok codec (prev <? i)%nat "prev" x0 c0 (ks_codec _ _ _ _ K _ _ Hcodec) Hc0) as [t0 ->]. simpl.
  eexists. split; [done|]. simpl. split; [done|]. split; [|split; [done|split; [done|split; intros ->; eauto]]].
  unfold window. rewrite length_skipn, length_firstn. unfold next, prev. lia.
Qed.
End pages.

(** (C37) The condition a cursor adds to a statement, a disjunction of one
    conjunction per column, is the comparison of rows by the order of the
    statement: it selects exactly the rows that come after the row of the
    cursor, for any number of columns ascending or descending, in both
    directions; the inclusive form adds the row itself.  A cursor that lacks a
    column is refused. *)
Theorem cursorPredicate_lexicographic {V} `{EqDecision V} (vlt : V -> V -> bool) {T : TotalOrder vlt} {Row}
    (column : string -> Row -> V) (cols : list Column) (values : @CursorValues V) (r : Row) (dir : string) (inclusive : bool) :
  forallb (fun c => known_order (col_Order c)) cols = true -> page_direction dir -> cols <> [] ->
  ((forall c, c ∈ cols -> values !! col_Name c = Some (column (col_Name c) r)) ->
   exists pred, cursorPredicate cols values dir inclusive = OK pred /\
     forall x, or_holds vlt column pred x = true <->
       row_before vlt column (effective cols dir) r x = true \/ (inclusive = true /\ values_of column cols x = values_of column cols r)) /\
  (forall c, c ∈ cols -> values !! col_Name c = None -> is_ok (cursorPredicate cols values dir inclusive) = false).
Proof.
  intros Hk Hd Hne. split.
  - intros Hv. destruct (predicate_of_row vlt column cols values r dir inclusive Hv Hk Hd) as (pred & Hp & Hh).
    exists pred. split; [done|]. intros x. rewrite Hh, orb_true_iff, !andb_true_iff, negb_true_iff, bool_decide_eq_true, bool_decide_eq_false.
    naive_solver.
  - intros c Hc Hv. unfold cursorPredicate. clear Hk Hd Hne. induction cols as [|x cols IH]; [by apply not_elem_of_nil in Hc|].
    simpl. destruct (values !! col_Name x) as [v|] eqn:Hx; [|done].
    apply elem_of_cons in Hc as [->|Hc]; [congruence|]. specialize (IH Hc). by destruct (cursor_columns cols values).
Qed.

(** ** uuids *)
#[export] Instance uuid_order : TotalOrder N.ltb.
Proof. split; [apply N.ltb_irrefl|intros a b c; rewrite !N.ltb_lt; lia|intros a b; rewrite !N.ltb_ge; lia]. Qed.

(** ** Witnesses: five rows, pages of two *)
Definition id_columns : list Column := [MkColumn "id" OrderDesc].
Definition id_of (_ : string) (r : uuid) : uuid := r.
Definition id_mapper : @CursorMapper uuid uuid := MkMapper (fun c => OK {["id" := c]}) (fun _ => Err (errors_New "")).
Definition id_config : @Config uuid uuid :=
  MkConfig 2 0%N false DirectionAfter id_columns (Some (MkCodec (fun _ => OK "") (fun _ => OK (0%N, false)))) (Some id_mapper).
Definition id_rows : list uuid := [3; 9; 4; 7; 1]%N.

Lemma id_keyset cfg : cfg_Limit cfg = 2 -> cfg_Columns cfg = id_columns -> cfg_Codec cfg = cfg_Codec id_config ->
  cfg_Mapper cfg = Some id_mapper -> ValidateConfig cfg = OK tt -> keyset id_of (MkSelect [] [] None) id_rows cfg OK.
Proof.
  intros Hl Hcols Hcodec Hm Hv. split; [done|rewrite Hl; lia|done|by rewrite Hcols|rewrite Hcols; apply (bool_decide_unpack _); vm_compute; exact I| | |].
  - intros codec c. rewrite Hcodec. by intros [= <-].
  - intros r. by exists r.
  - intros m r c _. rewrite Hm. intros [= <-] [= <-]. exists {["id" := r]}. split; [done|].
    intros col. rewrite Hcols. intros ->%list_elem_of_singleton. exact (lookup_singleton_eq (M:=gmap string) "id" r).
Qed.

Lemma walk_tiles_witness :
  walk N.ltb id_of 0%N (MkSelect [] [] None) id_rows OK 3 id_config = OK [[9; 7]; [4; 3]; [1]]%N /\
  concat [[9; 7]; [4; 3]; [1]]%N ≡ₚ id_rows.
Proof.
  split; [vm_compute; reflexivity|].
  destruct (walk_tiles N.ltb id_of 0%N (MkSelect [] [] None) id_rows OK id_config 3
    (id_keyset id_config eq_refl eq_refl eq_refl eq_refl eq_refl) eq_refl eq_refl) as (ps & Hw & _ & Hp).
  assert (ps = [[9; 7]; [4; 3]; [1]]%N) as <-; [|apply Hp; vm_compute; lia].
  assert (OK ps = OK [[9; 7]; [4; 3]; [1]]%N) as E by (rewrite <- Hw; vm_compute; reflexivity). by injection E.
Defined.

Lemma next_then_prev_witness :
  exists P info Q info2 info3,
    fetch N.ltb id_of 0%N (MkSelect [] [] None) id_rows OK id_config = OK (P, info) /\ P = [9; 7]%N /\
    fetch N.ltb id_of 0%N (MkSelect [] [] None) id_rows OK (with_cursor (pi_NextCursor info) DirectionAfter id_config) = OK (Q, info2) /\
    Q <> [] /\
    fetch N.ltb id_of 0%N (MkSelect [] [] None) id_rows OK (with_cursor (pi_PrevCursor info2) DirectionBefore id_config) = OK (P, info3).
Proof.
  destruct (fetch N.ltb id_of 0%N (MkSelect [] [] None) id_rows OK id_config) as [[P info]|] eqn:E; [|vm_compute in E; discriminate E].
  assert (P = [9; 7]%N /\ pi_HasNextPage info = true) as [HP Hn] by (vm_compute in E; injection E as <- <-; by split).
  destruct (next_then_prev N.ltb id_of 0%N (MkSelect [] [] None) id_rows OK id_config id_config P info
    (id_keyset id_config eq_refl eq_refl eq_refl eq_refl eq_refl) (or_introl (conj eq_refl (conj eq_refl eq_refl))) E Hn)
    as (Q & info2 & info3 & H1 & H2 & _ & H3 & _).
  exists P, info, Q, info2, info3. by split_and!.
Defined.

Definition around_config : @Config uuid uuid :=
  MkConfig 2 4%N true DirectionAround id_columns (cfg_Codec id_config) (Some id_mapper).

Lemma around_window_witness :
  exists info, fetch_around N.ltb id_of 0%N (MkSelect [] [] None) id_rows OK (fun x => N.ltb 4 x) around_config = OK ([7; 4]%N, info) /\
    pi_HasPrevPage info = true /\ pi_HasNextPage info = true.
Proof.
  destruct (around_window N.ltb id_of 0%N (MkSelect [] [] None) id_rows OK around_config 2 4%N 4%N (fun x => N.ltb 4 x)
    (id_keyset around_config eq_refl eq_refl eq_refl eq_refl eq_refl) eq_refl eq_refl)
    as (info & Hf & _ & _ & Hp & Hn & _); [vm_compute; reflexivity|reflexivity| |].
  - intros x. simpl. unfold precedes, id_of. rewrite decide_False by done. by rewrite andb_false_r, orb_false_r.
  - exists info. split; [rewrite Hf; vm_compute; reflexivity|]. rewrite Hp, Hn. split; vm_compute; reflexivity.
Defined.

Lemma cursorPredicate_lexicographic_witness :
  exists pred, cursorPredicate id_columns {["id" := 4%N]} DirectionAfter false = OK pred /\
    or_holds N.ltb id_of pred 3%N = true /\ or_holds N.ltb id_of pred 7%N = false.
Proof.
  destruct (cursorPredicate_lexicographic N.ltb id_of id_columns {["id" := 4%N]} 4%N DirectionAfter false eq_refl
    (or_introl eq_refl)) as [Hp _]; [done|].
  destruct Hp as (pred & Hp & Hh).
  - intros c ->%list_elem_of_singleton. vm_compute. reflexivity.
  - exists pred. split; [exact Hp|]. split; [apply Hh; left; vm_compute; reflexivity|].
    apply not_true_iff_false. intros [H|[H _]]%Hh; vm_compute in H; discriminate H.
Defined.
