(* ===== verification/BotControlStore.v ===== *)
(** * BotControlStore: the bot control stack of a thread

    internal/store/postgres/bot_control_store.go over im_thread.thread,
    im_thread.thread_dialog and im_thread.bot_control_stack.  Each statement is
    a function on the database ([*_sql]); the store methods send them and map
    the rows.  Constraints of the tables (migrations 20260603120004 and
    20260603120007): unique (thread_id, position), unique (thread_id,
    member_id), references to thread and thread_dialog, smallint position.

    The second part holds the well-formedness of this state, its preservation
    by every operation and the effect of each operation. *)
From S2P Require Import Prelude Domain Events Message World.
#[local] Open Scope Z_scope.

(** ** Reading the tables *)
Definition in_thread (tid : uuid) (r : StackRow) : bool := bool_decide (s_thread_id r = tid).
Definition stack_rows (tid : uuid) (d : DB) : list StackRow := select_where (in_thread tid) (db_stack d).
Definition stack_top (tid : uuid) (d : DB) : option StackRow := max_by s_position (stack_rows tid d).

Definition find_thread (tid : uuid) (d : DB) : option ThreadRow :=
  find_first (fun t => bool_decide (t_id t = tid)) (db_threads d).
Definition find_dialog (id : uuid) (d : DB) : option DialogRow :=
  find_first (fun r => bool_decide (d_id r = id)) (db_dialogs d).

(** Members of the stack of a thread, NULLs excluded. *)
Definition stack_members (tid : uuid) (d : DB) : list uuid := omap s_member_id (stack_rows tid d).

Definition set_thread_control (controller owner : option uuid) (t : ThreadRow) : ThreadRow :=
  MkThreadRow (t_id t) (t_domain_id t) (t_created_at t) (t_updated_at t) (t_kind t) (t_owner t)
    (t_subject t) (t_description t) controller owner (t_crm_contact_id t) (t_last_seq t).

Definition update_thread (tid : uuid) (f : ThreadRow -> ThreadRow) : DB -> DB :=
  on_threads (update_where (fun t => bool_decide (t_id t = tid)) f).

Definition soft_delete (at_ : Time) (reason : option string) (r : DialogRow) : DialogRow :=
  MkDialogRow (d_id r) (d_domain_id r) (d_created_at r) (d_updated_at r) (d_member_id r)
    (d_thread_id r) (d_thread_role r) (Some at_) (d_invited_by r) reason (d_via r) (d_queue_id r)
    (d_is_bot r) (d_auto_leave r)
    (d_last_read_message_id r) (d_last_read_seq r) (d_last_delivered_seq r) (d_unread_count r).

(** ** Push *)

(** The earliest active bot of the thread that is not on the stack yet. *)
Definition earliest_free_bot (tid : uuid) (d : DB) : option uuid :=
  let free r := bool_decide (d_thread_id r = tid) && d_is_bot r &&
                bool_decide (d_deleted_at r = None) &&
                negb (bool_decide (d_id r ∈ stack_members tid d)) in
  d_id <$> max_by (fun r => - d_created_at r) (select_where free (db_dialogs d)).

(** [COALESCE(MAX(position) + 1, 0)] *)
Definition next_position (tid : uuid) (d : DB) : Z :=
  match stack_top tid d with Some r => s_position r + 1 | None => 0 end.

Definition smallint_max : Z := 32767.

(** Whether the server accepts the insert. *)
Definition push_accepted (tid mid : uuid) (d : DB) : bool :=
  bool_decide (is_Some (find_thread tid d)) &&
  bool_decide (is_Some (find_dialog mid d)) &&
  negb (bool_decide (mid ∈ stack_members tid d)) &&
  (next_position tid d <=? smallint_max).

Definition push_sql (id tid mid : uuid) (d : DB) : DB :=
  let owner := earliest_free_bot tid d in
  on_stack (fun l => l ++ [MkStackRow id tid (Some mid) (next_position tid d)])
    (update_thread tid
       (fun t => set_thread_control (Some mid) (coalesce (t_owner_bot_id t) owner) t) d).

Section mapping.
(** [mapBotControlStackEntry]. *)
Definition mapBotControlStackEntry (r : StackRow) (contact : option uuid) : BotControlStackEntry :=
  MkEntry (s_id r) (s_thread_id r) (s_member_id r) (s_position r)
    (default uuid_Nil contact) 0 false.
End mapping.

(** The contact of the dialog a stack row points at (LEFT JOIN thread_dialog). *)
Definition row_contact (d : DB) (r : StackRow) : option uuid :=
  m ← s_member_id r; dlg ← find_dialog m d; Some (d_member_id dlg).

(** The row the insert reports: the entry that was on top before. *)
Definition push_prev (tid : uuid) (d : DB) : option BotControlStackEntry :=
  r ← stack_top tid d;
  match s_member_id r with
  | None => None
  | Some _ => Some (mapBotControlStackEntry r (row_contact d r))
  end.

(** ** Pop *)
Definition pop_entry (tid mid : uuid) (d : DB) : option StackRow :=
  find_first (fun r => bool_decide (s_member_id r = Some mid)) (stack_rows tid d).

Definition entry_auto_leave (d : DB) (r : StackRow) : bool :=
  match m ← s_member_id r; find_dialog m d with
  | Some dlg => d_auto_leave dlg
  | None => false
  end.

Definition entry_is_top (tid : uuid) (d : DB) (r : StackRow) : bool :=
  bool_decide (s_position r = match stack_top tid d with Some t => s_position t | None => -1 end).

(** Deletes the entry and soft-deletes its auto-leave dialog. *)
Definition pop_sql (at_ : Time) (reason : BotControlReason) (entry : StackRow) (d : DB) : DB :=
  let d1 := on_stack (delete_where (fun r => bool_decide (s_id r = s_id entry))) d in
  if entry_auto_leave d entry then
    on_dialogs (update_where
      (fun r => bool_decide (Some (d_id r) = s_member_id entry) && bool_decide (d_deleted_at r = None))
      (soft_delete at_ (Some (reason_string reason)))) d1
  else d1.

(** Rows of the stack whose dialog exists (JOIN thread_dialog), highest position first. *)
Definition stack_join (d : DB) (r : StackRow) : option (StackRow * DialogRow) :=
  m ← s_member_id r; dlg ← find_dialog m d; Some (r, dlg).

Definition new_top (tid : uuid) (d : DB) : option (StackRow * DialogRow) :=
  max_by (fun p => s_position p.1) (omap (stack_join d) (stack_rows tid d)).

Definition is_client_leave (r : BotControlReason) : bool := bool_decide (r = ReasonClientLeave).
Definition is_handoff (r : BotControlReason) : bool := bool_decide (r = ReasonHandoff).

(** The controller after a pop, from the row of the thread. *)
Definition popped_controller (reason : BotControlReason) (is_top : bool)
    (top : option uuid) (t : ThreadRow) : option uuid :=
  if is_handoff reason then None
  else coalesce top
         (if is_client_leave reason then None
          else if is_top then t_owner_bot_id t else t_bot_controller_id t).

Definition repoint_sql (tid : uuid) (reason : BotControlReason) (is_top : bool) (d : DB) : DB :=
  let top := p ← new_top tid d; s_member_id p.1 in
  update_thread tid
    (fun t => set_thread_control (popped_controller reason is_top top t) (t_owner_bot_id t) t) d.

(** What Pop reports from the second statement. *)
Definition pop_result (tid : uuid) (reason : BotControlReason) (is_top : bool) (d : DB) (t : ThreadRow)
    : option BotControlStackEntry :=
  let owner_dlg := o ← t_owner_bot_id t; find_dialog o d in
  let n := new_top tid d in
  let dlg := coalesce (snd <$> n) owner_dlg in
  let contact := default uuid_Nil (d_member_id <$> dlg) in
  let auto_leave := default false (d_auto_leave <$> dlg) in
  let domain := default 0 (d_domain_id <$> dlg) in
  match n with
  | Some (r, _) =>
      if negb (is_handoff reason)
      then Some (MkEntry uuid_Nil tid (s_member_id r) (s_position r) contact domain auto_leave)
      else None
  | None =>
      match t_owner_bot_id t with
      | Some o =>
          if is_top && negb (is_client_leave reason) && negb (is_handoff reason)
          then Some (MkEntry uuid_Nil tid (Some o) 0 contact domain auto_leave)
          else None
      | None => None
      end
  end.

(** ** Clear, set and restore *)
Definition clear_prev (tid : uuid) (d : DB) : option uuid := t ← find_thread tid d; t_bot_controller_id t.

Definition clear_sql (tid : uuid) (d : DB) : DB :=
  on_threads (update_where
    (fun t => bool_decide (t_id t = tid) && negb (bool_decide (t_bot_controller_id t = None)))
    (fun t => set_thread_control None (t_owner_bot_id t) t)) d.

Definition set_sql (tid mid : uuid) (d : DB) : DB :=
  update_thread tid (fun t => set_thread_control (Some mid) (t_owner_bot_id t) t) d.

(** The stack top with a member, else the owner bot. *)
Definition restore_candidate (tid : uuid) (d : DB) (t : ThreadRow) : option uuid :=
  coalesce (r ← max_by s_position
                  (List.filter (fun r => negb (bool_decide (s_member_id r = None))) (stack_rows tid d));
            s_member_id r)
    (t_owner_bot_id t).

Definition restore_granted (tid : uuid) (d : DB) (t : ThreadRow) : bool :=
  bool_decide (t_bot_controller_id t = None) && negb (bool_decide (restore_candidate tid d t = None)).

Definition restore_sql (tid : uuid) (d : DB) : DB :=
  match find_thread tid d with
  | Some t =>
      if restore_granted tid d t
      then update_thread tid
             (fun t' => set_thread_control (restore_candidate tid d t) (t_owner_bot_id t') t') d
      else d
  | None => d
  end.

Definition restore_result (tid : uuid) (d : DB) : option (BotControlStackEntry * bool) :=
  t ← find_thread tid d;
  m ← coalesce (t_bot_controller_id t) (restore_candidate tid d t);
  dlg ← find_dialog m d;
  let pos := match find_first (fun r => bool_decide (s_member_id r = Some m)) (stack_rows tid d) with
             | Some r => s_position r | None => 0 end in
  Some (MkEntry uuid_Nil tid (Some m) pos (d_member_id dlg) (d_domain_id dlg) (d_auto_leave dlg),
        restore_granted tid d t).

(** ** The store methods *)
#[export] Instance position_le_dec : RelDecision (fun a b : StackRow => s_position a <= s_position b).
Proof. intros a b. apply _. Defined.

Section store.
Context {E : Env}.

Definition Push (tr : BotControlTransition) : SM (option BotControlStackEntry) :=
  statement_as "push bot control";;
  id ← fresh;
  d ← gets w_db;
  if push_accepted (tr_ThreadID tr) (tr_NewMemberID tr) d then
    modify (fun w => set_db (push_sql id (tr_ThreadID tr) (tr_NewMemberID tr) (w_db w)) w);;
    mret (push_prev (tr_ThreadID tr) d)
  else reject_as "scanning push result".

Definition Pop (threadID memberID : uuid) (reason : BotControlReason)
    (_triggeredBy : option uuid) : SM (option BotControlStackEntry) :=
  statement_as "pop bot control";;
  d ← gets w_db;
  at_ ← now;
  match pop_entry threadID memberID d with
  | None => throw (NotFound "member not found in bot control stack")
  | Some entry =>
      modify (fun w => set_db (pop_sql at_ reason entry (w_db w)) w);;
      let isTop := entry_is_top threadID d entry in
      statement_as "fetching new top after pop";;
      d1 ← gets w_db;
      match find_thread threadID d1 with
      | None => throw (internal "scanning new top after pop" no_rows)
      | Some t =>
          modify (fun w => set_db (repoint_sql threadID reason isTop (w_db w)) w);;
          mret (pop_result threadID reason isTop d1 t)
      end
  end.

Definition stack_entries (tid : uuid) (d : DB) : list BotControlStackEntry :=
  (fun r => mapBotControlStackEntry r (row_contact d r))
    <$> merge_sort (fun a b : StackRow => s_position a <= s_position b) (stack_rows tid d).

Definition GetStack (threadID : uuid) : SM (list BotControlStackEntry) :=
  map_err (internal "querying stack") (query (stack_entries threadID)).

Definition ClearController (threadID : uuid) : SM (option uuid) :=
  statement_as "clear bot controller";;
  d ← gets w_db;
  modify (fun w => set_db (clear_sql threadID (w_db w)) w);;
  mret (clear_prev threadID d).

Definition SetController (threadID memberID : uuid) : SM unit :=
  statement_as "set bot controller";;
  d ← gets w_db;
  match find_dialog memberID d, find_thread threadID d with
  | None, Some _ => reject_as "set bot controller"
  | _, _ => modify (fun w => set_db (set_sql threadID memberID (w_db w)) w)
  end.

Definition RestoreController (threadID : uuid) : SM (option BotControlStackEntry * bool) :=
  statement_as "restore bot controller";;
  d ← gets w_db;
  modify (fun w => set_db (restore_sql threadID (w_db w)) w);;
  mret (match restore_result threadID d with
        | Some (e, granted) => (Some e, granted)
        | None => (None, false)
        end).
End store.

(** ** Invariants and effects of the operations *)
(** ** The invariant *)
Definition on_stack_or_owner (d : DB) (t : ThreadRow) (m : uuid) : Prop :=
  m ∈ stack_members (t_id t) d \/ t_owner_bot_id t = Some m.

Record bc_base (d : DB) : Prop := MkBcBase {
  wf_threads : NoDup (t_id <$> db_threads d);
  wf_dialogs : NoDup (d_id <$> db_dialogs d);
  wf_ids : NoDup (s_id <$> db_stack d);
  wf_positions : NoDup ((fun r => (s_thread_id r, s_position r)) <$> db_stack d);
  wf_members : NoDup ((fun r => (s_thread_id r, s_member_id r)) <$> db_stack d);
  wf_rows : forall r, r ∈ db_stack d ->
    0 <= s_position r <= smallint_max /\
    is_Some (find_thread (s_thread_id r) d) /\
    exists m, s_member_id r = Some m /\ is_Some (find_dialog m d);
  wf_owner : forall t o, t ∈ db_threads d -> t_owner_bot_id t = Some o -> is_Some (find_dialog o d) }.

(** The controller of a thread is a bot of its stack or its owner bot. *)
Definition controller_ok (d : DB) : Prop :=
  forall t m, t ∈ db_threads d -> t_bot_controller_id t = Some m -> on_stack_or_owner d t m.

Definition bc_wf (d : DB) : Prop := bc_base d /\ controller_ok d.

(** ** Reading after writing *)
Lemma elem_of_stack_rows tid d r : r ∈ stack_rows tid d <-> r ∈ db_stack d /\ s_thread_id r = tid.
Proof.
  unfold stack_rows, in_thread. rewrite elem_of_select. by rewrite bool_decide_eq_true.
Qed.

Lemma elem_of_stack_members tid d m :
  m ∈ stack_members tid d <-> exists r, r ∈ stack_rows tid d /\ s_member_id r = Some m.
Proof. unfold stack_members. by rewrite list_elem_of_omap. Qed.

Lemma stack_rows_push tid id tid0 mid d :
  stack_rows tid (push_sql id tid0 mid d) =
  stack_rows tid d ++
    (if decide (tid0 = tid) then [MkStackRow id tid0 (Some mid) (next_position tid0 d)] else []).
Proof.
  unfold stack_rows, push_sql. simpl. rewrite select_app. f_equal.
  unfold select_where, in_thread. simpl.
  by destruct (decide (tid0 = tid)) as [->|];
    [rewrite bool_decide_true|rewrite bool_decide_false].
Qed.

Lemma find_thread_update tid tid' f d :
  (forall t, t_id (f t) = t_id t) ->
  find_thread tid' (update_thread tid f d) =
  (fun t => if bool_decide (t_id t = tid) then f t else t) <$> find_thread tid' d.
Proof. intros H. unfold find_thread. apply find_first_update. intros t. by rewrite H. Qed.

Lemma find_thread_Some tid d t : find_thread tid d = Some t -> t ∈ db_threads d /\ t_id t = tid.
Proof. intros [? H]%find_first_Some. by apply bool_decide_eq_true in H. Qed.

Lemma find_dialog_Some id d r : find_dialog id d = Some r -> r ∈ db_dialogs d /\ d_id r = id.
Proof. intros [? H]%find_first_Some. by apply bool_decide_eq_true in H. Qed.

Lemma find_thread_elem d t : bc_base d -> t ∈ db_threads d -> find_thread (t_id t) d = Some t.
Proof. intros Hwf Ht. apply (find_first_key t_id); [apply Hwf|done]. Qed.

Lemma find_dialog_soft_delete id P at_ reason d :
  find_dialog id (on_dialogs (update_where P (soft_delete at_ reason)) d) =
  (fun r => if P r then soft_delete at_ reason r else r) <$> find_dialog id d.
Proof. by apply find_first_update. Qed.

Lemma is_Some_fmap {A B} (f : A -> B) o : is_Some o -> is_Some (f <$> o).
Proof. intros [x ->]. by eexists. Qed.

Lemma stack_top_max tid d r r' :
  stack_top tid d = Some r -> r' ∈ stack_rows tid d -> s_position r' <= s_position r.
Proof. apply max_by_ge. Qed.

Lemma stack_top_elem tid d r : stack_top tid d = Some r -> r ∈ stack_rows tid d.
Proof. apply max_by_elem. Qed.

Lemma next_position_gt tid d r : r ∈ stack_rows tid d -> s_position r < next_position tid d.
Proof.
  intros Hr. unfold next_position. destruct (stack_top tid d) as [t|] eqn:E.
  - pose proof (stack_top_max _ _ _ _ E Hr). lia.
  - apply max_by_None in E. rewrite E in Hr. by apply not_elem_of_nil in Hr.
Qed.

Lemma next_position_nonneg tid d : bc_base d -> 0 <= next_position tid d.
Proof.
  intros Hwf. unfold next_position. destruct (stack_top tid d) as [t|] eqn:E; [|lia].
  apply stack_top_elem, elem_of_stack_rows in E as [E _]. apply (wf_rows _ Hwf) in E. lia.
Qed.

(** In a well-formed database every stack row joins its dialog. *)
Lemma stack_row_dialog d r : bc_base d -> r ∈ db_stack d ->
  exists m dlg, s_member_id r = Some m /\ find_dialog m d = Some dlg.
Proof. intros Hwf Hr. apply (wf_rows _ Hwf) in Hr as (_ & _ & m & ? & [dlg ?]). eauto. Qed.

Lemma new_top_spec tid d : bc_base d ->
  match stack_top tid d with
  | Some r => exists dlg, new_top tid d = Some (r, dlg) /\
                          find_dialog (default uuid_Nil (s_member_id r)) d = Some dlg
  | None => new_top tid d = None
  end.
Proof.
  intros Hwf. unfold new_top, stack_top.
  assert (Hall : forall r, r ∈ stack_rows tid d -> exists m dlg,
            s_member_id r = Some m /\ find_dialog m d = Some dlg).
  { intros r [Hr _]%elem_of_stack_rows. by apply stack_row_dialog. }
  induction (stack_rows tid d) as [|r l IH]; [done|].
  destruct (Hall r) as (m & dlg & Hm & Hd); [left|].
  specialize (IH (fun r' H => Hall r' (list_elem_of_further _ _ _ H))).
  assert (stack_join d r = Some (r, dlg)) as Hj by (unfold stack_join; rewrite Hm; simpl; by rewrite Hd).
  unfold omap in *. simpl. rewrite Hj. simpl.
  destruct (max_by s_position l) as [r'|].
  - destruct IH as (dlg' & IH & Hdlg'). rewrite IH. simpl.
    destruct (s_position r <? s_position r'); [eauto|].
    exists dlg. by rewrite Hm.
  - rewrite IH. exists dlg. by rewrite Hm.
Qed.

Lemma pop_entry_spec tid mid d e :
  pop_entry tid mid d = Some e -> e ∈ stack_rows tid d /\ s_member_id e = Some mid.
Proof. intros [? H]%find_first_Some. by apply bool_decide_eq_true in H. Qed.

(** ** Preservation: changes of the stack keep the other clauses *)

(** Changing only control columns of threads keeps threads findable. *)
Lemma find_thread_control tid c o d tid' :
  is_Some (find_thread tid' d) ->
  is_Some (find_thread tid' (update_thread tid (fun t => set_thread_control (c t) (o t) t) d)).
Proof. rewrite find_thread_update by done. apply is_Some_fmap. Qed.

Lemma earliest_free_bot_dialog tid d m :
  bc_base d -> earliest_free_bot tid d = Some m -> is_Some (find_dialog m d).
Proof.
  intros Hwf. unfold earliest_free_bot. rewrite fmap_Some.
  intros (r & Hr & ->). apply max_by_elem, elem_of_select in Hr as [Hr _].
  exists r. apply (find_first_key d_id); [apply Hwf|done].
Qed.

Lemma push_accepted_spec tid mid d :
  push_accepted tid mid d = true <->
  is_Some (find_thread tid d) /\ is_Some (find_dialog mid d) /\
  (mid ∉ stack_members tid d) /\ next_position tid d <= smallint_max.
Proof.
  unfold push_accepted. rewrite !andb_true_iff, !bool_decide_eq_true, negb_true_iff,
    bool_decide_eq_false, Z.leb_le. tauto.
Qed.

Lemma push_members_mono id tid mid d tid' m :
  m ∈ stack_members tid' d -> m ∈ stack_members tid' (push_sql id tid mid d).
Proof.
  rewrite !elem_of_stack_members; setoid_rewrite stack_rows_push;
  setoid_rewrite elem_of_app; naive_solver.
Qed.

Lemma push_member_new id tid mid d : mid ∈ stack_members tid (push_sql id tid mid d).
Proof.
  apply elem_of_stack_members. exists (MkStackRow id tid (Some mid) (next_position tid d)).
  rewrite stack_rows_push, decide_True by done.
  split; [apply elem_of_app; right; left|done].
Qed.

Lemma push_rows_fresh id tid mid d :
  bc_base d -> mid ∉ stack_members tid d -> id ∉ s_id <$> db_stack d ->
  NoDup (s_id <$> db_stack (push_sql id tid mid d)) /\
  NoDup ((fun r => (s_thread_id r, s_position r)) <$> db_stack (push_sql id tid mid d)) /\
  NoDup ((fun r => (s_thread_id r, s_member_id r)) <$> db_stack (push_sql id tid mid d)).
Proof.
  intros [] Hm Hid. simpl. split; [by apply NoDup_fmap_snoc|split]; apply NoDup_fmap_snoc; try done.
  - simpl. rewrite list_elem_of_fmap. intros (r & [= Htid Hpos] & Hr).
    assert (s_position r < next_position tid d) by (apply next_position_gt, elem_of_stack_rows; done). lia.
  - simpl. rewrite list_elem_of_fmap. intros (r & [= Htid Hmem] & Hr). apply Hm, elem_of_stack_members.
    exists r. split; [by apply elem_of_stack_rows|done].
Qed.

Lemma push_base id tid mid d :
  bc_base d -> push_accepted tid mid d = true -> id ∉ s_id <$> db_stack d ->
  bc_base (push_sql id tid mid d).
Proof.
  intros Hwf (Ht & Hd & Hm & Hp)%push_accepted_spec Hid.
  destruct (push_rows_fresh id tid mid d Hwf Hm Hid) as (? & ? & ?).
  pose proof (next_position_nonneg tid d Hwf). pose proof Hwf as [].
  split; try done.
  - simpl. by rewrite update_where_proj.
  - intros r [Hr| ->%list_elem_of_singleton]%elem_of_app; simpl.
    + destruct (wf_rows0 r Hr) as (? & ? & m & ? & ?). split; [done|split; [|eauto]].
      by apply (find_thread_control tid (fun _ => Some mid)).
    + split; [lia|split; [|eauto]]. by apply (find_thread_control tid (fun _ => Some mid)).
  - intros t' o (t & Hin & ->)%elem_of_update Ho.
    change (is_Some (find_dialog o d)).
    destruct (bool_decide (t_id t = tid)); [|by eapply wf_owner0].
    simpl in Ho. unfold coalesce in Ho. destruct (t_owner_bot_id t) eqn:Eo.
    + eapply wf_owner0; [done|]. by rewrite Eo.
    + by eapply earliest_free_bot_dialog.
Qed.

Lemma push_controller id tid mid d : controller_ok d -> controller_ok (push_sql id tid mid d).
Proof.
  intros Hok t' m (t & Hin & ->)%elem_of_update Hc. unfold on_stack_or_owner.
  destruct (bool_decide_reflect (t_id t = tid)) as [Heq|].
  - simpl in *. simplify_eq. left. apply push_member_new.
  - destruct (Hok t m Hin Hc); [left; by apply push_members_mono|by right].
Qed.

(** *** Repointing the controller *)
Lemma repoint_base tid (c : ThreadRow -> option uuid) d :
  bc_base d -> bc_base (update_thread tid (fun t => set_thread_control (c t) (t_owner_bot_id t) t) d).
Proof.
  intros []. split; try done.
  - simpl. by rewrite update_where_proj.
  - intros r Hr. destruct (wf_rows0 r Hr) as (? & ? & ?). split; [done|split; [|done]].
    by apply find_thread_control.
  - intros t' o (t & Hin & ->)%elem_of_update Ho. apply (wf_owner0 t o Hin).
    by destruct (bool_decide (t_id t = tid)).
Qed.

(** A controller that is allowed for the thread, the others being untouched. *)
Lemma repoint_controller tid (c : ThreadRow -> option uuid) d :
  (forall t m, t ∈ db_threads d -> t_id t = tid -> c t = Some m -> on_stack_or_owner d t m) ->
  (forall t m, t ∈ db_threads d -> t_id t <> tid -> t_bot_controller_id t = Some m ->
     on_stack_or_owner d t m) ->
  controller_ok (update_thread tid (fun t => set_thread_control (c t) (t_owner_bot_id t) t) d).
Proof.
  intros Hc Ho t' m (t & Hin & ->)%elem_of_update Ht.
  destruct (bool_decide_reflect (t_id t = tid)) as [Heq|].
  - exact (Hc t m Hin Heq Ht).
  - by apply (Ho t m Hin).
Qed.

(** *** Deleting a stack row *)

Lemma delete_keeps tid e d r :
  r ∈ stack_rows tid (on_stack (delete_where (fun r => bool_decide (s_id r = s_id e))) d) <->
  r ∈ stack_rows tid d /\ s_id r <> s_id e.
Proof.
  unfold stack_rows. simpl. rewrite select_delete_comm, elem_of_delete, bool_decide_eq_false. done.
Qed.

Lemma pop_stack_rows tid at_ reason e d :
  stack_rows tid (pop_sql at_ reason e d) =
  stack_rows tid (on_stack (delete_where (fun r => bool_decide (s_id r = s_id e))) d).
Proof. unfold pop_sql. by destruct (entry_auto_leave d e). Qed.

Lemma pop_threads at_ reason e d : db_threads (pop_sql at_ reason e d) = db_threads d.
Proof. unfold pop_sql. by destruct (entry_auto_leave d e). Qed.

Lemma pop_find_dialog at_ reason e d m :
  is_Some (find_dialog m (pop_sql at_ reason e d)) <-> is_Some (find_dialog m d).
Proof.
  unfold pop_sql. destruct (entry_auto_leave d e); [|done].
  rewrite find_dialog_soft_delete. by rewrite fmap_is_Some.
Qed.

Lemma pop_find_thread at_ reason e d tid : find_thread tid (pop_sql at_ reason e d) = find_thread tid d.
Proof. unfold find_thread. by rewrite pop_threads. Qed.

Lemma pop_base at_ reason tid e d :
  bc_base d -> e ∈ stack_rows tid d -> bc_base (pop_sql at_ reason e d).
Proof.
  intros Hwf He. pose proof Hwf as [].
  assert (db_stack (pop_sql at_ reason e d) =
          delete_where (fun r => bool_decide (s_id r = s_id e)) (db_stack d)) as Hs
    by (unfold pop_sql; by destruct (entry_auto_leave d e)).
  split; rewrite ?pop_threads, ?Hs; try done; try by apply NoDup_fmap_filter.
  - unfold pop_sql. destruct (entry_auto_leave d e); [|done]. simpl. by rewrite update_where_proj.
  - intros r [Hr _]%elem_of_delete. destruct (wf_rows0 r Hr) as (? & ? & m & ? & ?).
    rewrite pop_find_thread. setoid_rewrite pop_find_dialog. eauto.
  - intros t o Ht Ho. rewrite pop_find_dialog. by eapply wf_owner0.
Qed.

Lemma pop_members at_ reason e d tid m :
  m ∈ stack_members tid (pop_sql at_ reason e d) <->
  exists r, r ∈ stack_rows tid d /\ s_id r <> s_id e /\ s_member_id r = Some m.
Proof.
  rewrite elem_of_stack_members, pop_stack_rows. setoid_rewrite delete_keeps. naive_solver.
Qed.

(** Rows of other threads survive a pop. *)
Lemma pop_members_other at_ reason e d tid tid' m :
  bc_base d -> e ∈ stack_rows tid d -> tid' <> tid ->
  m ∈ stack_members tid' d -> m ∈ stack_members tid' (pop_sql at_ reason e d).
Proof.
  intros Hwf He Hne (r & Hr & Hm)%elem_of_stack_members. apply pop_members.
  exists r. split; [done|split; [|done]]. intros Hid.
  apply elem_of_stack_rows in He as [He <-], Hr as [Hr <-].
  apply Hne. f_equal. by apply (NoDup_fmap_inj s_id (db_stack d)); [apply Hwf|..].
Qed.

(** If nothing is left after the pop, the popped entry was the top. *)
Lemma pop_empty_is_top at_ reason tid e d :
  bc_base d -> e ∈ stack_rows tid d -> stack_rows tid (pop_sql at_ reason e d) = [] ->
  entry_is_top tid d e = true.
Proof.
  intros Hwf He Hnil. unfold entry_is_top. apply bool_decide_eq_true.
  destruct (stack_top tid d) as [t|] eqn:Et.
  - destruct (decide (s_id t = s_id e)) as [Hid|Hid].
    + apply stack_top_elem, elem_of_stack_rows in Et as [Ht _].
      apply elem_of_stack_rows in He as [He _].
      f_equal. symmetry. by apply (NoDup_fmap_inj s_id (db_stack d)); [apply Hwf|..].
    + apply stack_top_elem in Et.
      assert (t ∈ stack_rows tid (pop_sql at_ reason e d)) as Hin
        by (rewrite pop_stack_rows; by apply delete_keeps).
      rewrite Hnil in Hin. by apply not_elem_of_nil in Hin.
  - apply max_by_None in Et. rewrite Et in He. by apply not_elem_of_nil in He.
Qed.

Lemma popped_controller_ok at_ reason tid e d t m :
  bc_base d -> e ∈ stack_rows tid d -> t_id t = tid ->
  popped_controller reason (entry_is_top tid d e)
    (p ← new_top tid (pop_sql at_ reason e d); s_member_id p.1) t = Some m ->
  on_stack_or_owner (pop_sql at_ reason e d) t m.
Proof.
  intros Hwf He <- Hc. unfold popped_controller in Hc.
  destruct (is_handoff reason); [done|].
  pose proof (new_top_spec (t_id t) _ (pop_base at_ reason _ e d Hwf He)) as Hnt.
  destruct (stack_top _ _) as [r|] eqn:Er.
  - destruct Hnt as (dlg & Hnt & _). rewrite Hnt in Hc. simpl in Hc.
    apply stack_top_elem in Er as Hr.
    destruct (stack_row_dialog _ r (pop_base at_ reason _ e d Hwf He)) as (m' & ? & Hm & _).
    { by apply elem_of_stack_rows in Hr as [Hr _]. }
    rewrite Hm in Hc. simpl in Hc. simplify_eq. left. apply elem_of_stack_members. eauto.
  - rewrite Hnt in Hc. simpl in Hc. apply max_by_None in Er.
    rewrite (pop_empty_is_top at_ reason _ _ _ Hwf He Er) in Hc.
    destruct (is_client_leave reason); [done|]. by right.
Qed.

(** *** The whole operations *)
Definition pop_db (at_ : Time) (reason : BotControlReason) (tid : uuid) (e : StackRow) (d : DB) : DB :=
  repoint_sql tid reason (entry_is_top tid d e) (pop_sql at_ reason e d).

Lemma pop_wf at_ reason tid e d :
  bc_wf d -> e ∈ stack_rows tid d -> bc_wf (pop_db at_ reason tid e d).
Proof.
  intros [Hwf Hok] He. split; [by eapply repoint_base, pop_base|].
  apply repoint_controller; rewrite pop_threads.
  - intros t m _ Ht. by apply popped_controller_ok.
  - intros t m Hin Ht Hc. destruct (Hok t m Hin Hc); [left|by right].
    by eapply pop_members_other.
Qed.

Lemma push_wf id tid mid d :
  bc_wf d -> push_accepted tid mid d = true -> id ∉ s_id <$> db_stack d ->
  bc_wf (push_sql id tid mid d).
Proof. intros [??] ??. split; [by apply push_base|by apply push_controller]. Qed.

Lemma clear_sql_control tid d :
  clear_sql tid d = update_thread tid (fun t => set_thread_control None (t_owner_bot_id t) t) d.
Proof.
  unfold clear_sql, update_thread, on_threads. f_equal. unfold update_where.
  apply list_fmap_ext. intros i t _. destruct (bool_decide_reflect (t_id t = tid)); simpl; [|done].
  destruct (bool_decide_reflect (t_bot_controller_id t = None)) as [Hn|]; [|done].
  simpl. unfold set_thread_control. rewrite <- Hn. by destruct t.
Qed.

Lemma clear_wf tid d : bc_wf d -> bc_wf (clear_sql tid d).
Proof.
  intros [Hwf Hok]. rewrite clear_sql_control. split; [by apply repoint_base|].
  by apply (repoint_controller tid (fun _ => None)); [|auto].
Qed.

Lemma set_wf tid mid d :
  bc_wf d -> mid ∈ stack_members tid d -> bc_wf (set_sql tid mid d).
Proof.
  intros [Hwf Hok] Hm. split; [by apply (repoint_base tid (fun _ => Some mid))|].
  apply (repoint_controller tid (fun _ => Some mid)); [|auto].
  intros t m _ <- [= <-]. by left.
Qed.

Lemma restore_candidate_ok tid d t m :
  t_id t = tid -> restore_candidate tid d t = Some m -> on_stack_or_owner d t m.
Proof.
  intros <-. unfold restore_candidate, coalesce.
  destruct (max_by _ _) as [r|] eqn:E; simpl; [|by right].
  apply max_by_elem in E. rewrite list_elem_of_In, filter_In, <- list_elem_of_In in E.
  destruct (s_member_id r) as [m'|] eqn:Em; [|by right].
  intros [= <-]. left. apply elem_of_stack_members. exists r. split; [apply E|done].
Qed.

Lemma restore_wf tid d : bc_wf d -> bc_wf (restore_sql tid d).
Proof.
  intros [Hwf Hok]. unfold restore_sql. destruct (find_thread tid d) as [t|] eqn:Et; [|done].
  destruct (restore_granted tid d t); [|done].
  split; [by apply (repoint_base tid (fun _ => restore_candidate tid d t))|].
  apply (repoint_controller tid (fun _ => restore_candidate tid d t)); [|auto].
  intros t' m Hin Ht' Hm. apply find_thread_Some in Et as [Hin' Ht].
  assert (t' = t) as -> by (apply (NoDup_fmap_inj t_id (db_threads d)); [apply Hwf|done|done|congruence]).
  by eapply restore_candidate_ok.
Qed.
