(* ===== verification/MediaProcessor.v ===== *)
(** * MediaProcessor: attachments of outgoing messages

    internal/service/media_processor.go and internal/utils/url.go, with the
    part of the world the message services call and do not define
    ([MessageEnv]): the storage and contact services, the emoji, normalisation
    and URL packages.  The links of the files are generated concurrently in the
    source; here the first error in the order of the files is the one reported. *)
From S2P Require Import Prelude Domain Events Message World.
#[local] Open Scope Z_scope.

Record TypingConfig := MkTypingConfig {
  tg_Enabled : bool; tg_PreviewEnabled : bool; tg_DefaultTimeout : Z; tg_MaxTimeout : Z; tg_MaxPreviewBytes : Z;
  tg_Window : Z }.

(** The answer to GenerateFileLink: base, url, and mime, name, size when known. *)
Record FileLink := MkFileLink { fl_Base : string; fl_URL : string; fl_Metadata : option (string * string * Z) }.

(** The cache of the typing limiter, a third-party store of keys with a time to
    live: its state at a time, for a key. *)
Record TypingCache := MkTypingCache {
  tc_Get : gmap string Time -> Time -> string -> result bool;
  tc_SetTTL : gmap string Time -> Time -> string -> Z -> result (gmap string Time) }.

Class MessageEnv := {
  menv_identity : uuid -> Z -> result (option ContactIdentity);
  menv_search_contact : option (list uuid -> Z -> result (list (string * string * string)));
  menv_uuid_parse : string -> option uuid;
  menv_upload : Z -> string -> string -> string -> result (Z * string * string);
  menv_file_link : Z -> Z -> result FileLink;
  menv_resolve_reference : string -> string -> result string;
  menv_nfc : string -> string;
  menv_contains_emoji : string -> bool;
  menv_decode_entities : string -> list Shared.Entity;
  menv_publish : string -> result unit;
  menv_limiter : option TypingCache;
  menv_typing : TypingConfig }.

(** [AttachmentProcessor]: what the processor reads and writes. *)
Record Attachment := MkAttachment {
  att_ID : Z; att_URL : string; att_Mime : string; att_Name : string; att_Size : Z }.

Record fileMetadata := MkFileMetadata { fm_Size : Z; fm_Mime : string; fm_Name : string; fm_URL : string }.

Definition of_document (x : MessageDocument) : Attachment :=
  MkAttachment (doc_FileID x) (doc_URL x) (doc_Mime x) (doc_Name x) (doc_Size x).
Definition to_document (a : Attachment) : MessageDocument :=
  MkDocument (att_ID a) (att_Name a) (att_Mime a) (att_Size a) (att_URL a).
Definition of_image (x : MessageImage) : Attachment := MkAttachment (img_FileID x) (img_URL x) (img_Mime x) (img_Name x) 0.
Definition to_image (a : Attachment) : MessageImage := MkImage (att_ID a) (att_Name a) (att_Mime a) (att_URL a).

Section processor.
Context {X : MessageEnv}.

(** [ResolveFullURL]; the package net/url parses and resolves. *)
Definition ResolveFullURL (base rel : string) : result string :=
  if decide (base = "") then Err (InvalidArgument "base URL cannot be empty")
  else if decide (rel = "") then Err (InvalidArgument "relative URL cannot be empty")
  else menv_resolve_reference base rel.

(** Only items with a URL are uploaded; the first failure ends the upload. *)
Definition upload_item (domainID : Z) (a : Attachment) : result Attachment :=
  if decide (att_URL a = "") then OK a
  else
    match menv_upload domainID (att_URL a) (att_Name a) (att_Mime a) with
    | Err e => Err (WithCause e (errors_New ("[MEDIA_PROCESSOR] storage: upload failed for " +:+ att_URL a)))
    | OK (id, mime, url) => OK (MkAttachment id url (if decide (mime = "") then att_Mime a else mime) (att_Name a) (att_Size a))
    end.

Definition Process (domainID : Z) (items : list Attachment) : result (list Attachment) :=
  (fix go (items : list Attachment) : result (list Attachment) :=
    match items with
    | [] => OK []
    | a :: items' => b ← upload_item domainID a; bs ← go items'; OK (b :: bs)
    end) items.

Definition link_metadata (domainID fileID : Z) : result fileMetadata :=
  match menv_file_link domainID fileID with
  | Err e => Err (WithCause e (MkError (Code e) ("failed to generate file link for id " +:+ pretty fileID) None))
  | OK l =>
      match ResolveFullURL (fl_Base l) (fl_URL l) with
      | Err e => Err (WithCause e (Internal ("failed to resolve url for id: " +:+ pretty fileID)))
      | OK url =>
          OK (match fl_Metadata l with
              | Some (mime, name, size) => MkFileMetadata size mime name url
              | None => MkFileMetadata 0 "" "" url
              end)
      end
  end.

Fixpoint FetchFileLinksWithMetadata (domainID : Z) (files : list Attachment) : result (gmap Z fileMetadata) :=
  match files with
  | [] => OK ∅
  | f :: files' =>
      if att_ID f <=? 0 then FetchFileLinksWithMetadata domainID files'
      else
        meta ← link_metadata domainID (att_ID f);
        rest ← FetchFileLinksWithMetadata domainID files';
        OK (<[att_ID f := meta]> rest)
  end.

(** The loop of SendDocument over the metadata found. *)
Definition with_metadata (metas : gmap Z fileMetadata) (a : Attachment) : Attachment :=
  match metas !! att_ID a with
  | Some m => MkAttachment (att_ID a) (fm_URL m) (fm_Mime m) (fm_Name m) (fm_Size m)
  | None => a
  end.
End processor.
