(* ===== verification/Samples.v ===== *)
(** * Samples: a small thread to evaluate the model on

    A client (contact 100), a bot (contact 101, owner bot and controller), an
    agent (contact 102) in thread 1, an empty thread 2, in an environment
    without faults and without remote services. *)
From S2P Require Import Prelude Domain Events Message World BotControlStore MediaProcessor.
#[local] Open Scope Z_scope.

#[export] Instance quiet_env : Env := {|
  env_fault := fun _ => false;
  env_can_invite := fun _ _ => OK tt;
  env_can_send := fun _ _ => OK tt;
  env_contact_info := None;
  env_providers := None;
  env_contact_is_bot := fun _ => None;
  env_uuid_string := fun u => pretty u;
  env_uuid_valid := fun _ => false;
  env_graphemes := fun s => Z.of_nat (String.length s);
  env_join_pick := fun _ _ => 0%nat;
  env_ctx := MkCtx None None |}.

(** Storage answers every link, the broker takes every message, ids are read as
    numbers, the cache of the limiter keeps its keys for their time. *)
Definition sample_cache : TypingCache := {|
  tc_Get := fun armed at_ key => OK (match armed !! key with Some t => at_ <? t | None => false end);
  tc_SetTTL := fun armed at_ key ttl => OK (<[key := at_ + ttl]> armed) |}.

#[export] Instance quiet_media : MessageEnv := {|
  menv_identity := fun _ _ => OK None;
  menv_search_contact := None;
  menv_uuid_parse := fun s => head (List.filter (fun n => bool_decide (pretty n = s)) (N.of_nat <$> seq 0 2000));
  menv_upload := fun _ url _ mime => OK (1, mime, url);
  menv_file_link := fun _ _ => OK (MkFileLink "https://files" "/file" None);
  menv_resolve_reference := fun base rel => OK (base +:+ rel);
  menv_nfc := fun s => s;
  menv_contains_emoji := fun _ => true;
  menv_decode_entities := fun _ => [];
  menv_publish := fun _ => OK tt;
  menv_limiter := Some sample_cache;
  menv_typing := MkTypingConfig true true 6000000000 30000000000 1024 3000000000 |}.

Definition sample_thread (id : uuid) (controller owner : option uuid) : ThreadRow :=
  MkThreadRow id 7 1000 1000 1 uuid_Nil "" "" controller owner None 0.

Definition sample_dialog (id contact tid : uuid) (role : Z) (is_bot auto_leave : bool) : DialogRow :=
  MkDialogRow id 7 1000 1000 contact tid role None None None None None is_bot auto_leave None None None 0.

Definition all_rights : ThreadPermissions := MkPerms true true true true true true true.

Definition sample_perm (id tid dialog : uuid) : PermRow := MkPermRow id tid dialog all_rights 1000 1000.

Definition sample_db : DB := {|
  db_threads := [sample_thread 1 (Some 11%N) (Some 11%N); sample_thread 2 None None];
  db_dialogs := [sample_dialog 10 100 1 Role.RoleOwner false false;
                 sample_dialog 11 101 1 Role.RoleOwner true false;
                 sample_dialog 12 102 1 Role.RoleMember false false;
                 sample_dialog 13 103 1 Role.RoleMember true true];
  db_perms := [sample_perm 20 1 10; sample_perm 21 1 11; sample_perm 22 1 12; sample_perm 23 1 13];
  db_settings := [MkSettingRow 10 7 "Client"; MkSettingRow 11 7 "Bot"; MkSettingRow 12 7 "Agent";
                  MkSettingRow 13 7 "Helper"];
  db_stack := [MkStackRow 30 1 (Some 11%N) 0];
  db_messages := []; db_tags := []; db_outbox := []; db_journal := []; db_marks := [];
  db_source_refs := []; db_queue_refs := []; db_documents := []; db_images := []; db_revisions := [];
  db_reactions := []; db_externals := []; db_errors := []; db_variables := []; db_previews := [];
  db_callbacks := []; db_trim := None |}.

(** Outside and inside a transaction. *)
Definition world_of (d : DB) : World := MkWorld d 5000 1000 1 false false 0 [] ∅ ∅ ∅ [].
Definition world_in_tx (d : DB) : World := MkWorld d 5000 1000 1 true false 0 [] ∅ ∅ ∅ [].

Definition sample_world : World := world_of sample_db.

(** [in_list H] enumerates the members of a concrete list. *)
Ltac in_list H :=
  lazymatch type of H with
  | _ ∈ [] => by apply not_elem_of_nil in H
  | _ ∈ _ :: _ => apply elem_of_cons in H as [-> | H]; [|in_list H]
  end.

Ltac nodup_list := apply (bool_decide_unpack _); vm_compute; exact I.

Lemma sample_wf : bc_wf sample_db.
Proof.
  split; [split|]; try nodup_list.
  - intros r Hr. simpl in Hr. in_list Hr. split; [done|]. split; [by eexists|]. eexists. split; [done|by eexists].
  - intros t o Ht Ho. simpl in Ht. in_list Ht; [|done]. simplify_eq/=. by eexists.
  - intros t m Ht Hm. simpl in Ht. in_list Ht; [|done]. simplify_eq/=. by right.
Qed.

(** [runs]: evaluates a computation on the sample and names its outcome. *)
Ltac runs := eexists; vm_compute; reflexivity.
