(* ===== verification/BotControl.v ===== *)
(** * BotControl: what the bot control store guarantees

    Specifications of the store methods on a run, the reachability invariant,
    and the properties of single operations and of their combinations. *)
From S2P Require Import Prelude Domain Events Message World BotControlStore.
From S2P Require Import Samples.
#[local] Open Scope Z_scope.

(** ** Runs of the store methods *)
Section runs.
Context {E : Env}.

Lemma Push_ok tr w r w' : Push tr w = (OK r, w') ->
  push_accepted (tr_ThreadID tr) (tr_NewMemberID tr) (w_db w) = true /\
  w_db w' = push_sql (w_next w) (tr_ThreadID tr) (tr_NewMemberID tr) (w_db w) /\
  w_next w' = (w_next w + 1)%N /\
  r = push_prev (tr_ThreadID tr) (w_db w).
Proof.
  unfold Push. intros H. step_ok H. apply statement_as_ok in Hs as (-> & _). run in H.
  destruct (push_accepted _ _ _) eqn:Ha; [|done]. run in H. by simplify_eq.
Qed.

Lemma Pop_ok tid mid reason by_ w r w' : Pop tid mid reason by_ w = (OK r, w') ->
  exists e t, pop_entry tid mid (w_db w) = Some e /\
    find_thread tid (w_db w) = Some t /\
    w_db w' = pop_db (w_now w) reason tid e (w_db w) /\
    w_next w' = w_next w /\
    r = pop_result tid reason (entry_is_top tid (w_db w) e)
          (pop_sql (w_now w) reason e (w_db w)) t.
Proof.
  unfold Pop. intros H. step_ok H. apply statement_as_ok in Hs as (-> & _). run in H.
  destruct (pop_entry _ _ _) as [e|] eqn:He; [|done].
  run in H. step_ok H.
  apply statement_as_ok in Hs as (-> & _). run in H.
  simpl in H. rewrite pop_find_thread in H. destruct (find_thread tid (w_db w)) as [t|] eqn:Et; [|done].
  run in H. simplify_eq. eauto 10.
Qed.

Lemma ClearController_ok tid w r w' : ClearController tid w = (OK r, w') ->
  w_db w' = clear_sql tid (w_db w) /\ w_next w' = w_next w /\ r = clear_prev tid (w_db w).
Proof.
  unfold ClearController. intros H. step_ok H. apply statement_as_ok in Hs as (-> & _).
  run in H. by simplify_eq.
Qed.

Lemma SetController_ok tid mid w r w' : SetController tid mid w = (OK r, w') ->
  w_db w' = set_sql tid mid (w_db w) /\ w_next w' = w_next w.
Proof.
  unfold SetController. intros H. step_ok H. apply statement_as_ok in Hs as (-> & _).
  run in H. simpl in H.
  destruct (find_dialog mid _); [|destruct (find_thread tid _); [done|]]; run in H; by simplify_eq.
Qed.

Lemma RestoreController_ok tid w r g w' : RestoreController tid w = (OK (r, g), w') ->
  w_db w' = restore_sql tid (w_db w) /\ w_next w' = w_next w /\
  match restore_result tid (w_db w) with
  | Some (e, g') => r = Some e /\ g = g'
  | None => r = None /\ g = false
  end.
Proof.
  unfold RestoreController. intros H. step_ok H. apply statement_as_ok in Hs as (-> & _).
  run in H. simpl in H. destruct (restore_result _ _) as [[e g']|]; by simplify_eq.
Qed.
End runs.

(** ** Reachable states *)
Definition ids_fresh (w : World) : Prop :=
  forall r, r ∈ db_stack (w_db w) -> (s_id r < w_next w)%N.

Definition bc_inv (w : World) : Prop := bc_wf (w_db w) /\ ids_fresh w.

(** A successful call of the store.  The service sets the controller only to
    the member on top of the stack ([ensureBotControl]). *)
Inductive bc_step {E : Env} (w w' : World) : Prop :=
  | step_push tr r : Push tr w = (OK r, w') -> bc_step w w'
  | step_pop tid mid reason by_ r : Pop tid mid reason by_ w = (OK r, w') -> bc_step w w'
  | step_clear tid r : ClearController tid w = (OK r, w') -> bc_step w w'
  | step_set tid mid r :
      mid ∈ stack_members tid (w_db w) -> SetController tid mid w = (OK r, w') -> bc_step w w'
  | step_restore tid r : RestoreController tid w = (OK r, w') -> bc_step w w'.

Lemma fresh_not_in w : ids_fresh w -> w_next w ∉ s_id <$> db_stack (w_db w).
Proof.
  intros Hf. rewrite list_elem_of_fmap. intros (r & Heq & Hr). specialize (Hf r Hr). lia.
Qed.

Lemma fresh_stack w w' :
  ids_fresh w -> (w_next w <= w_next w')%N ->
  (forall r, r ∈ db_stack (w_db w') -> r ∈ db_stack (w_db w) \/ (s_id r < w_next w')%N) ->
  ids_fresh w'.
Proof. intros Hf Hn Hs r Hr. destruct (Hs r Hr) as [Hr'|]; [|done]. specialize (Hf r Hr'). lia. Qed.

Lemma restore_stack tid d : db_stack (restore_sql tid d) = db_stack d.
Proof. unfold restore_sql. destruct (find_thread tid d) as [t|]; [|done]. by destruct (restore_granted tid d t). Qed.

Lemma bc_step_inv {E : Env} w w' : bc_step w w' -> bc_inv w -> bc_inv w'.
Proof.
  intros Hstep [Hwf Hf]. destruct Hstep as [tr r H|tid mid reason by_ r H|tid r H|tid mid r Hin H|tid [r g] H].
  - apply Push_ok in H as (Ha & Hd & Hn & _). split.
    + rewrite Hd. by apply push_wf; [..|apply fresh_not_in].
    + apply (fresh_stack w); [done|lia|]. rewrite Hd. simpl.
      intros r' [ | ->%list_elem_of_singleton]%elem_of_app; [by left|right; simpl; lia].
  - apply Pop_ok in H as (e & t & He & Ht & Hd & Hn & _). apply pop_entry_spec in He as [He _]. split.
    + rewrite Hd. by apply pop_wf.
    + apply (fresh_stack w); [done|lia|]. rewrite Hd. intros r' Hr'. left.
      unfold pop_db, repoint_sql, pop_sql in Hr'. destruct (entry_auto_leave _ _); simpl in Hr';
        by apply elem_of_delete in Hr' as [Hr' _].
  - apply ClearController_ok in H as (Hd & Hn & _). split; [rewrite Hd; by apply clear_wf|].
    apply (fresh_stack w); [done|lia|]. rewrite Hd. by left.
  - apply SetController_ok in H as (Hd & Hn). split; [rewrite Hd; by apply set_wf|].
    apply (fresh_stack w); [done|lia|]. rewrite Hd. by left.
  - apply RestoreController_ok in H as (Hd & Hn & _). split; [rewrite Hd; by apply restore_wf|].
    apply (fresh_stack w); [done|lia|]. rewrite Hd, restore_stack. by left.
Qed.


(** ** Push *)

(** The thread row after a change of the control columns. *)
Lemma thread_after_update tid c o d t :
  find_thread tid d = Some t ->
  find_thread tid (update_thread tid (fun t => set_thread_control (c t) (o t) t) d) =
  Some (set_thread_control (c t) (o t) t).
Proof.
  intros Ht. rewrite find_thread_update by done. rewrite Ht. simpl.
  apply find_thread_Some in Ht as [_ ->]. by rewrite bool_decide_true.
Qed.

Lemma stack_top_push id tid mid d :
  stack_top tid (push_sql id tid mid d) = Some (MkStackRow id tid (Some mid) (next_position tid d)).
Proof.
  unfold stack_top. rewrite stack_rows_push, decide_True by done.
  apply max_by_app_gt. simpl. intros r Hr. by apply next_position_gt.
Qed.

(** A successful push makes the new member the controller and the top of
    the stack, one position above the previous top, keeps an owner bot that
    was already chosen, leaves the other threads alone and reports the
    previous top. *)
Theorem Push_grants_control {E : Env} (tr : BotControlTransition) (w : World) r w' :
  Push tr w = (OK r, w') ->
  let tid := tr_ThreadID tr in
  (exists t, find_thread tid (w_db w') = Some t /\
             t_bot_controller_id t = Some (tr_NewMemberID tr) /\
             (forall t0 o, find_thread tid (w_db w) = Some t0 -> t_owner_bot_id t0 = Some o ->
                           t_owner_bot_id t = Some o)) /\
  (exists top, stack_top tid (w_db w') = Some top /\ s_member_id top = Some (tr_NewMemberID tr) /\
               s_position top = match stack_top tid (w_db w) with
                                | Some p => s_position p + 1 | None => 0 end) /\
  (forall tid', tid' <> tid ->
     stack_rows tid' (w_db w') = stack_rows tid' (w_db w) /\
     find_thread tid' (w_db w') = find_thread tid' (w_db w)) /\
  r = push_prev tid (w_db w).
Proof.
  intros (Ha & Hd & _ & ->)%Push_ok. simpl. rewrite Hd.
  apply push_accepted_spec in Ha as ([t Ht] & _ & _ & _).
  split_and!; [| |intros tid' Hne; split|done].
  - eexists. split; [by apply (thread_after_update _ (fun _ => Some (tr_NewMemberID tr)))|].
    split; [done|]. intros t0 o Ht0 Ho. simplify_eq. simpl. by rewrite Ho.
  - eexists. by rewrite stack_top_push.
  - rewrite stack_rows_push, decide_False by done. apply app_nil_r.
  - change (find_thread tid' (update_thread (tr_ThreadID tr)
      (fun t => set_thread_control (Some (tr_NewMemberID tr))
         (coalesce (t_owner_bot_id t) (earliest_free_bot (tr_ThreadID tr) (w_db w))) t) (w_db w))
      = find_thread tid' (w_db w)).
    rewrite find_thread_update by done. destruct (find_thread tid' (w_db w)) as [t'|] eqn:E'; [|done].
    simpl. apply find_thread_Some in E' as [_ <-]. by rewrite bool_decide_false.
Qed.

(** ** Pop *)

(** The rows of the thread that remain. *)
Definition rows_without (e : StackRow) (tid : uuid) (d : DB) : list StackRow :=
  delete_where (fun r => bool_decide (s_id r = s_id e)) (stack_rows tid d).

(** The controller a pop leaves, by reason: nobody on a handoff; else the top
    of what remains of the stack; else nobody when the client left, and the
    owner bot otherwise. *)
Definition controller_after (reason : BotControlReason) (rest : list StackRow) (owner : option uuid)
    : option uuid :=
  if is_handoff reason then None
  else match max_by s_position rest with
       | Some r => s_member_id r
       | None => if is_client_leave reason then None else owner
       end.

Lemma stack_top_pop at_ reason tid e d :
  stack_top tid (pop_sql at_ reason e d) = max_by s_position (rows_without e tid d).
Proof.
  unfold stack_top, rows_without. rewrite pop_stack_rows. unfold stack_rows. simpl.
  by rewrite select_delete_comm.
Qed.

Lemma popped_controller_after at_ reason tid e d t :
  bc_base d -> e ∈ stack_rows tid d ->
  popped_controller reason (entry_is_top tid d e)
    (p ← new_top tid (pop_sql at_ reason e d); s_member_id p.1) t =
  controller_after reason (rows_without e tid d) (t_owner_bot_id t).
Proof.
  intros Hwf He. unfold popped_controller, controller_after. destruct (is_handoff reason); [done|].
  pose proof (new_top_spec tid _ (pop_base at_ reason _ e d Hwf He)) as Hnt.
  rewrite stack_top_pop in Hnt. destruct (max_by _ _) as [r|] eqn:Er.
  - destruct Hnt as (dlg & -> & _). simpl.
    rewrite <- stack_top_pop with (at_ := at_) (reason := reason) in Er.
    apply stack_top_elem, elem_of_stack_rows in Er as [Er _].
    destruct (stack_row_dialog _ r (pop_base at_ reason _ e d Hwf He) Er) as (m & _ & -> & _). done.
  - rewrite Hnt. simpl. rewrite (pop_empty_is_top at_ reason tid e d Hwf He); [done|].
    rewrite <- stack_top_pop with (at_ := at_) (reason := reason) in Er. by apply max_by_None in Er.
Qed.

Lemma find_dialog_on_stack m f d : find_dialog m (on_stack f d) = find_dialog m d.
Proof. done. Qed.

(** A successful pop removes exactly the entry of the member, points the
    controller of the thread at what [controller_after] says on every reason,
    and soft-deletes the dialog of the member exactly when it was marked
    auto-leave and still active. *)
Theorem Pop_hands_control_on {E : Env} (tid mid : uuid) reason by_ (w : World) r w' :
  bc_wf (w_db w) ->
  Pop tid mid reason by_ w = (OK r, w') ->
  exists e t,
    pop_entry tid mid (w_db w) = Some e /\
    stack_rows tid (w_db w') = rows_without e tid (w_db w) /\
    find_thread tid (w_db w') = Some t /\
    t_bot_controller_id t = controller_after reason (rows_without e tid (w_db w)) (t_owner_bot_id t) /\
    find_dialog mid (w_db w') =
      (fun g => if d_auto_leave g && bool_decide (d_deleted_at g = None)
                then soft_delete (w_now w) (Some (reason_string reason)) g else g)
        <$> find_dialog mid (w_db w).
Proof.
  intros [Hwf _] (e & t & He & Ht & Hd & _ & _)%Pop_ok. rewrite Hd.
  pose proof (pop_entry_spec _ _ _ _ He) as [Hin Hmid].
  exists e. eexists. split; [done|]. split_and!.
  - unfold pop_db, repoint_sql. change (stack_rows tid (pop_sql (w_now w) reason e (w_db w)) = rows_without e tid (w_db w)).
    rewrite pop_stack_rows. unfold stack_rows. simpl. apply select_delete_comm.
  - unfold pop_db, repoint_sql. apply thread_after_update. by rewrite pop_find_thread.
  - simpl. by apply popped_controller_after.
  - change (find_dialog mid (pop_sql (w_now w) reason e (w_db w)) =
      (fun g => if d_auto_leave g && bool_decide (d_deleted_at g = None)
                then soft_delete (w_now w) (Some (reason_string reason)) g else g)
        <$> find_dialog mid (w_db w)).
    unfold pop_sql, entry_auto_leave. rewrite Hmid. simpl mbind.
    destruct (find_dialog mid (w_db w)) as [g|] eqn:Eg; [|exact Eg].
    destruct (d_auto_leave g) eqn:Eal; simpl.
    + rewrite find_dialog_soft_delete, (find_dialog_on_stack mid), Eg. simpl. f_equal.
      rewrite Eal. apply find_dialog_Some in Eg as [_ ->]. by rewrite bool_decide_true by done.
    + rewrite find_dialog_on_stack. by rewrite Eal.
Qed.

(** ** Push, then pop *)
Lemma find_first_app {A} (P : A -> bool) l x :
  (forall y, y ∈ l -> P y = false) -> P x = true -> find_first P (l ++ [x]) = Some x.
Proof.
  intros Hl Hx. induction l as [|y l IH]; simpl; [by rewrite Hx|].
  rewrite (Hl y) by left. apply IH. intros z Hz. apply Hl. by right.
Qed.

Lemma pop_entry_push id tid mid d :
  mid ∉ stack_members tid d ->
  pop_entry tid mid (push_sql id tid mid d) = Some (MkStackRow id tid (Some mid) (next_position tid d)).
Proof.
  intros Hm. unfold pop_entry. rewrite stack_rows_push, decide_True by done.
  apply find_first_app; [|by apply bool_decide_eq_true].
  intros r Hr. apply bool_decide_eq_false. intros Hr'. apply Hm, elem_of_stack_members. eauto.
Qed.

Lemma rows_without_push id tid mid d :
  id ∉ s_id <$> db_stack d ->
  rows_without (MkStackRow id tid (Some mid) (next_position tid d)) tid (push_sql id tid mid d) =
  stack_rows tid d.
Proof.
  intros Hid. unfold rows_without. rewrite stack_rows_push, decide_True by done.
  rewrite delete_app, delete_where_none.
  - unfold delete_where. simpl. rewrite bool_decide_true by done. simpl. apply app_nil_r.
  - intros r [Hr _]%elem_of_stack_rows. apply bool_decide_eq_false. simpl. intros <-.
    apply Hid. by apply list_elem_of_fmap_2.
Qed.

(** Push and pop are inverse on the stack: a bot that is pushed and then
    completes leaves the entries as they were, and control goes back to the
    entry that was on top, or to the owner bot when there was none. *)
Theorem push_then_pop {E : Env} (tr : BotControlTransition) by_ (w w1 w2 : World) r1 r2 :
  bc_inv w ->
  Push tr w = (OK r1, w1) ->
  Pop (tr_ThreadID tr) (tr_NewMemberID tr) ReasonCompleted by_ w1 = (OK r2, w2) ->
  stack_rows (tr_ThreadID tr) (w_db w2) = stack_rows (tr_ThreadID tr) (w_db w) /\
  exists t, find_thread (tr_ThreadID tr) (w_db w2) = Some t /\
    t_bot_controller_id t = match stack_top (tr_ThreadID tr) (w_db w) with
                            | Some p => s_member_id p
                            | None => t_owner_bot_id t
                            end.
Proof.
  intros [Hwf Hf] (Ha & Hd & _ & _)%Push_ok (e & t & He & Ht & Hd2 & _ & _)%Pop_ok.
  apply fresh_not_in in Hf as Hid. pose proof (push_wf _ _ _ _ Hwf Ha Hid) as [Hwf1 _].
  apply push_accepted_spec in Ha as (_ & _ & Hm & _).
  rewrite Hd in He, Ht, Hd2. rewrite pop_entry_push in He by done. simplify_eq. rewrite Hd2.
  pose proof (rows_without_push (w_next w) (tr_ThreadID tr) (tr_NewMemberID tr) _ Hid) as Hrows. split.
  - change (stack_rows (tr_ThreadID tr) (pop_sql (w_now w1) ReasonCompleted
      (MkStackRow (w_next w) (tr_ThreadID tr) (Some (tr_NewMemberID tr)) (next_position (tr_ThreadID tr) (w_db w)))
      (push_sql (w_next w) (tr_ThreadID tr) (tr_NewMemberID tr) (w_db w))) = stack_rows (tr_ThreadID tr) (w_db w)).
    rewrite pop_stack_rows, <- Hrows. unfold stack_rows. simpl. apply select_delete_comm.
  - eexists. split; [by apply thread_after_update; rewrite pop_find_thread|]. simpl.
    rewrite popped_controller_after by (done || (rewrite stack_rows_push, decide_True by done;
      apply elem_of_app; right; left)).
    unfold controller_after. simpl. by rewrite Hrows.
Qed.

(** ** Restoring control *)
Lemma restore_find_thread tid d :
  find_thread tid (restore_sql tid d) =
  (fun t => if restore_granted tid d t
            then set_thread_control (restore_candidate tid d t) (t_owner_bot_id t) t else t) <$> find_thread tid d.
Proof.
  unfold restore_sql. destruct (find_thread tid d) as [t|] eqn:Et; simpl; [|by rewrite Et].
  destruct (restore_granted tid d t); [|by rewrite Et].
  exact (thread_after_update tid (fun _ => restore_candidate tid d t) (fun t => t_owner_bot_id t) d t Et).
Qed.

Lemma restore_candidate_stack tid d d' t t' :
  db_stack d' = db_stack d -> t_owner_bot_id t' = t_owner_bot_id t ->
  restore_candidate tid d' t' = restore_candidate tid d t.
Proof. intros Hs Ho. unfold restore_candidate, stack_rows. by rewrite Hs, Ho. Qed.

(** The controller a restore leaves. *)
Definition restored (tid : uuid) (d : DB) (t : ThreadRow) : option uuid :=
  coalesce (t_bot_controller_id t) (restore_candidate tid d t).

Lemma restore_controller tid d t :
  find_thread tid d = Some t ->
  exists t', find_thread tid (restore_sql tid d) = Some t' /\ t_bot_controller_id t' = restored tid d t /\ t_owner_bot_id t' = t_owner_bot_id t.
Proof.
  intros Ht. rewrite restore_find_thread, Ht. simpl. eexists. split; [done|].
  unfold restored, restore_granted.
  destruct (t_bot_controller_id t) as [c|] eqn:Ec; simpl; [by rewrite Ec|].
  destruct (restore_candidate tid d t) as [m|] eqn:Em; simpl; [done|]. by rewrite Ec.
Qed.

Lemma restore_twice tid d : restore_sql tid (restore_sql tid d) = restore_sql tid d.
Proof.
  unfold restore_sql at 1. destruct (find_thread tid (restore_sql tid d)) as [t'|] eqn:Et'; [|done].
  destruct (find_thread tid d) as [t|] eqn:Et; [|by rewrite restore_find_thread, Et in Et'].
  destruct (restore_controller tid d t Et) as (t2 & Ht2 & Hc & Ho). simplify_eq.
  unfold restore_granted. rewrite Hc, (restore_candidate_stack tid d _ t) by (done || apply restore_stack).
  unfold restored. destruct (t_bot_controller_id t); simpl; [done|].
  by destruct (restore_candidate tid d t).
Qed.

Lemma restore_dialogs tid d : db_dialogs (restore_sql tid d) = db_dialogs d.
Proof. unfold restore_sql. destruct (find_thread tid d) as [t|]; [|done]. by destruct (restore_granted tid d t). Qed.

Lemma restore_result_again tid d :
  restore_result tid (restore_sql tid d) = (fun p => (fst p, false)) <$> restore_result tid d.
Proof.
  unfold restore_result. destruct (find_thread tid d) as [t|] eqn:Et; [|by rewrite restore_find_thread, Et].
  destruct (restore_controller tid d t Et) as (t' & -> & Hc & Ho). simpl.
  assert (stack_rows tid (restore_sql tid d) = stack_rows tid d) as Hs
    by (unfold stack_rows; by rewrite restore_stack).
  assert (forall m, find_dialog m (restore_sql tid d) = find_dialog m d) as Hdlg
    by (intros m; unfold find_dialog; by rewrite restore_dialogs).
  rewrite Hc, (restore_candidate_stack tid d _ t) by (done || apply restore_stack).
  assert (coalesce (restored tid d t) (restore_candidate tid d t) = restored tid d t) as ->
    by (unfold restored; by destruct (t_bot_controller_id t), (restore_candidate tid d t)).
  fold (restored tid d t). destruct (restored tid d t) as [m|] eqn:Em; simpl; [|done].
  rewrite Hdlg, Hs. destruct (find_dialog m d); simpl; [|done].
  unfold restore_granted. rewrite Hc, ?Em. done.
Qed.

(** RestoreController is idempotent: a second call reports the same
    controller, grants nothing and leaves the database as the first one did. *)
Theorem RestoreController_idempotent {E : Env} (tid : uuid) (w w1 w2 : World) r1 g1 r2 g2 :
  RestoreController tid w = (OK (r1, g1), w1) ->
  RestoreController tid w1 = (OK (r2, g2), w2) ->
  w_db w2 = w_db w1 /\ r2 = r1 /\ g2 = false.
Proof.
  intros (Hd1 & _ & H1)%RestoreController_ok (Hd2 & _ & H2)%RestoreController_ok.
  rewrite Hd2, Hd1, restore_twice. split; [done|].
  rewrite Hd1, restore_result_again in H2.
  destruct (restore_result tid (w_db w)) as [[e g]|]; simpl in H2; by destruct H1 as [-> _], H2 as [-> ->].
Qed.

Lemma clear_find_thread tid d :
  find_thread tid (clear_sql tid d) =
  (fun t => set_thread_control None (t_owner_bot_id t) t) <$> find_thread tid d.
Proof.
  rewrite clear_sql_control. destruct (find_thread tid d) as [t|] eqn:Et.
  - exact (thread_after_update tid (fun _ => None) (fun t => t_owner_bot_id t) d t Et).
  - rewrite find_thread_update by done. by rewrite Et.
Qed.

(** Taking control from a bot and giving it back: clearing the controller
    and restoring it puts the thread under the bot on top of the stack, or the
    owner bot when the stack is empty, and reports it as newly granted. *)
Theorem clear_then_restore {E : Env} (tid : uuid) (w w1 w2 : World) prev r g t :
  bc_wf (w_db w) ->
  find_thread tid (w_db w) = Some t ->
  ClearController tid w = (OK prev, w1) ->
  RestoreController tid w1 = (OK (r, g), w2) ->
  prev = t_bot_controller_id t /\
  let bot := match stack_top tid (w_db w) with Some top => s_member_id top | None => t_owner_bot_id t end in
  (exists t', find_thread tid (w_db w2) = Some t' /\ t_bot_controller_id t' = bot) /\
  (g = true <-> is_Some bot) /\ (e ← r; be_MemberID e) = bot.
Proof.
  intros [Hwf _] Ht (Hd1 & _ & ->)%ClearController_ok (Hd2 & _ & Hr)%RestoreController_ok.
  split; [unfold clear_prev; by rewrite Ht|]. intros bot.
  rewrite Hd1 in Hd2, Hr. rewrite Hd2.
  pose proof (clear_find_thread tid (w_db w)) as Hct. rewrite Ht in Hct. simpl in Hct.
  set (t0 := set_thread_control None (t_owner_bot_id t) t) in *.
  assert (restore_candidate tid (clear_sql tid (w_db w)) t0 = bot) as Hbot.
  { rewrite (restore_candidate_stack tid (w_db w) _ t) by (rewrite ?clear_sql_control; done).
    unfold restore_candidate, bot. rewrite filter_all.
    - unfold stack_top. destruct (max_by s_position (stack_rows tid (w_db w))) as [top|] eqn:Etop; [|done].
      apply max_by_elem, elem_of_stack_rows in Etop as [Etop _].
      simpl. destruct (stack_row_dialog _ top Hwf Etop) as (m & _ & -> & _). done.
    - intros x [Hx _]%elem_of_stack_rows. destruct (stack_row_dialog _ x Hwf Hx) as (m & _ & -> & _). done. }
  assert (forall m, bot = Some m -> is_Some (find_dialog m (clear_sql tid (w_db w)))) as Hdlg.
  { intros m Em. subst bot. destruct (stack_top tid (w_db w)) as [top|] eqn:Etop.
    - apply stack_top_elem, elem_of_stack_rows in Etop as [Etop _].
      destruct (stack_row_dialog _ top Hwf Etop) as (m' & dlg & Hm & Hdlg). simplify_eq. by exists dlg.
    - apply find_thread_Some in Ht as [Hin _]. by apply (wf_owner _ Hwf t m Hin). }
  clearbody bot. split; [|unfold restore_result in Hr; rewrite Hct in Hr; simpl in Hr].
  - destruct (restore_controller tid (clear_sql tid (w_db w)) t0 Hct) as (t' & Ht' & Hc & _).
    exists t'. split; [done|]. by rewrite Hc, <- Hbot.
  - rewrite Hbot in Hr. unfold restore_granted in Hr. rewrite Hbot in Hr. simpl in Hr.
    destruct bot as [m|]; simpl in Hr.
    + destruct (Hdlg m eq_refl) as [dlg Hm]. rewrite Hm in Hr. simpl in Hr. destruct Hr as [-> ->].
      split; [|done]. split; [by eexists|done].
    + destruct Hr as [-> ->]. split; [|done]. by split; [|intros []].
Qed.

(** ** Witnesses *)
Definition sample_push : BotControlTransition := MkTransition 1 13 ReasonTransfer (Some 10%N).
Definition in_tx : World := world_in_tx sample_db.

Lemma sample_inv : bc_inv in_tx.
Proof.
  split; [apply sample_wf|]. intros r Hr. simpl in Hr. in_list Hr. simpl. lia.
Qed.

(** The outcome of a run on the sample. *)
Lemma push_runs : exists r, Push sample_push in_tx = (OK r, snd (Push sample_push in_tx)).
Proof. runs. Qed.


Lemma Push_grants_control_witness :
  exists r w', Push sample_push in_tx = (OK r, w') /\
    exists top, stack_top 1 (w_db w') = Some top /\ s_member_id top = Some 13%N /\ s_position top = 1.
Proof.
  destruct push_runs as [r Hr]. exists r, (snd (Push sample_push in_tx)). split; [exact Hr|].
  destruct (Push_grants_control sample_push in_tx r _ Hr) as (_ & (top & Ht & Hm & Hp) & _).
  exists top. split; [exact Ht|]. split; [exact Hm|exact Hp].
Defined.

(** The bot on top completes: control falls back to the owner bot. *)
Lemma pop_runs : exists r,
  Pop 1 13 ReasonCompleted None (snd (Push sample_push in_tx)) =
  (OK r, snd (Pop 1 13 ReasonCompleted None (snd (Push sample_push in_tx)))).
Proof. runs. Qed.

Lemma pushed_wf : bc_wf (w_db (snd (Push sample_push in_tx))).
Proof.
  destruct push_runs as [r Hr].
  apply (bc_step_inv in_tx); [by apply (step_push _ _ sample_push r)|apply sample_inv].
Qed.

Lemma Pop_hands_control_on_witness :
  exists r w w', Pop 1 13 ReasonCompleted None w = (OK r, w') /\
    exists t, find_thread 1 (w_db w') = Some t /\ t_bot_controller_id t = Some 11%N.
Proof.
  destruct pop_runs as [r Hr]. eexists r, _, _. split; [exact Hr|].
  destruct (Pop_hands_control_on _ _ _ _ _ _ _ pushed_wf Hr) as (e & t & He & _ & Ht & Hc & _).
  exists t. split; [exact Ht|]. rewrite Hc. vm_compute in He. injection He as <-.
  vm_compute in Ht. injection Ht as <-. reflexivity.
Defined.

Lemma push_then_pop_witness :
  exists r1 r2 w1 w2, Push sample_push in_tx = (OK r1, w1) /\
    Pop 1 13 ReasonCompleted None w1 = (OK r2, w2) /\
    stack_rows 1 (w_db w2) = stack_rows 1 (w_db in_tx).
Proof.
  destruct push_runs as [r1 H1]. destruct pop_runs as [r2 H2].
  exists r1, r2. eexists. eexists. split; [exact H1|]. split; [exact H2|].
  exact (proj1 (push_then_pop sample_push None _ _ _ _ _ sample_inv H1 H2)).
Defined.

Lemma RestoreController_idempotent_witness :
  exists r1 g1 r2 g2 w1 w2, RestoreController 1 in_tx = (OK (r1, g1), w1) /\
    RestoreController 1 w1 = (OK (r2, g2), w2) /\ r2 = r1 /\ g2 = false.
Proof.
  assert (exists p, RestoreController 1 in_tx = (OK p, snd (RestoreController 1 in_tx))) as [[r1 g1] H1] by runs.
  assert (exists p, RestoreController 1 (snd (RestoreController 1 in_tx)) =
    (OK p, snd (RestoreController 1 (snd (RestoreController 1 in_tx))))) as [[r2 g2] H2] by runs.
  exists r1, g1, r2, g2. eexists. eexists. split; [exact H1|]. split; [exact H2|].
  exact (proj2 (RestoreController_idempotent 1 _ _ _ _ _ _ _ H1 H2)).
Defined.

Lemma clear_then_restore_witness :
  exists prev r g w1 w2, ClearController 1 in_tx = (OK prev, w1) /\ RestoreController 1 w1 = (OK (r, g), w2) /\
    (e ← r; be_MemberID e) = Some 11%N.
Proof.
  assert (exists p, ClearController 1 in_tx = (OK p, snd (ClearController 1 in_tx))) as [prev H1] by runs.
  assert (exists p, RestoreController 1 (snd (ClearController 1 in_tx)) =
    (OK p, snd (RestoreController 1 (snd (ClearController 1 in_tx))))) as [[r g] H2] by runs.
  exists prev, r, g. eexists. eexists. split; [exact H1|]. split; [exact H2|].
  exact (proj2 (proj2 (proj2 (clear_then_restore 1 in_tx _ _ _ _ _ _ sample_wf eq_refl H1 H2)))).
Defined.
