(* ===== verification/DialogStore.v ===== *)
(** * DialogStore: members of threads

    internal/store/postgres/thread_dialog_store.go over im_thread.thread_dialog,
    im_thread.thread_permission and im_thread.direct_settings, with the
    constraints of the migrations: one active dialog per (member_id,
    thread_id), invited_by references a dialog, the title of the settings has
    1..255 characters and is not blank.  The order of rows without ORDER BY is
    the order of insertion. *)
From S2P Require Import Prelude Domain Events Message World BotControlStore.
#[local] Open Scope Z_scope.

(** ** Characters of a stored text *)

(** A UTF-8 continuation byte does not start a character. *)
Definition is_continuation (c : Ascii.ascii) : bool :=
  let n := Ascii.N_of_ascii c in ((128 <=? n) && (n <? 192))%N.

(** [char_length(s)] *)
Fixpoint char_length (s : string) : Z :=
  match s with
  | EmptyString => 0
  | String c s' => (if is_continuation c then 0 else 1) + char_length s'
  end.

(** [trim(s) = ''] *)
Fixpoint blank (s : string) : bool :=
  match s with
  | EmptyString => true
  | String c s' => Ascii.eqb c (Ascii.ascii_of_N 32) && blank s'
  end.

(** ** Rows as scanned *)
Record threadDialog := MkThreadDialogRec {
  rec_ID : uuid; rec_DomainID : Z; rec_CreatedAt : Time; rec_UpdatedAt : Time;
  rec_DeletedAt : option Time; rec_InvitedBy : option uuid; rec_LeaveReason : option string;
  rec_ContactID : uuid; rec_ThreadID : uuid; rec_Role : Z;
  rec_CanSendMessages : bool; rec_CanAddMembers : bool; rec_CanChangeMembersPermissions : bool;
  rec_CanRemoveMembers : bool; rec_CanChangeThreadInfo : bool; rec_CanDeleteMessages : bool;
  rec_Via : option string; rec_QueueID : option Z; rec_Title : string;
  rec_IsBot : bool; rec_AutoLeave : bool }.

(** The record has no [can_react_messages]. *)
Definition mapToThreadDialogExtendedModel (d : threadDialog) : ThreadDialogExtended :=
  MkDialogExt (rec_ID d) (rec_DomainID d) (rec_CreatedAt d) (rec_UpdatedAt d) (rec_ContactID d)
    (rec_ThreadID d) (rec_Role d) (rec_DeletedAt d) (rec_InvitedBy d) (rec_LeaveReason d)
    (rec_Via d) (rec_QueueID d) (rec_IsBot d) (rec_AutoLeave d)
    (MkPerms (rec_CanSendMessages d) (rec_CanAddMembers d) (rec_CanRemoveMembers d)
       (rec_CanChangeMembersPermissions d) (rec_CanChangeThreadInfo d) (rec_CanDeleteMessages d) false)
    (rec_Title d).

Definition mapToThreadDialogModel (d : threadDialog) : ThreadDialog :=
  MkDialog (rec_ID d) (rec_DomainID d) (rec_CreatedAt d) (rec_UpdatedAt d) (rec_ContactID d)
    (rec_ThreadID d) (rec_Role d) (rec_DeletedAt d) (rec_InvitedBy d) (rec_LeaveReason d)
    (rec_Via d) (rec_IsBot d) false.

(** ** Create *)
Definition active (r : DialogRow) : bool := bool_decide (d_deleted_at r = None).

(** Whether the server accepts the three inserts. *)
Definition create_accepted (m : ThreadDialogExtended) (d : DB) : bool :=
  negb (existsb (fun r => active r && bool_decide (d_member_id r = tde_ContactID m) &&
                          bool_decide (d_thread_id r = tde_ThreadID m)) (db_dialogs d)) &&
  match tde_InvitedBy m with Some i => bool_decide (is_Some (find_dialog i d)) | None => true end &&
  negb (blank (tde_Title m)) && (char_length (tde_Title m) <=? 255).

Definition new_dialog (id : uuid) (at_ : Time) (t : ThreadRow) (m : ThreadDialogExtended) : DialogRow :=
  MkDialogRow id (t_domain_id t) at_ at_ (tde_ContactID m) (t_id t) (tde_ThreadRole m) None
    (tde_InvitedBy m) None (tde_Via m) (tde_QueueID m) (tde_IsBot m) (tde_AutoLeave m)
    None None None 0.

(** The insert names every permission but [can_react_messages], whose default is true. *)
Definition with_react (b : bool) (p : ThreadPermissions) : ThreadPermissions :=
  MkPerms (CanSendMessages p) (CanAddMembers p) (CanRemoveMembers p) (CanChangeMembersPermissions p)
    (CanChangeThreadInfo p) (CanDeleteMessages p) b.

Definition create_sql (id pid : uuid) (at_ : Time) (t : ThreadRow) (m : ThreadDialogExtended) (d : DB) : DB :=
  on_settings (fun l => l ++ [MkSettingRow id (t_domain_id t) (tde_Title m)])
    (on_perms (fun l => l ++ [MkPermRow pid (t_id t) id (with_react true (tde_Permissions m)) at_ at_])
      (on_dialogs (fun l => l ++ [new_dialog id at_ t m]) d)).

(** The columns the final SELECT returns. *)
Definition created_record (r : DialogRow) (p : ThreadPermissions) (title : string) : threadDialog :=
  MkThreadDialogRec (d_id r) (d_domain_id r) (d_created_at r) (d_updated_at r) None (d_invited_by r)
    (d_leave_reason r) (d_member_id r) (d_thread_id r) (d_thread_role r)
    (CanSendMessages p) (CanAddMembers p) (CanChangeMembersPermissions p) (CanRemoveMembers p)
    (CanChangeThreadInfo p) (CanDeleteMessages p) (d_via r) (d_queue_id r) title (d_is_bot r) (d_auto_leave r).

(** ** Reading *)
Record ThreadDialogStoreFilter := MkDialogFilter {
  sf_Limit : Z; sf_Offset : Z;
  sf_ThreadIDs : option (list uuid); sf_ContactIDs : option (list uuid); sf_IDs : option (list uuid);
  sf_IncludeDeleted : bool; sf_DomainID : Z }.

(** [@Xs::uuid[] IS NULL OR x = ANY(@Xs)] *)
Definition any_of (xs : option (list uuid)) (x : uuid) : bool :=
  match xs with None => true | Some l => bool_decide (x ∈ l) end.

Definition paged {A} (limit offset : Z) (l : list A) : list A :=
  let l' := drop (Z.to_nat offset) l in
  if limit >? 0 then take (Z.to_nat limit) l' else l'.

Definition quick_filter (f : ThreadDialogStoreFilter) (r : DialogRow) : bool :=
  any_of (sf_ThreadIDs f) (d_thread_id r) && any_of (sf_ContactIDs f) (d_member_id r) &&
  (bool_decide (sf_DomainID f = 0) || bool_decide (d_domain_id r = sf_DomainID f)) &&
  (sf_IncludeDeleted f || active r).

(** Neither deleted_at nor auto_leave is selected. *)
Definition quick_record (r : DialogRow) : threadDialog :=
  MkThreadDialogRec (d_id r) (d_domain_id r) (d_created_at r) (d_updated_at r) None (d_invited_by r)
    (d_leave_reason r) (d_member_id r) (d_thread_id r) (d_thread_role r)
    false false false false false false (d_via r) None "" (d_is_bot r) false.

Definition quick_view (f : ThreadDialogStoreFilter) (d : DB) : list ThreadDialog :=
  (fun r => mapToThreadDialogModel (quick_record r))
    <$> paged (sf_Limit f) (sf_Offset f) (select_where (quick_filter f) (db_dialogs d)).

Definition left_join {A} (l : list A) : list (option A) :=
  match l with [] => [None] | _ => Some <$> l end.

(** The dialog with its permission and settings rows (two LEFT JOINs). *)
Definition full_rows (d : DB) (r : DialogRow) : list (DialogRow * option PermRow * option SettingRow) :=
  p ← left_join (select_where (fun p => bool_decide (p_thread_dialog_id p = d_id r)) (db_perms d));
  s ← left_join (select_where (fun s => bool_decide (st_thread_dialog_id s = d_id r)) (db_settings d));
  [(r, p, s)].

(** A missing row joins NULLs, which do not scan into [bool] and [string]. *)
Definition scan_full (is_bot auto_leave : DialogRow -> bool)
    (x : DialogRow * option PermRow * option SettingRow) : option threadDialog :=
  match x with
  | (r, Some p, Some s) =>
      let q := p_perms p in
      Some (MkThreadDialogRec (d_id r) (d_domain_id r) (d_created_at r) (d_updated_at r) None
              (d_invited_by r) (d_leave_reason r) (d_member_id r) (d_thread_id r) (d_thread_role r)
              (CanSendMessages q) (CanAddMembers q) (CanChangeMembersPermissions q)
              (CanRemoveMembers q) (CanChangeThreadInfo q) (CanDeleteMessages q)
              None None (st_title s) (is_bot r) (auto_leave r))
  | _ => None
  end.

Definition full_filter (f : ThreadDialogStoreFilter) (r : DialogRow) : bool :=
  any_of (sf_ThreadIDs f) (d_thread_id r) && any_of (sf_ContactIDs f) (d_member_id r) &&
  any_of (sf_IDs f) (d_id r) && (sf_IncludeDeleted f || active r).

(** [collectRows]: every row scans, or the call fails. *)
Definition collectRows {A B C} (scan : A -> option B) (mapper : B -> C) (l : list A) : result (list C) :=
  match mapM scan l with Some bs => OK (mapper <$> bs) | None => Err scan_error end.

Definition full_view (f : ThreadDialogStoreFilter) (d : DB) : result (list ThreadDialogExtended) :=
  collectRows (scan_full d_is_bot d_auto_leave) mapToThreadDialogExtendedModel
    (paged (sf_Limit f) (sf_Offset f) (select_where (full_filter f) (db_dialogs d) ≫= full_rows d)).

(** The active dialogs of the target's thread that are the target or belong to
    the initiator.  Neither is_bot, auto_leave nor via is selected. *)
Definition actor_rows (initiatorContactID targetMemberID : uuid) (d : DB) : list DialogRow :=
  match find_dialog targetMemberID d with
  | None => []
  | Some target =>
      select_where (fun r => bool_decide (d_thread_id r = d_thread_id target) && active r &&
        (bool_decide (d_member_id r = initiatorContactID) || bool_decide (d_id r = targetMemberID)))
        (db_dialogs d)
  end.

Definition actor_dialogs (initiatorContactID targetMemberID : uuid) (d : DB)
    : result (list ThreadDialogExtended) :=
  collectRows (scan_full (fun _ => false) (fun _ => false)) mapToThreadDialogExtendedModel
    (actor_rows initiatorContactID targetMemberID d ≫= full_rows d).

(** The loop over the rows: it stops when both are found, and a later row of
    the initiator's contact replaces an earlier one. *)
Fixpoint pick_actors (initiatorContactID targetMemberID : uuid) (ds : list ThreadDialogExtended)
    (acc : option ThreadDialogExtended * option ThreadDialogExtended)
    : option ThreadDialogExtended * option ThreadDialogExtended :=
  match ds with
  | [] => acc
  | dialog :: ds' =>
      match acc with
      | (Some _, Some _) => acc
      | (i, t) =>
          pick_actors initiatorContactID targetMemberID ds'
            (if decide (tde_ContactID dialog = initiatorContactID) then Some dialog else i,
             if decide (tde_ID dialog = targetMemberID) then Some dialog else t)
      end
  end.

(** ** AdoptUntrackedBot *)

(** [ORDER BY d.created_at, d.id LIMIT 1] *)
Definition earlier (a b : DialogRow) : bool :=
  (d_created_at a <? d_created_at b) ||
  (bool_decide (d_created_at a = d_created_at b) && (d_id a <? d_id b)%N).

Fixpoint earliest (l : list DialogRow) : option DialogRow :=
  match l with
  | [] => None
  | r :: l' => match earliest l' with
               | Some r' => if earlier r' r then Some r' else Some r
               | None => Some r
               end
  end.

Definition adopt_candidate (contact_is_bot : uuid -> option bool) (threadID newMemberID : uuid) (d : DB)
    : option DialogRow :=
  match stack_rows threadID d with
  | _ :: _ => None
  | [] =>
      earliest (select_where (fun r =>
        bool_decide (d_thread_id r = threadID) && negb (bool_decide (d_id r = newMemberID)) &&
        active r && negb (d_is_bot r) && bool_decide (contact_is_bot (d_member_id r) = Some true))
        (db_dialogs d))
  end.

Definition mark_bot (at_ : Time) (r : DialogRow) : DialogRow :=
  MkDialogRow (d_id r) (d_domain_id r) (d_created_at r) at_ (d_member_id r) (d_thread_id r)
    (d_thread_role r) (d_deleted_at r) (d_invited_by r) (d_leave_reason r) (d_via r) (d_queue_id r)
    true (d_auto_leave r)
    (d_last_read_message_id r) (d_last_read_seq r) (d_last_delivered_seq r) (d_unread_count r).

(** ** The store *)
Section store.
Context {E : Env}.

Definition Create (member : ThreadDialogExtended) : SM ThreadDialogExtended :=
  if decide (tde_ThreadID member = uuid_Nil) then throw (InvalidArgument "threadID cannot be nil")
  else if decide (tde_ContactID member = uuid_Nil) then throw (InvalidArgument "newMemberID cannot be nil")
  else
    statement_as "creating thread dialog";;
    d ← gets w_db;
    match find_thread (tde_ThreadID member) d with
    | None => throw (WithCause no_rows (NotFound "creating thread dialog for given thread"))
    | Some t =>
        if create_accepted member d then
          id ← fresh;
          pid ← fresh;
          at_ ← now;
          modify (fun w => set_db (create_sql id pid at_ t member (w_db w)) w);;
          mret (mapToThreadDialogExtendedModel
                  (created_record (new_dialog id at_ t member) (tde_Permissions member) (tde_Title member)))
        else reject_as "collecting created thread result"
    end.

Definition Delete (memberID : uuid) (leaveReason : option string) : SM unit :=
  if decide (memberID = uuid_Nil) then throw (errors_New "newMemberID cannot be nil")
  else
    statement;;
    at_ ← now;
    d ← gets w_db;
    modify (fun w => set_db (on_dialogs
      (update_where (fun r => bool_decide (d_id r = memberID)) (soft_delete at_ leaveReason)) (w_db w)) w);;
    match find_dialog memberID d with
    | None => throw (errors_New "no thread member found to delete")
    | Some _ => mret tt
    end.

(** The adopted dialog, [uuid_Nil] when there is none. *)
Definition AdoptUntrackedBot (threadID newMemberID : uuid) : SM uuid :=
  if decide (threadID = uuid_Nil) then throw (errors_New "threadID cannot be nil")
  else
    statement_as "adopting untracked bot";;
    at_ ← now;
    d ← gets w_db;
    match adopt_candidate env_contact_is_bot threadID newMemberID d with
    | None => mret uuid_Nil
    | Some r =>
        modify (fun w => set_db (on_dialogs
          (update_where (fun r' => bool_decide (d_id r' = d_id r)) (mark_bot at_)) (w_db w)) w);;
        mret (d_id r)
    end.

(** A negative OFFSET is an error of the server. *)
Definition GetQuickView (filter : ThreadDialogStoreFilter) : SM (list ThreadDialog) :=
  statement;;
  if sf_Offset filter <? 0 then reject constraint_error
  else gets (fun w => quick_view filter (w_db w)).

Definition GetFullView (filter : ThreadDialogStoreFilter) : SM (list ThreadDialogExtended) :=
  statement;;
  if sf_Offset filter <? 0 then reject constraint_error
  else d ← gets w_db; of_result (full_view filter d).

Definition FindActorsPair (initiatorContactID targetMemberID : uuid)
    : SM (option ThreadDialogExtended * option ThreadDialogExtended) :=
  statement;;
  d ← gets w_db;
  ds ← of_result (actor_dialogs initiatorContactID targetMemberID d);
  mret (pick_actors initiatorContactID targetMemberID ds (None, None)).
End store.
