(* ===== verification/Paging.v ===== *)
(** * Paging: limits, offsets, sorts and columns of the simple list queries

    internal/store/postgres/utils.go: pages are cut from a query that asks for
    one row more than the page holds; columns and sort fields come from the
    caller and are checked against the columns of the entity. *)
From Stdlib Require Import Ascii.
From S2P Require Import Prelude Domain Events Message World DialogStore.
#[local] Open Scope Z_scope.

(** ** Limit and offset *)
Definition maxLimit : Z := 100.
Definition limitDefault : Z := 20.

Record Pagination := MkPagination { pn_Limit : Z; pn_Page : Z; pn_Sort : string }.
Record Page (A : Type) := MkPage { pa_Items : list A; pa_HasNext : bool }.
Arguments MkPage {A}.
Arguments pa_Items {A}.
Arguments pa_HasNext {A}.

(** [applyLimit]: the LIMIT of the statement. *)
Definition applyLimit (limitVal : Z) : Z :=
  let l := if maxLimit <? limitVal then maxLimit else limitVal in
  (if l <=? 0 then limitDefault else l) + 1.

(** [applyOffset] multiplies by the limit as it was asked for; no OFFSET is 0. *)
Definition applyOffset (page limit : Z) : Z := if 1 <? page then (page - 1) * limit else 0.

Definition buildPage {A} (items : list A) (limit : Z) : Page A :=
  let l := if limit <=? 0 then limitDefault else limit in
  let l := if maxLimit <? l then maxLimit else l in
  let hasNext := l <? Z.of_nat (length items) in
  MkPage (if hasNext then take (Z.to_nat l) items else items) hasNext.

(** The page of a query whose rows are [rows], None when the server refuses a negative OFFSET. *)
Definition page_of {A} (p : Pagination) (rows : list A) : option (Page A) :=
  let offset := applyOffset (pn_Page p) (pn_Limit p) in
  if offset <? 0 then None
  else Some (buildPage (take (Z.to_nat (applyLimit (pn_Limit p))) (drop (Z.to_nat offset) rows)) (pn_Limit p)).

(** ** Sort *)
Inductive SortOrder := SortAsc | SortDesc.
Record SortField := MkSortField { so_Field : string; so_Order : SortOrder }.

Definition parseSortField (sort : string) : result SortField :=
  match sort with
  | String c (String _ _ as field) =>
      if Ascii.eqb c "+"%char then OK (MkSortField field SortAsc)
      else if Ascii.eqb c "-"%char then OK (MkSortField field SortDesc)
      else Err (InvalidArgument ("sort must start with + or -: " +:+ sort))
  | _ => Err (InvalidArgument "invaliadate sort string format")
  end.

Definition validateSortField (columns : list string) (field : string) : result unit :=
  if bool_decide (field ∈ columns) then OK tt else Err (InvalidArgument ("invalid sort field: " +:+ field)).

(** [None] is a statement without ORDER BY. *)
Definition applySort (columns : list string) (sort : string) : result (option SortField) :=
  if decide (sort = "") then OK None
  else sf ← parseSortField sort; validateSortField columns (so_Field sf);; OK (Some sf).

(** [performColumnsValidation]: the known columns of the request, or the default ones. *)
Definition performColumnsValidation (columns defaults cols : list string) : list string :=
  match List.filter (fun c => bool_decide (c ∈ columns)) cols with [] => defaults | cs => cs end.

(** ** Facts *)

(** The size a page is cut to. *)
Definition page_size (limit : Z) : Z := if limit <=? 0 then limitDefault else Z.min limit maxLimit.

Lemma applyLimit_size limit : applyLimit limit = page_size limit + 1.
Proof.
  unfold applyLimit, page_size, maxLimit, limitDefault.
  destruct (Z.ltb_spec 100 limit), (Z.leb_spec limit 0); try destruct (Z.leb_spec 100 0); try lia;
    destruct (Z.leb_spec limit 0); lia.
Qed.

Lemma page_size_bounds limit : 1 <= page_size limit <= 100.
Proof. unfold page_size, maxLimit, limitDefault. destruct (Z.leb_spec limit 0); lia. Qed.

Lemma buildPage_size {A} (items : list A) limit :
  buildPage items limit =
  MkPage (take (Z.to_nat (page_size limit)) items) (page_size limit <? Z.of_nat (length items)).
Proof.
  unfold buildPage. assert ((if maxLimit <? (if limit <=? 0 then limitDefault else limit) then maxLimit
    else if limit <=? 0 then limitDefault else limit) = page_size limit) as ->.
  { unfold page_size, maxLimit, limitDefault. destruct (Z.leb_spec limit 0); [by simpl|].
    destruct (Z.ltb_spec 100 limit); lia. }
  f_equal. destruct (Z.ltb_spec (page_size limit) (Z.of_nat (length items))); [done|].
  by rewrite take_ge by lia.
Qed.

Lemma page_of_spec {A} (p : Pagination) (rows : list A) : 0 <= applyOffset (pn_Page p) (pn_Limit p) ->
  let n := Z.to_nat (page_size (pn_Limit p)) in
  let rest := drop (Z.to_nat (applyOffset (pn_Page p) (pn_Limit p))) rows in
  page_of p rows = Some (MkPage (take n rest) (bool_decide (n < length rest)%nat)).
Proof.
  intros Ho. simpl. unfold page_of. destruct (Z.ltb_spec (applyOffset (pn_Page p) (pn_Limit p)) 0); [lia|].
  rewrite buildPage_size, applyLimit_size. pose proof (page_size_bounds (pn_Limit p)).
  rewrite take_take. f_equal. f_equal; [f_equal; lia|].
  rewrite length_take, length_drop. apply eq_true_iff_eq.
  rewrite Z.ltb_lt, bool_decide_eq_true. lia.
Qed.

(** Pages of a list query.  With a size between 1 and the maximum of 100
    the pages from the first on tile the rows, none lost and none shown twice,
    and a page says that another follows exactly when one does.  Without a size
    every page after the first is the first page again, since the offset is
    computed from the size as it was asked for. *)
Theorem list_pages {A} (rows : list A) (limit : Z) (sort : string) (pages : nat) :
  (1 <= limit <= 100 ->
    exists ps, mapM (fun i => page_of (MkPagination limit (Z.of_nat i + 1) sort) rows) (seq 0 pages) = Some ps /\
      concat (pa_Items <$> ps) = take (pages * Z.to_nat limit) rows /\
      forall i p, ps !! i = Some p -> pa_HasNext p = bool_decide (S i * Z.to_nat limit < length rows)%nat) /\
  (forall i, page_of (MkPagination 0 (Z.of_nat i + 1) sort) rows = page_of (MkPagination 0 1 sort) rows).
Proof.
  split.
  - intros Hl. set (n := Z.to_nat limit).
    assert (forall i, page_of (MkPagination limit (Z.of_nat i + 1) sort) rows =
      Some (MkPage (take n (drop (i * n) rows)) (bool_decide (S i * n < length rows)%nat))) as Hp.
    { intros i. assert (applyOffset (Z.of_nat i + 1) limit = Z.of_nat (i * n)) as Ho.
      { unfold applyOffset, n. destruct (Z.ltb_spec 1 (Z.of_nat i + 1)); [|assert (i = 0)%nat as -> by lia; lia].
        rewrite Nat2Z.inj_mul, Z2Nat.id by lia. lia. }
      assert (page_size limit = limit) as Hs by (unfold page_size, maxLimit; destruct (Z.leb_spec limit 0); lia).
      rewrite page_of_spec by (simpl; rewrite Ho; lia). simpl. rewrite Ho, Hs, Nat2Z.id. fold n.
      f_equal. f_equal. rewrite length_drop. apply bool_decide_ext. lia. }
    exists ((fun i => MkPage (take n (drop (i * n) rows)) (bool_decide (S i * n < length rows)%nat)) <$> seq 0 pages).
    split_and!.
    + apply mapM_Some. rewrite Forall2_fmap_r. apply Forall_Forall2_diag, Forall_forall.
      intros i _. apply Hp.
    + rewrite <- list_fmap_compose. change (pa_Items ∘ _) with (fun i => take n (drop (i * n) rows)).
      induction pages as [|k IH]; [done|]. rewrite seq_S, fmap_app, concat_app, IH. simpl. rewrite app_nil_r.
      rewrite take_take_drop. f_equal. lia.
    + intros i p. rewrite list_lookup_fmap, fmap_Some. intros (j & [-> Hj]%lookup_seq & ->). done.
  - intros i. unfold page_of. simpl. unfold applyOffset. destruct (1 <? Z.of_nat i + 1); [|done].
    by rewrite Z.mul_0_r.
Qed.
