(* ===== verification/PreviewStore.v ===== *)
(** * PreviewStore: time-limited looks into a thread

    internal/store/postgres/thread_preview_store.go over
    im_thread.thread_preview.  A preview is active while it is not revoked and
    its end lies in the future; a unique index keeps at most one unrevoked
    preview of a contact in a thread.  [None] stands for
    [store.ErrPreviewNotActive]. *)
From S2P Require Import Prelude Domain Events Message World DialogStore.
#[local] Open Scope Z_scope.

Definition PreviewRevokeReasonRemove : string := "remove".
Definition PreviewRevokeReasonUpgrade : string := "upgrade".
Definition PreviewRevokeReasonExpired : string := "expired".

(** [model.ThreadPreview] is the row. *)
Abbreviation ThreadPreview := PreviewRow.

Definition unrevoked (p : PreviewRow) : bool := bool_decide (pv_revoked_at p = None).
Definition preview_active (at_ : Time) (p : PreviewRow) : bool := unrevoked p && (at_ <? pv_expires_at p).
Definition preview_of (tid contact : uuid) (p : PreviewRow) : bool :=
  bool_decide (pv_thread_id p = tid) && bool_decide (pv_contact_id p = contact).
Definition any_domain (domainID : Z) (x : Z) : bool := bool_decide (domainID = 0) || bool_decide (x = domainID).

Definition revoke_row (at_ : Time) (reason : string) (p : PreviewRow) : PreviewRow :=
  MkPreviewRow (pv_id p) (pv_domain_id p) (pv_thread_id p) (pv_contact_id p) (pv_initiator_id p)
    (pv_created_at p) (pv_expires_at p) (Some at_) (Some reason).
Definition extend_row (expires : Time) (p : PreviewRow) : PreviewRow :=
  MkPreviewRow (pv_id p) (pv_domain_id p) (pv_thread_id p) (pv_contact_id p) (pv_initiator_id p)
    (pv_created_at p) expires (pv_revoked_at p) (pv_revoke_reason p).

Definition active_preview (at_ : Time) (tid contact : uuid) (domainID : Z) (d : DB) : option PreviewRow :=
  max_by pv_created_at (select_where (fun p => preview_of tid contact p && any_domain domainID (pv_domain_id p) &&
    preview_active at_ p) (db_previews d)).

Definition can_read (at_ : Time) (tid caller : uuid) (domainID : Z) (d : DB) : bool :=
  existsb (fun td => bool_decide (d_thread_id td = tid) && bool_decide (d_member_id td = caller) && active td &&
                     any_domain domainID (d_domain_id td)) (db_dialogs d) ||
  existsb (fun p => preview_of tid caller p && preview_active at_ p && any_domain domainID (pv_domain_id p))
    (db_previews d).

(** A lapsed row gives up its place before the insert. *)
Definition expire_sql (at_ : Time) (tid contact : uuid) (d : DB) : DB :=
  on_previews (update_where (fun p => preview_of tid contact p && unrevoked p && (pv_expires_at p <=? at_))
    (revoke_row at_ PreviewRevokeReasonExpired)) d.

Definition preview_conflict (tid contact : uuid) (d : DB) : option PreviewRow :=
  find_first (fun p => preview_of tid contact p && unrevoked p) (db_previews d).

Definition thread_in_domain (domainID : Z) (tid : uuid) (d : DB) : bool :=
  existsb (fun t => bool_decide (t_id t = tid) && bool_decide (t_domain_id t = domainID)) (db_threads d).

Section store.
Context {E : Env}.

Definition GetActiveForUpdate (threadID contactID : uuid) (domainID : Z) : SM (option ThreadPreview) :=
  statement_as "error executing preview select query";;
  at_ ← now;
  gets (fun w => active_preview at_ threadID contactID domainID (w_db w)).

(** The time to live is in whole milliseconds; the end must lie after the
    start, also for a row that meets a conflict; the thread is checked only
    when the row is inserted. *)
Definition Upsert (preview : ThreadPreview) (ttl_ms : Z) : SM ThreadPreview :=
  let tid := pv_thread_id preview in let contact := pv_contact_id preview in
  statement_as "error executing preview expire query";;
  at_ ← now;
  modify (fun w => set_db (expire_sql at_ tid contact (w_db w)) w);;
  statement_as "error executing preview upsert query";;
  d ← gets w_db;
  let expires := at_ + ttl_ms * 1000000 in
  if expires <=? at_ then reject_as "error collecting preview upsert result"
  else
    match preview_conflict tid contact d with
    | Some p =>
        modify (fun w => set_db (on_previews (update_where (fun p' => bool_decide (pv_id p' = pv_id p)) (extend_row expires)) (w_db w)) w);;
        mret (extend_row expires p)
    | None =>
        if thread_in_domain (pv_domain_id preview) tid d then
          id ← fresh;
          let p := MkPreviewRow id (pv_domain_id preview) tid contact (pv_initiator_id preview) at_ expires None None in
          modify (fun w => set_db (on_previews (fun l => l ++ [p]) (w_db w)) w);;
          mret p
        else reject (WithCode CodeNotFound (WithCause constraint_error (errors_New "thread not found")))
    end.

Definition Revoke (previewID : uuid) (reason : string) : SM (option unit) :=
  statement_as "error executing preview revoke query";;
  at_ ← now;
  d ← gets w_db;
  let hit p := bool_decide (pv_id p = previewID) && unrevoked p in
  modify (fun w => set_db (on_previews (update_where hit (revoke_row at_ reason)) (w_db w)) w);;
  mret (if existsb hit (db_previews d) then Some tt else None).

Definition CanRead (threadID callerID : uuid) (domainID : Z) : SM bool :=
  statement_as "error executing can_read query";;
  at_ ← now;
  gets (fun w => can_read at_ threadID callerID domainID (w_db w)).
End store.
