(* ===== verification/VariableStore.v ===== *)
(** * VariableStore: the variables of a thread

    internal/store/postgres/thread_variables.go with
    internal/domain/model/thread_variables.go over im_thread.thread_variables:
    one JSON object per thread, each key with its value, the contact that set
    it and the time. *)
From S2P Require Import Prelude Domain Events Message World DialogStore Paging PreviewStore.
#[local] Open Scope Z_scope.

(** ** Data *)
Abbreviation variables := (gmap string VariableEntry).
Record ThreadVariables := MkThreadVariables {
  tv_ThreadID : uuid; tv_Variables : variables; tv_ThreadMembers : list uuid }.
Record SetThreadVariablesCommand := MkSetVariables { sv_Member : uuid; sv_ThreadID : uuid; sv_Variables : variables }.
Record FlushVariablesCommand := MkFlushVariables { fv_ThreadID : uuid; fv_Member : uuid; fv_Keys : option (list string) }.
Record GetThreadVariablesQuery := MkGetVariables {
  gv_Pagination : Pagination; gv_Fields : list string; gv_ThreadIDs : list uuid; gv_CallerID : uuid; gv_DomainID : Z }.
Record LocateThreadVariablesQuery := MkLocateVariables { lv_ThreadID : uuid; lv_CallerID : uuid; lv_DomainID : Z }.

(** The methods of the model: a variable belongs to the contact that set it. *)
Definition SetVariable (now : Time) (key : string) (user : uuid) (value : any) (vars : variables) : result variables :=
  match vars !! key with
  | Some e => if decide (va_SetBy e <> user) then Err (Forbidden "variable already set by another user")
              else OK (<[key := MkVariable value user now]> vars)
  | None => OK (<[key := MkVariable value user now]> vars)
  end.
Definition GetVariable (key : string) (vars : variables) : option VariableEntry := vars !! key.
Definition DeleteVariable (key : string) (user : uuid) (vars : variables) : result variables :=
  match vars !! key with
  | None => Err (NotFound "variable not found")
  | Some e => if decide (va_SetBy e <> user) then Err (Forbidden "variable not set by user")
              else OK (delete key vars)
  end.

(** ** Statements *)

(** [array_agg(distinct member_id)] is sorted. *)
Definition active_members (tid : uuid) (d : DB) : list uuid :=
  merge_sort N.le (remove_dups (d_member_id <$>
    select_where (fun r => bool_decide (d_thread_id r = tid) && active r) (db_dialogs d))).

Definition find_variables (tid : uuid) (d : DB) : option VariablesRow :=
  find_first (fun r => bool_decide (vr_thread_id r = tid)) (db_variables d).

(** [value || jsonb_build_object('set_at', now())] *)
Definition stamped (at_ : Time) (vars : variables) : variables :=
  (fun e => MkVariable (va_Value e) (va_SetBy e) at_) <$> vars.

(** No stored key is taken over from another contact. *)
Definition takeover (old new : variables) : bool :=
  existsb (fun kv => match new !! kv.1 with
                     | Some e => negb (bool_decide (va_SetBy e = va_SetBy kv.2))
                     | None => false
                     end) (map_to_list old).

(** [variables || excluded.variables]: the right side wins. *)
Definition put_variables (tid : uuid) (vars : variables) (d : DB) : DB :=
  on_variables (update_where (fun r => bool_decide (vr_thread_id r = tid)) (fun _ => MkVariablesRow tid vars)) d.

(** Keys are kept unless they are the member's own and among those asked for;
    without a list all are. *)
Definition flushes (member : uuid) (keys : option (list string)) (key : string) (e : VariableEntry) : bool :=
  match keys with None => true | Some ks => bool_decide (key ∈ ks) end && bool_decide (va_SetBy e = member).
Definition flushed (member : uuid) (keys : option (list string)) (vars : variables) : variables :=
  filter (fun kv => flushes member keys kv.1 kv.2 = false) vars.

Definition readable_threads (at_ : Time) (caller : uuid) (d : DB) (tid : uuid) : bool :=
  existsb (fun td => bool_decide (d_thread_id td = tid) && bool_decide (d_member_id td = caller) && active td) (db_dialogs d) ||
  existsb (fun p => preview_of tid caller p && preview_active at_ p) (db_previews d).

(** The columns the struct names; thread_members is one, but not of the table. *)
Definition variable_columns : list string := ["thread_id"; "variables"; "thread_members"].
Definition variable_defaults : list string := ["thread_id"; "variables"].

Definition shown (cols : list string) (r : VariablesRow) : ThreadVariables :=
  MkThreadVariables (if decide ("thread_id" ∈ cols) then vr_thread_id r else uuid_Nil)
    (if decide ("variables" ∈ cols) then vr_variables r else ∅) [].

Section store.
Context {E : Env}.

(** The order of jsonb values in PostgreSQL. *)
Context (jsonb_le : variables -> variables -> bool).

Definition by_column (field : string) (a b : VariablesRow) : Prop :=
  if decide (field = "thread_id") then (vr_thread_id a <= vr_thread_id b)%N
  else jsonb_le (vr_variables a) (vr_variables b) = true.
#[local] Instance by_column_dec field a b : Decision (by_column field a b).
Proof. unfold by_column. destruct (decide _); apply _. Defined.

Definition sorted_rows (sf : option SortField) (rows : list VariablesRow) : list VariablesRow :=
  match sf with
  | None => rows
  | Some (MkSortField f SortAsc) => merge_sort (by_column f) rows
  | Some (MkSortField f SortDesc) => merge_sort (fun a b => by_column f b a) rows
  end.

Definition Set_ (cmd : SetThreadVariablesCommand) : SM ThreadVariables :=
  let tid := sv_ThreadID cmd in
  let forbidden := WithCause no_rows (Forbidden "access variable setted by other user") in
  statement_as "error setting thread variables";;
  at_ ← now;
  d ← gets w_db;
  let members := active_members tid d in
  if negb (bool_decide (sv_Member cmd ∈ members)) then throw forbidden
  else if (size (sv_Variables cmd) =? 0)%nat then reject_as "collect thread variables"
  else
    let new := stamped at_ (sv_Variables cmd) in
    match find_variables tid d with
    | None =>
        modify (fun w => set_db (on_variables (fun l => l ++ [MkVariablesRow tid new]) (w_db w)) w);;
        mret (MkThreadVariables tid new members)
    | Some r =>
        if takeover (vr_variables r) new then throw forbidden
        else
          let merged := new ∪ vr_variables r in
          modify (fun w => set_db (put_variables tid merged (w_db w)) w);;
          mret (MkThreadVariables tid merged members)
    end.

(** A column that is not of the table is an error of the server. *)
Definition Search (q : GetThreadVariablesQuery) : SM (Page ThreadVariables) :=
  let cols := performColumnsValidation variable_columns variable_defaults (gv_Fields q) in
  sf ← map_err (internal "preparing search thread variable query")
         (of_result (applySort variable_columns (pn_Sort (gv_Pagination q))));
  statement_as "query thread variables";;
  at_ ← now;
  d ← gets w_db;
  if bool_decide ("thread_members" ∈ cols) || bool_decide (so_Field <$> sf = Some "thread_members")
  then reject_as "query thread variables"
  else
    let rows := select_where (fun r =>
      (bool_decide (length (gv_ThreadIDs q) = 0%nat) || bool_decide (vr_thread_id r ∈ gv_ThreadIDs q)) &&
      ((gv_DomainID q <=? 0) || thread_in_domain (gv_DomainID q) (vr_thread_id r) d) &&
      (bool_decide (gv_CallerID q = uuid_Nil) || readable_threads at_ (gv_CallerID q) d (vr_thread_id r)))
      (db_variables d) in
    match page_of (gv_Pagination q) (shown cols <$> sorted_rows sf rows) with
    | None => reject_as "query thread variables"
    | Some p => mret p
    end.

Definition Locate (q : LocateThreadVariablesQuery) : SM (option ThreadVariables) :=
  statement_as "query thread variables";;
  d ← gets w_db;
  mret (match find_variables (lv_ThreadID q) d with
        | Some r => if (lv_DomainID q <=? 0) || thread_in_domain (lv_DomainID q) (lv_ThreadID q) d
                    then Some (shown variable_defaults r) else None
        | None => None
        end).

Definition Flush (cmd : FlushVariablesCommand) : SM ThreadVariables :=
  let tid := fv_ThreadID cmd in
  statement_as "query flush thread variables";;
  d ← gets w_db;
  let members := active_members tid d in
  match find_variables tid d with
  | Some r =>
      if bool_decide (fv_Member cmd ∈ members) then
        let rest := flushed (fv_Member cmd) (fv_Keys cmd) (vr_variables r) in
        modify (fun w => set_db (put_variables tid rest (w_db w)) w);;
        mret (MkThreadVariables tid rest members)
      else throw (WithCause no_rows (Forbidden "flushing without being thread member"))
  | None => throw (WithCause no_rows (Forbidden "flushing without being thread member"))
  end.
End store.
