(* ===== verification/ThreadStore.v ===== *)
(** * ThreadStore: threads

    internal/store/postgres/thread_store.go over im_thread.thread.  [Get] takes
    the filters of the query object its callers build (WithIDFilter,
    WithDomainIDFilter); of the read model it carries the columns the services
    use: not the last message, the variables, source and queue. *)
From S2P Require Import Prelude Domain Events Message World BotControlStore DialogStore.
#[local] Open Scope Z_scope.

(** ** Rows as scanned *)
Record threadMemberRecord := MkThreadMemberRec {
  tmr_ID : uuid; tmr_MemberID : uuid; tmr_Role : Z; tmr_Via : option string;
  tmr_IsBot : bool; tmr_AutoLeave : bool }.

Record threadRecord := MkThreadRec {
  tr_rec_ID : uuid; tr_rec_DomainID : Z; tr_rec_Subject : string; tr_rec_CreatedAt : Time;
  tr_rec_UpdatedAt : Time; tr_rec_Kind : Z; tr_rec_Owner : uuid; tr_rec_Description : string;
  tr_rec_Members : list threadMemberRecord; tr_rec_BotControllerID : option uuid;
  tr_rec_OwnerBotID : option uuid; tr_rec_CRMContactID : option string }.

Definition memberOfRecord (m : threadMemberRecord) : ThreadDialog :=
  MkDialog (tmr_ID m) 0 0 0 (tmr_MemberID m) uuid_Nil (tmr_Role m) None None None (tmr_Via m)
    (tmr_IsBot m) (tmr_AutoLeave m).

(** The owner of the record is not copied to the model. *)
Definition mapThreadRecordToModel (r : threadRecord) : Thread :=
  MkThread (tr_rec_ID r) (tr_rec_DomainID r) (tr_rec_CreatedAt r) (tr_rec_UpdatedAt r)
    (tr_rec_Kind r) (tr_rec_Subject r) (tr_rec_Description r) uuid_Nil
    (memberOfRecord <$> tr_rec_Members r) (tr_rec_BotControllerID r) (tr_rec_OwnerBotID r)
    (default "" (tr_rec_CRMContactID r)).

(** The lateral [members]: the active dialogs of the thread. *)
Definition active_dialogs (tid : uuid) (d : DB) : list DialogRow :=
  select_where (fun r => bool_decide (d_thread_id r = tid) && active r) (db_dialogs d).

Definition member_record (r : DialogRow) : threadMemberRecord :=
  MkThreadMemberRec (d_id r) (d_member_id r) (d_thread_role r) (d_via r) (d_is_bot r) (d_auto_leave r).

Definition thread_record (d : DB) (t : ThreadRow) : threadRecord :=
  MkThreadRec (t_id t) (t_domain_id t) (t_subject t) (t_created_at t) (t_updated_at t) (t_kind t)
    (t_owner t) (t_description t) (member_record <$> active_dialogs (t_id t) d)
    (t_bot_controller_id t) (t_owner_bot_id t) (t_crm_contact_id t).

(** An empty filter is skipped. *)
Record ThreadQuery := MkThreadQuery { tq_IDs : list uuid; tq_DomainIDs : list Z }.

Definition thread_filter (q : ThreadQuery) (t : ThreadRow) : bool :=
  (bool_decide (tq_IDs q = []) || bool_decide (t_id t ∈ tq_IDs q)) &&
  (bool_decide (tq_DomainIDs q = []) || bool_decide (t_domain_id t ∈ tq_DomainIDs q)).

(** ** Create *)

(** Checks of the table: kind in (0,1,2), domain_id > 0, subject varchar(255). *)
Definition thread_accepted (t : Thread) : bool :=
  bool_decide (thr_Kind t ∈ [0; 1; 2]) && (0 <? thr_DomainID t) && (char_length (thr_Subject t) <=? 255).

Definition new_thread_row (id : uuid) (t : Thread) : ThreadRow :=
  MkThreadRow id (thr_DomainID t) (thr_CreatedAt t) (thr_UpdatedAt t) (thr_Kind t) (thr_Owner t)
    (thr_Subject t) (thr_Description t) None None None 0.

Definition thr_set_ID (id : uuid) (t : Thread) : Thread :=
  MkThread id (thr_DomainID t) (thr_CreatedAt t) (thr_UpdatedAt t) (thr_Kind t) (thr_Subject t)
    (thr_Description t) (thr_Owner t) (thr_Members t) (thr_BotControllerID t) (thr_OwnerBotID t)
    (thr_CRMContactID t).

(** ** ResolveThread *)

(** The parameters of [prepareResolveThreadQuery]. *)
Record ResolveArgs := MkResolveArgs {
  ra_FromID : option uuid; ra_FromVia : option string; ra_ToPeerID : option uuid;
  ra_ToThreadID : option uuid; ra_SendAs : option uuid }.

Definition prepareResolveThreadQuery (q : ResolveThreadQuery) : ResolveArgs :=
  MkResolveArgs (Shared.ResolveContactID (rq_From q)) (Shared.ResolveVia (rq_From q))
    (Shared.ResolveContactID (rq_To q)) (Shared.ResolveThreadID (rq_To q)) (SendAsPtr (Some q)).

(** [td_main] of the WHERE clause. *)
Definition resolve_main (a : ResolveArgs) (t : ThreadRow) (td : DialogRow) : bool :=
  bool_decide (d_thread_id td = t_id t) &&
  match ra_ToThreadID a with
  | None => true
  | Some id => bool_decide (t_id t = id) && active td
  end &&
  match ra_ToPeerID a with
  | None => true
  | Some p => bool_decide (t_kind t = 1) && bool_decide (d_member_id td = p) && active td
  end.

(** [td_check]: the sender is an active member, through the gate it names. *)
Definition resolve_check (a : ResolveArgs) (t : ThreadRow) (td : DialogRow) : bool :=
  bool_decide (d_thread_id td = t_id t) &&
  bool_decide (Some (d_member_id td) = coalesce (ra_SendAs a) (ra_FromID a)) && active td &&
  match ra_FromVia a with None => true | Some v => bool_decide (d_via td = Some v) end.

Definition resolve_row (a : ResolveArgs) (d : DB) : option ThreadRow :=
  find_first (fun t => existsb (resolve_main a t) (db_dialogs d) &&
                       existsb (resolve_check a t) (db_dialogs d)) (db_threads d).

(** owner_bot_id and crm_contact_id are not selected. *)
Definition resolved_thread (d : DB) (t : ThreadRow) : Thread :=
  MkThread (t_id t) (t_domain_id t) (t_created_at t) (t_updated_at t) (t_kind t) (t_subject t)
    (t_description t) (t_owner t) ((fun r => memberOfRecord (member_record r)) <$> active_dialogs (t_id t) d)
    (t_bot_controller_id t) None "".

(** ** The store *)
Section store.
Context {E : Env}.

Definition Create (req : Thread) : SM Thread :=
  statement_as "creating thread";;
  if thread_accepted req then
    id ← fresh;
    modify (fun w => set_db (on_threads (fun l => l ++ [new_thread_row id req]) (w_db w)) w);;
    mret (thr_set_ID id req)
  else reject_as "creating thread".

(** Other transactions wait here; a single process sees only the check. *)
Definition LockForUpdate (threadID : uuid) : SM unit :=
  statement_as "locking thread";;
  d ← gets w_db;
  match find_thread threadID d with
  | None => throw (NotFound "thread not found")
  | Some _ => mret tt
  end.

Definition set_crm (at_ : Time) (crm : string) (t : ThreadRow) : ThreadRow :=
  MkThreadRow (t_id t) (t_domain_id t) (t_created_at t) at_ (t_kind t) (t_owner t) (t_subject t)
    (t_description t) (t_bot_controller_id t) (t_owner_bot_id t)
    (if decide (crm = "") then None else Some crm) (t_last_seq t).

Definition SetCRMContact (threadID : uuid) (crmContactID : string) : SM unit :=
  statement_as "setting crm contact";;
  at_ ← now;
  d ← gets w_db;
  modify (fun w => set_db (update_thread threadID (set_crm at_ crmContactID) (w_db w)) w);;
  match find_thread threadID d with
  | None => throw (NotFound "thread not found")
  | Some _ => mret tt
  end.

Definition Get (q : ThreadQuery) : SM Thread :=
  statement_as "executing get thread query";;
  d ← gets w_db;
  match select_where (thread_filter q) (db_threads d) with
  | [] => throw (NotFound "thread not found")
  | [t] => mret (mapThreadRecordToModel (thread_record d t))
  | _ => throw (Internal "collecting get thread record")
  end.

(** [None]: no thread yet with this contact, the first message creates it. *)
Definition ResolveThread (q : ResolveThreadQuery) : SM (option Thread) :=
  statement_as "query resolve thread";;
  d ← gets w_db;
  match resolve_row (prepareResolveThreadQuery q) d with
  | Some t => mret (Some (resolved_thread d t))
  | None =>
      if decide (Shared.peer_Type (rq_To q) = Shared.PeerContact /\ SendAsPtr (Some q) = None)
      then mret None
      else throw (WithCause no_rows (Forbidden "member isn`t part of the thread"))
  end.
End store.
