(* ===== verification/PermissionStore.v ===== *)
(** * PermissionStore: permission rows of members

    internal/store/postgres/thread_permission_store.go over
    im_thread.thread_permission. *)
From S2P Require Import Prelude Domain Events Message World BotControlStore DialogStore.
#[local] Open Scope Z_scope.

Record ThreadPermissionStoreFilters := MkPermFilters {
  pf_Size : Z; pf_Offset : Z; pf_ThreadID : option uuid; pf_MemberIDs : option (list uuid) }.

(** [len(in.MemberIDs)]; a nil slice has length 0. *)
Definition pf_len (f : ThreadPermissionStoreFilters) : Z := Z.of_nat (length (default [] (pf_MemberIDs f))).

Definition mapToThreadPermission (p : PermRow) : ThreadPermission :=
  MkThreadPermission (p_perms p) (p_id p) (p_thread_id p) (p_thread_dialog_id p)
    (p_created_at p) (p_updated_at p).

Definition perm_filter (f : ThreadPermissionStoreFilters) (p : PermRow) : bool :=
  match pf_ThreadID f with None => true | Some t => bool_decide (p_thread_id p = t) end &&
  any_of (pf_MemberIDs f) (p_thread_dialog_id p).

(** [COALESCE(@New, old)] for each right. *)
Definition apply_update (u : UpdateThreadPermissionRequest) (p : ThreadPermissions) : ThreadPermissions :=
  MkPerms
    (default (CanSendMessages p) (up_CanSendMessages u))
    (default (CanAddMembers p) (up_CanAddMembers u))
    (default (CanRemoveMembers p) (up_CanRemoveMembers u))
    (default (CanChangeMembersPermissions p) (up_CanChangeMembersPermissions u))
    (default (CanChangeThreadInfo p) (up_CanChangeThreadInfo u))
    (default (CanDeleteMessages p) (up_CanDeleteMessages u))
    (default (CanReactMessages p) (up_CanReactMessages u)).

Definition update_perm_row (at_ : Time) (u : UpdateThreadPermissionRequest) (p : PermRow) : PermRow :=
  MkPermRow (p_id p) (p_thread_id p) (p_thread_dialog_id p) (apply_update u (p_perms p))
    (p_created_at p) at_.

(** The dialogs the WHERE clause selects: by thread and by the [member_id]
    column, which holds the contact. *)
Definition update_targets (u : UpdateThreadPermissionRequest) (d : DB) : list uuid :=
  d_id <$> select_where (fun r => bool_decide (d_thread_id r = up_ThreadID u) &&
                                  bool_decide (d_member_id r = up_TargetMemberID u)) (db_dialogs d).

Definition update_hits (u : UpdateThreadPermissionRequest) (d : DB) (p : PermRow) : bool :=
  bool_decide (p_thread_dialog_id p ∈ update_targets u d).

Section store.
Context {E : Env}.

Definition Get (in_ : ThreadPermissionStoreFilters) : SM (list ThreadPermission) :=
  if bool_decide (pf_ThreadID in_ = None) && (pf_len in_ =? 0)
  then throw (InvalidArgument "thread id or member id required")
  else
    statement;;
    if pf_Offset in_ <? 0 then reject constraint_error
    else gets (fun w => mapToThreadPermission <$>
                 paged (pf_Size in_) (pf_Offset in_) (select_where (perm_filter in_) (db_perms (w_db w)))).

Definition Create (in_ : ThreadPermission) : SM ThreadPermission :=
  if decide (tp_ThreadDialogID in_ = uuid_Nil)
  then throw (InvalidArgument "thread dialog id required cannot be nil")
  else if decide (tp_ThreadID in_ = uuid_Nil)
  then throw (InvalidArgument "thread id required cannot be nil")
  else
    statement;;
    d ← gets w_db;
    match find_thread (tp_ThreadID in_) d, find_dialog (tp_ThreadDialogID in_) d with
    | Some _, Some _ =>
        id ← fresh;
        at_ ← now;
        let p := MkPermRow id (tp_ThreadID in_) (tp_ThreadDialogID in_) (tp_Permissions in_) at_ at_ in
        modify (fun w => set_db (on_perms (fun l => l ++ [p]) (w_db w)) w);;
        mret (mapToThreadPermission p)
    | _, _ => reject constraint_error
    end.

(** The rows are updated even when their number is not one: the error of
    [CollectExactlyOneRow] is the client's. *)
Definition Update (in_ : UpdateThreadPermissionRequest) : SM ThreadPermission :=
  if decide (up_TargetMemberID in_ = uuid_Nil)
  then throw (InvalidArgument "initiator and target must be provided")
  else
    statement;;
    at_ ← now;
    d ← gets w_db;
    modify (fun w => set_db (on_perms (update_where (update_hits in_ d) (update_perm_row at_ in_)) (w_db w)) w);;
    match select_where (update_hits in_ d) (db_perms d) with
    | [p] => mret (mapToThreadPermission (update_perm_row at_ in_ p))
    | [] => throw no_rows
    | _ => throw (errors_New "too many rows in result set")
    end.
End store.
