(* ===== verification/Permissions.v ===== *)
(** * Permissions: who may change whose rights

    internal/service/thread_permission.go: the role tables, the five checks of
    a permission change, [Get] and [Update]. *)
From S2P Require Import Prelude Domain Events Message World BotControlStore DialogStore.
From S2P Require Import PermissionStore.
#[local] Open Scope Z_scope.

(** ** Role tables

    [ThreadPermissionsAllowance] has the fields of [ThreadPermissions]. *)
Definition full_rights : ThreadPermissions := MkPerms true true true true true true true.
Definition member_rights : ThreadPermissions := MkPerms true true true false false true true.

Definition allowedPermissionsByRole (role : Z) : option ThreadPermissions :=
  if decide (role = Role.RoleOwner) then Some full_rights
  else if decide (role = Role.RoleAdmin) then Some full_rights
  else if decide (role = Role.RoleSupervisor) then Some member_rights
  else if decide (role = Role.RoleMember) then Some member_rights
  else None.

Definition defaultPermissionsByRole (role : Z) : option ThreadPermissions :=
  if decide (role = Role.RoleOwner) then Some full_rights
  else if decide (role = Role.RoleAdmin) then Some full_rights
  else if decide (role = Role.RoleSupervisor) then Some member_rights
  else if decide (role = Role.RoleMember) then Some member_rights
  else None.

Definition getAllowedPermissionsByRole (role : Z) : result ThreadPermissions :=
  match allowedPermissionsByRole role with
  | Some a => OK a
  | None => Err (errors_New "unknown member role")
  end.

Definition getDefaultPermissionsByRole (role : Z) : result ThreadPermissions :=
  match defaultPermissionsByRole role with
  | Some p => OK p
  | None => Err (errors_New "unknown member role")
  end.

(** ** The checks *)
Record permissionChangeValidationStruct := MkChange {
  pc_Initiator : ThreadDialogExtended;
  pc_Target : ThreadDialogExtended;
  pc_Changes : UpdateThreadPermissionRequest }.

Definition checkForSelfPermissionChange (req : permissionChangeValidationStruct) : result unit :=
  if decide (tde_ID (pc_Initiator req) = tde_ID (pc_Target req))
  then Err (errors_New "can't change self permissions") else OK tt.

Definition checkForDownRoleHierarchy (req : permissionChangeValidationStruct) : result unit :=
  if tde_ThreadRole (pc_Initiator req) <=? tde_ThreadRole (pc_Target req)
  then Err (errors_New "initiator does not have enough role permissions to change target") else OK tt.

Definition checkForPermissionToChangeMembersPermissions (req : permissionChangeValidationStruct) : result unit :=
  if negb (CanChangeMembersPermissions (tde_Permissions (pc_Initiator req)))
  then Err (errors_New "initiator does not have permission to change members permissions") else OK tt.

(** A table of rules: a requested change that is not allowed fails. *)
Fixpoint check_rules (rules : list (option bool * bool * string)) : result unit :=
  match rules with
  | [] => OK tt
  | (Some _, false, msg) :: _ => Err (errors_New msg)
  | _ :: rules' => check_rules rules'
  end.

Definition checkInitiatorHasSamePermissionThatChanged (req : permissionChangeValidationStruct) : result unit :=
  let initiator := tde_Permissions (pc_Initiator req) in
  let changes := pc_Changes req in
  check_rules
    [(up_CanSendMessages changes, CanSendMessages initiator, "initiator does not have permission to change send messages permission");
     (up_CanAddMembers changes, CanAddMembers initiator, "initiator does not have permission to change invite members permission");
     (up_CanRemoveMembers changes, CanRemoveMembers initiator, "initiator does not have permission to remove members");
     (up_CanChangeMembersPermissions changes, CanChangeMembersPermissions initiator, "initiator does not have permission to change members permissions permission");
     (up_CanChangeThreadInfo changes, CanChangeThreadInfo initiator, "initiator does not have permission to change thread info permission");
     (up_CanDeleteMessages changes, CanDeleteMessages initiator, "initiator does not have permission to change delete messages permission");
     (up_CanReactMessages changes, CanReactMessages initiator, "initiator does not have permission to change react messages permission")].

Definition checkPermissionChangeAllowedByTargetRole (req : permissionChangeValidationStruct) : result unit :=
  match getAllowedPermissionsByRole (tde_ThreadRole (pc_Target req)) with
  | Err e => Err (WithCause e (errors_New "failed to get allowed permissions by target role"))
  | OK allowed =>
      let changes := pc_Changes req in
      check_rules
        [(up_CanSendMessages changes, CanSendMessages allowed, "change send messages permission is not allowed for the target role");
         (up_CanAddMembers changes, CanAddMembers allowed, "change invite members permission is not allowed for the target role");
         (up_CanRemoveMembers changes, CanRemoveMembers allowed, "change add admins permission is not allowed for the target role");
         (up_CanChangeMembersPermissions changes, CanChangeMembersPermissions allowed, "change members permissions permission is not allowed for the target role");
         (up_CanChangeThreadInfo changes, CanChangeThreadInfo allowed, "change thread info permission is not allowed for the target role");
         (up_CanDeleteMessages changes, CanDeleteMessages allowed, "change delete messages permission is not allowed for the target role");
         (up_CanReactMessages changes, CanReactMessages allowed, "change react messages permission is not allowed for the target role")]
  end.

Definition validatePermissionChangeRequest (req : permissionChangeValidationStruct) : result unit :=
  checkForSelfPermissionChange req;;
  checkForDownRoleHierarchy req;;
  checkForPermissionToChangeMembersPermissions req;;
  checkInitiatorHasSamePermissionThatChanged req;;
  checkPermissionChangeAllowedByTargetRole req.

(** ** The service *)
Record GetThreadPermissionRequest := MkGetPerm {
  gp_RequestInitiatorID : option uuid; gp_ThreadID : uuid; gp_MemberID : uuid }.

Section service.
Context {E : Env}.

Definition not_member_initiator : error := errors_New "request initiator is not a member of the thread".
Definition not_member_target : error := errors_New "target member is not a member of the thread".

Definition GetPermissions (req : GetThreadPermissionRequest) : SM (list ThreadPermission) :=
  match gp_RequestInitiatorID req with
  | None => mret tt
  | Some initiatorID =>
      pair ← DialogStore.FindActorsPair initiatorID (gp_MemberID req);
      match pair with
      | (None, _) => throw not_member_initiator
      | (Some _, None) => throw not_member_target
      | (Some initiator, Some target) =>
          guard_err (tde_ThreadRole initiator <? tde_ThreadRole target)
            (errors_New "request initiator does not have enough role permissions to get target permissions")
      end
  end;;
  PermissionStore.Get (MkPermFilters 0 0 None (Some [gp_MemberID req])).

Definition UpdatePermissions (req : UpdateThreadPermissionRequest) : SM ThreadPermission :=
  match up_InitiatorContactID req with
  | None => mret tt
  | Some initiatorContactID =>
      pair ← DialogStore.FindActorsPair initiatorContactID (up_TargetMemberID req);
      match pair with
      | (None, _) => throw not_member_initiator
      | (Some _, None) => throw not_member_target
      | (Some initiator, Some target) =>
          of_result (validatePermissionChangeRequest (MkChange initiator target req))
      end
  end;;
  PermissionStore.Update req.
End service.
