(* ===== verification/PermissionRules.v ===== *)
(** * PermissionRules: what a permission change guarantees

    Theorems on [UpdatePermissions]: nobody escalates, what a trusted change
    writes, and two requests that are always refused. *)
From S2P Require Import Prelude Domain Events Message World BotControlStore DialogStore.
From S2P Require Import PermissionStore Permissions Samples.
#[local] Open Scope Z_scope.

(** ** The actors of a change *)
Lemma elem_of_mapM {A B} (f : A -> option B) l k y :
  mapM f l = Some k -> y ∈ k -> exists x, x ∈ l /\ f x = Some y.
Proof.
  intros Hm%mapM_Some Hy. apply list_elem_of_lookup in Hy as [i Hi].
  destruct (Forall2_lookup_r _ _ _ _ _ Hm Hi) as (x & Hx & Hf). exists x. split; [|done].
  by eapply list_elem_of_lookup_2.
Qed.

Lemma elem_of_left_join {A} (l : list A) x : Some x ∈ left_join l -> x ∈ l.
Proof.
  destruct l as [|y l]; simpl; intros H.
  - apply list_elem_of_singleton in H. done.
  - apply elem_of_cons in H as [[= ->]|H]; [left|].
    apply list_elem_of_fmap in H as (z & [= ->] & Hz). by right.
Qed.

Lemma elem_of_full_rows d r x p s : (x, Some p, s) ∈ full_rows d r ->
  x = r /\ p ∈ db_perms d /\ p_thread_dialog_id p = d_id r.
Proof.
  unfold full_rows. intros (op & H & Hp)%list_elem_of_bind. apply list_elem_of_bind in H as (os & H & _).
  apply list_elem_of_singleton in H. simplify_eq. apply elem_of_left_join, elem_of_select in Hp as [Hp Hd].
  by apply bool_decide_eq_true in Hd.
Qed.

(** A dialog as [FindActorsPair] presents it. *)
Definition presents (d : DB) (r : DialogRow) (p : PermRow) (x : ThreadDialogExtended) : Prop :=
  r ∈ db_dialogs d /\ d_deleted_at r = None /\
  p ∈ db_perms d /\ p_thread_dialog_id p = d_id r /\
  tde_ID x = d_id r /\ tde_ContactID x = d_member_id r /\ tde_ThreadID x = d_thread_id r /\
  tde_ThreadRole x = d_thread_role r /\ tde_DomainID x = d_domain_id r /\
  tde_Permissions x = with_react false (p_perms p) /\ tde_IsBot x = false /\ tde_AutoLeave x = false.

Lemma actor_dialogs_elem ic target d ds x :
  actor_dialogs ic target d = OK ds -> x ∈ ds ->
  exists r p t, presents d r p x /\ find_dialog target d = Some t /\ d_thread_id r = d_thread_id t.
Proof.
  unfold actor_dialogs, collectRows. destruct (mapM _ _) as [recs|] eqn:Hm; [|done].
  intros [= <-] (rec & -> & Hrec)%list_elem_of_fmap.
  destruct (elem_of_mapM _ _ _ _ Hm Hrec) as ([[r0 op] os] & Hin & Hscan).
  apply list_elem_of_bind in Hin as (r & Hin & Hr). unfold scan_full in Hscan.
  destruct op as [p|]; [|done]. destruct os as [s|]; [|done]. injection Hscan as <-.
  apply elem_of_full_rows in Hin as (-> & Hp & Hpd).
  unfold actor_rows in Hr. destruct (find_dialog target d) as [t|] eqn:Ht; [|by apply not_elem_of_nil in Hr].
  apply elem_of_select in Hr as [Hr Hf]. unfold active in Hf.
  rewrite !andb_true_iff, !bool_decide_eq_true in Hf. destruct Hf as [[Htid Hdel] _].
  exists r, p, t. split; [|done]. unfold presents. simpl. done.
Qed.

Lemma pick_actors_spec ic target ds : forall acc,
  (forall i, (pick_actors ic target ds acc).1 = Some i -> acc.1 = Some i \/ (i ∈ ds /\ tde_ContactID i = ic)) /\
  (forall t, (pick_actors ic target ds acc).2 = Some t -> acc.2 = Some t \/ (t ∈ ds /\ tde_ID t = target)).
Proof.
  induction ds as [|x ds IH]; intros [i t]; [by split; left|]. simpl.
  set (acc' := (if decide (tde_ContactID x = ic) then Some x else i,
                if decide (tde_ID x = target) then Some x else t)).
  destruct (IH acc') as [IH1 IH2]. assert (forall P : Prop, P -> P) as _ by done.
  destruct i as [i|], t as [t|]; [by split; left|..]; (split; [intros y Hy; apply IH1 in Hy|intros y Hy; apply IH2 in Hy]);
    (destruct Hy as [Hy|[Hy ?]]; [|right; split; [by right|done]]); simpl in Hy; case_decide; simplify_eq;
    (by left) || (right; split; [by left|done]).
Qed.

Section find.
Context {E : Env}.

Lemma FindActorsPair_ok ic target w i t w' :
  FindActorsPair ic target w = (OK (Some i, Some t), w') ->
  w' = set_tick (w_aborted w) w /\
  exists ri pi rt pt, presents (w_db w) ri pi i /\ presents (w_db w) rt pt t /\
    d_member_id ri = ic /\ d_id rt = target /\ d_thread_id ri = d_thread_id rt.
Proof.
  unfold FindActorsPair. intros H. step_ok H. apply statement_ok in Hs as (-> & _). run in H.
  simpl in H. step_ok H. unfold of_result in Hs. injection Hs as Hds ->. run in H. injection H as Hpick <-.
  split; [done|]. destruct (pick_actors_spec ic target a0 (None, None)) as [H1 H2].
  rewrite Hpick in H1, H2. simpl in H1, H2.
  destruct (H1 i eq_refl) as [|[Hi Hic]]; [done|]. destruct (H2 t eq_refl) as [|[Ht Hit]]; [done|].
  destruct (actor_dialogs_elem _ _ _ _ _ Hds Hi) as (ri & pi & t1 & Hpi & Ht1 & Hti).
  destruct (actor_dialogs_elem _ _ _ _ _ Hds Ht) as (rt & pt & t2 & Hpt & Ht2 & Htt).
  simplify_eq. exists ri, pi, rt, pt. split; [done|]. split; [done|].
  destruct Hpi as (_ & _ & _ & _ & _ & Hc & _), Hpt as (_ & _ & _ & _ & Hid & _).
  split; [congruence|]. split; [congruence|]. congruence.
Qed.
End find.

(** ** Rights

    The seven rights by name: what a request asks to change, what a member
    holds, what a role may be given. *)
Inductive Right := SendMessages | AddMembers | RemoveMembers | ChangePermissions | ChangeInfo
  | DeleteMessages | ReactMessages.

Definition asks (u : UpdateThreadPermissionRequest) (r : Right) : option bool :=
  match r with
  | SendMessages => up_CanSendMessages u
  | AddMembers => up_CanAddMembers u
  | RemoveMembers => up_CanRemoveMembers u
  | ChangePermissions => up_CanChangeMembersPermissions u
  | ChangeInfo => up_CanChangeThreadInfo u
  | DeleteMessages => up_CanDeleteMessages u
  | ReactMessages => up_CanReactMessages u
  end.

Definition holds (p : ThreadPermissions) (r : Right) : bool :=
  match r with
  | SendMessages => CanSendMessages p
  | AddMembers => CanAddMembers p
  | RemoveMembers => CanRemoveMembers p
  | ChangePermissions => CanChangeMembersPermissions p
  | ChangeInfo => CanChangeThreadInfo p
  | DeleteMessages => CanDeleteMessages p
  | ReactMessages => CanReactMessages p
  end.

Lemma holds_apply_update u p r : holds (apply_update u p) r = default (holds p r) (asks u r).
Proof. by destruct r. Qed.

Lemma check_rules_cons o b msg rules :
  check_rules ((o, b, msg) :: rules) = OK tt <-> (o <> None -> b = true) /\ check_rules rules = OK tt.
Proof. destruct o as [v|], b; simpl; naive_solver. Qed.

Lemma initiator_holds req :
  checkInitiatorHasSamePermissionThatChanged req = OK tt <->
  forall r, asks (pc_Changes req) r <> None -> holds (tde_Permissions (pc_Initiator req)) r = true.
Proof.
  unfold checkInitiatorHasSamePermissionThatChanged. rewrite !check_rules_cons. split.
  - intros (H1 & H2 & H3 & H4 & H5 & H6 & H7 & _) []; simpl; auto.
  - intros H. split_and!; [exact (H SendMessages)|exact (H AddMembers)|exact (H RemoveMembers)|
      exact (H ChangePermissions)|exact (H ChangeInfo)|exact (H DeleteMessages)|exact (H ReactMessages)|done].
Qed.

Lemma target_may_hold req :
  checkPermissionChangeAllowedByTargetRole req = OK tt <->
  exists allowed, allowedPermissionsByRole (tde_ThreadRole (pc_Target req)) = Some allowed /\
  forall r, asks (pc_Changes req) r <> None -> holds allowed r = true.
Proof.
  unfold checkPermissionChangeAllowedByTargetRole, getAllowedPermissionsByRole.
  destruct (allowedPermissionsByRole _) as [a|]; [|split; [done|by intros (? & ? & _)]].
  rewrite !check_rules_cons. split.
  - intros (H1 & H2 & H3 & H4 & H5 & H6 & H7 & _). exists a. split; [done|]. intros []; simpl; auto.
  - intros (a' & [= <-] & H). split_and!; [exact (H SendMessages)|exact (H AddMembers)|exact (H RemoveMembers)|
      exact (H ChangePermissions)|exact (H ChangeInfo)|exact (H DeleteMessages)|exact (H ReactMessages)|done].
Qed.

Lemma result_bind_ok {A B} (r : result A) (f : A -> result B) b :
  (r ≫= f) = OK b <-> exists a, r = OK a /\ f a = OK b.
Proof. destruct r; simpl; naive_solver. Qed.

(** The five checks together. *)
Lemma validate_spec req :
  validatePermissionChangeRequest req = OK tt <->
  tde_ID (pc_Initiator req) <> tde_ID (pc_Target req) /\
  tde_ThreadRole (pc_Target req) < tde_ThreadRole (pc_Initiator req) /\
  holds (tde_Permissions (pc_Initiator req)) ChangePermissions = true /\
  (forall r, asks (pc_Changes req) r <> None -> holds (tde_Permissions (pc_Initiator req)) r = true) /\
  exists allowed, allowedPermissionsByRole (tde_ThreadRole (pc_Target req)) = Some allowed /\
  forall r, asks (pc_Changes req) r <> None -> holds allowed r = true.
Proof.
  unfold validatePermissionChangeRequest. rewrite !result_bind_ok.
  setoid_rewrite <- initiator_holds. setoid_rewrite <- target_may_hold.
  unfold checkForSelfPermissionChange, checkForDownRoleHierarchy, checkForPermissionToChangeMembersPermissions. simpl.
  split.
  - intros ([] & H1 & H). rewrite !result_bind_ok in H. destruct H as ([] & H2 & H).
    rewrite !result_bind_ok in H. destruct H as ([] & H3 & H).
    rewrite !result_bind_ok in H. destruct H as ([] & H4 & H5).
    case_decide; [done|]. destruct (Z.leb_spec (tde_ThreadRole (pc_Initiator req)) (tde_ThreadRole (pc_Target req))); [done|].
    destruct (CanChangeMembersPermissions _); done.
  - intros (H1 & H2 & H3 & H4 & H5). exists tt. rewrite decide_False by done. split; [done|].
    rewrite result_bind_ok. exists tt. destruct (Z.leb_spec (tde_ThreadRole (pc_Initiator req)) (tde_ThreadRole (pc_Target req))); [lia|].
    split; [done|]. rewrite result_bind_ok. exists tt. rewrite H3. split; [done|].
    rewrite result_bind_ok. by exists tt.
Qed.

Lemma update_hits_spec u d p :
  update_hits u d p = true <->
  exists x, x ∈ db_dialogs d /\ d_id x = p_thread_dialog_id p /\
            d_thread_id x = up_ThreadID u /\ d_member_id x = up_TargetMemberID u.
Proof.
  unfold update_hits, update_targets. rewrite bool_decide_eq_true, list_elem_of_fmap.
  setoid_rewrite elem_of_select. setoid_rewrite andb_true_iff. setoid_rewrite bool_decide_eq_true. naive_solver.
Qed.

(** ** Runs of the update *)
Section runs.
Context {E : Env}.

(** The update statement on the permission table. *)
Definition perms_updated (u : UpdateThreadPermissionRequest) (at_ : Time) (d : DB) : DB :=
  on_perms (update_where (update_hits u d) (update_perm_row at_ u)) d.

Lemma Update_run u w r w' : PermissionStore.Update u w = (r, w') ->
  (is_ok r = false /\ w_db w' = w_db w /\
    (up_TargetMemberID u = uuid_Nil \/ w_in_tx w && w_aborted w = true \/ env_fault (w_ticks w) = true)) \/
  (w_db w' = perms_updated u (w_now w) (w_db w) /\
   match select_where (update_hits u (w_db w)) (db_perms (w_db w)) with
   | [p] => r = OK (mapToThreadPermission (update_perm_row (w_now w) u p))
   | _ => is_ok r = false
   end).
Proof.
  unfold PermissionStore.Update. case_decide; [intros [= <- <-]; left; by auto|].
  rewrite M_bind_unfold. unfold statement.
  destruct (w_in_tx w && w_aborted w) eqn:?; [intros [= <- <-]; left; by auto|].
  destruct (env_fault (w_ticks w)) eqn:?; [intros [= <- <-]; left; by auto|].
  intros Hr. run in Hr. simpl in Hr. right.
  destruct (select_where (update_hits u (w_db w)) _) as [|p [|q l]]; run in Hr; by simplify_eq.
Qed.

Lemma FindActorsPair_reads ic target : reads_only (FindActorsPair ic target).
Proof. unfold FindActorsPair. frame. Qed.

(** With an initiator the checks come first, and they read one statement. *)
Lemma UpdatePermissions_run u ic w r w' :
  up_InitiatorContactID u = Some ic -> UpdatePermissions u w = (r, w') ->
  (is_ok r = false /\ w_db w' = w_db w) \/
  exists i t ri pi rt pt w1,
    presents (w_db w) ri pi i /\ presents (w_db w) rt pt t /\
    d_member_id ri = ic /\ d_id rt = up_TargetMemberID u /\ d_thread_id ri = d_thread_id rt /\
    validatePermissionChangeRequest (MkChange i t u) = OK tt /\
    w_db w1 = w_db w /\ w_now w1 = w_now w /\ PermissionStore.Update u w1 = (r, w').
Proof.
  intros Hic. unfold UpdatePermissions. rewrite Hic. rewrite !M_bind_unfold.
  destruct (FindActorsPair ic (up_TargetMemberID u) w) as [[[[i|] [t|]]|e] w1] eqn:Hf.
  - destruct (FindActorsPair_ok _ _ _ _ _ _ Hf) as (-> & ri & pi & rt & pt & Hi & Ht & Hc & Hid & Hth).
    unfold of_result. destruct (validatePermissionChangeRequest _) as [[]|e] eqn:Hv.
    + intros Hu. right. exists i, t, ri, pi, rt, pt, (set_tick (w_aborted w) w). done.
    + intros [= <- <-]. by left.
  - intros [= <- <-]. left. split; [done|]. by eapply (preserves_ok w_db); [apply FindActorsPair_reads|exact Hf].
  - intros [= <- <-]. left. split; [done|]. by eapply (preserves_ok w_db); [apply FindActorsPair_reads|exact Hf].
  - intros [= <- <-]. left. split; [done|]. by eapply (preserves_ok w_db); [apply FindActorsPair_reads|exact Hf].
  - intros [= <- <-]. left. split; [done|]. by eapply (preserves_ok w_db); [apply FindActorsPair_reads|exact Hf].
Qed.
End runs.

(** ** Theorems *)


(** A request made by a contact never changes the right to react: it is
    refused, and nothing is written, whatever the roles and rights involved. *)
Theorem UpdatePermissions_react_refused {E : Env} (req : UpdateThreadPermissionRequest) ic v (w w' : World) r :
  up_InitiatorContactID req = Some ic -> up_CanReactMessages req = Some v ->
  UpdatePermissions req w = (r, w') ->
  is_ok r = false /\ w_db w' = w_db w.
Proof.
  intros Hic Hv H. destruct (UpdatePermissions_run _ _ _ _ _ Hic H) as [Hr|Hrun]; [done|]. exfalso.
  destruct Hrun as (i & t & ri & pi & rt & pt & w1 & Hi & _ & _ & _ & _ & Hval & _).
  apply validate_spec in Hval as (_ & _ & _ & Hhas & _). simpl in Hhas.
  assert (asks req ReactMessages <> None) as Hask by (simpl; congruence).
  specialize (Hhas ReactMessages Hask).
  destruct Hi as (_ & _ & _ & _ & _ & _ & _ & _ & _ & Hp & _). by rewrite Hp in Hhas.
Qed.

(** A contact's request takes the target twice, as the dialog whose role is
    checked and as the contact whose rows are written.  Where no contact id is
    also a dialog id, which generated identifiers make certain, such a request
    never succeeds and never changes a permission. *)
Theorem UpdatePermissions_target_mismatch {E : Env} (req : UpdateThreadPermissionRequest) ic (w w' : World) r :
  (forall x y, x ∈ db_dialogs (w_db w) -> y ∈ db_dialogs (w_db w) -> d_id x <> d_member_id y) ->
  up_InitiatorContactID req = Some ic ->
  UpdatePermissions req w = (r, w') ->
  is_ok r = false /\ db_perms (w_db w') = db_perms (w_db w).
Proof.
  intros Hdisj Hic H. destruct (UpdatePermissions_run _ _ _ _ _ Hic H) as [[Hr ->]|Hrun]; [done|].
  destruct Hrun as (i & t & ri & pi & rt & pt & w1 & _ & Ht & _ & Hid & _ & _ & Hd1 & _ & Hu).
  assert (update_targets req (w_db w) = []) as Hnone.
  { unfold update_targets. destruct (select_where _ _) as [|x l] eqn:Hs; [done|].
    assert (x ∈ x :: l) as Hx by left. rewrite <- Hs in Hx.
    apply elem_of_select in Hx as [Hin Hx]. rewrite andb_true_iff, !bool_decide_eq_true in Hx.
    exfalso. apply (Hdisj rt x); [by destruct Ht|done|]. destruct Hx. congruence. }
  assert (forall p, update_hits req (w_db w) p = false) as Hhit.
  { intros p. unfold update_hits. rewrite Hnone. apply bool_decide_false, not_elem_of_nil. }
  destruct (Update_run _ _ _ _ Hu) as [(Hr & Hd & _)|[Hd Hr]]; rewrite Hd, Hd1; [done|].
  rewrite Hd1 in Hr. split.
  - destruct (select_where _ _) as [|x l] eqn:Hs; [done|]. exfalso.
    assert (x ∈ x :: l) as Hx by left. rewrite <- Hs in Hx.
    apply elem_of_select in Hx as [_ Hx]. by rewrite Hhit in Hx.
  - unfold perms_updated. simpl. by apply update_where_none.
Qed.

(** A trusted change, without an initiator, is applied to the permission
    rows of every dialog the contact ever had in the thread, the ones it left
    included: each requested right is set, the others and all other rows stay.
    The call succeeds exactly when there was one such row; with several it
    reports an error although the rows are written. *)
Theorem UpdatePermissions_trusted {E : Env} (req : UpdateThreadPermissionRequest) (w w' : World) r :
  up_InitiatorContactID req = None -> up_TargetMemberID req <> uuid_Nil ->
  env_fault (w_ticks w) = false -> w_aborted w = false ->
  UpdatePermissions req w = (r, w') ->
  w_db w' = perms_updated req (w_now w) (w_db w) /\
  (forall p, p ∈ db_perms (w_db w') <->
    exists p0, p0 ∈ db_perms (w_db w) /\
      ((exists x, x ∈ db_dialogs (w_db w) /\ d_id x = p_thread_dialog_id p0 /\
                  d_thread_id x = up_ThreadID req /\ d_member_id x = up_TargetMemberID req) /\
        p_thread_dialog_id p = p_thread_dialog_id p0 /\ p = update_perm_row (w_now w) req p0 /\
        (forall q, holds (p_perms p) q = default (holds (p_perms p0) q) (asks req q)) \/
       (~ (exists x, x ∈ db_dialogs (w_db w) /\ d_id x = p_thread_dialog_id p0 /\
                  d_thread_id x = up_ThreadID req /\ d_member_id x = up_TargetMemberID req) /\ p = p0))) /\
  (is_ok r = true <-> exists p0, select_where (update_hits req (w_db w)) (db_perms (w_db w)) = [p0]).
Proof.
  intros Hic Hnil Hf Ha. unfold UpdatePermissions. rewrite Hic. run. intros Hu.
  assert (w_db w' = perms_updated req (w_now w) (w_db w) /\
     match select_where (update_hits req (w_db w)) (db_perms (w_db w)) with
     | [p] => r = OK (mapToThreadPermission (update_perm_row (w_now w) req p))
     | _ => is_ok r = false
     end) as [Hd Hr].
  { destruct (Update_run _ _ _ _ Hu) as [(_ & _ & [?|[Hab|?]])|]; try congruence.
    by rewrite Ha, andb_false_r in Hab. }
  split; [done|]. split.
  - intros p. rewrite Hd. unfold perms_updated. simpl. rewrite elem_of_update.
    split; intros (p0 & Hp0 & Hp); exists p0; (split; [done|]).
    + destruct (update_hits req (w_db w) p0) eqn:Hh.
      * left. split; [by apply update_hits_spec|]. subst p. split; [done|]. split; [done|].
        intros q. apply holds_apply_update.
      * right. split; [|done]. rewrite <- update_hits_spec. congruence.
    + destruct Hp as [(Hh & _ & -> & _)|[Hh ->]].
      * apply update_hits_spec in Hh. by rewrite Hh.
      * rewrite <- update_hits_spec in Hh. by destruct (update_hits req (w_db w) p0).
  - destruct (select_where _ _) as [|x [|y l]]; [split|subst r; split|split]; rewrite ?Hr; naive_solver.
Qed.

(** ** Witnesses *)
Definition sample_change (initiator : option uuid) (target : uuid) (send react : option bool)
    : UpdateThreadPermissionRequest :=
  MkUpdatePerm initiator target 1 send None None None None None react.

(** The id of dialog 12 is also the contact of dialog 14. *)
Definition clash_db : DB :=
  on_dialogs (fun l => l ++ [sample_dialog 14 12 1 Role.RoleMember false false])
    (on_perms (fun l => l ++ [sample_perm 24 1 14]) sample_db).


Lemma UpdatePermissions_react_refused_witness :
  exists r w', UpdatePermissions (sample_change (Some 100%N) 12 None (Some true)) (world_of clash_db) = (r, w') /\
    is_ok r = false /\ w_db w' = clash_db.
Proof.
  eexists _, _. split; [vm_compute; reflexivity|].
  refine (UpdatePermissions_react_refused (sample_change (Some 100%N) 12 None (Some true)) 100%N true
    (world_of clash_db) _ _ eq_refl eq_refl _).
  vm_compute; reflexivity.
Defined.

Lemma UpdatePermissions_target_mismatch_witness :
  exists r w', UpdatePermissions (sample_change (Some 100%N) 12 (Some false) None) sample_world = (r, w') /\
    is_ok r = false /\ db_perms (w_db w') = db_perms sample_db.
Proof.
  assert (forall x y, x ∈ db_dialogs (w_db sample_world) -> y ∈ db_dialogs (w_db sample_world) -> d_id x <> d_member_id y)
    as Hdis by (intros x y Hx Hy; simpl in Hx, Hy; in_list Hx; in_list Hy; discriminate).
  eexists _, _. split; [vm_compute; reflexivity|].
  refine (UpdatePermissions_target_mismatch (sample_change (Some 100%N) 12 (Some false) None) 100%N sample_world _ _
    Hdis eq_refl _). vm_compute; reflexivity.
Defined.

(** The agent's contact is 102: one row. *)
Lemma UpdatePermissions_trusted_witness :
  exists r w', UpdatePermissions (sample_change None 102 (Some false) None) sample_world = (r, w') /\ is_ok r = true /\
    forall p, p ∈ db_perms (w_db w') -> p_thread_dialog_id p = 12%N -> CanSendMessages (p_perms p) = false.
Proof.
  eexists _, _. split; [vm_compute; reflexivity|].
  assert (forall r w', UpdatePermissions (sample_change None 102 (Some false) None) sample_world = (r, w') ->
    is_ok r = true /\ forall p, p ∈ db_perms (w_db w') -> p_thread_dialog_id p = 12%N -> CanSendMessages (p_perms p) = false)
    as Hall; [|apply Hall; vm_compute; reflexivity].
  intros r w' H. assert (uuid_Nil <> 102%N) as Hne by discriminate. apply not_eq_sym in Hne.
  destruct (UpdatePermissions_trusted (E:=quiet_env) (sample_change None 102 (Some false) None) sample_world w' r eq_refl Hne eq_refl eq_refl H)
    as (_ & Hp & Hok).
  split; [apply Hok; eexists; vm_compute; reflexivity|].
  intros p Hin Hid. apply Hp in Hin as (p0 & _ & [(_ & _ & -> & _)|[Hn ->]]); [reflexivity|].
  exfalso. apply Hn. exists (sample_dialog 12 102 1 Role.RoleMember false false). split; [|rewrite Hid; done].
  simpl. right. right. left.
Defined.
