(* ===== verification/TagStore.v ===== *)
(** * TagStore: personal tags of threads

    internal/store/postgres/thread_tag_store.go over im_thread.thread_tag:
    unique (thread_id, contact_id, tag), 1..64 characters, a reference to the
    thread.  Texts are ordered by bytes. *)
From S2P Require Import Prelude Domain Events Message World BotControlStore DialogStore Paging.
#[local] Open Scope Z_scope.

Definition tag_key (t : TagRow) : uuid * uuid * string := (g_thread_id t, g_contact_id t, g_tag t).

Definition same_tag (tid cid : uuid) (tag : string) (t : TagRow) : bool :=
  bool_decide (tag_key t = (tid, cid, tag)).

Definition tag_accepted (tag : string) : bool := (1 <=? char_length tag) && (char_length tag <=? 64).

Definition mapTag (t : TagRow) : ThreadTag :=
  MkTag (g_id t) (g_thread_id t) (g_contact_id t) (g_tag t) (g_created_at t).

Definition mine (tid cid : uuid) (t : TagRow) : bool :=
  bool_decide (g_thread_id t = tid) && bool_decide (g_contact_id t = cid).

(** [ORDER BY created_at, tag] *)
Definition tag_le (a b : TagRow) : Prop :=
  g_created_at a < g_created_at b \/
  (g_created_at a = g_created_at b /\ String.leb (g_tag a) (g_tag b) = true).
#[export] Instance tag_le_dec : RelDecision tag_le.
Proof. intros a b. unfold tag_le. apply _. Defined.

Definition tag_names (tid cid : uuid) (d : DB) : list string :=
  g_tag <$> merge_sort tag_le (select_where (mine tid cid) (db_tags d)).

(** The rows [RemoveForContacts] deletes; no tag given means every tag. *)
Definition cleared (tid : uuid) (cids : list uuid) (tags : list string) (t : TagRow) : bool :=
  bool_decide (g_thread_id t = tid) && bool_decide (g_contact_id t ∈ cids) &&
  (bool_decide (tags = []) || bool_decide (g_tag t ∈ tags)).

Definition string_le (a b : string) : Prop := String.leb a b = true.
#[export] Instance string_le_dec : RelDecision string_le.
Proof. intros a b. unfold string_le. apply _. Defined.

(** [SELECT DISTINCT tag ... ORDER BY tag] *)
Definition contact_tags (cid : uuid) (d : DB) : list string :=
  merge_sort string_le
    (remove_dups (g_tag <$> select_where (fun t => bool_decide (g_contact_id t = cid)) (db_tags d))).

(** The size a tag search is served with, and its offset. *)
Definition search_limit (size : Z) : Z :=
  let l := if size <=? 0 then limitDefault else size in
  if l >? maxLimit then maxLimit else l.
Definition search_offset (page size : Z) : Z := if page >? 1 then (page - 1) * search_limit size else 0.

Section store.
Context {E : Env}.

(** The tag row and whether it was inserted now. *)
Definition Add (tag : ThreadTag) : SM (ThreadTag * bool) :=
  statement_as "error executing tag insert query";;
  d ← gets w_db;
  if negb (tag_accepted (tag_Tag tag)) then reject_as "error executing tag insert query"
  else
    match find_first (same_tag (tag_ThreadID tag) (tag_ContactID tag) (tag_Tag tag)) (db_tags d) with
    | Some t => mret (mapTag t, false)
    | None =>
        match find_thread (tag_ThreadID tag) d with
        | None => reject (WithCode CodeNotFound (errors_New "thread not found"))
        | Some _ =>
            id ← fresh;
            at_ ← now;
            let t := MkTagRow id (tag_ThreadID tag) (tag_ContactID tag) (tag_Tag tag) at_ in
            modify (fun w => set_db (on_tags (fun l => l ++ [t]) (w_db w)) w);;
            mret (mapTag t, true)
        end
    end.

Definition Remove (tagID contactID : uuid) : SM uuid :=
  statement_as "error executing tag delete query";;
  d ← gets w_db;
  let hit t := bool_decide (g_id t = tagID) && bool_decide (g_contact_id t = contactID) in
  modify (fun w => set_db (on_tags (delete_where hit) (w_db w)) w);;
  match find_first hit (db_tags d) with
  | None => throw (NotFound "tag not found")
  | Some t => mret (g_thread_id t)
  end.

Definition RemoveByName (threadID contactID : uuid) (tag : string) : SM bool :=
  statement_as "error executing tag delete by name query";;
  d ← gets w_db;
  modify (fun w => set_db (on_tags (delete_where (same_tag threadID contactID tag)) (w_db w)) w);;
  mret (bool_decide (is_Some (find_first (same_tag threadID contactID tag) (db_tags d)))).

(** The contacts whose tags were removed. *)
Definition RemoveForContacts (threadID : uuid) (contactIDs : list uuid) (tags : list string)
    : SM (list uuid) :=
  if bool_decide (threadID = uuid_Nil) || bool_decide (contactIDs = []) then mret []
  else
    statement_as "error executing tag delete for contacts query";;
    d ← gets w_db;
    modify (fun w => set_db (on_tags (delete_where (cleared threadID contactIDs tags)) (w_db w)) w);;
    mret (remove_dups (g_contact_id <$> select_where (cleared threadID contactIDs tags) (db_tags d))).

Definition ListNames (threadID contactID : uuid) : SM (list string) :=
  map_err (internal "error executing tag names query") (query (tag_names threadID contactID)).

Definition by_created (a b : TagRow) : Prop := g_created_at a <= g_created_at b.
#[export] Instance by_created_dec : RelDecision by_created.
Proof. intros a b. unfold by_created. apply _. Defined.

(** Tags of one contact grouped by thread, oldest first. *)
Definition group_tags (ts : list TagRow) : gmap uuid (list ThreadTag) :=
  fold_left (fun m t => <[g_thread_id t := default [] (m !! g_thread_id t) ++ [mapTag t]]> m) ts ∅.

Definition ListForContact (contactID : uuid) (threadIDs : list uuid) : SM (gmap uuid (list ThreadTag)) :=
  if bool_decide (contactID = uuid_Nil) || bool_decide (threadIDs = []) then mret ∅
  else
    map_err (internal "error executing tag list query")
      (query (fun d => group_tags (merge_sort by_created
         (select_where (fun t => bool_decide (g_contact_id t = contactID) &&
                                 bool_decide (g_thread_id t ∈ threadIDs)) (db_tags d))))).

(** One tag more than the page, so that the caller can tell there is a next page. *)
Definition SearchTags (contactID : uuid) (page size : Z) : SM (list string) :=
  if decide (contactID = uuid_Nil) then throw (InvalidArgument "contact_id is required")
  else
    map_err (internal "error executing tag search query")
      (query (fun d => paged (search_limit size + 1) (search_offset page size) (contact_tags contactID d))).
End store.
