(* ===== verification/Outbox.v ===== *)
(** * Outbox: events that commit with the change they announce

    internal/store/postgres/outbox.go: the outbox row, the update journal
    (internal/adapter/journal) and the marks of the contacts that have
    something to catch up on.  The journal row keeps the event it projects. *)
From S2P Require Import Prelude Domain Events Message World BotControlStore DialogStore.
From S2P Require Import Samples.
#[local] Open Scope Z_scope.

(** The active non-bot members of a thread. *)
Definition human_contacts (tid : uuid) (d : DB) : list uuid :=
  d_member_id <$> select_where (fun r => bool_decide (d_thread_id r = tid) && active r && negb (d_is_bot r))
                    (db_dialogs d).

(** [UNION] removes duplicates; [NULL] adds nothing. *)
Definition marked_contacts (tid : uuid) (subject : option uuid) (d : DB) : list uuid :=
  remove_dups (human_contacts tid d ++ match subject with Some s => [s] | None => [] end).

Definition is_mark (cid tid : uuid) (k : MarkRow) : bool :=
  bool_decide (k_contact_id k = cid) && bool_decide (k_thread_id k = tid).

(** [INSERT ... ON CONFLICT (contact_id, thread_id) DO UPDATE] *)
Definition upsert_mark (at_ : Time) (tx : Z) (tid cid : uuid) (ks : list MarkRow) : list MarkRow :=
  match find_first (is_mark cid tid) ks with
  | Some _ => update_where (is_mark cid tid) (fun _ => MkMarkRow cid tid tx at_) ks
  | None => ks ++ [MkMarkRow cid tid tx at_]
  end.

Definition mark_sql (at_ : Time) (tx : Z) (tid : uuid) (cids : list uuid) (d : DB) : DB :=
  on_marks (fun ks => fold_left (fun ks cid => upsert_mark at_ tx tid cid ks) cids ks) d.

Section store.
Context {E : Env}.

Definition no_tx_error : error := errors_New "outbox publish: transaction required (querier is not pgx.Tx)".

(** The transaction id, as a GetUpdates cursor. *)
Definition liveCursor : SM string :=
  statement_as "reading updates cursor";;
  tx ← gets w_tx;
  mret (pretty tx).

Definition appendJournal (tid : uuid) (evt : Event) : SM unit :=
  statement_as "appending journal entry";;
  modify (fun w => set_db (on_journal (fun l => l ++ [MkJournalRow tid (w_tx w) (w_now w) evt]) (w_db w)) w).

(** A contact listed twice makes ON CONFLICT touch a row twice, an error. *)
Definition markAudience (tid : uuid) (contacts : list uuid) : SM unit :=
  match contacts with
  | [] => mret tt
  | _ =>
      statement_as "marking audience updates";;
      if bool_decide (NoDup contacts)
      then modify (fun w => set_db (mark_sql (w_now w) (w_tx w) tid contacts (w_db w)) w)
      else reject_as "marking audience updates"
  end.

Definition markContacts (tid : uuid) (evt : Event) : SM unit :=
  match JournalAudience evt with
  | Some audience => markAudience tid audience
  | None =>
      statement_as "marking contact updates";;
      modify (fun w => set_db
        (mark_sql (w_now w) (w_tx w) tid (marked_contacts tid (JournalSubject evt) (w_db w)) (w_db w)) w)
  end.

(** The row watermill inserts. *)
Definition publish_row (topic : string) (evt : Event) (cursor : option string) : SM unit :=
  exec (on_outbox (fun l => l ++ [MkOutboxRow topic evt cursor])).

Definition Publish (topic : string) (evt : Event) : SM unit :=
  in_tx ← gets w_in_tx;
  if negb in_tx then throw no_tx_error
  else
    match JournalThreadID evt with
    | Some tid =>
        cursor ← liveCursor;
        appendJournal tid evt;;
        markContacts tid evt;;
        publish_row topic evt (Some cursor)
    | None => publish_row topic evt None
    end.
End store.

(** ** What publishing leaves alone

    A part of the world that does not depend on statement counts, ids, tags,
    the outbox, the journal and the marks. *)
Class Quiet {B} (P : World -> B) := MkQuiet {
  quiet_tick b w : P (set_tick b w) = P w;
  quiet_next n w : P (set_next n w) = P w;
  quiet_abort b w : P (set_txstate (w_tx w) (w_in_tx w) b w) = P w;
  quiet_outbox f w : P (set_db (on_outbox f (w_db w)) w) = P w;
  quiet_journal f w : P (set_db (on_journal f (w_db w)) w) = P w;
  quiet_marks f w : P (set_db (on_marks f (w_db w)) w) = P w;
  quiet_tags f w : P (set_db (on_tags f (w_db w)) w) = P w }.

(** Who is in which thread with which rights, and who controls it. *)
Definition membership (w : World)
    : list ThreadRow * list DialogRow * list PermRow * list StackRow * list SettingRow :=
  let d := w_db w in (db_threads d, db_dialogs d, db_perms d, db_stack d, db_settings d).

#[export] Instance quiet_membership : Quiet membership.
Proof. by split. Qed.
#[export] Instance quiet_in_tx : Quiet w_in_tx.
Proof. by split. Qed.
#[export] Instance quiet_sent : Quiet w_sent.
Proof. by split. Qed.
#[export] Instance quiet_now : Quiet w_now.
Proof. by split. Qed.
#[export] Instance quiet_compose {B C} (P : World -> B) (g : B -> C) : Quiet P -> Quiet (fun w => g (P w)).
Proof. intros []. split; intros; f_equal; auto. Qed.

#[export] Hint Resolve quiet_tick quiet_next quiet_abort quiet_outbox quiet_journal quiet_marks
  quiet_tags : svc.

Section quiet.
Context {E : Env} {B : Type} (P : World -> B) {Q : Quiet P}.

Lemma quiet_statement : preserves P statement.
Proof. apply preserves_statement, quiet_tick. Qed.
Lemma quiet_statement_as msg : preserves P (statement_as msg).
Proof. apply preserves_map_err, quiet_statement. Qed.
Lemma quiet_query {A} (f : DB -> A) : preserves P (query f).
Proof. apply preserves_query, quiet_tick. Qed.
Lemma quiet_fresh : preserves P fresh.
Proof. apply preserves_fresh, quiet_next. Qed.
Lemma quiet_reject {A} e : preserves P (reject e : SM A).
Proof. apply preserves_reject, quiet_abort. Qed.

Lemma quiet_modify f : (forall w, P (f w) = P w) -> preserves P (modify f).
Proof. intros H w. apply H. Qed.

#[local] Hint Resolve quiet_statement quiet_statement_as quiet_fresh : svc.

Lemma quiet_Publish topic e : preserves P (Publish topic e).
Proof.
  unfold Publish, liveCursor, appendJournal, markContacts, markAudience, publish_row, reject_as.
  repeat first [ solve [eauto with svc] | apply quiet_modify; intros ?; apply Q
               | apply quiet_reject | apply preserves_exec; intros; apply Q | frame_step ].
Qed.
End quiet.

#[export] Hint Resolve quiet_statement quiet_statement_as quiet_query quiet_fresh quiet_reject
  quiet_Publish : svc.

(** ** Facts *)
Lemma remove_dups_elem (l : list uuid) x : x ∈ remove_dups l <-> x ∈ l.
Proof. apply elem_of_remove_dups. Qed.

Lemma elem_of_human_contacts tid d c :
  c ∈ human_contacts tid d <->
  exists r, r ∈ db_dialogs d /\ d_thread_id r = tid /\ d_deleted_at r = None /\ d_is_bot r = false /\ d_member_id r = c.
Proof.
  unfold human_contacts. rewrite list_elem_of_fmap. setoid_rewrite elem_of_select.
  unfold active. setoid_rewrite andb_true_iff. setoid_rewrite andb_true_iff.
  setoid_rewrite bool_decide_eq_true. setoid_rewrite negb_true_iff. naive_solver.
Qed.

(** Whether contact [c] holds a mark for thread [t] in transaction [tx]. *)
Definition mark_of (c t : uuid) (d : DB) : option Z :=
  k_tx_id <$> find_first (is_mark c t) (db_marks d).

Lemma find_mark_app c t ks k :
  find_first (is_mark c t) (ks ++ [k]) =
  match find_first (is_mark c t) ks with
  | Some k' => Some k'
  | None => if is_mark c t k then Some k else None
  end.
Proof. induction ks as [|k' ks IH]; simpl; [done|]. by destruct (is_mark c t k'). Qed.

Lemma is_mark_refl c t tx at_ : is_mark c t (MkMarkRow c t tx at_) = true.
Proof. unfold is_mark. simpl. by rewrite !bool_decide_true. Qed.

Lemma is_mark_spec c t k : is_mark c t k = true <-> k_contact_id k = c /\ k_thread_id k = t.
Proof. unfold is_mark. by rewrite andb_true_iff, !bool_decide_eq_true. Qed.

Lemma upsert_same at_ tx tid cid ks :
  k_tx_id <$> find_first (is_mark cid tid) (upsert_mark at_ tx tid cid ks) = Some tx.
Proof.
  unfold upsert_mark. destruct (find_first (is_mark cid tid) ks) as [k|] eqn:Ek.
  - induction ks as [|k' ks IH]; [done|]. simpl in *.
    destruct (is_mark cid tid k') eqn:E'; simpl.
    + by rewrite is_mark_refl.
    + rewrite E'. by apply IH.
  - by rewrite find_mark_app, Ek, is_mark_refl.
Qed.

Lemma upsert_other at_ tx tid cid c t ks :
  (c, t) <> (cid, tid) ->
  find_first (is_mark c t) (upsert_mark at_ tx tid cid ks) = find_first (is_mark c t) ks.
Proof.
  intros Hne. unfold upsert_mark.
  assert (forall tx' at_', is_mark c t (MkMarkRow cid tid tx' at_') = false) as Hn.
  { intros tx' at_'. apply not_true_iff_false. rewrite is_mark_spec. simpl. naive_solver. }
  destruct (find_first (is_mark cid tid) ks) as [k|] eqn:Ek.
  - clear Ek. induction ks as [|k' ks IH]; [done|]. simpl.
    destruct (is_mark cid tid k') eqn:E'; simpl.
    + rewrite Hn. destruct (is_mark c t k') eqn:E2; [|done].
      apply is_mark_spec in E', E2. naive_solver.
    + by destruct (is_mark c t k').
  - rewrite find_mark_app, Hn. by destruct (find_first (is_mark c t) ks).
Qed.

(** Marks after marking: the listed contacts get the transaction, the others keep theirs. *)
Lemma mark_of_sql at_ tx tid cids d c t :
  mark_of c t (mark_sql at_ tx tid cids d) =
  if decide (t = tid /\ c ∈ cids) then Some tx else mark_of c t d.
Proof.
  unfold mark_of, mark_sql. simpl. generalize (db_marks d) as ks.
  induction cids as [|cid cids IH]; intros ks; simpl.
  - rewrite decide_False; [done|]. intros [_ Hin]. by apply not_elem_of_nil in Hin.
  - rewrite IH. destruct (decide (t = tid /\ c ∈ cids)) as [[-> Hin]|Hn].
    + rewrite decide_True; [done|]. split; [done|]. apply elem_of_cons. by right.
    + destruct (decide (t = tid /\ c ∈ cid :: cids)) as [[-> Hin]|Hn'].
      * apply elem_of_cons in Hin as [->|Hin]; [apply upsert_same|naive_solver].
      * rewrite upsert_other; [done|]. intros [= -> ->]. apply Hn'. split; [done|left].
Qed.

(** ** What Publish does *)

(** The contacts an event marks in its thread. *)
Definition audience (e : Event) (tid : uuid) (d : DB) : list uuid :=
  match JournalAudience e with
  | Some a => a
  | None => marked_contacts tid (JournalSubject e) d
  end.

Definition published (topic : string) (e : Event) (at_ : Time) (tx : Z) (d : DB) : DB :=
  match JournalThreadID e with
  | Some tid =>
      on_outbox (fun l => l ++ [MkOutboxRow topic e (Some (pretty tx))])
        (mark_sql at_ tx tid (audience e tid d) (on_journal (fun l => l ++ [MkJournalRow tid tx at_ e]) d))
  | None => on_outbox (fun l => l ++ [MkOutboxRow topic e None]) d
  end.

Section publish.
Context {E : Env}.

Lemma mark_sql_nil at_ tx tid d : mark_sql at_ tx tid [] d = d.
Proof. by destruct d. Qed.

Lemma markContacts_ok tid e w u w' : markContacts tid e w = (OK u, w') ->
  w_tx w' = w_tx w /\ w_in_tx w' = w_in_tx w /\ w_now w' = w_now w /\
  w_db w' = mark_sql (w_now w) (w_tx w) tid (audience e tid (w_db w)) (w_db w).
Proof.
  unfold markContacts, markAudience, audience. intros H.
  destruct (JournalAudience e) as [[|c cs]|].
  - run in H. simplify_eq. by rewrite mark_sql_nil.
  - step_ok H. apply statement_as_ok in Hs as (-> & _).
    destruct (bool_decide _); [|done]. run in H. by simplify_eq.
  - step_ok H. apply statement_as_ok in Hs as (-> & _). run in H. by simplify_eq.
Qed.

Lemma Publish_ok topic e w u w' : Publish topic e w = (OK u, w') ->
  w_in_tx w = true /\ w_in_tx w' = true /\ w_tx w' = w_tx w /\
  w_db w' = published topic e (w_now w) (w_tx w) (w_db w).
Proof.
  unfold Publish. intros H. run in H. destruct (w_in_tx w) eqn:Etx; [|done]. simpl in H.
  split; [done|]. unfold published. destruct (JournalThreadID e) as [tid|].
  - step_ok H. unfold liveCursor in Hs. step_ok Hs. apply statement_as_ok in Hs0 as (-> & _).
    run in Hs. simplify_eq.
    step_ok H. unfold appendJournal in Hs. step_ok Hs. apply statement_as_ok in Hs0 as (-> & _).
    run in Hs. simplify_eq.
    step_ok H. apply markContacts_ok in Hs as (Htx & Hin & _ & Hd). simpl in Htx, Hin, Hd.
    unfold publish_row in H. apply exec_ok in H as (-> & _). simpl.
    rewrite Hin, Htx, Hd. done.
  - unfold publish_row in H. apply exec_ok in H as (-> & _). done.
Qed.
End publish.

(** Publishing outside a transaction is refused and changes nothing. *)
Theorem Publish_requires_tx {E : Env} (topic : string) (e : Event) (w : World) :
  w_in_tx w = false -> Publish topic e w = (Err no_tx_error, w).
Proof. intros Htx. unfold Publish. run. by rewrite Htx. Qed.

(** A successful Publish appends one outbox row.  A journaled event also
    gets a journal row and marks, with the id of the transaction, exactly the
    contacts that have to catch up: its private audience if it has one, else
    the active non-bot members of the thread and the subject of the event.
    Every other mark stays.  An event outside the journal marks nobody. *)
Theorem Publish_spec {E : Env} (topic : string) (e : Event) (w w' : World) :
  Publish topic e w = (OK tt, w') ->
  let d := w_db w in let d' := w_db w' in
  match JournalThreadID e with
  | Some tid =>
      db_outbox d' = db_outbox d ++ [MkOutboxRow topic e (Some (pretty (w_tx w)))] /\
      db_journal d' = db_journal d ++ [MkJournalRow tid (w_tx w) (w_now w) e] /\
      forall c t,
        let due := t = tid /\
          match JournalAudience e with
          | Some a => c ∈ a
          | None => (exists r, r ∈ db_dialogs d /\ d_thread_id r = tid /\ d_deleted_at r = None /\
                              d_is_bot r = false /\ d_member_id r = c) \/ JournalSubject e = Some c
          end in
        (due -> mark_of c t d' = Some (w_tx w)) /\ (~ due -> mark_of c t d' = mark_of c t d)
  | None =>
      db_outbox d' = db_outbox d ++ [MkOutboxRow topic e None] /\
      db_journal d' = db_journal d /\ db_marks d' = db_marks d
  end.
Proof.
  intros (_ & _ & _ & Hd)%Publish_ok. simpl. rewrite Hd. unfold published.
  destruct (JournalThreadID e) as [tid|]; [|done]. split; [done|]. split; [done|].
  intros c t.
  assert (t = tid /\ match JournalAudience e with
                     | Some a => c ∈ a
                     | None => (exists r, r ∈ db_dialogs (w_db w) /\ d_thread_id r = tid /\ d_deleted_at r = None /\
                                  d_is_bot r = false /\ d_member_id r = c) \/ JournalSubject e = Some c
                     end <-> t = tid /\ c ∈ audience e tid (w_db w)) as Hdue.
  { unfold audience. destruct (JournalAudience e); [done|]. unfold marked_contacts.
    rewrite <- elem_of_human_contacts, remove_dups_elem, elem_of_app. destruct (JournalSubject e) as [s|].
    - rewrite list_elem_of_singleton. naive_solver.
    - rewrite elem_of_nil. naive_solver. }
  pose proof (mark_of_sql (w_now w) (w_tx w) tid (audience e tid (w_db w))
    (on_journal (fun l => l ++ [MkJournalRow tid (w_tx w) (w_now w) e]) (w_db w)) c t) as Hm.
  rewrite Hdue. split; intros Hc; [rewrite decide_True in Hm by done|rewrite decide_False in Hm by done];
    exact Hm.
Qed.

(** ** Witnesses *)
Definition sample_event : Event := EvThreadUpdated (MkThreadUpdated 1 7 102 "crm" 5000 []).

Lemma Publish_requires_tx_witness :
  w_in_tx sample_world = false /\ Publish "topic" sample_event sample_world = (Err no_tx_error, sample_world).
Proof. split; [reflexivity|]. exact (Publish_requires_tx "topic" sample_event sample_world eq_refl). Defined.

(** The client and the agent are marked, the bots are not. *)
Lemma Publish_spec_witness :
  exists w', Publish "topic" sample_event (world_in_tx sample_db) = (OK tt, w') /\
    mark_of 100 1 (w_db w') = Some 1 /\ mark_of 101 1 (w_db w') = None.
Proof.
  assert (Publish "topic" sample_event (world_in_tx sample_db) =
    (OK tt, snd (Publish "topic" sample_event (world_in_tx sample_db)))) as H by (vm_compute; reflexivity).
  exists (snd (Publish "topic" sample_event (world_in_tx sample_db))). split; [exact H|].
  destruct (Publish_spec _ _ _ _ H) as (_ & _ & Hm). split.
  - apply (proj1 (Hm 100%N 1%N)). split; [reflexivity|]. left. apply elem_of_human_contacts, (bool_decide_unpack _).
    vm_compute. exact I.
  - apply (proj2 (Hm 101%N 1%N)). intros [_ [Hc|Hc]]; [|discriminate Hc].
    apply elem_of_human_contacts in Hc. revert Hc. apply (bool_decide_unpack (101%N ∉ human_contacts 1 sample_db)). vm_compute. exact I.
Defined.
