(* ===== verification/TagService.v ===== *)
(** * TagService: tagging threads and the hooks of other services

    internal/service/thread_tag.go.  [ThreadTagHooks] is the interface the
    thread and message services call; what they rely on is stated as its laws. *)
From S2P Require Import Prelude Domain Events Message World BotControlStore DialogStore.
From S2P Require Import TagStore Outbox.
#[local] Open Scope Z_scope.

Definition SnoozedTag : string := "snoozed".
Definition incomingClearsTags : list string := [SnoozedTag].

Record AddTagRequest := MkAddTag { at_ContactID : uuid; at_ThreadID : uuid; at_Tag : string }.
Record RemoveTagRequest := MkRemoveTag { rt_TagID : uuid; rt_ContactID : uuid }.
Record RemoveTagByNameRequest := MkRemoveTagByName { rn_ContactID : uuid; rn_ThreadID : uuid; rn_Tag : string }.
Record SearchTagsRequest := MkSearchTags { sr_ContactID : uuid; sr_Page : Z; sr_Size : Z }.

Section service.
Context {E : Env}.

Definition activeMember (threadID contactID : uuid) : SM (option ThreadDialog) :=
  members ← DialogStore.GetQuickView
    (MkDialogFilter 1 0 (Some [threadID]) (Some [contactID]) None false 0);
  mret (head members).

Definition publishTagsChanged (threadID contactID : uuid) (domainID : Z) : SM unit :=
  tags ← TagStore.ListNames threadID contactID;
  at_ ← now;
  let e := EvThreadTagsChanged (NewThreadTagsChanged at_ threadID contactID domainID tags) in
  Outbox.Publish (thread_topic env_uuid_string e) e.

Definition notifyMemberTagsChanged (threadID contactID : uuid) : SM unit :=
  member ← activeMember threadID contactID;
  match member with
  | None => mret tt
  | Some m => publishTagsChanged threadID contactID (to_int32 (td_DomainID m))
  end.

Definition AddTag (req : AddTagRequest) : SM ThreadTag :=
  if decide (at_ContactID req = uuid_Nil) then throw (InvalidArgument "contact_id is required")
  else if decide (at_ThreadID req = uuid_Nil) then throw (InvalidArgument "thread_id is required")
  else if decide (at_Tag req = "") then throw (InvalidArgument "tag is required")
  else WithinTransaction (
    member ← activeMember (at_ThreadID req) (at_ContactID req);
    match member with
    | None => throw (Forbidden "only thread members can tag the thread")
    | Some m =>
        p ← TagStore.Add (MkTag uuid_Nil (at_ThreadID req) (at_ContactID req) (at_Tag req) 0);
        let '(result, inserted) := p in
        (if negb inserted then mret tt
         else publishTagsChanged (at_ThreadID req) (at_ContactID req) (to_int32 (td_DomainID m)));;
        mret result
    end).

Definition RemoveTag (req : RemoveTagRequest) : SM unit :=
  if decide (rt_TagID req = uuid_Nil) then throw (InvalidArgument "tag_id is required")
  else if decide (rt_ContactID req = uuid_Nil) then throw (InvalidArgument "contact_id is required")
  else WithinTransaction (
    threadID ← TagStore.Remove (rt_TagID req) (rt_ContactID req);
    notifyMemberTagsChanged threadID (rt_ContactID req)).

Definition RemoveTagByName (req : RemoveTagByNameRequest) : SM unit :=
  if decide (rn_ContactID req = uuid_Nil) then throw (InvalidArgument "contact_id is required")
  else if decide (rn_ThreadID req = uuid_Nil) then throw (InvalidArgument "thread_id is required")
  else if decide (rn_Tag req = "") then throw (InvalidArgument "tag is required")
  else WithinTransaction (
    removed ← TagStore.RemoveByName (rn_ThreadID req) (rn_ContactID req) (rn_Tag req);
    if negb removed then mret tt
    else notifyMemberTagsChanged (rn_ThreadID req) (rn_ContactID req)).

Definition SearchThreadTags (req : SearchTagsRequest) : SM (list string) :=
  if decide (sr_ContactID req = uuid_Nil) then throw (InvalidArgument "contact_id is required")
  else TagStore.SearchTags (sr_ContactID req) (sr_Page req) (sr_Size req).

Definition ListTags (threadID contactID : uuid) : SM (list string) := TagStore.ListNames threadID contactID.

Definition Snooze (threadID contactID : uuid) : SM ThreadTag :=
  AddTag (MkAddTag contactID threadID SnoozedTag).

Definition Unsnooze (threadID contactID : uuid) : SM unit :=
  RemoveTagByName (MkRemoveTagByName contactID threadID SnoozedTag).

(** An incoming message clears the snoozed tag of its recipients. *)
Definition OnMessageTags (msg : Message) : SM unit :=
  let recipients := RecipientIDs msg in
  if bool_decide (recipients = []) then mret tt
  else
    cleared ← TagStore.RemoveForContacts (msg_ThreadID msg) recipients incomingClearsTags;
    for_each (fun contactID => publishTagsChanged (msg_ThreadID msg) contactID (msg_DomainID msg)) cleared.

(** A member who left loses every tag of the thread; nothing is published. *)
Definition OnMemberLeftTags (threadID contactID : uuid) : SM unit :=
  TagStore.RemoveForContacts threadID [contactID] [];; mret tt.
End service.

(** ** The interface for the other services

    A hook touches only tags, the outbox, the journal and the marks. *)
Class ThreadTagHooks `{Env} := {
  OnMessage : Message -> SM unit;
  OnMemberLeft : uuid -> uuid -> SM unit;
  OnMessage_quiet {B} (P : World -> B) msg : Quiet P -> preserves P (OnMessage msg);
  OnMemberLeft_quiet {B} (P : World -> B) tid cid : Quiet P -> preserves P (OnMemberLeft tid cid) }.

#[export] Hint Resolve OnMessage_quiet OnMemberLeft_quiet : svc.

Section hooks.
Context {E : Env} {B : Type} (P : World -> B) {Q : Quiet P}.

Lemma quiet_publishTagsChanged tid cid dom : preserves P (publishTagsChanged tid cid dom).
Proof.
  unfold publishTagsChanged, TagStore.ListNames. apply preserves_bind; [|frame].
  apply preserves_map_err. by apply quiet_query.
Qed.

Lemma quiet_RemoveForContacts tid cids tags : preserves P (TagStore.RemoveForContacts tid cids tags).
Proof.
  unfold TagStore.RemoveForContacts. destruct (_ || _); [apply preserves_ret|].
  repeat first [ solve [eauto with svc] | apply quiet_modify; intros ?; apply Q | frame_step ].
Qed.

Lemma quiet_OnMessageTags msg : preserves P (OnMessageTags msg).
Proof.
  unfold OnMessageTags. destruct (bool_decide _); [apply preserves_ret|].
  apply preserves_bind; [apply quiet_RemoveForContacts|].
  intros cs. apply preserves_for_each. intros c. apply quiet_publishTagsChanged.
Qed.

Lemma quiet_OnMemberLeftTags tid cid : preserves P (OnMemberLeftTags tid cid).
Proof. apply preserves_bind; [apply quiet_RemoveForContacts|intros; apply preserves_ret]. Qed.
End hooks.

(** The tag service is the implementation the program is wired with. *)
#[export] Instance tag_service_hooks {E : Env} : ThreadTagHooks := {|
  OnMessage := OnMessageTags;
  OnMemberLeft := OnMemberLeftTags;
  OnMessage_quiet B P msg Q := quiet_OnMessageTags P msg;
  OnMemberLeft_quiet B P tid cid Q := quiet_OnMemberLeftTags P tid cid |}.
