(* ===== verification/Tags.v ===== *)
(** * Tags: what tagging guarantees

    The invariant of the tag table, the effect of adding tags and of the hook
    run on every message, and the pages of the tag search. *)
From S2P Require Import Prelude Domain Events Message World BotControlStore DialogStore.
From S2P Require Import Paging TagStore Outbox TagService Samples.
#[local] Open Scope Z_scope.

(** ** The table *)
Record tags_wf (d : DB) : Prop := MkTagsWf {
  wf_tag_keys : NoDup (tag_key <$> db_tags d);
  wf_tag_ids : NoDup (g_id <$> db_tags d);
  wf_tag_rows : forall t, t ∈ db_tags d -> tag_accepted (g_tag t) = true /\ is_Some (find_thread (g_thread_id t) d) }.

Definition tag_inv (w : World) : Prop :=
  tags_wf (w_db w) /\ forall t, t ∈ db_tags (w_db w) -> (g_id t < w_next w)%N.

Lemma same_tag_spec tid cid tag t : same_tag tid cid tag t = true <-> tag_key t = (tid, cid, tag).
Proof. unfold same_tag. apply bool_decide_eq_true. Qed.

Section runs.
Context {E : Env}.

Lemma Add_ok tag w t b w' : Add tag w = (OK (t, b), w') ->
  tag_accepted (tag_Tag tag) = true /\
  match find_first (same_tag (tag_ThreadID tag) (tag_ContactID tag) (tag_Tag tag)) (db_tags (w_db w)) with
  | Some r => t = mapTag r /\ b = false /\ w_db w' = w_db w /\ w_next w' = w_next w
  | None =>
      is_Some (find_thread (tag_ThreadID tag) (w_db w)) /\ b = true /\ w_next w' = (w_next w + 1)%N /\
      let r := MkTagRow (w_next w) (tag_ThreadID tag) (tag_ContactID tag) (tag_Tag tag) (w_now w) in
      t = mapTag r /\ w_db w' = on_tags (fun l => l ++ [r]) (w_db w)
  end /\ w_in_tx w' = w_in_tx w.
Proof.
  unfold Add. intros H. step_ok H. apply statement_as_ok in Hs as (-> & _). run in H. simpl in H.
  destruct (tag_accepted (tag_Tag tag)); [|done]. simpl in H. split; [done|].
  destruct (find_first _ _) as [r|]; [run in H; by simplify_eq|].
  destruct (find_thread _ _) as [th|]; [|done]. run in H. simpl in H. simplify_eq. split; [|done].
  split; [by eexists|]. done.
Qed.

Lemma Remove_ok id cid w tid w' : Remove id cid w = (OK tid, w') ->
  exists t, t ∈ db_tags (w_db w) /\ g_id t = id /\ g_contact_id t = cid /\ g_thread_id t = tid /\
    w_next w' = w_next w /\
    w_db w' = on_tags (delete_where (fun t => bool_decide (g_id t = id) && bool_decide (g_contact_id t = cid))) (w_db w).
Proof.
  unfold Remove. intros H. step_ok H. apply statement_as_ok in Hs as (-> & _). run in H. simpl in H.
  destruct (find_first _ _) as [t|] eqn:Ht; [|done]. run in H. simplify_eq.
  apply find_first_Some in Ht as [Ht Hp]. rewrite andb_true_iff, !bool_decide_eq_true in Hp.
  exists t. destruct Hp. done.
Qed.

Lemma RemoveByName_ok tid cid tag w b w' : RemoveByName tid cid tag w = (OK b, w') ->
  w_next w' = w_next w /\ w_db w' = on_tags (delete_where (same_tag tid cid tag)) (w_db w).
Proof.
  unfold RemoveByName. intros H. step_ok H. apply statement_as_ok in Hs as (-> & _). run in H. by simplify_eq.
Qed.

Lemma RemoveForContacts_ok tid cids tags w cs w' : RemoveForContacts tid cids tags w = (OK cs, w') ->
  w_next w' = w_next w /\
  if bool_decide (tid = uuid_Nil) || bool_decide (cids = []) then w_db w' = w_db w /\ cs = []
  else w_db w' = on_tags (delete_where (cleared tid cids tags)) (w_db w) /\
       cs = remove_dups (g_contact_id <$> select_where (cleared tid cids tags) (db_tags (w_db w))).
Proof.
  unfold RemoveForContacts. intros H. destruct (_ || _); [run in H; by simplify_eq|].
  step_ok H. apply statement_as_ok in Hs as (-> & _). run in H. by simplify_eq.
Qed.

Lemma Publish_next topic e : preserves w_next (Publish topic e).
Proof.
  unfold Publish, liveCursor, appendJournal, markContacts, markAudience, publish_row.
  repeat first [ solve [eauto with svc] | frame_step | done ].
Qed.

Lemma publishTagsChanged_ok tid cid dom w u w' : publishTagsChanged tid cid dom w = (OK u, w') ->
  exists tags, let e := EvThreadTagsChanged (MkThreadTagsChanged tid dom cid tags (w_now w) [cid]) in
    w_db w' = published (thread_topic env_uuid_string e) e (w_now w) (w_tx w) (w_db w) /\
    w_tx w' = w_tx w /\ w_next w' = w_next w /\ w_now w' = w_now w.
Proof.
  unfold publishTagsChanged, ListNames. intros H. step_ok H. apply map_err_ok, query_ok in Hs as (-> & -> & _).
  run in H. simpl in H. pose proof (preserves_ok w_now _ _ _ _ (quiet_Publish w_now _ _) H) as Hnow.
  pose proof H as Hp. apply Publish_ok in Hp as (_ & _ & Htx & Hd).
  pose proof (preserves_ok w_next _ _ _ _ (Publish_next _ _) H) as Hnext.
  eexists. simpl in *. done.
Qed.
End runs.

(** ** The invariant *)
Inductive tag_step {E : Env} (w w' : World) : Prop :=
  | step_add tag t b : Add tag w = (OK (t, b), w') -> tag_step w w'
  | step_remove id cid tid : Remove id cid w = (OK tid, w') -> tag_step w w'
  | step_remove_name tid cid tag b : RemoveByName tid cid tag w = (OK b, w') -> tag_step w w'
  | step_remove_contacts tid cids tags cs : RemoveForContacts tid cids tags w = (OK cs, w') -> tag_step w w'.

Lemma delete_tags_inv P w w' :
  tag_inv w -> w_next w' = w_next w -> w_db w' = on_tags (delete_where P) (w_db w) -> tag_inv w'.
Proof.
  intros [[Hk Hi Hr] Hf] Hn Hd. unfold tag_inv. rewrite Hd, Hn. split; [split|]; simpl.
  - by apply NoDup_fmap_filter.
  - by apply NoDup_fmap_filter.
  - intros t [Ht _]%elem_of_delete. by apply Hr.
  - intros t [Ht _]%elem_of_delete. by apply Hf.
Qed.

Lemma add_tags_inv r w w' :
  tag_inv w -> w_next w' = (w_next w + 1)%N -> w_db w' = on_tags (fun l => l ++ [r]) (w_db w) ->
  g_id r = w_next w -> tag_accepted (g_tag r) = true -> is_Some (find_thread (g_thread_id r) (w_db w)) ->
  (forall t, t ∈ db_tags (w_db w) -> tag_key t <> tag_key r) -> tag_inv w'.
Proof.
  intros [[Hk Hi Hr] Hf] Hn Hd Hid Hacc Hth Hnew. unfold tag_inv. rewrite Hd, Hn. split; [split|]; simpl.
  - apply NoDup_fmap_snoc; [done|]. rewrite list_elem_of_fmap. intros (t & Heq & Ht). by apply (Hnew t).
  - apply NoDup_fmap_snoc; [done|]. rewrite list_elem_of_fmap. intros (t & Heq & Ht). specialize (Hf t Ht). lia.
  - intros t [Ht| ->%list_elem_of_singleton]%elem_of_app; [by apply Hr|done].
  - intros t [Ht| ->%list_elem_of_singleton]%elem_of_app; [specialize (Hf t Ht); lia|lia].
Qed.

Lemma tag_step_inv {E : Env} w w' : tag_step w w' -> tag_inv w -> tag_inv w'.
Proof.
  intros [tag t b H|id cid tid H|tid cid tag b H|tid cids tags cs H] Hinv.
  - apply Add_ok in H as (Hacc & H & _). destruct (find_first _ _) as [r|] eqn:Hff.
    + destruct H as (_ & _ & Hd & Hn). unfold tag_inv. by rewrite Hd, Hn.
    + destruct H as (Hth & _ & Hn & _ & Hd). apply (add_tags_inv _ w w' Hinv Hn Hd); [done..|].
      intros t' Ht' Heq. rewrite find_first_None in Hff. specialize (Hff t' Ht').
      apply same_tag_spec in Heq. simpl in Heq. congruence.
  - apply Remove_ok in H as (t & _ & _ & _ & _ & Hn & Hd). by apply (delete_tags_inv _ w w' Hinv Hn Hd).
  - apply RemoveByName_ok in H as (Hn & Hd). by apply (delete_tags_inv _ w w' Hinv Hn Hd).
  - apply RemoveForContacts_ok in H as (Hn & H). destruct (_ || _).
    + destruct H as [Hd _]. unfold tag_inv. by rewrite Hd, Hn.
    + destruct H as [Hd _]. by apply (delete_tags_inv _ w w' Hinv Hn Hd).
Qed.

(** Tags stay unique: from a well-formed tag table every sequence of
    successful store calls keeps one row per thread, contact and tag, distinct
    ids, tags of 1..64 characters and existing threads. *)
Theorem tags_reachable {E : Env} (w w' : World) : tag_inv w -> rtc tag_step w w' -> tag_inv w'.
Proof. intros Hi H. induction H as [|w w1 w' Hs _ IH]; [done|]. by apply IH, (tag_step_inv w). Qed.

(** ** Adding a tag *)
Section add.
Context {E : Env}.

(** The member row [activeMember] finds. *)
Lemma activeMember_ok tid cid w m w' : activeMember tid cid w = (OK m, w') ->
  w' = set_tick (w_aborted w) w /\
  match m with
  | Some td => exists r, r ∈ db_dialogs (w_db w) /\ d_thread_id r = tid /\ d_member_id r = cid /\
                         d_deleted_at r = None /\ td = mapToThreadDialogModel (quick_record r)
  | None => True
  end.
Proof.
  unfold activeMember, GetQuickView. intros H. step_ok H. step_ok Hs. apply statement_ok in Hs0 as (-> & _).
  simpl in Hs. run in Hs. run in H. simplify_eq. split; [done|]. unfold quick_view.
  destruct (head _) as [td|] eqn:Hh; [|done].
  apply head_Some_elem_of in Hh. apply list_elem_of_fmap in Hh as (r & -> & Hr).
  simpl in Hr. unfold paged in Hr. simpl in Hr. apply elem_of_take in Hr as (i & Hr & _).
  rewrite drop_0 in Hr. apply list_elem_of_lookup_2, elem_of_select in Hr as [Hin Hf].
  unfold quick_filter in Hf. simpl in Hf. unfold active in Hf.
  rewrite !andb_true_iff, !bool_decide_eq_true in Hf. exists r.
  destruct Hf as (((Ht & Hc) & _) & Hd). apply list_elem_of_singleton in Ht, Hc. done.
Qed.

(** A successful AddTag: the row that carries the tag, and what was written. *)
Lemma AddTag_run req w t w' : AddTag req w = (OK t, w') ->
  (exists r, r ∈ db_dialogs (w_db w) /\ d_thread_id r = at_ThreadID req /\
             d_member_id r = at_ContactID req /\ d_deleted_at r = None) /\
  tag_accepted (at_Tag req) = true /\
  let P := same_tag (at_ThreadID req) (at_ContactID req) (at_Tag req) in
  match find_first P (db_tags (w_db w)) with
  | Some r => t = mapTag r /\ w_db w' = w_db w
  | None =>
      exists r e at_ tx topic, P r = true /\ t = mapTag r /\ JournalAudience e = Some [at_ContactID req] /\
        JournalThreadID e = Some (at_ThreadID req) /\
        w_db w' = published topic e at_ tx (on_tags (fun l => l ++ [r]) (w_db w))
  end.
Proof.
  unfold AddTag. intros H. destruct (decide (at_ContactID req = uuid_Nil)); [done|].
  destruct (decide (at_ThreadID req = uuid_Nil)); [done|]. destruct (decide (at_Tag req = "")); [done|].
  apply WithinTransaction_run in H as (w0 & w1 & H & _ & Hd0 & Hn0 & Hnow & _ & Hd1 & _).
  step_ok H. apply activeMember_ok in Hs as (-> & Hm).
  destruct a as [m|]; [|done]. destruct Hm as (r & Hr & Ht & Hc & Hdel & ->).
  split; [exists r; by rewrite Hd0 in Hr|].
  step_ok H. destruct a as [res b]. apply Add_ok in Hs as (Hacc & Hadd & _). simpl in Hacc, Hadd.
  split; [done|]. simpl. rewrite <- Hd0. destruct (find_first _ _) as [r'|].
  - destruct Hadd as (-> & -> & Hdb & _). simpl in H. run in H. simplify_eq. by rewrite Hd1, Hdb.
  - destruct Hadd as (_ & -> & Hn & -> & Hdb). simpl in H. step_ok H. run in H. simplify_eq.
    apply publishTagsChanged_ok in Hs as (tags & Hp & _). rewrite Hd1.
    rewrite Hdb in Hp. eexists _, _, _, _, _. split; [|split; [|split; [|split; [|exact Hp]]]].
    + by apply same_tag_spec.
    + done.
    + done.
    + done.
Qed.
End add.

(** Only an active member can tag a thread, the tag is stored under that
    contact, and adding it again returns the same tag, writes nothing and
    announces nothing. *)
Theorem AddTag_idempotent {E : Env} (req : AddTagRequest) (w w1 w2 : World) t1 t2 :
  AddTag req w = (OK t1, w1) -> AddTag req w1 = (OK t2, w2) ->
  (exists r, r ∈ db_dialogs (w_db w) /\ d_thread_id r = at_ThreadID req /\
             d_member_id r = at_ContactID req /\ d_deleted_at r = None) /\
  (exists g, g ∈ db_tags (w_db w1) /\ tag_key g = (at_ThreadID req, at_ContactID req, at_Tag req) /\ t1 = mapTag g) /\
  t2 = t1 /\ w_db w2 = w_db w1.
Proof.
  intros (Hm & _ & H1)%AddTag_run (_ & _ & H2)%AddTag_run. split; [done|]. simpl in *.
  set (P := same_tag (at_ThreadID req) (at_ContactID req) (at_Tag req)) in *.
  assert (exists g, find_first P (db_tags (w_db w1)) = Some g /\ t1 = mapTag g) as (g & Hg & ->).
  { destruct (find_first P (db_tags (w_db w))) as [g|] eqn:Hff.
    - destruct H1 as [-> Hd]. exists g. by rewrite Hd.
    - destruct H1 as (g & e & at_ & tx & topic & Hg & -> & _ & Hj & Hd). exists g. split; [|done].
      rewrite Hd. unfold published. rewrite Hj. simpl.
      clear -Hff Hg. induction (db_tags (w_db w)) as [|x l IH]; simpl in *; [by rewrite Hg|].
      destruct (P x); [done|]. auto. }
  rewrite Hg in H2. destruct H2 as [-> Hd]. split; [|done].
  exists g. apply find_first_Some in Hg as [Hin Hp]. split; [done|]. split; [|done]. by apply same_tag_spec in Hp.
Qed.

(** ** The message hook *)
Definition tag_row_contact (o : OutboxRow) : option uuid :=
  match o_event o with EvThreadTagsChanged e => Some (ttc_ContactID e) | _ => None end.

Lemma published_tags topic e at_ tx d : db_tags (published topic e at_ tx d) = db_tags d.
Proof. unfold published. by destruct (JournalThreadID e). Qed.

Lemma publish_each_ok {E : Env} tid dom cs : forall w u w',
  for_each (fun c => publishTagsChanged tid c dom) cs w = (OK u, w') ->
  db_tags (w_db w') = db_tags (w_db w) /\
  exists rows, db_outbox (w_db w') = db_outbox (w_db w) ++ rows /\ tag_row_contact <$> rows = Some <$> cs.
Proof.
  induction cs as [|c cs IH]; intros w u w' H; simpl in H.
  - run in H. simplify_eq. split; [done|]. exists []. by rewrite app_nil_r.
  - step_ok H. apply publishTagsChanged_ok in Hs as (tags & Hd & _).
    apply IH in H as (Ht & rows & Ho & Hr). rewrite Ht, Ho, Hd, published_tags. split; [done|].
    eexists (_ :: rows). unfold published. simpl. rewrite <- app_assoc. split; [reflexivity|].
    simpl. f_equal. exact Hr.
Qed.

Definition snoozed_for (msg : Message) (g : TagRow) : Prop :=
  g_thread_id g = msg_ThreadID msg /\ g_contact_id g ∈ RecipientIDs msg /\ g_tag g = SnoozedTag.

Lemma cleared_spec msg g :
  cleared (msg_ThreadID msg) (RecipientIDs msg) incomingClearsTags g = true <-> snoozed_for msg g.
Proof.
  unfold cleared, snoozed_for, incomingClearsTags. rewrite !andb_true_iff, orb_true_iff, !bool_decide_eq_true.
  rewrite list_elem_of_singleton. naive_solver.
Qed.

(** A message removes the snoozed tag of exactly its recipients in its
    thread and no other tag, and tells exactly the contacts that lost it, each
    of them once. *)
Theorem OnMessage_clears_snoozed {E : Env} (msg : Message) (w w' : World) u :
  msg_ThreadID msg <> uuid_Nil ->
  OnMessageTags msg w = (OK u, w') ->
  (forall g, g ∈ db_tags (w_db w') <-> g ∈ db_tags (w_db w) /\ ~ snoozed_for msg g) /\
  exists rows cs,
    db_outbox (w_db w') = db_outbox (w_db w) ++ rows /\ tag_row_contact <$> rows = Some <$> cs /\ NoDup cs /\
    forall c, c ∈ cs <-> exists g, g ∈ db_tags (w_db w) /\ snoozed_for msg g /\ g_contact_id g = c.
Proof.
  intros Htid. unfold OnMessageTags. intros H.
  destruct (bool_decide_reflect (RecipientIDs msg = [])) as [Hnil|Hne].
  - run in H. simplify_eq.
    assert (forall g, ~ snoozed_for msg g) as Hno by
      (intros g (_ & Hin & _); rewrite Hnil in Hin; by apply not_elem_of_nil in Hin).
    split; [naive_solver|]. exists [], []. rewrite app_nil_r. split_and!; [done|done|apply NoDup_nil_2|].
    intros c. rewrite elem_of_nil. naive_solver.
  - step_ok H. apply RemoveForContacts_ok in Hs as (_ & Hs).
    rewrite !bool_decide_false in Hs by done. simpl in Hs. destruct Hs as [Hd ->].
    apply publish_each_ok in H as (Ht & rows & Ho & Hr). split.
    + intros g. rewrite Ht, Hd. simpl. rewrite elem_of_delete, <- cleared_spec, not_true_iff_false. done.
    + exists rows. eexists. split; [rewrite Ho, Hd; reflexivity|]. split; [exact Hr|].
      split; [apply NoDup_remove_dups|]. intros c. rewrite remove_dups_elem, list_elem_of_fmap.
      setoid_rewrite elem_of_select. setoid_rewrite cleared_spec. naive_solver.
Qed.

(** ** Pages of the tag search *)

(** What the caller keeps of a page: [SearchTags] asks for one row more. *)
Definition search_page (page size : Z) (d : DB) (cid : uuid) : list string :=
  take (Z.to_nat (search_limit size)) (paged (search_limit size + 1) (search_offset page size) (contact_tags cid d)).

Lemma search_limit_bounds size : 1 <= search_limit size <= maxLimit.
Proof.
  unfold search_limit, limitDefault, maxLimit. destruct (Z.leb_spec size 0).
  - by destruct (Z.gtb_spec 20 100).
  - destruct (Z.gtb_spec size 100); lia.
Qed.

Lemma search_page_slice n size d cid :
  search_page (Z.of_nat n + 1) size d cid =
  take (Z.to_nat (search_limit size)) (drop (n * Z.to_nat (search_limit size)) (contact_tags cid d)).
Proof.
  pose proof (search_limit_bounds size). unfold search_page, paged, search_offset.
  rewrite (proj2 (Z.gtb_lt _ _)) by lia. rewrite take_take. f_equal; [lia|]. f_equal.
  destruct (Z.gtb_spec (Z.of_nat n + 1) 1); [|destruct n; lia].
  replace (Z.of_nat n + 1 - 1) with (Z.of_nat n) by lia. rewrite Z2Nat.inj_mul by lia. by rewrite Nat2Z.id.
Qed.

(** The pages of a tag search tile the sorted distinct tags of the
    contact: the first n pages, whatever the requested size, are together the
    first n * limit tags, no tag is skipped or repeated, and the limit is
    between 1 and 100. *)
Theorem search_pages_tile (n : nat) (size : Z) (d : DB) (cid : uuid) :
  1 <= search_limit size <= maxLimit /\
  NoDup (contact_tags cid d) /\
  mjoin ((fun k => search_page (Z.of_nat k + 1) size d cid) <$> seq 0 n) =
  take (n * Z.to_nat (search_limit size)) (contact_tags cid d).
Proof.
  split; [apply search_limit_bounds|]. split.
  { unfold contact_tags. rewrite merge_sort_Permutation. apply NoDup_remove_dups. }
  induction n as [|n IH]; [done|].
  rewrite seq_S, fmap_app, join_app, IH. simpl. rewrite search_page_slice, app_nil_r.
  rewrite take_take_drop. f_equal. lia.
Qed.

(** ** Witnesses *)
Definition sample_tag : AddTagRequest := MkAddTag 102 1 "snoozed".
Definition tagged : World := snd (AddTag sample_tag sample_world).

Lemma tag_runs : exists t, AddTag sample_tag sample_world = (OK t, tagged).
Proof. runs. Qed.

Lemma AddTag_idempotent_witness :
  exists t w2, AddTag sample_tag sample_world = (OK t, tagged) /\ AddTag sample_tag tagged = (OK t, w2) /\
    w_db w2 = w_db tagged.
Proof.
  destruct tag_runs as [t1 H1].
  assert (exists t, AddTag sample_tag tagged = (OK t, snd (AddTag sample_tag tagged))) as [t2 H2] by runs.
  destruct (AddTag_idempotent _ _ _ _ _ _ H1 H2) as (_ & _ & Heq & Hd). subst t2.
  exists t1. eexists. split; [exact H1|]. split; [exact H2|exact Hd].
Defined.

Lemma sample_tag_inv : tag_inv sample_world.
Proof. split; [split; [apply NoDup_nil_2|apply NoDup_nil_2|]|]; intros t Ht; by apply not_elem_of_nil in Ht. Qed.

Lemma tags_reachable_witness :
  exists w', rtc tag_step sample_world w' /\ tag_inv w' /\ length (db_tags (w_db w')) = 1%nat.
Proof.
  assert (exists p, Add (MkTag 0 1 102 "vip" 0) sample_world = (OK p, snd (Add (MkTag 0 1 102 "vip" 0) sample_world)))
    as [[t b] H] by runs.
  eexists. assert (rtc tag_step sample_world (snd (Add (MkTag 0 1 102 "vip" 0) sample_world))) as Hs
    by (apply rtc_once; by eapply step_add).
  split; [exact Hs|]. split; [|reflexivity]. apply (tags_reachable sample_world); [apply sample_tag_inv|exact Hs].
Defined.

(** The client writes; the agent had snoozed the thread. *)
Definition client_message : Message :=
  MkMessage 500 None "" "" "" 1 7 (Shared.MkPeer 100 1 None) (Shared.MkPeer 1 4 None)
    (Some (quick_view (MkDialogFilter 0 0 (Some [1%N]) None None false 0) sample_db)) "hi" 1 ∅ 0 0 false 100 10 None 0 0 0
    [] [] None None None None None None None None [].

Definition tagged_in_tx : World := world_in_tx (w_db tagged).

Lemma OnMessage_clears_snoozed_witness :
  exists u w', OnMessageTags client_message tagged_in_tx = (OK u, w') /\
    length (db_tags (w_db tagged_in_tx)) = 1%nat /\ forall g, g ∈ db_tags (w_db w') -> ~ snoozed_for client_message g.
Proof.
  assert (exists u, OnMessageTags client_message tagged_in_tx =
    (OK u, snd (OnMessageTags client_message tagged_in_tx))) as [u H] by runs.
  exists u. eexists. split; [exact H|]. split; [vm_compute; reflexivity|].
  assert (msg_ThreadID client_message <> uuid_Nil) as Hne by discriminate.
  intros g Hg. exact (proj2 (proj1 (proj1 (OnMessage_clears_snoozed _ _ _ _ Hne H) g) Hg)).
Defined.
