(* ===== verification/MessageStatus.v ===== *)
(** * MessageStatus: delivery and read horizons of the members

    internal/store/postgres/message_status_store.go with the data of
    internal/domain/model/message_status.go.  A member's progress in a thread
    is two message numbers on its dialog, the delivered and the read horizon,
    and a denormalised count of unread messages; only failures have rows. *)
From S2P Require Import Prelude Domain Events Message World BotControlStore DialogStore.
#[local] Open Scope Z_scope.

(** ** Data

    [None] for a time is the zero [time.Time]. *)
Record StatusReceipt := MkStatusReceipt {
  rc_DomainID : Z; rc_ThreadID : uuid; rc_MessageID : uuid; rc_UpToMessageID : uuid; rc_UpToSeq : Z;
  rc_MemberID : uuid; rc_At : option Time; rc_Via : string; rc_Error : option metadata }.

Record ReadReceipt := MkReadReceipt {
  rd_DomainID : Z; rd_ThreadID : uuid; rd_MemberID : uuid; rd_UpToMessageID : uuid; rd_UpToSeq : Z;
  rd_At : option Time; rd_Via : string }.

Record StatusChange := MkStatusChange {
  sc_DomainID : Z; sc_ThreadID : uuid; sc_MessageID : uuid; sc_UpToMessageID : uuid; sc_UpToSeq : Z;
  sc_MemberID : uuid; sc_Status : Z; sc_Via : option string; sc_Error : option metadata;
  sc_UpdatedAt : Time; sc_UnreadCount : option Z }.

Record UnreadSummaryResult := MkUnreadSummary { us_Chats : Z; us_Messages : Z }.

(** [model.MemberReadState]; the member is named by its dialog. *)
Record MemberReadState := MkReadState {
  ms_ThreadID : uuid; ms_MemberID : uuid; ms_DeliveredUpToSeq : Z; ms_ReadUpToSeq : Z }.

Definition set_rc_point (upTo : uuid) (seq : Z) (r : StatusReceipt) : StatusReceipt :=
  MkStatusReceipt (rc_DomainID r) (rc_ThreadID r) (rc_MessageID r) upTo seq (rc_MemberID r) (rc_At r)
    (rc_Via r) (rc_Error r).
Definition set_rc_thread (tid : uuid) (dom seq : Z) (r : StatusReceipt) : StatusReceipt :=
  MkStatusReceipt dom tid (rc_MessageID r) (rc_UpToMessageID r) seq (rc_MemberID r) (rc_At r)
    (rc_Via r) (rc_Error r).
Definition set_rd_seq (seq : Z) (r : ReadReceipt) : ReadReceipt :=
  MkReadReceipt (rd_DomainID r) (rd_ThreadID r) (rd_MemberID r) (rd_UpToMessageID r) seq (rd_At r) (rd_Via r).

(** [greaterUUID]: the first byte that differs decides. *)
Definition greaterUUID (a b : uuid) : bool := (b <? a)%N.

(** ** Deduplication

    The maps of the source hold, for a key, the place of its receipt in [out];
    here the place is found by the key itself. *)
Definition same_watermark (r o : StatusReceipt) : bool :=
  negb (bool_decide (rc_UpToMessageID o = uuid_Nil)) &&
  bool_decide (rc_ThreadID o = rc_ThreadID r) && bool_decide (rc_MemberID o = rc_MemberID r).

Definition same_message (r o : StatusReceipt) : bool :=
  bool_decide (rc_UpToMessageID o = uuid_Nil) &&
  bool_decide (rc_MessageID o = rc_MessageID r) && bool_decide (rc_MemberID o = rc_MemberID r).

Definition dedup_status (out : list StatusReceipt) (r : option StatusReceipt) : list StatusReceipt :=
  match r with
  | None => out
  | Some r =>
      if decide (rc_UpToMessageID r <> uuid_Nil) then
        if existsb (same_watermark r) out
        then update_where (fun o => same_watermark r o && greaterUUID (rc_UpToMessageID r) (rc_UpToMessageID o))
               (fun _ => r) out
        else out ++ [r]
      else if existsb (same_message r) out then out else out ++ [r]
  end.

Definition dedupStatusReceipts (receipts : list (option StatusReceipt)) : list StatusReceipt :=
  fold_left dedup_status receipts [].

Definition same_reader (r o : ReadReceipt) : bool :=
  bool_decide (rd_ThreadID o = rd_ThreadID r) && bool_decide (rd_MemberID o = rd_MemberID r).

Definition dedup_read (out : list ReadReceipt) (r : option ReadReceipt) : list ReadReceipt :=
  match r with
  | None => out
  | Some r =>
      if existsb (same_reader r) out
      then update_where (fun o => same_reader r o && greaterUUID (rd_UpToMessageID r) (rd_UpToMessageID o))
             (fun _ => r) out
      else out ++ [r]
  end.

Definition dedupReadReceipts (receipts : list (option ReadReceipt)) : list ReadReceipt :=
  fold_left dedup_read receipts [].

Definition confirmedAtOrNow (now : Time) (at_ : option Time) : Time := default now at_.

(** ** Statements *)
Definition find_message (id : uuid) (d : DB) : option MessageRow :=
  find_first (fun m => bool_decide (m_id m = id)) (db_messages d).

Definition live (m : MessageRow) : bool := match m_deleted_at m with None => true | Some _ => false end.

(** The reference count: content messages after [seq] the member did not send. *)
Definition unread_after (tid member : uuid) (seq : Z) (d : DB) : Z :=
  Z.of_nat (length (select_where (fun m =>
    bool_decide (m_thread_id m = tid) && negb (bool_decide (m_sender_id m = member)) &&
    negb (bool_decide (m_type m = MessageTypeSystem)) && live m && (seq <? m_seq m)) (db_messages d))).

Definition set_horizons (read delivered : option Z) (unread : Z) (r : DialogRow) : DialogRow :=
  MkDialogRow (d_id r) (d_domain_id r) (d_created_at r) (d_updated_at r) (d_member_id r)
    (d_thread_id r) (d_thread_role r) (d_deleted_at r) (d_invited_by r) (d_leave_reason r) (d_via r)
    (d_queue_id r) (d_is_bot r) (d_auto_leave r) (d_last_read_message_id r) read delivered unread.

Definition read_seq (r : DialogRow) : Z := default 0 (d_last_read_seq r).
Definition delivered_seq (r : DialogRow) : Z := default 0 (d_last_delivered_seq r).

(** A boundary as the statements receive it: a zero number is NULL. *)
Record Boundary := MkBoundary { bd_thread : uuid; bd_member : uuid; bd_seq : option Z }.
Definition boundary (tid member : uuid) (seq : Z) : Boundary :=
  MkBoundary tid member (if decide (seq <> 0) then Some seq else None).
Definition rc_boundary (r : StatusReceipt) : Boundary := boundary (rc_ThreadID r) (rc_MemberID r) (rc_UpToSeq r).
Definition rd_boundary (r : ReadReceipt) : Boundary := boundary (rd_ThreadID r) (rd_MemberID r) (rd_UpToSeq r).

Definition addresses (td : DialogRow) (b : Boundary) : bool :=
  bool_decide (d_thread_id td = bd_thread b) && bool_decide (d_member_id td = bd_member b).

(** The boundaries that join a dialog and lie past its horizon. *)
Definition ahead (horizon : DialogRow -> Z) (td : DialogRow) (b : Boundary) : bool :=
  active td && addresses td b && match bd_seq b with Some s => horizon td <? s | None => false end.

(** The boundary an UPDATE ... FROM applies to a dialog: one of those that
    join it, which one the server decides ([pick]). *)
Definition joined (pick : nat -> nat) (horizon : DialogRow -> Z) (bs : list Boundary) (td : DialogRow) : option Z :=
  let hits := select_where (ahead horizon td) bs in
  b ← nth_error hits (Nat.modulo (pick (length hits)) (length hits));
  bd_seq b.

Definition advance (pick : nat -> nat) (horizon : DialogRow -> Z) (set : Z -> DialogRow -> DialogRow)
    (bs : list Boundary) (td : DialogRow) : DialogRow :=
  match joined pick horizon bs td with Some s => set s td | None => td end.

Definition read_up_to (d : DB) (s : Z) (td : DialogRow) : DialogRow :=
  let read := match d_last_read_seq td with
              | Some l => if l <? s then s else l
              | None => s end in
  set_horizons (Some read) (Some (Z.max (delivered_seq td) s))
    (unread_after (d_thread_id td) (d_member_id td) read d) td.

Definition delivered_up_to (s : Z) (td : DialogRow) : DialogRow :=
  let delivered := match d_last_delivered_seq td with
                   | Some l => if l <? s then s else l
                   | None => s end in
  set_horizons (d_last_read_seq td) (Some delivered) (d_unread_count td) td.

(** [moved]: the horizons the update returned, with the unread count after it. *)
Abbreviation horizons := (gmap (uuid * uuid) Z).
Definition moved_horizons (pick : nat -> nat) (horizon : DialogRow -> Z) (set : Z -> DialogRow -> DialogRow)
    (bs : list Boundary) (d : DB) : horizons :=
  fold_left (fun (acc : horizons) td =>
    match joined pick horizon bs td with
    | Some s => <[(d_thread_id td, d_member_id td) := d_unread_count (set s td)]> acc
    | None => acc
    end) (db_dialogs d) ∅.

(** The error rows a boundary covers. *)
Definition recovered (bs : list Boundary) (d : DB) (e : ErrorRow) : bool :=
  existsb (fun b =>
    bool_decide (er_thread_id e = bd_thread b) && bool_decide (er_member_id e = bd_member b) &&
    match bd_seq b, find_message (er_message_id e) d with
    | Some s, Some m => m_seq m <=? s
    | _, _ => false
    end) bs.

Definition max_int4 : Z := 2147483647.
Definition bump_hits (tid : uuid) (members : list uuid) (r : DialogRow) : bool :=
  bool_decide (d_thread_id r = tid) && bool_decide (d_member_id r ∈ members) && active r.
Definition bump_unread (r : DialogRow) : DialogRow :=
  set_horizons (d_last_read_seq r) (d_last_delivered_seq r) (d_unread_count r + 1) r.

(** ** The rows of MarkFailed *)
Definition failed_row (at_ : Time) (d : DB) (r : StatusReceipt) : option ErrorRow :=
  m ← find_message (rc_MessageID r) d;
  if negb (bool_decide (m_sender_id m = rc_MemberID r)) &&
     existsb (fun td => bool_decide (d_thread_id td = m_thread_id m) &&
                        bool_decide (d_member_id td = rc_MemberID r)) (db_dialogs d)
  then Some (MkErrorRow (m_domain_id m) (m_thread_id m) (m_id m) (rc_MemberID r)
               (confirmedAtOrNow at_ (rc_At r)) (rc_Error r)
               (if decide (rc_Via r = "") then None else Some (rc_Via r)) at_)
  else None.

Definition same_error (e o : ErrorRow) : bool :=
  bool_decide (er_message_id o = er_message_id e) && bool_decide (er_member_id o = er_member_id e).

(** [ON CONFLICT (message_id, member_id) DO UPDATE] *)
Definition merge_error (e o : ErrorRow) : ErrorRow :=
  MkErrorRow (er_domain_id o) (er_thread_id o) (er_message_id o) (er_member_id o) (er_failed_at e)
    (er_error e) (coalesce (er_via e) (er_via o)) (er_updated_at e).
Definition upsert_error (l : list ErrorRow) (e : ErrorRow) : list ErrorRow :=
  if existsb (same_error e) l then update_where (same_error e) (merge_error e) l else l ++ [e].

Definition failed_change (d : DB) (e : ErrorRow) : option StatusChange :=
  o ← find_first (same_error e) (db_errors d);
  Some (MkStatusChange (er_domain_id o) (er_thread_id o) (er_message_id o) uuid_Nil 0 (er_member_id o)
          Delivery.StatusFailed (er_via o) (er_error o) (er_updated_at o) None).

(** ** Reading *)
Definition in_domain (domainID : Z) (r : DialogRow) : bool :=
  (domainID <=? 0) || bool_decide (d_domain_id r = domainID).

Definition unread_counts (domainID : Z) (memberID : uuid) (threadIDs : list uuid) (d : DB) : gmap uuid Z :=
  list_to_map (reverse ((fun r => (d_thread_id r, d_unread_count r)) <$>
    select_where (fun r => bool_decide (d_member_id r = memberID) && in_domain domainID r &&
      bool_decide (d_thread_id r ∈ threadIDs) && active r) (db_dialogs d))).

Definition read_state (r : DialogRow) : MemberReadState :=
  MkReadState (d_thread_id r) (d_id r) (Z.max (delivered_seq r) (read_seq r)) (read_seq r).

Definition is_some {A} (o : option A) : bool := match o with Some _ => true | None => false end.

Definition by_thread_id (a b : DialogRow) : Prop :=
  (d_thread_id a < d_thread_id b)%N \/ (d_thread_id a = d_thread_id b /\ (d_id a <= d_id b)%N).
#[export] Instance by_thread_id_dec a b : Decision (by_thread_id a b).
Proof. unfold by_thread_id. apply _. Defined.

Definition state_rows (domainID : Z) (memberID : uuid) (threadIDs : list uuid) (d : DB) : list DialogRow :=
  merge_sort by_thread_id (select_where (fun td =>
    bool_decide (d_thread_id td ∈ threadIDs) && in_domain domainID td && active td &&
    (is_some (d_last_delivered_seq td) || is_some (d_last_read_seq td)) &&
    existsb (fun self => bool_decide (d_thread_id self = d_thread_id td) &&
      bool_decide (d_member_id self = memberID) && active self) (db_dialogs d)) (db_dialogs d)).

(** [result[st.ThreadID] = append(result[st.ThreadID], st)] *)
Definition group_states (l : list MemberReadState) : gmap uuid (list MemberReadState) :=
  fold_left (fun acc st => <[ms_ThreadID st := default [] (acc !! ms_ThreadID st) ++ [st]]> acc) l ∅.

Definition unread_totals (domainID : Z) (memberID : uuid) (d : DB) : UnreadSummaryResult :=
  let rows := select_where (fun r => bool_decide (d_member_id r = memberID) && in_domain domainID r && active r)
                (db_dialogs d) in
  MkUnreadSummary (Z.of_nat (length (select_where (fun r => 0 <? d_unread_count r) rows)))
    (foldr (fun r n => d_unread_count r + n) 0 rows).

(** [coalesce((select count( * ) ...), 0)] from the read horizon, and, in
    ReconcileUnread, from the older column that named a message. *)
Definition recount (d : DB) (td : DialogRow) : DialogRow :=
  set_horizons (d_last_read_seq td) (d_last_delivered_seq td)
    (unread_after (d_thread_id td) (d_member_id td) (read_seq td) d) td.

Definition unread_past_message (td : DialogRow) (d : DB) : Z :=
  Z.of_nat (length (select_where (fun m =>
    bool_decide (m_thread_id m = d_thread_id td) && negb (bool_decide (m_sender_id m = d_member_id td)) &&
    negb (bool_decide (m_type m = MessageTypeSystem)) && live m &&
    match d_last_read_message_id td with None => true | Some id => (id <? m_id m)%N end) (db_messages d))).

Definition reconcile (d : DB) (td : DialogRow) : DialogRow :=
  set_horizons (d_last_read_seq td) (d_last_delivered_seq td) (unread_past_message td d) td.

(** ** The store *)
Section store.
Context {E : Env}.

(** System messages are not counted; a message of the sender is never among
    the recipients.  The counter is an int4. *)
Definition InsertSent (msg : option Message) (recipientIDs : list uuid) : SM unit :=
  match msg with
  | None => mret tt
  | Some msg =>
      if bool_decide (recipientIDs = []) then mret tt
      else if decide (msg_Type msg = MessageTypeSystem) then mret tt
      else
        statement_as "bumping unread counters";;
        d ← gets w_db;
        let hit := bump_hits (msg_ThreadID msg) recipientIDs in
        if existsb (fun r => hit r && (max_int4 <=? d_unread_count r)) (db_dialogs d)
        then reject_as "bumping unread counters"
        else modify (fun w => set_db (on_dialogs (update_where hit bump_unread) (w_db w)) w)
  end.

(** [resolveThreadIDsForDelivery] *)
Definition resolveThreadIDsForDelivery (receipts : list StatusReceipt) : SM (list StatusReceipt) :=
  let needs r := bool_decide (rc_ThreadID r = uuid_Nil) && negb (bool_decide (rc_MessageID r = uuid_Nil)) in
  if negb (existsb needs receipts) then mret receipts
  else
    statement_as "resolving thread IDs for delivery receipts";;
    d ← gets w_db;
    mret (update_where needs (fun r =>
      match find_message (rc_MessageID r) d with
      | Some m => set_rc_thread (m_thread_id m) (m_domain_id m) (m_seq m) r
      | None => r
      end) receipts).

(** A receipt that names a message confirms everything up to it. *)
Definition as_watermark (r : StatusReceipt) : StatusReceipt :=
  if decide (rc_MessageID r <> uuid_Nil /\ rc_UpToMessageID r = uuid_Nil)
  then set_rc_point (rc_MessageID r) (rc_UpToSeq r) r else r.

Definition resolveSeqFromMessageID (receipts : list StatusReceipt) : SM (list StatusReceipt) :=
  let needs r := bool_decide (rc_UpToSeq r = 0) && negb (bool_decide (rc_UpToMessageID r = uuid_Nil)) in
  if negb (existsb needs receipts) then mret receipts
  else
    statement_as "resolving seq from message IDs";;
    d ← gets w_db;
    mret (update_where needs (fun r =>
      match find_message (rc_UpToMessageID r) d with
      | Some m => set_rc_point (rc_UpToMessageID r) (m_seq m) r
      | None => r
      end) receipts).

Definition resolveReadSeqFromMessageID (receipts : list ReadReceipt) : SM (list ReadReceipt) :=
  let needs r := bool_decide (rd_UpToSeq r = 0) && negb (bool_decide (rd_UpToMessageID r = uuid_Nil)) in
  if negb (existsb needs receipts) then mret receipts
  else
    statement_as "resolving seq from message IDs";;
    d ← gets w_db;
    mret (update_where needs (fun r =>
      match find_message (rd_UpToMessageID r) d with
      | Some m => set_rd_seq (m_seq m) r
      | None => r
      end) receipts).

(** Only the threads of receipts with a positive number are read; a receipt
    with another number has nothing to cap. *)
Definition clamp_seq (d : DB) (r : ReadReceipt) : ReadReceipt :=
  match find_thread (rd_ThreadID r) d with
  | Some t => if t_last_seq t <? rd_UpToSeq r then set_rd_seq (t_last_seq t) r else r
  | None => r
  end.

Definition clampReadSeqToThread (receipts : list ReadReceipt) : SM (list ReadReceipt) :=
  let asked := rd_ThreadID <$> select_where (fun r => 0 <? rd_UpToSeq r) receipts in
  if bool_decide (asked = []) then mret receipts
  else
    statement_as "reading thread seq";;
    d ← gets w_db;
    mret (update_where (fun r => bool_decide (rd_ThreadID r ∈ asked)) (clamp_seq d) receipts).

Definition clearRecoveredErrors (bs : list Boundary) : SM unit :=
  if bool_decide (bs = []) then mret tt
  else
    statement_as "clearing recovered errors";;
    modify (fun w => set_db (on_errors (delete_where (recovered bs (w_db w))) (w_db w)) w).

(** [movedHorizons] runs the update; the errors the boundaries cover go after it. *)
Definition movedHorizons (horizon : DialogRow -> Z) (set : DB -> Z -> DialogRow -> DialogRow)
    (bs : list Boundary) : SM horizons :=
  pick ← gets (fun w => env_join_pick (w_ticks w));
  statement_as "advancing horizon";;
  d ← gets w_db;
  modify (fun w => set_db (on_dialogs (fmap (advance pick horizon (set d) bs)) (w_db w)) w);;
  mret (moved_horizons pick horizon (set d) bs d).

Definition advanceReadHorizon (receipts : list ReadReceipt) : SM horizons :=
  match receipts with
  | [] => mret ∅
  | _ =>
      moved ← movedHorizons read_seq read_up_to (rd_boundary <$> receipts);
      clearRecoveredErrors (rd_boundary <$> receipts);;
      mret moved
  end.

Definition advanceDeliveredHorizon (receipts : list StatusReceipt) : SM horizons :=
  match receipts with
  | [] => mret ∅
  | _ =>
      moved ← movedHorizons delivered_seq (fun _ => delivered_up_to) (rc_boundary <$> receipts);
      clearRecoveredErrors (rc_boundary <$> receipts);;
      mret moved
  end.

Definition delivered_change (at_ : Time) (moved : horizons) (r : StatusReceipt) : option StatusChange :=
  _ ← moved !! (rc_ThreadID r, rc_MemberID r);
  Some (MkStatusChange (rc_DomainID r) (rc_ThreadID r) uuid_Nil (rc_UpToMessageID r) (rc_UpToSeq r)
          (rc_MemberID r) Delivery.StatusDelivered (Some (rc_Via r)) None at_ None).

Definition read_change (at_ : Time) (moved : horizons) (r : ReadReceipt) : option StatusChange :=
  unread ← moved !! (rd_ThreadID r, rd_MemberID r);
  Some (MkStatusChange (rd_DomainID r) (rd_ThreadID r) uuid_Nil (rd_UpToMessageID r) (rd_UpToSeq r)
          (rd_MemberID r) Delivery.StatusRead (Some (rd_Via r)) None at_ (Some unread)).

Definition MarkDelivered (receipts : list (option StatusReceipt)) : SM (list StatusChange) :=
  match dedupStatusReceipts receipts with
  | [] => mret []
  | rs =>
      rs ← resolveThreadIDsForDelivery rs;
      rs ← resolveSeqFromMessageID (as_watermark <$> rs);
      moved ← advanceDeliveredHorizon rs;
      at_ ← now;
      mret (omap (delivered_change at_ moved) rs)
  end.

Definition MarkRead (receipts : list (option ReadReceipt)) : SM (list StatusChange) :=
  match dedupReadReceipts receipts with
  | [] => mret []
  | rs =>
      rs ← resolveReadSeqFromMessageID rs;
      rs ← clampReadSeqToThread rs;
      moved ← advanceReadHorizon rs;
      at_ ← now;
      mret (omap (read_change at_ moved) rs)
  end.

(** A row proposed twice makes ON CONFLICT touch a row twice, an error. *)
Definition MarkFailed (receipts : list (option StatusReceipt)) : SM (list StatusChange) :=
  match dedupStatusReceipts receipts with
  | [] => mret []
  | rs =>
      statement_as "executing status upsert";;
      d ← gets w_db;
      at_ ← now;
      let rows := omap (failed_row at_ d) rs in
      if bool_decide (NoDup ((fun e => (er_message_id e, er_member_id e)) <$> rows)) then
        modify (fun w => set_db (on_errors (fun l => fold_left upsert_error rows l) (w_db w)) w);;
        d' ← gets w_db;
        mret (omap (failed_change d') rows)
      else reject_as "collecting status changes"
  end.

Definition ReadUnread (domainID : Z) (memberID : uuid) (threadIDs : list uuid) : SM (gmap uuid Z) :=
  if bool_decide (memberID = uuid_Nil) || bool_decide (threadIDs = []) then mret ∅
  else map_err (internal "reading unread counts") (query (unread_counts domainID memberID threadIDs)).

Definition ReadMemberStates (domainID : Z) (memberID : uuid) (threadIDs : list uuid)
    : SM (gmap uuid (list MemberReadState)) :=
  if bool_decide (memberID = uuid_Nil) || bool_decide (threadIDs = []) then mret ∅
  else map_err (internal "reading member states")
         (query (fun d => group_states (read_state <$> state_rows domainID memberID threadIDs d))).

Definition UnreadSummary (domainID : Z) (memberID : uuid) : SM UnreadSummaryResult :=
  if decide (memberID = uuid_Nil) then mret (MkUnreadSummary 0 0)
  else map_err (internal "querying unread summary") (query (unread_totals domainID memberID)).

Definition RecountUnread (threadIDs : list uuid) : SM unit :=
  if bool_decide (threadIDs = []) then mret tt
  else
    statement_as "recounting unread counters";;
    modify (fun w => set_db (on_dialogs (update_where
      (fun td => bool_decide (d_thread_id td ∈ threadIDs) && active td) (recount (w_db w))) (w_db w)) w).

(** The number of rows updated. *)
Definition ReconcileUnread (domainID : Z) : SM Z :=
  statement_as "reconciling unread counts";;
  d ← gets w_db;
  let hit td := in_domain domainID td && active td in
  modify (fun w => set_db (on_dialogs (update_where hit (reconcile d)) (w_db w)) w);;
  mret (Z.of_nat (length (select_where hit (db_dialogs d)))).
End store.
