(* ===== verification/StatusService.v ===== *)
(** * StatusService: applying receipts and announcing what changed

    internal/service/message_status.go.  Internal services report deliveries,
    reads and failures; the statuses that actually changed are published as
    message.status events, addressed with the current members of the thread. *)
From S2P Require Import Prelude Domain Events Message World BotControlStore DialogStore.
From S2P Require Import Outbox MessageStatus.
#[local] Open Scope Z_scope.

(** ** groupStatusChanges

    A group is found by its key among the events built so far; a failure has
    no key, it is never grouped. *)
Record GroupKey := MkGroupKey { gk_thread : uuid; gk_member : uuid; gk_status : Z; gk_via : string }.
#[export] Instance group_key_eq_dec : EqDecision GroupKey.
Proof. solve_decision. Defined.

Definition change_event (c : StatusChange) : MessageStatusChanged :=
  MkStatusChanged (sc_ThreadID c) (sc_DomainID c) (sc_MemberID c) None [sc_MessageID c] (sc_UpToSeq c)
    (sc_UnreadCount c) (Delivery.status_String (sc_Status c)) (default "" (sc_Via c)) (sc_Error c)
    (sc_UpdatedAt c) [].

Definition change_key (c : StatusChange) : GroupKey :=
  MkGroupKey (sc_ThreadID c) (sc_MemberID c) (sc_Status c) (default "" (sc_Via c)).

(** The watermark is the furthest horizon in the batch, with its unread count. *)
Definition absorb (c : StatusChange) (e : MessageStatusChanged) : MessageStatusChanged :=
  let further := msc_UpToSeq e <? sc_UpToSeq c in
  MkStatusChanged (msc_ThreadID e) (msc_DomainID e) (msc_MemberID e) (msc_Member e)
    (msc_MessageIDs e ++ [sc_MessageID c])
    (if further then sc_UpToSeq c else msc_UpToSeq e)
    (if further then sc_UnreadCount c else msc_UnreadCount e)
    (msc_Status e) (msc_Via e) (msc_Error e)
    (if msc_OccurredAt e <? sc_UpdatedAt c then sc_UpdatedAt c else msc_OccurredAt e) (msc_Participants e).

Definition is_group (k : GroupKey) (g : option GroupKey * MessageStatusChanged) : bool :=
  bool_decide (g.1 = Some k).

Definition group_change (acc : list (option GroupKey * MessageStatusChanged)) (c : StatusChange)
    : list (option GroupKey * MessageStatusChanged) :=
  if decide (sc_Status c = Delivery.StatusFailed) then acc ++ [(None, change_event c)]
  else
    let k := change_key c in
    if existsb (is_group k) acc
    then update_where (is_group k) (fun g => (g.1, absorb c g.2)) acc
    else acc ++ [(Some k, change_event c)].

Definition groupStatusChanges (changes : list StatusChange) : list MessageStatusChanged :=
  snd <$> fold_left group_change changes [].

(** ** Addressing *)
Definition first_seen (l : list uuid) : list uuid :=
  fold_left (fun acc x => if bool_decide (x ∈ acc) then acc else acc ++ [x]) l [].

Definition participants_of (dialogs : list ThreadDialog) (tid : uuid) : list uuid :=
  td_ContactID <$> List.filter (fun d => bool_decide (td_ThreadID d = tid)) dialogs.

(** [members[memberKey{...}] = ...]: a later dialog of the contact replaces an earlier one. *)
Definition member_of (dialogs : list ThreadDialog) (tid contact : uuid) : option ThreadMember :=
  d ← last (List.filter (fun d => bool_decide (td_ThreadID d = tid) && bool_decide (td_ContactID d = contact)) dialogs);
  Some (MkMember (Some (td_ID d)) (td_ContactID d) (td_ThreadRole d) (td_IsBot d)).

Definition addressed (dialogs : list ThreadDialog) (e : MessageStatusChanged) : MessageStatusChanged :=
  MkStatusChanged (msc_ThreadID e) (msc_DomainID e) (msc_MemberID e)
    (member_of dialogs (msc_ThreadID e) (msc_MemberID e)) (msc_MessageIDs e) (msc_UpToSeq e)
    (msc_UnreadCount e) (msc_Status e) (msc_Via e) (msc_Error e) (msc_OccurredAt e)
    (participants_of dialogs (msc_ThreadID e)).

Section service.
Context {E : Env}.

Definition wrapf (msg : string) (e : error) : error := WithCause e (errors_New msg).

(** [threadParticipants] of message_status.go *)
Definition statusParticipants (events : list MessageStatusChanged) : SM (list ThreadDialog) :=
  map_err (wrapf "resolving thread participants")
    (GetQuickView (MkDialogFilter 0 0 (Some (first_seen (msc_ThreadID <$> events))) None None false 0)).

Definition dispatchStatusChangeEvents (changes : list StatusChange) : SM unit :=
  match groupStatusChanges changes with
  | [] => mret tt
  | events =>
      dialogs ← statusParticipants events;
      for_each (fun e =>
        let e' := EvMessageStatus (addressed dialogs e) in
        map_err (wrapf "outbox publish failed") (Publish (status_topic env_uuid_string e') e')) events
  end.

(** The number of changes, 0 with an error. *)
Definition apply_receipts (mark : SM (list StatusChange)) : SM Z :=
  WithinTransaction (
    changes ← mark;
    dispatchStatusChangeEvents changes;;
    mret (Z.of_nat (length changes))).

Definition StatusMarkDelivered (receipts : list (option StatusReceipt)) : SM Z := apply_receipts (MarkDelivered receipts).
Definition StatusMarkRead (receipts : list (option ReadReceipt)) : SM Z := apply_receipts (MarkRead receipts).
Definition StatusMarkFailed (receipts : list (option StatusReceipt)) : SM Z := apply_receipts (MarkFailed receipts).
End service.

(** ** Receipts as they arrive: internal/handler/grpc/mapper/message_status.go

    A request carries ids as text and times as milliseconds, not positive for
    "now". *)
Record DeliveryReceiptMsg := MkDeliveryMsg {
  dr_DomainId : Z; dr_ThreadId : string; dr_MessageId : string; dr_UpToMessageId : string; dr_UpToSeq : Z;
  dr_MemberId : string; dr_DeliveredAt : Z; dr_Via : string }.
Record ReadReceiptMsg := MkReadMsg {
  rq_DomainId : Z; rq_ThreadId : string; rq_MemberId : string; rq_UpToMessageId : string; rq_UpToSeq : Z;
  rq_ReadAt : Z; rq_Via : string }.
Record FailureReceiptMsg := MkFailureMsg {
  fr_DomainId : Z; fr_ThreadId : string; fr_MessageId : string; fr_MemberId : string; fr_FailedAt : Z;
  fr_Via : string; fr_ErrorCode : string; fr_ErrorMessage : string }.

Section mapper.
(** [uuid.Parse] of google/uuid. *)
Context (uuid_Parse : string -> option uuid).

Definition parseReceiptUUID (raw field : string) (index : nat) : result uuid :=
  match uuid_Parse raw with
  | Some id => OK id
  | None => Err (InvalidArgument ("receipts[" +:+ pretty index +:+ "]." +:+ field +:+ ": invalid uuid"))
  end.
Definition parseOptionalReceiptUUID (raw field : string) (index : nat) : result uuid :=
  if decide (raw = "") then OK uuid_Nil else parseReceiptUUID raw field index.

Definition requireReceiptPoint (messageID upToMessageID : uuid) (upToSeq : Z) (index : nat) : result unit :=
  if decide (messageID <> uuid_Nil) then OK tt
  else if decide (upToMessageID <> uuid_Nil) then OK tt
  else if 0 <? upToSeq then OK tt
  else Err (InvalidArgument ("receipts[" +:+ pretty index +:+
              "]: message_id, up_to_message_id or up_to_seq is required")).

Definition unixMillisToTime (ms : Z) : option Time := if ms <=? 0 then None else Some (ms * 1000000).

Definition map_delivery (i : nat) (r : DeliveryReceiptMsg) : result StatusReceipt :=
  threadID ← parseReceiptUUID (dr_ThreadId r) "thread_id" i;
  messageID ← parseOptionalReceiptUUID (dr_MessageId r) "message_id" i;
  upTo ← parseOptionalReceiptUUID (dr_UpToMessageId r) "up_to_message_id" i;
  requireReceiptPoint messageID upTo (dr_UpToSeq r) i;;
  memberID ← parseReceiptUUID (dr_MemberId r) "member_id" i;
  OK (MkStatusReceipt (dr_DomainId r) threadID messageID upTo (dr_UpToSeq r) memberID
        (unixMillisToTime (dr_DeliveredAt r)) (dr_Via r) None).

Definition map_read (i : nat) (r : ReadReceiptMsg) : result ReadReceipt :=
  threadID ← parseReceiptUUID (rq_ThreadId r) "thread_id" i;
  memberID ← parseReceiptUUID (rq_MemberId r) "member_id" i;
  upTo ← parseOptionalReceiptUUID (rq_UpToMessageId r) "up_to_message_id" i;
  requireReceiptPoint uuid_Nil upTo (rq_UpToSeq r) i;;
  OK (MkReadReceipt (rq_DomainId r) threadID memberID upTo (rq_UpToSeq r)
        (unixMillisToTime (rq_ReadAt r)) (rq_Via r)).

Definition map_failure (i : nat) (r : FailureReceiptMsg) : result StatusReceipt :=
  threadID ← parseReceiptUUID (fr_ThreadId r) "thread_id" i;
  messageID ← parseReceiptUUID (fr_MessageId r) "message_id" i;
  memberID ← parseReceiptUUID (fr_MemberId r) "member_id" i;
  let details : option metadata :=
    if bool_decide (fr_ErrorCode r = "") && bool_decide (fr_ErrorMessage r = "") then None
    else Some (<["code" := AnyString (fr_ErrorCode r)]> {["message" := AnyString (fr_ErrorMessage r)]}) in
  OK (MkStatusReceipt (fr_DomainId r) threadID messageID uuid_Nil 0 memberID
        (unixMillisToTime (fr_FailedAt r)) (fr_Via r) details).

(** Nil entries are skipped; the first bad one ends the loop. *)
Fixpoint map_receipts {A B} (f : nat -> A -> result B) (i : nat) (l : list (option A)) : result (list B) :=
  match l with
  | [] => OK []
  | None :: l' => map_receipts f (S i) l'
  | Some r :: l' => b ← f i r; bs ← map_receipts f (S i) l'; OK (b :: bs)
  end.

Definition MapToDeliveryReceipts := map_receipts map_delivery 0.
Definition MapToReadReceipts := map_receipts map_read 0.
Definition MapToFailureReceipts := map_receipts map_failure 0.

(** internal/handler/grpc/message_status.go *)
Definition ServerMarkDelivered {E : Env} (l : list (option DeliveryReceiptMsg)) : SM Z :=
  rs ← of_result (MapToDeliveryReceipts l); StatusMarkDelivered (Some <$> rs).
Definition ServerMarkRead {E : Env} (l : list (option ReadReceiptMsg)) : SM Z :=
  rs ← of_result (MapToReadReceipts l); StatusMarkRead (Some <$> rs).
Definition ServerMarkFailed {E : Env} (l : list (option FailureReceiptMsg)) : SM Z :=
  rs ← of_result (MapToFailureReceipts l); StatusMarkFailed (Some <$> rs).
End mapper.
