(* ===== verification/MessageStore.v ===== *)
(** * MessageStore: saving, editing and deleting messages

    internal/store/postgres/message.go and message_forward_store.go over
    im_message.messages with its documents, images and revisions.  Every save
    numbers the message within its thread.  JSON columns are returned as they
    were written; coordinates keep all their digits. *)
From S2P Require Import Prelude Domain Events Message World Text BotControlStore DialogStore Outbox.
#[local] Open Scope Z_scope.

Definition validateMessageForSave (msg : Message) : result unit :=
  if decide (msg_ThreadID msg = uuid_Nil)
  then Err (InvalidArgument "message thread id cannot be nil")
  else if msg_DomainID msg <=? 0
  then Err (InvalidArgument "message domain id must be greater than zero")
  else if decide (msg_Type msg = MessageTypeSystem) then OK tt
  else
    match msg_Member msg with
    | None => Err (InvalidArgument "message member cannot be nil")
    | Some m => if decide (td_ID m = uuid_Nil)
                then Err (InvalidArgument "message member id cannot be nil") else OK tt
    end.

(** [update im_thread.thread set last_seq = last_seq + 1]. *)
Definition bump_seq (t : ThreadRow) : ThreadRow :=
  MkThreadRow (t_id t) (t_domain_id t) (t_created_at t) (t_updated_at t) (t_kind t) (t_owner t)
    (t_subject t) (t_description t) (t_bot_controller_id t) (t_owner_bot_id t) (t_crm_contact_id t)
    (t_last_seq t + 1).

Definition system_member_id (msg : Message) : uuid :=
  match msg_Member msg with Some m => td_ID m | None => uuid_Nil end.

Definition new_message_row (id : uuid) (at_ : Time) (seq : Z) (msg : Message) (sys : MessageSystem) : MessageRow :=
  MkMessageRow id (msg_ThreadID msg) (msg_DomainID msg) (Shared.peer_ID (msg_From msg))
    (system_member_id msg) (msg_Type msg) (msg_Body msg) (msg_Metadata msg) at_ at_ seq (Some sys)
    None None None None None None false None None.

(** The row that takes the next number of its thread. *)
Definition insert_message (r : MessageRow) (d : DB) : DB :=
  on_messages (fun l => l ++ [r]) (update_thread (m_thread_id r) bump_seq d).

(** Checks: the message type, and a system type of 1..64 characters that is not blank. *)
Definition system_accepted (msg : Message) (sys : MessageSystem) : bool :=
  (0 <=? msg_Type msg) && (msg_Type msg <=? 7) && negb (blank (sys_Type sys)) &&
  (char_length (sys_Type sys) <=? 64).

(** The selected columns; [from] carries the sender's id only. *)
Definition saved_message (r : MessageRow) : Message :=
  MkMessage (m_id r) None "" "" "" (m_thread_id r) (m_domain_id r)
    (Shared.MkPeer (m_sender_id r) 0 None) zero_peer None (m_body r) (m_type r) (m_metadata r)
    (m_created_at r) (m_updated_at r) false uuid_Nil (m_member_id r) None 0 0 (m_seq r) [] [] None None None
    (m_system r) None None None None [].

(** ** Content messages *)
Definition replyToArg (msg : Message) : option uuid := rto_MessageID <$> msg_ReplyTo msg.
Definition nullIfEmpty (s : string) : option string := if decide (s = "") then None else Some s.

(** [addForwardOriginArgs]: the forward columns, all NULL without an origin. *)
Definition addForwardOriginArgs (msg : Message) : option ForwardRow :=
  o ← msg_ForwardOrigin msg;
  Some (MkForwardRow (fo_Kind o) (fo_SenderID o) (fo_SenderName o) (nullIfEmpty (fo_SenderIss o))
          (nullIfEmpty (fo_SenderSub o))
          (if 0 <? fo_OriginalSentAt o then Some (fo_OriginalSentAt o * 1000000) else None)
          (fo_SourceMessageID o)).

(** Who a row is sent by, and what it refers to. *)
Record RowSource := MkRowSource {
  rs_sender : uuid; rs_origin : option uuid; rs_reply : option uuid; rs_forward : option ForwardRow }.

Definition content_row (id : uuid) (at_ : Time) (seq : Z) (msg : Message) (member : uuid) (src : RowSource)
    (loc : option MessageLocation) (con : option MessageContact) (int : option MessageInteractive) : MessageRow :=
  MkMessageRow id (msg_ThreadID msg) (msg_DomainID msg) (rs_sender src) member (msg_Type msg) (msg_Body msg)
    (msg_Metadata msg) at_ at_ seq None loc con int (rs_origin src) (rs_reply src) (rs_forward src)
    false None None.

Definition message_exists (d : DB) (id : option uuid) : bool :=
  match id with None => true | Some id => existsb (fun m => bool_decide (m_id m = id)) (db_messages d) end.

(** The type check and the two references to other messages. *)
Definition content_accepted (msg : Message) (src : RowSource) (d : DB) : bool :=
  (0 <=? msg_Type msg) && (msg_Type msg <=? 7) && message_exists d (rs_reply src) &&
  message_exists d (fw ← rs_forward src; fw_from_message_id fw).

(** SaveMessage knows SendAs; the saves of locations, contacts and keyboards
    write the sender of the request itself. *)
Definition text_source (msg : Message) : RowSource :=
  MkRowSource (GetSender msg) (GetOriginSender msg) (replyToArg msg) (addForwardOriginArgs msg).
Definition card_source (msg : Message) : RowSource :=
  MkRowSource (Shared.peer_ID (msg_From msg)) None (replyToArg msg) (addForwardOriginArgs msg).
Definition interactive_source (msg : Message) : RowSource :=
  MkRowSource (Shared.peer_ID (msg_From msg)) None None None.

(** The checks on coordinates, numeric(10,7) within 90 and numeric(11,7) within
    180: the bit patterns below that of the first number that rounds above. *)
Definition latitude_limit : Z := 4636033603916378085.
Definition longitude_limit : Z := 4640537203541989363.
Definition within (limit : Z) (x : float64) : bool := Z.land x 9223372036854775807 <? limit.
Definition location_accepted (l : MessageLocation) : bool :=
  within latitude_limit (loc_Latitude l) && within longitude_limit (loc_Longitude l).

(** The selected columns. *)
Definition scanned (r : MessageRow) (member : uuid) (docs : list MessageDocument) (imgs : list MessageImage)
    (bot : option uuid) : Message :=
  MkMessage (m_id r) None "" "" "" (m_thread_id r) (m_domain_id r)
    (Shared.MkPeer (m_sender_id r) 0 None) zero_peer None (m_body r) (m_type r) (m_metadata r)
    (m_created_at r) (m_updated_at r) false uuid_Nil member None 0 0 (m_seq r) imgs docs (m_location r)
    (m_contact r) (m_interactive r) None None bot None None [].

(** ** Documents and images *)
Definition fits_int4 (x : Z) : bool := (-2147483648 <=? x) && (x <=? 2147483647).
Definition encode_error : error := errors_New "cannot encode argument".

Definition documents_encode (docs : list MessageDocument) : bool :=
  forallb (fun x => fits_int4 (doc_FileID x) && fits_int4 (doc_Size x)) docs.

(** Inserts that number their rows in order. *)
Fixpoint document_rows (id : uuid) (mid : uuid) (at_ : Time) (docs : list MessageDocument) : list DocumentRow :=
  match docs with
  | [] => []
  | x :: docs' => MkDocumentRow id mid (doc_FileID x) (doc_Name x) (doc_Mime x) (doc_Size x) at_
                  :: document_rows (id + 1) mid at_ docs'
  end.
Fixpoint image_rows (id : uuid) (mid : uuid) (at_ : Time) (imgs : list MessageImage) : list ImageRow :=
  match imgs with
  | [] => []
  | x :: imgs' => MkImageRow id mid (img_FileID x) (img_Mime x) at_ :: image_rows (id + 1) mid at_ imgs'
  end.

Definition document_of (x : DocumentRow) : MessageDocument :=
  MkDocument (do_file_id x) (do_name x) (do_mime x) (do_size x) "".
Definition image_of (x : ImageRow) : MessageImage := MkImage (im_file_id x) "" (im_mime x) "".

(** The files used by messages, all of them in other threads. *)
Definition file_uses (fileIDs : list Z) (d : DB) : list (Z * uuid) :=
  let thread_of mid := m ← find_first (fun m => bool_decide (m_id m = mid)) (db_messages d); Some (m_thread_id m) in
  omap (fun x => if bool_decide (do_file_id x ∈ fileIDs) then t ← thread_of (do_message_id x); Some (do_file_id x, t) else None)
    (db_documents d) ++
  omap (fun x => if bool_decide (im_file_id x ∈ fileIDs) then t ← thread_of (im_message_id x); Some (im_file_id x, t) else None)
    (db_images d).

Definition foreign_files (fileIDs : list Z) (tid : uuid) (d : DB) : list Z :=
  let used := file_uses fileIDs d in
  List.filter (fun f => forallb (fun u => negb (bool_decide (u.1 = f)) || negb (bool_decide (u.2 = tid))) used)
    (fold_left (fun acc f => if bool_decide (f ∈ acc) then acc else acc ++ [f]) (fst <$> used) []).

(** ** Previews of replies *)

(** [(extract(epoch from t) * 1000)::bigint] rounds half away from zero. *)
Definition epoch_ms (t : Time) : Z :=
  if 0 <=? t then (t + 500000) / 1000000 else - ((- t + 500000) / 1000000).

Definition left_chars (n : nat) (s : string) : string := concat_runes (take n (runes 0 s)).

(** [nullif(s, '')] *)
Definition not_empty (s : option string) : option string := s ← s; if decide (s = "") then None else Some s.

Definition reply_attachment (m : MessageRow) (d : DB) : option ReplyAttachment :=
  coalesce
    (x ← find_first (fun x => bool_decide (do_message_id x = m_id m)) (db_documents d);
     Some (MkReplyAttachment "document" (Some (do_name x)) (Some (do_mime x)) None))
  (coalesce
    (x ← find_first (fun x => bool_decide (im_message_id x = m_id m)) (db_images d);
     Some (MkReplyAttachment "image" None (Some (im_mime x)) None))
  (coalesce
    (c ← m_contact m;
     Some (MkReplyAttachment "contact"
       (coalesce (not_empty (con_Name c)) (coalesce (not_empty (con_PhoneNumber c)) (not_empty (con_Email c)))) None None))
    (l ← m_location m;
     Some (MkReplyAttachment "location" (not_empty (loc_Name l)) None (not_empty (loc_Address l)))))).

Definition reply_preview (id : uuid) (domainID : Z) (d : DB) : option ReplyToPreview :=
  m ← find_first (fun m => bool_decide (m_id m = id) && bool_decide (m_domain_id m = domainID) &&
                           bool_decide (m_deleted_at m = None)) (db_messages d);
  Some (MkReplyTo (m_id m) (m_thread_id m) (m_sender_id m) (m_type m) (left_chars 256 (m_body m))
          (epoch_ms (m_created_at m)) (reply_attachment m d) false).

(** ** Editing *)
Definition authored (m : MessageRow) (contact : uuid) : bool :=
  bool_decide (m_sender_id m = contact) || bool_decide (m_origin_sender m = Some contact).

Definition edit_target (id editor : uuid) (d : DB) : option MessageRow :=
  find_first (fun m => bool_decide (m_id m = id) && bool_decide (m_deleted_at m = None) && authored m editor &&
    existsb (fun td => bool_decide (d_thread_id td = m_thread_id m) && bool_decide (d_member_id td = editor) &&
                       active td) (db_dialogs d)) (db_messages d).

Definition revisions_of (id : uuid) (d : DB) : list RevisionRow :=
  select_where (fun r => bool_decide (rv_message_id r = id)) (db_revisions d).
Definition last_version (id : uuid) (d : DB) : Z := foldr (fun r v => Z.max (rv_version r) v) 0 (revisions_of id d).

Definition edit_row (at_ : Time) (body : string) (m : MessageRow) : MessageRow :=
  MkMessageRow (m_id m) (m_thread_id m) (m_domain_id m) (m_sender_id m) (m_member_id m) (m_type m) body
    (m_metadata m) (m_created_at m) at_ (m_seq m) (m_system m) (m_location m) (m_contact m) (m_interactive m)
    (m_origin_sender m) (m_reply_to m) (m_forward m) true (m_deleted_at m) (m_deleted_by m).

Definition edit_sql (at_ : Time) (editor : uuid) (body : string) (m : MessageRow) (d : DB) : DB :=
  on_revisions (fun l => l ++ [MkRevisionRow (m_id m) (m_domain_id m) (last_version (m_id m) d + 1) (m_body m) editor at_])
    (on_messages (update_where (fun m' => bool_decide (m_id m' = m_id m)) (edit_row at_ body)) d).

Definition edited_message (m : MessageRow) (version : Z) : Message :=
  MkMessage (m_id m) None "" "" "" (m_thread_id m) (m_domain_id m) zero_peer zero_peer None (m_body m) (m_type m)
    (m_metadata m) (m_created_at m) (m_updated_at m) (m_edited m) uuid_Nil (m_member_id m) None 0 version 0 [] []
    None None None None None None None None [].

(** ** Deleting *)
Record MessageSkip := MkSkip { sk_ID : uuid; sk_Reason : Z }.
Record MessageDeleteResult := MkDeleteResult { dr_Deleted : list Message; dr_Skipped : list MessageSkip }.

(** [ORDER BY deleted_at NULLS FIRST LIMIT 1]: the first row no later one comes before. *)
Definition deleted_before (a b : DialogRow) : bool :=
  match d_deleted_at a, d_deleted_at b with
  | None, Some _ => true
  | Some x, Some y => x <? y
  | _, None => false
  end.

Fixpoint first_deleted (l : list DialogRow) : option DialogRow :=
  match l with
  | [] => None
  | r :: l' => match first_deleted l' with
               | Some r' => if deleted_before r' r then Some r' else Some r
               | None => Some r
               end
  end.

Definition dialog_of_contact (tid contact : uuid) (d : DB) : option DialogRow :=
  first_deleted (select_where (fun td => bool_decide (d_thread_id td = tid) && bool_decide (d_member_id td = contact))
    (db_dialogs d)).

(** [coalesce(d.can_delete_messages, true)] *)
Definition may_delete (td : DialogRow) (d : DB) : bool :=
  match find_first (fun p => bool_decide (p_thread_dialog_id p = d_id td)) (db_perms d) with
  | Some p => CanDeleteMessages (p_perms p)
  | None => true
  end.

Record DeleteTarget := MkDeleteTarget {
  dt_row : MessageRow; dt_live : bool; dt_author : bool; dt_member : bool; dt_closed : bool; dt_can : bool }.

Definition delete_target (deleter : uuid) (d : DB) (m : MessageRow) : DeleteTarget :=
  let td := dialog_of_contact (m_thread_id m) deleter d in
  MkDeleteTarget m (bool_decide (m_deleted_at m = None)) (authored m deleter) (bool_decide (is_Some td))
    (match td with Some td => negb (active td) | None => false end)
    (match td with Some td => may_delete td d | None => true end).

Definition deletable (t : DeleteTarget) : bool :=
  dt_live t && dt_author t && dt_member t && negb (dt_closed t) && dt_can t.

Definition delete_reason (t : DeleteTarget) : Z :=
  if negb (dt_member t) then MessageSkipNotFound
  else if negb (dt_author t) then MessageSkipNotAuthor
  else if negb (dt_live t) then MessageSkipAlreadyDeleted
  else if dt_closed t then MessageSkipChatClosed
  else MessageSkipNotAllowed.

Definition delete_row (at_ : Time) (deleter : uuid) (m : MessageRow) : MessageRow :=
  MkMessageRow (m_id m) (m_thread_id m) (m_domain_id m) (m_sender_id m) (m_member_id m) (m_type m) (m_body m)
    (m_metadata m) (m_created_at m) at_ (m_seq m) (m_system m) (m_location m) (m_contact m) (m_interactive m)
    (m_origin_sender m) (m_reply_to m) (m_forward m) (m_edited m) (Some at_) (Some deleter).

Definition classified_message (m : MessageRow) (reason : Z) : Message :=
  MkMessage (m_id m) None "" "" "" (m_thread_id m) (m_domain_id m) zero_peer zero_peer None "" (m_type m) ∅
    (m_created_at m) (m_updated_at m) false (m_sender_id m) (m_member_id m) (m_deleted_at m) reason 0 0 [] []
    None None None None None None None None [].

Definition delete_targets (ids : list uuid) (deleter : uuid) (d : DB) : list DeleteTarget :=
  delete_target deleter d <$> select_where (fun m => bool_decide (m_id m ∈ ids)) (db_messages d).

Definition delete_sql (at_ : Time) (ids : list uuid) (deleter : uuid) (d : DB) : DB :=
  on_messages (update_where (fun m => bool_decide (m_id m ∈ ids) && deletable (delete_target deleter d m))
    (delete_row at_ deleter)) d.

(** The rows the update returned, then the others with their reason. *)
Definition delete_classified (at_ : Time) (ids : list uuid) (deleter : uuid) (d : DB) : list Message :=
  let ts := delete_targets ids deleter d in
  ((fun t => classified_message (delete_row at_ deleter (dt_row t)) MessageSkipUnspecified) <$> select_where deletable ts) ++
  ((fun t => classified_message (dt_row t) (delete_reason t)) <$> select_where (fun t => negb (deletable t)) ts).

(** The two loops of [splitSkipOutcome], with the ids seen so far. *)
Fixpoint split_classified (seen : gset uuid) (l : list Message) : list Message * list MessageSkip * gset uuid :=
  match l with
  | [] => ([], [], seen)
  | m :: l' =>
      if decide (msg_ID m ∈ seen) then split_classified seen l'
      else
        let '(kept, skipped, seen') := split_classified ({[msg_ID m]} ∪ seen) l' in
        if decide (msg_SkipReason m = MessageSkipUnspecified) then (m :: kept, skipped, seen')
        else (kept, MkSkip (msg_ID m) (msg_SkipReason m) :: skipped, seen')
  end.

Fixpoint split_unknown (seen : gset uuid) (ids : list uuid) : list MessageSkip :=
  match ids with
  | [] => []
  | id :: ids' =>
      if decide (id ∈ seen) then split_unknown seen ids'
      else MkSkip id MessageSkipNotFound :: split_unknown ({[id]} ∪ seen) ids'
  end.

Definition splitSkipOutcome (ids : list uuid) (classified : list Message) : list Message * list MessageSkip :=
  let '(kept, skipped, seen) := split_classified ∅ classified in (kept, skipped ++ split_unknown seen ids).

Definition splitDeleteOutcome (ids : list uuid) (classified : list Message) : MessageDeleteResult :=
  let '(deleted, skipped) := splitSkipOutcome ids classified in MkDeleteResult deleted skipped.

(** ** Forwarding *)
Record MessageForwardSources := MkForwardSources { ff_Sources : list Message; ff_Skipped : list MessageSkip }.

(** The attachments im_thread.v_messages shows: of files and images, and of
    keyboards that declare them. *)
Definition shows_documents (m : MessageRow) : bool :=
  bool_decide (m_type m = MessageTypeFile) ||
  (bool_decide (m_type m = MessageTypeInteractive) && bool_decide (is_Some (i ← m_interactive m; int_Attachments i))).
Definition shows_images (m : MessageRow) : bool :=
  bool_decide (m_type m = MessageTypeImage) ||
  (bool_decide (m_type m = MessageTypeInteractive) && bool_decide (is_Some (i ← m_interactive m; int_Attachments i))).

Definition view_documents (m : MessageRow) (d : DB) : list MessageDocument :=
  if shows_documents m
  then document_of <$> select_where (fun x => bool_decide (do_message_id x = m_id m)) (db_documents d) else [].
Definition view_images (m : MessageRow) (d : DB) : list MessageImage :=
  if shows_images m
  then image_of <$> select_where (fun x => bool_decide (im_message_id x = m_id m)) (db_images d) else [].
Definition view_location (m : MessageRow) : option MessageLocation :=
  if decide (m_type m = MessageTypeLocation) then m_location m else None.
Definition view_contact (m : MessageRow) : option MessageContact :=
  if decide (m_type m = MessageTypeContact) then m_contact m else None.

Definition forward_reason (caller : uuid) (d : DB) (m : MessageRow) : Z :=
  match dialog_of_contact (m_thread_id m) caller d with
  | None => MessageSkipNotFound
  | Some td =>
      if bool_decide (m_deleted_at m <> None) then MessageSkipAlreadyDeleted
      else if negb (active td) then MessageSkipChatClosed
      else if decide (m_type m = MessageTypeSystem) then MessageSkipNotAllowed
      else MessageSkipUnspecified
  end.

Definition forward_message (caller : uuid) (d : DB) (m : MessageRow) : Message :=
  MkMessage (m_id m) None "" "" "" (m_thread_id m) 0 zero_peer zero_peer None (m_body m) (m_type m) (m_metadata m)
    (m_created_at m) 0 false (m_sender_id m) uuid_Nil None (forward_reason caller d m) 0 0 (view_images m d)
    (view_documents m d) (view_location m) (view_contact m) (m_interactive m) None None None None None [].

Definition older_row (a b : MessageRow) : Prop :=
  m_created_at a < m_created_at b \/ (m_created_at a = m_created_at b /\ (m_id a <= m_id b)%N).
#[export] Instance older_row_dec a b : Decision (older_row a b).
Proof. unfold older_row. apply _. Defined.

Definition forward_rows (ids : list uuid) (caller : uuid) (domainID : Z) (d : DB) : list Message :=
  forward_message caller d <$> merge_sort older_row
    (select_where (fun m => bool_decide (m_id m ∈ ids) && bool_decide (m_domain_id m = domainID)) (db_messages d)).

Section store.
Context {E : Env}.

(** A message without [System] is a nil dereference when the arguments are built. *)
Definition SaveSystemMessage (msg : Message) : SM Message :=
  of_result (validateMessageForSave msg);;
  match msg_System msg with
  | None => throw (errors_New "invalid memory address or nil pointer dereference")
  | Some sys =>
      statement_as "querying insert system message";;
      d ← gets w_db;
      match find_thread (msg_ThreadID msg) d with
      | None => reject_as "collecting saved system message"
      | Some t =>
          if negb (system_accepted msg sys) then reject_as "collecting saved system message"
          else
            id ← fresh;
            at_ ← now;
            let r := new_message_row id at_ (t_last_seq t + 1) msg sys in
            modify (fun w => set_db (on_messages (fun l => l ++ [r])
              (update_thread (msg_ThreadID msg) bump_seq (w_db w))) w);;
            mret (saved_message r)
      end
  end.

Definition nil_dereference : error := errors_New "invalid memory address or nil pointer dereference".

(** The statement shared by the saves of content: without the thread no row is
    selected ([missing]), a violated constraint is found when the row is read. *)
Definition insert_content (querying collecting : string) (msg : Message) (src : RowSource)
    (missing : SM MessageRow) (accepted : DB -> bool) (loc : option MessageLocation) (con : option MessageContact)
    (int : option MessageInteractive) : SM MessageRow :=
  match msg_Member msg with
  | None => throw nil_dereference
  | Some member =>
      statement_as querying;;
      d ← gets w_db;
      match find_thread (msg_ThreadID msg) d with
      | None => missing
      | Some t =>
          if negb (content_accepted msg src d && accepted d) then reject_as collecting
          else
            id ← fresh;
            at_ ← now;
            let r := content_row id at_ (t_last_seq t + 1) msg (td_ID member) src loc con int in
            modify (fun w => set_db (insert_message r (w_db w)) w);;
            mret r
      end
  end.

Definition SaveMessage (msg : Message) : SM Message :=
  of_result (validateMessageForSave msg);;
  r ← insert_content "executing save message query" "collecting saved message" msg (text_source msg)
        (throw (internal "collecting saved message" no_rows)) (fun _ => true) None None None;
  mret (scanned r (m_member_id r) [] [] (msg_BotControllerMemberID msg)).

(** The id of the location and of the contact is selected from the message: without one it is NULL. *)
Definition SaveMessageLocation (msg : Message) : SM Message :=
  of_result (validateMessageForSave msg);;
  match msg_Location msg with
  | None => throw nil_dereference
  | Some l =>
      r ← insert_content "eror querying insert location" "eror collecting saved location" msg (card_source msg)
            (reject_as "eror collecting saved location") (fun _ => location_accepted l) (Some l) None None;
      mret (scanned r uuid_Nil [] [] (msg_BotControllerMemberID msg))
  end.

Definition SaveMessageContact (msg : Message) : SM Message :=
  of_result (validateMessageForSave msg);;
  match msg_Contact msg with
  | None => throw nil_dereference
  | Some c =>
      r ← insert_content "eror querying insert contact" "eror collecting saved contact" msg (card_source msg)
            (reject_as "eror collecting saved contact") (fun _ => true) None (Some c) None;
      mret (scanned r (m_member_id r) [] [] (msg_BotControllerMemberID msg))
  end.

Definition insert_documents (mid : uuid) (docs : list MessageDocument) : SM (list DocumentRow) :=
  at_ ← now;
  id ← gets w_next;
  let rows := document_rows id mid at_ docs in
  modify (fun w => set_db (on_documents (fun l => l ++ rows) (w_db w)) (set_next (id + N.of_nat (length docs)) w));;
  mret rows.
Definition insert_images (mid : uuid) (imgs : list MessageImage) : SM (list ImageRow) :=
  at_ ← now;
  id ← gets w_next;
  let rows := image_rows id mid at_ imgs in
  modify (fun w => set_db (on_images (fun l => l ++ rows) (w_db w)) (set_next (id + N.of_nat (length imgs)) w));;
  mret rows.

(** Arguments that do not fit int4 are an error of the driver. *)
Definition SaveInteractiveMessage (msg : Message) : SM Message :=
  of_result (validateMessageForSave msg);;
  if negb (documents_encode (msg_Documents msg) && forallb (fun i => fits_int4 (img_FileID i)) (msg_Images msg))
  then throw (internal "eror querying insert interactive message" encode_error)
  else
    r ← insert_content "eror querying insert interactive message" "eror collecting saved interactive message" msg
          (interactive_source msg) (throw (internal "eror collecting saved interactive message" no_rows))
          (fun _ => true) None None (msg_Interactive msg);
    docs ← insert_documents (m_id r) (msg_Documents msg);
    imgs ← insert_images (m_id r) (msg_Images msg);
    mret (scanned r (m_member_id r) (document_of <$> docs) (image_of <$> imgs) None).

Definition SaveDocuments (messageID : uuid) (docs : list MessageDocument) : SM (list MessageDocument) :=
  if bool_decide (length docs = 0%nat) then mret []
  else if negb (documents_encode docs) then throw encode_error
  else
    statement;;
    d ← gets w_db;
    if message_exists d (Some messageID)
    then rows ← insert_documents messageID docs; mret (document_of <$> rows)
    else reject constraint_error.

Definition FileIDsBoundToOtherThreads (fileIDs : list Z) (threadID : uuid) : SM (list Z) :=
  if bool_decide (length fileIDs = 0%nat) then mret []
  else if negb (forallb fits_int4 fileIDs) then throw encode_error
  else query (foreign_files fileIDs threadID).

(** [None] stands for the error [store.ErrReplyTargetNotFound]. *)
Definition GetReplyPreview (id : uuid) (domainID : Z) : SM (option ReplyToPreview) :=
  statement_as "executing reply preview query";;
  gets (fun w => reply_preview id domainID (w_db w)).

Definition EditMessage (msg : Message) : SM Message :=
  if decide (msg_ID msg = uuid_Nil) then throw (InvalidArgument "message id cannot be nil")
  else if decide (Shared.peer_ID (msg_From msg) = uuid_Nil) then throw (InvalidArgument "editor id cannot be nil")
  else
    statement_as "executing edit message query";;
    d ← gets w_db;
    match edit_target (msg_ID msg) (Shared.peer_ID (msg_From msg)) d with
    | None => throw (WithCause no_rows
        (Forbidden "message cannot be edited: not found, not authored by the editor, or the chat is closed"))
    | Some m =>
        at_ ← now;
        modify (fun w => set_db (edit_sql at_ (Shared.peer_ID (msg_From msg)) (msg_Body msg) m (w_db w)) w);;
        mret (edited_message (edit_row at_ (msg_Body msg) m) (Z.of_nat (length (revisions_of (m_id m) d)) + 2))
    end.

Definition DeleteMessages (ids : list uuid) (deleterID : uuid) : SM MessageDeleteResult :=
  if bool_decide (length ids = 0%nat) then throw (InvalidArgument "message ids cannot be empty")
  else if decide (deleterID = uuid_Nil) then throw (InvalidArgument "deleter id cannot be nil")
  else
    statement_as "executing delete messages query";;
    at_ ← now;
    d ← gets w_db;
    modify (fun w => set_db (delete_sql at_ ids deleterID (w_db w)) w);;
    mret (splitDeleteOutcome ids (delete_classified at_ ids deleterID d)).

Definition LoadForwardSources (ids : list uuid) (callerID : uuid) (domainID : Z) : SM MessageForwardSources :=
  if bool_decide (length ids = 0%nat) then throw (InvalidArgument "message ids cannot be empty")
  else if decide (callerID = uuid_Nil) then throw (InvalidArgument "caller id cannot be nil")
  else
    statement_as "executing load forward sources query";;
    d ← gets w_db;
    let '(sources, skipped) := splitSkipOutcome ids (forward_rows ids callerID domainID d) in
    mret (MkForwardSources sources skipped).

Definition CopyAttachments (sourceID targetID : uuid) : SM unit :=
  if bool_decide (sourceID = uuid_Nil) || bool_decide (targetID = uuid_Nil)
  then throw (InvalidArgument "source and target message ids are required")
  else
    statement_as "copying message attachments";;
    d ← gets w_db;
    let docs := document_of <$> select_where (fun x => bool_decide (do_message_id x = sourceID)) (db_documents d) in
    let imgs := image_of <$> select_where (fun x => bool_decide (im_message_id x = sourceID)) (db_images d) in
    if bool_decide (length docs = 0%nat) && bool_decide (length imgs = 0%nat) then mret tt
    else if message_exists d (Some targetID)
    then insert_documents targetID docs;; insert_images targetID imgs;; mret tt
    else reject_as "copying message attachments".
End store.
