(* ===== verification/ExternalStore.v ===== *)
(** * ExternalStore: message ids of external gates

    internal/store/postgres/message_external_store.go over
    im_message.message_external_ids: a message has one id per gate, a gate
    names one message by an id. *)
From S2P Require Import Prelude Domain Events Message World.
#[local] Open Scope Z_scope.

(** The shape of model/message_external.go; [None] is the zero time, 0 where it is stored. *)
Definition ExternalDirectionInbound : Z := 1.
Definition ExternalDirectionOutbound : Z := 2.
Record MessageExternalID := MkExternalID {
  mx_MessageID : uuid; mx_ThreadID : uuid; mx_GateID : string; mx_ExternalID : string; mx_Direction : Z }.
Record MessageDelivery := MkDelivery {
  md_GateID : string; md_ExternalID : string; md_Status : Z; md_Reason : string; md_At : option Time; md_DomainID : Z }.

Definition by_gate (gate external : string) (x : ExternalRow) : bool :=
  bool_decide (ex_gate_id x = gate) && bool_decide (ex_external_id x = external).
Definition by_message (mid : uuid) (gate : string) (x : ExternalRow) : bool :=
  bool_decide (ex_message_id x = mid) && bool_decide (ex_gate_id x = gate).

Definition external_row (rec : MessageExternalID) : ExternalRow :=
  MkExternalRow (mx_MessageID rec) (mx_ThreadID rec) (mx_GateID rec) (mx_ExternalID rec) (mx_Direction rec)
    None None None None.
Definition external_of_row (x : ExternalRow) : MessageExternalID :=
  MkExternalID (ex_message_id x) (ex_thread_id x) (ex_gate_id x) (ex_external_id x) (ex_direction x).

(** The first time of a delivery or a read stays; a failure is overwritten. *)
Definition delivery_row (status : Z) (at_ : Time) (reason : string) (x : ExternalRow) : ExternalRow :=
  MkExternalRow (ex_message_id x) (ex_thread_id x) (ex_gate_id x) (ex_external_id x) (ex_direction x)
    (if bool_decide (status = 2) || bool_decide (status = 3) then coalesce (ex_delivered_at x) (Some at_) else ex_delivered_at x)
    (if decide (status = 3) then coalesce (ex_read_at x) (Some at_) else ex_read_at x)
    (if decide (status = 4) then Some at_ else ex_failed_at x)
    (if decide (status = 4) then (if decide (reason = "") then None else Some reason) else ex_failed_reason x).

Section store.
Context {E : Env}.

Definition Save (rec : MessageExternalID) : SM unit :=
  if bool_decide (mx_MessageID rec = uuid_Nil) || bool_decide (mx_GateID rec = "") || bool_decide (mx_ExternalID rec = "")
  then throw (InvalidArgument "message id, gate id and external id are required")
  else
    statement_as "saving message external id";;
    d ← gets w_db;
    if existsb (fun x => by_gate (mx_GateID rec) (mx_ExternalID rec) x || by_message (mx_MessageID rec) (mx_GateID rec) x)
         (db_externals d) then mret tt
    else if existsb (fun m => bool_decide (m_id m = mx_MessageID rec)) (db_messages d)
    then modify (fun w => set_db (on_externals (fun l => l ++ [external_row rec]) (w_db w)) w)
    else reject_as "saving message external id".

(** [None] is a nil report. *)
Definition UpdateDelivery (report : option MessageDelivery) : SM MessageExternalID :=
  match report with
  | None => throw (InvalidArgument "gate id and external id are required")
  | Some r =>
      if bool_decide (md_GateID r = "") || bool_decide (md_ExternalID r = "")
      then throw (InvalidArgument "gate id and external id are required")
      else if negb (Delivery.Valid (md_Status r)) then throw (InvalidArgument "unknown delivery status")
      else
        statement_as "updating message delivery state";;
        d ← gets w_db;
        let at_ := default 0 (md_At r) in
        match find_first (by_gate (md_GateID r) (md_ExternalID r)) (db_externals d) with
        | None => throw (NotFound "no message for this gate and external id")
        | Some x =>
            modify (fun w => set_db (on_externals (update_where (by_gate (md_GateID r) (md_ExternalID r))
              (delivery_row (md_Status r) at_ (md_Reason r))) (w_db w)) w);;
            mret (external_of_row x)
        end
  end.

(** [uuid_Nil] and "" for an unknown pair. *)
Definition LookupMessageID (gateID externalID : string) : SM uuid :=
  statement_as "looking up internal message id";;
  gets (fun w => match find_first (by_gate gateID externalID) (db_externals (w_db w)) with
                 | Some x => ex_message_id x | None => uuid_Nil end).

Definition LookupExternalID (messageID : uuid) (gateID : string) : SM string :=
  statement_as "looking up external message id";;
  gets (fun w => match find_first (by_message messageID gateID) (db_externals (w_db w)) with
                 | Some x => ex_external_id x | None => "" end).
End store.
