(* ===== verification/ReactionStore.v ===== *)
(** * ReactionStore: the change history of a message and emoji reactions

    internal/store/postgres/message_revision_store.go: only overwritten bodies
    are stored; the log is assembled from the revisions, the live body and the
    deletion.  A revision carries the stamp of the edit that replaced it, so a
    version's text comes from its own row and its stamp from the one before.
    internal/store/postgres/message_reaction_store.go over
    im_message.message_reactions, one row per message and reactor; [None] stands
    for [store.ErrReactionNotAllowed]. *)
From S2P Require Import Prelude Domain Events Message World DialogStore MessageStore PreviewStore.
#[local] Open Scope Z_scope.

Definition RevisionActionUnknown : Z := 0.
Definition RevisionActionCreated : Z := 1.
Definition RevisionActionEdited : Z := 2.
Definition RevisionActionDeleted : Z := 3.

Record MessageChangeEntry := MkChange {
  ce_Version : Z; ce_Action : Z; ce_Body : string; ce_ChangedBy : ThreadDialog; ce_ChangedAt : Time }.

Definition ChangedAtUnixMillis (e : option MessageChangeEntry) : Z :=
  match e with None => 0 | Some e => Z.max (UnixMilli (ce_ChangedAt e)) 0 end.

(** [order by version] *)
Definition version_le (a b : RevisionRow) : Prop := rv_version a <= rv_version b.
#[export] Instance version_le_dec a b : Decision (version_le a b).
Proof. unfold version_le. apply _. Defined.
Definition ordered_revisions (mid : uuid) (d : DB) : list RevisionRow := merge_sort version_le (revisions_of mid d).

(** The columns of [entries] before the join of the dialogs. *)
Record LogEntry := MkLog { lg_version : Z; lg_action : Z; lg_body : string; lg_by : uuid; lg_at : Time }.

(** The entries of the revisions from position [pos] on, and who and when the
    last of them was replaced. *)
Fixpoint revision_entries (pos : Z) (by_ : uuid) (at_ : Time) (rs : list RevisionRow) : list LogEntry * (uuid * Time) :=
  match rs with
  | [] => ([], (by_, at_))
  | r :: rs' =>
      let '(l, tail) := revision_entries (pos + 1) (rv_changed_by r) (rv_changed_at r) rs' in
      (MkLog pos (if decide (pos = 1) then RevisionActionCreated else RevisionActionEdited) (rv_body r) by_ at_ :: l, tail)
  end.

Definition created_by (m : MessageRow) : uuid := default (m_sender_id m) (m_origin_sender m).

Definition log_entries (m : MessageRow) (rs : list RevisionRow) : list LogEntry :=
  let '(l, (by_, at_)) := revision_entries 1 (created_by m) (m_created_at m) rs in
  let n := Z.of_nat (length rs) in
  l ++
  [MkLog (n + 1) (if (0 <? n) || m_edited m then RevisionActionEdited else RevisionActionCreated) (m_body m) by_
     (if 0 <? n then at_ else if m_edited m then m_updated_at m else m_created_at m)] ++
  match m_deleted_at m with
  | Some t => [MkLog (n + 2) RevisionActionDeleted (m_body m) (default (created_by m) (m_deleted_by m)) t]
  | None => []
  end.

(** The newest dialog of the contact, also one it has left. *)
Definition changed_by (tid contact : uuid) (d : DB) : ThreadDialog :=
  match max_by (fun td => Z.of_N (d_id td)) (select_where (fun td => bool_decide (d_thread_id td = tid) &&
          bool_decide (d_member_id td = contact)) (db_dialogs d)) with
  | Some td => MkDialog (d_id td) 0 0 0 contact uuid_Nil (d_thread_role td) None None None None false false
  | None => MkDialog uuid_Nil 0 0 0 contact uuid_Nil 0 None None None None false false
  end.

Definition visible_message (at_ : Time) (mid : uuid) (domainID : Z) (caller : uuid) (d : DB) : option MessageRow :=
  find_first (fun m => bool_decide (m_id m = mid) && bool_decide (m_domain_id m = domainID) &&
    (existsb (fun td => bool_decide (d_thread_id td = m_thread_id m) && bool_decide (d_member_id td = caller) &&
                        active td && bool_decide (d_domain_id td = m_domain_id m)) (db_dialogs d) ||
     existsb (fun p => preview_of (m_thread_id m) caller p && bool_decide (pv_domain_id p = m_domain_id m) &&
                       preview_active at_ p) (db_previews d))) (db_messages d).

Definition change_log (at_ : Time) (mid : uuid) (domainID : Z) (caller : uuid) (d : DB) : list MessageChangeEntry :=
  match visible_message at_ mid domainID caller d with
  | None => []
  | Some m => (fun e => MkChange (lg_version e) (lg_action e) (lg_body e)
                          (changed_by (m_thread_id m) (lg_by e) d) (lg_at e))
                <$> log_entries m (ordered_revisions (m_id m) d)
  end.

Section store.
Context {E : Env}.

Definition ErrMessageNotVisible : error := errors_New "message not visible to caller".

Definition SearchRevisions (messageID : uuid) (domainID : Z) (callerID : uuid) : SM (list MessageChangeEntry) :=
  if decide (messageID = uuid_Nil) then throw (InvalidArgument "message id cannot be nil")
  else if decide (callerID = uuid_Nil) then throw (InvalidArgument "caller id cannot be nil")
  else
    statement_as "executing message change log query";;
    at_ ← now;
    d ← gets w_db;
    match change_log at_ messageID domainID callerID d with
    | [] => throw ErrMessageNotVisible
    | es => mret es
    end.
End store.

(** ** Reactions *)
(** ** SetReaction *)
Definition may_react (td : DialogRow) (d : DB) : bool :=
  match select_where (fun p => bool_decide (p_thread_dialog_id p = d_id td)) (db_perms d) with
  | [] => true
  | ps => existsb (fun p => CanReactMessages (p_perms p)) ps
  end.

(** [guard]: the thread of the message and the newest dialog that lets the reactor react. *)
Definition reaction_guard (mid reactor : uuid) (domainID : Z) (d : DB) : option (uuid * uuid) :=
  m ← find_first (fun m => bool_decide (m_id m = mid) && bool_decide (m_domain_id m = domainID) &&
                           bool_decide (m_deleted_at m = None)) (db_messages d);
  td ← max_by (fun td => Z.of_N (d_id td)) (select_where (fun td => bool_decide (d_thread_id td = m_thread_id m) &&
         bool_decide (d_member_id td = reactor) && active td && may_react td d) (db_dialogs d));
  Some (m_thread_id m, d_id td).

Definition reaction_of (mid reactor : uuid) (r : ReactionRow) : bool :=
  bool_decide (re_message_id r = mid) && bool_decide (re_reactor_id r = reactor).

Definition replace_emoji (at_ : Time) (emoji : string) (r : ReactionRow) : ReactionRow :=
  MkReactionRow (re_id r) (re_message_id r) (re_thread_id r) (re_domain_id r) (re_reactor_id r)
    (re_reactor_member_id r) emoji (re_created_at r) at_.

(** [out.ReactedAt > 0 -> time.UnixMilli]; 0 is the zero time. *)
Definition reacted_at (t : Time) : Time := if 0 <? epoch_ms t then epoch_ms t * 1000000 else 0.

(** What the statement does: the new table and the outcome. *)
Definition set_reaction (id : uuid) (at_ : Time) (mid reactor : uuid) (domainID : Z) (emoji : string)
    (guard : uuid * uuid) (l : list ReactionRow) : list ReactionRow * ReactionResult :=
  let prev := find_first (reaction_of mid reactor) l in
  let result action e t := MkReactionResult action e guard.1 t (match action with ActionSet | ActionRemoved => true | _ => false end) in
  match prev with
  | Some p =>
      if decide (emoji = "") then (delete_where (reaction_of mid reactor) l, result ActionRemoved "" (reacted_at at_))
      else if decide (re_emoji p = emoji) then (l, result ActionUnchanged (re_emoji p) (reacted_at (re_updated_at p)))
      else (update_where (reaction_of mid reactor) (replace_emoji at_ emoji) l, result ActionSet emoji (reacted_at at_))
  | None =>
      if decide (emoji = "") then (l, result ActionUnchanged "" 0)
      else (l ++ [MkReactionRow id mid guard.1 domainID reactor (Some guard.2) emoji at_ at_],
            result ActionSet emoji (reacted_at at_))
  end.

(** ** AggregateForMessage *)
Definition created_le (a b : ReactionRow) : Prop := re_created_at a <= re_created_at b.
#[export] Instance created_le_dec a b : Decision (created_le a b).
Proof. unfold created_le. apply _. Defined.
Definition reactions_of (mid : uuid) (d : DB) : list ReactionRow :=
  merge_sort created_le
    (select_where (fun r => bool_decide (re_message_id r = mid)) (db_reactions d)).

(** The emojis by their first reaction. *)
Definition emojis_of (l : list ReactionRow) : list string :=
  fold_left (fun acc r => if bool_decide (re_emoji r ∈ acc) then acc else acc ++ [re_emoji r]) l [].

Definition max_reactors : nat := 12.

Definition aggregate_emoji (l : list ReactionRow) (emoji : string) : MessageReaction :=
  let rs := List.filter (fun r => bool_decide (re_emoji r = emoji)) l in
  MkMessageReaction emoji (Z.of_nat (length rs)) (take max_reactors (re_reactor_id <$> rs))
    (match max_by re_updated_at rs with Some r => epoch_ms (re_updated_at r) | None => 0 end).

Definition aggregate (mid : uuid) (d : DB) : list MessageReaction :=
  let l := reactions_of mid d in aggregate_emoji l <$> emojis_of l.

Section store.
Context {E : Env}.

Definition SetReaction (r : Reaction) : SM (option ReactionResult) :=
  if decide (rct_MessageID r = uuid_Nil) then throw (InvalidArgument "message id cannot be nil")
  else if decide (rct_ReactorID r = uuid_Nil) then throw (InvalidArgument "reactor id cannot be nil")
  else
    id ← fresh;
    statement_as "executing set reaction query";;
    at_ ← now;
    d ← gets w_db;
    match reaction_guard (rct_MessageID r) (rct_ReactorID r) (rct_DomainID r) d with
    | None => mret None
    | Some g =>
        let '(l, res) := set_reaction id at_ (rct_MessageID r) (rct_ReactorID r) (rct_DomainID r) (rct_Emoji r) g (db_reactions d) in
        modify (fun w => set_db (on_reactions (fun _ => l) (w_db w)) w);;
        mret (Some res)
    end.

Definition AggregateForMessage (messageID : uuid) : SM (list MessageReaction) :=
  if decide (messageID = uuid_Nil) then throw (InvalidArgument "message id cannot be nil")
  else
    statement_as "executing aggregate for message query";;
    gets (fun w => aggregate messageID (w_db w)).
End store.
