(* ===== verification/References.v ===== *)
(** * References: display names of gates and queues

    internal/store/postgres/reference_store.go, internal/service/reference_cache.go.
    The process-local cache is a map without eviction: a miss only causes an
    upsert that changes nothing.  [updated_at] and [deleted] are not modelled. *)
From S2P Require Import Prelude Domain Events Message World.
#[local] Open Scope Z_scope.

(** ** reference_store.go *)
Definition upsert {A} (same : A -> bool) (x : A) (l : list A) : list A :=
  match find_first same l with
  | Some _ => update_where same (fun _ => x) l
  | None => l ++ [x]
  end.

Definition same_gate (r r' : SourceRef) : bool := bool_decide (sr_GateID r' = sr_GateID r).
Definition same_queue (r r' : QueueRef) : bool :=
  bool_decide (qr_DomainID r' = qr_DomainID r) && bool_decide (qr_QueueID r' = qr_QueueID r).

Section store.
Context {E : Env}.

Definition UpsertSource (ref : SourceRef) : SM unit :=
  if decide (sr_GateID ref = "") then throw (InvalidArgument "gate id required")
  else
    statement_as "upserting source ref";;
    modify (fun w => set_db (on_source_refs (upsert (same_gate ref) ref) (w_db w)) w).

Definition UpsertQueue (ref : QueueRef) : SM unit :=
  if qr_QueueID ref <=? 0 then throw (InvalidArgument "queue id required")
  else
    statement_as "upserting queue ref";;
    modify (fun w => set_db (on_queue_refs (upsert (same_queue ref) ref) (w_db w)) w).
End store.

(** ** reference_cache.go *)
#[export] Instance source_ref_eq_dec : EqDecision SourceRef.
Proof. solve_decision. Defined.

Definition queueCacheKey (ref : QueueRef) : string :=
  (pretty (qr_DomainID ref) +:+ ":" +:+ pretty (qr_QueueID ref))%string.

Definition SourceChanged (ref : SourceRef) (w : World) : bool :=
  match w_source_cache w !! sr_GateID ref with
  | None => true
  | Some cached => negb (bool_decide (cached = ref))
  end.

Definition RememberSource (ref : SourceRef) : SM unit :=
  modify (fun w => set_caches (<[sr_GateID ref := ref]> (w_source_cache w)) (w_queue_cache w) w).

Definition QueueChanged (ref : QueueRef) (w : World) : bool :=
  match w_queue_cache w !! queueCacheKey ref with
  | None => true
  | Some cached => negb (bool_decide (cached = qr_Name ref))
  end.

Definition RememberQueue (ref : QueueRef) : SM unit :=
  modify (fun w => set_caches (w_source_cache w) (<[queueCacheKey ref := qr_Name ref]> (w_queue_cache w)) w).

(** The first peer that carries via-info with an id and a name; a nil peer is skipped. *)
Fixpoint sourceRefFromPeers (domainID : Z) (peers : list (option Shared.Peer)) : option SourceRef :=
  match peers with
  | [] => None
  | p :: peers' =>
      match p ← p; Shared.ResolveViaInfo p with
      | None => sourceRefFromPeers domainID peers'
      | Some vi =>
          if bool_decide (Shared.via_ID vi = "") || bool_decide (Shared.via_Name vi = "")
          then sourceRefFromPeers domainID peers'
          else Some (MkSourceRef (Shared.via_ID vi) domainID (Shared.via_Name vi) (Shared.via_Type vi))
      end
  end.

Section refresh.
Context {E : Env}.

(** An error is logged and the cache left as it was. *)
Definition refreshSource (ref : option SourceRef) : SM unit :=
  match ref with
  | None => mret tt
  | Some ref =>
      changed ← gets (SourceChanged ref);
      if negb changed then mret tt
      else
        r ← catch (UpsertSource ref);
        match r with
        | Err _ => mret tt
        | OK _ => RememberSource ref
        end
  end.

Definition refreshQueue (domainID : Z) (q : option QueueInfo) : SM unit :=
  match q with
  | None => mret tt
  | Some q =>
      if (qi_ID q <=? 0) || bool_decide (qi_Name q = "") then mret tt
      else
        let ref := MkQueueRef domainID (qi_ID q) (qi_Name q) in
        changed ← gets (QueueChanged ref);
        if negb changed then mret tt
        else
          r ← catch (UpsertQueue ref);
          match r with
          | Err _ => mret tt
          | OK _ => RememberQueue ref
          end
  end.

Definition queueIDOf (q : option QueueInfo) : option Z :=
  match q with
  | None => None
  | Some q => if qi_ID q <=? 0 then None else Some (qi_ID q)
  end.
End refresh.
