(* ===== verification/ControlEvents.v ===== *)
(** * ControlEvents: announcing who controls a thread

    internal/service/thread_manager.go: the bot.control.granted and
    bot.control.released events, the operators listed in a grant, and the
    small helpers around them.  [lookupSub] is bounded by a timeout; a timeout
    is one of the errors GetSub may return. *)
From S2P Require Import Prelude Domain Events Message World BotControlStore DialogStore Outbox.
#[local] Open Scope Z_scope.

(** ** Helpers *)
Definition isOperator (isBot : bool) (role : Z) : bool := negb isBot && negb (bool_decide (role = Role.RoleOwner)).

Definition hasOperator (members : list ThreadDialog) : bool :=
  existsb (fun m => isOperator (td_IsBot m) (td_ThreadRole m)) members.

Definition isBotMember (members : list ThreadDialog) (contactID : uuid) : bool :=
  match find_first (fun m => bool_decide (td_ContactID m = contactID)) members with
  | Some m => td_IsBot m
  | None => false
  end.

(** Callers pass entries whose member is set. *)
Definition botControlStackEntryToDialog (e : BotControlStackEntry) : ThreadDialogExtended :=
  MkDialogExt (default uuid_Nil (be_MemberID e)) (be_DomainID e) 0 0 (be_ContactID e) (be_ThreadID e)
    0 None None None None None false (be_AutoLeave e) zero_perms "".

Definition positionAfterPush (prev : option BotControlStackEntry) : Z :=
  match prev with None => 0 | Some p => be_Position p + 1 end.

Definition resolveAutoLeave (override : option bool) : bool :=
  match override with Some b => b | None => true end.

Definition tde_set_DomainID (v : Z) (d : ThreadDialogExtended) : ThreadDialogExtended :=
  MkDialogExt (tde_ID d) v (tde_CreatedAt d) (tde_UpdatedAt d) (tde_ContactID d) (tde_ThreadID d)
    (tde_ThreadRole d) (tde_DeletedAt d) (tde_InvitedBy d) (tde_LeaveReason d) (tde_Via d)
    (tde_QueueID d) (tde_IsBot d) (tde_AutoLeave d) (tde_Permissions d) (tde_Title d).

(** The filter of one thread's active members. *)
Definition members_of (threadID : uuid) : ThreadDialogStoreFilter :=
  MkDialogFilter 0 0 (Some [threadID]) None None false 0.

Definition search_members_error (e : error) : error := WithCause e (Internal "search of members failed").

Section events.
Context {E : Env}.

(** The sub of a contact; no provider, no contact and an error all give nil. *)
Definition lookupSub (contactID : uuid) (domainID : Z) : option Z :=
  match env_contact_info with
  | None => None
  | Some ci =>
      if decide (contactID = uuid_Nil) then None
      else match GetSub ci contactID domainID with OK id => id | Err _ => None end
  end.

Definition peerIsBot (contactID : uuid) (domainID : Z) : bool :=
  match env_contact_info with
  | None => false
  | Some ci => match IsBot ci contactID domainID with OK b => b | Err _ => false end
  end.

Definition agent_of (domainID : Z) (m : ThreadDialog) : BotControlAgent :=
  MkAgent (td_ID m) (lookupSub (td_ContactID m) domainID).

(** Failures are downgraded to an empty list. *)
Definition collectThreadAgents (threadID : uuid) (domainID : Z) : SM (list BotControlAgent) :=
  members ← catch (DialogStore.GetQuickView (members_of threadID));
  match members with
  | Err _ => mret []
  | OK ms => mret (agent_of domainID <$> List.filter (fun m => isOperator (td_IsBot m) (td_ThreadRole m)) ms)
  end.

Definition publishBotControlReleased (threadID memberID contactID : uuid) (position domainID : Z)
    (nextMemberID : option uuid) (reason : BotControlReason) : SM unit :=
  if decide (memberID = uuid_Nil) then mret tt
  else
    at_ ← now;
    let e := EvBotControlReleased (MkReleased threadID (to_int32 domainID) memberID position
               (reason_string reason) nextMemberID (lookupSub contactID domainID) at_) in
    Outbox.Publish (thread_topic env_uuid_string e) e.

Definition publishBotControlGranted (dialog : ThreadDialogExtended) (prev : option BotControlStackEntry)
    (position : Z) (reason : BotControlReason) (isResume : bool) : SM unit :=
  let prevMemberID := p ← prev; be_MemberID p in
  let prevPosition := be_Position <$> prev in
  let prevSchemeID := p ← prev; lookupSub (be_ContactID p) (tde_DomainID dialog) in
  let schemeID := lookupSub (tde_ContactID dialog) (tde_DomainID dialog) in
  match prev, prevMemberID with
  | Some p, Some pm =>
      publishBotControlReleased (tde_ThreadID dialog) pm (be_ContactID p) (be_Position p)
        (tde_DomainID dialog) (Some (tde_ID dialog)) reason
  | _, _ => mret tt
  end;;
  agents ← collectThreadAgents (tde_ThreadID dialog) (tde_DomainID dialog);
  at_ ← now;
  let e := EvBotControlGranted (MkGranted (tde_ThreadID dialog) (to_int32 (tde_DomainID dialog))
             (tde_ID dialog) (tde_ContactID dialog) position (tde_AutoLeave dialog)
             (reason_string reason) isResume prevPosition prevMemberID schemeID prevSchemeID
             agents at_) in
  Outbox.Publish (thread_topic env_uuid_string e) e.

Definition threadParticipants (threadID : uuid) : SM (list uuid) :=
  members ← DialogStore.GetQuickView (members_of threadID);
  mret (td_ContactID <$> members).

(** Joined and left events learn the participants just before they are published. *)
Definition with_participants (ps : list uuid) (m : MemberMoved) : MemberMoved :=
  MkMemberMoved (mm_MessageID m) (mm_ThreadID m) (mm_DomainID m) (mm_ContactID m)
    (mm_OccurredAt m) (mm_System m) ps.

Definition publishMemberEvent (e : Event) : SM unit :=
  e' ← match e with
       | EvMemberJoined m => ps ← threadParticipants (mm_ThreadID m); mret (EvMemberJoined (with_participants ps m))
       | EvMemberLeft m => ps ← threadParticipants (mm_ThreadID m); mret (EvMemberLeft (with_participants ps m))
       | _ => mret e
       end;
  Outbox.Publish (thread_topic env_uuid_string e') e'.
End events.

(** ** What announcing leaves alone *)
Section quiet.
Context {E : Env} {B : Type} (P : World -> B) {Q : Quiet P}.

Lemma quiet_GetQuickView f : preserves P (DialogStore.GetQuickView f).
Proof. unfold DialogStore.GetQuickView. frame. Qed.
#[local] Hint Resolve quiet_GetQuickView : svc.

Lemma quiet_collectThreadAgents tid dom : preserves P (collectThreadAgents tid dom).
Proof. unfold collectThreadAgents. frame. Qed.
#[local] Hint Resolve quiet_collectThreadAgents : svc.

Lemma quiet_publishBotControlReleased tid mid cid pos dom next reason :
  preserves P (publishBotControlReleased tid mid cid pos dom next reason).
Proof. unfold publishBotControlReleased. frame. Qed.
#[local] Hint Resolve quiet_publishBotControlReleased : svc.

Lemma quiet_publishBotControlGranted dialog prev pos reason resume :
  preserves P (publishBotControlGranted dialog prev pos reason resume).
Proof. unfold publishBotControlGranted. frame. Qed.

Lemma quiet_threadParticipants tid : preserves P (threadParticipants tid).
Proof. unfold threadParticipants. frame. Qed.
#[local] Hint Resolve quiet_threadParticipants : svc.

Lemma quiet_publishMemberEvent e : preserves P (publishMemberEvent e).
Proof. unfold publishMemberEvent. frame. Qed.
End quiet.

#[export] Hint Resolve quiet_GetQuickView quiet_collectThreadAgents quiet_publishBotControlReleased
  quiet_publishBotControlGranted quiet_threadParticipants quiet_publishMemberEvent : svc.
