(* ===== verification/BotFlow.v ===== *)
(** * BotFlow: handing a thread between bots and operators

    internal/service/thread_manager.go: CompleteBotControl, ReleaseBotControl,
    HandBackToBot, TakeOverFromBot, SetCRMContact, ensureBotControl,
    adoptUntrackedBot and the release and restore of control around agents. *)
From S2P Require Import Prelude Domain Events Message World BotControlStore DialogStore.
From S2P Require Import ThreadStore Outbox ControlEvents.
#[local] Open Scope Z_scope.

Record CompleteBotControlRequest := MkComplete { cb_ThreadID : uuid; cb_MemberID : uuid; cb_DomainID : Z }.
Record ReleaseBotControlRequest := MkRelease { rb_ThreadID : uuid; rb_InitiatorMemberID : uuid; rb_DomainID : Z }.
Record HandBackToBotRequest := MkHandBack { hb_ThreadID : uuid; hb_InitiatorContactID : uuid; hb_DomainID : Z }.
Record TakeOverFromBotRequest := MkTakeOver { to_ThreadID : uuid; to_InitiatorContactID : uuid; to_DomainID : Z }.
Record SetCRMContactRequest := MkSetCRM {
  sc_ThreadID : uuid; sc_InitiatorContactID : uuid; sc_DomainID : Z; sc_CRMContactID : string }.

(** The loop of [findAddMemberActors]: both actors are matched by contact. *)
Fixpoint pick_contacts (initiatorContactID targetContactID : uuid) (actors : list ThreadDialogExtended)
    (acc : option ThreadDialogExtended * option ThreadDialogExtended)
    : option ThreadDialogExtended * option ThreadDialogExtended :=
  match actors with
  | [] => acc
  | actor :: actors' =>
      match acc with
      | (Some _, Some _) => acc
      | (i, t) =>
          pick_contacts initiatorContactID targetContactID actors'
            (if decide (tde_ContactID actor = initiatorContactID) then Some actor else i,
             if decide (tde_ContactID actor = targetContactID) then Some actor else t)
      end
  end.

(** [dialog.DomainID] of a granted event falls back to the request's domain. *)
Definition with_domain (domainID : Z) (d : ThreadDialogExtended) : ThreadDialogExtended :=
  if tde_DomainID d <=? 0 then tde_set_DomainID domainID d else d.

(** [stack[len(stack)-1]]. *)
Definition top_entry (stack : list BotControlStackEntry) : option BotControlStackEntry := last stack.

Definition entry_of (memberID : uuid) (stack : list BotControlStackEntry) : option BotControlStackEntry :=
  find_first (fun e => bool_decide (be_MemberID e = Some memberID)) stack.

Section service.
Context {E : Env}.

Definition findAddMemberActors (threadID initiatorContactID targetContactID : uuid)
    : SM (option ThreadDialogExtended * option ThreadDialogExtended) :=
  actors ← DialogStore.GetFullView
    (MkDialogFilter 0 0 (Some [threadID]) (Some [initiatorContactID; targetContactID]) None false 0);
  mret (pick_contacts initiatorContactID targetContactID actors (None, None)).

Definition not_operator_error : error :=
  Forbidden "only an operator of the thread can switch it between the bot and the operator".

Definition verifyOperator (threadID contactID : uuid) : SM unit :=
  if bool_decide (threadID = uuid_Nil) || bool_decide (contactID = uuid_Nil)
  then throw (InvalidArgument "thread_id and initiator are required")
  else
    pair ← findAddMemberActors threadID contactID uuid_Nil;
    match fst pair with
    | Some i => guard_err (negb (isOperator (tde_IsBot i) (tde_ThreadRole i))) not_operator_error
    | None => throw not_operator_error
    end.

(** ** Control and agents *)
Definition releaseControlToAgent (threadID : uuid) (domainID : Z) : SM unit :=
  releasedID ← ClearController threadID;
  match releasedID with
  | None => mret tt
  | Some released =>
      members ← map_err search_members_error (DialogStore.GetQuickView (members_of threadID));
      let contactID :=
        match find_first (fun m => bool_decide (td_ID m = released)) members with
        | Some m => td_ContactID m
        | None => uuid_Nil
        end in
      publishBotControlReleased threadID released contactID 0 domainID None ReasonAgentTakeover
  end.

Definition restoreControlAfterAgent (threadID : uuid) (domainID : Z) : SM unit :=
  members ← map_err search_members_error (DialogStore.GetQuickView (members_of threadID));
  if hasOperator members then mret tt
  else
    p ← RestoreController threadID;
    match p with
    | (Some controller, true) =>
        publishBotControlGranted (with_domain domainID (botControlStackEntryToDialog controller)) None
          (be_Position controller) ReasonAgentLeft true
    | _ => mret tt
    end.

(** ** CompleteBotControl *)
Definition complete_body (req : CompleteBotControlRequest) : SM unit :=
  stack ← GetStack (cb_ThreadID req);
  match top_entry stack, entry_of (cb_MemberID req) stack with
  | Some top, Some completing =>
      let wasActiveController := bool_decide (be_MemberID top = Some (cb_MemberID req)) in
      thread ← ThreadStore.Get (MkThreadQuery [cb_ThreadID req] [cb_DomainID req]);
      if bool_decide (thr_OwnerBotID thread = Some (cb_MemberID req)) then mret tt
      else
        newTop ← Pop (cb_ThreadID req) (cb_MemberID req) ReasonCompleted None;
        if negb wasActiveController then mret tt
        else
          match newTop with
          | None => mret tt
          | Some nt =>
              match be_MemberID nt with
              | None => mret tt
              | Some ntm =>
                  if bool_decide (thr_OwnerBotID thread = Some ntm) then mret tt
                  else
                    publishBotControlGranted (botControlStackEntryToDialog nt)
                      (Some (MkEntry uuid_Nil uuid_Nil (Some (cb_MemberID req)) (be_Position completing)
                               (be_ContactID top) 0 false))
                      (be_Position nt) ReasonCompleted true
              end
          end
  | _, _ => mret tt
  end.

Definition CompleteBotControl (req : CompleteBotControlRequest) : SM unit :=
  if decide (cb_ThreadID req = uuid_Nil) then throw (InvalidArgument "thread_id is required")
  else if decide (cb_MemberID req = uuid_Nil) then throw (InvalidArgument "member_id is required")
  else WithinTransaction (complete_body req).

(** ** ReleaseBotControl *)
Definition release_body (req : ReleaseBotControlRequest) : SM unit :=
  stack ← GetStack (rb_ThreadID req);
  match (active ← top_entry stack; m ← be_MemberID active; Some (active, m)) with
  | None =>
      releasedMemberID ← ClearController (rb_ThreadID req);
      match releasedMemberID with
      | None => mret tt
      | Some released =>
          publishBotControlReleased (rb_ThreadID req) released uuid_Nil 0 (rb_DomainID req) None ReasonClientLeave
      end
  | Some (active, activeMemberID) =>
      let triggeredBy := if decide (rb_InitiatorMemberID req = uuid_Nil) then None
                         else Some (rb_InitiatorMemberID req) in
      newTop ← Pop (rb_ThreadID req) activeMemberID ReasonClientLeave triggeredBy;
      let nextMemberID := nt ← newTop; be_MemberID nt in
      publishBotControlReleased (rb_ThreadID req) activeMemberID (be_ContactID active)
        (be_Position active) (rb_DomainID req) nextMemberID ReasonClientLeave;;
      match newTop, nextMemberID with
      | Some nt, Some _ =>
          publishBotControlGranted (botControlStackEntryToDialog nt)
            (Some (MkEntry uuid_Nil uuid_Nil (Some activeMemberID) (be_Position active) uuid_Nil 0 false))
            (be_Position nt) ReasonClientLeave true
      | _, _ => mret tt
      end
  end.

Definition ReleaseBotControl (req : ReleaseBotControlRequest) : SM unit :=
  if decide (rb_ThreadID req = uuid_Nil) then throw (InvalidArgument "thread_id is required")
  else WithinTransaction (release_body req).

(** ** Hand back, take over *)
Definition no_bot_error : error :=
  WithCode CodeFailedPrecondition (errors_New "thread has no bot to hand the conversation back to").

Definition HandBackToBot (req : HandBackToBotRequest) : SM unit :=
  verifyOperator (hb_ThreadID req) (hb_InitiatorContactID req);;
  WithinTransaction (
    p ← RestoreController (hb_ThreadID req);
    match fst p with
    | None => throw no_bot_error
    | Some controller =>
        publishBotControlGranted (with_domain (hb_DomainID req) (botControlStackEntryToDialog controller)) None
          (be_Position controller) ReasonAgentHandback true
    end).

Definition TakeOverFromBot (req : TakeOverFromBotRequest) : SM unit :=
  verifyOperator (to_ThreadID req) (to_InitiatorContactID req);;
  WithinTransaction (releaseControlToAgent (to_ThreadID req) (to_DomainID req)).

Definition SetThreadCRMContact (req : SetCRMContactRequest) : SM unit :=
  verifyOperator (sc_ThreadID req) (sc_InitiatorContactID req);;
  WithinTransaction (
    ThreadStore.SetCRMContact (sc_ThreadID req) (sc_CRMContactID req);;
    participants ← threadParticipants (sc_ThreadID req);
    at_ ← now;
    let e := EvThreadUpdated (MkThreadUpdated (sc_ThreadID req) (to_int32 (sc_DomainID req))
               (sc_InitiatorContactID req) (sc_CRMContactID req) at_ participants) in
    Outbox.Publish (thread_topic env_uuid_string e) e).

(** ** A bot joins *)
Definition push_adopted_error (e : error) : error := WithCause e (Internal "failed to push adopted bot").

Definition adoptUntrackedBot (threadID newMemberID : uuid) : SM unit :=
  adoptedID ← DialogStore.AdoptUntrackedBot threadID newMemberID;
  if decide (adoptedID = uuid_Nil) then mret tt
  else
    map_err push_adopted_error (Push (MkTransition threadID adoptedID ReasonInitial None));;
    mret tt.

(** ** Control for an existing thread

    [ensureBotControl] assigns [thread.BotControllerID] of the caller's
    thread inside the transaction, so the assignment outlives a rollback: it
    is returned beside the result. *)
Definition ensure_point (thread : Thread) (botDialog : ThreadDialog) : SM Thread :=
  stack ← GetStack (thr_ID thread);
  match top_entry stack with
  | Some top =>
      match be_MemberID top with
      | Some m => SetController (thr_ID thread) m;; mret (thr_set_BotControllerID (Some m) thread)
      | None => mret thread
      end
  | None =>
      Push (MkTransition (thr_ID thread) (td_ID botDialog) ReasonInitial None);;
      mret (thr_set_BotControllerID (Some (td_ID botDialog)) thread)
  end.

(** The grant names the first bot among the members. *)
Definition ensure_publish (thread : Thread) (botDialog : ThreadDialog) (domainID : Z) : SM unit :=
  publishBotControlGranted
    (MkDialogExt (td_ID botDialog) domainID 0 0 (td_ContactID botDialog) (thr_ID thread) 0 None None None
       None None true (td_AutoLeave botDialog) zero_perms "")
    None 0 ReasonInitial false.

Definition ensure_body (thread : Thread) (botDialog : ThreadDialog) (domainID : Z) (w : World)
    : result unit * Thread * World :=
  match ensure_point thread botDialog w with
  | (Err e, w1) => (Err e, thread, w1)
  | (OK thread', w1) =>
      let '(r, w2) := ensure_publish thread' botDialog domainID w1 in (r, thread', w2)
  end.

Definition ensureBotControl (thread : Thread) (domainID : Z) (w : World) : result unit * Thread * World :=
  match find_first td_IsBot (thr_Members thread) with
  | None => (OK tt, thread, w)
  | Some botDialog =>
      if hasOperator (thr_Members thread) then (OK tt, thread, w)
      else WithinTransactionAssigning thread (ensure_body thread botDialog domainID) w
  end.
End service.
