(* ===== verification/Members.v ===== *)
(** * Members: adding, transferring and removing members

    internal/service/thread_manager.go: the checks, the system messages with
    their joined and left events, and the three operations.  A request is
    passed by value; the assignment [req.IsBot = ...] is a local binding. *)
From S2P Require Import Prelude Domain Events Message World Text BotControlStore DialogStore.
From S2P Require Import ThreadStore Permissions Outbox TagService MessageStore References.
From S2P Require Import ControlEvents BotFlow.
#[local] Open Scope Z_scope.

(** ** Requests *)
Record AddMemberRequest := MkAddMember {
  am_ThreadID : uuid; am_NewMemberContactID : uuid; am_InitiatorContactID : uuid; am_NewMemberRole : Z;
  am_DomainID : Z; am_IsBot : bool; am_AutoLeave : option bool; am_Queue : option QueueInfo;
  am_SystemCall : bool }.
Record RemoveMemberRequest := MkRemoveMember {
  rm_TargetMemberID : uuid; rm_InitiatorContactID : uuid; rm_Reason : option string; rm_SystemCall : bool }.
Record TransferThreadRequest := MkTransfer {
  tf_ThreadID : uuid; tf_NewMemberContactID : uuid; tf_InitiatorContactID : uuid; tf_NewMemberRole : Z;
  tf_TargetIsBot : bool; tf_AutoLeave : option bool; tf_Queue : option QueueInfo }.

(** ** Checks *)
Definition errNotThreadMemberError : error := errors_New "member is not part of thread".
Definition initiator_not_found : error :=
  WithCause errNotThreadMemberError (NotFound "thread not found or initiator does not have permission").

Definition verifyAddMemberInitiatorPermissions (initiatorRole targetRole : Z) (p : ThreadPermissions) : result unit :=
  if negb (CanAddMembers p) then Err (Forbidden "initiator does not have permission to invite members")
  else if initiatorRole <? targetRole
  then Err (Forbidden "initiator does not have permission to invite a member with higher role")
  else OK tt.

Definition verifyRemoveMemberInitiatorPermissions (initiatorRole targetRole : Z) (p : ThreadPermissions)
    (targetIsBot : bool) : result unit :=
  let forbidden := Forbidden "initiator does not have permission to remove members" in
  if negb (CanRemoveMembers p) then Err forbidden
  else if targetIsBot then (if initiatorRole <? targetRole then Err forbidden else OK tt)
  else if initiatorRole <=? targetRole then Err forbidden else OK tt.

Definition verifyRemoveMember (initiator : option ThreadDialogExtended) (target : ThreadDialogExtended) : result unit :=
  match initiator with
  | None => Err initiator_not_found
  | Some i =>
      if decide (tde_ID i = tde_ID target) then OK tt
      else verifyRemoveMemberInitiatorPermissions (tde_ThreadRole i) (tde_ThreadRole target)
             (tde_Permissions i) (tde_IsBot target)
  end.

(** ** Building system messages *)
Definition contact_peer (id : uuid) : Shared.Peer := Shared.MkPeer id Shared.PeerContact None.

(** The member attached to a system message when the initiator is in the thread. *)
Definition initiator_member (i : ThreadDialogExtended) : ThreadDialog :=
  MkDialog (tde_ID i) 0 0 0 (tde_ContactID i) (tde_ThreadID i) (tde_ThreadRole i) None None None None false false.

Definition system_message (threadID : uuid) (domainID : Z) (sendTo : uuid) (receivers : list ThreadDialog)
    (body : string) (meta : metadata) (sys : MessageSystem) (senderID : uuid) (from : Shared.Peer)
    (member : option ThreadDialog) (key : string) : Message :=
  MkMessage uuid_Nil None key "" "" threadID (to_int32 domainID) from (contact_peer sendTo) (Some receivers) body
    MessageTypeSystem meta 0 0 false senderID uuid_Nil None 0 0 0 [] [] None None None (Some sys) member None None
    None [].

(** Sender, from and member of the message: the initiator if it is a member,
    else the acting contact, else nobody. *)
Definition sender_of (initiator : option ThreadDialogExtended) (initiatorContactID : uuid)
    : uuid * Shared.Peer * option ThreadDialog :=
  match initiator with
  | Some i => (tde_ContactID i, contact_peer (tde_ContactID i), Some (initiator_member i))
  | None =>
      if decide (initiatorContactID = uuid_Nil) then (uuid_Nil, zero_peer, None)
      else (initiatorContactID, contact_peer initiatorContactID, None)
  end.

Definition added_metadata (m : ThreadDialogExtended) (threadID : uuid) : metadata :=
  <["new_member_id" := AnyUUID (tde_ID m)]> (<["new_member_contact_id" := AnyUUID (tde_ContactID m)]>
  (<["new_member_role" := AnyRole (tde_ThreadRole m)]> (<["thread_id" := AnyUUID threadID]> ∅))).

Definition removed_metadata (m : ThreadDialogExtended) (reason : option string) : metadata :=
  let base : metadata :=
    <["removed_member_id" := AnyUUID (tde_ID m)]> (<["removed_member_contact_id" := AnyUUID (tde_ContactID m)]>
    (<["thread_id" := AnyUUID (tde_ThreadID m)]> ∅)) in
  match reason with Some r => <["reason" := AnyString r]> base | None => base end.

Definition transferred_metadata (initiator newMember : ThreadDialogExtended) (threadID : uuid) : metadata :=
  <["transferred_member_id" := AnyUUID (tde_ID initiator)]>
  (<["transferred_member_contact_id" := AnyUUID (tde_ContactID initiator)]> (added_metadata newMember threadID)).

Definition member_moved (msg : Message) (threadID : uuid) (domainID : Z) (contactID : uuid) (sys : MessageSystem)
    : MemberMoved :=
  MkMemberMoved (msg_ID msg) threadID (to_int32 domainID) contactID (msg_CreatedAt msg)
    (NewSystemPayload (sys_Type sys) (sys_Metadata sys)) [].

Section service.
Context {E : Env} {H : ThreadTagHooks}.

(** [uuid.NewString()]: a fresh random identifier, in text. *)
Definition new_string : SM string := id ← fresh; mret (env_uuid_string id).

Definition sendThreadSystemMessage (msg : Message) : SM Message :=
  if decide (msg_ThreadID msg = uuid_Nil) then throw (errors_New "thread id cannot be nil")
  else if msg_DomainID msg <=? 0 then throw (errors_New "domain id must be greater than zero")
  else match msg_To msg with
  | None => throw (errors_New "message recipients cannot be nil")
  | Some to =>
      saved ← SaveSystemMessage msg;
      let saved := msg_set_route (Some to) (msg_From msg) saved in
      OnMessage saved;;
      send_id ← new_string;
      let '(events, saved) := Message_Events (WithCreatedEvent env_uuid_valid env_ctx send_id saved) in
      for_each (fun e => Outbox.Publish (buildMessageCreatedTopic env_uuid_string (RecipientID e) (Version e)) e)
        events;;
      mret saved
  end.

(** Every message goes to the external providers; their errors are logged. *)
Definition dispatchSystemMessages (messages : list Message) : SM unit :=
  match env_providers with
  | None => mret tt
  | Some send => modify (fun w => set_sent (w_sent w ++ messages) w)
  end.

Definition domain_error : error := InvalidArgument "domain id must be greater than zero".

Definition sendAddMemberSystemMessage (initiator : option ThreadDialogExtended) (initiatorContactID : uuid)
    (newMember : ThreadDialogExtended) (receivers : list ThreadDialog) (threadID : uuid) (domainID : Z)
    : SM Message :=
  if domainID <=? 0 then throw domain_error
  else
    let sys := MkSystem "member_added" (added_metadata newMember threadID) in
    let '(senderID, from, member) := sender_of initiator initiatorContactID in
    key ← new_string;
    saved ← sendThreadSystemMessage
      (system_message threadID domainID (tde_ContactID newMember) receivers "Member added"
         (BuildMetadata "Member added" []) sys senderID from member key);
    publishMemberEvent (EvMemberJoined (member_moved saved threadID domainID (tde_ContactID newMember) sys));;
    mret saved.

Definition sendRemoveMemberSystemMessage (initiator : option ThreadDialogExtended) (initiatorContactID : uuid)
    (removed : ThreadDialogExtended) (receivers : list ThreadDialog) (reason : option string) (domainID : Z)
    : SM Message :=
  if domainID <=? 0 then throw domain_error
  else
    let sys := MkSystem "member_removed" (removed_metadata removed reason) in
    let '(senderID, from, member) := sender_of initiator initiatorContactID in
    key ← new_string;
    saved ← sendThreadSystemMessage
      (system_message (tde_ThreadID removed) domainID (tde_ContactID removed) receivers "Member removed"
         (BuildMetadata "Member removed" []) sys senderID from member key);
    publishMemberEvent (EvMemberLeft (member_moved saved (tde_ThreadID removed) domainID (tde_ContactID removed) sys));;
    mret saved.

(** The sender id of a transfer message is left nil. *)
Definition sendTransferSystemMessage (initiator newMember : ThreadDialogExtended)
    (receivers : list ThreadDialog) (threadID : uuid) (domainID : Z) : SM Message :=
  if domainID <=? 0 then throw domain_error
  else
    let sys := MkSystem "transferred" (transferred_metadata initiator newMember threadID) in
    key ← new_string;
    saved ← sendThreadSystemMessage
      (system_message threadID domainID (tde_ContactID newMember) receivers "" (BuildMetadata "" []) sys
         uuid_Nil (contact_peer (tde_ContactID initiator)) (Some (initiator_member initiator)) key);
    publishMemberEvent (EvMemberLeft (member_moved saved threadID domainID (tde_ContactID initiator) sys));;
    publishMemberEvent (EvMemberJoined (member_moved saved threadID domainID (tde_ContactID newMember) sys));;
    mret saved.

Definition verifyAddMember (initiator : option ThreadDialogExtended) (targetContactID : uuid) (role : Z)
    : result unit :=
  match initiator with
  | None => Err initiator_not_found
  | Some i =>
      if decide (tde_ContactID i = targetContactID)
      then Err (InvalidArgument "cannot add self as member")
      else
        verifyAddMemberInitiatorPermissions (tde_ThreadRole i) role (tde_Permissions i);;
        env_can_invite (tde_ContactID i) targetContactID
  end.

(** ** Shared steps *)
Definition actors_error (e : error) : error := WithCause e (errors_New "failed to find actors").
Definition already_member_error : error :=
  WithCode CodeAlreadyExists (errors_New "target member is already part of the thread").
Definition system_message_error (e : error) : error := WithCause e (Internal "failed to send system message").
Definition push_error (e : error) : error := WithCause e (Internal "failed to push bot control").
Definition pop_error (e : error) : error := WithCause e (Internal "failed to pop bot control").

Definition new_dialog_request (threadID contactID : uuid) (role domainID : Z) (invitedBy : option uuid)
    (p : ThreadPermissions) (isBot autoLeave : bool) (queue : option Z) (title : string) (at_ : Time)
    : ThreadDialogExtended :=
  MkDialogExt uuid_Nil domainID at_ at_ contactID threadID role None invitedBy None None queue
    isBot autoLeave p title.

(** Pushing a bot that just joined: adoption, push, grant. *)
Definition push_new_bot (threadID : uuid) (newMember : ThreadDialogExtended) (triggeredBy : option uuid) : SM unit :=
  adoptUntrackedBot threadID (tde_ID newMember);;
  prev ← map_err push_error (Push (MkTransition threadID (tde_ID newMember) ReasonTransfer triggeredBy));
  publishBotControlGranted newMember prev (positionAfterPush prev) ReasonTransfer false.

(** ** AddMember *)
Definition add_body (req : AddMemberRequest) (isBot : bool) (initiator : option ThreadDialogExtended)
    (domainID : Z) (invitedBy : option uuid) (title : string) (perms : ThreadPermissions)
    (beforeCreate : SM unit) : SM (ThreadDialogExtended * Message) :=
  ThreadStore.LockForUpdate (am_ThreadID req);;
  beforeCreate;;
  at_ ← now;
  newMember ← DialogStore.Create
    (new_dialog_request (am_ThreadID req) (am_NewMemberContactID req) (am_NewMemberRole req) domainID invitedBy
       perms isBot (isBot && resolveAutoLeave (am_AutoLeave req)) (queueIDOf (am_Queue req)) title at_);
  receivers ← map_err search_members_error (DialogStore.GetQuickView (members_of (am_ThreadID req)));
  msg ← map_err system_message_error
    (sendAddMemberSystemMessage initiator (am_InitiatorContactID req) newMember receivers (am_ThreadID req)
       (tde_DomainID newMember));
  (if isBot then push_new_bot (am_ThreadID req) newMember invitedBy
   else if isOperator false (am_NewMemberRole req)
   then releaseControlToAgent (am_ThreadID req) (tde_DomainID newMember)
   else mret tt);;
  mret (newMember, msg).

Definition addMemberToChat (req : AddMemberRequest) (beforeCreate : SM unit) : SM uuid :=
  pair ← map_err actors_error
    (findAddMemberActors (am_ThreadID req) (am_InitiatorContactID req) (am_NewMemberContactID req));
  let '(initiator, target) := pair in
  match target with
  | Some _ => throw already_member_error
  | None =>
      let domainID := match initiator with Some i => tde_DomainID i | None => am_DomainID req end in
      let verified := negb (am_SystemCall req) && negb (bool_decide (am_InitiatorContactID req = uuid_Nil)) in
      (if verified then of_result (verifyAddMember initiator (am_NewMemberContactID req) (am_NewMemberRole req))
       else mret tt);;
      let '(title, invitedBy) :=
        match initiator with
        | Some i => if verified then (tde_Title i, Some (tde_ID i)) else ("New thread", None)
        | None => ("New thread", None)
        end in
      let isBot := am_IsBot req || peerIsBot (am_NewMemberContactID req) domainID in
      perms ← of_result (getDefaultPermissionsByRole (am_NewMemberRole req));
      refreshQueue domainID (am_Queue req);;
      p ← WithinTransaction (add_body req isBot initiator domainID invitedBy title perms beforeCreate);
      let '(newMember, msg) := p in
      dispatchSystemMessages [msg];;
      mret (tde_ID newMember)
  end.

Definition AddMember (req : AddMemberRequest) : SM uuid := addMemberToChat req (mret tt).

(** ** Transfer *)
Definition transfer_control (req : TransferThreadRequest) (initiator newMember : ThreadDialogExtended) : SM unit :=
  (if tf_TargetIsBot req then
     push_new_bot (tf_ThreadID req) newMember (Some (tde_ID initiator));;
     (if tde_IsBot initiator
      then catch (Pop (tf_ThreadID req) (tde_ID initiator) ReasonTransfer None);; mret tt
      else mret tt)
   else if tde_IsBot initiator then
     newTop ← map_err pop_error (Pop (tf_ThreadID req) (tde_ID initiator) ReasonHandoff None);
     match newTop with
     | Some nt =>
         match be_MemberID nt with
         | Some _ =>
             publishBotControlGranted (botControlStackEntryToDialog nt)
               (Some (MkEntry uuid_Nil uuid_Nil (Some (tde_ID initiator)) (be_Position nt + 1)
                        (tde_ContactID initiator) 0 false))
               (be_Position nt) ReasonTransfer true
         | None => mret tt
         end
     | None => mret tt
     end
   else mret tt);;
  (if negb (tf_TargetIsBot req) && negb (tde_IsBot initiator) && isOperator false (tf_NewMemberRole req)
   then releaseControlToAgent (tf_ThreadID req) (tde_DomainID newMember)
   else mret tt).

Definition transfer_body (req : TransferThreadRequest) (initiator : ThreadDialogExtended)
    (perms : ThreadPermissions) : SM (uuid * Message) :=
  ThreadStore.LockForUpdate (tf_ThreadID req);;
  at_ ← now;
  newMember ← DialogStore.Create
    (new_dialog_request (tf_ThreadID req) (tf_NewMemberContactID req) (tf_NewMemberRole req)
       (tde_DomainID initiator) (Some (tde_ID initiator)) perms (tf_TargetIsBot req)
       (tf_TargetIsBot req && resolveAutoLeave (tf_AutoLeave req)) (queueIDOf (tf_Queue req))
       (tde_Title initiator) at_);
  DialogStore.Delete (tde_ID initiator) (Some "transferred");;
  OnMemberLeft (tf_ThreadID req) (tde_ContactID initiator);;
  receivers ← map_err search_members_error (DialogStore.GetQuickView (members_of (tf_ThreadID req)));
  msg ← map_err system_message_error
    (sendTransferSystemMessage initiator newMember receivers (tf_ThreadID req) (tde_DomainID newMember));
  transfer_control req initiator newMember;;
  mret (tde_ID newMember, msg).

Definition Transfer (req : TransferThreadRequest) : SM uuid :=
  if decide (tf_InitiatorContactID req = uuid_Nil)
  then throw (InvalidArgument "initiator contact id cannot be nil")
  else
    pair ← map_err actors_error
      (findAddMemberActors (tf_ThreadID req) (tf_InitiatorContactID req) (tf_NewMemberContactID req));
    match pair with
    | (None, _) => throw initiator_not_found
    | (Some _, Some _) => throw already_member_error
    | (Some initiator, None) =>
        rolePermissions ← of_result (getDefaultPermissionsByRole (tf_NewMemberRole req));
        let perms := if decide (tde_ThreadRole initiator = tf_NewMemberRole req)
                     then tde_Permissions initiator else rolePermissions in
        of_result (verifyAddMember (Some initiator) (tf_NewMemberContactID req) (tf_NewMemberRole req));;
        refreshQueue (tde_DomainID initiator) (tf_Queue req);;
        p ← WithinTransaction (transfer_body req initiator perms);
        let '(newMemberID, msg) := p in
        dispatchSystemMessages [msg];;
        mret newMemberID
    end.

(** ** RemoveMember *)
Definition remove_bot (req : RemoveMemberRequest) (initiator : option ThreadDialogExtended)
    (target : ThreadDialogExtended) : SM unit :=
  newTop ← map_err pop_error (Pop (tde_ThreadID target) (tde_ID target) ReasonRemoved (tde_ID <$> initiator));
  match (nt ← newTop; _ ← be_MemberID nt; Some nt) with
  | Some nt =>
      publishBotControlGranted (botControlStackEntryToDialog nt)
        (Some (MkEntry uuid_Nil uuid_Nil (Some (tde_ID target)) (be_Position nt + 1) uuid_Nil 0 false))
        (be_Position nt) ReasonRemoved true
  | None => mret tt
  end;;
  if tde_AutoLeave target then mret tt else DialogStore.Delete (tde_ID target) (rm_Reason req).

Definition remove_person (req : RemoveMemberRequest) (target : ThreadDialogExtended) (domainID : Z) : SM unit :=
  DialogStore.Delete (tde_ID target) (rm_Reason req);;
  OnMemberLeft (tde_ThreadID target) (tde_ContactID target);;
  if isOperator (tde_IsBot target) (tde_ThreadRole target)
  then restoreControlAfterAgent (tde_ThreadID target) domainID
  else mret tt.

Definition remove_body (req : RemoveMemberRequest) (initiator : option ThreadDialogExtended)
    (target : ThreadDialogExtended) : SM Message :=
  ThreadStore.LockForUpdate (tde_ThreadID target);;
  receivers ← DialogStore.GetQuickView (members_of (tde_ThreadID target));
  let domainID :=
    match initiator with
    | Some i => if tde_DomainID target <=? 0 then tde_DomainID i else tde_DomainID target
    | None => tde_DomainID target
    end in
  (if tde_IsBot target then remove_bot req initiator target else remove_person req target domainID);;
  sendRemoveMemberSystemMessage initiator (rm_InitiatorContactID req) target receivers (rm_Reason req) domainID.

Definition RemoveMember (req : RemoveMemberRequest) : SM unit :=
  pair ← DialogStore.FindActorsPair (rm_InitiatorContactID req) (rm_TargetMemberID req);
  let '(initiator, target) := pair in
  match target with
  | None => throw (NotFound "target not found")
  | Some target =>
      (if negb (rm_SystemCall req) && negb (bool_decide (rm_InitiatorContactID req = uuid_Nil))
       then of_result (verifyRemoveMember initiator target)
       else mret tt);;
      msg ← WithinTransaction (remove_body req initiator target);
      dispatchSystemMessages [msg]
  end.
End service.
