(* ===== verification/DirectThread.v ===== *)
(** * DirectThread: finding or creating the thread of two contacts

    internal/service/thread_manager.go: EnsureDirectThread and the creation of
    a direct thread with its two dialogs, bot control and created events; and
    internal/service/thread_creators_factory.go, whose only creator is the one
    of direct threads, so that the payload of a request is a direct
    configuration or nothing.  The peers of a request are not nil (the source
    dereferences them first). *)
From S2P Require Import Prelude Domain Events Message World BotControlStore DialogStore ThreadStore.
From S2P Require Import Permissions Outbox References ControlEvents BotFlow MessageStore.
#[local] Open Scope Z_scope.

Record EnsureDirectThreadRequest := MkEnsure {
  en_DomainID : Z; en_From : Shared.Peer; en_To : Shared.Peer; en_SendAs : option uuid }.

(** Identity, via, bot flags and domain are not copied. *)
Definition extendedThreadDialogToSimpleMapper (d : ThreadDialogExtended) : ThreadDialog :=
  MkDialog (tde_ID d) 0 0 0 (tde_ContactID d) (tde_ThreadID d) (tde_ThreadRole d) None None None (tde_Via d)
    false false.

(** Via of either side, the sender's first; an empty via is never resolved. *)
Definition gate_of (from to : Shared.Peer) : option string :=
  match Shared.ResolveVia from with
  | Some v => if decide (v = "") then Shared.ResolveVia to else Some v
  | None => Shared.ResolveVia to
  end.

Definition created_event_for (thread : Thread) (members : list ThreadMember) (subject : string)
    (recipient : uuid) (recipientName : string) : Event :=
  EvThreadCreated (MkThreadCreated (thr_ID thread) (to_int32 (thr_DomainID thread)) (thr_CreatedAt thread)
    subject (MkRecipient recipient recipientName) (Kind.kind_String (thr_Kind thread)) members).

(** The members of the event carry id, contact and role. *)
Definition created_member (m : ThreadDialog) : ThreadMember :=
  MkMember (memberPtr (td_ID m)) (td_ContactID m) (td_ThreadRole m) false.

(** [Identity.Name]; both peers were checked to have an identity. *)
Definition peer_name (p : Shared.Peer) : string :=
  match Shared.peer_Identity p with Some i => Shared.idn_Name i | None => "" end.

Definition buildDirectThreadCreatedEvents (thread : Thread) (from to : Shared.Peer) : list Event :=
  let members := created_member <$> thr_Members thread in
  [created_event_for thread members (peer_name to) (Shared.peer_ID from) (peer_name from);
   created_event_for thread members (peer_name from) (Shared.peer_ID to) (peer_name to)].

Section service.
Context {E : Env}.

Definition createDirectThread (domainID : Z) : SM Thread :=
  at_ ← now;
  ThreadStore.Create (MkThread uuid_Nil domainID at_ at_ Kind.ThreadDirect "" "" uuid_Nil [] None None "").

Definition init_bot_error (e : error) : error := WithCause e (Internal "failed to init bot control").

Definition direct_dialog (threadID contactID : uuid) (domainID : Z) (perms : ThreadPermissions)
    (via : option string) (isBot : bool) (title : string) : ThreadDialogExtended :=
  MkDialogExt uuid_Nil domainID 0 0 contactID threadID Role.RoleOwner None None None via None isBot false
    perms title.

Definition initializeDirectThreadDialogs (threadID : uuid) (domainID : Z) (from to : Shared.Peer)
    (toIsBot : bool) : SM (list ThreadDialogExtended) :=
  match Shared.peer_Identity to, Shared.peer_Identity from with
  | Some ti, Some fi =>
      if bool_decide (Shared.idn_Name ti = "") || bool_decide (Shared.idn_Name fi = "")
      then throw (InvalidArgument "from and to peers must have identity with non empty name")
      else
        initiatorPermissions ← of_result (getDefaultPermissionsByRole Role.RoleOwner);
        targetPermissions ← of_result (getDefaultPermissionsByRole Role.RoleOwner);
        let gateVia := gate_of from to in
        initiatorDialog ← DialogStore.Create
          (direct_dialog threadID (Shared.peer_ID from) domainID initiatorPermissions gateVia false
             (Shared.idn_Name ti));
        let targetVia := if toIsBot then None else gateVia in
        targetDialog ← DialogStore.Create
          (direct_dialog threadID (Shared.peer_ID to) domainID targetPermissions targetVia toIsBot
             (Shared.idn_Name fi));
        (if toIsBot then
           map_err init_bot_error (Push (MkTransition threadID (tde_ID targetDialog) ReasonInitial None));;
           publishBotControlGranted targetDialog None 0 ReasonInitial false
         else mret tt);;
        mret [initiatorDialog; targetDialog]
  | _, _ => throw (InvalidArgument "from and to peers must have identity")
  end.

Definition publishThreadCreatedEvents (events : list Event) : SM unit :=
  for_each (fun e => Outbox.Publish (thread_topic env_uuid_string e) e) events.

(** The controller reflected on the new thread: its first bot dialog. *)
Definition reflect_controller (toIsBot : bool) (members : list ThreadDialogExtended) (thread : Thread) : Thread :=
  if toIsBot then
    match find_first tde_IsBot members with
    | Some m => thr_set_BotControllerID (Some (tde_ID m)) thread
    | None => thread
    end
  else thread.

Definition create_body (req : EnsureDirectThreadRequest) (toIsBot : bool) : SM Thread :=
  savedThread ← createDirectThread (en_DomainID req);
  members ← initializeDirectThreadDialogs (thr_ID savedThread) (en_DomainID req) (en_From req) (en_To req) toIsBot;
  let thread := thr_set_Members
    (thr_Members savedThread ++ (extendedThreadDialogToSimpleMapper <$> members)) savedThread in
  let thread := reflect_controller toIsBot members thread in
  publishThreadCreatedEvents (buildDirectThreadCreatedEvents thread (en_From req) (en_To req));;
  mret thread.

Definition orchestrateDirectThreadCreation (req : EnsureDirectThreadRequest) : SM Thread :=
  of_result (env_can_send (Shared.peer_ID (en_From req)) (Shared.peer_ID (en_To req)));;
  let toIsBot := peerIsBot (Shared.peer_ID (en_To req)) (en_DomainID req) in
  refreshSource (sourceRefFromPeers (en_DomainID req) [Some (en_From req); Some (en_To req)]);;
  WithinTransaction (create_body req toIsBot).

(** The error of [ensureBotControl] is logged; its assignment stays. *)
Definition ensure_existing (req : EnsureDirectThreadRequest) (thread : Thread) : SM Thread :=
  if bool_decide (thr_BotControllerID thread = None) &&
     isBotMember (thr_Members thread) (Shared.peer_ID (en_To req))
  then fun w => let '(_, thread', w') := ensureBotControl thread (en_DomainID req) w in (OK thread', w')
  else mret thread.

Definition EnsureDirectThread (req : EnsureDirectThreadRequest) : SM Thread :=
  found ← ThreadStore.ResolveThread (MkResolveQuery (en_From req) (en_To req) (en_SendAs req));
  match found with
  | Some thread =>
      thread' ← ensure_existing req thread;
      refreshSource (sourceRefFromPeers (en_DomainID req) [Some (en_From req); Some (en_To req)]);;
      mret thread'
  | None => orchestrateDirectThreadCreation req
  end.
End service.

(** ** Creating a thread of a kind: thread_creators_factory.go *)
Record DirectConfig := MkDirectConfig { dc_Member : Shared.Peer }.
Record CreateThreadRequest := MkCreateThread {
  ct_DomainID : Z; ct_kind : Z; ct_Initiator : Shared.Peer; ct_Payload : option DirectConfig }.

Definition WithKind (kind : Z) (c : CreateThreadRequest) : CreateThreadRequest :=
  MkCreateThread (ct_DomainID c) kind (ct_Initiator c) (ct_Payload c).
Definition WithDirectConfig (member : Shared.Peer) (c : CreateThreadRequest) : CreateThreadRequest :=
  MkCreateThread (ct_DomainID c) (ct_kind c) (ct_Initiator c) (Some (MkDirectConfig member)).
Definition NewCreateThreadRequest (domainID : Z) (initiator : Shared.Peer)
    (options : list (CreateThreadRequest -> CreateThreadRequest)) : CreateThreadRequest :=
  fold_left (fun r o => o r) options (MkCreateThread domainID Kind.ThreadUnspecified initiator None).

Definition ValidateCreate (c : CreateThreadRequest) : result unit :=
  if ct_DomainID c <=? 0 then Err (InvalidArgument "domain id is required")
  else if decide (Shared.peer_ID (ct_Initiator c) = uuid_Nil) then Err (InvalidArgument "initiator is required")
  else if decide (Shared.peer_Type (ct_Initiator c) <> Shared.PeerContact) then Err (InvalidArgument "initiator must be a contact")
  else OK tt.

Definition ValidateDirect (dc : DirectConfig) : result unit :=
  if decide (Shared.peer_ID (dc_Member dc) = uuid_Nil) then Err (InvalidArgument "received nil uuid for direct member")
  else if decide (Shared.peer_Type (dc_Member dc) <> Shared.PeerContact) then Err (InvalidArgument "member type must be contact")
  else if decide (Shared.peer_Identity (dc_Member dc) = None) then Err (InvalidArgument "member identity is required")
  else OK tt.

(** [checkRequestPreconditions]: the configuration of a request that passes. *)
Definition CheckPreconditions (c : CreateThreadRequest) : result DirectConfig :=
  _ ← ValidateCreate c;
  cfg ← match ct_Payload c with
        | None => Err (InvalidArgument "invalid payload type, expected direct config")
        | Some cfg => OK cfg
        end;
  _ ← ValidateDirect cfg;
  if decide (Shared.peer_ID (ct_Initiator c) = Shared.peer_ID (dc_Member cfg))
  then Err (InvalidArgument "initiator and peer cannot be the same contact") else OK cfg.

Section service.
Context {E : Env}.

(** The line logged first reads the identity of the initiator, which nothing checked. *)
Definition DirectCreate (c : CreateThreadRequest) : SM Thread :=
  cfg ← of_result (CheckPreconditions c);
  match Shared.peer_Identity (ct_Initiator c) with
  | None => throw nil_dereference
  | Some _ => EnsureDirectThread (MkEnsure (ct_DomainID c) (ct_Initiator c) (dc_Member cfg) None)
  end.

Definition CreateByKind (c : CreateThreadRequest) : SM Thread :=
  if decide (ct_kind c = Kind.ThreadDirect) then DirectCreate c
  else throw (NotFound "creator for given thread kind not exists").
End service.
