(* ===== verification/Commands.v ===== *)
(** * Commands: slash commands in text messages

    internal/service/command.go and command_close.go.  A command is a value of
    the interface [Command]; the dispatcher finds it by the whole trimmed text. *)
From S2P Require Import Prelude Domain Events Message World Text DialogStore BotFlow TagService.
#[local] Open Scope Z_scope.

Record SendTextRequest := MkSendText {
  sx_From : Shared.Peer; sx_To : Shared.Peer; sx_Body : string; sx_DomainID : Z; sx_SendID : string;
  sx_SendAs : option uuid; sx_ReplyToMessageID : option uuid; sx_ExternalID : string;
  sx_ReplyToExternalID : string; sx_ForwardOrigin : option ForwardOrigin; sx_Entities : list Shared.Entity;
  sx_Variables : gmap string string }.

Record CommandRequest := MkCommandRequest {
  cr_Thread : Thread; cr_Message : SendTextRequest; cr_Sender : option ThreadDialog }.

Definition memberByContactID (members : list ThreadDialog) (contactID : uuid) : option ThreadDialog :=
  find_first (fun m => bool_decide (td_ContactID m = contactID)) members.

Definition newCommandRequest (thread : Thread) (in_ : SendTextRequest) : CommandRequest :=
  MkCommandRequest thread in_ (memberByContactID (thr_Members thread) (Shared.peer_ID (sx_From in_))).

(** [None] is a command without a message. *)
Record Command := MkCommand {
  cmd_Name : string;
  cmd_CanExecute : CommandRequest -> bool;
  cmd_Execute : CommandRequest -> SM (option Message) }.

Definition commandPrefix : string := "/".
Definition CommandDispatcher : Type := gmap string Command.

Definition NewCommandDispatcher (commands : list Command) : CommandDispatcher :=
  fold_left (fun d c => <[cmd_Name c := c]> d) commands ∅.

Definition lookup_command (d : CommandDispatcher) (body : string) : option Command :=
  let body := TrimSpace body in
  if String.prefix commandPrefix body then d !! body else None.

(** [None]: the text is not handled as a command. *)
Definition Dispatch (d : CommandDispatcher) (thread : Thread) (in_ : SendTextRequest)
    : SM (option (result (option Message))) :=
  match lookup_command d (sx_Body in_) with
  | None => mret None
  | Some cmd =>
      let req := newCommandRequest thread in_ in
      if cmd_CanExecute cmd req then r ← catch (cmd_Execute cmd req); mret (Some r) else mret None
  end.

(** ** /close *)
Definition CommandClose : string := "/close".
Definition botStoppedSystemType : string := "bot_stopped".

Definition close_CanExecute (req : CommandRequest) : bool :=
  match thr_BotControllerID (cr_Thread req) with
  | None => false
  | Some controller =>
      match cr_Sender req with
      | Some s => negb (td_IsBot s || bool_decide (td_ID s = controller))
      | None => true
      end
  end.

Section close.
Context {E : Env}.

Definition buildBotStoppedMessage (in_ : SendTextRequest) (t : Thread) : Message :=
  SetMemberFromSlice (thr_Members t)
    (MkMessage uuid_Nil (sx_SendAs in_) (sx_SendID in_) "" "" (thr_ID t) (to_int32 (sx_DomainID in_)) (sx_From in_)
       (sx_To in_) (Some (List.filter (fun m => negb (td_IsBot m)) (thr_Members t))) (sx_Body in_) MessageTypeSystem
       (BuildMetadata (sx_Body in_) []) 0 0 false uuid_Nil uuid_Nil None 0 0 0 [] [] None None None
       (Some (MkSystem botStoppedSystemType ∅)) None None None None []).

(** [BotController] is the part of the thread manager the command needs. *)
Definition close_Execute (release : ReleaseBotControlRequest -> SM unit) (req : CommandRequest) : SM (option Message) :=
  let in_ := cr_Message req in let t := cr_Thread req in
  release (MkRelease (thr_ID t) (match cr_Sender req with Some s => td_ID s | None => uuid_Nil end) (sx_DomainID in_));;
  mret (Some (buildBotStoppedMessage in_ t)).

Definition CloseCommand (release : ReleaseBotControlRequest -> SM unit) : Command :=
  MkCommand CommandClose close_CanExecute (close_Execute release).

(** internal/service/module.go: the commands of the service. *)
Definition commands {H : ThreadTagHooks} : CommandDispatcher := NewCommandDispatcher [CloseCommand ReleaseBotControl].
End close.
