(* ===== verification/Variables.v ===== *)
(** * Variables: the variables service

    internal/service/thread_variables.go with the topics and payload of
    internal/domain/model/thread_variables.go: every change is a statement of
    its own, announced to the broker after it, outside the outbox. *)
From S2P Require Import Prelude Domain Events Message World DialogStore Paging PreviewStore VariableStore MediaProcessor.
#[local] Open Scope Z_scope.

Section service.
Context {E : Env} {X : MessageEnv}.
Context (jsonb_le : variables -> variables -> bool).

Definition PrepareSetTopic (tid setBy : uuid) : string :=
  "im_thread." +:+ env_uuid_string tid +:+ ".variables.set." +:+ env_uuid_string setBy.
Definition PrepareFlushTopic (tid flushBy : uuid) : string :=
  "im_thread." +:+ env_uuid_string tid +:+ ".variables.flush." +:+ env_uuid_string flushBy.

(** [prepareVariablesMessage] and the publisher: the payload holds the
    variables and the members. *)
Definition publishVariables (topic msg : string) (result : ThreadVariables) : SM unit :=
  match menv_publish topic with
  | Err e => throw (internal msg e)
  | OK _ =>
      modify (fun w => set_signals (w_signals w ++ [SigVariables topic (tv_Variables result) (tv_ThreadMembers result)]) w)
  end.

Definition SetVariables (cmd : SetThreadVariablesCommand) : SM ThreadVariables :=
  result ← VariableStore.Set_ cmd;
  publishVariables (PrepareSetTopic (tv_ThreadID result) (sv_Member cmd)) "publish set variables" result;;
  mret result.

Definition SearchVariables (q : GetThreadVariablesQuery) : SM (Page ThreadVariables) :=
  VariableStore.Search jsonb_le q.

Definition thread_not_readable : error := Forbidden "thread does not exist or you are not a member".

Definition LocateVariables (q : LocateThreadVariablesQuery) : SM (option ThreadVariables) :=
  (if decide (lv_CallerID q = uuid_Nil) then mret tt
   else
     ok ← CanRead (lv_ThreadID q) (lv_CallerID q) (lv_DomainID q);
     guard_err (negb ok) thread_not_readable);;
  VariableStore.Locate q.

Definition FlushVariables (cmd : FlushVariablesCommand) : SM ThreadVariables :=
  result ← VariableStore.Flush cmd;
  publishVariables (PrepareFlushTopic (tv_ThreadID result) (fv_Member cmd)) "publish flush variable event" result;;
  mret result.
End service.
