(* ===== verification/Previews.v ===== *)
(** * Previews: giving, removing and upgrading a look into a thread

    internal/service/thread_preview.go.  An upgrade adds the contact as a member
    and spends the preview in the same transaction, through the hook of
    addMemberToChat. *)
From S2P Require Import Prelude Domain Events Message World BotControlStore DialogStore ThreadStore Permissions.
From S2P Require Import Outbox TagService References ControlEvents BotFlow Members PreviewStore.
#[local] Open Scope Z_scope.

(** internal/service/dto/thread_preview.go; the duration is in nanoseconds. *)
Record GivePreviewRequest := MkGivePreview {
  gp_ThreadID : uuid; gp_ContactID : uuid; gp_InitiatorContactID : uuid; gp_DomainID : Z; gp_Duration : Z }.
Record RemoveFromPreviewRequest := MkRemovePreview {
  rp_ThreadID : uuid; rp_ContactID : uuid; rp_InitiatorContactID : uuid; rp_DomainID : Z }.
Record UpgradePreviewRequest := MkUpgradePreview {
  up_ThreadID : uuid; up_ContactID : uuid; up_InitiatorContactID : uuid; up_DomainID : Z; up_Role : Z;
  up_Queue : option QueueInfo }.

Definition maxPreviewDuration : Z := 3600000000000.

Definition validatePreviewTarget (threadID contactID initiatorID : uuid) (domainID : Z) : result unit :=
  if bool_decide (threadID = uuid_Nil) || bool_decide (contactID = uuid_Nil)
  then Err (InvalidArgument "thread_id and contact_id must not be empty")
  else if domainID <=? 0 then Err (InvalidArgument "domain_id must be positive")
  else if decide (initiatorID = uuid_Nil) then Err (InvalidArgument "initiator_contact_id must not be empty")
  else OK tt.

Definition already_member : error :=
  WithCode CodeAlreadyExists (errors_New "contact is already a member of the thread").
Definition errPreviewNotActive : error :=
  WithCode CodeFailedPrecondition (errors_New "preview has expired or was revoked").
Definition unknown_role : error := InvalidArgument "unknown member role".

Section service.
Context {E : Env} {H : ThreadTagHooks}.

Definition give_body (req : GivePreviewRequest) : SM ThreadPreview :=
  LockForUpdate (gp_ThreadID req);;
  members ← GetQuickView (MkDialogFilter 0 0 (Some [gp_ThreadID req]) (Some [gp_ContactID req]) None false 0);
  match members with
  | _ :: _ => throw already_member
  | [] =>
      Upsert (MkPreviewRow uuid_Nil (gp_DomainID req) (gp_ThreadID req) (gp_ContactID req) (gp_InitiatorContactID req)
                0 0 None None) (Z.quot (gp_Duration req) 1000000)
  end.

Definition GivePreview (req : GivePreviewRequest) : SM ThreadPreview :=
  of_result (validatePreviewTarget (gp_ThreadID req) (gp_ContactID req) (gp_InitiatorContactID req) (gp_DomainID req));;
  if (gp_Duration req <=? 0) || (maxPreviewDuration <? gp_Duration req)
  then throw (InvalidArgument "duration must be positive and at most 1h")
  else WithinTransaction (give_body req).

(** Without an active preview there is nothing to remove. *)
Definition remove_preview_body (req : RemoveFromPreviewRequest) : SM unit :=
  active ← GetActiveForUpdate (rp_ThreadID req) (rp_ContactID req) (rp_DomainID req);
  match active with
  | None => mret tt
  | Some p => Revoke (pv_id p) PreviewRevokeReasonRemove;; mret tt
  end.

Definition RemoveFromPreview (req : RemoveFromPreviewRequest) : SM unit :=
  if bool_decide (rp_ContactID req = uuid_Nil) || bool_decide (rp_ThreadID req = uuid_Nil) || (rp_DomainID req <=? 0)
  then throw (InvalidArgument "thread_id and contact_id must not be empty, domain_id must be positive")
  else WithinTransaction (remove_preview_body req).

(** The hook of the upgrade. *)
Definition spend_preview (req : UpgradePreviewRequest) : SM unit :=
  p ← GetActiveForUpdate (up_ThreadID req) (up_ContactID req) (up_DomainID req);
  match p with
  | None => throw errPreviewNotActive
  | Some p =>
      revoked ← Revoke (pv_id p) PreviewRevokeReasonUpgrade;
      match revoked with None => throw errPreviewNotActive | Some _ => mret tt end
  end.

Definition UpgradePreviewToFullMember (req : UpgradePreviewRequest) : SM uuid :=
  of_result (validatePreviewTarget (up_ThreadID req) (up_ContactID req) (up_InitiatorContactID req) (up_DomainID req));;
  if decide (up_Role req = Role.UnspecifiedRole) then throw unknown_role
  else
    match getDefaultPermissionsByRole (up_Role req) with
    | Err _ => throw unknown_role
    | OK _ =>
        addMemberToChat (MkAddMember (up_ThreadID req) (up_ContactID req) (up_InitiatorContactID req) (up_Role req)
          (up_DomainID req) false None (up_Queue req) true) (spend_preview req)
    end.
End service.
