(* ===== verification/MessageService.v ===== *)
(** * MessageService: sending, editing and deleting messages

    internal/service/message.go with the checks of internal/service/guards and
    internal/service/dto.  Every save runs in one transaction that also counts
    the message as unread, clears the tags of its recipients, marks it delivered
    to bots and publishes its event; the external providers hear of it after
    the commit, and their answer is only logged. *)
From S2P Require Import Prelude Domain Events Message World Text BotControlStore DialogStore.
From S2P Require Import ThreadStore Outbox TagService MessageStatus StatusService MessageStore.
From S2P Require Import ExternalStore ReactionStore Paging PreviewStore VariableStore ControlEvents BotFlow DirectThread.
From S2P Require Import MediaProcessor Commands.
#[local] Open Scope Z_scope.

(** ** Requests *)
Record SendTextResponse := MkSendTextResponse { sy_To : Shared.Peer; sy_ID : uuid }.
Record SendDocumentRequest := MkSendDocument {
  sd_From : Shared.Peer; sd_To : Shared.Peer; sd_Body : string; sd_Documents : list Attachment; sd_DomainID : Z;
  sd_SendID : string; sd_SendAs : option uuid; sd_ReplyToMessageID : option uuid; sd_ExternalID : string;
  sd_ReplyToExternalID : string; sd_ForwardOrigin : option ForwardOrigin; sd_Entities : list Shared.Entity;
  sd_Variables : gmap string string }.
Record ReadMessageRequest := MkReadMessage {
  rr_MessageID : string; rr_ThreadID_ : string; rr_UserID : string; rr_DomainID : Z; rr_UpToSeq : Z }.
Record DeleteMessagesRequest := MkDeleteMessages { dq_DeletedBy : Shared.Peer; dq_IDs : list uuid; dq_DomainID : Z }.
Record DeleteMessagesResponse := MkDeleteResponse {
  ds_DeletedIDs : list uuid; ds_Skipped : list MessageSkip; ds_DeletedAt : option Time }.
Record SetReactionRequest := MkSetReaction {
  sr_Reactor : Shared.Peer; sr_MessageID : uuid; sr_ThreadID : option uuid; sr_Emoji : string;
  sr_CustomEmojiID : string; sr_DomainID : Z; sr_IdempotencyKey : string; sr_ExternalID : string }.
Record SetReactionResponse := MkSetReactionResponse { sp_Action : ReactionAction; sp_Emoji : string; sp_ReactedAt : Time }.

(** ** Guards

    Each guard is a list of checks, the first failure is the answer; requests
    are not nil. *)
Fixpoint first_error (checks : list (bool * error)) : result unit :=
  match checks with
  | [] => OK tt
  | (ok, e) :: checks' => if ok : bool then first_error checks' else Err e
  end.

Definition nil_peer (p : Shared.Peer) : bool := bool_decide (Shared.peer_ID p = uuid_Nil).

Definition SendTextGuard (req : SendTextRequest) : result unit := first_error
  [(negb (nil_peer (sx_From req) || nil_peer (sx_To req)), errors_New "sender and receiver ids are required");
   (negb (bool_decide (sx_Body req = "")), errors_New "message body is empty");
   (negb (bool_decide (sx_ReplyToMessageID req = Some uuid_Nil)), errors_New "reply_to_message_id is not a valid uuid")].

Definition ValidateSendDocument (req : SendDocumentRequest) : result unit := first_error
  [(0 <? sd_DomainID req, InvalidArgument "domain id is required and must be gt 0");
   (negb (nil_peer (sd_From req)), InvalidArgument "from peer id is required");
   (negb (nil_peer (sd_To req)), InvalidArgument "to peer is required");
   (negb (bool_decide (sd_ReplyToMessageID req = Some uuid_Nil)), InvalidArgument "reply_to_message_id is not a valid uuid")].

(** ** Reasons of a refused deletion *)
Definition alreadyDeletedSkip (skipped : list MessageSkip) : bool :=
  existsb (fun s => bool_decide (sk_Reason s = MessageSkipAlreadyDeleted)) skipped.

Definition reasons_in_order (skipped : list MessageSkip) : list Z :=
  fold_left (fun acc s => if bool_decide (sk_Reason s ∈ acc) then acc else acc ++ [sk_Reason s]) skipped [].

Definition skipReasonSummary (skipped : list MessageSkip) : string :=
  match skipped with
  | [] => skip_String MessageSkipNotFound
  | [s] => skip_String (sk_Reason s)
  | _ => String.concat ", " ((fun r =>
           skip_String r +:+ " (" +:+ pretty (length (List.filter (fun s => bool_decide (sk_Reason s = r)) skipped)) +:+ ")")
           <$> reasons_in_order skipped)
  end.

(** [slices.SortStableFunc] by the bytes of the thread id. *)
Fixpoint insert_by_thread (m : Message) (l : list Message) : list Message :=
  match l with
  | [] => [m]
  | x :: l' => if (msg_ThreadID x <? msg_ThreadID m)%N then x :: insert_by_thread m l' else m :: l
  end.
Definition sort_by_thread (l : list Message) : list Message := foldr insert_by_thread [] l.

(** ** Gates *)
Definition gateIDForPeer (peer : Shared.Peer) (members : list ThreadDialog) : string :=
  match Shared.ResolveVia peer with
  | Some via => via
  | None =>
      match find_first (fun m => bool_decide (td_ContactID m = Shared.peer_ID peer) &&
                                 negb (bool_decide (default "" (td_Via m) = ""))) members with
      | Some m => default "" (td_Via m)
      | None => ""
      end
  end.

Definition statusViaBot : string := "bot".

(** The receipt that marks a message delivered to a bot. *)
Definition bot_receipt (msg : Message) (member : ThreadDialog) : StatusReceipt :=
  MkStatusReceipt (msg_DomainID msg) (msg_ThreadID msg) (msg_ID msg) uuid_Nil 0 (td_ContactID member) None statusViaBot None.

Definition bot_receipts (msg : Message) : list StatusReceipt :=
  bot_receipt msg <$> List.filter td_IsBot (Recipients msg).

Section service.
Context {E : Env} {H : ThreadTagHooks} {X : MessageEnv}.

(** ** Publishing *)
Definition empty_queue : error := errors_New "domain events queue is empty: transaction aborted".

Definition dispatchEvents (events : list Event) (topic : Event -> string) : SM unit :=
  for_each (fun e => map_err (wrapf "outbox publish failed") (Outbox.Publish (topic e) e)) events.

(** The message with its queue drained. *)
Definition dispatchMessageEvents (msg : Message) : SM Message :=
  match Message_Events msg with
  | ([], _) => throw empty_queue
  | (events, msg') => dispatchEvents events (message_topic env_uuid_string);; mret msg'
  end.

(** ** Statuses of a message just saved *)
Definition insertSentStatuses (msg : Message) : SM unit :=
  InsertSent (Some msg) (RecipientIDs msg);;
  OnMessage msg;;
  match bot_receipts msg with
  | [] => mret tt
  | receipts =>
      changes ← map_err (wrapf "marking bot recipients delivered") (MarkDelivered (Some <$> receipts));
      dispatchStatusChangeEvents changes
  end.

(** Without an adapter nothing is sent; a failure of the provider is logged. *)
Definition sendMessageToExternalProvider (msg : Message) : SM unit :=
  match env_providers with
  | None => mret tt
  | Some _ => modify (fun w => set_sent (w_sent w ++ [msg]) w)
  end.

Definition recordInboundExternalID (msg : Message) (from : Shared.Peer) (externalID : string) : SM unit :=
  if decide (externalID = "") then mret tt
  else
    let gateID := gateIDForPeer from (to_list msg) in
    if decide (gateID = "") then mret tt
    else ExternalStore.Save (MkExternalID (msg_ID msg) (msg_ThreadID msg) gateID externalID ExternalDirectionInbound).

(** The variables name the dialog of the sender as their owner; a failure is logged. *)
Definition seedThreadVariables (msg : Message) (vars : gmap string string) : SM unit :=
  match msg_Member msg with
  | None => mret tt
  | Some member =>
      if bool_decide (vars = ∅) || bool_decide (td_ID member = uuid_Nil) then mret tt
      else
        catch (VariableStore.Set_ (MkSetVariables (td_ID member) (msg_ThreadID msg)
          ((fun v => MkVariable (AnyString v) (td_ID member) 0) <$> vars)));;
        mret tt
  end.

(** ** Replies *)
Definition bad_reply : error := InvalidArgument "reply target message not found in this thread".

Definition resolveReplyPreview (replyToID threadID : uuid) (domainID : Z) : SM ReplyToPreview :=
  if decide (replyToID = uuid_Nil) then throw (InvalidArgument "reply_to_message_id is not a valid uuid")
  else
    preview ← GetReplyPreview replyToID domainID;
    match preview with
    | None => throw bad_reply
    | Some p => if decide (rto_ThreadID p = threadID) then mret p else throw bad_reply
    end.

(** Whatever goes wrong, the message is saved without a link. *)
Definition resolveExternalReply (replyToExternalID : string) (from : Shared.Peer) (t : Thread) (domainID : Z)
    : SM (option ReplyToPreview) :=
  if decide (replyToExternalID = "") then mret None
  else
    let gateID := gateIDForPeer from (thr_Members t) in
    if decide (gateID = "") then mret None
    else
      id ← catch (LookupMessageID gateID replyToExternalID);
      match id with
      | Err _ => mret None
      | OK id =>
          if decide (id = uuid_Nil) then mret None
          else
            preview ← catch (GetReplyPreview id domainID);
            mret (match preview with
                  | OK (Some p) => if decide (rto_ThreadID p = thr_ID t) then Some p else None
                  | _ => None
                  end)
      end.

Definition resolveReply (replyToID : option uuid) (replyToExternalID : string) (from : Shared.Peer) (t : Thread)
    (domainID : Z) : SM (option ReplyToPreview) :=
  match replyToID with
  | Some id => p ← resolveReplyPreview id (thr_ID t) domainID; mret (Some p)
  | None => resolveExternalReply replyToExternalID from t domainID
  end.

(** ** System messages *)
Definition writeSystemMessage (msg : Message) : SM Message :=
  WithinTransaction (
    saved ← SaveSystemMessage msg;
    let saved := msg_sent (msg_To msg) (msg_IdempotencyKey msg) None saved in
    insertSentStatuses saved;;
    dispatchMessageEvents (WithCreatedEvent env_uuid_valid env_ctx (msg_IdempotencyKey msg) saved)).

(** An error is logged: the command has taken effect already. *)
Definition sendCommandMessage (in_ : SendTextRequest) (msg : option Message) : SM SendTextResponse :=
  match msg with
  | None => mret (MkSendTextResponse (sx_To in_) uuid_Nil)
  | Some msg =>
      saved ← catch (writeSystemMessage msg);
      mret (MkSendTextResponse (sx_To in_) (match saved with OK s => msg_ID s | Err _ => uuid_Nil end))
  end.

(** ** Text *)
Definition text_message (in_ : SendTextRequest) (thread : Thread) (reply : option ReplyToPreview) : Message :=
  SetMemberFromSlice (thr_Members thread)
    (MkMessage uuid_Nil (sx_SendAs in_) "" "" "" (thr_ID thread) (to_int32 (sx_DomainID in_)) (sx_From in_) zero_peer
       (Some (thr_Members thread)) (sx_Body in_) MessageTypeText (BuildMetadata (sx_Body in_) (sx_Entities in_))
       0 0 false uuid_Nil uuid_Nil None 0 0 0 [] [] None None None None None (thr_BotControllerID thread) reply
       (sx_ForwardOrigin in_) []).

Definition save_text (in_ : SendTextRequest) (thread : Thread) (msg : Message) : SM Message :=
  saved ← SaveMessage msg;
  let saved := msg_sent (Some (thr_Members thread)) "" (msg_ReplyTo msg) saved in
  recordInboundExternalID saved (sx_From in_) (sx_ExternalID in_);;
  seedThreadVariables saved (sx_Variables in_);;
  insertSentStatuses saved;;
  dispatchMessageEvents (WithCreatedEvent env_uuid_valid env_ctx (sx_SendID in_) saved).

Definition SendText (d : CommandDispatcher) (in_ : SendTextRequest) : SM SendTextResponse :=
  match SendTextGuard in_ with
  | Err e => throw (WithCause e (InvalidArgument "validating text message"))
  | OK _ =>
      thread ← EnsureDirectThread (MkEnsure (sx_DomainID in_) (sx_From in_) (sx_To in_) (sx_SendAs in_));
      handled ← Dispatch d thread in_;
      match handled with
      | Some (Err e) => throw e
      | Some (OK msg) => sendCommandMessage in_ msg
      | None =>
          reply ← resolveReply (sx_ReplyToMessageID in_) (sx_ReplyToExternalID in_) (sx_From in_) thread
                    (to_int32 (sx_DomainID in_));
          saved ← map_err (internal "error saving text message")
            (WithinTransaction (save_text in_ thread (text_message in_ thread reply)));
          sendMessageToExternalProvider saved;;
          mret (MkSendTextResponse (sx_To in_) (msg_ID saved))
      end
  end.

(** ** Documents *)

(** [model.NewDocumentMessage] on the inputs of [mapDocumentInputs], whose
    decimal file ids are read back; a text with entities is kept as it came. *)
Definition document_message (id : uuid) (at_ : Time) (in_ : SendDocumentRequest) (t : Thread) (docs : list Attachment)
    : Message :=
  let text := if bool_decide (length (sd_Entities in_) = 0%nat) then prepareText menv_nfc (sd_Body in_) else sd_Body in_ in
  MkMessage id None "" "" "" (thr_ID t) (to_int32 (sd_DomainID in_)) (sd_From in_) zero_peer
    (Some (thr_Members t)) text MessageTypeFile (BuildMetadata text (sd_Entities in_)) at_ 0 false uuid_Nil uuid_Nil
    None 0 0 0 [] (to_document <$> docs) None None None None
    (Some (MkDialog uuid_Nil 0 0 0 uuid_Nil uuid_Nil 0 None None None None false false)) None None None [].

Definition assertDocumentsBelongToThread (threadID : uuid) (docs : list Attachment) : SM unit :=
  let fileIDs := List.filter (fun id => 0 <? id) (att_ID <$> docs) in
  if bool_decide (length fileIDs = 0%nat) then mret tt
  else
    foreign ← map_err (internal "verify document ownership") (FileIDsBoundToOtherThreads fileIDs threadID);
    if bool_decide (length foreign = 0%nat) then mret tt
    else throw (Forbidden ("files [" +:+ String.concat " " (pretty <$> foreign) +:+ "] were not uploaded in this chat")).

Definition save_document (in_ : SendDocumentRequest) (msg : Message) : SM Message :=
  saved ← map_err (internal "save message") (SaveMessage msg);
  map_err (internal "save documents") (SaveDocuments (msg_ID saved) (msg_Documents msg));;
  let msg := msg_saved_as (msg_ID saved) (msg_From saved) (msg_Seq saved) msg in
  map_err (internal "save external message id") (recordInboundExternalID msg (sd_From in_) (sd_ExternalID in_));;
  seedThreadVariables msg (sd_Variables in_);;
  map_err (internal "insert sent statuses") (insertSentStatuses msg);;
  map_err (internal "dispatch message events")
    (dispatchMessageEvents (WithCreatedEvent env_uuid_valid env_ctx (sd_SendID in_) msg)).

Definition SendDocument (in_ : SendDocumentRequest) : SM SendTextResponse :=
  match ValidateSendDocument in_ with
  | Err e => throw (WithCause e (InvalidArgument "send document request validation"))
  | OK _ =>
      t ← EnsureDirectThread (MkEnsure (sd_DomainID in_) (sd_From in_) (sd_To in_) (sd_SendAs in_));
      reply ← resolveReply (sd_ReplyToMessageID in_) (sd_ReplyToExternalID in_) (sd_From in_) t
                (to_int32 (sd_DomainID in_));
      assertDocumentsBelongToThread (thr_ID t) (sd_Documents in_);;
      docs ← of_result (Process (sd_DomainID in_) (sd_Documents in_));
      metas ← of_result (FetchFileLinksWithMetadata (sd_DomainID in_) docs);
      id ← fresh;
      at_ ← now;
      let msg := SetMemberFromSlice (thr_Members t)
        (msg_sourced (sd_SendAs in_) (thr_BotControllerID t) reply (sd_ForwardOrigin in_)
           (document_message id at_ in_ t (with_metadata metas <$> docs))) in
      saved ← WithinTransaction (save_document in_ msg);
      sendMessageToExternalProvider saved;;
      mret (MkSendTextResponse (sd_To in_) (msg_ID saved))
  end.

(** ** Locations, contacts, keyboards and service messages

    The message given to the providers is the request with its new id, the one
    returned is the saved message. *)
Definition prepareMessageForSending (msg : Message) : SM Message :=
  t ← EnsureDirectThread (MkEnsure (msg_DomainID msg) (msg_From msg) (msg_SendTo msg) (msg_SendAs msg));
  let msg := SetMemberFromSlice (thr_Members t)
    (msg_prepared (thr_ID t) (Some (thr_Members t)) (thr_BotControllerID t) msg) in
  match msg_ReplyTo msg with
  | Some r =>
      preview ← resolveReplyPreview (rto_MessageID r) (thr_ID t) (msg_DomainID msg);
      mret (msg_set_ReplyTo (Some preview) msg)
  | None =>
      if decide (msg_ReplyToExternalID msg = "") then mret msg
      else
        preview ← resolveExternalReply (msg_ReplyToExternalID msg) (msg_From msg) t (msg_DomainID msg);
        mret (msg_set_ReplyTo preview msg)
  end.

(** The transaction shared by SendLocation and SendContact. *)
Definition save_card (save : Message -> SM Message) (msg : Message) : SM Message :=
  saved ← save msg;
  let saved := msg_sent (msg_To msg) (msg_IdempotencyKey msg) (msg_ReplyTo msg) saved in
  recordInboundExternalID saved (msg_From msg) (msg_ExternalID msg);;
  insertSentStatuses saved;;
  dispatchMessageEvents (WithCreatedEvent env_uuid_valid env_ctx (msg_IdempotencyKey msg) saved).

Definition send_card (save : Message -> SM Message) (msg : Message) : SM Message :=
  msg ← prepareMessageForSending msg;
  saved ← WithinTransaction (save_card save msg);
  sendMessageToExternalProvider (msg_set_ID (msg_ID saved) msg);;
  mret saved.

Definition SendLocation : Message -> SM Message := send_card SaveMessageLocation.
Definition SendContact : Message -> SM Message := send_card SaveMessageContact.

(** Uploading changes the attachments of the request in place. *)
Definition process_interactive (msg : Message) : result Message :=
  if bool_decide (length (msg_Documents msg) = 0%nat) && bool_decide (length (msg_Images msg) = 0%nat) then OK msg
  else
    match Process (msg_DomainID msg) ((of_document <$> msg_Documents msg) ++ (of_image <$> msg_Images msg)) with
    | Err e => Err (WithCause e (Internal "media_process_failed"))
    | OK items =>
        let n := length (msg_Documents msg) in
        OK (msg_set_attachments (to_document <$> take n items) (to_image <$> skipn n items) msg)
    end.

Definition save_interactive (msg : Message) : SM Message :=
  saved ← SaveInteractiveMessage msg;
  let saved := msg_sent (msg_To msg) "" None saved in
  insertSentStatuses saved;;
  dispatchMessageEvents (WithCreatedEvent env_uuid_valid env_ctx (msg_IdempotencyKey msg) saved).

Definition SendInteractive (msg : Message) : SM Message :=
  msg ← prepareMessageForSending msg;
  msg ← of_result (process_interactive msg);
  saved ← WithinTransaction (save_interactive msg);
  sendMessageToExternalProvider (msg_set_ID (msg_ID saved) msg);;
  mret saved.

Definition SendSystemMessage (msg : Message) : SM Message :=
  msg ← prepareMessageForSending msg;
  saved ← writeSystemMessage msg;
  sendMessageToExternalProvider saved;;
  mret saved.
End service.
