(* ===== verification/MessageActions.v ===== *)
(** * MessageActions: reading, editing, deleting, reacting, forwarding, buttons

    internal/service/message.go and message_forward.go: the operations on
    messages that exist, with their guards; and the press of a button of an
    interactive message, with internal/store/postgres/interactive_callback.go
    over im_message.buttons_callback, one row per message and button, and the
    callback of internal/domain/model/message_content.go. *)
From S2P Require Import Prelude Domain Events Message World Text BotControlStore DialogStore ThreadStore.
From S2P Require Import Outbox TagService MessageStatus StatusService MessageStore ExternalStore ReactionStore.
From S2P Require Import ControlEvents DirectThread MediaProcessor MessageService.
#[local] Open Scope Z_scope.

(** ** Guards *)
Section guards.
Context {E : Env} {X : MessageEnv}.

Definition ValidateReadMessage (req : ReadMessageRequest) : result unit :=
  let parsed s e := match menv_uuid_parse s with Some _ => (true, e) | None => (false, e) end in
  first_error (
    [(0 <=? rr_UpToSeq req, errors_New "up_to_seq must be positive")] ++
    (if decide (rr_UpToSeq req = 0) then
       [(negb (bool_decide (rr_MessageID req = "")), errors_New "message id or up_to_seq is required");
        parsed (rr_MessageID req) (errors_New "invalid message id format")]
     else []) ++
    [(negb (bool_decide (rr_ThreadID_ req = "")), errors_New "thread id is required");
     parsed (rr_ThreadID_ req) (errors_New "invalid thread id format");
     (negb (bool_decide (rr_UserID req = "")), errors_New "user id is required")]).

Definition maxReactionBytes : nat := 64.

(** The request with its emoji in canonical form. *)
Definition ValidateSetReaction (req : SetReactionRequest) : result SetReactionRequest :=
  if decide (sr_MessageID req = uuid_Nil) then Err (InvalidArgument "message id is required")
  else if nil_peer (sr_Reactor req) then Err (InvalidArgument "reactor identity is required")
  else if decide (sr_CustomEmojiID req <> "") then Err (InvalidArgument "custom emoji reactions are not supported yet")
  else if decide (sr_Emoji req = "") then OK req
  else
    let normalized := menv_nfc (sr_Emoji req) in
    if (maxReactionBytes <? String.length normalized)%nat then Err (InvalidArgument "reaction emoji is too long")
    else if negb (env_graphemes normalized =? 1) then Err (InvalidArgument "reaction must be exactly one emoji")
    else if negb (menv_contains_emoji normalized) then Err (InvalidArgument "reaction is not a valid emoji")
    else OK (MkSetReaction (sr_Reactor req) (sr_MessageID req) (sr_ThreadID req) normalized (sr_CustomEmojiID req)
               (sr_DomainID req) (sr_IdempotencyKey req) (sr_ExternalID req)).
End guards.

Section service.
Context {E : Env} {H : ThreadTagHooks} {X : MessageEnv}.

(** ** Read

    The user id is not checked; one that does not parse is the nil contact. *)
Definition already_read : error := WithCode CodeFailedPrecondition (errors_New "already read up to this message").

Definition read_receipt (in_ : ReadMessageRequest) : ReadReceipt :=
  let parse s := default uuid_Nil (menv_uuid_parse s) in
  MkReadReceipt (rr_DomainID in_) (parse (rr_ThreadID_ in_)) (parse (rr_UserID in_))
    (if decide (rr_UpToSeq in_ = 0) then parse (rr_MessageID in_) else uuid_Nil) (rr_UpToSeq in_) None "".

Definition Read (in_ : ReadMessageRequest) : SM unit :=
  match ValidateReadMessage in_ with
  | Err e => throw (wrapf "validation" e)
  | OK _ =>
      WithinTransaction (
        changes ← map_err (wrapf "read_message") (MarkRead [Some (read_receipt in_)]);
        match changes with
        | [] => throw already_read
        | _ => dispatchStatusChangeEvents changes
        end)
  end.

(** ** Delivery reports of external gates

    A report about an unknown message is ignored. *)
Definition UpdateMessageDelivery (in_ : MessageDelivery) : SM unit :=
  if bool_decide (md_GateID in_ = "") || bool_decide (md_ExternalID in_ = "")
  then throw (InvalidArgument "gate id and external message id are required")
  else if negb (Delivery.Valid (md_Status in_)) then throw (InvalidArgument "unknown delivery status")
  else
    at_ ← now;
    let in_ := MkDelivery (md_GateID in_) (md_ExternalID in_) (md_Status in_) (md_Reason in_)
                 (Some (default at_ (md_At in_))) (md_DomainID in_) in
    r ← catch (UpdateDelivery (Some in_));
    match r with
    | OK _ => mret tt
    | Err e => if decide (Code e = CodeNotFound) then mret tt else throw e
    end.

(** ** Edit *)
Definition edit_body (msg : Message) : SM Message :=
  edited ← MessageStore.EditMessage msg;
  members ← GetQuickView (members_of (msg_ThreadID edited));
  dispatchMessageEvents (WithEditedEvent env_uuid_valid env_ctx
    (msg_set_route (Some members) (msg_From msg) edited)).

Definition EditMessage (msg : Message) : SM Message :=
  if decide (msg_ID msg = uuid_Nil) then throw (InvalidArgument "message id is required")
  else if nil_peer (msg_From msg) then throw (InvalidArgument "editor identity is required")
  else WithinTransaction (edit_body msg).

(** ** Delete *)
Definition resolveContactIdentity (contactID : uuid) (domainID : Z) : option ContactIdentity :=
  if decide (contactID = uuid_Nil) then None
  else match menv_identity contactID domainID with OK identity => identity | Err _ => None end.

Definition not_deleted (skipped : list MessageSkip) : error :=
  Forbidden ("no messages could be deleted: " +:+ skipReasonSummary skipped).

(** The members of each thread are read once; the answer collects the deleted
    ids, the first time of deletion and the members read. *)
Fixpoint announce_deleted (deleter : Shared.Peer) (contact : option ContactIdentity)
    (byThread : gmap uuid (list ThreadDialog)) (msgs : list Message)
    : SM (list uuid * option Time * gmap uuid (list ThreadDialog)) :=
  match msgs with
  | [] => mret ([], None, byThread)
  | msg :: msgs' =>
      members ← match byThread !! msg_ThreadID msg with
                | Some members => mret members
                | None => GetQuickView (members_of (msg_ThreadID msg))
                end;
      at_ ← now;
      let msg := msg_set_route (Some members) deleter msg in
      dispatchMessageEvents (WithDeletedEvent env_uuid_valid at_ env_ctx contact msg);;
      rest ← announce_deleted deleter contact (<[msg_ThreadID msg := members]> byThread) msgs';
      mret (msg_ID msg :: rest.1.1, Some (DeletedAtOrNow at_ msg), rest.2)
  end.

Definition delete_body (in_ : DeleteMessagesRequest) (contact : option ContactIdentity) : SM DeleteMessagesResponse :=
  outcome ← MessageStore.DeleteMessages (dq_IDs in_) (Shared.peer_ID (dq_DeletedBy in_));
  if bool_decide (length (dr_Deleted outcome) = 0%nat) && negb (alreadyDeletedSkip (dr_Skipped outcome))
  then throw (not_deleted (dr_Skipped outcome))
  else
    announced ← announce_deleted (dq_DeletedBy in_) contact ∅ (sort_by_thread (dr_Deleted outcome));
    RecountUnread (merge_sort N.le (fst <$> map_to_list announced.2));;
    mret (MkDeleteResponse announced.1.1 (dr_Skipped outcome) announced.1.2).

Definition DeleteMessages (in_ : DeleteMessagesRequest) : SM DeleteMessagesResponse :=
  if bool_decide (length (dq_IDs in_) = 0%nat) then throw (InvalidArgument "message ids are required")
  else if nil_peer (dq_DeletedBy in_) then throw (InvalidArgument "deleter identity is required")
  else
    let contact := resolveContactIdentity (Shared.peer_ID (dq_DeletedBy in_)) (dq_DomainID in_) in
    WithinTransaction (delete_body in_ contact).

(** ** React *)
Definition not_allowed : error :=
  Forbidden "reaction not allowed: message not found, deleted, or the reactor may not react in this thread".

Definition dispatchReactionEvents (r : Reaction) : SM unit :=
  dispatchEvents (rct_domainEvents r) (reaction_topic env_uuid_string).

Definition reaction_request (in_ : SetReactionRequest) : Reaction :=
  MkReaction (sr_MessageID in_) (default uuid_Nil (sr_ThreadID in_)) (sr_DomainID in_) (Shared.peer_ID (sr_Reactor in_))
    None (sr_Emoji in_) (sr_IdempotencyKey in_) (sr_ExternalID in_) (sr_Reactor in_) [] [].

Definition reaction_routed (tid : uuid) (to : list ThreadDialog) (r : Reaction) : Reaction :=
  MkReaction (rct_MessageID r) tid (rct_DomainID r) (rct_ReactorID r) (rct_ReactorMemberID r) (rct_Emoji r)
    (rct_IdempotencyKey r) (rct_ExternalID r) (rct_Reactor r) to (rct_domainEvents r).

(** The thread is locked before the aggregate is read. *)
Definition reaction_body (reaction : Reaction) : SM (Reaction * ReactionResult) :=
  result ← ReactionStore.SetReaction reaction;
  match result with
  | None => throw not_allowed
  | Some result =>
      if negb (rr_Changed result) then mret (reaction, result)
      else
        members ← GetQuickView (members_of (rr_ThreadID result));
        let reaction := reaction_routed (rr_ThreadID result) members reaction in
        LockForUpdate (rr_ThreadID result);;
        agg ← AggregateForMessage (rct_MessageID reaction);
        let reaction := WithReactionEvent env_uuid_valid env_ctx reaction (Some result) agg in
        dispatchReactionEvents reaction;;
        mret (reaction, result)
  end.

Definition SetReaction (in_ : SetReactionRequest) : SM SetReactionResponse :=
  match ValidateSetReaction in_ with
  | Err e => throw e
  | OK in_ =>
      done ← WithinTransaction (reaction_body (reaction_request in_));
      let '(reaction, result) := done in
      (if rr_Changed result
       then modify (fun w => set_signals (w_signals w ++ [SigProviderReaction reaction result]) w) else mret tt);;
      mret (MkSetReactionResponse (rr_Action result) (rr_Emoji result) (rr_ReactedAt result))
  end.

(** ** Forward *)
Record ForwardMessagesRequest := MkForwardMessages {
  fq_From : Shared.Peer; fq_To : Shared.Peer; fq_DomainID : Z; fq_SendID : string; fq_SendAs : option uuid;
  fq_MessageIDs : list uuid }.
Record ForwardMessagesResponse := MkForwardResponse {
  fs_To : Shared.Peer; fs_ThreadID : uuid; fs_IDs : list uuid; fs_Skipped : list MessageSkip }.

Definition MaxForwardBatch : nat := 20.

(** The loop of checkForwardTargets: the first nil or repeated id. *)
Fixpoint check_targets (seen : list uuid) (ids : list uuid) : result unit :=
  match ids with
  | [] => OK tt
  | id :: ids' =>
      if decide (id = uuid_Nil) then Err (errors_New "message_ids holds an invalid uuid")
      else if decide (id ∈ seen)
      then Err (errors_New ("message_ids holds " +:+ env_uuid_string id +:+ " more than once"))
      else check_targets (id :: seen) ids'
  end.

Definition ForwardMessagesGuard (req : ForwardMessagesRequest) : result unit :=
  first_error
    [(negb (nil_peer (fq_From req) || nil_peer (fq_To req)), errors_New "sender and receiver ids are required");
     (negb (bool_decide (length (fq_MessageIDs req) = 0%nat)), errors_New "message_ids is empty");
     ((length (fq_MessageIDs req) <=? MaxForwardBatch)%nat,
        errors_New ("message_ids holds " +:+ pretty (length (fq_MessageIDs req)) +:+ " ids, at most " +:+
                    pretty MaxForwardBatch +:+ " may be forwarded at once"))];;
  check_targets [] (fq_MessageIDs req).

(** Keyboards degrade to what is left without their buttons. *)
Definition forwardedType (src : Message) : Z :=
  if decide (msg_Type src = MessageTypeInteractive) then
    if bool_decide (length (msg_Documents src) = 0%nat) && bool_decide (length (msg_Images src) = 0%nat)
    then MessageTypeText else MessageTypeFile
  else if decide (msg_Type src = MessageTypeLocation /\ msg_Location src = None) then MessageTypeText
  else if decide (msg_Type src = MessageTypeContact /\ msg_Contact src = None) then MessageTypeText
  else msg_Type src.

(** A name for every sender, empty when the search does not know it. *)
Definition sender_ids (sources : list Message) : list uuid :=
  fold_left (fun acc src =>
    if bool_decide (msg_SenderID src = uuid_Nil) || bool_decide (msg_SenderID src ∈ acc) then acc
    else acc ++ [msg_SenderID src]) sources [].

Definition name_contact (names : gmap uuid string) (c : string * string * string) : gmap uuid string :=
  let '(id, name, username) := c in
  match menv_uuid_parse id with
  | None => names
  | Some id => match names !! id with
               | None => names
               | Some _ => <[id := if decide (name = "") then username else name]> names
               end
  end.

Definition resolveOriginNames (sources : list Message) (domainID : Z) : gmap uuid string :=
  match menv_search_contact with
  | None => ∅
  | Some search =>
      let ids := sender_ids sources in
      let names := list_to_map ((fun id => (id, "")) <$> ids) in
      match ids with
      | [] => names
      | _ => match search ids domainID with
             | Err _ => names
             | OK contacts => fold_left name_contact contacts names
             end
      end
  end.

Definition forward_copy (in_ : ForwardMessagesRequest) (t : Thread) (src : Message) (originName : string) : Message :=
  SetMemberFromSlice (thr_Members t)
    (MkMessage uuid_Nil (fq_SendAs in_) "" "" "" (thr_ID t) (to_int32 (fq_DomainID in_)) (fq_From in_) zero_peer
       (Some (thr_Members t)) (msg_Body src) (forwardedType src)
       (BuildMetadata (msg_Body src) (DecodeEntitiesFromMetadata menv_decode_entities (msg_Metadata src)))
       0 0 false uuid_Nil uuid_Nil None 0 0 0 (msg_Images src) (msg_Documents src) (msg_Location src) (msg_Contact src)
       None None None (thr_BotControllerID t) None (NewInternalForwardOrigin (Some src) originName) []).

Definition saveForwardedMessage (msg : Message) : SM Message :=
  if bool_decide (msg_Type msg = MessageTypeLocation) && is_some (msg_Location msg) then SaveMessageLocation msg
  else if bool_decide (msg_Type msg = MessageTypeContact) && is_some (msg_Contact msg) then SaveMessageContact msg
  else SaveMessage msg.

Definition forwardOne (in_ : ForwardMessagesRequest) (t : Thread) (src : Message) (originName : string) : SM Message :=
  let msg := forward_copy in_ t src originName in
  saved ← saveForwardedMessage msg;
  let saved := msg_forwarded msg (Some (thr_Members t)) (fq_From in_) (fq_SendAs in_) (thr_BotControllerID t) saved in
  (if bool_decide (length (msg_Documents src) = 0%nat) && bool_decide (length (msg_Images src) = 0%nat) then mret tt
   else CopyAttachments (msg_ID src) (msg_ID saved));;
  insertSentStatuses saved;;
  dispatchMessageEvents (WithCreatedEvent env_uuid_valid env_ctx (fq_SendID in_) saved).

Fixpoint forward_all (in_ : ForwardMessagesRequest) (t : Thread) (names : gmap uuid string) (sources : list Message)
    : SM (list Message) :=
  match sources with
  | [] => mret []
  | src :: sources' =>
      copied ← forwardOne in_ t src (default "" (names !! msg_SenderID src));
      rest ← forward_all in_ t names sources';
      mret (copied :: rest)
  end.

Definition buildForwardResponse (in_ : ForwardMessagesRequest) (threadID : uuid) (copies : list Message)
    (skipped : list MessageSkip) : ForwardMessagesResponse :=
  MkForwardResponse (fq_To in_) threadID (msg_ID <$> copies) skipped.

Definition ForwardMessages (in_ : ForwardMessagesRequest) : SM ForwardMessagesResponse :=
  match ForwardMessagesGuard in_ with
  | Err e => throw (WithCause e (InvalidArgument "validating forward request"))
  | OK _ =>
      loaded ← LoadForwardSources (fq_MessageIDs in_) (Shared.peer_ID (fq_From in_)) (to_int32 (fq_DomainID in_));
      match ff_Sources loaded with
      | [] => throw (NotFound "none of the requested messages can be forwarded")
      | sources =>
          let names := resolveOriginNames sources (to_int32 (fq_DomainID in_)) in
          t ← EnsureDirectThread (MkEnsure (fq_DomainID in_) (fq_From in_) (fq_To in_) (fq_SendAs in_));
          copies ← WithinTransaction (forward_all in_ t names sources);
          for_each sendMessageToExternalProvider copies;;
          mret (buildForwardResponse in_ (thr_ID t) copies (ff_Skipped loaded))
      end
  end.
End service.

(** ** Buttons of interactive messages *)
Record InteractiveCallback := MkCallback {
  ic_ReactedBy : uuid; ic_InReplyTo : uuid; ic_ButtonCode : string; ic_CallbackData : string;
  ic_ReactedAt : Time; ic_ThreadID : uuid; ic_DomainID : Z; ic_Receiver : uuid; ic_events : list Event }.

Definition callback_payload (ctx : Ctx) (c : InteractiveCallback) : InteractiveCallbackPayload :=
  MkCallbackPayload (Shared.MkPeer (ic_ReactedBy c) Shared.PeerContact None) (ic_InReplyTo c) (ic_ButtonCode c)
    (ic_CallbackData c) (ic_ReactedAt c) (ic_DomainID c) (ic_ThreadID c) (ic_Receiver c)
    (WithContextPropogatedMetadata ctx ∅).

(** [InteractiveCallback.WithCreatedEvent] *)
Definition callback_created (ctx : Ctx) (c : InteractiveCallback) : InteractiveCallback :=
  MkCallback (ic_ReactedBy c) (ic_InReplyTo c) (ic_ButtonCode c) (ic_CallbackData c) (ic_ReactedAt c) (ic_ThreadID c)
    (ic_DomainID c) (ic_Receiver c) (ic_events c ++ [EvInteractiveCallback (callback_payload ctx c)]).

Definition ReactedAtUnix (c : InteractiveCallback) : Z := UnixMilli (ic_ReactedAt c).

(** ** The store *)
Definition callback_key (r : CallbackRow) : uuid * string := (cb_in_reply_to r, cb_button_code r).

(** The message, if the contact has a dialog in its thread, also one it has left. *)
Definition callback_message (c : InteractiveCallback) (d : DB) : option MessageRow :=
  find_first (fun m => bool_decide (m_id m = ic_InReplyTo c) &&
    existsb (fun td => bool_decide (d_member_id td = ic_ReactedBy c) && bool_decide (d_thread_id td = m_thread_id m))
      (db_dialogs d)) (db_messages d).

Definition callback_row (at_ : Time) (c : InteractiveCallback) : CallbackRow :=
  MkCallbackRow (ic_InReplyTo c) (ic_ButtonCode c) (ic_CallbackData c) at_ (ic_ReactedBy c).

(** The row with the thread, the domain and the sender of its message. *)
Definition saved_callback (r : CallbackRow) (m : MessageRow) : InteractiveCallback :=
  MkCallback (cb_reacted_by r) (cb_in_reply_to r) (cb_button_code r) (cb_callback_data r) (cb_reacted_at r)
    (m_thread_id m) (m_domain_id m) (m_sender_id m) [].

Section callbacks.
Context {E : Env}.

Definition callback_exists_error : error :=
  WithCause constraint_error
    (WithCode CodeAlreadyExists (errors_New "callback for button binded for this message already exists")).
Definition callback_forbidden : error :=
  WithCause no_rows (Forbidden "replying to a not existing message or not member of the thread").

Definition SaveCallback (c : InteractiveCallback) : SM InteractiveCallback :=
  statement_as "error executing callback save query";;
  at_ ← now;
  d ← gets w_db;
  match callback_message c d with
  | None => throw callback_forbidden
  | Some m =>
      let r := callback_row at_ c in
      if bool_decide (callback_key r ∈ callback_key <$> db_callbacks d) then reject callback_exists_error
      else
        modify (fun w => set_db (on_callbacks (fun l => l ++ [r]) (w_db w)) w);;
        mret (saved_callback r m)
  end.

(** ** The service *)
Definition callback_topic (e : Event) : string :=
  ("im_message." +:+ env_uuid_string (RecipientID e) +:+ ".interactive_callback." +:+ EventType e +:+ "." +:+ Version e)%string.

Definition dispatchInteractiveCallbackEvents (c : InteractiveCallback) : SM unit :=
  match ic_events c with
  | [] => mret tt
  | evs => dispatchEvents evs callback_topic
  end.

Definition SendInteractiveCallback (c : InteractiveCallback) : SM InteractiveCallback :=
  WithinTransaction (
    saved ← SaveCallback c;
    let saved := callback_created env_ctx saved in
    dispatchInteractiveCallbackEvents saved;;
    mret saved).
End callbacks.
