(* ===== verification/MessageView.v ===== *)
(** * MessageView: messages as the history shows them

    The view im_thread.v_messages (migrations/20260925120000_thread_updates.sql)
    and the columns the history queries select from it
    (internal/store/query_object/message_history.go).  [HistoryMessage] are the
    fields of model.Message those columns fill; a column that is not selected
    leaves its field zero.  Widths, heights and thumbnails of images are never
    written by the program and are left out. *)
From S2P Require Import Prelude Domain Events Message World DialogStore PreviewStore MessageStore ReactionStore MessageActions.
#[local] Open Scope Z_scope.

(** The storage service, the case folding of the server, its text form of JSON values. *)
Record FileMeta := MkFileMeta { fmt_Id : Z; fmt_Mime : string; fmt_Name : string; fmt_Size : Z }.
Record FileLinkResponse := MkFileLinkResponse { flr_Base : string; flr_Url : string; flr_Metadata : option FileMeta }.

Class HistoryEnv := {
  henv_links : Z -> list Z -> bool -> result (list FileLinkResponse);
  henv_lower : string -> string;
  henv_json_text : any -> option string }.

(** ** Data *)
Record HistoryDocument := MkHistoryDocument {
  hd_ID : uuid; hd_MessageID : uuid; hd_FileID : Z; hd_Name : string; hd_Mime : string; hd_Size : Z;
  hd_CreatedAt : Time; hd_URL : string }.
Record HistoryImage := MkHistoryImage {
  hi_ID : uuid; hi_MessageID : uuid; hi_FileID : Z; hi_Name : string; hi_Mime : string; hi_CreatedAt : Time;
  hi_URL : string }.
Record DeliveryFailure := MkFailure { df_MemberID : uuid; df_Code : string; df_Message : string }.

Record HistoryMessage := MkHistory {
  hm_ID : uuid; hm_ThreadID : uuid; hm_SenderID : uuid; hm_Type : Z; hm_Body : string; hm_Metadata : metadata;
  hm_CreatedAt : Time; hm_UpdatedAt : Time; hm_Seq : Z;
  hm_Documents : list HistoryDocument; hm_Images : list HistoryImage; hm_Member : option ThreadDialog;
  hm_Interactive : option MessageInteractive; hm_Location : option MessageLocation; hm_Contact : option MessageContact;
  hm_System : option MessageSystem; hm_ReactedMetadata : option InteractiveCallback;
  hm_ReplyTo : option ReplyToPreview; hm_ForwardOrigin : option ForwardOrigin; hm_Reactions : list MessageReaction;
  hm_Edited : bool; hm_DeletedAt : option Time; hm_DeletedBy : option ThreadDialog; hm_RevisionCount : Z;
  hm_Failures : list DeliveryFailure }.

(** ** The view *)
Definition history_document (x : DocumentRow) : HistoryDocument :=
  MkHistoryDocument (do_id x) (do_message_id x) (do_file_id x) (do_name x) (do_mime x) (do_size x) (do_created_at x) "".
Definition history_image (x : ImageRow) : HistoryImage :=
  MkHistoryImage (im_id x) (im_message_id x) (im_file_id x) "" (im_mime x) (im_created_at x) "".

Definition history_documents (m : MessageRow) (d : DB) : list HistoryDocument :=
  if shows_documents m
  then history_document <$> select_where (fun x => bool_decide (do_message_id x = m_id m)) (db_documents d) else [].
Definition history_images (m : MessageRow) (d : DB) : list HistoryImage :=
  if shows_images m
  then history_image <$> select_where (fun x => bool_decide (im_message_id x = m_id m)) (db_images d) else [].

(** The newest dialog of the sender, also one that was left; NULL without any. *)
Definition history_member (m : MessageRow) (d : DB) : option ThreadDialog :=
  td ← max_by (fun td => Z.of_N (d_id td)) (select_where (fun td => bool_decide (d_member_id td = m_sender_id m) &&
         bool_decide (d_thread_id td = m_thread_id m)) (db_dialogs d));
  Some (MkDialog (d_id td) 0 0 0 (m_sender_id m) uuid_Nil (d_thread_role td) None None None None false false).

Definition history_deleted_by (m : MessageRow) (d : DB) : option ThreadDialog :=
  by_ ← m_deleted_by m; Some (changed_by (m_thread_id m) by_ d).

Definition history_system (m : MessageRow) : option MessageSystem :=
  if decide (m_type m = MessageTypeSystem) then m_system m else None.

(** [reply_to] hides the text and the attachment of a deleted message,
    [reply_to_audit] does not. *)
Definition history_reply (audit : bool) (m : MessageRow) (d : DB) : option ReplyToPreview :=
  id ← m_reply_to m;
  r ← find_first (fun r => bool_decide (m_id r = id)) (db_messages d);
  let deleted := bool_decide (is_Some (m_deleted_at r)) in
  let hidden := deleted && negb audit in
  Some (MkReplyTo (m_id r) uuid_Nil (m_sender_id r) (m_type r) (if hidden then "" else left_chars 256 (m_body r))
          (epoch_ms (m_created_at r)) (if hidden then None else reply_attachment r d) deleted).

Definition history_forward (m : MessageRow) : option ForwardOrigin :=
  f ← m_forward m;
  Some (MkForwardOrigin (fw_kind f) (fw_sender_id f) (fw_sender_name f) "" ""
          (match fw_sent_at f with Some t => epoch_ms t | None => 0 end) (fw_from_message_id f)).

Definition history_callback (r : CallbackRow) : InteractiveCallback :=
  MkCallback (cb_reacted_by r) (cb_in_reply_to r) (cb_button_code r) (cb_callback_data r) (cb_reacted_at r)
    uuid_Nil 0 uuid_Nil [].

Definition revision_count (m : MessageRow) (d : DB) : Z :=
  Z.of_nat (length (revisions_of (m_id m) d)) + (if bool_decide (is_Some (m_deleted_at m)) then 1 else 0).

(** [left join buttons_callback on m.type = 5]: one row for each pressed button. *)
Definition callback_rows (m : MessageRow) (d : DB) : list (option CallbackRow) :=
  let l := if decide (m_type m = MessageTypeInteractive)
           then select_where (fun r => bool_decide (cb_in_reply_to r = m_id m)) (db_callbacks d) else [] in
  match l with [] => [None] | _ => Some <$> l end.

(** A row of the view, with the tables the statement reads besides it. *)
Record ViewRow := MkViewRow { vr_at : Time; vr_db : DB; vr_row : MessageRow; vr_callback : option CallbackRow }.

Definition v_messages (at_ : Time) (d : DB) : list ViewRow :=
  db_messages d ≫= (fun m => MkViewRow at_ d m <$> callback_rows m d).

(** ** Columns *)
Definition replyToField : string := "reply_to".
Definition failuresField : string := "failures".

Section columns.
Context {H : HistoryEnv}.

(** [order by e.failed_at] *)
Definition failed_le (a b : ErrorRow) : Prop := er_failed_at a <= er_failed_at b.
#[export] Instance failed_le_dec a b : Decision (failed_le a b).
Proof. unfold failed_le. apply _. Defined.

Definition error_text (e : option metadata) (key : string) : string :=
  default "" (md ← e; v ← md !! key; henv_json_text v).

Definition failuresColumn (r : ViewRow) : list DeliveryFailure :=
  (fun e => MkFailure (er_member_id e) (error_text (er_error e) "code") (error_text (er_error e) "message")) <$>
  merge_sort failed_le
    (select_where (fun e => bool_decide (er_message_id e = m_id (vr_row r))) (db_errors (vr_db r))).

(** Administrators of a thread that is not direct see what deleted messages said. *)
Definition may_audit (caller : uuid) (r : ViewRow) : bool :=
  existsb (fun priv =>
    bool_decide (d_thread_id priv = m_thread_id (vr_row r)) && bool_decide (d_domain_id priv = m_domain_id (vr_row r)) &&
    bool_decide (d_member_id priv = caller) && active priv && (Role.RoleAdmin <=? d_thread_role priv) &&
    existsb (fun t => bool_decide (t_id t = d_thread_id priv) && negb (bool_decide (t_kind t = Kind.ThreadDirect)))
      (db_threads (vr_db r))) (db_dialogs (vr_db r)).

Definition replyToColumn (caller : uuid) (r : ViewRow) : option ReplyToPreview :=
  history_reply (may_audit caller r) (vr_row r) (vr_db r).

Definition reply_column (caller : uuid) (r : ViewRow) : option ReplyToPreview :=
  if decide (caller = uuid_Nil) then history_reply false (vr_row r) (vr_db r) else replyToColumn caller r.

(** A column fills its field when it is among [fields]. *)
Definition when_selected {A} (fields : list string) (f : string) (zero v : A) : A := if bool_decide (f ∈ fields) then v else zero.

Definition selectMessageFields (fields : list string) (caller : uuid) (r : ViewRow) : HistoryMessage :=
  let m := vr_row r in let d := vr_db r in
  let on {A} (f : string) (zero v : A) := when_selected fields f zero v in
  MkHistory (on "id" uuid_Nil (m_id m)) (on "thread_id" uuid_Nil (m_thread_id m)) (on "sender_id" uuid_Nil (m_sender_id m))
    (on "type" 0 (m_type m)) (on "body" "" (m_body m)) (on "metadata" ∅ (m_metadata m))
    (on "created_at" 0 (m_created_at m)) (on "updated_at" 0 (m_updated_at m)) (on "seq" 0 (m_seq m))
    (on "documents" [] (history_documents m d)) (on "images" [] (history_images m d))
    (on "member" None (history_member m d)) (on "interactive" None (m_interactive m))
    (on "location" None (view_location m)) (on "contact" None (view_contact m)) (on "system" None (history_system m))
    (on "reacted_metadata" None (history_callback <$> vr_callback r))
    (on replyToField None (reply_column caller r)) (on "forward_origin" None (history_forward m))
    (on "reactions" [] (aggregate (m_id m) d)) (on "edited" false (m_edited m)) (on "deleted_at" None (m_deleted_at m))
    (on "deleted_by" None (history_deleted_by m d)) (on "revision_count" 0 (revision_count m d))
    (on failuresField [] (failuresColumn r)).
End columns.
