(* ===== verification/HistoryQueries.v ===== *)
(** * HistoryQueries: the statements of the message history

    internal/store/query_object/message_history.go, message_history_cursor.go,
    message_search.go, left_threads_message_history.go and [LikeContains] of
    utils.go.  A builder method gives the new query; [ToSQL] also fills in the
    defaults the page information is computed from later.  A condition is a
    predicate on [ViewRow]s, which carry the tables its subqueries read. *)
From S2P Require Import Prelude Domain Events Message World Text Paginator DialogStore PreviewStore MessageStore ReactionStore.
From S2P Require Import MessageView.
#[local] Open Scope Z_scope.

(** ** Cursors *)
Record MessageHistoryCursor := MkHistoryCursor { hc_ID : uuid; hc_Before : bool }.
Definition zero_cursor : MessageHistoryCursor := MkHistoryCursor uuid_Nil false.

Definition MessageHistoryColumns : list Column := [MkColumn "id" OrderDesc].
Definition leftThreadsMessageHistoryColumns : list Column := [MkColumn "m.id" OrderDesc].

(** The mapper of a history keyed by [column]; the errors of the two differ. *)
Definition cursor_mapper (column : string) (nil_id missing : error) : @CursorMapper uuid MessageHistoryCursor :=
  MkMapper
    (fun c => if decide (hc_ID c = uuid_Nil) then Err nil_id else OK {[column := hc_ID c]})
    (fun v => match v !! column with None => Err missing | Some id => OK (MkHistoryCursor id false) end).

Definition MessageHistoryCursorMapper : @CursorMapper uuid MessageHistoryCursor :=
  cursor_mapper "id" (errors_New "MessageHistoryCursorMapper: ID must not be nil UUID")
    (errors_New "MessageHistoryCursorMapper: missing id").
Definition leftThreadsMessageHistoryCursorMapper : @CursorMapper uuid MessageHistoryCursor :=
  cursor_mapper "m.id" (NotFound "leftThreadsMessageHistoryCursorMapper: ID must not be nil UUID")
    (InvalidArgument "leftThreadsMessageHistoryCursorMapper: missing m.id").

(** [RawParamsCursorCodec] has no tokens; the JSON codec, which stands in when
    the request has no cursor, is a parameter: nobody reads the tokens. *)
Definition RawParamsCursorCodec (parser : string -> result (MessageHistoryCursor * bool)) : @CursorCodec MessageHistoryCursor :=
  MkCodec (fun _ => OK "") parser.

Definition parseMessageHistoryFields (rawID : uuid) : MessageHistoryCursor * bool :=
  if decide (rawID = uuid_Nil) then (zero_cursor, false) else (MkHistoryCursor rawID false, true).

Definition HistoryConfig : Type := @Config uuid MessageHistoryCursor.

(** [Config[MessageHistoryCursor]{}] *)
Definition zero_config : HistoryConfig := MkConfig 0 zero_cursor false "" [] None None.

Definition set_Limit (n : Z) (c : HistoryConfig) : HistoryConfig :=
  MkConfig n (cfg_Cursor c) (cfg_HasCursor c) (cfg_Direction c) (cfg_Columns c) (cfg_Codec c) (cfg_Mapper c).
Definition set_Direction (dir : string) (c : HistoryConfig) : HistoryConfig :=
  MkConfig (cfg_Limit c) (cfg_Cursor c) (cfg_HasCursor c) dir (cfg_Columns c) (cfg_Codec c) (cfg_Mapper c).
Definition set_Columns (cols : list Column) (m : @CursorMapper uuid MessageHistoryCursor) (c : HistoryConfig) : HistoryConfig :=
  MkConfig (cfg_Limit c) (cfg_Cursor c) (cfg_HasCursor c) (cfg_Direction c) cols (cfg_Codec c) (Some m).

(** dto.HistoryMessageCursor *)
Record HistoryMessageCursor := MkPageCursor { pc_ID : uuid; pc_Direction : bool; pc_Around : bool }.

Definition DefaultLimit : Z := 20.

(** ** Fields *)
Definition defaultFields : list string :=
  ["id"; "thread_id"; "sender_id"; "type"; "body"; "metadata"; "created_at"; "updated_at"; "seq"; "images"; "documents";
   "member"; "interactive"; "location"; "contact"; "system"; "reacted_metadata"; "reply_to"; "forward_origin";
   "reactions"; "edited"; "deleted_at"; "deleted_by"; "revision_count"; "failures"].

Definition availableFields (f : string) : bool := bool_decide (f ∈ defaultFields).

(** Known fields, each once. *)
Definition valid_fields (available : string -> bool) (fields : list string) : list string :=
  fold_left (fun valid f => if available f && negb (bool_decide (f ∈ valid)) then valid ++ [f] else valid) fields [].

(** ** LIKE

    Texts are lists of characters.  In a pattern [%] stands for any text, [_]
    for one character, and a backslash takes the next character literally. *)
Definition escape_char (c : string) : string :=
  if decide (c = "\") then "\\" else if decide (c = "%") then "\%" else if decide (c = "_") then "\_" else c.

Definition likeEscaper (term : string) : string := concat_runes (escape_char <$> runes 0 term).
Definition LikeContains (term : string) : string := "%" +:+ likeEscaper term +:+ "%".

Fixpoint like (pattern text : list string) : bool :=
  match pattern with
  | [] => bool_decide (text = [])
  | c :: pattern' =>
      if decide (c = "%") then
        (fix any (text : list string) : bool :=
           like pattern' text || match text with [] => false | _ :: text' => any text' end) text
      else if decide (c = "_") then match text with [] => false | _ :: text' => like pattern' text' end
      else if decide (c = "\") then
        match pattern', text with
        | e :: pattern'', x :: text' => bool_decide (e = x) && like pattern'' text'
        | _, _ => false
        end
      else match text with [] => false | x :: text' => bool_decide (c = x) && like pattern' text' end
  end.

Section queries.
Context {H : HistoryEnv} (json_codec : @CursorCodec MessageHistoryCursor).

Definition ilike (text pattern : string) : bool :=
  like (henv_lower <$> runes 0 pattern) (henv_lower <$> runes 0 text).

Definition parseMessageHistoryRawCursor (raw : string) : result (MessageHistoryCursor * bool) :=
  if decide (raw = "") then OK (zero_cursor, false) else Decode json_codec raw.

Definition NewMessageHistoryConfigFromRaw (limit : Z) (raw : MessageHistoryCursor) (before : bool) : HistoryConfig :=
  let '(cur, hasCursor) := parseMessageHistoryFields (hc_ID raw) in
  MkConfig limit cur hasCursor (if before then DirectionBefore else DirectionAfter) MessageHistoryColumns
    (Some (RawParamsCursorCodec parseMessageHistoryRawCursor)) (Some MessageHistoryCursorMapper).

(** The columns a statement orders and compares by. *)
Definition view_column (c : string) (r : ViewRow) : uuid :=
  if bool_decide (c = "id") || bool_decide (c = "m.id") then m_id (vr_row r) else uuid_Nil.

(** ** The query objects

    The three have the same fields; [mq_caller] is used by two. *)
Record MessageQuery := MkMessageQuery {
  mq_base : @SelectBuilder ViewRow; mq_fields : list string; mq_caller : uuid; mq_cfg : HistoryConfig }.

Definition set_base (b : @SelectBuilder ViewRow) (q : MessageQuery) : MessageQuery :=
  MkMessageQuery b (mq_fields q) (mq_caller q) (mq_cfg q).
Definition set_fields (fs : list string) (q : MessageQuery) : MessageQuery :=
  MkMessageQuery (mq_base q) fs (mq_caller q) (mq_cfg q).
Definition set_caller (c : uuid) (q : MessageQuery) : MessageQuery := MkMessageQuery (mq_base q) (mq_fields q) c (mq_cfg q).
Definition set_cfg (c : HistoryConfig) (q : MessageQuery) : MessageQuery :=
  MkMessageQuery (mq_base q) (mq_fields q) (mq_caller q) c.

Definition where_ (p : ViewRow -> bool) (q : MessageQuery) : MessageQuery := set_base (Where p (mq_base q)) q.

(** [where column in (values)] when there are values. *)
Definition where_in {A} `{EqDecision A} (values : list A) (column : ViewRow -> A) (q : MessageQuery) : MessageQuery :=
  match values with [] => q | _ => where_ (fun r => bool_decide (column r ∈ values)) q end.

Definition empty_select : @SelectBuilder ViewRow := MkSelect [] [] None.

Definition NewMessageHistoryQuery : MessageQuery := MkMessageQuery empty_select [] uuid_Nil zero_config.
Definition NewMessageSearchQuery : MessageQuery :=
  where_ (fun r => bool_decide (m_deleted_at (vr_row r) = None)) NewMessageHistoryQuery.

Definition WithFields (fields : list string) (q : MessageQuery) : MessageQuery :=
  match fields with
  | [] => set_fields defaultFields q
  | _ => set_fields (valid_fields availableFields fields) q
  end.

(** Only the first id of the list is compared with 0. *)
Definition WithDomainIDsFilter (domainIDs : list Z) (q : MessageQuery) : MessageQuery :=
  match domainIDs with
  | d :: _ => if decide (d <> 0) then where_in domainIDs (fun r => m_domain_id (vr_row r)) q else q
  | [] => q
  end.
Definition WithDomainIDFilter (domainID : Z) (q : MessageQuery) : MessageQuery :=
  if 0 <? domainID then where_ (fun r => bool_decide (m_domain_id (vr_row r) = domainID)) q else q.
Definition WithIDsFilter (ids : list uuid) : MessageQuery -> MessageQuery := where_in ids (fun r => m_id (vr_row r)).
Definition WithThreadIDsFilter (ids : list uuid) : MessageQuery -> MessageQuery := where_in ids (fun r => m_thread_id (vr_row r)).
Definition WithSenderIDsFilter (ids : list uuid) : MessageQuery -> MessageQuery := where_in ids (fun r => m_sender_id (vr_row r)).
Definition WithTypeFilter (types : list Z) : MessageQuery -> MessageQuery := where_in types (fun r => m_type (vr_row r)).

Definition allowed_type (allowed : list string) (r : ViewRow) : bool :=
  negb (bool_decide (m_type (vr_row r) = MessageTypeSystem)) ||
  match m_system (vr_row r) with Some s => bool_decide (sys_Type s ∈ allowed) | None => false end.

(** [None] is a nil slice. *)
Definition WithSystemMessageAllowList (allowed : option (list string)) (q : MessageQuery) : MessageQuery :=
  match allowed with None => q | Some allowed => where_ (allowed_type allowed) q end.

Definition WithTermFilter (term : string) (q : MessageQuery) : MessageQuery :=
  let term := TrimSpace term in
  if decide (term = "") then q else where_ (fun r => ilike (m_body (vr_row r)) (LikeContains term)) q.

(** The caller is an active member or has a live preview of one of the threads. *)
Definition caller_sees (callerID : uuid) (threadIDs : list uuid) (r : ViewRow) : bool :=
  existsb (fun acl => bool_decide (d_thread_id acl ∈ threadIDs) && bool_decide (d_member_id acl = callerID) && active acl)
    (db_dialogs (vr_db r)) ||
  existsb (fun pv => bool_decide (pv_thread_id pv ∈ threadIDs) && bool_decide (pv_contact_id pv = callerID) &&
                     preview_active (vr_at r) pv) (db_previews (vr_db r)).

Definition WithCallerLimitation (callerID : uuid) (threadIDs : list uuid) (q : MessageQuery) : MessageQuery :=
  if decide (callerID = uuid_Nil) then q
  else where_ (caller_sees callerID threadIDs) (set_caller callerID q).

(** While the caller was a member: one of their dialogs covers the message. *)
Definition caller_was_there (callerID : uuid) (r : ViewRow) : bool :=
  existsb (fun acl =>
    bool_decide (d_thread_id acl = m_thread_id (vr_row r)) && bool_decide (d_member_id acl = callerID) &&
    (d_created_at acl <=? m_created_at (vr_row r)) &&
    match d_deleted_at acl with None => true | Some t => m_created_at (vr_row r) <=? t end) (db_dialogs (vr_db r)).

Definition WithCallerScope (callerID : uuid) (q : MessageQuery) : MessageQuery :=
  if decide (callerID = uuid_Nil) then q else where_ (caller_was_there callerID) (set_caller callerID q).

(** A zero time is no bound. *)
Definition WithPeriodFilter (from to : Time) (q : MessageQuery) : MessageQuery :=
  let q := if decide (from = 0) then q else where_ (fun r => from <=? m_created_at (vr_row r)) q in
  if decide (to = 0) then q else where_ (fun r => m_created_at (vr_row r) <=? to) q.

Definition limitOrDefault (q : MessageQuery) : Z := if 0 <? cfg_Limit (mq_cfg q) then cfg_Limit (mq_cfg q) else DefaultLimit.

(** [WithCursor] of the search; the history also knows pages around a message,
    the left threads have columns of their own. *)
Definition WithCursor (cursor : option HistoryMessageCursor) (q : MessageQuery) : MessageQuery :=
  match cursor with
  | None => q
  | Some c => set_cfg (NewMessageHistoryConfigFromRaw (limitOrDefault q) (MkHistoryCursor (pc_ID c) false) (pc_Direction c)) q
  end.
Definition WithAroundCursor (cursor : option HistoryMessageCursor) (q : MessageQuery) : MessageQuery :=
  match cursor with
  | None => q
  | Some c =>
      let q := WithCursor cursor q in
      if pc_Around c && cfg_HasCursor (mq_cfg q) then set_cfg (set_Direction DirectionAround (mq_cfg q)) q else q
  end.
Definition WithLeftCursor (cursor : option HistoryMessageCursor) (q : MessageQuery) : MessageQuery :=
  match cursor with
  | None => q
  | Some _ =>
      let q := WithCursor cursor q in
      set_cfg (set_Columns leftThreadsMessageHistoryColumns leftThreadsMessageHistoryCursorMapper (mq_cfg q)) q
  end.

Definition WithLimit (limit : Z) (q : MessageQuery) : MessageQuery :=
  if (0 <? limit) && (limit <=? 100) then set_cfg (set_Limit limit (mq_cfg q)) q else q.

(** ** ToSQL *)
Inductive Statement := Select (b : @SelectBuilder ViewRow) | Union (a : @AroundQuery ViewRow).

(** The statement with the columns it selects. *)
Record SQL := MkSQL { sql_statement : Statement; sql_fields : list string }.

Definition default_config (cols : list Column) (m : @CursorMapper uuid MessageHistoryCursor) (c : HistoryConfig) : HistoryConfig :=
  let c := if decide (cfg_Limit c = 0) then set_Limit DefaultLimit c else c in
  match cfg_Codec c with
  | Some _ => c
  | None => MkConfig (cfg_Limit c) (cfg_Cursor c) (cfg_HasCursor c) DirectionAfter cols (Some json_codec) (Some m)
  end.

Definition with_defaults (fields : list string) (cols : list Column) (m : @CursorMapper uuid MessageHistoryCursor)
    (q : MessageQuery) : MessageQuery :=
  let q := match mq_fields q with [] => set_fields fields q | _ => q end in
  set_cfg (default_config cols m (mq_cfg q)) q.

Definition page_sql (q : MessageQuery) : result SQL :=
  b ← Apply N.ltb view_column (mq_base q) (mq_cfg q);
  OK (MkSQL (Select b) (mq_fields q)).

(** [ToSQL] of the history: an around page always selects the id. *)
Definition ToSQL (q : MessageQuery) : result SQL * MessageQuery :=
  let q := with_defaults defaultFields MessageHistoryColumns MessageHistoryCursorMapper q in
  if decide (cfg_Direction (mq_cfg q) = DirectionAround) then
    let fields := if bool_decide ("id" ∈ mq_fields q) then mq_fields q else mq_fields q ++ ["id"] in
    (a ← ApplyAround N.ltb view_column (mq_base q) (mq_cfg q); OK (MkSQL (Union a) fields), q)
  else (page_sql q, q).

Definition SearchToSQL (q : MessageQuery) : result SQL * MessageQuery :=
  let q := with_defaults defaultFields MessageHistoryColumns MessageHistoryCursorMapper q in (page_sql q, q).

Definition newerThan (id : uuid) (m : HistoryMessage) : bool := (id <? hm_ID m)%N.

Definition HistoryPageInfo : Type := @PageInfo MessageHistoryCursor.
Definition empty_page_info : HistoryPageInfo := no_page_info zero_cursor.

(** [BuildPageInfo] of the history. *)
Definition BuildHistoryPageInfo (rows : list HistoryMessage) (q : MessageQuery)
    (extract : HistoryMessage -> result MessageHistoryCursor) : result (list HistoryMessage * HistoryPageInfo) :=
  if decide (cfg_Direction (mq_cfg q) = DirectionAround)
  then BuildAroundPageInfo zero_cursor rows (mq_cfg q) extract (newerThan (hc_ID (cfg_Cursor (mq_cfg q))))
  else BuildPageInfo zero_cursor rows (mq_cfg q) extract.

(** ** The left threads

    The statement reads im_message.messages and joins the dialog of the sender,
    preferring one that was not left; only documented columns exist. *)
Definition leftDefaultFields : list string :=
  ["id"; "thread_id"; "sender_id"; "type"; "body"; "metadata"; "created_at"; "updated_at"; "domain_id"; "documents";
   "images"; "location"; "contact"; "system"; "interactive"; "member"; "edited"; "deleted_at"].

Definition leftAvailable (f : string) : bool := bool_decide (f ∈ leftDefaultFields).

(** [WithFields] of the base query object. *)
Definition WithLeftFields (fields : list string) (q : MessageQuery) : MessageQuery :=
  match fields with
  | [] => q
  | _ => set_fields (valid_fields leftAvailable fields) q
  end.

(** [order by (deleted_at is null) desc, id desc limit 1] *)
Definition left_member (m : MessageRow) (d : DB) : option DialogRow :=
  let rows := select_where (fun td => bool_decide (d_member_id td = m_sender_id m) &&
                bool_decide (d_thread_id td = m_thread_id m)) (db_dialogs d) in
  match max_by (fun td => Z.of_N (d_id td)) (List.filter active rows) with
  | Some td => Some td
  | None => max_by (fun td => Z.of_N (d_id td)) rows
  end.

Definition member_of_row (td : DialogRow) : ThreadDialog :=
  MkDialog (d_id td) 0 (d_created_at td) (d_updated_at td) (d_member_id td) (d_thread_id td) (d_thread_role td)
    (d_deleted_at td) (d_invited_by td) (d_leave_reason td) None false false.

(** Without a dialog the object is built of NULLs. *)
Definition left_member_column (m : MessageRow) (d : DB) : ThreadDialog :=
  match left_member m d with
  | Some td => member_of_row td
  | None => zero_td
  end.

(** The objects of attachments carry no message id here. *)
Definition left_document (x : HistoryDocument) : HistoryDocument :=
  MkHistoryDocument (hd_ID x) uuid_Nil (hd_FileID x) (hd_Name x) (hd_Mime x) (hd_Size x) (hd_CreatedAt x) (hd_URL x).
Definition left_image (x : HistoryImage) : HistoryImage :=
  MkHistoryImage (hi_ID x) uuid_Nil (hi_FileID x) (hi_Name x) (hi_Mime x) (hi_CreatedAt x) (hi_URL x).

Definition left_columns (fields : list string) (r : ViewRow) : HistoryMessage :=
  let m := vr_row r in let d := vr_db r in
  let on {A} (f : string) (zero v : A) := when_selected fields f zero v in
  MkHistory (on "id" uuid_Nil (m_id m)) (on "thread_id" uuid_Nil (m_thread_id m)) (on "sender_id" uuid_Nil (m_sender_id m))
    (on "type" 0 (m_type m)) (on "body" "" (m_body m)) (on "metadata" ∅ (m_metadata m))
    (on "created_at" 0 (m_created_at m)) (on "updated_at" 0 (m_updated_at m)) 0
    (on "documents" [] (left_document <$> history_documents m d)) (on "images" [] (left_image <$> history_images m d))
    (on "member" None (Some (left_member_column m d))) (on "interactive" None (m_interactive m))
    (on "location" None (view_location m)) (on "contact" None (view_contact m)) (on "system" None (history_system m))
    None None None [] (on "edited" false (m_edited m)) (on "deleted_at" None (m_deleted_at m)) None 0 [].

Definition LeftToSQL (q : MessageQuery) : result SQL * MessageQuery :=
  let q := with_defaults leftDefaultFields leftThreadsMessageHistoryColumns leftThreadsMessageHistoryCursorMapper q in
  (b ← Apply N.ltb view_column (mq_base q) (mq_cfg q);
   OK (MkSQL (Select b) (List.filter leftAvailable (mq_fields q))), q).
End queries.
