(* ===== verification/History.v ===== *)
(** * History: reading the messages of threads

    internal/store/postgres/message_history_store.go,
    internal/service/message_history.go and
    internal/service/decorators/message_history_enricher.go, which asks the
    storage service for the links of the files of a page. *)
From S2P Require Import Prelude Domain Events Message World Text Paginator DialogStore MessageStore ReactionStore MediaProcessor.
From S2P Require Import MessageView HistoryQueries.
#[local] Open Scope Z_scope.

(** ** Requests (dto) *)
Record HistoryMessageInputDTO := MkHistoryInput {
  hq_DomainID : Z; hq_Fields : list string; hq_IDs : list uuid; hq_ThreadIDs : list uuid; hq_SenderIDs : list uuid;
  hq_Types : list Z; hq_Cursor : option HistoryMessageCursor; hq_Size : Z; hq_CallerID : uuid;
  hq_AllowList : option (list string) }.
Record SearchMessagesInputDTO := MkSearchInput {
  sm_DomainID : Z; sm_Fields : list string; sm_Term : string; sm_ThreadIDs : list uuid; sm_SenderIDs : list uuid;
  sm_Types : list Z; sm_Cursor : option HistoryMessageCursor; sm_Size : Z; sm_CallerID : uuid;
  sm_AllowList : option (list string) }.
Record LeftThreadsMessageHistoryInputDTO := MkLeftInput {
  lt_DomainID : Z; lt_Fields : list string; lt_ThreadID : uuid; lt_SenderIDs : list uuid; lt_Types : list Z;
  lt_PeriodFrom : Time; lt_PeriodTo : Time; lt_Cursor : option HistoryMessageCursor; lt_Size : Z;
  lt_AllowList : option (list string) }.
Record GetMessageRevisionsRequest := MkGetRevisions { gr_MessageID : uuid; gr_DomainID : Z; gr_CallerID : uuid }.

Definition HistoryPage : Type := list HistoryMessage * HistoryPageInfo.

(** The rows of im_message.messages, each once. *)
Definition message_rows (at_ : Time) (d : DB) : list ViewRow := (fun m => MkViewRow at_ d m None) <$> db_messages d.

Section history.
Context {E : Env} {H : HistoryEnv} (json_codec : @CursorCodec MessageHistoryCursor).

(** ** The store *)
Definition run_statement (s : Statement) (rows : list ViewRow) : list ViewRow :=
  match s with
  | Select b => run_select N.ltb view_column b rows
  | Union a => run_around N.ltb view_column a rows
  end.

(** [messageHistoryStore.Search]: [source] are the rows of the relation the
    statement reads, [columns] what it selects. *)
Definition SearchStore (sql : result SQL) (source : Time -> DB -> list ViewRow)
    (columns : list string -> ViewRow -> HistoryMessage) : SM (list HistoryMessage) :=
  match sql with
  | Err e => throw (internal "preparing history message query" e)
  | OK s =>
      statement_as "executing query for message history query";;
      at_ ← now;
      gets (fun w => columns (sql_fields s) <$> run_statement (sql_statement s) (source at_ (w_db w)))
  end.

(** ** The service *)
Definition cursor_of (m : HistoryMessage) : result MessageHistoryCursor := OK (MkHistoryCursor (hm_ID m) false).

Definition history_query (i : HistoryMessageInputDTO) : MessageQuery :=
  WithSystemMessageAllowList (hq_AllowList i)
  (WithTypeFilter (hq_Types i)
  (WithLimit (hq_Size i)
  (WithCallerLimitation (hq_CallerID i) (hq_ThreadIDs i)
  (WithThreadIDsFilter (hq_ThreadIDs i)
  (WithSenderIDsFilter (hq_SenderIDs i)
  (WithIDsFilter (hq_IDs i)
  (WithDomainIDsFilter [hq_DomainID i]
  (WithAroundCursor json_codec (hq_Cursor i)
  (WithFields (hq_Fields i) NewMessageHistoryQuery))))))))).

Definition Search (i : HistoryMessageInputDTO) : SM HistoryPage :=
  let '(sql, q) := ToSQL json_codec (history_query i) in
  rows ← SearchStore sql v_messages (fun fields => selectMessageFields fields (mq_caller q));
  of_result (BuildHistoryPageInfo rows q cursor_of).

Definition search_query (term : string) (r : SearchMessagesInputDTO) : MessageQuery :=
  WithSystemMessageAllowList (sm_AllowList r)
  (WithCursor json_codec (sm_Cursor r)
  (WithLimit (sm_Size r)
  (WithCallerScope (sm_CallerID r)
  (WithTypeFilter (sm_Types r)
  (WithSenderIDsFilter (sm_SenderIDs r)
  (WithThreadIDsFilter (sm_ThreadIDs r)
  (WithDomainIDFilter (sm_DomainID r)
  (WithTermFilter term
  (WithFields (sm_Fields r) NewMessageSearchQuery))))))))).

Definition search_term_required : error := InvalidArgument "search term is required".

Definition SearchMessages (req : option SearchMessagesInputDTO) : SM HistoryPage :=
  match req with
  | None => throw search_term_required
  | Some r =>
      let term := TrimSpace (sm_Term r) in
      if bool_decide (term = "") || (256 <? Z.of_nat (length (runes 0 term))) then throw search_term_required
      else if decide (sm_CallerID r = uuid_Nil) then throw (InvalidArgument "caller identity is required")
      else
        let '(sql, q) := SearchToSQL json_codec (search_query term r) in
        rows ← SearchStore sql v_messages (fun fields => selectMessageFields fields (mq_caller q));
        of_result (BuildPageInfo zero_cursor rows (mq_cfg q) cursor_of)
  end.

(** The member column is always among the fields asked for. *)
Definition left_request_fields (fields : list string) : list string :=
  match fields with
  | [] => []
  | _ => if bool_decide ("member" ∈ fields) then fields else fields ++ ["member"]
  end.

Definition left_query (r : LeftThreadsMessageHistoryInputDTO) : MessageQuery :=
  WithSystemMessageAllowList (lt_AllowList r)
  (WithLeftCursor json_codec (lt_Cursor r)
  (WithLimit (lt_Size r)
  (WithPeriodFilter (lt_PeriodFrom r) (lt_PeriodTo r)
  (WithTypeFilter (lt_Types r)
  (WithSenderIDsFilter (lt_SenderIDs r)
  (WithThreadIDsFilter [lt_ThreadID r]
  (WithDomainIDFilter (lt_DomainID r)
  (WithLeftFields (left_request_fields (lt_Fields r)) NewMessageHistoryQuery)))))))).

Definition SearchLeftThreads (r : LeftThreadsMessageHistoryInputDTO) : SM HistoryPage :=
  let '(sql, q) := LeftToSQL json_codec (left_query r) in
  rows ← SearchStore sql message_rows left_columns;
  of_result (BuildPageInfo zero_cursor rows (mq_cfg q) cursor_of).

Definition revisions_not_allowed : error :=
  Forbidden "message history is not available: the message does not exist or the caller is not a member of its thread".

(** [errors.Is]: the store returns the sentinel itself. *)
Definition is_not_visible (e : error) : bool :=
  match e with
  | MkError CodeUnset msg None => bool_decide (msg = "message not visible to caller")
  | _ => false
  end.

Definition GetRevisions (in_ : option GetMessageRevisionsRequest) : SM (list MessageChangeEntry) :=
  match in_ with
  | None => throw (InvalidArgument "message id is required")
  | Some r =>
      if decide (gr_MessageID r = uuid_Nil) then throw (InvalidArgument "message id is required")
      else if decide (gr_CallerID r = uuid_Nil) then throw (InvalidArgument "caller identity is required")
      else
        map_err (fun e => if is_not_visible e then revisions_not_allowed else e)
          (SearchRevisions (gr_MessageID r) (gr_DomainID r) (gr_CallerID r))
  end.

(** ** The enricher *)
Definition add_unique (fileID : Z) (l : list Z) : list Z :=
  if decide (fileID = 0) then l else if bool_decide (fileID ∈ l) then l else l ++ [fileID].

(** A set in the source; here in the order of first use. *)
Definition collectUniqueFileIDs (messages : list HistoryMessage) : list Z :=
  fold_left (fun l m =>
    fold_left (fun l img => add_unique (hi_FileID img) l) (hm_Images m)
      (fold_left (fun l doc => add_unique (hd_FileID doc) l) (hm_Documents m) l)) messages [].

Record Metadata := MkUseMD { use_DocumentStorageMD : bool; use_ImageStorageMD : bool }.

Definition shouldLoadMetadata (fields : list string) : Metadata :=
  match fields with
  | [] => MkUseMD false false
  | _ => MkUseMD (negb (bool_decide ("documents" ∈ fields))) (negb (bool_decide ("images" ∈ fields)))
  end.

Definition fetchFileLinks (fileIDs : list Z) (domainID : Z) (loadMetadata : bool) : result (gmap Z FileLinkResponse) :=
  links ← henv_links domainID fileIDs loadMetadata;
  if decide (length links <> length fileIDs)
  then Err (Internal ("storage returned " +:+ pretty (Z.of_nat (length links)) +:+ " links but expected " +:+
                      pretty (Z.of_nat (length fileIDs))))
  else OK (list_to_map (zip fileIDs links)).

Context {X : MessageEnv}.

Definition resolve_link (l : FileLinkResponse) : result string :=
  match ResolveFullURL (flr_Base l) (flr_Url l) with
  | OK url => OK url
  | Err e => Err (internal "failed to resolve URL" e)
  end.

Definition enrichDocument (x : HistoryDocument) (l : FileLinkResponse) (useMetadata : bool) : result HistoryDocument :=
  url ← resolve_link l;
  OK (match (if useMetadata then flr_Metadata l else None) with
      | Some m => MkHistoryDocument (hd_ID x) (hd_MessageID x) (fmt_Id m) (fmt_Name m) (fmt_Mime m) (fmt_Size m) (hd_CreatedAt x) url
      | None => MkHistoryDocument (hd_ID x) (hd_MessageID x) (hd_FileID x) (hd_Name x) (hd_Mime x) (hd_Size x) (hd_CreatedAt x) url
      end).

Definition enrichImage (x : HistoryImage) (l : FileLinkResponse) (useMetadata : bool) : result HistoryImage :=
  url ← resolve_link l;
  OK (match (if useMetadata then flr_Metadata l else None) with
      | Some m => MkHistoryImage (hi_ID x) (hi_MessageID x) (fmt_Id m) (fmt_Name m) (fmt_Mime m) (hi_CreatedAt x) url
      | None => MkHistoryImage (hi_ID x) (hi_MessageID x) (hi_FileID x) (hi_Name x) (hi_Mime x) (hi_CreatedAt x) url
      end).

Fixpoint processAttachments {T} (fileID : T -> Z) (enrich : T -> FileLinkResponse -> bool -> result T)
    (links : gmap Z FileLinkResponse) (useMD : bool) (items : list T) : result (list T) :=
  match items with
  | [] => OK []
  | x :: items' =>
      y ← match links !! fileID x with
          | None => OK x
          | Some l =>
              match enrich x l useMD with
              | OK y => OK y
              | Err e => Err (internal ("failed to enrich file " +:+ pretty (fileID x)) e)
              end
          end;
      ys ← processAttachments fileID enrich links useMD items';
      OK (y :: ys)
  end.

Definition set_attachments (docs : list HistoryDocument) (imgs : list HistoryImage) (m : HistoryMessage) : HistoryMessage :=
  MkHistory (hm_ID m) (hm_ThreadID m) (hm_SenderID m) (hm_Type m) (hm_Body m) (hm_Metadata m) (hm_CreatedAt m)
    (hm_UpdatedAt m) (hm_Seq m) docs imgs (hm_Member m) (hm_Interactive m) (hm_Location m) (hm_Contact m) (hm_System m)
    (hm_ReactedMetadata m) (hm_ReplyTo m) (hm_ForwardOrigin m) (hm_Reactions m) (hm_Edited m) (hm_DeletedAt m)
    (hm_DeletedBy m) (hm_RevisionCount m) (hm_Failures m).

Fixpoint enrichMessages (links : gmap Z FileLinkResponse) (md : Metadata) (messages : list HistoryMessage)
    : result (list HistoryMessage) :=
  match messages with
  | [] => OK []
  | m :: ms =>
      docs ← processAttachments hd_FileID enrichDocument links (use_DocumentStorageMD md) (hm_Documents m);
      imgs ← processAttachments hi_FileID enrichImage links (use_ImageStorageMD md) (hm_Images m);
      ms ← enrichMessages links md ms;
      OK (set_attachments docs imgs m :: ms)
  end.

(** What the three searches of the enricher do with the page they got. *)
Definition enrich_page (fields : list string) (domainID : Z) (page : HistoryPage) : result HistoryPage :=
  let '(messages, info) := page in
  match collectUniqueFileIDs messages with
  | [] => OK page
  | fileIDs =>
      let md := shouldLoadMetadata fields in
      match fetchFileLinks fileIDs domainID (use_DocumentStorageMD md || use_ImageStorageMD md) with
      | Err e => Err (internal "failed to fetch file links" e)
      | OK links =>
          match enrichMessages links md messages with
          | Err e => Err (internal "failed to enrich messages" e)
          | OK messages => OK (messages, info)
          end
      end
  end.

(** [MessageHistoryEnricher.Search], [SearchMessages], [SearchLeftThreads]. *)
Definition EnrichedSearch (i : HistoryMessageInputDTO) : SM HistoryPage :=
  page ← Search i; of_result (enrich_page (hq_Fields i) (hq_DomainID i) page).
Definition EnrichedSearchMessages (r : SearchMessagesInputDTO) : SM HistoryPage :=
  page ← SearchMessages (Some r); of_result (enrich_page (sm_Fields r) (sm_DomainID r) page).
Definition EnrichedSearchLeftThreads (r : LeftThreadsMessageHistoryInputDTO) : SM HistoryPage :=
  page ← SearchLeftThreads r; of_result (enrich_page (lt_Fields r) (lt_DomainID r) page).
End history.
