(* ===== verification/HistoryMapper.v ===== *)
(** * HistoryMapper: messages of the history on the wire

    internal/handler/grpc/mapper/message_history.go with IDsParser and Map of
    internal/utils/slice.go and the set of internal/utils/set.  Records with
    the prefix Pb are the protobuf messages of the responses; those of the
    requests carry the fields the mappers read.  A set is ranged over in the
    order its members were inserted, where Go leaves the order open. *)
From S2P Require Import Prelude Domain Events Message World ReactionStore MediaProcessor MessageActions MessageView HistoryQueries History.
#[local] Open Scope Z_scope.

(** ** Requests *)
Record PbCursor := MkPbCursor { pbc_Id : string; pbc_Before : bool; pbc_Around : bool }.
Record SearchMessageHistoryRequest := MkHistoryRequest {
  shr_Fields : list string; shr_Ids : list string; shr_ThreadId : string; shr_SenderIds : list string;
  shr_Types : list Z; shr_Cursor : option PbCursor; shr_Size : Z; shr_DomainId : Z; shr_CallerId : string;
  shr_AllowList : option (list string) }.
Record SearchMessagesRequest := MkMessagesRequest {
  smr_Fields : list string; smr_Q : string; smr_ThreadId : string; smr_SenderIds : list string;
  smr_Types : list Z; smr_Cursor : option PbCursor; smr_Size : Z; smr_DomainId : Z; smr_CallerId : string;
  smr_AllowList : option (list string) }.
Record SearchLeftThreadsMessageHistoryRequest := MkLeftRequest {
  slr_Fields : list string; slr_ThreadId : string; slr_SenderIds : list string; slr_Types : list Z;
  slr_PeriodFrom : Z; slr_PeriodTo : Z; slr_Cursor : option PbCursor; slr_Size : Z; slr_DomainId : Z;
  slr_CallerId : string; slr_AllowList : option (list string) }.
Record PbGetMessageRevisionsRequest := MkRevisionsRequest { grr_MessageId : string; grr_DomainId : Z; grr_CallerId : string }.

(** ** Responses *)
Inductive PbRole := ROLE_UNSPECIFIED | ROLE_OWNER | ROLE_ADMIN | ROLE_MEMBER | ROLE_SUPERVISOR.
Record PbMember := MkPbMember {
  pm_Id : string; pm_ContactId : string; pm_Role : PbRole; pm_IsBot : bool; pm_AutoLeave : bool; pm_IsActiveController : bool;
  pm_Via : string }.
Record PbDocument := MkPbDocument {
  pd_Id : string; pd_MessageId : string; pd_FileId : Z; pd_Name : string; pd_Mime : string; pd_Size : Z;
  pd_CreatedAt : Z; pd_Url : string }.
Record PbImage := MkPbImage {
  pi_Id : string; pi_MessageId : string; pi_FileId : Z; pi_Mime : string; pi_CreatedAt : Z; pi_Url : string }.
Inductive PbButtonKind := KbCallback (data : string) | KbUrl (url : string) | KbRequest (action : string).
Record PbButton := MkPbButton { pbb_Id : string; pbb_Label : string; pbb_Metadata : metadata; pbb_Kind : option PbButtonKind }.
Record PbSection := MkPbSection { pbs_Section : string; pbs_Buttons : list PbButton }.
Inductive PbInteractiveKind :=
  | PbListReply (title : string) (sections : list PbSection)
  | PbMarkup (rows : list (list PbButton)).
Record PbInteractive := MkPbInteractive { pbi_SingleUse : bool; pbi_Kind : option PbInteractiveKind }.
Record PbSystem := MkPbSystem { pbs_Type : string; pbs_Metadata : metadata }.
Record PbCallback := MkPbCallback { pcb_ReactedBy : string; pcb_ButtonCode : string; pcb_CallbackData : string; pcb_ReactedAt : Z }.
Record PbReply := MkPbReply {
  pr_MessageId : string; pr_SenderId : string; pr_Type : string; pr_Body : string; pr_CreatedAt : Z; pr_IsDeleted : bool;
  pr_AttachmentKind : option string; pr_AttachmentName : option string; pr_AttachmentMime : option string;
  pr_AttachmentAddress : option string }.
Record PbForwardOrigin := MkPbForward {
  pf_Kind : Z; pf_SenderName : string; pf_OriginalSentAt : Z; pf_SenderId : string; pf_SourceMessageId : string }.
Record PbReaction := MkPbReaction {
  px_Emoji : string; px_Count : Z; px_ReactedByMe : bool; px_ReactorIds : list string; px_LastReactedAt : Z }.
Record PbFailure := MkPbFailure { pfl_MemberId : string; pfl_Code : string; pfl_Message : string }.

Record PbHistoryMessage := MkPbMessage {
  ph_Id : string; ph_ThreadId : string; ph_SenderId : string; ph_Type : Z; ph_CreatedAt : Z; ph_UpdatedAt : Z; ph_Seq : Z;
  ph_RevisionCount : Z; ph_Deleted : bool; ph_DeletedAt : Z; ph_DeletedBy : option PbMember;
  ph_Body : string; ph_Metadata : metadata; ph_Documents : list PbDocument; ph_Images : list PbImage;
  ph_Location : option MessageLocation; ph_Contact : option MessageContact; ph_System : option PbSystem;
  ph_Interactive : option PbInteractive; ph_ReactedMetadata : option PbCallback; ph_ReplyTo : option PbReply;
  ph_ForwardOrigin : option PbForwardOrigin; ph_Reactions : list PbReaction; ph_Failures : list PbFailure }.
Record PbRevision := MkPbRevision {
  prv_Version : Z; prv_Action : Z; prv_Body : string; prv_ChangedBy : option PbMember; prv_ChangedAt : Z }.

Record SearchMessageHistoryResponse := MkHistoryResponse {
  shp_Items : list PbHistoryMessage; shp_From : list PbMember; shp_UpdatesCursor : string;
  shp_NextCursor : option string; shp_PrevCursor : option string }.

#[export] Instance dialog_eq_dec : EqDecision ThreadDialog.
Proof. solve_decision. Defined.

Section mapper.
Context {E : Env} {X : MessageEnv}.

Definition IDsParser (s : string) : uuid := default uuid_Nil (menv_uuid_parse s).

(** ** Requests to DTOs *)

(** [None] is an unset field and a nil slice: not restricted. *)
Definition systemMessageAllowListTypes (allowList : option (list string)) : option (list string) :=
  match allowList with None => None | Some types => Some types end.

Definition page_cursor (c : option PbCursor) : option HistoryMessageCursor :=
  c ← c; Some (MkPageCursor (default uuid_Nil (menv_uuid_parse (pbc_Id c))) (pbc_Before c) (pbc_Around c)).

Definition UpdatesHistoryInput (threadID callerID : string) (domainID : Z) (allow : option (list string))
    (messageIDs : list string) : HistoryMessageInputDTO :=
  MkHistoryInput domainID [] (match messageIDs with [] => [] | _ => IDsParser <$> messageIDs end) [IDsParser threadID] [] []
    None (Z.max (Z.of_nat (length messageIDs)) 1) (IDsParser callerID) (systemMessageAllowListTypes allow).

Definition MapSearchMessageHistoryRequest2HistoryMessageInputDTO (mhr : SearchMessageHistoryRequest) : HistoryMessageInputDTO :=
  MkHistoryInput (shr_DomainId mhr) (shr_Fields mhr) (IDsParser <$> shr_Ids mhr) [IDsParser (shr_ThreadId mhr)]
    (IDsParser <$> shr_SenderIds mhr) (shr_Types mhr) (page_cursor (shr_Cursor mhr)) (shr_Size mhr)
    (IDsParser (shr_CallerId mhr)) (systemMessageAllowListTypes (shr_AllowList mhr)).

Definition MapSearchMessagesRequest2SearchMessagesInputDTO (mr : SearchMessagesRequest) : SearchMessagesInputDTO :=
  let id := IDsParser (smr_ThreadId mr) in
  MkSearchInput (smr_DomainId mr) (smr_Fields mr) (smr_Q mr) (if decide (id <> uuid_Nil) then [id] else [])
    (IDsParser <$> smr_SenderIds mr) (smr_Types mr) (page_cursor (smr_Cursor mr)) (smr_Size mr)
    (IDsParser (smr_CallerId mr)) (systemMessageAllowListTypes (smr_AllowList mr)).

(** [time.UnixMilli(v)] *)
Definition period_bound (v : Z) : Time := if 0 <? v then v * 1000000 else 0.

Definition MapSearchLeftThreads2DTO (mhr : SearchLeftThreadsMessageHistoryRequest) : LeftThreadsMessageHistoryInputDTO :=
  MkLeftInput (slr_DomainId mhr) (slr_Fields mhr) (default uuid_Nil (menv_uuid_parse (slr_ThreadId mhr)))
    (IDsParser <$> slr_SenderIds mhr) (slr_Types mhr) (period_bound (slr_PeriodFrom mhr)) (period_bound (slr_PeriodTo mhr))
    (page_cursor (slr_Cursor mhr)) (slr_Size mhr) (systemMessageAllowListTypes (slr_AllowList mhr)).

Definition MapGetMessageRevisionsRequest2DTO (r : PbGetMessageRevisionsRequest) : GetMessageRevisionsRequest :=
  MkGetRevisions (IDsParser (grr_MessageId r)) (grr_DomainId r) (IDsParser (grr_CallerId r)).

(** ** Messages *)
Definition ConvertThreadRole (r : Z) : PbRole :=
  if decide (r = Role.RoleOwner) then ROLE_OWNER else if decide (r = Role.RoleAdmin) then ROLE_ADMIN
  else if decide (r = Role.RoleMember) then ROLE_MEMBER else if decide (r = Role.RoleSupervisor) then ROLE_SUPERVISOR
  else ROLE_UNSPECIFIED.

Definition mapThreadDialog2ThreadMember (dialog : option ThreadDialog) : option PbMember :=
  d ← dialog;
  Some (MkPbMember (if decide (td_ID d <> uuid_Nil) then env_uuid_string (td_ID d) else "")
          (env_uuid_string (td_ContactID d)) (ConvertThreadRole (td_ThreadRole d)) false false false "").

Definition mapDoc (md : HistoryDocument) : PbDocument :=
  MkPbDocument (env_uuid_string (hd_ID md)) (env_uuid_string (hd_MessageID md)) (hd_FileID md) (hd_Name md) (hd_Mime md)
    (hd_Size md) (UnixMilli (hd_CreatedAt md)) (hd_URL md).
Definition mapImage (mi : HistoryImage) : PbImage :=
  MkPbImage (env_uuid_string (hi_ID mi)) (env_uuid_string (hi_MessageID mi)) (hi_FileID mi) (hi_Mime mi)
    (UnixMilli (hi_CreatedAt mi)) (hi_URL mi).
Definition mapDocs (docs : list HistoryDocument) : list PbDocument := mapDoc <$> docs.
Definition mapImages (images : list HistoryImage) : list PbImage := mapImage <$> images.

Definition mapButton (button : option KeyboardButton) : option PbButton :=
  b ← button;
  Some (MkPbButton (btn_ID b) (btn_Label b) (btn_Metadata b)
    (if decide (btn_Type b = ActionTypeCallback) then KbCallback <$> btn_Data b
     else if decide (btn_Type b = ActionTypeURL) then KbUrl <$> btn_URL b
     else if decide (btn_Type b = ActionTypeRequest) then KbRequest <$> btn_Action b else None)).

Definition mapListReplySection (section : option ListReplySection) : option PbSection :=
  s ← section; Some (MkPbSection (sec_Section s) (omap mapButton (sec_Buttons s))).

Definition mapInteractiveList (l : KeyboardListReply) : PbInteractiveKind :=
  PbListReply (lr_Title l) (omap mapListReplySection (lr_Sections l)).

(** Rows without a button are dropped. *)
Definition mapInteractiveMarkup (m : KeyboardButtonMarkup) : PbInteractiveKind :=
  PbMarkup (omap (fun row => r ← row;
    match omap mapButton (row_Buttons r) with [] => None | buttons => Some buttons end) (mk_Rows m)).

Definition mapInteractive (interactive : option MessageInteractive) : option PbInteractive :=
  i ← interactive;
  Some (MkPbInteractive (int_SingleUse i)
    (match int_ListReply i, int_Markup i with
     | Some l, _ => Some (mapInteractiveList l)
     | None, Some m => Some (mapInteractiveMarkup m)
     | None, None => None
     end)).

Definition mapSystem (system : option MessageSystem) : option PbSystem :=
  s ← system; Some (MkPbSystem (sys_Type s) (sys_Metadata s)).

Definition mapReactedMetadata (c : option InteractiveCallback) : option PbCallback :=
  c ← c; Some (MkPbCallback (env_uuid_string (ic_ReactedBy c)) (ic_ButtonCode c) (ic_CallbackData c) (ReactedAtUnix c)).

Definition mapReplyTo (r : option ReplyToPreview) : option PbReply :=
  r ← r;
  let a := rto_Attachment r in
  Some (MkPbReply (env_uuid_string (rto_MessageID r)) (env_uuid_string (rto_SenderID r)) (type_String (rto_Type r))
    (rto_Body r) (rto_CreatedAt r) (rto_IsDeleted r)
    (rat_Kind <$> a) (a ← a; rat_Name a) (a ← a; rat_Mime a) (a ← a; rat_Address a)).

Definition uuid_text (u : option uuid) : string := match u with Some u => env_uuid_string u | None => "" end.

Definition mapForwardOrigin (f : option ForwardOrigin) : option PbForwardOrigin :=
  f ← f;
  Some (MkPbForward (fo_Kind f) (fo_SenderName f) (fo_OriginalSentAt f) (uuid_text (fo_SenderID f))
    (uuid_text (fo_SourceMessageID f))).

Definition mapReactions (rs : list MessageReaction) (callerID : uuid) : list PbReaction :=
  (fun r => MkPbReaction (mrx_Emoji r) (mrx_Count r) (bool_decide (callerID <> uuid_Nil) && ReactedBy r callerID)
              (env_uuid_string <$> mrx_ReactorIDs r) (mrx_LastReactedAt r)) <$> rs.

Definition mapDeliveryFailures (fs : list DeliveryFailure) : list PbFailure :=
  (fun f => MkPbFailure (env_uuid_string (df_MemberID f)) (df_Code f) (df_Message f)) <$> fs.

(** A deleted message shows when and by whom, and nothing of what it said.
    [structpb.NewStruct] takes every metadata the stores read. *)
Definition mapHistoryMessage (callerID : uuid) (m : HistoryMessage) : PbHistoryMessage :=
  let head := MkPbMessage (env_uuid_string (hm_ID m)) (env_uuid_string (hm_ThreadID m)) (env_uuid_string (hm_SenderID m))
    (hm_Type m) (Z.max (UnixMilli (hm_CreatedAt m)) 0) (Z.max (UnixMilli (hm_UpdatedAt m)) 0) (hm_Seq m) (hm_RevisionCount m) in
  match hm_DeletedAt m with
  | Some t =>
      head true (Z.max (UnixMilli t) 0) (mapThreadDialog2ThreadMember (hm_DeletedBy m))
        "" ∅ [] [] None None None None None None None [] []
  | None =>
      head false 0 None (hm_Body m) (hm_Metadata m) (mapDocs (hm_Documents m)) (mapImages (hm_Images m)) (hm_Location m)
        (hm_Contact m) (mapSystem (hm_System m)) (mapInteractive (hm_Interactive m))
        (mapReactedMetadata (hm_ReactedMetadata m)) (mapReplyTo (hm_ReplyTo m)) (mapForwardOrigin (hm_ForwardOrigin m))
        (mapReactions (hm_Reactions m) callerID) (mapDeliveryFailures (hm_Failures m))
  end.

Definition MapMessage2SearchMessageHistoryResponse (messages : list HistoryMessage) (callerID : uuid) : list PbHistoryMessage :=
  mapHistoryMessage callerID <$> messages.

Definition mapMessageChangeEntry (e : MessageChangeEntry) : PbRevision :=
  MkPbRevision (ce_Version e) (ce_Action e) (ce_Body e) (mapThreadDialog2ThreadMember (Some (ce_ChangedBy e)))
    (ChangedAtUnixMillis (Some e)).
Definition MapRevisions2GetMessageRevisionsResponse (entries : list MessageChangeEntry) : list PbRevision :=
  mapMessageChangeEntry <$> entries.

Definition GetUniqueFrom (messages : list HistoryMessage) : list PbMember :=
  omap (fun p => mapThreadDialog2ThreadMember (Some p)) (remove_dups (omap hm_Member messages)).
End mapper.
