(* ===== verification/QueryObject.v ===== *)
(** * QueryObject: fields, sorts, joins and pages of the thread queries

    internal/store/query_object/query_object.go with [ProcessPagination] of
    internal/utils/slice.go, which trims the extra row a query asks for.  The
    rows a query selects, in its order, are a list.  [Entity] is the interface
    of the query objects built on the base one: which fields they know, which
    joins a field needs, and how a join is added.  Of a field's metadata the
    SQL expressions are given by the entity's files, as functions of a row.
    Joins are the bits of a number, as in the source. *)
From S2P Require Import Prelude.
#[local] Open Scope Z_scope.

Definition DefaultLimit : Z := 20.

(** The fields that decide the window: [limit] and the LIMIT and OFFSET of the builder. *)
Record baseQueryObject := MkQueryObject {
  bq_limit : Z; bq_Limit : option Z; bq_Offset : option Z }.

Definition newBaseQueryObject : baseQueryObject := MkQueryObject DefaultLimit None None.

(** [quota] is variadic; the first one counts.  [q.limit] is not assigned. *)
Definition WithLimit (limit : Z) (quota : list Z) (q : baseQueryObject) : baseQueryObject :=
  let limit := if limit <=? 0 then DefaultLimit else limit in
  let limit := match quota with m :: _ => if m <? limit then m else limit | [] => limit end in
  MkQueryObject (bq_limit q) (Some (limit + 1)) (bq_Offset q).

Definition WithOffset (page : Z) (q : baseQueryObject) : baseQueryObject :=
  if page <=? 1 then q else MkQueryObject (bq_limit q) (bq_Limit q) (Some ((page - 1) * bq_limit q)).

(** The rows the server returns for the window. *)
Definition window {A} (q : baseQueryObject) (rows : list A) : list A :=
  let rows := match bq_Offset q with Some o => drop (Z.to_nat o) rows | None => rows end in
  match bq_Limit q with Some n => take (Z.to_nat n) rows | None => rows end.

(** Whether there is a next page, and the page. *)
Definition ProcessPagination {A} (limit : Z) (items : list A) : bool * list A :=
  let limit := if limit <=? 0 then DefaultLimit else limit in
  if Z.of_nat (length items) >? limit then (true, take (Z.to_nat limit) items) else (false, items).

(** A search of threads as the handler serves it: [Search] builds the window
    and the handler trims the answer. *)
Definition search_pages {A} (page size : Z) (rows : list A) : bool * list A :=
  ProcessPagination size (window (WithOffset page (WithLimit size [] newBaseQueryObject)) rows).

(** ** What a page shows *)
Definition page_size (size : Z) : Z := if size <=? 0 then DefaultLimit else size.

Lemma page_size_pos size : 0 < page_size size.
Proof. unfold page_size, DefaultLimit. destruct (Z.leb_spec size 0); lia. Qed.

Lemma window_eq {A} (page size : Z) (rows : list A) :
  window (WithOffset page (WithLimit size [] newBaseQueryObject)) rows =
  take (S (Z.to_nat (page_size size))) (drop (Z.to_nat ((page - 1) * DefaultLimit)) rows).
Proof.
  pose proof (page_size_pos size) as Hpos.
  replace (S (Z.to_nat (page_size size))) with (Z.to_nat (page_size size + 1)) by lia.
  unfold window, WithOffset. destruct (Z.leb_spec page 1) as [Hp|Hp]; [|done].
  by replace (Z.to_nat ((page - 1) * DefaultLimit)) with 0%nat by (unfold DefaultLimit; lia).
Qed.

Lemma trim_eq {A} (size : Z) (l : list A) :
  ProcessPagination size (take (S (Z.to_nat (page_size size))) l) =
  (bool_decide (page_size size < Z.of_nat (length l)), take (Z.to_nat (page_size size)) l).
Proof.
  pose proof (page_size_pos size). unfold ProcessPagination. fold (page_size size).
  rewrite length_take, Z.gtb_ltb. destruct (Z.ltb_spec (page_size size) (Z.of_nat (S (Z.to_nat (page_size size)) `min` length l))).
  - rewrite bool_decide_eq_true_2 by lia. rewrite take_take. f_equal. f_equal. lia.
  - rewrite bool_decide_eq_false_2 by lia. rewrite !take_ge by lia. done.
Qed.

(** Pages of a thread search: page p of size s shows s rows (20 when s is not
    positive) from row 20 (p - 1) on, and announces a next page exactly when
    rows follow them.  As the step is 20 whatever the size, a row at index i is
    on some page if and only if i mod 20 is below the size: sizes under 20 leave
    rows out that no page shows. *)
Theorem search_pages_show {A} (size : Z) (rows : list A) (i : nat) (x : A) :
  NoDup rows -> rows !! i = Some x ->
  (forall page, 1 <= page ->
     search_pages page size rows =
     (bool_decide ((page - 1) * 20 + page_size size < Z.of_nat (length rows)),
      take (Z.to_nat (page_size size)) (drop (Z.to_nat ((page - 1) * 20)) rows))) /\
  ((exists page, 1 <= page /\ x ∈ (search_pages page size rows).2) <-> Z.of_nat i mod 20 < page_size size).
Proof.
  intros Hnd Hi. pose proof (page_size_pos size) as Hpos.
  assert (Heq : forall page, 1 <= page -> search_pages page size rows =
     (bool_decide ((page - 1) * 20 + page_size size < Z.of_nat (length rows)),
      take (Z.to_nat (page_size size)) (drop (Z.to_nat ((page - 1) * 20)) rows))).
  { intros page Hp. unfold search_pages. rewrite window_eq, trim_eq. unfold DefaultLimit. f_equal.
    rewrite length_drop. apply bool_decide_ext. lia. }
  split; [done|]. split.
  - intros [page [Hp Hx]]. rewrite Heq in Hx by done. cbn [snd] in Hx.
    apply list_elem_of_lookup in Hx as [j Hj]. apply lookup_take_Some in Hj as [Hj Hlt].
    rewrite lookup_drop in Hj. pose proof (NoDup_lookup _ _ _ _ Hnd Hi Hj) as ->.
    destruct (Z.le_gt_cases 20 (page_size size)).
    + pose proof (Z.mod_pos_bound (Z.of_nat (Z.to_nat ((page - 1) * 20) + j)) 20). lia.
    + replace (Z.of_nat (Z.to_nat ((page - 1) * 20) + j)) with (Z.of_nat j + (page - 1) * 20) by lia.
      rewrite Z.mod_add by lia. rewrite Z.mod_small by lia. lia.
  - intros Hlt. exists (Z.of_nat i / 20 + 1). pose proof (Z.div_mod (Z.of_nat i) 20).
    pose proof (Z.div_pos (Z.of_nat i) 20). split; [lia|]. rewrite Heq by lia. cbn [snd].
    apply list_elem_of_lookup. exists (Z.to_nat (Z.of_nat i mod 20)). apply lookup_take_Some.
    pose proof (Z.mod_pos_bound (Z.of_nat i) 20). split; [|lia]. rewrite lookup_drop. rewrite <- Hi. f_equal. lia.
Qed.

(** With pages of 5, the row at index 7 of 30 is on no page. *)
Lemma search_pages_show_witness :
  ~ (exists page, 1 <= page /\ 7%nat ∈ (search_pages page 5 (seq 0 30)).2).
Proof.
  intros H. apply (search_pages_show 5 (seq 0 30) 7%nat 7%nat) in H; [ | apply NoDup_seq | reflexivity].
  vm_compute in H. discriminate.
Defined.

(** ** Fields, sorts and joins *)
Record fieldMetadata := MkField { fm_requiresJoin : Z; fm_sortable : bool; fm_nullsLast : bool; fm_sortOnly : bool }.

(** A sort key of the statement: the field, whether descending, whether NULLs come last by request. *)
Record OrderTerm := MkOrder { ot_field : string; ot_desc : bool; ot_nullsLast : bool }.

Class Entity (Q : Type) := {
  DefaultFields : Q -> list string;
  FieldsMetadata : Q -> string -> option fieldMetadata;
  EnsureJoins : Z -> Q -> Q;
  q_fields : Q -> list string;
  q_set_fields : list string -> Q -> Q;
  q_sort : Q -> list string;
  q_set_sort : list string -> Q -> Q;
  q_base : Q -> baseQueryObject;
  q_set_base : baseQueryObject -> Q -> Q }.

(** [q.join & link != 0], [q.join |= link] *)
Definition has_join (link join : Z) : bool := negb (Z.land join link =? 0).
Definition add_join (link join : Z) : Z := Z.lor join link.

Section base.
Context {Q : Type} {T : Entity Q}.

Definition WithFields (fields : list string) (q : Q) : Q :=
  match fields with
  | [] => q
  | _ =>
      let '(valid, q) := fold_left (fun '(valid, q) f =>
        match FieldsMetadata q f with
        | None => (valid, q)
        | Some meta =>
            if fm_sortOnly meta then (valid, q)
            else if bool_decide (f ∈ valid) then (valid, q)
            else (valid ++ [f], EnsureJoins (fm_requiresJoin meta) q)
        end) fields ([], q) in
      q_set_fields valid q
  end.

(** The sign and the field of a sort key of two bytes or more. *)
Definition sort_parts (s : string) : option (string * string) :=
  match s with
  | String c (String _ _ as name) => Some (String c EmptyString, name)
  | _ => None
  end.

Definition WithSort (sortFields : list string) (q : Q) : Q :=
  match sortFields with
  | [] => q
  | _ =>
      let '(valid, q) := fold_left (fun '(valid, q) s =>
        match sort_parts s with
        | None => (valid, q)
        | Some (direction, name) =>
            match FieldsMetadata q name with
            | None => (valid, q)
            | Some meta =>
                if negb (fm_sortable meta) then (valid, q)
                else if negb (bool_decide (direction = "+")) && negb (bool_decide (direction = "-")) then (valid, q)
                else (valid ++ [s], EnsureJoins (fm_requiresJoin meta) q)
            end
        end) sortFields ([], q) in
      q_set_sort valid q
  end.

Definition QWithLimit (limit : Z) (q : Q) : Q := q_set_base (WithLimit limit [] (q_base q)) q.
Definition QWithOffset (page : Z) (q : Q) : Q := q_set_base (WithOffset page (q_base q)) q.

(** The columns and sort keys of the statement, and the query with the joins they need. *)
Definition select_columns (q : Q) : list string * Q :=
  fold_left (fun '(columns, q) f =>
    match FieldsMetadata q f with
    | None => (columns, q)
    | Some meta =>
        if fm_sortOnly meta then (columns, q) else (columns ++ [f], EnsureJoins (fm_requiresJoin meta) q)
    end) (q_fields q) ([], q).

Definition order_terms (q : Q) : list OrderTerm * Q :=
  fold_left (fun '(order, q) s =>
    match sort_parts s with
    | None => (order, q)
    | Some (direction, name) =>
        match FieldsMetadata q name with
        | None => (order, q)
        | Some meta =>
            (order ++ [MkOrder name (bool_decide (direction = "-")) (fm_nullsLast meta)],
             EnsureJoins (fm_requiresJoin meta) q)
        end
    end) (q_sort q) ([], q).

(** [ToSQL]: the columns selected, the sort keys, the query. *)
Definition ToSQL (q : Q) : list string * list OrderTerm * Q :=
  let q := match q_fields q with [] => q_set_fields (DefaultFields q) q | _ => q end in
  let '(columns, q) := select_columns q in
  let '(order, q) := order_terms q in
  (columns, order, q).
End base.

(** ** Rows in the order of a statement

    Values a sort key takes; [collate] is the order of texts of the server.
    NULLs come last in ascending and first in descending order, or last when
    the key says so. *)
Inductive SortValue := SvNull | SvNum (n : Z) | SvText (s : string).

Definition value_lt (collate : string -> string -> bool) (a b : SortValue) : bool :=
  match a, b with
  | SvNum x, SvNum y => x <? y
  | SvText x, SvText y => collate x y
  | _, _ => false
  end.

Definition term_lt (collate : string -> string -> bool) (t : OrderTerm) (a b : SortValue) : bool :=
  match a, b with
  | SvNull, SvNull => false
  | SvNull, _ => ot_desc t && negb (ot_nullsLast t)
  | _, SvNull => negb (ot_desc t) || ot_nullsLast t
  | _, _ => if ot_desc t then value_lt collate b a else value_lt collate a b
  end.

Section order.
Context {Row : Type} (collate : string -> string -> bool) (value : string -> Row -> SortValue).

Fixpoint sorts_before (order : list OrderTerm) (a b : Row) : bool :=
  match order with
  | [] => false
  | t :: order' =>
      let x := value (ot_field t) a in let y := value (ot_field t) b in
      term_lt collate t x y || (negb (term_lt collate t y x) && sorts_before order' a b)
  end.

Definition sort_le (order : list OrderTerm) (a b : Row) : Prop := sorts_before order b a = false.
#[export] Instance sort_le_dec order a b : Decision (sort_le order a b).
Proof. unfold sort_le. apply _. Defined.

Definition sorted_rows (order : list OrderTerm) (rows : list Row) : list Row := merge_sort (sort_le order) rows.
End order.
