(* ===== verification/ThreadQueries.v ===== *)
(** * ThreadQueries: the statements that read threads

    internal/store/query_object/thread.go and search_left.go.  A row of the
    statement is a thread with the dialog joined as td, or with the left
    membership lm; filters are predicates on it. *)
From S2P Require Import Prelude Domain Events Message World Text DialogStore MessageStore VariableStore QueryObject.
From S2P Require Import MessageView HistoryQueries ThreadStore.
#[local] Open Scope Z_scope.

(** The replicated table im_contact.contact, the text of a variable, the POSIX
    match without case and the order of texts of the server. *)
Record ContactRow := MkContactRow {
  cr_id : uuid; cr_domain_id : Z; cr_name : string; cr_username : string; cr_issuer_id : string; cr_subject_id : string }.

Class ThreadReadEnv := {
  renv_contacts : list ContactRow;
  renv_variable_text : VariableEntry -> string;
  renv_matches : string -> string -> bool;
  renv_collate : string -> string -> bool }.

Definition threadLinkThreadDialog : Z := 1.
Definition threadLinkDirectSettings : Z := 2.
Definition threadLinkMembersLateral : Z := 4.
Definition threadLinkFullMembersLateral : Z := 8.
Definition threadLinkLastMessageLateral : Z := 16.
Definition threadLinkVariables : Z := 32.
Definition threadLinkSource : Z := 64.
Definition threadLinkQueue : Z := 128.

(** A row: [jr_td] is the joined dialog, [None] when the statement joins none. *)
Record JoinedRow := MkJoined { jr_at : Time; jr_db : DB; jr_thread : ThreadRow; jr_td : option DialogRow }.

Record threadQueryObject := MkThreadQueryObject {
  to_base : baseQueryObject; to_fields : list string; to_sort : list string; to_join : Z;
  to_where : list (JoinedRow -> bool);
  to_mustIncludeComputedSubject : bool; to_selfScoped : bool; to_queueOwnerID : uuid }.

Definition NewThreadQueryObject : threadQueryObject := MkThreadQueryObject newBaseQueryObject [] [] 0 [] false false uuid_Nil.

Definition to_set_join (j : Z) (q : threadQueryObject) : threadQueryObject :=
  MkThreadQueryObject (to_base q) (to_fields q) (to_sort q) j (to_where q) (to_mustIncludeComputedSubject q)
    (to_selfScoped q) (to_queueOwnerID q).
Definition to_Where (p : JoinedRow -> bool) (q : threadQueryObject) : threadQueryObject :=
  MkThreadQueryObject (to_base q) (to_fields q) (to_sort q) (to_join q) (to_where q ++ [p]) (to_mustIncludeComputedSubject q)
    (to_selfScoped q) (to_queueOwnerID q).
Definition to_set_flags (subject self : bool) (owner : uuid) (q : threadQueryObject) : threadQueryObject :=
  MkThreadQueryObject (to_base q) (to_fields q) (to_sort q) (to_join q) (to_where q) subject self owner.

Definition queueScoped (q : threadQueryObject) : bool :=
  to_selfScoped q || bool_decide (to_queueOwnerID q <> uuid_Nil).

Definition threadDefaultFields (q : threadQueryObject) : list string :=
  ["id"; "domain_id"; "created_at"; "updated_at"; "kind"; "owner"; "subject"; "description"; "members";
   "bot_controller_id"; "owner_bot_id"; "crm_contact_id"; "source"] ++ (if to_selfScoped q then ["queue"] else []).

Definition resolveSubjectJoin (q : threadQueryObject) : Z :=
  if to_mustIncludeComputedSubject q then threadLinkDirectSettings else 0.
Definition resolveQueueJoin (q : threadQueryObject) : Z := if queueScoped q then threadLinkQueue else 0.

Definition threadFieldsMetadata (q : threadQueryObject) (f : string) : option fieldMetadata :=
  if bool_decide (f ∈ ["id"; "domain_id"; "created_at"; "updated_at"; "kind"; "owner"; "description"])
  then Some (MkField 0 true false false)
  else if bool_decide (f ∈ ["bot_controller_id"; "owner_bot_id"; "crm_contact_id"]) then Some (MkField 0 false false false)
  else if decide (f = "subject") then Some (MkField (resolveSubjectJoin q) true false false)
  else if decide (f = "members") then Some (MkField threadLinkFullMembersLateral false false false)
  else if decide (f = "last_msg") then Some (MkField threadLinkLastMessageLateral false false false)
  else if decide (f = "last_msg_at") then Some (MkField threadLinkLastMessageLateral true false false)
  else if decide (f = "variables") then Some (MkField threadLinkVariables false false false)
  else if decide (f = "source") then Some (MkField threadLinkSource false false false)
  else if decide (f = "source_name") then Some (MkField threadLinkSource true true true)
  else if decide (f = "queue") then Some (MkField (resolveQueueJoin q) false false false)
  else if decide (f = "queue_name") then Some (MkField (resolveQueueJoin q) true true true)
  else None.

(** Each link adds its bit once; direct settings and the queue of a query bound
    to its caller join the dialog first. *)
Definition link (bit : Z) (q : threadQueryObject) : threadQueryObject :=
  if has_join bit (to_join q) then q else to_set_join (add_join bit (to_join q)) q.
Definition linkThreadDialog : threadQueryObject -> threadQueryObject := link threadLinkThreadDialog.
Definition linkDirectSettings (q : threadQueryObject) : threadQueryObject :=
  if has_join threadLinkDirectSettings (to_join q) then q else link threadLinkDirectSettings (linkThreadDialog q).
Definition linkQueue (q : threadQueryObject) : threadQueryObject :=
  if has_join threadLinkQueue (to_join q) then q
  else let q := link threadLinkQueue q in if to_selfScoped q then linkThreadDialog q else q.

Definition when_required (bit required : Z) (l : threadQueryObject -> threadQueryObject) (q : threadQueryObject) : threadQueryObject :=
  if has_join bit required then l q else q.

Definition threadEnsureJoins (required : Z) (q : threadQueryObject) : threadQueryObject :=
  when_required threadLinkQueue required linkQueue
  (when_required threadLinkSource required (link threadLinkSource)
  (when_required threadLinkVariables required (link threadLinkVariables)
  (when_required threadLinkLastMessageLateral required (link threadLinkLastMessageLateral)
  (when_required threadLinkFullMembersLateral required (link threadLinkFullMembersLateral)
  (when_required threadLinkDirectSettings required linkDirectSettings
  (when_required threadLinkThreadDialog required linkThreadDialog q)))))).

#[export] Instance thread_entity : Entity threadQueryObject := {|
  DefaultFields := threadDefaultFields;
  FieldsMetadata := threadFieldsMetadata;
  EnsureJoins := threadEnsureJoins;
  q_fields := to_fields;
  q_set_fields := fun fs q => MkThreadQueryObject (to_base q) fs (to_sort q) (to_join q) (to_where q)
    (to_mustIncludeComputedSubject q) (to_selfScoped q) (to_queueOwnerID q);
  q_sort := to_sort;
  q_set_sort := fun s q => MkThreadQueryObject (to_base q) (to_fields q) s (to_join q) (to_where q)
    (to_mustIncludeComputedSubject q) (to_selfScoped q) (to_queueOwnerID q);
  q_base := to_base;
  q_set_base := fun b q => MkThreadQueryObject b (to_fields q) (to_sort q) (to_join q) (to_where q)
    (to_mustIncludeComputedSubject q) (to_selfScoped q) (to_queueOwnerID q) |}.

(** ** Filters *)
Definition td_holds (p : DialogRow -> bool) (r : JoinedRow) : bool := match jr_td r with Some td => p td | None => false end.

Definition to_among {A} `{EqDecision A} (values : list A) (column : ThreadRow -> A) (q : threadQueryObject) : threadQueryObject :=
  match values with [] => q | _ => to_Where (fun r => bool_decide (column (jr_thread r) ∈ values)) q end.

Definition TWithIDFilter (ids : list uuid) : threadQueryObject -> threadQueryObject := to_among ids t_id.
Definition WithSubject (q : threadQueryObject) : threadQueryObject := to_set_flags true (to_selfScoped q) (to_queueOwnerID q) q.
Definition TWithDomainIDFilter (ids : list Z) : threadQueryObject -> threadQueryObject := to_among ids t_domain_id.
Definition TWithKindFilter (kinds : list Z) : threadQueryObject -> threadQueryObject := to_among kinds t_kind.
Definition WithOwnerFilter (owners : list uuid) : threadQueryObject -> threadQueryObject := to_among owners t_owner.

(** The title the dialog's owner gave a direct thread. *)
Definition settings_title (r : JoinedRow) : option string :=
  td ← jr_td r; s ← find_first (fun s => bool_decide (st_thread_dialog_id s = d_id td)) (db_settings (jr_db r)); Some (st_title s).

Section filters.
Context {H : HistoryEnv} {R : ThreadReadEnv}.

(** [ilike] on a column that may be NULL. *)
Definition olike (text : option string) (pattern : string) : bool :=
  match text with Some t => ilike t pattern | None => false end.

Definition matches_term (pattern : string) (r : JoinedRow) : bool :=
  ilike (t_subject (jr_thread r)) pattern || olike (settings_title r) pattern ||
  existsb (fun m => bool_decide (d_thread_id m = t_id (jr_thread r)) && active m &&
    existsb (fun c => bool_decide (cr_id c = d_member_id m) && (ilike (cr_name c) pattern || ilike (cr_username c) pattern))
      renv_contacts) (db_dialogs (jr_db r)) ||
  existsb (fun v => bool_decide (vr_thread_id v = t_id (jr_thread r)) &&
    existsb (fun e => ilike (renv_variable_text e.2) pattern) (map_to_list (vr_variables v))) (db_variables (jr_db r)).

(** [utf8.ValidString] *)
Definition ValidString (s : string) : bool := bool_decide (ToValidUTF8 s = s).

Definition WithSearchFilter (term : string) (q : threadQueryObject) : threadQueryObject :=
  if bool_decide (term = "") || negb (ValidString term) then q
  else to_Where (matches_term (LikeContains term))
         (threadEnsureJoins threadLinkDirectSettings (to_set_flags true (to_selfScoped q) (to_queueOwnerID q) q)).

Definition WithDescriptionFilter (description : string) (q : threadQueryObject) : threadQueryObject :=
  if negb (bool_decide (description = "")) && ValidString description
  then to_Where (fun r => renv_matches (t_description (jr_thread r)) description) q else q.

Definition WithContactIDFilter (memberIDs : list uuid) (q : threadQueryObject) : threadQueryObject :=
  match memberIDs with
  | [] => q
  | _ => to_set_flags true true (to_queueOwnerID q)
           (to_Where (td_holds (fun td => bool_decide (d_member_id td ∈ memberIDs))) (threadEnsureJoins threadLinkThreadDialog q))
  end.

Definition is_of (selfID : uuid) (td : DialogRow) : bool := bool_decide (d_member_id td = selfID).

(** The query becomes that of one contact's own active dialogs. *)
Definition self_scope (selfID : uuid) (q : threadQueryObject) : threadQueryObject :=
  to_set_flags true true (to_queueOwnerID q)
    (to_Where (td_holds active) (to_Where (td_holds (is_of selfID)) (threadEnsureJoins threadLinkThreadDialog q))).

(** [count(distinct member_id)] of the active dialogs among the contacts. *)
Definition present (contacts : list uuid) (tid : uuid) (d : DB) : list uuid :=
  remove_dups (d_member_id <$> select_where (fun td => bool_decide (d_thread_id td = tid) && active td &&
    bool_decide (d_member_id td ∈ contacts)) (db_dialogs d)).

Definition WithSharedMembersFilter (selfID : uuid) (memberIDs : list uuid) (q : threadQueryObject) : threadQueryObject :=
  if decide (selfID = uuid_Nil) then q
  else
    let q := self_scope selfID q in
    match memberIDs with
    | [] => q
    | _ => to_Where (fun r => negb (bool_decide (present memberIDs (t_id (jr_thread r)) (jr_db r) = [])) &&
             bool_decide (length (present memberIDs (t_id (jr_thread r)) (jr_db r)) = length memberIDs)) q
    end.

(** The tags of the contact on the thread, among those given. *)
Definition tagged (contact tid : uuid) (tags : list string) (d : DB) : list string :=
  remove_dups (g_tag <$> select_where (fun g => bool_decide (g_thread_id g = tid) && bool_decide (g_contact_id g = contact) &&
    bool_decide (g_tag g ∈ tags)) (db_tags d)).

Definition has_all_tags (selfID tid : uuid) (tags : list string) (d : DB) : bool :=
  negb (bool_decide (tagged selfID tid tags d = [])) && bool_decide (length (tagged selfID tid tags d) = length tags).

Definition WithTagsFilter (selfID : uuid) (tags : list string) (q : threadQueryObject) : threadQueryObject :=
  if bool_decide (selfID = uuid_Nil) || bool_decide (tags = []) then q
  else to_Where (fun r => has_all_tags selfID (t_id (jr_thread r)) tags (jr_db r)) q.

Definition WithExcludeTagsFilter (selfID : uuid) (tags : list string) (q : threadQueryObject) : threadQueryObject :=
  if bool_decide (selfID = uuid_Nil) || bool_decide (tags = []) then q
  else to_Where (fun r => bool_decide (tagged selfID (t_id (jr_thread r)) tags (jr_db r) = [])) q.

Definition WithUnreadFilter (selfID : uuid) (unread : bool) (q : threadQueryObject) : threadQueryObject :=
  if bool_decide (selfID = uuid_Nil) || negb unread then q
  else to_Where (td_holds (fun td => 0 <? d_unread_count td))
         (to_Where (td_holds (is_of selfID)) (threadEnsureJoins threadLinkThreadDialog q)).

Record ContactIdentity := MkIdentityPair { id_Sub : string; id_Iss : string }.

(** The contacts of the identities; one that is not known is left out. *)
Definition participant_contacts (domainIDs : list Z) (participants : list ContactIdentity) : list uuid :=
  cr_id <$> select_where (fun c => (bool_decide (domainIDs = []) || bool_decide (cr_domain_id c ∈ domainIDs)) &&
    existsb (fun p => bool_decide (cr_issuer_id c = id_Iss p) && bool_decide (cr_subject_id c = id_Sub p)) participants) renv_contacts.

Definition WithParticipantsFilter (selfID : uuid) (domainIDs : list Z) (participants : list ContactIdentity)
    (q : threadQueryObject) : threadQueryObject :=
  if bool_decide (selfID = uuid_Nil) || bool_decide (participants = []) then q
  else
    let contacts := participant_contacts domainIDs participants in
    to_Where (fun r => negb (bool_decide (present contacts (t_id (jr_thread r)) (jr_db r) = [])) &&
      bool_decide (length (present contacts (t_id (jr_thread r)) (jr_db r)) = length contacts)) (self_scope selfID q).

Definition WithoutDeletedAtFilter (q : threadQueryObject) : threadQueryObject :=
  to_Where (td_holds active) (threadEnsureJoins threadLinkThreadDialog q).

Definition WithQueueOwner (callerID : uuid) (q : threadQueryObject) : threadQueryObject :=
  to_set_flags (to_mustIncludeComputedSubject q) (to_selfScoped q) callerID q.
End filters.

(** ** What the statements read *)
Record ThreadSource := MkThreadSource { tso_ID : string; tso_Name : string; tso_Type : string }.
Record ThreadQueue := MkThreadQueue { tqe_ID : Z; tqe_Name : string }.

(** The columns of [threadRecord]; those not selected are zero. *)
Record ThreadColumns := MkThreadColumns {
  tc_Record : threadRecord; tc_LastMessage : option HistoryMessage; tc_Variables : option ThreadVariables;
  tc_Source : option ThreadSource; tc_Queue : option ThreadQueue; tc_ThreadRefID : uuid }.

(** The first non-bot dialog with a gate: those not left first, then the oldest. *)
Definition gate_dialog (t : ThreadRow) (d : DB) : option DialogRow :=
  let rows := select_where (fun sd => bool_decide (d_domain_id sd = t_domain_id t) && bool_decide (d_thread_id sd = t_id t) &&
    negb (d_is_bot sd) && match d_via sd with Some v => negb (bool_decide (v = "")) | None => false end) (db_dialogs d) in
  match max_by (fun sd => - d_created_at sd) (List.filter active rows) with
  | Some sd => Some sd
  | None => max_by (fun sd => - d_created_at sd) rows
  end.

Definition source_ref (gate : string) (d : DB) : option SourceRef :=
  find_first (fun s => bool_decide (sr_GateID s = gate)) (db_source_refs d).

Definition thread_source (t : ThreadRow) (d : DB) : option ThreadSource :=
  sd ← gate_dialog t d; gate ← d_via sd;
  Some (match source_ref gate d with
        | Some s => MkThreadSource gate (sr_Name s) (sr_Type s)
        | None => MkThreadSource gate "" ""
        end).

Definition queue_ref (domainID : Z) (queue : option Z) (d : DB) : option QueueRef :=
  queue ← queue; find_first (fun r => bool_decide (qr_DomainID r = domainID) && bool_decide (qr_QueueID r = queue)) (db_queue_refs d).

(** The queue of the joined dialog, or of the owner's own active dialog. *)
Definition joined_queue (q : threadQueryObject) (r : JoinedRow) : option QueueRef :=
  let t := jr_thread r in
  let td := if to_selfScoped q then jr_td r
            else find_first (fun qtd => bool_decide (d_thread_id qtd = t_id t) && bool_decide (d_domain_id qtd = t_domain_id t) &&
                   bool_decide (d_member_id qtd = to_queueOwnerID q) && active qtd) (db_dialogs (jr_db r)) in
  td ← td; queue_ref (t_domain_id t) (d_queue_id td) (jr_db r).

Definition thread_queue (q : threadQueryObject) (r : JoinedRow) : option ThreadQueue :=
  if queueScoped q then (fun x => MkThreadQueue (qr_QueueID x) (qr_Name x)) <$> joined_queue q r else None.

Definition computed_subject (q : threadQueryObject) (r : JoinedRow) : string :=
  let t := jr_thread r in
  if to_mustIncludeComputedSubject q
  then (if decide (t_kind t = Kind.ThreadDirect) then default "" (settings_title r) else t_subject t)
  else t_subject t.

Definition thread_variables (t : ThreadRow) (d : DB) : option ThreadVariables :=
  v ← find_first (fun v => bool_decide (vr_thread_id v = t_id t)) (db_variables d);
  Some (MkThreadVariables uuid_Nil (vr_variables v) []).

Definition last_message_row (t : ThreadRow) (d : DB) : option MessageRow :=
  max_by (fun m => Z.of_N (m_id m))
    (select_where (fun m => bool_decide (m_thread_id m = t_id t) && bool_decide (m_deleted_at m = None)) (db_messages d)).

Section columns.
Context {H : HistoryEnv} {R : ThreadReadEnv}.

Definition last_message (at_ : Time) (d : DB) (m : MessageRow) : HistoryMessage :=
  MkHistory (m_id m) uuid_Nil (m_sender_id m) (m_type m) (m_body m) (m_metadata m) (m_created_at m) (m_updated_at m) 0
    (left_document <$> history_documents m d) (left_image <$> history_images m d) None (m_interactive m)
    (view_location m) (view_contact m) (history_system m) None None None [] false None None 0
    (failuresColumn (MkViewRow at_ d m None)).

Definition thread_columns (q : threadQueryObject) (columns : list string) (r : JoinedRow) : ThreadColumns :=
  let t := jr_thread r in let d := jr_db r in
  let on {A} (f : string) (zero v : A) := when_selected columns f zero v in
  MkThreadColumns
    (MkThreadRec (on "id" uuid_Nil (t_id t)) (on "domain_id" 0 (t_domain_id t)) (on "subject" "" (computed_subject q r))
      (on "created_at" 0 (t_created_at t)) (on "updated_at" 0 (t_updated_at t)) (on "kind" 0 (t_kind t))
      (on "owner" uuid_Nil (t_owner t)) (on "description" "" (t_description t))
      (on "members" [] (member_record <$> active_dialogs (t_id t) d))
      (on "bot_controller_id" None (t_bot_controller_id t)) (on "owner_bot_id" None (t_owner_bot_id t))
      (on "crm_contact_id" None (t_crm_contact_id t)))
    (on "last_msg" None (last_message (jr_at r) d <$> last_message_row t d))
    (on "variables" None (thread_variables t d))
    (on "source" None (thread_source t d))
    (on "queue" None (thread_queue q r))
    uuid_Nil.

Definition text_value (s : option string) : SortValue := match s with Some s => SvText s | None => SvNull end.

(** [sqlExpr]: the subject is sorted by as it is stored. *)
Definition thread_value (q : threadQueryObject) (f : string) (r : JoinedRow) : SortValue :=
  let t := jr_thread r in
  if decide (f = "id") then SvNum (Z.of_N (t_id t))
  else if decide (f = "domain_id") then SvNum (t_domain_id t)
  else if decide (f = "created_at") then SvNum (t_created_at t)
  else if decide (f = "updated_at") then SvNum (t_updated_at t)
  else if decide (f = "kind") then SvNum (t_kind t)
  else if decide (f = "owner") then SvNum (Z.of_N (t_owner t))
  else if decide (f = "subject") then SvText (t_subject t)
  else if decide (f = "description") then SvText (t_description t)
  else if decide (f = "last_msg_at") then
    match last_message_row t (jr_db r) with Some m => SvNum (Z.of_N (m_id m)) | None => SvNull end
  else if decide (f = "source_name") then
    text_value (sd ← gate_dialog t (jr_db r); g ← d_via sd; s ← source_ref g (jr_db r); Some (sr_Name s))
  else if decide (f = "queue_name") then
    (if queueScoped q then text_value (qr_Name <$> joined_queue q r) else SvNull)
  else SvNull.

(** The rows the joins make. *)
Definition joined_rows (join : Z) (at_ : Time) (d : DB) : list JoinedRow :=
  db_threads d ≫= (fun t =>
    if has_join threadLinkThreadDialog join
    then (fun td => MkJoined at_ d t (Some td)) <$> select_where (fun td => bool_decide (d_thread_id td = t_id t)) (db_dialogs d)
    else [MkJoined at_ d t None]).

(** What the statement of a query answers. *)
Definition run_thread_query (q : threadQueryObject) (at_ : Time) (d : DB) : list ThreadColumns :=
  let '(columns, order, q) := QueryObject.ToSQL q in
  thread_columns q columns <$>
    window (to_base q) (sorted_rows renv_collate (thread_value q) order
      (List.filter (fun r => forallb (fun p => p r) (to_where q)) (joined_rows (to_join q) at_ d))).
End columns.

(** ** search_left.go: the memberships a contact has left *)
Definition searchLeftLinkMembersLateral : Z := 1.
Definition searchLeftLinkLastMessageLateral : Z := 2.
Definition searchLeftLinkSource : Z := 4.
Definition searchLeftLinkQueue : Z := 8.

(** [jr_td] is the membership lm; without a page the newest left comes first. *)
Record searchLeftQueryObject := MkSearchLeft {
  sl_base : baseQueryObject; sl_fields : list string; sl_sort : list string; sl_join : Z;
  sl_where : list (JoinedRow -> bool); sl_memberID : uuid }.

Definition NewSearchLeftQueryObject (memberID : uuid) : searchLeftQueryObject :=
  MkSearchLeft newBaseQueryObject [] [] 0 [] memberID.

Definition sl_Where (p : JoinedRow -> bool) (q : searchLeftQueryObject) : searchLeftQueryObject :=
  MkSearchLeft (sl_base q) (sl_fields q) (sl_sort q) (sl_join q) (sl_where q ++ [p]) (sl_memberID q).
Definition sl_link (bit : Z) (q : searchLeftQueryObject) : searchLeftQueryObject :=
  if has_join bit (sl_join q) then q
  else MkSearchLeft (sl_base q) (sl_fields q) (sl_sort q) (add_join bit (sl_join q)) (sl_where q) (sl_memberID q).
Definition sl_when (bit required : Z) (q : searchLeftQueryObject) : searchLeftQueryObject :=
  if has_join bit required then sl_link bit q else q.

Definition searchLeftDefaultFields : list string :=
  ["id"; "domain_id"; "created_at"; "updated_at"; "kind"; "owner"; "subject"; "description"; "members"; "last_msg";
   "crm_contact_id"; "source"; "queue"].

Definition searchLeftFieldsMetadata (f : string) : option fieldMetadata :=
  if bool_decide (f ∈ ["id"; "domain_id"; "created_at"; "updated_at"; "kind"; "owner"; "subject"; "description"])
  then Some (MkField 0 true false false)
  else if decide (f = "crm_contact_id") then Some (MkField 0 false false false)
  else if decide (f = "members") then Some (MkField searchLeftLinkMembersLateral false false false)
  else if decide (f = "last_msg") then Some (MkField searchLeftLinkLastMessageLateral false false false)
  else if decide (f = "source") then Some (MkField searchLeftLinkSource false false false)
  else if decide (f = "source_name") then Some (MkField searchLeftLinkSource true true true)
  else if decide (f = "queue") then Some (MkField searchLeftLinkQueue false false false)
  else if decide (f = "queue_name") then Some (MkField searchLeftLinkQueue true true true)
  else None.

Definition searchLeftEnsureJoins (required : Z) (q : searchLeftQueryObject) : searchLeftQueryObject :=
  sl_when searchLeftLinkQueue required (sl_when searchLeftLinkSource required
    (sl_when searchLeftLinkLastMessageLateral required (sl_when searchLeftLinkMembersLateral required q))).

#[export] Instance searchLeft_entity : Entity searchLeftQueryObject := {|
  DefaultFields := fun _ => searchLeftDefaultFields;
  FieldsMetadata := fun _ => searchLeftFieldsMetadata;
  EnsureJoins := searchLeftEnsureJoins;
  q_fields := sl_fields;
  q_set_fields := fun fs q => MkSearchLeft (sl_base q) fs (sl_sort q) (sl_join q) (sl_where q) (sl_memberID q);
  q_sort := sl_sort;
  q_set_sort := fun s q => MkSearchLeft (sl_base q) (sl_fields q) s (sl_join q) (sl_where q) (sl_memberID q);
  q_base := sl_base;
  q_set_base := fun b q => MkSearchLeft b (sl_fields q) (sl_sort q) (sl_join q) (sl_where q) (sl_memberID q) |}.

Definition LWithDomainIDFilter (id : Z) (q : searchLeftQueryObject) : searchLeftQueryObject :=
  if decide (id <> 0) then sl_Where (fun r => bool_decide (t_domain_id (jr_thread r) = id)) q else q.
Definition LWithKindFilter (kinds : list Z) (q : searchLeftQueryObject) : searchLeftQueryObject :=
  match kinds with [] => q | _ => sl_Where (fun r => bool_decide (t_kind (jr_thread r) ∈ kinds)) q end.
Definition LWithTagsFilter (memberID : uuid) (tags : list string) (q : searchLeftQueryObject) : searchLeftQueryObject :=
  if bool_decide (memberID = uuid_Nil) || bool_decide (tags = []) then q
  else sl_Where (fun r => has_all_tags memberID (t_id (jr_thread r)) tags (jr_db r)) q.

(** [between lm.joined_at and lm.left_at] *)
Definition within (lm : DialogRow) (at_ : Time) : bool :=
  (d_created_at lm <=? at_) && match d_deleted_at lm with Some t => at_ <=? t | None => false end.

(** Of each contact that wrote in the period one dialog, left ones first ([desc nulls last]). *)
Definition left_period_members (t : ThreadRow) (lm : DialogRow) (d : DB) : list DialogRow :=
  let rows := select_where (fun td => bool_decide (d_thread_id td = t_id t) &&
    existsb (fun m => bool_decide (m_thread_id m = t_id t) && bool_decide (m_sender_id m = d_member_id td) &&
                      within lm (m_created_at m)) (db_messages d)) (db_dialogs d) in
  let pick c := let own := select_where (fun td => bool_decide (d_member_id td = c)) rows in
    match max_by (fun td => default 0 (d_deleted_at td)) (List.filter (fun td => negb (active td)) own) with
    | Some td => Some td
    | None => head own
    end in
  omap pick (merge_sort N.le (remove_dups (d_member_id <$> rows))).

Definition left_last_message (t : ThreadRow) (lm : DialogRow) (d : DB) : option HistoryMessage :=
  m ← max_by m_created_at (select_where (fun m => bool_decide (m_thread_id m = t_id t) && within lm (m_created_at m)) (db_messages d));
  Some (MkHistory (m_id m) uuid_Nil (m_sender_id m) (m_type m) (m_body m) (m_metadata m) (m_created_at m) (m_updated_at m) 0
    [] [] None None None None None None None None [] false None None 0 []).

(** The member's gate and flags are not in the object. *)
Definition left_member_record (td : DialogRow) : threadMemberRecord :=
  MkThreadMemberRec (d_id td) (d_member_id td) (d_thread_role td) None false false.

Definition search_left_columns (columns : list string) (r : JoinedRow) : ThreadColumns :=
  let t := jr_thread r in let d := jr_db r in
  let on {A} (f : string) (zero v : A) := when_selected columns f zero v in
  let lm {A} (zero : A) (f : DialogRow -> A) : A := match jr_td r with Some lm => f lm | None => zero end in
  MkThreadColumns
    (MkThreadRec (on "id" uuid_Nil (lm uuid_Nil d_id)) (on "domain_id" 0 (t_domain_id t)) (on "subject" "" (t_subject t))
      (on "created_at" 0 (lm 0 d_created_at)) (on "updated_at" 0 (lm 0 (fun l => default 0 (d_deleted_at l))))
      (on "kind" 0 (t_kind t)) (on "owner" uuid_Nil (t_owner t)) (on "description" "" (t_description t))
      (on "members" [] (lm [] (fun l => left_member_record <$> left_period_members t l d))) None None
      (on "crm_contact_id" None (t_crm_contact_id t)))
    (on "last_msg" None (lm None (fun l => left_last_message t l d))) None
    (on "source" None (thread_source t d))
    (on "queue" None (lm None (fun l => (fun x => MkThreadQueue (qr_QueueID x) (qr_Name x)) <$>
                                       queue_ref (t_domain_id t) (d_queue_id l) d)))
    (t_id t).

Definition left_value (f : string) (r : JoinedRow) : SortValue :=
  let t := jr_thread r in
  let lm (g : DialogRow -> SortValue) := match jr_td r with Some lm => g lm | None => SvNull end in
  if decide (f = "id") then lm (fun l => SvNum (Z.of_N (d_id l)))
  else if decide (f = "domain_id") then SvNum (t_domain_id t)
  else if decide (f = "created_at") then lm (fun l => SvNum (d_created_at l))
  else if decide (f = "updated_at") then lm (fun l => match d_deleted_at l with Some x => SvNum x | None => SvNull end)
  else if decide (f = "kind") then SvNum (t_kind t)
  else if decide (f = "owner") then SvNum (Z.of_N (t_owner t))
  else if decide (f = "subject") then SvText (t_subject t)
  else if decide (f = "description") then SvText (t_description t)
  else if decide (f = "source_name") then
    text_value (sd ← gate_dialog t (jr_db r); g ← d_via sd; s ← source_ref g (jr_db r); Some (sr_Name s))
  else if decide (f = "queue_name") then
    lm (fun l => text_value (qr_Name <$> queue_ref (t_domain_id t) (d_queue_id l) (jr_db r)))
  else SvNull.

Definition left_rows (memberID : uuid) (at_ : Time) (d : DB) : list JoinedRow :=
  db_threads d ≫= (fun t => (fun lm => MkJoined at_ d t (Some lm)) <$>
    select_where (fun lm => bool_decide (d_thread_id lm = t_id t) && bool_decide (d_member_id lm = memberID) && negb (active lm))
      (db_dialogs d)).

(** [ToSQL] of the query: the newest left first when nothing else is asked. *)
Definition run_left_query {R : ThreadReadEnv} (q : searchLeftQueryObject) (at_ : Time) (d : DB) : list ThreadColumns :=
  let default_order := match sl_sort q with [] => [MkOrder "updated_at" true false] | _ => [] end in
  let '(columns, order, q) := QueryObject.ToSQL q in
  search_left_columns columns <$>
    window (sl_base q) (sorted_rows renv_collate left_value (default_order ++ order)
      (List.filter (fun r => forallb (fun p => p r) (sl_where q)) (left_rows (sl_memberID q) at_ d))).
