(* ===== verification/ThreadReads.v ===== *)
(** * ThreadReads: reading threads

    The reads of internal/store/postgres/thread_store.go and of
    internal/service/thread_manager.go: one thread, the threads of a contact,
    those it has left, and the counters.  [ThreadView] are the fields of
    model.Thread these reads fill.  Enrichments that fail are logged and leave
    the threads as they are. *)
From S2P Require Import Prelude Domain Events Message World DialogStore PreviewStore TagStore TagService MessageStatus VariableStore Variables.
From S2P Require Import QueryObject MessageView ThreadStore ThreadQueries.
#[local] Open Scope Z_scope.

Record ThreadView := MkThreadView {
  tvw_Thread : Thread; tvw_LastMessage : option HistoryMessage; tvw_Variables : option ThreadVariables;
  tvw_Source : option ThreadSource; tvw_Queue : option ThreadQueue; tvw_UnreadCount : Z; tvw_Tags : list ThreadTag;
  tvw_TagLookupID : uuid; tvw_ReadStates : list MemberReadState }.

(** ** Requests (dto/thread.go) *)
Record ThreadGetRequest := MkThreadGet { tg_ID : uuid; tg_DomainID : Z; tg_Fields : list string; tg_CallerID : uuid }.
Record ThreadSearchRequest := MkThreadSearch {
  ts_Fields : list string; ts_IDs : list uuid; ts_DomainIDs : list Z; ts_Kinds : list Z; ts_Owners : list uuid; ts_Q : string;
  ts_SelfID : uuid; ts_ContactIDs : list uuid; ts_Participants : list ContactIdentity; ts_Tags : list string;
  ts_ExcludeTags : list string; ts_Unread : bool; ts_Size : Z; ts_Sort : string; ts_Page : Z }.
Record SearchLeftRequest := MkSearchLeftRequest {
  sr_Fields : list string; sr_MemberID : uuid; sr_Domain : Z; sr_Kinds : list Z; sr_Tags : list string; sr_Size : Z;
  sr_Sort : string; sr_Page : Z }.
Record UnreadSummaryRequest := MkSummaryRequest { ur_SelfID : uuid; ur_DomainID : Z }.
Record ThreadCountersRequest := MkCountersRequest { ctr_SelfID : uuid; ctr_DomainID : Z; ctr_Kinds : list Z }.

Record FolderCounters := MkFolder { fc_Total : Z; fc_UnreadChats : Z }.
Record ThreadCounters := MkCounters { tcs_All : FolderCounters; tcs_Active : FolderCounters; tcs_Snoozed : FolderCounters }.

(** [mapThreadRecordToModel] with the columns of the search. *)
Definition thread_view (c : ThreadColumns) : ThreadView :=
  let t := mapThreadRecordToModel (tc_Record c) in
  MkThreadView t (tc_LastMessage c) (tc_Variables c) (tc_Source c) (tc_Queue c) 0 []
    (if decide (tc_ThreadRefID c <> uuid_Nil) then tc_ThreadRefID c else thr_ID t) [].

Section reads.
Context {E : Env} {H : HistoryEnv} {R : ThreadReadEnv}.

(** ** The store *)
Definition SearchThreads (q : threadQueryObject) : SM (list ThreadView) :=
  statement_as "executing search thread query";;
  at_ ← now;
  gets (fun w => thread_view <$> run_thread_query q at_ (w_db w)).

Definition GetThread (q : threadQueryObject) : SM ThreadView :=
  statement_as "executing get thread query";;
  at_ ← now;
  rows ← gets (fun w => run_thread_query q at_ (w_db w));
  match rows with
  | [] => throw (NotFound "thread not found")
  | [r] => mret (thread_view r)
  | _ => throw (Internal "collecting get thread record")
  end.

Definition SearchLeftThreads (q : searchLeftQueryObject) : SM (list ThreadView) :=
  statement_as "executing search left query";;
  at_ ← now;
  gets (fun w => thread_view <$> run_left_query q at_ (w_db w)).

(** The dialogs a contact has, each with whether the contact snoozed the thread. *)
Definition counted_dialogs (domainID : Z) (memberID : uuid) (kinds : list Z) (snoozed : string) (d : DB) : list (DialogRow * bool) :=
  (fun td => (td, existsb (fun g => bool_decide (g_thread_id g = d_thread_id td) && bool_decide (g_contact_id g = d_member_id td) &&
                             bool_decide (g_tag g = snoozed)) (db_tags d))) <$>
  select_where (fun td => bool_decide (d_member_id td = memberID) && bool_decide (d_domain_id td = domainID) && active td &&
    (bool_decide (kinds = []) ||
     existsb (fun t => bool_decide (t_id t = d_thread_id td) && bool_decide (t_kind t ∈ kinds)) (db_threads d))) (db_dialogs d).

Definition folder (rows : list (DialogRow * bool)) : FolderCounters :=
  MkFolder (Z.of_nat (length rows)) (Z.of_nat (length (List.filter (fun p => 0 <? d_unread_count p.1) rows))).

Definition Counters (domainID : Z) (memberID : uuid) (kinds : list Z) (snoozed : string) : SM ThreadCounters :=
  map_err (internal "counting threads") (query (fun d =>
    let rows := counted_dialogs domainID memberID kinds snoozed d in
    MkCounters (folder rows) (folder (List.filter (fun p => negb p.2) rows)) (folder (List.filter snd rows)))).

(** ** The service *)
Definition get_query (req : ThreadGetRequest) : threadQueryObject :=
  QueryObject.WithFields (tg_Fields req)
    (WithQueueOwner (tg_CallerID req) (TWithDomainIDFilter [tg_DomainID req] (TWithIDFilter [tg_ID req] NewThreadQueryObject))).

Definition GetThreadFor (req : ThreadGetRequest) : SM ThreadView :=
  readable ← (if decide (tg_CallerID req <> uuid_Nil) then CanRead (tg_ID req) (tg_CallerID req) (tg_DomainID req) else mret true);
  if negb readable then throw thread_not_readable
  else
  map_err (fun e => if bool_decide (tg_CallerID req <> uuid_Nil) && bool_decide (Code e = CodeNotFound)
                    then thread_not_readable else e)
    (GetThread (get_query req)).

Definition thread_search_query (r : ThreadSearchRequest) : threadQueryObject :=
  let q := WithUnreadFilter (ts_SelfID r) (ts_Unread r)
    (WithExcludeTagsFilter (ts_SelfID r) (ts_ExcludeTags r)
    (WithTagsFilter (ts_SelfID r) (ts_Tags r)
    (QWithOffset (ts_Page r)
    (WithoutDeletedAtFilter
    (WithSort [ts_Sort r]
    (QWithLimit (ts_Size r)
    (WithSearchFilter (ts_Q r)
    (WithOwnerFilter (ts_Owners r)
    (TWithKindFilter (ts_Kinds r)
    (TWithDomainIDFilter (ts_DomainIDs r)
    (TWithIDFilter (ts_IDs r)
    (QueryObject.WithFields (ts_Fields r) (WithSubject NewThreadQueryObject))))))))))))) in
  let q := match ts_ContactIDs r, ts_Participants r with
           | _ :: _, _ => WithSharedMembersFilter (ts_SelfID r) (ts_ContactIDs r) q
           | [], [] => WithContactIDFilter [ts_SelfID r] q
           | [], _ => q
           end in
  match ts_Participants r with
  | [] => q
  | ps => WithParticipantsFilter (ts_SelfID r) (ts_DomainIDs r) ps q
  end.

(** [int32(ids[0])] *)
Definition firstDomainID (ids : list Z) : Z := match ids with d :: _ => to_int32 d | [] => 0 end.

Definition thread_id (v : ThreadView) : uuid := thr_ID (tvw_Thread v).

Definition with_unread (n : Z) (v : ThreadView) : ThreadView :=
  MkThreadView (tvw_Thread v) (tvw_LastMessage v) (tvw_Variables v) (tvw_Source v) (tvw_Queue v) n (tvw_Tags v)
    (tvw_TagLookupID v) (tvw_ReadStates v).
Definition with_tags (tags : list ThreadTag) (v : ThreadView) : ThreadView :=
  MkThreadView (tvw_Thread v) (tvw_LastMessage v) (tvw_Variables v) (tvw_Source v) (tvw_Queue v) (tvw_UnreadCount v) tags
    (tvw_TagLookupID v) (tvw_ReadStates v).
Definition with_read_states (states : list MemberReadState) (v : ThreadView) : ThreadView :=
  MkThreadView (tvw_Thread v) (tvw_LastMessage v) (tvw_Variables v) (tvw_Source v) (tvw_Queue v) (tvw_UnreadCount v)
    (tvw_Tags v) (tvw_TagLookupID v) states.

(** An enrichment: a failed lookup leaves the threads as they are. *)
Definition enrich {A} (who : uuid) (threads : list ThreadView) (lookup : SM A) (set : A -> ThreadView -> ThreadView)
    : SM (list ThreadView) :=
  if bool_decide (who = uuid_Nil) || bool_decide (length threads = 0%nat) then mret threads
  else
    r ← catch lookup;
    match r with
    | OK a => mret (set a <$> threads)
    | Err _ => mret threads
    end.

Definition enrichUnread (selfID : uuid) (domainID : Z) (threads : list ThreadView) : SM (list ThreadView) :=
  enrich selfID threads (ReadUnread domainID selfID (thread_id <$> threads))
    (fun counts v => with_unread (default 0 (counts !! thread_id v)) v).
Definition enrichTags (callerID : uuid) (threads : list ThreadView) : SM (list ThreadView) :=
  enrich callerID threads (ListForContact callerID (tvw_TagLookupID <$> threads))
    (fun tags v => with_tags (default [] (tags !! tvw_TagLookupID v)) v).
Definition enrichReadStates (selfID : uuid) (domainID : Z) (threads : list ThreadView) : SM (list ThreadView) :=
  enrich selfID threads (ReadMemberStates domainID selfID (thread_id <$> threads))
    (fun states v => with_read_states (default [] (states !! thread_id v)) v).

(** [ThreadManagementService.Search] *)
Definition SearchThreadsFor (req : option ThreadSearchRequest) : SM (list ThreadView) :=
  match req with
  | None => throw (errors_New "search request cannot be nil")
  | Some r =>
      if decide (ts_SelfID r = uuid_Nil) then throw (InvalidArgument "self_id is required")
      else
        threads ← SearchThreads (thread_search_query r);
        threads ← enrichUnread (ts_SelfID r) (firstDomainID (ts_DomainIDs r)) threads;
        threads ← enrichTags (ts_SelfID r) threads;
        enrichReadStates (ts_SelfID r) (firstDomainID (ts_DomainIDs r)) threads
  end.

Definition GetUnreadSummary (req : option UnreadSummaryRequest) : SM UnreadSummaryResult :=
  match req with
  | None => throw (InvalidArgument "self id is required")
  | Some r =>
      if decide (ur_SelfID r = uuid_Nil) then throw (InvalidArgument "self id is required")
      else UnreadSummary (ur_DomainID r) (ur_SelfID r)
  end.

Definition GetCounters (req : option ThreadCountersRequest) : SM ThreadCounters :=
  match req with
  | None => throw (InvalidArgument "self id is required")
  | Some r =>
      if decide (ctr_SelfID r = uuid_Nil) then throw (InvalidArgument "self id is required")
      else Counters (ctr_DomainID r) (ctr_SelfID r) (ctr_Kinds r) SnoozedTag
  end.

Definition left_search_query (r : SearchLeftRequest) : searchLeftQueryObject :=
  QWithOffset (sr_Page r)
  (WithSort [sr_Sort r]
  (QWithLimit (sr_Size r)
  (LWithTagsFilter (sr_MemberID r) (sr_Tags r)
  (LWithKindFilter (sr_Kinds r)
  (LWithDomainIDFilter (sr_Domain r)
  (QueryObject.WithFields (sr_Fields r) (NewSearchLeftQueryObject (sr_MemberID r)))))))).

(** [ThreadManagementService.SearchLeft] *)
Definition SearchLeftFor (req : option SearchLeftRequest) : SM (list ThreadView) :=
  match req with
  | None => throw (InvalidArgument "request cannot be nil")
  | Some r =>
      if decide (sr_MemberID r = uuid_Nil) then throw (InvalidArgument "member_id is required")
      else
        threads ← SearchLeftThreads (left_search_query r);
        enrichTags (sr_MemberID r) threads
  end.
End reads.
