(* ===== verification/Journal.v ===== *)
(** * Journal: the update journal of threads and the changes of a contact

    internal/adapter/journal/{project,journal,contact}.go over
    im_message.thread_updates, im_thread.contact_updates and
    im_message.thread_updates_trim.  The journal row of the model keeps its
    event; [ProjectEvent] gives the kind and the fields the program stores.
    Ids are text here, as in the program; the server casts them. *)
From Stdlib Require Import Ascii.
From S2P Require Import Prelude Domain Events Message World DialogStore Outbox MediaProcessor.
#[local] Open Scope Z_scope.

(** ** What the server and the configuration add

    The newest transaction older than every one in flight at a statement, the
    cast of a text to uuid, the text in a decoded JSON value, the time
    journal rows are kept. *)
Class JournalEnv := {
  jenv_settled : nat -> Z;
  jenv_cast_uuid : string -> option uuid;
  jenv_json_string : any -> option string;
  jenv_ttl : Z }.

Definition cleanupBatchSize : nat := 5000.
Definition MaxContactChanges : Z := 1000.
(** A minute, in nanoseconds. *)
Definition Overlap : Z := 60000000000.

(** ** project.go *)
Definition KindMessageNew : string := "message.new".
Definition KindMessageEdited : string := "message.edited".
Definition KindMessageDeleted : string := "message.deleted".
Definition KindMessageReaction : string := "message.reaction".
Definition KindMemberChanged : string := "member.changed".
Definition KindThreadCreated : string := "thread.created".
Definition KindThreadUpdated : string := "thread.updated".
Definition KindReadChanged : string := "read.changed".
Definition KindDeliveredChanged : string := "delivered.changed".
Definition KindMessageFailed : string := "message.failed".
Definition KindTagsChanged : string := "tags.changed".

Definition FieldMsgID : string := "msg_id".
Definition FieldActor : string := "actor".
Definition FieldEmoji : string := "emoji".
Definition FieldAction : string := "action".
Definition FieldContactID : string := "contact_id".
Definition FieldUpToSeq : string := "up_to_seq".
Definition FieldErrCode : string := "error_code".
Definition FieldErrMsg : string := "error_message".

Definition ActionJoined : string := "joined".
Definition ActionLeft : string := "left".

Abbreviation fields := (gmap string string).
Record Update := MkUpdate { upd_ThreadID : string; upd_Kind : string; upd_Fields : fields }.

(** One journal entry as it is served. *)
Record JEvent := MkJEvent { je_Kind : string; je_Fields : fields }.

Section project.
Context {E : Env} {J : JournalEnv}.

Definition messageUpdate (threadID kind msgID actor : string) (extra : fields) : Update :=
  MkUpdate threadID kind (extra ∪ {[FieldMsgID := msgID; FieldActor := actor]}).

Definition memberUpdate (threadID contactID action : string) : Update :=
  MkUpdate threadID KindMemberChanged {[FieldContactID := contactID; FieldActor := contactID; FieldAction := action]}.

Definition memberContact (m : option ThreadMember) : string :=
  match m with None => "" | Some m => env_uuid_string (ev_member_ContactID m) end.

Definition memberContactFromMember (m : option Member) : string :=
  match m with
  | None => ""
  | Some m => match em_Contact m with None => "" | Some c => env_uuid_string (mc_ID c) end
  end.

Definition errorText (details : option metadata) (key : string) : string :=
  default "" (md ← details; v ← md !! key; jenv_json_string v).

Definition statusUpdate (e : MessageStatusChanged) : Update :=
  let thread := env_uuid_string (msc_ThreadID e) in
  let base : fields := {[FieldActor := env_uuid_string (msc_MemberID e); FieldUpToSeq := pretty (msc_UpToSeq e)]} in
  if decide (msc_Status e = "failed") then
    let base := match msc_MessageIDs e with [] => base | id :: _ => <[FieldMsgID := env_uuid_string id]> base end in
    MkUpdate thread KindMessageFailed
      (<[FieldErrMsg := errorText (msc_Error e) "message"]> (<[FieldErrCode := errorText (msc_Error e) "code"]> base))
  else if decide (msc_Status e = "delivered") then MkUpdate thread KindDeliveredChanged base
  else MkUpdate thread KindReadChanged base.

(** [None] when the event is not journaled. *)
Definition ProjectEvent (e : Event) : option Update :=
  match e with
  | EvMessageStatus e => Some (statusUpdate e)
  | EvThreadCreated e => Some (MkUpdate (env_uuid_string (tc_ID e)) KindThreadCreated ∅)
  | EvThreadUpdated e =>
      Some (MkUpdate (env_uuid_string (tu_ThreadID e)) KindThreadUpdated {[FieldActor := env_uuid_string (tu_UpdatedBy e)]})
  | EvMessageCreated e =>
      Some (messageUpdate (env_uuid_string (mcr_ThreadID e)) KindMessageNew (env_uuid_string (mcr_MessageID e))
              (memberContact (mcr_From e)) ∅)
  | EvMessageEdited e =>
      Some (messageUpdate (env_uuid_string (med_ThreadID e)) KindMessageEdited (env_uuid_string (med_MessageID e))
              (memberContact (med_EditedBy e)) ∅)
  | EvMessageDeleted e =>
      Some (messageUpdate (env_uuid_string (mdl_ThreadID e)) KindMessageDeleted (env_uuid_string (mdl_MessageID e))
              (memberContactFromMember (mdl_DeletedBy e)) ∅)
  | EvMessageReaction e =>
      Some (messageUpdate (env_uuid_string (mre_ThreadID e)) KindMessageReaction (env_uuid_string (mre_MessageID e))
              (memberContact (mre_Reactor e)) {[FieldEmoji := mre_Emoji e; FieldAction := mre_Action e]})
  | EvMemberJoined e =>
      Some (memberUpdate (env_uuid_string (mm_ThreadID e)) (env_uuid_string (mm_ContactID e)) ActionJoined)
  | EvThreadTagsChanged e =>
      Some (MkUpdate (env_uuid_string (ttc_ThreadID e)) KindTagsChanged {[FieldActor := env_uuid_string (ttc_ContactID e)]})
  | EvMemberLeft e =>
      Some (memberUpdate (env_uuid_string (mm_ThreadID e)) (env_uuid_string (mm_ContactID e)) ActionLeft)
  | EvBotControlGranted _ | EvBotControlReleased _ | EvInteractiveCallback _ => None
  end.

(** The kind and fields of a row. *)
Definition row_entry (r : JournalRow) : JEvent :=
  match ProjectEvent (j_event r) with
  | Some u => MkJEvent (upd_Kind u) (upd_Fields u)
  | None => MkJEvent "" ∅
  end.
End project.

(** ** Cursors: [strconv.ParseInt(cursor, 10, 64)] and [FormatInt] *)
Definition digit_value (c : ascii) : option Z :=
  let n := Z.of_N (N_of_ascii c) in if (48 <=? n) && (n <=? 57) then Some (n - 48) else None.

Fixpoint parse_digits (acc : Z) (s : string) : option Z :=
  match s with
  | EmptyString => Some acc
  | String c s' => d ← digit_value c; parse_digits (10 * acc + d) s'
  end.

Definition parse_number (s : string) : option Z := match s with EmptyString => None | _ => parse_digits 0 s end.

Definition ParseInt (s : string) : option Z :=
  n ← match s with
      | String c s' =>
          if decide (c = "-"%char) then Z.opp <$> parse_number s'
          else if decide (c = "+"%char) then parse_number s' else parse_number s
      | EmptyString => None
      end;
  if (- 2 ^ 63 <=? n) && (n <? 2 ^ 63) then Some n else None.

Definition ErrInvalidCursor (cursor : string) : error := WithCause (errors_New "invalid journal cursor") (errors_New cursor).

Definition parseCursor (cursor : string) : result Z :=
  match ParseInt cursor with Some after => OK after | None => Err (ErrInvalidCursor cursor) end.

Definition FormatInt (n : Z) : string := pretty n.

(** ** journal.go *)
Record ReadState := MkReadState { rs_MemberID : string; rs_DeliveredUpToSeq : Z; rs_ReadUpToSeq : Z }.
Record JMember := MkJMember { jm_ID : string; jm_ContactID : string; jm_Role : Z; jm_IsBot : bool }.

(** A thread changed for a contact, and the transactions to serve: after
    [cc_After], up to [cc_Horizon]; rows written since [cc_Since] are replayed. *)
Record ContactChanges := MkChanges {
  cc_ContactID : string; cc_Threads : list string; cc_Cursor : string; cc_After : Z; cc_Since : Time; cc_Horizon : Z;
  cc_TooMany : bool }.

Definition by_member (a b : DialogRow) : Prop := (d_member_id a <= d_member_id b)%N.
#[export] Instance by_member_dec a b : Decision (by_member a b).
Proof. unfold by_member. apply _. Defined.

(** [order by tx_id, thread_id] *)
Definition mark_le (a b : MarkRow) : Prop :=
  k_tx_id a < k_tx_id b \/ (k_tx_id a = k_tx_id b /\ (k_thread_id a <= k_thread_id b)%N).
#[export] Instance mark_le_dec a b : Decision (mark_le a b).
Proof. unfold mark_le. apply _. Defined.

(** Rows with their ids: [order by tx_id, id]. *)
Definition entry_le (a b : nat * JournalRow) : Prop :=
  j_tx_id a.2 < j_tx_id b.2 \/ (j_tx_id a.2 = j_tx_id b.2 /\ (a.1 <= b.1)%nat).
#[export] Instance entry_le_dec a b : Decision (entry_le a b).
Proof. unfold entry_le. apply _. Defined.

Definition numbered (rows : list JournalRow) : list (nat * JournalRow) := imap pair rows.

(** [sinceArg]: the zero time is NULL, and nothing is later than NULL. *)
Definition is_since (since at_ : Time) : bool := if decide (since = 0) then false else since <=? at_.

(** [coalesce(max(...), 0)] *)
Definition max_or_0 (l : list Z) : Z := match l with [] => 0 | x :: l => fold_left Z.max l x end.
Definition min_opt (l : list Z) : option Z := match l with [] => None | x :: l => Some (fold_left Z.min l x) end.

Section store.
Context {E : Env} {J : JournalEnv}.

(** A parameter cast to uuid by the server. *)
Definition cast (s : string) : SM uuid :=
  match jenv_cast_uuid s with Some u => mret u | None => reject (errors_New "invalid input syntax for type uuid") end.

Definition IsMember (threadID memberID : string) (domainID : Z) : SM bool :=
  statement;; t ← cast threadID; c ← cast memberID;
  gets (fun w => existsb (fun td => bool_decide (d_thread_id td = t) && bool_decide (d_member_id td = c) && active td &&
                            bool_decide (d_domain_id td = domainID)) (db_dialogs (w_db w))).

Definition read_state (td : DialogRow) : ReadState :=
  MkReadState (env_uuid_string (d_member_id td))
    (Z.max (default 0 (d_last_delivered_seq td)) (default 0 (d_last_read_seq td))) (default 0 (d_last_read_seq td)).

Definition ReadStates (threadID : string) : SM (list ReadState) :=
  statement;; t ← cast threadID;
  gets (fun w => read_state <$> merge_sort by_member
    (select_where (fun td => bool_decide (d_thread_id td = t) && active td &&
       (bool_decide (is_Some (d_last_delivered_seq td)) || bool_decide (is_Some (d_last_read_seq td)))) (db_dialogs (w_db w)))).

(** [distinct on (member_id) ... order by member_id, created_at desc] *)
Definition member_rows (t : uuid) (d : DB) : list DialogRow :=
  let rows := select_where (fun td => bool_decide (d_thread_id td = t)) (db_dialogs d) in
  let newest c := max_by d_created_at (select_where (fun td => bool_decide (d_member_id td = c)) rows) in
  omap newest (merge_sort N.le (remove_dups (d_member_id <$> rows))).

Definition Members (threadID : string) : SM (list JMember) :=
  statement;; t ← cast threadID;
  gets (fun w => (fun td => MkJMember (env_uuid_string (d_id td)) (env_uuid_string (d_member_id td)) (d_thread_role td) (d_is_bot td))
                   <$> member_rows t (w_db w)).

(** One batch of [Cleanup]: the oldest ids past the time to live; the newest
    transaction deleted is kept. *)
Fixpoint trim_rows (limit : nat) (old : JournalRow -> bool) (rows : list JournalRow) : list JournalRow * list JournalRow :=
  match rows with
  | [] => ([], [])
  | r :: rows' =>
      match limit with
      | S k => if old r then let '(gone, kept) := trim_rows k old rows' in (r :: gone, kept)
               else let '(gone, kept) := trim_rows limit old rows' in (gone, r :: kept)
      | O => ([], rows)
      end
  end.

Definition trim_mark (gone : list JournalRow) (trim : option Z) : option Z :=
  match gone with
  | [] => trim
  | r :: gone' => let newest := fold_left Z.max (j_tx_id <$> gone') (j_tx_id r) in
                  Some (match trim with None => newest | Some t => Z.max t newest end)
  end.

Definition cleanup_sql (cutoff : Time) (d : DB) : DB * nat :=
  let '(gone, kept) := trim_rows cleanupBatchSize (fun r => j_created_at r <? cutoff) (db_journal d) in
  (on_trim (trim_mark gone) (on_journal (fun _ => kept) d), length gone).

Definition cleanup_batch (cutoff : Time) : SM nat :=
  statement;;
  d ← gets w_db;
  let '(d', n) := cleanup_sql cutoff d in
  modify (set_db d');;
  mret n.

(** The loop of [Cleanup], with fuel; [JournalRules] shows that it is enough. *)
Fixpoint cleanup_loop (fuel : nat) (cutoff : Time) (total : Z) : SM Z :=
  match fuel with
  | O => throw (errors_New "cleanup: out of fuel")
  | S fuel' =>
      n ← cleanup_batch cutoff;
      if (n <? cleanupBatchSize)%nat then mret (total + Z.of_nat n)
      else cleanup_loop fuel' cutoff (total + Z.of_nat n)
  end.

Definition cleanup_fuel (d : DB) : nat := S (Nat.div (length (db_journal d)) cleanupBatchSize).

(** [w_now] is [j.now()]. *)
Definition Cleanup : SM Z := fun w =>
  cleanup_loop (cleanup_fuel (w_db w)) (w_now w - jenv_ttl) 0 w.

(** ** contact.go *)
Definition SettledHorizon : SM Z := n ← gets w_ticks; statement;; mret (jenv_settled n).

Definition marks_of (c : uuid) (d : DB) : list MarkRow := select_where (fun k => bool_decide (k_contact_id k = c)) (db_marks d).

Definition latestMark (contactID : string) (horizon : Z) : SM Z :=
  statement;; c ← cast contactID;
  gets (fun w => max_or_0 (k_tx_id <$> select_where (fun k => k_tx_id k <=? horizon) (marks_of c (w_db w)))).

Definition overlapSince (after : Z) : SM Time :=
  statement;;
  gets (fun w => match min_opt (j_created_at <$> select_where (fun r => bool_decide (j_tx_id r = after)) (db_journal (w_db w))) with
                 | None => 0
                 | Some at_ => at_ - Overlap
                 end).

Definition changed_marks (c : uuid) (after horizon : Z) (since : Time) (d : DB) : list MarkRow :=
  merge_sort mark_le
    (select_where (fun k => (k_tx_id k <=? horizon) && ((after <? k_tx_id k) || is_since since (k_updated_at k))) (marks_of c d)).

Definition changed_threads (c : uuid) (after horizon : Z) (since : Time) (d : DB) : list string :=
  (fun k => env_uuid_string (k_thread_id k)) <$> take (Z.to_nat (MaxContactChanges + 1)) (changed_marks c after horizon since d).

(** [ContactChanges] of the source. *)
Definition contactChanges (contactID cursor : string) : SM ContactChanges :=
  horizon ← SettledHorizon;
  after ← of_result (parseCursor cursor);
  since ← overlapSince after;
  statement;; c ← cast contactID;
  threads ← gets (fun w => changed_threads c after horizon since (w_db w));
  latest ← latestMark contactID horizon;
  let tooMany := MaxContactChanges <? Z.of_nat (length threads) in
  mret (MkChanges contactID (if tooMany then [] else threads) (FormatInt (Z.max after latest)) after since horizon tooMany).

Definition Unread (threadID contactID : string) : SM Z :=
  statement;; t ← cast threadID; c ← cast contactID;
  gets (fun w => max_or_0 (d_unread_count <$> select_where (fun td => bool_decide (d_thread_id td = t) &&
                    bool_decide (d_member_id td = c) && active td) (db_dialogs (w_db w)))).

(** An empty contact is NULL and sees every entry. *)
Definition not_private (contactID : string) (e : JEvent) : bool :=
  bool_decide (contactID = "") || negb (bool_decide (je_Kind e = KindTagsChanged)) ||
  bool_decide (je_Fields e !! FieldActor = Some contactID).

Definition thread_changes (t : uuid) (w : ContactChanges) (d : DB) : list JEvent :=
  (fun p => row_entry p.2) <$>
  merge_sort entry_le
    (List.filter (fun p => bool_decide (j_thread_id p.2 = t) && (j_tx_id p.2 <=? cc_Horizon w) &&
       ((cc_After w <? j_tx_id p.2) || is_since (cc_Since w) (j_created_at p.2)) &&
       not_private (cc_ContactID w) (row_entry p.2)) (numbered (db_journal d))).

Definition ChangesSince (threadID : string) (window : ContactChanges) (limit : Z) : SM (list JEvent) :=
  statement;; t ← cast threadID;
  gets (fun w => take (Z.to_nat (limit + 1)) (thread_changes t window (w_db w))).

Definition TrimHorizon : SM Z := statement;; gets (fun w => default 0 (db_trim (w_db w))).

Definition ContactCursor (contactID : string) : SM string :=
  horizon ← SettledHorizon;
  latest ← latestMark contactID horizon;
  mret (FormatInt latest).
End store.
