(* ===== verification/ThreadMapper.v ===== *)
(** * ThreadMapper: threads and variables on the wire

    internal/handler/grpc/mapper/thread.go, common.go and thread_tag.go: the
    requests of the thread service become those of the services, threads and
    variables become protobuf messages (prefix Pb).  The requests carry the
    fields the mappers read; numbers are those of the wire, which the mappers
    only widen.  The errors of [uuid.Parse] keep no code. *)
From S2P Require Import Prelude Domain Events Message World Paging PreviewStore TagService MessageStatus VariableStore MediaProcessor.
From S2P Require Import BotFlow Members MessageView HistoryMapper ThreadQueries ThreadReads.
#[local] Open Scope Z_scope.

(** ** Requests *)
Record GetThreadRequest := MkPbGet { pgt_Id : string; pgt_CallerId : string; pgt_DomainId : Z; pgt_Fields : list string }.
Record PbThreadSearchRequest := MkPbSearch {
  pts_Ids : list string; pts_Owners : list string; pts_DomainIds : list Z; pts_MemberIds : list string; pts_SelfId : string;
  pts_Fields : list string; pts_Q : string; pts_Sort : string; pts_Page : Z; pts_Size : Z; pts_Kinds : list Z;
  pts_Participants : list (string * string); pts_Tags : list string; pts_ExcludeTags : list string; pts_Unread : bool }.
Record PbGetCountersRequest := MkPbCounters { pgc_SelfId : string; pgc_DomainId : Z; pgc_Kinds : list Z }.
Record PbSearchLeftRequest := MkPbSearchLeft {
  psl_MemberId : string; psl_Fields : list string; psl_DomainId : Z; psl_Kinds : list Z; psl_Tags : list string; psl_Size : Z;
  psl_Sort : string; psl_Page : Z }.
Record PbQueue := MkPbQueue { pq_Id : Z; pq_Name : string }.
Record PbAddMemberRequest := MkPbAdd {
  pam_ThreadId : string; pam_NewMemberContactId : string; pam_Role : PbRole; pam_DomainId : Z; pam_SystemCall : bool;
  pam_Queue : option PbQueue; pam_InitiatorContactId : option string; pam_AutoLeave : option bool }.
Record PbTransferRequest := MkPbTransfer {
  ptr_ThreadId : string; ptr_NewMemberContactId : string; ptr_InitiatorContactId : string; ptr_Role : PbRole;
  ptr_TargetIsBot : bool; ptr_Queue : option PbQueue; ptr_AutoLeave : option bool }.
Record PbRemoveMemberRequest := MkPbRemove {
  prm_TargetMemberId : string; prm_SystemCall : bool; prm_Reason : option string; prm_InitiatorContactId : option string }.
Record PbSetVariablesRequest := MkPbSetVariables { psv_ThreadId : string; psv_MemberId : string; psv_Variables : list (string * any) }.
Record PbSearchVariablesRequest := MkPbSearchVariables {
  pvs_ThreadIds : list string; pvs_CallerId : string; pvs_DomainId : Z; pvs_Size : Z; pvs_Page : Z; pvs_Fields : list string }.
Record PbLocateVariablesRequest := MkPbLocate { plv_ThreadId : string; plv_CallerId : string; plv_DomainId : Z }.
Record PbFlushVariablesRequest := MkPbFlush { pfv_ThreadId : string; pfv_MemberId : string; pfv_Keys : option (list string) }.
Record PbAddThreadTagRequest := MkPbAddTag { pat_ContactId : string; pat_ThreadId : string; pat_Tag : string }.
Record PbRemoveThreadTagRequest := MkPbRemoveTag { prt_Id : string; prt_ContactId : string }.
Record PbRemoveThreadTagByNameRequest := MkPbRemoveTagByName { prn_ContactId : string; prn_ThreadId : string; prn_Tag : string }.
Record PbSearchThreadTagsRequest := MkPbSearchTags { pst_ContactId : string; pst_Page : Z; pst_Size : Z }.

(** ** Responses *)
Record PbVariable := MkPbVariable { pvr_Value : any; pvr_SetBy : string; pvr_SetAt : Z }.
Record PbThreadVariables := MkPbVariables { ptv_ThreadId : string; ptv_Variables : gmap string PbVariable }.
Record PbReadState := MkPbReadState { prs_MemberId : string; prs_DeliveredUpToSeq : Z; prs_ReadUpToSeq : Z }.
Record PbChatTag := MkPbChatTag { pct_Id : string; pct_ThreadId : string; pct_ContactId : string; pct_Tag : string; pct_CreatedAt : Z }.
Record PbSource := MkPbSource { pso_Id : string; pso_Name : string; pso_Type : string }.
Record PbThread := MkPbThread {
  pth_Id : string; pth_DomainId : Z; pth_CreatedAt : Z; pth_UpdatedAt : Z; pth_Kind : Z; pth_Subject : string;
  pth_Description : string; pth_Members : list PbMember; pth_LastMsg : option PbHistoryMessage;
  pth_Variables : option PbThreadVariables; pth_UnreadCount : Z; pth_Tags : list PbChatTag; pth_ReadStates : list PbReadState;
  pth_CrmContactId : string; pth_BotControllerMemberId : string; pth_OwnerBotMemberId : string; pth_Source : option PbSource;
  pth_Queue : option PbQueue; pth_UpdatesCursor : string }.

Section mapper.
Context {E : Env} {X : MessageEnv}.

(** ** common.go *)
Definition uuid_Parse (s : string) : result uuid :=
  match menv_uuid_parse s with Some u => OK u | None => Err (errors_New "invalid UUID") end.

(** [uuid.Parse], its error as the cause of one of the caller's. *)
Definition parse_or (msg : string) (s : string) : result uuid :=
  match uuid_Parse s with OK u => OK u | Err _ => Err (InvalidArgument msg) end.

Definition ParseOptionalUUID (s : string) : option uuid :=
  if decide (s = "") then None else Some (default uuid_Nil (menv_uuid_parse s)).

Definition parseCallerID (raw : string) : result uuid :=
  if decide (raw = "") then OK uuid_Nil
  else
    id ← parse_or "invalid caller_id format" raw;
    if decide (id = uuid_Nil) then Err (InvalidArgument "caller_id must not be the nil uuid") else OK id.

Fixpoint convertToUUIDs (ids : list string) : result (list uuid) :=
  match ids with
  | [] => OK []
  | id :: ids' => u ← uuid_Parse id; us ← convertToUUIDs ids'; OK (u :: us)
  end.

(** ** Requests of threads *)
Definition ConvertGet (r : GetThreadRequest) : result ThreadGetRequest :=
  id ← parse_or "invalid thread id format" (pgt_Id r);
  callerID ← parseCallerID (pgt_CallerId r);
  OK (MkThreadGet id (pgt_DomainId r) (pgt_Fields r) callerID).

Definition convertParticipants (l : list (string * string)) : list ContactIdentity :=
  (fun p => MkIdentityPair p.1 p.2) <$> l.

Definition ConvertSearch (r : PbThreadSearchRequest) : result ThreadSearchRequest :=
  ids ← convertToUUIDs (pts_Ids r);
  owners ← convertToUUIDs (pts_Owners r);
  members ← convertToUUIDs (pts_MemberIds r);
  selfID ← parse_or "invalid self_id format" (pts_SelfId r);
  OK (MkThreadSearch (pts_Fields r) ids (pts_DomainIds r) (pts_Kinds r) owners (pts_Q r) selfID members
        (convertParticipants (pts_Participants r)) (pts_Tags r) (pts_ExcludeTags r) (pts_Unread r) (pts_Size r) (pts_Sort r)
        (pts_Page r)).

Definition ConvertCountersRequest (r : PbGetCountersRequest) : result ThreadCountersRequest :=
  selfID ← parse_or "invalid self id" (pgc_SelfId r);
  OK (MkCountersRequest selfID (pgc_DomainId r) (pgc_Kinds r)).

Definition ConvertSearchLeft (r : PbSearchLeftRequest) : result SearchLeftRequest :=
  memberID ← parse_or "invalid member_id format" (psl_MemberId r);
  OK (MkSearchLeftRequest (psl_Fields r) memberID (psl_DomainId r) (psl_Kinds r) (psl_Tags r) (psl_Size r)
        (psl_Sort r) (psl_Page r)).

Definition convertQueueInfo (q : option PbQueue) : option QueueInfo :=
  match q with
  | None => None
  | Some q => if pq_Id q <=? 0 then None else Some (MkQueueInfo (pq_Id q) (pq_Name q))
  end.

Definition convertMemberRole (r : PbRole) : Z :=
  match r with
  | ROLE_OWNER => Role.RoleOwner
  | ROLE_ADMIN => Role.RoleAdmin
  | ROLE_MEMBER => Role.RoleMember
  | ROLE_SUPERVISOR => Role.RoleSupervisor
  | ROLE_UNSPECIFIED => Role.UnspecifiedRole
  end.

(** An initiator that is not set stays the nil id. *)
Definition optional_initiator (s : option string) : result uuid :=
  match s with None => OK uuid_Nil | Some s => uuid_Parse s end.

Definition ConvertAddMemberRequest (r : PbAddMemberRequest) : result AddMemberRequest :=
  threadID ← uuid_Parse (pam_ThreadId r);
  newContactID ← uuid_Parse (pam_NewMemberContactId r);
  initiatorContactID ← optional_initiator (pam_InitiatorContactId r);
  OK (MkAddMember threadID newContactID initiatorContactID (convertMemberRole (pam_Role r)) (pam_DomainId r) false
        (pam_AutoLeave r) (convertQueueInfo (pam_Queue r)) (pam_SystemCall r)).

Definition ConvertTransferThreadRequest (r : PbTransferRequest) : result TransferThreadRequest :=
  threadID ← uuid_Parse (ptr_ThreadId r);
  newContactID ← uuid_Parse (ptr_NewMemberContactId r);
  initiatorContactID ← uuid_Parse (ptr_InitiatorContactId r);
  OK (MkTransfer threadID newContactID initiatorContactID (convertMemberRole (ptr_Role r)) (ptr_TargetIsBot r) (ptr_AutoLeave r)
        (convertQueueInfo (ptr_Queue r))).

Definition ConvertRemoveMemberRequest (r : PbRemoveMemberRequest) : result RemoveMemberRequest :=
  targetMemberID ← uuid_Parse (prm_TargetMemberId r);
  initiatorContactID ← optional_initiator (prm_InitiatorContactId r);
  OK (MkRemoveMember targetMemberID initiatorContactID (prm_Reason r) (prm_SystemCall r)).

(** ** Requests of variables *)
Definition MapSetVariablesRequestToCommand (r : PbSetVariablesRequest) : result SetThreadVariablesCommand :=
  threadID ← parse_or "invalid originator uuid format" (psv_ThreadId r);
  originator ← parse_or "invalid originator uuid format" (psv_MemberId r);
  OK (MkSetVariables originator threadID
        (fold_left (fun vars v => <[v.1 := MkVariable v.2 originator 0]> vars) (psv_Variables r) ∅)).

Fixpoint parse_thread_ids (ids : list string) : result (list uuid) :=
  match ids with
  | [] => OK []
  | id :: ids' => u ← parse_or "invalid thread id format" id; us ← parse_thread_ids ids'; OK (u :: us)
  end.

Definition MapSearchVariablesRequestToQuery (r : PbSearchVariablesRequest) : result GetThreadVariablesQuery :=
  threadIDs ← parse_thread_ids (pvs_ThreadIds r);
  callerID ← parseCallerID (pvs_CallerId r);
  OK (MkGetVariables (MkPagination (pvs_Size r) (pvs_Page r) "") (pvs_Fields r) threadIDs callerID (pvs_DomainId r)).

Definition MapLocateVariablesRequestToQuery (r : PbLocateVariablesRequest) : result LocateThreadVariablesQuery :=
  threadID ← parse_or "invalid thread id format" (plv_ThreadId r);
  callerID ← parseCallerID (plv_CallerId r);
  OK (MkLocateVariables threadID callerID (plv_DomainId r)).

Definition MapFlushVariablesRequestToCommand (r : PbFlushVariablesRequest) : result FlushVariablesCommand :=
  threadID ← parse_or "invalid thread id format" (pfv_ThreadId r);
  originator ← parse_or "invalid originator id format" (pfv_MemberId r);
  OK (MkFlushVariables threadID originator (pfv_Keys r)).

(** [structpb.NewValue] takes every value the stores read. *)
Definition map_variable (v : VariableEntry) : PbVariable :=
  MkPbVariable (va_Value v) (env_uuid_string (va_SetBy v)) (UnixMilli (va_SetAt v)).

Definition MapThreadVariablesToProto (vars : option ThreadVariables) : option PbThreadVariables :=
  match vars with
  | None => None
  | Some v => Some (MkPbVariables (env_uuid_string (tv_ThreadID v)) (map_variable <$> tv_Variables v))
  end.

Definition MapThreadVariablesPageToProto (page : Page ThreadVariables) : list (option PbThreadVariables) * bool :=
  ((fun v => MapThreadVariablesToProto (Some v)) <$> pa_Items page, pa_HasNext page).

(** ** Threads *)
Definition ConvertToChatTag (t : ThreadTag) : PbChatTag :=
  MkPbChatTag (env_uuid_string (tag_ID t)) (env_uuid_string (tag_ThreadID t)) (env_uuid_string (tag_ContactID t)) (tag_Tag t)
    (UnixMilli (tag_CreatedAt t)).
Definition convertThreadTags (tags : list ThreadTag) : list PbChatTag := ConvertToChatTag <$> tags.

Definition convertMemberReadStates (states : list MemberReadState) : list PbReadState :=
  (fun s => MkPbReadState (env_uuid_string (ms_MemberID s)) (ms_DeliveredUpToSeq s) (ms_ReadUpToSeq s)) <$> states.

Definition convertThreadMembers (members : list ThreadDialog) (botControllerID : option uuid) : list PbMember :=
  (fun m => MkPbMember (env_uuid_string (td_ID m)) (env_uuid_string (td_ContactID m)) (ConvertThreadRole (td_ThreadRole m))
              (td_IsBot m) (td_AutoLeave m) (bool_decide (botControllerID = Some (td_ID m))) (default "" (td_Via m))) <$> members.

(** The message a thread shows: no number, no reply, no reactions. *)
Definition last_message (threadID : uuid) (m : HistoryMessage) : PbHistoryMessage :=
  MkPbMessage (env_uuid_string (hm_ID m)) (env_uuid_string threadID) (env_uuid_string (hm_SenderID m)) (hm_Type m)
    (Z.max (UnixMilli (hm_CreatedAt m)) 0) (Z.max (UnixMilli (hm_UpdatedAt m)) 0) 0 0 false 0 None
    (hm_Body m) (hm_Metadata m) (mapDocs (hm_Documents m)) (mapImages (hm_Images m)) (hm_Location m) (hm_Contact m)
    (mapSystem (hm_System m)) (mapInteractive (hm_Interactive m)) None None None [] (mapDeliveryFailures (hm_Failures m)).

Definition ConvertToThread (v : ThreadView) : PbThread :=
  let t := tvw_Thread v in
  MkPbThread (env_uuid_string (thr_ID t)) (to_int32 (thr_DomainID t)) (CreatedAtUnix t) (UpdatedAtUnix t) (thr_Kind t)
    (thr_Subject t) (thr_Description t) (convertThreadMembers (thr_Members t) (thr_BotControllerID t))
    (last_message (thr_ID t) <$> tvw_LastMessage v) (MapThreadVariablesToProto (tvw_Variables v)) (to_int32 (tvw_UnreadCount v))
    (convertThreadTags (tvw_Tags v)) (convertMemberReadStates (tvw_ReadStates v)) (thr_CRMContactID t)
    (uuid_text (thr_BotControllerID t)) (uuid_text (thr_OwnerBotID t))
    ((fun s => MkPbSource (tso_ID s) (tso_Name s) (tso_Type s)) <$> tvw_Source v)
    ((fun q => MkPbQueue (tqe_ID q) (tqe_Name q)) <$> tvw_Queue v) "".

Definition with_cursor (cursor : string) (t : PbThread) : PbThread :=
  MkPbThread (pth_Id t) (pth_DomainId t) (pth_CreatedAt t) (pth_UpdatedAt t) (pth_Kind t) (pth_Subject t) (pth_Description t)
    (pth_Members t) (pth_LastMsg t) (pth_Variables t) (pth_UnreadCount t) (pth_Tags t) (pth_ReadStates t) (pth_CrmContactId t)
    (pth_BotControllerMemberId t) (pth_OwnerBotMemberId t) (pth_Source t) (pth_Queue t) cursor.

(** ** thread_tag.go *)
Definition ConvertAddThreadTagRequest (r : option PbAddThreadTagRequest) : result AddTagRequest :=
  match r with
  | None => Err (InvalidArgument "request cannot be nil")
  | Some r =>
      contactID ← parse_or "invalid contact_id" (pat_ContactId r);
      threadID ← parse_or "invalid thread_id" (pat_ThreadId r);
      OK (MkAddTag contactID threadID (pat_Tag r))
  end.

Definition ConvertRemoveThreadTagRequest (r : option PbRemoveThreadTagRequest) : result RemoveTagRequest :=
  match r with
  | None => Err (InvalidArgument "request cannot be nil")
  | Some r =>
      tagID ← parse_or "invalid tag id" (prt_Id r);
      contactID ← parse_or "invalid contact_id" (prt_ContactId r);
      OK (MkRemoveTag tagID contactID)
  end.

Definition ConvertRemoveThreadTagByNameRequest (r : option PbRemoveThreadTagByNameRequest) : result RemoveTagByNameRequest :=
  match r with
  | None => Err (InvalidArgument "request cannot be nil")
  | Some r =>
      contactID ← parse_or "invalid contact_id" (prn_ContactId r);
      threadID ← parse_or "invalid thread_id" (prn_ThreadId r);
      OK (MkRemoveTagByName contactID threadID (prn_Tag r))
  end.

(** The thread and the contact. *)
Definition ConvertSnoozeTarget (threadID contactID : string) : result (uuid * uuid) :=
  contact ← parse_or "invalid contact_id" contactID;
  thread ← parse_or "invalid thread_id" threadID;
  OK (thread, contact).

Definition ConvertSearchThreadTagsRequest (r : option PbSearchThreadTagsRequest) : result SearchTagsRequest :=
  match r with
  | None => Err (InvalidArgument "request cannot be nil")
  | Some r =>
      contactID ← parse_or "invalid contact_id" (pst_ContactId r);
      OK (MkSearchTags contactID (pst_Page r) (pst_Size r))
  end.
End mapper.
