(* ===== verification/Handlers.v ===== *)
(** * Handlers: threads, tags and message history over gRPC

    internal/handler/grpc/{message_history,updates_cursor,thread,thread_tag}.go:
    requests are parsed, the services called, their results converted; pages of
    threads and tags are trimmed by [ProcessPagination].  The history service is
    the enricher over the message history, the cursors are the journal's, as
    internal/service/module.go wires them. *)
From S2P Require Import Prelude Domain Events Message World Paginator MediaProcessor MessageView.
From S2P Require Import HistoryQueries History HistoryMapper Journal ThreadMapper Paging QueryObject TagStore.
From S2P Require Import TagService MessageStatus VariableStore Variables BotFlow Members DirectThread.
From S2P Require Import ThreadQueries ThreadReads.
#[local] Open Scope Z_scope.

Section handlers.
Context {E : Env} {X : MessageEnv} {H : HistoryEnv} {J : JournalEnv} (json_codec : @CursorCodec MessageHistoryCursor).

Definition updatesCursor (callerID : string) : SM string :=
  if bool_decide (callerID = "") || bool_decide (callerID = env_uuid_string uuid_Nil) then mret ""
  else ContactCursor callerID.

(** The id of the cursor of a page that goes on. *)
Definition page_id (has : bool) (cursor : MessageHistoryCursor) : option string :=
  if has then Some (env_uuid_string (hc_ID cursor)) else None.

Definition history_response (cursor : string) (callerID : uuid) (page : HistoryPage) : SearchMessageHistoryResponse :=
  let '(messages, info) := page in
  MkHistoryResponse (MapMessage2SearchMessageHistoryResponse messages callerID) (GetUniqueFrom messages) cursor
    (page_id (pi_HasNextPage info) (pi_NextCursor info)) (page_id (pi_HasPrevPage info) (pi_PrevCursor info)).

Definition SearchThreadMessagesHistory (req : SearchMessageHistoryRequest) : SM SearchMessageHistoryResponse :=
  let hmi := MapSearchMessageHistoryRequest2HistoryMessageInputDTO req in
  cursor ← updatesCursor (shr_CallerId req);
  page ← EnrichedSearch json_codec hmi;
  mret (history_response cursor (hq_CallerID hmi) page).

Definition SearchMessagesHandler (req : SearchMessagesRequest) : SM SearchMessageHistoryResponse :=
  let s := MapSearchMessagesRequest2SearchMessagesInputDTO req in
  cursor ← updatesCursor (smr_CallerId req);
  page ← EnrichedSearchMessages json_codec s;
  mret (history_response cursor (sm_CallerID s) page).

Definition GetMessageRevisions (req : PbGetMessageRevisionsRequest) : SM (list PbRevision) :=
  revisions ← GetRevisions (Some (MapGetMessageRevisionsRequest2DTO req));
  mret (MapRevisions2GetMessageRevisionsResponse revisions).

(** Nobody's reactions are marked as the caller's. *)
Definition SearchLeftThreadsMessageHistory (req : SearchLeftThreadsMessageHistoryRequest) : SM SearchMessageHistoryResponse :=
  let d := MapSearchLeftThreads2DTO req in
  cursor ← updatesCursor (slr_CallerId req);
  page ← EnrichedSearchLeftThreads json_codec d;
  mret (history_response cursor uuid_Nil page).

(** [UpdatesCursorServer.Get] *)
Definition GetUpdatesCursor (callerID : string) : SM string :=
  of_result (parse_or "invalid caller_id" callerID);;
  ContactCursor callerID.
End handlers.

(** ** Threads, variables and tags: thread.go and thread_tag.go *)
Record PbBotControlRequest := MkPbBotControl { pbq_ThreadId : string; pbq_MemberId : string; pbq_DomainId : Z }.
Record PbSetCrmContactRequest := MkPbSetCrm {
  psc_ThreadId : string; psc_InitiatorContactId : string; psc_DomainId : Z; psc_CrmContactId : string }.

(** The peers of the request are those [MapPeerFromProto] gives. *)
Record PbCreateRequest := MkPbCreate { pcr_DomainId : Z; pcr_Initiator : Shared.Peer; pcr_Direct : option Shared.Peer }.
Record SearchThreadResponse := MkSearchThreads { str_Items : list PbThread; str_Next : bool; str_UpdatesCursor : string }.

Section handlers.
Context {E : Env} {X : MessageEnv} {H : HistoryEnv} {R : ThreadReadEnv} {J : JournalEnv}.
Context {HK : ThreadTagHooks} (jsonb_le : variables -> variables -> bool).

Definition CreateThreadHandler (req : PbCreateRequest) : SM PbThread :=
  match pcr_Direct req with
  | None => throw (InvalidArgument "received unknown create thread request type")
  | Some member =>
      thread ← CreateByKind (NewCreateThreadRequest (pcr_DomainId req) (pcr_Initiator req)
                 [WithKind Kind.ThreadDirect; WithDirectConfig member]);
      mret (ConvertToThread (MkThreadView thread None None None None 0 [] uuid_Nil []))
  end.

Definition GetThreadHandler (req : GetThreadRequest) : SM PbThread :=
  getReq ← of_result (ConvertGet req);
  cursor ← updatesCursor (pgt_CallerId req);
  thread ← GetThreadFor getReq;
  mret (with_cursor cursor (ConvertToThread thread)).

Definition SearchThreadsHandler (req : PbThreadSearchRequest) : SM SearchThreadResponse :=
  search ← of_result (ConvertSearch req);
  cursor ← updatesCursor (pts_SelfId req);
  threads ← SearchThreadsFor (Some search);
  let '(next, threads) := ProcessPagination (pts_Size req) threads in
  mret (MkSearchThreads (ConvertToThread <$> threads) next cursor).

Definition SearchLeftHandler (req : PbSearchLeftRequest) : SM (list PbThread * bool) :=
  search ← of_result (ConvertSearchLeft req);
  threads ← SearchLeftFor (Some search);
  let '(next, threads) := ProcessPagination (psl_Size req) threads in
  mret (ConvertToThread <$> threads, next).

Definition GetUnreadSummaryHandler (selfId : string) (domainId : Z) : SM UnreadSummaryResult :=
  selfID ← of_result (parse_or "invalid self id" selfId);
  GetUnreadSummary (Some (MkSummaryRequest selfID domainId)).

Definition GetCountersHandler (req : PbGetCountersRequest) : SM ThreadCounters :=
  in_ ← of_result (ConvertCountersRequest req);
  GetCounters (Some in_).

Definition TransferHandler (req : PbTransferRequest) : SM string :=
  r ← of_result (ConvertTransferThreadRequest req);
  newMember ← Transfer r;
  mret (env_uuid_string newMember).

Definition AddMemberHandler (req : PbAddMemberRequest) : SM string :=
  r ← of_result (ConvertAddMemberRequest req);
  newMember ← AddMember r;
  mret (env_uuid_string newMember).

Definition RemoveMemberHandler (req : PbRemoveMemberRequest) : SM unit :=
  r ← of_result (ConvertRemoveMemberRequest req);
  RemoveMember r.

Definition CompleteBotControlHandler (req : PbBotControlRequest) : SM unit :=
  tid ← of_result (parse_or "invalid thread_id" (pbq_ThreadId req));
  mid ← of_result (parse_or "invalid member_id" (pbq_MemberId req));
  CompleteBotControl (MkComplete tid mid (pbq_DomainId req)).

Definition HandBackToBotHandler (req : PbBotControlRequest) : SM unit :=
  tid ← of_result (parse_or "invalid thread_id" (pbq_ThreadId req));
  initiator ← of_result (parse_or "invalid initiator_contact_id" (pbq_MemberId req));
  HandBackToBot (MkHandBack tid initiator (pbq_DomainId req)).

Definition TakeOverFromBotHandler (req : PbBotControlRequest) : SM unit :=
  tid ← of_result (parse_or "invalid thread_id" (pbq_ThreadId req));
  initiator ← of_result (parse_or "invalid initiator_contact_id" (pbq_MemberId req));
  TakeOverFromBot (MkTakeOver tid initiator (pbq_DomainId req)).

Definition SetCrmContactHandler (req : PbSetCrmContactRequest) : SM string :=
  tid ← of_result (parse_or "invalid thread_id" (psc_ThreadId req));
  initiator ← of_result (parse_or "invalid initiator_contact_id" (psc_InitiatorContactId req));
  SetThreadCRMContact (MkSetCRM tid initiator (psc_DomainId req) (psc_CrmContactId req));;
  mret (psc_CrmContactId req).

(** ** Variables *)
Definition SetVariablesHandler (req : PbSetVariablesRequest) : SM (option PbThreadVariables) :=
  cmd ← of_result (MapSetVariablesRequestToCommand req);
  vars ← SetVariables cmd;
  mret (MapThreadVariablesToProto (Some vars)).

Definition SearchVariablesHandler (req : PbSearchVariablesRequest) : SM (list (option PbThreadVariables) * bool) :=
  q ← of_result (MapSearchVariablesRequestToQuery req);
  page ← SearchVariables jsonb_le q;
  mret (MapThreadVariablesPageToProto page).

Definition LocateVariablesHandler (req : PbLocateVariablesRequest) : SM (option PbThreadVariables) :=
  q ← of_result (MapLocateVariablesRequestToQuery req);
  vars ← LocateVariables q;
  mret (MapThreadVariablesToProto vars).

Definition FlushVariablesHandler (req : PbFlushVariablesRequest) : SM (option PbThreadVariables) :=
  cmd ← of_result (MapFlushVariablesRequestToCommand req);
  vars ← FlushVariables cmd;
  mret (MapThreadVariablesToProto (Some vars)).

(** ** thread_tag.go *)
Definition AddTagHandler (req : option PbAddThreadTagRequest) : SM PbChatTag :=
  r ← of_result (ConvertAddThreadTagRequest req);
  tag ← AddTag r;
  mret (ConvertToChatTag tag).

Definition RemoveTagHandler (req : option PbRemoveThreadTagRequest) : SM unit :=
  r ← of_result (ConvertRemoveThreadTagRequest req);
  RemoveTag r.

Definition RemoveTagByNameHandler (req : option PbRemoveThreadTagByNameRequest) : SM unit :=
  r ← of_result (ConvertRemoveThreadTagByNameRequest req);
  RemoveTagByName r.

Definition SnoozeHandler (threadId contactId : string) : SM PbChatTag :=
  p ← of_result (ConvertSnoozeTarget threadId contactId);
  tag ← Snooze p.1 p.2;
  mret (ConvertToChatTag tag).

Definition UnsnoozeHandler (threadId contactId : string) : SM unit :=
  p ← of_result (ConvertSnoozeTarget threadId contactId);
  Unsnooze p.1 p.2.

Definition SearchTagsHandler (req : PbSearchThreadTagsRequest) : SM (list string * bool) :=
  r ← of_result (ConvertSearchThreadTagsRequest (Some req));
  tags ← SearchThreadTags r;
  let '(next, tags) := ProcessPagination (pst_Size req) tags in
  mret (tags, next).
End handlers.
