(* ===== verification/Updates.v ===== *)
(** * Updates: what changed for a contact since a cursor

    internal/handler/grpc/updates.go.  The journal lists the threads changed,
    each thread's entries are folded to its final state; messages come through
    the history, dialogs through the thread search, as internal/service/module.go
    wires them.  The metrics of a resync are not modelled. *)
From S2P Require Import Prelude Domain Events Message World Paginator TagService MediaProcessor MessageView HistoryQueries History HistoryMapper.
From S2P Require Import ThreadQueries ThreadReads ThreadMapper Journal.
#[local] Open Scope Z_scope.

(** ** Requests and responses *)
Record GetUpdatesRequest := MkGetUpdates {
  gup_CallerId : string; gup_DomainId : Z; gup_Cursor : string; gup_AllowList : option (list string) }.

(** What a client needs to render a message. *)
Record PbUpdatedMessage := MkUpdatedMessage {
  um_Id : string; um_Seq : Z; um_SenderId : string; um_Type : Z; um_Body : string; um_Metadata : metadata; um_CreatedAt : Z;
  um_ReplyTo : option PbReply; um_ForwardOrigin : option PbForwardOrigin; um_Documents : list PbDocument;
  um_Images : list PbImage; um_Location : option MessageLocation; um_Contact : option MessageContact;
  um_Interactive : option PbInteractive; um_System : option PbSystem; um_Reactions : list PbReaction;
  um_Failures : list PbFailure; um_EditedAt : Z }.
Record PbDeletedMessage := MkDeletedMessage { dm_Id : string; dm_DeletedAt : Z; dm_DeletedBy : option PbMember }.
Inductive PbMemberAction := ACTION_UNSPECIFIED | ACTION_JOINED | ACTION_LEFT.
Record PbMemberChange := MkMemberChange { mch_ContactId : string; mch_Action : PbMemberAction; mch_ById : string }.

Record PbThreadUpdates := MkThreadUpdates {
  tup_ThreadId : string; tup_Left : bool; tup_UnreadCount : Z; tup_Tags : option (list string);
  tup_Messages : list PbUpdatedMessage; tup_DeletedMessageIds : list string; tup_DeletedMessages : list PbDeletedMessage;
  tup_MemberChanges : list PbMemberChange; tup_Dialog : option PbThread; tup_TopMessage : option PbUpdatedMessage;
  tup_ReadStates : list PbReadState; tup_Members : list PbMember }.
Record GetUpdatesResponse := MkUpdatesResponse { upr_Cursor : string; upr_Resync : bool; upr_Threads : list PbThreadUpdates }.

(** Who asks and how history visibility applies to them. *)
Record updatesCaller := MkCaller { uc_contactID : string; uc_domainID : Z; uc_allow : option (list string) }.

Abbreviation contacts := (gset string).

(** ** Folding entries *)
Definition hasKind (events : list JEvent) (kind : string) : bool := existsb (fun e => bool_decide (je_Kind e = kind)) events.

(** A field that is missing reads as the empty text. *)
Definition field (key : string) (fs : fields) : string := default "" (fs !! key).

Definition needsDialog (events : list JEvent) (contactID : string) : bool :=
  existsb (fun e =>
    bool_decide (je_Kind e = KindThreadCreated) || bool_decide (je_Kind e = KindThreadUpdated) ||
    (bool_decide (je_Kind e = KindMemberChanged) && bool_decide (field FieldAction (je_Fields e) = ActionJoined) &&
     bool_decide (field FieldContactID (je_Fields e) = contactID))) events.

Definition actorFields : list string := [FieldActor; FieldContactID].
Definition actorOf (fs : fields) : string :=
  default "" (head (List.filter (fun v => negb (bool_decide (v = ""))) ((fun key => field key fs) <$> actorFields))).

Definition memberChangeActionToProto (action : string) : PbMemberAction :=
  if decide (action = ActionJoined) then ACTION_JOINED else if decide (action = ActionLeft) then ACTION_LEFT
  else ACTION_UNSPECIFIED.

Definition toUpdatedMessage (h : PbHistoryMessage) : PbUpdatedMessage :=
  MkUpdatedMessage (ph_Id h) (ph_Seq h) (ph_SenderId h) (ph_Type h) (ph_Body h) (ph_Metadata h) (ph_CreatedAt h) (ph_ReplyTo h)
    (ph_ForwardOrigin h) (ph_Documents h) (ph_Images h) (ph_Location h) (ph_Contact h) (ph_Interactive h) (ph_System h)
    (ph_Reactions h) (ph_Failures h) (if 0 <? ph_RevisionCount h then ph_UpdatedAt h else 0).

(** Members of [src] whose contact [dst] does not have, in their order. *)
Definition mergeMembers (dst src : list PbMember) : list PbMember :=
  fold_left (fun dst m => if bool_decide (pm_ContactId m ∈ pm_ContactId <$> dst) then dst else dst ++ [m]) src dst.

(** The messages of the entries, each once, in their order. *)
Definition message_ids (events : list JEvent) : list string :=
  fold_left (fun ids e => let id := field FieldMsgID (je_Fields e) in
    if bool_decide (id = "") || bool_decide (id ∈ ids) then ids else ids ++ [id]) events [].

Definition by_id (byID : gmap string PbHistoryMessage) (items : list PbHistoryMessage) : gmap string PbHistoryMessage :=
  fold_left (fun byID m => <[ph_Id m := m]> byID) items byID.

Definition member_change (e : JEvent) : PbMemberChange :=
  MkMemberChange (field FieldContactID (je_Fields e)) (memberChangeActionToProto (field FieldAction (je_Fields e)))
    (actorOf (je_Fields e)).
Definition member_changes (events : list JEvent) : list PbMemberChange :=
  member_change <$> List.filter (fun e => bool_decide (je_Kind e = KindMemberChanged)) events.

(** The contacts a message of the diff refers to. *)
Definition deleted_by_contact (m : PbHistoryMessage) : string := match ph_DeletedBy m with Some d => pm_ContactId d | None => "" end.
Definition message_contacts (m : PbHistoryMessage) : contacts :=
  if ph_Deleted m then {[deleted_by_contact m]} else {[ph_SenderId m]} ∪ list_to_set (pfl_MemberId <$> ph_Failures m).
Definition change_contacts (c : PbMemberChange) : contacts := {[mch_ContactId c; mch_ById c]}.

(** [applyDiff]: what [messages] and [events] add to an empty entry, and the contacts referred to. *)
Definition live_messages (messages : list PbHistoryMessage) : list PbHistoryMessage := List.filter (fun m => negb (ph_Deleted m)) messages.
Definition deleted_messages (messages : list PbHistoryMessage) : list PbHistoryMessage := List.filter ph_Deleted messages.
Definition referenced_contacts (messages : list PbHistoryMessage) (events : list JEvent) : contacts :=
  union_list (message_contacts <$> messages) ∪ union_list (change_contacts <$> member_changes events).

Section server.
Context {E : Env} {X : MessageEnv} {H : HistoryEnv} {R : ThreadReadEnv} {J : JournalEnv}.
Context (json_codec : @CursorCodec MessageHistoryCursor).

Definition historyBatch : nat := 100.

(** ** Reading what changed *)
Definition callerTags (caller : updatesCaller) (threadID : string) : SM (list string) :=
  thread ← of_result (match uuid_Parse threadID with OK u => OK u | Err _ => Err (Internal "invalid journal thread_id") end);
  contact ← of_result (parse_or "invalid caller_id" (uc_contactID caller));
  ListTags thread contact.

(** The ids are asked for in batches; every batch takes at least one id. *)
Fixpoint load_batches (fuel : nat) (caller : updatesCaller) (threadID : string) (ids : list string)
    (byID : gmap string PbHistoryMessage) (from : list PbMember) : SM (gmap string PbHistoryMessage * list PbMember) :=
  match fuel, ids with
  | O, _ | _, [] => mret (byID, from)
  | S fuel', _ =>
      let batch := take historyBatch ids in
      let in_ := UpdatesHistoryInput threadID (uc_contactID caller) (uc_domainID caller) (uc_allow caller) batch in
      page ← EnrichedSearch json_codec in_;
      let items := MapMessage2SearchMessageHistoryResponse page.1 (hq_CallerID in_) in
      load_batches fuel' caller threadID (skipn historyBatch ids) (by_id byID items) (mergeMembers from (GetUniqueFrom page.1))
  end.

Definition currentMessages (caller : updatesCaller) (threadID : string) (events : list JEvent)
    : SM (list PbHistoryMessage * list PbMember) :=
  let ids := message_ids events in
  p ← load_batches (length ids) caller threadID ids ∅ [];
  let '(byID, from) := p in
  mret (omap (fun id => byID !! id) ids, from).

Definition topMessage (caller : updatesCaller) (threadID : string) : SM (option PbUpdatedMessage) :=
  let in_ := UpdatesHistoryInput threadID (uc_contactID caller) (uc_domainID caller) (uc_allow caller) [] in
  page ← EnrichedSearch json_codec in_;
  mret (match MapMessage2SearchMessageHistoryResponse (take 1 page.1) (hq_CallerID in_) with
        | [] => None
        | m :: _ => if ph_Deleted m then None else Some (toUpdatedMessage m)
        end).

(** The preview is the top message, the cursor sits on the response. *)
Definition bare_dialog (t : PbThread) : PbThread :=
  MkPbThread (pth_Id t) (pth_DomainId t) (pth_CreatedAt t) (pth_UpdatedAt t) (pth_Kind t) (pth_Subject t) (pth_Description t)
    (pth_Members t) None (pth_Variables t) (pth_UnreadCount t) (pth_Tags t) (pth_ReadStates t) (pth_CrmContactId t)
    (pth_BotControllerMemberId t) (pth_OwnerBotMemberId t) (pth_Source t) (pth_Queue t) "".

Definition dialog_request (id : uuid) (caller : updatesCaller) : ThreadSearchRequest :=
  MkThreadSearch [] [id] [uc_domainID caller] [] [] "" (default uuid_Nil (menv_uuid_parse (uc_contactID caller))) [] [] [] []
    false 1 "" 1.

Definition attachDialog (caller : updatesCaller) (threadID : string) : SM (option PbThread * option PbUpdatedMessage) :=
  match menv_uuid_parse threadID with
  | None => mret (None, None)
  | Some id =>
      threads ← SearchThreadsFor (Some (dialog_request id caller));
      top ← topMessage caller threadID;
      mret ((fun v => bare_dialog (ConvertToThread v)) <$> head threads, top)
  end.

Definition pb_member (m : JMember) : PbMember :=
  MkPbMember (jm_ID m) (jm_ContactID m) (ConvertThreadRole (jm_Role m)) (jm_IsBot m) false false "".

Definition threadMembers (threadID : string) (wanted : contacts) : SM (list PbMember) :=
  let wanted := wanted ∖ {[""]} in
  if decide (wanted = ∅) then mret []
  else
    members ← Members threadID;
    mret (pb_member <$> List.filter (fun m => bool_decide (jm_ContactID m ∈ wanted)) members).

Definition pb_read_state (s : ReadState) : PbReadState := MkPbReadState (rs_MemberID s) (rs_DeliveredUpToSeq s) (rs_ReadUpToSeq s).

(** ** One thread *)
Definition left_entry (threadID : string) : PbThreadUpdates :=
  MkThreadUpdates threadID true 0 None [] [] [] [] None None [] [].

Definition entry_of (threadID : string) (unread : Z) (tags : option (list string)) (messages : list PbHistoryMessage)
    (events : list JEvent) (dialog : option PbThread * option PbUpdatedMessage) (states : list ReadState)
    (members : list PbMember) : PbThreadUpdates :=
  MkThreadUpdates threadID false unread tags (toUpdatedMessage <$> live_messages messages)
    (ph_Id <$> deleted_messages messages)
    ((fun m => MkDeletedMessage (ph_Id m) (ph_DeletedAt m) (ph_DeletedBy m)) <$> deleted_messages messages)
    (member_changes events) dialog.1 dialog.2 (pb_read_state <$> states) members.

(** The entry, if any, and how many changes it consumed. *)
Definition threadUpdates (caller : updatesCaller) (threadID : string) (window : ContactChanges) (budget : Z)
    : SM (option PbThreadUpdates * Z) :=
  member ← IsMember threadID (uc_contactID caller) (uc_domainID caller);
  if negb member then mret (Some (left_entry threadID), 1)
  else
    events ← ChangesSince threadID window budget;
    let n := Z.of_nat (length events) in
    if bool_decide (events = []) then mret (None, 0)
    else if budget <? n then mret (None, n)
    else
      unread ← Unread threadID (uc_contactID caller);
      tags ← (if hasKind events KindTagsChanged then tags ← callerTags caller threadID; mret (Some tags) else mret None);
      p ← currentMessages caller threadID events;
      let '(messages, historyFrom) := p in
      dialog ← (if needsDialog events (uc_contactID caller) then attachDialog caller threadID else mret (None, None));
      states ← ReadStates threadID;
      members ← threadMembers threadID (referenced_contacts messages events ∪ list_to_set (rs_MemberID <$> states));
      mret (Some (entry_of threadID unread tags messages events dialog states (mergeMembers members historyFrom)), n).

(** ** The handler *)
Definition resync (contactID : string) : SM GetUpdatesResponse :=
  cursor ← ContactCursor contactID;
  mret (MkUpdatesResponse cursor true []).

(** The loop over the threads: [None] when the budget ran out. *)
Fixpoint thread_entries (caller : updatesCaller) (window : ContactChanges) (threads : list string) (budget : Z)
    : SM (option (list PbThreadUpdates)) :=
  match threads with
  | [] => mret (Some [])
  | threadID :: threads' =>
      p ← threadUpdates caller threadID window budget;
      let '(entry, used) := p in
      if budget <? used then mret None
      else
        rest ← thread_entries caller window threads' (budget - used);
        mret (match rest with
              | None => None
              | Some es => Some (match entry with Some e => e :: es | None => es end)
              end)
  end.

(** [errors.Is(err, journal.ErrInvalidCursor)] *)
Definition is_invalid_cursor (e : error) : bool :=
  match e with MkError CodeUnset msg (Some _) => bool_decide (msg = "invalid journal cursor") | _ => false end.

Definition GetUpdates (req : GetUpdatesRequest) : SM GetUpdatesResponse :=
  of_result (parse_or "invalid caller_id" (gup_CallerId req));;
  if gup_DomainId req <=? 0 then throw (InvalidArgument "domain_id is required")
  else
    let caller := MkCaller (gup_CallerId req) (gup_DomainId req) (gup_AllowList req) in
    if decide (gup_Cursor req = "") then resync (gup_CallerId req)
    else
      changes ← map_err (fun e => if is_invalid_cursor e then WithCause e (InvalidArgument "invalid cursor") else e)
                  (contactChanges (gup_CallerId req) (gup_Cursor req));
      if cc_TooMany changes then resync (gup_CallerId req)
      else
        trimmed ← TrimHorizon;
        if (cc_After changes <? trimmed) && negb (bool_decide (cc_Threads changes = [])) then resync (gup_CallerId req)
        else
          entries ← thread_entries caller changes (cc_Threads changes) MaxContactChanges;
          match entries with
          | None => resync (gup_CallerId req)
          | Some es => mret (MkUpdatesResponse (cc_Cursor changes) false es)
          end.
End server.
