(* ===== verification/TypingService.v ===== *)
(** * TypingService: typing indicators

    internal/service/typing.go with guards/send_typing.go and the limiter of
    internal/adapter/ratelimit/cache.go.  Nothing is stored: an indicator goes
    straight to the broker and to the external providers, at most one per
    participant and thread within a window, and whatever fails is dropped. *)
From Stdlib Require Import Ascii.
From S2P Require Import Prelude Domain Events Message World Text DialogStore MediaProcessor MessageService.
#[local] Open Scope Z_scope.

Record SendTypingRequest := MkSendTyping {
  st_From : Shared.Peer; st_ThreadID : uuid; st_DomainID : Z; st_TimeoutMS : Z; st_PreviewText : string }.

Definition SendTypingGuard (req : SendTypingRequest) : result unit := first_error
  [(negb (nil_peer (st_From req)), errors_New "typing sender id is required");
   (negb (bool_decide (st_ThreadID req = uuid_Nil)), errors_New "typing thread id is required")].

(** ** Who receives it *)
Definition isActiveMember (members : list ThreadDialog) (id : uuid) : bool :=
  existsb (fun m => bool_decide (td_ContactID m = id) && bool_decide (td_DeletedAt m = None)) members.

Definition memberRole (members : list ThreadDialog) (id : uuid) : Z :=
  match find_first (fun m => bool_decide (td_ContactID m = id)) members with
  | Some m => td_ThreadRole m
  | None => Role.UnspecifiedRole
  end.

Definition isInternalRecipient (m : ThreadDialog) (sender : uuid) : bool :=
  bool_decide (td_DeletedAt m = None) && negb (bool_decide (td_ContactID m = sender)) && negb (td_IsBot m) &&
  bool_decide (td_Via m = None).

Definition internalRecipients (members : list ThreadDialog) (sender : uuid) : list uuid :=
  td_ContactID <$> List.filter (fun m => isInternalRecipient m sender) members.

(** ** The draft *)

(** The loop steps back over continuation bytes. *)
Fixpoint rune_cut (s : string) (cut : nat) : nat :=
  match cut with
  | O => O
  | S cut' => match String.get cut s with
              | Some c => if RuneStart c then cut else rune_cut s cut'
              | None => cut
              end
  end.

Definition truncateUTF8 (s : string) (maxBytes : Z) : string :=
  if (maxBytes <=? 0) || (Z.of_nat (String.length s) <=? maxBytes) then s
  else String.substring 0 (rune_cut s (Z.to_nat maxBytes)) s.

Section service.
Context {E : Env} {X : MessageEnv}.

(** ** The limiter: an error of the cache lets the event pass *)
Definition Allow (key : string) : SM bool :=
  match menv_limiter with
  | None => mret true
  | Some cache =>
      at_ ← now;
      armed ← gets w_armed;
      match tc_Get cache armed at_ key with
      | Err _ => mret true
      | OK true => mret false
      | OK false =>
          match tc_SetTTL cache armed at_ key (tg_Window menv_typing) with
          | OK armed' => modify (set_armed armed')
          | Err _ => mret tt
          end;;
          mret true
      end
  end.

(** In nanoseconds, answered in milliseconds. *)
Definition resolveTypingTimeout (requestedMS : Z) : Z :=
  let d := if 0 <? requestedMS then requestedMS * 1000000 else tg_DefaultTimeout menv_typing in
  let d := if tg_MaxTimeout menv_typing <? d then tg_MaxTimeout menv_typing else d in
  to_int32 (Z.quot d 1000000).

Definition publishTyping (ev : Typing) : SM unit :=
  let topic := TypingTopic env_uuid_string (ty_ThreadID ev) in
  match menv_publish topic with
  | OK _ => modify (fun w => set_signals (w_signals w ++ [SigTyping topic ev]) w)
  | Err _ => mret tt
  end.

Definition external_peers (members : list ThreadDialog) (sender : uuid) : list ExternalPeerPair :=
  List.filter (fun p => negb (bool_decide (ep_ContactID p = sender))) (ExtractExternalPeers members).

Definition dispatchExternalTyping (members : list ThreadDialog) (in_ : SendTypingRequest) : SM unit :=
  match env_providers with
  | None => mret tt
  | Some _ =>
      match external_peers members (Shared.peer_ID (st_From in_)) with
      | [] => mret tt
      | peers => modify (fun w => set_signals (w_signals w ++
                   [SigProviderTyping (st_ThreadID in_) (to_int32 (st_DomainID in_)) true peers]) w)
      end
  end.

Definition typing_event (in_ : SendTypingRequest) (members : list ThreadDialog) (at_ : Time) : Typing :=
  let sender := Shared.peer_ID (st_From in_) in
  let recipients := internalRecipients members sender in
  let shown := tg_PreviewEnabled menv_typing && negb (bool_decide (recipients = [])) in
  MkTyping (st_ThreadID in_) sender (to_int32 (memberRole members sender)) (resolveTypingTimeout (st_TimeoutMS in_)) at_
    recipients (to_int32 (st_DomainID in_))
    (if shown then truncateUTF8 (st_PreviewText in_) (tg_MaxPreviewBytes menv_typing) else "")
    (if shown then recipients else []).

Definition typing_key (in_ : SendTypingRequest) : string :=
  env_uuid_string (st_ThreadID in_) +:+ ":" +:+ env_uuid_string (Shared.peer_ID (st_From in_)).

Definition SendTyping (in_ : SendTypingRequest) : SM unit :=
  match SendTypingGuard in_ with
  | Err e => throw (WithCause e (InvalidArgument "typing: invalid request"))
  | OK _ =>
      if negb (tg_Enabled menv_typing) then mret tt
      else
        ok ← Allow (typing_key in_);
        if negb ok then mret tt
        else
          members ← map_err (fun e => WithCause e (errors_New "typing: failed to load thread members"))
            (GetQuickView (MkDialogFilter 0 0 (Some [st_ThreadID in_]) None None false (st_DomainID in_)));
          if negb (isActiveMember members (Shared.peer_ID (st_From in_)))
          then throw (errors_New "typing: sender is not a participant of the thread")
          else
            at_ ← now;
            publishTyping (typing_event in_ members at_);;
            dispatchExternalTyping members in_
  end.
End service.
