(* ===== verification/Invariant.v ===== *)
(** * Invariant: the well-formed database

    One invariant over all tables the services write: the bot-control clauses
    of BotControlStore, every bot on a stack or owning a thread is a dialog of
    that thread, a contact is at most once an active member of a thread, every
    dialog has its one permission row and its one settings row, messages are
    numbered without repetition up to the thread's counter, tags are unique;
    and how each kind of table change keeps it. *)
From S2P Require Import Prelude Domain Events Message World BotControlStore.
From S2P Require Import DialogStore ThreadStore PermissionStore TagStore Outbox TagService.
From S2P Require Import Samples Tags MessageStore.
#[local] Open Scope Z_scope.

(** ** Clauses *)

(** Bots of a stack and owner bots belong to the thread. *)
Record home_ok (d : DB) : Prop := MkHome {
  home_stack : forall r x, r ∈ db_stack d -> x ∈ db_dialogs d -> s_member_id r = Some (d_id x) ->
    d_thread_id x = s_thread_id r;
  home_owner : forall t x, t ∈ db_threads d -> x ∈ db_dialogs d -> t_owner_bot_id t = Some (d_id x) ->
    d_thread_id x = t_id t }.

Definition perms_of (id : uuid) (d : DB) : list PermRow :=
  select_where (fun p => bool_decide (p_thread_dialog_id p = id)) (db_perms d).
Definition settings_of (id : uuid) (d : DB) : list SettingRow :=
  select_where (fun s => bool_decide (st_thread_dialog_id s = id)) (db_settings d).

Record members_ok (d : DB) : Prop := MkMembers {
  mb_active : forall x y, x ∈ db_dialogs d -> y ∈ db_dialogs d -> active x = true -> active y = true ->
    d_member_id x = d_member_id y -> d_thread_id x = d_thread_id y -> d_id x = d_id y;
  mb_thread : forall x, x ∈ db_dialogs d -> is_Some (find_thread (d_thread_id x) d);
  mb_perm : forall x, x ∈ db_dialogs d -> length (perms_of (d_id x) d) = 1%nat;
  mb_setting : forall x, x ∈ db_dialogs d -> length (settings_of (d_id x) d) = 1%nat }.

Record messages_ok (d : DB) : Prop := MkMessages {
  ms_ids : NoDup (m_id <$> db_messages d);
  ms_seq : NoDup ((fun m => (m_thread_id m, m_seq m)) <$> db_messages d);
  ms_range : forall m, m ∈ db_messages d ->
    exists t, find_thread (m_thread_id m) d = Some t /\ 1 <= m_seq m <= t_last_seq t;
  ms_counter : forall t, t ∈ db_threads d -> 0 <= t_last_seq t }.

Record db_wf (d : DB) : Prop := MkDbWf {
  db_bc : bc_wf d; db_home : home_ok d; db_members : members_ok d; db_msgs : messages_ok d;
  db_tags_ok : tags_wf d }.

(** Every identifier handed out so far. *)
Definition all_ids (d : DB) : list uuid :=
  (t_id <$> db_threads d) ++ (d_id <$> db_dialogs d) ++ (p_thread_dialog_id <$> db_perms d) ++
  (st_thread_dialog_id <$> db_settings d) ++ (s_id <$> db_stack d) ++ (m_id <$> db_messages d) ++
  (g_id <$> db_tags d).

Definition below (n : N) (l : list uuid) : Prop := forall x, x ∈ l -> (x < n)%N.

Definition sys_wf (w : World) : Prop := db_wf (w_db w) /\ below (w_next w) (all_ids (w_db w)).

(** ** Tables the invariant reads *)
Definition core (d : DB) :=
  (db_threads d, db_dialogs d, db_perms d, db_settings d, db_stack d, db_messages d, db_tags d).

Lemma db_wf_core d d' : core d' = core d -> db_wf d -> db_wf d'.
Proof.
  destruct d, d'. unfold core. simpl. intros [= -> -> -> -> -> -> ->] [[[] ?] [] [] [] []].
  split; [split; [split|]|split|split|split|split]; assumption.
Qed.

Lemma bc_wf_ext d d' :
  db_threads d' = db_threads d -> db_dialogs d' = db_dialogs d -> db_stack d' = db_stack d -> bc_wf d -> bc_wf d'.
Proof. destruct d, d'. simpl. intros -> -> -> [[] ?]. split; [by split|done]. Qed.

Lemma all_ids_core d d' : core d' = core d -> all_ids d' = all_ids d.
Proof. unfold core, all_ids. by intros [= -> -> -> -> -> -> ->]. Qed.

Lemma sys_wf_core w w' :
  core (w_db w') = core (w_db w) -> (w_next w <= w_next w')%N -> sys_wf w -> sys_wf w'.
Proof.
  intros Hc Hn [Hwf Hb]. split; [by eapply db_wf_core|]. rewrite (all_ids_core _ _ Hc).
  intros x Hx. specialize (Hb x Hx). lia.
Qed.

Lemma below_app n l1 l2 : below n (l1 ++ l2) <-> below n l1 /\ below n l2.
Proof. unfold below. setoid_rewrite elem_of_app. naive_solver. Qed.

Lemma below_sub n n' l l' : below n l -> (n <= n')%N -> (forall x, x ∈ l' -> x ∈ l \/ (x < n')%N) -> below n' l'.
Proof. intros Hb Hn Hs x Hx. destruct (Hs x Hx) as [Hl|]; [|done]. specialize (Hb x Hl). lia. Qed.

Lemma below_not_in n l : below n l -> n ∉ l.
Proof. intros Hb Hin. specialize (Hb n Hin). lia. Qed.

(** ** Threads updated in place *)
Section threads.
Context (P : ThreadRow -> bool) (f : ThreadRow -> ThreadRow).
Hypothesis (Hid : forall t, t_id (f t) = t_id t).

Abbreviation thr d := (on_threads (update_where P f) d).

Lemma thr_find tid d : find_thread tid (thr d) = (fun t => if P t then f t else t) <$> find_thread tid d.
Proof. apply find_first_update. intros t. by rewrite Hid. Qed.

Lemma thr_is_Some tid d : is_Some (find_thread tid d) -> is_Some (find_thread tid (thr d)).
Proof. rewrite thr_find. by intros [t ->]; eexists. Qed.

Lemma thr_members d : members_ok d -> members_ok (thr d).
Proof. intros []. split; try done. intros x Hx. by apply thr_is_Some, mb_thread0. Qed.

Lemma thr_messages d :
  (forall t, t_last_seq t <= t_last_seq (f t)) -> messages_ok d -> messages_ok (thr d).
Proof.
  intros Hseq []. split; try done.
  - intros m Hm. destruct (ms_range0 m Hm) as (t & Ht & Hr). rewrite thr_find, Ht. simpl.
    eexists. split; [done|]. destruct (P t); [|done]. specialize (Hseq t). lia.
  - simpl. intros t' (t & Ht & ->)%elem_of_update. specialize (ms_counter0 t Ht). specialize (Hseq t).
    destruct (P t); lia.
Qed.

Lemma thr_tags d : tags_wf d -> tags_wf (thr d).
Proof. intros [? ? Hrow]. split; [done|done|]. intros t Ht. destruct (Hrow t Ht). split; [done|]. by apply thr_is_Some. Qed.

Lemma thr_home d : (forall t, t_owner_bot_id (f t) = t_owner_bot_id t) -> home_ok d -> home_ok (thr d).
Proof.
  intros Ho []. split; [done|]. simpl. intros t' x (t & Ht & ->)%elem_of_update Hx Hb.
  assert (t_owner_bot_id t = Some (d_id x)) as Hb' by (destruct (P t); [by rewrite <- Ho|done]).
  rewrite (home_owner0 t x Ht Hx Hb'). by destruct (P t).
Qed.

Lemma thr_ids d : all_ids (thr d) = all_ids d.
Proof. unfold all_ids. simpl. by rewrite update_where_proj. Qed.

(** Control columns untouched. *)
Lemma thr_bc d :
  (forall t, t_owner_bot_id (f t) = t_owner_bot_id t) ->
  (forall t, t_bot_controller_id (f t) = t_bot_controller_id t) -> bc_wf d -> bc_wf (thr d).
Proof.
  intros Ho Hc [[] Hok]. split; [split; try done|].
  - simpl. by rewrite update_where_proj.
  - intros r Hr. destruct (wf_rows r Hr) as (? & ? & ?). split; [done|]. split; [by apply thr_is_Some|done].
  - simpl. intros t' o (t & Ht & ->)%elem_of_update Hb. apply (wf_owner t o Ht).
    destruct (P t); [by rewrite <- Ho|done].
  - intros t' m (t & Ht & ->)%elem_of_update Hb. unfold on_stack_or_owner in *.
    destruct (P t).
    + rewrite Hid, Ho. rewrite Hc in Hb. by apply (Hok t m).
    + by apply (Hok t m).
Qed.

Lemma thr_wf d :
  (forall t, t_owner_bot_id (f t) = t_owner_bot_id t) ->
  (forall t, t_bot_controller_id (f t) = t_bot_controller_id t) ->
  (forall t, t_last_seq t <= t_last_seq (f t)) -> db_wf d -> db_wf (thr d).
Proof.
  intros Ho Hc Hs []. split; [by apply thr_bc|by apply thr_home|by apply thr_members|by apply thr_messages|by apply thr_tags].
Qed.
End threads.

(** ** Dialogs updated in place: a dialog keeps its identity and may only leave *)
Section dialogs.
Context (P : DialogRow -> bool) (f : DialogRow -> DialogRow).
Hypothesis (Hid : forall x, d_id (f x) = d_id x) (Hth : forall x, d_thread_id (f x) = d_thread_id x)
  (Hmb : forall x, d_member_id (f x) = d_member_id x) (Hact : forall x, active (f x) = true -> active x = true).

Abbreviation dlg d := (on_dialogs (update_where P f) d).

Lemma dlg_find id d : find_dialog id (dlg d) = (fun x => if P x then f x else x) <$> find_dialog id d.
Proof. apply find_first_update. intros x. by rewrite Hid. Qed.

Lemma dlg_is_Some id d : is_Some (find_dialog id d) -> is_Some (find_dialog id (dlg d)).
Proof. rewrite dlg_find. by intros [x ->]; eexists. Qed.

Lemma dlg_elem d x' : x' ∈ db_dialogs (dlg d) ->
  exists x, x ∈ db_dialogs d /\ d_id x' = d_id x /\ d_thread_id x' = d_thread_id x /\
            d_member_id x' = d_member_id x /\ (active x' = true -> active x = true).
Proof.
  simpl. intros (x & Hx & ->)%elem_of_update. exists x. split; [done|].
  destruct (P x); [|done]. rewrite Hid, Hth, Hmb. eauto.
Qed.

Lemma dlg_bc d : bc_wf d -> bc_wf (dlg d).
Proof.
  intros [[] Hok]. split; [split; try done|exact Hok].
  - simpl. by rewrite update_where_proj.
  - intros r Hr. destruct (wf_rows r Hr) as (? & ? & m & ? & ?). split; [done|]. split; [done|].
    exists m. split; [done|]. by apply dlg_is_Some.
  - intros t o Ht Hb. by apply dlg_is_Some, (wf_owner t o).
Qed.

Lemma dlg_home d : home_ok d -> home_ok (dlg d).
Proof.
  intros [Hs Ho]. split; intros y x' Hy (x & Hx & Hi & Ht & _)%dlg_elem Hb; rewrite Ht; rewrite Hi in Hb; eauto.
Qed.

Lemma dlg_members d : members_ok d -> members_ok (dlg d).
Proof.
  intros [Ha Ht Hp Hs]. split.
  - intros x' y' (x & Hx & -> & -> & -> & Hxa)%dlg_elem (y & Hy & -> & -> & -> & Hya)%dlg_elem. eauto.
  - intros x' (x & Hx & _ & -> & _)%dlg_elem. by apply (Ht x).
  - intros x' (x & Hx & -> & _)%dlg_elem. by apply Hp.
  - intros x' (x & Hx & -> & _)%dlg_elem. by apply Hs.
Qed.

Lemma dlg_ids d : all_ids (dlg d) = all_ids d.
Proof. unfold all_ids. simpl. by rewrite update_where_proj. Qed.

Lemma dlg_wf d : db_wf d -> db_wf (dlg d).
Proof.
  intros [? ? ? [] []]. split; [by apply dlg_bc|by apply dlg_home|by apply dlg_members|split; assumption|split; assumption].
Qed.
End dialogs.

(** ** A new member *)
Lemma find_dialog_app id x d :
  find_dialog id (on_dialogs (fun l => l ++ [x]) d) =
  match find_dialog id d with Some y => Some y | None => if bool_decide (d_id x = id) then Some x else None end.
Proof.
  unfold find_dialog. simpl. induction (db_dialogs d) as [|y l IH]; simpl; [done|].
  by destruct (bool_decide (d_id y = id)).
Qed.

Section create.
Context (id pid : uuid) (at_ : Time) (t : ThreadRow) (m : ThreadDialogExtended) (d : DB).
Hypothesis (Ht : find_thread (tde_ThreadID m) d = Some t) (Hacc : create_accepted m d = true)
  (Hfresh : below id (all_ids d)).

Abbreviation d' := (create_sql id pid at_ t m d).
Abbreviation x0 := (new_dialog id at_ t m).

Lemma create_id_new l : (exists l1 l2, all_ids d = l1 ++ l ++ l2) -> id ∉ l.
Proof.
  intros (l1 & l2 & Heq). apply below_not_in. intros y Hy. apply Hfresh. rewrite Heq.
  apply elem_of_app. right. apply elem_of_app. by left.
Qed.

Lemma create_new_dialog : id ∉ d_id <$> db_dialogs d.
Proof. apply create_id_new. eexists (t_id <$> db_threads d), _. reflexivity. Qed.

Lemma create_new_perm : id ∉ p_thread_dialog_id <$> db_perms d.
Proof.
  apply create_id_new. unfold all_ids. eexists ((t_id <$> db_threads d) ++ (d_id <$> db_dialogs d)), _.
  by rewrite <- app_assoc.
Qed.

Lemma create_new_setting : id ∉ st_thread_dialog_id <$> db_settings d.
Proof.
  apply create_id_new. unfold all_ids.
  eexists ((t_id <$> db_threads d) ++ (d_id <$> db_dialogs d) ++ (p_thread_dialog_id <$> db_perms d)), _.
  by rewrite <- !app_assoc.
Qed.

Lemma create_dialog_find o : is_Some (find_dialog o d) -> is_Some (find_dialog o d').
Proof.
  intros [y Hy]. assert (find_dialog o d' = find_dialog o (on_dialogs (fun l => l ++ [x0]) d)) as -> by done.
  rewrite find_dialog_app, Hy. by eexists.
Qed.

Lemma create_elem x : x ∈ db_dialogs d' -> x ∈ db_dialogs d \/ x = x0.
Proof. simpl. intros [?| ->%list_elem_of_singleton]%elem_of_app; auto. Qed.

Lemma create_bc : bc_wf d -> bc_wf d'.
Proof.
  intros [[] Hok]. split; [split; try done|exact Hok].
  - simpl. apply NoDup_fmap_snoc; [done|]. apply create_new_dialog.
  - intros r Hr. destruct (wf_rows r Hr) as (? & ? & k & ? & ?). split; [done|]. split; [done|].
    exists k. split; [done|]. by apply create_dialog_find.
  - intros t' o Hin Ho. by apply create_dialog_find, (wf_owner t' o).
Qed.

Lemma no_dialog_id o : is_Some (find_dialog o d) -> o <> id.
Proof.
  intros [y [Hy <-]%find_dialog_Some] Heq. apply create_new_dialog. rewrite <- Heq. by apply list_elem_of_fmap_2.
Qed.

Lemma create_home : bc_wf d -> home_ok d -> home_ok d'.
Proof.
  intros [[] _] [Hs Ho]. split; intros y x Hy Hx%create_elem Hb; destruct Hx as [Hx| ->]; eauto; exfalso.
  - destruct (wf_rows y Hy) as (_ & _ & k & Hk & Hd). apply (no_dialog_id k Hd). simpl in *. congruence.
  - apply (no_dialog_id id); [|done]. by apply (wf_owner y id).
Qed.

Lemma accepted_free x : x ∈ db_dialogs d -> active x = true -> d_member_id x = tde_ContactID m ->
  d_thread_id x = t_id t -> False.
Proof.
  intros Hx Ha Hm Hth. apply find_thread_Some in Ht as [_ Hid]. unfold create_accepted in Hacc.
  rewrite !andb_true_iff in Hacc. destruct Hacc as [[[Hn _] _] _]. rewrite negb_true_iff in Hn.
  apply not_true_iff_false in Hn. apply Hn, existsb_exists. exists x.
  split; [by apply list_elem_of_In|]. rewrite Ha. simpl. rewrite andb_true_iff, !bool_decide_eq_true. split; congruence.
Qed.

Lemma select_new {A} (g : A -> uuid) l y : id ∉ g <$> l -> g y = id ->
  select_where (fun p => bool_decide (g p = id)) (l ++ [y]) = [y].
Proof.
  intros Hn Hg. unfold select_where. rewrite List.filter_app. simpl. rewrite bool_decide_true by done.
  induction l as [|z l IH]; [done|]. rewrite fmap_cons in Hn. apply not_elem_of_cons in Hn as [Hz Hn]. simpl.
  rewrite bool_decide_false by done. by apply IH.
Qed.

Lemma select_old {A} (g : A -> uuid) l y o : g y <> o ->
  select_where (fun p => bool_decide (g p = o)) (l ++ [y]) = select_where (fun p => bool_decide (g p = o)) l.
Proof.
  intros Hg. unfold select_where. rewrite List.filter_app. simpl. rewrite bool_decide_false by done. apply app_nil_r.
Qed.

Lemma create_members : members_ok d -> members_ok d'.
Proof.
  intros [Ha Hth Hp Hs].
  assert (forall x, x ∈ db_dialogs d -> id <> d_id x) as Hne.
  { intros x Hx Heq. apply create_new_dialog. rewrite Heq. by apply list_elem_of_fmap_2. }
  split.
  - intros x y [Hx| ->]%create_elem [Hy| ->]%create_elem; eauto; simpl; intros; exfalso; eauto using accepted_free.
  - intros x [Hx| ->]%create_elem; [by apply (Hth x)|]. pose proof (find_thread_Some _ _ _ Ht) as [_ Heq].
    exists t. change (find_thread (t_id t) d = Some t). by rewrite Heq.
  - intros x [Hx| ->]%create_elem; unfold perms_of; simpl.
    + rewrite (select_old p_thread_dialog_id) by (simpl; auto). by apply Hp.
    + by rewrite (select_new p_thread_dialog_id) by (try apply create_new_perm; done).
  - intros x [Hx| ->]%create_elem; unfold settings_of; simpl.
    + rewrite (select_old st_thread_dialog_id) by (simpl; auto). by apply Hs.
    + by rewrite (select_new st_thread_dialog_id) by (try apply create_new_setting; done).
Qed.

Lemma create_wf : db_wf d -> db_wf d'.
Proof.
  intros [? ? ? [] []]. split; [by apply create_bc|by apply create_home|by apply create_members|split; assumption|split; assumption].
Qed.

Lemma create_below n : (id < n)%N -> below n (all_ids d').
Proof.
  intros Hn. apply (below_sub id n (all_ids d)); [done|lia|]. unfold all_ids. simpl. intros x.
  rewrite !fmap_app, !elem_of_app. simpl. rewrite !list_elem_of_singleton. naive_solver.
Qed.
End create.

(** ** The bot-control operations *)
Definition at_home (tid m : uuid) (d : DB) : Prop :=
  exists x, find_dialog m d = Some x /\ d_thread_id x = tid.

Lemma at_home_unique tid m d x : NoDup (d_id <$> db_dialogs d) ->
  at_home tid m d -> x ∈ db_dialogs d -> d_id x = m -> d_thread_id x = tid.
Proof.
  intros Hnd (y & Hy & <-) Hx Hid. apply find_dialog_Some in Hy as [Hy Hid'].
  assert (x = y) as -> by (apply (NoDup_fmap_inj d_id (db_dialogs d)); congruence). done.
Qed.

(** Deleting stack rows. *)
Lemma del_home P d : home_ok d -> home_ok (on_stack (delete_where P) d).
Proof. intros [Hs Ho]. split; [|done]. simpl. intros r x [Hr _]%elem_of_delete. by apply Hs. Qed.

Lemma del_ids P d n : below n (all_ids d) -> below n (all_ids (on_stack (delete_where P) d)).
Proof.
  intros Hb x Hx. apply Hb. revert Hx. unfold all_ids. simpl. rewrite !elem_of_app, !list_elem_of_fmap.
  setoid_rewrite elem_of_delete. naive_solver.
Qed.

Lemma soft_delete_dlg at_ reason :
  (forall x, d_id (soft_delete at_ reason x) = d_id x) /\ (forall x, d_thread_id (soft_delete at_ reason x) = d_thread_id x) /\
  (forall x, d_member_id (soft_delete at_ reason x) = d_member_id x) /\
  (forall x, active (soft_delete at_ reason x) = true -> active x = true).
Proof. split_and!; done. Qed.

(** The thread update of an operation that only sets the controller. *)
Lemma control_rest tid c d :
  home_ok d /\ members_ok d /\ messages_ok d /\ tags_wf d ->
  let d' := update_thread tid (fun t => set_thread_control (c t) (t_owner_bot_id t) t) d in
  home_ok d' /\ members_ok d' /\ messages_ok d' /\ tags_wf d' /\ all_ids d' = all_ids d.
Proof.
  intros (? & ? & ? & ?). simpl. unfold update_thread. split_and!;
    [by apply thr_home|by apply thr_members|by apply thr_messages|by apply thr_tags|by apply thr_ids].
Qed.

Lemma pop_full at_ reason tid e d :
  db_wf d -> e ∈ stack_rows tid d -> db_wf (pop_db at_ reason tid e d) /\
  (forall n, below n (all_ids d) -> below n (all_ids (pop_db at_ reason tid e d))).
Proof.
  intros [Hbc Hh Hm Hg Ht] He. pose proof (pop_wf at_ reason tid e d Hbc He) as Hbc'.
  assert (home_ok (pop_sql at_ reason e d) /\ members_ok (pop_sql at_ reason e d) /\
          messages_ok (pop_sql at_ reason e d) /\ tags_wf (pop_sql at_ reason e d) /\
          forall n, below n (all_ids d) -> below n (all_ids (pop_sql at_ reason e d))) as (Hh' & Hm' & Hg' & Ht' & Hb').
  { destruct (soft_delete_dlg at_ (Some (reason_string reason))) as (H1 & H2 & H3 & H4).
    assert (home_ok (on_stack (delete_where (fun r => bool_decide (s_id r = s_id e))) d)) as Hh1 by by apply del_home.
    assert (members_ok (on_stack (delete_where (fun r => bool_decide (s_id r = s_id e))) d)) as Hm1 by by destruct Hm; split.
    unfold pop_sql. destruct (entry_auto_leave d e).
    - split_and!; [by apply dlg_home|by apply dlg_members|by destruct Hg; split|by destruct Ht; split|].
      intros n Hb. rewrite dlg_ids by done. by apply del_ids.
    - split_and!; [done|by destruct Hm; split|by destruct Hg; split|by destruct Ht; split|].
      intros n Hb. by apply del_ids. }
  unfold pop_db, repoint_sql in *.
  destruct (control_rest tid (popped_controller reason (entry_is_top tid d e)
     (p ← new_top tid (pop_sql at_ reason e d); s_member_id p.1)) (pop_sql at_ reason e d)) as (? & ? & ? & ? & Hids); [done|].
  split; [by split|]. intros n Hb. rewrite Hids. by apply Hb'.
Qed.

Lemma clear_full tid d : db_wf d -> db_wf (clear_sql tid d) /\ all_ids (clear_sql tid d) = all_ids d.
Proof.
  intros [Hbc ? ? ? ?]. pose proof (clear_wf tid d Hbc) as Hbc'. rewrite clear_sql_control in *.
  destruct (control_rest tid (fun _ => None) d) as (? & ? & ? & ? & Hids); [done|]. split; [by split|done].
Qed.

Lemma set_full tid m d : db_wf d -> m ∈ stack_members tid d ->
  db_wf (set_sql tid m d) /\ all_ids (set_sql tid m d) = all_ids d.
Proof.
  intros [Hbc ? ? ? ?] Hm. pose proof (set_wf tid m d Hbc Hm) as Hbc'.
  destruct (control_rest tid (fun _ => Some m) d) as (? & ? & ? & ? & Hids); [done|]. split; [by split|done].
Qed.

Lemma restore_full tid d : db_wf d -> db_wf (restore_sql tid d) /\ all_ids (restore_sql tid d) = all_ids d.
Proof.
  intros Hwf. pose proof Hwf as [Hbc ? ? ? ?]. pose proof (restore_wf tid d Hbc) as Hbc'.
  unfold restore_sql in *. destruct (find_thread tid d) as [t|]; [|done]. destruct (restore_granted tid d t); [|done].
  destruct (control_rest tid (fun _ => restore_candidate tid d t) d) as (? & ? & ? & ? & Hids); [done|]. split; [by split|done].
Qed.

Lemma earliest_free_bot_home tid d m x : earliest_free_bot tid d = Some m ->
  NoDup (d_id <$> db_dialogs d) -> x ∈ db_dialogs d -> d_id x = m -> d_thread_id x = tid.
Proof.
  unfold earliest_free_bot. rewrite fmap_Some. intros (r & Hr & ->) Hnd Hx Hid.
  apply max_by_elem, elem_of_select in Hr as [Hr Hf]. rewrite !andb_true_iff, !bool_decide_eq_true in Hf.
  assert (x = r) as -> by (by apply (NoDup_fmap_inj d_id (db_dialogs d))). by destruct Hf as [[[? _] _] _].
Qed.

Lemma push_full id tid m d :
  db_wf d -> push_accepted tid m d = true -> at_home tid m d -> id ∉ s_id <$> db_stack d ->
  db_wf (push_sql id tid m d).
Proof.
  intros [Hbc Hh Hm Hg Ht] Ha Hat Hid. pose proof (push_wf id tid m d Hbc Ha Hid) as Hbc'.
  assert (NoDup (d_id <$> db_dialogs d)) as Hnd by apply Hbc.
  unfold push_sql in *. unfold update_thread in *.
  split; [by eapply bc_wf_ext; [..|exact Hbc']| | | |].
  - destruct Hh as [Hs Ho]. split; simpl.
    + intros r x [Hr| ->%list_elem_of_singleton]%elem_of_app Hx Hb; [eauto|]. simpl in *.
      apply (at_home_unique tid m d x); congruence.
    + intros t' x (t & Hin & ->)%elem_of_update Hx Hb.
      destruct (bool_decide_reflect (t_id t = tid)) as [Heq|]; [|eauto]. simpl in *. unfold coalesce in Hb.
      destruct (t_owner_bot_id t) eqn:Eo; [by eapply Ho; rewrite ?Eo|].
      rewrite Heq. by eapply earliest_free_bot_home.
  - assert (members_ok (on_threads (update_where (fun t => bool_decide (t_id t = tid))
      (fun t => set_thread_control (Some m) (coalesce (t_owner_bot_id t) (earliest_free_bot tid d)) t)) d)) as [] by (by apply thr_members).
    by split.
  - assert (messages_ok (on_threads (update_where (fun t => bool_decide (t_id t = tid))
      (fun t => set_thread_control (Some m) (coalesce (t_owner_bot_id t) (earliest_free_bot tid d)) t)) d)) as [] by (by apply thr_messages).
    by split.
  - assert (tags_wf (on_threads (update_where (fun t => bool_decide (t_id t = tid))
      (fun t => set_thread_control (Some m) (coalesce (t_owner_bot_id t) (earliest_free_bot tid d)) t)) d)) as [] by (by apply thr_tags).
    by split.
Qed.

Lemma push_below id tid m d n n' : below n (all_ids d) -> (n <= n')%N -> (id < n')%N -> below n' (all_ids (push_sql id tid m d)).
Proof.
  intros Hb Hn Hi. apply (below_sub n n' (all_ids d)); [done|done|]. unfold all_ids, push_sql, update_thread. simpl.
  intros x. rewrite update_where_proj by done. rewrite !fmap_app, !elem_of_app. simpl. rewrite !list_elem_of_singleton. naive_solver.
Qed.

(** ** Messages, threads, tags and permissions *)

(** A message that takes the next number of its thread. *)
Lemma insert_full r t d :
  db_wf d -> find_thread (m_thread_id r) d = Some t -> m_id r ∉ m_id <$> db_messages d ->
  m_seq r = t_last_seq t + 1 -> db_wf (insert_message r d).
Proof.
  intros Hwf Ht Hid Hs. unfold insert_message.
  assert (db_wf (update_thread (m_thread_id r) bump_seq d)) as [Hbc Hh Hm Hg Htg] by
    (apply thr_wf; try done; simpl; intros; lia).
  pose proof Hwf as [_ _ _ [_ Hseq Hr Hc] _].
  split; [by eapply bc_wf_ext; [..|exact Hbc]|by destruct Hh; split|by destruct Hm; split| |by destruct Htg; split].
  assert (find_thread (m_thread_id r) (update_thread (m_thread_id r) bump_seq d) = Some (bump_seq t)) as Ht'.
  { rewrite find_thread_update by done. rewrite Ht. simpl. apply find_thread_Some in Ht as [_ Hti]. by rewrite bool_decide_true. }
  destruct Hg as [Hids Hsq Hrg Hct]. split; simpl in *.
  - by apply NoDup_fmap_snoc.
  - apply NoDup_fmap_snoc; [done|]. rewrite Hs, list_elem_of_fmap. intros (m & [= Hth Hq] & Hin).
    destruct (Hr m Hin) as (t' & Ht1 & Hle). rewrite <- Hth, Ht in Ht1. simplify_eq. lia.
  - intros m [Hin| ->%list_elem_of_singleton]%elem_of_app; [by apply Hrg|].
    exists (bump_seq t). split; [exact Ht'|]. simpl. apply find_thread_Some in Ht as [Hti _]. specialize (Hc t Hti). lia.
  - exact Hct.
Qed.

Lemma insert_below r d n : below n (all_ids d) -> (m_id r < n + 1)%N -> below (n + 1) (all_ids (insert_message r d)).
Proof.
  intros Hb Hi. apply (below_sub n _ (all_ids d)); [done|lia|]. unfold all_ids, insert_message, update_thread. simpl.
  intros x. rewrite update_where_proj by done. rewrite !fmap_app, !elem_of_app. simpl. rewrite !list_elem_of_singleton. naive_solver.
Qed.

(** Messages updated in place keep their identity and number. *)
Section messages.
Context (P : MessageRow -> bool) (f : MessageRow -> MessageRow).
Hypothesis (Hid : forall m, m_id (f m) = m_id m) (Hth : forall m, m_thread_id (f m) = m_thread_id m)
  (Hsq : forall m, m_seq (f m) = m_seq m).

Abbreviation msg d := (on_messages (update_where P f) d).

Lemma msg_ids d : all_ids (msg d) = all_ids d.
Proof. unfold all_ids. simpl. by rewrite update_where_proj. Qed.

Lemma msg_wf d : db_wf d -> db_wf (msg d).
Proof.
  intros [Hbc [] [] [Hi Hs Hr Hc] []]. split; [by apply (bc_wf_ext d)|split; assumption|split; assumption| |split; assumption].
  split; simpl.
  - by rewrite update_where_proj.
  - rewrite (update_where_proj (fun m => (m_thread_id m, m_seq m))) by (intros m; by rewrite Hth, Hsq). done.
  - intros m' (m & Hm & ->)%elem_of_update. destruct (Hr m Hm) as (t & Ht & Hle). exists t.
    destruct (P m); rewrite ?Hth, ?Hsq; done.
  - done.
Qed.
End messages.

Lemma find_thread_app tid t d : is_Some (find_thread tid d) -> is_Some (find_thread tid (on_threads (fun l => l ++ [t]) d)).
Proof.
  unfold find_thread. simpl. induction (db_threads d) as [|y l IH]; simpl; [by intros [? ?]|].
  by destruct (bool_decide (t_id y = tid)).
Qed.

Lemma find_thread_app_eq tid t d t0 : find_thread tid d = Some t0 -> find_thread tid (on_threads (fun l => l ++ [t]) d) = Some t0.
Proof.
  unfold find_thread. simpl. induction (db_threads d) as [|y l IH]; simpl; [done|].
  by destruct (bool_decide (t_id y = tid)).
Qed.

Lemma thread_full t d :
  db_wf d -> t_id t ∉ t_id <$> db_threads d -> t_bot_controller_id t = None -> t_owner_bot_id t = None ->
  0 <= t_last_seq t -> db_wf (on_threads (fun l => l ++ [t]) d).
Proof.
  intros [[[] Hok] [Hhs Hho] [] [] [Hk Hi Hr]] Hn Hc Ho Hs. split; [split; [split|]|split|split|split|split]; try done; simpl.
  - by apply NoDup_fmap_snoc.
  - intros r Hr'. destruct (wf_rows r Hr') as (? & ? & ?). split; [done|]. split; [by apply find_thread_app|done].
  - intros t' o [Hin| ->%list_elem_of_singleton]%elem_of_app Hb; [by apply (wf_owner t' o)|congruence].
  - intros t' m [Hin| ->%list_elem_of_singleton]%elem_of_app Hb; [by apply (Hok t' m)|congruence].
  - intros t' x [Hin| ->%list_elem_of_singleton]%elem_of_app Hx Hb; [eauto|congruence].
  - intros x Hx. by apply find_thread_app, mb_thread0.
  - intros m Hm. destruct (ms_range0 m Hm) as (t' & Ht' & Hrg). exists t'. split; [by apply find_thread_app_eq|done].
  - intros t' [Hin| ->%list_elem_of_singleton]%elem_of_app; [by apply ms_counter0|done].
  - intros g Hg. destruct (Hr g Hg). split; [done|by apply find_thread_app].
Qed.

Lemma perms_full u at_ d : db_wf d -> db_wf (on_perms (update_where (update_hits u d) (update_perm_row at_ u)) d).
Proof.
  intros [Hbc [] [? ? Hp ?] [] []].
  split; [by eapply bc_wf_ext; [..|exact Hbc]|split; assumption| |split; assumption|split; assumption]. split; try assumption.
  intros x Hx. rewrite <- (Hp x Hx). unfold perms_of, select_where. simpl.
  unfold update_where. clear. generalize (update_hits u d). intros h. induction (db_perms d) as [|p l IH]; [done|].
  rewrite fmap_cons. destruct (h p); simpl in *; destruct (bool_decide _); simpl; rewrite ?IH; done.
Qed.
