(* ===== verification/Safety.v ===== *)
(** * Safety: every store method keeps the invariant

    [keeps b m]: started inside ([b = true]) or outside a transaction in a good
    state, [m] ends in a good state on every path, errors included, and no
    dialog disappears or changes its thread.  A state is good when the
    database satisfies the invariant, or when the transaction is aborted and
    can only be rolled back. *)
From S2P Require Import Prelude Domain Events Message World BotControlStore.
From S2P Require Import BotControl DialogStore ThreadStore PermissionStore Permissions.
From S2P Require Import PermissionRules TagStore Outbox TagService Samples Tags MessageStore.
From S2P Require Import References ControlEvents Invariant.
#[local] Open Scope Z_scope.

(** ** Good states *)
Definition good (w : World) : Prop := w_in_tx w && w_aborted w = true \/ sys_wf w.

Definition grows (w w' : World) : Prop :=
  (forall tid m, at_home tid m (w_db w) -> at_home tid m (w_db w')) /\ (w_next w <= w_next w')%N.

Definition safe (w w' : World) : Prop := good w' /\ grows w w' /\ w_in_tx w' = w_in_tx w.

Definition keeps {A} (b : bool) (m : SM A) : Prop :=
  forall w, w_in_tx w = b -> good w -> safe w (snd (m w)).

Lemma grows_refl w : grows w w.
Proof. split; [by intros ? ?|lia]. Qed.

Lemma grows_core w w' : core (w_db w') = core (w_db w) -> (w_next w <= w_next w')%N -> grows w w'.
Proof.
  unfold core. intros H Hn. split; [|done]. intros tid m (x & Hx & Ht). exists x. split; [|done]. unfold find_dialog in *.
  by injection H as _ -> _ _ _ _ _.
Qed.

Lemma safe_trans w1 w2 w3 : safe w1 w2 -> safe w2 w3 -> safe w1 w3.
Proof. intros (_ & [G1 N1] & T1) (I & [G2 N2] & T2). split; [done|]. split; [split; [intros ? ? ?; by apply G2, G1|lia]|congruence]. Qed.

(** A step that touches none of the invariant's tables. *)
Lemma safe_core w w' :
  core (w_db w') = core (w_db w) -> (w_next w <= w_next w')%N -> w_in_tx w' = w_in_tx w ->
  (w_aborted w = true -> w_aborted w' = true) -> good w -> safe w w'.
Proof.
  intros Hc Hn Ht Ha [Hab|Hwf].
  - split; [left|split; [apply grows_core; [done|simpl; lia]|done]]. rewrite andb_true_iff in *. rewrite Ht. naive_solver.
  - split; [right; by eapply sys_wf_core|]. split; [apply grows_core; [done|simpl; lia]|done].
Qed.

(** ** Composition *)
Section rules.
Context {E : Env} (b : bool).

Lemma keeps_ret {A} (a : A) : keeps b (mret a).
Proof. intros w Ht Hg. split; [done|]. split; [apply grows_refl|done]. Qed.

Lemma keeps_bind {A C} (m : SM A) (f : A -> SM C) : keeps b m -> (forall a, keeps b (f a)) -> keeps b (mbind f m).
Proof.
  intros Hm Hf w Ht Hg. specialize (Hm w Ht Hg). rewrite M_bind_unfold. destruct (m w) as [[a|e] w']; [|done].
  simpl in Hm. eapply safe_trans; [exact Hm|]. destruct Hm as (? & _ & Ht'). apply Hf; [congruence|done].
Qed.

(** The rest of a computation may use what its first step established. *)
Lemma keeps_bind_at {A C} (m : SM A) (f : A -> SM C) w :
  keeps b m -> w_in_tx w = b -> good w ->
  (forall a w', m w = (OK a, w') -> good w' -> grows w w' -> w_in_tx w' = b -> safe w' (snd (f a w'))) ->
  safe w (snd (mbind f m w)).
Proof.
  intros Hm Ht Hg Hf. specialize (Hm w Ht Hg). rewrite M_bind_unfold. destruct (m w) as [[a|e] w'] eqn:Hmw; [|done].
  simpl in Hm. eapply safe_trans; [exact Hm|]. destruct Hm as (? & ? & Ht'). apply Hf; try done. congruence.
Qed.

Lemma keeps_throw {A} e : keeps b (throw e : SM A).
Proof. apply (keeps_ret tt). Qed.

Lemma keeps_gets {A} (f : World -> A) : keeps b (gets f).
Proof. intros w. apply (keeps_ret tt w). Qed.

Lemma keeps_guard c e : keeps b (guard_err c e).
Proof. destruct c; [apply keeps_throw|apply keeps_ret]. Qed.

Lemma keeps_of_result {A} (r : result A) : keeps b (of_result r).
Proof. intros w. apply (keeps_ret tt w). Qed.

Lemma keeps_for_each {A} (f : A -> SM unit) xs : (forall x, keeps b (f x)) -> keeps b (for_each f xs).
Proof. intros Hf. induction xs as [|x xs IH]; simpl; [apply keeps_ret|]. by apply keeps_bind. Qed.

Lemma keeps_catch {A} (m : SM A) : keeps b m -> keeps b (catch m).
Proof. intros H w Ht Hg. specialize (H w Ht Hg). unfold catch. by destruct (m w). Qed.

Lemma keeps_map_err {A} f (m : SM A) : keeps b m -> keeps b (map_err f m).
Proof. intros H w Ht Hg. specialize (H w Ht Hg). unfold map_err. by destruct (m w) as [[?|?] ?]. Qed.

(** Primitive steps. *)
Lemma keeps_modify f :
  (forall w, core (w_db (f w)) = core (w_db w) /\ w_next (f w) = w_next w /\ w_in_tx (f w) = w_in_tx w /\
             w_aborted (f w) = w_aborted w) -> keeps b (modify f).
Proof. intros Hf w Ht Hg. destruct (Hf w) as (? & Hn & ? & Ha). apply safe_core; simpl; try done; [by rewrite Hn|congruence]. Qed.

Lemma keeps_statement : keeps b statement.
Proof.
  intros w Ht Hg. unfold statement. destruct (w_in_tx w && w_aborted w) eqn:Hab; [by apply (keeps_ret tt)|].
  destruct (env_fault (w_ticks w)); simpl.
  - split; [|split; [apply grows_core; [done|simpl; lia]|done]]. destruct Hg as [|Hwf]; [congruence|].
    right. by eapply sys_wf_core; [..|exact Hwf].
  - apply safe_core; done.
Qed.

Lemma keeps_statement_as msg : keeps b (statement_as msg).
Proof. apply keeps_map_err, keeps_statement. Qed.

Lemma keeps_query {A} (f : DB -> A) : keeps b (query f).
Proof. apply keeps_bind; [apply keeps_statement|intros; apply keeps_gets]. Qed.

Lemma keeps_exec f : (forall d, core (f d) = core d) -> keeps b (exec f).
Proof. intros Hf. apply keeps_bind; [apply keeps_statement|]. intros _. apply keeps_modify. intros w. simpl. by rewrite Hf. Qed.

Lemma keeps_reject {A} e : keeps b (reject e : SM A).
Proof.
  intros w Ht Hg. unfold reject. simpl. split; [|split; [apply grows_core; [done|simpl; lia]|done]].
  destruct Hg as [Hab|Hwf]; [left; simpl|right; by eapply sys_wf_core; [..|exact Hwf]].
  rewrite andb_true_iff in *. destruct Hab as [-> ->]. done.
Qed.

Lemma keeps_fresh : keeps b fresh.
Proof. intros w Ht Hg. apply safe_core; simpl; try done. lia. Qed.

Lemma keeps_now : keeps b now.
Proof. intros w. apply (keeps_ret tt w). Qed.

End rules.

Section statement_rules.
Context {E : Env}.

(** What follows a statement runs on a well-formed database. *)
Definition is_statement (s : SM unit) : Prop := s = statement \/ exists msg, s = statement_as msg.

Lemma safe_stmt {A} (s : SM unit) (k : unit -> SM A) w :
  is_statement s -> good w ->
  (forall w0, w0 = set_tick (w_aborted w) w -> w_in_tx w && w_aborted w = false -> sys_wf w0 -> safe w0 (snd (k tt w0))) ->
  safe w (snd (mbind k s w)).
Proof.
  intros Hs Hg Hk.
  assert (keeps (w_in_tx w) s) as Hks by (destruct Hs as [->|[msg ->]]; [apply keeps_statement|apply keeps_statement_as]).
  specialize (Hks w eq_refl Hg). rewrite M_bind_unfold. destruct (s w) as [[[]|e] w'] eqn:Hok; [|done].
  eapply safe_trans; [exact Hks|].
  assert (w' = set_tick (w_aborted w) w /\ env_fault (w_ticks w) = false /\ (w_in_tx w && w_aborted w = false)) as (-> & _ & Hab).
  { destruct Hs as [->|[msg ->]]; [by apply (statement_ok w tt)|by apply (statement_as_ok msg w tt)]. }
  destruct Hg as [Hab'|Hwf]; [congruence|]. apply Hk; [done..|by eapply sys_wf_core; [..|exact Hwf]].
Qed.

Lemma keeps_stmt {A} (b : bool) (s : SM unit) (k : unit -> SM A) :
  is_statement s -> (forall w, w_in_tx w = b -> sys_wf w -> safe w (snd (k tt w))) -> keeps b (mbind k s).
Proof. intros Hs Hk w Ht Hg. apply safe_stmt; [done..|]. intros w0 -> _ Hwf. by apply Hk. Qed.
End statement_rules.

#[export] Hint Resolve keeps_ret keeps_throw keeps_gets keeps_guard keeps_of_result keeps_statement
  keeps_statement_as keeps_query keeps_reject keeps_fresh keeps_now : svc.

(** [keep]: follows the structure of a computation, as [frame] does. *)
Ltac keep_step :=
  lazymatch goal with
  | |- forall _, _ => intros ?
  | |- keeps _ (mbind _ _) => apply keeps_bind
  | |- keeps _ (for_each _ _) => apply keeps_for_each
  | |- keeps _ (catch _) => apply keeps_catch
  | |- keeps _ (map_err _ _) => apply keeps_map_err
  | |- keeps _ (reject_as _) => apply keeps_reject
  | |- keeps _ (match ?x with _ => _ end) => destruct x
  | |- keeps _ (let (_, _) := ?x in _) => destruct x
  end.
Ltac keep := repeat (first [ solve [ eauto with svc ] | keep_step ]).

(** Outcomes of a store method on a well-formed database. *)
Lemma safe_same {A} (r : result A) w : sys_wf w -> safe w (snd (r, w)).
Proof. intros Hwf. split; [by right|]. split; [apply grows_refl|done]. Qed.

Lemma safe_write w w' :
  sys_wf w -> db_wf (w_db w') -> below (w_next w') (all_ids (w_db w')) -> grows w w' -> w_in_tx w' = w_in_tx w -> safe w w'.
Proof. intros _ ? ? ? ?. split; [by right|done]. Qed.

Lemma grows_dialogs w w' : db_dialogs (w_db w') = db_dialogs (w_db w) -> (w_next w <= w_next w')%N -> grows w w'.
Proof. intros H Hn. split; [|done]. intros tid m (x & Hx & Ht). exists x. split; [|done]. unfold find_dialog in *. by rewrite H. Qed.

Lemma grows_update P f w w' :
  (forall x, d_id (f x) = d_id x) -> (forall x, d_thread_id (f x) = d_thread_id x) ->
  db_dialogs (w_db w') = update_where P f (db_dialogs (w_db w)) -> (w_next w <= w_next w')%N -> grows w w'.
Proof.
  intros Hid Hth H Hn. split; [|done]. intros tid m (x & Hx & Ht). unfold at_home, find_dialog in *. rewrite H, find_first_update by (intros; by rewrite Hid).
  rewrite Hx. simpl. eexists. split; [done|]. by destruct (P x); rewrite ?Hth.
Qed.

Lemma safe_reject {A} e w : sys_wf w -> safe w (snd (reject e w : result A * World)).
Proof. intros Hwf. by apply (keeps_reject (w_in_tx w)); [|right]. Qed.

(** ** The store methods *)
Section stores.
Context {E : Env} (b : bool).

Ltac start := apply keeps_stmt; [by unfold is_statement; eauto|intros w Htx Hwf; cbv beta; run; simpl].

Lemma fresh_in w (l : list uuid) : sys_wf w -> (forall x, x ∈ l -> x ∈ all_ids (w_db w)) -> w_next w ∉ l.
Proof. intros [_ Hb] Hl. apply below_not_in. intros x Hx. by apply Hb, Hl. Qed.

Lemma fresh_stack_id w : sys_wf w -> w_next w ∉ s_id <$> db_stack (w_db w).
Proof. intros Hwf. apply fresh_in; [done|]. intros x Hx. unfold all_ids. rewrite !elem_of_app. tauto. Qed.

Lemma fresh_message_id w : sys_wf w -> w_next w ∉ m_id <$> db_messages (w_db w).
Proof. intros Hwf. apply fresh_in; [done|]. intros x Hx. unfold all_ids. rewrite !elem_of_app. tauto. Qed.

Lemma fresh_thread_id w : sys_wf w -> w_next w ∉ t_id <$> db_threads (w_db w).
Proof. intros Hwf. apply fresh_in; [done|]. intros x Hx. unfold all_ids. rewrite !elem_of_app. tauto. Qed.

(** Push keeps the invariant for a bot of the thread. *)
Lemma Push_keeps tr w : good w -> at_home (tr_ThreadID tr) (tr_NewMemberID tr) (w_db w) -> safe w (snd (Push tr w)).
Proof.
  intros Hg Hat. unfold Push. apply safe_stmt; [by unfold is_statement; eauto|done|].
  intros w0 Hw0 _ Hwf. cbv beta. run. simpl.
  destruct (push_accepted _ _ _) eqn:Ha; run; simpl.
  - apply safe_write; simpl; try done.
    + apply push_full; [by apply Hwf|done|by subst w0|by apply fresh_stack_id].
    + eapply push_below; [by apply Hwf|lia|lia].
    + apply grows_dialogs; [done|simpl; lia].
  - apply (safe_trans _ (set_next (w_next w0 + 1) w0)); [apply safe_core; simpl; try done; [lia|by right]|].
    apply (safe_reject (A:=unit) no_rows), (sys_wf_core w0); simpl; [done|lia|done].
Qed.

Lemma Pop_keeps tid mid reason by_ : keeps true (Pop tid mid reason by_).
Proof.
  intros w Ht Hg. unfold Pop. apply safe_stmt; [by unfold is_statement; eauto|done|].
  intros w0 Hw0 Hnab Hwf. cbv beta. run. destruct (pop_entry _ _ _) as [e|] eqn:He; [|by apply safe_same].
  pose proof (pop_entry_spec _ _ _ _ He) as [Her _].
  destruct (pop_full (w_now w0) reason tid e (w_db w0) (proj1 Hwf) Her) as [Hwf' Hb'].
  assert (forall w', w_db w' = pop_sql (w_now w0) reason e (w_db w0) -> w_next w' = w_next w0 -> grows w0 w') as Hgr.
  { intros w' Hd Hn. assert (w_next w0 <= w_next w')%N by (rewrite Hn; lia).
    unfold pop_sql in Hd. destruct (entry_auto_leave _ _); [|by apply grows_dialogs; [rewrite Hd|]].
    by eapply grows_update; [| |rewrite Hd; reflexivity|]. }
  assert (w_in_tx w0 = true /\ w_aborted w0 = false) as [Ht0 Ha0] by (subst w0; by rewrite Ht in Hnab).
  run. rewrite M_bind_unfold. unfold statement_as, map_err, statement. simpl. rewrite Ht0, Ha0. simpl.
  destruct (env_fault (w_ticks w0)); simpl.
  { split; [left; simpl; by rewrite Ht0|]. split; [by apply Hgr|done]. }
  run. simpl. rewrite pop_find_thread.
  assert (is_Some (find_thread tid (w_db w0))) as [t ->].
  { apply elem_of_stack_rows in Her as [Her <-]. destruct Hwf as [[[[] _] _ _ _ _] _]. by destruct (wf_rows e Her) as (_ & ? & _). }
  run. simpl. apply safe_write; simpl; [done|exact Hwf'|apply Hb', Hwf| |done].
  exact (Hgr (set_db (pop_sql (w_now w0) reason e (w_db w0)) w0) eq_refl eq_refl).
Qed.

Lemma ClearController_keeps tid : keeps b (ClearController tid).
Proof.
  unfold ClearController. start. destruct (clear_full tid (w_db w) (proj1 Hwf)) as [Hwf' Hids].
  apply safe_write; simpl; [done|done|rewrite Hids; apply Hwf|apply grows_dialogs; [done|simpl; lia]|done].
Qed.

Lemma SetController_keeps tid m w : good w -> m ∈ stack_members tid (w_db w) -> safe w (snd (SetController tid m w)).
Proof.
  intros Hg Hm. unfold SetController. apply safe_stmt; [by unfold is_statement; eauto|done|].
  intros w0 Hw0 _ Hwf. cbv beta. run. simpl.
  destruct (set_full tid m (w_db w0) (proj1 Hwf)) as [Hwf' Hids]; [by subst w0|].
  assert (safe w0 (set_db (set_sql tid m (w_db w0)) w0)) as Hset.
  { apply safe_write; simpl; [done|done|rewrite Hids; apply Hwf|apply grows_dialogs; [done|simpl; lia]|done]. }
  destruct (find_dialog m (w_db w0)); [run; exact Hset|]. destruct (find_thread tid (w_db w0)).
  - by apply (safe_reject (A:=unit) no_rows).
  - run. exact Hset.
Qed.

Lemma RestoreController_keeps tid : keeps b (RestoreController tid).
Proof.
  unfold RestoreController. start. destruct (restore_full tid (w_db w) (proj1 Hwf)) as [Hwf' Hids].
  apply safe_write; simpl; [done|done|rewrite Hids; apply Hwf|apply grows_dialogs; [apply restore_dialogs|simpl; lia]|done].
Qed.

Lemma GetStack_keeps tid : keeps b (GetStack tid).
Proof. unfold GetStack. keep. Qed.

(** *** Dialogs *)
Lemma Create_keeps m : keeps b (DialogStore.Create m).
Proof.
  unfold DialogStore.Create. destruct (decide _); [keep|]. destruct (decide _); [keep|]. start.
  destruct (find_thread _ _) as [t|] eqn:Ht; [|by apply safe_same].
  destruct (create_accepted m (w_db w)) eqn:Ha; [|by apply (safe_reject (A:=unit) no_rows)].
  run. simpl. destruct Hwf as [Hwf Hb]. apply safe_write; simpl; [done|by apply create_wf| | |done].
  - intros x Hx. eapply N.lt_trans; [by eapply (create_below (w_next w)); [|apply N.lt_succ_diag_r|]|lia].
  - split; [|simpl; lia]. intros tid k (x & Hx & Hth). exists x. split; [|done]. change (find_dialog k (on_dialogs (fun l => l ++
      [new_dialog (w_next w) (w_now w) t m]) (w_db w)) = Some x). by rewrite find_dialog_app, Hx.
Qed.

(** A created member belongs to its thread. *)
Lemma Create_home m w x w' : DialogStore.Create m w = (OK x, w') -> good w -> at_home (tde_ThreadID m) (tde_ID x) (w_db w').
Proof.
  unfold DialogStore.Create. destruct (decide _); [done|]. destruct (decide _); [done|]. intros Hr Hg.
  step_ok Hr. apply statement_as_ok in Hs as (-> & _ & Hnab). run in Hr. simpl in Hr.
  assert (sys_wf w) as [_ Hb] by (destruct Hg; [congruence|done]).
  destruct (find_thread _ _) as [t|] eqn:Ht; [|done]. destruct (create_accepted m (w_db w)); [|done].
  run in Hr. simpl in Hr. injection Hr as <- <-. simpl. apply find_thread_Some in Ht as [_ Ht].
  exists (new_dialog (w_next w) (w_now w) t m). split; [|exact Ht].
  change (find_dialog (w_next w) (on_dialogs (fun l => l ++ [new_dialog (w_next w) (w_now w) t m]) (w_db w)) =
    Some (new_dialog (w_next w) (w_now w) t m)).
  rewrite find_dialog_app. simpl. rewrite bool_decide_true by done.
  destruct (find_dialog (w_next w) (w_db w)) as [y|] eqn:Hy; [|done]. exfalso.
  apply find_dialog_Some in Hy as [Hy Hid]. apply (below_not_in _ _ Hb). unfold all_ids. rewrite !elem_of_app.
  right. left. rewrite <- Hid. by apply list_elem_of_fmap_2.
Qed.

Lemma dialogs_written P f w :
  (forall x, d_id (f x) = d_id x) -> (forall x, d_thread_id (f x) = d_thread_id x) ->
  (forall x, d_member_id (f x) = d_member_id x) -> (forall x, active (f x) = true -> active x = true) ->
  sys_wf w -> safe w (set_db (on_dialogs (update_where P f) (w_db w)) w).
Proof.
  intros H1 H2 H3 H4 [Hwf Hb]. apply safe_write; simpl; [done|by apply dlg_wf|by rewrite dlg_ids| |done].
  eapply grows_update; [done|done|reflexivity|simpl; lia].
Qed.

Lemma Delete_keeps m reason : keeps b (DialogStore.Delete m reason).
Proof.
  unfold DialogStore.Delete. destruct (decide _); [keep|]. start.
  destruct (find_dialog _ _); by apply dialogs_written.
Qed.

Lemma AdoptUntrackedBot_keeps tid m : keeps b (AdoptUntrackedBot tid m).
Proof.
  unfold AdoptUntrackedBot. destruct (decide _); [keep|]. start.
  destruct (adopt_candidate _ _ _ _) as [r|]; [|by apply safe_same]. run. by apply dialogs_written.
Qed.
End stores.

(** *** Adoption *)
Lemma earliest_elem l r : earliest l = Some r -> r ∈ l.
Proof.
  revert r. induction l as [|x l IH]; simpl; intros r; [done|]. destruct (earliest l) as [y|].
  - destruct (earlier y x); intros [= <-]; [right; auto|left].
  - intros [= <-]. left.
Qed.

Section more_stores.
Context {E : Env} (b : bool).

Ltac start := apply keeps_stmt; [by unfold is_statement; eauto|intros w Htx Hwf; cbv beta; run; simpl].

Lemma AdoptUntrackedBot_home tid m w id w' : AdoptUntrackedBot tid m w = (OK id, w') -> good w -> id <> uuid_Nil ->
  at_home tid id (w_db w').
Proof.
  unfold AdoptUntrackedBot. destruct (decide _); [done|]. intros Hr Hg Hne.
  step_ok Hr. apply statement_as_ok in Hs as (-> & _ & Hnab). run in Hr. simpl in Hr.
  assert (sys_wf w) as [Hwf _] by (destruct Hg; [congruence|done]).
  destruct (adopt_candidate _ _ _ _) as [r|] eqn:Hc; run in Hr; [|by simplify_eq].
  injection Hr as <- <-. simpl. unfold adopt_candidate in Hc. destruct (stack_rows tid (w_db w)); [|done].
  apply earliest_elem, elem_of_select in Hc as [Hin Hc]. rewrite !andb_true_iff, !bool_decide_eq_true in Hc.
  assert (find_dialog (d_id r) (w_db w) = Some r) as Hf.
  { apply (find_first_key d_id); [apply Hwf|done]. }
  unfold at_home, find_dialog. simpl. rewrite find_first_update by done. unfold find_dialog in Hf. rewrite Hf. simpl.
  rewrite bool_decide_true by done. eexists. split; [done|]. by destruct Hc as [[[[? _] _] _] _].
Qed.

(** *** Reads *)
Lemma GetQuickView_keeps f : keeps b (GetQuickView f).
Proof. unfold GetQuickView. keep. Qed.
Lemma GetFullView_keeps f : keeps b (GetFullView f).
Proof. unfold GetFullView. keep. Qed.
Lemma FindActorsPair_keeps ic t : keeps b (FindActorsPair ic t).
Proof. unfold FindActorsPair. keep. Qed.
Lemma ThreadGet_keeps q : keeps b (ThreadStore.Get q).
Proof. unfold ThreadStore.Get. keep. Qed.
Lemma ResolveThread_keeps q : keeps b (ResolveThread q).
Proof. unfold ResolveThread. keep. Qed.
Lemma LockForUpdate_keeps tid : keeps b (LockForUpdate tid).
Proof. unfold LockForUpdate. keep. Qed.
Lemma ListNames_keeps tid cid : keeps b (ListNames tid cid).
Proof. unfold ListNames. keep. Qed.
Lemma PermGet_keeps f : keeps b (PermissionStore.Get f).
Proof. unfold PermissionStore.Get. keep. Qed.

(** *** Threads and messages *)
Lemma ThreadCreate_keeps t : keeps b (ThreadStore.Create t).
Proof.
  unfold ThreadStore.Create. start. destruct (thread_accepted t); [|by apply (safe_reject (A:=unit) no_rows)].
  run. simpl. apply safe_write; simpl; [done| | | |done].
  - apply thread_full; simpl; [apply Hwf|by apply fresh_thread_id|done..].
  - apply (below_sub (w_next w) _ (all_ids (w_db w))); [apply Hwf|lia|]. unfold all_ids. simpl. intros x.
    rewrite !fmap_app, !elem_of_app. simpl. rewrite !list_elem_of_singleton. naive_solver lia.
  - apply grows_dialogs; [done|simpl; lia].
Qed.

Lemma SetCRMContact_keeps tid crm : keeps b (ThreadStore.SetCRMContact tid crm).
Proof.
  unfold ThreadStore.SetCRMContact. start.
  assert (safe w (set_db (update_thread tid (set_crm (w_now w) crm) (w_db w)) w)) as Hs.
  { apply safe_write; simpl; [done| | |apply grows_dialogs; [done|simpl; lia]|done].
    - apply thr_wf; try done. apply Hwf.
    - unfold update_thread. rewrite thr_ids by done. apply Hwf. }
  by destruct (find_thread tid (w_db w)).
Qed.

Lemma SaveSystemMessage_keeps msg : keeps b (SaveSystemMessage msg).
Proof.
  unfold SaveSystemMessage. apply keeps_bind; [apply keeps_of_result|]. intros _. destruct (msg_System msg) as [sys|]; [|keep].
  start. destruct (find_thread _ _) as [t|] eqn:Ht; [|by apply (safe_reject (A:=unit) no_rows)].
  destruct (system_accepted msg sys); simpl; [|by apply (safe_reject (A:=unit) no_rows)].
  run. simpl. apply safe_write; simpl; [done| | |apply grows_dialogs; [done|simpl; lia]|done].
  - eapply (insert_full (new_message_row (w_next w) (w_now w) (t_last_seq t + 1) msg sys)); [apply Hwf|done|by apply fresh_message_id|done].
  - apply (insert_below (new_message_row (w_next w) (w_now w) (t_last_seq t + 1) msg sys)); [apply Hwf|simpl; lia].
Qed.

(** *** Events *)
Lemma Publish_keeps topic e : keeps b (Publish topic e).
Proof.
  unfold Publish, liveCursor, appendJournal, markContacts, markAudience, publish_row.
  repeat first [ solve [eauto with svc] | apply keeps_modify; intros ?; done | apply keeps_exec; intros ?; done | keep_step ].
Qed.

(** *** Tags *)
Lemma tags_written w w' :
  sys_wf w -> tags_wf (w_db w') -> (w_next w <= w_next w')%N -> below (w_next w') (g_id <$> db_tags (w_db w')) ->
  (exists f, w_db w' = on_tags f (w_db w)) -> w_in_tx w' = w_in_tx w -> safe w w'.
Proof.
  intros Hwf Htg Hn Hb [f Hd] Hx. pose proof Hwf as [[Hbc [] [] [] _] Hbelow]. rewrite Hd in Htg, Hb.
  split; [right|split; [apply grows_dialogs; [by rewrite Hd|simpl in *; lia]|done]]. split; rewrite Hd.
  - split; [apply (bc_wf_ext (w_db w)); done| | | |done]; split; assumption.
  - unfold all_ids in *. simpl in *. rewrite !below_app in *. destruct Hbelow as (? & ? & ? & ? & ? & ? & _).
    split_and!; (done || (intros x Hx'; eapply N.lt_le_trans; [eauto|done])).
Qed.

Lemma sys_tag_inv w : sys_wf w -> tag_inv w.
Proof.
  intros [[_ _ _ _ Ht] Hb]. split; [done|]. intros t Hin. apply Hb. unfold all_ids. rewrite !elem_of_app.
  do 6 right. by apply list_elem_of_fmap_2.
Qed.

Lemma tag_inv_below w : tag_inv w -> below (w_next w) (g_id <$> db_tags (w_db w)).
Proof. intros [_ Hb] x (t & -> & Ht)%list_elem_of_fmap. by apply Hb. Qed.

Lemma tags_deleted P w : sys_wf w -> safe w (set_db (on_tags (delete_where P) (w_db w)) w).
Proof.
  intros Hwf. assert (tag_inv (set_db (on_tags (delete_where P) (w_db w)) w)) as Hti
    by (apply (delete_tags_inv P w); [by apply sys_tag_inv|done|done]).
  apply tags_written; [done|apply Hti|simpl; lia|by apply tag_inv_below|by eexists|done].
Qed.

Lemma TagAdd_keeps t : keeps b (TagStore.Add t).
Proof.
  unfold TagStore.Add. start. destruct (tag_accepted _) eqn:Hacc; simpl; [|by apply (safe_reject (A:=unit) no_rows)].
  destruct (find_first _ _) as [r|] eqn:Hff; [by apply safe_same|].
  destruct (find_thread _ _) as [th|] eqn:Ht; [|by apply (safe_reject (A:=unit) no_rows)]. run. simpl.
  match goal with |- safe w ?w1 => assert (tag_inv w1) as Hti end.
  { eapply add_tags_inv; [by apply sys_tag_inv|reflexivity|reflexivity|done..|]. simpl.
    intros t' Ht' Heq. rewrite find_first_None in Hff. specialize (Hff t' Ht').
    apply same_tag_spec in Heq. simpl in Heq. congruence. }
  apply tags_written; [done|apply Hti|simpl; lia|by apply tag_inv_below|by eexists|done].
Qed.

Lemma TagRemove_keeps id cid : keeps b (TagStore.Remove id cid).
Proof. unfold TagStore.Remove. start. destruct (find_first _ _); by apply tags_deleted. Qed.

Lemma RemoveByName_keeps tid cid tag : keeps b (TagStore.RemoveByName tid cid tag).
Proof. unfold TagStore.RemoveByName. start. by apply tags_deleted. Qed.

Lemma RemoveForContacts_keeps tid cids tags : keeps b (TagStore.RemoveForContacts tid cids tags).
Proof. unfold TagStore.RemoveForContacts. destruct (_ || _); [keep|]. start. by apply tags_deleted. Qed.

(** *** Permissions *)
Lemma PermUpdate_keeps u : keeps b (PermissionStore.Update u).
Proof.
  unfold PermissionStore.Update. destruct (decide _); [keep|]. start.
  assert (safe w (set_db (on_perms (update_where (update_hits u (w_db w)) (update_perm_row (w_now w) u)) (w_db w)) w)) as Hs.
  { apply safe_write; simpl; [done|apply perms_full, Hwf| |apply grows_dialogs; [done|simpl; lia]|done].
    destruct Hwf as [_ Hb]. unfold all_ids in *. simpl. by rewrite update_where_proj. }
  by destruct (select_where _ _) as [|p [|q l]].
Qed.
End more_stores.

#[export] Hint Resolve Pop_keeps ClearController_keeps RestoreController_keeps GetStack_keeps Create_keeps
  Delete_keeps AdoptUntrackedBot_keeps GetQuickView_keeps GetFullView_keeps FindActorsPair_keeps ThreadGet_keeps
  ResolveThread_keeps LockForUpdate_keeps ListNames_keeps PermGet_keeps ThreadCreate_keeps SetCRMContact_keeps
  SaveSystemMessage_keeps Publish_keeps TagAdd_keeps TagRemove_keeps RemoveByName_keeps RemoveForContacts_keeps
  PermUpdate_keeps : svc.
