(* ===== verification/ServiceSafety.v ===== *)
(** * ServiceSafety: the services keep the invariant

    [keeps] of Safety.v for every service method of the thread manager and the
    tags, built from the lemmas of the store methods they call, then for the
    stores of messages, statuses, reactions, external ids and variables and
    every operation of the message service; transactions end in a good state
    whatever becomes of them. *)
From S2P Require Import Prelude Domain Events Message World BotControlStore BotControl.
From S2P Require Import DialogStore ThreadStore PermissionStore Permissions PermissionRules TagStore Outbox.
From S2P Require Import TagService Samples Tags MessageStore References ControlEvents BotFlow Members.
From S2P Require Import DirectThread Invariant Safety Text MessageStatus StatusService ExternalStore.
From S2P Require Import ReactionStore Paging PreviewStore VariableStore MediaProcessor Commands MessageService.
From S2P Require Import MessageActions Variables Previews TypingService.
#[local] Open Scope Z_scope.

(** ** Safety of the service methods *)
Section services.
Context {E : Env} (b : bool).

Lemma publishTagsChanged_keeps tid cid dom : keeps b (publishTagsChanged tid cid dom).
Proof. unfold publishTagsChanged. keep. Qed.
#[local] Hint Resolve publishTagsChanged_keeps : svc.

Lemma activeMember_keeps tid cid : keeps b (activeMember tid cid).
Proof. unfold activeMember. keep. Qed.
#[local] Hint Resolve activeMember_keeps : svc.

Lemma notifyMemberTagsChanged_keeps tid cid : keeps b (notifyMemberTagsChanged tid cid).
Proof. unfold notifyMemberTagsChanged. keep. Qed.
#[local] Hint Resolve notifyMemberTagsChanged_keeps : svc.

Lemma OnMessage_keeps msg : keeps b (OnMessage msg).
Proof. simpl. unfold OnMessageTags. keep. Qed.

Lemma OnMemberLeft_keeps tid cid : keeps b (OnMemberLeft tid cid).
Proof. simpl. unfold OnMemberLeftTags. keep. Qed.
#[local] Hint Resolve OnMessage_keeps OnMemberLeft_keeps : svc.

(** *** Announcements *)
Lemma collectThreadAgents_keeps tid dom : keeps b (collectThreadAgents tid dom).
Proof. unfold collectThreadAgents. keep. Qed.
#[local] Hint Resolve collectThreadAgents_keeps : svc.

Lemma publishBotControlReleased_keeps tid mid cid pos dom next reason :
  keeps b (publishBotControlReleased tid mid cid pos dom next reason).
Proof. unfold publishBotControlReleased. keep. Qed.
#[local] Hint Resolve publishBotControlReleased_keeps : svc.

Lemma publishBotControlGranted_keeps dialog prev pos reason resume :
  keeps b (publishBotControlGranted dialog prev pos reason resume).
Proof. unfold publishBotControlGranted. keep. Qed.
#[local] Hint Resolve publishBotControlGranted_keeps : svc.

Lemma threadParticipants_keeps tid : keeps b (threadParticipants tid).
Proof. unfold threadParticipants. keep. Qed.
#[local] Hint Resolve threadParticipants_keeps : svc.

Lemma publishMemberEvent_keeps e : keeps b (publishMemberEvent e).
Proof. unfold publishMemberEvent. keep. Qed.
#[local] Hint Resolve publishMemberEvent_keeps : svc.

(** *** References and providers *)
Lemma UpsertSource_keeps r : keeps b (UpsertSource r).
Proof.
  unfold UpsertSource. repeat first [ solve [eauto with svc] | apply keeps_modify; intros ?; done | keep_step ].
Qed.
Lemma UpsertQueue_keeps r : keeps b (UpsertQueue r).
Proof.
  unfold UpsertQueue. repeat first [ solve [eauto with svc] | apply keeps_modify; intros ?; done | keep_step ].
Qed.
#[local] Hint Resolve UpsertSource_keeps UpsertQueue_keeps : svc.

Lemma refreshSource_keeps r : keeps b (refreshSource r).
Proof.
  unfold refreshSource, RememberSource.
  repeat first [ solve [eauto with svc] | apply keeps_modify; intros ?; done | keep_step ].
Qed.
Lemma refreshQueue_keeps dom q : keeps b (refreshQueue dom q).
Proof.
  unfold refreshQueue, RememberQueue.
  repeat first [ solve [eauto with svc] | apply keeps_modify; intros ?; done | keep_step ].
Qed.

Lemma dispatchSystemMessages_keeps ms : keeps b (dispatchSystemMessages ms).
Proof. unfold dispatchSystemMessages. destruct env_providers; [apply keeps_modify; intros ?; done|keep]. Qed.

(** *** System messages *)
Lemma sendThreadSystemMessage_keeps msg : keeps b (sendThreadSystemMessage msg).
Proof. unfold sendThreadSystemMessage, new_string. keep. Qed.
#[local] Hint Resolve sendThreadSystemMessage_keeps : svc.

Lemma sendAddMemberSystemMessage_keeps i ic m rs tid dom : keeps b (sendAddMemberSystemMessage i ic m rs tid dom).
Proof. unfold sendAddMemberSystemMessage, new_string. keep. Qed.
Lemma sendRemoveMemberSystemMessage_keeps i ic m rs reason dom :
  keeps b (sendRemoveMemberSystemMessage i ic m rs reason dom).
Proof. unfold sendRemoveMemberSystemMessage, new_string. keep. Qed.
Lemma sendTransferSystemMessage_keeps i m rs tid dom : keeps b (sendTransferSystemMessage i m rs tid dom).
Proof. unfold sendTransferSystemMessage, new_string. keep. Qed.

(** *** Control *)
Lemma findAddMemberActors_keeps tid ic tc : keeps b (findAddMemberActors tid ic tc).
Proof. unfold findAddMemberActors. keep. Qed.
#[local] Hint Resolve findAddMemberActors_keeps : svc.

Lemma verifyOperator_keeps tid cid : keeps b (verifyOperator tid cid).
Proof. unfold verifyOperator. keep. Qed.

Lemma releaseControlToAgent_keeps tid dom : keeps b (releaseControlToAgent tid dom).
Proof. unfold releaseControlToAgent. keep. Qed.
Lemma restoreControlAfterAgent_keeps tid dom : keeps b (restoreControlAfterAgent tid dom).
Proof. unfold restoreControlAfterAgent. keep. Qed.

Lemma adoptUntrackedBot_keeps tid m : keeps b (adoptUntrackedBot tid m).
Proof.
  intros w Ht Hg. unfold adoptUntrackedBot. eapply keeps_bind_at; [eauto with svc|done..|].
  intros id w' Hid Hg' Hgr Ht'. destruct (decide (id = uuid_Nil)) as [|Hne]; [by apply (keeps_ret b)|].
  assert (at_home tid id (w_db w')) as Hat by (by eapply AdoptUntrackedBot_home).
  pose proof (Push_keeps (MkTransition tid id ReasonInitial None) w' Hg' Hat) as Hp.
  unfold map_err. rewrite M_bind_unfold. destruct (Push _ w') as [[?|?] w2]; exact Hp.
Qed.
End services.

#[export] Hint Resolve publishTagsChanged_keeps activeMember_keeps notifyMemberTagsChanged_keeps OnMessage_keeps
  OnMemberLeft_keeps collectThreadAgents_keeps publishBotControlReleased_keeps publishBotControlGranted_keeps
  threadParticipants_keeps publishMemberEvent_keeps refreshSource_keeps refreshQueue_keeps
  dispatchSystemMessages_keeps sendThreadSystemMessage_keeps sendAddMemberSystemMessage_keeps
  sendRemoveMemberSystemMessage_keeps sendTransferSystemMessage_keeps findAddMemberActors_keeps
  verifyOperator_keeps releaseControlToAgent_keeps restoreControlAfterAgent_keeps adoptUntrackedBot_keeps : svc.

(** ** The bodies of the transactions *)

(** One step of a run whose later steps use what it established. *)
Ltac kstep := eapply (keeps_bind_at true); [solve [keep] | eassumption | eassumption | intros].

(** Facts on dialogs carry over a step. *)
Ltac carry :=
  repeat match goal with
  | G : grows ?w ?w', H : at_home ?t ?m (w_db ?w) |- _ =>
      lazymatch goal with
      | _ : at_home t m (w_db w') |- _ => fail
      | _ => pose proof (proj1 G t m H)
      end
  end.

Section bodies.
Context {E : Env}.

Lemma map_err_safe {A} f (m : SM A) w : safe w (snd (m w)) -> safe w (snd (map_err f m w)).
Proof. unfold map_err. by destruct (m w) as [[?|?] ?]. Qed.

Lemma bind_safe {A C} (m : SM A) (f : A -> SM C) w : w_in_tx w = true ->
  safe w (snd (m w)) -> (forall a, keeps true (f a)) -> safe w (snd (mbind f m w)).
Proof.
  intros Ht Hm Hf. rewrite M_bind_unfold. destruct (m w) as [[a|e] w']; [|done]. simpl in Hm.
  eapply safe_trans; [exact Hm|]. destruct Hm as (Hg & _ & Ht'). apply Hf; [congruence|done].
Qed.

Lemma push_new_bot_safe tid nm tb w : w_in_tx w = true -> good w -> at_home tid (tde_ID nm) (w_db w) ->
  safe w (snd (push_new_bot tid nm tb w)).
Proof.
  intros Ht Hg Hat. unfold push_new_bot. kstep. carry.
  apply bind_safe; [done|apply map_err_safe; by apply Push_keeps|eauto with svc].
Qed.

Lemma add_body_keeps req isBot i dom by_ title perms before :
  keeps true before -> keeps true (add_body req isBot i dom by_ title perms before).
Proof.
  intros Hb w Ht Hg. unfold add_body. kstep. kstep. kstep.
  kstep. match goal with Hc : DialogStore.Create _ _ = (OK ?x, _) |- _ => rename x into nm; rename Hc into Hcr end.
  pose proof (Create_home _ _ _ _ Hcr ltac:(assumption)) as Hat. simpl in Hat.
  do 2 (kstep; carry).
  apply bind_safe; [done| |eauto with svc].
  destruct isBot; [by apply push_new_bot_safe|].
  destruct (isOperator _ _); [by apply (releaseControlToAgent_keeps true)|by apply (keeps_ret true)].
Qed.

Lemma transfer_control_safe req i nm w : w_in_tx w = true -> good w -> at_home (tf_ThreadID req) (tde_ID nm) (w_db w) ->
  safe w (snd (transfer_control req i nm w)).
Proof.
  intros Ht Hg Hat. unfold transfer_control. apply bind_safe; [done| |].
  - destruct (tf_TargetIsBot req).
    + apply bind_safe; [done|by apply push_new_bot_safe|]. intros _. destruct (tde_IsBot i); keep.
    + revert w Ht Hg Hat. destruct (tde_IsBot i); intros w Ht Hg _; [|by apply (keeps_ret true)].
      revert w Ht Hg. change (keeps true (newTop ← map_err pop_error (Pop (tf_ThreadID req) (tde_ID i) ReasonHandoff None);
        match newTop with
        | Some nt => match be_MemberID nt with
           | Some _ => publishBotControlGranted (botControlStackEntryToDialog nt)
              (Some (MkEntry uuid_Nil uuid_Nil (Some (tde_ID i)) (be_Position nt + 1) (tde_ContactID i) 0 false))
              (be_Position nt) ReasonTransfer true
           | None => mret tt end
        | None => mret tt end)). keep.
  - intros _. destruct (_ && _); keep.
Qed.

Lemma transfer_body_keeps req i perms : keeps true (transfer_body req i perms).
Proof.
  intros w Ht Hg. unfold transfer_body. kstep. kstep.
  kstep. match goal with Hc : DialogStore.Create _ _ = (OK ?x, _) |- _ => rename x into nm; rename Hc into Hcr end.
  pose proof (Create_home _ _ _ _ Hcr ltac:(assumption)) as Hat. simpl in Hat.
  kstep; carry. kstep; carry. kstep; carry. kstep; carry.
  apply bind_safe; [done| |eauto with svc]. by apply transfer_control_safe.
Qed.

Lemma remove_body_keeps req i t : keeps true (remove_body req i t).
Proof. unfold remove_body, remove_bot, remove_person. keep. Qed.

Lemma complete_body_keeps req : keeps true (complete_body req).
Proof. unfold complete_body. keep. Qed.

Lemma release_body_keeps req : keeps true (release_body req).
Proof. unfold release_body. keep. Qed.

(** *** A new direct thread *)
Lemma initialize_keeps tid dom from to toBot : keeps true (initializeDirectThreadDialogs tid dom from to toBot).
Proof.
  intros w Ht Hg. unfold initializeDirectThreadDialogs.
  destruct (Shared.peer_Identity to) as [ti|], (Shared.peer_Identity from) as [fi|]; try by apply (keeps_throw true).
  destruct (_ || _); [by apply (keeps_throw true)|].
  kstep. kstep. kstep.
  kstep. match goal with Hc : DialogStore.Create (direct_dialog _ _ _ _ _ toBot _) _ = (OK ?x, _) |- _ => rename x into nm; rename Hc into Hcr end.
  pose proof (Create_home _ _ _ _ Hcr ltac:(assumption)) as Hat. simpl in Hat.
  apply bind_safe; [done| |eauto with svc]. destruct toBot; [|by apply (keeps_ret true)].
  apply bind_safe; [done|apply map_err_safe; by apply Push_keeps|eauto with svc].
Qed.

Lemma create_body_keeps req toBot : keeps true (create_body req toBot).
Proof.
  unfold create_body, createDirectThread, publishThreadCreatedEvents.
  repeat first [ solve [eauto using initialize_keeps with svc] | keep_step ].
Qed.

(** *** Control of an existing thread *)
Lemma top_entry_member tid d e m : top_entry (stack_entries tid d) = Some e -> be_MemberID e = Some m ->
  m ∈ stack_members tid d.
Proof.
  unfold top_entry, stack_entries. intros Hl Hm. apply last_Some_elem_of in Hl.
  apply list_elem_of_fmap in Hl as (r & -> & Hr). rewrite merge_sort_Permutation in Hr.
  apply elem_of_stack_members. by exists r.
Qed.

Lemma ensure_point_safe th x w : w_in_tx w = true -> good w -> at_home (thr_ID th) (td_ID x) (w_db w) ->
  safe w (snd (ensure_point th x w)).
Proof.
  intros Ht Hg Hat. unfold ensure_point. kstep. carry.
  match goal with Hs : GetStack _ _ = (OK ?s, ?w1) |- _ => rename Hs into Hst; rename w1 into w0; rename s into st end.
  unfold GetStack in Hst. apply map_err_ok, query_ok in Hst as (-> & -> & _).
  destruct (top_entry _) as [top|] eqn:Htop.
  - destruct (be_MemberID top) as [m|] eqn:Hm; [|by apply (keeps_ret true)].
    apply bind_safe; [done| |eauto with svc]. apply SetController_keeps; [done|]. by eapply top_entry_member.
  - apply bind_safe; [done| |eauto with svc]. by apply Push_keeps.
Qed.

Lemma ensure_body_safe th x dom w : w_in_tx w = true -> good w -> at_home (thr_ID th) (td_ID x) (w_db w) ->
  safe w (snd (ensure_body th x dom w)).
Proof.
  intros Ht Hg Hat. unfold ensure_body. pose proof (ensure_point_safe th x w Ht Hg Hat) as Hp.
  destruct (ensure_point th x w) as [[th'|e] w1]; [|done]. simpl in Hp.
  assert (keeps true (ensure_publish th' x dom)) as Hk by (unfold ensure_publish; keep).
  destruct Hp as (Hg1 & Hgr & Ht1). rewrite Ht in Ht1. specialize (Hk w1 Ht1 Hg1).
  destruct (ensure_publish th' x dom w1) as [r w2]. eapply safe_trans; [|exact Hk]. split; [done|]. split; [done|congruence].
Qed.
End bodies.

#[export] Hint Resolve transfer_body_keeps remove_body_keeps complete_body_keeps release_body_keeps create_body_keeps : svc.

(** ** Transactions *)
Section transactions.
Context {E : Env} (b : bool).

Lemma good_outside w : w_in_tx w = false -> good w -> sys_wf w.
Proof. intros Ht [Hab|]; [by rewrite Ht in Hab|done]. Qed.

(** A rollback restores the database; the identifiers handed out stay used. *)
Lemma rollback_safe w w1 : w_in_tx w = false -> sys_wf w -> (w_next w <= w_next w1)%N ->
  safe w (rollback (w_db w) (set_tick false w1)).
Proof.
  intros Ht Hwf Hn. split; [right; by eapply sys_wf_core; [| |exact Hwf]|]. split; [by apply grows_core|done].
Qed.

Lemma within_safe {A} (fn : SM A) w : good w ->
  (forall w0, w_in_tx w0 = true -> good w0 -> grows w w0 -> safe w0 (snd (fn w0))) ->
  safe w (snd (WithinTransaction fn w)).
Proof.
  intros Hg Hfn. unfold WithinTransaction. destruct (w_in_tx w) eqn:Ht; [by apply Hfn, grows_refl|].
  pose proof (good_outside w Ht Hg) as Hwf.
  destruct (env_fault (w_ticks w)).
  { simpl. split; [right; by eapply sys_wf_core; [..|exact Hwf]|]. split; [by apply grows_core|by rewrite Ht]. }
  set (w0 := set_txstate (w_tx w + 1) true false (set_tick false w)).
  assert (safe w0 (snd (fn w0))) as (Hg1 & Hgr & Ht1).
  { apply Hfn; [done|right; by eapply sys_wf_core; [..|exact Hwf]|by apply grows_core]. }
  assert (w_next w <= w_next (snd (fn w0)))%N by (destruct Hgr as [_ Hn]; exact Hn).
  destruct (fn w0) as [[a|e] w1]; simpl in *; [|by apply rollback_safe].
  destruct (w_aborted w1 || env_fault (w_ticks w1)) eqn:Hc; [by apply rollback_safe|]. simpl.
  apply orb_false_iff in Hc as [Hc _]. destruct Hg1 as [Hab|Hwf1]; [by rewrite Hc, andb_false_r in Hab|].
  split; [right; by eapply sys_wf_core; [..|exact Hwf1]|]. split; [exact Hgr|done].
Qed.

Lemma within_keeps {A} (fn : SM A) : keeps true fn -> keeps b (WithinTransaction fn).
Proof. intros Hk w Ht Hg. apply within_safe; [done|]. auto. Qed.

(** The transaction of [ensureBotControl]. *)
Lemma assigning_safe {A L} (var : L) (fn : World -> result A * L * World) w : good w ->
  (forall w0, w_in_tx w0 = true -> good w0 -> grows w w0 -> safe w0 (snd (fn w0))) ->
  safe w (snd (WithinTransactionAssigning var fn w)).
Proof.
  intros Hg Hfn. pose proof (WithinTransactionAssigning_forget var fn w) as Hf.
  assert (safe w (snd (WithinTransaction (fun w => let '(r, _, w') := fn w in (r, w')) w))) as Hs.
  { apply within_safe; [done|]. intros w0 H0 H1 H2. specialize (Hfn w0 H0 H1 H2). by destruct (fn w0) as [[? ?] ?]. }
  rewrite <- Hf in Hs. by destruct (WithinTransactionAssigning var fn w) as [[? ?] ?].
Qed.
End transactions.

#[export] Hint Resolve add_body_keeps : svc.

Ltac keep_step ::=
  lazymatch goal with
  | |- forall _, _ => intros ?
  | |- keeps _ (mbind _ _) => apply keeps_bind
  | |- keeps _ (for_each _ _) => apply keeps_for_each
  | |- keeps _ (catch _) => apply keeps_catch
  | |- keeps _ (map_err _ _) => apply keeps_map_err
  | |- keeps _ (reject_as _) => apply keeps_reject
  | |- keeps _ (WithinTransaction _) => apply within_keeps
  | |- keeps _ (match ?x with _ => _ end) => destruct x
  | |- keeps _ (let (_, _) := ?x in _) => destruct x
  end.

(** ** Calls *)
Section calls.
Context {E : Env} (b : bool).

Lemma AddMember_keeps req : keeps b (AddMember req).
Proof. unfold AddMember, addMemberToChat. keep. Qed.

Lemma Transfer_keeps req : keeps b (Transfer req).
Proof. unfold Transfer. keep. Qed.

Lemma RemoveMember_keeps req : keeps b (RemoveMember req).
Proof. unfold RemoveMember. keep. Qed.

Lemma CompleteBotControl_keeps req : keeps b (CompleteBotControl req).
Proof. unfold CompleteBotControl. keep. Qed.

Lemma ReleaseBotControl_keeps req : keeps b (ReleaseBotControl req).
Proof. unfold ReleaseBotControl. keep. Qed.

Lemma HandBackToBot_keeps req : keeps b (HandBackToBot req).
Proof. unfold HandBackToBot. keep. Qed.

Lemma TakeOverFromBot_keeps req : keeps b (TakeOverFromBot req).
Proof. unfold TakeOverFromBot. keep. Qed.

Lemma SetThreadCRMContact_keeps req : keeps b (SetThreadCRMContact req).
Proof. unfold SetThreadCRMContact. keep. Qed.

Lemma AddTag_keeps req : keeps b (AddTag req).
Proof. unfold AddTag. keep. Qed.

Lemma RemoveTag_keeps req : keeps b (RemoveTag req).
Proof. unfold RemoveTag. keep. Qed.

Lemma RemoveTagByName_keeps req : keeps b (RemoveTagByName req).
Proof. unfold RemoveTagByName. keep. Qed.

Lemma UpdatePermissions_keeps req : keeps b (UpdatePermissions req).
Proof. unfold UpdatePermissions. keep. Qed.

(** The members of a resolved thread are dialogs of that thread. *)
Lemma ResolveThread_home q w th w' x : ResolveThread q w = (OK (Some th), w') -> good w ->
  x ∈ thr_Members th -> at_home (thr_ID th) (td_ID x) (w_db w').
Proof.
  unfold ResolveThread. intros Hr Hg Hx. step_ok Hr. apply statement_as_ok in Hs as (-> & _ & Hab). run in Hr. simpl in Hr.
  assert (sys_wf w) as [Hwf _] by (destruct Hg; [congruence|done]).
  destruct (resolve_row _ _) as [t|]; [|by destruct (decide _)]. run in Hr. injection Hr as <- <-. simpl in *.
  apply list_elem_of_fmap in Hx as (r & -> & Hr). apply elem_of_select in Hr as [Hr Hf].
  rewrite andb_true_iff, bool_decide_eq_true in Hf. exists r. split; [|by destruct Hf].
  apply (find_first_key d_id); [apply Hwf|done].
Qed.

Lemma EnsureDirectThread_keeps req : keeps b (EnsureDirectThread req).
Proof.
  intros w Ht Hg. unfold EnsureDirectThread. eapply (keeps_bind_at b); [keep|done|done|].
  intros [th|] w1 Hres Hg1 Hgr1 Ht1; [|].
  - assert (forall x, x ∈ thr_Members th -> at_home (thr_ID th) (td_ID x) (w_db w1)) as Hat
      by (intros x Hx; by eapply ResolveThread_home).
    assert (safe w1 (snd (ensure_existing req th w1))) as Hs.
    { unfold ensure_existing. destruct (_ && _); [|by apply (keeps_ret b)].
      unfold ensureBotControl. destruct (find_first _ _) as [x|] eqn:Hf; [|by apply (keeps_ret (A:=unit) b tt)].
      apply find_first_Some in Hf as [Hx _]. destruct (hasOperator _); [by apply (keeps_ret (A:=unit) b tt)|].
      pose proof (assigning_safe th (ensure_body th x (en_DomainID req)) w1 Hg1) as Ha.
      destruct (WithinTransactionAssigning _ _ w1) as [[? ?] w2]. apply Ha.
      intros w0 H0 H1 H2. apply ensure_body_safe; [done|done|]. by apply H2, Hat. }
    rewrite M_bind_unfold. destruct (ensure_existing req th w1) as [[th'|e] w2]; [|done].
    eapply safe_trans; [exact Hs|]. destruct Hs as (Hg2 & _ & Ht2). simpl in *.
    assert (keeps b (refreshSource (sourceRefFromPeers (en_DomainID req) [Some (en_From req); Some (en_To req)]);; mret th')) as Hk by keep.
    apply Hk; [congruence|done].
  - assert (keeps b (orchestrateDirectThreadCreation req)) as Hk by (unfold orchestrateDirectThreadCreation; keep).
    by apply Hk.
Qed.
End calls.

(** ** Messages *)
(** ** Stores *)
Section stores.
Context {E : Env} (b : bool).

Ltac start := apply keeps_stmt; [by unfold is_statement; eauto|intros w Htx Hwf; cbv beta; run; simpl].

Lemma messages_written P f w :
  (forall m, m_id (f m) = m_id m) -> (forall m, m_thread_id (f m) = m_thread_id m) ->
  (forall m, m_seq (f m) = m_seq m) -> sys_wf w -> safe w (set_db (on_messages (update_where P f) (w_db w)) w).
Proof.
  intros H1 H2 H3 [Hwf Hb]. apply safe_write; simpl; [done|by apply msg_wf|by rewrite msg_ids| |done].
  apply grows_dialogs; [done|simpl; lia].
Qed.

(** [keep] for methods that write such tables only. *)
Ltac keepm := repeat first [ solve [eauto with svc] | apply keeps_modify; intros ?; done | keep_step ].

Lemma insert_content_keeps q c msg src missing acc loc con int :
  keeps b missing -> keeps b (insert_content q c msg src missing acc loc con int).
Proof.
  intros Hm. unfold insert_content. destruct (msg_Member msg) as [mb|]; [|keep]. start.
  destruct (find_thread _ _) as [t|] eqn:Ht; [|by apply Hm; [|right]].
  destruct (_ && _); simpl; [|by apply (safe_reject (A:=unit) no_rows)].
  run. simpl. set (r := content_row _ _ _ _ _ _ _ _ _).
  apply safe_write; simpl; [done| | |apply grows_dialogs; [done|simpl; lia]|done].
  - eapply insert_full; [apply Hwf|exact Ht|by apply fresh_message_id|done].
  - apply insert_below; [apply Hwf|simpl; lia].
Qed.

Lemma insert_documents_keeps mid docs : keeps b (insert_documents mid docs).
Proof. intros w Ht Hg. apply safe_core; simpl; (done || lia). Qed.
Lemma insert_images_keeps mid imgs : keeps b (insert_images mid imgs).
Proof. intros w Ht Hg. apply safe_core; simpl; (done || lia). Qed.
#[local] Hint Resolve insert_content_keeps insert_documents_keeps insert_images_keeps : svc.

Lemma SaveMessage_keeps msg : keeps b (SaveMessage msg).
Proof. unfold SaveMessage. keep. Qed.
Lemma SaveMessageLocation_keeps msg : keeps b (SaveMessageLocation msg).
Proof. unfold SaveMessageLocation. keep. Qed.
Lemma SaveMessageContact_keeps msg : keeps b (SaveMessageContact msg).
Proof. unfold SaveMessageContact. keep. Qed.
Lemma SaveInteractiveMessage_keeps msg : keeps b (SaveInteractiveMessage msg).
Proof. unfold SaveInteractiveMessage. keep. Qed.

Lemma SaveDocuments_keeps mid docs : keeps b (SaveDocuments mid docs).
Proof. unfold SaveDocuments. keep. Qed.
Lemma FileIDs_keeps ids tid : keeps b (FileIDsBoundToOtherThreads ids tid).
Proof. unfold FileIDsBoundToOtherThreads. keep. Qed.
Lemma GetReplyPreview_keeps id dom : keeps b (GetReplyPreview id dom).
Proof. unfold GetReplyPreview. keep. Qed.
Lemma LoadForwardSources_keeps ids c dom : keeps b (LoadForwardSources ids c dom).
Proof. unfold LoadForwardSources. keep. Qed.
Lemma CopyAttachments_keeps s t : keeps b (CopyAttachments s t).
Proof. unfold CopyAttachments. keep. Qed.

Lemma StoreEdit_keeps msg : keeps b (MessageStore.EditMessage msg).
Proof.
  unfold MessageStore.EditMessage. destruct (decide _); [keep|]. destruct (decide _); [keep|]. start.
  destruct (edit_target _ _ _) as [m|]; [|by apply safe_same]. run. simpl.
  set (w1 := set_db (on_messages (update_where (fun m' => bool_decide (m_id m' = m_id m)) (edit_row (w_now w) (msg_Body msg))) (w_db w)) w).
  assert (safe w w1) as Hs by by apply messages_written.
  eapply safe_trans; [exact Hs|]. destruct Hs as (Hg & _ & _). apply safe_core; (done || simpl; lia).
Qed.

Lemma StoreDelete_keeps ids who : keeps b (MessageStore.DeleteMessages ids who).
Proof.
  unfold MessageStore.DeleteMessages. destruct (bool_decide _); [keep|]. destruct (decide _); [keep|]. start.
  by apply messages_written.
Qed.

(** *** Statuses *)
Lemma InsertSent_keeps msg ids : keeps b (InsertSent msg ids).
Proof.
  unfold InsertSent. destruct msg as [msg|]; [|keep]. destruct (bool_decide _); [keep|]. destruct (decide _); [keep|]. start.
  destruct (existsb _ _); [by apply (safe_reject (A:=unit) no_rows)|]. run. by apply dialogs_written.
Qed.

Lemma advance_fields pick h set bs td :
  (forall s x, d_id (set s x) = d_id x /\ d_thread_id (set s x) = d_thread_id x /\
               d_member_id (set s x) = d_member_id x /\ active (set s x) = active x) ->
  let x := advance pick h set bs td in
  d_id x = d_id td /\ d_thread_id x = d_thread_id td /\ d_member_id x = d_member_id td /\ active x = active td.
Proof. intros Hset. simpl. unfold advance. destruct (joined _ _ _ _); [apply Hset|done]. Qed.

Lemma movedHorizons_keeps h set bs :
  (forall d s x, d_id (set d s x) = d_id x /\ d_thread_id (set d s x) = d_thread_id x /\
                 d_member_id (set d s x) = d_member_id x /\ active (set d s x) = active x) ->
  keeps b (movedHorizons h set bs).
Proof.
  intros Hset. unfold movedHorizons. apply keeps_bind; [keep|]. intros pick. start.
  apply (dialogs_written (fun _ => true) (advance pick h (set (w_db w)) bs)); [..|done];
    intros x; destruct (advance_fields pick h (set (w_db w)) bs x (Hset (w_db w))) as (? & ? & ? & ?); (done || congruence).
Qed.

Lemma clearRecoveredErrors_keeps bs : keeps b (clearRecoveredErrors bs).
Proof. unfold clearRecoveredErrors. keepm. Qed.
#[local] Hint Resolve clearRecoveredErrors_keeps : svc.

Lemma advanceRead_keeps rs : keeps b (advanceReadHorizon rs).
Proof. unfold advanceReadHorizon. destruct rs; [keep|]. apply keeps_bind; [by apply movedHorizons_keeps|keep]. Qed.
Lemma advanceDelivered_keeps rs : keeps b (advanceDeliveredHorizon rs).
Proof. unfold advanceDeliveredHorizon. destruct rs; [keep|]. apply keeps_bind; [by apply movedHorizons_keeps|keep]. Qed.
#[local] Hint Resolve advanceRead_keeps advanceDelivered_keeps : svc.

Lemma MarkDelivered_keeps rs : keeps b (MarkDelivered rs).
Proof. unfold MarkDelivered, resolveThreadIDsForDelivery, resolveSeqFromMessageID. keep. Qed.
Lemma MarkRead_keeps rs : keeps b (MarkRead rs).
Proof. unfold MarkRead, resolveReadSeqFromMessageID, clampReadSeqToThread. keep. Qed.
Lemma MarkFailed_keeps rs : keeps b (MarkFailed rs).
Proof. unfold MarkFailed. keepm. Qed.
Lemma RecountUnread_keeps ts : keeps b (RecountUnread ts).
Proof. unfold RecountUnread. destruct (bool_decide _); [keep|]. start. by apply dialogs_written. Qed.
Lemma ReconcileUnread_keeps dom : keeps b (ReconcileUnread dom).
Proof. unfold ReconcileUnread. start. by apply dialogs_written. Qed.

(** *** Reactions, external ids, variables, previews *)
Lemma StoreReaction_keeps r : keeps b (ReactionStore.SetReaction r).
Proof. unfold ReactionStore.SetReaction. keepm. Qed.
Lemma Aggregate_keeps mid : keeps b (AggregateForMessage mid).
Proof. unfold AggregateForMessage. keep. Qed.

Lemma ExternalSave_keeps r : keeps b (ExternalStore.Save r).
Proof. unfold ExternalStore.Save. keepm. Qed.
Lemma UpdateDelivery_keeps r : keeps b (UpdateDelivery r).
Proof. unfold UpdateDelivery. keepm. Qed.
Lemma LookupMessageID_keeps g x : keeps b (LookupMessageID g x).
Proof. unfold LookupMessageID. keep. Qed.

Lemma VariableSet_keeps cmd : keeps b (VariableStore.Set_ cmd).
Proof. unfold VariableStore.Set_. keepm. Qed.
Lemma VariableFlush_keeps cmd : keeps b (VariableStore.Flush cmd).
Proof. unfold VariableStore.Flush. keepm. Qed.

Lemma PreviewGet_keeps t c dom : keeps b (GetActiveForUpdate t c dom).
Proof. unfold GetActiveForUpdate. keep. Qed.
Lemma PreviewUpsert_keeps p ttl : keeps b (Upsert p ttl).
Proof. unfold Upsert. keepm. Qed.
Lemma PreviewRevoke_keeps id r : keeps b (Revoke id r).
Proof. unfold Revoke. keepm. Qed.
End stores.

#[export] Hint Resolve SaveMessage_keeps SaveMessageLocation_keeps SaveMessageContact_keeps SaveInteractiveMessage_keeps
  SaveDocuments_keeps FileIDs_keeps GetReplyPreview_keeps LoadForwardSources_keeps CopyAttachments_keeps StoreEdit_keeps
  StoreDelete_keeps InsertSent_keeps MarkDelivered_keeps MarkRead_keeps MarkFailed_keeps RecountUnread_keeps
  ReconcileUnread_keeps StoreReaction_keeps Aggregate_keeps ExternalSave_keeps UpdateDelivery_keeps LookupMessageID_keeps
  VariableSet_keeps VariableFlush_keeps PreviewGet_keeps PreviewUpsert_keeps PreviewRevoke_keeps : svc.

(** ** Services *)
Section services.
Context {E : Env} {X : MessageEnv} (b : bool).

Lemma dispatchStatus_keeps cs : keeps b (dispatchStatusChangeEvents cs).
Proof. unfold dispatchStatusChangeEvents, statusParticipants. keep. Qed.
Lemma dispatchMessage_keeps msg : keeps b (dispatchMessageEvents msg).
Proof. unfold dispatchMessageEvents, dispatchEvents. keep. Qed.
Lemma dispatchReaction_keeps r : keeps b (dispatchReactionEvents r).
Proof. unfold dispatchReactionEvents, dispatchEvents. keep. Qed.
#[local] Hint Resolve dispatchStatus_keeps dispatchMessage_keeps dispatchReaction_keeps : svc.

Lemma insertSentStatuses_keeps msg : keeps b (insertSentStatuses msg).
Proof. unfold insertSentStatuses. keep. Qed.
Lemma sendToProvider_keeps msg : keeps b (sendMessageToExternalProvider msg).
Proof. unfold sendMessageToExternalProvider. destruct env_providers; [apply keeps_modify; intros ?; done|keep]. Qed.
Lemma recordInbound_keeps msg p x : keeps b (recordInboundExternalID msg p x).
Proof. unfold recordInboundExternalID. keep. Qed.
Lemma seed_keeps msg vars : keeps b (seedThreadVariables msg vars).
Proof. unfold seedThreadVariables. keep. Qed.
Lemma resolveReplyPreview_keeps r t dom : keeps b (resolveReplyPreview r t dom).
Proof. unfold resolveReplyPreview. keep. Qed.
Lemma resolveExternalReply_keeps r p t dom : keeps b (resolveExternalReply r p t dom).
Proof. unfold resolveExternalReply. keep. Qed.
#[local] Hint Resolve insertSentStatuses_keeps sendToProvider_keeps recordInbound_keeps seed_keeps
  resolveReplyPreview_keeps resolveExternalReply_keeps : svc.
Lemma resolveReply_keeps r x p t dom : keeps b (resolveReply r x p t dom).
Proof. unfold resolveReply. keep. Qed.
Lemma assertDocuments_keeps t docs : keeps b (assertDocumentsBelongToThread t docs).
Proof. unfold assertDocumentsBelongToThread. keep. Qed.
End services.

#[export] Hint Resolve dispatchStatus_keeps dispatchMessage_keeps dispatchReaction_keeps insertSentStatuses_keeps
  sendToProvider_keeps recordInbound_keeps seed_keeps resolveReply_keeps resolveReplyPreview_keeps
  resolveExternalReply_keeps assertDocuments_keeps EnsureDirectThread_keeps ReleaseBotControl_keeps : svc.

Section bodies.
Context {E : Env} {X : MessageEnv} (b : bool).

Lemma save_text_keeps in_ t msg : keeps b (save_text in_ t msg).
Proof. unfold save_text. keep. Qed.
Lemma save_document_keeps in_ msg : keeps b (save_document in_ msg).
Proof. unfold save_document. keep. Qed.
Lemma save_card_keeps save msg : (forall m, keeps b (save m)) -> keeps b (save_card save msg).
Proof. intros H. unfold save_card. keep. Qed.
Lemma save_interactive_keeps msg : keeps b (save_interactive msg).
Proof. unfold save_interactive. keep. Qed.
Lemma prepare_keeps msg : keeps b (prepareMessageForSending msg).
Proof. unfold prepareMessageForSending. keep. Qed.
Lemma writeSystemMessage_keeps msg : keeps b (writeSystemMessage msg).
Proof. unfold writeSystemMessage. keep. Qed.
Lemma edit_body_keeps msg : keeps b (edit_body msg).
Proof. unfold edit_body. keep. Qed.
Lemma announce_keeps p c by_ msgs : keeps b (announce_deleted p c by_ msgs).
Proof. revert by_. induction msgs as [|m msgs IH]; intros by_; simpl; keep. Qed.
#[local] Hint Resolve announce_keeps : svc.
Lemma delete_body_keeps in_ c : keeps b (delete_body in_ c).
Proof. unfold delete_body. keep. Qed.
Lemma reaction_body_keeps r : keeps b (reaction_body r).
Proof. unfold reaction_body. keep. Qed.
Lemma saveForwarded_keeps msg : keeps b (saveForwardedMessage msg).
Proof. unfold saveForwardedMessage. keep. Qed.
#[local] Hint Resolve saveForwarded_keeps : svc.
Lemma forwardOne_keeps in_ t src n : keeps b (forwardOne in_ t src n).
Proof. unfold forwardOne. keep. Qed.
#[local] Hint Resolve forwardOne_keeps : svc.
Lemma forward_all_keeps in_ t names srcs : keeps b (forward_all in_ t names srcs).
Proof. induction srcs as [|s srcs IH]; simpl; keep. Qed.
Lemma apply_receipts_keeps mark : keeps true mark -> keeps b (apply_receipts mark).
Proof. intros H. unfold apply_receipts. keep. Qed.
End bodies.

#[export] Hint Resolve save_text_keeps save_document_keeps save_card_keeps save_interactive_keeps prepare_keeps
  writeSystemMessage_keeps edit_body_keeps delete_body_keeps reaction_body_keeps forward_all_keeps apply_receipts_keeps : svc.

(** ** Calls *)
Section calls.
Context {E : Env} {X : MessageEnv} (b : bool).

Lemma command_keeps name c req : commands !! name = Some c -> keeps b (cmd_Execute c req).
Proof.
  unfold commands, NewCommandDispatcher, CommandDispatcher. cbn [fold_left].
  intros [[_ <-]|[_ He]]%lookup_insert_Some; [|by rewrite lookup_empty in He]. simpl. unfold close_Execute. keep.
Qed.

Lemma Dispatch_keeps t in_ : keeps b (Dispatch commands t in_).
Proof.
  unfold Dispatch. destruct (lookup_command _ _) as [c|] eqn:Hc; [|keep]. unfold lookup_command in Hc.
  destruct (String.prefix _ _); [|done]. destruct (cmd_CanExecute c _); [|keep].
  apply keeps_bind; [|keep]. apply keeps_catch. by eapply command_keeps.
Qed.
#[local] Hint Resolve Dispatch_keeps : svc.

Lemma SendText_keeps in_ : keeps b (SendText commands in_).
Proof. unfold SendText, sendCommandMessage. keep. Qed.
Lemma SendDocument_keeps in_ : keeps b (SendDocument in_).
Proof. unfold SendDocument. keep. Qed.
Lemma SendLocation_keeps msg : keeps b (SendLocation msg).
Proof. unfold SendLocation, send_card. keep. Qed.
Lemma SendContact_keeps msg : keeps b (SendContact msg).
Proof. unfold SendContact, send_card. keep. Qed.
Lemma SendInteractive_keeps msg : keeps b (SendInteractive msg).
Proof. unfold SendInteractive. keep. Qed.
Lemma SendSystemMessage_keeps msg : keeps b (SendSystemMessage msg).
Proof. unfold SendSystemMessage. keep. Qed.
Lemma Read_keeps in_ : keeps b (Read in_).
Proof. unfold Read. keep. Qed.
Lemma UpdateMessageDelivery_keeps in_ : keeps b (UpdateMessageDelivery in_).
Proof. unfold UpdateMessageDelivery. keep. Qed.
Lemma EditMessage_keeps msg : keeps b (EditMessage msg).
Proof. unfold EditMessage. keep. Qed.
Lemma DeleteMessages_keeps in_ : keeps b (DeleteMessages in_).
Proof. unfold DeleteMessages. keep. Qed.
Lemma SetReaction_keeps in_ : keeps b (SetReaction in_).
Proof.
  unfold SetReaction. repeat first [ solve [eauto with svc] | apply keeps_modify; intros ?; done | keep_step ].
Qed.
Lemma ForwardMessages_keeps in_ : keeps b (ForwardMessages in_).
Proof. unfold ForwardMessages. keep. Qed.
Lemma SendInteractiveCallback_keeps c : keeps b (SendInteractiveCallback c).
Proof.
  unfold SendInteractiveCallback, SaveCallback, dispatchInteractiveCallbackEvents, dispatchEvents.
  repeat first [ solve [eauto with svc] | apply keeps_modify; intros ?; done | keep_step ].
Qed.

(** *** Statuses, variables, previews, typing *)
Lemma StatusMarkDelivered_keeps rs : keeps b (StatusMarkDelivered rs).
Proof. unfold StatusMarkDelivered. keep. Qed.
Lemma StatusMarkRead_keeps rs : keeps b (StatusMarkRead rs).
Proof. unfold StatusMarkRead. keep. Qed.
Lemma StatusMarkFailed_keeps rs : keeps b (StatusMarkFailed rs).
Proof. unfold StatusMarkFailed. keep. Qed.

Ltac keepm := repeat first [ solve [eauto with svc] | apply keeps_modify; intros ?; done | keep_step ].

Lemma SetVariables_keeps cmd : keeps b (SetVariables cmd).
Proof. unfold SetVariables, publishVariables. keepm. Qed.
Lemma FlushVariables_keeps cmd : keeps b (FlushVariables cmd).
Proof. unfold FlushVariables, publishVariables. keepm. Qed.
Lemma SendTyping_keeps in_ : keeps b (SendTyping in_).
Proof. unfold SendTyping, Allow, publishTyping, dispatchExternalTyping. keepm. Qed.
End calls.

Section previews.
Context {E : Env} (b : bool).

Lemma spend_preview_keeps req : keeps b (spend_preview req).
Proof. unfold spend_preview. keep. Qed.
#[local] Hint Resolve spend_preview_keeps : svc.
Lemma give_body_keeps req : keeps b (give_body req).
Proof. unfold give_body. keep. Qed.
Lemma remove_preview_body_keeps req : keeps b (remove_preview_body req).
Proof. unfold remove_preview_body. keep. Qed.
End previews.
#[export] Hint Resolve spend_preview_keeps give_body_keeps remove_preview_body_keeps : svc.

Section preview_calls.
Context {E : Env} (b : bool).

Lemma GivePreview_keeps req : keeps b (GivePreview req).
Proof. unfold GivePreview. keep. Qed.
Lemma RemoveFromPreview_keeps req : keeps b (RemoveFromPreview req).
Proof. unfold RemoveFromPreview. keep. Qed.
Lemma UpgradePreview_keeps req : keeps b (UpgradePreviewToFullMember req).
Proof. unfold UpgradePreviewToFullMember, addMemberToChat. keep. Qed.
End preview_calls.
