(* ===== verification/System.v ===== *)
(** * System: the calls of the service as a whole

    Every state-changing call of the thread, tag, permission and message
    services as one type of calls, [run_call], and what holds of all of them:
    every call, failed or not, keeps the invariant of Invariant.v. *)
From S2P Require Import Prelude Domain Events Message World BotControlStore BotControl DialogStore ThreadStore.
From S2P Require Import PermissionStore Permissions PermissionRules TagStore Outbox TagService Samples Tags.
From S2P Require Import MessageStore References ControlEvents BotFlow Members DirectThread Invariant Safety.
From S2P Require Import MessageStatus StatusService VariableStore MediaProcessor Commands MessageService.
From S2P Require Import MessageActions Variables Previews TypingService ServiceSafety.
#[local] Open Scope Z_scope.

(** ** The service *)
Inductive service_call :=
  | CallEnsureDirectThread (req : EnsureDirectThreadRequest)
  | CallAddMember (req : AddMemberRequest)
  | CallTransfer (req : TransferThreadRequest)
  | CallRemoveMember (req : RemoveMemberRequest)
  | CallCompleteBotControl (req : CompleteBotControlRequest)
  | CallReleaseBotControl (req : ReleaseBotControlRequest)
  | CallHandBackToBot (req : HandBackToBotRequest)
  | CallTakeOverFromBot (req : TakeOverFromBotRequest)
  | CallSetCRMContact (req : SetCRMContactRequest)
  | CallAddTag (req : AddTagRequest)
  | CallRemoveTag (req : RemoveTagRequest)
  | CallRemoveTagByName (req : RemoveTagByNameRequest)
  | CallUpdatePermissions (req : UpdateThreadPermissionRequest)
  | CallSendText (req : SendTextRequest)
  | CallSendDocument (req : SendDocumentRequest)
  | CallSendLocation (msg : Message)
  | CallSendContact (msg : Message)
  | CallSendInteractive (msg : Message)
  | CallSendSystemMessage (msg : Message)
  | CallForwardMessages (req : ForwardMessagesRequest)
  | CallRead (req : ReadMessageRequest)
  | CallEditMessage (msg : Message)
  | CallDeleteMessages (req : DeleteMessagesRequest)
  | CallSetReaction (req : SetReactionRequest)
  | CallInteractiveCallback (callback : InteractiveCallback)
  | CallMarkDelivered (receipts : list (option StatusReceipt))
  | CallMarkRead (receipts : list (option ReadReceipt))
  | CallMarkFailed (receipts : list (option StatusReceipt))
  | CallUpdateDelivery (report : ExternalStore.MessageDelivery)
  | CallSendTyping (req : SendTypingRequest)
  | CallSetVariables (cmd : SetThreadVariablesCommand)
  | CallFlushVariables (cmd : FlushVariablesCommand)
  | CallGivePreview (req : GivePreviewRequest)
  | CallRemovePreview (req : RemoveFromPreviewRequest)
  | CallUpgradePreview (req : UpgradePreviewRequest).

Definition run_call {E : Env} {X : MessageEnv} (c : service_call) : SM unit :=
  match c with
  | CallEnsureDirectThread req => EnsureDirectThread req;; mret tt
  | CallAddMember req => AddMember req;; mret tt
  | CallTransfer req => Transfer req;; mret tt
  | CallRemoveMember req => RemoveMember req
  | CallCompleteBotControl req => CompleteBotControl req
  | CallReleaseBotControl req => ReleaseBotControl req
  | CallHandBackToBot req => HandBackToBot req
  | CallTakeOverFromBot req => TakeOverFromBot req
  | CallSetCRMContact req => SetThreadCRMContact req
  | CallAddTag req => AddTag req;; mret tt
  | CallRemoveTag req => RemoveTag req
  | CallRemoveTagByName req => RemoveTagByName req
  | CallUpdatePermissions req => UpdatePermissions req;; mret tt
  | CallSendText req => SendText commands req;; mret tt
  | CallSendDocument req => SendDocument req;; mret tt
  | CallSendLocation msg => SendLocation msg;; mret tt
  | CallSendContact msg => SendContact msg;; mret tt
  | CallSendInteractive msg => SendInteractive msg;; mret tt
  | CallSendSystemMessage msg => SendSystemMessage msg;; mret tt
  | CallForwardMessages req => ForwardMessages req;; mret tt
  | CallRead req => MessageActions.Read req
  | CallEditMessage msg => MessageActions.EditMessage msg;; mret tt
  | CallDeleteMessages req => MessageActions.DeleteMessages req;; mret tt
  | CallSetReaction req => MessageActions.SetReaction req;; mret tt
  | CallInteractiveCallback c => SendInteractiveCallback c;; mret tt
  | CallMarkDelivered rs => StatusMarkDelivered rs;; mret tt
  | CallMarkRead rs => StatusMarkRead rs;; mret tt
  | CallMarkFailed rs => StatusMarkFailed rs;; mret tt
  | CallUpdateDelivery report => UpdateMessageDelivery report
  | CallSendTyping req => SendTyping req
  | CallSetVariables cmd => SetVariables cmd;; mret tt
  | CallFlushVariables cmd => FlushVariables cmd;; mret tt
  | CallGivePreview req => GivePreview req;; mret tt
  | CallRemovePreview req => RemoveFromPreview req
  | CallUpgradePreview req => UpgradePreviewToFullMember req;; mret tt
  end.

(** A call between requests, with its outcome forgotten. *)
Inductive service_step {E : Env} {X : MessageEnv} (w w' : World) : Prop :=
  | service_step_call c r : run_call c w = (r, w') -> service_step w w'.

Lemma run_call_keeps {E : Env} {X : MessageEnv} b c : keeps b (run_call c).
Proof.
  destruct c; simpl; try (apply keeps_bind; [|intros; apply keeps_ret]);
    eauto using EnsureDirectThread_keeps, AddMember_keeps, Transfer_keeps, RemoveMember_keeps, CompleteBotControl_keeps,
      ReleaseBotControl_keeps, HandBackToBot_keeps, TakeOverFromBot_keeps, SetThreadCRMContact_keeps, AddTag_keeps,
      RemoveTag_keeps, RemoveTagByName_keeps, UpdatePermissions_keeps, SendText_keeps, SendDocument_keeps,
      SendLocation_keeps, SendContact_keeps, SendInteractive_keeps, SendSystemMessage_keeps, ForwardMessages_keeps,
      Read_keeps, EditMessage_keeps, DeleteMessages_keeps, SetReaction_keeps, SendInteractiveCallback_keeps, StatusMarkDelivered_keeps,
      StatusMarkRead_keeps, StatusMarkFailed_keeps, UpdateMessageDelivery_keeps, SendTyping_keeps, SetVariables_keeps,
      FlushVariables_keeps, GivePreview_keeps, RemoveFromPreview_keeps, UpgradePreview_keeps.
Qed.

Lemma reachable_wf {E : Env} {X : MessageEnv} (w w' : World) :
  sys_wf w -> w_in_tx w = false -> rtc service_step w w' -> sys_wf w' /\ w_in_tx w' = false.
Proof.
  intros Hwf Ht H. induction H as [|w w1 w' Hs _ IH]; [done|]. destruct Hs as [c r Hc].
  destruct (run_call_keeps false c w Ht (or_intror Hwf)) as (Hg & _ & Ht1). rewrite Hc in *. simpl in *.
  apply IH; [|congruence]. apply good_outside; [congruence|done].
Qed.

(** (C1) The system invariant: started from a well-formed database outside a
    transaction, every sequence of service calls, failed ones and database
    faults included, stays outside transactions with a well-formed database.
    In particular a thread is controlled only by a bot of its own stack or by
    its owner bot, which are dialogs of that thread; a contact is active at most
    once in a thread; every dialog has its permissions and settings; messages
    of a thread have distinct sequence numbers up to its counter. *)
Theorem service_invariant {E : Env} {X : MessageEnv} (w w' : World) :
  sys_wf w -> w_in_tx w = false -> rtc service_step w w' -> sys_wf w' /\ w_in_tx w' = false.
Proof. apply reachable_wf. Qed.

(** ** Consequences *)

(** What a well-formed database gives every reader: the joins of a dialog with
    its permissions and settings have exactly one row, so that scanning them
    cannot fail. *)
Lemma full_rows_one d r : db_wf d -> r ∈ db_dialogs d ->
  exists p s, full_rows d r = [(r, Some p, Some s)].
Proof.
  intros [_ _ [_ _ Hp Hs] _ _] Hr. specialize (Hp r Hr). specialize (Hs r Hr).
  unfold perms_of in Hp. unfold settings_of in Hs. unfold full_rows.
  destruct (select_where (fun p => bool_decide (p_thread_dialog_id p = d_id r)) (db_perms d)) as [|p [|p' ps]]; try done.
  destruct (select_where (fun s => bool_decide (st_thread_dialog_id s = d_id r)) (db_settings d)) as [|s [|s' ss]]; try done.
  by exists p, s.
Qed.

Lemma mapM_total {A B} (f : A -> option B) l : (forall x, x ∈ l -> is_Some (f x)) -> is_Some (mapM f l).
Proof.
  induction l as [|x l IH]; intros H; [by eexists|]. simpl.
  destruct (H x (list_elem_of_here _ _)) as [y ->]. destruct IH as [k Hk]; [intros z Hz; apply H; by right|].
  rewrite Hk. by eexists.
Qed.

Lemma scan_total b1 b2 d rows x : db_wf d -> (forall r, r ∈ rows -> r ∈ db_dialogs d) ->
  x ∈ (rows ≫= full_rows d) -> is_Some (scan_full b1 b2 x).
Proof.
  intros Hwf Hrows (r & Hx & Hr)%list_elem_of_bind. destruct (full_rows_one d r Hwf) as (p & s & Heq); [by apply Hrows|].
  rewrite Heq in Hx. apply list_elem_of_singleton in Hx as ->. by eexists.
Qed.

Lemma elem_of_paged {A} limit offset (l : list A) x : x ∈ paged limit offset l -> x ∈ l.
Proof.
  unfold paged. intros Hx. assert (x ∈ drop (Z.to_nat offset) l) as Hd.
  { destruct (limit >? 0); [|done]. apply elem_of_take in Hx as (i & Hi & _). by eapply list_elem_of_lookup_2. }
  apply list_elem_of_lookup in Hd as [i Hi]. rewrite lookup_drop in Hi. by eapply list_elem_of_lookup_2.
Qed.

(** (C39) In every state the service can reach, the two reads that decide who may
    do what never fail for the data's sake: [GetFullView], with any filter and
    page, and [FindActorsPair] always have a result to give, and each entry the
    full view gives is a stored dialog that matches the filter. *)
Theorem reachable_reads_succeed {E : Env} {X : MessageEnv} (w w' : World) (f : ThreadDialogStoreFilter) (ic target : uuid) :
  sys_wf w -> w_in_tx w = false -> rtc service_step w w' ->
  (exists ds, full_view f (w_db w') = OK ds /\
     forall x, x ∈ ds -> exists r, r ∈ db_dialogs (w_db w') /\ full_filter f r = true /\
                                   tde_ID x = d_id r /\ tde_ContactID x = d_member_id r) /\
  (exists ds, actor_dialogs ic target (w_db w') = OK ds).
Proof.
  intros Hwf Ht Hsteps. destruct (reachable_wf w w' Hwf Ht Hsteps) as [[Hwf' _] _].
  split.
  - unfold full_view, collectRows.
    destruct (mapM_total (scan_full d_is_bot d_auto_leave)
      (paged (sf_Limit f) (sf_Offset f) (select_where (full_filter f) (db_dialogs (w_db w')) ≫= full_rows (w_db w')))) as [k Hk].
    { intros x Hx%elem_of_paged. eapply (scan_total _ _ _ (select_where (full_filter f) (db_dialogs (w_db w')))); [done| |done].
      intros r [Hr _]%elem_of_select. done. }
    rewrite Hk. eexists. split; [done|]. intros x (rec & -> & Hrec)%list_elem_of_fmap.
    destruct (elem_of_mapM _ _ _ _ Hk Hrec) as ([[r op] os] & Hin & Hscan). apply elem_of_paged in Hin.
    apply list_elem_of_bind in Hin as (r0 & Hin & Hr0). unfold scan_full in Hscan.
    destruct op as [p|]; [|done]. destruct os as [s|]; [|done]. injection Hscan as <-.
    apply elem_of_full_rows in Hin as (-> & _). apply elem_of_select in Hr0 as [Hr0 Hf]. by exists r0.
  - unfold actor_dialogs, collectRows.
    destruct (mapM_total (scan_full (fun _ => false) (fun _ => false)) (actor_rows ic target (w_db w') ≫= full_rows (w_db w'))) as [k Hk].
    { intros x Hx. eapply (scan_total _ _ _ (actor_rows ic target (w_db w'))); [done| |done].
      intros r Hr. unfold actor_rows in Hr. destruct (find_dialog target (w_db w')); [|by apply not_elem_of_nil in Hr].
      by apply elem_of_select in Hr as [Hr _]. }
    rewrite Hk. by eexists.
Qed.

(** ** Witnesses *)
Lemma sample_sys_wf : sys_wf sample_world.
Proof.
  split.
  - split.
    + apply sample_wf.
    + split.
      * intros r x Hr Hx Hm. simpl in Hr, Hx. in_list Hr. in_list Hx; (reflexivity || discriminate).
      * intros t x Ht Hx Ho. simpl in Ht, Hx. in_list Ht; in_list Hx; (reflexivity || discriminate).
    + split.
      * intros x y Hx Hy _ _ Hm _. simpl in Hx, Hy. in_list Hx; in_list Hy; (reflexivity || discriminate).
      * intros x Hx. simpl in Hx. in_list Hx; by eexists.
      * intros x Hx. simpl in Hx. in_list Hx; reflexivity.
      * intros x Hx. simpl in Hx. in_list Hx; reflexivity.
    + split; [apply NoDup_nil_2|apply NoDup_nil_2| |].
      * intros m Hm. by apply not_elem_of_nil in Hm.
      * intros t Ht. simpl in Ht. in_list Ht; done.
    + apply sample_tag_inv.
  - intros x Hx. unfold all_ids in Hx. simpl in Hx. in_list Hx; done.
Qed.

(** A bot is added by the client, then an agent takes over. *)
Definition sample_bot : AddMemberRequest := MkAddMember 1 201 100 Role.RoleMember 7 true None None false.
Definition after_bot : World := snd (run_call (CallAddMember sample_bot) sample_world).
Definition after_takeover : World := snd (run_call (CallTakeOverFromBot (MkTakeOver 1 102 7)) after_bot).

Lemma sample_steps : rtc service_step sample_world after_takeover.
Proof.
  apply (rtc_l _ _ after_bot); [|apply rtc_once].
  - apply (service_step_call _ _ (CallAddMember sample_bot) (fst (run_call (CallAddMember sample_bot) sample_world))).
    unfold after_bot. by destruct (run_call _ _).
  - apply (service_step_call _ _ (CallTakeOverFromBot (MkTakeOver 1 102 7))
      (fst (run_call (CallTakeOverFromBot (MkTakeOver 1 102 7)) after_bot))).
    unfold after_takeover. by destruct (run_call _ _).
Qed.

Lemma service_invariant_witness :
  rtc service_step sample_world after_takeover /\ sys_wf after_takeover /\
  (t_bot_controller_id <$> db_threads (w_db after_bot)) = [Some 1000%N; None] /\
  (t_bot_controller_id <$> db_threads (w_db after_takeover)) = [None; None].
Proof.
  split; [exact sample_steps|]. split; [|split; vm_compute; reflexivity].
  exact (proj1 (service_invariant sample_world after_takeover sample_sys_wf eq_refl sample_steps)).
Defined.

Lemma reachable_reads_succeed_witness :
  exists ds, full_view (MkDialogFilter 0 0 (Some [1%N]) None None false 0) (w_db after_takeover) = OK ds /\ length ds = 5%nat.
Proof.
  destruct (reachable_reads_succeed sample_world after_takeover (MkDialogFilter 0 0 (Some [1%N]) None None false 0) 100 12
    sample_sys_wf eq_refl sample_steps) as ((ds & Hds & _) & _).
  exists ds. split; [exact Hds|]. vm_compute in Hds. injection Hds as <-. reflexivity.
Defined.

(** ** A small conversation: two contacts on top of the sample thread, the first
    of whom writes two texts, which also creates their direct thread *)
Definition ann : Shared.Peer := Shared.MkPeer 300 Shared.PeerContact (Some (Shared.MkIdentity "iss" "Ann" "" None)).
Definition bob : Shared.Peer := Shared.MkPeer 310 Shared.PeerContact (Some (Shared.MkIdentity "iss" "Bob" "" None)).
Definition text_of (body : string) : SendTextRequest :=
  MkSendText ann bob body 7 "" None None "" "" None [] ∅.
Definition first_text : SendTextRequest := text_of "hello".

(** One call after another, whatever they answer. *)
Definition run_calls {E : Env} {X : MessageEnv} (cs : list service_call) (w : World) : World :=
  fold_left (fun w c => snd (run_call c w)) cs w.

Lemma run_calls_wf {E : Env} {X : MessageEnv} cs w :
  sys_wf w -> w_in_tx w = false -> sys_wf (run_calls cs w) /\ w_in_tx (run_calls cs w) = false.
Proof.
  intros Hwf Ht. apply (reachable_wf w); [done|done|]. clear Hwf Ht.
  revert w. induction cs as [|c cs IH]; intros w; [done|]. simpl. eapply rtc_l; [|apply IH].
  apply (service_step_call _ _ c (fst (run_call c w))). by destruct (run_call c w).
Qed.

Definition chat_calls : list service_call := [CallSendText first_text; CallSendText (text_of "are you there?")].
Definition chat : World := run_calls chat_calls sample_world.

Lemma chat_wf : sys_wf chat.
Proof. apply (run_calls_wf chat_calls sample_world sample_sys_wf eq_refl). Qed.
