(* ===== verification/MessageFacts.v ===== *)
(** * MessageFacts: lemmas shared by the theorems on message services

    What publishing a message's events leaves alone and what it adds, and the
    splitting of batches into done and skipped ids. *)
From S2P Require Import Prelude Domain Events Message World DialogStore Outbox TagService MessageStore ControlEvents.
From S2P Require Import MessageStatus StatusService ExternalStore TagStore MediaProcessor MessageService MessageActions.
#[local] Open Scope Z_scope.

(** ** Texts and their revisions *)
Definition texts (w : World) : list MessageRow * list RevisionRow := (db_messages (w_db w), db_revisions (w_db w)).
#[export] Instance texts_quiet : Quiet texts := ltac:(by split).

(** Who is in which thread, and up to where they have read. *)
Definition people (w : World) : list ThreadRow * list DialogRow * list PermRow :=
  (db_threads (w_db w), db_dialogs (w_db w), db_perms (w_db w)).
#[export] Instance people_quiet : Quiet people := ltac:(by split).

(** ** Publishing *)
Section dispatch.
Context {E : Env} {H : ThreadTagHooks} {X : MessageEnv}.

Lemma quiet_dispatchEvents {B} (P : World -> B) {Q : Quiet P} es topic : preserves P (dispatchEvents es topic).
Proof. unfold dispatchEvents. pose proof (quiet_Publish P). frame. Qed.

Lemma quiet_dispatch {B} (P : World -> B) {Q : Quiet P} msg : preserves P (dispatchMessageEvents msg).
Proof. unfold dispatchMessageEvents. pose proof (quiet_dispatchEvents P). frame. Qed.

Lemma dispatch_answer msg w msg' w' : dispatchMessageEvents msg w = (OK msg', w') -> msg' = snd (Message_Events msg).
Proof.
  unfold dispatchMessageEvents, Message_Events. destruct (msg_domainEvents msg) as [|e es]; [done|].
  intros Hr. step_ok Hr. by injection Hr as <- <-.
Qed.

(** The events of the outbox, in order. *)
Definition events (w : World) : list Event := o_event <$> db_outbox (w_db w).

Lemma published_events topic e at_ tx d : o_event <$> db_outbox (published topic e at_ tx d) = (o_event <$> db_outbox d) ++ [e].
Proof. unfold published. destruct (JournalThreadID e); simpl; by rewrite fmap_app. Qed.

Lemma dispatchEvents_run es topic w u w' : dispatchEvents es topic w = (OK u, w') -> events w' = events w ++ es.
Proof.
  revert w. induction es as [|e es IH]; intros w; [intros [= <- <-]; by rewrite app_nil_r|].
  unfold dispatchEvents. rewrite for_each_cons. intros Hr. step_ok Hr.
  apply map_err_ok, Publish_ok in Hs as (_ & _ & _ & Hd). apply IH in Hr. rewrite Hr. unfold events.
  by rewrite Hd, published_events, <- app_assoc.
Qed.

Lemma dispatch_run msg w msg' w' : dispatchMessageEvents msg w = (OK msg', w') ->
  msg' = snd (Message_Events msg) /\ events w' = events w ++ msg_domainEvents msg /\
  texts w' = texts w /\ people w' = people w.
Proof.
  intros Hr. pose proof (dispatch_answer _ _ _ _ Hr) as ->. split; [done|].
  pose proof (preserves_ok _ _ _ _ _ (quiet_dispatch texts msg) Hr) as ->.
  pose proof (preserves_ok _ _ _ _ _ (quiet_dispatch people msg) Hr) as ->. split; [|done].
  unfold dispatchMessageEvents, Message_Events in Hr. destruct (msg_domainEvents msg) as [|e es]; [done|].
  step_ok Hr. injection Hr as <-. by apply dispatchEvents_run in Hs.
Qed.
End dispatch.

Lemma QuickView_run {E : Env} f w l w' : GetQuickView f w = (OK l, w') -> w_db w' = w_db w.
Proof. apply preserves_ok. unfold GetQuickView. frame. Qed.

Lemma preserves_modify {B} (P : World -> B) f : (forall w, P (f w) = P w) -> preserves P (modify f).
Proof. intros Hf w. apply Hf. Qed.

Ltac still := repeat first [ solve [eauto with svc] | apply preserves_modify; intros ?; reflexivity | frame_step ].

(** ** What a step publishes

    [adds P m]: whatever its outcome, [m] only appends to the outbox, events
    that satisfy [P]. *)
Definition adds (P : Event -> Prop) {A} (m : SM A) : Prop :=
  forall w, exists es, events (snd (m w)) = events w ++ es /\ Forall P es.

Section adds.
Context {E : Env} (P : Event -> Prop).

Lemma adds_none {A} (m : SM A) : preserves events m -> adds P m.
Proof. intros Hm w. exists []. rewrite Hm, app_nil_r. by split. Qed.

Lemma adds_bind {A B} (m : SM A) (f : A -> SM B) : adds P m -> (forall a, adds P (f a)) -> adds P (mbind f m).
Proof.
  intros Hm Hf w. rewrite M_bind_unfold. destruct (Hm w) as (es & He & HP). destruct (m w) as [[a|e] w1]; simpl in *; [|by exists es].
  destruct (Hf a w1) as (es' & He' & HP'). exists (es ++ es'). rewrite He', He, app_assoc. split; [done|by apply Forall_app].
Qed.

Lemma adds_for_each {A} (f : A -> SM unit) xs : (forall x, x ∈ xs -> adds P (f x)) -> adds P (for_each f xs).
Proof.
  intros Hf. induction xs as [|x xs IH]; [by apply adds_none|]. simpl. apply adds_bind; [apply Hf; left|].
  intros _. apply IH. intros y Hy. apply Hf. by right.
Qed.

Lemma adds_map_err {A} f (m : SM A) : adds P m -> adds P (map_err f m).
Proof. intros Hm w. unfold map_err. destruct (Hm w) as (es & He). exists es. by destruct (m w) as [[?|?] ?]. Qed.

Lemma adds_publish topic e : P e -> adds P (Publish topic e).
Proof.
  intros He. unfold Publish. apply adds_bind; [by apply adds_none|]. intros [|]; [|by apply adds_none]. simpl.
  assert (forall t c, adds P (publish_row t e c)) as Hrow.
  { intros t c w. unfold publish_row, exec. rewrite M_bind_unfold. unfold statement.
    destruct (_ && _); [exists []; by rewrite app_nil_r|]. destruct (env_fault _); [exists []; by rewrite app_nil_r|].
    exists [e]. unfold events. simpl. rewrite fmap_app. split; [done|]. by repeat constructor. }
  destruct (JournalThreadID e) as [tid|]; [|apply Hrow].
  apply adds_bind; [apply adds_none; unfold liveCursor; frame|]. intros c.
  apply adds_bind; [apply adds_none; unfold appendJournal; still|]. intros _.
  apply adds_bind; [|intros; apply Hrow]. apply adds_none. unfold markContacts, markAudience.
  still.
Qed.

Lemma adds_weaken {A} (Q : Event -> Prop) (m : SM A) : (forall e, P e -> Q e) -> adds P m -> adds Q m.
Proof. intros HQ Hm w. destruct (Hm w) as (es & He & Hes). exists es. split; [done|]. by eapply Forall_impl. Qed.
End adds.

(** ** What the statuses and tags of a message leave alone *)
Section sent.
Context {E : Env} {X : MessageEnv}.

Definition content (w : World) : list ThreadRow * list MessageRow := (db_threads (w_db w), db_messages (w_db w)).
#[export] Instance content_quiet : Quiet content := ltac:(by split).

(** Events of a message being sent other than its creation. *)
Definition side_event (e : Event) : Prop :=
  match e with EvThreadTagsChanged _ | EvMessageStatus _ => True | _ => False end.

Lemma adds_tags msg : adds side_event (OnMessageTags msg).
Proof.
  unfold OnMessageTags. destruct (bool_decide _); [by apply adds_none|].
  apply adds_bind; [apply adds_none; unfold TagStore.RemoveForContacts; still|]. intros cs.
  apply adds_for_each. intros c _. unfold publishTagsChanged.
  apply adds_bind; [apply adds_none; unfold TagStore.ListNames; still|]. intros tags.
  apply adds_bind; [by apply adds_none|]. intros at_. by apply adds_publish.
Qed.

Lemma adds_statuses cs : adds side_event (dispatchStatusChangeEvents cs).
Proof.
  unfold dispatchStatusChangeEvents. destruct (groupStatusChanges cs) as [|e es]; [by apply adds_none|].
  apply adds_bind; [apply adds_none; unfold statusParticipants, GetQuickView; still|]. intros ds.
  apply adds_for_each. intros e' _. apply adds_map_err. by apply adds_publish.
Qed.

Lemma MarkDelivered_leaves {B} (P : World -> B) rs :
  (forall b w, P (set_tick b w) = P w) -> (forall f w, P (set_db (on_dialogs f (w_db w)) w) = P w) ->
  (forall f w, P (set_db (on_errors f (w_db w)) w) = P w) -> preserves P (MarkDelivered rs).
Proof.
  intros Ht Hd He. assert (preserves P statement) as Hst by (by apply preserves_statement).
  unfold MarkDelivered, resolveThreadIDsForDelivery, resolveSeqFromMessageID, advanceDeliveredHorizon, movedHorizons, clearRecoveredErrors.
  repeat first [ solve [eauto with svc] | apply preserves_modify; intros ?; (apply Hd || apply He)
               | lazymatch goal with |- preserves _ (statement_as _) => by apply preserves_map_err end | frame_step ].
Qed.

Lemma InsertSent_leaves {B} (P : World -> B) msg ids :
  (forall b w, P (set_tick b w) = P w) -> (forall f w, P (set_db (on_dialogs f (w_db w)) w) = P w) ->
  (forall b w, P (set_txstate (w_tx w) (w_in_tx w) b w) = P w) -> preserves P (InsertSent msg ids).
Proof.
  intros Ht Hd Ha. assert (preserves P statement) as Hst by (by apply preserves_statement). unfold InsertSent.
  repeat first [ solve [eauto with svc] | apply preserves_modify; intros ?; apply Hd
               | lazymatch goal with |- preserves _ (statement_as _) => by apply preserves_map_err
                                   | |- preserves _ (reject_as _) => apply preserves_reject, Ha end | frame_step ].
Qed.

Lemma insertSent_content msg : preserves content (insertSentStatuses msg).
Proof.
  unfold insertSentStatuses, dispatchStatusChangeEvents, statusParticipants.
  apply preserves_bind; [by apply InsertSent_leaves|]. intros _.
  apply preserves_bind; [apply OnMessage_quiet, content_quiet|]. intros _.
  destruct (bot_receipts msg) as [|r rs]; [still|].
  apply preserves_bind; [apply preserves_map_err; by apply MarkDelivered_leaves|]. intros cs.
  pose proof (quiet_Publish content). pose proof (quiet_GetQuickView content). still.
Qed.

Lemma insertSent_events msg : adds side_event (insertSentStatuses msg).
Proof.
  unfold insertSentStatuses. apply adds_bind; [apply adds_none; by apply InsertSent_leaves|]. intros _.
  apply adds_bind; [apply adds_tags|]. intros _. destruct (bot_receipts msg) as [|r rs]; [by apply adds_none|].
  apply adds_bind; [apply adds_none, preserves_map_err; by apply MarkDelivered_leaves|]. intros cs. apply adds_statuses.
Qed.

Lemma inbound_leaves {B} (P : World -> B) msg from x :
  (forall b w, P (set_tick b w) = P w) -> (forall f w, P (set_db (on_externals f (w_db w)) w) = P w) ->
  (forall n w, P (set_next n w) = P w) ->
  (forall b w, P (set_txstate (w_tx w) (w_in_tx w) b w) = P w) -> preserves P (recordInboundExternalID msg from x).
Proof.
  intros Ht Hx Hn Ha. assert (preserves P statement) as Hst by (by apply preserves_statement).
  unfold recordInboundExternalID, ExternalStore.Save.
  repeat first [ solve [eauto with svc] | apply preserves_modify; intros ?; apply Hx
               | lazymatch goal with |- preserves _ (statement_as _) => by apply preserves_map_err
                                   | |- preserves _ fresh => by apply preserves_fresh
                                   | |- preserves _ (reject_as _) => apply preserves_reject, Ha end | frame_step ].
Qed.
End sent.
