(* ===== verification/Atomicity.v ===== *)
(** * Atomicity: a failed call leaves no trace

    A call that reports an error has changed no table of the conversation, sent
    nothing to the external providers or the broker and left no transaction
    open.  The display names of gates and queues are refreshed before the
    transaction and stay. *)
From S2P Require Import Prelude Domain Events Message World BotControlStore.
From S2P Require Import BotControl DialogStore ThreadStore PermissionStore Permissions.
From S2P Require Import PermissionRules TagStore Outbox TagService Samples MessageStore.
From S2P Require Import References ControlEvents BotFlow Members DirectThread Invariant Safety.
From S2P Require Import MessageStatus StatusService ExternalStore ReactionStore PreviewStore VariableStore MediaProcessor.
From S2P Require Import Commands MessageService MessageActions Variables Previews TypingService ServiceSafety System.
#[local] Open Scope Z_scope.

(** What other parties can see of the state: everything stored but the display
    names, the messages sent, whether a transaction is open. *)
Definition stored (d : DB) : DB := on_source_refs (fun _ => []) (on_queue_refs (fun _ => []) d).
Definition visible (w : World) := (stored (w_db w), w_sent w, w_signals w, w_in_tx w).

(** What has left the process. *)
Definition told (w : World) := (w_sent w, w_signals w).
#[export] Instance quiet_told : Quiet told.
Proof. by split. Qed.

#[local] Hint Extern 1 (Quiet _) => typeclasses eauto : svc.

(** ** Nothing is sent before the commit *)
Section sent.
Context {E : Env}.

Abbreviation quiet m := (preserves told m).

Lemma sent_modify f : (forall w, told (f w) = told w) -> quiet (modify f).
Proof. intros Hf w. apply Hf. Qed.

Ltac quietly := repeat first [ solve [eauto with svc] | apply sent_modify; intros ?; reflexivity | frame_step ].

Lemma sent_within {A} (fn : SM A) : quiet fn -> quiet (WithinTransaction fn).
Proof.
  intros Hfn w. unfold WithinTransaction. destruct (w_in_tx w); [apply Hfn|].
  destruct (env_fault _); [done|]. pose proof (Hfn (set_txstate (w_tx w + 1) true false (set_tick false w))) as H1.
  destruct (fn _) as [[a|e] w1]; simpl in *; [|done]. by destruct (_ || _).
Qed.

Lemma sent_Push tr : quiet (Push tr).
Proof. unfold Push. quietly. Qed.
Lemma sent_Pop t m r b : quiet (Pop t m r b).
Proof. unfold Pop. quietly. Qed.
Lemma sent_Clear t : quiet (ClearController t).
Proof. unfold ClearController. quietly. Qed.
Lemma sent_Set t m : quiet (SetController t m).
Proof. unfold SetController. quietly. Qed.
Lemma sent_Restore t : quiet (RestoreController t).
Proof. unfold RestoreController. quietly. Qed.
Lemma sent_GetStack t : quiet (GetStack t).
Proof. unfold GetStack. quietly. Qed.
Lemma sent_Create m : quiet (DialogStore.Create m).
Proof. unfold DialogStore.Create. quietly. Qed.
Lemma sent_Delete m r : quiet (DialogStore.Delete m r).
Proof. unfold DialogStore.Delete. quietly. Qed.
Lemma sent_Adopt t m : quiet (AdoptUntrackedBot t m).
Proof. unfold AdoptUntrackedBot. quietly. Qed.
Lemma sent_Lock t : quiet (LockForUpdate t).
Proof. unfold LockForUpdate. quietly. Qed.
Lemma sent_ThreadGet q : quiet (ThreadStore.Get q).
Proof. unfold ThreadStore.Get. quietly. Qed.
Lemma sent_ThreadCreate t : quiet (ThreadStore.Create t).
Proof. unfold ThreadStore.Create. quietly. Qed.
Lemma sent_SetCRM t c : quiet (ThreadStore.SetCRMContact t c).
Proof. unfold ThreadStore.SetCRMContact. quietly. Qed.
Lemma sent_Save msg : quiet (SaveSystemMessage msg).
Proof. unfold SaveSystemMessage. quietly. Qed.
Lemma sent_TagAdd t : quiet (TagStore.Add t).
Proof. unfold TagStore.Add. quietly. Qed.
Lemma sent_TagRemove i c : quiet (TagStore.Remove i c).
Proof. unfold TagStore.Remove. quietly. Qed.
Lemma sent_RemoveByName t c g : quiet (TagStore.RemoveByName t c g).
Proof. unfold TagStore.RemoveByName. quietly. Qed.
Lemma sent_changed t c d : quiet (publishTagsChanged t c d).
Proof. apply quiet_publishTagsChanged. apply _. Qed.
#[local] Hint Resolve sent_Push sent_Pop sent_Clear sent_Set sent_Restore sent_GetStack sent_Create sent_Delete
  sent_Adopt sent_Lock sent_ThreadGet sent_ThreadCreate sent_SetCRM sent_Save sent_TagAdd sent_TagRemove
  sent_RemoveByName sent_changed : svc.

Lemma sent_activeMember t c : quiet (activeMember t c).
Proof. unfold activeMember. quietly. Qed.
#[local] Hint Resolve sent_activeMember : svc.
Lemma sent_notify t c : quiet (notifyMemberTagsChanged t c).
Proof. unfold notifyMemberTagsChanged. quietly. Qed.
#[local] Hint Resolve sent_notify : svc.

Lemma sent_message msg : quiet (sendThreadSystemMessage msg).
Proof. unfold sendThreadSystemMessage, new_string. quietly. Qed.
#[local] Hint Resolve sent_message : svc.
Lemma sent_add i ic m rs t d : quiet (sendAddMemberSystemMessage i ic m rs t d).
Proof. unfold sendAddMemberSystemMessage, new_string. quietly. Qed.
Lemma sent_remove i ic m rs r d : quiet (sendRemoveMemberSystemMessage i ic m rs r d).
Proof. unfold sendRemoveMemberSystemMessage, new_string. quietly. Qed.
Lemma sent_transfer i m rs t d : quiet (sendTransferSystemMessage i m rs t d).
Proof. unfold sendTransferSystemMessage, new_string. quietly. Qed.
#[local] Hint Resolve sent_add sent_remove sent_transfer : svc.

Lemma sent_release t d : quiet (releaseControlToAgent t d).
Proof. unfold releaseControlToAgent. quietly. Qed.
Lemma sent_restoreAfter t d : quiet (restoreControlAfterAgent t d).
Proof. unfold restoreControlAfterAgent. quietly. Qed.
Lemma sent_adopt t m : quiet (adoptUntrackedBot t m).
Proof. unfold adoptUntrackedBot. quietly. Qed.
#[local] Hint Resolve sent_release sent_restoreAfter sent_adopt : svc.

Lemma sent_push_new_bot t m b : quiet (push_new_bot t m b).
Proof. unfold push_new_bot. quietly. Qed.
#[local] Hint Resolve sent_push_new_bot : svc.

Lemma sent_add_body req isBot i d b ti p before : quiet before -> quiet (add_body req isBot i d b ti p before).
Proof. intros Hb. unfold add_body. quietly. Qed.
Lemma sent_transfer_body req i p : quiet (transfer_body req i p).
Proof. unfold transfer_body, transfer_control. quietly. Qed.
Lemma sent_remove_body req i t : quiet (remove_body req i t).
Proof. unfold remove_body, remove_bot, remove_person. quietly. Qed.
Lemma sent_complete_body req : quiet (complete_body req).
Proof. unfold complete_body. quietly. Qed.
Lemma sent_release_body req : quiet (release_body req).
Proof. unfold release_body. quietly. Qed.
Lemma sent_create_body req b : quiet (create_body req b).
Proof.
  unfold create_body, createDirectThread, publishThreadCreatedEvents, initializeDirectThreadDialogs. quietly.
Qed.
End sent.

(** *** Messages, statuses, reactions and previews *)
Section sent_messages.
Context {E : Env} {X : MessageEnv}.

Abbreviation quiet m := (preserves told m).
Ltac quietly := repeat first [ solve [eauto with svc] | apply sent_modify; intros ?; reflexivity | frame_step ].

Lemma sent_insert_content q c msg src missing acc loc con int :
  quiet missing -> quiet (insert_content q c msg src missing acc loc con int).
Proof. intros H. unfold insert_content. quietly. Qed.
Lemma sent_documents mid docs : quiet (insert_documents mid docs).
Proof. unfold insert_documents. quietly. Qed.
Lemma sent_images mid imgs : quiet (insert_images mid imgs).
Proof. unfold insert_images. quietly. Qed.
#[local] Hint Resolve sent_insert_content sent_documents sent_images : svc.
Lemma sent_SaveMessage msg : quiet (SaveMessage msg).
Proof. unfold SaveMessage. quietly. Qed.
Lemma sent_SaveLocation msg : quiet (SaveMessageLocation msg).
Proof. unfold SaveMessageLocation. quietly. Qed.
Lemma sent_SaveContact msg : quiet (SaveMessageContact msg).
Proof. unfold SaveMessageContact. quietly. Qed.
Lemma sent_SaveInteractive msg : quiet (SaveInteractiveMessage msg).
Proof. unfold SaveInteractiveMessage. quietly. Qed.
Lemma sent_SaveDocuments mid docs : quiet (SaveDocuments mid docs).
Proof. unfold SaveDocuments. quietly. Qed.
Lemma sent_CopyAttachments a b : quiet (CopyAttachments a b).
Proof. unfold CopyAttachments. quietly. Qed.
Lemma sent_StoreEdit msg : quiet (MessageStore.EditMessage msg).
Proof. unfold MessageStore.EditMessage. quietly. Qed.
Lemma sent_StoreDelete ids who : quiet (MessageStore.DeleteMessages ids who).
Proof. unfold MessageStore.DeleteMessages. quietly. Qed.
Lemma sent_GetQuickView f : quiet (GetQuickView f).
Proof. unfold GetQuickView. quietly. Qed.
Lemma sent_InsertSent msg ids : quiet (InsertSent msg ids).
Proof. unfold InsertSent. quietly. Qed.
Lemma sent_MarkDelivered rs : quiet (MarkDelivered rs).
Proof.
  unfold MarkDelivered, resolveThreadIDsForDelivery, resolveSeqFromMessageID, advanceDeliveredHorizon, movedHorizons,
    clearRecoveredErrors. quietly.
Qed.
Lemma sent_MarkRead rs : quiet (MarkRead rs).
Proof.
  unfold MarkRead, resolveReadSeqFromMessageID, clampReadSeqToThread, advanceReadHorizon, movedHorizons,
    clearRecoveredErrors. quietly.
Qed.
Lemma sent_MarkFailed rs : quiet (MarkFailed rs).
Proof. unfold MarkFailed. quietly. Qed.
Lemma sent_Recount ts : quiet (RecountUnread ts).
Proof. unfold RecountUnread. quietly. Qed.
Lemma sent_StoreReaction r : quiet (ReactionStore.SetReaction r).
Proof. unfold ReactionStore.SetReaction. quietly. Qed.
Lemma sent_Aggregate mid : quiet (AggregateForMessage mid).
Proof. unfold AggregateForMessage. quietly. Qed.
Lemma sent_ExternalSave r : quiet (ExternalStore.Save r).
Proof. unfold ExternalStore.Save. quietly. Qed.
Lemma sent_VariableSet cmd : quiet (VariableStore.Set_ cmd).
Proof. unfold VariableStore.Set_. quietly. Qed.
Lemma sent_PreviewGet t c dom : quiet (GetActiveForUpdate t c dom).
Proof. unfold GetActiveForUpdate. quietly. Qed.
Lemma sent_Upsert p ttl : quiet (Upsert p ttl).
Proof. unfold Upsert. quietly. Qed.
Lemma sent_Revoke id r : quiet (Revoke id r).
Proof. unfold Revoke. quietly. Qed.
#[local] Hint Resolve sent_SaveMessage sent_SaveLocation sent_SaveContact sent_SaveInteractive sent_SaveDocuments
  sent_CopyAttachments sent_StoreEdit sent_StoreDelete sent_GetQuickView sent_InsertSent sent_MarkDelivered
  sent_MarkRead sent_MarkFailed sent_Recount sent_StoreReaction sent_Aggregate sent_ExternalSave sent_VariableSet
  sent_PreviewGet sent_Upsert sent_Revoke sent_Lock sent_Save : svc.

Lemma sent_statuses cs : quiet (dispatchStatusChangeEvents cs).
Proof. unfold dispatchStatusChangeEvents, statusParticipants. quietly. Qed.
Lemma sent_events es topic : quiet (dispatchEvents es topic).
Proof. unfold dispatchEvents. quietly. Qed.
#[local] Hint Resolve sent_statuses sent_events : svc.
Lemma sent_dispatch msg : quiet (dispatchMessageEvents msg).
Proof. unfold dispatchMessageEvents. quietly. Qed.
Lemma sent_insertSent msg : quiet (insertSentStatuses msg).
Proof. unfold insertSentStatuses. quietly. Qed.
Lemma sent_inbound msg p x : quiet (recordInboundExternalID msg p x).
Proof. unfold recordInboundExternalID. quietly. Qed.
Lemma sent_seed msg vars : quiet (seedThreadVariables msg vars).
Proof. unfold seedThreadVariables. quietly. Qed.
Lemma sent_callback c : quiet (saved ← SaveCallback c;
    let saved := callback_created env_ctx saved in dispatchInteractiveCallbackEvents saved;; mret saved).
Proof. unfold SaveCallback, dispatchInteractiveCallbackEvents. quietly. Qed.
#[local] Hint Resolve sent_dispatch sent_insertSent sent_inbound sent_seed : svc.

Lemma sent_save_text in_ t msg : quiet (save_text in_ t msg).
Proof. unfold save_text. quietly. Qed.
Lemma sent_save_document in_ msg : quiet (save_document in_ msg).
Proof. unfold save_document. quietly. Qed.
Lemma sent_save_card save msg : (forall m, quiet (save m)) -> quiet (save_card save msg).
Proof. intros H. unfold save_card. quietly. Qed.
Lemma sent_save_interactive msg : quiet (save_interactive msg).
Proof. unfold save_interactive. quietly. Qed.
Lemma sent_edit_body msg : quiet (edit_body msg).
Proof. unfold edit_body. quietly. Qed.
Lemma sent_announce p c by_ msgs : quiet (announce_deleted p c by_ msgs).
Proof. revert by_. induction msgs as [|m msgs IH]; intros by_; simpl; quietly. Qed.
#[local] Hint Resolve sent_announce : svc.
Lemma sent_delete_body in_ c : quiet (delete_body in_ c).
Proof. unfold delete_body. quietly. Qed.
Lemma sent_reaction_body r : quiet (reaction_body r).
Proof. unfold reaction_body. quietly. Qed.
Lemma sent_forwardOne in_ t src n : quiet (forwardOne in_ t src n).
Proof. unfold forwardOne, saveForwardedMessage. quietly. Qed.
#[local] Hint Resolve sent_forwardOne : svc.
Lemma sent_forward_all in_ t names srcs : quiet (forward_all in_ t names srcs).
Proof. induction srcs as [|s srcs IH]; simpl; quietly. Qed.
Lemma sent_spend req : quiet (spend_preview req).
Proof. unfold spend_preview. quietly. Qed.
Lemma sent_give req : quiet (give_body req).
Proof. unfold give_body. quietly. Qed.
Lemma sent_remove_preview req : quiet (remove_preview_body req).
Proof. unfold remove_preview_body. quietly. Qed.
Lemma sent_system msg : quiet (
    saved ← SaveSystemMessage msg;
    let saved := msg_sent (msg_To msg) (msg_IdempotencyKey msg) None saved in
    insertSentStatuses saved;;
    dispatchMessageEvents (WithCreatedEvent env_uuid_valid env_ctx (msg_IdempotencyKey msg) saved)).
Proof. quietly. cbv zeta. quietly. Qed.
End sent_messages.

(** ** Atomic computations *)
Definition atomic {E : Env} {A} (m : SM A) : Prop :=
  forall w e w', w_in_tx w = false -> m w = (Err e, w') -> visible w' = visible w.

Section atomic.
Context {E : Env}.

Lemma visible_within w w' : w_in_tx w = false -> w_db w' = w_db w -> told w' = told w -> w_in_tx w' = false ->
  visible w' = visible w.
Proof. intros Ht Hd [= Hs Hg] Ht'. unfold visible. by rewrite Hd, Hs, Hg, Ht, Ht'. Qed.

Lemma atomic_within {A} (fn : SM A) : preserves told fn -> atomic (WithinTransaction fn).
Proof.
  intros Hq w e w' Ht Hr. destruct (WithinTransaction_err _ _ _ _ Ht Hr) as [Hd Ht'].
  apply visible_within; try done. by eapply (preserves_ok told); [apply sent_within|].
Qed.

Lemma atomic_silent {A} (m : SM A) : preserves visible m -> atomic m.
Proof. intros Hm w e w' _ Hr. by apply (preserves_ok visible _ _ _ _ Hm Hr). Qed.

Lemma atomic_bind {A C} (m : SM A) (f : A -> SM C) :
  preserves visible m -> (forall a, atomic (f a)) -> atomic (mbind f m).
Proof.
  intros Hm Hf w e w' Ht Hr. rewrite M_bind_unfold in Hr. specialize (Hm w).
  destruct (m w) as [[a|e1] w1]; simpl in *; [|by injection Hr as <- <-].
  rewrite <- Hm. apply (Hf a _ e); [|done]. apply (f_equal snd) in Hm. simpl in Hm. by rewrite Hm.
Qed.

(** What follows the commit never fails. *)
Lemma atomic_then {A C} (m : SM A) (f : A -> SM C) :
  atomic m -> (forall a w, is_ok (fst (f a w)) = true) -> atomic (mbind f m).
Proof.
  intros Hm Hf w e w' Ht Hr. rewrite M_bind_unfold in Hr. destruct (m w) as [[a|e1] w1] eqn:Hmw.
  - specialize (Hf a w1). rewrite Hr in Hf. done.
  - injection Hr as <- <-. by apply (Hm w e1).
Qed.

Lemma atomic_guard (c : bool) {A} (e : error) (m : SM A) : atomic m -> atomic (if c then throw e else m).
Proof. intros Hm. destruct c; [|done]. by intros w ? w' _ [= _ <-]. Qed.

Lemma atomic_throw {A} e : atomic (throw e : SM A).
Proof. by intros w e' w' _ [= _ <-]. Qed.

(** *** What runs outside the transactions *)
Lemma silent_modify f : (forall w, visible (f w) = visible w) -> preserves visible (modify f).
Proof. intros Hf w. apply Hf. Qed.

Ltac silent := repeat first [ solve [eauto with svc] | apply silent_modify; intros ?; reflexivity | frame_step ].

Lemma silent_actors t i c : preserves visible (findAddMemberActors t i c).
Proof. unfold findAddMemberActors, GetFullView. silent. Qed.
#[local] Hint Resolve silent_actors : svc.
Lemma silent_pair i t : preserves visible (FindActorsPair i t).
Proof. unfold FindActorsPair. silent. Qed.
Lemma silent_verify t c : preserves visible (verifyOperator t c).
Proof. unfold verifyOperator. silent. Qed.
Lemma silent_queue d q : preserves visible (refreshQueue d q).
Proof. unfold refreshQueue, UpsertQueue, RememberQueue. silent. Qed.
Lemma silent_source r : preserves visible (refreshSource r).
Proof. unfold refreshSource, UpsertSource, RememberSource. silent. Qed.
Lemma silent_resolve q : preserves visible (ResolveThread q).
Proof. unfold ResolveThread. silent. Qed.
#[local] Hint Resolve silent_pair silent_verify silent_queue silent_source silent_resolve : svc.

Lemma dispatch_ok ms w : is_ok (fst (dispatchSystemMessages ms w)) = true.
Proof. unfold dispatchSystemMessages. by destruct env_providers. Qed.

Lemma dispatch_then {A} ms (a : A) w : is_ok (fst ((dispatchSystemMessages ms;; mret a : SM A) w)) = true.
Proof. unfold dispatchSystemMessages. by destruct env_providers. Qed.

Lemma atomic_addMemberToChat req before : preserves told before -> atomic (addMemberToChat req before).
Proof.
  intros Hb. unfold addMemberToChat. apply atomic_bind; [silent|]. intros [i [t|]]; [apply atomic_throw|].
  apply atomic_bind; [silent|]. intros _.
  match goal with |- atomic (let '(_, _) := ?x in _) => destruct x as [title by_] end.
  apply atomic_bind; [silent|]. intros perms. apply atomic_bind; [silent|]. intros _.
  apply atomic_then; [by apply atomic_within, sent_add_body|]. intros [nm msg] w. apply dispatch_then.
Qed.

Lemma atomic_AddMember req : atomic (AddMember req).
Proof. by apply atomic_addMemberToChat. Qed.

Lemma atomic_Transfer req : atomic (Transfer req).
Proof.
  unfold Transfer. destruct (decide _); [apply atomic_throw|].
  apply atomic_bind; [silent|]. intros [[i|] [t|]]; try apply atomic_throw.
  do 3 (apply atomic_bind; [silent|]; intros ?).
  apply atomic_then; [apply atomic_within, sent_transfer_body|]. intros [nm msg] w. apply dispatch_then.
Qed.

Lemma atomic_RemoveMember req : atomic (RemoveMember req).
Proof.
  unfold RemoveMember. apply atomic_bind; [silent|]. intros [i [t|]]; [|apply atomic_throw].
  apply atomic_bind; [silent|]. intros _.
  apply atomic_then; [apply atomic_within, sent_remove_body|]. intros msg w. apply dispatch_ok.
Qed.

Lemma ensure_existing_ok req th w : is_ok (fst (ensure_existing req th w)) = true.
Proof. unfold ensure_existing. destruct (_ && _); [|done]. by destruct (ensureBotControl _ _ _) as [[? ?] ?]. Qed.

Lemma refreshSource_ok r w : is_ok (fst (refreshSource r w)) = true.
Proof.
  unfold refreshSource. destruct r as [r|]; [|done]. run. destruct (negb _); [done|].
  rewrite M_bind_unfold. unfold catch. by destruct (UpsertSource r w) as [[?|?] ?].
Qed.

Lemma atomic_Ensure req : atomic (EnsureDirectThread req).
Proof.
  unfold EnsureDirectThread. apply atomic_bind; [silent|]. intros [th|].
  - intros w e w' _ Hr. exfalso. rewrite M_bind_unfold in Hr. pose proof (ensure_existing_ok req th w) as H1.
    destruct (ensure_existing req th w) as [[th'|?] w1]; [|done]. rewrite M_bind_unfold in Hr.
    pose proof (refreshSource_ok (sourceRefFromPeers (en_DomainID req) [Some (en_From req); Some (en_To req)]) w1) as H2.
    by destruct (refreshSource _ w1) as [[?|?] ?].
  - unfold orchestrateDirectThreadCreation. apply atomic_bind; [silent|]. intros _. apply atomic_bind; [silent|]. intros _.
    apply atomic_within, sent_create_body.
Qed.
End atomic.

(** *** Messages *)
Section atomic_messages.
Context {E : Env} {X : MessageEnv}.

(** A step that cannot fail, after one that can. *)
Lemma atomic_total {A} (m : SM A) : (forall w, is_ok (fst (m w)) = true) -> atomic m.
Proof. intros Hm w e w' _ Hr. specialize (Hm w). by rewrite Hr in Hm. Qed.

Lemma atomic_catch {A C} (m : SM A) (f : result A -> SM C) :
  atomic m -> (forall a w, is_ok (fst (f (OK a) w)) = true) -> (forall e, preserves visible (f (Err e))) ->
  atomic (mbind f (catch m)).
Proof.
  intros Hm Hok He w e w' Ht Hr. rewrite M_bind_unfold in Hr. unfold catch in Hr.
  destruct (m w) as [[a|e1] w1] eqn:Hmw; simpl in Hr.
  - specialize (Hok a w1). by rewrite Hr in Hok.
  - rewrite <- (Hm w e1 w1 Ht Hmw). by apply (preserves_ok visible _ _ _ _ (He e1) Hr).
Qed.

Ltac silent := repeat first [ solve [eauto with svc] | apply silent_modify; intros ?; reflexivity | frame_step ].

Lemma atomic_UpdateDelivery r : atomic (UpdateDelivery r).
Proof.
  unfold UpdateDelivery. destruct r as [r|]; [|apply atomic_throw]. apply atomic_guard.
  destruct (negb _); [apply atomic_throw|]. apply atomic_bind; [silent|]. intros _. apply atomic_bind; [silent|].
  intros d. destruct (find_first _ _); [by apply atomic_total|apply atomic_throw].
Qed.

Lemma atomic_UpdateMessageDelivery in_ : atomic (UpdateMessageDelivery in_).
Proof.
  unfold UpdateMessageDelivery. apply atomic_guard. destruct (negb _); [apply atomic_throw|].
  apply atomic_bind; [silent|]. intros at_. apply atomic_catch; [apply atomic_UpdateDelivery|done|silent].
Qed.

Lemma atomic_SendTyping in_ : atomic (SendTyping in_).
Proof.
  unfold SendTyping. destruct (SendTypingGuard in_); [|apply atomic_throw]. destruct (negb _); [by apply atomic_total|].
  apply atomic_bind; [unfold Allow; silent|]. intros ok. destruct (negb ok); [by apply atomic_total|].
  apply atomic_bind; [unfold GetQuickView; silent|]. intros ms. destruct (negb _); [apply atomic_throw|].
  apply atomic_total. intros w. unfold publishTyping, dispatchExternalTyping. run.
  destruct (menv_publish _); destruct env_providers; try destruct (external_peers _ _); done.
Qed.

Lemma atomic_SetReaction in_ : atomic (MessageActions.SetReaction in_).
Proof.
  unfold MessageActions.SetReaction. destruct (ValidateSetReaction in_); [|apply atomic_throw].
  apply atomic_then; [apply atomic_within, sent_reaction_body|]. intros [r res] w. by destruct (rr_Changed res).
Qed.
End atomic_messages.

(** A permission update, a send and a change of variables are more than one
    transaction. *)
Definition transactional (c : service_call) : bool :=
  match c with
  | CallUpdatePermissions _ | CallSendText _ | CallSendDocument _ | CallSendLocation _ | CallSendContact _
  | CallSendInteractive _ | CallSendSystemMessage _ | CallForwardMessages _ | CallSetVariables _
  | CallFlushVariables _ => false
  | _ => true
  end.

(** (C2) Atomicity: a call of the service that fails, at whatever step and for
    whatever reason, database faults and failed commits included, leaves every
    table but the display names of gates and queues exactly as it was, has sent
    nothing to the providers or the broker and leaves no transaction open.  It
    holds for the calls on threads, members, tags, previews and existing
    messages; sends are the subject of [failed_send_leaves_thread]. *)
Theorem failed_call_changes_nothing {E : Env} {X : MessageEnv} (c : service_call) (w w' : World) e :
  transactional c = true -> w_in_tx w = false ->
  run_call c w = (Err e, w') -> visible w' = visible w.
Proof.
  intros Hc. revert w e w'. change (atomic (run_call c)).
  assert (forall A (m : SM A), atomic m -> atomic (m;; mret tt)) as Hseq by (intros A m Hm; by apply atomic_then).
  assert (forall A (m : SM A), preserves told m -> atomic (WithinTransaction m)) as Hwithin by (intros; by apply atomic_within).
  destruct c; try done; simpl; try apply Hseq.
  - apply atomic_Ensure.
  - apply atomic_AddMember.
  - apply atomic_Transfer.
  - apply atomic_RemoveMember.
  - unfold CompleteBotControl. do 2 (destruct (decide _); [apply atomic_throw|]). apply Hwithin, sent_complete_body.
  - unfold ReleaseBotControl. destruct (decide _); [apply atomic_throw|]. apply Hwithin, sent_release_body.
  - apply atomic_bind; [apply silent_verify|]. intros _. apply Hwithin.
    apply preserves_bind; [apply sent_Restore|]. frame.
  - apply atomic_bind; [apply silent_verify|]. intros _. apply Hwithin, sent_release.
  - apply atomic_bind; [apply silent_verify|]. intros _. apply Hwithin.
    apply preserves_bind; [apply sent_SetCRM|]. frame.
  - unfold AddTag. do 3 (destruct (decide _); [apply atomic_throw|]). apply Hwithin.
    apply preserves_bind; [apply sent_activeMember|]. intros [m|]; [|frame].
    apply preserves_bind; [apply sent_TagAdd|]. intros [t ins]. destruct ins; [|frame].
    apply preserves_bind; [apply sent_changed|frame].
  - unfold RemoveTag. do 2 (destruct (decide _); [apply atomic_throw|]). apply Hwithin.
    apply preserves_bind; [apply sent_TagRemove|]. intros t. apply sent_notify.
  - unfold RemoveTagByName. do 3 (destruct (decide _); [apply atomic_throw|]). apply Hwithin.
    apply preserves_bind; [apply sent_RemoveByName|]. intros []; [apply sent_notify|frame].
  - unfold MessageActions.Read. destruct (ValidateReadMessage req); [|apply atomic_throw]. apply Hwithin.
    apply preserves_bind; [apply preserves_map_err, sent_MarkRead|]. intros [|c cs]; [frame|apply sent_statuses].
  - unfold MessageActions.EditMessage. destruct (decide _); [apply atomic_throw|]. apply atomic_guard, Hwithin, sent_edit_body.
  - unfold MessageActions.DeleteMessages. do 2 apply atomic_guard. apply Hwithin, sent_delete_body.
  - apply atomic_SetReaction.
  - apply Hwithin, sent_callback.
  - apply Hwithin, preserves_bind; [apply sent_MarkDelivered|]. intros cs. apply preserves_bind; [apply sent_statuses|frame].
  - apply Hwithin, preserves_bind; [apply sent_MarkRead|]. intros cs. apply preserves_bind; [apply sent_statuses|frame].
  - apply Hwithin, preserves_bind; [apply sent_MarkFailed|]. intros cs. apply preserves_bind; [apply sent_statuses|frame].
  - apply atomic_UpdateMessageDelivery.
  - apply atomic_SendTyping.
  - unfold GivePreview. apply atomic_bind; [frame|]. intros _. apply atomic_guard, Hwithin, sent_give.
  - unfold RemoveFromPreview. apply atomic_guard, Hwithin, sent_remove_preview.
  - unfold UpgradePreviewToFullMember. apply atomic_bind; [frame|]. intros _. destruct (decide _); [apply atomic_throw|].
    destruct (getDefaultPermissionsByRole _); [|apply atomic_throw]. apply atomic_addMemberToChat, sent_spend.
Qed.

(** ** Sends

    A send first makes sure of the direct thread, in a transaction of its own. *)
Definition is_send (c : service_call) : bool :=
  match c with
  | CallSendText _ | CallSendDocument _ | CallSendLocation _ | CallSendContact _
  | CallSendInteractive _ | CallSendSystemMessage _ | CallForwardMessages _ => true
  | _ => false
  end.

Section sends.
Context {E : Env} {X : MessageEnv}.

Definition leaves_thread {A} (m : SM A) : Prop :=
  forall w e w', sys_wf w -> w_in_tx w = false -> m w = (Err e, w') ->
  visible w' = visible w \/
  exists req w1, visible w1 = visible w /\ visible w' = visible (snd (EnsureDirectThread req w1)).

Lemma leaves_atomic {A} (m : SM A) : atomic m -> leaves_thread m.
Proof. intros Hm w e w' _ Ht Hr. left. by apply (Hm w e w'). Qed.

Lemma leaves_ensure {A} req (k : Thread -> SM A) :
  (forall t, atomic (k t)) -> leaves_thread (mbind k (EnsureDirectThread req)).
Proof.
  intros Hk w e w' Hwf Ht Hr. rewrite M_bind_unfold in Hr.
  destruct (EnsureDirectThread_keeps false req w Ht (or_intror Hwf)) as (_ & _ & Ht1).
  destruct (EnsureDirectThread req w) as [[t|e1] w1] eqn:He; simpl in Ht1.
  - right. exists req, w. split; [done|]. rewrite He. simpl. apply (Hk t _ e); [congruence|done].
  - injection Hr as <- <-. left. by apply (atomic_Ensure req w e1).
Qed.

Lemma leaves_silent {A C} (m : SM A) (k : A -> SM C) :
  preserves visible m -> keeps false m -> (forall a, leaves_thread (k a)) -> leaves_thread (mbind k m).
Proof.
  intros Hm Hs Hk w e w' Hwf Ht Hr. rewrite M_bind_unfold in Hr. specialize (Hm w).
  destruct (Hs w Ht (or_intror Hwf)) as (Hg & _ & Ht1). destruct (m w) as [[a|e1] w1]; simpl in *.
  - rewrite Ht in Ht1. rewrite <- Hm. apply (Hk a w1 e w'); [by apply good_outside|done|done].
  - injection Hr as <- <-. by left.
Qed.

Lemma leaves_then {A C} (m : SM A) (f : A -> SM C) :
  leaves_thread m -> (forall a w, is_ok (fst (f a w)) = true) -> leaves_thread (mbind f m).
Proof.
  intros Hm Hf w e w' Hwf Ht Hr. rewrite M_bind_unfold in Hr. destruct (m w) as [[a|e1] w1] eqn:Hmw.
  - specialize (Hf a w1). by rewrite Hr in Hf.
  - injection Hr as <- <-. by apply (Hm w e1).
Qed.

Lemma atomic_map_err {A} f (m : SM A) : atomic m -> atomic (map_err f m).
Proof.
  intros Hm w e w' Ht. unfold map_err. destruct (m w) as [[a|e1] w1] eqn:Hmw; [done|].
  intros [= _ <-]. by apply (Hm w e1).
Qed.

Ltac silent := repeat first [ solve [eauto with svc] | apply silent_modify; intros ?; reflexivity | frame_step ].

Lemma silent_preview r t dom : preserves visible (resolveReplyPreview r t dom).
Proof. unfold resolveReplyPreview, GetReplyPreview. silent. Qed.
Lemma silent_external x p t dom : preserves visible (resolveExternalReply x p t dom).
Proof. unfold resolveExternalReply, LookupMessageID, GetReplyPreview. silent. Qed.
#[local] Hint Resolve silent_preview silent_external : svc.
Lemma silent_reply r x p t dom : preserves visible (resolveReply r x p t dom).
Proof. unfold resolveReply. silent. Qed.
Lemma silent_assert t docs : preserves visible (assertDocumentsBelongToThread t docs).
Proof. unfold assertDocumentsBelongToThread, FileIDsBoundToOtherThreads. silent. Qed.

Lemma provider_ok msg w : is_ok (fst (sendMessageToExternalProvider msg w)) = true.
Proof. unfold sendMessageToExternalProvider. by destruct env_providers. Qed.
Lemma provider_then {A} msg (a : A) w : is_ok (fst ((sendMessageToExternalProvider msg;; mret a : SM A) w)) = true.
Proof. unfold sendMessageToExternalProvider. by destruct env_providers. Qed.
Lemma providers_then {A} msgs (a : A) w : is_ok (fst ((for_each sendMessageToExternalProvider msgs;; mret a : SM A) w)) = true.
Proof.
  revert w. induction msgs as [|m msgs IH]; intros w; [done|]. specialize (IH (snd (sendMessageToExternalProvider m w))).
  rewrite M_bind_unfold in *. simpl for_each. rewrite M_bind_unfold. pose proof (provider_ok m w) as Hok.
  destruct (sendMessageToExternalProvider m w) as [[[]|?] w1]; [exact IH|done].
Qed.

(** *** Commands: the bot is released, then the message is written; an error of the latter is dropped *)
Lemma sendCommand_ok in_ msg w : is_ok (fst (sendCommandMessage in_ msg w)) = true.
Proof.
  unfold sendCommandMessage. destruct msg as [msg|]; [|done]. rewrite M_bind_unfold. unfold catch.
  by destruct (writeSystemMessage msg w).
Qed.

Lemma commands_atomic d name c req : d = commands -> d !! name = Some c -> atomic (cmd_Execute c req).
Proof.
  intros -> Hc. unfold commands, NewCommandDispatcher, CommandDispatcher in Hc. cbn [fold_left] in Hc.
  apply lookup_insert_Some in Hc as [[_ <-]|[_ He]]; [|by rewrite lookup_empty in He]. simpl. unfold close_Execute.
  apply atomic_then; [|done]. unfold ReleaseBotControl. destruct (decide _); [apply atomic_throw|].
  apply atomic_within, sent_release_body.
Qed.

Lemma handled_atomic t in_ (k : option (result (option Message)) -> SM SendTextResponse) :
  (forall r, k (Some r) = match r with Err e => throw e | OK msg => sendCommandMessage in_ msg end) ->
  atomic (k None) -> atomic (mbind k (Dispatch commands t in_)).
Proof.
  intros Hk Hn. unfold Dispatch. destruct (lookup_command commands (sx_Body in_)) as [c|] eqn:Hc; [|exact Hn].
  destruct (cmd_CanExecute c _); [|exact Hn].
  assert (atomic (cmd_Execute c (newCommandRequest t in_))) as Hat.
  { unfold lookup_command in Hc. destruct (String.prefix _ _); [|done]. by eapply commands_atomic. }
  intros w e w' Ht Hr. rewrite !M_bind_unfold in Hr. unfold catch in Hr.
  destruct (cmd_Execute c _ w) as [[msg|e1] w1] eqn:Hx; simpl in Hr; rewrite Hk in Hr.
  - pose proof (sendCommand_ok in_ msg w1) as Hok. by rewrite Hr in Hok.
  - injection Hr as <- <-. by apply (Hat w e1).
Qed.

(** After the preparation only atomic steps follow. *)
Lemma leaves_prepared {A} msg (k : Message -> SM A) :
  (forall m, atomic (k m)) -> leaves_thread (mbind k (prepareMessageForSending msg)).
Proof.
  intros Hk. unfold prepareMessageForSending.
  intros w e w' Hwf Ht Hr.
  match type of Hr with context [mbind k (mbind ?f ?m)] => assert (mbind k (mbind f m) w = mbind (fun t => mbind k (f t)) m w) as Hb end.
  { rewrite !M_bind_unfold. by destruct (EnsureDirectThread _ w) as [[?|?] ?]. }
  rewrite Hb in Hr. clear Hb. revert w e w' Hwf Ht Hr.
  match goal with |- forall w e w', _ -> _ -> ?m w = _ -> _ => change (leaves_thread m) end.
  apply leaves_ensure. intros t. apply atomic_bind; [|done].
  destruct (msg_ReplyTo _); silent.
Qed.
End sends.

(** (C32) A send that fails, whatever fails in it, leaves behind at most the direct
    thread it made sure of first: no message, no unread count, no event, no
    external id and nothing sent.  Every table but the display names of gates
    and queues is as before the call, or exactly as the first step left it. *)
Theorem failed_send_leaves_thread {E : Env} {X : MessageEnv} (c : service_call) (w w' : World) e :
  is_send c = true -> sys_wf w -> w_in_tx w = false -> run_call c w = (Err e, w') ->
  visible w' = visible w \/
  exists req w1, visible w1 = visible w /\ visible w' = visible (snd (EnsureDirectThread req w1)).
Proof.
  intros Hc. revert w e w'. change (leaves_thread (run_call c)).
  assert (forall A (m : SM A), leaves_thread m -> leaves_thread (m;; mret tt)) as Hseq by (intros; by apply leaves_then).
  assert (forall msg save, (forall m, preserves told (save m)) -> leaves_thread (send_card save msg)) as Hcard.
  { intros msg save Hs. apply leaves_prepared. intros m.
    apply atomic_then; [by apply atomic_within, sent_save_card|intros; apply provider_then]. }
  destruct c; try done; simpl; apply Hseq.
  - unfold SendText. destruct (SendTextGuard req); [|apply leaves_atomic, atomic_throw].
    apply leaves_ensure. intros t. apply handled_atomic; [by intros []|].
    apply atomic_bind; [apply silent_reply|]. intros reply.
    apply atomic_then; [apply atomic_map_err, atomic_within, sent_save_text|intros; apply provider_then].
  - unfold SendDocument. destruct (ValidateSendDocument req); [|apply leaves_atomic, atomic_throw].
    apply leaves_ensure. intros t. apply atomic_bind; [apply silent_reply|]. intros reply.
    apply atomic_bind; [apply silent_assert|]. intros _. do 4 (apply atomic_bind; [frame|]; intros ?).
    apply atomic_then; [apply atomic_within, sent_save_document|intros; apply provider_then].
  - apply Hcard, sent_SaveLocation.
  - apply Hcard, sent_SaveContact.
  - apply leaves_prepared. intros m. apply atomic_bind; [frame|]. intros m'.
    apply atomic_then; [apply atomic_within, sent_save_interactive|intros; apply provider_then].
  - apply leaves_prepared. intros m. unfold writeSystemMessage.
    apply atomic_then; [apply atomic_within, sent_system|intros; apply provider_then].
  - unfold ForwardMessages. destruct (ForwardMessagesGuard req); [|apply leaves_atomic, atomic_throw].
    apply leaves_silent; [unfold LoadForwardSources; frame|apply LoadForwardSources_keeps|].
    intros loaded. destruct (ff_Sources loaded); [apply leaves_atomic, atomic_throw|].
    apply leaves_ensure. intros t. apply atomic_then; [apply atomic_within, sent_forward_all|intros; apply providers_then].
Qed.

(** ** Witness: the commit of an added member fails *)
Definition faulty_env (at_tick : nat) : Env := {|
  env_fault := fun n => bool_decide (n = at_tick);
  env_can_invite := fun _ _ => OK tt;
  env_can_send := fun _ _ => OK tt;
  env_contact_info := None;
  env_providers := None;
  env_contact_is_bot := fun _ => None;
  env_uuid_string := fun u => pretty u;
  env_uuid_valid := fun _ => false;
  env_graphemes := fun s => Z.of_nat (String.length s);
  env_join_pick := fun _ _ => 0%nat;
  env_ctx := MkCtx None None |}.

Definition sample_add : AddMemberRequest := MkAddMember 1 200 100 Role.RoleMember 7 false None None false.

Lemma failed_call_changes_nothing_witness :
  exists e w', run_call (E:=faulty_env 19) (CallAddMember sample_add) sample_world = (Err e, w') /\
    w_ticks w' = 20%nat /\ visible w' = visible sample_world.
Proof.
  assert (exists e, run_call (E:=faulty_env 19) (CallAddMember sample_add) sample_world =
    (Err e, snd (run_call (E:=faulty_env 19) (CallAddMember sample_add) sample_world))) as [e H] by runs.
  exists e. eexists. split; [exact H|]. split; [vm_compute; reflexivity|].
  exact (failed_call_changes_nothing (E:=faulty_env 19) (CallAddMember sample_add) sample_world _ e eq_refl eq_refl H).
Defined.

(** ** Witness: a first text whose statement fails after the thread was created *)
Lemma failed_send_leaves_thread_witness :
  exists e w', run_call (E:=faulty_env 20) (X:=quiet_media) (CallSendText first_text) sample_world = (Err e, w') /\
    length (db_threads (w_db w')) = 3%nat /\ db_messages (w_db w') = [] /\
    (visible w' = visible sample_world \/
     exists req w1, visible w1 = visible sample_world /\
       visible w' = visible (snd (EnsureDirectThread (E:=faulty_env 20) req w1))).
Proof.
  assert (exists e, run_call (E:=faulty_env 20) (X:=quiet_media) (CallSendText first_text) sample_world =
    (Err e, snd (run_call (E:=faulty_env 20) (X:=quiet_media) (CallSendText first_text) sample_world))) as [e H] by runs.
  exists e. eexists. split; [exact H|]. split; [vm_compute; reflexivity|]. split; [vm_compute; reflexivity|].
  exact (failed_send_leaves_thread (E:=faulty_env 20) (X:=quiet_media) (CallSendText first_text) sample_world _ e
    eq_refl sample_sys_wf eq_refl H).
Defined.
