(* ===== verification/Seats.v ===== *)
(** * Seats: who is in which thread, with which rights and who controls it

    The part of the database the member and bot-control services decide over,
    and the operations that leave it alone: announcing, saving system messages
    and the tag hooks. *)
From S2P Require Import Prelude Domain Events Message World BotControlStore.
From S2P Require Import BotControl DialogStore ThreadStore Permissions TagStore Outbox.
From S2P Require Import TagService MessageStore References ControlEvents BotFlow Members.
#[local] Open Scope Z_scope.

(** The control columns of a thread. *)
Definition control_of (t : ThreadRow) : uuid * option uuid * option uuid :=
  (t_id t, t_bot_controller_id t, t_owner_bot_id t).

Definition controls (d : DB) := control_of <$> db_threads d.

Definition controller (tid : uuid) (d : DB) : option uuid := t ← find_thread tid d; t_bot_controller_id t.
Definition owner_bot (tid : uuid) (d : DB) : option uuid := t ← find_thread tid d; t_owner_bot_id t.

Definition seats (w : World) :=
  let d := w_db w in (db_dialogs d, db_perms d, db_settings d, db_stack d, controls d).

#[export] Instance quiet_seats : Quiet seats.
Proof. by split. Qed.
#[export] Instance quiet_threads : Quiet (fun w => db_threads (w_db w)).
Proof. by split. Qed.

#[export] Hint Extern 1 (Quiet _) => typeclasses eauto : svc.

(** Controller and owner read off the control columns. *)
Definition find_control (tid : uuid) (cs : list (uuid * option uuid * option uuid)) :=
  find_first (fun c => bool_decide (c.1.1 = tid)) cs.

Lemma find_control_thread tid d : find_control tid (controls d) = control_of <$> find_thread tid d.
Proof.
  unfold find_control, controls, find_thread. induction (db_threads d) as [|t l IH]; [done|]. simpl.
  by destruct (bool_decide (t_id t = tid)).
Qed.

Lemma controller_eq tid d d' : controls d' = controls d -> controller tid d' = controller tid d.
Proof.
  intros Hc. pose proof (find_control_thread tid d) as H1. rewrite <- Hc, find_control_thread in H1.
  unfold controller. by destruct (find_thread tid d), (find_thread tid d'); simplify_eq/=.
Qed.

Lemma owner_bot_eq tid d d' : controls d' = controls d -> owner_bot tid d' = owner_bot tid d.
Proof.
  intros Hc. pose proof (find_control_thread tid d) as H1. rewrite <- Hc, find_control_thread in H1.
  unfold owner_bot. by destruct (find_thread tid d), (find_thread tid d'); simplify_eq/=.
Qed.

(** The controller after a thread update. *)
Lemma controller_update tid tid' c o d :
  controller tid' (update_thread tid (fun t => set_thread_control (c t) (o t) t) d) =
  (if decide (tid' = tid) then t ← find_thread tid d; c t else controller tid' d).
Proof.
  unfold controller. rewrite find_thread_update by done. destruct (decide (tid' = tid)) as [->|Hne].
  - destruct (find_thread tid d) as [t|] eqn:Ht; [|done]. simpl. apply find_thread_Some in Ht as [_ Ht].
    by rewrite bool_decide_true.
  - destruct (find_thread tid' d) as [t|] eqn:Ht; [|done]. simpl. apply find_thread_Some in Ht as [_ Ht].
    by rewrite bool_decide_false by congruence.
Qed.

Section quiet.
Context {E : Env} {H : ThreadTagHooks}.

(** Saving a message moves only the counter of the thread. *)
Lemma seats_SaveSystemMessage msg : preserves seats (SaveSystemMessage msg).
Proof.
  unfold SaveSystemMessage. apply preserves_bind; [frame|]. intros _. destruct (msg_System msg) as [sys|]; [|frame].
  apply preserves_bind; [frame|]. intros _. apply preserves_bind; [frame|]. intros d.
  destruct (find_thread _ _) as [t|]; [|frame]. destruct (negb _); [frame|].
  apply preserves_bind; [frame|]. intros id. apply preserves_bind; [frame|]. intros at_.
  apply preserves_bind; [|frame]. intros w. unfold seats, controls. simpl. by rewrite update_where_proj.
Qed.
#[local] Hint Resolve seats_SaveSystemMessage : svc.

Lemma seats_message msg : preserves seats (sendThreadSystemMessage msg).
Proof. unfold sendThreadSystemMessage, new_string. frame. Qed.
#[local] Hint Resolve seats_message : svc.

Lemma seats_sendAdd i ic m rs tid dom : preserves seats (sendAddMemberSystemMessage i ic m rs tid dom).
Proof. unfold sendAddMemberSystemMessage, new_string. frame. Qed.
Lemma seats_sendRemove i ic m rs reason dom : preserves seats (sendRemoveMemberSystemMessage i ic m rs reason dom).
Proof. unfold sendRemoveMemberSystemMessage, new_string. frame. Qed.
Lemma seats_sendTransfer i m rs tid dom : preserves seats (sendTransferSystemMessage i m rs tid dom).
Proof. unfold sendTransferSystemMessage, new_string. frame. Qed.

Lemma seats_Lock tid : preserves seats (LockForUpdate tid).
Proof. unfold LockForUpdate. frame. Qed.

Lemma seats_GetStack tid : preserves seats (GetStack tid).
Proof. unfold GetStack. frame. Qed.
End quiet.

#[export] Hint Resolve seats_message seats_sendAdd seats_sendRemove seats_sendTransfer seats_Lock seats_GetStack : svc.

(** [seat H]: the seats before and after a step that leaves them alone. *)
Lemma seats_ok {E : Env} {A} (m : SM A) w r w' : m w = (r, w') -> preserves seats m -> seats w' = seats w.
Proof. intros Hr Hm. by apply (preserves_ok seats m w r w'). Qed.

Lemma seats_fields w w' : seats w' = seats w ->
  db_dialogs (w_db w') = db_dialogs (w_db w) /\ db_perms (w_db w') = db_perms (w_db w) /\
  db_settings (w_db w') = db_settings (w_db w) /\ db_stack (w_db w') = db_stack (w_db w) /\
  controls (w_db w') = controls (w_db w).
Proof. unfold seats. by intros [= -> -> -> -> ->]. Qed.

(** ** Seats after the steps that move them *)
Section moves.
Context {E : Env}.

Definition seats_db (d : DB) := (db_dialogs d, db_perms d, db_settings d, db_stack d, controls d).

Lemma Create_ok m w x w' : DialogStore.Create m w = (OK x, w') ->
  exists t, find_thread (tde_ThreadID m) (w_db w) = Some t /\ create_accepted m (w_db w) = true /\
    w_db w' = create_sql (w_next w) (w_next w + 1) (w_now w) t m (w_db w) /\ w_now w' = w_now w /\
    tde_ID x = w_next w /\ tde_ContactID x = tde_ContactID m /\ tde_ThreadID x = tde_ThreadID m /\
    tde_IsBot x = tde_IsBot m /\ tde_DomainID x = t_domain_id t.
Proof.
  unfold DialogStore.Create. destruct (decide _); [done|]. destruct (decide _); [done|]. intros Hr.
  step_ok Hr. apply statement_as_ok in Hs as (-> & _). run in Hr. simpl in Hr.
  destruct (find_thread _ _) as [t|] eqn:Ht; [|done]. destruct (create_accepted m (w_db w)) eqn:Ha; [|done].
  run in Hr. simpl in Hr. injection Hr as <- <-. exists t. apply find_thread_Some in Ht as [_ Ht]. done.
Qed.

Lemma Lock_ok tid w u w' : LockForUpdate tid w = (OK u, w') -> w' = set_tick (w_aborted w) w.
Proof.
  unfold LockForUpdate. intros Hr. step_ok Hr. apply statement_as_ok in Hs as (-> & _).
  run in Hr. destruct (find_thread _ _); [|done]. run in Hr. by simplify_eq.
Qed.

Lemma Delete_ok m reason w u w' : DialogStore.Delete m reason w = (OK u, w') ->
  is_Some (find_dialog m (w_db w)) /\
  w_db w' = on_dialogs (update_where (fun r => bool_decide (d_id r = m)) (soft_delete (w_now w) reason)) (w_db w).
Proof.
  unfold DialogStore.Delete. destruct (decide _); [done|]. intros Hr. step_ok Hr. apply statement_ok in Hs as (-> & _).
  run in Hr. simpl in Hr. destruct (find_dialog m (w_db w)) eqn:Hf; [|done]. run in Hr. by simplify_eq.
Qed.

Lemma releaseControlToAgent_ok tid dom w u w' : releaseControlToAgent tid dom w = (OK u, w') ->
  seats w' = seats_db (clear_sql tid (w_db w)) /\
  (clear_prev tid (w_db w) = None -> db_outbox (w_db w') = db_outbox (w_db w)).
Proof.
  unfold releaseControlToAgent. intros Hr. step_ok Hr. apply ClearController_ok in Hs as (Hd & _ & ->).
  destruct (clear_prev tid (w_db w)) as [m|].
  - split; [|done]. apply (seats_ok _ _ _ _) in Hr; [|frame]. rewrite Hr. unfold seats, seats_db. by rewrite Hd.
  - run in Hr. simplify_eq. unfold seats, seats_db. rewrite Hd. done.
Qed.

Lemma controller_clear tid' tid d : controller tid' (clear_sql tid d) = if decide (tid' = tid) then None else controller tid' d.
Proof.
  rewrite clear_sql_control, (controller_update _ _ (fun _ => None)). destruct (decide _); [|done].
  by destruct (find_thread tid d).
Qed.

Lemma controller_seats tid w d : seats w = seats_db d -> controller tid (w_db w) = controller tid d.
Proof. unfold seats, seats_db. intros [= _ _ _ _ Hc]. by apply controller_eq. Qed.

(** A pushed bot controls its thread from the top of the stack. *)
Lemma push_new_bot_ok tid nm tb w u w' : push_new_bot tid nm tb w = (OK u, w') ->
  controller tid (w_db w') = Some (tde_ID nm) /\
  (exists top, stack_top tid (w_db w') = Some top /\ s_member_id top = Some (tde_ID nm)).
Proof.
  unfold push_new_bot. intros Hr. step_ok Hr. step_ok Hr. apply map_err_ok, Push_ok in Hs0 as (Ha & Hd & _ & _). simpl in Ha, Hd.
  apply push_accepted_spec in Ha as ([t Ht] & _ & _ & _).
  apply (seats_ok _ _ _ _) in Hr; [|frame].
  split.
  - rewrite (controller_seats tid w' (w_db w1)) by exact Hr. rewrite Hd.
    change (controller tid (update_thread tid (fun t => set_thread_control (Some (tde_ID nm))
      (coalesce (t_owner_bot_id t) (earliest_free_bot tid (w_db w0))) t) (w_db w0)) = Some (tde_ID nm)).
    rewrite (controller_update tid tid (fun _ => Some (tde_ID nm))), decide_True by done. by rewrite Ht.
  - apply seats_fields in Hr as (_ & _ & _ & Hst & _). unfold stack_top, stack_rows. rewrite Hst, Hd.
    eexists. split; [apply stack_top_push|done].
Qed.
End moves.
