(* ===== verification/MemberRules.v ===== *)
(** * MemberRules: what adding, transferring and removing members guarantees

    Who may add, transfer or remove, and what exactly changes in the seats of
    the thread when the call succeeds. *)
From S2P Require Import Prelude Domain Events Message World BotControlStore.
From S2P Require Import BotControl Samples DialogStore ThreadStore Permissions PermissionRules.
From S2P Require Import TagStore Outbox TagService Tags MessageStore References ControlEvents.
From S2P Require Import BotFlow Members Invariant Safety System Seats.
#[local] Open Scope Z_scope.

(** ** The actors *)

(** A dialog as the full view presents it. *)
Definition shows (d : DB) (tid : uuid) (r : DialogRow) (p : PermRow) (x : ThreadDialogExtended) : Prop :=
  r ∈ db_dialogs d /\ d_deleted_at r = None /\ d_thread_id r = tid /\
  p ∈ db_perms d /\ p_thread_dialog_id p = d_id r /\
  tde_ID x = d_id r /\ tde_ContactID x = d_member_id r /\ tde_ThreadID x = tid /\
  tde_ThreadRole x = d_thread_role r /\ tde_DomainID x = d_domain_id r /\
  tde_Permissions x = with_react false (p_perms p) /\ tde_IsBot x = d_is_bot r.

Lemma pick_contacts_spec ic tc ds : forall acc,
  (forall i, (pick_contacts ic tc ds acc).1 = Some i -> acc.1 = Some i \/ (i ∈ ds /\ tde_ContactID i = ic)) /\
  (forall t, (pick_contacts ic tc ds acc).2 = Some t -> acc.2 = Some t \/ (t ∈ ds /\ tde_ContactID t = tc)) /\
  ((pick_contacts ic tc ds acc).2 = None -> acc.2 = None /\ forall x, x ∈ ds -> tde_ContactID x <> tc) /\
  ((pick_contacts ic tc ds acc).1 = None -> acc.1 = None /\ forall x, x ∈ ds -> tde_ContactID x <> ic).
Proof.
  induction ds as [|x ds IH]; intros [i t].
  { simpl. split_and!; try (by left); intros ->; (split; [done|]); intros ? Hx; by apply not_elem_of_nil in Hx. }
  simpl.
  set (acc' := (if decide (tde_ContactID x = ic) then Some x else i,
                if decide (tde_ContactID x = tc) then Some x else t)).
  destruct (IH acc') as (IH1 & IH2 & IH3 & IH4).
  assert ((forall y, (pick_contacts ic tc ds acc').1 = Some y -> i = Some y \/ (y ∈ x :: ds /\ tde_ContactID y = ic)) /\
          (forall y, (pick_contacts ic tc ds acc').2 = Some y -> t = Some y \/ (y ∈ x :: ds /\ tde_ContactID y = tc)) /\
          ((pick_contacts ic tc ds acc').2 = None -> t = None /\ forall y, y ∈ x :: ds -> tde_ContactID y <> tc) /\
          ((pick_contacts ic tc ds acc').1 = None -> i = None /\ forall y, y ∈ x :: ds -> tde_ContactID y <> ic))
    as (J1 & J2 & J3 & J4).
  { split_and!.
    - intros y [Hy|[Hy ?]]%IH1; [|right; split; [by right|done]]. simpl in Hy. case_decide; [|by left].
      simplify_eq. right. split; [left|done].
    - intros y [Hy|[Hy ?]]%IH2; [|right; split; [by right|done]]. simpl in Hy. case_decide; [|by left].
      simplify_eq. right. split; [left|done].
    - intros [Hn Hds]%IH3. simpl in Hn. case_decide; [done|]. split; [done|]. intros y [->|Hy]%elem_of_cons; auto.
    - intros [Hn Hds]%IH4. simpl in Hn. case_decide; [done|]. split; [done|]. intros y [->|Hy]%elem_of_cons; auto. }
  destruct i as [i|], t as [t|]; simpl; [|split_and!; assumption..].
  split_and!; [by left|by left|done|done].
Qed.

Section actors.
Context {E : Env}.

Lemma full_view_shows f tid d ds x : full_view f d = OK ds -> sf_ThreadIDs f = Some [tid] -> sf_IncludeDeleted f = false ->
  x ∈ ds -> exists r p, shows d tid r p x.
Proof.
  unfold full_view, collectRows. destruct (mapM _ _) as [k|] eqn:Hk; [|done]. intros [= <-] Ht Hdel (rec & -> & Hrec)%list_elem_of_fmap.
  destruct (elem_of_mapM _ _ _ _ Hk Hrec) as ([[r op] os] & Hin & Hscan).
  assert ((r, op, os) ∈ (select_where (full_filter f) (db_dialogs d) ≫= full_rows d)) as Hin'.
  { unfold paged in Hin. case_match.
    - apply elem_of_take in Hin as (i & Hi & _). rewrite lookup_drop in Hi. by eapply list_elem_of_lookup_2.
    - apply list_elem_of_lookup in Hin as [i Hi]. rewrite lookup_drop in Hi. by eapply list_elem_of_lookup_2. }
  apply list_elem_of_bind in Hin' as (r0 & Hin' & Hr0). unfold scan_full in Hscan.
  destruct op as [p|]; [|done]. destruct os as [s|]; [|done]. injection Hscan as <-.
  apply elem_of_full_rows in Hin' as (-> & Hp & Hpd). apply elem_of_select in Hr0 as [Hr0 Hf].
  unfold full_filter, any_of, active in Hf. rewrite Ht, Hdel in Hf. simpl in Hf.
  rewrite !andb_true_iff, !bool_decide_eq_true in Hf. destruct Hf as [[[Hti _] _] Hd].
  apply list_elem_of_singleton in Hti. exists r0, p. unfold shows. simpl. split_and!; done.
Qed.

(** No row of the contact in the view: the contact is not an active member. *)
Lemma full_view_complete tid cs d ds r :
  full_view (MkDialogFilter 0 0 (Some [tid]) (Some cs) None false 0) d = OK ds ->
  r ∈ db_dialogs d -> d_thread_id r = tid -> d_deleted_at r = None -> d_member_id r ∈ cs ->
  exists x, x ∈ ds /\ tde_ContactID x = d_member_id r.
Proof.
  unfold full_view, collectRows. destruct (mapM _ _) as [k|] eqn:Hk; [|done]. intros [= <-] Hr Ht Hd Hc.
  unfold paged in Hk. simpl in Hk. rewrite drop_0 in Hk. apply mapM_Some in Hk.
  assert (exists y, y ∈ full_rows d r) as [y Hy].
  { unfold full_rows, left_join. destruct (select_where _ (db_perms d)), (select_where _ (db_settings d)); simpl; eexists; left. }
  assert (y ∈ (select_where (full_filter (MkDialogFilter 0 0 (Some [tid]) (Some cs) None false 0)) (db_dialogs d) ≫= full_rows d)) as Hin.
  { apply list_elem_of_bind. exists r. split; [done|]. apply elem_of_select. split; [done|].
    unfold full_filter, any_of, active. simpl. rewrite !andb_true_iff, !bool_decide_eq_true.
    split_and!; try done. by apply list_elem_of_singleton. }
  apply list_elem_of_lookup in Hin as [i Hi]. destruct (Forall2_lookup_l _ _ _ _ _ Hk Hi) as (rec & Hrec & Hscan).
  exists (mapToThreadDialogExtendedModel rec). split; [apply list_elem_of_fmap_2; by eapply list_elem_of_lookup_2|].
  assert (y.1.1 = r) as <-.
  { unfold full_rows in Hy. apply list_elem_of_bind in Hy as (? & Hy & _). apply list_elem_of_bind in Hy as (? & Hy & _).
    by apply list_elem_of_singleton in Hy as ->. }
  destruct y as [[r' [p|]] [s|]]; [|done..]. simpl in Hscan. by injection Hscan as <-.
Qed.

Lemma findAddMemberActors_ok tid ic tc w i t w' :
  findAddMemberActors tid ic tc w = (OK (i, t), w') ->
  w' = set_tick (w_aborted w) w /\
  (forall x, i = Some x -> exists r p, shows (w_db w) tid r p x /\ d_member_id r = ic) /\
  (t = None -> forall r, r ∈ db_dialogs (w_db w) -> d_thread_id r = tid -> d_deleted_at r = None -> d_member_id r <> tc) /\
  (i = None -> forall r, r ∈ db_dialogs (w_db w) -> d_thread_id r = tid -> d_deleted_at r = None -> d_member_id r <> ic).
Proof.
  unfold findAddMemberActors, GetFullView. intros Hr. step_ok Hr. step_ok Hs. apply statement_ok in Hs0 as (-> & _).
  simpl in Hs. run in Hs. unfold of_result in Hs. simpl in Hs. injection Hs as Hv ->. run in Hr. injection Hr as Hpick <-.
  destruct (pick_contacts_spec ic tc a (None, None)) as (H1 & _ & H3 & H4). rewrite Hpick in H1, H3, H4. simpl in *.
  split; [done|]. split; [|split].
  - intros x ->. destruct (H1 x eq_refl) as [|[Hx Hc]]; [done|].
    destruct (full_view_shows _ tid _ _ _ Hv eq_refl eq_refl Hx) as (r & p & Hsh). exists r, p. split; [done|].
    destruct Hsh as (_ & _ & _ & _ & _ & _ & Hcc & _). congruence.
  - intros -> r Hr Ht Hd Hc. destruct (H3 eq_refl) as [_ Hno].
    destruct (full_view_complete _ _ _ _ r Hv Hr Ht Hd) as (x & Hx & Hxc); [rewrite Hc; right; left|].
    apply (Hno x Hx). congruence.
  - intros -> r Hr Ht Hd Hc. destruct (H4 eq_refl) as [_ Hno].
    destruct (full_view_complete _ _ _ _ r Hv Hr Ht Hd) as (x & Hx & Hxc); [rewrite Hc; left|].
    apply (Hno x Hx). congruence.
Qed.
End actors.

(** ** Adding *)
Lemma default_perms_react role p : defaultPermissionsByRole role = Some p -> with_react true p = p.
Proof. unfold defaultPermissionsByRole. repeat case_decide; by intros [= <-]. Qed.

Section add.
Context {E : Env}.

(** The transaction, with the hook run after the lock. *)
Lemma add_body_run req isBot i dom by_ title perms before w nm msg w' :
  add_body req isBot i dom by_ title perms before w = (OK (nm, msg), w') ->
  exists u0 w0 m t w1 u,
    before (set_tick (w_aborted w) w) = (OK u0, w0) /\
    m = new_dialog_request (am_ThreadID req) (am_NewMemberContactID req) (am_NewMemberRole req) dom by_ perms isBot
          (isBot && resolveAutoLeave (am_AutoLeave req)) (queueIDOf (am_Queue req)) title (w_now w0) /\
    find_thread (am_ThreadID req) (w_db w0) = Some t /\ create_accepted m (w_db w0) = true /\
    tde_ID nm = w_next w0 /\
    seats w1 = seats_db (create_sql (w_next w0) (w_next w0 + 1) (w_now w0) t m (w_db w0)) /\
    (if isBot then push_new_bot (am_ThreadID req) nm by_
     else if isOperator false (am_NewMemberRole req) then releaseControlToAgent (am_ThreadID req) (tde_DomainID nm)
     else mret tt) w1 = (OK u, w').
Proof.
  unfold add_body. intros Hr. step_ok Hr. apply Lock_ok in Hs as ->. step_ok Hr. rename a0 into u0, w0 into wb, Hs into Hbefore.
  run in Hr. step_ok Hr. apply Create_ok in Hs as (t & Ht & Ha & Hd & Hnow & Hid & _).
  simpl in Ht, Ha, Hd, Hid. step_ok Hr. apply (seats_ok _ _ _ _) in Hs; [|frame].
  step_ok Hr. apply (seats_ok _ _ _ _) in Hs0; [|frame]. step_ok Hr. run in Hr. injection Hr as <- <- <-.
  eexists u0, wb, _, t, _, _. split; [exact Hbefore|]. split; [reflexivity|].
  split_and!; [exact Ht|exact Ha|exact Hid| |exact Hs1].
  rewrite Hs0, Hs. unfold seats, seats_db. by rewrite Hd.
Qed.

Lemma add_body_ok req isBot i dom by_ title perms w nm msg w' :
  add_body req isBot i dom by_ title perms (mret tt) w = (OK (nm, msg), w') ->
  exists m t w1 u,
    m = new_dialog_request (am_ThreadID req) (am_NewMemberContactID req) (am_NewMemberRole req) dom by_ perms isBot
          (isBot && resolveAutoLeave (am_AutoLeave req)) (queueIDOf (am_Queue req)) title (w_now w) /\
    find_thread (am_ThreadID req) (w_db w) = Some t /\ create_accepted m (w_db w) = true /\
    tde_ID nm = w_next w /\
    seats w1 = seats_db (create_sql (w_next w) (w_next w + 1) (w_now w) t m (w_db w)) /\
    (if isBot then push_new_bot (am_ThreadID req) nm by_
     else if isOperator false (am_NewMemberRole req) then releaseControlToAgent (am_ThreadID req) (tde_DomainID nm)
     else mret tt) w1 = (OK u, w').
Proof.
  intros (u0 & w0 & m & t & w1 & u & Hb & Hrest)%add_body_run. injection Hb as _ <-. simpl in Hrest. by exists m, t, w1, u.
Qed.

Lemma refreshQueue_same {B} (P : World -> B) dom q :
  (forall b w, P (set_tick b w) = P w) ->
  (forall f w, P (set_db (on_queue_refs f (w_db w)) w) = P w) ->
  (forall x y w, P (set_caches x y w) = P w) -> preserves P (refreshQueue dom q).
Proof.
  intros Ht Hd Hc. assert (preserves P statement) as Hst by (by apply preserves_statement).
  unfold refreshQueue, UpsertQueue, RememberQueue.
  repeat first [ solve [eauto with svc] | lazymatch goal with |- preserves _ (modify _) => intros ?; (apply Hd || apply Hc)
               | |- preserves _ (statement_as _) => by apply preserves_map_err end | frame_step ].
Qed.

Lemma refreshQueue_core dom q w u w' : refreshQueue dom q w = (OK u, w') -> core (w_db w') = core (w_db w).
Proof. apply (preserves_ok (fun w => core (w_db w))). by apply refreshQueue_same. Qed.

Lemma dispatch_ret {A} ms (a b : A) w w' : (dispatchSystemMessages ms;; mret a : SM A) w = (OK b, w') ->
  b = a /\ w_db w' = w_db w.
Proof. unfold dispatchSystemMessages. destruct env_providers; intros Hr; run in Hr; by simplify_eq. Qed.

(** With the hook the caller gives. *)
Lemma addMemberToChat_ok req before w id w' : addMemberToChat req before w = (OK id, w') ->
  exists i dom by_ title perms w0 w1 nm msg,
    let isBot := am_IsBot req || peerIsBot (am_NewMemberContactID req) dom in
    (forall x, i = Some x -> exists r p, shows (w_db w) (am_ThreadID req) r p x /\ d_member_id r = am_InitiatorContactID req) /\
    (forall r, r ∈ db_dialogs (w_db w) -> d_thread_id r = am_ThreadID req -> d_deleted_at r = None ->
               d_member_id r <> am_NewMemberContactID req) /\
    (am_SystemCall req = false -> am_InitiatorContactID req <> uuid_Nil ->
       verifyAddMember i (am_NewMemberContactID req) (am_NewMemberRole req) = OK tt) /\
    defaultPermissionsByRole (am_NewMemberRole req) = Some perms /\
    add_body req isBot i dom by_ title perms before w0 = (OK (nm, msg), w1) /\
    core (w_db w0) = core (w_db w) /\ db_previews (w_db w0) = db_previews (w_db w) /\ w_now w0 = w_now w /\
    id = tde_ID nm /\ w_db w' = w_db w1.
Proof.
  unfold addMemberToChat. intros Hr.
  apply M_bind_ok in Hr as ([i [t|]] & wa & Ha & Hr); [done|]. apply map_err_ok, findAddMemberActors_ok in Ha as (-> & Hi & Ht & _).
  apply M_bind_ok in Hr as (u1 & wv & Hv & Hr).
  match type of Hr with (let '(_, _) := ?x in _) _ = _ => destruct x as [title by_] end.
  apply M_bind_ok in Hr as (perms & wp & Hp & Hr). unfold of_result in Hp. injection Hp as Hp ->.
  apply M_bind_ok in Hr as (u2 & wq & Hq & Hr). apply M_bind_ok in Hr as ([nm msg] & w1 & Hb & Hr).
  assert (core (w_db wq) = core (w_db wp)) as Hcore by (by eapply refreshQueue_core).
  apply (preserves_ok (fun w => (db_previews (w_db w), w_now w))) in Hq as [= Hp1 Hn1]; [|apply refreshQueue_same; done].
  apply WithinTransaction_run in Hb as (w5 & w6 & Hb & _ & Hd5 & _ & Hn5 & _ & Hd6 & _).
  assert (core (w_db wp) = core (w_db w) /\ db_previews (w_db wp) = db_previews (w_db w) /\ w_now wp = w_now w) as (Hc1 & Hp2 & Hn2).
  { destruct (_ && _); [|by injection Hv as <- <-]. unfold of_result in Hv. by injection Hv as _ <-. }
  eexists i, _, by_, title, perms, w5, w6, nm, msg. cbv zeta. split_and!; [exact Hi|by apply Ht| | |exact Hb| | | | |].
  - intros Hsys Hini. rewrite Hsys, bool_decide_false in Hv by done. simpl in Hv. unfold of_result in Hv.
    destruct u1. by injection Hv as -> _.
  - unfold getDefaultPermissionsByRole in Hp. by destruct (defaultPermissionsByRole _); simplify_eq.
  - by rewrite Hd5, Hcore, Hc1.
  - congruence.
  - congruence.
  - by apply dispatch_ret in Hr as [-> _].
  - apply dispatch_ret in Hr as [_ ->]. done.
Qed.
(** A successful call: the checks passed and the transaction ran. *)
Lemma AddMember_ok req w id w' : AddMember req w = (OK id, w') ->
  exists i dom by_ title perms w0 w1 nm msg,
    let isBot := am_IsBot req || peerIsBot (am_NewMemberContactID req) dom in
    (forall x, i = Some x -> exists r p, shows (w_db w) (am_ThreadID req) r p x /\ d_member_id r = am_InitiatorContactID req) /\
    (forall r, r ∈ db_dialogs (w_db w) -> d_thread_id r = am_ThreadID req -> d_deleted_at r = None ->
               d_member_id r <> am_NewMemberContactID req) /\
    (am_SystemCall req = false -> am_InitiatorContactID req <> uuid_Nil ->
       verifyAddMember i (am_NewMemberContactID req) (am_NewMemberRole req) = OK tt) /\
    defaultPermissionsByRole (am_NewMemberRole req) = Some perms /\
    add_body req isBot i dom by_ title perms (mret tt) w0 = (OK (nm, msg), w1) /\
    core (w_db w0) = core (w_db w) /\ id = tde_ID nm /\ w_db w' = w_db w1.
Proof.
  intros (i & dom & by_ & title & perms & w0 & w1 & nm & msg & H1 & H2 & H3 & H4 & H5 & H6 & _ & _ & H7)%addMemberToChat_ok.
  by exists i, dom, by_, title, perms, w0, w1, nm, msg.
Qed.
End add.

(** (C16) Only an entitled member adds members: a call made by a contact succeeds
    only if the contact is an active member of the thread, may add members, is
    not below the role it gives, does not add itself and may invite the new
    contact, who is not yet an active member. *)
Theorem AddMember_authorized {E : Env} (req : AddMemberRequest) (w w' : World) id :
  am_SystemCall req = false -> am_InitiatorContactID req <> uuid_Nil ->
  AddMember req w = (OK id, w') ->
  exists r p,
    r ∈ db_dialogs (w_db w) /\ d_deleted_at r = None /\ d_thread_id r = am_ThreadID req /\
    d_member_id r = am_InitiatorContactID req /\
    p ∈ db_perms (w_db w) /\ p_thread_dialog_id p = d_id r /\ CanAddMembers (p_perms p) = true /\
    am_NewMemberRole req <= d_thread_role r /\ am_InitiatorContactID req <> am_NewMemberContactID req /\
    env_can_invite (am_InitiatorContactID req) (am_NewMemberContactID req) = OK tt /\
    forall x, x ∈ db_dialogs (w_db w) -> d_thread_id x = am_ThreadID req -> d_deleted_at x = None ->
              d_member_id x <> am_NewMemberContactID req.
Proof.
  intros Hsys Hini H. apply AddMember_ok in H as (i & dom & by_ & title & perms & w0 & w1 & nm & msg & Hi & Hfree & Hv & _).
  specialize (Hv Hsys Hini). destruct i as [x|]; [|done]. destruct (Hi x eq_refl) as (r & p & Hsh & Hc).
  destruct Hsh as (Hr & Hd & Ht & Hp & Hpd & _ & Hcc & _ & Hrole & _ & Hperm & _).
  unfold verifyAddMember in Hv. destruct (decide _) as [|Hne]; [done|].
  apply result_bind_ok in Hv as ([] & Hv & Hinv). unfold verifyAddMemberInitiatorPermissions in Hv.
  rewrite Hperm in Hv. simpl in Hv. destruct (CanAddMembers (p_perms p)) eqn:Hca; [|done]. simpl in Hv.
  destruct (Z.ltb_spec (tde_ThreadRole x) (am_NewMemberRole req)); [done|].
  rewrite Hrole in *. rewrite Hcc, Hc in *. exists r, p. split_and!; try done.
Qed.

(** Adding a person: the seats of the thread gain exactly one active member,
    with the id returned, the role asked for and the rights of that role; the
    stack and all other members stay.  A member below the owner role is an
    operator and takes the thread from its bots; nobody else's control moves. *)
Theorem AddMember_person {E : Env} (req : AddMemberRequest) (w w' : World) id :
  am_IsBot req = false -> (forall dom, peerIsBot (am_NewMemberContactID req) dom = false) ->
  AddMember req w = (OK id, w') ->
  exists r p s,
    db_dialogs (w_db w') = db_dialogs (w_db w) ++ [r] /\ db_perms (w_db w') = db_perms (w_db w) ++ [p] /\
    db_settings (w_db w') = db_settings (w_db w) ++ [s] /\ db_stack (w_db w') = db_stack (w_db w) /\
    d_id r = id /\ d_member_id r = am_NewMemberContactID req /\ d_thread_id r = am_ThreadID req /\
    d_thread_role r = am_NewMemberRole req /\ d_deleted_at r = None /\ d_is_bot r = false /\
    d_queue_id r = queueIDOf (am_Queue req) /\
    p_thread_dialog_id p = id /\ defaultPermissionsByRole (am_NewMemberRole req) = Some (p_perms p) /\
    st_thread_dialog_id s = id /\
    forall tid, controller tid (w_db w') =
      if decide (tid = am_ThreadID req /\ am_NewMemberRole req <> Role.RoleOwner) then None else controller tid (w_db w).
Proof.
  intros Hb Hpeer H. apply AddMember_ok in H as (i & dom & by_ & title & perms & w0 & w1 & nm & msg & _ & _ & _ & Hperm & Hbody & Hcore & -> & Hd).
  rewrite Hb, Hpeer in Hbody. simpl in Hbody.
  apply add_body_ok in Hbody as (m & t & w2 & u & Hm & Ht & Ha & Hid & Hseats & Hrest). subst m.
  unfold core in Hcore. injection Hcore as Hth Hdl Hpm Hst Hsk _ _.
  pose proof (find_thread_Some _ _ _ Ht) as [_ Htid].
  set (m := new_dialog_request _ _ _ _ _ _ _ _ _ _ _) in *.
  set (d1 := create_sql (w_next w0) (w_next w0 + 1) (w_now w0) t m (w_db w0)) in *.
  assert (exists d2, seats w1 = seats_db d2 /\ db_dialogs d2 = db_dialogs d1 /\ db_perms d2 = db_perms d1 /\
            db_settings d2 = db_settings d1 /\ db_stack d2 = db_stack d1 /\
            forall tid, controller tid d2 =
              if decide (tid = am_ThreadID req /\ am_NewMemberRole req <> Role.RoleOwner) then None else controller tid d1)
    as (d2 & Hs2 & H1 & H2 & H3 & H4 & Hctl).
  { unfold isOperator in Hrest. simpl in Hrest. destruct (bool_decide_reflect (am_NewMemberRole req = Role.RoleOwner)) as [Ho|Ho]; simpl in Hrest.
    - run in Hrest. injection Hrest as _ <-. exists d1. split_and!; try done. intros tid. rewrite decide_False; naive_solver.
    - apply releaseControlToAgent_ok in Hrest as [Hr _]. exists (clear_sql (am_ThreadID req) (w_db w2)). split; [exact Hr|].
      unfold seats, seats_db in Hseats. injection Hseats as E1 E2 E3 E4 E5. split_and!; try done.
      intros tid. rewrite controller_clear, (controller_eq tid d1 (w_db w2)) by done.
      destruct (decide (tid = am_ThreadID req)); [rewrite decide_True by done|rewrite decide_False by naive_solver]; done. }
  unfold seats, seats_db in Hs2. injection Hs2 as E1 E2 E3 E4 E5. rewrite Hd.
  exists (new_dialog (w_next w0) (w_now w0) t m),
    (MkPermRow (w_next w0 + 1) (t_id t) (w_next w0) (with_react true perms) (w_now w0) (w_now w0)),
    (MkSettingRow (w_next w0) (t_domain_id t) title).
  rewrite E1, E2, E3, E4, H1, H2, H3, H4, <- Hdl, <- Hpm, <- Hst, <- Hsk. simpl. rewrite Htid, Hid.
  rewrite (default_perms_react _ _ Hperm). split_and!; try done.
  intros tid. rewrite (controller_eq tid d2 (w_db w1)) by done. rewrite Hctl. destruct (decide _); [done|].
  unfold controller, find_thread. simpl. by rewrite Hth.
Qed.

(** Adding a bot: the new member controls the thread and is on top of its
    stack, whoever was there before. *)
Theorem AddMember_bot {E : Env} (req : AddMemberRequest) (w w' : World) id :
  am_IsBot req = true ->
  AddMember req w = (OK id, w') ->
  controller (am_ThreadID req) (w_db w') = Some id /\
  (exists top, stack_top (am_ThreadID req) (w_db w') = Some top /\ s_member_id top = Some id).
Proof.
  intros Hb H. apply AddMember_ok in H as (i & dom & by_ & title & perms & w0 & w1 & nm & msg & _ & _ & _ & _ & Hbody & _ & -> & Hd).
  rewrite Hb in Hbody. simpl in Hbody. apply add_body_ok in Hbody as (m & t & w2 & u & _ & _ & _ & _ & _ & Hrest).
  rewrite Hd. by apply push_new_bot_ok in Hrest.
Qed.

(** ** Transferring *)
Definition transferred (at_ : Time) (id : uuid) : list DialogRow -> list DialogRow :=
  update_where (fun r => bool_decide (d_id r = id)) (soft_delete at_ (Some "transferred")).

Section transfer.
Context {E : Env} {H : ThreadTagHooks}.

(** The request [Transfer] builds for the new member. *)
Definition transfer_request (req : TransferThreadRequest) (i : ThreadDialogExtended) (perms : ThreadPermissions)
    (at_ : Time) : ThreadDialogExtended :=
  new_dialog_request (tf_ThreadID req) (tf_NewMemberContactID req) (tf_NewMemberRole req)
    (tde_DomainID i) (Some (tde_ID i)) perms (tf_TargetIsBot req)
    (tf_TargetIsBot req && resolveAutoLeave (tf_AutoLeave req)) (queueIDOf (tf_Queue req)) (tde_Title i) at_.

Lemma transfer_body_ok req i perms w id msg w' :
  transfer_body req i perms w = (OK (id, msg), w') ->
  exists t nm w1 u,
    let m := transfer_request req i perms (w_now w) in
    find_thread (tf_ThreadID req) (w_db w) = Some t /\ id = w_next w /\ tde_ID nm = id /\
    seats w1 = seats_db (on_dialogs (transferred (w_now w) (tde_ID i))
                  (create_sql (w_next w) (w_next w + 1) (w_now w) t m (w_db w))) /\
    transfer_control req i nm w1 = (OK u, w').
Proof.
  unfold transfer_body. intros Hr. apply M_bind_ok in Hr as (u0 & wl & Hl & Hr). apply Lock_ok in Hl as ->. run in Hr.
  apply M_bind_ok in Hr as (nm & wc & Hc & Hr). apply Create_ok in Hc as (t & Ht & _ & Hd & Hnow & Hid & _). simpl in Ht, Hd, Hnow, Hid.
  apply M_bind_ok in Hr as (u1 & wd & Hdel & Hr). apply Delete_ok in Hdel as [_ Hdel].
  apply M_bind_ok in Hr as (u2 & wt & Htag & Hr). apply (seats_ok _ _ _ _) in Htag; [|eauto with svc].
  apply M_bind_ok in Hr as (rs & wq & Hq & Hr). apply (seats_ok _ _ _ _) in Hq; [|frame].
  apply M_bind_ok in Hr as (msg0 & wm & Hm & Hr). apply (seats_ok _ _ _ _) in Hm; [|frame].
  apply M_bind_ok in Hr as (u3 & wx & Hx & Hr). run in Hr. injection Hr as <- <- <-.
  exists t, nm, wm, u3. cbv zeta. split_and!; [exact Ht|done|done| |exact Hx].
  rewrite Hm, Hq, Htag. unfold seats, seats_db. rewrite Hdel, Hd, Hnow. reflexivity.
Qed.

(** Handing a thread to a person. *)
Lemma transfer_control_person req i nm w u w' :
  tf_TargetIsBot req = false -> (forall r, r ∈ db_dialogs (w_db w) -> d_id r = tde_ID i -> d_deleted_at r <> None) ->
  transfer_control req i nm w = (OK u, w') ->
  db_dialogs (w_db w') = db_dialogs (w_db w) /\ db_perms (w_db w') = db_perms (w_db w) /\
  (tde_IsBot i = false -> db_stack (w_db w') = db_stack (w_db w)) /\
  (tde_IsBot i = true \/ tf_NewMemberRole req <> Role.RoleOwner -> controller (tf_ThreadID req) (w_db w') = None).
Proof.
  intros Htb Hgone. unfold transfer_control. rewrite Htb. intros Hr. apply M_bind_ok in Hr as (u1 & w1 & H1 & H2).
  destruct (tde_IsBot i); simpl in H2.
  - run in H2. injection H2 as _ <-. apply M_bind_ok in H1 as (top & wp & Hp & H1). apply map_err_ok, Pop_ok in Hp as (e & t & He & Ht & Hd & _).
    apply pop_entry_spec in He as [_ Hem].
    assert (preserves seats (match top with
      | Some nt => match be_MemberID nt with
         | Some _ => publishBotControlGranted (botControlStackEntryToDialog nt)
            (Some (MkEntry uuid_Nil uuid_Nil (Some (tde_ID i)) (be_Position nt + 1) (tde_ContactID i) 0 false))
            (be_Position nt) ReasonTransfer true
         | None => mret tt end
      | None => mret tt end)) as Hq by frame.
    apply (seats_ok _ _ _ _) in H1; [|exact Hq]. apply seats_fields in H1 as (-> & -> & _ & _ & Hc).
    assert (db_dialogs (w_db wp) = db_dialogs (w_db w) /\ db_perms (w_db wp) = db_perms (w_db w)) as [-> ->].
    { rewrite Hd. unfold pop_db, repoint_sql, pop_sql. simpl. destruct (entry_auto_leave _ _); simpl; [|done]. split; [|done].
      apply update_where_none. intros r Hr. rewrite Hem. destruct (bool_decide_reflect (Some (d_id r) = Some (tde_ID i))); [|done].
      simplify_eq. simpl. apply bool_decide_false. by apply Hgone. }
    split_and!; [done|done|done|]. intros _. rewrite (controller_eq _ (w_db wp)) by done. rewrite Hd. unfold pop_db, repoint_sql.
    rewrite (controller_update _ _ (popped_controller ReasonHandoff _ _)), decide_True by done.
    rewrite pop_find_thread, Ht. reflexivity.
  - run in H1. injection H1 as _ <-. unfold isOperator in H2. simpl in H2.
    destruct (bool_decide_reflect (tf_NewMemberRole req = Role.RoleOwner)) as [Ho|Ho]; simpl in H2.
    + run in H2. injection H2 as _ <-. split_and!; [done..|]. intros [?|?]; done.
    + apply releaseControlToAgent_ok in H2 as [Hs _]. pose proof (controller_seats (tf_ThreadID req) _ _ Hs) as Hc.
      unfold seats, seats_db in Hs. injection Hs as -> -> _ -> _. split_and!; [done..|]. intros _. by rewrite Hc, controller_clear, decide_True.
Qed.

Lemma refreshQueue_next dom q : preserves w_next (refreshQueue dom q).
Proof. unfold refreshQueue, UpsertQueue, RememberQueue. repeat first [solve [eauto with svc] | frame_step | by intros ?]. Qed.

Lemma Transfer_ok req w id w' : Transfer req w = (OK id, w') ->
  exists i r p perms w0 w1 msg,
    shows (w_db w) (tf_ThreadID req) r p i /\ d_member_id r = tf_InitiatorContactID req /\
    verifyAddMember (Some i) (tf_NewMemberContactID req) (tf_NewMemberRole req) = OK tt /\
    (forall x, x ∈ db_dialogs (w_db w) -> d_thread_id x = tf_ThreadID req -> d_deleted_at x = None ->
               d_member_id x <> tf_NewMemberContactID req) /\
    defaultPermissionsByRole (tf_NewMemberRole req) = Some perms /\
    transfer_body req i (if decide (tde_ThreadRole i = tf_NewMemberRole req) then tde_Permissions i else perms) w0 = (OK (id, msg), w1) /\
    core (w_db w0) = core (w_db w) /\ w_next w0 = w_next w /\ w_now w0 = w_now w /\ w_db w' = w_db w1.
Proof.
  unfold Transfer. destruct (decide _); [done|]. intros Hr.
  apply M_bind_ok in Hr as (pair & wa & Ha & Hr). apply map_err_ok in Ha.
  destruct pair as [[i|] [t|]]; [done| |done|done].
  apply findAddMemberActors_ok in Ha as (Hwa & Hi & Ht & _). subst wa.
  destruct (Hi i eq_refl) as (r & p & Hsh & Hc).
  apply M_bind_ok in Hr as (perms & wp & Hp & Hr). unfold of_result in Hp. injection Hp as Hp <-.
  apply M_bind_ok in Hr as (u1 & wv & Hv & Hr). unfold of_result in Hv. injection Hv as Hv <-. destruct u1.
  apply M_bind_ok in Hr as (u2 & wq & Hq & Hr). apply M_bind_ok in Hr as ([id0 msg] & w1 & Hb & Hr).
  pose proof (refreshQueue_core _ _ _ _ _ Hq) as Hcore. simpl in Hcore.
  assert (w_next wq = w_next w /\ w_now wq = w_now w) as [Hn Hnow].
  { split; [by apply (preserves_ok w_next _ _ _ _ (refreshQueue_next _ _) Hq)|].
    apply (preserves_ok w_now _ _ _ _) with (2 := Hq). unfold refreshQueue, UpsertQueue, RememberQueue.
    repeat first [solve [eauto with svc] | frame_step | by intros ?]. }
  apply WithinTransaction_run in Hb as (w5 & w6 & Hb & _ & Hd5 & Hn5 & Hnow5 & _ & Hd6 & _).
  apply dispatch_ret in Hr as [-> Hd'].
  exists i, r, p, perms, w5, w6, msg. split_and!; [exact Hsh|exact Hc|exact Hv|by apply Ht| |exact Hb|by rewrite Hd5|congruence|congruence|congruence].
  unfold getDefaultPermissionsByRole in Hp. by destruct (defaultPermissionsByRole _); simplify_eq.
Qed.
End transfer.

(** Handing a thread to a person: the caller must be an active member that may
    add members with a role not below the new one; its own dialog is closed as
    transferred, exactly one new active member is added, and nobody else's
    membership changes.  The new member gets the caller's rights when the roles
    are equal and the rights of its role otherwise, in both cases with the right
    to react.  If the caller was a bot or the new member is an operator, no bot
    controls the thread any more. *)
Theorem Transfer_person {E : Env} (req : TransferThreadRequest) (w w' : World) id :
  sys_wf w -> tf_TargetIsBot req = false ->
  Transfer req w = (OK id, w') ->
  exists ri pi r p,
    ri ∈ db_dialogs (w_db w) /\ d_deleted_at ri = None /\ d_thread_id ri = tf_ThreadID req /\
    d_member_id ri = tf_InitiatorContactID req /\ pi ∈ db_perms (w_db w) /\ p_thread_dialog_id pi = d_id ri /\
    CanAddMembers (p_perms pi) = true /\ tf_NewMemberRole req <= d_thread_role ri /\
    env_can_invite (tf_InitiatorContactID req) (tf_NewMemberContactID req) = OK tt /\
    db_dialogs (w_db w') = transferred (w_now w) (d_id ri) (db_dialogs (w_db w)) ++ [r] /\
    db_perms (w_db w') = db_perms (w_db w) ++ [p] /\
    d_id r = id /\ d_member_id r = tf_NewMemberContactID req /\ d_thread_id r = tf_ThreadID req /\
    d_thread_role r = tf_NewMemberRole req /\ d_deleted_at r = None /\ d_invited_by r = Some (d_id ri) /\
    p_thread_dialog_id p = id /\
    (if decide (d_thread_role ri = tf_NewMemberRole req) then p_perms p = with_react true (p_perms pi)
     else defaultPermissionsByRole (tf_NewMemberRole req) = Some (p_perms p)) /\
    (d_is_bot ri = true \/ tf_NewMemberRole req <> Role.RoleOwner -> controller (tf_ThreadID req) (w_db w') = None).
Proof.
  intros [_ Hbelow] Htb Hr.
  apply Transfer_ok in Hr as (i & ri & pi & perms & w0 & w1 & msg & Hsh & Hc & Hv & Hfree & Hperm & Hb & Hcore & Hn & Hnow & Hd).
  apply transfer_body_ok in Hb as (t & nm & w2 & u & Ht & Hid & Hnm & Hseats & Hctl).
  destruct Hsh as (Hri & Hdel & Hth & Hpi & Hpid & Hidi & Hci & _ & Hrole & _ & Hpermi & Hbot).
  unfold core in Hcore. injection Hcore as Hths Hdl Hpm Hst Hsk _ _.
  pose proof (find_thread_Some _ _ _ Ht) as [_ Htid].
  unfold seats, seats_db in Hseats. injection Hseats as E1 E2 _ _ _. rewrite Hidi in E1.
  assert (w_next w0 <> d_id ri) as Hne.
  { rewrite Hn. intros Heq. assert (d_id ri ∈ all_ids (w_db w)) as Hin.
    { unfold all_ids. rewrite !elem_of_app. right. left. by apply list_elem_of_fmap_2. }
    specialize (Hbelow _ Hin). lia. }
  assert (db_dialogs (w_db w2) = transferred (w_now w) (d_id ri) (db_dialogs (w_db w)) ++
    [new_dialog (w_next w0) (w_now w0) t (transfer_request req i
       (if decide (tde_ThreadRole i = tf_NewMemberRole req) then tde_Permissions i else perms) (w_now w0))]) as Hdlg.
  { rewrite E1, Hnow, Hdl. unfold transferred, update_where. rewrite fmap_app. simpl. by rewrite bool_decide_false. }
  destruct (transfer_control_person req i nm w2 u w1 Htb) as (H1 & H2 & _ & H3); [|exact Hctl|].
  { rewrite Hdlg. intros x [Hx| ->%list_elem_of_singleton]%elem_of_app Hxid.
    - apply elem_of_update in Hx as (y & Hy & ->). destruct (bool_decide_reflect (d_id y = d_id ri)); [done|]. congruence.
    - simpl in Hxid. congruence. }
  unfold verifyAddMember in Hv. destruct (decide _) as [|Hne2]; [done|].
  apply result_bind_ok in Hv as ([] & Hv & Hinv). unfold verifyAddMemberInitiatorPermissions in Hv.
  rewrite Hpermi in Hv. simpl in Hv. destruct (CanAddMembers (p_perms pi)) eqn:Hca; [|done]. simpl in Hv.
  destruct (Z.ltb_spec (tde_ThreadRole i) (tf_NewMemberRole req)); [done|]. rewrite Hrole in *. rewrite Hci, Hc in Hinv.
  eexists ri, pi, _, _. rewrite Hd, H1, H2, Hdlg, E2. simpl. rewrite Hpm. subst id.
  split_and!; try reflexivity; try done.
  - simpl. by rewrite Hidi.
  - simpl. destruct (decide (d_thread_role ri = tf_NewMemberRole req)); simpl.
    + rewrite Hpermi. by destruct (p_perms pi).
    + by rewrite (default_perms_react _ _ Hperm).
  - intros Hcase. apply H3. by rewrite Hbot.
Qed.

(** ** Removing *)

(** An active member that is neither a bot nor an owner. *)
Definition operator_row (tid : uuid) (r : DialogRow) : bool :=
  bool_decide (d_thread_id r = tid) && active r && negb (d_is_bot r) && negb (bool_decide (d_thread_role r = Role.RoleOwner)).

Definition has_operator (tid : uuid) (d : DB) : bool := existsb (operator_row tid) (db_dialogs d).

Lemma hasOperator_view tid d : hasOperator (quick_view (members_of tid) d) = has_operator tid d.
Proof.
  unfold hasOperator, has_operator, quick_view, paged. simpl. rewrite drop_0. unfold select_where.
  induction (db_dialogs d) as [|r l IH]; [done|]. simpl. unfold quick_filter at 1. simpl.
  unfold operator_row at 1. unfold any_of. simpl.
  assert (bool_decide (d_thread_id r ∈ [tid]) = bool_decide (d_thread_id r = tid)) as ->
    by (apply bool_decide_ext; apply list_elem_of_singleton).
  destruct (bool_decide (d_thread_id r = tid)), (active r); simpl; rewrite <- IH; done.
Qed.

(** Whom the thread would go back to. *)
Definition resume_point (tid : uuid) (d : DB) : option uuid := t ← find_thread tid d; restore_candidate tid d t.

Lemma restore_tables tid d : db_perms (restore_sql tid d) = db_perms d /\ db_settings (restore_sql tid d) = db_settings d.
Proof. unfold restore_sql. destruct (find_thread tid d); [|done]. by destruct (restore_granted tid d t). Qed.

Lemma controller_restore tid' tid d :
  controller tid' (restore_sql tid d) =
  if decide (tid' = tid) then coalesce (controller tid d) (resume_point tid d) else controller tid' d.
Proof.
  unfold restore_sql, resume_point. destruct (find_thread tid d) as [t|] eqn:Ht.
  - simpl. assert (controller tid d = t_bot_controller_id t) as Hc by (unfold controller; by rewrite Ht). rewrite Hc.
    unfold restore_granted. destruct (t_bot_controller_id t) as [c|] eqn:Hb; simpl.
    + destruct (decide (tid' = tid)) as [->|]; done.
    + destruct (restore_candidate tid d t) as [m|] eqn:Hm; simpl.
      * rewrite (controller_update _ _ (fun _ => Some m)). destruct (decide _); [by rewrite Ht|done].
      * destruct (decide (tid' = tid)) as [->|]; [done|done].
  - destruct (decide (tid' = tid)) as [->|]; [|done]. unfold controller. by rewrite Ht.
Qed.

Section remove.
Context {E : Env} {H : ThreadTagHooks}.

Lemma FindActorsPair_target ic target w i t w' :
  FindActorsPair ic target w = (OK (i, Some t), w') ->
  w' = set_tick (w_aborted w) w /\
  exists rt pt, presents (w_db w) rt pt t /\ d_id rt = target /\
    forall x, i = Some x -> exists ri pi, presents (w_db w) ri pi x /\ d_member_id ri = ic /\ d_thread_id ri = d_thread_id rt.
Proof.
  unfold FindActorsPair. intros Hr. step_ok Hr. apply statement_ok in Hs as (-> & _). run in Hr.
  simpl in Hr. step_ok Hr. unfold of_result in Hs. injection Hs as Hds ->. run in Hr. injection Hr as Hpick <-.
  split; [done|]. destruct (pick_actors_spec ic target a0 (None, None)) as [H1 H2].
  rewrite Hpick in H1, H2. simpl in H1, H2.
  destruct (H2 t eq_refl) as [|[Ht Hit]]; [done|].
  destruct (actor_dialogs_elem _ _ _ _ _ Hds Ht) as (rt & pt & t2 & Hpt & Ht2 & Htt).
  exists rt, pt. split; [done|]. split; [by destruct Hpt as (_ & _ & _ & _ & <- & _)|].
  intros x ->. destruct (H1 x eq_refl) as [|[Hi Hic]]; [done|].
  destruct (actor_dialogs_elem _ _ _ _ _ Hds Hi) as (ri & pi & t1 & Hpi & Ht1 & Hti). simplify_eq.
  exists ri, pi. split; [done|]. split; [by destruct Hpi as (_ & _ & _ & _ & _ & -> & _)|congruence].
Qed.

Lemma RestoreController_seats tid w p w' : RestoreController tid w = (OK p, w') -> w_db w' = restore_sql tid (w_db w).
Proof. destruct p as [r g]. intros Hr. by apply RestoreController_ok in Hr as (? & _). Qed.

Lemma restoreControlAfterAgent_ok tid dom w u w' : restoreControlAfterAgent tid dom w = (OK u, w') ->
  seats w' = seats_db (if has_operator tid (w_db w) then w_db w else restore_sql tid (w_db w)).
Proof.
  unfold restoreControlAfterAgent, GetQuickView. intros Hr. apply M_bind_ok in Hr as (ms & w1 & Hv & Hr).
  apply map_err_ok in Hv. step_ok Hv. apply statement_ok in Hs as (-> & _). simpl in Hv. run in Hv. injection Hv as <- <-.
  simpl in Hr. rewrite hasOperator_view in Hr. destruct (has_operator tid (w_db w)); [run in Hr; by injection Hr as _ <-|].
  apply M_bind_ok in Hr as (p & w1 & Hp & Hr). apply RestoreController_seats in Hp. simpl in Hp.
  assert (seats w' = seats w1) as Hs by (destruct p as [[c|] []]; by apply (seats_ok _ _ _ _) in Hr; [|frame]).
  rewrite Hs. unfold seats, seats_db. by rewrite Hp.
Qed.

Lemma remove_body_ok req i t w msg w' : tde_IsBot t = false -> remove_body req i t w = (OK msg, w') ->
  let d1 := on_dialogs (update_where (fun r => bool_decide (d_id r = tde_ID t)) (soft_delete (w_now w) (rm_Reason req))) (w_db w) in
  exists d0, seats_db d0 = seats_db d1 /\
  seats w' = seats_db (if isOperator false (tde_ThreadRole t) && negb (has_operator (tde_ThreadID t) d0)
                       then restore_sql (tde_ThreadID t) d0 else d0).
Proof.
  intros Hb. unfold remove_body. rewrite Hb. intros Hr. apply M_bind_ok in Hr as (u0 & wl & Hl & Hr). apply Lock_ok in Hl as ->.
  apply M_bind_ok in Hr as (rs & wq & Hq & Hr).
  pose proof (preserves_ok w_now _ _ _ _ (quiet_GetQuickView w_now _) Hq) as Hnow.
  apply (seats_ok _ _ _ _) in Hq; [|frame].
  apply M_bind_ok in Hr as (u1 & wp & Hp & Hr). apply (seats_ok _ _ _ _) in Hr; [|frame]. cbv zeta.
  unfold remove_person in Hp. apply M_bind_ok in Hp as (u2 & wd & Hd & Hp). apply Delete_ok in Hd as [_ Hd].
  apply M_bind_ok in Hp as (u3 & wt & Ht & Hp). apply (seats_ok _ _ _ _) in Ht; [|eauto with svc].
  exists (w_db wt). split.
  - change (seats_db (w_db wt)) with (seats wt). rewrite Ht. unfold seats, seats_db. rewrite Hd, Hnow. simpl.
    apply seats_fields in Hq as (E1 & E2 & E3 & E4 & E5). simpl in *. rewrite E1, E2, E3, E4. unfold controls in *. simpl in *. by rewrite E5.
  - rewrite Hr. rewrite Hb in Hp. destruct (isOperator false (tde_ThreadRole t)); simpl.
    + apply restoreControlAfterAgent_ok in Hp. rewrite Hp. by destruct (has_operator _ _).
    + run in Hp. by injection Hp as _ <-.
Qed.

Lemma RemoveMember_ok req w u w' : RemoveMember req w = (OK u, w') ->
  exists i t rt pt w0 w1 msg,
    presents (w_db w) rt pt t /\ d_id rt = rm_TargetMemberID req /\
    (forall x, i = Some x -> exists ri pi, presents (w_db w) ri pi x /\ d_member_id ri = rm_InitiatorContactID req /\
                                           d_thread_id ri = d_thread_id rt) /\
    (rm_SystemCall req = false -> rm_InitiatorContactID req <> uuid_Nil -> verifyRemoveMember i t = OK tt) /\
    remove_body req i t w0 = (OK msg, w1) /\ w_db w0 = w_db w /\ w_now w0 = w_now w /\ w_db w' = w_db w1.
Proof.
  unfold RemoveMember. intros Hr. apply M_bind_ok in Hr as ([i [t|]] & wa & Ha & Hr); [|done].
  apply FindActorsPair_target in Ha as (-> & rt & pt & Hpt & Hid & Hi).
  apply M_bind_ok in Hr as (u1 & wv & Hv & Hr). apply M_bind_ok in Hr as (msg & w1 & Hb & Hr).
  assert (w_db wv = w_db w /\ w_now wv = w_now w) as [Hdv Hnv].
  { destruct (_ && _); [|by injection Hv as _ <-]. unfold of_result in Hv. by injection Hv as _ <-. }
  apply WithinTransaction_run in Hb as (w5 & w6 & Hb & _ & Hd5 & _ & Hn5 & _ & Hd6 & _).
  exists i, t, rt, pt, w5, w6, msg. split_and!; [exact Hpt|exact Hid|exact Hi| |exact Hb|congruence|congruence|].
  - intros Hsys Hini. rewrite Hsys, bool_decide_false in Hv by done. simpl in Hv. unfold of_result in Hv.
    destruct u1. by injection Hv as -> _.
  - rewrite <- Hd6. unfold dispatchSystemMessages in Hr. destruct env_providers; run in Hr; by simplify_eq.
Qed.
End remove.


(** Removing a member closes its dialog with the reason given and changes no
    other membership, right or title, and never the bot control stack, even when
    the member is a bot on it.  Control moves only when the last operator of a
    thread without controller leaves: it returns to the bot on top of the stack,
    else to the owner bot. *)
Theorem RemoveMember_seats {E : Env} (req : RemoveMemberRequest) (w w' : World) u :
  RemoveMember req w = (OK u, w') ->
  exists rt, rt ∈ db_dialogs (w_db w) /\ d_id rt = rm_TargetMemberID req /\ d_deleted_at rt = None /\
  let left_dialogs := update_where (fun r => bool_decide (d_id r = d_id rt)) (soft_delete (w_now w) (rm_Reason req)) (db_dialogs (w_db w)) in
  db_dialogs (w_db w') = left_dialogs /\ db_perms (w_db w') = db_perms (w_db w) /\
  db_settings (w_db w') = db_settings (w_db w) /\ db_stack (w_db w') = db_stack (w_db w) /\
  forall tid, controller tid (w_db w') =
    if decide (tid = d_thread_id rt /\ d_thread_role rt <> Role.RoleOwner /\ existsb (operator_row tid) left_dialogs = false)
    then coalesce (controller tid (w_db w)) (resume_point tid (w_db w)) else controller tid (w_db w).
Proof.
  intros H. apply RemoveMember_ok in H as (i & t & rt & pt & w0 & w1 & msg & Hpt & Hid & _ & _ & Hb & Hd0 & Hn0 & Hd).
  destruct Hpt as (Hrt & Hdt & _ & _ & Hidt & _ & Htht & Hrolt & _ & _ & Hbot & _).
  apply (remove_body_ok _ _ _ _ _ _ Hbot) in Hb as (d1 & Hd1 & Hs). exists rt. split; [done|]. split; [done|]. split; [done|].
  cbv zeta. rewrite Hidt, Hn0, Hd0 in Hd1. unfold seats_db in Hd1. simpl in Hd1. injection Hd1 as E1 E2 E3 E4 E5.
  set (gone := update_where _ _ _) in *.
  assert (forall tid, controller tid d1 = controller tid (w_db w)) as Hc1 by (intros; by apply controller_eq).
  assert (has_operator (tde_ThreadID t) d1 = existsb (operator_row (d_thread_id rt)) gone) as Hop.
  { unfold has_operator. by rewrite E1, Htht. }
  assert (forall tid, resume_point tid d1 = resume_point tid (w_db w)) as Hres.
  { intros tid. unfold resume_point. pose proof (find_control_thread tid d1) as F1. rewrite E5 in F1.
    change (controls (on_dialogs _ (w_db w))) with (controls (w_db w)) in F1. rewrite find_control_thread in F1.
    destruct (find_thread tid d1) as [t1|], (find_thread tid (w_db w)) as [t2|]; simplify_eq/=; [|done].
    unfold restore_candidate, stack_rows. rewrite E4. f_equal. done. }
  rewrite Hd. unfold isOperator in Hs. simpl in Hs. rewrite Hrolt, Hop, Htht in Hs.
  destruct (bool_decide_reflect (d_thread_role rt = Role.RoleOwner)) as [Ho|Ho]; simpl in Hs;
    [|destruct (existsb (operator_row (d_thread_id rt)) gone) eqn:Hex; simpl in Hs].
  - unfold seats, seats_db in Hs. injection Hs as -> -> -> -> E6. split_and!; try done.
    intros tid. rewrite decide_False by (by intros (_ & ? & _)). rewrite <- Hc1. by apply controller_eq.
  - unfold seats, seats_db in Hs. injection Hs as -> -> -> -> E6. split_and!; try done.
    intros tid. rewrite decide_False by (intros (-> & _ & ?); congruence). rewrite <- Hc1. by apply controller_eq.
  - pose proof (fun tid => controller_seats tid _ _ Hs) as Hcs. unfold seats, seats_db in Hs. injection Hs as -> -> -> -> E6.
    rewrite restore_dialogs, restore_stack. destruct (restore_tables (d_thread_id rt) d1) as [-> ->]. split_and!; try done.
    intros tid. rewrite Hcs, controller_restore, !Hc1, Hres. destruct (decide (tid = d_thread_id rt)) as [->|Hne].
    + by rewrite decide_True.
    + rewrite decide_False by naive_solver. done.
Qed.

(** ** Witnesses *)
Definition add_agent : AddMemberRequest := MkAddMember 1 200 100 Role.RoleMember 7 false None None false.

Lemma add_agent_runs : exists id, AddMember add_agent sample_world = (OK id, snd (AddMember add_agent sample_world)).
Proof. runs. Qed.

Lemma AddMember_authorized_witness :
  exists id w' r, AddMember add_agent sample_world = (OK id, w') /\
    r ∈ db_dialogs sample_db /\ d_member_id r = 100%N /\ Role.RoleMember <= d_thread_role r.
Proof.
  destruct add_agent_runs as [id H]. assert (am_InitiatorContactID add_agent <> uuid_Nil) as Hne by discriminate.
  destruct (AddMember_authorized add_agent sample_world _ id eq_refl Hne H) as (r & p & Hr & _ & _ & Hc & _ & _ & _ & Hrole & _).
  exists id. eexists. exists r. split; [exact H|]. split; [exact Hr|]. split; [exact Hc|exact Hrole].
Defined.

(** The agent takes the thread from the bot. *)
Lemma AddMember_person_witness :
  exists id w', AddMember add_agent sample_world = (OK id, w') /\
    length (db_dialogs (w_db w')) = 5%nat /\ controller 1 sample_db = Some 11%N /\ controller 1 (w_db w') = None.
Proof.
  destruct add_agent_runs as [id H].
  assert (forall dom, peerIsBot (am_NewMemberContactID add_agent) dom = false) as Hpeer by reflexivity.
  destruct (AddMember_person add_agent sample_world _ id eq_refl Hpeer H) as
    (r & p & s & Hd & _ & _ & _ & _ & _ & _ & _ & _ & _ & _ & _ & _ & _ & Hc).
  exists id. eexists. split; [exact H|]. split; [rewrite Hd; reflexivity|]. split; [reflexivity|].
  rewrite (Hc 1%N). reflexivity.
Defined.

Lemma AddMember_bot_witness :
  exists id w', AddMember sample_bot sample_world = (OK id, w') /\ id = 1000%N /\ controller 1 (w_db w') = Some 1000%N.
Proof.
  assert (exists id, AddMember sample_bot sample_world = (OK id, snd (AddMember sample_bot sample_world)) /\ id = 1000%N)
    as (id & H & Hid) by (eexists; split; vm_compute; reflexivity).
  exists id. eexists. split; [exact H|]. split; [exact Hid|].
  pose proof (proj1 (AddMember_bot sample_bot sample_world _ id eq_refl H)) as Hc. rewrite Hid in Hc. exact Hc.
Defined.

(** The owner hands the thread to a new agent. *)
Definition transfer_agent : TransferThreadRequest := MkTransfer 1 200 100 Role.RoleMember false None None.

Lemma Transfer_person_witness :
  exists id w', Transfer transfer_agent sample_world = (OK id, w') /\
    controller 1 (w_db w') = None /\ length (db_dialogs (w_db w')) = 5%nat /\
    d_leave_reason <$> find_dialog 10 (w_db w') = Some (Some "transferred").
Proof.
  assert (exists id, Transfer transfer_agent sample_world = (OK id, snd (Transfer transfer_agent sample_world))) as [id H] by runs.
  destruct (Transfer_person transfer_agent sample_world _ id sample_sys_wf eq_refl H) as
    (ri & pi & r & p & Hri & _ & _ & Hc & _ & _ & _ & _ & _ & Hd & _ & _ & _ & _ & _ & _ & _ & _ & _ & Hctl).
  exists id. eexists. split; [exact H|]. split; [apply Hctl; right; discriminate|]. split.
  - rewrite Hd. unfold transferred. rewrite length_app, update_where_length. reflexivity.
  - vm_compute. reflexivity.
Defined.

(** The client removes the agent, the last operator, while a bot is in control. *)
Definition remove_agent : RemoveMemberRequest := MkRemoveMember 12 100 (Some "done") false.


(** A removed bot stays on the stack and in control of its thread. *)
Definition remove_controller : RemoveMemberRequest := MkRemoveMember 11 0 None true.

Lemma RemoveMember_seats_witness :
  exists u w', RemoveMember remove_controller sample_world = (OK u, w') /\
    db_stack (w_db w') = db_stack sample_db /\ controller 1 (w_db w') = Some 11%N /\
    d_deleted_at <$> find_dialog 11 (w_db w') = Some (Some 5000).
Proof.
  assert (exists u, RemoveMember remove_controller sample_world = (OK u, snd (RemoveMember remove_controller sample_world))) as [u H] by runs.
  destruct (RemoveMember_seats remove_controller sample_world _ u H) as (rt & _ & _ & _ & Hd & _ & _ & Hs & Hc).
  exists u. eexists. split; [exact H|]. split; [exact Hs|]. split; [|vm_compute; reflexivity].
  rewrite (Hc 1%N). destruct (decide _); reflexivity.
Defined.
