(* ===== verification/BotRules.v ===== *)
(** * BotRules: what handing a thread between bots and operators guarantees

    Who may take over and hand back, where control goes, and when a call is a
    no-op. *)
From S2P Require Import Prelude Domain Events Message World BotControlStore.
From S2P Require Import BotControl Samples DialogStore ThreadStore Permissions PermissionRules.
From S2P Require Import TagStore Outbox TagService Tags MessageStore References ControlEvents.
From S2P Require Import BotFlow Members DirectThread Invariant Safety System Seats MemberRules.
#[local] Open Scope Z_scope.

(** ** The operator check *)
Section operator.
Context {E : Env}.

Lemma verifyOperator_ok tid cid w u w' : verifyOperator tid cid w = (OK u, w') ->
  w_db w' = w_db w /\ w_now w' = w_now w /\
  exists r, r ∈ db_dialogs (w_db w) /\ operator_row tid r = true /\ d_member_id r = cid.
Proof.
  unfold verifyOperator. destruct (_ || _); [done|]. intros Hr. apply M_bind_ok in Hr as ([i t] & wa & Ha & Hr).
  apply findAddMemberActors_ok in Ha as (-> & Hi & _). simpl in Hr. destruct i as [x|]; [|done].
  destruct (Hi x eq_refl) as (r & p & Hsh & Hc). unfold guard_err in Hr.
  destruct (isOperator (tde_IsBot x) (tde_ThreadRole x)) eqn:Ho; [|done]. simpl in Hr. run in Hr. injection Hr as _ <-.
  split; [done|]. split; [done|]. exists r. destruct Hsh as (Hin & Hd & Ht & _ & _ & _ & _ & _ & Hrole & _ & _ & Hb).
  split; [done|]. split; [|done]. unfold operator_row, isOperator, active in *. rewrite Hb, Hrole in Ho.
  rewrite !bool_decide_true by done. done.
Qed.
End operator.

(** Taking over: only an operator of the thread, an active member that is
    neither bot nor owner, takes a thread from its bot.  Afterwards nobody
    controls it; members, rights, the stack and the control of other threads
    stay, so that the bots can be given the thread back. *)
Theorem TakeOver_releases {E : Env} (req : TakeOverFromBotRequest) (w w' : World) u :
  TakeOverFromBot req w = (OK u, w') ->
  (exists r, r ∈ db_dialogs (w_db w) /\ operator_row (to_ThreadID req) r = true /\ d_member_id r = to_InitiatorContactID req) /\
  seats w' = seats_db (clear_sql (to_ThreadID req) (w_db w)) /\
  (forall tid, controller tid (w_db w') = if decide (tid = to_ThreadID req) then None else controller tid (w_db w)).
Proof.
  unfold TakeOverFromBot. intros Hr. apply M_bind_ok in Hr as (u1 & wa & Ha & Hr).
  apply verifyOperator_ok in Ha as (Hd & _ & Hop). split; [done|].
  apply WithinTransaction_run in Hr as (w0 & w1 & Hr & _ & Hd0 & _ & _ & _ & Hd1 & _).
  apply releaseControlToAgent_ok in Hr as [Hs _].
  assert (seats w' = seats_db (clear_sql (to_ThreadID req) (w_db w))) as Hs'.
  { unfold seats in *. rewrite Hd1, Hs, Hd0, Hd. done. }
  split; [done|]. intros tid. rewrite (controller_seats tid _ _ Hs'). apply controller_clear.
Qed.

Section handback.
Context {E : Env}.

Lemma HandBackToBot_run req w u w' : HandBackToBot req w = (OK u, w') ->
  (exists r, r ∈ db_dialogs (w_db w) /\ operator_row (hb_ThreadID req) r = true /\ d_member_id r = hb_InitiatorContactID req) /\
  seats w' = seats_db (restore_sql (hb_ThreadID req) (w_db w)) /\
  exists e g, restore_result (hb_ThreadID req) (w_db w) = Some (e, g).
Proof.
  unfold HandBackToBot. intros Hr. apply M_bind_ok in Hr as (u1 & wa & Ha & Hr).
  apply verifyOperator_ok in Ha as (Hd & _ & Hop). split; [done|].
  apply WithinTransaction_run in Hr as (w0 & w1 & Hr & _ & Hd0 & _ & _ & _ & Hd1 & _).
  apply M_bind_ok in Hr as ([c g] & w2 & Hp & Hr). apply RestoreController_ok in Hp as (Hd2 & _ & Hres).
  simpl in Hr. destruct c as [c|]; [|done]. apply (seats_ok _ _ _ _) in Hr; [|frame]. split.
  - unfold seats in *. rewrite Hd1, Hr, Hd2, Hd0, Hd. done.
  - rewrite Hd0, Hd in Hres. destruct (restore_result _ _) as [[e g']|]; [eauto|by destruct Hres].
Qed.
End handback.

(** Handing back: only an operator hands a thread back, and a bot gets it: the
    controller it already has, else the bot on top of its stack, else its owner
    bot.  Members, rights, stack and the control of other threads stay. *)
Theorem HandBack_gives_control {E : Env} (req : HandBackToBotRequest) (w w' : World) u :
  HandBackToBot req w = (OK u, w') ->
  (exists r, r ∈ db_dialogs (w_db w) /\ operator_row (hb_ThreadID req) r = true /\ d_member_id r = hb_InitiatorContactID req) /\
  (db_dialogs (w_db w') = db_dialogs (w_db w) /\ db_perms (w_db w') = db_perms (w_db w) /\ db_stack (w_db w') = db_stack (w_db w)) /\
  (exists bot, controller (hb_ThreadID req) (w_db w') = Some bot /\
     coalesce (controller (hb_ThreadID req) (w_db w)) (resume_point (hb_ThreadID req) (w_db w)) = Some bot) /\
  (forall tid, tid <> hb_ThreadID req -> controller tid (w_db w') = controller tid (w_db w)).
Proof.
  intros (Hop & Hs & e & g & Hres)%HandBackToBot_run. split; [done|].
  pose proof (fun tid => controller_seats tid _ _ Hs) as Hc.
  split; [|split].
  - unfold seats, seats_db in Hs. injection Hs as -> -> _ -> _. rewrite restore_dialogs, restore_stack.
    by destruct (restore_tables (hb_ThreadID req) (w_db w)) as [-> _].
  - unfold restore_result in Hres. unfold resume_point, controller at 2.
    destruct (find_thread (hb_ThreadID req) (w_db w)) as [t|] eqn:Ht; [|done]. simpl in *.
    destruct (coalesce (t_bot_controller_id t) _) as [m|] eqn:Hm; [|done]. exists m. split; [|done].
    rewrite Hc, controller_restore, decide_True by done. unfold resume_point, controller. by rewrite Ht.
  - intros tid Hne. by rewrite Hc, controller_restore, decide_False.
Qed.

(** (C38) An operator that takes a thread over and hands it back gives it to the bot
    the thread would resume with; with a bot on the stack that is the top of the
    stack, whoever was in control before. *)
Theorem takeover_then_handback {E : Env} (t : TakeOverFromBotRequest) (h : HandBackToBotRequest) (w w1 w2 : World) u1 u2 :
  hb_ThreadID h = to_ThreadID t ->
  TakeOverFromBot t w = (OK u1, w1) -> HandBackToBot h w1 = (OK u2, w2) ->
  controller (to_ThreadID t) (w_db w1) = None /\
  controller (to_ThreadID t) (w_db w2) = resume_point (to_ThreadID t) (w_db w) /\
  resume_point (to_ThreadID t) (w_db w) <> None /\
  (db_dialogs (w_db w2) = db_dialogs (w_db w) /\ db_perms (w_db w2) = db_perms (w_db w) /\ db_stack (w_db w2) = db_stack (w_db w)) /\
  (bc_base (w_db w) -> forall top, stack_top (to_ThreadID t) (w_db w) = Some top -> controller (to_ThreadID t) (w_db w2) = s_member_id top).
Proof.
  intros Heq Ht Hh. unfold TakeOverFromBot in Ht. apply M_bind_ok in Ht as (u & wa & Ha & Ht).
  apply verifyOperator_ok in Ha as (Hd & _ & _).
  apply WithinTransaction_run in Ht as (w0 & wb & Hr & _ & Hd0 & _ & _ & _ & Hd1 & _).
  apply releaseControlToAgent_ok in Hr as [Hs _].
  assert (seats w1 = seats_db (clear_sql (to_ThreadID t) (w_db w))) as Hs1 by (unfold seats in *; by rewrite Hd1, Hs, Hd0, Hd).
  apply HandBackToBot_run in Hh as (_ & Hs2 & e & g & Hres). rewrite Heq in *. set (tid := to_ThreadID t) in *.
  assert (controller tid (w_db w1) = None) as Hc1 by (rewrite (controller_seats tid _ _ Hs1), controller_clear, decide_True by done; done).
  assert (resume_point tid (w_db w1) = resume_point tid (w_db w)) as Hrp.
  { unfold resume_point. pose proof (find_control_thread tid (w_db w1)) as F1.
    unfold seats, seats_db in Hs1. injection Hs1 as _ _ _ E4 E5. rewrite E5, find_control_thread in F1.
    rewrite clear_sql_control, find_thread_update in F1 by done.
    destruct (find_thread tid (w_db w1)) as [t1|], (find_thread tid (w_db w)) as [t2|]; simplify_eq/=; [|done].
    unfold restore_candidate, stack_rows. rewrite E4. f_equal. by case_bool_decide; simplify_eq/=. }
  split; [done|]. split; [|split; [|split]].
  - by rewrite (controller_seats tid _ _ Hs2), controller_restore, decide_True, Hc1, Hrp.
  - unfold restore_result in Hres. rewrite <- Hrp. unfold controller in Hc1. unfold resume_point.
    destruct (find_thread tid (w_db w1)) as [t1|]; [|done]. simpl in *. rewrite Hc1 in Hres. simpl in Hres.
    by destruct (restore_candidate _ _ _).
  - unfold seats, seats_db in Hs1, Hs2. injection Hs1 as E1 E2 _ E4 _. injection Hs2 as -> -> _ -> _.
    rewrite restore_dialogs, restore_stack. destruct (restore_tables tid (w_db w1)) as [-> _]. done.
  - intros Hwf top Htop. rewrite (controller_seats tid _ _ Hs2), controller_restore, decide_True, Hc1, Hrp by done. simpl.
    pose proof (stack_top_elem _ _ _ Htop) as Hin. apply elem_of_stack_rows in Hin as [Hin Htid].
    unfold resume_point. destruct (wf_rows _ Hwf top Hin) as (_ & [t0 Ht0] & m & Hm & _). rewrite Htid in Ht0. rewrite Ht0. simpl.
    unfold restore_candidate. rewrite filter_all; [unfold stack_top in Htop; rewrite Htop; simpl; by rewrite Hm|].
    intros r Hr. apply elem_of_stack_rows in Hr as [Hr _]. destruct (wf_rows _ Hwf r Hr) as (_ & _ & k & -> & _). done.
Qed.

(** ** Completion *)

(** The stack is read from the bottom: its last entry is the one on top. *)
Lemma top_entry_stack_top tid d : bc_base d ->
  top_entry (stack_entries tid d) = (fun r => mapBotControlStackEntry r (row_contact d r)) <$> stack_top tid d.
Proof.
  intros Hwf. unfold top_entry, stack_entries. rewrite fmap_last. f_equal.
  set (l := merge_sort _ _).
  assert (l ≡ₚ stack_rows tid d) as Hp by apply merge_sort_Permutation.
  assert (StronglySorted (fun a b : StackRow => s_position a <= s_position b) l) as Hs.
  { apply StronglySorted_merge_sort; [intros x y z; lia|intros x y; lia]. }
  destruct (last l) as [r|] eqn:Hl.
  - symmetry. destruct (stack_top tid d) as [top|] eqn:Ht; [f_equal|].
    + pose proof (stack_top_elem _ _ _ Ht) as Htop.
      assert (r ∈ stack_rows tid d) as Hr by (rewrite <- Hp; by apply last_Some_elem_of).
      assert (s_position r <= s_position top) as H1 by (by eapply max_by_ge).
      assert (s_position top <= s_position r) as H2.
      { rewrite <- Hp in Htop. apply last_Some in Hl as [l0 Hl]. rewrite Hl in Hs, Htop.
        apply elem_of_app in Htop as [Htop| ->%list_elem_of_singleton]; [|lia].
        apply (StronglySorted_app_1_elem_of _ _ _ _ _ Hs Htop). left. }
      apply (NoDup_fmap_inj (fun r => (s_thread_id r, s_position r)) (db_stack d)); [apply Hwf| | |].
      * by apply elem_of_stack_rows in Htop as [? _].
      * by apply elem_of_stack_rows in Hr as [? _].
      * apply elem_of_stack_rows in Htop as [_ ->], Hr as [_ ->]. f_equal. lia.
    + apply max_by_None in Ht. rewrite Ht in Hp. apply Permutation_nil_r in Hp. by rewrite Hp in Hl.
  - apply last_None in Hl. rewrite Hl in Hp. symmetry in Hp. apply Permutation_nil_r in Hp. unfold stack_top. by rewrite Hp.
Qed.

Lemma entry_of_None tid d m : entry_of m (stack_entries tid d) = None <-> m ∉ stack_members tid d.
Proof.
  unfold entry_of. rewrite find_first_None. unfold stack_entries. rewrite elem_of_stack_members. split.
  - intros Hn (r & Hr & Hm). specialize (Hn (mapBotControlStackEntry r (row_contact d r))).
    simpl in Hn. rewrite bool_decide_true in Hn by done. discriminate Hn.
    apply list_elem_of_fmap. exists r. split; [done|]. by rewrite merge_sort_Permutation.
  - intros Hn x (r & -> & Hr)%list_elem_of_fmap. simpl. apply bool_decide_false. intros Hm. apply Hn.
    exists r. split; [by rewrite merge_sort_Permutation in Hr|done].
Qed.

(** The popped member has no other row in the thread. *)
Lemma popped_gone at_ reason tid m e d : bc_base d -> pop_entry tid m d = Some e ->
  forall r, r ∈ stack_rows tid (pop_db at_ reason tid e d) -> s_member_id r <> Some m.
Proof.
  intros Hwf He r Hr Hm. pose proof (pop_entry_spec _ _ _ _ He) as [Hin Hem]. apply elem_of_stack_rows in Hin as [Hes Het].
  unfold pop_db, repoint_sql in Hr. change (r ∈ stack_rows tid (pop_sql at_ reason e d)) in Hr. rewrite pop_stack_rows in Hr.
  apply delete_keeps in Hr as [Hr Hne]. apply elem_of_stack_rows in Hr as [Hr Hrt]. apply Hne. f_equal.
  apply (NoDup_fmap_inj (fun r => (s_thread_id r, s_member_id r)) (db_stack d)); [apply Hwf|done|done|]. congruence.
Qed.

Section complete.
Context {E : Env}.

Lemma GetStack_ok tid w s w' : GetStack tid w = (OK s, w') -> s = stack_entries tid (w_db w) /\ w' = set_tick (w_aborted w) w.
Proof. unfold GetStack. intros Hr%map_err_ok. by apply query_ok in Hr as (-> & -> & _). Qed.

Lemma ThreadGet_ok tid dom w th w' : ThreadStore.Get (MkThreadQuery [tid] [dom]) w = (OK th, w') ->
  w' = set_tick (w_aborted w) w /\
  exists t, t ∈ db_threads (w_db w) /\ t_id t = tid /\ thr_OwnerBotID th = t_owner_bot_id t.
Proof.
  unfold ThreadStore.Get. intros Hr. step_ok Hr. apply statement_as_ok in Hs as (-> & _). run in Hr. simpl in Hr.
  destruct (select_where _ _) as [|t [|? ?]] eqn:Hsel; [done| |done]. run in Hr. injection Hr as <- <-. split; [done|].
  exists t. assert (t ∈ [t]) as Ht by left. rewrite <- Hsel in Ht. apply elem_of_select in Ht as [Ht Hf].
  split; [done|]. split; [|done]. unfold thread_filter in Hf. simpl in Hf.
  rewrite !andb_true_iff, !bool_decide_eq_true in Hf. destruct Hf as [Hf _]. by apply list_elem_of_singleton in Hf.
Qed.

Lemma complete_body_absent req w u w' : cb_MemberID req ∉ stack_members (cb_ThreadID req) (w_db w) ->
  complete_body req w = (OK u, w') -> w_db w' = w_db w.
Proof.
  intros Hn%entry_of_None. unfold complete_body. intros Hr. apply M_bind_ok in Hr as (st & ws & Hst & Hr).
  apply GetStack_ok in Hst as [-> ->]. rewrite Hn in Hr. destruct (top_entry _); run in Hr; by injection Hr as _ <-.
Qed.

Lemma complete_body_ok req w u w' : bc_base (w_db w) -> complete_body req w = (OK u, w') ->
  let tid := cb_ThreadID req in let m := cb_MemberID req in
  if decide (m ∉ stack_members tid (w_db w) \/ owner_bot tid (w_db w) = Some m) then w_db w' = w_db w
  else exists e d1, pop_entry tid m (w_db w) = Some e /\ d1 = pop_db (w_now w) ReasonCompleted tid e (w_db w) /\
         seats w' = seats_db d1 /\
         ((stack_top tid (w_db w) ≫= s_member_id) <> Some m -> db_outbox (w_db w') = db_outbox (w_db w)).
Proof.
  intros Hwf. unfold complete_body. intros Hr. apply M_bind_ok in Hr as (st & ws & Hst & Hr).
  apply GetStack_ok in Hst as [-> ->]. cbv zeta. set (tid := cb_ThreadID req) in *. set (m := cb_MemberID req) in *.
  destruct (entry_of m (stack_entries tid (w_db w))) as [ce|] eqn:He.
  2:{ apply entry_of_None in He. rewrite decide_True by (by left).
      destruct (top_entry _); run in Hr; by injection Hr as _ <-. }
  assert (m ∈ stack_members tid (w_db w)) as Hin.
  { apply dec_stable. intros Hn. apply entry_of_None in Hn. congruence. }
  rewrite top_entry_stack_top in Hr by done. destruct (stack_top tid (w_db w)) as [top|] eqn:Htop.
  2:{ apply max_by_None in Htop. unfold stack_members in Hin. rewrite Htop in Hin. by apply not_elem_of_nil in Hin. }
  simpl in Hr. apply M_bind_ok in Hr as (th & wt & Hth & Hr).
  apply ThreadGet_ok in Hth as (-> & t & Ht & Htid & Hown). simpl in Ht.
  assert (owner_bot tid (w_db w) = t_owner_bot_id t) as Hob.
  { unfold owner_bot. rewrite <- Htid, (find_thread_elem _ _ Hwf Ht). done. }
  rewrite Hown in Hr. destruct (bool_decide_reflect (t_owner_bot_id t = Some m)) as [Ho|Ho].
  { run in Hr. injection Hr as _ <-. rewrite decide_True by (right; congruence). done. }
  rewrite decide_False by (rewrite Hob; intros [?|?]; done).
  apply M_bind_ok in Hr as (nt & wp & Hp & Hr). apply Pop_ok in Hp as (e & t' & Hpe & Htf & Hd & _ & _).
  simpl in Hpe, Htf, Hd. exists e. eexists. split; [exact Hpe|]. split; [reflexivity|]. split.
  - rewrite <- Hd. change (seats_db (w_db wp)) with (seats wp). eapply seats_ok; [exact Hr|].
    destruct (negb _); [frame|]. frame.
  - simpl. intros Hne. rewrite bool_decide_false in Hr by done. simpl in Hr. run in Hr. injection Hr as _ <-.
    rewrite Hd. unfold pop_db, repoint_sql, pop_sql. simpl. by destruct (entry_auto_leave _ _).
Qed.

Lemma CompleteBotControl_run req w u w' : CompleteBotControl req w = (OK u, w') ->
  exists w0 w1, w_db w0 = w_db w /\ w_now w0 = w_now w /\ w_db w' = w_db w1 /\ complete_body req w0 = (OK u, w1).
Proof.
  unfold CompleteBotControl. do 2 (destruct (decide _); [done|]). intros Hr.
  apply WithinTransaction_run in Hr as (w0 & w1 & Hr & _ & Hd0 & _ & Hn0 & _ & Hd1 & _). by exists w0, w1.
Qed.
End complete.

(** ** The stack and the controller once an entry is popped *)
Lemma pop_db_rows at_ reason e tid d : stack_rows tid (pop_db at_ reason tid e d) = rows_without e tid d.
Proof.
  unfold pop_db, repoint_sql. change (stack_rows tid (pop_sql at_ reason e d) = rows_without e tid d).
  rewrite pop_stack_rows. unfold stack_rows. simpl. apply select_delete_comm.
Qed.

(** One member has one entry: without it the other members remain. *)
Lemma members_without e tid m d k : bc_base d -> e ∈ stack_rows tid d -> s_member_id e = Some m ->
  k ∈ omap s_member_id (rows_without e tid d) <-> k ∈ stack_members tid d /\ k <> m.
Proof.
  intros Hwf Hin Hem. unfold stack_members, rows_without. rewrite !list_elem_of_omap.
  setoid_rewrite elem_of_delete. setoid_rewrite bool_decide_eq_false. split.
  - intros (r & [Hr Hne] & Hk). split; [by exists r|]. intros ->. apply Hne. f_equal.
    apply elem_of_stack_rows in Hr as [Hr Hrt]. apply elem_of_stack_rows in Hin as [He Het].
    apply (NoDup_fmap_inj (fun r => (s_thread_id r, s_member_id r)) (db_stack d)); [apply Hwf|done|done|congruence].
  - intros [(r & Hr & Hk) Hne]. exists r. split_and!; [done| |done]. intros Hid. apply Hne.
    apply elem_of_stack_rows in Hr as [Hr _]. apply elem_of_stack_rows in Hin as [He _].
    assert (r = e) as -> by (by apply (NoDup_fmap_inj s_id (db_stack d)); [apply Hwf|..]). congruence.
Qed.

Lemma controller_popped at_ e tid d : bc_base d -> e ∈ stack_rows tid d ->
  controller tid (pop_db at_ ReasonCompleted tid e d) =
  coalesce (max_by s_position (rows_without e tid d) ≫= s_member_id) (owner_bot tid d).
Proof.
  intros Hwf Hin. unfold pop_db, repoint_sql.
  rewrite (controller_update _ _ (popped_controller ReasonCompleted _ _)), decide_True by done. rewrite pop_find_thread.
  pose proof Hin as [He Het]%elem_of_stack_rows. destruct (wf_rows _ Hwf e He) as (_ & [t Ht] & _). rewrite Het in Ht.
  unfold owner_bot. rewrite Ht. simpl. rewrite popped_controller_after by done. unfold controller_after. simpl.
  destruct (max_by s_position (rows_without e tid d)) as [r|] eqn:Hr; [|done]. simpl.
  apply max_by_elem, elem_of_delete in Hr as [[Hr _]%elem_of_stack_rows _].
  destruct (wf_rows _ Hwf r Hr) as (_ & _ & k & -> & _). done.
Qed.

Lemma controller_popped_other at_ e tid tid' d : tid' <> tid ->
  controller tid' (pop_db at_ ReasonCompleted tid e d) = controller tid' d.
Proof.
  intros Hne. unfold pop_db, repoint_sql.
  rewrite (controller_update _ _ (popped_controller ReasonCompleted _ _)), decide_False by done.
  unfold controller. by rewrite pop_find_thread.
Qed.

(** Completing a bot: a call for a bot that is not on the stack of the thread, or
    is its owner bot, changes nothing.  Otherwise the bot leaves the stack, the
    others keep their places, and the thread is controlled by the new top, or by
    the owner bot when the stack is empty; members other than the bot stay. *)
Theorem Complete_hands_on {E : Env} (req : CompleteBotControlRequest) (w w' : World) u :
  bc_wf (w_db w) -> CompleteBotControl req w = (OK u, w') ->
  let tid := cb_ThreadID req in let m := cb_MemberID req in
  if decide (m ∉ stack_members tid (w_db w) \/ owner_bot tid (w_db w) = Some m) then w_db w' = w_db w
  else
    (m ∉ stack_members tid (w_db w')) /\
    (forall k, k <> m -> k ∈ stack_members tid (w_db w') <-> k ∈ stack_members tid (w_db w)) /\
    controller tid (w_db w') = coalesce (stack_top tid (w_db w') ≫= s_member_id) (owner_bot tid (w_db w)) /\
    (forall tid', tid' <> tid -> controller tid' (w_db w') = controller tid' (w_db w)) /\
    (forall k, k <> m -> find_dialog k (w_db w') = find_dialog k (w_db w)) /\
    ((stack_top tid (w_db w) ≫= s_member_id) <> Some m -> db_outbox (w_db w') = db_outbox (w_db w)).
Proof.
  intros [Hwf _] Hr. apply CompleteBotControl_run in Hr as (w0 & w1 & Hd0 & Hn0 & Hd1 & Hb). cbv zeta.
  apply complete_body_ok in Hb; [|by rewrite Hd0]. cbv zeta in Hb. rewrite Hd0 in Hb. rewrite Hd1.
  set (tid := cb_ThreadID req) in *. set (m := cb_MemberID req) in *.
  destruct (decide _); [done|]. destruct Hb as (e & d1 & He & Hd & Hs & Hout).
  pose proof (pop_entry_spec _ _ _ _ He) as [Hin Hem].
  pose proof (fun t => controller_seats t _ _ Hs) as Hc.
  assert (db_stack (w_db w1) = db_stack d1 /\ db_dialogs (w_db w1) = db_dialogs d1) as [Hst Hdl].
  { unfold seats, seats_db in Hs. by injection Hs as -> _ _ -> _. }
  assert (stack_rows tid (w_db w1) = rows_without e tid (w_db w)) as Hrows.
  { rewrite <- (pop_db_rows (w_now w0) ReasonCompleted), <- Hd. unfold stack_rows. by rewrite Hst. }
  unfold stack_members at 1 2, stack_top at 1. rewrite Hrows.
  split_and!; [| | | | |exact Hout].
  - rewrite (members_without e tid m) by done. by intros [_ ?].
  - intros k Hne. rewrite (members_without e tid m) by done. split; [by intros [? _]|done].
  - rewrite Hc, Hd. by apply controller_popped.
  - intros tid' Hne. rewrite Hc, Hd. by apply controller_popped_other.
  - intros k Hne. unfold find_dialog. rewrite Hdl, Hd. unfold pop_db, repoint_sql, pop_sql. simpl.
    destruct (entry_auto_leave _ _); [|done]. simpl. rewrite find_first_update by done.
    destruct (find_first _ _) as [x|] eqn:Hx; [|done]. simpl. apply find_first_Some in Hx as [_ Hx].
    apply bool_decide_eq_true in Hx. rewrite Hem. destruct (bool_decide_reflect (Some (d_id x) = Some m)); [|done]. simplify_eq.
Qed.

(** Completing twice is completing once: a repeated call changes nothing and
    announces nothing. *)
Theorem Complete_idempotent {E : Env} (req : CompleteBotControlRequest) (w w1 w2 : World) u1 u2 :
  bc_wf (w_db w) -> CompleteBotControl req w = (OK u1, w1) -> CompleteBotControl req w1 = (OK u2, w2) -> w_db w2 = w_db w1.
Proof.
  intros Hbc H1 H2. pose proof Hbc as [Hwf _].
  apply CompleteBotControl_run in H1 as (wa & wb & Hda & Hna & Hdb & Hb).
  apply complete_body_ok in Hb; [|by rewrite Hda]. cbv zeta in Hb. rewrite Hda in Hb.
  set (tid := cb_ThreadID req) in *. set (m := cb_MemberID req) in *.
  destruct (decide (m ∉ stack_members tid (w_db w) \/ owner_bot tid (w_db w) = Some m)) as [Hno|Hyes].
  - assert (w_db w1 = w_db w) as E1 by congruence. apply CompleteBotControl_run in H2 as (wc & wd & Hdc & _ & Hdd & Hc).
    apply complete_body_ok in Hc; [|congruence]. cbv zeta in Hc. rewrite Hdc, E1 in Hc. rewrite decide_True in Hc by done. congruence.
  - destruct Hb as (e & d1 & He & Hd & Hs & _). apply CompleteBotControl_run in H2 as (wc & wd & Hdc & _ & Hdd & Hc).
    rewrite Hdd. apply complete_body_absent in Hc; [congruence|]. rewrite Hdc, Hdb.
    assert (db_stack (w_db wb) = db_stack d1) as Hst by (unfold seats, seats_db in Hs; by injection Hs as _ _ _ -> _).
    rewrite elem_of_stack_members. intros (r & Hr & Hm). unfold stack_rows in Hr. rewrite Hst, Hd in Hr.
    by apply (popped_gone (w_now wa) ReasonCompleted tid m e (w_db w) Hwf He r).
Qed.

(** ** Release *)
Lemma stack_top_rows tid d : stack_top tid d = max_by s_position (stack_rows tid d).
Proof. done. Qed.

(** When the client leaves, the bot on top of the stack leaves it with the
    client and the next one below takes control; with an empty stack nobody
    controls the thread, not even the owner bot. *)
Theorem Release_steps_down {E : Env} (req : ReleaseBotControlRequest) (w w' : World) u :
  bc_wf (w_db w) -> ReleaseBotControl req w = (OK u, w') ->
  let tid := rb_ThreadID req in
  stack_rows tid (w_db w') = match stack_top tid (w_db w) with
                             | Some e => rows_without e tid (w_db w)
                             | None => [] end /\
  controller tid (w_db w') = (stack_top tid (w_db w') ≫= s_member_id) /\
  forall tid', tid' <> tid -> controller tid' (w_db w') = controller tid' (w_db w).
Proof.
  intros [Hwf _]. unfold ReleaseBotControl. destruct (decide _); [done|]. intros Hr. cbv zeta.
  set (tid := rb_ThreadID req) in *.
  apply WithinTransaction_run in Hr as (w0 & w1 & Hr & _ & Hd0 & _ & _ & _ & Hd1 & _).
  rewrite <- Hd0 in Hwf |- *. rewrite Hd1. clear Hd0 Hd1 w w'. unfold release_body in Hr.
  apply M_bind_ok in Hr as (st & ws & Hst & Hr). apply GetStack_ok in Hst as [-> ->].
  fold tid in Hr. rewrite (top_entry_stack_top tid _ Hwf) in Hr.
  destruct (stack_top tid (w_db w0)) as [top|] eqn:Htop.
  - pose proof (stack_top_elem _ _ _ Htop) as Hin. apply elem_of_stack_rows in Hin as Hin'. destruct Hin' as [Hin' _].
    destruct (wf_rows _ Hwf top Hin') as (_ & _ & m & Hm & _). simpl in Hr. rewrite Hm in Hr. simpl in Hr.
    apply M_bind_ok in Hr as (nt & wp & Hp & Hr). apply Pop_ok in Hp as (e & t & He & Ht & Hd & _ & _). simpl in He, Ht, Hd.
    pose proof (pop_entry_spec _ _ _ _ He) as [Hes Hem].
    assert (e = top) as ->.
    { apply elem_of_stack_rows in Hes as [He1 He2], Hin as [Hi1 Hi2].
      apply (NoDup_fmap_inj (fun r => (s_thread_id r, s_member_id r)) (db_stack (w_db w0))); [apply Hwf|done|done|congruence]. }
    assert (seats w1 = seats_db (pop_db (w_now w0) ReasonClientLeave tid top (w_db w0))) as Hs.
    { rewrite <- Hd. change (seats_db (w_db wp)) with (seats wp). eapply seats_ok; [exact Hr|]. frame. }
    pose proof (fun x => controller_seats x _ _ Hs) as Hc. unfold seats, seats_db in Hs. injection Hs as _ _ _ Hst _.
    assert (stack_rows tid (w_db w1) = rows_without top tid (w_db w0)) as Hrows.
    { unfold stack_rows at 1. rewrite Hst. unfold pop_db, repoint_sql.
      change (stack_rows tid (pop_sql (w_now w0) ReasonClientLeave top (w_db w0)) = rows_without top tid (w_db w0)).
      rewrite pop_stack_rows. unfold stack_rows. simpl. apply select_delete_comm. }
    split; [exact Hrows|]. split.
    + rewrite Hc, stack_top_rows, Hrows. unfold pop_db, repoint_sql.
      rewrite (controller_update _ _ (popped_controller ReasonClientLeave _ _)), decide_True by done.
      rewrite pop_find_thread, Ht. simpl. rewrite popped_controller_after by done. unfold controller_after. simpl.
      by destruct (max_by _ _).
    + intros tid' Hne. rewrite Hc. unfold pop_db, repoint_sql.
      rewrite (controller_update _ _ (popped_controller ReasonClientLeave _ _)), decide_False by done.
      unfold controller. by rewrite pop_find_thread.
  - simpl in Hr. apply M_bind_ok in Hr as (rel & wc & Hc & Hr). apply ClearController_ok in Hc as (Hd & _ & _). simpl in Hd.
    assert (seats w1 = seats_db (clear_sql tid (w_db w0))) as Hs.
    { rewrite <- Hd. change (seats_db (w_db wc)) with (seats wc). eapply seats_ok; [exact Hr|]. frame. }
    pose proof (fun x => controller_seats x _ _ Hs) as Hcs. unfold seats, seats_db in Hs. injection Hs as _ _ _ Hst _.
    assert (stack_rows tid (w_db w1) = []) as Hrows.
    { unfold stack_rows. rewrite Hst. apply max_by_None in Htop. exact Htop. }
    split; [exact Hrows|]. split; [rewrite Hcs, controller_clear, decide_True, stack_top_rows, Hrows by done; done|].
    intros tid' Hne. by rewrite Hcs, controller_clear, decide_False.
Qed.

(** ** Control of an existing thread *)
Section ensure.
Context {E : Env}.

(** The outbox after one grant without a previous controller. *)
Lemma publishGranted_first dialog pos reason resume w u w' :
  publishBotControlGranted dialog None pos reason resume w = (OK u, w') ->
  seats w' = seats w /\
  exists topic e, db_outbox (w_db w') = db_outbox (w_db w) ++ [MkOutboxRow topic (EvBotControlGranted e) None] /\
    bg_MemberID e = tde_ID dialog /\ bg_ThreadID e = tde_ThreadID dialog /\ bg_Position e = pos.
Proof.
  intros Hr. split; [eapply seats_ok; [exact Hr|frame]|]. unfold publishBotControlGranted in Hr. run in Hr.
  apply M_bind_ok in Hr as (ags & wa & Ha & Hr). run in Hr.
  assert (db_outbox (w_db wa) = db_outbox (w_db w)) as Ho.
  { eapply (preserves_ok (fun w => db_outbox (w_db w))); [|exact Ha]. unfold collectThreadAgents, GetQuickView. frame. }
  apply Publish_ok in Hr as (_ & _ & _ & Hd). eexists _, _. rewrite Hd. unfold published. simpl. rewrite Ho. split; [reflexivity|]. done.
Qed.

(** Where [ensure_body] puts the control, and what it announces. *)
Lemma ensure_body_ok th x dom w u th' w' :
  bc_base (w_db w) -> is_Some (find_thread (thr_ID th) (w_db w)) -> ensure_body th x dom w = (OK u, th', w') ->
  exists m, controller (thr_ID th) (w_db w') = Some m /\ thr_BotControllerID th' = Some m /\
    m = match stack_top (thr_ID th) (w_db w) with Some top => default uuid_Nil (s_member_id top) | None => td_ID x end /\
    exists topic e, db_outbox (w_db w') = db_outbox (w_db w) ++ [MkOutboxRow topic (EvBotControlGranted e) None] /\
      bg_MemberID e = td_ID x.
Proof.
  intros Hwf [t Ht]. unfold ensure_body. destruct (ensure_point th x w) as [[t1|e] w1] eqn:Hp; [|done].
  destruct (ensure_publish t1 x dom w1) as [r w2] eqn:Hq. intros [= -> <- <-].
  apply publishGranted_first in Hq as (Hs & topic & e & Ho & He & _). simpl in He.
  assert (controller (thr_ID th) (w_db w2) = controller (thr_ID th) (w_db w1)) as ->.
  { apply controller_eq. by apply seats_fields in Hs as (_ & _ & _ & _ & ?). }
  unfold ensure_point in Hp. apply M_bind_ok in Hp as (st & ws & Hst & Hp). apply GetStack_ok in Hst as [-> ->].
  rewrite top_entry_stack_top in Hp by done. destruct (stack_top (thr_ID th) (w_db w)) as [top|] eqn:Htop.
  - pose proof (stack_top_elem _ _ _ Htop) as Hin. apply elem_of_stack_rows in Hin as [Hin _].
    destruct (wf_rows _ Hwf top Hin) as (_ & _ & m & Hm & _). simpl in Hp. rewrite Hm in Hp.
    apply M_bind_ok in Hp as (u0 & wc & Hc & Hp). apply SetController_ok in Hc as (Hd & _). run in Hp. injection Hp as <- <-.
    exists m. rewrite Hm. split; [|split; [done|split; [done|]]].
    + rewrite Hd. simpl. unfold set_sql. rewrite (controller_update _ _ (fun _ => Some m)), decide_True by done. by rewrite Ht.
    + exists topic, e. split; [|done]. rewrite Ho, Hd. done.
  - simpl in Hp. apply M_bind_ok in Hp as (u0 & wc & Hc & Hp). apply Push_ok in Hc as (_ & Hd & _). run in Hp. injection Hp as <- <-.
    exists (td_ID x). split; [|split; [done|split; [done|]]].
    + rewrite Hd. simpl.
      change (controller (thr_ID th) (update_thread (thr_ID th) (fun t => set_thread_control (Some (td_ID x))
        (coalesce (t_owner_bot_id t) (earliest_free_bot (thr_ID th) (w_db w))) t) (w_db w)) = Some (td_ID x)).
      rewrite (controller_update _ _ (fun _ => Some (td_ID x))), decide_True by done. by rewrite Ht.
    + exists topic, e. split; [|done]. rewrite Ho, Hd. done.
Qed.
End ensure.

(** Giving control to a bot when a contact writes to it: nothing happens while
    the thread has no bot or an operator is in it.  Otherwise, on success, the
    bot on top of the stack controls the thread, or the first bot member, pushed
    onto an empty stack; the thread in memory agrees; the event announces the
    first bot member, whichever bot got control.  A failure leaves the database
    as it was. *)
Theorem ensureBotControl_spec {E : Env} (th th' : Thread) (dom : Z) (w w' : World) r :
  bc_wf (w_db w) -> is_Some (find_thread (thr_ID th) (w_db w)) -> w_in_tx w = false ->
  ensureBotControl th dom w = (r, th', w') ->
  match find_first td_IsBot (thr_Members th) with
  | None => (r, th', w') = (OK tt, th, w)
  | Some bot =>
      if hasOperator (thr_Members th) then (r, th', w') = (OK tt, th, w)
      else match r with
           | OK _ => exists m, controller (thr_ID th) (w_db w') = Some m /\ thr_BotControllerID th' = Some m /\
               m = match stack_top (thr_ID th) (w_db w) with
                   | Some top => default uuid_Nil (s_member_id top) | None => td_ID bot end /\
               exists topic e, db_outbox (w_db w') = db_outbox (w_db w) ++ [MkOutboxRow topic (EvBotControlGranted e) None] /\
                 bg_MemberID e = td_ID bot
           | Err _ => w_db w' = w_db w
           end
  end.
Proof.
  intros [Hwf _] Ht Htx. unfold ensureBotControl. destruct (find_first td_IsBot (thr_Members th)) as [bot|]; [|by intros [= <- <- <-]].
  destruct (hasOperator (thr_Members th)); [by intros [= <- <- <-]|].
  unfold WithinTransactionAssigning. rewrite Htx. destruct (env_fault (w_ticks w)); [by intros [= <- _ <-]|].
  set (w0 := set_txstate (w_tx w + 1) true false (set_tick false w)).
  destruct (ensure_body th bot dom w0) as [[[u|e] l] w1] eqn:Hb.
  - destruct (w_aborted w1 || env_fault (w_ticks w1)); intros [= <- <- <-]; [done|].
    apply ensure_body_ok in Hb; [exact Hb|exact Hwf|exact Ht].
  - intros [= <- _ <-]. done.
Qed.

(** ** Witnesses *)
Definition take_over : TakeOverFromBotRequest := MkTakeOver 1 102 7.
Definition hand_back : HandBackToBotRequest := MkHandBack 1 102 7.
Definition taken : World := snd (TakeOverFromBot take_over sample_world).
Definition handed : World := snd (HandBackToBot hand_back taken).

Lemma taken_runs : exists u, TakeOverFromBot take_over sample_world = (OK u, taken).
Proof. runs. Qed.
Lemma handed_runs : exists u, HandBackToBot hand_back taken = (OK u, handed).
Proof. runs. Qed.

Lemma TakeOver_releases_witness :
  exists u, TakeOverFromBot take_over sample_world = (OK u, taken) /\ controller 1 (w_db taken) = None /\
    db_stack (w_db taken) = db_stack sample_db.
Proof.
  destruct taken_runs as [u H]. destruct (TakeOver_releases take_over sample_world taken u H) as (_ & _ & Hc).
  exists u. split; [exact H|]. split; [exact (Hc 1%N)|vm_compute; reflexivity].
Defined.

Lemma HandBack_gives_control_witness :
  exists u, HandBackToBot hand_back taken = (OK u, handed) /\ exists bot, controller 1 (w_db handed) = Some bot.
Proof.
  destruct handed_runs as [u H]. destruct (HandBack_gives_control hand_back taken handed u H) as (_ & _ & (bot & Hb & _) & _).
  exists u. split; [exact H|]. exists bot. exact Hb.
Defined.

Lemma takeover_then_handback_witness :
  exists u1 u2, TakeOverFromBot take_over sample_world = (OK u1, taken) /\ HandBackToBot hand_back taken = (OK u2, handed) /\
    controller 1 (w_db handed) = Some 11%N.
Proof.
  destruct taken_runs as [u1 H1]. destruct handed_runs as [u2 H2].
  destruct (takeover_then_handback take_over hand_back sample_world taken handed u1 u2 eq_refl H1 H2) as (_ & Hc & _).
  exists u1, u2. split; [exact H1|]. split; [exact H2|]. etransitivity; [exact Hc|vm_compute; reflexivity].
Defined.

(** The bot added by the client completes and control returns to the owner bot. *)
Definition complete_new : CompleteBotControlRequest := MkComplete 1 1000 7.
Definition completed : World := snd (CompleteBotControl complete_new after_bot).

Lemma completed_runs : exists u, CompleteBotControl complete_new after_bot = (OK u, completed).
Proof. runs. Qed.

Lemma after_bot_wf : bc_wf (w_db after_bot).
Proof.
  assert (rtc service_step sample_world after_bot) as Hs.
  { apply rtc_once. apply (service_step_call _ _ (CallAddMember sample_bot) (fst (run_call (CallAddMember sample_bot) sample_world))).
    unfold after_bot. by destruct (run_call _ _). }
  destruct (reachable_wf sample_world after_bot sample_sys_wf eq_refl Hs) as [[[Hbc _ _ _ _] _] _]. exact Hbc.
Qed.

Lemma Complete_hands_on_witness :
  exists u, CompleteBotControl complete_new after_bot = (OK u, completed) /\
    controller 1 (w_db after_bot) = Some 1000%N /\ (1000%N ∉ stack_members 1 (w_db completed)) /\
    controller 1 (w_db completed) = Some 11%N.
Proof.
  destruct completed_runs as [u H]. pose proof (Complete_hands_on complete_new after_bot completed u after_bot_wf H) as Hc.
  exists u. split; [exact H|]. split; [vm_compute; reflexivity|].
  cbv zeta in Hc.
  match type of Hc with context [decide ?P] => destruct (decide P) as [Hd|Hd] end.
  - exfalso. destruct Hd as [Hn|Ho]; [|vm_compute in Ho; discriminate Ho].
    apply Hn. apply (bool_decide_unpack _). vm_compute. exact I.
  - destruct Hc as (Hn & _ & Hctl & _). split; [exact Hn|]. etransitivity; [exact Hctl|]. vm_compute. reflexivity.
Defined.

Lemma Complete_idempotent_witness :
  exists u1 u2 w2, CompleteBotControl complete_new after_bot = (OK u1, completed) /\
    CompleteBotControl complete_new completed = (OK u2, w2) /\ w_db w2 = w_db completed.
Proof.
  destruct completed_runs as [u1 H1].
  assert (exists u, CompleteBotControl complete_new completed = (OK u, snd (CompleteBotControl complete_new completed))) as [u2 H2] by runs.
  exists u1, u2. eexists. split; [exact H1|]. split; [exact H2|].
  exact (Complete_idempotent complete_new after_bot completed _ u1 u2 after_bot_wf H1 H2).
Defined.

Lemma Release_steps_down_witness :
  exists u w', ReleaseBotControl (MkRelease 1 0 7) after_bot = (OK u, w') /\ controller 1 (w_db w') = Some 11%N.
Proof.
  assert (exists u, ReleaseBotControl (MkRelease 1 0 7) after_bot = (OK u, snd (ReleaseBotControl (MkRelease 1 0 7) after_bot))) as [u H] by runs.
  destruct (Release_steps_down (MkRelease 1 0 7) after_bot _ u after_bot_wf H) as (_ & Hc & _).
  exists u. eexists. split; [exact H|]. etransitivity; [exact Hc|]. vm_compute. reflexivity.
Defined.

(** Two bots on the stack, nobody in control and no operator: bot 13 on top gets
    control, bot 11 is announced. *)
Definition two_bots_db : DB :=
  on_stack (fun l => l ++ [MkStackRow 31 1 (Some 13%N) 1])
    (on_threads (fun _ => [sample_thread 1 None (Some 11%N); sample_thread 2 None None])
      (on_dialogs (fun l => take 2 l ++ drop 3 l) sample_db)).

Definition two_bots : World := world_of two_bots_db.
Definition two_bots_thread : Thread := resolved_thread two_bots_db (sample_thread 1 None (Some 11%N)).

Lemma two_bots_wf : bc_wf two_bots_db.
Proof.
  split; [split|]; try nodup_list.
  - intros r Hr. simpl in Hr. in_list Hr; (split; [done|split; [by eexists|eexists; split; [done|by eexists]]]).
  - intros t o Ht Ho. simpl in Ht. in_list Ht; [|done]. simplify_eq/=. by eexists.
  - intros t m Ht Hm. simpl in Ht. in_list Ht; done.
Qed.

Lemma ensureBotControl_spec_witness :
  exists r th w', ensureBotControl two_bots_thread 7 two_bots = (r, th, w') /\ is_ok r = true /\
    controller 1 (w_db w') = Some 13%N /\
    exists topic e, db_outbox (w_db w') = [MkOutboxRow topic (EvBotControlGranted e) None] /\ bg_MemberID e = 11%N.
Proof.
  assert (exists r th, ensureBotControl two_bots_thread 7 two_bots = (r, th, snd (ensureBotControl two_bots_thread 7 two_bots)) /\
    is_ok r = true) as (r & th & H & Hok) by (eexists _, _; split; vm_compute; reflexivity).
  assert (is_Some (find_thread (thr_ID two_bots_thread) (w_db two_bots))) as Hth by (eexists; reflexivity).
  pose proof (ensureBotControl_spec two_bots_thread th 7 two_bots _ r two_bots_wf Hth eq_refl H) as Hs.
  destruct r as [u|e]; [|discriminate Hok].
  destruct Hs as (m & Hc & _ & Hm & topic & e & Ho & He). vm_compute in Hm.
  exists (OK u), th. eexists. split; [exact H|]. split; [exact Hok|]. split; [rewrite <- Hm; exact Hc|].
  exists topic, e. split; [exact Ho|exact He].
Defined.
