(* ===== verification/DirectRules.v ===== *)
(** * DirectRules: what finding or creating a direct thread guarantees *)
From S2P Require Import Prelude Domain Events Message World BotControlStore.
From S2P Require Import BotControl Samples DialogStore ThreadStore Permissions PermissionRules.
From S2P Require Import TagStore Outbox TagService Tags MessageStore References ControlEvents.
From S2P Require Import BotFlow Members DirectThread Invariant Safety System Seats MemberRules.
#[local] Open Scope Z_scope.

(** The recipient of a created event. *)
Definition created_recipient (o : OutboxRow) : option uuid :=
  match o_event o with EvThreadCreated e => Some (rcp_ID (tc_Recipient e)) | _ => None end.

(** The tables a new thread is written to. *)
Definition places (w : World) :=
  (db_threads (w_db w), db_dialogs (w_db w), db_perms (w_db w), db_stack (w_db w)).

#[export] Instance quiet_places : Quiet places.
Proof. by split. Qed.

Lemma places_fields w w' : places w' = places w ->
  db_threads (w_db w') = db_threads (w_db w) /\ db_dialogs (w_db w') = db_dialogs (w_db w) /\
  db_perms (w_db w') = db_perms (w_db w) /\ db_stack (w_db w') = db_stack (w_db w).
Proof. unfold places. by intros [= -> -> -> ->]. Qed.

Lemma update_last {A} (P : A -> bool) f (l : list A) x :
  (forall y, y ∈ l -> P y = false) -> P x = true -> update_where P f (l ++ [x]) = l ++ [f x].
Proof.
  intros Hl Hx. unfold update_where. rewrite fmap_app. simpl. rewrite Hx. f_equal. by apply (update_where_none P f l).
Qed.

Section creation.
Context {E : Env}.

(** The new thread, and its two dialogs. *)
Definition direct_thread_row (id : uuid) (at_ : Time) (dom : Z) : ThreadRow :=
  MkThreadRow id dom at_ at_ Kind.ThreadDirect uuid_Nil "" "" None None None 0.

Definition direct_row (id : uuid) (at_ : Time) (tid contact : uuid) (dom : Z) (via : option string) (isBot : bool) : DialogRow :=
  MkDialogRow id dom at_ at_ contact tid Role.RoleOwner None None None via None isBot false None None None 0.

(** The thread inserted last is found. *)
Lemma find_thread_last tid d ts t :
  db_threads d = ts ++ [t] -> t_id t = tid -> (forall y, y ∈ ts -> t_id y <> tid) -> find_thread tid d = Some t.
Proof.
  intros Hts Htid Hne. unfold find_thread. rewrite Hts. clear -Htid Hne. induction ts as [|y ts IH]; simpl.
  - by rewrite bool_decide_true.
  - rewrite bool_decide_false by (apply Hne; left). apply IH. intros z Hz. apply Hne. by right.
Qed.

(** The bot of a new thread is pushed and announced. *)
Lemma init_bot_ok tid m dialog ts t w u w' :
  db_threads (w_db w) = ts ++ [t] -> t_id t = tid -> (forall y, y ∈ ts -> t_id y <> tid) ->
  (map_err init_bot_error (Push (MkTransition tid m ReasonInitial None));;
   publishBotControlGranted dialog None 0 ReasonInitial false) w = (OK u, w') ->
  db_dialogs (w_db w') = db_dialogs (w_db w) /\ db_perms (w_db w') = db_perms (w_db w) /\
  (exists o, db_threads (w_db w') = ts ++ [set_thread_control (Some m) o t]) /\
  exists topic e, db_outbox (w_db w') = db_outbox (w_db w) ++ [MkOutboxRow topic (EvBotControlGranted e) None].
Proof.
  intros Hts Htid Hne Hp.
  apply M_bind_ok in Hp as (pv & w4 & Hpush & Hp). apply map_err_ok, Push_ok in Hpush as (_ & Hd4 & _ & _). simpl in Hd4.
  pose proof Hp as Hq. apply (preserves_ok places) in Hq; [|frame]. apply places_fields in Hq as (E1 & E2 & E3 & _).
  rewrite E1, E2, E3, Hd4. split; [done|]. split; [done|]. split.
  - exists (coalesce (t_owner_bot_id t) (earliest_free_bot tid (w_db w))).
    unfold push_sql, update_thread. simpl. rewrite Hts. rewrite update_last; [reflexivity| |by apply bool_decide_true].
    intros y Hy. by apply bool_decide_false, Hne.
  - unfold publishBotControlGranted in Hp. run in Hp. apply M_bind_ok in Hp as (ags & wa & Ha & Hp). run in Hp.
    assert (db_outbox (w_db wa) = db_outbox (w_db w4)) as Ho.
    { eapply (preserves_ok (fun w => db_outbox (w_db w))); [|exact Ha]. unfold collectThreadAgents, GetQuickView. frame. }
    apply Publish_ok in Hp as (_ & _ & _ & Hd). eexists _, _. rewrite Hd. unfold published. simpl. by rewrite Ho, Hd4.
Qed.

Lemma initialize_ok tid dom from to toIsBot w ms w' ts t :
  db_threads (w_db w) = ts ++ [t] -> t_id t = tid -> t_domain_id t = dom -> t_owner_bot_id t = None ->
  t_bot_controller_id t = None -> (forall y, y ∈ ts -> t_id y <> tid) ->
  initializeDirectThreadDialogs tid dom from to toIsBot w = (OK ms, w') ->
  exists x1 x2 m1 m2 p1 p2 c o,
    x1 = direct_row (d_id x1) (w_now w) tid (Shared.peer_ID from) dom (gate_of from to) false /\
    x2 = direct_row (d_id x2) (w_now w) tid (Shared.peer_ID to) dom (if toIsBot then None else gate_of from to) toIsBot /\
    Shared.peer_ID from <> Shared.peer_ID to /\
    ms = [m1; m2] /\ tde_ID m1 = d_id x1 /\ tde_ID m2 = d_id x2 /\ tde_IsBot m1 = false /\ tde_IsBot m2 = toIsBot /\
    db_dialogs (w_db w') = db_dialogs (w_db w) ++ [x1; x2] /\
    db_perms (w_db w') = db_perms (w_db w) ++ [p1; p2] /\
    p_thread_dialog_id p1 = d_id x1 /\ p_perms p1 = full_rights /\ p_thread_dialog_id p2 = d_id x2 /\ p_perms p2 = full_rights /\
    db_threads (w_db w') = ts ++ [set_thread_control c o t] /\ c = (if toIsBot then Some (d_id x2) else None) /\
    (exists rows, db_outbox (w_db w') = db_outbox (w_db w) ++ rows /\ omap created_recipient rows = []).
Proof.
  intros Hts Htid Hdom Hown Hctl Hne. unfold initializeDirectThreadDialogs.
  destruct (Shared.peer_Identity to) as [ti|]; [|done]. destruct (Shared.peer_Identity from) as [fi|]; [|done].
  destruct (_ || _); [done|]. intros Hr.
  pose proof (find_thread_last _ _ _ _ Hts Htid Hne) as Ht.
  assert (getDefaultPermissionsByRole Role.RoleOwner = OK full_rights) as Hdef by reflexivity.
  apply M_bind_ok in Hr as (pa & wa & Hpa & Hr). unfold of_result in Hpa. rewrite Hdef in Hpa. injection Hpa as <- <-.
  apply M_bind_ok in Hr as (pb & wb & Hpb & Hr). unfold of_result in Hpb. rewrite Hdef in Hpb. injection Hpb as <- <-.
  apply M_bind_ok in Hr as (m1 & w1 & Hc1 & Hr).
  apply Create_ok in Hc1 as (t1 & Ht1 & Ha1 & Hd1 & Hn1 & Hi1 & _ & _ & Hb1 & _). simpl in Ht1, Ha1, Hd1, Hi1, Hb1.
  rewrite Ht in Ht1. injection Ht1 as <-.
  apply M_bind_ok in Hr as (m2 & w2 & Hc2 & Hr).
  apply Create_ok in Hc2 as (t2 & Ht2 & Ha2 & Hd2 & Hn2 & Hi2 & _ & _ & Hb2 & _). simpl in Ht2, Ha2, Hd2, Hi2, Hb2.
  assert (find_thread tid (w_db w1) = Some t) as Ht' by (rewrite Hd1; exact Ht). rewrite Ht' in Ht2. injection Ht2 as <-.
  apply M_bind_ok in Hr as (u & w3 & Hp & Hr). run in Hr. injection Hr as <- <-.
  set (x1 := direct_row (w_next w) (w_now w) tid (Shared.peer_ID from) dom (gate_of from to) false).
  set (x2 := direct_row (w_next w1) (w_now w) tid (Shared.peer_ID to) dom (if toIsBot then None else gate_of from to) toIsBot).
  assert (db_dialogs (w_db w2) = db_dialogs (w_db w) ++ [x1; x2]) as Hdl.
  { rewrite Hd2, Hd1. simpl. rewrite <- app_assoc. simpl. unfold new_dialog, x1, x2, direct_row. simpl.
    by rewrite Htid, Hdom, Hn1. }
  assert (Shared.peer_ID from <> Shared.peer_ID to) as Hdiff.
  { intros Heq. unfold create_accepted in Ha2. rewrite !andb_true_iff in Ha2. destruct Ha2 as [[[Hx _] _] _].
    rewrite negb_true_iff in Hx. apply not_true_iff_false in Hx. apply Hx, existsb_exists. exists x1.
    rewrite Hd1. simpl. unfold new_dialog. simpl. rewrite Htid, Hdom. split; [apply in_app_iff; right; by left|].
    unfold x1. simpl. rewrite Heq. by rewrite !bool_decide_true. }
  exists x1, x2, m1, m2. eexists _, _.
  assert (db_perms (w_db w2) = db_perms (w_db w) ++ [MkPermRow (w_next w + 1) (t_id t) (w_next w) full_rights (w_now w) (w_now w);
    MkPermRow (w_next w1 + 1) (t_id t) (w_next w1) full_rights (w_now w1) (w_now w1)]) as Hpm.
  { rewrite Hd2, Hd1. simpl. by rewrite <- app_assoc. }
  assert (db_threads (w_db w2) = ts ++ [t]) as Hts2 by (rewrite Hd2, Hd1; exact Hts).
  assert (db_outbox (w_db w2) = db_outbox (w_db w)) as Ho2 by (rewrite Hd2, Hd1; done).
  destruct toIsBot.
  - apply (init_bot_ok tid _ _ ts t) in Hp as (F1 & F2 & [o F3] & topic & e & F4); [|done..].
    exists (Some (d_id x2)), o. rewrite F1, F2, F3, F4, Hdl, Hpm, Ho2, Hi2.
    split_and!; try reflexivity; try done. eexists. split; [reflexivity|done].
  - run in Hp. injection Hp as _ <-. exists None, None. rewrite Hdl, Hpm, Hts2.
    assert (set_thread_control None None t = t) as -> by (destruct t; simpl in *; by subst).
    split_and!; try reflexivity; try done. exists []. by rewrite app_nil_r.
Qed.

Lemma publish_created_ok es w u w' : publishThreadCreatedEvents es w = (OK u, w') ->
  places w' = places w /\
  exists rows, db_outbox (w_db w') = db_outbox (w_db w) ++ rows /\ o_event <$> rows = es.
Proof.
  unfold publishThreadCreatedEvents. intros Hr. split; [by eapply (preserves_ok places); [|exact Hr]; frame|].
  revert w Hr. induction es as [|e es IH]; intros w Hr; simpl in Hr.
  - run in Hr. injection Hr as _ <-. exists []. by rewrite app_nil_r.
  - apply M_bind_ok in Hr as (u1 & w1 & H1 & Hr). apply Publish_ok in H1 as (_ & _ & _ & Hd).
    apply IH in Hr as (rows & Ho & He). clear IH.
    assert (exists c, db_outbox (w_db w1) = db_outbox (w_db w) ++ [MkOutboxRow (thread_topic env_uuid_string e) e c]) as [c Hc]
      by (rewrite Hd; unfold published; destruct (JournalThreadID e); eexists; reflexivity).
    exists (MkOutboxRow (thread_topic env_uuid_string e) e c :: rows). rewrite Ho, Hc, <- app_assoc. split; [done|].
    rewrite fmap_cons. by rewrite He.
Qed.

Lemma create_body_ok req toIsBot w th w' :
  sys_wf w -> create_body req toIsBot w = (OK th, w') ->
  exists x1 x2 p1 p2 o rows,
    x1 = direct_row (d_id x1) (w_now w) (thr_ID th) (Shared.peer_ID (en_From req)) (en_DomainID req) (gate_of (en_From req) (en_To req)) false /\
    x2 = direct_row (d_id x2) (w_now w) (thr_ID th) (Shared.peer_ID (en_To req)) (en_DomainID req)
           (if toIsBot then None else gate_of (en_From req) (en_To req)) toIsBot /\
    Shared.peer_ID (en_From req) <> Shared.peer_ID (en_To req) /\
    thr_ID th = w_next w /\
    (td_ID <$> thr_Members th) = [d_id x1; d_id x2] /\ (td_IsBot <$> thr_Members th) = [false; false] /\
    db_dialogs (w_db w') = db_dialogs (w_db w) ++ [x1; x2] /\
    db_perms (w_db w') = db_perms (w_db w) ++ [p1; p2] /\
    p_thread_dialog_id p1 = d_id x1 /\ p_perms p1 = full_rights /\ p_thread_dialog_id p2 = d_id x2 /\ p_perms p2 = full_rights /\
    thr_BotControllerID th = (if toIsBot then Some (d_id x2) else None) /\
    db_threads (w_db w') = db_threads (w_db w) ++
      [set_thread_control (thr_BotControllerID th) o (direct_thread_row (thr_ID th) (w_now w) (en_DomainID req))] /\
    db_outbox (w_db w') = db_outbox (w_db w) ++ rows /\
    omap created_recipient rows = [Shared.peer_ID (en_From req); Shared.peer_ID (en_To req)].
Proof.
  intros Hwf. unfold create_body, createDirectThread. intros Hr.
  apply M_bind_ok in Hr as (st & ws & Hs & Hr). run in Hs. unfold ThreadStore.Create in Hs.
  step_ok Hs. apply statement_as_ok in Hs0 as (-> & _). destruct (thread_accepted _); [|done]. run in Hs. injection Hs as <- <-. simpl in Hr.
  apply M_bind_ok in Hr as (ms & wm & Hm & Hr).
  eapply (initialize_ok _ _ _ _ _ _ _ _ (db_threads (w_db w)) (direct_thread_row (w_next w) (w_now w) (en_DomainID req))) in Hm
    as (x1 & x2 & m1 & m2 & p1 & p2 & c & o & Hx1 & Hx2 & Hdiff & -> & Hi1 & Hi2 & Hb1 & Hb2 & Hdl & Hpm & P1 & P2 & P3 & P4 & Hts & -> & rows & Ho & Hrec);
    [|reflexivity|reflexivity|reflexivity|reflexivity|reflexivity|].
  2:{ intros y Hy Heq. apply (fresh_thread_id w Hwf). rewrite <- Heq. by apply list_elem_of_fmap_2. }
  simpl in Hx1, Hx2, Hdl, Hpm, Ho.
  apply M_bind_ok in Hr as (u & wp & Hp & Hr). run in Hr. injection Hr as <- <-.
  apply publish_created_ok in Hp as (Hpl & crow & Hcr & Hev). apply places_fields in Hpl as (E1 & E2 & E3 & _).
  exists x1, x2, p1, p2, o, (rows ++ crow). rewrite E1, E2, E3, Hdl, Hpm, Hts, Hcr, Ho, <- app_assoc.
  assert (omap created_recipient (rows ++ crow) = [Shared.peer_ID (en_From req); Shared.peer_ID (en_To req)]) as Hall.
  { rewrite omap_app, Hrec. simpl. revert Hev. clear. unfold buildDirectThreadCreatedEvents. intros Hev.
    destruct crow as [|r1 [|r2 [|r3 crow]]]; try discriminate Hev. injection Hev as H1 H2. unfold created_recipient.
    simpl. rewrite H1, H2. done. }
  unfold reflect_controller. simpl. rewrite Hb1, Hb2.
  destruct toIsBot; simpl; rewrite Hi1, Hi2; split_and!; try done.
Qed.
End creation.

(** ** Creating *)
Section ensure.
Context {E : Env}.

Lemma refreshSource_keeps_core ref w u w' : refreshSource ref w = (OK u, w') ->
  core (w_db w') = core (w_db w) /\ w_next w' = w_next w /\ w_now w' = w_now w /\ db_outbox (w_db w') = db_outbox (w_db w) /\
  w_in_tx w' = w_in_tx w.
Proof.
  intros Hr.
  assert (preserves (fun w => (core (w_db w), w_next w, w_now w, db_outbox (w_db w), w_in_tx w)) (refreshSource ref)) as Hp.
  { unfold refreshSource, UpsertSource, RememberSource. repeat first [solve [eauto with svc] | frame_step | by intros ?]. }
  apply (preserves_ok _ _ _ _ _ Hp) in Hr. injection Hr as E1 E2 E3 E4 E5 E6 E7 -> -> -> ->.
  unfold core. by rewrite E1, E2, E3, E4, E5, E6, E7.
Qed.

Lemma ResolveThread_ok q w r w' : ResolveThread q w = (OK r, w') ->
  w' = set_tick (w_aborted w) w /\
  match resolve_row (prepareResolveThreadQuery q) (w_db w) with
  | Some t => r = Some (resolved_thread (w_db w) t)
  | None => r = None /\ Shared.peer_Type (rq_To q) = Shared.PeerContact /\ SendAsPtr (Some q) = None
  end.
Proof.
  unfold ResolveThread. intros Hr. step_ok Hr. apply statement_as_ok in Hs as (-> & _). run in Hr. simpl in Hr.
  destruct (resolve_row _ _) as [t|]; [run in Hr; by injection Hr as <- <-|].
  destruct (decide _) as [[? ?]|]; [|done]. run in Hr. by injection Hr as <- <-.
Qed.

(** A call that finds no thread creates one. *)
Lemma EnsureDirectThread_new req w th w' :
  resolve_row (prepareResolveThreadQuery (MkResolveQuery (en_From req) (en_To req) (en_SendAs req))) (w_db w) = None ->
  EnsureDirectThread req w = (OK th, w') ->
  env_can_send (Shared.peer_ID (en_From req)) (Shared.peer_ID (en_To req)) = OK tt /\
  Shared.peer_Type (en_To req) = Shared.PeerContact /\
  SendAsPtr (Some (MkResolveQuery (en_From req) (en_To req) (en_SendAs req))) = None /\
  exists w0 w1, core (w_db w0) = core (w_db w) /\ w_next w0 = w_next w /\ w_now w0 = w_now w /\
    db_outbox (w_db w0) = db_outbox (w_db w) /\
    create_body req (peerIsBot (Shared.peer_ID (en_To req)) (en_DomainID req)) w0 = (OK th, w1) /\ w_db w' = w_db w1 /\
    w_next w' = w_next w1.
Proof.
  intros Hnone. unfold EnsureDirectThread. intros Hr. apply M_bind_ok in Hr as (f & wf & Hf & Hr).
  apply ResolveThread_ok in Hf as [-> Hf]. rewrite Hnone in Hf. destruct Hf as (-> & Hto & Hsa).
  unfold orchestrateDirectThreadCreation in Hr. apply M_bind_ok in Hr as (u & wa & Ha & Hr).
  unfold of_result in Ha. injection Ha as Ha <-. destruct u.
  apply M_bind_ok in Hr as (u & wb & Hb & Hr). apply refreshSource_keeps_core in Hb as (Hc & Hn & Hnow & Ho & Hx). simpl in *.
  apply WithinTransaction_run in Hr as (w0 & w1 & Hr & _ & Hd0 & Hn0 & Hnow0 & _ & Hd1 & Hn1 & _).
  split_and!; [done|done|done|]. exists w0, w1. rewrite Hd0, Hn0, Hnow0. done.
Qed.
End ensure.

(** (C17) The first message of a contact to another creates their thread: it has a
    fresh id, exactly two new active dialogs with owner role and all rights, one
    per contact, its gate on every dialog but a bot's, and one created event for
    each side.  A bot addressed this way controls the thread, in the database
    and in the value returned.  The members returned never carry the bot flag. *)
Theorem EnsureDirectThread_creates {E : Env} (req : EnsureDirectThreadRequest) (w w' : World) th :
  sys_wf w ->
  resolve_row (prepareResolveThreadQuery (MkResolveQuery (en_From req) (en_To req) (en_SendAs req))) (w_db w) = None ->
  EnsureDirectThread req w = (OK th, w') ->
  let bot := peerIsBot (Shared.peer_ID (en_To req)) (en_DomainID req) in
  env_can_send (Shared.peer_ID (en_From req)) (Shared.peer_ID (en_To req)) = OK tt /\
  (thr_ID th ∉ t_id <$> db_threads (w_db w)) /\
  exists x1 x2 p1 p2 rows,
    x1 = direct_row (d_id x1) (w_now w) (thr_ID th) (Shared.peer_ID (en_From req)) (en_DomainID req) (gate_of (en_From req) (en_To req)) false /\
    x2 = direct_row (d_id x2) (w_now w) (thr_ID th) (Shared.peer_ID (en_To req)) (en_DomainID req)
           (if bot then None else gate_of (en_From req) (en_To req)) bot /\
    (td_ID <$> thr_Members th) = [d_id x1; d_id x2] /\ (td_IsBot <$> thr_Members th) = [false; false] /\
    db_dialogs (w_db w') = db_dialogs (w_db w) ++ [x1; x2] /\
    db_perms (w_db w') = db_perms (w_db w) ++ [p1; p2] /\
    p_thread_dialog_id p1 = d_id x1 /\ p_perms p1 = full_rights /\ p_thread_dialog_id p2 = d_id x2 /\ p_perms p2 = full_rights /\
    controller (thr_ID th) (w_db w') = thr_BotControllerID th /\
    thr_BotControllerID th = (if bot then Some (d_id x2) else None) /\
    db_outbox (w_db w') = db_outbox (w_db w) ++ rows /\
    omap created_recipient rows = [Shared.peer_ID (en_From req); Shared.peer_ID (en_To req)].
Proof.
  intros Hwf Hnone Hr. cbv zeta.
  apply (EnsureDirectThread_new _ _ _ _ Hnone) in Hr as (Hcan & _ & _ & w0 & w1 & Hc & Hn & Hnow & Ho & Hb & Hd & _).
  assert (sys_wf w0) as Hwf0 by (eapply sys_wf_core; [exact Hc|by rewrite Hn|exact Hwf]).
  apply create_body_ok in Hb as (x1 & x2 & p1 & p2 & o & rows & Hx1 & Hx2 & _ & Hid & Hids & Hbots & Hdl & Hpm & P1 & P2 & P3 & P4 & Hctl & Hts & Hout & Hrec); [|done].
  unfold core in Hc. injection Hc as C1 C2 C3 _ _ _ _. rewrite Hnow in *. rewrite Hd.
  assert (thr_ID th ∉ t_id <$> db_threads (w_db w)) as Hfresh by (rewrite Hid, Hn; by apply fresh_thread_id).
  split; [done|]. split; [done|]. exists x1, x2, p1, p2, rows. rewrite <- C2, <- C3, <- Ho. split_and!; try done.
  unfold controller, find_thread. rewrite Hts. rewrite C1.
  assert (find_first (fun t => bool_decide (t_id t = thr_ID th)) (db_threads (w_db w)) = None) as Hno.
  { apply find_first_None. intros y Hy. apply bool_decide_false. intros Heq. apply Hfresh. rewrite <- Heq. by apply list_elem_of_fmap_2. }
  rewrite (find_first_app (fun t => bool_decide (t_id t = thr_ID th))); [done| |].
  - by apply find_first_None.
  - simpl. by rewrite bool_decide_true.
Qed.

(** ** Finding again *)
Lemma existsb_app_l {A} (P : A -> bool) l k : (forall x, x ∈ k -> P x = false) -> existsb P (l ++ k) = existsb P l.
Proof.
  intros Hk. rewrite existsb_app. assert (existsb P k = false) as ->; [|by rewrite orb_false_r].
  apply not_true_iff_false. rewrite existsb_exists. intros (x & Hx & HP). apply list_elem_of_In in Hx. rewrite Hk in HP; done.
Qed.

Lemma existsb_elem {A} (P : A -> bool) l x : x ∈ l -> P x = true -> existsb P l = true.
Proof. intros Hx HP. apply existsb_exists. exists x. split; [by apply list_elem_of_In|done]. Qed.

(** The thread found in a database that gained one thread with its two dialogs. *)
Lemma resolve_row_new a d d' t x1 x2 :
  resolve_row a d = None -> db_threads d' = db_threads d ++ [t] -> db_dialogs d' = db_dialogs d ++ [x1; x2] ->
  (forall y, y ∈ db_threads d -> t_id y <> t_id t) -> d_thread_id x1 = t_id t -> d_thread_id x2 = t_id t ->
  resolve_main a t x2 = true -> resolve_check a t x1 = true -> resolve_row a d' = Some t.
Proof.
  intros Hnone Hts Hdl Hne H1 H2 Hm Hc. unfold resolve_row in *. rewrite Hts, Hdl.
  rewrite (find_first_app (fun t => existsb (resolve_main a t) (db_dialogs d ++ [x1; x2]) && existsb (resolve_check a t) (db_dialogs d ++ [x1; x2]))); [done| |].
  - intros y Hy. rewrite find_first_None in Hnone. specialize (Hnone y Hy). specialize (Hne y Hy).
    rewrite !existsb_app_l; [exact Hnone| |].
    + intros x [->|[->|Hx]%elem_of_cons]%elem_of_cons; [| |by apply not_elem_of_nil in Hx];
        unfold resolve_check; rewrite (bool_decide_false (d_thread_id _ = t_id y)); [done|congruence|done|congruence].
    + intros x [->|[->|Hx]%elem_of_cons]%elem_of_cons; [| |by apply not_elem_of_nil in Hx];
        unfold resolve_main; rewrite (bool_decide_false (d_thread_id _ = t_id y)); [done|congruence|done|congruence].
  - rewrite andb_true_iff. split.
    + apply (existsb_elem _ _ x2); [|done]. apply elem_of_app. right. right. left.
    + apply (existsb_elem _ _ x1); [|done]. apply elem_of_app. right. left.
Qed.

(** The gate stored for the sender is the one its next message resolves through. *)
Lemma gate_of_sender from to :
  match Shared.ResolveVia from with None => true | Some v => bool_decide (gate_of from to = Some v) end = true.
Proof.
  unfold gate_of. destruct (Shared.ResolveVia from) as [v|] eqn:Hv; [|done].
  assert (v <> "") as Hne.
  { unfold Shared.ResolveVia in Hv. destruct (Shared.peer_Identity _) as [idn|]; [|done].
    destruct (Shared.idn_ViaInfo idn) as [vi|]; [|done]. destruct (decide _); [done|]. by injection Hv as <-. }
  rewrite decide_False by done. by apply bool_decide_true.
Qed.

(** No dialog belongs to a thread that is not stored. *)
Lemma active_dialogs_none d tid : db_wf d -> (forall y, y ∈ db_threads d -> t_id y <> tid) ->
  select_where (fun r => bool_decide (d_thread_id r = tid) && active r) (db_dialogs d) = [].
Proof.
  intros [_ _ [_ Hmt _ _] _ _] Hne.
  destruct (select_where _ _) as [|z l] eqn:Hz; [done|]. exfalso. assert (z ∈ z :: l) as Hin by left. rewrite <- Hz in Hin.
  apply elem_of_select in Hin as [Hin Hp]. rewrite andb_true_iff, bool_decide_eq_true in Hp.
  destruct (Hmt z Hin) as [y Hy]. apply find_thread_Some in Hy as [Hy Hyt].
  apply (Hne y Hy). destruct Hp. congruence.
Qed.

(** (C18) Ensuring twice is ensuring once: after a contact's first message created
    the thread, the same request finds that thread again, through the same gate,
    and neither adds nor changes a thread, a member, a right or a stack. *)
Theorem EnsureDirectThread_idempotent {E : Env} (req : EnsureDirectThreadRequest) (w w1 w2 : World) th1 th2 :
  sys_wf w -> Shared.peer_Type (en_From req) = Shared.PeerContact ->
  resolve_row (prepareResolveThreadQuery (MkResolveQuery (en_From req) (en_To req) (en_SendAs req))) (w_db w) = None ->
  EnsureDirectThread req w = (OK th1, w1) -> EnsureDirectThread req w1 = (OK th2, w2) ->
  thr_ID th2 = thr_ID th1 /\ thr_BotControllerID th2 = thr_BotControllerID th1 /\
  (td_ID <$> thr_Members th2) = (td_ID <$> thr_Members th1) /\ core (w_db w2) = core (w_db w1).
Proof.
  intros Hwf Hfrom Hnone H1 H2.
  apply (EnsureDirectThread_new _ _ _ _ Hnone) in H1 as (_ & Hto & Hsa & w0 & wb & Hc & Hn & _ & _ & Hb & Hd & _).
  assert (sys_wf w0) as Hwf0 by (eapply sys_wf_core; [exact Hc|by rewrite Hn|exact Hwf]).
  set (bot := peerIsBot _ _) in *.
  apply create_body_ok in Hb as (x1 & x2 & p1 & p2 & o & rows & Hx1 & Hx2 & Hdiff & Hid & Hids & _ & Hdl & _ & _ & _ & _ & _ & Hctl & Hts & _); [|done].
  unfold core in Hc. injection Hc as C1 C2 _ _ _ _ _. rewrite C1 in Hts. rewrite C2 in Hdl. rewrite <- Hd in Hts, Hdl.
  set (t := set_thread_control _ _ _) in Hts.
  set (a := prepareResolveThreadQuery _) in *.
  assert (forall y, y ∈ db_threads (w_db w) -> t_id y <> t_id t) as Hne.
  { intros y Hy Heq. apply (fresh_thread_id w Hwf). rewrite <- Hn, <- Hid. change (thr_ID th1) with (t_id t). rewrite <- Heq. by apply list_elem_of_fmap_2. }
  assert (resolve_row a (w_db w1) = Some t) as Hfound.
  { apply (resolve_row_new a (w_db w) _ t x1 x2); try done; [by rewrite Hx1|by rewrite Hx2| |].
    - unfold resolve_main, a, prepareResolveThreadQuery, Shared.ResolveThreadID, Shared.ResolveContactID, active. simpl.
      rewrite Hto. rewrite Hx2. simpl. by rewrite !bool_decide_true.
    - unfold resolve_check, a, prepareResolveThreadQuery, Shared.ResolveContactID, active. simpl.
      simpl in Hsa. rewrite Hsa, Hfrom. rewrite Hx1. simpl. rewrite !bool_decide_true by done. simpl.
      apply gate_of_sender. }
  unfold EnsureDirectThread in H2. apply M_bind_ok in H2 as (f & wf & Hf & H2). apply ResolveThread_ok in Hf as [-> Hf].
  fold a in Hf. rewrite Hfound in Hf. subst f.
  assert (active_dialogs (t_id t) (w_db w1) = [x1; x2]) as Hact.
  { unfold active_dialogs. rewrite Hdl, select_app.
    rewrite (active_dialogs_none _ _ (proj1 Hwf) Hne).
    simpl. rewrite Hx1, Hx2. simpl. by rewrite !bool_decide_true. }
  assert (thr_Members (resolved_thread (w_db w1) t) = [memberOfRecord (member_record x1); memberOfRecord (member_record x2)]) as Hmem.
  { unfold resolved_thread. cbn [thr_Members]. by rewrite Hact. }
  assert (ensure_existing req (resolved_thread (w_db w1) t) = mret (resolved_thread (w_db w1) t)) as Hex.
  { unfold ensure_existing. rewrite Hmem. unfold isBotMember. simpl.
    rewrite Hctl. destruct bot eqn:Hbot; simpl; [done|]. rewrite Hx1, Hx2. simpl. repeat (case_bool_decide; simpl); done. }
  rewrite Hex in H2. run in H2. apply M_bind_ok in H2 as (u & wr & Hr & H2). run in H2. injection H2 as <- <-.
  apply refreshSource_keeps_core in Hr as (Hcr & _).
  split; [done|]. split; [done|]. split; [|exact Hcr]. by rewrite Hmem, Hids.
Qed.

(** ** Witnesses: a client writes to a bot through a gate *)
Definition bot_env : Env := {|
  env_fault := fun _ => false;
  env_can_invite := fun _ _ => OK tt;
  env_can_send := fun _ _ => OK tt;
  env_contact_info := Some (MkContactInfo (fun c _ => OK (bool_decide (c = 301%N))) (fun _ _ => OK None));
  env_providers := None;
  env_contact_is_bot := fun _ => None;
  env_uuid_string := fun u => pretty u;
  env_uuid_valid := fun _ => false;
  env_graphemes := fun s => Z.of_nat (String.length s);
  env_join_pick := fun _ _ => 0%nat;
  env_ctx := MkCtx None None |}.

Definition client_peer : Shared.Peer :=
  Shared.MkPeer 300 Shared.PeerContact (Some (Shared.MkIdentity "iss" "Ann" "" (Some (Shared.MkViaInfo "gate" "Gate" "custom")))).
Definition bot_peer : Shared.Peer := Shared.MkPeer 301 Shared.PeerContact (Some (Shared.MkIdentity "iss" "Robot" "" None)).
Definition first_message : EnsureDirectThreadRequest := MkEnsure 7 client_peer bot_peer None.
Definition ensured : World := snd (EnsureDirectThread (E:=bot_env) first_message sample_world).

Lemma ensured_runs : exists th, EnsureDirectThread (E:=bot_env) first_message sample_world = (OK th, ensured).
Proof. runs. Qed.

Lemma EnsureDirectThread_creates_witness :
  exists th, EnsureDirectThread (E:=bot_env) first_message sample_world = (OK th, ensured) /\
    controller (thr_ID th) (w_db ensured) = thr_BotControllerID th /\ length (db_dialogs (w_db ensured)) = 6%nat.
Proof.
  destruct ensured_runs as [th H].
  destruct (EnsureDirectThread_creates (E:=bot_env) first_message sample_world ensured th sample_sys_wf eq_refl H) as
    (_ & _ & x1 & x2 & p1 & p2 & rows & _ & _ & _ & _ & Hd & _ & _ & _ & _ & _ & Hc & _).
  exists th. split; [exact H|]. split; [exact Hc|]. rewrite Hd. reflexivity.
Defined.

Lemma EnsureDirectThread_idempotent_witness :
  exists th1 th2 w2, EnsureDirectThread (E:=bot_env) first_message sample_world = (OK th1, ensured) /\
    EnsureDirectThread (E:=bot_env) first_message ensured = (OK th2, w2) /\ thr_ID th2 = thr_ID th1.
Proof.
  destruct ensured_runs as [th1 H1].
  assert (exists th, EnsureDirectThread (E:=bot_env) first_message ensured =
    (OK th, snd (EnsureDirectThread (E:=bot_env) first_message ensured))) as [th2 H2] by runs.
  exists th1, th2. eexists. split; [exact H1|]. split; [exact H2|].
  exact (proj1 (EnsureDirectThread_idempotent (E:=bot_env) first_message sample_world ensured _ th1 th2 sample_sys_wf eq_refl eq_refl H1 H2)).
Defined.
