(* ===== verification/MessageRules.v ===== *)
(** * MessageRules: addressing, numbering and paging messages; display names *)
From S2P Require Import Prelude Domain Events Message World BotControlStore.
From S2P Require Import BotControl Samples DialogStore ThreadStore TagStore Outbox TagService.
From S2P Require Import MessageStore References ControlEvents Members Invariant Safety System.
From S2P Require Import Seats.
#[local] Open Scope Z_scope.

(** ** External peers *)
Lemma gate_via_has ds d : d ∈ ds -> has_via d = true -> gate_via ds <> "".
Proof.
  induction ds as [|x ds IH]; [by intros ?%not_elem_of_nil|]. simpl. intros [->|Hd]%elem_of_cons Hv.
  - rewrite Hv. by apply has_via_spec in Hv as [_ ?].
  - destruct (has_via x) eqn:Hx; [by apply has_via_spec in Hx as [_ ?]|auto].
Qed.

(** Whom a message leaves the platform for: every address names a member of
    the thread that is not a bot, through a gate some member of the thread has,
    never an empty one; every non-bot member with a gate of its own is addressed
    through it; and when the thread has a gate and a single non-bot member, that
    member is addressed even if only the other side carries the gate. *)
Theorem ExtractExternalPeers_spec (ds : list ThreadDialog) :
  (forall p, p ∈ ExtractExternalPeers ds -> external_peer_ok ds p) /\
  (forall d, d ∈ ds -> td_IsBot d = false -> has_via d = true -> external_of d ∈ ExtractExternalPeers ds) /\
  (forall d, nonBots ds = [d] -> gate_via ds <> "" -> exists v, ExtractExternalPeers ds = [MkExternalPeer (td_ContactID d) v]).
Proof.
  assert (forall p, p ∈ external_of <$> List.filter has_via (nonBots ds) -> external_peer_ok ds p) as Hok.
  { intros p (d & -> & Hd)%list_elem_of_fmap. by apply external_of_ok. }
  unfold ExtractExternalPeers. split; [|split].
  - intros p Hp. destruct (external_of <$> List.filter has_via (nonBots ds)) as [|q qs] eqn:Hext; [|by apply Hok].
    destruct (nonBots ds) as [|d [|d2 l]] eqn:Hnb; [by apply not_elem_of_nil in Hp| |by apply not_elem_of_nil in Hp].
    destruct (decide (gate_via ds <> "")) as [Hg|]; [|by apply not_elem_of_nil in Hp].
    apply list_elem_of_singleton in Hp as ->. assert (d ∈ nonBots ds) as Hd by (rewrite Hnb; left).
    apply elem_of_nonBots in Hd as [Hd Hb]. split; [by exists d|]. split; [done|]. by apply gate_via_spec.
  - intros d Hd Hb Hv.
    assert (external_of d ∈ external_of <$> List.filter has_via (nonBots ds)) as Hin.
    { apply list_elem_of_fmap_2. rewrite list_elem_of_In, filter_In, <- list_elem_of_In. split; [by apply elem_of_nonBots|done]. }
    destruct (external_of <$> List.filter has_via (nonBots ds)); [by apply not_elem_of_nil in Hin|done].
  - intros d Hnb Hg. rewrite Hnb. simpl. destruct (has_via d); simpl; [by eexists|]. rewrite decide_True by done. by eexists.
Qed.

(** ** Numbering *)
Definition last_seq (tid : uuid) (d : DB) : option Z := t_last_seq <$> find_thread tid d.

(** Saving a system message gives it the next number of its thread, moves the
    counter of that thread by one and no other, and stores one row that carries
    what the caller is given back; no seat changes. *)
Theorem SaveSystemMessage_numbers {E : Env} (msg saved : Message) (w w' : World) :
  SaveSystemMessage msg w = (OK saved, w') ->
  exists r n, last_seq (msg_ThreadID msg) (w_db w) = Some n /\
    db_messages (w_db w') = db_messages (w_db w) ++ [r] /\
    m_thread_id r = msg_ThreadID msg /\ m_seq r = n + 1 /\ msg_Seq saved = n + 1 /\ msg_ID saved = m_id r /\
    msg_ThreadID saved = msg_ThreadID msg /\ m_system r = msg_System msg /\ msg_System saved = msg_System msg /\
    msg_Body saved = msg_Body msg /\ 0 < msg_DomainID msg /\
    last_seq (msg_ThreadID msg) (w_db w') = Some (n + 1) /\
    (forall tid, tid <> msg_ThreadID msg -> last_seq tid (w_db w') = last_seq tid (w_db w)) /\
    seats w' = seats w.
Proof.
  intros Hr. pose proof (preserves_ok seats _ _ _ _ (seats_SaveSystemMessage msg) Hr) as Hseats.
  unfold SaveSystemMessage in Hr. apply M_bind_ok in Hr as (u & wv & Hv & Hr). unfold of_result in Hv. injection Hv as Hv <-.
  assert (0 < msg_DomainID msg) as Hdom.
  { unfold validateMessageForSave in Hv. destruct (decide _); [done|].
    destruct (Z.leb_spec (msg_DomainID msg) 0); [done|lia]. }
  destruct (msg_System msg) as [sys|]; [|done]. step_ok Hr. apply statement_as_ok in Hs as (-> & _). run in Hr. simpl in Hr.
  destruct (find_thread (msg_ThreadID msg) (w_db w)) as [t|] eqn:Ht; [|done].
  destruct (system_accepted msg sys); [|done]. simpl in Hr. run in Hr. simpl in Hr. injection Hr as <- <-.
  eexists _, (t_last_seq t). unfold last_seq. rewrite Ht. split; [done|]. split; [reflexivity|].
  assert (forall tid, find_thread tid (on_messages (fun l => l ++ [new_message_row (w_next w) (w_now w) (t_last_seq t + 1) msg sys])
      (update_thread (msg_ThreadID msg) bump_seq (w_db w))) =
      (fun t => if bool_decide (t_id t = msg_ThreadID msg) then bump_seq t else t) <$> find_thread tid (w_db w)) as Hf.
  { intros tid. change (find_thread tid (update_thread (msg_ThreadID msg) bump_seq (w_db w)) =
      (fun t => if bool_decide (t_id t = msg_ThreadID msg) then bump_seq t else t) <$> find_thread tid (w_db w)).
    by rewrite find_thread_update. }
  split_and!; try done.
  - simpl. rewrite Hf, Ht. simpl. apply find_thread_Some in Ht as [_ Ht]. by rewrite bool_decide_true.
  - intros tid Hne. simpl. rewrite Hf. destruct (find_thread tid (w_db w)) as [t'|] eqn:Ht'; [|done]. simpl.
    apply find_thread_Some in Ht' as [_ Ht']. by rewrite bool_decide_false by congruence.
Qed.

(** ** History pages *)

(** Messages in the order of history: by time, then by id. *)
Definition not_newer (a b : Message) : Prop :=
  msg_CreatedAt a < msg_CreatedAt b \/ msg_CreatedAt a = msg_CreatedAt b /\ (msg_ID a <= msg_ID b)%N.

Lemma not_newer_refl a : not_newer a a.
Proof. right. split; [done|lia]. Qed.

Lemma sorted_head {A} (R : A -> A -> Prop) x l y : (forall a, R a a) -> StronglySorted R (x :: l) -> y ∈ x :: l -> R x y.
Proof. intros Hr Hs [->|Hy]%elem_of_cons; [done|]. apply StronglySorted_inv in Hs as [_ Hs]. by eapply Forall_forall in Hs. Qed.

Lemma sorted_last {A} (R : A -> A -> Prop) l z y : (forall a, R a a) -> StronglySorted R l -> last l = Some z -> y ∈ l -> R y z.
Proof.
  intros Hr Hs [k ->]%last_Some Hy. apply elem_of_app in Hy as [Hy| ->%list_elem_of_singleton]; [|done].
  apply (StronglySorted_app_1_elem_of _ _ _ _ _ Hs Hy). left.
Qed.

(** A page read backward comes newest first. *)
Definition page_sorted (ms : list Message) (isBackward : bool) : Prop :=
  if isBackward then StronglySorted (fun a b => not_newer b a) ms else StronglySorted not_newer ms.

(** The cursors of a history page: an empty page has none.  The cursor for
    earlier messages points at the oldest message of the page, the one for later
    messages at the newest, in whichever direction the page was read.  Going
    back is offered when more is known to be there, or when the reader came
    forward from there; going on when the reader came back from there, or, on
    the way forward, when more is there; never on the first page. *)
Theorem GetPaging_spec (ms : list Message) (hasMore isBackward hadCursor : bool) :
  page_sorted ms isBackward ->
  match GetPaging ms hasMore isBackward hadCursor with
  | None => ms = []
  | Some p =>
      (is_Some (pg_Before p) <-> hasMore = true \/ hadCursor = true /\ isBackward = false) /\
      (is_Some (pg_After p) <-> hadCursor = true /\ (isBackward = true \/ hasMore = true)) /\
      (forall c, pg_Before p = Some c -> exists m, m ∈ ms /\ c = cursor_of false m /\ forall x, x ∈ ms -> not_newer m x) /\
      (forall c, pg_After p = Some c -> exists m, m ∈ ms /\ c = cursor_of true m /\ forall x, x ∈ ms -> not_newer x m)
  end.
Proof.
  intros Hs. unfold GetPaging. destruct ms as [|first ms]; [done|].
  destruct (last (first :: ms)) as [lst|] eqn:Hl; [|by apply last_None in Hl].
  assert (lst ∈ first :: ms) as Hlin by (by apply last_Some_elem_of).
  assert (exists o n, o ∈ first :: ms /\ n ∈ first :: ms /\ (forall x, x ∈ first :: ms -> not_newer o x) /\
    (forall x, x ∈ first :: ms -> not_newer x n) /\
    o = (if isBackward then lst else first) /\ n = (if isBackward then first else lst)) as (o & n & Ho & Hn & Hold & Hnew & -> & ->).
  { destruct isBackward; simpl in Hs.
    - exists lst, first. split_and!; [done|left| |  |done|done].
      + intros x Hx. by apply (sorted_last (fun a b => not_newer b a) (first :: ms) lst x not_newer_refl).
      + intros x Hx. by apply (sorted_head (fun a b => not_newer b a) first ms x not_newer_refl).
    - exists first, lst. split_and!; [left|done| |  |done|done].
      + intros x Hx. by apply (sorted_head not_newer first ms x not_newer_refl).
      + intros x Hx. by apply (sorted_last not_newer (first :: ms) lst x not_newer_refl). }
  unfold is_Some. destruct hadCursor, isBackward, hasMore; simpl; split_and!; naive_solver.
Qed.

(** ** Display names of gates and queues *)

(** The cache of gates is coherent: what it holds is what is stored. *)
Definition sources_coherent (w : World) : Prop :=
  forall gate ref, w_source_cache w !! gate = Some ref ->
    sr_GateID ref = gate /\ find_first (same_gate ref) (db_source_refs (w_db w)) = Some ref.

Lemma find_upsert {A} (same : A -> A -> bool) x l : same x x = true ->
  find_first (same x) (upsert (same x) x l) = Some x.
Proof.
  intros Hx. unfold upsert. destruct (find_first (same x) l) as [y|] eqn:Hf.
  - induction l as [|z l IH]; [done|]. unfold update_where in *. simpl in *.
    destruct (same x z) eqn:Hz; simpl; [by rewrite Hx|]. rewrite Hz. by apply IH.
  - induction l as [|z l IH]; simpl in *; [by rewrite Hx|]. destruct (same x z); [done|]. by apply IH.
Qed.

Lemma find_upsert_other (x y : SourceRef) l : sr_GateID y <> sr_GateID x ->
  find_first (same_gate y) (upsert (same_gate x) x l) = find_first (same_gate y) l.
Proof.
  intros Hne. assert (same_gate y x = false) as Hyx by (unfold same_gate; apply bool_decide_false; congruence).
  unfold upsert. destruct (find_first (same_gate x) l) as [k|] eqn:Hf.
  - clear Hf. induction l as [|z l IH]; [done|]. unfold update_where in *. simpl.
    destruct (same_gate x z) eqn:Hz; simpl; [rewrite Hyx|by destruct (same_gate y z)].
    assert (same_gate y z = false) as ->; [|exact IH]. unfold same_gate in *. apply bool_decide_eq_true in Hz.
    apply bool_decide_false. congruence.
  - clear Hf. induction l as [|z l IH]; simpl; [by rewrite Hyx|]. by rewrite IH.
Qed.

(** Refreshing a gate's name never fails the call.  It keeps the cache coherent
    with the table, and unless the database fails the name is stored afterwards:
    skipping the statement on a cache hit loses nothing. *)
Theorem refreshSource_coherent {E : Env} (ref : SourceRef) (w w' : World) r :
  sources_coherent w -> refreshSource (Some ref) w = (r, w') ->
  r = OK tt /\ sources_coherent w' /\ core (w_db w') = core (w_db w) /\
  (sr_GateID ref <> "" -> w_in_tx w && w_aborted w = false -> env_fault (w_ticks w) = false ->
   find_first (same_gate ref) (db_source_refs (w_db w')) = Some ref /\
   w_source_cache w' !! sr_GateID ref = Some ref).
Proof.
  intros Hco. unfold refreshSource. run. unfold SourceChanged.
  destruct (w_source_cache w !! sr_GateID ref) as [c|] eqn:Hc; [destruct (bool_decide_reflect (c = ref)) as [->|Hne]|].
  { simpl. run. intros [= <- <-]. split_and!; try done. intros _ _ _. split; [by apply (Hco (sr_GateID ref))|done]. }
  all: simpl; unfold RememberSource; rewrite M_bind_unfold; unfold catch, UpsertSource;
    (destruct (decide (sr_GateID ref = "")) as [Hg|Hg]; [intros [= <- <-]; split_and!; done|]);
    rewrite M_bind_unfold; unfold statement_as, map_err, statement;
    (destruct (w_in_tx w && w_aborted w); [intros [= <- <-]; split_and!; done|]);
    (destruct (env_fault (w_ticks w)); [intros [= <- <-]; split_and!; try done; exact Hco|]);
    run; simpl; intros [= <- <-]; (split; [done|]);
    (assert (find_first (same_gate ref) (upsert (same_gate ref) ref (db_source_refs (w_db w))) = Some ref) as Hfind
       by (apply find_upsert; by apply bool_decide_true));
    (split; [|split; [done|intros _ _ _; split; [exact Hfind|apply lookup_insert_eq]]]);
    intros gate x Hx; change (<[sr_GateID ref := ref]> (w_source_cache w) !! gate = Some x) in Hx;
    apply lookup_insert_Some in Hx as [[<- <-]|[Hgne Hx]]; [split; [done|exact Hfind]|];
    destruct (Hco gate x Hx) as [Hgx Hfx]; (split; [done|]); etransitivity; [apply find_upsert_other; congruence|exact Hfx].
Qed.

(** ** Witnesses *)
Definition sample_system : Message :=
  system_message 1 7 102 (quick_view (members_of 1) sample_db) "Member added" ∅ (MkSystem "member_added" ∅) 100
    (contact_peer 100) None "key".

Lemma SaveSystemMessage_numbers_witness :
  exists saved w', SaveSystemMessage sample_system sample_world = (OK saved, w') /\
    msg_Seq saved = 1 /\ last_seq 1 (w_db w') = Some 1 /\ last_seq 2 (w_db w') = Some 0.
Proof.
  assert (exists saved, SaveSystemMessage sample_system sample_world = (OK saved, snd (SaveSystemMessage sample_system sample_world)))
    as [saved H] by runs.
  destruct (SaveSystemMessage_numbers sample_system saved sample_world _ H) as
    (r & n & Hn & _ & _ & _ & Hs & _ & _ & _ & _ & _ & _ & Hl & Ho & _).
  injection Hn as <-. exists saved. eexists. split; [exact H|]. split; [exact Hs|]. split; [exact Hl|].
  etransitivity; [apply (Ho 2%N); discriminate|reflexivity].
Defined.

Definition paged_message (id : uuid) (at_ : Time) : Message :=
  MkMessage id None "" "" "" 1 7 zero_peer zero_peer None "" MessageTypeText ∅ at_ at_ false 100 10 None 0 0 0 [] [] None None None None
    None None None None [].

Lemma GetPaging_spec_witness :
  exists p, GetPaging [paged_message 3 30; paged_message 2 20] true true false = Some p /\
    is_Some (pg_Before p) /\ ~ is_Some (pg_After p).
Proof.
  assert (page_sorted [paged_message 3 30; paged_message 2 20] true) as Hs.
  { apply SSorted_cons; [apply SSorted_cons; [apply SSorted_nil|apply Forall_nil_2]|].
    apply Forall_cons_2; [left; simpl; lia|apply Forall_nil_2]. }
  eexists. split; [reflexivity|].
  destruct (GetPaging_spec _ true true false Hs) as (Hb & Ha & _). split; [apply Hb; left; reflexivity|].
  intros Hsome. apply Ha in Hsome as [Hf _]. discriminate Hf.
Defined.

Definition sample_gate : SourceRef := MkSourceRef "gate" 7 "Gate" "custom".

Lemma refreshSource_coherent_witness :
  exists w', refreshSource (Some sample_gate) sample_world = (OK tt, w') /\ sources_coherent w' /\
    find_first (same_gate sample_gate) (db_source_refs (w_db w')) = Some sample_gate.
Proof.
  assert (sources_coherent sample_world) as Hco.
  { intros gate ref Hl. exfalso. change (@lookup string SourceRef (gmap string SourceRef) _ gate ∅ = Some ref) in Hl.
    rewrite lookup_empty in Hl. discriminate Hl. }
  assert (refreshSource (Some sample_gate) sample_world = (OK tt, snd (refreshSource (Some sample_gate) sample_world))) as H
    by (vm_compute; reflexivity).
  destruct (refreshSource_coherent sample_gate sample_world _ _ Hco H) as (_ & Hco' & _ & Hf).
  eexists. split; [exact H|]. split; [exact Hco'|]. apply Hf; [discriminate|reflexivity|reflexivity].
Defined.
