(* ===== verification/StatusRules.v ===== *)
(** * StatusRules: theorems on receipts and horizons

    What MarkRead and MarkDelivered do to the horizons, against the abstract
    reading that a receipt is a maximum; which of several receipts of one
    member counts; how the recounts relate. *)
From S2P Require Import Prelude Domain Events Message World BotControlStore DialogStore Samples.
From S2P Require Import Outbox MessageStore Invariant System MessageStatus StatusService.
#[local] Open Scope Z_scope.

(** ** UPDATE ... FROM *)
Section joined.
Context (pick : nat -> nat) (horizon : DialogRow -> Z).

Lemma joined_Some bs td s : joined pick horizon bs td = Some s ->
  exists b, b ∈ bs /\ ahead horizon td b = true /\ bd_seq b = Some s.
Proof.
  unfold joined. set (hits := select_where _ bs).
  destruct (nth_error hits _) as [b|] eqn:Hb; [|done]. simpl. intros Hs.
  apply nth_error_In, list_elem_of_In in Hb. apply elem_of_select in Hb as [Hin Ha]. eauto.
Qed.

Lemma joined_None bs td : joined pick horizon bs td = None ->
  forall b, b ∈ bs -> ahead horizon td b = false.
Proof.
  unfold joined. set (hits := select_where _ bs). intros Hj b Hb. apply not_true_iff_false. intros Ha.
  assert (b ∈ hits) as Hin by by apply elem_of_select.
  assert (length hits <> 0%nat) as Hlen by (destruct hits; [by apply not_elem_of_nil in Hin|done]).
  destruct (nth_error hits _) as [b'|] eqn:Hn.
  - apply nth_error_In, list_elem_of_In, elem_of_select in Hn as [_ Ha'].
    unfold ahead in Ha'. simpl in Hj. rewrite Hj in Ha'. by rewrite andb_false_r in Ha'.
  - apply nth_error_None in Hn. pose proof (Nat.mod_upper_bound (pick (length hits)) (length hits) Hlen). lia.
Qed.

Lemma joined_ahead bs td s : joined pick horizon bs td = Some s -> horizon td < s /\ active td = true.
Proof.
  intros (b & _ & Ha & Hs)%joined_Some. unfold ahead in Ha. rewrite Hs, !andb_true_iff in Ha.
  rewrite Z.ltb_lt in Ha. naive_solver.
Qed.
End joined.

Lemma ahead_spec horizon td b : ahead horizon td b = true <->
  active td = true /\ d_thread_id td = bd_thread b /\ d_member_id td = bd_member b /\
  exists s, bd_seq b = Some s /\ horizon td < s.
Proof.
  unfold ahead, addresses. rewrite !andb_true_iff, !bool_decide_eq_true.
  destruct (bd_seq b) as [s|].
  - rewrite Z.ltb_lt. naive_solver.
  - naive_solver.
Qed.

(** ** Which receipt counts *)

(** The reference: of a member's receipts in a thread, the one with the
    greatest message, the first among equals. *)
Definition best_read (l : list ReadReceipt) : option ReadReceipt :=
  fold_left (fun acc r =>
    match acc with
    | None => Some r
    | Some a => if greaterUUID (rd_UpToMessageID r) (rd_UpToMessageID a) then Some r else acc
    end) l None.

Definition of_reader (tid member : uuid) (r : ReadReceipt) : bool :=
  bool_decide (rd_ThreadID r = tid) && bool_decide (rd_MemberID r = member).

Lemma same_reader_of r : same_reader r = of_reader (rd_ThreadID r) (rd_MemberID r).
Proof. done. Qed.

Lemma of_reader_spec tid member r : of_reader tid member r = true <-> rd_ThreadID r = tid /\ rd_MemberID r = member.
Proof. unfold of_reader. by rewrite andb_true_iff, !bool_decide_eq_true. Qed.

Lemma find_first_snoc {A} (P : A -> bool) l x :
  find_first P (l ++ [x]) = match find_first P l with Some y => Some y | None => if P x then Some x else None end.
Proof. induction l as [|y l IH]; simpl; [done|]. by destruct (P y). Qed.

Lemma existsb_find {A} (P : A -> bool) l : existsb P l = is_some (find_first P l).
Proof. induction l as [|y l IH]; simpl; [done|]. by destruct (P y). Qed.

(** Replacing a row by one with the same key does not move what other keys find. *)
Lemma dedup_read_find tid member out r :
  find_first (of_reader tid member) (dedup_read out (Some r)) =
  if of_reader tid member r
  then match find_first (of_reader tid member) out with
       | Some a => if greaterUUID (rd_UpToMessageID r) (rd_UpToMessageID a) then Some r else Some a
       | None => Some r
       end
  else find_first (of_reader tid member) out.
Proof.
  unfold dedup_read. rewrite existsb_find, same_reader_of.
  destruct (of_reader tid member r) eqn:Er.
  - apply of_reader_spec in Er as [<- <-]. set (P := of_reader _ _).
    destruct (find_first P out) as [a|] eqn:Ea; simpl.
    + induction out as [|o out IH]; [done|]. unfold update_where in *. simpl in *.
      destruct (P o) eqn:Eo; simpl.
      * simplify_eq. destruct (greaterUUID _ _); simpl; [|by rewrite Eo].
        assert (P r = true) as -> by by apply of_reader_spec. done.
      * rewrite Eo. by apply IH.
    + rewrite find_first_snoc, Ea. assert (P r = true) as -> by by apply of_reader_spec. done.
  - assert (forall o, of_reader tid member o = true -> of_reader (rd_ThreadID r) (rd_MemberID r) o = false) as Hd.
    { intros o [H1 H2]%of_reader_spec. apply not_true_iff_false. intros [H3 H4]%of_reader_spec.
      apply not_true_iff_false in Er. apply Er. apply of_reader_spec. split; congruence. }
    destruct (find_first (of_reader (rd_ThreadID r) _) out) as [a|]; simpl; [|by rewrite find_first_snoc, Er; destruct (find_first _ out)].
    induction out as [|o out IH]; [done|]. unfold update_where in *. simpl.
    destruct (of_reader tid member o) eqn:Eo.
    + rewrite (Hd o Eo). simpl. by rewrite Eo.
    + destruct (of_reader (rd_ThreadID r) (rd_MemberID r) o); simpl; [destruct (greaterUUID _ _); simpl|];
        rewrite ?Er, ?Eo; apply IH.
Qed.

Definition somes {A} (l : list (option A)) : list A := omap id l.

Lemma fold_dedup_read tid member l out acc :
  find_first (of_reader tid member) out = acc ->
  find_first (of_reader tid member) (fold_left dedup_read l out) =
  fold_left (fun acc r =>
    match acc with
    | None => Some r
    | Some a => if greaterUUID (rd_UpToMessageID r) (rd_UpToMessageID a) then Some r else acc
    end) (List.filter (of_reader tid member) (somes l)) acc.
Proof.
  revert out acc. induction l as [|[r|] l IH]; intros out acc Hacc; [done| |by apply IH].
  change (somes (Some r :: l)) with (r :: somes l). cbn [fold_left List.filter].
  rewrite (IH _ _ eq_refl), dedup_read_find, Hacc.
  destruct (of_reader tid member r); [|done]. simpl. by destruct acc.
Qed.

(** Deduplicating read receipts keeps, for each member and thread, exactly
    the receipt a plain scan of the batch selects: the one with the greatest
    message id, the first among equals.  In particular receipts that carry only
    a number all tie: the first of them wins, whatever the numbers. *)
Theorem dedupReadReceipts_best (l : list (option ReadReceipt)) (tid member : uuid) :
  find_first (of_reader tid member) (dedupReadReceipts l) =
  best_read (List.filter (of_reader tid member) (somes l)).
Proof. unfold dedupReadReceipts, best_read. by apply fold_dedup_read. Qed.

Definition reader (r : ReadReceipt) : uuid * uuid := (rd_ThreadID r, rd_MemberID r).

Lemma dedup_read_keys out r : NoDup (reader <$> out) -> NoDup (reader <$> dedup_read out r).
Proof.
  intros Hnd. destruct r as [r|]; [|done]. simpl. rewrite existsb_find, same_reader_of.
  destruct (find_first _ out) as [a|] eqn:Ea; simpl.
  - replace (reader <$> update_where _ _ out) with (reader <$> out); [done|].
    unfold update_where. rewrite <- list_fmap_compose. apply list_fmap_ext. intros i o _. simpl.
    destruct (of_reader _ _ o) eqn:Eo; simpl; [|done]. apply of_reader_spec in Eo as [? ?].
    destruct (greaterUUID _ _); [|done]. unfold reader. congruence.
  - apply NoDup_fmap_snoc; [done|]. rewrite list_elem_of_fmap. intros (o & Ho & Hin).
    rewrite find_first_None in Ea. specialize (Ea o Hin). apply not_true_iff_false in Ea. apply Ea.
    apply of_reader_spec. unfold reader in Ho. naive_solver.
Qed.

Lemma dedupReadReceipts_keys l : NoDup (reader <$> dedupReadReceipts l).
Proof.
  unfold dedupReadReceipts. assert (NoDup (reader <$> ([] : list ReadReceipt))) as H by constructor.
  revert H. generalize ([] : list ReadReceipt) as out.
  induction l as [|r l IH]; intros out H; [done|]. simpl. by apply IH, dedup_read_keys.
Qed.

(** ** MarkRead against the abstract horizon *)

(** The active dialog of a contact in a thread. *)
Definition member_row (tid member : uuid) (d : DB) : option DialogRow :=
  find_first (fun td => active td && bool_decide (d_thread_id td = tid) && bool_decide (d_member_id td = member))
    (db_dialogs d).

(** The receipts as they are applied: deduplicated, a message id turned into
    its number, the number capped at the newest message. *)
Definition needs_read_seq (r : ReadReceipt) : bool :=
  bool_decide (rd_UpToSeq r = 0) && negb (bool_decide (rd_UpToMessageID r = uuid_Nil)).

Definition resolve_read (d : DB) (r : ReadReceipt) : ReadReceipt :=
  if needs_read_seq r then
    match find_message (rd_UpToMessageID r) d with Some m => set_rd_seq (m_seq m) r | None => r end
  else r.

Definition cap_read (d : DB) (asked : list uuid) (r : ReadReceipt) : ReadReceipt :=
  if bool_decide (rd_ThreadID r ∈ asked) then clamp_seq d r else r.

Definition read_points (d : DB) (receipts : list (option ReadReceipt)) : list ReadReceipt :=
  let rs := resolve_read d <$> dedupReadReceipts receipts in
  cap_read d (rd_ThreadID <$> select_where (fun r => 0 <? rd_UpToSeq r) rs) <$> rs.

(** Up to where the batch says the member has read the thread. *)
Definition read_point (d : DB) (receipts : list (option ReadReceipt)) (tid member : uuid) : option Z :=
  r ← find_first (of_reader tid member) (read_points d receipts); bd_seq (rd_boundary r).

Lemma resolve_read_reader d r : reader (resolve_read d r) = reader r.
Proof. unfold resolve_read. destruct (needs_read_seq r); [|done]. by destruct (find_message _ d). Qed.

Lemma cap_read_reader d asked r : reader (cap_read d asked r) = reader r.
Proof.
  unfold cap_read, clamp_seq. destruct (bool_decide _); [|done].
  destruct (find_thread _ d); [|done]. by destruct (_ <? _).
Qed.

Lemma read_points_readers d receipts : reader <$> read_points d receipts = reader <$> dedupReadReceipts receipts.
Proof.
  unfold read_points. rewrite <- !list_fmap_compose. apply list_fmap_ext. intros i r _. simpl.
  by rewrite cap_read_reader, resolve_read_reader.
Qed.

Section runs.
Context {E : Env}.

(** A lookup that only reads, skipped when nothing needs it. *)
Lemma update_where_skip {A} (P : A -> bool) f (l : list A) : existsb P l = false -> update_where P f l = l.
Proof.
  intros H. apply update_where_none. intros x Hx. apply not_true_iff_false. intros HP.
  apply not_true_iff_false in H. apply H, existsb_exists. exists x. by rewrite <- list_elem_of_In.
Qed.

Lemma resolveRead_run rs w rs' w' : resolveReadSeqFromMessageID rs w = (OK rs', w') ->
  rs' = resolve_read (w_db w) <$> rs /\ w_db w' = w_db w.
Proof.
  unfold resolveReadSeqFromMessageID. change (fun r => bool_decide (rd_UpToSeq r = 0) && _) with needs_read_seq.
  intros H. destruct (existsb needs_read_seq rs) eqn:Ex; simpl in H.
  - step_ok H. apply statement_as_ok in Hs as (-> & _). run in H. by simplify_eq.
  - run in H. simplify_eq. split; [|done]. symmetry. by apply (update_where_skip needs_read_seq).
Qed.

Lemma clampRead_run rs w rs' w' : clampReadSeqToThread rs w = (OK rs', w') ->
  rs' = cap_read (w_db w) (rd_ThreadID <$> select_where (fun r => 0 <? rd_UpToSeq r) rs) <$> rs /\ w_db w' = w_db w.
Proof.
  unfold clampReadSeqToThread. set (asked := rd_ThreadID <$> _). intros H.
  destruct (bool_decide_reflect (asked = [])) as [Ha|_].
  - run in H. simplify_eq. split; [|done]. rewrite Ha.
    rewrite <- (list_fmap_id rs') at 1. apply list_fmap_ext. intros i r _. unfold cap_read. simpl. done.
  - step_ok H. apply statement_as_ok in Hs as (-> & _). run in H. by simplify_eq.
Qed.

Lemma movedHorizons_run horizon set bs w moved w' : movedHorizons horizon set bs w = (OK moved, w') ->
  exists pick, moved = moved_horizons pick horizon (set (w_db w)) bs (w_db w) /\
    w_db w' = on_dialogs (fmap (advance pick horizon (set (w_db w)) bs)) (w_db w).
Proof.
  unfold movedHorizons. intros H. run in H. step_ok H. apply statement_as_ok in Hs as (-> & _).
  run in H. simplify_eq. by eexists.
Qed.

Lemma clearErrors_run bs w u w' : clearRecoveredErrors bs w = (OK u, w') ->
  w_db w' = on_errors (delete_where (recovered bs (w_db w))) (w_db w) \/ w_db w' = w_db w.
Proof.
  unfold clearRecoveredErrors. intros H. destruct (bool_decide _); [run in H; simplify_eq; by right|].
  step_ok H. apply statement_as_ok in Hs as (-> & _). run in H. simplify_eq. by left.
Qed.
End runs.

Definition bd_key (b : Boundary) : uuid * uuid := (bd_thread b, bd_member b).

(** With one boundary per member the server has no choice. *)
Lemma joined_unique pick horizon bs td :
  NoDup (bd_key <$> bs) -> active td = true ->
  joined pick horizon bs td =
  b ← find_first (addresses td) bs; s ← bd_seq b; if horizon td <? s then Some s else None.
Proof.
  intros Hnd Hact.
  assert (forall b, addresses td b = true -> bd_key b = (d_thread_id td, d_member_id td)) as Hk.
  { intros b. unfold addresses, bd_key. rewrite andb_true_iff, !bool_decide_eq_true. by intros [-> ->]. }
  assert (forall b, ahead horizon td b = true -> addresses td b = true) as Haa.
  { intros b. unfold ahead. rewrite !andb_true_iff. naive_solver. }
  destruct (find_first (addresses td) bs) as [b|] eqn:Ef; simpl.
  - apply find_first_Some in Ef as [Hb Hadd].
    assert (forall b', b' ∈ bs -> ahead horizon td b' = true -> b' = b) as Hu.
    { intros b' Hb' Ha. apply (NoDup_fmap_inj bd_key bs); [done..|].
      transitivity (d_thread_id td, d_member_id td); [apply Hk, Haa, Ha|by symmetry; apply Hk]. }
    destruct (joined pick horizon bs td) as [s|] eqn:Hj.
    + apply joined_Some in Hj as (b' & Hb' & Ha & Hs). pose proof (Hu b' Hb' Ha) as ->. rewrite Hs. simpl.
      apply ahead_spec in Ha as (_ & _ & _ & s' & Hs' & Hlt). simplify_eq.
      by destruct (Z.ltb_spec (horizon td) s); [|lia].
    + pose proof (joined_None _ _ _ _ Hj b Hb) as Ha. unfold ahead in Ha. rewrite Hact, Hadd in Ha. simpl in Ha.
      destruct (bd_seq b) as [s|]; simpl; [|done]. by rewrite Ha.
  - destruct (joined pick horizon bs td) as [s|] eqn:Hj; [|done].
    apply joined_Some in Hj as (b' & Hb' & Ha & Hs). rewrite find_first_None in Ef.
    specialize (Ef b' Hb'). specialize (Haa b' Ha). congruence.
Qed.

Lemma rd_boundary_key r : bd_key (rd_boundary r) = reader r.
Proof. done. Qed.

Lemma find_first_fmap {A B} (P : B -> bool) (g : A -> B) l :
  find_first P (g <$> l) = g <$> find_first (fun x => P (g x)) l.
Proof. induction l as [|x l IH]; simpl; [done|]. by destruct (P (g x)). Qed.

Lemma find_first_ext {A} (P Q : A -> bool) l : (forall x, P x = Q x) -> find_first P l = find_first Q l.
Proof. intros H. induction l as [|x l IH]; simpl; [done|]. by rewrite H, IH. Qed.

Lemma omap_ext_elem {A B} (f g : A -> option B) (l : list A) : (forall x, x ∈ l -> f x = g x) -> omap f l = omap g l.
Proof.
  induction l as [|x l IH]; intros H; [done|].
  change (match f x with Some y => y :: omap f l | None => omap f l end =
          match g x with Some y => y :: omap g l | None => omap g l end).
  rewrite (H x) by left. rewrite IH; [done|]. intros y Hy. apply H. by right.
Qed.

(** What applying a point does to a member's dialog. *)
Definition read_to (d : DB) (p : option Z) (td : DialogRow) : DialogRow :=
  match p with
  | Some s => if read_seq td <? s then read_up_to d s td else td
  | None => td
  end.

Lemma read_points_NoDup d receipts : NoDup (bd_key <$> (rd_boundary <$> read_points d receipts)).
Proof.
  rewrite <- list_fmap_compose. change (bd_key ∘ rd_boundary) with reader.
  rewrite read_points_readers. apply dedupReadReceipts_keys.
Qed.

Lemma joined_read pick d receipts td : active td = true ->
  joined pick read_seq (rd_boundary <$> read_points d receipts) td =
  s ← read_point d receipts (d_thread_id td) (d_member_id td); if read_seq td <? s then Some s else None.
Proof.
  intros Ha. rewrite joined_unique by (done || apply read_points_NoDup). unfold read_point.
  rewrite find_first_fmap.
  rewrite (find_first_ext _ (of_reader (d_thread_id td) (d_member_id td))).
  - by destruct (find_first _ _).
  - intros r. unfold addresses, of_reader. simpl. f_equal; apply bool_decide_ext; split; congruence.
Qed.

Lemma joined_inactive pick horizon bs td : active td = false -> joined pick horizon bs td = None.
Proof.
  intros Ha. destruct (joined pick horizon bs td) as [s|] eqn:Hj; [|done].
  apply joined_ahead in Hj as [_ Hj]. congruence.
Qed.

Lemma advance_read pick d receipts td :
  advance pick read_seq (read_up_to d) (rd_boundary <$> read_points d receipts) td =
  if active td then read_to d (read_point d receipts (d_thread_id td) (d_member_id td)) td else td.
Proof.
  unfold advance, read_to. destruct (active td) eqn:Ha; [|by rewrite joined_inactive].
  rewrite joined_read by done. destruct (read_point d receipts _ _) as [s|]; simpl; [|done].
  by destruct (read_seq td <? s).
Qed.

Lemma read_to_id d p td : d_id (read_to d p td) = d_id td /\ d_thread_id (read_to d p td) = d_thread_id td /\
  d_member_id (read_to d p td) = d_member_id td /\ active (read_to d p td) = active td.
Proof. unfold read_to. destruct p as [s|]; [|done]. by destruct (read_seq td <? s). Qed.

Definition is_member (tid member : uuid) (td : DialogRow) : bool :=
  active td && bool_decide (d_thread_id td = tid) && bool_decide (d_member_id td = member).

Lemma is_member_spec tid member td : is_member tid member td = true <->
  active td = true /\ d_thread_id td = tid /\ d_member_id td = member.
Proof. unfold is_member. rewrite !andb_true_iff, !bool_decide_eq_true. naive_solver. Qed.

(** The dialogs after an update that keeps identities, seen through a member. *)
Lemma member_row_fmap tid member (f : DialogRow -> DialogRow) d d' :
  db_dialogs d' = f <$> db_dialogs d -> (forall td, is_member tid member (f td) = is_member tid member td) ->
  member_row tid member d' = f <$> member_row tid member d.
Proof. intros Hd Hf. unfold member_row. rewrite Hd, find_first_fmap. f_equal. by apply find_first_ext. Qed.

(** *** The horizons the update returned *)
Section moved.
Context (pick : nat -> nat) (horizon : DialogRow -> Z) (set : Z -> DialogRow -> DialogRow) (bs : list Boundary).

Definition moved_step (acc : horizons) (td : DialogRow) : horizons :=
  match joined pick horizon bs td with
  | Some s => <[(d_thread_id td, d_member_id td) := d_unread_count (set s td)]> acc
  | None => acc
  end.

Lemma moved_other l acc k :
  (forall td, td ∈ l -> (d_thread_id td, d_member_id td) = k -> joined pick horizon bs td = None) ->
  fold_left moved_step l acc !! k = acc !! k.
Proof.
  revert acc. induction l as [|td l IH]; intros acc H; simpl; [done|].
  rewrite IH by (intros td' Hin; apply H; by right). unfold moved_step.
  destruct (joined pick horizon bs td) as [s|] eqn:Hj; [|done].
  rewrite lookup_insert_ne; [done|]. intros Heq. rewrite (H td) in Hj; [done|left|done].
Qed.

Lemma moved_here l acc td s :
  joined pick horizon bs td = Some s ->
  (forall td', td' ∈ l -> active td' = true -> (d_thread_id td', d_member_id td') = (d_thread_id td, d_member_id td) -> td' = td) ->
  td ∈ l \/ acc !! (d_thread_id td, d_member_id td) = Some (d_unread_count (set s td)) ->
  fold_left moved_step l acc !! (d_thread_id td, d_member_id td) = Some (d_unread_count (set s td)).
Proof.
  intros Hj. revert acc. induction l as [|x l IH]; intros acc Hu Hacc; simpl.
  { by destruct Hacc as [?%not_elem_of_nil|]. }
  apply IH; [intros td' Hin'; apply Hu; by right|].
  assert (joined pick horizon bs x <> None -> (d_thread_id x, d_member_id x) = (d_thread_id td, d_member_id td) -> x = td) as Hx.
  { intros Hjx Hk. destruct (joined pick horizon bs x) eqn:Ex; [|done]. apply joined_ahead in Ex as [_ ?].
    apply Hu; [left|done..]. }
  assert (x = td -> moved_step acc x !! (d_thread_id td, d_member_id td) = Some (d_unread_count (set s td))) as Htd.
  { intros ->. unfold moved_step. by rewrite Hj, lookup_insert, decide_True. }
  destruct Hacc as [[<-|Hin]%elem_of_cons|Hacc]; [right; by apply Htd|by left|]. right.
  unfold moved_step in *. destruct (joined pick horizon bs x) as [s'|] eqn:Ex; [|done].
  destruct (decide ((d_thread_id x, d_member_id x) = (d_thread_id td, d_member_id td))) as [Hk|Hk].
  - apply Htd, Hx; done.
  - by rewrite lookup_insert_ne.
Qed.

Lemma moved_lookup d tid member : db_wf d ->
  moved_horizons pick horizon set bs d !! (tid, member) =
  td ← member_row tid member d; s ← joined pick horizon bs td; Some (d_unread_count (set s td)).
Proof.
  intros Hwf. assert (NoDup (d_id <$> db_dialogs d)) as Hnd by apply Hwf.
  destruct Hwf as [_ _ [Hone _ _ _] _ _].
  change (moved_horizons _ _ _ _ _) with (fold_left moved_step (db_dialogs d) ∅).
  change (member_row tid member d) with (find_first (is_member tid member) (db_dialogs d)).
  assert (forall td td', td ∈ db_dialogs d -> td' ∈ db_dialogs d -> is_member tid member td = true ->
    is_member tid member td' = true -> td' = td) as Hu.
  { intros td td' Hin Hin' (Ha & H1 & H2)%is_member_spec (Ha' & H1' & H2')%is_member_spec.
    apply (NoDup_fmap_inj d_id (db_dialogs d)); [done..|]. apply Hone; congruence. }
  destruct (find_first (is_member tid member) (db_dialogs d)) as [td|] eqn:Hf; simpl.
  - apply find_first_Some in Hf as [Hin Hm]. pose proof Hm as (Ha & <- & <-)%is_member_spec.
    destruct (joined pick horizon bs td) as [s|] eqn:Hj; simpl.
    + apply moved_here; [done| |by left]. intros td' Hin' Ha' [= H1 H2]. apply (Hu td); [done..|]. by apply is_member_spec.
    + rewrite moved_other; [done|]. intros td' Hin' [= H1 H2].
      destruct (active td') eqn:Ha'; [|by apply joined_inactive].
      rewrite (Hu td td'); [done..|]. by apply is_member_spec.
  - rewrite moved_other; [done|]. intros td' Hin' [= H1 H2].
    rewrite find_first_None in Hf. specialize (Hf td' Hin').
    apply joined_inactive. apply not_true_iff_false. intros Ha. apply not_true_iff_false in Hf. apply Hf.
    by apply is_member_spec.
Qed.
End moved.

(** ** The theorems on MarkRead *)

(** Recording in the log: one change for each point ahead of its member. *)
Definition expected_read_change (d : DB) (at_ : Time) (r : ReadReceipt) : option StatusChange :=
  td ← member_row (rd_ThreadID r) (rd_MemberID r) d;
  s ← bd_seq (rd_boundary r);
  if read_seq td <? s
  then Some (MkStatusChange (rd_DomainID r) (rd_ThreadID r) uuid_Nil (rd_UpToMessageID r) s
               (rd_MemberID r) Delivery.StatusRead (Some (rd_Via r)) None at_
               (Some (unread_after (rd_ThreadID r) (rd_MemberID r) s d)))
  else None.

Lemma rd_boundary_seq r s : bd_seq (rd_boundary r) = Some s -> s = rd_UpToSeq r.
Proof. unfold rd_boundary, boundary. simpl. destruct (decide _); naive_solver. Qed.

Lemma read_point_elem d receipts r : r ∈ read_points d receipts ->
  read_point d receipts (rd_ThreadID r) (rd_MemberID r) = bd_seq (rd_boundary r).
Proof.
  intros Hr. unfold read_point.
  assert (NoDup (reader <$> read_points d receipts)) as Hnd by (rewrite read_points_readers; apply dedupReadReceipts_keys).
  rewrite (find_first_ext _ (fun y => bool_decide (reader y = reader r))).
  - by rewrite (find_first_key reader _ r).
  - intros y. unfold of_reader, reader. rewrite <- bool_decide_and. apply bool_decide_ext.
    split; [intros [H1 H2]; by rewrite H1, H2|intros [= H1 H2]; done].
Qed.

Lemma read_up_to_unread d s td : read_seq td < s ->
  d_unread_count (read_up_to d s td) = unread_after (d_thread_id td) (d_member_id td) s d /\
  read_seq (read_up_to d s td) = s /\ delivered_seq (read_up_to d s td) = Z.max (delivered_seq td) s.
Proof.
  unfold read_up_to, read_seq. simpl. destruct (d_last_read_seq td) as [l|]; simpl; [|done].
  intros H. by destruct (Z.ltb_spec l s); [|lia].
Qed.

Lemma read_change_expected pick d receipts at_ r : db_wf d -> r ∈ read_points d receipts ->
  read_change at_ (moved_horizons pick read_seq (read_up_to d) (rd_boundary <$> read_points d receipts) d) r =
  expected_read_change d at_ r.
Proof.
  intros Hwf Hr. unfold read_change, expected_read_change. rewrite moved_lookup by done.
  destruct (member_row _ _ d) as [td|] eqn:Hm; cbn [mbind option_bind]; [|done].
  apply find_first_Some in Hm as [_ (Ha & H1 & H2)%is_member_spec].
  rewrite joined_read, H1, H2, read_point_elem by done.
  destruct (bd_seq (rd_boundary r)) as [s|] eqn:Hs; cbn [mbind option_bind]; [|done].
  apply rd_boundary_seq in Hs as ->.
  destruct (Z.ltb_spec (read_seq td) (rd_UpToSeq r)); cbn [mbind option_bind]; [|done].
  destruct (read_up_to_unread d (rd_UpToSeq r) td) as [-> _]; [done|]. by rewrite H1, H2.
Qed.

Section mark_read.
Context {E : Env}.

(** The dialogs and the changes of a successful MarkRead. *)
Lemma MarkRead_run receipts w changes w' : MarkRead receipts w = (OK changes, w') ->
  db_wf (w_db w) ->
  db_dialogs (w_db w') = (fun td => if active td
    then read_to (w_db w) (read_point (w_db w) receipts (d_thread_id td) (d_member_id td)) td else td)
      <$> db_dialogs (w_db w) /\
  changes = omap (expected_read_change (w_db w) (w_now w')) (read_points (w_db w) receipts) /\
  db_messages (w_db w') = db_messages (w_db w) /\ db_threads (w_db w') = db_threads (w_db w).
Proof.
  intros H Hwf. unfold MarkRead in H. destruct (dedupReadReceipts receipts) as [|r0 rs0] eqn:Hrs.
  { run in H. simplify_eq. unfold read_point, read_points. rewrite Hrs. simpl. split_and!; [|done..].
    rewrite <- (list_fmap_id (db_dialogs _)) at 1. apply list_fmap_ext. intros i td _. by destruct (active td). }
  rewrite <- Hrs in H.
  step_ok H. apply resolveRead_run in Hs as [-> Hd1].
  step_ok H. apply clampRead_run in Hs as [-> Hd2]. rewrite Hd1 in *.
  change (cap_read _ _ <$> _) with (read_points (w_db w) receipts) in H.
  step_ok H. assert (exists pick,
    a = moved_horizons pick read_seq (read_up_to (w_db w)) (rd_boundary <$> read_points (w_db w) receipts) (w_db w) /\
    db_dialogs (w_db w2) = advance pick read_seq (read_up_to (w_db w))
      (rd_boundary <$> read_points (w_db w) receipts) <$> db_dialogs (w_db w) /\
    db_messages (w_db w2) = db_messages (w_db w) /\ db_threads (w_db w2) = db_threads (w_db w))
    as (pick & -> & Hdl & Hms & Hth).
  { unfold advanceReadHorizon in Hs.
    destruct (read_points (w_db w) receipts) as [|p0 pts0] eqn:Hp.
    { exfalso. pose proof (read_points_readers (w_db w) receipts) as Hk. by rewrite Hp, Hrs in Hk. }
    step_ok Hs. apply movedHorizons_run in Hs0 as (pick & -> & Hw). step_ok Hs.
    apply clearErrors_run in Hs0. run in Hs. simplify_eq. exists pick. rewrite Hd2 in *.
    destruct Hs0 as [-> | ->]; rewrite Hw; done. }
  rewrite bind_now in H. run in H. injection H as <- <-. split_and!.
  - rewrite Hdl. apply list_fmap_ext. intros i td _. by rewrite advance_read.
  - apply omap_ext_elem. intros r Hr. by apply read_change_expected.
  - done.
  - done.
Qed.
End mark_read.

(** The abstract horizon of a member, and what a point does to it: a maximum. *)
Definition horizon_of (tid member : uuid) (d : DB) : option Z := read_seq <$> member_row tid member d.
Definition raise (h : Z) (p : option Z) : Z := match p with Some s => Z.max h s | None => h end.

Lemma read_to_raise d p td : read_seq (read_to d p td) = raise (read_seq td) p.
Proof.
  unfold read_to, raise. destruct p as [s|]; [|done].
  destruct (Z.ltb_spec (read_seq td) s); [|lia]. destruct (read_up_to_unread d s td) as (_ & -> & _); lia.
Qed.

Lemma read_row_member d receipts tid member td :
  is_member tid member (if active td
    then read_to d (read_point d receipts (d_thread_id td) (d_member_id td)) td else td) = is_member tid member td.
Proof.
  destruct (active td) eqn:Ha; [|done]. unfold is_member.
  by destruct (read_to_id d (read_point d receipts (d_thread_id td) (d_member_id td)) td) as (_ & -> & -> & ->).
Qed.

(** (C11) MarkRead implements the abstract reading of receipts: the horizon of
    every member becomes the maximum of what it was and the point the batch
    names for the member (the number, or the number of the message, capped at
    the newest message of the thread).  Where the horizon moves, read implies
    delivered and the unread count is recounted from it; elsewhere the dialog
    does not change.  The changes returned are exactly the moves. *)
Theorem MarkRead_refines {E : Env} (receipts : list (option ReadReceipt)) (w w' : World) (changes : list StatusChange) :
  db_wf (w_db w) -> MarkRead receipts w = (OK changes, w') ->
  let d := w_db w in let d' := w_db w' in
  (forall tid member,
    let p := read_point d receipts tid member in
    horizon_of tid member d' = (fun h => raise h p) <$> horizon_of tid member d /\
    forall td, member_row tid member d = Some td ->
      member_row tid member d' = Some (
        match p with
        | Some s =>
            if read_seq td <? s
            then set_horizons (Some s) (Some (Z.max (delivered_seq td) s)) (unread_after tid member s d) td
            else td
        | None => td
        end)) /\
  changes = omap (expected_read_change d (w_now w')) (read_points d receipts).
Proof.
  intros Hwf H. simpl. apply MarkRead_run in H as (Hd & Hc & _ & _); [|done]. split; [|done].
  intros tid member. pose proof (member_row_fmap tid member _ _ _ Hd (read_row_member (w_db w) receipts tid member)) as Hm.
  unfold horizon_of. rewrite Hm. destruct (member_row tid member (w_db w)) as [td|] eqn:Htd; simpl; [|done].
  apply find_first_Some in Htd as [_ (Ha & <- & <-)%is_member_spec]. rewrite Ha, read_to_raise.
  split; [done|]. intros td' [= <-]. f_equal. unfold read_to.
  destruct (read_point _ _ _ _) as [s|]; [|done]. destruct (Z.ltb_spec (read_seq td) s) as [Hlt|]; [|done].
  unfold read_up_to, read_seq in *. destruct (d_last_read_seq td) as [l|]; simpl in *; [|done].
  by destruct (Z.ltb_spec l s); [|lia].
Qed.

Lemma MarkRead_refines_witness :
  let receipt := MkReadReceipt 7 1000 310 uuid_Nil 2 None "" in
  let r := MarkRead [Some receipt] chat in
  exists changes, fst r = OK changes /\ length changes = 1%nat /\
    horizon_of 1000 310 (w_db chat) = Some 0 /\ horizon_of 1000 310 (w_db (snd r)) = Some 2 /\
    changes = omap (expected_read_change (w_db chat) (w_now (snd r))) (read_points (w_db chat) [Some receipt]).
Proof.
  set (receipt := MkReadReceipt 7 1000 310 uuid_Nil 2 None ""). cbv zeta.
  destruct (MarkRead [Some receipt] chat) as [res w'] eqn:H.
  assert (exists changes, res = OK changes) as [changes ->].
  { change res with (fst (res, w')). rewrite <- H. eexists. vm_compute. reflexivity. }
  destruct (MarkRead_refines [Some receipt] chat w' changes (proj1 chat_wf) H) as [Hh Hc].
  exists changes. split; [reflexivity|].
  change (1000%N) with (rd_ThreadID receipt). change (310%N) with (rd_MemberID receipt).
  simpl snd. rewrite (proj1 (Hh (rd_ThreadID receipt) (rd_MemberID receipt))).
  split; [rewrite Hc; vm_compute; reflexivity|]. split; [vm_compute; reflexivity|].
  split; [vm_compute; reflexivity|exact Hc].
Defined.

(** ** MarkDelivered *)
Definition needs_thread (r : StatusReceipt) : bool :=
  bool_decide (rc_ThreadID r = uuid_Nil) && negb (bool_decide (rc_MessageID r = uuid_Nil)).
Definition needs_seq (r : StatusReceipt) : bool :=
  bool_decide (rc_UpToSeq r = 0) && negb (bool_decide (rc_UpToMessageID r = uuid_Nil)).

(** A receipt as it is applied. *)
Definition resolve_delivered (d : DB) (r : StatusReceipt) : StatusReceipt :=
  let r1 := if needs_thread r then
    match find_message (rc_MessageID r) d with
    | Some m => set_rc_thread (m_thread_id m) (m_domain_id m) (m_seq m) r | None => r end else r in
  let r2 := as_watermark r1 in
  if needs_seq r2 then
    match find_message (rc_UpToMessageID r2) d with
    | Some m => set_rc_point (rc_UpToMessageID r2) (m_seq m) r2 | None => r2 end
  else r2.

Definition delivered_points (d : DB) (receipts : list (option StatusReceipt)) : list StatusReceipt :=
  resolve_delivered d <$> dedupStatusReceipts receipts.

Section mark_delivered.
Context {E : Env}.

Lemma resolveThread_run rs w rs' w' : resolveThreadIDsForDelivery rs w = (OK rs', w') ->
  rs' = (fun r => if needs_thread r then
    match find_message (rc_MessageID r) (w_db w) with
    | Some m => set_rc_thread (m_thread_id m) (m_domain_id m) (m_seq m) r | None => r end else r) <$> rs /\
  w_db w' = w_db w.
Proof.
  unfold resolveThreadIDsForDelivery. change (fun r => bool_decide (rc_ThreadID r = _) && _) with needs_thread.
  intros H. destruct (existsb needs_thread rs) eqn:Ex; simpl in H.
  - step_ok H. apply statement_as_ok in Hs as (-> & _). run in H. by simplify_eq.
  - run in H. simplify_eq. split; [|done]. symmetry. by apply (update_where_skip needs_thread).
Qed.

Lemma resolveSeq_run rs w rs' w' : resolveSeqFromMessageID rs w = (OK rs', w') ->
  rs' = (fun r => if needs_seq r then
    match find_message (rc_UpToMessageID r) (w_db w) with
    | Some m => set_rc_point (rc_UpToMessageID r) (m_seq m) r | None => r end else r) <$> rs /\
  w_db w' = w_db w.
Proof.
  unfold resolveSeqFromMessageID. change (fun r => bool_decide (rc_UpToSeq r = 0) && _) with needs_seq.
  intros H. destruct (existsb needs_seq rs) eqn:Ex; simpl in H.
  - step_ok H. apply statement_as_ok in Hs as (-> & _). run in H. by simplify_eq.
  - run in H. simplify_eq. split; [|done]. symmetry. by apply (update_where_skip needs_seq).
Qed.

Lemma MarkDelivered_run receipts w changes w' : MarkDelivered receipts w = (OK changes, w') ->
  exists pick,
    db_dialogs (w_db w') = advance pick delivered_seq delivered_up_to
      (rc_boundary <$> delivered_points (w_db w) receipts) <$> db_dialogs (w_db w) /\
    changes = omap (delivered_change (w_now w') (moved_horizons pick delivered_seq delivered_up_to
      (rc_boundary <$> delivered_points (w_db w) receipts) (w_db w))) (delivered_points (w_db w) receipts).
Proof.
  intros H. unfold MarkDelivered in H. destruct (dedupStatusReceipts receipts) as [|r0 rs0] eqn:Hrs.
  { run in H. simplify_eq. exists (fun n => n). unfold delivered_points. rewrite Hrs. simpl. split; [|done].
    rewrite <- (list_fmap_id (db_dialogs _)) at 1. apply list_fmap_ext. intros i td _. unfold advance.
    destruct (joined _ _ [] td) eqn:Hj; [|done]. by apply joined_Some in Hj as (? & ?%not_elem_of_nil & _). }
  rewrite <- Hrs in H.
  step_ok H. apply resolveThread_run in Hs as [-> Hd1].
  step_ok H. apply resolveSeq_run in Hs as [-> Hd2]. rewrite Hd1 in *.
  rewrite <- !list_fmap_compose in H.
  change (_ <$> dedupStatusReceipts receipts) with (delivered_points (w_db w) receipts) in H.
  step_ok H. rewrite bind_now in H. run in H. injection H as <- <-. unfold advanceDeliveredHorizon in Hs.
  destruct (delivered_points (w_db w) receipts) as [|p0 pts0] eqn:Hp; [by unfold delivered_points in Hp; rewrite Hrs in Hp|].
  step_ok Hs. apply movedHorizons_run in Hs0 as (pick & -> & Hw). step_ok Hs.
  apply clearErrors_run in Hs0. run in Hs. simplify_eq. exists pick. rewrite Hd2 in *.
  destruct Hs0 as [-> | ->]; rewrite Hw; done.
Qed.
End mark_delivered.

(** How one delivery report may move a dialog: to a reported point past its
    horizon, and nothing but the horizon. *)
Definition delivered_step (pts : list StatusReceipt) (td td' : DialogRow) : Prop :=
  (td' = td /\ forall r, r ∈ pts -> ahead delivered_seq td (rc_boundary r) = false) \/
  (exists r, r ∈ pts /\ ahead delivered_seq td (rc_boundary r) = true /\
     td' = set_horizons (d_last_read_seq td) (Some (rc_UpToSeq r)) (d_unread_count td) td).

Lemma rc_boundary_seq r s : bd_seq (rc_boundary r) = Some s -> s = rc_UpToSeq r.
Proof. unfold rc_boundary, boundary. simpl. destruct (decide _); naive_solver. Qed.

Lemma delivered_up_to_ahead td s : delivered_seq td < s ->
  delivered_up_to s td = set_horizons (d_last_read_seq td) (Some s) (d_unread_count td) td.
Proof.
  unfold delivered_up_to, delivered_seq. destruct (d_last_delivered_seq td) as [l|]; simpl; [|done].
  intros H. by destruct (Z.ltb_spec l s); [|lia].
Qed.

Lemma advance_delivered pick pts td :
  delivered_step pts td (advance pick delivered_seq delivered_up_to (rc_boundary <$> pts) td).
Proof.
  unfold advance. destruct (joined pick delivered_seq (rc_boundary <$> pts) td) as [s|] eqn:Hj.
  - right. pose proof (joined_ahead _ _ _ _ _ Hj) as [Hlt _].
    apply joined_Some in Hj as (b & (r & -> & Hr)%list_elem_of_fmap & Ha & Hs).
    apply rc_boundary_seq in Hs as ->. exists r. split; [done|]. split; [done|]. by apply delivered_up_to_ahead.
  - left. split; [done|]. intros r Hr. eapply joined_None in Hj; [exact Hj|]. by apply list_elem_of_fmap_2.
Qed.



(** Reporting the same points again and again. *)
Fixpoint redeliver (picks : list (nat -> nat)) (pts : list StatusReceipt) (td : DialogRow) : DialogRow :=
  match picks with
  | [] => td
  | pick :: picks' => redeliver picks' pts (advance pick delivered_seq delivered_up_to (rc_boundary <$> pts) td)
  end.

Definition pending (pts : list StatusReceipt) (td : DialogRow) : list StatusReceipt :=
  select_where (fun r => ahead delivered_seq td (rc_boundary r)) pts.

Lemma ahead_moved td r s : delivered_seq td < s ->
  ahead delivered_seq (set_horizons (d_last_read_seq td) (Some s) (d_unread_count td) td) (rc_boundary r) = true <->
  ahead delivered_seq td (rc_boundary r) = true /\ s < rc_UpToSeq r.
Proof.
  intros Hs. rewrite !ahead_spec. unfold delivered_seq in *. simpl. split.
  - intros (Ha & H1 & H2 & s' & Hs' & Hlt). pose proof (rc_boundary_seq _ _ Hs') as ->.
    split; [|lia]. split_and!; try done. exists (rc_UpToSeq r). split; [done|lia].
  - intros [(Ha & H1 & H2 & s' & Hs' & Hlt) Hlt']. pose proof (rc_boundary_seq _ _ Hs') as ->.
    split_and!; try done. by exists (rc_UpToSeq r).
Qed.

Lemma select_shrinks {A} (P Q : A -> bool) (l : list A) x :
  (forall y, Q y = true -> P y = true) -> x ∈ l -> P x = true -> Q x = false ->
  (length (select_where Q l) < length (select_where P l))%nat.
Proof.
  intros HPQ. assert (forall l, length (select_where Q l) <= length (select_where P l))%nat as Hle.
  { intros l'. induction l' as [|y l' IH]; [done|]. unfold select_where in *. simpl.
    destruct (Q y) eqn:Eq; [rewrite (HPQ y Eq); simpl; lia|]. destruct (P y); simpl; lia. }
  intros Hin HP HQ. induction l as [|y l IH]; [by apply not_elem_of_nil in Hin|].
  unfold select_where in *. simpl. apply elem_of_cons in Hin as [<-|Hin].
  - rewrite HP, HQ. simpl. specialize (Hle l). unfold select_where in Hle. lia.
  - specialize (IH Hin). destruct (Q y) eqn:Eq; [rewrite (HPQ y Eq); simpl; lia|]. destruct (P y); simpl; lia.
Qed.

(** Reporting a batch at most as many times as it has receipts brings
    every horizon past all of them, however the server chooses among the
    receipts of one member: nothing is pending afterwards. *)
Theorem redeliver_converges (picks : list (nat -> nat)) (pts : list StatusReceipt) (td : DialogRow) :
  (length pts <= length picks)%nat -> pending pts (redeliver picks pts td) = [].
Proof.
  assert (forall picks td, (length (pending pts td) <= length picks)%nat -> pending pts (redeliver picks pts td) = []) as H.
  { intros ps. induction ps as [|pick ps IH]; intros t Hlen; simpl in *.
    - apply nil_length_inv. lia.
    - apply IH. destruct (advance_delivered pick pts t) as [[-> Hn]|(r & Hr & Ha & ->)].
      + assert (pending pts t = []) as ->; [|simpl; lia]. unfold pending, select_where.
        destruct (List.filter _ pts) as [|x l] eqn:Hf; [done|]. exfalso.
        assert (x ∈ select_where (fun r => ahead delivered_seq t (rc_boundary r)) pts) as [Hx Hax]%elem_of_select
          by (unfold select_where; rewrite Hf; left).
        by rewrite (Hn x Hx) in Hax.
      + pose proof Ha as (Hact & _ & _ & s & Hs & Hlt)%ahead_spec. apply rc_boundary_seq in Hs as ->.
        assert (length (pending pts (set_horizons (d_last_read_seq t) (Some (rc_UpToSeq r)) (d_unread_count t) t))
          < length (pending pts t))%nat; [|lia].
        eapply select_shrinks; [|exact Hr|exact Ha|].
        * intros y Hy. by apply ahead_moved in Hy as [? _].
        * apply not_true_iff_false. intros [_ Hx]%ahead_moved; lia. }
  intros Hlen. apply H. etransitivity; [|exact Hlen]. unfold pending, select_where. apply List.filter_length_le.
Qed.

Lemma redeliver_converges_witness :
  let pts := [MkStatusReceipt 7 1000 uuid_Nil uuid_Nil 1 310 None "" None;
              MkStatusReceipt 7 1000 uuid_Nil uuid_Nil 2 310 None "" None] in
  exists td, member_row 1000 310 (w_db chat) = Some td /\
  length (pending pts td) = 2%nat /\ pending pts (redeliver [fun _ => O; fun _ => O] pts td) = [].
Proof.
  intros pts.
  assert ((fun td => length (pending pts td)) <$> member_row 1000 310 (w_db chat) = Some 2%nat) as H
    by (vm_compute; reflexivity).
  destruct (member_row 1000 310 (w_db chat)) as [td|]; [|discriminate H].
  exists td. split; [reflexivity|]. split; [injection H; auto|].
  apply (redeliver_converges [fun _ => O; fun _ => O] pts td). simpl. lia.
Defined.

(** Two acknowledgements of one contact that carry numbers only collapse
    into the first, although they are about different threads: the horizon of
    the second thread does not move. *)
Theorem seq_only_acks_collide (dom : Z) (t1 t2 member : uuid) (s1 s2 : Z) (at_ : option Time) (via : string) :
  dedupStatusReceipts
    [Some (MkStatusReceipt dom t1 uuid_Nil uuid_Nil s1 member at_ via None);
     Some (MkStatusReceipt dom t2 uuid_Nil uuid_Nil s2 member at_ via None)] =
  [MkStatusReceipt dom t1 uuid_Nil uuid_Nil s1 member at_ via None].
Proof.
  unfold dedupStatusReceipts, dedup_status, same_message. simpl. by rewrite !bool_decide_true.
Qed.
