(* ===== verification/EditRules.v ===== *)
(** * EditRules: theorems on the change history of a message

    An edit appends one version to the history the log of ReactionStore shows
    and rewrites nothing: the revisions store only overwritten bodies, and the
    log puts the story together from both tables. *)
From S2P Require Import Prelude Domain Events Message World BotControlStore DialogStore Outbox TagService MessageStore.
From S2P Require Import ReactionStore ControlEvents MediaProcessor MessageService MessageActions.
From S2P Require Import Samples Invariant MessageFacts System.
#[local] Open Scope Z_scope.

(** ** The history *)

(** The revisions of a message are numbered from 1, and exactly edited
    messages have any. *)
Definition numbered (d : DB) (m : MessageRow) : Prop :=
  rv_version <$> revisions_of (m_id m) d = seqZ 1 (Z.of_nat (length (revisions_of (m_id m) d))) /\
  m_edited m = bool_decide (length (revisions_of (m_id m) d) <> 0%nat).
Definition history_wf (d : DB) : Prop := Forall (numbered d) (db_messages d).

#[export] Instance numbered_dec d m : Decision (numbered d m).
Proof. unfold numbered. apply _. Defined.

Definition history (d : DB) (m : MessageRow) : list LogEntry := log_entries m (ordered_revisions (m_id m) d).

Lemma seqZ_sorted (rs : list RevisionRow) n k : rv_version <$> rs = seqZ n k ->
  StronglySorted version_le rs /\ NoDup (rv_version <$> rs).
Proof.
  intros H. split; [|rewrite H; apply NoDup_seqZ].
  revert n k H. induction rs as [|r rs IH]; intros n k H; [constructor|].
  rewrite fmap_cons in H. assert (0 < k) as Hk.
  { destruct (Z.ltb_spec 0 k) as [Hk|Hk]; [done|]. rewrite seqZ_nil in H by lia. done. }
  rewrite seqZ_cons in H by done. injection H as Hr Hrs. constructor; [by eapply IH|].
  apply Forall_forall. intros x Hx. apply (list_elem_of_fmap_2 rv_version) in Hx.
  change (rv_version x ∈ rv_version <$> rs) in Hx. rewrite Hrs in Hx. apply elem_of_seqZ in Hx. unfold version_le. lia.
Qed.

(** Revisions stored in their order are read in their order. *)
Lemma ordered_numbered mid d n : rv_version <$> revisions_of mid d = seqZ 1 n ->
  ordered_revisions mid d = revisions_of mid d.
Proof.
  intros H. apply seqZ_sorted in H as [Hs Hnd]. unfold ordered_revisions.
  apply (StronglySorted_unique_strong version_le).
  - intros x1 x2 H1 H2 Ha Hb. rewrite merge_sort_Permutation in H1.
    assert (rv_version x1 = rv_version x2) as Heq by (unfold version_le in *; lia).
    apply list_elem_of_lookup in H1 as [i Hi], H2 as [j Hj].
    assert (i = j) as ->; [|congruence].
    apply (NoDup_lookup _ i j (rv_version x1) Hnd); rewrite list_lookup_fmap; [by rewrite Hi|by rewrite Hj, Heq].
  - apply StronglySorted_merge_sort; [intros a b c; unfold version_le; lia|intros a b; unfold version_le; lia].
  - done.
  - apply merge_sort_Permutation.
Qed.

Lemma revision_entries_snoc rs r pos by_ at_ :
  revision_entries pos by_ at_ (rs ++ [r]) =
  let '(l, (b, t)) := revision_entries pos by_ at_ rs in
  let n := pos + Z.of_nat (length rs) in
  (l ++ [MkLog n (if decide (n = 1) then RevisionActionCreated else RevisionActionEdited) (rv_body r) b t],
   (rv_changed_by r, rv_changed_at r)).
Proof.
  revert pos by_ at_. induction rs as [|x rs IH]; intros pos by_ at_.
  { simpl. by rewrite Z.add_0_r. }
  cbn [app revision_entries length]. rewrite IH.
  destruct (revision_entries (pos + 1) (rv_changed_by x) (rv_changed_at x) rs) as [l [b t]]. simpl.
  replace (pos + 1 + Z.of_nat (length rs)) with (pos + Z.of_nat (S (length rs))) by lia. done.
Qed.

Lemma revision_entries_length rs pos by_ at_ : length (fst (revision_entries pos by_ at_ rs)) = length rs.
Proof.
  revert pos by_ at_. induction rs as [|x rs IH]; intros; [done|]. cbn [revision_entries].
  specialize (IH (pos + 1) (rv_changed_by x) (rv_changed_at x)).
  destruct (revision_entries _ _ _ rs). simpl in *. by rewrite IH.
Qed.

(** The log of a message with one more revision, the one the edit made of its body. *)
Lemma log_entries_edit m rs r at_ body :
  m_deleted_at m = None -> m_edited m = bool_decide (length rs <> 0%nat) ->
  rv_body r = m_body m ->
  log_entries (edit_row at_ body m) (rs ++ [r]) =
  log_entries m rs ++ [MkLog (Z.of_nat (length rs) + 2) RevisionActionEdited body (rv_changed_by r) (rv_changed_at r)].
Proof.
  intros Hd He Hb. unfold log_entries, created_by. simpl. rewrite revision_entries_snoc, length_app, Hd, He, Hb. simpl.
  destruct (revision_entries 1 (default (m_sender_id m) (m_origin_sender m)) (m_created_at m) rs) as [l [b t]] eqn:El.
  replace (0 <? Z.of_nat (length rs + 1)) with true by (symmetry; apply Z.ltb_lt; lia). simpl.
  f_equal; [f_equal|do 2 f_equal; lia].
  destruct rs as [|x rs]; [simpl in El; by injection El as <- <- <-|].
  rewrite (bool_decide_true (length (x :: rs) <> 0%nat)) by done. rewrite orb_true_r.
  replace (0 <? Z.of_nat (length (x :: rs))) with true by (symmetry; apply Z.ltb_lt; simpl; lia).
  rewrite decide_False by (simpl; lia). by rewrite (Z.add_comm 1).
Qed.

Lemma log_entries_length m rs : m_deleted_at m = None -> length (log_entries m rs) = S (length rs).
Proof.
  intros Hd. unfold log_entries. pose proof (revision_entries_length rs 1 (created_by m) (m_created_at m)) as Hl.
  destruct (revision_entries _ _ _ rs) as [l [b t]]. rewrite Hd, !length_app. simpl in *. lia.
Qed.

(** The tables after an edit. *)
Lemma revisions_after at_ editor body m d mid :
  revisions_of mid (edit_sql at_ editor body m d) =
  revisions_of mid d ++ (if bool_decide (m_id m = mid)
    then [MkRevisionRow (m_id m) (m_domain_id m) (last_version (m_id m) d + 1) (m_body m) editor at_] else []).
Proof.
  unfold revisions_of, select_where, edit_sql. simpl. rewrite List.filter_app. simpl. by case_bool_decide.
Qed.

Lemma last_version_numbered mid d n : rv_version <$> revisions_of mid d = seqZ 1 (Z.of_nat n) ->
  last_version mid d = Z.of_nat n.
Proof.
  unfold last_version. generalize (revisions_of mid d). clear. intros l H.
  assert (forall l k, 0 <= k -> rv_version <$> l = seqZ (k + 1) (Z.of_nat n - k) -> k <= Z.of_nat n ->
    foldr (fun r v => Z.max (rv_version r) v) 0 l = if decide (Z.of_nat n = k) then 0 else Z.of_nat n) as Hgen.
  { clear. induction l as [|r l IH]; intros k Hk H Hle.
    - rewrite decide_True; [done|]. destruct (decide (Z.of_nat n = k)); [done|].
      rewrite seqZ_cons in H by lia. done.
    - destruct (decide (Z.of_nat n = k)) as [Heq|Hne]; [rewrite seqZ_nil in H by lia; done|].
      rewrite seqZ_cons in H by lia. injection H as Hr H. simpl. rewrite (IH (k + 1)); [|lia| |lia].
      + rewrite Hr. destruct (decide _); lia.
      + etransitivity; [exact H|]. f_equal; lia. }
  rewrite (Hgen l 0) by (try rewrite Z.sub_0_r; (done || lia)). by case_decide as Hc.
Qed.

(** ** The theorem *)
Section edit.
Context {E : Env} {H : ThreadTagHooks} {X : MessageEnv}.

(** The store's edit, run. *)
Lemma StoreEdit_run msg w edited w' : MessageStore.EditMessage msg w = (OK edited, w') ->
  exists m, edit_target (msg_ID msg) (Shared.peer_ID (msg_From msg)) (w_db w) = Some m /\
    w_db w' = edit_sql (w_now w) (Shared.peer_ID (msg_From msg)) (msg_Body msg) m (w_db w) /\
    msg_Version edited = Z.of_nat (length (revisions_of (m_id m) (w_db w))) + 2.
Proof.
  unfold MessageStore.EditMessage. destruct (decide _); [done|]. destruct (decide _); [done|].
  intros Hr. step_ok Hr. apply statement_as_ok in Hs as (-> & _). run in Hr. simpl in Hr.
  destruct (edit_target _ _ _) as [m|]; [|done]. run in Hr. injection Hr as <- <-. by exists m.
Qed.

Lemma EditMessage_run msg w edited w' : MessageActions.EditMessage msg w = (OK edited, w') ->
  exists m, edit_target (msg_ID msg) (Shared.peer_ID (msg_From msg)) (w_db w) = Some m /\
    texts w' = (let d := edit_sql (w_now w) (Shared.peer_ID (msg_From msg)) (msg_Body msg) m (w_db w) in
                (db_messages d, db_revisions d)) /\
    msg_Version edited = Z.of_nat (length (revisions_of (m_id m) (w_db w))) + 2.
Proof.
  unfold MessageActions.EditMessage. destruct (decide _); [done|]. destruct (nil_peer _); [done|].
  intros (w0 & w1 & Hr & _ & Hd & _ & Hn & _ & Hd' & _)%WithinTransaction_run. unfold edit_body in Hr.
  step_ok Hr. rename a into e. apply StoreEdit_run in Hs as (m & Hm & Hdb & Hv). rewrite Hd, Hn in *.
  step_ok Hr. apply (preserves_ok texts) in Hs; [|apply quiet_GetQuickView, texts_quiet].
  pose proof (dispatch_answer _ _ _ _ Hr) as ->. apply (preserves_ok texts) in Hr; [|apply quiet_dispatch, texts_quiet].
  exists m. split; [done|]. split; [|done]. unfold texts in *. rewrite Hd', Hr, Hs, Hdb. done.
Qed.
End edit.

Lemma edit_target_spec id editor d m : edit_target id editor d = Some m ->
  m ∈ db_messages d /\ m_id m = id /\ m_deleted_at m = None /\ authored m editor = true /\
  exists td, td ∈ db_dialogs d /\ d_thread_id td = m_thread_id m /\ d_member_id td = editor /\ active td = true.
Proof.
  intros [Hin Hp]%find_first_Some. apply andb_prop in Hp as [Hp Hex]. apply andb_prop in Hp as [Hp Hau].
  apply andb_prop in Hp as [Hid Hdel]. apply bool_decide_eq_true in Hid, Hdel.
  apply existsb_exists in Hex as (td & Htd & Hp). apply list_elem_of_In in Htd.
  apply andb_prop in Hp as [Hp Hact]. apply andb_prop in Hp as [Ht Hm]. apply bool_decide_eq_true in Ht, Hm.
  split_and!; try done. by exists td.
Qed.

(** (C3) Editing a message never rewrites its history.  A successful edit needs a
    live message, written by the editor, who is still in the thread; the log of
    the message afterwards is the log before it with one entry appended, which
    carries the new text, the editor and the time; the version reported is the
    number of the entry; the logs of all other messages are as before.  Whatever
    sequence of edits led here, the revisions stay numbered from one. *)
Theorem EditMessage_appends {E : Env} {H : ThreadTagHooks} {X : MessageEnv} (msg edited : Message) (w w' : World) :
  NoDup (m_id <$> db_messages (w_db w)) -> history_wf (w_db w) ->
  MessageActions.EditMessage msg w = (OK edited, w') ->
  let editor := Shared.peer_ID (msg_From msg) in
  exists m m', m ∈ db_messages (w_db w) /\ m_id m = msg_ID msg /\ m_deleted_at m = None /\ authored m editor = true /\
    (exists td, td ∈ db_dialogs (w_db w) /\ d_thread_id td = m_thread_id m /\ d_member_id td = editor /\ active td = true) /\
    m' ∈ db_messages (w_db w') /\ m_id m' = msg_ID msg /\ m_body m' = msg_Body msg /\
    history (w_db w') m' = history (w_db w) m ++
      [MkLog (msg_Version edited) RevisionActionEdited (msg_Body msg) editor (w_now w)] /\
    msg_Version edited = Z.of_nat (length (history (w_db w') m')) /\
    (forall x, m_id x <> msg_ID msg -> x ∈ db_messages (w_db w') <-> x ∈ db_messages (w_db w)) /\
    (forall x, m_id x <> msg_ID msg -> history (w_db w') x = history (w_db w) x) /\
    history_wf (w_db w').
Proof.
  intros Hnd Hwf Hr editor. apply EditMessage_run in Hr as (m & Ht & Htx & Hv).
  apply edit_target_spec in Ht as (Hin & Hid & Hdel & Hau & Hmem). rewrite Hv.
  pose proof Hwf as Hwf'. unfold history_wf in Hwf'. rewrite Forall_forall in Hwf'. destruct (Hwf' m Hin) as [Hnum Hed].
  set (d := w_db w) in *. set (d1 := edit_sql (w_now w) editor (msg_Body msg) m d) in *.
  injection Htx as Hms Hrs.
  assert (forall mid, revisions_of mid (w_db w') = revisions_of mid d1) as Hrev by (intros; unfold revisions_of; by rewrite Hrs).
  set (m' := edit_row (w_now w) (msg_Body msg) m).
  set (r := MkRevisionRow (m_id m) (m_domain_id m) (last_version (m_id m) d + 1) (m_body m) editor (w_now w)).
  assert (revisions_of (m_id m) d1 = revisions_of (m_id m) d ++ [r]) as Hr1
    by (unfold d1; rewrite revisions_after, bool_decide_true; done).
  assert (forall mid, mid <> m_id m -> revisions_of mid d1 = revisions_of mid d) as Hr2
    by (intros; unfold d1; rewrite revisions_after, bool_decide_false by done; apply app_nil_r).
  assert (rv_version <$> revisions_of (m_id m) d1 = seqZ 1 (Z.of_nat (length (revisions_of (m_id m) d1)))) as Hnum1.
  { rewrite Hr1, fmap_app, Hnum, length_app. simpl. rewrite (last_version_numbered _ _ _ Hnum).
    rewrite Nat2Z.inj_add, seqZ_app by lia. simpl. f_equal. rewrite seqZ_cons, seqZ_nil by lia. f_equal. lia. }
  assert (history (w_db w') m' = history d m ++ [MkLog (Z.of_nat (length (revisions_of (m_id m) d)) + 2)
    RevisionActionEdited (msg_Body msg) editor (w_now w)]) as Hh.
  { unfold history. change (m_id m') with (m_id m).
    rewrite (ordered_numbered _ _ _ Hnum), (ordered_numbered _ (w_db w') (Z.of_nat (length (revisions_of (m_id m) d1))))
      by (by rewrite Hrev). rewrite Hrev, Hr1. unfold m'. by rewrite log_entries_edit. }
  assert (forall x, m_id x <> msg_ID msg -> x ∈ db_messages (w_db w') <-> x ∈ db_messages d) as Hother.
  { intros x Hx. rewrite Hms. unfold d1. simpl. rewrite elem_of_update. split.
    - intros (y & Hy & ->). by case_bool_decide; [|done]; simpl in Hx; congruence.
    - intros Hy. exists x. split; [done|]. by rewrite bool_decide_false by congruence. }
  exists m, m'. split_and!; try done.
  - rewrite Hms. unfold d1. simpl. apply elem_of_update. exists m. split; [done|]. by rewrite bool_decide_true.
  - rewrite Hh, length_app. unfold history. rewrite (ordered_numbered _ _ _ Hnum), log_entries_length by done. simpl. lia.
  - intros x Hx. unfold history, ordered_revisions. by rewrite Hrev, Hr2 by congruence.
  - unfold history_wf. apply Forall_forall. intros x Hx. destruct (decide (m_id x = msg_ID msg)) as [Heq|Hne].
    + assert (x = m') as ->.
      { rewrite Hms in Hx. unfold d1 in Hx. simpl in Hx. apply elem_of_update in Hx as (y & Hy & ->).
        revert Heq. destruct (bool_decide_reflect (m_id y = m_id m)) as [Hc|Hc]; intros Heq; [|by rewrite Heq, Hid in Hc].
        by rewrite (NoDup_fmap_inj m_id (db_messages d) y m Hnd Hy Hin Hc). }
      split; [by rewrite Hrev|]. rewrite Hrev. change (m_id m') with (m_id m). rewrite Hr1, length_app. simpl.
      by rewrite bool_decide_true by lia.
    + apply Hother in Hx; [|done]. destruct (Hwf' x Hx) as [H1 H2]. split; rewrite Hrev, Hr2 by congruence; done.
Qed.

(** ** Witness: the first text of the conversation is reworded *)
Definition reword (body : string) : Message :=
  MkMessage 1005 None "" "" "" 1000 7 ann zero_peer None body 0 ∅ 0 0 false uuid_Nil uuid_Nil None 0 0 0 [] []
    None None None None None None None None [].
Definition reworded : World := snd (MessageActions.EditMessage (reword "hello Bob") chat).

Lemma reworded_history : Forall (fun m => m_id m = 1005%N -> lg_body <$> history (w_db reworded) m = ["hello"; "hello Bob"])
  (db_messages (w_db reworded)).
Proof. apply (bool_decide_unpack _). vm_compute. exact I. Qed.

Lemma EditMessage_appends_witness :
  exists edited w', MessageActions.EditMessage (reword "hi") reworded = (OK edited, w') /\ msg_Version edited = 3 /\
    exists m', (lg_body <$> history (w_db w') m') = ["hello"; "hello Bob"; "hi"].
Proof.
  assert (exists e, MessageActions.EditMessage (reword "hi") reworded =
    (OK e, snd (MessageActions.EditMessage (reword "hi") reworded))) as [e Hr] by runs.
  assert (NoDup (m_id <$> db_messages (w_db reworded))) as Hnd by nodup_list.
  assert (history_wf (w_db reworded)) as Hwf by (unfold history_wf; apply (bool_decide_unpack _); vm_compute; exact I).
  destruct (EditMessage_appends (reword "hi") e reworded _ Hnd Hwf Hr) as
    (m & m' & Hin & Hid & _ & _ & _ & Hin' & Hid' & _ & Hh & Hv & _).
  assert (lg_body <$> history (w_db reworded) m = ["hello"; "hello Bob"]) as Hb.
  { pose proof reworded_history as Hf. rewrite Forall_forall in Hf. exact (Hf m Hin Hid). }
  exists e. eexists. split; [exact Hr|]. rewrite Hv, Hh, length_app.
  apply (f_equal length) in Hb as Hl. rewrite length_fmap in Hl. rewrite Hl. split; [reflexivity|].
  exists m'. rewrite Hh, fmap_app, Hb. reflexivity.
Defined.
