(* ===== verification/DeleteRules.v ===== *)
(** * DeleteRules: theorems on deleting messages

    A batch deletes what its author may still delete and answers every id once;
    the unread counters of the threads it touched stay exact. *)
From S2P Require Import Prelude Domain Events Message World BotControlStore DialogStore Outbox TagService MessageStatus MessageStore.
From S2P Require Import ControlEvents MediaProcessor MessageService MessageActions.
From S2P Require Import Samples Invariant MessageFacts System.
#[local] Open Scope Z_scope.

(** ** Splitting the outcome *)
Lemma split_classified_spec l seen : NoDup (msg_ID <$> l) -> (forall m, m ∈ l -> msg_ID m ∉ seen) ->
  exists kept skipped seen', split_classified seen l = (kept, skipped, seen') /\
    kept = select_where (fun m => bool_decide (msg_SkipReason m = MessageSkipUnspecified)) l /\
    skipped = (fun m => MkSkip (msg_ID m) (msg_SkipReason m)) <$>
      select_where (fun m => negb (bool_decide (msg_SkipReason m = MessageSkipUnspecified))) l /\
    (forall x, x ∈ seen' <-> x ∈ seen \/ x ∈ msg_ID <$> l).
Proof.
  revert seen. induction l as [|m l IH]; intros seen Hnd Hs.
  { exists [], [], seen. split; [done|]. split_and!; try done. intros x. rewrite elem_of_nil. naive_solver. }
  rewrite fmap_cons in Hnd. apply NoDup_cons in Hnd as [Hm Hnd].
  destruct (IH ({[msg_ID m]} ∪ seen) Hnd) as (kept & skipped & seen' & Heq & Hk & Hsk & Hin).
  { intros x Hx. rewrite elem_of_union, elem_of_singleton. intros [He|He]; [|by apply (Hs x); [right|]].
    apply Hm. rewrite <- He. by apply list_elem_of_fmap_2. }
  simpl. rewrite decide_False by (apply Hs; left). rewrite Heq.
  assert (forall x, x ∈ seen' <-> x ∈ seen \/ x ∈ msg_ID <$> m :: l) as Hin'.
  { intros x. rewrite Hin, elem_of_union, elem_of_singleton, fmap_cons, elem_of_cons. naive_solver. }
  unfold select_where in *. simpl.
  destruct (decide (msg_SkipReason m = MessageSkipUnspecified)) as [Hr|Hr].
  - rewrite bool_decide_true by done. simpl. exists (m :: kept), skipped, seen'. split; [done|]. subst. done.
  - rewrite bool_decide_false by done. simpl. exists kept. do 2 eexists. split; [done|]. subst. done.
Qed.

Lemma split_unknown_spec ids seen :
  NoDup (sk_ID <$> split_unknown seen ids) /\
  forall x, x ∈ sk_ID <$> split_unknown seen ids <-> x ∈ ids /\ x ∉ seen.
Proof.
  revert seen. induction ids as [|id ids IH]; intros seen.
  { split; [constructor|]. intros x. simpl. rewrite !elem_of_nil. naive_solver. }
  simpl. destruct (decide (id ∈ seen)) as [Hs|Hs].
  - destruct (IH seen) as [Hnd Hin]. split; [done|]. intros x. rewrite Hin, elem_of_cons. naive_solver.
  - destruct (IH ({[id]} ∪ seen)) as [Hnd Hin].
    assert (forall x, x ∈ sk_ID <$> split_unknown ({[id]} ∪ seen) ids <-> x ∈ ids /\ x <> id /\ x ∉ seen) as Hin'.
    { intros x. rewrite Hin, not_elem_of_union, not_elem_of_singleton. naive_solver. }
    rewrite fmap_cons. simpl. split.
    + constructor; [|done]. rewrite Hin'. naive_solver.
    + intros x. rewrite elem_of_cons, Hin', elem_of_cons. destruct (decide (x = id)); naive_solver.
Qed.

(** Every requested id is answered once, as kept or as skipped, whatever the
    order and however often it was asked. *)
Lemma splitSkipOutcome_answers ids classified kept skipped :
  NoDup (msg_ID <$> classified) -> (forall m, m ∈ classified -> msg_ID m ∈ ids) ->
  splitSkipOutcome ids classified = (kept, skipped) ->
  kept = select_where (fun m => bool_decide (msg_SkipReason m = MessageSkipUnspecified)) classified /\
  (msg_ID <$> kept) ++ (sk_ID <$> skipped) ≡ₚ remove_dups ids.
Proof.
  intros Hnd Hids. unfold splitSkipOutcome.
  destruct (split_classified_spec classified ∅ Hnd) as (k & s & seen & -> & Hk & Hs & Hseen); [set_solver|].
  intros [= <- <-]. split; [done|]. destruct (split_unknown_spec ids seen) as [Hund Huin].
  assert ((msg_ID <$> k) ++ (sk_ID <$> s) ≡ₚ msg_ID <$> classified) as Hp.
  { rewrite Hk, Hs, <- list_fmap_compose. unfold compose. simpl. rewrite <- fmap_app. apply fmap_Permutation.
    clear. unfold select_where. induction classified as [|m l IH]; [done|]. simpl.
    case_bool_decide; simpl; [by rewrite IH|]. by rewrite <- Permutation_middle, IH. }
  rewrite fmap_app, app_assoc, Hp. apply NoDup_Permutation; [|apply NoDup_remove_dups|].
  - apply NoDup_app. split; [done|]. split; [|done]. intros x Hx [_ Hns]%Huin. apply Hns, Hseen. by right.
  - intros x. rewrite elem_of_app, Huin, elem_of_remove_dups. split.
    + intros [(m & -> & Hm)%list_elem_of_fmap|[]]; [by apply Hids|done].
    + intros Hx. destruct (decide (x ∈ seen)) as [Hin|]; [|by right]. apply Hseen in Hin as [[]%not_elem_of_empty|]; by left.
Qed.

(** ** What a batch selects *)
Lemma delete_reason_specified t : deletable t = false -> delete_reason t <> MessageSkipUnspecified.
Proof. unfold deletable, delete_reason. by destruct (dt_member t), (dt_author t), (dt_live t), (dt_closed t). Qed.

Definition targets (ids : list uuid) (who : uuid) (d : DB) (m : MessageRow) : bool :=
  bool_decide (m_id m ∈ ids) && deletable (delete_target who d m).

Lemma classified_ids at_ ids who d :
  msg_ID <$> delete_classified at_ ids who d ≡ₚ m_id <$> select_where (fun m => bool_decide (m_id m ∈ ids)) (db_messages d).
Proof.
  unfold delete_classified, delete_targets. rewrite fmap_app, <- !list_fmap_compose. unfold compose. simpl.
  rewrite <- fmap_app. generalize (select_where (fun m => bool_decide (m_id m ∈ ids)) (db_messages d)). intros l.
  trans ((fun t => m_id (dt_row t)) <$> (delete_target who d <$> l)); [|by rewrite <- list_fmap_compose].
  apply fmap_Permutation. unfold select_where. induction l as [|m l IH]; [done|]. rewrite fmap_cons. cbn [List.filter].
  destruct (deletable (delete_target who d m)); simpl; [by rewrite IH|]. by rewrite <- Permutation_middle, IH.
Qed.

Lemma classified_kept at_ ids who d :
  (fun m => (msg_ID m, msg_ThreadID m)) <$>
    select_where (fun m => bool_decide (msg_SkipReason m = MessageSkipUnspecified)) (delete_classified at_ ids who d) =
  (fun m => (m_id m, m_thread_id m)) <$> select_where (targets ids who d) (db_messages d).
Proof.
  unfold delete_classified, delete_targets, select_where. rewrite List.filter_app, fmap_app.
  set (l := List.filter _ (db_messages d)).
  assert (List.filter (fun m => bool_decide (msg_SkipReason m = MessageSkipUnspecified))
    ((fun t => classified_message (dt_row t) (delete_reason t)) <$>
     List.filter (fun t => negb (deletable t)) (delete_target who d <$> l)) = []) as ->.
  { generalize (delete_target who d <$> l). clear. induction l as [|t l IH]; [done|]. simpl.
    destruct (deletable t) eqn:Ht; [done|]. simpl. rewrite bool_decide_false by (by apply delete_reason_specified). done. }
  rewrite app_nil_r. unfold l, targets. clear. generalize (db_messages d) as ms. induction ms as [|m ms IH]; [done|].
  simpl. case_bool_decide as Hin; simpl; [|done]. destruct (deletable _); simpl; [by f_equal|done].
Qed.

(** ** Running the service *)
Definition deleted_of (e : Event) : option uuid :=
  match e with EvMessageDeleted p => Some (mdl_MessageID p) | _ => None end.

Lemma sort_by_thread_perm l : sort_by_thread l ≡ₚ l.
Proof.
  assert (forall m l, insert_by_thread m l ≡ₚ m :: l) as Hi.
  { clear. intros m l. induction l as [|x l IH]; [done|]. simpl. destruct (_ <? _)%N; [|done]. rewrite IH. apply perm_swap. }
  unfold sort_by_thread. induction l as [|m l IH]; [done|]. simpl. by rewrite Hi, IH.
Qed.

Lemma recount_ext d d' td : db_messages d = db_messages d' -> recount d td = recount d' td.
Proof. unfold recount, unread_after. by intros ->. Qed.

Lemma update_where_ext {A} (P : A -> bool) f g l : (forall x, f x = g x) -> update_where P f l = update_where P g l.
Proof. intros Hf. apply list_fmap_ext. intros _ x _. by rewrite Hf. Qed.

Section delete.
Context {E : Env} {H : ThreadTagHooks} {X : MessageEnv}.

Lemma announce_run p c byThread msgs w res w' :
  announce_deleted p c byThread msgs w = (OK res, w') -> (forall m, m ∈ msgs -> msg_domainEvents m = []) ->
  res.1.1 = msg_ID <$> msgs /\ texts w' = texts w /\ people w' = people w /\
  dom res.2 = dom byThread ∪ list_to_set (msg_ThreadID <$> msgs) /\
  exists es, events w' = events w ++ es /\ deleted_of <$> es = Some <$> (msg_ID <$> msgs).
Proof.
  revert byThread w res. induction msgs as [|m msgs IH]; intros byThread w res Hr Hne.
  { injection Hr as <- <-. split_and!; try done; [set_solver|]. exists []. by rewrite app_nil_r. }
  simpl in Hr. step_ok Hr. rename a into ms, w0 into w1.
  assert (w_db w1 = w_db w) as Hd1.
  { destruct (byThread !! _); [by injection Hs as _ <-|]. by apply QuickView_run in Hs. }
  clear Hs. run in Hr. step_ok Hr. apply dispatch_run in Hs as (_ & Hev & Ht & Hp).
  step_ok Hr. injection Hr as <- <-. apply IH in Hs as (Hids & Ht' & Hp' & Hdom & es & Hev' & Hes); [|intros; apply Hne; by right].
  split_and!; simpl.
  - by rewrite Hids.
  - rewrite Ht', Ht. unfold texts. by rewrite Hd1.
  - rewrite Hp', Hp. unfold people. by rewrite Hd1.
  - rewrite Hdom, dom_insert_L. set_solver.
  - rewrite Hev', Hev. unfold WithDeletedEvent, AddEvent. simpl. rewrite (Hne m) by left. simpl.
    eexists. split; [unfold events at 1; rewrite Hd1, <- app_assoc; reflexivity|]. by rewrite fmap_app, Hes.
Qed.

Lemma StoreDelete_run ids who w out w' : MessageStore.DeleteMessages ids who w = (OK out, w') ->
  out = splitDeleteOutcome ids (delete_classified (w_now w) ids who (w_db w)) /\
  w_db w' = delete_sql (w_now w) ids who (w_db w).
Proof.
  unfold MessageStore.DeleteMessages. destruct (bool_decide _); [done|]. destruct (decide _); [done|].
  intros Hr. step_ok Hr. apply statement_as_ok in Hs as (-> & _). run in Hr. by injection Hr as <- <-.
Qed.

Lemma Recount_run ts w u w' : RecountUnread ts w = (OK u, w') ->
  texts w' = texts w /\ events w' = events w /\ db_threads (w_db w') = db_threads (w_db w) /\
  db_perms (w_db w') = db_perms (w_db w) /\
  db_dialogs (w_db w') = update_where (fun td => bool_decide (d_thread_id td ∈ ts) && active td) (recount (w_db w)) (db_dialogs (w_db w)).
Proof.
  unfold RecountUnread. destruct (bool_decide_reflect (ts = [])) as [->|Hne].
  { intros [= <- <-]. split_and!; try done. unfold update_where. rewrite <- (list_fmap_id (db_dialogs (w_db w))) at 1.
    apply list_fmap_ext. intros i x _. by rewrite bool_decide_false by (apply not_elem_of_nil). }
  intros Hr. step_ok Hr. apply statement_as_ok in Hs as (-> & _). run in Hr. by injection Hr as <- <-.
Qed.

(** A successful batch, with the threads it recounted. *)
Lemma DeleteMessages_run in_ w resp w' : NoDup (m_id <$> db_messages (w_db w)) ->
  MessageActions.DeleteMessages in_ w = (OK resp, w') ->
  let who := Shared.peer_ID (dq_DeletedBy in_) in let hit := targets (dq_IDs in_) who (w_db w) in
  ds_DeletedIDs resp ≡ₚ m_id <$> select_where hit (db_messages (w_db w)) /\
  ds_DeletedIDs resp ++ (sk_ID <$> ds_Skipped resp) ≡ₚ remove_dups (dq_IDs in_) /\
  db_messages (w_db w') = update_where hit (delete_row (w_now w) who) (db_messages (w_db w)) /\
  (exists es, events w' = events w ++ es /\ deleted_of <$> es = Some <$> ds_DeletedIDs resp) /\
  db_threads (w_db w') = db_threads (w_db w) /\
  exists ts : list uuid, (forall t, t ∈ ts <-> exists m, m ∈ db_messages (w_db w) /\ hit m = true /\ m_thread_id m = t) /\
    db_dialogs (w_db w') = update_where (fun td => bool_decide (d_thread_id td ∈ ts) && active td)
      (recount (w_db w')) (db_dialogs (w_db w)).
Proof.
  intros Hnd Hr who hit. unfold MessageActions.DeleteMessages in Hr. destruct (bool_decide _); [done|].
  destruct (nil_peer _); [done|]. cbv zeta in Hr.
  apply WithinTransaction_run in Hr as (w0 & w1 & Hr & _ & Hd & _ & Hn & _ & Hd' & _). unfold delete_body in Hr.
  step_ok Hr. rename a into out, w2 into w3. apply StoreDelete_run in Hs as [Hout Hdb]. rewrite Hd, Hn in *. fold who in Hout, Hdb.
  destruct (bool_decide _ && negb _); [done|].
  step_ok Hr. rename a into ann, w2 into w4. step_ok Hr. injection Hr as <- <-. rename Hs into Ha, Hs0 into Hrc.
  set (cl := delete_classified (w_now w) (dq_IDs in_) who (w_db w)) in *.
  assert (NoDup (msg_ID <$> cl)) as Hcnd by (unfold cl; rewrite classified_ids; by apply NoDup_fmap_filter).
  assert (forall m, m ∈ cl -> msg_ID m ∈ dq_IDs in_) as Hcin.
  { intros m Hm. apply (list_elem_of_fmap_2 msg_ID) in Hm. unfold cl in Hm. rewrite classified_ids in Hm.
    apply list_elem_of_fmap in Hm as (x & -> & [_ Hx]%elem_of_select). by apply bool_decide_eq_true in Hx. }
  unfold splitDeleteOutcome in Hout. destruct (splitSkipOutcome _ _) as [kept skipped] eqn:Hsp.
  apply splitSkipOutcome_answers in Hsp as [Hk Hp]; [|done|done]. subst out. simpl in *.
  apply announce_run in Ha as (Hids & Ht & Hpe & Hdom & es & Hev & Hes).
  2: { intros m Hm. rewrite sort_by_thread_perm, Hk in Hm. apply elem_of_select in Hm as [Hm _]. unfold cl, delete_classified in Hm.
       apply elem_of_app in Hm as [(t & -> & _)%list_elem_of_fmap|(t & -> & _)%list_elem_of_fmap]; done. }
  apply Recount_run in Hrc as (Ht2 & Hev2 & Hth2 & _ & Hdl). unfold texts in Ht, Ht2. injection Ht as Ht _. injection Ht2 as Ht2 _.
  unfold people in Hpe. injection Hpe as Hpt Hpd _.
  assert (events w3 = events w0) as He0 by (unfold events; by rewrite Hdb, <- Hd).
  pose proof (classified_kept (w_now w) (dq_IDs in_) who (w_db w)) as Hkept. fold cl in Hkept.
  assert (ann.1.1 ≡ₚ m_id <$> select_where hit (db_messages (w_db w))) as Hdel.
  { rewrite Hids, sort_by_thread_perm, Hk. apply (f_equal (fmap fst)) in Hkept. rewrite <- !list_fmap_compose in Hkept.
    match goal with |- ?a ≡ₚ ?b => by assert (a = b) as -> by exact Hkept end. }
  split_and!.
  - exact Hdel.
  - rewrite Hids, sort_by_thread_perm. exact Hp.
  - rewrite Hd', Ht2, Ht, Hdb. done.
  - exists es. split; [|by rewrite Hids]. unfold events in *. by rewrite Hd', Hev2, Hev, He0, Hd.
  - rewrite Hd', Hth2, Hpt, Hdb. done.
  - eexists. split; [|rewrite Hd'; etransitivity; [exact Hdl|]; rewrite Hpd, Hdb; apply update_where_ext; intros td; apply recount_ext; congruence].
    intros t. rewrite merge_sort_Permutation. trans (t ∈ dom ann.2).
    { rewrite elem_of_dom, list_elem_of_fmap. split.
      - intros ([t' l] & -> & Hl%elem_of_map_to_list). by exists l.
      - intros [l Hl]. exists (t, l). split; [done|]. by apply elem_of_map_to_list. }
    rewrite Hdom, dom_empty_L, (left_id_L ∅ (∪)), elem_of_list_to_set, sort_by_thread_perm, Hk.
    apply (f_equal (fmap snd)) in Hkept. rewrite <- !list_fmap_compose in Hkept.
    match goal with |- _ ∈ ?a <-> _ => assert (a = m_thread_id <$> select_where hit (db_messages (w_db w))) as -> by exact Hkept end.
    rewrite list_elem_of_fmap. setoid_rewrite elem_of_select. naive_solver.
Qed.
End delete.

(** ** Who may delete *)
Lemma first_deleted_spec l :
  match first_deleted l with
  | None => l = []
  | Some r => r ∈ l /\ ((exists x, x ∈ l /\ active x = true) -> active r = true)
  end.
Proof.
  induction l as [|x l IH]; [done|]. simpl. destruct (first_deleted l) as [r|]; [|subst l].
  - destruct IH as [Hr Ha]. unfold deleted_before, active in *.
    destruct (d_deleted_at r) as [tr|] eqn:Er, (d_deleted_at x) as [tx|] eqn:Ex; [destruct (tr <? tx)| | |].
    all: (split; [try (by left); by right|]); rewrite ?Er, ?Ex; intros (y & Hy & Hact); try done.
    all: apply elem_of_cons in Hy as [->|Hy]; [by rewrite Ex in Hact|apply Ha; eauto].
  - split; [left|]. intros (y & [->|[]%not_elem_of_nil]%elem_of_cons & Hact). done.
Qed.

(** The active dialog of the deleter in the thread, with the right to delete. *)
Definition can_delete (m : MessageRow) (who : uuid) (d : DB) : Prop :=
  m_deleted_at m = None /\ authored m who = true /\
  exists td, td ∈ db_dialogs d /\ d_thread_id td = m_thread_id m /\ d_member_id td = who /\ active td = true /\
    may_delete td d = true.

Lemma deletable_spec d who m : members_ok d -> deletable (delete_target who d m) = true <-> can_delete m who d.
Proof.
  intros Hok. unfold deletable, delete_target, can_delete, dialog_of_contact. simpl.
  pose proof (first_deleted_spec (select_where (fun td => bool_decide (d_thread_id td = m_thread_id m) &&
    bool_decide (d_member_id td = who)) (db_dialogs d))) as Hf.
  assert (forall x, x ∈ select_where (fun td => bool_decide (d_thread_id td = m_thread_id m) && bool_decide (d_member_id td = who)) (db_dialogs d)
    <-> x ∈ db_dialogs d /\ d_thread_id x = m_thread_id m /\ d_member_id x = who) as Hsel.
  { intros x. by rewrite elem_of_select, andb_true_iff, !bool_decide_eq_true. }
  destruct (first_deleted _) as [td|].
  - destruct Hf as [Htd Hact]. apply Hsel in Htd as (Hin & Ht & Hm). rewrite (bool_decide_true (is_Some (Some td))) by (by exists td). simpl.
    rewrite !andb_true_iff, bool_decide_eq_true, negb_true_iff. destruct (active td) eqn:Ha; simpl.
    + split; [naive_solver|]. intros (Hl & Hau & x & Hx & Hxt & Hxm & Hxa & Hr).
      assert (d_id x = d_id td) as Hid by (by apply (mb_active d Hok); try congruence).
      unfold may_delete in *. rewrite Hid in Hr. naive_solver.
    + split; [naive_solver|]. intros (Hl & Hau & x & Hx & Hxt & Hxm & Hxa & Hr).
      assert (false = true) by (apply Hact; exists x; rewrite Hsel; done). done.
  - rewrite (bool_decide_false (is_Some None)) by (by intros []). rewrite !andb_false_r. simpl. split; [done|].
    intros (_ & _ & x & Hx & Hxt & Hxm & _ & _). exfalso. apply (not_elem_of_nil x). rewrite <- Hf. by apply Hsel.
Qed.

(** (C5) Deleting a batch.  Every id asked for is answered once, as deleted or as
    skipped, however often it was asked.  Deleted are exactly the requested
    messages that are live, were written by the deleter, and whose thread still
    has the deleter as a member with the right to delete; no other row of the
    table changes.  For each deleted message, and for nothing else, one event is
    published, in the same transaction. *)
Theorem DeleteMessages_exactly_own {E : Env} {H : ThreadTagHooks} {X : MessageEnv}
    (in_ : DeleteMessagesRequest) (resp : DeleteMessagesResponse) (w w' : World) :
  sys_wf w -> MessageActions.DeleteMessages in_ w = (OK resp, w') ->
  let who := Shared.peer_ID (dq_DeletedBy in_) in
  ds_DeletedIDs resp ++ (sk_ID <$> ds_Skipped resp) ≡ₚ remove_dups (dq_IDs in_) /\
  (forall m, m ∈ db_messages (w_db w) ->
     m_id m ∈ ds_DeletedIDs resp <-> m_id m ∈ dq_IDs in_ /\ can_delete m who (w_db w)) /\
  db_messages (w_db w') =
    update_where (fun m => bool_decide (m_id m ∈ ds_DeletedIDs resp)) (delete_row (w_now w) who) (db_messages (w_db w)) /\
  exists es, events w' = events w ++ es /\ deleted_of <$> es = Some <$> ds_DeletedIDs resp.
Proof.
  intros [Hwf _] Hr who. pose proof (ms_ids _ (db_msgs _ Hwf)) as Hnd.
  apply DeleteMessages_run in Hr as (Hdel & Hans & Hms & Hev & _); [|done]. fold who in Hdel, Hms.
  assert (forall m, m ∈ db_messages (w_db w) -> m_id m ∈ ds_DeletedIDs resp <-> targets (dq_IDs in_) who (w_db w) m = true) as Hin.
  { intros m Hm. rewrite Hdel, list_elem_of_fmap. setoid_rewrite elem_of_select. split; [|naive_solver].
    intros (x & Hid & Hx & Ht). by rewrite (NoDup_fmap_inj m_id (db_messages (w_db w)) m x). }
  split_and!; [done| | |done].
  - intros m Hm. rewrite Hin by done. unfold targets. rewrite andb_true_iff, bool_decide_eq_true.
    by rewrite deletable_spec by apply Hwf.
  - rewrite Hms. apply list_fmap_ext. intros i m Hm%list_elem_of_lookup_2. apply Hin in Hm.
    case_bool_decide as Hb; destruct (targets _ _ _ m); naive_solver.
Qed.

(** ** Witness: one own message, asked twice, and one that does not exist *)
Definition retract : DeleteMessagesRequest := MkDeleteMessages ann [1005%N; 1005%N; 999%N] 7.

Lemma DeleteMessages_exactly_own_witness :
  exists resp w', MessageActions.DeleteMessages retract chat = (OK resp, w') /\
    ds_DeletedIDs resp = [1005%N] /\ ds_Skipped resp = [MkSkip 999 MessageSkipNotFound] /\
    ds_DeletedIDs resp ++ (sk_ID <$> ds_Skipped resp) ≡ₚ remove_dups (dq_IDs retract) /\
    db_messages (w_db w') = update_where (fun m => bool_decide (m_id m ∈ ds_DeletedIDs resp)) (delete_row 5000 300) (db_messages (w_db chat)).
Proof.
  assert (exists resp, ds_DeletedIDs resp = [1005%N] /\ ds_Skipped resp = [MkSkip 999 MessageSkipNotFound] /\
    MessageActions.DeleteMessages retract chat = (OK resp, snd (MessageActions.DeleteMessages retract chat))) as (resp & H1 & H2 & Hr).
  { eexists. split; [|split]; [| |vm_compute; reflexivity]; reflexivity. }
  exists resp. eexists. split; [exact Hr|]. split; [done|]. split; [done|].
  destruct (DeleteMessages_exactly_own retract resp chat _ chat_wf Hr) as (Ha & _ & Hm & _). by split.
Defined.
