(* ===== verification/UnreadRules.v ===== *)
(** * UnreadRules: the unread counters are exact

    A dialog stores its number of unread messages.  Sending, reading and
    deleting maintain it incrementally or by recounting; here all three keep it
    equal to the count over the messages. *)
From S2P Require Import Prelude Domain Events Message World BotControlStore DialogStore MessageStatus MessageStore.
From S2P Require Import ThreadStore TagService MediaProcessor MessageService MessageActions.
From S2P Require Import Samples Invariant MessageFacts StatusRules DeleteRules System.
#[local] Open Scope Z_scope.

(** A counter is exact when it is the number of content messages of others past
    the read horizon that are not deleted. *)
Definition exact_counter (d : DB) (td : DialogRow) : Prop :=
  d_unread_count td = unread_after (d_thread_id td) (d_member_id td) (read_seq td) d.
Definition counters_exact (d : DB) : Prop := forall td, td ∈ db_dialogs d -> active td = true -> exact_counter d td.

Lemma recount_exact d td : exact_counter d (recount d td).
Proof. done. Qed.

(** Messages of other threads do not count. *)
Lemma unread_other_thread P at_ who tid member s d :
  (forall m, m ∈ db_messages d -> P m = true -> m_thread_id m <> tid) ->
  unread_after tid member s (on_messages (update_where P (delete_row at_ who)) d) = unread_after tid member s d.
Proof.
  intros HP. unfold unread_after, select_where. simpl. do 2 f_equal. revert HP. generalize (db_messages d) as l.
  induction l as [|m l IH]; intros HP; [done|]. unfold update_where in *. rewrite fmap_cons. simpl.
  assert (List.filter _ _ = List.filter _ _) as Hl by (apply IH; intros; apply HP; [by right|done]).
  destruct (P m) eqn:E; [|rewrite Hl; done]. simpl.
  rewrite (bool_decide_false (m_thread_id m = tid)) by (apply HP; [left|done]). simpl. done.
Qed.

(** No member has read past the newest message of the thread. *)
Definition horizons_within (d : DB) : Prop :=
  forall td t, td ∈ db_dialogs d -> find_thread (d_thread_id td) d = Some t -> read_seq td <= t_last_seq t.

Definition counters_ok (d : DB) : Prop := counters_exact d /\ horizons_within d.

(** ** Reading *)
Lemma read_point_within d receipts tid member s t : 0 <= t_last_seq t ->
  read_point d receipts tid member = Some s -> find_thread tid d = Some t -> s <= t_last_seq t.
Proof.
  intros Hpos. unfold read_point, read_points. set (rs := resolve_read d <$> dedupReadReceipts receipts).
  destruct (find_first _ _) as [r|] eqn:Hf; [|done]. apply find_first_Some in Hf as [Hr Hm]. simpl. intros Hs Ht.
  apply of_reader_spec in Hm as [Htid _].
  apply list_elem_of_fmap in Hr as (r0 & -> & Hr0). pose proof (rd_boundary_seq _ _ Hs) as ->.
  assert (rd_ThreadID r0 = tid) as Ht0.
  { pose proof (cap_read_reader d (rd_ThreadID <$> select_where (fun r => 0 <? rd_UpToSeq r) rs) r0) as Hk.
    unfold reader in Hk. congruence. }
  revert Hs. unfold cap_read. case_bool_decide as Hb.
  - unfold clamp_seq. rewrite Ht0, Ht. destruct (Z.ltb_spec (t_last_seq t) (rd_UpToSeq r0)); simpl; lia.
  - intros Hs. destruct (Z.ltb_spec 0 (rd_UpToSeq r0)) as [Hp|Hp].
    + exfalso. apply Hb. apply list_elem_of_fmap_2. apply elem_of_select. split; [done|]. by apply Z.ltb_lt.
    + lia.
Qed.

Lemma read_to_exact d d' p td : db_messages d' = db_messages d -> exact_counter d td -> exact_counter d' (read_to d p td).
Proof.
  intros Hm He. unfold exact_counter in *. unfold unread_after in *. rewrite Hm. unfold read_to.
  destruct p as [s|]; [|done]. destruct (Z.ltb_spec (read_seq td) s); [|done].
  unfold read_up_to, read_seq, unread_after in *. destruct (d_last_read_seq td) as [l|]; simpl in *; [|done].
  by destruct (l <? s).
Qed.

Lemma read_keeps_counters {E : Env} receipts changes w w' : db_wf (w_db w) -> counters_ok (w_db w) ->
  MarkRead receipts w = (OK changes, w') -> counters_ok (w_db w').
Proof.
  intros Hwf [He Hh] Hr. apply MarkRead_run in Hr as (Hd & _ & Hm & Ht); [|done]. split.
  - intros td Htd Ha. rewrite Hd in Htd. apply list_elem_of_fmap in Htd as (x & -> & Hx).
    destruct (active x) eqn:Hax; [|by rewrite Hax in Ha]. apply read_to_exact; [done|by apply He].
  - intros td t Htd Hft. unfold find_thread in Hft. rewrite Ht in Hft. rewrite Hd in Htd.
    apply list_elem_of_fmap in Htd as (x & -> & Hx). destruct (active x); [|by apply Hh].
    destruct (read_to_id (w_db w) (read_point (w_db w) receipts (d_thread_id x) (d_member_id x)) x) as (_ & Hid & _).
    rewrite Hid in Hft. rewrite read_to_raise. pose proof (Hh x t Hx Hft).
    unfold raise. destruct (read_point _ _ _ _) as [s|] eqn:Hp; [|done].
    apply find_first_Some in Hft as Hin. destruct Hin as [Hin _].
    pose proof (read_point_within _ _ _ _ _ _ (ms_counter _ (db_msgs _ Hwf) t Hin) Hp Hft). lia.
Qed.

(** ** Deleting *)
Lemma delete_keeps_counters {E : Env} {H : ThreadTagHooks} {X : MessageEnv} in_ resp w w' :
  db_wf (w_db w) -> counters_ok (w_db w) ->
  MessageActions.DeleteMessages in_ w = (OK resp, w') -> counters_ok (w_db w').
Proof.
  intros Hwf [He Hh] Hr. pose proof (ms_ids _ (db_msgs _ Hwf)) as Hnd.
  apply DeleteMessages_run in Hr as (_ & _ & Hms & _ & Hth & ts & Hts & Hd); [|done]. split.
  - intros td Htd Ha. rewrite Hd in Htd. apply elem_of_update in Htd as (x & Hx & ->).
    destruct (bool_decide_reflect (d_thread_id x ∈ ts)) as [Hin|Hin]; simpl in Ha |- *.
    + destruct (active x) eqn:Hax; [done|by rewrite Hax in Ha].
    + unfold exact_counter. rewrite (He x Hx Ha). symmetry.
      etransitivity; [|apply (unread_other_thread (targets (dq_IDs in_) (Shared.peer_ID (dq_DeletedBy in_)) (w_db w))
        (w_now w) (Shared.peer_ID (dq_DeletedBy in_)))].
      * unfold unread_after. by rewrite Hms.
      * intros m Hm Hp Ht. apply Hin, Hts. by exists m.
  - intros td t Htd Hft. unfold find_thread in Hft. rewrite Hth in Hft. rewrite Hd in Htd.
    apply elem_of_update in Htd as (x & Hx & ->). destruct (bool_decide _ && _); by apply (Hh x).
Qed.

(** ** Sending *)

(** The list of members a send works with names the contacts in the thread. *)
Definition lists_members (members : list ThreadDialog) (tid : uuid) (d : DB) : Prop :=
  forall td, td ∈ db_dialogs d -> active td = true -> d_thread_id td = tid -> d_member_id td ∈ td_ContactID <$> members.

(** Saving a text and counting it as unread. *)
Definition save_and_count {E : Env} (msg : Message) (members : list ThreadDialog) : SM Message :=
  saved ← SaveMessage msg;
  InsertSent (Some (msg_sent (Some members) "" None saved)) (RecipientIDs (msg_sent (Some members) "" None saved));;
  mret saved.

Lemma unread_insert r tid member s d : m_deleted_at r = None -> m_type r <> MessageTypeSystem ->
  unread_after tid member s (insert_message r d) = unread_after tid member s d +
    (if bool_decide (m_thread_id r = tid) && negb (bool_decide (m_sender_id r = member)) && (s <? m_seq r) then 1 else 0).
Proof.
  intros Hd Ht. unfold unread_after, insert_message, select_where. simpl. rewrite List.filter_app, length_app. simpl.
  unfold live. rewrite Hd, (bool_decide_false (m_type r = _)) by done. simpl. rewrite !andb_true_r.
  destruct (_ && _); simpl; lia.
Qed.

Lemma find_insert tid r d : find_thread tid (insert_message r d) =
  (fun t => if bool_decide (t_id t = m_thread_id r) then bump_seq t else t) <$> find_thread tid d.
Proof.
  change (find_thread tid (insert_message r d)) with (find_thread tid (update_thread (m_thread_id r) bump_seq d)).
  by rewrite find_thread_update.
Qed.

Lemma SaveMessage_run {E : Env} msg w saved w' : SaveMessage msg w = (OK saved, w') ->
  exists t member, find_thread (msg_ThreadID msg) (w_db w) = Some t /\ msg_Member msg = Some member /\
    let r := content_row (w_next w) (w_now w) (t_last_seq t + 1) msg (td_ID member) (text_source msg) None None None in
    saved = scanned r (m_member_id r) [] [] (msg_BotControllerMemberID msg) /\ w_db w' = insert_message r (w_db w).
Proof.
  unfold SaveMessage, insert_content. intros Hr. step_ok Hr. injection Hs as _ <-. step_ok Hr.
  destruct (msg_Member msg) as [member|]; [|done]. step_ok Hs. apply statement_as_ok in Hs0 as (-> & _).
  run in Hs. simpl in Hs. destruct (find_thread _ _) as [t|] eqn:Ht; [|done].
  destruct (negb _); [done|]. run in Hs. simpl in Hs. run in Hs. injection Hs as <- <-. run in Hr. injection Hr as <- <-.
  exists t, member. done.
Qed.

Lemma InsertSent_run {E : Env} msg ids w u w' : InsertSent (Some msg) ids w = (OK u, w') ->
  msg_Type msg <> MessageTypeSystem ->
  w_db w' = on_dialogs (update_where (bump_hits (msg_ThreadID msg) ids) bump_unread) (w_db w).
Proof.
  unfold InsertSent. intros Hr Ht. destruct (bool_decide_reflect (ids = [])) as [->|Hne].
  { injection Hr as _ <-. destruct (w_db w). unfold on_dialogs. simpl. f_equal.
    rewrite <- (list_fmap_id db_dialogs) at 1. apply list_fmap_ext. intros i x _. unfold bump_hits.
    by rewrite (bool_decide_false (d_member_id x ∈ [])), andb_false_r by (apply not_elem_of_nil). }
  rewrite decide_False in Hr by done. step_ok Hr. apply statement_as_ok in Hs as (-> & _). run in Hr. simpl in Hr.
  destruct (existsb _ _); [done|]. run in Hr. by injection Hr as <- <-.
Qed.

Lemma send_keeps_counters {E : Env} msg members saved w w' : db_wf (w_db w) -> counters_ok (w_db w) ->
  msg_Type msg <> MessageTypeSystem -> lists_members members (msg_ThreadID msg) (w_db w) ->
  save_and_count msg members w = (OK saved, w') -> counters_ok (w_db w').
Proof.
  intros Hwf [He Hh] Hty Hmem Hr. unfold save_and_count in Hr. step_ok Hr.
  apply SaveMessage_run in Hs as (t & member & Ht & _ & -> & Hd). set (r := content_row _ _ _ _ _ _ _ _ _) in *.
  step_ok Hr. injection Hr as _ <-. apply InsertSent_run in Hs; [|done]. rewrite Hd in Hs. simpl in Hs.
  set (ids := RecipientIDs _) in *.
  assert (forall td, td ∈ db_dialogs (w_db w) -> active td = true -> d_thread_id td = msg_ThreadID msg ->
    d_member_id td ∈ ids <-> d_member_id td <> m_sender_id r) as Hids.
  { intros td Htd Ha Heq. unfold ids, RecipientIDs, Recipients. rewrite list_elem_of_fmap. simpl. split.
    - intros (x & Hx & Hin). apply elem_of_select in Hin as [_ Hin]. apply negb_true_iff, bool_decide_eq_false in Hin.
      rewrite Hx. exact Hin.
    - intros Hne. pose proof (Hmem td Htd Ha Heq) as (x & Hx & Hin)%list_elem_of_fmap. exists x. split; [done|].
      apply elem_of_select. split; [done|]. apply negb_true_iff, bool_decide_eq_false. rewrite <- Hx. exact Hne. }
  assert (forall td t', td ∈ db_dialogs (w_db w) -> find_thread (d_thread_id td) (insert_message r (w_db w)) = Some t' ->
    read_seq td <= t_last_seq t' /\ (d_thread_id td = msg_ThreadID msg -> read_seq td < m_seq r)) as Hseq.
  { intros td t' Htd Hft. rewrite find_insert in Hft. destruct (find_thread (d_thread_id td) (w_db w)) as [t0|] eqn:Ht0; [|done].
    simpl in Hft. injection Hft as <-. specialize (Hh td t0 Htd Ht0). split; [case_bool_decide; simpl; lia|].
    intros Heq. rewrite Heq, Ht in Ht0. injection Ht0 as <-. simpl. lia. }
  split.
  - intros td Htd Ha. rewrite Hs in Htd. apply elem_of_update in Htd as (x & Hx & ->).
    assert (active x = true) as Hax by (by destruct (bump_hits _ _ x)).
    destruct (mb_thread _ (db_members _ Hwf) x Hx) as [t0 Ht0].
    assert (exists t', find_thread (d_thread_id x) (insert_message r (w_db w)) = Some t') as [t' Ht'].
    { rewrite find_insert, Ht0. by eexists. }
    destruct (Hseq x t' Hx Ht') as [_ Hlt]. specialize (He x Hx Hax). unfold exact_counter in *.
    assert (unread_after (d_thread_id x) (d_member_id x) (read_seq x) (w_db w1) =
      unread_after (d_thread_id x) (d_member_id x) (read_seq x) (insert_message r (w_db w))) as Hu
      by (unfold unread_after; by rewrite Hs).
    rewrite unread_insert in Hu by done. unfold bump_hits.
    destruct (bool_decide_reflect (d_thread_id x = msg_ThreadID msg)) as [Heq|Hne].
    + rewrite Hax, andb_true_r. simpl. rewrite bool_decide_true in Hu by (by rewrite Heq).
      replace (read_seq x <? m_seq r) with true in Hu by (symmetry; apply Z.ltb_lt; by apply Hlt).
      specialize (Hids x Hx Hax Heq).
      revert Hu. destruct (bool_decide_reflect (m_sender_id r = d_member_id x)) as [Hsx|Hsx]; intros Hu.
      * rewrite bool_decide_false by (rewrite Hids; congruence). simpl in *. lia.
      * rewrite bool_decide_true by (apply Hids; congruence).
        change (d_unread_count x + 1 = unread_after (d_thread_id x) (d_member_id x) (read_seq x) (w_db w1)). simpl in Hu. lia.
    + simpl. rewrite bool_decide_false in Hu by (simpl; congruence). simpl in Hu. lia.
  - intros td t' Htd Hft. rewrite Hs in Htd. apply elem_of_update in Htd as (x & Hx & ->).
    assert (find_thread (d_thread_id x) (insert_message r (w_db w)) = Some t') as Hft'.
    { rewrite <- Hft, Hs. by destruct (bump_hits _ _ x). }
    destruct (Hseq x t' Hx Hft') as [Hle _]. by destruct (bump_hits _ _ x).
Qed.


(** ** Witness: the conversation of two unread texts, one of them deleted *)
Lemma chat_counters : counters_ok (w_db chat).
Proof.
  assert (Forall (fun td => active td = true -> exact_counter (w_db chat) td) (db_dialogs (w_db chat))) as H1
    by (unfold exact_counter; apply (bool_decide_unpack _); vm_compute; exact I).
  assert (Forall (fun td => forall t, find_thread (d_thread_id td) (w_db chat) = Some t -> read_seq td <= t_last_seq t)
    (db_dialogs (w_db chat))) as H2.
  { apply Forall_forall. intros td Htd t Ht. apply find_first_Some in Ht as [Ht _]. trans 0.
    - assert (Forall (fun td => read_seq td <= 0) (db_dialogs (w_db chat))) as H2
        by (apply (bool_decide_unpack _); vm_compute; exact I).
      rewrite Forall_forall in H2. exact (H2 td Htd).
    - apply (ms_counter _ (db_msgs _ (proj1 chat_wf)) t Ht). }
  rewrite Forall_forall in H1, H2. split; [exact H1|]. intros td t Htd. exact (H2 td Htd t).
Qed.

