(* ===== verification/SendRules.v ===== *)
(** * SendRules: theorems on sending a text

    What a successful send leaves behind: one row, numbered next in the direct
    thread of the two peers, its one created event, published after those of
    the tags and statuses it touched, and the copy for the providers. *)
From S2P Require Import Prelude Domain Events Message World Text BotControlStore DialogStore ThreadStore Outbox TagService.
From S2P Require Import References MessageStatus StatusService MessageStore ExternalStore VariableStore.
From S2P Require Import ControlEvents BotFlow DirectThread MediaProcessor Commands MessageService MessageActions.
From S2P Require Import Samples Invariant Safety ServiceSafety MessageFacts System DirectRules UnreadRules.
#[local] Open Scope Z_scope.

(** ** Making sure of the thread writes no message *)
Definition msgs (w : World) : list MessageRow := db_messages (w_db w).
#[export] Instance msgs_quiet : Quiet msgs := ltac:(by split).

Section ensure.
Context {E : Env}.

Lemma msgs_ensure_body th bot dom w : msgs (snd (ensure_body th bot dom w)) = msgs w.
Proof.
  unfold ensure_body. assert (preserves msgs (ensure_point th bot)) as H1.
  { unfold ensure_point, GetStack, SetController, Push. still. }
  assert (forall th', preserves msgs (ensure_publish th' bot dom)) as H2.
  { intros th'. apply (quiet_publishBotControlGranted msgs). }
  specialize (H1 w). destruct (ensure_point th bot w) as [[th'|e] w1]; [|done]. specialize (H2 th' w1).
  simpl in *. destruct (ensure_publish th' bot dom w1) as [r w2]. simpl in *. congruence.
Qed.

Lemma msgs_assigning {A L} (var : L) (fn : World -> result A * L * World) w :
  (forall w, msgs (snd (fn w)) = msgs w) -> msgs (snd (WithinTransactionAssigning var fn w)) = msgs w.
Proof.
  intros Hfn. unfold WithinTransactionAssigning. destruct (w_in_tx w); [apply Hfn|].
  destruct (env_fault _); [done|]. specialize (Hfn (set_txstate (w_tx w + 1) true false (set_tick false w))).
  destruct (fn _) as [[[a|e] l] w1]; simpl in *; [|done]. by destruct (_ || _).
Qed.

Lemma msgs_within {A} (fn : SM A) : preserves msgs fn -> preserves msgs (WithinTransaction fn).
Proof.
  intros Hfn w. unfold WithinTransaction. destruct (w_in_tx w); [apply Hfn|].
  destruct (env_fault _); [done|]. specialize (Hfn (set_txstate (w_tx w + 1) true false (set_tick false w))).
  destruct (fn _) as [[a|e] w1]; simpl in *; [|done]. by destruct (_ || _).
Qed.

Lemma msgs_existing req th : preserves msgs (ensure_existing req th).
Proof.
  intros w. unfold ensure_existing. destruct (_ && _); [|done]. unfold ensureBotControl.
  destruct (find_first td_IsBot _) as [bot|]; [|done]. destruct (hasOperator _); [done|].
  pose proof (msgs_assigning th (ensure_body th bot (en_DomainID req)) w (msgs_ensure_body th bot (en_DomainID req))) as Hm.
  destruct (WithinTransactionAssigning _ _ _) as [[r th'] w']. exact Hm.
Qed.

Lemma msgs_refresh ref : preserves msgs (refreshSource ref).
Proof. unfold refreshSource, UpsertSource, RememberSource. still. Qed.

Lemma msgs_create req b : preserves msgs (create_body req b).
Proof.
  unfold create_body, createDirectThread, publishThreadCreatedEvents, initializeDirectThreadDialogs,
    DialogStore.Create, ThreadStore.Create, Push, SetController.
  pose proof (quiet_Publish msgs). pose proof (quiet_publishBotControlGranted msgs). still.
Qed.

Lemma msgs_Ensure req : preserves msgs (EnsureDirectThread req).
Proof.
  unfold EnsureDirectThread, ThreadStore.ResolveThread. pose proof (msgs_refresh). pose proof (msgs_existing).
  apply preserves_bind; [still|]. intros [th|].
  - apply preserves_bind; [apply msgs_existing|]. intros th'. apply preserves_bind; [apply msgs_refresh|done].
  - unfold orchestrateDirectThreadCreation. apply preserves_bind; [done|]. intros _.
    apply preserves_bind; [apply msgs_refresh|]. intros _. apply msgs_within, msgs_create.
Qed.
End ensure.

(** ** Saving *)
Section save.
Context {E : Env} {X : MessageEnv}.

(** The row of a text, given its number. *)
Definition text_row (w : World) (seq : Z) (msg : Message) (member : ThreadDialog) : MessageRow :=
  content_row (w_next w) (w_now w) seq msg (td_ID member) (text_source msg) None None None.

Lemma save_text_run in_ thread msg w saved w' : save_text in_ thread msg w = (OK saved, w') ->
  exists t member, find_thread (msg_ThreadID msg) (w_db w) = Some t /\ msg_Member msg = Some member /\
    let r := text_row w (t_last_seq t + 1) msg member in
    content w' = content (set_db (insert_message r (w_db w)) w) /\ msg_ID saved = m_id r /\
    exists side p, events w' = events w ++ side ++ [EvMessageCreated p] /\ Forall side_event side /\
      mcr_MessageID p = m_id r /\ mcr_ThreadID p = m_thread_id r /\ mcr_Body p = m_body r.
Proof.
  unfold save_text. intros Hr. step_ok Hr. apply SaveMessage_run in Hs as (t & member & Ht & Hm & Hsaved & Hd).
  exists t, member. split; [done|]. split; [done|]. fold (text_row w (t_last_seq t + 1) msg member) in Hsaved, Hd.
  set (r := text_row w (t_last_seq t + 1) msg member) in *. subst a. cbv zeta in Hr.
  step_ok Hr. pose proof (preserves_ok content _ _ _ _ (inbound_leaves content _ _ _ ltac:(done) ltac:(done) ltac:(done) ltac:(done)) Hs) as C1.
  pose proof (preserves_ok events _ _ _ _ (inbound_leaves events _ _ _ ltac:(done) ltac:(done) ltac:(done) ltac:(done)) Hs) as E1.
  step_ok Hr. simpl in Hs0. injection Hs0 as _ <-.
  step_ok Hr. pose proof (preserves_ok content _ _ _ _ (insertSent_content _) Hs0) as C2.
  lazymatch type of Hs0 with insertSentStatuses ?m ?v = _ =>
    destruct (insertSent_events m v) as (side & E2 & Hside) end. rewrite Hs0 in E2. simpl in E2.
  pose proof Hr as Hr'. apply dispatch_run in Hr as (-> & E3 & _ & _).
  pose proof (preserves_ok content _ _ _ _ (quiet_dispatch content _) Hr') as C3.
  split; [|split; [done|]].
  - rewrite C3, C2, C1. unfold content. by rewrite Hd.
  - eexists side, _. split; [|split; [exact Hside|]].
    + rewrite E3, E2, E1. unfold events. rewrite Hd. simpl. rewrite <- app_assoc. reflexivity.
    + done.
Qed.
End save.

Lemma reply_reads {E : Env} id x from t dom :
  preserves (fun w => (w_db w, w_sent w, w_next w)) (resolveReply id x from t dom).
Proof.
  unfold resolveReply, resolveReplyPreview, resolveExternalReply, LookupMessageID, GetReplyPreview. still.
Qed.

Lemma save_text_sends {E : Env} {X : MessageEnv} in_ th msg : preserves w_sent (save_text in_ th msg).
Proof.
  unfold save_text. apply preserves_bind.
  { unfold SaveMessage, insert_content. still. }
  intros saved. cbv zeta. apply preserves_bind; [by apply inbound_leaves|]. intros _.
  apply preserves_bind; [unfold seedThreadVariables, VariableStore.Set_; still|]. intros _.
  apply preserves_bind; [|intros _; apply quiet_dispatch; by split].
  unfold insertSentStatuses, dispatchStatusChangeEvents, statusParticipants. assert (Quiet w_sent) as Q by (by split).
  apply preserves_bind; [by apply InsertSent_leaves|]. intros _.
  apply preserves_bind; [by apply OnMessage_quiet|]. intros _. destruct (bot_receipts _) as [|r rs]; [done|].
  apply preserves_bind; [apply preserves_map_err; by apply MarkDelivered_leaves|]. intros cs.
  pose proof (quiet_Publish w_sent). pose proof (quiet_GetQuickView w_sent). still.
Qed.

(** Who sends: the contact spoken for, if one is given, with the peer as origin. *)
Definition text_sender (in_ : SendTextRequest) : uuid :=
  match sx_SendAs in_ with
  | Some s => if decide (s = uuid_Nil) then Shared.peer_ID (sx_From in_) else s
  | None => Shared.peer_ID (sx_From in_)
  end.

Lemma text_fields {E : Env} in_ th reply :
  let m := text_message in_ th reply in
  msg_ThreadID m = thr_ID th /\ msg_Body m = sx_Body in_ /\ msg_Type m = MessageTypeText /\
  rs_sender (text_source m) = text_sender in_ /\ rs_reply (text_source m) = rto_MessageID <$> reply /\
  (forall member, msg_Member m = Some member -> td_ID member ∈ td_ID <$> thr_Members th).
Proof.
  unfold text_message, SetMemberFromSlice. destruct (find_first _ _) as [x|] eqn:Ef; simpl.
  all: split_and!; try done; try (unfold text_sender, GetSender, send_as; simpl;
    destruct (sx_SendAs in_) as [s|]; [by destruct (decide (s = uuid_Nil)) as [->|]; case_decide|done]).
  apply find_first_Some in Ef as [Hx _]. intros member [= <-]. simpl. by apply list_elem_of_fmap_2.
Qed.

(** (C4) A text that is sent is stored, announced and delivered once.  After a
    successful SendText of a text that is no command, in the direct thread of the
    two peers, which was found or created first: exactly one message more is
    stored, with a fresh id, the one answered, the next number of the thread,
    the text as given and the sender, or the contact it speaks for, as author;
    its created event follows the changes of tags and delivery states it caused
    and is the only created event; the providers, if there are any, are handed
    the message once. *)
Theorem SendText_stores_once {E : Env} {X : MessageEnv} (d : CommandDispatcher) (in_ : SendTextRequest)
    (resp : SendTextResponse) (w w' : World) :
  sys_wf w -> w_in_tx w = false -> lookup_command d (sx_Body in_) = None ->
  SendText d in_ w = (OK resp, w') ->
  exists th w1 t r,
    EnsureDirectThread (MkEnsure (sx_DomainID in_) (sx_From in_) (sx_To in_) (sx_SendAs in_)) w = (OK th, w1) /\
    find_thread (thr_ID th) (w_db w1) = Some t /\
    db_messages (w_db w') = db_messages (w_db w) ++ [r] /\
    m_id r = sy_ID resp /\ (m_id r ∉ m_id <$> db_messages (w_db w)) /\
    m_thread_id r = thr_ID th /\ m_seq r = t_last_seq t + 1 /\ t_last_seq <$> find_thread (thr_ID th) (w_db w') = Some (m_seq r) /\
    m_body r = sx_Body in_ /\ m_type r = MessageTypeText /\ m_sender_id r = text_sender in_ /\
    m_member_id r ∈ td_ID <$> thr_Members th /\
    (exists side p, events w' = events w1 ++ side ++ [EvMessageCreated p] /\ Forall side_event side /\
       mcr_MessageID p = m_id r /\ mcr_ThreadID p = thr_ID th /\ mcr_Body p = sx_Body in_) /\
    exists saved, w_sent w' = w_sent w1 ++ (if env_providers is Some _ then [saved] else []) /\ msg_ID saved = m_id r.
Proof.
  intros Hwf Htx Hcmd Hr. unfold SendText in Hr. destruct (SendTextGuard in_) as [[]|]; [|done].
  step_ok Hr. rename a into th, w0 into w1, Hs into Hens.
  pose proof (preserves_ok msgs _ _ _ _ (msgs_Ensure _) Hens) as Hms.
  pose proof (EnsureDirectThread_keeps false (MkEnsure (sx_DomainID in_) (sx_From in_) (sx_To in_) (sx_SendAs in_)) w Htx (or_intror Hwf)) as (Hg & _ & Ht1).
  rewrite Hens in Hg, Ht1. simpl in Hg, Ht1. rewrite Htx in Ht1.
  assert (sys_wf w1) as Hwf1 by (by apply good_outside).
  unfold Dispatch in Hr. rewrite Hcmd in Hr. run in Hr. step_ok Hr. rename a into reply, w0 into w2.
  pose proof (preserves_ok (fun w => (w_db w, w_sent w, w_next w)) _ _ _ _ (reply_reads _ _ _ _ _) Hs) as [= Hd2 Hs2 Hn2]. clear Hs.
  step_ok Hr. rename a into saved, w0 into w5. apply map_err_ok, WithinTransaction_run in Hs as (w0 & w3 & Hs & _ & Hd & Hn & _ & Hse & Hd' & _ & _ & Hse').
  pose proof (preserves_ok w_sent _ _ _ _ (save_text_sends _ _ _) Hs) as Hse0.
  apply save_text_run in Hs as (t & member & Ht & Hm & HC & Hid & side & p & He & Hside & P1 & P2 & P3).
  destruct (text_fields in_ th reply) as (F1 & F2 & F3 & F4 & _ & F5).
  set (r := text_row w0 (t_last_seq t + 1) (text_message in_ th reply) member) in *.
  rewrite F1, Hd, Hd2 in Ht. unfold content in HC. injection HC as HC1 HC2. simpl in HC1, HC2. rewrite Hd, Hd2 in HC1, HC2.
  exists th, w1, t, r. split; [exact Hens|]. split; [exact Ht|].
  assert (db_messages (w_db w5) = db_messages (w_db w) ++ [r] /\ events w5 = events w1 ++ side ++ [EvMessageCreated p] /\
    find_thread (thr_ID th) (w_db w5) = Some (bump_seq t) /\ w_sent w5 = w_sent w1) as (A1 & A2 & A3 & A4).
  { unfold msgs in Hms. unfold events in *. rewrite Hd', HC2, He, Hd, Hd2, <- Hms. split_and!; [done|done| |congruence].
    unfold find_thread. rewrite HC1. change (find_thread (thr_ID th) (insert_message r (w_db w1)) = Some (bump_seq t)).
    rewrite find_insert, Ht. simpl. apply find_thread_Some in Ht as [_ Ht]. rewrite bool_decide_true; [done|].
    by rewrite Ht, F1. }
  assert (exists w6, w_db w6 = w_db w5 /\ w_sent w6 = w_sent w5 ++ (if env_providers is Some _ then [saved] else []) /\
    (OK (MkSendTextResponse (sx_To in_) (msg_ID saved)), w6) = (OK resp, w')) as (w6 & B1 & B2 & B3).
  { unfold sendMessageToExternalProvider in Hr. destruct env_providers; run in Hr; (eexists; split; [|split; [|exact Hr]]); try done.
    by rewrite app_nil_r. }
  injection B3 as <- <-. unfold events in A2. unfold events. rewrite B1, B2, A1, A2, A3, A4.
  split_and!; try done.
  - simpl. rewrite Hn, Hn2. unfold msgs in Hms. rewrite <- Hms. by apply fresh_message_id.
  - simpl. by apply F5.
  - exists side, p. rewrite P1, P2, P3. split_and!; done.
  - exists saved. done.
Qed.

(** ** Witness: the second text of the conversation *)
Lemma SendText_stores_once_witness :
  exists resp w', SendText commands (text_of "still there?") chat = (OK resp, w') /\
    sy_ID resp = 1007%N /\ (m_seq <$> db_messages (w_db w')) = [1; 2; 3] /\
    exists r, db_messages (w_db w') = db_messages (w_db chat) ++ [r] /\ m_body r = "still there?" /\ m_sender_id r = 300%N.
Proof.
  assert (exists resp, SendText commands (text_of "still there?") chat =
    (OK resp, snd (SendText commands (text_of "still there?") chat)) /\ sy_ID resp = 1007%N) as (resp & Hr & Hid).
  { eexists. split; vm_compute; reflexivity. }
  destruct (SendText_stores_once commands (text_of "still there?") resp chat _ chat_wf eq_refl eq_refl Hr) as
    (th & w1 & t & r & _ & _ & Hm & _ & _ & _ & _ & _ & Hb & _ & Hs & _).
  exists resp. eexists. split; [exact Hr|]. split; [exact Hid|]. split; [vm_compute; reflexivity|].
  exists r. split; [exact Hm|]. split; [exact Hb|exact Hs].
Defined.
