(* ===== verification/PreviewRules.v ===== *)
(** * PreviewRules: theorems on previews

    A contact has at most one unrevoked preview of a thread, whatever the calls,
    and becoming a member spends it. *)
From S2P Require Import Prelude Domain Events Message World BotControlStore DialogStore ThreadStore Permissions.
From S2P Require Import Outbox TagService MessageStore References ControlEvents BotFlow Members PreviewStore Previews.
From S2P Require Import Samples Invariant MessageFacts System Seats MemberRules.
#[local] Open Scope Z_scope.

(** The unique index and the primary key. *)
Definition one_preview (d : DB) : Prop :=
  NoDup (pv_id <$> db_previews d) /\
  forall p q, p ∈ db_previews d -> q ∈ db_previews d -> unrevoked p = true -> unrevoked q = true ->
    pv_thread_id p = pv_thread_id q -> pv_contact_id p = pv_contact_id q -> p = q.

Definition looks (w : World) : list PreviewRow := db_previews (w_db w).
#[export] Instance looks_quiet : Quiet looks := ltac:(by split).

Lemma preview_of_spec tid c p : preview_of tid c p = true <-> pv_thread_id p = tid /\ pv_contact_id p = c.
Proof. unfold preview_of. by rewrite andb_true_iff, !bool_decide_eq_true. Qed.

Section store.
Context {E : Env}.

Lemma active_preview_spec at_ tid c dom d p : active_preview at_ tid c dom d = Some p ->
  p ∈ db_previews d /\ preview_of tid c p = true /\ preview_active at_ p = true /\ any_domain dom (pv_domain_id p) = true.
Proof.
  intros H. apply max_by_elem in H as [Hp Hc]%elem_of_select. apply andb_true_iff in Hc as [Hc ?].
  apply andb_true_iff in Hc as [??]. done.
Qed.

Lemma Revoke_run id reason w r w' : Revoke id reason w = (OK r, w') ->
  w_db w' = on_previews (update_where (fun p => bool_decide (pv_id p = id) && unrevoked p) (revoke_row (w_now w) reason)) (w_db w) /\
  r = (if existsb (fun p => bool_decide (pv_id p = id) && unrevoked p) (db_previews (w_db w)) then Some tt else None).
Proof.
  unfold Revoke. intros Hr. step_ok Hr. apply statement_as_ok in Hs as (-> & _). run in Hr. by injection Hr as <- <-.
Qed.

(** Revoking keeps the index, and leaves no unrevoked row under the id. *)
Lemma revoke_keeps id reason at_ d : one_preview d ->
  one_preview (on_previews (update_where (fun p => bool_decide (pv_id p = id) && unrevoked p) (revoke_row at_ reason)) d).
Proof.
  intros [Hnd Hu]. split; simpl; [by rewrite update_where_proj|].
  intros p q (p0 & Hp & ->)%elem_of_update (q0 & Hq & ->)%elem_of_update.
  destruct (bool_decide _ && unrevoked p0); [done|]. destruct (bool_decide _ && unrevoked q0); [done|]. by apply Hu.
Qed.
End store.

(** ** Giving and removing *)
Section service.
Context {E : Env} {H : ThreadTagHooks}.

Definition fresh_previews (w : World) : Prop := forall p, p ∈ db_previews (w_db w) -> (pv_id p < w_next w)%N.

Lemma expire_keeps at_ tid c d : one_preview d -> one_preview (expire_sql at_ tid c d).
Proof.
  intros [Hnd Hu]. split; simpl; [by rewrite update_where_proj|].
  intros p q (p0 & Hp & ->)%elem_of_update (q0 & Hq & ->)%elem_of_update.
  destruct (_ && (pv_expires_at p0 <=? at_)); [done|]. destruct (_ && (pv_expires_at q0 <=? at_)); [done|]. by apply Hu.
Qed.

Lemma Upsert_keeps p ttl w r w' : Upsert p ttl w = (OK r, w') -> one_preview (w_db w) -> fresh_previews w ->
  one_preview (w_db w') /\ r ∈ db_previews (w_db w') /\ unrevoked r = true /\
  pv_thread_id r = pv_thread_id p /\ pv_contact_id r = pv_contact_id p /\
  pv_expires_at r = w_now w + ttl * 1000000 /\ w_now w < pv_expires_at r.
Proof.
  unfold Upsert. cbv zeta. intros Hr Ho Hf. step_ok Hr. apply statement_as_ok in Hs as (-> & _). run in Hr. simpl in Hr.
  step_ok Hr. apply statement_as_ok in Hs as (-> & _). run in Hr. simpl in Hr.
  apply (expire_keeps (w_now w) (pv_thread_id p) (pv_contact_id p)) in Ho.
  set (d1 := expire_sql (w_now w) (pv_thread_id p) (pv_contact_id p) (w_db w)) in *.
  destruct (Z.leb_spec (w_now w + ttl * 1000000) (w_now w)) as [Hle|Hgt]; [done|].
  destruct (preview_conflict _ _ d1) as [q|] eqn:Hq.
  - run in Hr. injection Hr as <- <-. apply find_first_Some in Hq as [Hin Hc]. apply andb_true_iff in Hc as [Hc Hun].
    apply preview_of_spec in Hc as [Ht Hcon]. destruct Ho as [Hnd Hu].
    split; [split; simpl; [by rewrite update_where_proj|]|].
    + intros x y (x0 & Hx & ->)%elem_of_update (y0 & Hy & ->)%elem_of_update Hux Huy Htx Hcx.
      assert (x0 = y0) as ->; [|done].
      apply Hu; try done; destruct (bool_decide (pv_id x0 = pv_id q)), (bool_decide (pv_id y0 = pv_id q)); done.
    + simpl. split; [|split_and!; (done || lia)]. apply elem_of_update. exists q. split; [done|]. by rewrite bool_decide_true.
  - destruct (thread_in_domain _ _ _); [|done]. run in Hr. simpl in Hr. run in Hr. injection Hr as <- <-. simpl.
    destruct Ho as [Hnd Hu]. unfold preview_conflict in Hq. rewrite find_first_None in Hq.
    split; [split; simpl|].
    + rewrite fmap_app. apply NoDup_app. split; [done|]. split; [|apply NoDup_singleton].
      intros i Hi Hn. simpl in Hn. apply list_elem_of_singleton in Hn as ->.
      apply list_elem_of_fmap in Hi as (x & Hx & (x0 & Hx0 & ->)%elem_of_update). specialize (Hf x0 Hx0).
      destruct (_ && _ && _); simpl in Hx; lia.
    + assert (forall x, x ∈ db_previews d1 -> unrevoked x = true -> pv_thread_id x = pv_thread_id p ->
        pv_contact_id x = pv_contact_id p -> False) as Hno.
      { intros x Hx Hux Htx Hcx. specialize (Hq x Hx). rewrite Hux, andb_true_r in Hq.
        assert (preview_of (pv_thread_id p) (pv_contact_id p) x = true) by (by apply preview_of_spec). congruence. }
      intros x y [Hx|Hx%list_elem_of_singleton]%elem_of_app [Hy|Hy%list_elem_of_singleton]%elem_of_app Hux Huy Htx Hcx; subst; simpl in *.
      * by apply Hu.
      * exfalso. eapply (Hno x); done.
      * exfalso. by eapply (Hno y).
      * done.
    + split; [apply elem_of_app; right; left|]. split_and!; (done || lia).
Qed.

(** ** Spending *)
Lemma spend_run req w u w' : spend_preview req w = (OK u, w') -> one_preview (w_db w) ->
  (exists p, p ∈ db_previews (w_db w) /\ preview_of (up_ThreadID req) (up_ContactID req) p = true /\
             preview_active (w_now w) p = true) /\
  one_preview (w_db w') /\
  (forall p, p ∈ db_previews (w_db w') -> preview_of (up_ThreadID req) (up_ContactID req) p = true -> unrevoked p = false) /\
  (forall p, preview_of (up_ThreadID req) (up_ContactID req) p = false -> p ∈ db_previews (w_db w') <-> p ∈ db_previews (w_db w)).
Proof.
  unfold spend_preview, GetActiveForUpdate. intros Hr Ho. step_ok Hr. step_ok Hs. apply statement_as_ok in Hs0 as (-> & _).
  run in Hs. injection Hs as <- <-. simpl in Hr. destruct (active_preview _ _ _ _ _) as [p|] eqn:Hp; [|done].
  apply active_preview_spec in Hp as (Hin & Hof & Hact & _).
  step_ok Hr. apply Revoke_run in Hs as [Hd Hres]. destruct a; [|done]. run in Hr. injection Hr as <- <-. simpl in Hd.
  split; [by exists p|]. rewrite Hd. split; [by apply revoke_keeps|]. destruct Ho as [Hnd Hu].
  assert (unrevoked p = true) as Hpu by (unfold preview_active in Hact; by apply andb_true_iff in Hact as [? _]).
  apply preview_of_spec in Hof as [Ht Hc]. split; simpl.
  - intros x (y & Hy & ->)%elem_of_update Hx. destruct (bool_decide_reflect (pv_id y = pv_id p)) as [Hid|Hid]; simpl in *.
    + destruct (unrevoked y) eqn:Hyu; [done|by rewrite Hyu].
    + apply not_true_iff_false. intros Hyu. apply Hid. apply preview_of_spec in Hx as [Hxt Hxc].
      f_equal. apply Hu; congruence.
  - intros x Hx. rewrite elem_of_update. split.
    + intros (y & Hy & ->). destruct (bool_decide_reflect (pv_id y = pv_id p)) as [Hid|Hid]; simpl in *; [|done].
      destruct (unrevoked y) eqn:Hyu; [|done]. exfalso.
      assert (y = p) as -> by (by apply (NoDup_fmap_inj pv_id (db_previews (w_db w)))).
      unfold preview_of in Hx. simpl in Hx. rewrite Ht, Hc, !bool_decide_true in Hx; done.
    + intros Hy. exists x. split; [done|]. destruct (bool_decide_reflect (pv_id x = pv_id p)) as [Hid|Hid]; simpl; [|done].
      exfalso. assert (x = p) as -> by (by apply (NoDup_fmap_inj pv_id (db_previews (w_db w)))).
      unfold preview_of in Hx. rewrite Ht, Hc, !bool_decide_true in Hx; done.
Qed.
End service.

Section upgrade.
Context {E : Env}.

(** The previews, and who is in which thread. *)
Definition place_of (x : DialogRow) : uuid * uuid * uuid * bool := (d_id x, d_thread_id x, d_member_id x, active x).
Definition seen (w : World) : list PreviewRow * list (uuid * uuid * uuid * bool) :=
  (db_previews (w_db w), place_of <$> db_dialogs (w_db w)).
#[local] Instance seen_quiet : Quiet seen := ltac:(by split).

Lemma seen_adopt tid id : preserves seen (AdoptUntrackedBot tid id).
Proof.
  unfold AdoptUntrackedBot.
  repeat first [ solve [eauto with svc] | lazymatch goal with |- preserves _ (modify _) => apply preserves_modify; intros w end | frame_step ].
  apply (f_equal2 pair); [done|]. by apply (update_where_proj place_of _ (mark_bot _)).
Qed.

(** After the new dialog is stored neither previews nor places change. *)
Lemma add_body_seen req isBot i dom by_ title perms before w nm msg w' :
  add_body req isBot i dom by_ title perms before w = (OK (nm, msg), w') ->
  exists u0 w0, before (set_tick (w_aborted w) w) = (OK u0, w0) /\
    seen w' = (db_previews (w_db w0), (place_of <$> db_dialogs (w_db w0)) ++
      [(tde_ID nm, am_ThreadID req, am_NewMemberContactID req, true)]).
Proof.
  unfold add_body. intros Hr. step_ok Hr. apply Lock_ok in Hs as ->. step_ok Hr. rename a0 into u0, w0 into wb, Hs into Hbefore.
  run in Hr. step_ok Hr. assert (db_previews (w_db w0) = db_previews (w_db wb)) as Hp.
  { apply (preserves_ok looks _ _ _ _) with (2 := Hs). unfold DialogStore.Create. still. }
  apply Create_ok in Hs as (t & Ht & Ha & Hd & Hnow & Hid & _). simpl in Ht, Ha, Hd, Hid.
  pose proof (quiet_GetQuickView seen). pose proof seen_adopt.
  step_ok Hr. apply (preserves_ok seen) in Hs; [|still].
  step_ok Hr. apply (preserves_ok seen) in Hs0.
  2: { unfold sendAddMemberSystemMessage, sendThreadSystemMessage, new_string, SaveSystemMessage. still. }
  step_ok Hr. apply (preserves_ok seen) in Hs1.
  2: { pose proof (quiet_publishBotControlGranted seen). pose proof (quiet_publishBotControlReleased seen).
       destruct isBot; [|destruct (isOperator _ _); [|done]].
       - unfold push_new_bot, adoptUntrackedBot, Push, GetStack, SetController. still.
       - unfold releaseControlToAgent, ClearController. still. }
  run in Hr. injection Hr as <- <- <-. exists u0, wb. split; [done|]. rewrite Hs1, Hs0, Hs. unfold seen.
  rewrite Hp, Hd, Hid. unfold create_sql. simpl. rewrite fmap_app.
  apply find_thread_Some in Ht as [_ Ht]. by rewrite <- Ht.
Qed.
End upgrade.

Definition is_mine (req : UpgradePreviewRequest) : PreviewRow -> bool := preview_of (up_ThreadID req) (up_ContactID req).

(** What an upgrade leaves. *)
Definition spent {E : Env} (req : UpgradePreviewRequest) (id : uuid) (w w' : World) : Prop :=
  (exists p, p ∈ db_previews (w_db w) /\ is_mine req p = true /\ preview_active (w_now w) p = true) /\
  (forall p, p ∈ db_previews (w_db w') -> is_mine req p = true -> unrevoked p = false) /\
  (forall p, is_mine req p = false -> p ∈ db_previews (w_db w') <-> p ∈ db_previews (w_db w)) /\
  one_preview (w_db w') /\
  (exists x, x ∈ db_dialogs (w_db w') /\ d_id x = id /\ d_thread_id x = up_ThreadID req /\
             d_member_id x = up_ContactID req /\ active x = true).

Lemma upgrade_spends {E : Env} (req : UpgradePreviewRequest) (w w' : World) id :
  one_preview (w_db w) -> UpgradePreviewToFullMember req w = (OK id, w') -> spent req id w w'.
Proof.
  intros Ho Hr. unfold spent, is_mine. unfold UpgradePreviewToFullMember in Hr. apply M_bind_ok in Hr as (u & wv & Hv & Hr).
  unfold of_result in Hv. injection Hv as _ <-. destruct (decide _); [done|]. destruct (getDefaultPermissionsByRole _); [|done].
  pose proof (addMemberToChat_ok (E:=E) _ _ _ _ _ Hr) as (i & dom & by_ & title & perms & w0 & w1 & nm & msg & _ & _ & _ & _ & Hb & _ & Hp & Hn & -> & Hd).
  simpl in Hb. apply (add_body_seen (E:=E)) in Hb as (u0 & wb & Hs & Hseen). simpl in Hseen.
  assert (one_preview (w_db w0)) as Ho0 by (unfold one_preview; by rewrite Hp).
  apply (spend_run (E:=E)) in Hs as (Hact & Ho' & Hmine & Hother); [|done]. simpl in Hact, Hother. rewrite Hp, Hn in *.
  unfold seen in Hseen. injection Hseen as H1 H2. rewrite <- Hd in H1, H2.
  split; [done|]. rewrite H1. split; [done|]. split; [done|]. split; [unfold one_preview; by rewrite H1|].
  assert ((tde_ID nm, up_ThreadID req, up_ContactID req, true) ∈ place_of <$> db_dialogs (w_db w')) as Hx.
  { rewrite H2. apply elem_of_app. right. left. }
  apply list_elem_of_fmap in Hx as (x & Hx & Hin). unfold place_of in Hx. injection Hx as -> -> -> ->. by exists x.
Qed.

Lemma give_keeps {E : Env} req w p w' : one_preview (w_db w) -> fresh_previews w -> GivePreview req w = (OK p, w') ->
  one_preview (w_db w') /\ p ∈ db_previews (w_db w') /\ preview_of (gp_ThreadID req) (gp_ContactID req) p = true /\
  preview_active (w_now w) p = true /\ pv_expires_at p <= w_now w + maxPreviewDuration.
Proof.
  intros Ho Hf Hr. unfold GivePreview in Hr. apply M_bind_ok in Hr as (u & wv & Hv & Hr).
  unfold of_result in Hv. injection Hv as _ <-. destruct (Z.leb_spec (gp_Duration req) 0) as [|Hpos]; [done|].
  destruct (Z.ltb_spec maxPreviewDuration (gp_Duration req)) as [|Hmax]; [done|]. simpl in Hr.
  apply WithinTransaction_run in Hr as (w0 & w1 & Hr & _ & Hd & Hn & Hnow & _ & Hd' & _). unfold give_body in Hr.
  step_ok Hr. apply Lock_ok in Hs as ->. step_ok Hr. pose proof (QuickView_run _ _ _ _ Hs) as Hq.
  apply (preserves_ok (fun w => (w_next w, w_now w))) in Hs as [= Hn2 Hnow2]; [|unfold GetQuickView; still].
  simpl in Hq, Hn2, Hnow2. destruct a0; [|done].
  apply Upsert_keeps in Hr as (H1 & H2 & H3 & H4 & H5 & H6 & H7); [| |].
  - rewrite Hd'. split; [done|]. split; [done|]. simpl in *. split; [by apply preview_of_spec|].
    rewrite Hnow2, Hnow in *. split.
    + unfold preview_active. rewrite H3. by apply Z.ltb_lt.
    + rewrite H6. pose proof (Z.quot_le_mono (gp_Duration req) maxPreviewDuration 1000000). unfold maxPreviewDuration in *.
      rewrite (Z.quot_div_nonneg 3600000000000) in H by lia. change (3600000000000 / 1000000) with 3600000 in H. lia.
  - by rewrite Hq, Hd.
  - intros x Hx. rewrite Hn2, Hn. apply Hf. by rewrite <- Hd, <- Hq.
Qed.

Lemma remove_keeps {E : Env} req w u w' : one_preview (w_db w) -> RemoveFromPreview req w = (OK u, w') ->
  one_preview (w_db w') /\
  forall p, p ∈ db_previews (w_db w') -> preview_of (rp_ThreadID req) (rp_ContactID req) p = true ->
    any_domain (rp_DomainID req) (pv_domain_id p) = true -> preview_active (w_now w) p = false.
Proof.
  intros Ho Hr. unfold RemoveFromPreview in Hr. destruct (_ || _ || _); [done|].
  apply WithinTransaction_run in Hr as (w0 & w1 & Hr & _ & Hd & _ & Hnow & _ & Hd' & _). unfold remove_preview_body, GetActiveForUpdate in Hr.
  step_ok Hr. step_ok Hs. apply statement_as_ok in Hs0 as (-> & _). run in Hs. injection Hs as <- <-. simpl in Hr.
  destruct (active_preview _ _ _ _ _) as [q|] eqn:Hq.
  - apply active_preview_spec in Hq as (Hin & Hof & Hact & _). step_ok Hr. apply Revoke_run in Hs as [Hrv _].
    run in Hr. injection Hr as _ <-. simpl in Hrv. rewrite Hd', Hrv, Hd in *. rewrite Hnow in *. split; [by apply revoke_keeps|].
    intros p Hp Hpof _. simpl in Hp. apply elem_of_update in Hp as (y & Hy & ->).
    destruct (bool_decide_reflect (pv_id y = pv_id q)) as [Hid|Hid]; simpl in *.
    + unfold preview_active. destruct (unrevoked y) eqn:Hyu; [done|by rewrite Hyu].
    + apply not_true_iff_false. intros Hya. apply Hid. unfold preview_active in Hya, Hact.
      apply andb_true_iff in Hya as [Hyu _], Hact as [Hqu _]. apply preview_of_spec in Hof as [Ht Hc], Hpof as [Hpt Hpc].
      f_equal. destruct Ho as [_ Hu]. apply Hu; congruence.
  - run in Hr. injection Hr as _ <-. simpl in Hd'. rewrite Hd', Hd in *. split; [done|]. intros p Hp Hpof Hdom.
    unfold active_preview in Hq. rewrite max_by_None in Hq. apply not_true_iff_false. intros Ha.
    apply (not_elem_of_nil p). rewrite <- Hq. rewrite Hnow. apply elem_of_select. split; [done|]. by rewrite Hpof, Hdom, Ha.
Qed.

(** (C33) A contact has at most one unrevoked preview of a thread, and uses it once.
    Giving one leaves the contact with one that is active for at most an hour,
    removing leaves none active, an upgrade succeeds only while one is active,
    leaves none unrevoked and makes the contact an active member under the id
    answered, without touching anybody else's preview. *)
Theorem previews_at_most_one {E : Env} (w w' : World) :
  one_preview (w_db w) -> fresh_previews w ->
  (forall req p, GivePreview req w = (OK p, w') ->
     one_preview (w_db w') /\ p ∈ db_previews (w_db w') /\ preview_of (gp_ThreadID req) (gp_ContactID req) p = true /\
     preview_active (w_now w) p = true /\ pv_expires_at p <= w_now w + maxPreviewDuration) /\
  (forall req, RemoveFromPreview req w = (OK tt, w') ->
     one_preview (w_db w') /\
     forall p, p ∈ db_previews (w_db w') -> preview_of (rp_ThreadID req) (rp_ContactID req) p = true ->
       any_domain (rp_DomainID req) (pv_domain_id p) = true -> preview_active (w_now w) p = false) /\
  (forall req id, UpgradePreviewToFullMember req w = (OK id, w') -> spent req id w w').
Proof.
  intros Ho Hf. split_and!.
  - intros req p. by apply give_keeps.
  - intros req. by apply remove_keeps.
  - intros req id. by apply upgrade_spends.
Qed.

(** ** Witness: a look into the sample thread, given and upgraded *)
Definition give_look : GivePreviewRequest := MkGivePreview 1 300 102 7 60000000000.
Definition upgrade_look : UpgradePreviewRequest := MkUpgradePreview 1 300 102 7 Role.RoleMember None.
Definition looking : World := snd (GivePreview give_look sample_world).

Lemma previews_at_most_one_witness :
  exists id w', UpgradePreviewToFullMember upgrade_look looking = (OK id, w') /\ spent upgrade_look id looking w' /\
    (pv_revoke_reason <$> db_previews (w_db w')) = [Some "upgrade"].
Proof.
  assert (exists id, UpgradePreviewToFullMember upgrade_look looking =
    (OK id, snd (UpgradePreviewToFullMember upgrade_look looking))) as [id Hr] by runs.
  assert (one_preview (w_db looking)) as Ho.
  { split; [nodup_list|]. intros p q Hp Hq _ _ _ _. vm_compute in Hp, Hq.
    apply list_elem_of_singleton in Hp as ->. by apply list_elem_of_singleton in Hq as ->. }
  assert (fresh_previews looking) as Hf.
  { intros p Hp. vm_compute in Hp. apply list_elem_of_singleton in Hp as ->. vm_compute. done. }
  exists id. eexists. split; [exact Hr|]. split; [|vm_compute; reflexivity].
  exact (proj2 (proj2 (previews_at_most_one looking _ Ho Hf)) upgrade_look id Hr).
Defined.
