(* ===== verification/ReactionRules.v ===== *)
(** * ReactionRules: emoji and buttons

    What setting a reaction and pressing a button of an interactive message do
    on every successful run. *)
From S2P Require Import Prelude Domain Events Message World BotControlStore DialogStore.
From S2P Require Import ThreadStore Outbox TagService MessageStore ReactionStore ControlEvents MediaProcessor.
From S2P Require Import MessageService MessageActions Samples Invariant MessageFacts Seats System.
#[local] Open Scope Z_scope.

Definition reaction_key (r : ReactionRow) : uuid * uuid := (re_message_id r, re_reactor_id r).
Definition one_reaction (d : DB) : Prop := NoDup (reaction_key <$> db_reactions d).

(** The emoji of a contact on a message. *)
Definition emoji_of (mid reactor : uuid) (d : DB) : option string :=
  re_emoji <$> find_first (reaction_of mid reactor) (db_reactions d).

Lemma reaction_of_spec mid reactor r : reaction_of mid reactor r = true <-> reaction_key r = (mid, reactor).
Proof. unfold reaction_of, reaction_key. rewrite andb_true_iff, !bool_decide_eq_true. naive_solver. Qed.

Lemma find_app {A} (P : A -> bool) l x : find_first P l = None -> P x = true -> find_first P (l ++ [x]) = Some x.
Proof. induction l as [|y l IH]; simpl; [by intros _ ->|]. by destruct (P y). Qed.

Lemma find_update {A} (P : A -> bool) f l : (forall x, P x = true -> P (f x) = true) ->
  find_first P (update_where P f l) = f <$> find_first P l.
Proof.
  intros Hf. induction l as [|x l IH]; [done|]. unfold update_where in *. simpl. destruct (P x) eqn:E; simpl.
  - by rewrite Hf.
  - by rewrite E.
Qed.

Lemma find_delete {A} (P : A -> bool) l : find_first P (delete_where P l) = None.
Proof. apply find_first_None. intros x [_ Hx]%elem_of_delete. done. Qed.

(** ** The statement *)
Lemma set_reaction_spec id at_ mid reactor dom emoji g l l' res :
  set_reaction id at_ mid reactor dom emoji g l = (l', res) -> NoDup (reaction_key <$> l) ->
  NoDup (reaction_key <$> l') /\
  re_emoji <$> find_first (reaction_of mid reactor) l' = (if decide (emoji = "") then None else Some emoji) /\
  (forall r, reaction_of mid reactor r = false -> r ∈ l' <-> r ∈ l) /\
  (rr_Changed res = false -> l' = l) /\
  (rr_Changed res = true <-> re_emoji <$> find_first (reaction_of mid reactor) l <> (if decide (emoji = "") then None else Some emoji)).
Proof.
  unfold set_reaction. intros Hr Hnd. destruct (find_first (reaction_of mid reactor) l) as [p|] eqn:Hp.
  - apply find_first_Some in Hp as Hp'. destruct Hp' as [Hin Hof].
    destruct (decide (emoji = "")) as [->|Hne]; [|destruct (decide (re_emoji p = emoji)) as [Heq|Hd]]; injection Hr as <- <-; simpl.
    + split_and!; [by apply NoDup_fmap_filter|by rewrite find_delete| |done|done].
      intros r Hr. rewrite elem_of_delete. naive_solver.
    + split_and!; [done|by rewrite Hp, <- Heq|done|done|]. split; [done|]. rewrite Heq. done.
    + split_and!; [by rewrite update_where_proj| | |done|].
      * rewrite find_update by (intros x Hx; apply reaction_of_spec in Hx; by apply reaction_of_spec). by rewrite Hp.
      * intros r Hr. rewrite elem_of_update. split.
        { intros (y & Hy & ->). destruct (reaction_of mid reactor y) eqn:E; [|done].
          apply reaction_of_spec in E. exfalso.
          assert (reaction_of mid reactor (replace_emoji at_ emoji y) = true) by (by apply reaction_of_spec). congruence. }
        intros Hy. exists r. by rewrite Hr.
      * split; [|done]. intros _ [=]. done.
  - destruct (decide (emoji = "")) as [->|Hne]; injection Hr as <- <-; simpl.
    + split_and!; [done|by rewrite Hp|done|done|]. by split.
    + assert (reaction_of mid reactor (MkReactionRow id mid g.1 dom reactor (Some g.2) emoji at_ at_) = true) as Hnew by (by apply reaction_of_spec).
      split_and!.
      * rewrite fmap_app. apply NoDup_app. split; [done|]. split; [|apply NoDup_singleton].
        intros k Hk Hn. apply list_elem_of_singleton in Hn as ->. apply list_elem_of_fmap in Hk as (r & Hr & Hin).
        rewrite find_first_None in Hp. specialize (Hp r Hin).
        assert (reaction_of mid reactor r = true) by (by apply reaction_of_spec). congruence.
      * by rewrite (find_app _ _ _ Hp Hnew).
      * intros r Hr. rewrite elem_of_app, list_elem_of_singleton. split; [|by left]. intros [H|H]; [done|subst; congruence].
      * done.
      * split; [|done]. by intros _ [=].
Qed.

(** ** The service *)
Definition reacts (w : World) : list ReactionRow := db_reactions (w_db w).
#[export] Instance reacts_quiet : Quiet reacts := ltac:(by split).

Definition is_reaction (e : Event) : bool := match e with EvMessageReaction _ => true | _ => false end.

Section service.
Context {E : Env} {H : ThreadTagHooks} {X : MessageEnv}.

Lemma StoreReaction_run r w res w' : ReactionStore.SetReaction r w = (OK (Some res), w') ->
  exists g, reaction_guard (rct_MessageID r) (rct_ReactorID r) (rct_DomainID r) (w_db w) = Some g /\
    exists l, set_reaction (w_next w) (w_now w) (rct_MessageID r) (rct_ReactorID r) (rct_DomainID r) (rct_Emoji r) g
                (db_reactions (w_db w)) = (l, res) /\ w_db w' = on_reactions (fun _ => l) (w_db w).
Proof.
  unfold ReactionStore.SetReaction. destruct (decide _); [done|]. destruct (decide _); [done|]. intros Hr. run in Hr.
  step_ok Hr. apply statement_as_ok in Hs as (-> & _). run in Hr. simpl in Hr.
  destruct (reaction_guard _ _ _ _) as [g|]; [|done]. exists g. split; [done|].
  destruct (set_reaction _ _ _ _ _ _ _ _) as [l out] eqn:Hl. run in Hr. injection Hr as <- <-. by exists l.
Qed.

Lemma reaction_body_run r w r' res w' : reaction_body r w = (OK (r', res), w') -> rct_domainEvents r = [] ->
  exists w1, ReactionStore.SetReaction r w = (OK (Some res), w1) /\ reacts w' = reacts w1 /\
    exists es, events w' = events w ++ es /\ length es = (if rr_Changed res then 1 else 0)%nat /\
      forallb is_reaction es = true.
Proof.
  unfold reaction_body. intros Hr Hne. step_ok Hr. destruct a as [res0|]; [|done].
  assert (events w0 = events w) as He0.
  { pose proof Hs as Hs'. apply StoreReaction_run in Hs' as (g & _ & l & _ & Hd). unfold events. by rewrite Hd. }
  destruct (rr_Changed res0) eqn:Hc; simpl in Hr.
  - step_ok Hr. pose proof (QuickView_run _ _ _ _ Hs0) as Hq. step_ok Hr. apply Lock_ok in Hs1 as ->.
    step_ok Hr. apply (preserves_ok w_db) in Hs1; [|unfold AggregateForMessage; still]. simpl in Hs1.
    step_ok Hr. injection Hr as <- <- <-. exists w0. split; [done|].
    pose proof Hs2 as Hs2'. apply (preserves_ok reacts) in Hs2'; [|apply quiet_dispatchEvents, reacts_quiet].
    split; [rewrite Hs2'; unfold reacts; by rewrite Hs1, Hq|].
    apply dispatchEvents_run in Hs2. unfold WithReactionEvent in Hs2. rewrite Hc in Hs2. simpl in Hs2. rewrite Hne in Hs2.
    rewrite Hc. eexists. split; [rewrite Hs2; unfold events in *; rewrite Hs1, Hq, He0; reflexivity|]. done.
  - run in Hr. injection Hr as <- <- <-. exists w0. split; [done|]. split; [done|]. exists []. rewrite He0, app_nil_r, Hc. done.
Qed.
End service.

Lemma validated_same {E : Env} {X : MessageEnv} in_ req : ValidateSetReaction in_ = OK req ->
  sr_MessageID req = sr_MessageID in_ /\ sr_Reactor req = sr_Reactor in_ /\ sr_DomainID req = sr_DomainID in_.
Proof.
  unfold ValidateSetReaction. destruct (decide _); [intros [=]|]. destruct (nil_peer _); [intros [=]|].
  destruct (decide _); [intros [=]|]. destruct (decide _); [by intros [= <-]|]. cbv zeta.
  destruct (_ <? _)%nat; [intros [=]|]. destruct (negb (_ =? _)); [intros [=]|]. destruct (negb _); [intros [=]|].
  intros Hv. apply (f_equal (fun r => match r with OK a => a | _ => in_ end)) in Hv. by subst req.
Qed.


(** ** Witness: the same reaction to the first text twice *)
Definition like : SetReactionRequest := MkSetReaction bob 1005 None "+" "" 7 "" "".
Definition liked : World := snd (MessageActions.SetReaction like chat).


(** ** Buttons *)
Definition callbacks (w : World) : list CallbackRow := db_callbacks (w_db w).
#[export] Instance callbacks_quiet : Quiet callbacks := ltac:(by split).

Lemma callback_message_spec c d m : callback_message c d = Some m ->
  m ∈ db_messages d /\ m_id m = ic_InReplyTo c /\
  exists td, td ∈ db_dialogs d /\ d_member_id td = ic_ReactedBy c /\ d_thread_id td = m_thread_id m.
Proof.
  unfold callback_message. intros [Hin H]%find_first_Some. split; [done|].
  rewrite andb_true_iff, bool_decide_eq_true in H. destruct H as [-> (td & Htd & Hp)%existsb_exists]. split; [done|].
  rewrite andb_true_iff, !bool_decide_eq_true in Hp. exists td. by rewrite list_elem_of_In.
Qed.

Section rules.
Context {E : Env} {H : ThreadTagHooks} {X : MessageEnv}.

Lemma SaveCallback_run c w saved w' : SaveCallback c w = (OK saved, w') ->
  exists m, callback_message c (w_db w) = Some m /\
    (ic_InReplyTo c, ic_ButtonCode c) ∉ (callback_key <$> callbacks w) /\
    let r := callback_row (w_now w) c in
    saved = saved_callback r m /\ w_db w' = on_callbacks (fun l => l ++ [r]) (w_db w).
Proof.
  unfold SaveCallback. intros Hr. step_ok Hr. apply statement_as_ok in Hs as (-> & _). run in Hr. simpl in Hr.
  destruct (callback_message c (w_db w)) as [m|]; [|done]. exists m. split; [done|].
  destruct (bool_decide_reflect (callback_key (callback_row (w_now w) c) ∈ callback_key <$> db_callbacks (w_db w))) as [|Hn]; [done|].
  run in Hr. split; [exact Hn|]. simplify_eq/=. done.
Qed.

Lemma SendInteractiveCallback_run c w saved w' : SendInteractiveCallback c w = (OK saved, w') ->
  exists m, callback_message c (w_db w) = Some m /\
    (ic_InReplyTo c, ic_ButtonCode c) ∉ (callback_key <$> callbacks w) /\
    saved = callback_created env_ctx (saved_callback (callback_row (w_now w) c) m) /\
    callbacks w' = callbacks w ++ [callback_row (w_now w) c] /\ events w' = events w ++ ic_events saved /\
    people w' = people w /\ texts w' = texts w.
Proof.
  unfold SendInteractiveCallback. intros (w0 & w1 & Hr & _ & Hd & _ & Hn & _ & Hd' & _)%WithinTransaction_run.
  step_ok Hr. step_ok Hr. injection Hr as <- <-. apply SaveCallback_run in Hs as (m & Hm & Hk & -> & Hdb).
  exists m. rewrite Hd, Hn in *. unfold callbacks in *. rewrite Hd in *. split_and!; [done|done|done|..].
  - pose proof (preserves_ok callbacks _ _ _ _ (quiet_dispatchEvents callbacks _ callback_topic) Hs0) as Hc.
    unfold callbacks in Hc. by rewrite Hd', Hc, Hdb.
  - apply dispatchEvents_run in Hs0. unfold events in *. by rewrite Hd', Hs0, Hdb.
  - pose proof (preserves_ok people _ _ _ _ (quiet_dispatchEvents people _ callback_topic) Hs0) as Hc.
    unfold people in *. by rewrite Hd', Hc, Hdb.
  - pose proof (preserves_ok texts _ _ _ _ (quiet_dispatchEvents texts _ callback_topic) Hs0) as Hc.
    unfold texts in *. by rewrite Hd', Hc, Hdb.
Qed.
End rules.

(** (C19) Pressing a button of a message.  Only a contact with a dialog in the
    message's thread, possibly one it has left, succeeds, and only if nobody
    has pressed that button of that message: the press is recorded once, under
    the time of the call, and announced by one event that carries the thread,
    the domain and the sender of the message; members, texts and the update
    journal of clients stay as they are.  From then on every press of the same
    button by anybody fails. *)
Theorem SendInteractiveCallback_once {E : Env} (c saved : InteractiveCallback) (w w' : World) :
  SendInteractiveCallback c w = (OK saved, w') ->
  let key := (ic_InReplyTo c, ic_ButtonCode c) in
  (exists m e, m ∈ db_messages (w_db w) /\ m_id m = ic_InReplyTo c /\
     (exists td, td ∈ db_dialogs (w_db w) /\ d_member_id td = ic_ReactedBy c /\ d_thread_id td = m_thread_id m) /\
     events w' = events w ++ [EvInteractiveCallback e] /\ JournalThreadID (EvInteractiveCallback e) = None /\
     (icp_ThreadID e, icp_DomainID e, icp_Receiver e) = (m_thread_id m, m_domain_id m, m_sender_id m) /\
     (icp_InReplyTo e, icp_ButtonCode e, icp_CallbackData e) = (ic_InReplyTo c, ic_ButtonCode c, ic_CallbackData c)) /\
  key ∉ (callback_key <$> db_callbacks (w_db w)) /\
  db_callbacks (w_db w') = db_callbacks (w_db w) ++ [callback_row (w_now w) c] /\
  people w' = people w /\ texts w' = texts w /\
  forall c2 saved2 w2 w2', db_callbacks (w_db w2) = db_callbacks (w_db w') ->
    (ic_InReplyTo c2, ic_ButtonCode c2) = key -> SendInteractiveCallback c2 w2 <> (OK saved2, w2').
Proof.
  intros (m & Hm & Hk & Hs & Hc & He & Hp & Ht)%SendInteractiveCallback_run key.
  apply callback_message_spec in Hm as (Hin & Hid & Htd). split_and!; [|done|done|done|done|].
  - exists m. subst saved. simpl in He. eexists. split_and!; [done|done|done|exact He|done|done|done].
  - intros c2 saved2 w2 w2' Hw Hk2 (m2 & _ & Hn & _)%SendInteractiveCallback_run. apply Hn.
    rewrite Hk2. unfold callbacks in *. rewrite Hw, Hc, fmap_app. apply elem_of_app. right. left.
Qed.

(** ** Witness: a contact that has left the thread presses a button *)
Definition menu_row : MessageRow :=
  MkMessageRow 500 1 7 101 11 MessageTypeInteractive "" ∅ 2000 2000 1 None None None None None None None false None None.
Definition left_dialog : DialogRow :=
  MkDialogRow 14 7 1000 3000 104 1 Role.RoleMember (Some 3000) None None None None false false None None None 0.
Definition menu_db : DB := on_dialogs (fun l => l ++ [left_dialog]) (on_messages (fun l => l ++ [menu_row]) sample_db).
Definition press (code : string) : InteractiveCallback := MkCallback 104 500 code "data" 0 0 0 0 [].

Lemma SendInteractiveCallback_once_witness :
  exists saved w', SendInteractiveCallback (press "yes") (world_of menu_db) = (OK saved, w') /\
    length (db_callbacks (w_db w')) = 1%nat /\
    forall saved2 w2', SendInteractiveCallback (press "yes") w' <> (OK saved2, w2').
Proof.
  assert (exists saved, SendInteractiveCallback (press "yes") (world_of menu_db) =
    (OK saved, snd (SendInteractiveCallback (press "yes") (world_of menu_db)))) as [saved Hr] by runs.
  destruct (SendInteractiveCallback_once _ _ _ _ Hr) as (_ & _ & Hc & _ & _ & H2).
  exists saved. eexists. split; [exact Hr|]. split; [by rewrite Hc|]. intros saved2 w2'. by apply H2.
Defined.
