(* ===== verification/HistoryFacts.v ===== *)
(** * HistoryFacts: lemmas on reading the history

    Pages of projected rows, what a history query selects, the list its pages
    are cut from, and the page one call returns. *)
From S2P Require Import Prelude Domain Events Message World Text Paginator PaginatorRules DialogStore PreviewStore MessageStore.
From S2P Require Import ReactionStore MediaProcessor MessageActions MessageView HistoryQueries History.
#[local] Open Scope Z_scope.

(** ** Pages of projected rows *)
Section project.
Context {V A B C : Type} (zero : C) (f : A -> B).

Lemma extract_map (ext : B -> result C) (r : option A) : extract_at ext (f <$> r) = extract_at (fun a => ext (f a)) r.
Proof. by destruct r. Qed.

Lemma head_map (l : list A) : head (f <$> l) = f <$> head l.
Proof. by destruct l. Qed.

Definition map_page (r : result (list A * @PageInfo C)) : result (list B * @PageInfo C) :=
  match r with OK (rows, info) => OK (f <$> rows, info) | Err e => Err e end.

Lemma fmap_rev' (l : list A) : f <$> rev l = rev (f <$> l).
Proof. induction l as [|x l IH]; [done|]. cbn [rev]. by rewrite fmap_app, IH. Qed.

Lemma BuildPageInfo_map (cfg : @Config V C) (ext : B -> result C) (rows : list A) :
  BuildPageInfo zero (f <$> rows) cfg ext = map_page (BuildPageInfo zero rows cfg (fun a => ext (f a))).
Proof.
  unfold BuildPageInfo. destruct (ValidateConfig cfg) as [[]|]; [|done]. cbn [mbind result_bind].
  destruct (cfg_Codec cfg) as [codec|]; [|done]. rewrite length_fmap.
  set (n := Z.to_nat (cfg_Limit cfg)).
  assert ((if cfg_Limit cfg <? Z.of_nat (length rows) then take n (f <$> rows) else f <$> rows) =
    f <$> (if cfg_Limit cfg <? Z.of_nat (length rows) then take n rows else rows)) as ->
    by (destruct (_ <? _); [by rewrite <- fmap_take|done]).
  set (page := if cfg_Limit cfg <? Z.of_nat (length rows) then take n rows else rows).
  assert ((if decide (cfg_Direction cfg = DirectionBefore) then rev (f <$> page) else f <$> page) =
    f <$> (if decide (cfg_Direction cfg = DirectionBefore) then rev page else page)) as ->
    by (destruct (decide _); [by rewrite fmap_rev'|done]).
  set (shown := if decide (cfg_Direction cfg = DirectionBefore) then rev page else page).
  destruct shown as [|x xs]; [done|]. cbn [fmap list_fmap]. destruct (decide _); [done|].
  rewrite <- fmap_cons, fmap_last, extract_map.
  by destruct (page_info _ _ _ _ _ _).
Qed.

Lemma split_at_map (P : B -> bool) (l : list A) :
  split_at P (f <$> l) = (let '(p, n) := split_at (fun a => P (f a)) l in (f <$> p, f <$> n)).
Proof.
  induction l as [|x l IH]; [done|]. cbn [fmap list_fmap split_at]. destruct (P (f x)); [|done].
  rewrite IH. by destruct (split_at _ l).
Qed.

Lemma BuildAroundPageInfo_map (cfg : @Config V C) (ext : B -> result C) (P : B -> bool) (rows : list A) :
  BuildAroundPageInfo zero (f <$> rows) cfg ext P =
  map_page (BuildAroundPageInfo zero rows cfg (fun a => ext (f a)) (fun a => P (f a))).
Proof.
  unfold BuildAroundPageInfo. destruct (ValidateConfig cfg) as [[]|]; [|done]. cbn [mbind result_bind].
  destruct (cfg_Codec cfg) as [codec|]; [|done]. destruct (aroundLimits _) as [nx pv].
  rewrite split_at_map. destruct (split_at _ rows) as [p n]. rewrite !length_fmap.
  assert ((if pv <? Z.of_nat (length p) then skipn (length p - Z.to_nat pv) (f <$> p) else f <$> p) =
    f <$> (if pv <? Z.of_nat (length p) then skipn (length p - Z.to_nat pv) p else p)) as ->
    by (destruct (_ <? _); [by rewrite <- fmap_drop|done]).
  assert ((if nx <? Z.of_nat (length n) then take (Z.to_nat nx) (f <$> n) else f <$> n) =
    f <$> (if nx <? Z.of_nat (length n) then take (Z.to_nat nx) n else n)) as ->
    by (destruct (_ <? _); [by rewrite <- fmap_take|done]).
  rewrite <- fmap_app. set (window := _ ++ _).
  rewrite fmap_last, head_map. destruct (last window), (head window); simpl; by destruct (page_info _ _ _ _ _ _).
Qed.
End project.

(** ** What a statement answers comes from the rows it selects *)
Section select.
Context {V : Type} `{EqDecision V} (vlt : V -> V -> bool) {Row C : Type} (column : string -> Row -> V) (zero : C).

Lemma run_select_elem (b : @SelectBuilder Row) rows r : r ∈ run_select vlt column b rows ->
  r ∈ rows /\ forallb (fun p => p r) (sb_where b) = true.
Proof.
  unfold run_select. set (sorted := merge_sort _ _). intros Hr.
  assert (r ∈ sorted) as Hs.
  { destruct (sb_limit b) as [n|]; simpl in Hr; [|done]. apply elem_of_take in Hr as (k & Hr & _). by eapply list_elem_of_lookup_2. }
  unfold sorted in Hs. rewrite merge_sort_Permutation in Hs.
  apply list_elem_of_In, filter_In in Hs as [Hs%list_elem_of_In Hw]. by split.
Qed.

Lemma Apply_where (b b' : @SelectBuilder Row) (cfg : @Config V C) r : Apply vlt column b cfg = OK b' ->
  forallb (fun p => p r) (sb_where b') = true -> forallb (fun p => p r) (sb_where b) = true.
Proof.
  unfold Apply. destruct (ValidateConfig cfg) as [[]|]; cbn [mbind result_bind]; [|done].
  destruct (cfg_Mapper cfg) as [m|]; [|done].
  destruct (if cfg_HasCursor cfg then _ else _) as [values|]; cbn [mbind result_bind]; [|done].
  destruct (applyOrderBy_fields (cfg_Columns cfg) b (cfg_Direction cfg)) as [Hw _].
  destruct values as [v|]; cbn [mbind result_bind].
  - destruct (buildCursorPredicate _ _ _) as [pred|]; cbn [mbind result_bind]; [|done]. intros [= <-]. simpl.
    rewrite Hw, forallb_app. by intros [? _]%andb_true_iff.
  - intros [= <-]. simpl. by rewrite Hw.
Qed.

Lemma BuildPageInfo_elem {A} (rows page : list A) (cfg : @Config V C) ext info x :
  BuildPageInfo zero rows cfg ext = OK (page, info) -> x ∈ page -> x ∈ rows.
Proof.
  unfold BuildPageInfo. destruct (ValidateConfig cfg) as [[]|]; cbn [mbind result_bind]; [|done].
  destruct (cfg_Codec cfg) as [codec|]; [|done].
  set (l := if cfg_Limit cfg <? Z.of_nat (length rows) then take (Z.to_nat (cfg_Limit cfg)) rows else rows).
  set (l' := if decide (cfg_Direction cfg = DirectionBefore) then rev l else l).
  assert (forall y, y ∈ l' -> y ∈ rows) as Hl.
  { intros y Hy. assert (y ∈ l) as Hyl by (unfold l' in Hy; case_decide; [by apply list_elem_of_In, in_rev, list_elem_of_In in Hy|done]).
    unfold l in Hyl. destruct (_ <? _); [|done]. apply elem_of_take in Hyl as (k & Hk & _). by eapply list_elem_of_lookup_2. }
  intros Hb Hx. apply Hl. destruct l' as [|first rest]; [by simplify_eq|].
  destruct (decide _); [done|]. destruct (page_info _ _ _ _ _ _); simpl in Hb; [|done]. by simplify_eq/=.
Qed.

Lemma split_at_elem {A} (P : A -> bool) (l p n : list A) x : split_at P l = (p, n) -> x ∈ p \/ x ∈ n -> x ∈ l.
Proof.
  revert p n. induction l as [|y l IH]; intros p n; simpl; [by intros [= <- <-] [?|?]|].
  destruct (P y); [|intros [= <- <-] [Hx|Hx]; [by apply not_elem_of_nil in Hx|done]].
  destruct (split_at P l) as [p' n'] eqn:Hs. intros [= <- <-] [Hx|Hx].
  - apply elem_of_cons in Hx as [->|Hx]; [left|right; eapply IH; eauto].
  - right. eapply IH; eauto.
Qed.

Lemma BuildAroundPageInfo_elem {A} (rows page : list A) (cfg : @Config V C) ext P info x :
  BuildAroundPageInfo zero rows cfg ext P = OK (page, info) -> x ∈ page -> x ∈ rows.
Proof.
  unfold BuildAroundPageInfo. destruct (ValidateConfig cfg) as [[]|]; cbn [mbind result_bind]; [|done].
  destruct (cfg_Codec cfg) as [codec|]; [|done]. destruct (aroundLimits _) as [nx pv].
  destruct (split_at P rows) as [p n] eqn:Hs. destruct (page_info _ _ _ _ _ _); cbn [mbind result_bind]; [|done].
  intros [= <- _] Hx. apply (split_at_elem P rows p n x Hs). apply elem_of_app in Hx as [Hx|Hx]; [left|right].
  - destruct (_ <? _); [|done]. apply list_elem_of_lookup in Hx as (k & Hk). rewrite lookup_drop in Hk. by eapply list_elem_of_lookup_2.
  - destruct (_ <? _); [|done]. apply elem_of_take in Hx as (k & Hk & _). by eapply list_elem_of_lookup_2.
Qed.
End select.

(** ** What a query selects *)
Definition holds (q : MessageQuery) (r : ViewRow) : bool := forallb (fun p => p r) (sb_where (mq_base q)).

Lemma holds_where p q r : holds (where_ p q) r = holds q r && p r.
Proof. unfold holds, where_. simpl. rewrite forallb_app. simpl. by rewrite andb_true_r. Qed.

(** An empty list of values is no condition. *)
Definition among {A} `{EqDecision A} (values : list A) (x : A) : bool := bool_decide (values = []) || bool_decide (x ∈ values).

Lemma holds_where_in {A} `{EqDecision A} (values : list A) column q r :
  holds (where_in values column q) r = holds q r && among values (column r).
Proof.
  unfold where_in, among. destruct values; [by rewrite bool_decide_true, andb_true_r|].
  by rewrite holds_where, (bool_decide_false (_ = [])).
Qed.

(** What conditions leave alone. *)
Definition frame_of (q : MessageQuery) := (sb_order (mq_base q), mq_fields q, mq_cfg q).

Lemma frame_where_in {A} `{EqDecision A} (values : list A) column q :
  frame_of (where_in values column q) = frame_of q /\ mq_caller (where_in values column q) = mq_caller q.
Proof. unfold where_in. by destruct values. Qed.

Lemma frame_domain dom q :
  frame_of (WithDomainIDsFilter [dom] q) = frame_of q /\ mq_caller (WithDomainIDsFilter [dom] q) = mq_caller q.
Proof. unfold WithDomainIDsFilter. destruct (decide _); [apply frame_where_in|done]. Qed.

Lemma frame_allow allow q :
  frame_of (WithSystemMessageAllowList allow q) = frame_of q /\ mq_caller (WithSystemMessageAllowList allow q) = mq_caller q.
Proof. by destruct allow. Qed.

Lemma frame_caller c tids q : mq_caller q = uuid_Nil ->
  frame_of (WithCallerLimitation c tids q) = frame_of q /\ mq_caller (WithCallerLimitation c tids q) = c.
Proof. unfold WithCallerLimitation. intros Hq. by destruct (decide (c = uuid_Nil)) as [->|]. Qed.

Section queries.
Context {E : Env} {H : HistoryEnv} (json_codec : @CursorCodec MessageHistoryCursor).

Lemma holds_domain dom q r :
  holds (WithDomainIDsFilter [dom] q) r = holds q r && (bool_decide (dom = 0) || bool_decide (m_domain_id (vr_row r) = dom)).
Proof.
  unfold WithDomainIDsFilter. destruct (decide (dom <> 0)) as [Hd|Hd].
  - rewrite holds_where_in. unfold among. rewrite bool_decide_false by done. rewrite (bool_decide_false (dom = 0)) by done.
    f_equal. simpl. apply bool_decide_ext. apply list_elem_of_singleton.
  - rewrite bool_decide_true by lia. by rewrite andb_true_r.
Qed.

Lemma holds_allow allow q r :
  holds (WithSystemMessageAllowList allow q) r = holds q r && match allow with None => true | Some a => allowed_type a r end.
Proof. destruct allow; simpl; [apply holds_where|by rewrite andb_true_r]. Qed.

Lemma holds_caller c tids q r :
  holds (WithCallerLimitation c tids q) r = holds q r && (bool_decide (c = uuid_Nil) || caller_sees c tids r).
Proof.
  unfold WithCallerLimitation. destruct (decide (c = uuid_Nil)) as [->|Hc]; [by rewrite andb_true_r|].
  rewrite holds_where. by rewrite bool_decide_false.
Qed.

Lemma cfg_holds c q r : holds (set_cfg c q) r = holds q r.
Proof. done. Qed.

Lemma limit_holds n q r : holds (WithLimit n q) r = holds q r.
Proof. unfold WithLimit. by destruct (_ && _). Qed.

Lemma cursor_holds c q r : holds (WithAroundCursor json_codec c q) r = holds q r.
Proof. destruct c as [c|]; [|done]. simpl. by destruct (_ && _). Qed.

(** What the caller asked to see. *)
Definition wanted (i : HistoryMessageInputDTO) (r : ViewRow) : bool :=
  (bool_decide (hq_DomainID i = 0) || bool_decide (m_domain_id (vr_row r) = hq_DomainID i)) &&
  among (hq_IDs i) (m_id (vr_row r)) && among (hq_SenderIDs i) (m_sender_id (vr_row r)) &&
  among (hq_ThreadIDs i) (m_thread_id (vr_row r)) &&
  (bool_decide (hq_CallerID i = uuid_Nil) || caller_sees (hq_CallerID i) (hq_ThreadIDs i) r) &&
  among (hq_Types i) (m_type (vr_row r)) &&
  match hq_AllowList i with None => true | Some allowed => allowed_type allowed r end.

Lemma history_holds i r : holds (history_query json_codec i) r = wanted i r.
Proof.
  unfold history_query, wanted. rewrite holds_allow. unfold WithTypeFilter. rewrite holds_where_in, limit_holds, holds_caller.
  unfold WithThreadIDsFilter, WithSenderIDsFilter, WithIDsFilter. rewrite !holds_where_in, holds_domain, cursor_holds.
  assert (holds (WithFields (hq_Fields i) NewMessageHistoryQuery) r = true) as -> by (by unfold WithFields; destruct (hq_Fields i)).
  done.
Qed.

(** The columns the page is made of. *)
Definition asked_fields (available : string -> bool) (defaults fields : list string) : list string :=
  match valid_fields available fields with [] => defaults | fs => fs end.

Definition page_size (size : Z) : Z := if (0 <? size) && (size <=? 100) then size else DefaultLimit.

Lemma history_size_bounds size : 1 <= page_size size <= 100.
Proof.
  unfold page_size, DefaultLimit. destruct (Z.ltb_spec 0 size), (Z.leb_spec size 100); simpl; lia.
Qed.

(** The configuration of the page the request is about. *)
Definition history_cfg (i : HistoryMessageInputDTO) : HistoryConfig :=
  let n := page_size (hq_Size i) in
  match hq_Cursor i with
  | None => MkConfig n zero_cursor false DirectionAfter MessageHistoryColumns (Some json_codec) (Some MessageHistoryCursorMapper)
  | Some c =>
      let '(cur, has) := parseMessageHistoryFields (pc_ID c) in
      MkConfig n cur has
        (if pc_Around c && has then DirectionAround else if pc_Direction c then DirectionBefore else DirectionAfter)
        MessageHistoryColumns (Some (RawParamsCursorCodec (parseMessageHistoryRawCursor json_codec)))
        (Some MessageHistoryCursorMapper)
  end.

(** The limit and the cursor touch the configuration only. *)
Lemma limit_frame n q : frame_of (WithLimit n q) =
  (sb_order (mq_base q), mq_fields q, mq_cfg (WithLimit n q)) /\ mq_caller (WithLimit n q) = mq_caller q.
Proof. unfold WithLimit. by destruct (_ && _). Qed.

Lemma cursor_frame c q : frame_of (WithAroundCursor json_codec c q) =
  (sb_order (mq_base q), mq_fields q, mq_cfg (WithAroundCursor json_codec c q)) /\
  mq_caller (WithAroundCursor json_codec c q) = mq_caller q.
Proof. destruct c as [c|]; [|done]. simpl. by destruct (_ && _). Qed.

Lemma query_frame i : let q := history_query json_codec i in
  let q0 := WithFields (hq_Fields i) NewMessageHistoryQuery in
  frame_of q = ([], mq_fields q0, mq_cfg (WithLimit (hq_Size i) (WithAroundCursor json_codec (hq_Cursor i) q0))) /\
  mq_caller q = hq_CallerID i.
Proof.
  intros q q0. unfold q, history_query. fold q0.
  assert (sb_order (mq_base q0) = [] /\ mq_caller q0 = uuid_Nil) as [Ho Hc] by (unfold q0, WithFields; by destruct (hq_Fields i)).
  set (q1 := WithAroundCursor json_codec (hq_Cursor i) q0).
  destruct (cursor_frame (hq_Cursor i) q0) as [F1 C1]. fold q1 in F1, C1.
  set (q2 := WithSenderIDsFilter _ _).
  assert (frame_of q2 = frame_of q1 /\ mq_caller q2 = uuid_Nil) as [F2 C2].
  { unfold q2, WithSenderIDsFilter, WithIDsFilter.
    destruct (frame_where_in (hq_SenderIDs i) (fun r => m_sender_id (vr_row r)) (where_in (hq_IDs i) (fun r => m_id (vr_row r)) (WithDomainIDsFilter [hq_DomainID i] q1))) as [-> ->].
    destruct (frame_where_in (hq_IDs i) (fun r => m_id (vr_row r)) (WithDomainIDsFilter [hq_DomainID i] q1)) as [-> ->].
    destruct (frame_domain (hq_DomainID i) q1) as [-> ->]. by rewrite C1, Hc. }
  set (q3 := WithThreadIDsFilter (hq_ThreadIDs i) q2).
  assert (frame_of q3 = frame_of q1 /\ mq_caller q3 = uuid_Nil) as [F3 C3].
  { unfold q3, WithThreadIDsFilter.
    destruct (frame_where_in (hq_ThreadIDs i) (fun r => m_thread_id (vr_row r)) q2) as [-> ->]. by rewrite F2. }
  set (q4 := WithCallerLimitation _ _ q3). destruct (frame_caller (hq_CallerID i) (hq_ThreadIDs i) q3 C3) as [F4 C4]. fold q4 in F4, C4.
  destruct (limit_frame (hq_Size i) q4) as [F5 C5].
  destruct (frame_allow (hq_AllowList i) (WithTypeFilter (hq_Types i) (WithLimit (hq_Size i) q4))) as [-> ->].
  unfold WithTypeFilter.
  destruct (frame_where_in (hq_Types i) (fun r => m_type (vr_row r)) (WithLimit (hq_Size i) q4)) as [-> ->].
  rewrite F5, C5, C4. split; [|done]. rewrite F3, F1 in F4.
  injection F4 as E1 E2 E3. rewrite E1, E2, Ho. f_equal. unfold WithLimit. by destruct (_ && _); simpl; rewrite ?E3.
Qed.

(** The query [ToSQL] leaves. *)
Lemma ToSQL_query i : let q := (ToSQL json_codec (history_query json_codec i)).2 in
  mq_cfg q = history_cfg i /\ mq_fields q = asked_fields availableFields defaultFields (hq_Fields i) /\
  mq_caller q = hq_CallerID i /\ sb_order (mq_base q) = [] /\ (forall r, holds q r = wanted i r).
Proof.
  intros q. set (q' := history_query json_codec i) in *.
  assert (q = with_defaults json_codec defaultFields MessageHistoryColumns MessageHistoryCursorMapper q') as ->
    by (unfold q, ToSQL; by destruct (decide _)).
  destruct (query_frame i) as [F C]. fold q' in F, C. injection F as Ho Hf Hc.
  unfold with_defaults. split_and!.
  - simpl. assert (mq_cfg (match mq_fields q' with [] => set_fields defaultFields q' | _ => q' end) = mq_cfg q') as ->
      by (by destruct (mq_fields q')).
    rewrite Hc. unfold history_cfg, WithLimit, page_size, WithAroundCursor, WithCursor, limitOrDefault, default_config.
    assert (mq_cfg (WithFields (hq_Fields i) NewMessageHistoryQuery) = zero_config) as Hz
      by (unfold WithFields; by destruct (hq_Fields i)).
    destruct (hq_Cursor i) as [c|]; simpl; rewrite ?Hz; unfold NewMessageHistoryConfigFromRaw; simpl;
      [destruct (parseMessageHistoryFields (pc_ID c)) as [cur has]; simpl; destruct (pc_Around c && has)|];
      destruct (Z.ltb_spec 0 (hq_Size i)), (Z.leb_spec (hq_Size i) 100); simpl; rewrite ?Hz; simpl; repeat case_decide; (done || lia).
  - assert (mq_fields q' = match hq_Fields i with [] => defaultFields | fs => valid_fields availableFields fs end) as Hf'.
    { rewrite Hf. unfold WithFields. by destruct (hq_Fields i). }
    simpl. unfold asked_fields. destruct (hq_Fields i) as [|f fs]; [by rewrite Hf'|].
    rewrite Hf' in *. destruct (valid_fields availableFields (f :: fs)) eqn:Ev; simpl; [done|]. by rewrite Hf'.
  - by destruct (mq_fields q').
  - by destruct (mq_fields q').
  - intros r. rewrite <- history_holds. fold q'. by destruct (mq_fields q').
Qed.

(** ** The list the pages are cut from: what was asked for, the newest first *)
Definition newer (a b : ViewRow) : Prop := (m_id (vr_row b) <= m_id (vr_row a))%N.
#[local] Instance newer_dec a b : Decision (newer a b).
Proof. unfold newer. apply _. Defined.

Definition history_list (i : HistoryMessageInputDTO) (at_ : Time) (d : DB) : list ViewRow :=
  merge_sort newer (List.filter (wanted i) (v_messages at_ d)).

(** Ids tell messages apart and are not nil; a message has at most one pressed button. *)
Definition history_wf (d : DB) : Prop :=
  NoDup (m_id <$> db_messages d) /\ uuid_Nil ∉ (m_id <$> db_messages d) /\
  forall m, m ∈ db_messages d -> (length (callback_rows m d) <= 1)%nat.

Lemma callback_rows_one m d : (length (callback_rows m d) <= 1)%nat -> exists c, callback_rows m d = [c].
Proof.
  unfold callback_rows. destruct (if decide _ then _ else _) as [|c l]; [by exists None|].
  intros Hl. rewrite length_fmap in Hl. destruct l; [by exists (Some c)|simpl in Hl; lia].
Qed.

Lemma elem_of_view at_ d r : r ∈ v_messages at_ d -> vr_row r ∈ db_messages d /\ vr_db r = d /\ vr_at r = at_.
Proof. unfold v_messages. intros (m & (c & -> & _)%list_elem_of_fmap & Hm)%list_elem_of_bind. done. Qed.

Lemma view_ids at_ d : history_wf d -> (fun r => m_id (vr_row r)) <$> v_messages at_ d = m_id <$> db_messages d.
Proof.
  intros (_ & _ & Hc). unfold v_messages. induction (db_messages d) as [|m ms IH]; [done|]. simpl.
  destruct (callback_rows_one m d) as [c ->]; [apply Hc; left|]. simpl. f_equal. apply IH. intros m' Hm. apply Hc. by right.
Qed.

Lemma view_key (r : ViewRow) : key view_column (effective MessageHistoryColumns DirectionAfter) r = [m_id (vr_row r)].
Proof. done. Qed.

Lemma newer_row_le a b : row_le N.ltb view_column [("id", OrderDesc)] a b <-> newer a b.
Proof.
  unfold row_le, newer. simpl. unfold precedes, view_column. simpl. rewrite andb_false_r, orb_false_r. by rewrite N.ltb_ge.
Qed.

Section page.
Context (i : HistoryMessageInputDTO) (at_ : Time) (d : DB) (Hwf : history_wf d).

Let q := (ToSQL json_codec (history_query json_codec i)).2.

Lemma selected_wanted : selected (mq_base q) (v_messages at_ d) = List.filter (wanted i) (v_messages at_ d).
Proof. unfold selected. apply filter_ext. intros r. apply ToSQL_query. Qed.

Lemma wanted_unique : NoDup (key view_column (effective MessageHistoryColumns DirectionAfter) <$> selected (mq_base q) (v_messages at_ d)).
Proof.
  rewrite selected_wanted. apply NoDup_fmap_filter.
  assert ((key view_column (effective MessageHistoryColumns DirectionAfter) <$> v_messages at_ d) =
    (fun x => [x]) <$> (m_id <$> db_messages d)) as ->.
  { rewrite <- (view_ids at_ d Hwf), <- list_fmap_compose. done. }
  apply NoDup_fmap_2; [intros x y [=]; done|apply Hwf].
Qed.

Lemma ordered_list : ordered N.ltb view_column MessageHistoryColumns (mq_base q) (v_messages at_ d) = history_list i at_ d.
Proof.
  unfold ordered, history_list. rewrite selected_wanted. symmetry.
  apply (sort_unique N.ltb view_column (effective MessageHistoryColumns DirectionAfter)).
  - pose proof wanted_unique as Hu. by rewrite selected_wanted in Hu.
  - apply merge_sort_Permutation.
  - assert (Total newer) by (intros a b; unfold newer; lia).
    assert (Transitive newer) by (intros a b c; unfold newer; lia).
    pose proof (StronglySorted_merge_sort newer (List.filter (wanted i) (v_messages at_ d))) as Hs.
    eapply StronglySorted_weaken; [|exact Hs]. intros a b. by rewrite <- newer_row_le.
Qed.
End page.
(** ** One call *)
Definition history_fields (i : HistoryMessageInputDTO) : list string :=
  let fields := asked_fields availableFields defaultFields (hq_Fields i) in
  if decide (cfg_Direction (history_cfg i) = DirectionAround)
  then if bool_decide ("id" ∈ fields) then fields else fields ++ ["id"] else fields.

(** A message of a page. *)
Definition history_view (i : HistoryMessageInputDTO) : ViewRow -> HistoryMessage :=
  selectMessageFields (history_fields i) (hq_CallerID i).

Definition history_cursor (i : HistoryMessageInputDTO) (r : ViewRow) : result MessageHistoryCursor := cursor_of (history_view i r).

Definition page_of (i : HistoryMessageInputDTO) (rows : list ViewRow) : result (list ViewRow * HistoryPageInfo) :=
  let base := mq_base (ToSQL json_codec (history_query json_codec i)).2 in
  if decide (cfg_Direction (history_cfg i) = DirectionAround)
  then fetch_around N.ltb view_column zero_cursor base rows (history_cursor i)
         (fun r => newerThan (hc_ID (cfg_Cursor (history_cfg i))) (history_view i r)) (history_cfg i)
  else fetch N.ltb view_column zero_cursor base rows (history_cursor i) (history_cfg i).

(** The server answers the next statement. *)
Definition answers (w : World) : Prop := env_fault (w_ticks w) = false /\ w_in_tx w && w_aborted w = false.

Lemma SearchStore_run s source columns w : answers w ->
  SearchStore (OK s) source columns w =
  (OK (columns (sql_fields s) <$> run_statement (sql_statement s) (source (w_now w) (w_db w))), set_tick (w_aborted w) w).
Proof.
  intros [Hf Ha]. unfold SearchStore, statement_as, map_err, statement. rewrite !M_bind_unfold. cbv beta. rewrite Ha, Hf. done.
Qed.

Lemma SearchStore_ok sql source columns w rows w' : SearchStore sql source columns w = (OK rows, w') ->
  exists s, sql = OK s /\ w_db w' = w_db w /\
    rows = columns (sql_fields s) <$> run_statement (sql_statement s) (source (w_now w) (w_db w)).
Proof.
  unfold SearchStore. destruct sql as [s|]; [|done]. intros Hr. step_ok Hr. apply statement_as_ok in Hs as (-> & _).
  run in Hr. simpl in Hr. simplify_eq. by exists s.
Qed.

Lemma ToSQL_sql q0 : let q := (ToSQL json_codec q0).2 in (ToSQL json_codec q0).1 =
  if decide (cfg_Direction (mq_cfg q) = DirectionAround)
  then (a ← ApplyAround N.ltb view_column (mq_base q) (mq_cfg q);
        OK (MkSQL (Union a) (if decide (cfg_Direction (mq_cfg q) = DirectionAround)
              then if bool_decide ("id" ∈ mq_fields q) then mq_fields q else mq_fields q ++ ["id"] else mq_fields q)))
  else (b ← Apply N.ltb view_column (mq_base q) (mq_cfg q);
        OK (MkSQL (Select b) (if decide (cfg_Direction (mq_cfg q) = DirectionAround)
              then if bool_decide ("id" ∈ mq_fields q) then mq_fields q else mq_fields q ++ ["id"] else mq_fields q))).
Proof.
  intros q. unfold q, ToSQL. set (q1 := with_defaults _ _ _ _ _).
  destruct (decide (cfg_Direction (mq_cfg q1) = DirectionAround)) as [Hd|Hd]; simpl; by case_decide.
Qed.

Lemma Search_run i w rows info : page_of i (v_messages (w_now w) (w_db w)) = OK (rows, info) -> answers w ->
  Search json_codec i w = (OK (history_view i <$> rows, info), set_tick (w_aborted w) w).
Proof.
  unfold Search, page_of. destruct (ToSQL_query i) as (Hc & Hf & Hca & _).
  assert (ToSQL json_codec (history_query json_codec i) =
    ((ToSQL json_codec (history_query json_codec i)).1, (ToSQL json_codec (history_query json_codec i)).2)) as ->
    by (by destruct (ToSQL _ _)).
  set (q := (ToSQL json_codec (history_query json_codec i)).2) in *.
  assert ((ToSQL json_codec (history_query json_codec i)).1 =
    if decide (cfg_Direction (history_cfg i) = DirectionAround)
    then (a ← ApplyAround N.ltb view_column (mq_base q) (history_cfg i); OK (MkSQL (Union a) (history_fields i)))
    else (b ← Apply N.ltb view_column (mq_base q) (history_cfg i); OK (MkSQL (Select b) (history_fields i)))) as ->.
  { unfold history_fields. rewrite <- Hc, <- Hf. apply ToSQL_sql. }
  rewrite Hca. cbn [snd]. intros Hp Ha. unfold BuildHistoryPageInfo. rewrite Hc. rewrite M_bind_unfold.
  destruct (decide (cfg_Direction (history_cfg i) = DirectionAround)) as [Hd|Hd].
  - unfold fetch_around in Hp. destruct (ApplyAround _ _ _ _) as [a|]; [|done]. cbn [mbind result_bind] in Hp |- *.
    rewrite SearchStore_run by done. simpl sql_fields. simpl run_statement.
    change (selectMessageFields (history_fields i) (hq_CallerID i)) with (history_view i).
    rewrite (BuildAroundPageInfo_map zero_cursor (history_view i)). 
    by match goal with |- context [map_page _ ?x] => replace x with (OK (A:=list ViewRow * HistoryPageInfo) (rows, info)) end.
  - unfold fetch in Hp. destruct (Apply _ _ _ _) as [a|]; [|done]. cbn [mbind result_bind] in Hp |- *.
    rewrite SearchStore_run by done. simpl sql_fields. simpl run_statement.
    change (selectMessageFields (history_fields i) (hq_CallerID i)) with (history_view i).
    rewrite (BuildPageInfo_map zero_cursor (history_view i)). 
    by match goal with |- context [map_page _ ?x] => replace x with (OK (A:=list ViewRow * HistoryPageInfo) (rows, info)) end.
Qed.

Lemma Search_views i w page info w' m : Search json_codec i w = (OK (page, info), w') -> m ∈ page ->
  exists x, m = history_view i x.
Proof.
  unfold Search. destruct (ToSQL_query i) as (Hc & Hf & Hca & _). pose proof (ToSQL_sql (history_query json_codec i)) as Hsql.
  destruct (ToSQL json_codec (history_query json_codec i)) as [sql q]. cbv zeta in Hsql. cbn [fst snd] in *.
  intros Hr Hm. step_ok Hr. apply SearchStore_ok in Hs as (s & -> & _ & ->). run in Hr. simpl in Hr. injection Hr as Hb _.
  assert (sql_fields s = history_fields i) as Hfields.
  { unfold history_fields. rewrite <- Hc, <- Hf. destruct (decide (cfg_Direction (mq_cfg q) = DirectionAround)).
    - destruct (ApplyAround _ _ _ _); simpl in Hsql; by simplify_eq/=.
    - destruct (Apply _ _ _ _); simpl in Hsql; by simplify_eq/=. }
  rewrite Hca, Hfields in Hb.
  assert (m ∈ history_view i <$> run_statement (sql_statement s) (v_messages (w_now w) (w_db w))) as Hin.
  { unfold BuildHistoryPageInfo in Hb. case_decide; [by eapply BuildAroundPageInfo_elem|by eapply BuildPageInfo_elem]. }
  apply list_elem_of_fmap in Hin as (x & -> & _). by exists x.
Qed.

(** The id is selected, so the cursors of the page carry it. *)
Lemma history_cursor_id i r : "id" ∈ history_fields i -> history_cursor i r = OK (MkHistoryCursor (m_id (vr_row r)) false).
Proof.
  intros Hid. unfold history_cursor, cursor_of, history_view, selectMessageFields, when_selected. simpl.
  by rewrite (bool_decide_true _ Hid).
Qed.

Definition codecs_total : Prop := forall c, is_ok (Encode json_codec c) = true.

Lemma history_keyset i at_ d cfg : codecs_total -> history_wf d -> "id" ∈ history_fields i ->
  ValidateConfig cfg = OK tt -> cfg_Limit cfg = page_size (hq_Size i) -> cfg_Columns cfg = MessageHistoryColumns ->
  cfg_Codec cfg = cfg_Codec (history_cfg i) -> cfg_Mapper cfg = Some MessageHistoryCursorMapper ->
  keyset view_column (mq_base (ToSQL json_codec (history_query json_codec i)).2) (v_messages at_ d) cfg (history_cursor i).
Proof.
  intros Hj Hwf Hid Hv Hl Hcols Hcodec Hm. destruct (ToSQL_query i) as (_ & _ & _ & Ho & _).
  pose proof (history_size_bounds (hq_Size i)). split; [done|lia|done|by rewrite Hcols|..].
  - rewrite Hcols. by apply wanted_unique.
  - intros codec c. rewrite Hcodec. unfold history_cfg. destruct (hq_Cursor i) as [pc|].
    + destruct (parseMessageHistoryFields _). by intros [= <-].
    + intros [= <-]. apply Hj.
  - intros r. rewrite history_cursor_id by done. by eexists.
  - intros m r c Hr. rewrite Hm, Hcols, history_cursor_id by done. intros [= <-] [= <-].
    exists {["id" := m_id (vr_row r)]}. split.
    + simpl. rewrite decide_False; [done|]. intros Hn. apply elem_of_view in Hr as (Hr & _). apply (proj1 (proj2 Hwf)).
      rewrite <- Hn. by apply list_elem_of_fmap_2.
    + intros col ->%list_elem_of_singleton. exact (lookup_singleton_eq (M:=gmap string) "id" (m_id (vr_row r))).
Qed.

(** The first page's configuration, from which those with a cursor differ in cursor and direction. *)
Definition first_cfg (i : HistoryMessageInputDTO) : HistoryConfig :=
  MkConfig (page_size (hq_Size i)) zero_cursor false DirectionAfter MessageHistoryColumns (cfg_Codec (history_cfg i))
    (Some MessageHistoryCursorMapper).

Lemma valid_cfg (cfg : HistoryConfig) : cfg_Columns cfg = MessageHistoryColumns -> 1 <= cfg_Limit cfg ->
  known_direction (cfg_Direction cfg) = true -> is_Some (cfg_Codec cfg) -> is_Some (cfg_Mapper cfg) ->
  ValidateConfig cfg = OK tt.
Proof.
  intros Hc Hl Hd [codec Hcodec] [m Hm]. unfold ValidateConfig. rewrite Hc, Hd, Hcodec, Hm. rewrite decide_False by lia. done.
Qed.

Lemma codec_some i : is_Some (cfg_Codec (history_cfg i)).
Proof. unfold history_cfg. destruct (hq_Cursor i) as [c|]; [destruct (parseMessageHistoryFields _)|]; by eexists. Qed.

Lemma history_cfg_cursor i c : hq_Cursor i = Some c -> pc_ID c <> uuid_Nil ->
  history_cfg i = with_cursor (MkHistoryCursor (pc_ID c) false)
    (if pc_Around c then DirectionAround else if pc_Direction c then DirectionBefore else DirectionAfter) (first_cfg i).
Proof.
  intros Hc Hn. unfold first_cfg, history_cfg, with_cursor. rewrite Hc. unfold parseMessageHistoryFields.
  rewrite decide_False by done. by rewrite andb_true_r.
Qed.

(** Where a page lies in the list: what it shows, and whether rows follow and precede it. *)
Definition shows (i : HistoryMessageInputDTO) (all : list ViewRow) (page : list HistoryMessage) (info : HistoryPageInfo) : Prop :=
  let n := Z.to_nat (page_size (hq_Size i)) in
  let half := Z.to_nat (page_size (hq_Size i) / 2) in
  let cut rows next prev :=
    page = history_view i <$> rows /\ pi_HasNextPage info = next /\ pi_HasPrevPage info = prev in
  match hq_Cursor i with
  | None => cut (take n all) (n <? length all)%nat false
  | Some c => forall k r, all !! k = Some r -> pc_ID c = m_id (vr_row r) ->
      if pc_Around c
      then cut (skipn (k - half) (take (k + (n - half)) all)) (k + (n - half) <? length all)%nat (half <? k)%nat
      else if pc_Direction c then cut (skipn (k - n) (take k all)) (0 <? k)%nat (n <? k)%nat
      else cut (take n (skipn (S k) all)) (n + S k <? length all)%nat (S k <? length all)%nat
  end.

(** The cursors of a page name its last and its first message. *)
Definition edges (page : list HistoryMessage) (info : HistoryPageInfo) : Prop :=
  (pi_HasNextPage info = true -> exists m, last page = Some m /\ pi_NextCursor info = MkHistoryCursor (hm_ID m) false) /\
  (pi_HasPrevPage info = true -> exists m, head page = Some m /\ pi_PrevCursor info = MkHistoryCursor (hm_ID m) false).

Lemma edges_view i rows (info : HistoryPageInfo) :
  (pi_HasNextPage info = true -> exists r, last rows = Some r /\ history_cursor i r = OK (pi_NextCursor info)) ->
  (pi_HasPrevPage info = true -> exists r, head rows = Some r /\ history_cursor i r = OK (pi_PrevCursor info)) ->
  edges (history_view i <$> rows) info.
Proof.
  intros Hn Hp. split; intros Hb.
  - destruct (Hn Hb) as (r & Hr & [= <-]). exists (history_view i r). by rewrite fmap_last, Hr.
  - destruct (Hp Hb) as (r & Hr & [= <-]). exists (history_view i r). by rewrite head_map, Hr.
Qed.

(** The cursor asked with is the id of a message of the list. *)
Definition anchored (i : HistoryMessageInputDTO) (all : list ViewRow) : Prop :=
  forall c, hq_Cursor i = Some c -> exists k r, all !! k = Some r /\ pc_ID c = m_id (vr_row r).

Lemma not_nil_length {A} (l : list A) : negb (bool_decide (l = [])) = (0 <? length l)%nat.
Proof. by destruct l. Qed.

Section pages.
Context (i : HistoryMessageInputDTO) (at_ : Time) (d : DB).
Context (Hj : codecs_total) (Hwf : history_wf d) (Hid : "id" ∈ history_fields i).

Let all := history_list i at_ d.
Let base := mq_base (ToSQL json_codec (history_query json_codec i)).2.
Let n := Z.to_nat (page_size (hq_Size i)).

Lemma list_sorted : ordered N.ltb view_column MessageHistoryColumns base (v_messages at_ d) = all.
Proof. by apply ordered_list. Qed.

Lemma list_ids k r : all !! k = Some r -> m_id (vr_row r) <> uuid_Nil.
Proof.
  intros Hr Hn0. apply (proj1 (proj2 Hwf)). rewrite <- Hn0. apply list_elem_of_fmap_2.
  apply list_elem_of_lookup_2 in Hr. unfold all, history_list in Hr. rewrite merge_sort_Permutation in Hr.
  apply list_elem_of_In, filter_In in Hr as [Hr%list_elem_of_In _]. by apply elem_of_view in Hr as (Hr & _).
Qed.

(** Two positions of the list never hold the same id. *)
Lemma list_position k k' r r' : all !! k = Some r -> all !! k' = Some r' -> m_id (vr_row r) = m_id (vr_row r') -> k = k' /\ r = r'.
Proof.
  intros Hr Hr' He. pose proof (wanted_unique i at_ d Hwf) as Hu.
  assert (NoDup (key view_column (effective MessageHistoryColumns DirectionAfter) <$> all)) as Hnd.
  { unfold all, history_list. rewrite merge_sort_Permutation. by rewrite <- (selected_wanted i at_ d). }
  assert (k = k') as <-; [|split; [done|congruence]].
  eapply NoDup_lookup; [exact Hnd|..]; rewrite list_lookup_fmap; [by rewrite Hr|]. rewrite Hr'. simpl.
  unfold key. simpl. unfold view_column. simpl. by rewrite He.
Qed.

Lemma first_keyset : keyset view_column base (v_messages at_ d) (first_cfg i) (history_cursor i).
Proof.
  pose proof (history_size_bounds (hq_Size i)) as Hn.
  apply history_keyset; try done. apply valid_cfg; [done|simpl; lia|done|apply codec_some|by eexists].
Qed.

(** The first page. *)
Lemma run_first : hq_Cursor i = None ->
  exists rows info, page_of i (v_messages at_ d) = OK (rows, info) /\
    shows i all (history_view i <$> rows) info /\ edges (history_view i <$> rows) info.
Proof.
  intros Hc. pose proof (history_size_bounds (hq_Size i)) as Hn. unfold page_of, shows. rewrite Hc.
  assert (history_cfg i = first_cfg i) as Hcfg by (unfold first_cfg, history_cfg; by rewrite Hc).
  rewrite Hcfg, decide_False by done. fold base.
  destruct (first_page N.ltb view_column zero_cursor _ _ _ (first_cfg i) first_keyset eq_refl eq_refl) as (info & Hf & H1 & H2 & H3 & H4).
  change (cfg_Columns (first_cfg i)) with MessageHistoryColumns in *. change (cfg_Limit (first_cfg i)) with (page_size (hq_Size i)) in *.
  rewrite list_sorted in *. fold n in Hf, H1, H2, H3, H4. exists (take n all), info. split; [exact Hf|].
  split; [|apply edges_view; [exact H3|exact H4]]. simpl in H1, H2. split; [done|].
  rewrite H1, H2, !not_nil_length, length_firstn. split; [|by destruct (0 <? _)%nat]. fold n.
  destruct (Nat.ltb_spec n (length all)); [|by rewrite andb_false_r].
  rewrite andb_true_r. apply Nat.ltb_lt. lia.
Qed.

Section at_cursor.
Context (c : HistoryMessageCursor) (k : nat) (r : ViewRow).
Context (Hc : hq_Cursor i = Some c) (Hr : all !! k = Some r) (Hcr : pc_ID c = m_id (vr_row r)).

Lemma cursor_cfg : history_cfg i = with_cursor (MkHistoryCursor (pc_ID c) false)
    (if pc_Around c then DirectionAround else if pc_Direction c then DirectionBefore else DirectionAfter) (first_cfg i).
Proof. apply history_cfg_cursor; [done|]. rewrite Hcr. by eapply list_ids. Qed.

(** Every row asked for shows where it should. *)
Lemma shows_at rows info :
  (let cut rows' next prev := rows = rows' /\ pi_HasNextPage info = next /\ pi_HasPrevPage info = prev in
   let half := Z.to_nat (page_size (hq_Size i) / 2) in
   if pc_Around c
   then cut (skipn (k - half) (take (k + (n - half)) all)) (k + (n - half) <? length all)%nat (half <? k)%nat
   else if pc_Direction c then cut (skipn (k - n) (take k all)) (0 <? k)%nat (n <? k)%nat
   else cut (take n (skipn (S k) all)) (n + S k <? length all)%nat (S k <? length all)%nat) ->
  shows i all (history_view i <$> rows) info.
Proof.
  unfold shows. rewrite Hc. intros Hs k' r' Hr' Hcr'.
  destruct (list_position k' k r' r Hr' Hr) as [-> ->]; [congruence|].
  destruct (pc_Around c); [|destruct (pc_Direction c)]; destruct Hs as (-> & -> & ->); done.
Qed.

Lemma run_around : pc_Around c = true ->
  exists rows info, page_of i (v_messages at_ d) = OK (rows, info) /\
    shows i all (history_view i <$> rows) info /\ edges (history_view i <$> rows) info.
Proof.
  intros Ha. pose proof (history_size_bounds (hq_Size i)) as Hn. unfold page_of. rewrite cursor_cfg, Ha, decide_True by done. fold base.
  set (cfg := with_cursor (MkHistoryCursor (pc_ID c) false) DirectionAround (first_cfg i)).
  assert (keyset view_column base (v_messages at_ d) cfg (history_cursor i)) as K1.
  { apply history_keyset; try done. apply valid_cfg; [done|simpl; lia|done|apply codec_some|by eexists]. }
  pose proof (history_cursor_id i r Hid) as Hext. rewrite <- Hcr in Hext.
  destruct (around_window N.ltb view_column zero_cursor _ _ _ cfg k r _
    (fun x => newerThan (hc_ID (cfg_Cursor cfg)) (history_view i x)) K1 eq_refl eq_refl
    (eq_trans (f_equal (fun l => l !! k) list_sorted) Hr) Hext) as (info & Hf & _ & _ & Hprev & Hnext & He1 & He2).
  { intros x. simpl. unfold newerThan, precedes, view_column. simpl. rewrite Hcr, andb_false_r, orb_false_r.
    unfold history_view, selectMessageFields, when_selected. simpl. by rewrite (bool_decide_true _ Hid). }
  change (cfg_Columns cfg) with MessageHistoryColumns in *. change (cfg_Limit cfg) with (page_size (hq_Size i)) in *.
  rewrite list_sorted in *. eexists _, info. split; [exact Hf|]. split; [|apply edges_view; [exact He1|exact He2]].
  apply shows_at. rewrite Ha. by split.
Qed.

Lemma run_cursor : pc_Around c = false ->
  exists rows info, page_of i (v_messages at_ d) = OK (rows, info) /\
    shows i all (history_view i <$> rows) info /\ edges (history_view i <$> rows) info.
Proof.
  intros Ha. pose proof (history_size_bounds (hq_Size i)) as Hn. unfold page_of.
  rewrite cursor_cfg, Ha, decide_False by (simpl; by destruct (pc_Direction c)). fold base.
  assert (page_direction (if pc_Direction c then DirectionBefore else DirectionAfter)) as Hpd
    by (destruct (pc_Direction c); [by right|by left]).
  pose proof (history_cursor_id i r Hid) as Hext. rewrite <- Hcr in Hext.
  destruct (cursor_page N.ltb view_column zero_cursor _ _ _ (first_cfg i) _ k r _ first_keyset Hpd
    (eq_trans (f_equal (fun l => l !! k) list_sorted) Hr) Hext) as (info & Hf & H1 & H2 & H3 & H4).
  change (cfg_Columns (first_cfg i)) with MessageHistoryColumns in *.
  change (cfg_Limit (first_cfg i)) with (page_size (hq_Size i)) in *. rewrite list_sorted in *.
  eexists _, info. split; [exact Hf|]. split; [|apply edges_view; [exact H3|exact H4]].
  apply shows_at. rewrite Ha, H1, H2, !not_nil_length. apply lookup_lt_Some in Hr. fold n.
  assert (0 < n)%nat as Hn0 by (unfold n; lia). clear H1 H2 H3 H4 Hf.
  destruct (pc_Direction c); simpl; (split; [done|]); rewrite ?length_skipn, ?length_firstn, ?length_skipn, ?andb_true_r.
  - rewrite Nat.min_l by lia.
    destruct (Nat.ltb_spec n k), (Nat.ltb_spec 0 (k - (k - n))), (Nat.ltb_spec 0 k); simpl; split; (done || lia).
  - destruct (Nat.ltb_spec n (length all - S k)), (Nat.ltb_spec 0 (n `min` (length all - S k))),
      (Nat.ltb_spec (n + S k) (length all)), (Nat.ltb_spec (S k) (length all)); simpl; split; (done || lia).
Qed.
End at_cursor.

Lemma page_run : anchored i all ->
  exists rows info, page_of i (v_messages at_ d) = OK (rows, info) /\
    shows i all (history_view i <$> rows) info /\ edges (history_view i <$> rows) info.
Proof.
  intros Han. destruct (hq_Cursor i) as [c|] eqn:Hc; [|by apply run_first].
  destruct (Han c Hc) as (k & r & Hr & Hcr). destruct (pc_Around c) eqn:Ha; [by eapply run_around|by eapply run_cursor].
Qed.
End pages.
End queries.
