(* ===== verification/HistoryRules.v ===== *)
(** * HistoryRules: theorems on reading the history

    The pattern of a search term matches the term literally; a page of the
    history is a window of the messages the caller asked for, the newest first;
    what the search finds lies in the time the caller was a member; the
    enricher changes links only. *)
From Stdlib Require Import Ascii.
From S2P Require Import Prelude Domain Events Message World Text Paginator PaginatorRules MediaProcessor Samples DialogStore PreviewStore MessageStore.
From S2P Require Import ReactionStore MessageActions MessageView HistoryQueries History HistoryFacts.
#[local] Open Scope Z_scope.

(** ** Patterns *)
Section like.

(** A text of well-formed UTF-8 sequences. *)
Definition valid_text (s : string) : Prop := Forall (fun r => rune_size r = String.length r /\ r <> "") (runes 0 s).

Lemma rune_size_app r t : rune_size r = String.length r -> r <> "" -> rune_size (r +:+ t) = String.length r.
Proof.
  destruct r as [|a [|b [|c [|e [|f r]]]]]; intros Hr Hn; try done; unfold rune_size, byte_at in *; simpl in *;
    repeat lazymatch type of Hr with
    | (if ?b then _ else _) = _ => destruct b; [try discriminate Hr; try reflexivity|]
    end; discriminate Hr.
Qed.

Lemma append_assoc (a b c : string) : (a +:+ b) +:+ c = a +:+ (b +:+ c).
Proof. induction a as [|x a IH]; [done|]. exact (f_equal (String _) IH). Qed.

Lemma append_nil_r (a : string) : a +:+ "" = a.
Proof. induction a as [|x a IH]; [done|]. exact (f_equal (String _) IH). Qed.

Lemma runes_skip s t : runes (String.length s) (s +:+ t) = runes 0 t.
Proof. by induction s. Qed.

Lemma substring_take r t : String.substring 0 (String.length r) (r +:+ t) = r.
Proof. induction r as [|c r IH]; [by destruct t|]. exact (f_equal (String _) IH). Qed.

(** Texts made of whole runes are read rune by rune. *)
Lemma runes_concat (l : list string) t : Forall (fun r => rune_size r = String.length r /\ r <> "") l ->
  runes 0 (concat_runes l +:+ t) = l ++ runes 0 t.
Proof.
  intros Hl. induction Hl as [|r l [Hr Hn] Hl IH]; [done|].
  assert (concat_runes (r :: l) +:+ t = r +:+ (concat_runes l +:+ t)) as ->.
  { unfold concat_runes. destruct l; simpl; [done|]. by rewrite append_assoc. }
  set (u := concat_runes l +:+ t) in *. pose proof (rune_size_app r u Hr Hn) as Hs.
  destruct r as [|c r]; [done|]. pose proof (substring_take (String c r) u) as Hp.
  change (String c r +:+ u) with (String c (r +:+ u)) in *. cbn [runes]. unfold rune_width. rewrite Hs.
  change (Nat.max 1 (String.length (String c r))) with (String.length (String c r)). rewrite Hp.
  change (String.length (String c r) - 1)%nat with (String.length r - 0)%nat. rewrite Nat.sub_0_r, runes_skip, IH. done.
Qed.

(** The escaped term, rune by rune. *)
Definition escaped (c : string) : list string := if bool_decide (c ∈ ["\"; "%"; "_"]) then ["\"; c] else [c].

Lemma escape_escaped c : escape_char c = concat_runes (escaped c).
Proof.
  unfold escape_char, escaped.
  destruct (decide (c = "\")) as [->|H1]; [done|]. destruct (decide (c = "%")) as [->|H2]; [done|].
  destruct (decide (c = "_")) as [->|H3]; [done|].
  rewrite bool_decide_false; [done|]. rewrite !elem_of_cons, elem_of_nil. intuition.
Qed.

Lemma concat_runes_app l1 l2 : concat_runes (l1 ++ l2) = concat_runes l1 +:+ concat_runes l2.
Proof.
  unfold concat_runes. induction l1 as [|x l1 IH]; [done|]. destruct l1 as [|y l1].
  - destruct l2; simpl; [by rewrite append_nil_r|done].
  - change ((x :: y :: l1) ++ l2) with (x :: (y :: l1) ++ l2).
    change (String.concat "" (x :: (y :: l1) ++ l2)) with (x +:+ "" +:+ String.concat "" ((y :: l1) ++ l2)).
    rewrite IH. change (String.concat "" (x :: y :: l1)) with (x +:+ "" +:+ String.concat "" (y :: l1)).
    simpl. by rewrite append_assoc.
Qed.

Lemma likeEscaper_runes term : likeEscaper term = concat_runes (runes 0 term ≫= escaped).
Proof.
  unfold likeEscaper. induction (runes 0 term) as [|c l IH]; [done|].
  change (escape_char <$> c :: l) with ([escape_char c] ++ (escape_char <$> l)). rewrite concat_runes_app, IH.
  cbn [mbind list_bind]. rewrite concat_runes_app. f_equal. rewrite <- escape_escaped. done.
Qed.

Lemma escaped_valid c : rune_size c = String.length c /\ c <> "" ->
  Forall (fun r => rune_size r = String.length r /\ r <> "") (escaped c).
Proof. intros Hc. unfold escaped. destruct (bool_decide _); repeat constructor; by destruct Hc. Qed.

Lemma LikeContains_runes term : valid_text term ->
  runes 0 (LikeContains term) = "%" :: (runes 0 term ≫= escaped) ++ ["%"].
Proof.
  intros Hv. unfold LikeContains. rewrite likeEscaper_runes.
  assert (Forall (fun r => rune_size r = String.length r /\ r <> "") (runes 0 term ≫= escaped)) as Hf.
  { unfold valid_text in Hv. induction Hv; simpl; [constructor|]. apply Forall_app. split; [by apply escaped_valid|done]. }
  pose proof (runes_concat ["%"] (concat_runes (runes 0 term ≫= escaped) +:+ "%")) as H1.
  rewrite (runes_concat _ "%" Hf) in H1. apply H1. by repeat constructor.
Qed.

(** Case folding neither makes nor removes a character with a meaning in patterns. *)
Definition keeps_wildcards (fold : string -> string) : Prop := forall c w, w ∈ ["\"; "%"; "_"] -> fold c = w <-> c = w.

Lemma like_literal fold (l p text : list string) : keeps_wildcards fold ->
  like ((fold <$> l ≫= escaped) ++ p) text = true <-> exists rest, text = (fold <$> l) ++ rest /\ like p rest = true.
Proof.
  intros Hk. assert (forall c w, w ∈ ["\"; "%"; "_"] -> c <> w -> fold c <> w) as Hne
    by (intros c w Hw Hc Hf; by apply Hc, Hk).
  revert text. induction l as [|c l IH]; intros text; simpl.
  { split; [by exists text|]. by intros (? & -> & ?). }
  rewrite fmap_app, <- (app_assoc (fold <$> escaped c)). unfold escaped. case_bool_decide as Hc.
  - assert (fold "\" = "\") as Hb by (apply Hk; set_solver). assert (fold c = c) as Hcc by (apply Hk; done).
    simpl. rewrite Hb, Hcc, !decide_False, decide_True by done. destruct text as [|x text].
    + split; [done|]. by intros (? & ? & ?).
    + rewrite andb_true_iff, bool_decide_eq_true, IH. split.
      * intros (<- & rest & -> & Hp). by exists rest.
      * intros (rest & [= -> ->] & Hp). split; [done|]. by exists rest.
  - assert (fold c <> "%" /\ fold c <> "_" /\ fold c <> "\") as (H1 & H2 & H3)
      by (split_and!; apply Hne; set_solver).
    simpl. rewrite !decide_False by done. destruct text as [|x text].
    + split; [done|]. by intros (? & ? & ?).
    + rewrite andb_true_iff, bool_decide_eq_true, IH. split.
      * intros (-> & rest & -> & Hp). by exists rest.
      * intros (rest & [= -> ->] & Hp). split; [done|]. by exists rest.
Qed.

Lemma like_any p text : like ("%" :: p) text = true <-> exists before rest, text = before ++ rest /\ like p rest = true.
Proof.
  cbn [like]. rewrite decide_True by done. induction text as [|x text IH].
  - rewrite orb_false_r. split; [by exists [], []|]. by intros ([|] & [|] & ? & ?).
  - rewrite orb_true_iff, IH. split.
    + intros [Hp|(before & rest & -> & Hp)]; [by exists [], (x :: text)|by exists (x :: before), rest].
    + intros ([|y before] & rest & He & Hp); simpl in He; [left; by subst|]. injection He as -> ->. right. by exists before, rest.
Qed.

(** [text] contains [term], upper and lower case aside. *)
Definition contains_term {H : HistoryEnv} (text term : string) : Prop :=
  exists before after, henv_lower <$> runes 0 text = before ++ (henv_lower <$> runes 0 term) ++ after.

Lemma like_contains {H : HistoryEnv} term text : keeps_wildcards henv_lower -> valid_text term ->
  ilike text (LikeContains term) = true <-> contains_term text term.
Proof.
  intros Hk Hv. unfold ilike, contains_term. rewrite LikeContains_runes by done.
  assert (henv_lower "%" = "%") as Hp by (apply Hk; set_solver).
  rewrite fmap_cons, fmap_app, Hp, like_any. split.
  - intros (before & rest & -> & (after & -> & _)%like_literal); [|done]. by exists before, after.
  - intros (before & after & ->). exists before, ((henv_lower <$> runes 0 term) ++ after). split; [done|].
    apply like_literal; [done|]. exists after. split; [done|]. rewrite list_fmap_singleton, Hp. apply like_any.
    exists after, []. by rewrite app_nil_r.
Qed.

(** Trimming twice is trimming once. *)
Definition trim (l : list string) : list string := list.reverse (drop_spaces (list.reverse (drop_spaces l))).

Lemma drop_spaces_head l x l' : drop_spaces l = x :: l' -> is_space x = false.
Proof. induction l as [|y l IH]; simpl; [done|]. destruct (is_space y) eqn:Hy; [done|]. by intros [= -> _]. Qed.

Lemma drop_spaces_kept x l : is_space x = false -> drop_spaces (x :: l) = x :: l.
Proof. simpl. by intros ->. Qed.

Lemma drop_spaces_end l x : is_space x = false -> exists l', drop_spaces (l ++ [x]) = l' ++ [x].
Proof.
  intros Hx. induction l as [|y l IH]; simpl; [rewrite Hx; by exists []|].
  destruct (is_space y); [done|]. by exists (y :: l).
Qed.

Lemma drop_spaces_again l : drop_spaces (drop_spaces l) = drop_spaces l.
Proof. destruct (drop_spaces l) as [|x l'] eqn:Hl; [done|]. by apply drop_spaces_kept, (drop_spaces_head l x l'). Qed.

Lemma trim_again l : trim (trim l) = trim l.
Proof.
  unfold trim at 1. assert (drop_spaces (trim l) = trim l) as ->.
  - unfold trim. destruct (drop_spaces l) as [|x m] eqn:Hl; [done|].
    assert (is_space x = false) as Hx by by eapply drop_spaces_head. rewrite reverse_cons.
    destruct (drop_spaces_end (list.reverse m) x Hx) as [m' ->]. rewrite reverse_snoc. by apply drop_spaces_kept.
  - unfold trim. by rewrite reverse_involutive, drop_spaces_again.
Qed.

Lemma drop_spaces_suffix l : exists l', l = l' ++ drop_spaces l.
Proof. induction l as [|x l [l' IH]]; simpl; [by exists []|]. destruct (is_space x); [exists (x :: l'); simpl; by f_equal|by exists []]. Qed.

Lemma trim_part l : exists before after, l = before ++ trim l ++ after.
Proof.
  destruct (drop_spaces_suffix l) as [before Hb]. destruct (drop_spaces_suffix (list.reverse (drop_spaces l))) as [after Ha].
  exists before, (list.reverse after). rewrite Hb at 1. f_equal. unfold trim.
  rewrite <- (reverse_involutive (drop_spaces l)) at 1. rewrite Ha at 1. by rewrite reverse_app.
Qed.

Lemma runes_trim s : valid_text s -> runes 0 (TrimSpace s) = trim (runes 0 s) /\ valid_text (TrimSpace s).
Proof.
  intros Hv. assert (Forall (fun r => rune_size r = String.length r /\ r <> "") (trim (runes 0 s))) as Hf.
  { unfold valid_text in Hv. destruct (trim_part (runes 0 s)) as (b & a & He). rewrite He in Hv.
    by apply Forall_app in Hv as [_ [? _]%Forall_app]. }
  pose proof (runes_concat (trim (runes 0 s)) "" Hf) as Hr. rewrite append_nil_r, app_nil_r in Hr.
  unfold valid_text. change (TrimSpace s) with (concat_runes (trim (runes 0 s))). by rewrite Hr.
Qed.

Lemma TrimSpace_again s : valid_text s -> TrimSpace (TrimSpace s) = TrimSpace s.
Proof.
  intros Hv. change (TrimSpace (TrimSpace s)) with (concat_runes (trim (runes 0 (TrimSpace s)))).
  destruct (runes_trim s Hv) as [-> _]. by rewrite trim_again.
Qed.

(** A term matches a text exactly when the text contains it, upper and lower
    case aside: percent signs, underscores and backslashes of the term stand for
    themselves. *)
Theorem LikeContains_literal {H : HistoryEnv} term text : keeps_wildcards henv_lower -> valid_text term ->
  ilike text (LikeContains term) = true <->
  exists before after, henv_lower <$> runes 0 text = before ++ (henv_lower <$> runes 0 term) ++ after.
Proof. apply like_contains. Qed.
End like.

(** ** Pages *)
Section pages.
Context {E : Env} {H : HistoryEnv} (json_codec : @CursorCodec MessageHistoryCursor).


(** Without the id among the fields the cursors of a page are nil. *)
Lemma history_cursor_nil i r : "id" ∉ history_fields json_codec i -> history_cursor json_codec i r = OK zero_cursor.
Proof.
  intros Hid. unfold history_cursor, cursor_of, history_view, selectMessageFields, when_selected. simpl.
  by rewrite bool_decide_false.
Qed.

(** What the search finds: live, among what the request selects, sent while one
    of the caller's dialogs in its thread was open. *)
Definition searched (r : SearchMessagesInputDTO) (x : ViewRow) : Prop :=
  m_deleted_at (vr_row x) = None /\
  contains_term (m_body (vr_row x)) (TrimSpace (sm_Term r)) /\
  (0 < sm_DomainID r -> m_domain_id (vr_row x) = sm_DomainID r) /\
  among (sm_ThreadIDs r) (m_thread_id (vr_row x)) = true /\
  among (sm_SenderIDs r) (m_sender_id (vr_row x)) = true /\
  among (sm_Types r) (m_type (vr_row x)) = true /\
  exists acl, acl ∈ db_dialogs (vr_db x) /\ d_thread_id acl = m_thread_id (vr_row x) /\ d_member_id acl = sm_CallerID r /\
    d_created_at acl <= m_created_at (vr_row x) /\ forall t, d_deleted_at acl = Some t -> m_created_at (vr_row x) <= t.

Lemma caller_was_there_dialog c x : caller_was_there c x = true ->
  exists acl, acl ∈ db_dialogs (vr_db x) /\ d_thread_id acl = m_thread_id (vr_row x) /\ d_member_id acl = c /\
    d_created_at acl <= m_created_at (vr_row x) /\ forall t, d_deleted_at acl = Some t -> m_created_at (vr_row x) <= t.
Proof.
  unfold caller_was_there. intros (acl & Hin & Ha)%existsb_exists. exists acl.
  rewrite !andb_true_iff, !bool_decide_eq_true in Ha. destruct Ha as (((H1 & H2) & H3) & H4).
  split_and!; [by apply list_elem_of_In|done|done|lia|]. intros t Ht. rewrite Ht in H4. lia.
Qed.

Lemma search_cursor_holds c q x : holds (WithCursor json_codec c q) x = holds q x.
Proof. by destruct c. Qed.

Lemma search_domain_holds dom q x : holds (WithDomainIDFilter dom q) x = true ->
  holds q x = true /\ (0 < dom -> m_domain_id (vr_row x) = dom).
Proof.
  unfold WithDomainIDFilter. destruct (Z.ltb_spec 0 dom); [|split; [done|lia]].
  rewrite holds_where. by intros [? ?%bool_decide_eq_true]%andb_true_iff.
Qed.

Lemma search_fields_holds fields x : holds (WithFields fields NewMessageSearchQuery) x = true -> m_deleted_at (vr_row x) = None.
Proof.
  assert (holds (WithFields fields NewMessageSearchQuery) x = holds NewMessageSearchQuery x) as -> by (by destruct fields).
  unfold holds. simpl. rewrite andb_true_r. apply bool_decide_eq_true.
Qed.

Lemma search_holds r x : keeps_wildcards henv_lower -> valid_text (sm_Term r) -> TrimSpace (sm_Term r) <> "" ->
  sm_CallerID r <> uuid_Nil -> holds (search_query json_codec (TrimSpace (sm_Term r)) r) x = true -> searched r x.
Proof.
  intros Hk Hv Ht Hc. unfold search_query. rewrite holds_allow, search_cursor_holds, limit_holds.
  unfold WithCallerScope. rewrite decide_False by done. rewrite holds_where.
  change (holds (set_caller (sm_CallerID r) ?q) x) with (holds q x).
  unfold WithTypeFilter, WithSenderIDsFilter, WithThreadIDsFilter. rewrite !holds_where_in, !andb_true_iff.
  intros [[[[[Hd Hth] Hse] Hty] Hcal] _]. apply search_domain_holds in Hd as [Hd Hdom].
  unfold WithTermFilter in Hd. rewrite (TrimSpace_again _ Hv), decide_False, holds_where, andb_true_iff in Hd by done.
  destruct Hd as [Hf Hl]. apply search_fields_holds in Hf. apply like_contains in Hl; [|done|by apply runes_trim].
  unfold searched. split_and!; try done. by apply caller_was_there_dialog.
Qed.

Lemma search_caller term r : sm_CallerID r <> uuid_Nil -> mq_caller (search_query json_codec term r) = sm_CallerID r.
Proof.
  intros Hc. unfold search_query.
  rewrite (proj2 (frame_allow _ _)).
  assert (forall c q, mq_caller (WithCursor json_codec c q) = mq_caller q) as -> by by intros [].
  rewrite (proj2 (limit_frame _ _)). unfold WithCallerScope. by rewrite decide_False.
Qed.

Lemma default_caller fields cols m q : mq_caller (with_defaults json_codec fields cols m q) = mq_caller q.
Proof. unfold with_defaults. by destruct (mq_fields q). Qed.

Lemma default_base fields cols m q : mq_base (with_defaults json_codec fields cols m q) = mq_base q.
Proof. unfold with_defaults. by destruct (mq_fields q). Qed.

(** Every message of a page is a row its statement selects. *)
Lemma page_rows (q : MessageQuery) columns w (page : list HistoryMessage) (info : HistoryPageInfo) w' :
  (rows ← SearchStore (page_sql q) v_messages columns; of_result (BuildPageInfo zero_cursor rows (mq_cfg q) cursor_of)) w =
    (OK (page, info), w') ->
  w_db w' = w_db w /\
  (forall m, m ∈ page -> exists x fields, x ∈ v_messages (w_now w) (w_db w) /\ m = columns fields x /\ holds q x = true).
Proof.
  intros Hr. step_ok Hr. apply SearchStore_ok in Hs as (s & Hs & Hd & ->). run in Hr. simpl in Hr. injection Hr as Hb <-.
  split; [done|]. intros m Hm. apply (BuildPageInfo_elem zero_cursor _ _ _ _ _ m Hb) in Hm.
  apply list_elem_of_fmap in Hm as (x & -> & Hx). unfold page_sql in Hs.
  destruct (Apply _ _ _ _) as [b|] eqn:Ha; simpl in Hs; [|done]. injection Hs as <-. simpl in Hx.
  apply run_select_elem in Hx as [Hx Hw]. exists x, (mq_fields q). split_and!; [done..|].
  by apply (Apply_where N.ltb view_column _ _ _ _ Ha).
Qed.

(** (C13) Whatever the search returns is a live message that contains the term and
    was sent while one of the caller's dialogs in its thread was open, in the
    domain, threads, senders and types the request names.  A search without a term,
    with one of more than 256 characters or without a caller is refused. *)
Theorem SearchMessages_scope r w page info w' : keeps_wildcards henv_lower -> valid_text (sm_Term r) ->
  SearchMessages json_codec (Some r) w = (OK (page, info), w') ->
  TrimSpace (sm_Term r) <> "" /\ Z.of_nat (length (runes 0 (TrimSpace (sm_Term r)))) <= 256 /\ sm_CallerID r <> uuid_Nil /\
  w_db w' = w_db w /\
  forall m, m ∈ page -> exists x fields, x ∈ v_messages (w_now w) (w_db w) /\ m = selectMessageFields fields (sm_CallerID r) x /\
    searched r x.
Proof.
  intros Hk Hv. unfold SearchMessages. case_bool_decide as Ht; [done|]. rewrite orb_false_l.
  destruct (Z.ltb_spec 256 (Z.of_nat (length (runes 0 (TrimSpace (sm_Term r)))))) as [|Hl]; [done|].
  destruct (decide _) as [|Hc]; [done|]. unfold SearchToSQL.
  set (q0 := search_query json_codec (TrimSpace (sm_Term r)) r).
  set (q := with_defaults _ _ _ _ q0). intros Hr.
  assert (mq_caller q = sm_CallerID r) as Hcal by (unfold q; rewrite default_caller; by apply search_caller).
  rewrite Hcal in Hr. assert (forall x, holds q x = holds q0 x) as Hq by (intros x; unfold holds, q; by rewrite default_base).
  split_and!; try done; [by apply (page_rows _ _ _ _ _ _ Hr)|].
  intros m Hm. destruct (page_rows _ _ _ _ _ _ Hr) as [_ Hp]. destruct (Hp m Hm) as (x & fields & Hx & -> & Hh).
  exists x, fields. split_and!; [done..|]. rewrite Hq in Hh. by apply search_holds.
Qed.
End pages.

(** ** The links of attachments *)
Section links.
Context {E : Env} {H : HistoryEnv} {X : MessageEnv} (json_codec : @CursorCodec MessageHistoryCursor).

Lemma add_unique_elem x y l : y ∈ l \/ (y = x /\ x <> 0) -> y ∈ add_unique x l.
Proof.
  unfold add_unique. intros [Hy|[-> Hx]]; [case_decide; [done|]|rewrite decide_False by done]; case_bool_decide; try done;
    apply elem_of_app; [by left|right; by apply list_elem_of_singleton].
Qed.

Lemma fold_add_elem {A} (f : A -> Z) (xs : list A) l y :
  y ∈ l \/ (exists x, x ∈ xs /\ f x = y /\ y <> 0) -> y ∈ fold_left (fun l x => add_unique (f x) l) xs l.
Proof.
  revert l. induction xs as [|x xs IH]; intros l Hy; simpl.
  - destruct Hy as [Hy|(x & Hx & _)]; [done|]. by apply not_elem_of_nil in Hx.
  - apply IH. destruct Hy as [Hy|(z & Hz & Hf & Hn)]; [left; apply add_unique_elem; by left|].
    apply elem_of_cons in Hz as [->|Hz]; [left; apply add_unique_elem; right; by subst|right; by exists z].
Qed.

Lemma collect_from messages l y :
  y ∈ l \/ (exists m, m ∈ messages /\ y <> 0 /\
    ((exists x, x ∈ hm_Documents m /\ hd_FileID x = y) \/ (exists x, x ∈ hm_Images m /\ hi_FileID x = y))) ->
  y ∈ fold_left (fun l m =>
    fold_left (fun l img => add_unique (hi_FileID img) l) (hm_Images m)
      (fold_left (fun l doc => add_unique (hd_FileID doc) l) (hm_Documents m) l)) messages l.
Proof.
  revert l. induction messages as [|m ms IH]; intros l Hy; simpl.
  - destruct Hy as [Hy|(x & Hx & _)]; [done|]. by apply not_elem_of_nil in Hx.
  - apply IH. destruct Hy as [Hy|(m' & Hm & Hn & Hx)]; [left; apply fold_add_elem; left; apply fold_add_elem; by left|].
    apply elem_of_cons in Hm as [->|Hm]; [|right; by exists m'].
    left. apply fold_add_elem. destruct Hx as [(x & Hx & Hf)|(x & Hx & Hf)]; [left; apply fold_add_elem; right|right]; by exists x.
Qed.

(** Every file of the page is asked for. *)
Lemma collect_files messages m y : m ∈ messages -> y <> 0 ->
  (exists x, x ∈ hm_Documents m /\ hd_FileID x = y) \/ (exists x, x ∈ hm_Images m /\ hi_FileID x = y) ->
  y ∈ collectUniqueFileIDs messages.
Proof. intros Hm Hy Hx. apply collect_from. right. by exists m. Qed.

Lemma zip_lookup_some {A} (ids : list Z) (ls : list A) y : length ls = length ids -> y ∈ ids ->
  exists l, (list_to_map (zip ids ls) : gmap Z A) !! y = Some l.
Proof.
  intros Hl Hy. destruct ((list_to_map (zip ids ls) : gmap Z A) !! y) as [l|] eqn:Hn; [by exists l|].
  apply not_elem_of_list_to_map_2 in Hn. rewrite fst_zip in Hn by lia. done.
Qed.

Definition set_document_url (url : string) (x : HistoryDocument) : HistoryDocument :=
  MkHistoryDocument (hd_ID x) (hd_MessageID x) (hd_FileID x) (hd_Name x) (hd_Mime x) (hd_Size x) (hd_CreatedAt x) url.
Definition set_image_url (url : string) (x : HistoryImage) : HistoryImage :=
  MkHistoryImage (hi_ID x) (hi_MessageID x) (hi_FileID x) (hi_Name x) (hi_Mime x) (hi_CreatedAt x) url.

Lemma processAttachments_ok {T} (fileID : T -> Z) enrich (links : gmap Z FileLinkResponse) useMD items ys :
  processAttachments fileID enrich links useMD items = OK ys ->
  Forall2 (fun x y => match links !! fileID x with None => y = x | Some l => enrich x l useMD = OK y end) items ys.
Proof.
  revert ys. induction items as [|x items IH]; intros ys; simpl; [intros [= <-]; constructor|].
  destruct (links !! fileID x) as [l|] eqn:Hl.
  - destruct (enrich x l useMD) as [y|] eqn:He; simpl; [|done].
    destruct (processAttachments _ _ _ _ items) as [zs|]; simpl; [|done]. intros [= <-]. constructor; [by rewrite Hl|by apply IH].
  - simpl. destruct (processAttachments _ _ _ _ items) as [zs|]; simpl; [|done]. intros [= <-].
    constructor; [by rewrite Hl|by apply IH].
Qed.

(** The link of a file, by the answer of the storage service. *)
Definition linked (links : gmap Z FileLinkResponse) (fileID : Z) (before after : string) : Prop :=
  match links !! fileID with None => after = before | Some l => resolve_link l = OK after end.

Definition with_links (links : gmap Z FileLinkResponse) (m m' : HistoryMessage) : Prop :=
  exists docs imgs, m' = set_attachments docs imgs m /\
    Forall2 (fun x y => exists url, y = set_document_url url x /\ linked links (hd_FileID x) (hd_URL x) url) (hm_Documents m) docs /\
    Forall2 (fun x y => exists url, y = set_image_url url x /\ linked links (hi_FileID x) (hi_URL x) url) (hm_Images m) imgs.

(** The metadata of storage is used for no attachment of the message. *)
Definition own_metadata (md : Metadata) (m : HistoryMessage) : Prop :=
  (use_DocumentStorageMD md = false \/ hm_Documents m = []) /\ (use_ImageStorageMD md = false \/ hm_Images m = []).

Lemma enrich_documents links useMD (items ys : list HistoryDocument) : useMD = false \/ items = [] ->
  processAttachments hd_FileID enrichDocument links useMD items = OK ys ->
  Forall2 (fun x y => exists url, y = set_document_url url x /\ linked links (hd_FileID x) (hd_URL x) url) items ys.
Proof.
  intros [->| ->] Hp%processAttachments_ok; [|apply Forall2_nil_inv_l in Hp as ->; constructor].
  eapply Forall2_impl; [exact Hp|]. intros x y Hy. cbv beta in Hy. unfold linked. destruct (links !! hd_FileID x) as [l|].
  - unfold enrichDocument in Hy. destruct (resolve_link l) as [url|]; simpl in Hy; [|done]. exists url. by injection Hy as <-.
  - exists (hd_URL x). subst. by destruct x.
Qed.

Lemma enrich_images links useMD (items ys : list HistoryImage) : useMD = false \/ items = [] ->
  processAttachments hi_FileID enrichImage links useMD items = OK ys ->
  Forall2 (fun x y => exists url, y = set_image_url url x /\ linked links (hi_FileID x) (hi_URL x) url) items ys.
Proof.
  intros [->| ->] Hp%processAttachments_ok; [|apply Forall2_nil_inv_l in Hp as ->; constructor].
  eapply Forall2_impl; [exact Hp|]. intros x y Hy. cbv beta in Hy. unfold linked. destruct (links !! hi_FileID x) as [l|].
  - unfold enrichImage in Hy. destruct (resolve_link l) as [url|]; simpl in Hy; [|done]. exists url. by injection Hy as <-.
  - exists (hi_URL x). subst. by destruct x.
Qed.

Lemma enrichMessages_ok links md ms ms' : Forall (own_metadata md) ms -> enrichMessages links md ms = OK ms' ->
  Forall2 (with_links links) ms ms'.
Proof.
  intros Hf. revert ms'. induction Hf as [|m ms [Hd Hi] Hf IH]; intros ms'; simpl; [intros [= <-]; constructor|].
  destruct (processAttachments hd_FileID _ _ _ _) as [docs|] eqn:Hdocs; simpl; [|done].
  destruct (processAttachments hi_FileID _ _ _ _) as [imgs|] eqn:Himgs; simpl; [|done].
  destruct (enrichMessages links md ms) as [rest|]; simpl; [|done]. intros [= <-]. constructor; [|by apply IH].
  exists docs, imgs. split; [done|]. split; [by eapply enrich_documents|by eapply enrich_images].
Qed.

(** What the storage service answers for the files of a page. *)
Definition fetched (messages : list HistoryMessage) (domainID : Z) (links : gmap Z FileLinkResponse) : Prop :=
  (collectUniqueFileIDs messages = [] /\ links = ∅) \/
  exists md ls, henv_links domainID (collectUniqueFileIDs messages) md = OK ls /\
    length ls = length (collectUniqueFileIDs messages) /\ links = list_to_map (zip (collectUniqueFileIDs messages) ls).

Lemma with_no_links m : with_links ∅ m m.
Proof.
  exists (hm_Documents m), (hm_Images m). split; [by destruct m|].
  split; apply Forall_Forall2_diag, Forall_forall; intros x _; [exists (hd_URL x)|exists (hi_URL x)];
    (split; [by destruct x|]); unfold linked; by rewrite lookup_empty.
Qed.

Lemma enrich_page_ok fields domainID messages (info : HistoryPageInfo) messages' (info' : HistoryPageInfo) :
  Forall (own_metadata (shouldLoadMetadata fields)) messages ->
  enrich_page fields domainID (messages, info) = OK (messages', info') ->
  info' = info /\ exists links, fetched messages domainID links /\ Forall2 (with_links links) messages messages'.
Proof.
  intros Hmd. unfold enrich_page, fetched. destruct (collectUniqueFileIDs messages) as [|id ids] eqn:Hids.
  - intros [= <- <-]. split; [done|]. exists ∅. split; [by left|].
    apply Forall_Forall2_diag, Forall_forall. intros m _. apply with_no_links.
  - rewrite <- Hids. unfold fetchFileLinks. set (b := _ || _).
    destruct (henv_links domainID _ b) as [ls|] eqn:Hls; simpl; [|done].
    destruct (decide _) as [|Hlen]; [done|]. set (links := list_to_map _).
    destruct (enrichMessages links _ messages) as [ms|] eqn:He; [|done]. intros [= <- <-].
    split; [done|]. exists links. split; [right|by eapply enrichMessages_ok].
    exists b, ls. split_and!; [done|lia|done].
Qed.

(** At least one field of the request is known, or none is named. *)
Definition known_fields (fields : list string) : Prop := fields = [] \/ valid_fields availableFields fields <> [].

Lemma valid_fields_elem available fields f : f ∈ valid_fields available fields -> f ∈ fields.
Proof.
  unfold valid_fields. assert (forall l, f ∈ fold_left (fun valid f => if available f && negb (bool_decide (f ∈ valid))
    then valid ++ [f] else valid) fields l -> f ∈ l \/ f ∈ fields) as Hg.
  { induction fields as [|g fs IH]; intros l; simpl; [by left|]. intros [Hl|Hf]%IH; [|right; by right].
    destruct (_ && _); [|by left]. apply elem_of_app in Hl as [Hl| ->%list_elem_of_singleton]; [by left|right; by left]. }
  intros [Hf|Hf]%Hg; [by apply not_elem_of_nil in Hf|done].
Qed.

Lemma history_fields_elem i f : known_fields (hq_Fields i) -> f <> "id" -> hq_Fields i <> [] ->
  f ∈ history_fields json_codec i -> f ∈ hq_Fields i.
Proof.
  intros [Hk|Hk] Hf Hne; [done|]. unfold history_fields, asked_fields.
  destruct (valid_fields availableFields (hq_Fields i)) as [|g gs] eqn:Hv; [done|]. rewrite <- Hv.
  destruct (decide _); [case_bool_decide|]; try apply valid_fields_elem.
  intros [Hx|Hx%list_elem_of_singleton]%elem_of_app; [by eapply valid_fields_elem|done].
Qed.

Lemma history_own_metadata i x : known_fields (hq_Fields i) ->
  own_metadata (shouldLoadMetadata (hq_Fields i)) (history_view json_codec i x).
Proof.
  intros Hk. unfold shouldLoadMetadata. destruct (decide (hq_Fields i = [])) as [He|Hne]; [rewrite He; by split; left|].
  assert (forall f, f <> "id" -> bool_decide (f ∈ hq_Fields i) = true \/ f ∉ history_fields json_codec i) as Hf.
  { intros f Hf. destruct (decide (f ∈ hq_Fields i)); [left; by apply bool_decide_eq_true|right].
    intros Hin. by apply history_fields_elem in Hin. }
  destruct (hq_Fields i) as [|g gs] eqn:Hfields; [done|]. rewrite <- Hfields in *.
  unfold own_metadata. simpl. unfold history_view, selectMessageFields, when_selected. simpl.
  split; [destruct (Hf "documents") as [-> |Hn]|destruct (Hf "images") as [-> |Hn]]; try done; (left; done) || (right; by rewrite bool_decide_false).
Qed.

(** When a request names no field or at least one the history knows, the
    history with links is the history itself, only that every attachment that has
    a file carries the link the storage service gave for that file: nothing else
    of a message changes, and neither do the cursors.  The metadata the service
    sends is used for no message. *)
Theorem EnrichedSearch_links i w page' info w' : known_fields (hq_Fields i) ->
  EnrichedSearch json_codec i w = (OK (page', info), w') ->
  exists page links, Search json_codec i w = (OK (page, info), w') /\ fetched page (hq_DomainID i) links /\
    Forall2 (with_links links) page page' /\
    (forall m y, m ∈ page -> y <> 0 ->
      (exists x, x ∈ hm_Documents m /\ hd_FileID x = y) \/ (exists x, x ∈ hm_Images m /\ hi_FileID x = y) ->
      is_Some (links !! y)).
Proof.
  intros Hk Hr. unfold EnrichedSearch in Hr. step_ok Hr. run in Hr. simpl in Hr. injection Hr as Hp <-.
  destruct a as [page info0]. apply enrich_page_ok in Hp as (-> & links & Hl & Hf).
  - exists page, links. split_and!; [done..|]. intros m y Hm Hy Hx.
    pose proof (collect_files page m y Hm Hy Hx) as Hin. destruct Hl as [[Hn _]|(md & ls & _ & Hlen & ->)].
    + rewrite Hn in Hin. by apply not_elem_of_nil in Hin.
    + destruct (zip_lookup_some (collectUniqueFileIDs page) ls y Hlen Hin) as [l Hl]. by exists l.
  - apply Forall_forall. intros m Hm. destruct (Search_views json_codec i w page info0 _ m Hs Hm) as [x ->].
    by apply history_own_metadata.
Qed.
End links.

(** ** Samples: a thread with five messages, the second with a document *)
#[local] Instance plain_history : HistoryEnv := {|
  henv_links := fun _ ids _ => OK ((fun _ => MkFileLinkResponse "https://files" "/file" None) <$> ids);
  henv_lower := fun c => if decide (c = "A") then "a" else c;
  henv_json_text := fun _ => None |}.

Definition plain_codec : @CursorCodec MessageHistoryCursor :=
  MkCodec (fun c => OK (pretty (hc_ID c))) (fun _ => OK (zero_cursor, false)).

Definition sent_row (id : uuid) (body : string) (seq : Z) : MessageRow :=
  MkMessageRow id 1 7 101 11 MessageTypeText body ∅ (2000 + seq) (2000 + seq) seq None None None None None None None false None None.

Definition history_db : DB :=
  on_documents (fun _ => [MkDocumentRow 700 502 9 "report" "text/plain" 12 2002])
    (on_messages (fun _ => [sent_row 501 "a%" 1; MkMessageRow 502 1 7 101 11 MessageTypeFile "" ∅ 2002 2002 2 None None None None None None None false None None;
       sent_row 503 "A% b" 3; sent_row 504 "aa" 4; sent_row 505 "a" 5]) sample_db).

Definition history_of (fields : list string) (cursor : option HistoryMessageCursor) : HistoryMessageInputDTO :=
  MkHistoryInput 7 fields [] [1%N] [] [] cursor 2 102 None.

Lemma history_db_wf : history_wf history_db.
Proof.
  split; [nodup_list|]. split; [vm_compute; intros H; repeat (apply elem_of_cons in H as [H|H]; [discriminate H|]); by apply not_elem_of_nil in H|].
  intros m Hm. simpl in Hm. in_list Hm; vm_compute; lia.
Qed.


Lemma plain_keeps : keeps_wildcards (@henv_lower plain_history).
Proof.
  intros c w Hw. simpl. destruct (decide (c = "A")) as [->|]; [|done].
  split; intros He; subst; repeat (apply elem_of_cons in Hw as [Hw|Hw]; [discriminate Hw|]); by apply not_elem_of_nil in Hw.
Qed.

Ltac plain_text := repeat (constructor; [vm_compute; split; [reflexivity|discriminate]|]); constructor.

Lemma LikeContains_literal_witness : ilike "bc A%" (LikeContains "a%") = true /\ ilike "bc Ab" (LikeContains "a%") = false.
Proof.
  split.
  - apply (LikeContains_literal "a%" "bc A%" plain_keeps); [plain_text|]. exists ["b"; "c"; " "], []. vm_compute. reflexivity.
  - vm_compute. reflexivity.
Defined.

Definition search_of (term : string) : SearchMessagesInputDTO := MkSearchInput 7 [] term [1%N] [] [] None 20 102 None.

Lemma SearchMessages_scope_witness :
  exists page info w', SearchMessages plain_codec (Some (search_of " A% ")) (world_of history_db) = (OK (page, info), w') /\
    hm_ID <$> page = [503; 501]%N /\
    forall m, m ∈ page -> exists x fields, m = selectMessageFields fields 102 x /\ contains_term (m_body (vr_row x)) "A%".
Proof.
  assert (exists page info, SearchMessages plain_codec (Some (search_of " A% ")) (world_of history_db) =
    (OK (page, info), snd (SearchMessages plain_codec (Some (search_of " A% ")) (world_of history_db))) /\
    hm_ID <$> page = [503; 501]%N) as (page & info & Hr & Hp) by (eexists _, _; split; vm_compute; reflexivity).
  exists page, info. eexists. split; [exact Hr|]. split; [exact Hp|]. intros m Hm.
  destruct (SearchMessages_scope plain_codec (search_of " A% ") _ page info _ plain_keeps ltac:(plain_text) Hr)
    as (_ & _ & _ & _ & Hs).
  destruct (Hs m Hm) as (x & fields & _ & -> & _ & Hc & _). by exists x, fields.
Defined.

Lemma EnrichedSearch_links_witness :
  exists page' info w', EnrichedSearch plain_codec (history_of [] None) (world_of history_db) = (OK (page', info), w') /\
    ((fun m => (hm_ID m, hd_URL <$> hm_Documents m)) <$> page') = [(505%N, []); (504%N, [])] /\
    exists page links, Search plain_codec (history_of [] None) (world_of history_db) = (OK (page, info), w') /\
      Forall2 (with_links links) page page'.
Proof.
  assert (exists page' info, EnrichedSearch plain_codec (history_of [] None) (world_of history_db) =
    (OK (page', info), snd (EnrichedSearch plain_codec (history_of [] None) (world_of history_db))) /\
    ((fun m => (hm_ID m, hd_URL <$> hm_Documents m)) <$> page') = [(505%N, []); (504%N, [])]) as (page' & info & Hr & Hp)
    by (eexists _, _; split; vm_compute; reflexivity).
  exists page', info. eexists. split; [exact Hr|]. split; [exact Hp|].
  destruct (EnrichedSearch_links plain_codec (history_of [] None) _ page' info _ (or_introl eq_refl) Hr)
    as (page & links & Hs & _ & Hf & _). exists page, links. by split.
Defined.

(** A document with its link. *)
Example document_linked :
  let i := history_of [] (Some (MkPageCursor 503 false false)) in
  match fst (EnrichedSearch plain_codec i (world_of history_db)) with
  | OK (page, _) => ((fun m => hd_URL <$> hm_Documents m) <$> page) = [["https://files/file"]; []]
  | Err _ => False
  end.
Proof. vm_compute. reflexivity. Qed.

(** Two buttons of a message pressed, and the message is in the view twice. *)
Example pressed_twice :
  let d := on_callbacks (fun _ => [MkCallbackRow 510 "yes" "" 3000 100; MkCallbackRow 510 "no" "" 3001 102])
    (on_messages (fun _ => [MkMessageRow 510 1 7 101 11 MessageTypeInteractive "" ∅ 2000 2000 1 None None None None None None None false None None])
      sample_db) in
  (fun r => m_id (vr_row r)) <$> v_messages 5000 d = [510; 510]%N.
Proof. vm_compute. reflexivity. Qed.

(** Asked without the id, a page has nil cursors: asking on with them starts over. *)
Example without_id_starts_over :
  match fst (Search plain_codec (history_of ["body"] None) (world_of history_db)) with
  | OK (page, info) =>
      pi_HasNextPage info = true /\ pi_NextCursor info = zero_cursor /\
      exists info', fst (Search plain_codec (history_of ["body"] (Some (MkPageCursor (hc_ID (pi_NextCursor info)) false false)))
        (world_of history_db)) = OK (page, info')
  | Err _ => False
  end.
Proof. vm_compute. split; [done|]. split; [done|]. by eexists. Qed.
