(* ===== verification/JournalRules.v ===== *)
(** * JournalRules: the journal serves what was published

    Cursors survive the wire; [Cleanup] ends, removes exactly the rows past
    their time and remembers the newest transaction it removed; a change that
    was published reaches every contact it marked, unless a newer one, not yet
    settled, has moved the mark on: then it is lost. *)
From Stdlib Require Import Ascii.
From S2P Require Import Prelude Domain Events Message World BotControlStore DialogStore Outbox MediaProcessor Samples Journal.
#[local] Open Scope Z_scope.
#[local] Opaque cleanupBatchSize.

(** ** Cursors *)
Lemma digit_value_char n : (n < 10)%N -> digit_value (pretty.pretty_N_char n) = Some (Z.of_N n).
Proof.
  intros H. destruct n as [|p]; [done|]. by do 4 (destruct p as [p|p|]; try reflexivity; try lia).
Qed.

(** Reading the digits of [n] before [s] is reading [s] from [n]. *)
Lemma parse_digits_pretty n s :
  parse_digits 0 (pretty.pretty_N_go n s) = parse_digits (Z.of_N n) s.
Proof.
  revert s. induction n as [n IH] using (well_founded_ind N.lt_wf_0). intros s.
  destruct (decide (n = 0)%N) as [->|Hn]; [done|].
  rewrite pretty.pretty_N_go_step by lia. rewrite IH by (apply N.div_lt; lia). simpl.
  rewrite digit_value_char by (apply N.mod_lt; lia). simpl. f_equal.
  rewrite N2Z.inj_div, N2Z.inj_mod. pose proof (Z.div_mod (Z.of_N n) 10). simpl in *. lia.
Qed.

Lemma pretty_head n : exists c s, pretty n = String c s /\ c <> "-"%char /\ c <> "+"%char /\ parse_digits 0 (pretty n) = Some (Z.of_N n).
Proof.
  unfold pretty at 1, pretty.pretty_N. destruct (decide (n = 0)%N) as [->|Hn].
  { exists "0"%char, EmptyString. done. }
  assert (parse_digits 0 (pretty n) = Some (Z.of_N n)) as Hp.
  { unfold pretty, pretty.pretty_N. rewrite decide_False by done. by rewrite parse_digits_pretty. }
  destruct (pretty n) as [|c s] eqn:Ec; [injection Hp; lia|].
  exists c, s. unfold pretty, pretty.pretty_N in Ec. rewrite decide_False in Ec by done. split; [done|].
  split; [|split; [|done]]; intros ->; done.
Qed.

Lemma parse_number_pretty n : parse_number (pretty n) = Some (Z.of_N n).
Proof. destruct (pretty_head n) as (c & s & Heq & _ & _ & Hp). by rewrite Heq in *. Qed.

Lemma ParseInt_any n : ParseInt (FormatInt n) = if decide (- 2 ^ 63 <= n < 2 ^ 63) then Some n else None.
Proof.
  transitivity (if (- 2 ^ 63 <=? n) && (n <? 2 ^ 63) then Some n else None);
    [|destruct (Z.leb_spec (- 2 ^ 63) n), (Z.ltb_spec n (2 ^ 63)); case_decide; simpl; done || lia].
  unfold ParseInt, FormatInt. destruct n as [|p|p]; [done| |]; unfold pretty at 1, pretty.pretty_Z at 1.
  - change (pretty p) with (pretty (N.pos p)).
    destruct (pretty_head (N.pos p)) as (c & s & Heq & Hm & Hp & Hd). rewrite Heq.
    rewrite decide_False, decide_False by done.
    change (pretty (Z.pos p)) with (pretty (N.pos p)). by rewrite parse_number_pretty.
  - change (pretty p) with (pretty (N.pos p)).
    change ("-" +:+ pretty (N.pos p)) with (String "-"%char (pretty (N.pos p))).
    cbv iota beta. rewrite decide_True by done. by rewrite parse_number_pretty.
Qed.

Lemma ParseInt_FormatInt n : - 2 ^ 63 <= n < 2 ^ 63 -> ParseInt (FormatInt n) = Some n.
Proof. intros H. by rewrite ParseInt_any, decide_True. Qed.

(** A cursor a client is given reads back as the transaction it stands
    for, over the whole range of 64-bit numbers, and nothing out of range is a
    cursor. *)
Theorem cursor_roundtrip (n : Z) :
  parseCursor (FormatInt n) = if decide (- 2 ^ 63 <= n < 2 ^ 63) then OK n else Err (ErrInvalidCursor (FormatInt n)).
Proof. unfold parseCursor. rewrite ParseInt_any. by case_decide. Qed.

(** ** Retention *)
Definition past (cutoff : Time) (r : JournalRow) : bool := j_created_at r <? cutoff.

Lemma trim_rows_spec limit old rows : let p := trim_rows limit old rows in
  p.1 = firstn limit (List.filter old rows) /\ List.filter old p.2 = skipn limit (List.filter old rows) /\
  List.filter (fun r => negb (old r)) p.2 = List.filter (fun r => negb (old r)) rows.
Proof.
  revert limit. induction rows as [|r rows IH]; intros limit; simpl; [by destruct limit|].
  destruct limit as [|k]; simpl; [done|].
  destruct (old r) eqn:Er; simpl.
  - specialize (IH k). destruct (trim_rows k old rows) as [gone kept]. simpl in *.
    destruct IH as (-> & -> & ->). done.
  - specialize (IH (S k)). destruct (trim_rows (S k) old rows) as [gone kept]. simpl in *. rewrite Er. simpl.
    destruct IH as (-> & -> & ->). done.
Qed.

Lemma fold_max_app (l : list Z) x y : fold_left Z.max l (Z.max x y) = Z.max x (fold_left Z.max l y).
Proof. revert y. induction l as [|z l IH]; intros y; simpl; [done|]. by rewrite <- Z.max_assoc, IH. Qed.

Lemma trim_mark_app l1 l2 t : trim_mark (l1 ++ l2) t = trim_mark l2 (trim_mark l1 t).
Proof.
  destruct l1 as [|r l1]; [done|]. destruct l2 as [|r2 l2]; [by rewrite app_nil_r|].
  simpl. rewrite fmap_app, fold_left_app. simpl. rewrite fold_max_app.
  change (list_fmap JournalRow Z j_tx_id l2) with (j_tx_id <$> l2). destruct t; apply (f_equal Some); lia.
Qed.

Lemma fold_max_ge (l : list Z) x y : y = x \/ y ∈ l -> y <= fold_left Z.max l x.
Proof.
  revert x y. induction l as [|z l IH]; intros x y [->|Hy]; simpl.
  - lia.
  - by apply not_elem_of_nil in Hy.
  - transitivity (Z.max x z); [lia|]. apply IH. by left.
  - apply elem_of_cons in Hy as [->|Hy]; [transitivity (Z.max x z); [lia|]; apply IH; by left|]. apply IH. by right.
Qed.

(** The mark of retention covers what is gone and never moves back. *)
Lemma trim_mark_covers gone t : default 0 t <= default 0 (trim_mark gone t) \/ t = None.
Proof. destruct t as [t|]; [left|by right]. destruct gone as [|r gone]; simpl; lia. Qed.

Lemma trim_mark_ge gone t r : r ∈ gone -> exists m, trim_mark gone t = Some m /\ j_tx_id r <= m.
Proof.
  destruct gone as [|r0 gone]; [by intros ?%not_elem_of_nil|]. intros Hr. simpl.
  assert (j_tx_id r <= fold_left Z.max (j_tx_id <$> gone) (j_tx_id r0)).
  { apply fold_max_ge. apply elem_of_cons in Hr as [->|Hr]; [by left|right]. by apply list_elem_of_fmap_2. }
  eexists. split; [done|]. destruct t; lia.
Qed.

Section retention.
Context {E : Env} {J : JournalEnv} (Hfaults : forall n, env_fault n = false).

Lemma statement_answers w : w_in_tx w = false -> statement w = (OK tt, set_tick (w_aborted w) w).
Proof. intros Ht. unfold statement. by rewrite Ht, Hfaults. Qed.

Definition cleaned (old : JournalRow -> bool) (d : DB) : DB :=
  on_trim (trim_mark (List.filter old (db_journal d)))
    (on_journal (fun _ => List.filter (fun r => negb (old r)) (db_journal d)) d).

Lemma filter_none {A} (P : A -> bool) l : List.filter P l = [] -> List.filter (fun x => negb (P x)) l = l.
Proof. intros H. apply filter_all. intros x Hx. destruct (P x) eqn:E1; [|done].
  assert (x ∈ List.filter P l) as Hin by (apply list_elem_of_In, filter_In; by rewrite <- list_elem_of_In).
  rewrite H in Hin. by apply not_elem_of_nil in Hin. Qed.

Lemma cleanup_batch_run cutoff w : w_in_tx w = false ->
  let gone := firstn cleanupBatchSize (List.filter (past cutoff) (db_journal (w_db w))) in
  exists kept w', cleanup_batch cutoff w = (OK (length gone), w') /\ w_in_tx w' = false /\
    w_db w' = on_trim (trim_mark gone) (on_journal (fun _ => kept) (w_db w)) /\
    List.filter (past cutoff) kept = skipn cleanupBatchSize (List.filter (past cutoff) (db_journal (w_db w))) /\
    List.filter (fun r => negb (past cutoff r)) kept = List.filter (fun r => negb (past cutoff r)) (db_journal (w_db w)).
Proof.
  intros Ht. unfold cleanup_batch. rewrite M_bind_unfold, statement_answers by done. run.
  unfold cleanup_sql. pose proof (trim_rows_spec cleanupBatchSize (past cutoff) (db_journal (w_db w))) as Hs.
  simpl. fold (past cutoff). destruct (trim_rows _ _ _) as [gone kept]. simpl in Hs. destruct Hs as (-> & Hk & Hn).
  exists kept. eexists. split; [reflexivity|]. done.
Qed.

Lemma cleanup_loop_run fuel cutoff total w : w_in_tx w = false ->
  (length (List.filter (past cutoff) (db_journal (w_db w))) < fuel * cleanupBatchSize)%nat ->
  exists w', cleanup_loop fuel cutoff total w =
    (OK (total + Z.of_nat (length (List.filter (past cutoff) (db_journal (w_db w))))), w') /\
    w_db w' = cleaned (past cutoff) (w_db w).
Proof.
  revert total w. induction fuel as [|fuel IH]; intros total w Ht Hf; [simpl in Hf; lia|].
  cbn [cleanup_loop]. rewrite M_bind_unfold.
  destruct (cleanup_batch_run cutoff w Ht) as (kept & w1 & -> & Ht1 & Hd1 & Hk & Hn).
  set (l := List.filter (past cutoff) (db_journal (w_db w))) in *.
  rewrite length_firstn. destruct (Nat.ltb_spec (Nat.min cleanupBatchSize (length l)) cleanupBatchSize) as [Hlt|Hge].
  - exists w1. assert (length l < cleanupBatchSize)%nat as Hl by lia.
    rewrite firstn_all2 in Hd1 by lia. rewrite skipn_all2 in Hk by lia.
    rewrite Nat.min_r by lia. split; [done|]. rewrite Hd1. unfold cleaned. fold l.
    rewrite <- Hn. by rewrite (filter_none _ kept Hk).
  - destruct (IH (total + Z.of_nat (Nat.min cleanupBatchSize (length l))) w1 Ht1) as (w2 & Hr & Hd2).
    { rewrite Hd1. simpl. rewrite Hk, length_skipn. lia. }
    exists w2. rewrite Hr, Hd1.
    cbn [on_trim on_journal db_journal]. rewrite Hk, length_skipn. split; [apply (f_equal (fun n => (OK n, w2))); lia|].
    rewrite Hd2, Hd1. unfold cleaned. simpl. rewrite Hk, Hn. fold l.
    unfold on_trim, on_journal. simpl. f_equal. by rewrite <- trim_mark_app, firstn_skipn.
Qed.
End retention.

(** (C30) Retention ends and does what it says: it removes exactly the journal
    rows past their time to live, in as many batches as it takes, and reports
    how many; nothing else changes but the mark of retention, which then
    covers every transaction that lost a row and never moves back. *)
Theorem Cleanup_trims {E : Env} {J : JournalEnv} (w : World) :
  (forall n, env_fault n = false) -> w_in_tx w = false ->
  let old := past (w_now w - jenv_ttl) in let rows := db_journal (w_db w) in
  exists w' mark, Cleanup w = (OK (Z.of_nat (length (List.filter old rows))), w') /\
    w_db w' = on_trim (fun _ => mark) (on_journal (fun _ => List.filter (fun r => negb (old r)) rows) (w_db w)) /\
    (forall r, r ∈ rows -> old r = true -> exists m, mark = Some m /\ j_tx_id r <= m) /\
    (forall t, db_trim (w_db w) = Some t -> exists m, mark = Some m /\ t <= m).
Proof.
  intros Hf Ht old rows. unfold Cleanup, cleanup_fuel.
  destruct (cleanup_loop_run Hf (S (length rows `div` cleanupBatchSize)) (w_now w - jenv_ttl) 0 w Ht) as (w' & Hr & Hd).
  { pose proof (filter_length_le old rows). pose proof (Nat.div_mod (length rows) cleanupBatchSize).
    pose proof (Nat.mod_upper_bound (length rows) cleanupBatchSize).
    assert (cleanupBatchSize <> 0)%nat by (with_strategy transparent [cleanupBatchSize] (by compute)).
    unfold old, rows in *. lia. }
  exists w', (trim_mark (List.filter old rows) (db_trim (w_db w))). split; [done|]. split; [by rewrite Hd|]. split.
  - intros r Hin Hold. apply trim_mark_ge. apply list_elem_of_In, filter_In. by rewrite <- list_elem_of_In.
  - intros t ->. destruct (List.filter old rows) as [|r l]; [by eexists|]. simpl. eexists. split; [done|lia].
Qed.

(** ** What is served *)
Section serving.
Context {E : Env} {J : JournalEnv} (Hfaults : forall n, env_fault n = false).
Context (Hcast : forall u, jenv_cast_uuid (env_uuid_string u) = Some u).

Lemma cast_text u w : cast (env_uuid_string u) w = (OK u, w).
Proof. unfold cast. by rewrite Hcast. Qed.

(** The changes of a contact since a cursor, in the state [w]. *)
Definition window_of (c : uuid) (after : Z) (w : World) : ContactChanges :=
  let h := jenv_settled (w_ticks w) in
  let since := match min_opt (j_created_at <$> select_where (fun r => bool_decide (j_tx_id r = after)) (db_journal (w_db w))) with
               | None => 0 | Some at_ => at_ - Overlap end in
  let threads := changed_threads c after h since (w_db w) in
  let tooMany := MaxContactChanges <? Z.of_nat (length threads) in
  MkChanges (env_uuid_string c) (if tooMany then [] else threads)
    (FormatInt (Z.max after (max_or_0 (k_tx_id <$> select_where (fun k => k_tx_id k <=? h) (marks_of c (w_db w))))))
    after since h tooMany.

Lemma contactChanges_run c after w : w_in_tx w = false -> - 2 ^ 63 <= after < 2 ^ 63 ->
  exists w', contactChanges (env_uuid_string c) (FormatInt after) w = (OK (window_of c after w), w') /\
    w_in_tx w' = false /\ w_db w' = w_db w.
Proof.
  intros Ht Ha. unfold contactChanges, SettledHorizon, overlapSince, latestMark.
  assert (parseCursor (FormatInt after) = OK after) as Hp.
  { unfold parseCursor. enough (ParseInt (FormatInt after) = Some after) as -> by done. by apply ParseInt_FormatInt. }
  repeat first [ rewrite M_bind_assoc | progress run | rewrite M_bind_unfold, (statement_answers Hfaults) by done
               | rewrite M_bind_unfold, cast_text | rewrite M_bind_unfold; unfold of_result at 1; rewrite Hp ].
  eexists. split; [reflexivity|]. done.
Qed.

Lemma length_merge_sort {A} (R : A -> A -> Prop) `{!RelDecision R} (l : list A) : length (merge_sort R l) = length l.
Proof. apply Permutation_length, merge_sort_Permutation. Qed.

(** A mark after the cursor and settled is a change of the window. *)
Lemma window_threads c after w k : k ∈ db_marks (w_db w) -> k_contact_id k = c ->
  after < k_tx_id k <= jenv_settled (w_ticks w) ->
  cc_TooMany (window_of c after w) = false -> env_uuid_string (k_thread_id k) ∈ cc_Threads (window_of c after w).
Proof.
  intros Hk <- Htx. unfold window_of. cbn [cc_TooMany cc_Threads]. intros Hm. rewrite Hm.
  unfold changed_threads in *. apply list_elem_of_fmap. exists k. split; [done|].
  set (l := changed_marks _ _ _ _ _) in *. rewrite length_fmap, length_take in Hm.
  apply Z.ltb_ge in Hm. change MaxContactChanges with 1000 in *. rewrite take_ge by lia.
  unfold l, changed_marks. rewrite merge_sort_Permutation. apply elem_of_select. split.
  - apply elem_of_select. split; [done|]. by apply bool_decide_true.
  - apply andb_true_iff. split; [lia|]. apply orb_true_iff. left. lia.
Qed.

(** The cursor of the window covers the mark. *)
Lemma window_cursor c after w k : k ∈ db_marks (w_db w) -> k_contact_id k = c -> k_tx_id k <= jenv_settled (w_ticks w) ->
  exists n, cc_Cursor (window_of c after w) = FormatInt n /\ after <= n /\ k_tx_id k <= n.
Proof.
  intros Hk <- Htx. eexists. split; [reflexivity|]. split; [lia|].
  set (l := k_tx_id <$> _). assert (k_tx_id k ∈ l) as Hin.
  { apply list_elem_of_fmap_2, elem_of_select. split; [|lia]. apply elem_of_select. split; [done|by apply bool_decide_true]. }
  destruct l as [|x l]; [by apply not_elem_of_nil in Hin|]. transitivity (max_or_0 (x :: l)); [|lia]. simpl.
  apply fold_max_ge. apply elem_of_cons in Hin as [->|?]; auto.
Qed.

(** A row of the window is among the entries of its thread. *)
Lemma thread_changes_row (ch : ContactChanges) d r : r ∈ db_journal d -> cc_After ch < j_tx_id r <= cc_Horizon ch ->
  not_private (cc_ContactID ch) (row_entry r) = true -> row_entry r ∈ thread_changes (j_thread_id r) ch d.
Proof.
  intros Hr Htx Hp. unfold thread_changes. apply list_elem_of_lookup in Hr as [i Hi].
  apply list_elem_of_fmap. exists (i, r). split; [done|]. rewrite merge_sort_Permutation.
  apply list_elem_of_In, filter_In. split.
  - apply list_elem_of_In. apply list_elem_of_lookup. exists i. unfold numbered. by rewrite list_lookup_imap, Hi.
  - simpl. rewrite bool_decide_true by done. rewrite Hp.
    assert ((j_tx_id r <=? cc_Horizon ch) = true) as -> by lia. by assert ((cc_After ch <? j_tx_id r) = true) as -> by lia.
Qed.

Lemma ChangesSince_run t ch limit w : w_in_tx w = false ->
  exists w', ChangesSince (env_uuid_string t) ch limit w = (OK (firstn (Z.to_nat (limit + 1)) (thread_changes t ch (w_db w))), w').
Proof.
  intros Ht. unfold ChangesSince. rewrite M_bind_unfold, (statement_answers Hfaults) by done.
  rewrite M_bind_unfold, cast_text. eexists. reflexivity.
Qed.

Lemma not_private_other c e : je_Kind e <> KindTagsChanged -> not_private c e = true.
Proof. intros H. unfold not_private. rewrite (bool_decide_false (je_Kind e = _)) by done. simpl. by rewrite orb_true_r. Qed.

(** An entry that has an audience is for it alone; the others are for everybody. *)
Lemma audience_sees e t c d tx at_ : JournalThreadID e = Some t -> c ∈ audience e t d ->
  not_private (env_uuid_string c) (row_entry (MkJournalRow t tx at_ e)) = true.
Proof.
  intros Hj Hc. destruct e; try done; try (by apply not_private_other).
  - apply not_private_other. unfold row_entry. simpl. unfold statusUpdate. by repeat case_decide.
  - unfold audience in Hc. simpl in Hc. apply list_elem_of_singleton in Hc as ->. unfold not_private, row_entry. simpl.
    rewrite lookup_singleton_eq, (bool_decide_true (Some _ = _)) by done. by rewrite orb_true_r.
Qed.
End serving.

Lemma mark_of_row c t d n : mark_of c t d = Some n ->
  exists k, k ∈ db_marks d /\ k_contact_id k = c /\ k_thread_id k = t /\ k_tx_id k = n.
Proof.
  unfold mark_of. intros (k & Hk & Hn)%fmap_Some. apply find_first_Some in Hk as [Hk Hm].
  apply is_mark_spec in Hm. exists k. naive_solver.
Qed.


(** ** A mark that moves on loses a change

    A contact's mark of a thread keeps only its newest transaction.  While that
    one has not settled, the older change of the thread is not listed, but the
    cursor handed back passes it. *)
#[export] Instance sample_journal_env : JournalEnv := {|
  jenv_settled := fun n => if (n <? 4)%nat then 7 else 9;
  jenv_cast_uuid := fun s => Z.to_N <$> parse_number s;
  jenv_json_string := fun _ => None;
  jenv_ttl := 172800000000000 |}.

(** The contact's changes: thread 1 in transaction 5, and an hour later thread
    2 in transaction 7 and thread 1 again in transaction 9; 8 is in flight. *)
Definition hour : Time := 3600000000000.
Definition late_db : DB :=
  on_journal (fun _ => [MkJournalRow 1 5 hour sample_event; MkJournalRow 2 7 (2 * hour) sample_event;
                        MkJournalRow 1 9 (2 * hour) sample_event])
    (on_marks (fun _ => [MkMarkRow 100 1 9 (2 * hour); MkMarkRow 100 2 7 (2 * hour)]) sample_db).

(** The first answer lists thread 2 alone and moves the cursor to 7; the next
    one lists thread 1, of which only transaction 9 is served: 5 is lost. *)
Example overwritten_mark_loses_change :
  let first := contactChanges "100" "4" (world_of late_db) in
  let next := contactChanges "100" "7" (snd first) in
  (fun ch => (cc_Threads ch, cc_Cursor ch)) <$> fst first = OK (["2"], "7") /\
  (fun ch => (cc_Threads ch, cc_Cursor ch)) <$> fst next = OK (["2"; "1"], "9") /\
  (fun ch => length (thread_changes 1 ch late_db)) <$> fst next = OK 1%nat.
Proof. vm_compute. repeat split. Qed.

(** ** Witnesses *)
Definition old_db : DB :=
  on_journal (fun _ => [MkJournalRow 1 5 hour sample_event; MkJournalRow 2 7 (100 * hour) sample_event]) sample_db.
Definition old_world : World := MkWorld old_db (101 * hour) 1000 10 false false 0 [] ∅ ∅ ∅ [].

Lemma Cleanup_trims_witness :
  exists w', Cleanup old_world = (OK 1, w') /\ db_trim (w_db w') = Some 5 /\ length (db_journal (w_db w')) = 1%nat.
Proof.
  destruct (Cleanup_trims old_world) as (w' & mark & Hr & Hd & Hc & _); [done|done|].
  exists w'. split; [exact Hr|]. destruct (Hc (MkJournalRow 1 5 hour sample_event)) as (m & -> & Hm).
  - left.
  - done.
  - vm_compute in Hr. injection Hr as <-. done.
Defined.

Lemma sample_casts u : jenv_cast_uuid (env_uuid_string u) = Some u.
Proof. simpl. rewrite parse_number_pretty. simpl. by rewrite N2Z.id. Qed.


(** ** What is journaled *)

(** The events that belong to a thread are exactly those the journal
    knows how to store, each under the text of its thread; the entries private
    to some contacts are exactly the tag changes, and an entry names a message
    only when it is about one. *)
Theorem ProjectEvent_journaled {E : Env} {J : JournalEnv} (e : Event) :
  upd_ThreadID <$> ProjectEvent e = env_uuid_string <$> JournalThreadID e /\
  forall u, ProjectEvent e = Some u ->
    (upd_Kind u = KindTagsChanged <-> is_Some (JournalAudience e)) /\
    (is_Some (upd_Fields u !! FieldMsgID) ->
     upd_Kind u ∈ [KindMessageNew; KindMessageEdited; KindMessageDeleted; KindMessageReaction; KindMessageFailed]).
Proof.
  split.
  - destruct e; try reflexivity. simpl. unfold statusUpdate. by repeat case_decide.
  - intros u Hu. destruct e as [| | | |e| | | | | | | |]; simpl in Hu; simplify_eq/=;
      try (split; [split; [done|by intros [? ?]]|intros _; apply list_elem_of_In; simpl; auto; fail]);
      try (split; [split; [done|by intros [? ?]]|intros [v Hv]; exfalso; unfold FieldMsgID in Hv; by simplify_map_eq]).
    unfold statusUpdate. repeat case_decide; simpl;
      (split; [split; [done|by intros [? ?]]|]); try (intros [v Hv]; exfalso; unfold FieldMsgID in Hv; by simplify_map_eq).
    intros _. apply list_elem_of_In. simpl. auto 10.
Qed.
