(* ===== verification/MessageHandlers.v ===== *)
(** * MessageHandlers: messages, permissions and previews over gRPC

    internal/handler/grpc/{message,thread_permission,thread_preview}.go with
    their mappers: requests are converted, the services called, their results
    converted.  Records with the prefix Pb are protobuf messages with the fields
    the mappers read; an enumeration of a request is the number on the wire; a
    message that was decoded has no nil elements in its oneofs and lists. *)
From Stdlib Require Import Ascii.
From S2P Require Import Prelude Domain Events Message World BotControlStore MediaProcessor DialogStore PermissionStore.
From S2P Require Import Permissions PreviewStore Previews TagService MessageStatus MessageStore ExternalStore ReactionStore Commands.
From S2P Require Import MessageService MessageActions TypingService HistoryMapper Journal ThreadMapper Samples JournalRules.
#[local] Open Scope Z_scope.

(** ** Peers *)
Record PbVia := MkPbVia { pvi_Id : string; pvi_Name : string; pvi_Type : string }.
Record PbIdentity := MkPbIdentity {
  pid_Issuer : string; pid_Name : string; pid_ChatName : string; pid_Via : string; pid_ViaRef : option PbVia }.
Inductive PbPeerKind :=
  | Peer_ContactId (id : string) | Peer_GroupId (id : string) | Peer_ChannelId (id : string) | Peer_ThreadId (id : string).
Record PbPeer := MkPbPeer { ppe_Kind : option PbPeerKind; ppe_Identity : option PbIdentity }.

(** ** Requests *)
Record PbEntity := MkPbEntity { pen_Type : string; pen_Offset : Z; pen_Length : Z; pen_Value : string }.
Record PbForwardOriginInput := MkPbOrigin {
  pfo_Kind : Z; pfo_SenderName : string; pfo_SenderIss : string; pfo_SenderSub : string; pfo_OriginalSentAt : Z }.
Record PbSendTextRequest := MkPbSendText {
  pst_From : option PbPeer; pst_To : option PbPeer; pst_Body : string; pst_DomainId : Z; pst_SendId : string;
  pst_SendAs : string; pst_ReplyToMessageId : string; pst_ExternalId : string; pst_ReplyToExternalId : string;
  pst_ForwardOrigin : option PbForwardOriginInput; pst_Entities : list (option PbEntity); pst_Variables : gmap string string }.
Record PbDocumentInput := MkPbDocumentInput {
  pdi_Id : string; pdi_FileName : string; pdi_MimeType : string; pdi_SizeBytes : Z; pdi_Url : string }.
Record PbImageInput := MkPbImageInput { pii_Id : string; pii_Link : string; pii_Name : string; pii_MimeType : string }.
Record PbSendDocumentRequest := MkPbSendDocument {
  psd_From : option PbPeer; psd_To : option PbPeer; psd_Documents : list PbDocumentInput; psd_Body : string;
  psd_DomainId : Z; psd_SendId : string; psd_SendAs : string; psd_ReplyToMessageId : string; psd_ExternalId : string;
  psd_ReplyToExternalId : string; psd_ForwardOrigin : option PbForwardOriginInput; psd_Entities : list (option PbEntity);
  psd_Variables : gmap string string }.
Record PbReadMessageRequest := MkPbRead {
  prm_Id : string; prm_ThreadId : string; prm_UserId : string; prm_DomainId : Z; prm_UpToSeq : Z }.
Record PbUpdateMessageDeliveryRequest := MkPbDelivery {
  pud_GateId : string; pud_ExternalMessageId : string; pud_Status : Z; pud_Reason : string; pud_At : Z; pud_DomainId : Z }.

(** What SendLocation and SendContact share. *)
Record PbCardRequest := MkPbCard {
  pca_From : option PbPeer; pca_To : option PbPeer; pca_SendId : string; pca_DomainId : Z; pca_Metadata : metadata;
  pca_SendAs : string; pca_ReplyToMessageId : string; pca_ForwardOrigin : option PbForwardOriginInput;
  pca_ExternalId : string; pca_ReplyToExternalId : string }.

(** The oneofs of an interactive message; a button is [PbButton] of the history. *)
Inductive PbAttachments := Interactive_Documents (docs : list PbDocumentInput) | Interactive_Images (imgs : list PbImageInput).
Record PbInteractiveInput := MkPbInteractiveInput {
  pin_SingleUse : bool; pin_Placement : Z; pin_InputFieldState : Z; pin_Attachments : option PbAttachments;
  pin_Kind : option PbInteractiveKind }.
Record PbSendInteractiveRequest := MkPbSendInteractive {
  psi_From : option PbPeer; psi_To : option PbPeer; psi_SendId : string; psi_DomainId : Z; psi_Body : string;
  psi_Metadata : metadata; psi_SendAs : string; psi_Interactive : PbInteractiveInput }.
Record PbInteractiveCallbackRequest := MkPbCallbackRequest {
  pic_ReactedBy : option PbPeer; pic_InReplyTo : string; pic_ButtonCode : string; pic_CallbackData : string }.
Record PbSendSystemMessageRequest := MkPbSendSystem {
  pss_From : option PbPeer; pss_To : option PbPeer; pss_Type : string; pss_Body : string; pss_Metadata : metadata;
  pss_SendId : string; pss_DomainId : Z; pss_SendAs : string }.
Record PbSendTypingRequest := MkPbSendTyping {
  pty_From : option PbPeer; pty_To : option PbPeer; pty_DomainId : Z; pty_TimeoutMs : Z; pty_PreviewText : string }.
Record PbEditMessageRequest := MkPbEdit { ped_EditedBy : option PbPeer; ped_Id : string; ped_Body : string }.
Record PbDeleteMessagesRequest := MkPbDelete { pdm_DeletedBy : option PbPeer; pdm_Ids : list string; pdm_DomainId : Z }.
Record PbForwardMessagesRequest := MkPbForwardRequest {
  pfm_From : option PbPeer; pfm_To : option PbPeer; pfm_MessageIds : list string; pfm_DomainId : Z; pfm_SendId : string;
  pfm_SendAs : string }.
Inductive PbReactionContent := ReactionContent_Emoji (emoji : string) | ReactionContent_CustomEmojiId (id : string).
Record PbSetReactionRequest := MkPbSetReaction {
  psr_Reactor : option PbPeer; psr_MessageId : string; psr_Reaction : option PbReactionContent; psr_DomainId : Z;
  psr_ThreadId : string; psr_SendId : string; psr_ExternalId : string }.

(** ** Responses *)
Record PbSendTextResponse := MkPbSendTextResponse { pyo_Id : string; pyo_To : PbPeer }.
(** The [to] peer of the request, as it came. *)
Record PbSendMessageResponse := MkPbSendMessageResponse { psm_To : list (option PbPeer); psm_Id : string }.
Record PbInteractiveCallbackResponse := MkPbCallbackResponse {
  pcp_ReactedBy : PbPeer; pcp_InReplyTo : string; pcp_ButtonCode : string; pcp_CallbackData : string; pcp_ReactedAt : Z }.
Record PbEditMessageResponse := MkPbEditResponse { per_Id : string; per_EditedAt : Z; per_Version : Z }.
Record PbSkippedMessage := MkPbSkipped { psk_Id : string; psk_Reason : Z }.
Record PbDeleteMessagesResponse := MkPbDeleteResponse {
  pdr_DeletedIds : list string; pdr_Skipped : list PbSkippedMessage; pdr_DeletedAt : Z }.
Record PbForwardMessagesResponse := MkPbForwardResponse {
  pfr_ThreadId : string; pfr_Ids : list string; pfr_Skipped : list PbSkippedMessage }.
Record PbSetReactionResponse := MkPbReactionResponse {
  prr_Action : Z; prr_ReactedAt : Z; prr_Reaction : option PbReactionContent }.

(** ** Conversions of Go *)

(** [int16(x)] truncates. *)
Definition to_int16 (x : Z) : Z := (x + 32768) `mod` 65536 - 32768.

(** The digits of [strconv.ParseUint]: a value past 64 bits ends the scan. *)
Fixpoint parse_uint (acc : Z) (s : string) : option Z :=
  match s with
  | EmptyString => Some acc
  | String c s' =>
      d ← digit_value c;
      if 2 ^ 64 <=? 10 * acc + d then Some (2 ^ 64 - 1) else parse_uint (10 * acc + d) s'
  end.

Definition parse_unsigned (s : string) : option Z := match s with EmptyString => None | _ => parse_uint 0 s end.

(** [n, _ := strconv.ParseInt(s, 10, 64)]: nothing readable is 0, a number out
    of range the nearest bound. *)
Definition parse_int64 (s : string) : Z :=
  let n := match s with
           | EmptyString => None
           | String c s' =>
               if decide (c = "-"%char) then Z.opp <$> parse_unsigned s'
               else parse_unsigned (if decide (c = "+"%char) then s' else s)
           end in
  match n with None => 0 | Some n => Z.max (- 2 ^ 63) (Z.min n (2 ^ 63 - 1)) end.

(** [strconv.Atoi] with 0 for an error. *)
Definition atoi_or_0 (s : string) : Z := default 0 (ParseInt s).

Section mapper.
Context {E : Env} {X : MessageEnv}.

(** ** common.go, forward.go, text_message.go *)
Definition MapEntitiesFromProto (in_ : list (option PbEntity)) : list Shared.Entity :=
  (fun e => Shared.MkEntity (pen_Type e) (pen_Offset e) (pen_Length e) (pen_Value e)) <$> omap id in_.

(** Only origins outside the system are taken from a request. *)
Definition MapExternalForwardOrigin (in_ : option PbForwardOriginInput) : option ForwardOrigin :=
  o ← in_;
  let kind := to_int16 (pfo_Kind o) in
  if IsExternal kind
  then Some (MkForwardOrigin kind None (pfo_SenderName o) (pfo_SenderIss o) (pfo_SenderSub o) (pfo_OriginalSentAt o) None)
  else None.

(** [via_ref] with the deprecated [via] as the id it lacks. *)
Definition mapViaInfoFromProto (id : PbIdentity) : option Shared.ViaInfo :=
  let ref := default (MkPbVia "" "" "") (pid_ViaRef id) in
  let vid := if decide (pvi_Id ref = "") then pid_Via id else pvi_Id ref in
  if bool_decide (vid = "") && bool_decide (pvi_Name ref = "") && bool_decide (pvi_Type ref = "") then None
  else Some (Shared.MkViaInfo vid (pvi_Name ref) (pvi_Type ref)).

Definition identity_from (id : PbIdentity) : Shared.Identity :=
  Shared.MkIdentity (pid_Issuer id) (pid_Name id) (pid_ChatName id) (mapViaInfoFromProto id).

(** An id that does not parse is the nil id; only contacts carry an identity. *)
Definition MapPeerFromProto (pb : option PbPeer) : Shared.Peer :=
  match pb with
  | None => zero_peer
  | Some pb =>
      match ppe_Kind pb with
      | None => zero_peer
      | Some (Peer_ContactId s) => Shared.MkPeer (IDsParser s) Shared.PeerContact (identity_from <$> ppe_Identity pb)
      | Some (Peer_GroupId s) => Shared.MkPeer (IDsParser s) Shared.PeerGroup None
      | Some (Peer_ChannelId s) => Shared.MkPeer (IDsParser s) Shared.PeerChannel None
      | Some (Peer_ThreadId s) => Shared.MkPeer (IDsParser s) Shared.PeerThread None
      end
  end.

Definition MapPeerToProto (p : Shared.Peer) : PbPeer :=
  let idStr := env_uuid_string (Shared.peer_ID p) in
  let t := Shared.peer_Type p in
  MkPbPeer (if decide (t = Shared.PeerContact) then Some (Peer_ContactId idStr)
            else if decide (t = Shared.PeerGroup) then Some (Peer_GroupId idStr)
            else if decide (t = Shared.PeerChannel) then Some (Peer_ChannelId idStr)
            else if decide (t = Shared.PeerThread) then Some (Peer_ThreadId idStr) else None) None.

(** [sendAs, _ := uuid.Parse(...)]: the address is taken whatever was parsed. *)
Definition send_as_of (s : string) : option uuid := Some (IDsParser s).

Definition MapToSendTextRequest (in_ : PbSendTextRequest) : SendTextRequest :=
  MkSendText (MapPeerFromProto (pst_From in_)) (MapPeerFromProto (pst_To in_)) (pst_Body in_) (pst_DomainId in_)
    (pst_SendId in_) (send_as_of (pst_SendAs in_)) (ParseOptionalUUID (pst_ReplyToMessageId in_)) (pst_ExternalId in_)
    (pst_ReplyToExternalId in_) (MapExternalForwardOrigin (pst_ForwardOrigin in_)) (MapEntitiesFromProto (pst_Entities in_))
    (pst_Variables in_).

Definition MapToSendTextResponse (out : SendTextResponse) : PbSendTextResponse :=
  MkPbSendTextResponse (env_uuid_string (sy_ID out)) (MapPeerToProto (sy_To out)).

Definition MapToSendTypingRequest (in_ : PbSendTypingRequest) : SendTypingRequest :=
  MkSendTyping (MapPeerFromProto (pty_From in_))
    (default uuid_Nil (Shared.ResolveThreadID (MapPeerFromProto (pty_To in_)))) (pty_DomainId in_) (pty_TimeoutMs in_)
    (pty_PreviewText in_).

(** ** document_message.go, read_message.go, message_delivery.go *)
Definition document_input (d : PbDocumentInput) : Attachment :=
  MkAttachment (parse_int64 (pdi_Id d)) (pdi_Url d) (pdi_MimeType d) (pdi_FileName d) (pdi_SizeBytes d).

Definition MapToSendDocumentRequest (in_ : PbSendDocumentRequest) : SendDocumentRequest :=
  MkSendDocument (MapPeerFromProto (psd_From in_)) (MapPeerFromProto (psd_To in_)) (psd_Body in_)
    (document_input <$> psd_Documents in_) (psd_DomainId in_) (psd_SendId in_) (send_as_of (psd_SendAs in_))
    (ParseOptionalUUID (psd_ReplyToMessageId in_)) (psd_ExternalId in_) (psd_ReplyToExternalId in_)
    (MapExternalForwardOrigin (psd_ForwardOrigin in_)) (MapEntitiesFromProto (psd_Entities in_)) (psd_Variables in_).

Definition MapToReadMessageRequest (pb : PbReadMessageRequest) : ReadMessageRequest :=
  MkReadMessage (prm_Id pb) (prm_ThreadId pb) (prm_UserId pb) (prm_DomainId pb) (prm_UpToSeq pb).

Definition mapToDeliveryStatus (pb : Z) : Z :=
  if decide (pb = 1) then Delivery.StatusSent else if decide (pb = 2) then Delivery.StatusDelivered
  else if decide (pb = 3) then Delivery.StatusRead else if decide (pb = 4) then Delivery.StatusFailed
  else Delivery.StatusUnspecified.

Definition MapToMessageDelivery (pb : PbUpdateMessageDeliveryRequest) : MessageDelivery :=
  MkDelivery (pud_GateId pb) (pud_ExternalMessageId pb) (mapToDeliveryStatus (pud_Status pb)) (pud_Reason pb)
    (if 0 <? pud_At pb then Some (pud_At pb * 1000000) else None) (pud_DomainId pb).

(** ** message.go: keyboards *)
Definition convertInteractivePbButtonKindToDomain (b : PbButton) : KeyboardButton :=
  let button typ url data action := MkButton (pbb_Id b) (pbb_Label b) (pbb_Metadata b) typ url data action in
  match pbb_Kind b with
  | Some (KbCallback data) => button ActionTypeCallback None (Some data) None
  | Some (KbRequest action) => button ActionTypeRequest None None (Some action)
  | Some (KbUrl url) => button ActionTypeURL (Some url) None None
  | None => button ActionTypeNone None None None
  end.

Definition convertPbButtonRowToDomain (row : list PbButton) : list KeyboardButton :=
  convertInteractivePbButtonKindToDomain <$> row.

(** The set [uniqueCodes] goes from button to button and from row to row. *)
Fixpoint check_codes (msg : string) (codes : gset string) (ids : list string) : result (gset string) :=
  match ids with
  | [] => OK codes
  | id :: ids' =>
      if decide (id ∈ codes) then Err (WithCause (errors_New ("duplicate button id: " +:+ id)) (InvalidArgument msg))
      else check_codes msg ({[ id ]} ∪ codes) ids'
  end.

Fixpoint convert_rows (codes : gset string) (rows : list (list PbButton)) : result (list (list KeyboardButton)) :=
  match rows with
  | [] => OK []
  | r :: rows' =>
      let row := convertPbButtonRowToDomain r in
      codes ← check_codes "button id must be unique for each button per row of a keyboard markup" codes (btn_ID <$> row);
      rest ← convert_rows codes rows';
      OK (row :: rest)
  end.

Definition convertPbMarkupToDomain (rows : list (list PbButton)) : result KeyboardButtonMarkup :=
  rows ← convert_rows ∅ rows;
  OK (MkMarkup ((fun row => Some (MkRow (Some <$> row))) <$> rows)).

Fixpoint convert_sections (codes : gset string) (sections : list PbSection) : result (list ListReplySection) :=
  match sections with
  | [] => OK []
  | s :: sections' =>
      codes ← check_codes "button id must be unique for each button per list reply" codes (pbb_Id <$> pbs_Buttons s);
      rest ← convert_sections codes sections';
      OK (MkSection (pbs_Section s) (Some <$> (convertInteractivePbButtonKindToDomain <$> pbs_Buttons s)) :: rest)
  end.

Definition convertInteractivePbListReplyToDomain (title : string) (sections : list PbSection) : result KeyboardListReply :=
  sections ← convert_sections ∅ sections;
  OK (MkListReply title (Some <$> sections)).

Definition convertMenuPlacementPbToDomain (p : Z) : Z :=
  if decide (p = 1) then MenuPlacementInline else if decide (p = 2) then MenuPlacementPersistent
  else MenuPlacementUnspecified.

Definition convertInputFieldStatePbToDomain (p : Z) : Z :=
  if decide (p = 1) then InputFieldStateRegular else if decide (p = 2) then InputFieldStateMinimized
  else if decide (p = 3) then InputFieldStateHidden else InputFieldStateUnspecified.

Definition attachments_flag (a : option PbAttachments) : option MessageContent :=
  match a with
  | Some (Interactive_Documents _) => Some (MkContent false true)
  | Some (Interactive_Images _) => Some (MkContent true false)
  | None => None
  end.

Definition ConvertInteractivePbToDomain (in_ : PbInteractiveInput) : result MessageInteractive :=
  let interactive markup listReply :=
    MkInteractive (attachments_flag (pin_Attachments in_)) (pin_SingleUse in_) markup listReply
      (convertMenuPlacementPbToDomain (pin_Placement in_)) (convertInputFieldStatePbToDomain (pin_InputFieldState in_)) in
  match pin_Kind in_ with
  | Some (PbListReply title sections) =>
      listReply ← convertInteractivePbListReplyToDomain title sections; OK (interactive None (Some listReply))
  | Some (PbMarkup rows) => markup ← convertPbMarkupToDomain rows; OK (interactive (Some markup) None)
  | None => OK (interactive None None)
  end.

Definition ConvertPbDocumentsToDomain (a : option PbAttachments) : list MessageDocument :=
  match a with
  | Some (Interactive_Documents docs) =>
      (fun d => MkDocument (atoi_or_0 (pdi_Id d)) (pdi_FileName d) (pdi_MimeType d) (pdi_SizeBytes d) (pdi_Url d)) <$> docs
  | _ => []
  end.

Definition ConvertPbImagesToDomain (a : option PbAttachments) : list MessageImage :=
  match a with
  | Some (Interactive_Images imgs) =>
      (fun i => MkImage (atoi_or_0 (pii_Id i)) (pii_Name i) (pii_MimeType i) (pii_Link i)) <$> imgs
  | _ => []
  end.

(** ** edit_message.go, delete_message.go, forward.go *)
(** A new message with what the handlers fill in. *)
Definition request_message (id : uuid) (sendAs : option uuid) (key external replyExternal : string) (domainID : Z)
    (from to : Shared.Peer) (body : string) (typ : Z) (md : metadata) (imgs : list MessageImage) (docs : list MessageDocument)
    (location : option MessageLocation) (contact : option MessageContact) (interactive : option MessageInteractive)
    (system : option MessageSystem) (reply : option ReplyToPreview) (origin : option ForwardOrigin) : Message :=
  MkMessage id sendAs key external replyExternal uuid_Nil domainID from to None body typ md 0 0 false uuid_Nil uuid_Nil
    None 0 0 0 imgs docs location contact interactive system None None reply origin [].

Definition ConvertPbEditMessageToDomain (in_ : PbEditMessageRequest) : Message :=
  request_message (IDsParser (ped_Id in_)) None "" "" "" 0 (MapPeerFromProto (ped_EditedBy in_)) zero_peer (ped_Body in_) 0 ∅
    [] [] None None None None None None.

Definition MapToEditMessageResponse (msg : Message) : PbEditMessageResponse :=
  MkPbEditResponse (env_uuid_string (msg_ID msg)) (UpdatedAtUnixMillis msg) (msg_Version msg).

Definition ConvertPbDeleteMessagesToDomain (in_ : PbDeleteMessagesRequest) : DeleteMessagesRequest :=
  MkDeleteMessages (MapPeerFromProto (pdm_DeletedBy in_)) (IDsParser <$> pdm_Ids in_) (pdm_DomainId in_).

Definition MapSkippedMessages (skips : list MessageSkip) : list PbSkippedMessage :=
  (fun s => MkPbSkipped (env_uuid_string (sk_ID s)) (sk_Reason s)) <$> skips.

Definition MapToDeleteMessagesResponse (out : DeleteMessagesResponse) : PbDeleteMessagesResponse :=
  MkPbDeleteResponse (env_uuid_string <$> ds_DeletedIDs out) (MapSkippedMessages (ds_Skipped out))
    (Z.max (UnixMilli (default 0 (ds_DeletedAt out))) 0).

Definition MapToForwardMessagesRequest (in_ : PbForwardMessagesRequest) : ForwardMessagesRequest :=
  MkForwardMessages (MapPeerFromProto (pfm_From in_)) (MapPeerFromProto (pfm_To in_)) (pfm_DomainId in_) (pfm_SendId in_)
    (send_as_of (pfm_SendAs in_)) (IDsParser <$> pfm_MessageIds in_).

Definition MapToForwardMessagesResponse (out : ForwardMessagesResponse) : PbForwardMessagesResponse :=
  MkPbForwardResponse (env_uuid_string (fs_ThreadID out)) (env_uuid_string <$> fs_IDs out) (MapSkippedMessages (fs_Skipped out)).

(** ** set_reaction.go, system_message.go *)
Definition ConvertPbSetReactionToDomain (in_ : PbSetReactionRequest) : SetReactionRequest :=
  MkSetReaction (MapPeerFromProto (psr_Reactor in_)) (IDsParser (psr_MessageId in_)) (ParseOptionalUUID (psr_ThreadId in_))
    (match psr_Reaction in_ with Some (ReactionContent_Emoji e) => e | _ => "" end)
    (match psr_Reaction in_ with Some (ReactionContent_CustomEmojiId id) => id | _ => "" end)
    (to_int32 (psr_DomainId in_)) (psr_SendId in_) (psr_ExternalId in_).

Definition mapReactionActionToProto (action : ReactionAction) : Z :=
  match action with ActionSet => 1 | ActionRemoved => 2 | ActionUnchanged => 3 | ActionUnspecified => 0 end.

Definition MapToSetReactionResponse (out : SetReactionResponse) : PbSetReactionResponse :=
  MkPbReactionResponse (mapReactionActionToProto (sp_Action out)) (Z.max (UnixMilli (sp_ReactedAt out)) 0)
    (if decide (sp_Emoji out = "") then None else Some (ReactionContent_Emoji (sp_Emoji out))).

Definition ConvertPbSystemMessageToDomain (in_ : PbSendSystemMessageRequest) : Message :=
  request_message uuid_Nil (send_as_of (pss_SendAs in_)) (pss_SendId in_) "" "" (pss_DomainId in_)
    (MapPeerFromProto (pss_From in_)) (MapPeerFromProto (pss_To in_)) (pss_Body in_) MessageTypeSystem (pss_Metadata in_)
    [] [] None None None (Some (MkSystem (pss_Type in_) (pss_Metadata in_))) None None.

(** ** The messages message.go builds *)
Definition card_message (in_ : PbCardRequest) (typ : Z) (location : option MessageLocation) (contact : option MessageContact)
    : Message :=
  request_message uuid_Nil (send_as_of (pca_SendAs in_)) (pca_SendId in_) (pca_ExternalId in_) (pca_ReplyToExternalId in_)
    (pca_DomainId in_) (MapPeerFromProto (pca_From in_)) (MapPeerFromProto (pca_To in_)) "" typ (pca_Metadata in_) [] []
    location contact None None (NewReplyTarget (ParseOptionalUUID (pca_ReplyToMessageId in_)))
    (MapExternalForwardOrigin (pca_ForwardOrigin in_)).

Definition interactive_message (in_ : PbSendInteractiveRequest) (interactive : MessageInteractive) : Message :=
  let a := pin_Attachments (psi_Interactive in_) in
  request_message uuid_Nil (send_as_of (psi_SendAs in_)) (psi_SendId in_) "" "" (psi_DomainId in_)
    (MapPeerFromProto (psi_From in_)) (MapPeerFromProto (psi_To in_)) (psi_Body in_) MessageTypeInteractive (psi_Metadata in_)
    (ConvertPbImagesToDomain a) (ConvertPbDocumentsToDomain a) None None (Some interactive) None None None.

Definition sent_response (to : option PbPeer) (saved : Message) : PbSendMessageResponse :=
  MkPbSendMessageResponse [to] (env_uuid_string (msg_ID saved)).
End mapper.

(** ** message.go: the handlers *)
Section handlers.
Context {E : Env} {H : ThreadTagHooks} {X : MessageEnv}.

Definition SendTextHandler (d : CommandDispatcher) (in_ : PbSendTextRequest) : SM PbSendTextResponse :=
  out ← SendText d (MapToSendTextRequest in_);
  mret (MapToSendTextResponse out).

Definition SendDocumentHandler (in_ : PbSendDocumentRequest) : SM PbSendTextResponse :=
  out ← SendDocument (MapToSendDocumentRequest in_);
  mret (MapToSendTextResponse out).

Definition ReadHandler (in_ : PbReadMessageRequest) : SM unit := Read (MapToReadMessageRequest in_).
Definition UpdateMessageDeliveryHandler (in_ : PbUpdateMessageDeliveryRequest) : SM unit :=
  UpdateMessageDelivery (MapToMessageDelivery in_).

Definition SendLocationHandler (in_ : PbCardRequest) (address name : option string) (latitude longitude : float64)
    : SM PbSendMessageResponse :=
  saved ← SendLocation (card_message in_ MessageTypeLocation (Some (MkLocation address latitude longitude name)) None);
  mret (sent_response (pca_To in_) saved).

Definition SendContactHandler (in_ : PbCardRequest) (name phone email : option string) : SM PbSendMessageResponse :=
  saved ← SendContact (card_message in_ MessageTypeContact None (Some (MkContact phone name email)));
  mret (sent_response (pca_To in_) saved).

Definition SendInteractiveHandler (in_ : PbSendInteractiveRequest) : SM PbSendMessageResponse :=
  interactive ← of_result (ConvertInteractivePbToDomain (psi_Interactive in_));
  processed ← SendInteractive (interactive_message in_ interactive);
  mret (sent_response (psi_To in_) processed).

Definition SendInteractiveCallbackHandler (in_ : PbInteractiveCallbackRequest) : SM PbInteractiveCallbackResponse :=
  let from := MapPeerFromProto (pic_ReactedBy in_) in
  inReplyTo ← of_result (parse_or "in_reply_to must be a valid message id" (pic_InReplyTo in_));
  processed ← SendInteractiveCallback
    (MkCallback (Shared.peer_ID from) inReplyTo (pic_ButtonCode in_) (pic_CallbackData in_) 0 uuid_Nil 0 uuid_Nil []);
  mret (MkPbCallbackResponse (MapPeerToProto (Shared.MkPeer (ic_ReactedBy processed) (Shared.peer_Type from) None))
          (env_uuid_string (ic_InReplyTo processed)) (ic_ButtonCode processed) (ic_CallbackData processed)
          (ReactedAtUnix processed)).

Definition SendSystemMessageHandler (in_ : PbSendSystemMessageRequest) : SM PbSendMessageResponse :=
  saved ← SendSystemMessage (ConvertPbSystemMessageToDomain in_);
  mret (sent_response (pss_To in_) saved).

Definition SendTypingHandler (in_ : PbSendTypingRequest) : SM unit := SendTyping (MapToSendTypingRequest in_).

Definition EditMessageHandler (in_ : PbEditMessageRequest) : SM PbEditMessageResponse :=
  edited ← EditMessage (ConvertPbEditMessageToDomain in_);
  mret (MapToEditMessageResponse edited).

Definition DeleteMessagesHandler (in_ : PbDeleteMessagesRequest) : SM PbDeleteMessagesResponse :=
  out ← DeleteMessages (ConvertPbDeleteMessagesToDomain in_);
  mret (MapToDeleteMessagesResponse out).

Definition ForwardMessagesHandler (in_ : PbForwardMessagesRequest) : SM PbForwardMessagesResponse :=
  out ← ForwardMessages (MapToForwardMessagesRequest in_);
  mret (MapToForwardMessagesResponse out).

Definition SetReactionHandler (in_ : PbSetReactionRequest) : SM PbSetReactionResponse :=
  out ← SetReaction (ConvertPbSetReactionToDomain in_);
  mret (MapToSetReactionResponse out).
End handlers.

(** ** thread_permission.go *)
Record PbThreadPermissions := MkPbPermissions {
  ptp_Permissions : ThreadPermissions; ptp_Id : string; ptp_MemberId : string; ptp_ThreadId : string; ptp_CreatedAt : Z;
  ptp_UpdatedAt : Z }.
(** The seven optional flags are [chg]; its other fields are not read. *)
Record PbUpdatePermissionsRequest := MkPbUpdatePermissions {
  pup_MemberId : string; pup_InitiatorContactId : option string; pup_chg : UpdateThreadPermissionRequest }.

Section permissions.
Context {E : Env} {X : MessageEnv}.

Definition parse_present (s : option string) : result (option uuid) :=
  match s with None => OK None | Some s => u ← uuid_Parse s; OK (Some u) end.

(** [None] is a nil request. *)
Definition ConvertGetThreadPermissionRequest (in_ : option (string * option string)) : result GetThreadPermissionRequest :=
  match in_ with
  | None => Err (InvalidArgument "received nil pointer get thread permissions request")
  | Some (memberId, initiator) =>
      newMemberID ← uuid_Parse memberId;
      initiatorID ← parse_present initiator;
      OK (MkGetPerm initiatorID uuid_Nil newMemberID)
  end.

Definition ConvertUpdateThreadPermissionRequest (in_ : option PbUpdatePermissionsRequest)
    : result UpdateThreadPermissionRequest :=
  match in_ with
  | None => Err (InvalidArgument "received nil pointer update thread permissions request")
  | Some r =>
      targetMemberID ← uuid_Parse (pup_MemberId r);
      initiatorID ← parse_present (pup_InitiatorContactId r);
      let c := pup_chg r in
      OK (MkUpdatePerm initiatorID targetMemberID uuid_Nil (up_CanSendMessages c) (up_CanAddMembers c) (up_CanRemoveMembers c)
            (up_CanChangeMembersPermissions c) (up_CanChangeThreadInfo c) (up_CanDeleteMessages c) (up_CanReactMessages c))
  end.

Definition ConvertThreadPermission (p : ThreadPermission) : PbThreadPermissions :=
  MkPbPermissions (tp_Permissions p) (env_uuid_string (tp_ID p)) (env_uuid_string (tp_ThreadDialogID p))
    (env_uuid_string (tp_ThreadID p)) (UnixMilli (tp_CreatedAt p)) (UnixMilli (tp_UpdatedAt p)).

Definition GetThreadPermissionsHandler (in_ : option (string * option string)) : SM (list PbThreadPermissions) :=
  converted ← of_result (ConvertGetThreadPermissionRequest in_);
  permissions ← GetPermissions converted;
  mret (ConvertThreadPermission <$> permissions).

Definition UpdateThreadPermissionsHandler (in_ : option PbUpdatePermissionsRequest) : SM PbThreadPermissions :=
  converted ← of_result (ConvertUpdateThreadPermissionRequest in_);
  permission ← UpdatePermissions converted;
  mret (ConvertThreadPermission permission).
End permissions.

(** ** thread_preview.go *)
Record PbGivePreviewRequest := MkPbGivePreview {
  pgp_ThreadId : string; pgp_ContactId : string; pgp_InitiatorContactId : string; pgp_DomainId : Z; pgp_DurationMs : Z }.
Record PbRemoveFromPreviewRequest := MkPbRemovePreview {
  prp_ThreadId : string; prp_ContactId : string; prp_InitiatorContactId : option string; prp_DomainId : Z }.
Record PbUpgradePreviewRequest := MkPbUpgradePreview {
  pgu_ThreadId : string; pgu_ContactId : string; pgu_InitiatorContactId : string; pgu_DomainId : Z; pgu_Role : PbRole;
  pgu_Queue : option PbQueue }.
Record PbThreadPreview := MkPbThreadPreview {
  pvw_Id : string; pvw_Thread : string; pvw_ContactId : string; pvw_InitiatorContactId : string; pvw_DomainId : Z;
  pvw_CreatedAt : Z; pvw_ExpiresAt : Z }.

(** [int64] arithmetic wraps around. *)
Definition to_int64 (x : Z) : Z := (x + 2 ^ 63) `mod` 2 ^ 64 - 2 ^ 63.

Section previews.
Context {E : Env} {X : MessageEnv}.

Definition ConvertGivePreviewRequest (in_ : PbGivePreviewRequest) : result GivePreviewRequest :=
  threadID ← parse_or "invalid thread_id format" (pgp_ThreadId in_);
  contactID ← parse_or "invalid contact_id format" (pgp_ContactId in_);
  initiatorID ← parse_or "invalid initiator_contact_id format" (pgp_InitiatorContactId in_);
  OK (MkGivePreview threadID contactID initiatorID (pgp_DomainId in_) (to_int64 (pgp_DurationMs in_ * 1000000))).

Definition ConvertRemoveFromPreviewRequest (in_ : PbRemoveFromPreviewRequest) : result RemoveFromPreviewRequest :=
  threadID ← parse_or "invalid thread_id format" (prp_ThreadId in_);
  contactID ← parse_or "invalid contact_id format" (prp_ContactId in_);
  initiatorID ← match prp_InitiatorContactId in_ with
                | None => OK uuid_Nil
                | Some s => parse_or "invalid initiator_contact_id format" s
                end;
  OK (MkRemovePreview threadID contactID initiatorID (prp_DomainId in_)).

Definition ConvertUpgradePreviewRequest (in_ : PbUpgradePreviewRequest) : result UpgradePreviewRequest :=
  threadID ← parse_or "invalid thread_id format" (pgu_ThreadId in_);
  contactID ← parse_or "invalid contact_id format" (pgu_ContactId in_);
  initiatorID ← parse_or "invalid initiator_contact_id format" (pgu_InitiatorContactId in_);
  OK (MkUpgradePreview threadID contactID initiatorID (pgu_DomainId in_) (convertMemberRole (pgu_Role in_))
        (convertQueueInfo (pgu_Queue in_))).

Definition ConvertToThreadPreview (p : ThreadPreview) : PbThreadPreview :=
  MkPbThreadPreview (env_uuid_string (pv_id p)) (env_uuid_string (pv_thread_id p)) (env_uuid_string (pv_contact_id p))
    (env_uuid_string (pv_initiator_id p)) (to_int32 (pv_domain_id p)) (UnixMilli (pv_created_at p)) (UnixMilli (pv_expires_at p)).

Definition GivePreviewHandler (in_ : PbGivePreviewRequest) : SM PbThreadPreview :=
  converted ← of_result (ConvertGivePreviewRequest in_);
  preview ← GivePreview converted;
  mret (ConvertToThreadPreview preview).

Definition RemoveFromPreviewHandler (in_ : PbRemoveFromPreviewRequest) : SM unit :=
  converted ← of_result (ConvertRemoveFromPreviewRequest in_);
  RemoveFromPreview converted.

(** The member of the response echoes the contact and the role of the request. *)
Definition UpgradePreviewToFullMemberHandler (in_ : PbUpgradePreviewRequest) : SM PbMember :=
  converted ← of_result (ConvertUpgradePreviewRequest in_);
  memberID ← UpgradePreviewToFullMember converted;
  mret (MkPbMember (env_uuid_string memberID) (pgu_ContactId in_) (pgu_Role in_) false false false "").
End previews.

(** ** Keyboards of a request *)

(** The ids of the buttons, in the order of the rows or sections. *)
Definition kind_ids (k : option PbInteractiveKind) : list string :=
  match k with
  | Some (PbListReply _ sections) => sections ≫= (fun s => pbb_Id <$> pbs_Buttons s)
  | Some (PbMarkup rows) => rows ≫= (fun row => pbb_Id <$> row)
  | None => []
  end.

(** The kind as it is stored. *)
Definition stored_markup (k : option PbInteractiveKind) : option KeyboardButtonMarkup :=
  match k with
  | Some (PbMarkup rows) => Some (MkMarkup ((fun row => Some (MkRow (Some <$> convertPbButtonRowToDomain row))) <$> rows))
  | _ => None
  end.
Definition stored_list (k : option PbInteractiveKind) : option KeyboardListReply :=
  match k with
  | Some (PbListReply title sections) =>
      Some (MkListReply title ((fun s => Some (MkSection (pbs_Section s) (Some <$> (convertPbButtonRowToDomain (pbs_Buttons s)))))
              <$> sections))
  | _ => None
  end.

(** Distinct among themselves and from the codes seen. *)
Definition unseen (codes : gset string) (ids : list string) : Prop := NoDup ids /\ forall i, i ∈ ids -> i ∉ codes.

Lemma unseen_app codes a b : unseen codes (a ++ b) <-> unseen codes a /\ unseen (list_to_set a ∪ codes) b.
Proof. unfold unseen. rewrite NoDup_app. set_solver. Qed.

Lemma check_codes_spec msg codes ids :
  match check_codes msg codes ids with
  | OK codes' => unseen codes ids /\ codes' = list_to_set ids ∪ codes
  | Err e => Code e = CodeInvalidArgument /\ ~ unseen codes ids
  end.
Proof.
  unfold unseen. revert codes. induction ids as [|i ids IH]; intros codes; simpl.
  { split; [split; [constructor|by intros i ?%not_elem_of_nil]|set_solver]. }
  destruct (decide (i ∈ codes)) as [Hi|Hi]; [split; [done|intros [_ H]; by apply (H i); [left|]]|].
  specialize (IH ({[i]} ∪ codes)). destruct (check_codes _ _ ids) as [c|e].
  - destruct IH as [[Hn Hu] ->]. split; [split|set_solver].
    + constructor; [|done]. intros H. specialize (Hu i H). set_solver.
    + intros j [->|Hj]%elem_of_cons; [done|]. specialize (Hu j Hj). set_solver.
  - destruct IH as [Hc Hn]. split; [done|]. intros [[Hin Hnd]%NoDup_cons Hu]. apply Hn. split; [done|].
    intros j Hj [->%elem_of_singleton|Hjc]%elem_of_union; [done|]. by apply (Hu j); [right|].
Qed.

Lemma row_ids row : btn_ID <$> convertPbButtonRowToDomain row = pbb_Id <$> row.
Proof.
  unfold convertPbButtonRowToDomain. rewrite <- list_fmap_compose. apply list_fmap_ext. intros _ b _. simpl.
  unfold convertInteractivePbButtonKindToDomain. by destruct (pbb_Kind b) as [[]|].
Qed.

Lemma kind_ids_row row rows :
  kind_ids (Some (PbMarkup (row :: rows))) = (pbb_Id <$> row) ++ kind_ids (Some (PbMarkup rows)).
Proof. reflexivity. Qed.
Lemma kind_ids_section s sections : kind_ids (Some (PbListReply "" (s :: sections))) =
  (pbb_Id <$> pbs_Buttons s) ++ kind_ids (Some (PbListReply "" sections)).
Proof. reflexivity. Qed.

Lemma convert_rows_spec codes rows :
  match convert_rows codes rows with
  | OK rows' => unseen codes (kind_ids (Some (PbMarkup rows))) /\ rows' = convertPbButtonRowToDomain <$> rows
  | Err e => Code e = CodeInvalidArgument /\ ~ unseen codes (kind_ids (Some (PbMarkup rows)))
  end.
Proof.
  revert codes. induction rows as [|row rows IH]; intros codes; cbn [convert_rows].
  { split; [split; [constructor|by intros i ?%not_elem_of_nil]|done]. }
  rewrite row_ids. pose proof (check_codes_spec
    "button id must be unique for each button per row of a keyboard markup" codes (pbb_Id <$> row)) as Hc.
  destruct (check_codes _ codes _) as [codes'|e]; cbn [mbind result_bind]; [|rewrite kind_ids_row, unseen_app; tauto].
  destruct Hc as [Hu ->]. specialize (IH (list_to_set (pbb_Id <$> row) ∪ codes)).
  destruct (convert_rows _ rows) as [rows'|e]; cbn [mbind result_bind]; rewrite kind_ids_row, unseen_app; [|tauto].
  destruct IH as [Hr ->]. done.
Qed.

Lemma convert_sections_spec codes sections :
  match convert_sections codes sections with
  | OK out => unseen codes (kind_ids (Some (PbListReply "" sections))) /\
      out = (fun s => MkSection (pbs_Section s) (Some <$> (convertPbButtonRowToDomain (pbs_Buttons s)))) <$> sections
  | Err e => Code e = CodeInvalidArgument /\ ~ unseen codes (kind_ids (Some (PbListReply "" sections)))
  end.
Proof.
  revert codes. induction sections as [|s sections IH]; intros codes; cbn [convert_sections].
  { split; [split; [constructor|by intros i ?%not_elem_of_nil]|done]. }
  pose proof (check_codes_spec "button id must be unique for each button per list reply" codes (pbb_Id <$> pbs_Buttons s)) as Hc.
  destruct (check_codes _ codes _) as [codes'|e]; cbn [mbind result_bind]; [|rewrite kind_ids_section, unseen_app; tauto].
  destruct Hc as [Hu ->]. specialize (IH (list_to_set (pbb_Id <$> pbs_Buttons s) ∪ codes)).
  destruct (convert_sections _ sections) as [out|e]; cbn [mbind result_bind]; rewrite kind_ids_section, unseen_app; [|tauto].
  destruct IH as [Hr ->]. done.
Qed.

(** A keyboard is taken over as it is, if no id is used twice. *)
Lemma ConvertInteractive_spec (in_ : PbInteractiveInput) :
  match ConvertInteractivePbToDomain in_ with
  | OK m => NoDup (kind_ids (pin_Kind in_)) /\
      m = MkInteractive (attachments_flag (pin_Attachments in_)) (pin_SingleUse in_) (stored_markup (pin_Kind in_))
            (stored_list (pin_Kind in_)) (convertMenuPlacementPbToDomain (pin_Placement in_))
            (convertInputFieldStatePbToDomain (pin_InputFieldState in_))
  | Err e => Code e = CodeInvalidArgument /\ ~ NoDup (kind_ids (pin_Kind in_))
  end.
Proof.
  assert (Hu : forall ids, unseen ∅ ids <-> NoDup ids) by (intros ids; unfold unseen; set_solver).
  unfold ConvertInteractivePbToDomain. destruct (pin_Kind in_) as [[title sections|rows]|]; [..|by split; [apply NoDup_nil_2|]].
  - unfold convertInteractivePbListReplyToDomain. pose proof (convert_sections_spec ∅ sections) as H.
    destruct (convert_sections ∅ sections) as [out|e]; cbn [mbind result_bind]; rewrite Hu in H; [|exact H]. destruct H as [H ->].
    split; [exact H|]. unfold stored_list. by rewrite <- list_fmap_compose.
  - unfold convertPbMarkupToDomain. pose proof (convert_rows_spec ∅ rows) as H.
    destruct (convert_rows ∅ rows) as [out|e]; cbn [mbind result_bind]; rewrite Hu in H; [|exact H]. destruct H as [H ->].
    split; [exact H|]. unfold stored_markup. by rewrite <- list_fmap_compose.
Qed.


(** ** Peers *)

(** A peer comes back as it was sent: what the service writes for a peer of
    a known type is read as the same peer, without its identity, wherever the
    text of an id is read as that id; a peer of any other type is read as no
    peer at all. *)
Theorem peer_roundtrip {E : Env} {X : MessageEnv} (p : Shared.Peer) :
  (forall u, menv_uuid_parse (env_uuid_string u) = Some u) ->
  MapPeerFromProto (Some (MapPeerToProto p)) =
    if decide (1 <= Shared.peer_Type p <= 4) then Shared.MkPeer (Shared.peer_ID p) (Shared.peer_Type p) None else zero_peer.
Proof.
  intros Hp. unfold MapPeerToProto, MapPeerFromProto, IDsParser. simpl.
  unfold Shared.PeerContact, Shared.PeerGroup, Shared.PeerChannel, Shared.PeerThread.
  destruct p as [u t i]. cbn [Shared.peer_ID Shared.peer_Type].
  repeat match goal with
  | |- context [decide (t = ?k)] => destruct (decide (t = k)) as [->|?]; [by rewrite Hp|]
  end.
  by rewrite decide_False by lia.
Qed.

(** ** Bounds *)
Lemma parse_int64_range s : - 2 ^ 63 <= parse_int64 s < 2 ^ 63.
Proof. unfold parse_int64. destruct (match s with EmptyString => None | String c s' => _ end); lia. Qed.

Lemma parse_digits_ge acc s n : 0 <= acc -> parse_digits acc s = Some n -> acc <= n.
Proof.
  revert acc. induction s as [|c s IH]; intros acc Ha; simpl; [by intros [= ->]|].
  unfold digit_value. destruct ((48 <=? _) && _) eqn:Hc; [|done]. simpl. intros Hp.
  apply andb_true_iff in Hc as [?%Z.leb_le ?%Z.leb_le]. apply IH in Hp; lia.
Qed.

Lemma parse_uint_spec acc s n : 0 <= acc < 2 ^ 64 -> parse_digits acc s = Some n -> parse_uint acc s = Some (Z.min n (2 ^ 64 - 1)).
Proof.
  revert acc. induction s as [|c s IH]; intros acc Ha; simpl; [intros [= ->]; by rewrite Z.min_l by lia|].
  destruct (digit_value c) as [d|] eqn:Hd; [|done]. simpl. intros Hp.
  assert (0 <= d) by (unfold digit_value in Hd; destruct ((48 <=? _) && _) eqn:Hc; simplify_eq; lia).
  destruct (Z.leb_spec (2 ^ 64) (10 * acc + d)); [|apply IH; [lia|done]].
  apply parse_digits_ge in Hp; [|lia]. by rewrite Z.min_r by lia.
Qed.

(** Whatever number the id of a document is, the nearest 64-bit one is taken. *)
Lemma parse_int64_nearest n : parse_int64 (FormatInt n) = Z.max (- 2 ^ 63) (Z.min n (2 ^ 63 - 1)).
Proof.
  assert (Hu : forall k, parse_unsigned (pretty k) = Some (Z.min (Z.of_N k) (2 ^ 64 - 1))).
  { intros k. destruct (pretty_head k) as (c & s & Heq & _ & _ & Hp). unfold parse_unsigned. rewrite Heq in *.
    apply parse_uint_spec; [lia|exact Hp]. }
  unfold parse_int64, FormatInt. destruct n as [|p|p]; [done| |]; unfold pretty at 1, pretty.pretty_Z at 1.
  - change (pretty p) with (pretty (N.pos p)). destruct (pretty_head (N.pos p)) as (c & s & Heq & Hm & Hp & Hd). rewrite Heq.
    rewrite decide_False, decide_False by done. change (pretty (Z.pos p)) with (pretty (N.pos p)). rewrite Hu. cbv iota beta. lia.
  - change (pretty p) with (pretty (N.pos p)).
    change ("-" +:+ pretty (N.pos p)) with (String "-"%char (pretty (N.pos p))).
    cbv iota beta. rewrite decide_True by done. rewrite Hu. cbv beta iota delta [fmap option_fmap option_map]. lia.
Qed.

(** A duration of 584 years is taken for half a millisecond. *)
Example preview_duration_wraps {E : Env} {X : MessageEnv} (u : uuid) :
  (forall s, menv_uuid_parse s = Some u) ->
  ConvertGivePreviewRequest (MkPbGivePreview "" "" "" 7 18446744073710) = OK (MkGivePreview u u u 7 448384).
Proof. intros Hp. unfold ConvertGivePreviewRequest, parse_or, uuid_Parse. by rewrite !Hp. Qed.

(** ** Witness *)
Definition sample_peer : Shared.Peer := Shared.MkPeer 104 Shared.PeerGroup None.

(** Ids that print and read back. *)
Definition numeric_ids : MessageEnv := {|
  menv_identity := fun _ _ => OK None; menv_search_contact := None;
  menv_uuid_parse := fun s => Z.to_N <$> parse_number s;
  menv_upload := fun _ url _ mime => OK (1, mime, url); menv_file_link := fun _ _ => Err (errors_New "");
  menv_resolve_reference := fun base rel => OK (base +:+ rel); menv_nfc := fun s => s; menv_contains_emoji := fun _ => true;
  menv_decode_entities := fun _ => []; menv_publish := fun _ => OK tt; menv_limiter := None;
  menv_typing := MkTypingConfig true true 0 0 0 0 |}.

Lemma peer_roundtrip_witness :
  @MapPeerFromProto numeric_ids (Some (@MapPeerToProto quiet_env sample_peer)) = sample_peer.
Proof.
  apply (@peer_roundtrip quiet_env numeric_ids sample_peer). intros u. simpl. rewrite parse_number_pretty. simpl.
  by rewrite N2Z.id.
Defined.
