(* ===== verification/Providers.v ===== *)
(** * Providers: what external messengers are told

    internal/service/providers_adapter.go and reaction_capability.go over
    ExternalStore.v.  The client of im-providers is the environment: it answers
    a request with the id the message has outside ("" for none) or an error.
    The source calls every peer in a goroutine of its own; here the goroutines
    run one after the other in the order [schedule] picks, whichever it is: each
    reads and writes rows of its own gate.  The calls made are returned with
    their answers, the error of a call is the list of those that failed (nil for
    an empty list), as errors.Join keeps them. *)
From S2P Require Import Prelude Domain Events Message World Text ExternalStore MediaProcessor MessageStatus MessageService HistoryMapper TypingService MessageRules.
From S2P Require Import Samples MessageHandlers.
#[local] Open Scope Z_scope.

(** ** Requests: the messages of gen/go/provider/v1 with the fields the adapter sets *)
Record PrPeer := MkPrPeer { pp_GateId : string; pp_ExternalUserId : string; pp_DomainId : Z }.
Record PrEntity := MkPrEntity { pre_Type : string; pre_Offset : Z; pre_Length : Z; pre_Value : option string }.
Record PrFile := MkPrFile { prf_Id : string; prf_Url : string; prf_Name : string; prf_MimeType : string; prf_Size : Z }.
Record PrButton := MkPrButton { pbt_Id : string; pbt_Label : string; pbt_Kind : option PbButtonKind }.
Inductive PrInteractiveKind :=
  | PrMarkup (rows : list (list PrButton))
  | PrListReply (title : string) (sections : list (string * list PrButton)).
Record PrInteractive := MkPrInteractive {
  pri_SingleUse : bool; pri_Placement : Z; pri_InputFieldState : Z; pri_Kind : option PrInteractiveKind }.

(** [message] and [thread] are ids in their textual form, [reply] the external
    id of the message replied to. *)
Inductive ProviderRequest :=
  | RqDocument (to : PrPeer) (docs : list PrFile) (caption message thread reply sender : string) (es : list PrEntity)
  | RqText (to : PrPeer) (text message thread reply sender : string) (es : list PrEntity)
  | RqContact (to : PrPeer) (name phone : string) (email : option string) (reply sender : string)
  | RqInteractive (to : PrPeer) (body sendID : string) (kb : PrInteractive) (message thread reply sender : string)
  | RqLocation (to : PrPeer) (lat lon : float64) (name address : option string) (reply sender : string)
  | RqSystem (to : PrPeer) (eventType : string) (vars : gmap string string) (message thread : string)
  | RqTyping (to : PrPeer) (on : bool) (thread : string)
  | RqReaction (to : PrPeer) (externalID emoji : string) (removed : bool) (message thread : string).

Definition rq_peer (rq : ProviderRequest) : PrPeer :=
  match rq with
  | RqDocument to _ _ _ _ _ _ _ | RqText to _ _ _ _ _ _ | RqContact to _ _ _ _ _ | RqInteractive to _ _ _ _ _ _ _
  | RqLocation to _ _ _ _ _ _ | RqSystem to _ _ _ _ | RqTyping to _ _ | RqReaction to _ _ _ _ _ => to
  end.

(** A call made and its answer. *)
Abbreviation outcome := (ProviderRequest * result string)%type.

(** ** reaction_capability.go *)
Record ReactionCapabilities := MkCapabilities { Allowed : string -> string -> bool }.

(** [NewStaticReactionCapabilities]: an empty list allows everything. *)
Definition NewStaticReactionCapabilities (allowed : list string) : ReactionCapabilities :=
  let set : gset string := list_to_set allowed in
  MkCapabilities (fun _ emoji => bool_decide (set = ∅) || bool_decide (emoji ∈ set)).

(** The client, the capabilities ([None] is nil) and how fmt prints the values
    of a metadata that are neither simple nor of the program's own types. *)
Class ProvidersEnv := {
  penv_client : ProviderRequest -> result string;
  penv_caps : option ReactionCapabilities;
  penv_sprint : any -> string }.

Section adapter.
Context {E : Env} {X : MessageEnv} {P : ProvidersEnv}.

(** ** Conversions *)
Definition strval (s : option string) : string := default "" s.

(** A nil pointer in a keyboard is followed, which ends the process. *)
Definition nil_pointer : error := errors_New "invalid memory address or nil pointer dereference".
Definition deref {A} (p : option A) : result A := match p with Some a => OK a | None => Err nil_pointer end.

Definition mapButton (b : KeyboardButton) : PrButton :=
  MkPrButton (btn_ID b) (btn_Label b)
    (if decide (btn_Type b = ActionTypeURL) then Some (KbUrl (strval (btn_URL b)))
     else if decide (btn_Type b = ActionTypeCallback) then Some (KbCallback (strval (btn_Data b)))
     else if decide (btn_Type b = ActionTypeRequest) then Some (KbRequest (strval (btn_Action b))) else None).

Definition mapButtons (buttons : list (option KeyboardButton)) : result (list PrButton) :=
  mapM (fun b => mapButton <$> deref b) buttons.

Definition mapMenuPlacement (p : Z) : Z :=
  if decide (p = MenuPlacementInline) then 1 else if decide (p = MenuPlacementPersistent) then 2 else 0.
Definition mapInputFieldState (p : Z) : Z :=
  if decide (p = InputFieldStateRegular) then 1 else if decide (p = InputFieldStateMinimized) then 2
  else if decide (p = InputFieldStateHidden) then 3 else 0.

Definition mapInteractive (m : MessageInteractive) : result PrInteractive :=
  kind ← match int_Markup m, int_ListReply m with
         | Some k, _ => rows ← mapM (fun r => r ← deref r; mapButtons (row_Buttons r)) (mk_Rows k); OK (Some (PrMarkup rows))
         | None, Some l =>
             sections ← mapM (fun s => s ← deref s; bs ← mapButtons (sec_Buttons s); OK (sec_Section s, bs)) (lr_Sections l);
             OK (Some (PrListReply (lr_Title l) sections))
         | None, None => OK None
         end;
  OK (MkPrInteractive (int_SingleUse m) (mapMenuPlacement (int_Placement m)) (mapInputFieldState (int_InputFieldState m)) kind).

Definition mapEntitiesToProvider (es : list Shared.Entity) : list PrEntity :=
  (fun e => MkPrEntity (Shared.ent_Type e) (to_int32 (Shared.ent_Offset e)) (to_int32 (Shared.ent_Length e))
              (if decide (Shared.ent_Value e = "") then None else Some (Shared.ent_Value e))) <$> es.

(** [fmt.Sprint] *)
Definition Sprint (v : any) : string :=
  match v with
  | AnyNil => "<nil>"
  | AnyBool b => if b then "true" else "false"
  | AnyInt z => pretty z
  | AnyString s => s
  | AnyUUID u => env_uuid_string u
  | AnyRole r => Role.role_String r
  | AnyEntities _ | AnyRaw _ => penv_sprint v
  end.

Definition metadataToStringMap (m : metadata) : gmap string string := Sprint <$> m.

Definition senderName (m : Message) : string :=
  match Shared.peer_Identity (msg_From m) with Some i => Shared.idn_ChatName i | None => "" end.

Definition extractFile (d : MessageDocument) : PrFile :=
  MkPrFile (pretty (doc_FileID d)) (doc_URL d) (doc_Name d) (doc_Mime d) (doc_Size d).

(** ** Messages *)
Definition lookupReplyExternalID (message : Message) (gateID : string) : SM string :=
  match msg_ReplyTo message with
  | None => mret ""
  | Some r =>
      ext ← catch (LookupExternalID (rto_MessageID r) gateID);
      mret (match ext with OK ext => ext | Err _ => "" end)
  end.

(** A failure is logged. *)
Definition persistExternalID (message : Message) (gateID extID : string) : SM unit :=
  if decide (extID = "") then mret tt
  else catch (ExternalStore.Save (MkExternalID (msg_ID message) (msg_ThreadID message) gateID extID ExternalDirectionOutbound));;
       mret tt.

Definition pr_peer (domainID : Z) (p : ExternalPeerPair) : PrPeer :=
  MkPrPeer (ep_Via p) (env_uuid_string (ep_ContactID p)) domainID.

(** The request for a peer; [None] for what is skipped: messages of a type
    without their payload, images, unknown types. *)
Definition provider_request (m : Message) (p : ExternalPeerPair) (reply : string) : result (option ProviderRequest) :=
  let to := pr_peer (msg_DomainID m) p in
  let mid := env_uuid_string (msg_ID m) in let tid := env_uuid_string (msg_ThreadID m) in
  let es := mapEntitiesToProvider (DecodeEntitiesFromMetadata menv_decode_entities (msg_Metadata m)) in
  if decide (msg_Type m = MessageTypeFile)
  then OK (Some (RqDocument to (extractFile <$> msg_Documents m) (msg_Body m) mid tid reply (senderName m) es))
  else if decide (msg_Type m = MessageTypeText) then OK (Some (RqText to (msg_Body m) mid tid reply (senderName m) es))
  else if decide (msg_Type m = MessageTypeContact) then
    OK (c ← msg_Contact m; Some (RqContact to (strval (con_Name c)) (strval (con_PhoneNumber c)) (con_Email c) reply (senderName m)))
  else if decide (msg_Type m = MessageTypeInteractive) then
    match msg_Interactive m with
    | None => OK None
    | Some i => kb ← mapInteractive i; OK (Some (RqInteractive to (msg_Body m) mid kb mid tid reply (senderName m)))
    end
  else if decide (msg_Type m = MessageTypeLocation) then
    OK (l ← msg_Location m; Some (RqLocation to (loc_Latitude l) (loc_Longitude l) (loc_Name l) (loc_Address l) reply (senderName m)))
  else if decide (msg_Type m = MessageTypeSystem) then
    OK (s ← msg_System m; Some (RqSystem to (sys_Type s) (metadataToStringMap (sys_Metadata s)) mid tid))
  else OK None.

Definition failures (calls : list outcome) : list error :=
  omap (fun c : outcome => match c.2 with OK _ => None | Err e => Some e end) calls.

(** The work of one goroutine. *)
Definition send_to_peer (m : Message) (p : ExternalPeerPair) : SM (option outcome) :=
  reply ← lookupReplyExternalID m (ep_Via p);
  rq ← of_result (provider_request m p reply);
  match rq with
  | None => mret None
  | Some rq =>
      match penv_client rq with
      | Err e => mret (Some (rq, Err e))
      | OK extID => persistExternalID m (ep_Via p) extID;; mret (Some (rq, OK extID))
      end
  end.

Fixpoint for_peers {A B} (f : A -> SM (option B)) (l : list A) : SM (list B) :=
  match l with
  | [] => mret []
  | x :: l' => o ← f x; rest ← for_peers f l'; mret (match o with Some b => b :: rest | None => rest end)
  end.

(** [None] is a nil message. *)
Definition SendMessage (schedule : list ExternalPeerPair -> list ExternalPeerPair) (message : option Message)
    : SM (list outcome * list error) :=
  match message with
  | None => throw (InvalidArgument "received nil pointer message")
  | Some m =>
      calls ← for_peers (send_to_peer m) (schedule (external_peers (to_list m) (GetSender m)));
      mret (calls, failures calls)
  end.

(** ** Typing: nothing is read or stored *)
Definition SendTypingToPeers (schedule : list ExternalPeerPair -> list ExternalPeerPair) (thread : uuid) (domain : Z)
    (on : bool) (peers : list ExternalPeerPair) : list outcome * list error :=
  let calls := (fun p => let rq := RqTyping (pr_peer domain p) on (env_uuid_string thread) in (rq, penv_client rq))
                 <$> schedule peers in
  (calls, failures calls).

(** ** Reactions *)
Definition is_removed (res : ReactionResult) : bool :=
  match rr_Action res with ActionRemoved => true | _ => false end.

Definition may_forward (res : ReactionResult) (gate : string) : bool :=
  is_removed res || match penv_caps with None => true | Some c => Allowed c gate (rr_Emoji res) end.

Definition provider_reaction (r : Reaction) (res : ReactionResult) (p : ExternalPeerPair) (externalID : string) : ProviderRequest :=
  RqReaction (pr_peer (rct_DomainID r) p) externalID (rr_Emoji res) (is_removed res) (env_uuid_string (rct_MessageID r))
    (env_uuid_string (rct_ThreadID r)).

(** The loop before the goroutines start: a gate without an external id of the
    message, or whose lookup fails, is left out. *)
Definition reaction_target (r : Reaction) (res : ReactionResult) (p : ExternalPeerPair) : SM (option ProviderRequest) :=
  ext ← catch (LookupExternalID (rct_MessageID r) (ep_Via p));
  mret (match ext with
        | Err _ => None
        | OK ext => if bool_decide (ext = "") || negb (may_forward res (ep_Via p)) then None
                    else Some (provider_reaction r res p ext)
        end).

(** [None] is a nil pointer. *)
Definition SendReaction (schedule : list ProviderRequest -> list ProviderRequest) (reaction : option Reaction)
    (result : option ReactionResult) : SM (list outcome * list error) :=
  match reaction, result with
  | Some r, Some res =>
      requests ← for_peers (reaction_target r res) (external_peers (rct_To r) (rct_ReactorID r));
      let calls := (fun rq => (rq, penv_client rq)) <$> schedule requests in
      mret (calls, failures calls)
  | _, _ => mret ([], [])
  end.
End adapter.

(** ** Which messages go out *)
Ltac sent := eexists; split; [reflexivity|by split; [|intros ? [= <-]]].

Section facts.
Context {E : Env} {X : MessageEnv} {P : ProvidersEnv}.

(** The message has the payload its type calls for. *)
Definition carries (m : Message) : bool :=
  bool_decide (msg_Type m = MessageTypeFile) || bool_decide (msg_Type m = MessageTypeText) ||
  (bool_decide (msg_Type m = MessageTypeContact) && is_some (msg_Contact m)) ||
  (bool_decide (msg_Type m = MessageTypeInteractive) && is_some (msg_Interactive m)) ||
  (bool_decide (msg_Type m = MessageTypeLocation) && is_some (msg_Location m)) ||
  (bool_decide (msg_Type m = MessageTypeSystem) && is_some (msg_System m)).

(** No pointer of the keyboard, if there is one, is nil. *)
Definition keyboard_complete (m : Message) : Prop :=
  forall i, msg_Interactive m = Some i -> is_ok (mapInteractive i) = true.

Lemma provider_request_total m p reply : keyboard_complete m ->
  exists rq, provider_request m p reply = OK rq /\ is_some rq = carries m /\
    forall r, rq = Some r -> rq_peer r = pr_peer (msg_DomainID m) p.
Proof.
  intros Hk. unfold provider_request, carries.
  destruct (decide (msg_Type m = MessageTypeFile)) as [->|N1]; [sent|].
  destruct (decide (msg_Type m = MessageTypeText)) as [->|N2]; [sent|].
  destruct (decide (msg_Type m = MessageTypeContact)) as [->|N3]; [destruct (msg_Contact m); sent|].
  destruct (decide (msg_Type m = MessageTypeInteractive)) as [->|N4].
  { destruct (msg_Interactive m) as [i|] eqn:Ei; [|sent].
    specialize (Hk i Ei). destruct (mapInteractive i) as [kb|]; [sent|done]. }
  destruct (decide (msg_Type m = MessageTypeLocation)) as [->|N5]; [destruct (msg_Location m); sent|].
  destruct (decide (msg_Type m = MessageTypeSystem)) as [->|N6]; [destruct (msg_System m); sent|].
  eexists; split; [reflexivity|]. split; [|done]. by rewrite !bool_decide_eq_false_2 by done.
Qed.

(** The external id of a message at a gate, "" for none. *)
Definition external_id (d : DB) (mid : uuid) (gate : string) : string :=
  match find_first (by_message mid gate) (db_externals d) with Some x => ex_external_id x | None => "" end.

Lemma statement_db w r w' : statement w = (r, w') -> w_db w' = w_db w /\ w_in_tx w' = w_in_tx w.
Proof. unfold statement. intros H. repeat (break_hyp; try done); by injection H as _ <-. Qed.

Lemma lookup_external mid gate w : exists r w', catch (LookupExternalID mid gate) w = (OK r, w') /\ w_db w' = w_db w /\
  w_in_tx w' = w_in_tx w /\ forall x, r = OK x -> x = external_id (w_db w) mid gate.
Proof.
  unfold catch, LookupExternalID, statement_as, map_err. rewrite M_bind_unfold.
  destruct (statement w) as [[u|e] w1] eqn:Hs; destruct (statement_db _ _ _ Hs) as [Hd Ht]; eexists _, w1; (split; [done|]).
  - split; [done|]. split; [done|]. intros x [= <-]. unfold external_id. by rewrite Hd.
  - done.
Qed.

(** ** What is stored *)
Definition add_externals (new : list ExternalRow) (d : DB) : DB := on_externals (fun l => l ++ new) d.

Lemma add_externals_nil d : add_externals [] d = d.
Proof. unfold add_externals, on_externals. rewrite app_nil_r. by destruct d. Qed.
Lemma add_externals_app a b d : add_externals b (add_externals a d) = add_externals (a ++ b) d.
Proof. unfold add_externals, on_externals. simpl. by rewrite app_assoc. Qed.

(** The row of a copy of the message at a gate. *)
Definition copy_row (m : Message) (gate ext : string) : ExternalRow :=
  external_row (MkExternalID (msg_ID m) (msg_ThreadID m) gate ext ExternalDirectionOutbound).

Lemma persist_run m gate ext w : exists w' new, persistExternalID m gate ext w = (OK tt, w') /\ w_in_tx w' = w_in_tx w /\
  w_db w' = add_externals new (w_db w) /\ (new = [] \/ ext <> "" /\ new = [copy_row m gate ext]).
Proof.
  unfold persistExternalID. destruct (decide (ext = "")) as [->|Hx].
  { eexists w, []. rewrite add_externals_nil. auto. }
  unfold catch. rewrite M_bind_unfold. destruct (ExternalStore.Save _ w) as [r w'] eqn:Hs. unfold ExternalStore.Save in Hs. simpl in Hs.
  assert (w_in_tx w' = w_in_tx w /\ (w_db w' = w_db w \/ w_db w' = add_externals [copy_row m gate ext] (w_db w))) as [Ht Hd].
  { break_hyp; [by injection Hs as _ <-; auto|]. unfold statement_as, map_err in Hs. rewrite M_bind_unfold in Hs.
    destruct (statement w) as [[u|e] w1] eqn:Hs1; destruct (statement_db _ _ _ Hs1) as [Hd Ht]; [|injection Hs as _ <-; by auto].
    run in Hs. repeat (break_hyp; try done); run in Hs; unfold reject_as, reject in *; simplify_eq/=; rewrite ?Ht, ?Hd; auto. }
  destruct Hd as [Hd|Hd]; [exists w', []; rewrite add_externals_nil|exists w', [copy_row m gate ext]]; split_and!; auto.
Qed.

Definition external_known (d : DB) (mid : uuid) (gate ext : string) : Prop :=
  exists x, x ∈ db_externals d /\ ex_message_id x = mid /\ ex_gate_id x = gate /\ ex_external_id x = ext.

Lemma external_id_known d mid gate : external_id d mid gate <> "" -> external_known d mid gate (external_id d mid gate).
Proof.
  unfold external_id. destruct (find_first _ _) as [x|] eqn:Hf; [|done]. intros _.
  apply find_first_Some in Hf as [Hx Hb]. unfold by_message in Hb. exists x.
  apply andb_true_iff in Hb as [?%bool_decide_eq_true ?%bool_decide_eq_true]. auto.
Qed.

Lemma external_known_add d new mid gate ext :
  external_known d mid gate ext -> external_known (add_externals new d) mid gate ext.
Proof. intros (x & Hx & H). exists x. split; [|done]. simpl. apply elem_of_app. by left. Qed.

(** A call as the message and the peer call for it: its answer is the client's,
    its reply id one the gate is known to use for the message replied to. *)
Definition call_ok (m : Message) (d : DB) (p : ExternalPeerPair) (c : outcome) : Prop :=
  rq_peer c.1 = pr_peer (msg_DomainID m) p /\ c.2 = penv_client c.1 /\
  exists reply, provider_request m p reply = OK (Some c.1) /\
  (reply = "" \/ exists r, msg_ReplyTo m = Some r /\ external_known d (rto_MessageID r) (ep_Via p) reply).

Lemma call_ok_add m d new p c : call_ok m d p c -> call_ok m (add_externals new d) p c.
Proof. intros (? & ? & reply & ? & H). split; [done|]. split; [done|]. exists reply. naive_solver eauto using external_known_add. Qed.

Definition copy_of (m : Message) (l : list ExternalPeerPair) (calls : list outcome) (x : ExternalRow) : Prop :=
  exists p c ext, p ∈ l /\ c ∈ calls /\ rq_peer c.1 = pr_peer (msg_DomainID m) p /\ c.2 = OK ext /\ ext <> "" /\
  x = copy_row m (ep_Via p) ext.

Lemma lookup_reply m gate w : exists reply w', lookupReplyExternalID m gate w = (OK reply, w') /\ w_db w' = w_db w /\
  w_in_tx w' = w_in_tx w /\
  (reply = "" \/ exists r, msg_ReplyTo m = Some r /\ external_known (w_db w) (rto_MessageID r) gate reply).
Proof.
  unfold lookupReplyExternalID. destruct (msg_ReplyTo m) as [r|]; [|eexists _, w; auto].
  destruct (lookup_external (rto_MessageID r) gate w) as (o & w' & Hl & Hd & Ht & Ho).
  rewrite M_bind_unfold, Hl. eexists _, w'. split; [done|]. split; [done|]. split; [done|].
  destruct o as [x|]; [|by left]. destruct (decide (x = "")) as [->|Hne]; [by left|].
  right. exists r. split; [done|]. rewrite (Ho x eq_refl) in *. by apply external_id_known.
Qed.

(** One goroutine: it does not fail, whatever the client and the database do. *)
Lemma send_to_peer_run m p w : keyboard_complete m ->
  exists o w' new, send_to_peer m p w = (OK o, w') /\ w_in_tx w' = w_in_tx w /\ w_db w' = add_externals new (w_db w) /\
    is_some o = carries m /\ (forall c, o = Some c -> call_ok m (w_db w') p c) /\
    (forall c x, o = Some c -> x ∈ new -> copy_of m [p] [c] x) /\ (o = None -> new = []).
Proof.
  intros Hk. unfold send_to_peer. destruct (lookup_reply m (ep_Via p) w) as (reply & w1 & Hl & Hd1 & Ht1 & Hr).
  rewrite M_bind_unfold, Hl. destruct (provider_request_total m p reply Hk) as (rq & Hrq & Hc & Hto).
  rewrite M_bind_unfold. unfold of_result. rewrite Hrq. destruct rq as [rq|].
  2: { exists None, w1, []. rewrite add_externals_nil. by split_and!. }
  assert (Hok : forall d, d = w_db w1 -> call_ok m d p (rq, penv_client rq)).
  { intros d ->. rewrite Hd1. split; [by apply Hto|]. split; [done|]. by exists reply. }
  destruct (penv_client rq) as [ext|e] eqn:Hcl.
  2: { exists (Some (rq, Err e)), w1, []. rewrite add_externals_nil. split_and!; try done; [by intros c [= <-]; apply Hok|by intros c x _ ?%not_elem_of_nil]. }
  destruct (persist_run m (ep_Via p) ext w1) as (w2 & new & Hp & Ht2 & Hd2 & Hnew).
  rewrite M_bind_unfold, Hp. exists (Some (rq, OK ext)), w2, new. split; [done|]. split; [congruence|].
  split; [congruence|]. split; [done|]. split; [|split; [|done]].
  - intros c [= <-]. rewrite Hd2. apply call_ok_add. by apply Hok.
  - intros c x [= <-] Hx. destruct Hnew as [->|[Hne ->]]; [by apply not_elem_of_nil in Hx|].
    apply list_elem_of_singleton in Hx as ->. exists p, (rq, OK ext), ext. split_and!; try done; [left|left|by apply Hto].
Qed.

(** All of them, one after the other. *)
Lemma for_peers_send m l w : keyboard_complete m ->
  exists calls w' new, for_peers (send_to_peer m) l w = (OK calls, w') /\ w_in_tx w' = w_in_tx w /\
    w_db w' = add_externals new (w_db w) /\ (forall x, x ∈ new -> copy_of m l calls x) /\
    if carries m then Forall2 (call_ok m (w_db w')) l calls else calls = [].
Proof.
  intros Hk. revert w. induction l as [|p l IH]; intros w; simpl.
  { exists [], w, []. rewrite add_externals_nil. split_and!; try done; [by intros x ?%not_elem_of_nil|by destruct (carries m)]. }
  destruct (send_to_peer_run m p w Hk) as (o & w1 & new1 & H1 & T1 & D1 & Hs & Hok & Hcopy & Hno).
  destruct (IH w1) as (calls & w2 & new2 & H2 & T2 & D2 & Hcopy2 & Hall).
  rewrite M_bind_unfold, H1, M_bind_unfold, H2. eexists _, w2, (new1 ++ new2). split; [done|]. split; [congruence|].
  split; [by rewrite D2, D1, add_externals_app|]. split.
  - intros x [Hx|Hx]%elem_of_app.
    + destruct o as [c|]; [|rewrite Hno in Hx by done; by apply not_elem_of_nil in Hx].
      destruct (Hcopy c x eq_refl Hx) as (p' & c' & ext & ->%list_elem_of_singleton & ->%list_elem_of_singleton & H).
      exists p, c, ext. split; [left|]. by split; [left|].
    + destruct (Hcopy2 x Hx) as (p' & c & ext & Hp & Hc & H). exists p', c, ext. split; [by right|].
      split; [|done]. by destruct o; [right|].
  - rewrite <- Hs in Hall |- *. destruct o as [c|]; [|by simpl in *; subst]. simpl in *. constructor; [|done].
    rewrite D2. apply call_ok_add. by apply Hok.
Qed.

(** Nobody but external peers is addressed, and never the sender. *)
Lemma external_peers_spec members sender p : p ∈ external_peers members sender <->
  p ∈ ExtractExternalPeers members /\ ep_ContactID p <> sender.
Proof.
  unfold external_peers. rewrite !list_elem_of_In, filter_In, negb_true_iff, bool_decide_eq_false. done.
Qed.
End facts.

Section quiet.
Context {E : Env} {X : MessageEnv} {P : ProvidersEnv}.
Hypothesis Hquiet : forall n, env_fault n = false.

Lemma statement_quiet w : w_in_tx w = false -> statement w = (OK tt, set_tick (w_aborted w) w).
Proof. intros Ht. unfold statement. by rewrite Ht, Hquiet. Qed.

Lemma lookup_quiet mid gate w : w_in_tx w = false ->
  exists w', catch (LookupExternalID mid gate) w = (OK (OK (external_id (w_db w) mid gate)), w') /\ w_db w' = w_db w /\ w_in_tx w' = false.
Proof.
  intros Ht. unfold catch, LookupExternalID, statement_as, map_err. rewrite M_bind_unfold, statement_quiet by done.
  by eexists.
Qed.

Definition stored (m : Message) (d : DB) : Prop := exists r, r ∈ db_messages d /\ m_id r = msg_ID m.

Lemma persist_quiet m gate ext w w' : w_in_tx w = false -> msg_ID m <> uuid_Nil -> gate <> "" -> ext <> "" -> stored m (w_db w) ->
  (forall x, x ∈ db_externals (w_db w) -> ex_gate_id x = gate -> ex_message_id x <> msg_ID m /\ ex_external_id x <> ext) ->
  persistExternalID m gate ext w = (OK tt, w') -> w_db w' = add_externals [copy_row m gate ext] (w_db w).
Proof.
  intros Ht Hm Hg Hx (r & Hr & Hid) Hfree Hrun. unfold persistExternalID in Hrun. rewrite decide_False in Hrun by done.
  unfold catch, ExternalStore.Save, statement_as, map_err in Hrun. rewrite !M_bind_unfold in Hrun. simpl in Hrun.
  rewrite !bool_decide_eq_false_2 in Hrun by done. simpl in Hrun. rewrite M_bind_unfold, statement_quiet in Hrun by done. run in Hrun.
  change (w_db (set_tick _ _)) with (w_db w) in Hrun.
  destruct (existsb _ (db_externals _)) eqn:Hb in Hrun.
  - apply existsb_exists in Hb as (x & Hin%list_elem_of_In & Hb). unfold by_gate, by_message in Hb.
    rewrite orb_true_iff, !andb_true_iff, !bool_decide_eq_true in Hb. destruct Hb as [[Hgx Hxx]|[Hmx Hgx]];
      by destruct (Hfree x Hin Hgx).
  - destruct (existsb _ (db_messages _)) eqn:Hb2 in Hrun; [run in Hrun; by injection Hrun as <-|].
    rewrite <- not_true_iff_false in Hb2. destruct Hb2. apply existsb_exists. exists r.
    by rewrite <- list_elem_of_In, bool_decide_eq_true.
Qed.

Lemma Forall2_right {A B} (R : A -> B -> Prop) l k y : Forall2 R l k -> y ∈ k -> exists x, x ∈ l /\ R x y.
Proof.
  intros H. induction H as [|a b l k Hab _ IH]; [by intros ?%not_elem_of_nil|].
  intros [->|Hy]%elem_of_cons; [exists a; by split; [left|]|]. destruct (IH Hy) as (x & ? & ?). exists x. by split; [right|].
Qed.
Lemma Forall2_left {A B} (R : A -> B -> Prop) l k x : Forall2 R l k -> x ∈ l -> exists y, y ∈ k /\ R x y.
Proof.
  intros H. induction H as [|a b l k Hab _ IH]; [by intros ?%not_elem_of_nil|].
  intros [->|Hy]%elem_of_cons; [exists b; by split; [left|]|]. destruct (IH Hy) as (y & ? & ?). exists y. by split; [right|].
Qed.

Lemma find_first_concat {A} (Q : A -> bool) (l k : list A) :
  find_first Q (l ++ k) = match find_first Q l with Some x => Some x | None => find_first Q k end.
Proof. induction l as [|x l IH]; simpl; [done|]. by destruct (Q x). Qed.

Lemma external_id_add d new mid gate : external_id d mid gate <> "" -> external_id (add_externals new d) mid gate = external_id d mid gate.
Proof.
  unfold external_id. simpl. rewrite find_first_concat. by destruct (find_first _ (db_externals d)).
Qed.

Lemma external_id_copy d m gate ext :
  (forall x, x ∈ db_externals d -> ex_gate_id x = gate -> ex_message_id x <> msg_ID m) ->
  external_id (add_externals [copy_row m gate ext] d) (msg_ID m) gate = ext.
Proof.
  intros Hfree. unfold external_id. simpl. rewrite find_first_concat, (proj2 (find_first_None _ _)).
  - simpl. unfold by_message. simpl. by rewrite !bool_decide_eq_true_2.
  - intros x Hx. unfold by_message. apply andb_false_iff. rewrite !bool_decide_eq_false.
    destruct (decide (ex_gate_id x = gate)) as [Hg|]; [left; by apply Hfree|by right].
Qed.

(** The gates of the peers have no copy of the message yet, and the client
    names it by an id it has not used at that gate. *)
Definition fresh_copy (m : Message) (d : DB) (l : list ExternalPeerPair) : Prop :=
  forall p x rq, p ∈ l -> x ∈ db_externals d -> ex_gate_id x = ep_Via p -> pp_GateId (rq_peer rq) = ep_Via p ->
    ex_message_id x <> msg_ID m /\ penv_client rq <> OK (ex_external_id x).

Lemma send_to_peer_quiet m p w o w' : w_in_tx w = false -> keyboard_complete m -> msg_ID m <> uuid_Nil -> ep_Via p <> "" ->
  stored m (w_db w) -> fresh_copy m (w_db w) [p] -> send_to_peer m p w = (OK o, w') ->
  forall c ext, o = Some c -> c.2 = OK ext -> ext <> "" -> w_db w' = add_externals [copy_row m (ep_Via p) ext] (w_db w).
Proof.
  intros Ht Hk Hm Hg Hst Hfresh Hrun c ext -> Hc Hx. unfold send_to_peer in Hrun.
  destruct (lookup_reply m (ep_Via p) w) as (reply & w1 & Hl & Hd1 & Ht1 & _). rewrite M_bind_unfold, Hl in Hrun.
  destruct (provider_request_total m p reply Hk) as (rq & Hrq & _ & Hto). rewrite M_bind_unfold in Hrun.
  unfold of_result in Hrun. rewrite Hrq in Hrun. destruct rq as [rq|]; [|by injection Hrun].
  destruct (penv_client rq) as [ext'|e] eqn:Hcl; [|injection Hrun as <- _; simplify_eq/=].
  apply M_bind_ok in Hrun as ([] & w2 & Hp & Hret). injection Hret as <- <-. simpl in Hc. injection Hc as ->. rewrite <- Hd1.
  eapply persist_quiet; [..|exact Hp]; try done; [congruence|by rewrite Hd1|].
  intros x Hin Hgx. rewrite Hd1 in Hin. destruct (Hfresh p x rq) as [? Hne]; [left|done|done|by rewrite (Hto rq eq_refl)|].
  split; [done|]. intros <-. by apply Hne.
Qed.

Lemma fresh_copy_after m p l d new : NoDup (ep_Via <$> p :: l) -> fresh_copy m d (p :: l) ->
  (forall x, x ∈ new -> ex_gate_id x = ep_Via p) -> fresh_copy m (add_externals new d) l.
Proof.
  intros Hnd Hf Hnew q x rq Hq Hx Hgx Hrq. simpl in Hnd. apply NoDup_cons in Hnd as [Hp _].
  apply elem_of_app in Hx as [Hx|Hx]; [by apply (Hf q x rq); [right|..]|].
  destruct Hp. rewrite <- (Hnew x Hx), Hgx. by apply list_elem_of_fmap_2.
Qed.

(** Every gate that answered has the message under the id it answered. *)
Lemma for_peers_quiet m l w calls w' : w_in_tx w = false -> keyboard_complete m -> msg_ID m <> uuid_Nil ->
  (forall p, p ∈ l -> ep_Via p <> "") -> NoDup (ep_Via <$> l) -> stored m (w_db w) -> fresh_copy m (w_db w) l ->
  for_peers (send_to_peer m) l w = (OK calls, w') ->
  forall p c ext, p ∈ l -> c ∈ calls -> rq_peer c.1 = pr_peer (msg_DomainID m) p -> c.2 = OK ext -> ext <> "" ->
    external_id (w_db w') (msg_ID m) (ep_Via p) = ext.
Proof.
  intros Ht Hk Hm Hv Hnd Hst Hf Hrun. revert w calls Ht Hnd Hst Hf Hrun Hv.
  induction l as [|q l IH]; intros w calls Ht Hnd Hst Hf Hrun Hv p c ext Hp Hc Hrq Hans Hne; [by apply not_elem_of_nil in Hp|].
  simpl in Hrun. apply M_bind_ok in Hrun as (o & w1 & H1 & Hrun). apply M_bind_ok in Hrun as (rest & w2 & H2 & Hret).
  injection Hret as <- <-. pose proof (proj1 (NoDup_cons _ _) Hnd) as [Hq Hnd'].
  destruct (send_to_peer_run m q w Hk) as (o' & w1' & new & H1' & T1 & D1 & Hs & Hok & Hcopy & Hno).
  rewrite H1 in H1'. injection H1' as <- <-.
  assert (Hgates : forall x, x ∈ new -> ex_gate_id x = ep_Via q).
  { intros x Hx. destruct o as [c0|]; [|rewrite Hno in Hx by done; by apply not_elem_of_nil in Hx].
    destruct (Hcopy c0 x eq_refl Hx) as (p' & c' & e' & ->%list_elem_of_singleton & _ & _ & _ & _ & ->). done. }
  destruct (for_peers_send m l w1 Hk) as (rest' & w2' & new2 & H2' & T2 & D2 & _ & Hall).
  rewrite H2 in H2'. injection H2' as <- <-.
  assert (Hrest : forall c, c ∈ rest -> exists p', p' ∈ l /\ rq_peer c.1 = pr_peer (msg_DomainID m) p').
  { intros c0 Hc0. destruct (carries m); [|subst; by apply not_elem_of_nil in Hc0].
    destruct (Forall2_right _ _ _ _ Hall Hc0) as (p' & Hp' & Hpr & _). by exists p'. }
  assert (Hvia : forall a b, pr_peer (msg_DomainID m) a = pr_peer (msg_DomainID m) b -> ep_Via a = ep_Via b).
  { intros a b H. by injection H. }
  assert (Hin : c ∈ rest \/ o = Some c) by (destruct o; [apply elem_of_cons in Hc as [->|]|]; auto).
  destruct Hin as [Hin| ->].
  - destruct (Hrest c Hin) as (p' & Hp' & Hpr). apply elem_of_cons in Hp as [->|Hp].
    { destruct Hq. rewrite (Hvia q p') by congruence. by apply list_elem_of_fmap_2. }
    eapply (IH w1 rest); try done; [congruence| | |].
    + rewrite D1. done.
    + rewrite D1. by eapply fresh_copy_after.
    + intros p0 Hp0. apply Hv. by right.
  - destruct (Hok c eq_refl) as [Hpq _]. apply elem_of_cons in Hp as [->|Hp].
    2: { destruct Hq. rewrite (Hvia q p) by congruence. by apply list_elem_of_fmap_2. }
    assert (Hd : w_db w1 = add_externals [copy_row m (ep_Via q) ext] (w_db w)).
    { eapply send_to_peer_quiet; try done; [by apply Hv; left|].
      intros p0 x rq ->%list_elem_of_singleton. apply Hf. left. }
    assert (external_id (w_db w1) (msg_ID m) (ep_Via q) = ext) as He.
    { rewrite Hd. apply external_id_copy. intros x Hx Hgx. by destruct (Hf q x c.1) as [? _]; [left|done|done|by rewrite Hpq|]. }
    rewrite D2, external_id_add by by rewrite He. done.
Qed.
End quiet.

(** ** Messages *)

(** (C20) An external messenger hears of every message, and of no other's. The
    call of the adapter always comes back, whatever the providers answer and
    whichever statements the database refuses: if the message has the content
    its type calls for, exactly one call was made for each external peer other
    than the sender, in the order of the schedule and under the peer's own gate,
    and each one's answer is the provider's; the error reported is that of the
    failed calls.  A peer is a member of the thread that is not a bot, reached
    through a gate some member has.  Nothing is written but the ids the gates
    gave their copies of this message, and a call names as replied to only what
    the gate is known to use for that message. *)
Theorem SendMessage_reaches_every_peer {E : Env} {X : MessageEnv} {P : ProvidersEnv}
    (schedule : list ExternalPeerPair -> list ExternalPeerPair) (m : Message) (w : World) :
  (forall l, schedule l ≡ₚ l) -> keyboard_complete m ->
  exists calls w' new, SendMessage schedule (Some m) w = (OK (calls, failures calls), w') /\
    (if carries m
     then Forall2 (call_ok m (w_db w')) (schedule (external_peers (to_list m) (GetSender m))) calls /\
          (rq_peer ∘ fst <$> calls) ≡ₚ (pr_peer (msg_DomainID m) <$> external_peers (to_list m) (GetSender m))
     else calls = []) /\
    (forall p, p ∈ external_peers (to_list m) (GetSender m) -> ep_ContactID p <> GetSender m /\ external_peer_ok (to_list m) p) /\
    w_db w' = add_externals new (w_db w) /\
    (forall x, x ∈ new -> copy_of m (external_peers (to_list m) (GetSender m)) calls x).
Proof.
  intros Hs Hk. set (peers := external_peers (to_list m) (GetSender m)).
  destruct (for_peers_send m (schedule peers) w Hk) as (calls & w' & new & Hrun & _ & Hd & Hcopy & Hall).
  exists calls, w', new. unfold SendMessage. fold peers. rewrite M_bind_unfold, Hrun. split; [done|]. split; [|split; [|split; [done|]]].
  - destruct (carries m); [|done]. split; [done|]. rewrite <- (Hs peers). clear - Hall.
    assert (Heq : rq_peer ∘ fst <$> calls = pr_peer (msg_DomainID m) <$> schedule peers); [|by rewrite Heq].
    induction Hall as [|p c l k [Hc _] _ IH]; [done|]. rewrite !fmap_cons, IH. simpl. by rewrite Hc.
  - intros p [Hp Hne]%external_peers_spec. split; [done|]. by apply (proj1 (ExtractExternalPeers_spec (to_list m))).
  - intros x Hx. destruct (Hcopy x Hx) as (p & c & ext & Hp & H). exists p, c, ext. by rewrite (Hs peers) in Hp.
Qed.

(** ** Keyboards *)

(** The kind of a keyboard as a client sent it, for a provider. *)
Definition sent_button (b : PbButton) : PrButton := MkPrButton (pbb_Id b) (pbb_Label b) (pbb_Kind b).
Definition sent_kind (k : option PbInteractiveKind) : option PrInteractiveKind :=
  match k with
  | Some (PbMarkup rows) => Some (PrMarkup (map (map sent_button) rows))
  | Some (PbListReply title sections) =>
      Some (PrListReply title (map (fun s => (pbs_Section s, map sent_button (pbs_Buttons s))) sections))
  | None => None
  end.

Lemma mapM_OK {A B C} (g : B -> result C) (f : A -> B) (h : A -> C) l :
  (forall x, g (f x) = OK (h x)) -> mapM g (f <$> l) = OK (map h l).
Proof.
  intros Hg. induction l as [|x l IH]; [done|]. rewrite fmap_cons.
  change (mapM g (f x :: (f <$> l))) with (y ← g (f x); k ← mapM g (f <$> l); (mret (y :: k) : result (list C))).
  by rewrite IH, Hg.
Qed.

Lemma map_sent_row row : mapButtons (Some <$> convertPbButtonRowToDomain row) = OK (map sent_button row).
Proof.
  unfold mapButtons, convertPbButtonRowToDomain. rewrite <- list_fmap_compose. apply mapM_OK. intros b. simpl. f_equal.
  unfold mapButton, convertInteractivePbButtonKindToDomain, sent_button. by destruct (pbb_Kind b) as [[]|].
Qed.

(** Cases on the numbers [p] is compared with. *)
Ltac numbers p :=
  repeat match goal with
         | |- context [decide (p = ?k)] => destruct (decide (p = k)) as [->|?]; [reflexivity|]
         end;
  by rewrite decide_False by lia.

(** A keyboard reaches the provider as the client sent it: what the request
    handler accepts, the adapter forwards with the same rows or sections, in
    their order, each button with its id, its label and what it does; placement
    and input field keep their numbers where they are known ones, any other
    number is sent as unspecified. *)
Theorem keyboard_reaches_provider (in_ : PbInteractiveInput) (m : MessageInteractive) :
  ConvertInteractivePbToDomain in_ = OK m ->
  mapInteractive m = OK (MkPrInteractive (pin_SingleUse in_)
    (if decide (1 <= pin_Placement in_ <= 2) then pin_Placement in_ else 0)
    (if decide (1 <= pin_InputFieldState in_ <= 3) then pin_InputFieldState in_ else 0) (sent_kind (pin_Kind in_))).
Proof.
  intros Hc. pose proof (ConvertInteractive_spec in_) as H. rewrite Hc in H. destruct H as [_ ->].
  assert (Hp : mapMenuPlacement (convertMenuPlacementPbToDomain (pin_Placement in_)) =
    if decide (1 <= pin_Placement in_ <= 2) then pin_Placement in_ else 0).
  { generalize (pin_Placement in_). intros p. unfold convertMenuPlacementPbToDomain. numbers p. }
  assert (Hf : mapInputFieldState (convertInputFieldStatePbToDomain (pin_InputFieldState in_)) =
    if decide (1 <= pin_InputFieldState in_ <= 3) then pin_InputFieldState in_ else 0).
  { generalize (pin_InputFieldState in_). intros p. unfold convertInputFieldStatePbToDomain. numbers p. }
  unfold mapInteractive. cbn [int_SingleUse int_Markup int_ListReply int_Placement int_InputFieldState]. rewrite Hp, Hf.
  destruct (pin_Kind in_) as [[title sections|rows]|]; [..|done]; cbn [stored_markup stored_list sent_kind mk_Rows lr_Sections lr_Title].
  - rewrite (mapM_OK _ _ (fun s => (pbs_Section s, map sent_button (pbs_Buttons s)))); [done|].
    intros s. simpl. by rewrite map_sent_row.
  - rewrite (mapM_OK _ _ (map sent_button)); [done|]. intros row. apply map_sent_row.
Qed.

(** ** Reactions *)
Section reactions.
Context {E : Env} {X : MessageEnv} {P : ProvidersEnv}.

(** What is forwarded to a peer, as far as the table tells. *)
Definition reaction_forward (d : DB) (r : Reaction) (res : ReactionResult) (p : ExternalPeerPair) : option ProviderRequest :=
  let ext := external_id d (rct_MessageID r) (ep_Via p) in
  if bool_decide (ext = "") || negb (may_forward res (ep_Via p)) then None else Some (provider_reaction r res p ext).

Lemma reaction_target_run r res p w : exists o w', reaction_target r res p w = (OK o, w') /\ w_db w' = w_db w /\
  w_in_tx w' = w_in_tx w /\ (o = None \/ o = reaction_forward (w_db w) r res p) /\
  ((forall n, env_fault n = false) -> w_in_tx w = false -> o = reaction_forward (w_db w) r res p).
Proof.
  unfold reaction_target. destruct (lookup_external (rct_MessageID r) (ep_Via p) w) as (x & w' & Hl & Hd & Ht & Hx).
  rewrite M_bind_unfold, Hl. eexists _, w'. split; [done|]. split; [done|]. split; [done|]. split.
  - destruct x as [x|]; [|by left]. right. by rewrite (Hx x eq_refl).
  - intros Hq Htx. destruct (lookup_quiet Hq (rct_MessageID r) (ep_Via p) w Htx) as (w2 & Hl2 & _). rewrite Hl in Hl2.
    by injection Hl2 as -> _.
Qed.

Lemma for_peers_reactions r res l w : exists rqs w', for_peers (reaction_target r res) l w = (OK rqs, w') /\ w_db w' = w_db w /\
  rqs `sublist_of` omap (reaction_forward (w_db w) r res) l /\
  ((forall n, env_fault n = false) -> w_in_tx w = false -> rqs = omap (reaction_forward (w_db w) r res) l).
Proof.
  revert w. induction l as [|p l IH]; intros w; [by exists [], w|]. simpl.
  destruct (reaction_target_run r res p w) as (o & w1 & H1 & D1 & T1 & Ho & Hq).
  destruct (IH w1) as (rqs & w2 & H2 & D2 & Hsub & Hquiet). rewrite D1 in Hsub, Hquiet.
  rewrite M_bind_unfold, H1, M_bind_unfold, H2. eexists _, w2. split; [done|]. split; [congruence|]. split.
  - destruct Ho as [->| ->]; destruct (reaction_forward (w_db w) r res p); try done; by constructor.
  - intros Hf Ht. rewrite (Hq Hf Ht). rewrite Hquiet by (done || congruence). by destruct (reaction_forward _ _ _ _).
Qed.

Lemma answered_requests (l : list ProviderRequest) : ((fun rq => (rq, penv_client rq)) <$> l).*1 = l.
Proof. induction l as [|rq l IH]; [done|]. by rewrite !fmap_cons, IH. Qed.

Lemma reaction_forward_Some d r res p rq : reaction_forward d r res p = Some rq <->
  external_id d (rct_MessageID r) (ep_Via p) <> "" /\ may_forward res (ep_Via p) = true /\
  rq = provider_reaction r res p (external_id d (rct_MessageID r) (ep_Via p)).
Proof.
  unfold reaction_forward. case_bool_decide; simpl; [naive_solver|]. destruct (may_forward _ _); simpl; naive_solver.
Qed.
End reactions.

(** An empty list of allowed emoji allows every one. *)
Lemma static_allows l gate emoji :
  Allowed (NewStaticReactionCapabilities l) gate emoji = true <-> l = [] \/ emoji ∈ l.
Proof.
  simpl. rewrite orb_true_iff, !bool_decide_eq_true, elem_of_list_to_set.
  destruct l as [|e l]; [naive_solver|]. split; [|naive_solver]. intros [He|]; [|by right]. exfalso. set_solver.
Qed.

(** (C24) A reaction leaves the platform only for copies of its message: each call
    is to an external peer of the thread other than the one who reacted, at a
    gate that is known to carry the message, under the id the gate gave it, and,
    unless the reaction is being removed, with an emoji the allow-list lets
    through; nothing is written.  Without database faults exactly those peers
    are called, once each, failed calls aside from nobody. *)
Theorem SendReaction_forwards {E : Env} {X : MessageEnv} {P : ProvidersEnv}
    (schedule : list ProviderRequest -> list ProviderRequest) (r : Reaction) (res : ReactionResult) (w : World) :
  (forall l, schedule l ≡ₚ l) ->
  exists calls w', SendReaction schedule (Some r) (Some res) w = (OK (calls, failures calls), w') /\ w_db w' = w_db w /\
    (forall c, c ∈ calls -> c.2 = penv_client c.1 /\ exists p ext,
       p ∈ ExtractExternalPeers (rct_To r) /\ ep_ContactID p <> rct_ReactorID r /\ ext <> "" /\
       external_known (w_db w) (rct_MessageID r) (ep_Via p) ext /\
       (is_removed res = true \/ forall caps, penv_caps = Some caps -> Allowed caps (ep_Via p) (rr_Emoji res) = true) /\
       c.1 = provider_reaction r res p ext) /\
    ((forall n, env_fault n = false) -> w_in_tx w = false ->
     calls.*1 ≡ₚ omap (reaction_forward (w_db w) r res) (external_peers (rct_To r) (rct_ReactorID r))).
Proof.
  intros Hs. set (peers := external_peers (rct_To r) (rct_ReactorID r)).
  destruct (for_peers_reactions r res peers w) as (rqs & w' & Hrun & Hd & Hsub & Hq).
  eexists _, w'. unfold SendReaction. fold peers. rewrite M_bind_unfold, Hrun. split; [done|]. split; [done|]. split.
  - intros c (rq & -> & Hrq)%list_elem_of_fmap. split; [done|]. rewrite (Hs rqs) in Hrq.
    assert (rq ∈ omap (reaction_forward (w_db w) r res) peers) as (p & Hp & Hf)%list_elem_of_omap.
    { eapply elem_of_submseteq; [done|by apply sublist_submseteq]. }
    apply reaction_forward_Some in Hf as (Hne & Hm & ->). apply external_peers_spec in Hp as [Hp Hx].
    exists p, (external_id (w_db w) (rct_MessageID r) (ep_Via p)). split_and!; try done; [by apply external_id_known|].
    unfold may_forward in Hm. apply orb_true_iff in Hm as [Hm|Hm]; [by left|right]. intros caps Hc. by rewrite Hc in Hm.
  - intros Hf Ht. rewrite <- (Hq Hf Ht), answered_requests. apply Hs.
Qed.


(** ** Witnesses: an agent writes to two clients of different gates, a third one
    reacts *)
#[export] Instance sample_client : ProvidersEnv := {|
  penv_client := fun rq => OK ("copy@" +:+ pp_GateId (rq_peer rq));
  penv_caps := Some (NewStaticReactionCapabilities ["+1"]);
  penv_sprint := fun _ => "" |}.

Definition seat_of (id contact : uuid) (via : option string) (bot : bool) : ThreadDialog :=
  MkDialog id 7 1000 1000 contact 1 Role.RoleMember None None None via bot false.
Definition outgoing : Message :=
  MkMessage 600 None "" "" "" 1 7 (Shared.MkPeer 102 Shared.PeerContact None) zero_peer
    (Some [seat_of 10 100 (Some "whatsapp") false; seat_of 11 101 (Some "viber") true; seat_of 12 102 None false;
           seat_of 14 104 (Some "viber") false]) "hi" MessageTypeText ∅ 2000 2000 false 102 12 None 0 0 1 [] [] None None
    None None None None None None [].
Definition outgoing_db : DB := on_messages (fun _ =>
  [MkMessageRow 600 1 7 102 12 MessageTypeText "hi" ∅ 2000 2000 1 None None None None None None None false None None]) sample_db.
Definition thumbs_up : Reaction := MkReaction 600 1 7 100 None "+1" "" "" (Shared.MkPeer 100 1 None) (to_list outgoing) [].
Definition thumbs_up_result : ReactionResult := MkReactionResult ActionSet "+1" 1 3000 true.

Lemma outgoing_complete : keyboard_complete outgoing.
Proof. by intros i. Qed.

Lemma SendMessage_reaches_every_peer_witness :
  exists calls w', SendMessage reverse (Some outgoing) (world_of outgoing_db) = (OK (calls, failures calls), w') /\
    (rq_peer ∘ fst <$> calls) ≡ₚ [MkPrPeer "whatsapp" "100" 7; MkPrPeer "viber" "104" 7].
Proof.
  destruct (SendMessage_reaches_every_peer reverse outgoing (world_of outgoing_db) reverse_Permutation outgoing_complete)
    as (calls & w' & new & Hr & [_ Hp] & _). exists calls, w'. by split.
Defined.

Lemma SendReaction_forwards_witness :
  exists calls w', SendReaction reverse (Some thumbs_up) (Some thumbs_up_result)
      (world_of (add_externals [copy_row outgoing "viber" "v1"] outgoing_db)) = (OK (calls, failures calls), w') /\
    calls.*1 ≡ₚ [provider_reaction thumbs_up thumbs_up_result (MkExternalPeer 104 "viber") "v1"].
Proof.
  destruct (SendReaction_forwards reverse thumbs_up thumbs_up_result
    (world_of (add_externals [copy_row outgoing "viber" "v1"] outgoing_db)) reverse_Permutation) as (calls & w' & Hr & _ & _ & Hq).
  exists calls, w'. split; [exact Hr|]. exact (Hq (fun _ => eq_refl) eq_refl).
Defined.


Definition sample_keyboard : PbInteractiveInput := MkPbInteractiveInput true 2 9 None
  (Some (PbMarkup [[MkPbButton "a" "Yes" ∅ (Some (KbCallback "1")); MkPbButton "b" "Site" ∅ (Some (KbUrl "https://x"))];
                   [MkPbButton "c" "Plain" ∅ None]])).

Lemma keyboard_reaches_provider_witness :
  exists m, ConvertInteractivePbToDomain sample_keyboard = OK m /\
    mapInteractive m = OK (MkPrInteractive true 2 0
      (Some (PrMarkup [[MkPrButton "a" "Yes" (Some (KbCallback "1")); MkPrButton "b" "Site" (Some (KbUrl "https://x"))];
                       [MkPrButton "c" "Plain" None]]))).
Proof.
  assert (is_ok (ConvertInteractivePbToDomain sample_keyboard) = true) as Hok by (vm_compute; reflexivity).
  destruct (ConvertInteractivePbToDomain sample_keyboard) as [m|e] eqn:Hm; [|done].
  exists m. split; [done|]. exact (keyboard_reaches_provider sample_keyboard m Hm).
Defined.
