(* ===== verification/ThreadRules.v ===== *)
(** * ThreadRules: what the thread reads may show

    A search answers with threads where the caller has an active seat, in the
    domains it names; a thread is given to a named caller only when it may read
    it; the counters split the dialogs of a contact into active and snoozed. *)
From S2P Require Import Prelude Domain Events Message World DialogStore PreviewStore TagStore TagService MessageStatus Variables Samples.
From S2P Require Import QueryObject MessageView ThreadStore ThreadQueries ThreadReads HistoryRules.
#[local] Open Scope Z_scope.

(** ** The conditions a query gathers *)
Lemma where_when bit req l q : (forall q, to_where (l q) = to_where q) -> to_where (when_required bit req l q) = to_where q.
Proof. intros Hl. unfold when_required. by destruct (has_join bit req). Qed.

Lemma where_link bit q : to_where (link bit q) = to_where q.
Proof. unfold link. by destruct (has_join bit (to_join q)). Qed.

Lemma where_joins req q : to_where (threadEnsureJoins req q) = to_where q.
Proof.
  unfold threadEnsureJoins. rewrite !where_when; try done; intros q'.
  - unfold linkThreadDialog. apply where_link.
  - unfold linkDirectSettings, linkThreadDialog. destruct (has_join _ _); [done|]. by rewrite !where_link.
  - apply where_link.
  - apply where_link.
  - apply where_link.
  - apply where_link.
  - unfold linkQueue, linkThreadDialog. destruct (has_join _ _); [done|].
    destruct (to_selfScoped _); by rewrite !where_link.
Qed.

(** A fold that keeps the conditions of its query keeps them to the end. *)
Lemma fold_where {A B} (f : A * threadQueryObject -> B -> A * threadQueryObject) (l : list B) p :
  (forall p x, to_where (f p x).2 = to_where p.2) -> to_where (fold_left f l p).2 = to_where p.2.
Proof. intros Hf. revert p. induction l as [|x l IH]; intros p; [done|]. simpl. by rewrite IH, Hf. Qed.

(** Names the step of the outermost fold. *)
Ltac name_fold g := lazymatch goal with |- context [fold_left ?f _ _] => set (g := f) end.

Lemma where_fields fs q : to_where (QueryObject.WithFields fs q) = to_where q.
Proof.
  unfold QueryObject.WithFields. destruct fs as [|f fs]; [done|].
  name_fold g. pose proof (fold_where g (f :: fs) ([], q)) as Hw.
  destruct (fold_left g (f :: fs) ([], q)) as [valid q']. simpl in *. apply Hw.
  intros [v q0] x. unfold g. simpl. destruct (threadFieldsMetadata q0 x) as [m|]; [|done].
  destruct (fm_sortOnly m); [done|]. destruct (bool_decide (x ∈ v)); [done|]. apply where_joins.
Qed.

Lemma where_sort ss q : to_where (WithSort ss q) = to_where q.
Proof.
  unfold WithSort. destruct ss as [|s ss]; [done|].
  name_fold g. pose proof (fold_where g (s :: ss) ([], q)) as Hw.
  destruct (fold_left g (s :: ss) ([], q)) as [valid q']. simpl in *. apply Hw.
  intros [v q0] x. unfold g. simpl. destruct (sort_parts x) as [[dir name]|]; [|done].
  destruct (threadFieldsMetadata q0 name) as [m|]; [|done].
  destruct (negb (fm_sortable m)); [done|]. destruct (_ && _); [done|]. apply where_joins.
Qed.

Lemma where_sql q : let p := QueryObject.ToSQL q in to_where p.2 = to_where q.
Proof.
  unfold QueryObject.ToSQL, select_columns, order_terms.
  set (q1 := match q_fields q with [] => _ | _ => _ end).
  assert (to_where q1 = to_where q) as H1 by (unfold q1; by destruct (q_fields q)).
  name_fold g. pose proof (fold_where g (q_fields q1) ([], q1)) as Hg.
  destruct (fold_left g _ _) as [columns q2]. simpl in Hg. name_fold h.
  pose proof (fold_where h (q_sort q2) ([], q2)) as Hh. destruct (fold_left h _ _) as [order q3]. simpl in *.
  rewrite Hh, Hg, H1; [done| |].
  - intros [v q0] x. unfold g. simpl. destruct (threadFieldsMetadata q0 x) as [m|]; [|done].
    destruct (fm_sortOnly m); [done|]. apply where_joins.
  - intros [v q0] x. unfold h. simpl. destruct (sort_parts x) as [[dir name]|]; [|done].
    destruct (threadFieldsMetadata q0 name) as [m|]; [|done]. apply where_joins.
Qed.

(** A filter only adds conditions. *)
Definition extends (q q' : threadQueryObject) : Prop := exists ps, to_where q' = to_where q ++ ps.

Lemma extends_where q q' : to_where q' = to_where q -> extends q q'.
Proof. intros Hw. exists []. by rewrite Hw, app_nil_r. Qed.
Lemma extends_refl q : extends q q.
Proof. by apply extends_where. Qed.
Lemma extends_Where p q q' : extends q q' -> extends q (to_Where p q').
Proof. intros [ps Hw]. exists (ps ++ [p]). unfold to_Where. cbn [to_where]. by rewrite Hw, <- app_assoc. Qed.
Lemma extends_trans q1 q2 q3 : extends q1 q2 -> extends q2 q3 -> extends q1 q3.
Proof. intros [ps1 H1] [ps2 H2]. exists (ps1 ++ ps2). by rewrite H2, H1, <- app_assoc. Qed.
Lemma extends_flags q q' a b c : extends q q' -> extends q (to_set_flags a b c q').
Proof. by intros [ps Hw]; exists ps. Qed.
Lemma extends_joins q q' req : extends q q' -> extends q (threadEnsureJoins req q').
Proof. intros [ps Hw]. exists ps. by rewrite where_joins. Qed.
Lemma extends_fields q q' fs : extends q q' -> extends q (QueryObject.WithFields fs q').
Proof. intros [ps Hw]. exists ps. by rewrite where_fields. Qed.
Lemma extends_sort q q' ss : extends q q' -> extends q (WithSort ss q').
Proof. intros [ps Hw]. exists ps. by rewrite where_sort. Qed.
Lemma extends_limit q q' n : extends q q' -> extends q (QWithLimit n q').
Proof. by intros [ps Hw]; exists ps. Qed.
Lemma extends_offset q q' n : extends q q' -> extends q (QWithOffset n q').
Proof. by intros [ps Hw]; exists ps. Qed.
Lemma extends_among {A} `{EqDecision A} (vs : list A) col q q' : extends q q' -> extends q (to_among vs col q').
Proof. intros Hq. destruct vs; [done|]. by apply extends_Where. Qed.

Create HintDb query.
#[export] Hint Resolve extends_refl extends_Where extends_flags extends_joins extends_fields extends_sort extends_limit extends_offset
  extends_among : query.

(** The condition as it stands in an extended query. *)
Definition passes (q : threadQueryObject) (r : JoinedRow) : bool := forallb (fun p => p r) (to_where q).

Lemma passes_extends q q' r : extends q q' -> passes q' r = true -> passes q r = true.
Proof. intros [ps Hw]. unfold passes. rewrite Hw, forallb_app. by intros [? _]%andb_true_iff. Qed.

Lemma passes_Where p q r : passes (to_Where p q) r = passes q r && p r.
Proof. unfold passes. simpl. rewrite forallb_app. simpl. by rewrite andb_true_r. Qed.

Section search.
Context {E : Env} {H : HistoryEnv} {R : ThreadReadEnv}.

Lemma extends_scope self q : extends q (self_scope self q).
Proof. unfold self_scope. auto 10 with query. Qed.
#[local] Hint Resolve extends_scope : query.

Lemma scope_passes self q r : passes (self_scope self q) r = true ->
  exists td, jr_td r = Some td /\ d_member_id td = self /\ active td = true.
Proof.
  unfold self_scope. intros Hp. change (passes (to_Where (td_holds active) (to_Where (td_holds (is_of self)) (threadEnsureJoins threadLinkThreadDialog q))) r = true) in Hp.
  rewrite !passes_Where in Hp. unfold td_holds, is_of in Hp. destruct (jr_td r) as [td|]; [|by rewrite !andb_false_r in Hp].
  rewrite !andb_true_iff, bool_decide_eq_true in Hp. exists td. naive_solver.
Qed.

(** The part of the search every branch shares. *)
Definition base_search (r : ThreadSearchRequest) : threadQueryObject :=
  WithUnreadFilter (ts_SelfID r) (ts_Unread r)
    (WithExcludeTagsFilter (ts_SelfID r) (ts_ExcludeTags r)
    (WithTagsFilter (ts_SelfID r) (ts_Tags r)
    (QWithOffset (ts_Page r)
    (WithoutDeletedAtFilter
    (WithSort [ts_Sort r]
    (QWithLimit (ts_Size r)
    (WithSearchFilter (ts_Q r)
    (WithOwnerFilter (ts_Owners r)
    (TWithKindFilter (ts_Kinds r)
    (TWithDomainIDFilter (ts_DomainIDs r)
    (TWithIDFilter (ts_IDs r)
    (QueryObject.WithFields (ts_Fields r) (WithSubject NewThreadQueryObject))))))))))))).

Lemma base_extends r :
  extends (TWithDomainIDFilter (ts_DomainIDs r) (TWithIDFilter (ts_IDs r) (QueryObject.WithFields (ts_Fields r) (WithSubject NewThreadQueryObject))))
    (base_search r).
Proof.
  unfold base_search, WithUnreadFilter, WithExcludeTagsFilter, WithTagsFilter, WithoutDeletedAtFilter, WithSearchFilter, WithOwnerFilter,
    TWithKindFilter.
  repeat match goal with |- context [if ?b then _ else _] => destruct b end; auto 20 with query.
Qed.

Lemma base_active r x : passes (base_search r) x = true -> exists td, jr_td x = Some td /\ active td = true.
Proof.
  intros Hp. set (q0 := WithSort [ts_Sort r] (QWithLimit (ts_Size r) (WithSearchFilter (ts_Q r) (WithOwnerFilter (ts_Owners r)
    (TWithKindFilter (ts_Kinds r) (TWithDomainIDFilter (ts_DomainIDs r) (TWithIDFilter (ts_IDs r)
    (QueryObject.WithFields (ts_Fields r) (WithSubject NewThreadQueryObject))))))))).
  assert (extends (WithoutDeletedAtFilter q0) (base_search r)) as He.
  { unfold base_search, WithUnreadFilter, WithExcludeTagsFilter, WithTagsFilter.
    repeat match goal with |- context [if ?b then _ else _] => destruct b end; auto 20 with query. }
  apply (passes_extends _ _ _ He) in Hp. unfold WithoutDeletedAtFilter in Hp. rewrite passes_Where in Hp.
  apply andb_true_iff in Hp as [_ Hp]. unfold td_holds in Hp. destruct (jr_td x) as [td|]; [by exists td|done].
Qed.

(** Whoever asks, the rows are the caller's own active dialogs in the domains asked for. *)
Lemma search_own r x : ts_SelfID r <> uuid_Nil -> passes (thread_search_query r) x = true ->
  (exists td, jr_td x = Some td /\ d_member_id td = ts_SelfID r /\ active td = true) /\
  (ts_DomainIDs r = [] \/ t_domain_id (jr_thread x) ∈ ts_DomainIDs r).
Proof.
  intros Hself Hp.
  assert (extends (base_search r) (thread_search_query r)) as He.
  { unfold thread_search_query. fold (base_search r). unfold WithSharedMembersFilter, WithContactIDFilter, WithParticipantsFilter.
    destruct (ts_ContactIDs r), (ts_Participants r); repeat case_decide; simpl;
      repeat match goal with |- context [if ?b then _ else _] => destruct b end; eauto 12 using extends_trans with query. }
  split.
  - pose proof (passes_extends _ _ _ He Hp) as Hb. unfold thread_search_query in Hp. fold (base_search r) in Hp.
    unfold WithParticipantsFilter, WithSharedMembersFilter in Hp.
    destruct (ts_Participants r) as [|p ps].
    + destruct (ts_ContactIDs r) as [|c cs].
      * destruct (base_active r x Hb) as (td & Htd & Ha). exists td. split; [done|]. split; [|done].
        unfold WithContactIDFilter in Hp.
        change (passes (to_Where (td_holds (fun td => bool_decide (d_member_id td ∈ [ts_SelfID r]))) (threadEnsureJoins threadLinkThreadDialog (base_search r))) x = true) in Hp.
        rewrite passes_Where in Hp. apply andb_true_iff in Hp as [_ Hp]. unfold td_holds in Hp. rewrite Htd in Hp.
        apply bool_decide_eq_true in Hp. by apply list_elem_of_singleton in Hp.
      * rewrite decide_False in Hp by done. rewrite passes_Where in Hp. apply andb_true_iff in Hp as [Hp _]. by eapply scope_passes.
    + rewrite (bool_decide_false (ts_SelfID r = uuid_Nil)) in Hp by done. simpl in Hp. rewrite passes_Where in Hp.
      apply andb_true_iff in Hp as [Hp _]. by eapply scope_passes.
  - pose proof (passes_extends _ _ _ (extends_trans _ _ _ (base_extends r) He) Hp) as Hd.
    unfold TWithDomainIDFilter at 1 in Hd. unfold to_among at 1 in Hd. destruct (ts_DomainIDs r) as [|d ds]; [by left|right].
    rewrite passes_Where in Hd. apply andb_true_iff in Hd as [_ Hd]. by apply bool_decide_eq_true in Hd.
Qed.

(** ** The rows a statement answers with *)
Lemma window_elem {A} (b : baseQueryObject) (l : list A) x : x ∈ window b l -> x ∈ l.
Proof.
  unfold window. intros Hx.
  assert (x ∈ match bq_Offset b with Some o => list.drop (Z.to_nat o) l | None => l end) as Hy.
  { destruct (bq_Limit b); [|done]. eapply (subseteq_take _ _ _ Hx). }
  destruct (bq_Offset b); [|done]. eapply (subseteq_drop _ _ _ Hy).
Qed.

Lemma joined_elem join at_ d x : x ∈ joined_rows join at_ d ->
  jr_thread x ∈ db_threads d /\ jr_db x = d /\ forall td, jr_td x = Some td -> td ∈ db_dialogs d /\ d_thread_id td = t_id (jr_thread x).
Proof.
  unfold joined_rows. intros (t & Hx & Ht)%list_elem_of_bind. destruct (has_join _ _).
  - apply list_elem_of_fmap in Hx as (td & -> & Htd). apply elem_of_select in Htd as [Hin Hb].
    apply bool_decide_eq_true in Hb. simpl. split; [done|]. split; [done|]. by intros td' [= <-].
  - apply list_elem_of_singleton in Hx as ->. done.
Qed.

Lemma run_query_elem q at_ d c : c ∈ run_thread_query q at_ d ->
  exists q' columns x, c = thread_columns q' columns x /\ passes q x = true /\ jr_thread x ∈ db_threads d /\ jr_db x = d /\
    forall td, jr_td x = Some td -> td ∈ db_dialogs d /\ d_thread_id td = t_id (jr_thread x).
Proof.
  unfold run_thread_query. pose proof (where_sql q) as Hw.
  destruct (QueryObject.ToSQL q) as [[columns order] q']. simpl in Hw. intros (x & -> & Hx)%list_elem_of_fmap.
  apply window_elem in Hx. unfold sorted_rows in Hx. rewrite merge_sort_Permutation in Hx.
  apply list_elem_of_In, filter_In in Hx as [Hin Hp]. apply list_elem_of_In, joined_elem in Hin as (Ht & Hd & Htd).
  exists q', columns, x. split; [done|]. split; [|done]. unfold passes. by rewrite <- Hw.
Qed.

(** [v] shows columns of the thread [t] as the tables [d] hold them. *)
Definition shows_thread (t : ThreadRow) (d : DB) (v : ThreadView) : Prop :=
  (thread_id v = t_id t \/ thread_id v = uuid_Nil) /\
  exists q columns x, jr_thread x = t /\ jr_db x = d /\ tvw_Thread v = mapThreadRecordToModel (tc_Record (thread_columns q columns x)).

Lemma view_shows q columns x : shows_thread (jr_thread x) (jr_db x) (thread_view (thread_columns q columns x)).
Proof.
  split; [|by exists q, columns, x]. unfold thread_id. simpl. unfold when_selected. destruct (bool_decide _); auto.
Qed.

Lemma SearchThreads_ok q w views w' : SearchThreads q w = (OK views, w') -> w_db w' = w_db w /\ forall v, v ∈ views ->
  exists q' columns x, v = thread_view (thread_columns q' columns x) /\ passes q x = true /\ jr_thread x ∈ db_threads (w_db w) /\
    jr_db x = w_db w /\ forall td, jr_td x = Some td -> td ∈ db_dialogs (w_db w) /\ d_thread_id td = t_id (jr_thread x).
Proof.
  unfold SearchThreads. intros Hr. step_ok Hr. apply statement_as_ok in Hs as (-> & _). rewrite bind_now in Hr. run in Hr. simplify_eq.
  split; [done|]. intros v (c & -> & Hc)%list_elem_of_fmap. apply run_query_elem in Hc as (q' & columns & x & -> & Hx).
  by exists q', columns, x.
Qed.

(** Enrichments change what is counted, tagged and read, not which threads are shown. *)
Lemma enrich_ok {A} who views (lookup : SM A) set w views' w' : preserves w_db lookup ->
  (forall a v, tvw_Thread (set a v) = tvw_Thread v) -> enrich who views lookup set w = (OK views', w') ->
  w_db w' = w_db w /\ tvw_Thread <$> views' = tvw_Thread <$> views.
Proof.
  intros Hl Hset. unfold enrich. destruct (_ || _); [intros Hr; run in Hr; by simplify_eq|]. intros Hr. step_ok Hr.
  pose proof (preserves_ok w_db _ _ _ _ (preserves_catch _ _ Hl) Hs) as Hd.
  destruct a; run in Hr; simplify_eq; split; try done. rewrite <- list_fmap_compose. apply list_fmap_ext. intros i v _. apply Hset.
Qed.
End search.

(** (C14) A search shows a contact its own chats only: every thread in the
    answer is one where the contact that asks has an active seat, in one of the
    domains asked for, whatever filters, participants, sorting and paging the
    request names. *)
Theorem SearchThreadsFor_own {E : Env} {H : HistoryEnv} {R : ThreadReadEnv} (r : ThreadSearchRequest) (w w' : World) (views : list ThreadView) :
  SearchThreadsFor (Some r) w = (OK views, w') ->
  ts_SelfID r <> uuid_Nil /\ w_db w' = w_db w /\ forall v, v ∈ views -> exists t td,
    shows_thread t (w_db w) v /\ t ∈ db_threads (w_db w) /\ (ts_DomainIDs r = [] \/ t_domain_id t ∈ ts_DomainIDs r) /\
    td ∈ db_dialogs (w_db w) /\ d_thread_id td = t_id t /\ d_member_id td = ts_SelfID r /\ active td = true.
Proof.
  unfold SearchThreadsFor. intros Hr. case_decide as Hself; [done|]. split; [done|].
  step_ok Hr. destruct (SearchThreads_ok _ _ _ _ Hs) as [Hd Hviews].
  step_ok Hr. apply enrich_ok in Hs0 as [Hd0 H0]; [|unfold ReadUnread; frame|done].
  step_ok Hr. apply enrich_ok in Hs0 as [Hd1 H1]; [|unfold ListForContact; frame|done].
  apply enrich_ok in Hr as [Hd2 H2]; [|unfold ReadMemberStates; frame|done].
  split; [congruence|]. intros v Hv. rewrite H1, H0 in H2.
  assert (tvw_Thread v ∈ tvw_Thread <$> a) as Hin by (rewrite <- H2; by apply list_elem_of_fmap_2).
  apply list_elem_of_fmap in Hin as (v0 & Heq & Hv0).
  destruct (Hviews v0 Hv0) as (q & columns & x & -> & Hp & Ht & Hdb & Htd).
  destruct (search_own r x Hself Hp) as [(td & Hx & Hm & Ha) Hdom]. destruct (Htd td Hx) as [Hin Hthr].
  exists (jr_thread x), td. split; [|by repeat split].
  destruct (view_shows q columns x) as [Hid Hsh]. rewrite <- Hdb. unfold shows_thread, thread_id in *. by rewrite Heq.
Qed.

(** ** Counters *)
Lemma filter_split {A} (P : A -> bool) l : (length (List.filter (fun x => negb (P x)) l) + length (List.filter P l) = length l)%nat.
Proof. induction l as [|x l IH]; [done|]. simpl. destruct (P x); simpl; lia. Qed.

Lemma filter_comm {A} (P Q : A -> bool) l : List.filter P (List.filter Q l) = List.filter Q (List.filter P l).
Proof.
  induction l as [|x l IH]; [done|]. simpl. destruct (P x) eqn:EP, (Q x) eqn:EQ; simpl; rewrite ?EP, ?EQ, IH; done.
Qed.

(** The counters of a contact add up: every dialog counted is in the
    active or in the snoozed folder and in one of them only, chats with unread
    messages likewise, and no folder has more unread chats than chats. *)
Theorem GetCounters_add_up {E : Env} (req : ThreadCountersRequest) (w w' : World) (c : ThreadCounters) :
  GetCounters (Some req) w = (OK c, w') ->
  fc_Total (tcs_All c) = fc_Total (tcs_Active c) + fc_Total (tcs_Snoozed c) /\
  fc_UnreadChats (tcs_All c) = fc_UnreadChats (tcs_Active c) + fc_UnreadChats (tcs_Snoozed c) /\
  0 <= fc_UnreadChats (tcs_Active c) <= fc_Total (tcs_Active c) /\
  0 <= fc_UnreadChats (tcs_Snoozed c) <= fc_Total (tcs_Snoozed c).
Proof.
  unfold GetCounters. intros Hr. case_decide; [done|]. unfold Counters in Hr. apply map_err_ok in Hr. unfold query in Hr.
  step_ok Hr. run in Hr. simplify_eq. simpl. set (rows := counted_dialogs _ _ _ _ _).
  rewrite !(filter_comm (fun p => 0 <? d_unread_count p.1)).
  pose proof (filter_split snd rows). pose proof (filter_split snd (List.filter (fun p => 0 <? d_unread_count p.1) rows)).
  pose proof (filter_length_le (fun p : DialogRow * bool => 0 <? d_unread_count p.1) (List.filter (fun p => negb p.2) rows)) as Ha.
  pose proof (filter_length_le (fun p : DialogRow * bool => 0 <? d_unread_count p.1) (List.filter snd rows)) as Hb.
  rewrite filter_comm in Ha. rewrite filter_comm in Hb. lia.
Qed.

(** ** Samples: the agent's chats *)
#[local] Existing Instance HistoryRules.plain_history.
#[export] Instance plain_reads : ThreadReadEnv := {|
  renv_contacts := []; renv_variable_text := fun _ => ""; renv_matches := fun _ _ => false; renv_collate := fun _ _ => false |}.

Definition search_for (self : uuid) (unread : bool) : ThreadSearchRequest :=
  MkThreadSearch [] [] [7] [] [] "" self [] [] [] [] unread 10 "-id" 1.

Lemma SearchThreadsFor_own_witness :
  exists views w', SearchThreadsFor (Some (search_for 102 false)) sample_world = (OK views, w') /\ thread_id <$> views = [1%N] /\
    w_db w' = sample_db.
Proof.
  destruct (SearchThreadsFor (Some (search_for 102 false)) sample_world) as [[views|e] w'] eqn:Hr; [|by vm_compute in Hr].
  exists views, w'. split; [done|]. destruct (SearchThreadsFor_own _ _ _ _ Hr) as (_ & Hd & _).
  split; [|exact Hd]. vm_compute in Hr. by injection Hr as <- _.
Defined.

(** A contact without a seat finds nothing; nobody has unread messages. *)
Example no_seat_no_chats : (fun vs : list ThreadView => thread_id <$> vs) <$> fst (SearchThreadsFor (Some (search_for 105 false)) sample_world) = OK [].
Proof. vm_compute. reflexivity. Qed.
Example no_unread_chats : (fun vs : list ThreadView => thread_id <$> vs) <$> fst (SearchThreadsFor (Some (search_for 102 true)) sample_world) = OK [].
Proof. vm_compute. reflexivity. Qed.

(** The client snoozed its chat and has a message to read in it. *)
Definition snoozed_db : DB :=
  on_tags (fun _ => [MkTagRow 40 1 100 SnoozedTag 1000])
    (on_dialogs (fun _ => [MkDialogRow 10 7 1000 1000 100 1 Role.RoleOwner None None None None None false false None None None 2;
                           sample_dialog 14 100 2 Role.RoleOwner false false]) sample_db).

Lemma GetCounters_add_up_witness : let run := GetCounters (Some (MkCountersRequest 100 7 [])) (world_of snoozed_db) in
  exists c, fst run = OK c /\ c = MkCounters (MkFolder 2 1) (MkFolder 1 0) (MkFolder 1 1) /\
    fc_Total (tcs_All c) = fc_Total (tcs_Active c) + fc_Total (tcs_Snoozed c).
Proof.
  intros run. destruct run as [[c|e] w'] eqn:Hr; [|by vm_compute in Hr]. exists c. split; [done|].
  destruct (GetCounters_add_up _ _ _ _ Hr) as (Ht & _). split; [|exact Ht]. vm_compute in Hr. by injection Hr as <- _.
Defined.
