(* ===== verification/UpdatesRules.v ===== *)
(** * UpdatesRules: what an answer of GetUpdates holds

    Threads are shown to their members only, an answer stays within its budget
    of changes or tells the client to reload, and nothing is written. *)
From S2P Require Import Prelude Domain Events Message World BotControlStore DialogStore Outbox TagStore TagService MediaProcessor MessageStatus Samples.
From S2P Require Import Paginator MessageView HistoryQueries History HistoryMapper HistoryFacts HistoryRules ThreadQueries ThreadReads ThreadMapper Journal JournalRules ThreadRules Updates.
#[local] Open Scope Z_scope.

(** ** The readers write nothing *)
Section readers.
Context {E : Env} {X : MessageEnv} {H : HistoryEnv} {R : ThreadReadEnv} {J : JournalEnv}.
Context (json_codec : @CursorCodec MessageHistoryCursor).

Abbreviation reads m := (preserves w_db m).

Lemma reads_of_result {A} (r : result A) : reads (of_result r).
Proof. by intros w. Qed.
Lemma reads_gets {A} (f : World -> A) : reads (gets f).
Proof. by intros w. Qed.
Lemma reads_now : reads now.
Proof. by intros w. Qed.
Lemma reads_cast s : reads (cast s).
Proof. unfold cast. destruct (jenv_cast_uuid s); by intros w. Qed.
#[local] Hint Resolve reads_of_result reads_gets reads_now reads_cast : svc.

Lemma reads_ContactCursor c : reads (ContactCursor c).
Proof. unfold ContactCursor, SettledHorizon, latestMark. frame. Qed.
Lemma reads_contactChanges c s : reads (contactChanges c s).
Proof. unfold contactChanges, SettledHorizon, latestMark, overlapSince. frame. Qed.
Lemma reads_TrimHorizon : reads TrimHorizon.
Proof. unfold TrimHorizon. frame. Qed.
Lemma reads_IsMember t c d : reads (IsMember t c d).
Proof. unfold IsMember. frame. Qed.
Lemma reads_ChangesSince t c d : reads (ChangesSince t c d).
Proof. unfold ChangesSince. frame. Qed.
Lemma reads_Unread t c : reads (Unread t c).
Proof. unfold Unread. frame. Qed.
Lemma reads_ReadStates t : reads (ReadStates t).
Proof. unfold ReadStates. frame. Qed.
Lemma reads_Members t : reads (Members t).
Proof. unfold Members. frame. Qed.
Lemma reads_EnrichedSearch i : reads (EnrichedSearch json_codec i).
Proof.
  unfold EnrichedSearch, Search, SearchStore. apply preserves_bind; [|frame].
  destruct (ToSQL _ _) as [[s|e] q]; frame.
Qed.
Lemma reads_SearchThreadsFor r : reads (SearchThreadsFor r).
Proof.
  unfold SearchThreadsFor, SearchThreads, enrichUnread, enrichTags, enrichReadStates, enrich, ReadUnread, ListForContact,
    ReadMemberStates. frame.
Qed.
#[local] Hint Resolve reads_ContactCursor reads_contactChanges reads_TrimHorizon reads_IsMember reads_ChangesSince reads_Unread
  reads_ReadStates reads_Members reads_EnrichedSearch reads_SearchThreadsFor : svc.

Lemma reads_callerTags c t : reads (callerTags c t).
Proof. unfold callerTags, ListTags, ListNames. frame. Qed.
Lemma reads_load_batches fuel c t ids byID from : reads (load_batches json_codec fuel c t ids byID from).
Proof. revert ids byID from. induction fuel as [|fuel IH]; intros ids byID from; [by intros w|]. destruct ids; [by intros w|]. simpl. frame. Qed.
#[local] Hint Resolve reads_callerTags reads_load_batches : svc.
Lemma reads_currentMessages c t es : reads (currentMessages json_codec c t es).
Proof. unfold currentMessages. frame. Qed.
Lemma reads_attachDialog c t : reads (attachDialog json_codec c t).
Proof. unfold attachDialog, topMessage. frame. Qed.
Lemma reads_threadMembers t s : reads (threadMembers t s).
Proof. unfold threadMembers. frame. Qed.
#[local] Hint Resolve reads_currentMessages reads_attachDialog reads_threadMembers : svc.
Lemma reads_threadUpdates c t ch b : reads (threadUpdates json_codec c t ch b).
Proof. unfold threadUpdates. frame. Qed.
#[local] Hint Resolve reads_threadUpdates : svc.
Lemma reads_thread_entries c ch ts b : reads (thread_entries json_codec c ch ts b).
Proof. revert b. induction ts as [|t ts IH]; intros b; [by intros w|]. simpl. frame. Qed.
#[local] Hint Resolve reads_thread_entries : svc.
Lemma reads_GetUpdates req : reads (GetUpdates json_codec req).
Proof. unfold GetUpdates, resync. frame. Qed.

(** ** One thread *)

(** The caller has a seat in the thread, in the domain it names. *)
Definition seated (caller : updatesCaller) (threadID : string) (d : DB) : Prop :=
  exists td, td ∈ db_dialogs d /\ jenv_cast_uuid threadID = Some (d_thread_id td) /\
    jenv_cast_uuid (uc_contactID caller) = Some (d_member_id td) /\ active td = true /\ d_domain_id td = uc_domainID caller.

Lemma IsMember_ok caller t w b w' : IsMember t (uc_contactID caller) (uc_domainID caller) w = (OK b, w') ->
  b = true <-> seated caller t (w_db w').
Proof.
  unfold IsMember. intros Hr. step_ok Hr. step_ok Hr. step_ok Hr. unfold cast in *.
  destruct (jenv_cast_uuid t) as [t'|] eqn:Et; [|done]. destruct (jenv_cast_uuid (uc_contactID caller)) as [c'|] eqn:Ec; [|done].
  run in Hs0. run in Hs1. run in Hr. simplify_eq. rewrite existsb_exists. unfold seated. setoid_rewrite <- list_elem_of_In.
  rewrite Et, Ec. split.
  - intros (td & Hin & Hb). rewrite !andb_true_iff, !bool_decide_eq_true in Hb. exists td. naive_solver.
  - intros (td & Hin & [= ->] & [= ->] & Ha & Hd). exists td. split; [done|]. by rewrite !andb_true_iff, !bool_decide_eq_true.
Qed.

Lemma ChangesSince_ok t ch limit w events w' : ChangesSince t ch limit w = (OK events, w') ->
  Forall (fun e => exists r, r ∈ db_journal (w_db w') /\ e = row_entry r) events.
Proof.
  unfold ChangesSince. intros Hr. step_ok Hr. step_ok Hr. run in Hr. simplify_eq.
  apply Forall_take, Forall_forall. intros e He. unfold thread_changes in He.
  apply list_elem_of_fmap in He as ([i r] & -> & He). rewrite merge_sort_Permutation in He.
  apply list_elem_of_In, filter_In in He as [He _]. apply list_elem_of_In in He. unfold numbered in He.
  apply elem_of_lookup_imap in He as (i' & r' & [= -> ->] & Hl). exists r'. split; [by eapply list_elem_of_lookup_2|done].
Qed.

(** A change of a member names no message. *)
Lemma member_entry_no_message r : je_Kind (row_entry r) = KindMemberChanged -> field FieldMsgID (je_Fields (row_entry r)) = "".
Proof.
  unfold row_entry. destruct (ProjectEvent (j_event r)) as [u|] eqn:Eu; [|done]. simpl. intros Hk.
  destruct (j_event r) as [| | | |e| | | | | | | |]; simpl in Eu; simplify_eq/=; try reflexivity.
  unfold statusUpdate in Hk. by repeat case_decide.
Qed.

Lemma message_ids_length es : (length (message_ids es) <= length (List.filter (fun e => negb (bool_decide (field FieldMsgID (je_Fields e) = ""))) es))%nat.
Proof.
  unfold message_ids. set (step := fun (ids : list string) (e : JEvent) => _).
  enough (forall ids, (length (fold_left step es ids) <=
    length ids + length (List.filter (fun e => negb (bool_decide (field FieldMsgID (je_Fields e) = ""))) es))%nat) as Hl by apply (Hl []).
  induction es as [|e es IH]; intros ids; simpl; [lia|].
  specialize (IH (step ids e)).
  assert (length (step ids e) <= length ids + (if bool_decide (field FieldMsgID (je_Fields e) = "") then 0 else 1))%nat.
  { unfold step. cbv zeta. destruct (bool_decide (_ = "")); simpl; [lia|].
    destruct (bool_decide (_ ∈ ids)); [lia|]. rewrite length_app. simpl. lia. }
  destruct (bool_decide (_ = "")); simpl in *; lia.
Qed.

(** What an entry shows: messages, deletions, changes of members. *)
Definition entry_size (e : PbThreadUpdates) : nat :=
  length (tup_Messages e) + length (tup_DeletedMessageIds e) + length (tup_MemberChanges e).

Lemma filters_length {A} (P Q : A -> bool) (l : list A) : Forall (fun x => P x = true -> Q x = false) l ->
  (length (List.filter P l) + length (List.filter Q l) <= length l)%nat.
Proof.
  induction 1 as [|x l Hx _ IH]; [done|]. simpl. destruct (P x); [rewrite Hx by done; simpl; lia|].
  destruct (Q x); simpl; lia.
Qed.

Lemma live_deleted_length ms : (length (live_messages ms) + length (deleted_messages ms) = length ms)%nat.
Proof. unfold live_messages, deleted_messages. induction ms as [|m ms IH]; [done|]. simpl. destruct (ph_Deleted m); simpl; lia. Qed.

Lemma omap_length {A B} (f : A -> option B) l : (length (omap f l) <= length l)%nat.
Proof. induction l as [|x l IH]; csimpl; [lia|]. destruct (f x); csimpl; lia. Qed.

Lemma currentMessages_length c t es w ms from w' : currentMessages json_codec c t es w = (OK (ms, from), w') ->
  (length ms <= length (message_ids es))%nat.
Proof. unfold currentMessages. intros Hr. step_ok Hr. destruct a as [byID f]. run in Hr. simplify_eq. apply omap_length. Qed.

Lemma entry_size_events t unread tags ms es dialog states members :
  Forall (fun e => exists r, e = row_entry r) es -> (length ms <= length (message_ids es))%nat ->
  (entry_size (entry_of t unread tags ms es dialog states members) <= length es)%nat.
Proof.
  intros Hes Hms. unfold entry_size, entry_of, member_changes. simpl. rewrite !length_fmap.
  pose proof (message_ids_length es). pose proof (live_deleted_length ms).
  pose proof (filters_length (fun e => bool_decide (je_Kind e = KindMemberChanged))
    (fun e => negb (bool_decide (field FieldMsgID (je_Fields e) = ""))) es) as Hf.
  enough (length (List.filter (fun e => bool_decide (je_Kind e = KindMemberChanged)) es) +
    length (List.filter (fun e => negb (bool_decide (field FieldMsgID (je_Fields e) = ""))) es) <= length es)%nat by lia.
  apply Hf. eapply Forall_impl; [exact Hes|]. intros e (r & ->) Hk. apply bool_decide_eq_true in Hk.
  rewrite member_entry_no_message by done. done.
Qed.

(** An entry of a thread the caller sits in, or the bare notice that it left. *)
Definition entry_for (caller : updatesCaller) (d : DB) (e : PbThreadUpdates) : Prop :=
  if tup_Left e then e = left_entry (tup_ThreadId e) /\ ~ seated caller (tup_ThreadId e) d
  else seated caller (tup_ThreadId e) d.

Definition entry_cost (e : PbThreadUpdates) : Z := Z.max 1 (Z.of_nat (entry_size e)).

Lemma threadUpdates_ok caller t window budget w entry used w' :
  threadUpdates json_codec caller t window budget w = (OK (entry, used), w') ->
  0 <= used /\ forall e, entry = Some e -> tup_ThreadId e = t /\ entry_for caller (w_db w) e /\ entry_cost e <= used.
Proof.
  unfold threadUpdates. intros Hr. step_ok Hr.
  pose proof (IsMember_ok _ _ _ _ _ Hs) as Hm. rewrite (preserves_ok w_db _ _ _ _ (reads_IsMember _ _ _) Hs) in Hm.
  destruct a; simpl in Hr.
  - step_ok Hr. pose proof (ChangesSince_ok _ _ _ _ _ _ Hs0) as Hes.
    destruct (bool_decide_reflect (a = [])); [run in Hr; simplify_eq; split; [lia|done]|].
    destruct (budget <? Z.of_nat (length a)); [run in Hr; simplify_eq; split; [lia|done]|].
    do 3 step_ok Hr. destruct a2 as [ms from]. do 3 step_ok Hr. run in Hr. simplify_eq. split; [lia|].
    intros e [= <-]. split; [done|]. split; [by apply Hm|]. unfold entry_cost.
    assert (length a <> 0)%nat by (by destruct a).
    enough (entry_size (entry_of t a0 a1 ms a a2 a3 (mergeMembers a4 from)) <= length a)%nat by lia.
    apply entry_size_events; [|by eapply currentMessages_length].
    eapply Forall_impl; [exact Hes|]. naive_solver.
  - run in Hr. simplify_eq. split; [lia|]. intros e [= <-]. split; [done|]. split; [|done].
    split; [done|]. simpl. rewrite <- Hm. done.
Qed.

Definition total_cost (es : list PbThreadUpdates) : Z := foldr Z.add 0 (entry_cost <$> es).

Lemma thread_entries_ok caller ch threads budget w es w' : 0 <= budget ->
  thread_entries json_codec caller ch threads budget w = (OK (Some es), w') ->
  Forall (fun e => tup_ThreadId e ∈ threads /\ entry_for caller (w_db w) e) es /\ total_cost es <= budget.
Proof.
  revert budget w es. induction threads as [|t ts IH]; intros budget w es Hb Hr; simpl in Hr.
  { run in Hr. simplify_eq. split; [constructor|done]. }
  step_ok Hr. destruct a as [entry used]. pose proof (threadUpdates_ok _ _ _ _ _ _ _ _ Hs) as [Hu He].
  pose proof (preserves_ok w_db _ _ _ _ (reads_threadUpdates _ _ _ _) Hs) as Hd.
  destruct (Z.ltb_spec budget used); [done|]. step_ok Hr. run in Hr. destruct a as [rest|]; [|done]. simplify_eq.
  destruct (IH (budget - used) w0 rest) as [Hf Hc]; [lia|done|]. rewrite Hd in Hf.
  assert (Forall (fun e => tup_ThreadId e ∈ t :: ts /\ entry_for caller (w_db w) e) rest) as Hf'.
  { eapply Forall_impl; [exact Hf|]. intros e [? ?]. split; [by right|done]. }
  destruct entry as [e|]; [|split; [done|lia]].
  destruct (He e eq_refl) as (<- & Hfor & Hcost). split; [constructor; [split; [left|done]|done]|].
  unfold total_cost in *. csimpl. lia.
Qed.

Lemma contactChanges_ok c s w ch w' : contactChanges c s w = (OK ch, w') ->
  parseCursor s = OK (cc_After ch) /\ exists n, cc_Cursor ch = FormatInt n /\ cc_After ch <= n.
Proof.
  unfold contactChanges. intros Hs. do 7 step_ok Hs. run in Hs. simplify_eq. simpl.
  unfold of_result in Hs1. injection Hs1 as -> _. split; [done|]. eexists. split; [done|lia].
Qed.

(** A successful answer: a reload, or the entries of the threads changed after
    a cursor that retention has not passed. *)
Definition caller_of (req : GetUpdatesRequest) : updatesCaller := MkCaller (gup_CallerId req) (gup_DomainId req) (gup_AllowList req).

Lemma GetUpdates_ok req w resp w' : GetUpdates json_codec req w = (OK resp, w') ->
  0 < gup_DomainId req /\ is_Some (menv_uuid_parse (gup_CallerId req)) /\
  ((upr_Resync resp = true /\ upr_Threads resp = []) \/
   (upr_Resync resp = false /\ exists after n,
      parseCursor (gup_Cursor req) = OK after /\ upr_Cursor resp = FormatInt n /\ after <= n /\
      (upr_Threads resp <> [] -> default 0 (db_trim (w_db w)) <= after) /\
      Forall (entry_for (caller_of req) (w_db w)) (upr_Threads resp) /\
      total_cost (upr_Threads resp) <= MaxContactChanges)).
Proof.
  unfold GetUpdates. intros Hr. step_ok Hr. unfold of_result, parse_or, uuid_Parse in Hs.
  destruct (menv_uuid_parse _) as [u|]; [|done]. injection Hs as <- <-.
  destruct (Z.leb_spec (gup_DomainId req) 0) as [|Hdom]; [done|]. split; [done|]. split; [by eexists|].
  assert (forall w1, resync (gup_CallerId req) w1 = (OK resp, w') -> upr_Resync resp = true /\ upr_Threads resp = []) as Hre.
  { intros w1. unfold resync. intros Hx. step_ok Hx. run in Hx. by simplify_eq. }
  destruct (decide (gup_Cursor req = "")); [left; eauto|].
  step_ok Hr. apply map_err_ok in Hs. destruct (cc_TooMany a) eqn:Emany; [left; eauto|].
  pose proof (preserves_ok w_db _ _ _ _ (reads_contactChanges _ _) Hs) as Hd0.
  step_ok Hr. pose proof (preserves_ok w_db _ _ _ _ reads_TrimHorizon Hs0) as Hd1.
  unfold TrimHorizon in Hs0. step_ok Hs0. run in Hs0. injection Hs0 as <- <-.
  destruct ((cc_After a <? _) && _) eqn:Etrim; [left; eauto|].
  step_ok Hr. destruct a0 as [es|]; [|left; eauto]. run in Hr. simplify_eq. right. simpl. split; [done|].
  apply contactChanges_ok in Hs as (Hp & m & Hm & Hle). exists (cc_After a), m. split; [done|]. split; [done|]. split; [done|].
  apply thread_entries_ok in Hs0 as [Hf Hc]; [|done].
  rewrite Hd1, Hd0 in *. split; [|split; [|done]].
  - intros Hne. apply andb_false_iff in Etrim as [?|Hb]; [lia|]. apply negb_false_iff, bool_decide_eq_true in Hb.
    destruct es as [|e es]; [done|]. apply Forall_cons in Hf as [[Hin _] _]. rewrite Hb in Hin. by apply not_elem_of_nil in Hin.
  - eapply Forall_impl; [exact Hf|]. by intros e [_ ?].
Qed.
End readers.


(** (C6) GetUpdates writes nothing and shows a thread to its members only: an
    entry is either that of a thread where the caller has a seat, in the domain
    it names, or the bare notice that the caller is not in the thread any
    more. *)
Theorem GetUpdates_for_members {E : Env} {X : MessageEnv} {H : HistoryEnv} {R : ThreadReadEnv} {J : JournalEnv}
    (json_codec : @CursorCodec MessageHistoryCursor) (req : GetUpdatesRequest) (w w' : World) (resp : GetUpdatesResponse) :
  GetUpdates json_codec req w = (OK resp, w') ->
  w_db w' = w_db w /\ forall e, e ∈ upr_Threads resp ->
    if tup_Left e then e = left_entry (tup_ThreadId e) /\ ~ seated (caller_of req) (tup_ThreadId e) (w_db w)
    else seated (caller_of req) (tup_ThreadId e) (w_db w).
Proof.
  intros Hr. split; [exact (preserves_ok w_db _ _ _ _ (reads_GetUpdates json_codec req) Hr)|]. intros e He.
  destruct (GetUpdates_ok _ _ _ _ _ Hr) as (_ & _ & [[_ Hn]|(_ & after & n & _ & _ & _ & _ & Hf & _)]).
  - rewrite Hn in He. by apply not_elem_of_nil in He.
  - rewrite Forall_forall in Hf. exact (Hf e He).
Qed.

(** (C34) An answer either tells the client to reload, without any entry, or
    serves at most [MaxContactChanges] messages, deletions and changes of
    members over all its threads, every thread counting for one at least; its
    cursor never goes back, and it has entries only when retention removed
    nothing after the cursor of the request. *)
Theorem GetUpdates_within_budget {E : Env} {X : MessageEnv} {H : HistoryEnv} {R : ThreadReadEnv} {J : JournalEnv}
    (json_codec : @CursorCodec MessageHistoryCursor) (req : GetUpdatesRequest) (w w' : World) (resp : GetUpdatesResponse) :
  GetUpdates json_codec req w = (OK resp, w') ->
  if upr_Resync resp then upr_Threads resp = []
  else total_cost (upr_Threads resp) <= MaxContactChanges /\
       exists after n, parseCursor (gup_Cursor req) = OK after /\ upr_Cursor resp = FormatInt n /\ after <= n /\
         (upr_Threads resp <> [] -> default 0 (db_trim (w_db w)) <= after).
Proof.
  intros Hr. destruct (GetUpdates_ok _ _ _ _ _ Hr) as (_ & _ & [[-> Hn]|(-> & after & n & Hp & Hc & Hle & Ht & _ & Hb)]); [done|].
  split; [done|]. by exists after, n.
Qed.

(** ** Samples: the agent asks what changed in the thread of the client *)
#[local] Existing Instance HistoryRules.plain_history.

Definition reaction_event : Event :=
  EvMessageReaction (MkEvReaction 502 1 7 (Some (MkMember None 100 Role.RoleOwner false)) [] "+" "added" 5000 "" [] ∅).
Definition updated_db : DB :=
  mark_sql 5000 5 1 [102%N; 100%N] (on_journal (fun _ => [MkJournalRow 1 5 5000 reaction_event; MkJournalRow 1 5 5000 sample_event]) history_db).
Definition updates_of (c cursor : string) : GetUpdatesRequest := MkGetUpdates c 7 cursor None.

Definition sample_updates : GetUpdatesResponse :=
  match fst (GetUpdates plain_codec (updates_of "102" "3") (world_of updated_db)) with OK r => r | Err _ => MkUpdatesResponse "" true [] end.
Definition sample_after : World := snd (GetUpdates plain_codec (updates_of "102" "3") (world_of updated_db)).

Lemma sample_updates_run : GetUpdates plain_codec (updates_of "102" "3") (world_of updated_db) = (OK sample_updates, sample_after).
Proof. vm_compute. reflexivity. Qed.

Lemma GetUpdates_for_members_witness :
  w_db sample_after = updated_db /\ tup_ThreadId <$> upr_Threads sample_updates = ["1"] /\
  forall e, e ∈ upr_Threads sample_updates ->
    if tup_Left e then e = left_entry (tup_ThreadId e) /\ ~ seated (caller_of (updates_of "102" "3")) (tup_ThreadId e) updated_db
    else seated (caller_of (updates_of "102" "3")) (tup_ThreadId e) updated_db.
Proof.
  destruct (GetUpdates_for_members plain_codec _ _ _ _ sample_updates_run) as [Hd He].
  split; [exact Hd|]. split; [vm_compute; reflexivity|exact He].
Defined.

Lemma GetUpdates_within_budget_witness :
  upr_Resync sample_updates = false /\ total_cost (upr_Threads sample_updates) = 1 /\
  if upr_Resync sample_updates then upr_Threads sample_updates = []
  else total_cost (upr_Threads sample_updates) <= MaxContactChanges /\
       exists after n, parseCursor "3" = OK after /\ upr_Cursor sample_updates = FormatInt n /\ after <= n /\
         (upr_Threads sample_updates <> [] -> default 0 (db_trim updated_db) <= after).
Proof.
  split; [vm_compute; reflexivity|]. split; [vm_compute; reflexivity|].
  exact (GetUpdates_within_budget plain_codec _ _ _ _ sample_updates_run).
Defined.

(** A first request, and one of a contact that left, carry no entry of a thread. *)
Example first_sync : fst (GetUpdates plain_codec (updates_of "102" "") (world_of updated_db)) = OK (MkUpdatesResponse "5" true []).
Proof. vm_compute. reflexivity. Qed.

Example not_a_member :
  upr_Threads <$> fst (GetUpdates plain_codec (updates_of "105" "3") (world_of (mark_sql 5000 5 1 [105%N] updated_db))) =
  OK [left_entry "1"].
Proof. vm_compute. reflexivity. Qed.
