(* ===== verification/VariableRules.v ===== *)
(** * VariableRules: theorems on the variables of a thread

    A variable belongs to the contact that set it first: others neither
    overwrite nor flush it. *)
From S2P Require Import Prelude Domain Events Message World DialogStore Paging PreviewStore VariableStore MediaProcessor Variables.
From S2P Require Import Samples.
#[local] Open Scope Z_scope.

(** The variables stored for a thread. *)
Definition variables_of (tid : uuid) (d : DB) : variables := default ∅ (vr_variables <$> find_variables tid d).

Definition in_thread (tid member : uuid) (d : DB) : Prop :=
  exists td, td ∈ db_dialogs d /\ d_thread_id td = tid /\ d_member_id td = member /\ active td = true.

Lemma elem_of_members tid member d : member ∈ active_members tid d <-> in_thread tid member d.
Proof.
  unfold active_members, in_thread. rewrite merge_sort_Permutation, elem_of_remove_dups, list_elem_of_fmap.
  setoid_rewrite elem_of_select. setoid_rewrite andb_true_iff. setoid_rewrite bool_decide_eq_true. naive_solver.
Qed.

Lemma put_same tid vars d r : find_variables tid d = Some r -> find_variables tid (put_variables tid vars d) = Some (MkVariablesRow tid vars).
Proof.
  unfold find_variables, put_variables, update_where. simpl. induction (db_variables d) as [|x l IH]; [done|]. simpl.
  destruct (bool_decide_reflect (vr_thread_id x = tid)) as [Hx|Hx]; simpl.
  - intros _. by rewrite bool_decide_true.
  - rewrite bool_decide_false by done. exact IH.
Qed.

Lemma put_other tid tid' vars d : tid' <> tid -> find_variables tid' (put_variables tid vars d) = find_variables tid' d.
Proof.
  intros Hne. unfold find_variables, put_variables, update_where. simpl. induction (db_variables d) as [|x l IH]; [done|]. simpl.
  destruct (bool_decide_reflect (vr_thread_id x = tid)) as [Hx|Hx]; simpl.
  - rewrite (bool_decide_false (tid = tid')), (bool_decide_false (vr_thread_id x = tid')) by congruence. exact IH.
  - destruct (bool_decide (vr_thread_id x = tid')); [done|exact IH].
Qed.

Lemma takeover_spec old new : takeover old new = false ->
  forall k e e', old !! k = Some e -> new !! k = Some e' -> va_SetBy e' = va_SetBy e.
Proof.
  unfold takeover. intros Ht k e e' Hk Hk'. apply elem_of_map_to_list in Hk.
  assert (negb (bool_decide (va_SetBy e' = va_SetBy e)) = false) as Hf.
  { apply not_true_iff_false. intros Hb. apply not_true_iff_false in Ht. apply Ht. apply existsb_exists.
    exists (k, e). split; [by apply list_elem_of_In|]. simpl. by rewrite Hk'. }
  by apply negb_false_iff, bool_decide_eq_true in Hf.
Qed.

Section store.
Context {E : Env}.

Lemma Set_run cmd w r w' : VariableStore.Set_ cmd w = (OK r, w') ->
  let tid := sv_ThreadID cmd in
  in_thread tid (sv_Member cmd) (w_db w) /\ takeover (variables_of tid (w_db w)) (stamped (w_now w) (sv_Variables cmd)) = false /\
  variables_of tid (w_db w') = stamped (w_now w) (sv_Variables cmd) ∪ variables_of tid (w_db w) /\
  (forall tid', tid' <> tid -> variables_of tid' (w_db w') = variables_of tid' (w_db w)).
Proof.
  unfold VariableStore.Set_. cbv zeta. intros Hr. step_ok Hr. apply statement_as_ok in Hs as (-> & _). run in Hr. simpl in Hr.
  destruct (bool_decide_reflect (sv_Member cmd ∈ active_members (sv_ThreadID cmd) (w_db w))) as [Hm|]; [|done]. simpl in Hr.
  apply elem_of_members in Hm. destruct (_ =? 0)%nat; [done|]. unfold variables_of at 1 3.
  destruct (find_variables (sv_ThreadID cmd) (w_db w)) as [r0|] eqn:Hf.
  - destruct (takeover _ _) eqn:Ht; [done|]. run in Hr. injection Hr as _ <-. simpl. split; [done|]. split; [done|].
    unfold variables_of. split; [by rewrite (put_same _ _ _ _ Hf)|]. intros tid' Hne. by rewrite put_other.
  - run in Hr. injection Hr as _ <-. simpl. split; [done|].
    split; [unfold takeover; by rewrite map_to_list_empty|]. unfold variables_of, find_variables in *. simpl.
    assert (forall tid', find_first (fun r => bool_decide (vr_thread_id r = tid'))
      (db_variables (w_db w) ++ [MkVariablesRow (sv_ThreadID cmd) (stamped (w_now w) (sv_Variables cmd))]) =
      match find_first (fun r => bool_decide (vr_thread_id r = tid')) (db_variables (w_db w)) with
      | Some r => Some r
      | None => if bool_decide (sv_ThreadID cmd = tid') then Some (MkVariablesRow (sv_ThreadID cmd) (stamped (w_now w) (sv_Variables cmd))) else None
      end) as Happ.
    { intros tid'. clear. generalize (db_variables (w_db w)) as l. induction l as [|x l IH]; simpl; [done|].
      destruct (bool_decide (vr_thread_id x = tid')); [done|exact IH]. }
    split.
    + rewrite Happ, Hf, bool_decide_true by done. simpl. by rewrite (right_id_L ∅ (∪)).
    + intros tid' Hne. rewrite Happ. rewrite bool_decide_false by congruence. by destruct (find_first (fun r0 : VariablesRow => bool_decide (vr_thread_id r0 = tid')) (db_variables (w_db w))).
Qed.

Lemma Flush_run cmd w r w' : VariableStore.Flush cmd w = (OK r, w') ->
  let tid := fv_ThreadID cmd in
  in_thread tid (fv_Member cmd) (w_db w) /\
  variables_of tid (w_db w') = flushed (fv_Member cmd) (fv_Keys cmd) (variables_of tid (w_db w)) /\
  (forall tid', tid' <> tid -> variables_of tid' (w_db w') = variables_of tid' (w_db w)).
Proof.
  unfold VariableStore.Flush. cbv zeta. intros Hr. step_ok Hr. apply statement_as_ok in Hs as (-> & _). run in Hr. simpl in Hr.
  destruct (find_variables (fv_ThreadID cmd) (w_db w)) as [r0|] eqn:Hf; [|done].
  destruct (bool_decide_reflect (fv_Member cmd ∈ active_members (fv_ThreadID cmd) (w_db w))) as [Hm|]; [|done].
  apply elem_of_members in Hm. run in Hr. injection Hr as _ <-. simpl. split; [done|]. unfold variables_of.
  rewrite (put_same _ _ _ _ Hf), Hf. split; [done|]. intros tid' Hne. by rewrite put_other.
Qed.
End store.

Lemma publish_keeps {E : Env} {X : MessageEnv} topic msg r w u w' : publishVariables topic msg r w = (OK u, w') -> w_db w' = w_db w.
Proof. unfold publishVariables. destruct (menv_publish topic); [|done]. intros Hr. run in Hr. by injection Hr as _ <-. Qed.

(** (C35) Variables have an owner.  Setting variables as a member of the thread
    stores each value given, stamped with the time, keeps every other variable
    of the thread and every variable of other threads, and succeeds only if no
    variable it names is already another contact's.  Flushing removes exactly
    the named variables, or all, that the caller owns; a variable of somebody
    else survives every successful call. *)
Theorem variables_have_owners {E : Env} {X : MessageEnv} (w w' : World) :
  (forall cmd r, SetVariables cmd w = (OK r, w') ->
     let tid := sv_ThreadID cmd in let old := variables_of tid (w_db w) in let new := variables_of tid (w_db w') in
     in_thread tid (sv_Member cmd) (w_db w) /\
     (forall k e, sv_Variables cmd !! k = Some e -> new !! k = Some (MkVariable (va_Value e) (va_SetBy e) (w_now w))) /\
     (forall k, sv_Variables cmd !! k = None -> new !! k = old !! k) /\
     (forall k e e', old !! k = Some e -> sv_Variables cmd !! k = Some e' -> va_SetBy e' = va_SetBy e) /\
     (forall tid', tid' <> tid -> variables_of tid' (w_db w') = variables_of tid' (w_db w))) /\
  (forall cmd r, FlushVariables cmd w = (OK r, w') ->
     let tid := fv_ThreadID cmd in let old := variables_of tid (w_db w) in let new := variables_of tid (w_db w') in
     in_thread tid (fv_Member cmd) (w_db w) /\
     (forall k e, new !! k = Some e <-> old !! k = Some e /\
        (va_SetBy e = fv_Member cmd -> match fv_Keys cmd with None => False | Some ks => k ∉ ks end)) /\
     (forall tid', tid' <> tid -> variables_of tid' (w_db w') = variables_of tid' (w_db w))).
Proof.
  split; intros cmd r Hr; cbv zeta.
  - unfold SetVariables in Hr. step_ok Hr. apply Set_run in Hs as (Hm & Ht & Hnew & Hother).
    step_ok Hr. apply publish_keeps in Hs. run in Hr. injection Hr as _ <-. rewrite Hs, Hnew.
    assert (forall k, stamped (w_now w) (sv_Variables cmd) !! k =
      (fun e => MkVariable (va_Value e) (va_SetBy e) (w_now w)) <$> sv_Variables cmd !! k) as Hst by (intros; apply lookup_fmap).
    split; [done|]. split; [|split; [|split; [|done]]].
    + intros k e Hk. apply lookup_union_Some_l. by rewrite Hst, Hk.
    + intros k Hk. rewrite lookup_union_r; [done|]. by rewrite Hst, Hk.
    + intros k e e' Hk Hk'. apply (takeover_spec _ _ Ht k e (MkVariable (va_Value e') (va_SetBy e') (w_now w)) Hk). by rewrite Hst, Hk'.
  - unfold FlushVariables in Hr. step_ok Hr. apply Flush_run in Hs as (Hm & Hnew & Hother).
    step_ok Hr. apply publish_keeps in Hs. run in Hr. injection Hr as _ <-. rewrite Hs, Hnew.
    split; [done|]. split; [|done]. intros k e. unfold flushed. rewrite map_lookup_filter_Some. simpl.
    unfold flushes. rewrite andb_false_iff, bool_decide_eq_false. destruct (fv_Keys cmd) as [ks|].
    + rewrite bool_decide_eq_false. destruct (decide (va_SetBy e = fv_Member cmd)); naive_solver.
    + naive_solver.
Qed.

(** ** Witness: two members set a variable each *)
Definition set_lang : SetThreadVariablesCommand := MkSetVariables 100 1 {["lang" := MkVariable (AnyString "uk") 100 0]}.
Definition set_topic : SetThreadVariablesCommand := MkSetVariables 102 1 {["topic" := MkVariable (AnyString "bill") 102 0]}.
Definition with_lang : World := snd (SetVariables set_lang sample_world).

Lemma variables_have_owners_witness :
  exists r w', SetVariables set_topic with_lang = (OK r, w') /\
    variables_of 1 (w_db w') !! "lang" = Some (MkVariable (AnyString "uk") 100 5000) /\
    variables_of 1 (w_db w') !! "topic" = Some (MkVariable (AnyString "bill") 102 5000).
Proof.
  assert (exists r, SetVariables set_topic with_lang = (OK r, snd (SetVariables set_topic with_lang))) as [r Hr] by runs.
  destruct (proj1 (variables_have_owners with_lang _) set_topic r Hr) as (_ & H1 & H2 & _).
  exists r. eexists. split; [exact Hr|]. split.
  - trans (variables_of 1 (w_db with_lang) !! "lang"); [exact (H2 "lang" eq_refl)|vm_compute; reflexivity].
  - exact (H1 "topic" (MkVariable (AnyString "bill") 102 0) eq_refl).
Defined.
