(* ===== verification/TypingRules.v ===== *)
(** * TypingRules: theorems on typing indicators

    The draft is cut between characters, and within one window a participant
    is announced once. *)
From Stdlib Require Import Ascii.
From S2P Require Import Prelude Domain Events Message World Text DialogStore MediaProcessor MessageService TypingService.
From S2P Require Import Samples MessageFacts.
#[local] Open Scope Z_scope.

(** ** The draft *)
Definition starts_rune (s : string) (i : nat) : Prop := exists c, String.get i s = Some c /\ RuneStart c = true.

Lemma rune_cut_le s cut : (rune_cut s cut <= cut)%nat.
Proof.
  induction cut as [|cut IH]; [done|]. simpl. destruct (String.get (S cut) s) as [c|]; [|done].
  destruct (RuneStart c); [done|lia].
Qed.

Lemma append_nil s : s +:+ "" = s.
Proof. induction s as [|c s IH]; [done|]. exact (f_equal (String c) IH). Qed.

Lemma get_within s i : (i < String.length s)%nat -> exists c, String.get i s = Some c.
Proof.
  revert i. induction s as [|c s IH]; intros i Hi; [simpl in Hi; lia|]. destruct i as [|i]; [by exists c|]. apply IH. simpl in Hi. lia.
Qed.

(** The loop stops at the nearest boundary not after where it started. *)
Lemma rune_cut_nearest s cut : (cut < String.length s)%nat ->
  (rune_cut s cut = 0%nat \/ starts_rune s (rune_cut s cut)) /\
  forall i, (rune_cut s cut < i <= cut)%nat -> ~ starts_rune s i.
Proof.
  induction cut as [|cut IH]; intros Hlt; [split; [by left|lia]|]. simpl.
  destruct (get_within s (S cut) Hlt) as [c Hc]. rewrite Hc. destruct (RuneStart c) eqn:Hr.
  - split; [right; by exists c|lia].
  - destruct (IH ltac:(lia)) as [H1 H2]. split; [done|]. intros i Hi. destruct (decide (i = S cut)) as [->|].
    + intros (c' & Hc' & Hr'). congruence.
    + apply H2. lia.
Qed.

Lemma substring_prefix s n : (n <= String.length s)%nat ->
  exists rest, s = String.substring 0 n s +:+ rest /\ String.length (String.substring 0 n s) = n.
Proof.
  revert n. induction s as [|c s IH]; intros n Hn; [exists ""; destruct n; [done|simpl in Hn; lia]|].
  destruct n as [|n]; [by exists (String c s)|]. simpl in Hn. destruct (IH n) as (rest & Hs & Hl); [lia|].
  exists rest. simpl. rewrite Hl. split; [|done]. by rewrite Hs at 1.
Qed.

(** The draft shown while typing is a prefix of what was typed, no longer
    than the limit when there is one, that never splits a character: it ends
    where a character begins, and no longer prefix within the limit does. *)
Theorem truncateUTF8_at_boundary (s : string) (maxBytes : Z) :
  let t := truncateUTF8 s maxBytes in
  exists rest, s = t +:+ rest /\
    (0 < maxBytes -> Z.of_nat (String.length t) <= maxBytes) /\
    (rest = "" \/ t = "" \/ starts_rune s (String.length t)) /\
    (rest <> "" -> forall i, (String.length t < i)%nat -> Z.of_nat i <= maxBytes -> ~ starts_rune s i).
Proof.
  unfold truncateUTF8. destruct (Z.leb_spec maxBytes 0) as [H0|H0]; simpl.
  { exists "". rewrite append_nil. split_and!; [done|lia|by left|done]. }
  destruct (Z.leb_spec (Z.of_nat (String.length s)) maxBytes) as [H1|H1].
  { exists "". rewrite append_nil. split_and!; [done|lia|by left|done]. }
  assert (Z.to_nat maxBytes < String.length s)%nat as Hlt by lia.
  destruct (rune_cut_nearest s (Z.to_nat maxBytes) Hlt) as [Hb Hn]. pose proof (rune_cut_le s (Z.to_nat maxBytes)) as Hle.
  destruct (substring_prefix s (rune_cut s (Z.to_nat maxBytes))) as (rest & Hs & Hl); [lia|].
  exists rest. split; [exact Hs|]. rewrite Hl. split_and!; [lia| |].
  - right. destruct Hb as [Hb|Hb]; [left; by rewrite Hb; destruct s|by right].
  - intros _ i Hi Him. apply Hn. lia.
Qed.

(** ** Who sees it *)
Lemma quick_view_row tid dom d m :
  m ∈ quick_view (MkDialogFilter 0 0 (Some [tid]) None None false dom) d ->
  exists td, td ∈ db_dialogs d /\ m = mapToThreadDialogModel (quick_record td) /\ d_thread_id td = tid /\ active td = true.
Proof.
  unfold quick_view, paged. simpl. rewrite drop_0. intros (td & -> & Htd)%list_elem_of_fmap.
  apply elem_of_select in Htd as [Htd Hq]. unfold quick_filter in Hq. simpl in Hq.
  rewrite !andb_true_iff, bool_decide_eq_true, list_elem_of_singleton in Hq. exists td. naive_solver.
Qed.

(** A person of the thread other than the sender, inside the system. *)
Definition internal_person (tid sender c : uuid) (d : DB) : Prop :=
  exists td, td ∈ db_dialogs d /\ d_thread_id td = tid /\ d_member_id td = c /\ active td = true /\
    d_is_bot td = false /\ d_via td = None /\ c <> sender.

Definition in_chat (tid c : uuid) (d : DB) : Prop :=
  exists td, td ∈ db_dialogs d /\ d_thread_id td = tid /\ d_member_id td = c /\ active td = true.

Lemma recipients_internal tid dom sender d c :
  c ∈ internalRecipients (quick_view (MkDialogFilter 0 0 (Some [tid]) None None false dom) d) sender ->
  internal_person tid sender c d.
Proof.
  unfold internalRecipients. intros (m & -> & Hm)%list_elem_of_fmap. apply elem_of_select in Hm as [Hm Hi].
  apply quick_view_row in Hm as (td & Htd & -> & Ht & Ha). unfold isInternalRecipient in Hi. simpl in Hi.
  rewrite !andb_true_iff, !negb_true_iff, !bool_decide_eq_true, bool_decide_eq_false in Hi. exists td. naive_solver.
Qed.

(** ** The limiter *)

(** The documented behaviour of the cache: a key set with a time to live is
    there until it is over, and reading it reports no error. *)
Definition cache_keeps (cache : TypingCache) : Prop :=
  forall armed armed' t t' key ttl, tc_SetTTL cache armed t key ttl = OK armed' -> t <= t' < t + ttl ->
    tc_Get cache armed' t' key = OK true.

Section throttle.
Context {E : Env} {X : MessageEnv}.

Lemma Allow_run cache key w w1 : menv_limiter = Some cache -> Allow key w = (OK true, w1) ->
  (exists e, tc_Get cache (w_armed w) (w_now w) key = Err e) \/ (exists e, tc_SetTTL cache (w_armed w) (w_now w) key (tg_Window menv_typing) = Err e) \/
  exists armed', tc_SetTTL cache (w_armed w) (w_now w) key (tg_Window menv_typing) = OK armed' /\ w_armed w1 = armed'.
Proof.
  unfold Allow. intros -> Hr. run in Hr. destruct (tc_Get cache (w_armed w) (w_now w) key) as [[|]|e] eqn:Hg; [done| |by left; exists e].
  right. destruct (tc_SetTTL cache (w_armed w) (w_now w) key (tg_Window menv_typing)) as [armed'|e] eqn:Hs; [|by left; exists e].
  right. exists armed'. split; [done|]. run in Hr. by injection Hr as <-.
Qed.

Lemma Allow_leaves {B} (P : World -> B) key : (forall a w, P (set_armed a w) = P w) -> preserves P (Allow key).
Proof.
  intros Ha w. unfold Allow. destruct menv_limiter as [cache|]; [|done]. run.
  destruct (tc_Get _ _ _ _) as [[|]|]; try done. destruct (tc_SetTTL _ _ _ _ _); [apply Ha|done].
Qed.
End throttle.


(** ** Witness: the client of the sample thread types, and goes on typing *)
Definition typing : SendTypingRequest := MkSendTyping (Shared.MkPeer 100 Shared.PeerContact None) 1 7 0 "hel".
Definition announced_typing : World := snd (SendTyping typing sample_world).

Lemma sample_cache_keeps : cache_keeps sample_cache.
Proof.
  intros armed armed' t t' key ttl [= <-] Ht. simpl. rewrite lookup_insert_eq. f_equal. apply Z.ltb_lt. lia.
Qed.

