(* ===== verification/Leader.v ===== *)
(** * Leader: which node relays the outbox

    infra/discovery/consul/leader.go, attemptLeadership call by call, run by any
    number of nodes against one lock service, with the start and the end of the
    relay of internal/adapter/pubsub/forwarder.go.  The lock service is Consul, a
    parameter with the documented behaviour of its sessions and locks as laws.
    A node is where its goroutine stands between two calls; calls of different
    nodes interleave in any order, a call can fail with or without having had
    its effect, and sessions expire when they like. *)
From stdpp Require Import functions.
From S2P Require Import Prelude.

(** ** Consul

    [own] is what the server does by itself: a session that is not renewed is
    dropped with the lock it holds (SessionBehaviorRelease), a lock delay ends.
    An acquisition that is refused changes nothing. *)
Abbreviation session := N.

Class LockService := {
  server : Type;
  holder : server -> option session;
  known : server -> session -> Prop;
  create : server -> session -> server -> Prop;
  acquire : server -> session -> bool -> server -> Prop;
  release : server -> session -> server -> Prop;
  destroy : server -> session -> server -> Prop;
  own : server -> server -> Prop;
  create_law s i s' : create s i s' -> ~ known s i /\ known s' i /\ (forall j, known s j -> known s' j) /\ holder s' = holder s;
  acquire_law s i b s' : acquire s i b s' -> (forall j, known s' j <-> known s j) /\
    if b then (holder s = None \/ holder s = Some i) /\ holder s' = Some i else holder s' = holder s;
  release_law s i s' : release s i s' -> (forall j, known s' j <-> known s j) /\
    holder s' = (if decide (holder s = Some i) then None else holder s);
  destroy_law s i s' : destroy s i s' -> (forall j, known s' j <-> known s j) /\
    holder s' = (if decide (holder s = Some i) then None else holder s);
  own_law s s' : own s s' -> (forall j, known s' j <-> known s j) /\ (holder s' = holder s \/ holder s' = None) }.

(** ** A node *)
Inductive phase :=
  | Idle                    (** at the top of the loop of [Run], or cooling down *)
  | HasSession (i : session)  (** createSession answered *)
  | Watching (i : session)    (** watchKey: the lock is another's *)
  | Leading (i : session)     (** in monitorLeadership *)
  | Demoted (i : session)     (** monitorLeadership returned, onStop called *)
  | Released (i : session)    (** releaseLock returned; the deferred calls are still to run *)
  | Leaving (i : session)     (** cancelLeader has run, destroySession has not *)
  | Stopped.

(** [started]: onStart has returned, with the relay running or with an error;
    [cancelled]: leaderCtx is; [relaying]: the router takes messages. *)
Record node := MkNode { n_phase : phase; n_started : bool; n_cancelled : bool; n_relaying : bool }.

Definition at_phase (p : phase) : node := MkNode p false false false.
Definition to_phase (p : phase) (x : node) : node := MkNode p (n_started x) (n_cancelled x) (n_relaying x).
(** The relay starts, unless its context is cancelled by now. *)
Definition relay_started (x : node) : node := MkNode (n_phase x) true (n_cancelled x) (negb (n_cancelled x)).
(** onStart failed: startFailed is set and leaderCtx cancelled. *)
Definition start_failed (x : node) : node := MkNode (n_phase x) true true false.
Definition cancel_leader (x : node) : node := MkNode (n_phase x) (n_started x) true false.

Definition phase_session (p : phase) : option session :=
  match p with
  | HasSession i | Watching i | Leading i | Demoted i | Released i | Leaving i => Some i
  | Idle | Stopped => None
  end.

(** leaderCtx exists and its worker goroutines may run. *)
Definition in_term (p : phase) : bool :=
  match p with Leading _ | Demoted _ | Released _ => true | _ => false end.

Section election.
Context {L : LockService}.

Record cluster := MkCluster { c_server : server; c_node : nat -> node }.

Definition move (n : nat) (x : node) (s : server) (c : cluster) : cluster := MkCluster s (<[n := x]> (c_node c)).

(** What a step is: a node reading the key as the leader, the server changing
    by itself, or any other call. *)
Inductive label := LRead (n : nat) | LServer | LOther.

Section steps.
Variables (c : cluster) (n : nat).
Local Abbreviation x := (c_node c n).
Local Abbreviation s := (c_server c).

Inductive node_step : label -> cluster -> Prop :=
  (* createSession *)
  | st_create i s' : n_phase x = Idle -> create s i s' -> node_step LOther (move n (at_phase (HasSession i)) s' c)
  | st_create_failed i s' : n_phase x = Idle -> create s i s' -> node_step LOther (move n (at_phase Idle) s' c)
  | st_create_lost : n_phase x = Idle -> node_step LOther (move n (at_phase Idle) s c)
  | st_stop : n_phase x = Idle -> node_step LOther (move n (at_phase Stopped) s c)
  (* acquireLock *)
  | st_acquired i s' : n_phase x = HasSession i -> acquire s i true s' -> node_step LOther (move n (at_phase (Leading i)) s' c)
  | st_held i s' : n_phase x = HasSession i -> acquire s i false s' -> node_step LOther (move n (at_phase (Watching i)) s' c)
  | st_acquire_failed i b s' : n_phase x = HasSession i -> acquire s i b s' -> node_step LOther (move n (at_phase (Leaving i)) s' c)
  | st_acquire_lost i : n_phase x = HasSession i -> node_step LOther (move n (at_phase (Leaving i)) s c)
  | st_watched i : n_phase x = Watching i -> node_step LOther (move n (at_phase (Leaving i)) s c)
  (* the goroutines of a term *)
  | st_start : in_term (n_phase x) = true -> n_started x = false -> node_step LOther (move n (relay_started x) s c)
  | st_start_failed : in_term (n_phase x) = true -> n_started x = false -> node_step LOther (move n (start_failed x) s c)
  | st_cancel : in_term (n_phase x) = true -> node_step LOther (move n (cancel_leader x) s c)
  (* monitorLeadership: the key still names the session, or the loop ends *)
  | st_still i : n_phase x = Leading i -> holder s = Some i -> node_step (LRead n) c
  | st_lost i : n_phase x = Leading i -> holder s <> Some i -> node_step (LRead n) (move n (to_phase (Demoted i) x) s c)
  | st_read_failed i : n_phase x = Leading i -> node_step LOther (move n (to_phase (Demoted i) x) s c)
  (* releaseLock, then the deferred cancelLeader and destroySession *)
  | st_release i s' : n_phase x = Demoted i -> release s i s' -> node_step LOther (move n (to_phase (Released i) x) s' c)
  | st_release_failed i : n_phase x = Demoted i -> node_step LOther (move n (to_phase (Released i) x) s c)
  | st_return i : n_phase x = Released i -> node_step LOther (move n (to_phase (Leaving i) (cancel_leader x)) s c)
  | st_destroy i s' : n_phase x = Leaving i -> destroy s i s' -> node_step LOther (move n (at_phase Idle) s' c)
  | st_destroy_failed i : n_phase x = Leaving i -> node_step LOther (move n (at_phase Idle) s c).
End steps.

Inductive step (c : cluster) : label -> cluster -> Prop :=
  | step_node n l c' : node_step c n l c' -> step c l c'
  | step_server s' : own (c_server c) s' -> step c LServer (MkCluster s' (c_node c)).

Definition moves (c c' : cluster) : Prop := exists l, step c l c'.

(** No session is lost on its own: every step but a change of the server. *)
Definition calm (c c' : cluster) : Prop := exists l, step c l c' /\ l <> LServer.

Definition initial (c : cluster) : Prop := holder (c_server c) = None /\ forall n, c_node c n = at_phase Idle.

Local Abbreviation phase_of c n := (n_phase (c_node c n)).

(** ** One step, seen from outside *)
Lemma step_frame c n l c' m : node_step c n l c' -> m <> n -> c_node c' m = c_node c m.
Proof. destruct 1; intros Hm; cbn; by rewrite ?fn_lookup_insert_ne. Qed.

(** A node keeps its session, drops it, or gets one nobody has known. *)
Lemma step_session c n l c' i :
  node_step c n l c' -> phase_session (phase_of c' n) = Some i ->
  phase_session (phase_of c n) = Some i \/ (~ known (c_server c) i /\ known (c_server c') i).
Proof.
  intros H; destruct H as [j s' Hx Hl| | | | | | | | | | | | | | | | | | |]; cbn; rewrite ?fn_lookup_insert; cbn; intros Hi;
    simplify_eq; auto;
    match goal with H : n_phase _ = _ |- _ => rewrite H; auto end.
  right; by apply create_law in Hl as (? & ? & _).
Qed.

Lemma step_known c n l c' i : node_step c n l c' -> known (c_server c) i -> known (c_server c') i.
Proof.
  intros H; destruct H; cbn; auto;
    match goal with
    | H : create _ _ _ |- _ => apply create_law in H as (? & ? & Hk & ?); auto
    | H : acquire _ _ _ _ |- _ => apply acquire_law in H as [Hk _]; by rewrite Hk
    | H : release _ _ _ |- _ => apply release_law in H as [Hk _]; by rewrite Hk
    | H : destroy _ _ _ |- _ => apply destroy_law in H as [Hk _]; by rewrite Hk
    end.
Qed.

(** A node takes or gives up the lock for its own session only. *)
Lemma step_holder c n l c' :
  node_step c n l c' -> holder (c_server c') <> holder (c_server c) ->
  exists i, phase_session (phase_of c n) = Some i /\
    ((phase_of c n = HasSession i /\ holder (c_server c) = None /\ holder (c_server c') = Some i) \/
     (holder (c_server c) = Some i /\ holder (c_server c') = None)).
Proof.
  intros H Hne. destruct H; cbn in Hne; try done;
    match goal with
    | H : create _ _ _ |- _ => by apply create_law in H as (? & ? & ? & ?)
    | H : acquire _ _ ?b _ |- _ => apply acquire_law in H as [_ Hl]; try destruct b; try done; destruct Hl as [[] ?]
    | H : release _ _ _ |- _ => apply release_law in H as [_ Hl]; case_decide
    | H : destroy _ _ _ |- _ => apply destroy_law in H as [_ Hl]; case_decide
    end; try congruence; exists i;
    match goal with H : n_phase _ = _ |- _ => rewrite H; cbn; eauto end.
Qed.

(** ** The invariant of every reachable cluster *)
Record sound (c : cluster) : Prop := {
  sound_known n i : phase_session (phase_of c n) = Some i -> known (c_server c) i;
  sound_distinct m n i : phase_session (phase_of c m) = Some i -> phase_session (phase_of c n) = Some i -> m = n;
  sound_relay n : n_relaying (c_node c n) = true ->
    n_started (c_node c n) = true /\ n_cancelled (c_node c n) = false /\ in_term (phase_of c n) = true }.

Lemma initial_sound c : initial c -> sound c.
Proof. intros [_ H]. split; intros *; rewrite !H; done. Qed.

Lemma relay_step c n l c' :
  node_step c n l c' ->
  (n_relaying (c_node c n) = true ->
    n_started (c_node c n) = true /\ n_cancelled (c_node c n) = false /\ in_term (phase_of c n) = true) ->
  n_relaying (c_node c' n) = true ->
  n_started (c_node c' n) = true /\ n_cancelled (c_node c' n) = false /\ in_term (phase_of c' n) = true.
Proof.
  intros H Hr; destruct H; cbn; rewrite ?fn_lookup_insert; cbn; try done;
    first [ by rewrite negb_true_iff | intros (? & ? & ?)%Hr; done ].
Qed.

Lemma node_step_sound c n l c' : node_step c n l c' -> sound c -> sound c'.
Proof.
  intros H G.
  assert (Hs : forall m i, phase_session (phase_of c' m) = Some i ->
    phase_session (phase_of c m) = Some i \/ m = n /\ ~ known (c_server c) i).
  { intros m i Hm. destruct (decide (m = n)) as [->|Hne].
    - destruct (step_session _ _ _ _ _ H Hm) as [?|[? _]]; auto.
    - rewrite (step_frame _ _ _ _ _ H Hne) in Hm. auto. }
  split.
  - intros m i Hm. destruct (decide (m = n)) as [->|Hne].
    + destruct (step_session _ _ _ _ _ H Hm) as [Ho|[_ ?]]; [|done].
      apply (step_known _ _ _ _ _ H), (sound_known _ G _ _ Ho).
    + rewrite (step_frame _ _ _ _ _ H Hne) in Hm. apply (step_known _ _ _ _ _ H), (sound_known _ G _ _ Hm).
  - intros m1 m2 i [H1|[-> H1]]%Hs [H2|[-> H2]]%Hs; [by eapply sound_distinct| | |done];
      exfalso; eauto using sound_known.
  - intros m. destruct (decide (m = n)) as [->|Hne].
    + eauto using relay_step, sound_relay.
    + rewrite (step_frame _ _ _ _ _ H Hne). by apply sound_relay.
Qed.

Lemma step_sound c l c' : step c l c' -> sound c -> sound c'.
Proof.
  intros [n l' c'' H|s' H] G; [by eapply node_step_sound|]. destruct G.
  by split; cbn; [intros n i Hi; apply own_law in H as [-> _]; eauto| |].
Qed.

Lemma moves_sound c c' : rtc moves c c' -> sound c -> sound c'.
Proof. induction 1 as [|c1 c2 c3 [l H] _ IH]; eauto using step_sound. Qed.

(** ** While no session is lost, who leads holds the lock *)
Definition leads (p : phase) : option session := match p with Leading i | Demoted i => Some i | _ => None end.

Definition held (c : cluster) : Prop := forall n i, leads (phase_of c n) = Some i -> holder (c_server c) = Some i.

Lemma leads_session p i : leads p = Some i -> phase_session p = Some i.
Proof. by destruct p. Qed.

Lemma step_leads c n l c' i :
  node_step c n l c' -> leads (phase_of c' n) = Some i ->
  holder (c_server c') = Some i \/ leads (phase_of c n) = Some i /\ holder (c_server c') = holder (c_server c).
Proof.
  intros H; destruct H; cbn; rewrite ?fn_lookup_insert; cbn; intros Hi; simplify_eq; auto;
    try match goal with H : n_phase _ = _ |- _ => rewrite H; auto end.
  match goal with H : acquire _ _ true _ |- _ => apply acquire_law in H as [_ [_ H]] end. auto.
Qed.

Lemma node_step_held c n l c' : sound c -> held c -> node_step c n l c' -> held c'.
Proof.
  intros G Hh H m i Hm. destruct (decide (m = n)) as [->|Hne].
  - destruct (step_leads _ _ _ _ _ H Hm) as [?|[Hl ->]]; [done|]. by eapply Hh.
  - rewrite (step_frame _ _ _ _ _ H Hne) in Hm. pose proof (Hh _ _ Hm) as Hi.
    destruct (decide (holder (c_server c') = holder (c_server c))) as [->|Hd]; [done|].
    destruct (step_holder _ _ _ _ H Hd) as (j & Hj & [(_ & Hn & _)|[Hj' _]]); [congruence|].
    destruct Hne. eapply (sound_distinct _ G); [by apply leads_session|congruence].
Qed.

Lemma calm_held c c' : rtc calm c c' -> sound c -> held c -> sound c' /\ held c'.
Proof.
  induction 1 as [|c1 c2 c3 (l & H & Hl) _ IH]; [done|]. intros G Hh.
  apply IH; [by eapply step_sound|]. destruct H; [by eapply node_step_held|done].
Qed.

Lemma initial_held c : initial c -> held c.
Proof. intros [_ H] n i. rewrite H. done. Qed.

(** ** A session that lost the lock *)
Definition lost (i : session) (c : cluster) : Prop :=
  known (c_server c) i /\ (forall m, phase_of c m <> HasSession i) /\ holder (c_server c) <> Some i.

Lemma node_step_fresh c n l c' i m :
  node_step c n l c' -> phase_of c' m = HasSession i -> phase_of c m = HasSession i \/ ~ known (c_server c) i.
Proof.
  destruct (decide (m = n)) as [->|Hne]; intros H Hm; [|rewrite (step_frame _ _ _ _ _ H Hne) in Hm; auto].
  destruct H; cbn in Hm; rewrite ?fn_lookup_insert in Hm; cbn in Hm; simplify_eq; auto.
  right. by match goal with H : create _ _ _ |- _ => apply create_law in H as (? & _) end.
Qed.

Lemma step_lost i c l c' : step c l c' -> lost i c -> lost i c'.
Proof.
  intros H (K & P & Q). unfold lost. destruct H as [n l' c'' H|s' [Hk Hh]%own_law].
  - split_and!; [by eapply step_known| |].
    + intros m [?|?]%(node_step_fresh _ _ _ _ _ _ H); [by eapply P|done].
    + intros Hi. assert (Hd : holder (c_server c'') <> holder (c_server c)) by congruence.
      destruct (step_holder _ _ _ _ H Hd) as (j & _ & [(Hs & _ & ?)|[_ ?]]); simplify_eq; by eapply P.
  - split_and!; [by apply Hk|done|]. cbn. destruct Hh as [->| ->]; done.
Qed.

Lemma moves_lost i c c' : rtc moves c c' -> lost i c -> lost i c'.
Proof. induction 1 as [|c1 c2 c3 [l H] _ IH]; eauto using step_lost. Qed.

(** ** The properties *)

(** (C23) No two leaders while sessions last: in every run in which Consul drops
    no session by itself, whatever the interleaving of the calls and whichever
    of them fail, two nodes relay the outbox at once only while one of them is
    between releaseLock and the end of attemptLeadership; nodes that are being
    watched over by monitorLeadership, or are about to release, never overlap. *)
Theorem relays_overlap_only_in_release (c0 c : cluster) (m n : nat) :
  initial c0 -> rtc calm c0 c -> m <> n ->
  n_relaying (c_node c m) = true -> n_relaying (c_node c n) = true ->
  exists i, phase_of c m = Released i \/ phase_of c n = Released i.
Proof.
  intros Hi Hr Hne Hm Hn.
  destruct (calm_held _ _ Hr (initial_sound _ Hi) (initial_held _ Hi)) as [G Hh].
  apply (sound_relay _ G) in Hm as (_ & _ & Pm), Hn as (_ & _ & Pn).
  destruct (leads (phase_of c m)) as [i|] eqn:Lm, (leads (phase_of c n)) as [j|] eqn:Ln.
  1: { destruct Hne. pose proof (Hh _ _ Lm). pose proof (Hh _ _ Ln). simplify_eq.
       eapply (sound_distinct _ G); by apply leads_session. }
  all: destruct (phase_of c m), (phase_of c n); try done; eauto.
Qed.

(** A leader whose lock is gone steps down, sessions lost or not: the lock
    never comes back to its session, whatever every node does, so the next read
    of the key by monitorLeadership ends the term; and while a node relays, its
    leaderCtx is live and its term has not ended. *)
Theorem lost_leader_steps_down (c0 c c1 : cluster) (n : nat) (i : session) :
  initial c0 -> rtc moves c0 c -> phase_of c n = Leading i -> holder (c_server c) <> Some i ->
  rtc moves c c1 ->
  holder (c_server c1) <> Some i /\
  (n_relaying (c_node c1 n) = true -> n_cancelled (c_node c1 n) = false /\ in_term (phase_of c1 n) = true) /\
  forall c2, phase_of c1 n = Leading i -> step c1 (LRead n) c2 -> phase_of c2 n = Demoted i.
Proof.
  intros Hi Hr Hp Hh Hr1.
  assert (G : sound c) by (eapply moves_sound; [done|by apply initial_sound]).
  assert (Hl : lost i c1).
  { eapply moves_lost; [done|]. split_and!; [|intros m Hm|done].
    - eapply (sound_known _ G n). by rewrite Hp.
    - assert (m = n) by (eapply (sound_distinct _ G _ _ i); by rewrite ?Hm, ?Hp). congruence. }
  split_and!; [apply Hl| |].
  - intros (_ & ? & ?)%(sound_relay _ (moves_sound _ _ Hr1 G)). done.
  - intros c2 Hp1 Hs. inversion Hs as [n' l c'' H|]; subst. destruct Hl as (_ & _ & Hl).
    inversion H; subst; cbn; rewrite ?fn_lookup_insert; cbn; congruence.
Qed.
End election.

(** ** A lock service, and what the properties say at two nodes

    The key's session and the number of sessions handed out so far. *)
#[refine] Definition one_key : LockService := {|
  server := (option N * N)%type;
  holder := fst;
  known s j := (j < s.2)%N;
  create s i s' := i = s.2 /\ s' = (s.1, (s.2 + 1)%N);
  acquire s i b s' := if b then (s.1 = None \/ s.1 = Some i) /\ s' = (Some i, s.2) else s' = s;
  release s i s' := s' = (if decide (s.1 = Some i) then None else s.1, s.2);
  destroy s i s' := s' = (if decide (s.1 = Some i) then None else s.1, s.2);
  own s s' := s' = (None, s.2) |}.
Proof.
  - intros s i s' [-> ->]. split_and!; cbn; [lia|lia|intros; lia|done].
  - intros s i [] s'; [intros [? ->]|intros ->]; done.
  - by intros s i s' ->.
  - by intros s i s' ->.
  - intros s s' ->; cbn; auto.
Defined.

#[local] Existing Instance one_key.

Definition start_of : cluster := MkCluster (None, 0%N : N) (fun _ => at_phase Idle).

(** One call of node [n] in a run. *)
Ltac call n rule :=
  eapply rtc_l;
  [ exists LOther; split; [eapply (step_node _ n); eapply rule; (reflexivity || by cbn; auto) | done] |].

(** Node 0 leads, relays, is demoted because a read failed and has released the
    lock; node 1 took it and relays too. *)
Lemma overlap_reached : exists c, rtc calm start_of c /\
  c_server c = (Some 1%N, 2%N) /\
  c_node c 0 = MkNode (Released 0%N) true false true /\ c_node c 1 = MkNode (Leading 1%N) true false true.
Proof.
  eexists. split.
  { call 0 st_create. call 0 st_acquired. call 0 st_start. call 0 st_read_failed. call 0 st_release.
    call 1 st_create. call 1 st_acquired. call 1 st_start. apply rtc_refl. }
  done.
Qed.

Lemma relays_overlap_only_in_release_witness :
  exists c, initial start_of /\ rtc calm start_of c /\
    n_relaying (c_node c 0) = true /\ n_relaying (c_node c 1) = true /\
    exists i, n_phase (c_node c 0) = Released i \/ n_phase (c_node c 1) = Released i.
Proof.
  destruct overlap_reached as (c & Hr & _ & H0 & H1). exists c.
  assert (n_relaying (c_node c 0) = true) as R0 by by rewrite H0.
  assert (n_relaying (c_node c 1) = true) as R1 by by rewrite H1.
  split_and!; [done|done|done|done|]. by apply (relays_overlap_only_in_release start_of c 0 1).
Defined.

(** Node 0 leads and relays; its session has expired. *)
Lemma expired_reached : exists c, rtc moves start_of c /\
  c_server c = (None, 1%N) /\ c_node c 0 = MkNode (Leading 0%N) true false true.
Proof.
  eexists. split.
  { eapply rtc_l; [exists LOther; eapply (step_node _ 0); by eapply st_create|].
    eapply rtc_l; [exists LOther; eapply (step_node _ 0); eapply st_acquired; [reflexivity|by cbn; auto]|].
    eapply rtc_l; [exists LOther; eapply (step_node _ 0); by eapply st_start|].
    eapply rtc_l; [exists LServer; by eapply step_server|]. apply rtc_refl. }
  done.
Qed.

Lemma lost_leader_steps_down_witness :
  exists c c2, rtc moves start_of c /\ n_phase (c_node c 0) = Leading 0%N /\
    n_relaying (c_node c 0) = true /\ step c (LRead 0) c2 /\ n_phase (c_node c2 0) = Demoted 0%N.
Proof.
  destruct expired_reached as (c & Hr & Hs & H0).
  assert (n_phase (c_node c 0) = Leading 0%N) as Hp by by rewrite H0.
  assert (holder (c_server c) <> Some 0%N) as Hh by by rewrite Hs.
  assert (step c (LRead 0) (move 0 (to_phase (Demoted 0%N) (c_node c 0)) (c_server c) c)) as Ht
    by by eapply (step_node _ 0), st_lost.
  exists c, (move 0 (to_phase (Demoted 0%N) (c_node c 0)) (c_server c) c).
  split_and!; [done|done|by rewrite H0|done|].
  by apply (lost_leader_steps_down start_of c c 0 0%N (conj eq_refl (fun _ => eq_refl)) Hr Hp Hh (rtc_refl _ _)).
Defined.
