(* ===== verification/Relay.v ===== *)
(** * Relay: the outbox on its way to the broker

    internal/adapter/pubsub/forwarder.go and subscriber.go with
    Cleanup of internal/store/postgres/outbox.go: one event handed to RabbitMQ
    through the middlewares, the subscriber's progress, and the deletion of what
    was relayed.  watermill and RabbitMQ are parameters with their documented
    behaviour as laws; [Leader] says when a node relays. *)
From S2P Require Import Prelude.
#[local] Open Scope Z_scope.

Definition ConsumerGroupName : string := "im-thread-outbox-forwarder".
Definition OutboxTopic : string := "im.messages".
Definition DefaultFallbackTopic : string := "chat.events.v1".
Definition MetadataRoutingKey : string := "x-routing-key".
Definition PoisonQueueTopic : string := "webitel.im.outbox.dead_letter".

(** ** The tables *)
Record Msg := MkMsg { om_uuid : string; om_payload : string; om_metadata : gmap string string }.

#[export] Instance Msg_eq_dec : EqDecision Msg.
Proof. solve_decision. Defined.

Record RelayRow := MkRelayRow {
  rr_transaction_id : Z;
  rr_offset : Z;
  rr_created_at : Time;
  rr_msg : Msg }.

Definition rr_key (r : RelayRow) : Z * Z := (rr_transaction_id r, rr_offset r).

Record OffsetRow := MkOffsetRow {
  of_consumer_group : string;
  of_topic : string;
  of_offset_acked : Z;
  of_last_tx : Z }.

#[export] Instance RelayRow_eq_dec : EqDecision RelayRow.
Proof. solve_decision. Defined.

(** [ORDER BY transaction_id, "offset"] *)
Definition key_lt (k k' : Z * Z) : Prop := k.1 < k'.1 \/ (k.1 = k'.1 /\ k.2 < k'.2).
Definition outbox_le (r r' : RelayRow) : Prop := rr_key r = rr_key r' \/ key_lt (rr_key r) (rr_key r').
#[export] Instance key_lt_dec k k' : Decision (key_lt k k').
Proof. unfold key_lt. apply _. Defined.
#[export] Instance outbox_le_dec r r' : Decision (outbox_le r r').
Proof. unfold outbox_le. apply _. Defined.

(** ** Cleanup *)
Record OutboxCleanupOptions := MkOutboxCleanupOptions {
  co_RetentionDays : Z;
  co_BatchSize : Z;
  co_ConsumerGroups : list string;
  co_Topic : string }.

Definition outboxCleanupOptions : OutboxCleanupOptions :=
  MkOutboxCleanupOptions 3 5000 [ConsumerGroupName] OutboxTopic.

Definition day : Z := 86400 * 1000000000.

(** What each statement of a call meets: the server's clock, a failure, and
    whether the context is over after it. *)
Class CleanupEnv := {
  cenv_now : nat -> Time;
  cenv_fails : nat -> bool;
  cenv_done : nat -> bool }.

Definition offs (opt : OutboxCleanupOptions) (os : list OffsetRow) : list Z :=
  of_last_tx <$> List.filter (fun o => bool_decide (of_consumer_group o ∈ co_ConsumerGroups opt) &&
                                bool_decide (of_topic o = co_Topic opt)) os.

Fixpoint least (z : Z) (l : list Z) : Z :=
  match l with [] => z | x :: l' => least (Z.min z x) l' end.

(** No row, hence NULL, unless every group is registered. *)
Definition frontier (opt : OutboxCleanupOptions) (os : list OffsetRow) : option Z :=
  match offs opt os with
  | x :: l => if (length (x :: l) =? length (co_ConsumerGroups opt))%nat then Some (least x l) else None
  | [] => None
  end.

(** A comparison with NULL selects nothing. *)
Definition cleanable (opt : OutboxCleanupOptions) (os : list OffsetRow) (now : Time) (r : RelayRow) : bool :=
  match frontier opt os with
  | None => false
  | Some txid => (rr_transaction_id r <? txid) && (rr_created_at r <? now - co_RetentionDays opt * day)
  end.

Definition to_delete (limit : nat) (P : RelayRow -> bool) (rows : list RelayRow) : list RelayRow :=
  take limit (merge_sort outbox_le (List.filter P rows)).

(** [DELETE ... USING to_delete], matched on the primary key. *)
Definition delete_using (gone rows : list RelayRow) : list RelayRow :=
  List.filter (fun r => negb (bool_decide (rr_key r ∈ rr_key <$> gone))) rows.

(** The count, the error of a statement or of the context, and the table. *)
Definition cleanup_result : Type := Z * option error * list RelayRow.

Definition context_error : error := errors_New "context canceled".
Definition outbox_cleanup_error : error := errors_New "outbox cleanup: statement failed".
Definition out_of_fuel : error := errors_New "out of fuel".

Section cleanup.
Context {C : CleanupEnv} (opt : OutboxCleanupOptions) (limit : nat) (os : list OffsetRow).

Fixpoint cleanup_from (fuel n : nat) (total : Z) (rows : list RelayRow) : cleanup_result :=
  match fuel with
  | O => (total, Some out_of_fuel, rows)
  | S fuel' =>
      if cenv_fails n then (total, Some outbox_cleanup_error, rows)
      else
        let gone := to_delete limit (cleanable opt os (cenv_now n)) rows in
        let rows' := delete_using gone rows in
        let total' := total + Z.of_nat (length gone) in
        if (length gone <? limit)%nat then (total', None, rows')
        else if cenv_done n then (total', Some context_error, rows')
        else cleanup_from fuel' (S n) total' rows'
  end.
End cleanup.

Definition batch_size (opt : OutboxCleanupOptions) : Z := if co_BatchSize opt <=? 0 then 5000 else co_BatchSize opt.

Definition Cleanup {C : CleanupEnv} (opt : OutboxCleanupOptions) (os : list OffsetRow) (rows : list RelayRow)
    : cleanup_result :=
  cleanup_from opt (Z.to_nat (batch_size opt)) os (S (length rows)) 0 0 rows.

(** ** One event through the middlewares *)

(** RabbitMQ and watermill's middlewares.  [taken] is what the broker holds: an
    answer without an error means that the message is there, an error says
    nothing.  [Retry n]: the handler again after an error, [n] times at most,
    fewer when the context of the message ends first.  [PoisonQueue topic]: a
    message whose handler failed goes to [topic], with the reason among its
    metadata; only a failure of that is an error. *)
Class Watermill := {
  broker : Type;
  taken : broker -> list (string * Msg);
  publish : string -> Msg -> broker -> bool * broker;
  Retry : nat -> (broker -> bool * broker) -> broker -> bool * broker;
  PoisonQueue : string -> Msg -> (broker -> bool * broker) -> broker -> bool * broker;
  publish_law (topic : string) (m : Msg) (b : broker) : taken b ⊆ taken (publish topic m b).2 /\
    taken (publish topic m b).2 ⊆ (topic, m) :: taken b /\
    ((publish topic m b).1 = true -> (topic, m) ∈ taken (publish topic m b).2);
  retry_law (n : nat) (h : broker -> bool * broker) (b : broker) : exists k, (k <= n)%nat /\ Retry n h b = h (Nat.iter k (fun b => (h b).2) b);
  poison_law (topic : string) (m : Msg) (h : broker -> bool * broker) (b : broker) :
    if (h b).1 then PoisonQueue topic m h b = (true, (h b).2)
    else exists md, PoisonQueue topic m h b = publish topic (MkMsg (om_uuid m) (om_payload m) md) (h b).2 }.

Section relay.
Context {W : Watermill}.

Definition topic_of (m : Msg) : string :=
  match om_metadata m !! MetadataRoutingKey with
  | Some t => if bool_decide (t = EmptyString) then DefaultFallbackTopic else t
  | None => DefaultFallbackTopic
  end.

Definition handleOutboxEvent (m : Msg) (b : broker) : bool * broker := publish (topic_of m) m b.

(** The stack of newForwarderRouter: the middleware added last is the innermost. *)
Definition relay_one (m : Msg) : broker -> bool * broker := PoisonQueue PoisonQueueTopic m (Retry 5 (handleOutboxEvent m)).

(** ** The relay at work

    [r_log] is every event that was ever committed, for the properties only. *)
Record relay := MkRelay {
  r_rows : list RelayRow;
  r_offsets : list OffsetRow;
  r_broker : broker;
  r_log : list RelayRow }.

Definition is_progress (o : OffsetRow) : bool := bool_decide (of_consumer_group o = ConsumerGroupName).
Definition progress (s : relay) : option OffsetRow := find_first is_progress (r_offsets s).

(** The subscriber has not come to [r]. *)
Definition not_reached (o : option OffsetRow) (r : RelayRow) : Prop :=
  match o with None => True | Some o => key_lt (of_last_tx o, of_offset_acked o) (rr_key r) end.

(** The row the subscriber reads next. *)
Definition next_row (s : relay) (r : RelayRow) : Prop :=
  progress s <> None /\ r ∈ r_rows s /\ not_reached (progress s) r /\
  forall r', r' ∈ r_rows s -> not_reached (progress s) r' -> outbox_le r r'.

Definition acked (r : RelayRow) (os : list OffsetRow) : list OffsetRow :=
  update_where is_progress (fun o => MkOffsetRow (of_consumer_group o) (of_topic o) (rr_offset r) (rr_transaction_id r)) os.

Inductive relay_step (s : relay) : relay -> Prop :=
  (* an event commits; the subscriber reads no transaction that could be
     followed by an older one, so the event is ahead of it *)
  | rs_commit r : 0 < rr_transaction_id r -> not_reached (progress s) r ->
      (forall r', r' ∈ r_log s -> rr_key r' <> rr_key r) ->
      relay_step s (MkRelay (r_rows s ++ [r]) (r_offsets s) (r_broker s) (r_log s ++ [r]))
  (* the subscriber registers its group *)
  | rs_register : progress s = None ->
      relay_step s (MkRelay (r_rows s) (r_offsets s ++ [MkOffsetRow ConsumerGroupName OutboxTopic 0 0]) (r_broker s) (r_log s))
  (* one message, acknowledged *)
  | rs_relay r b : next_row s r -> relay_one (rr_msg r) (r_broker s) = (true, b) ->
      relay_step s (MkRelay (r_rows s) (acked r (r_offsets s)) b (r_log s))
  (* refused by the broker, or the node is gone before the progress is saved *)
  | rs_again r ok b : next_row s r -> relay_one (rr_msg r) (r_broker s) = (ok, b) ->
      relay_step s (MkRelay (r_rows s) (r_offsets s) b (r_log s))
  (* doCleanup *)
  | rs_cleanup (C : CleanupEnv) :
      relay_step s (MkRelay (Cleanup outboxCleanupOptions (r_offsets s) (r_rows s)).2 (r_offsets s) (r_broker s) (r_log s)).

Definition relay_start (s : relay) : Prop := r_rows s = [] /\ r_offsets s = [] /\ r_log s = [] /\ taken (r_broker s) = [].
End relay.

(** ** What a call of Cleanup removes *)
Definition rows_unique (rows : list RelayRow) : Prop := NoDup (rr_key <$> rows).

Lemma unique_NoDup rows : rows_unique rows -> NoDup rows.
Proof. apply NoDup_fmap_1. Qed.

Lemma filter_partition {A} (P : A -> bool) (l : list A) : l ≡ₚ List.filter P l ++ List.filter (fun x => negb (P x)) l.
Proof.
  induction l as [|x l IH]; [done|]. cbn. destruct (P x); cbn; rewrite IH at 1; [done|].
  by rewrite Permutation_middle.
Qed.

Lemma delete_using_perm gone rows :
  rows_unique rows -> gone ⊆ rows -> NoDup gone -> rows ≡ₚ gone ++ delete_using gone rows.
Proof.
  intros Hu Hs Hn. unfold delete_using.
  rewrite (filter_partition (fun r => bool_decide (rr_key r ∈ rr_key <$> gone)) rows) at 1.
  f_equiv. apply NoDup_Permutation; [by apply NoDup_ListNoDup, List.NoDup_filter, NoDup_ListNoDup, unique_NoDup|done|].
  intros r. rewrite list_elem_of_In, filter_In, <- list_elem_of_In, bool_decide_eq_true. split.
  - intros [Hr (g & Hk & Hg)%list_elem_of_fmap]. replace r with g; [done|].
    symmetry. eapply NoDup_fmap_inj; [exact Hu|done|by apply Hs|done].
  - intros Hr. split; [by apply Hs|by apply list_elem_of_fmap_2].
Qed.

Lemma delete_using_sublist gone rows : delete_using gone rows `sublist_of` rows.
Proof.
  unfold delete_using. induction rows as [|r rows IH]; [done|]. cbn. case_bool_decide; cbn; by constructor.
Qed.

Lemma sublist_unique rows rows' : rows' `sublist_of` rows -> rows_unique rows -> rows_unique rows'.
Proof. intros H Hu. eapply sublist_NoDup; [exact Hu|by apply fmap_sublist]. Qed.

Section deletion.
Context (opt : OutboxCleanupOptions) (os : list OffsetRow) (limit : nat) (Hlimit : (0 < limit)%nat).

Lemma to_delete_sub (P : RelayRow -> bool) rows r : r ∈ to_delete limit P rows -> r ∈ rows /\ P r = true.
Proof.
  unfold to_delete. intros Hr%(sublist_subseteq _ _ (sublist_take _ _)).
  rewrite (merge_sort_Permutation outbox_le), list_elem_of_In, filter_In, <- list_elem_of_In in Hr. done.
Qed.

Lemma to_delete_NoDup P rows : NoDup rows -> NoDup (to_delete limit P rows).
Proof.
  intros H. unfold to_delete. eapply sublist_NoDup; [|apply sublist_take].
  rewrite (merge_sort_Permutation outbox_le). by apply NoDup_ListNoDup, List.NoDup_filter, NoDup_ListNoDup.
Qed.

(** A batch that is not full was the last. *)
Lemma to_delete_all P rows r : (length (to_delete limit P rows) < limit)%nat -> r ∈ rows -> P r = true -> r ∈ to_delete limit P rows.
Proof.
  unfold to_delete. rewrite length_take. intros H Hr HP. rewrite take_ge by lia.
  rewrite (merge_sort_Permutation outbox_le), list_elem_of_In, filter_In, <- list_elem_of_In. done.
Qed.

Lemma cleanable_mono now now' r : now <= now' -> cleanable opt os now r = true -> cleanable opt os now' r = true.
Proof. unfold cleanable. destruct (frontier opt os); [|done]. rewrite !andb_true_iff, !Z.ltb_lt. lia. Qed.

Context {C : CleanupEnv}.

Lemma cleanup_from_spec fuel n total rows :
  rows_unique rows -> (length rows < fuel)%nat ->
  let '(total', err, rows') := cleanup_from opt limit os fuel n total rows in
  rows' `sublist_of` rows /\ total' = total + Z.of_nat (length rows) - Z.of_nat (length rows') /\
  (forall r, r ∈ rows -> r ∈ rows' \/ exists i, cleanable opt os (cenv_now i) r = true) /\
  err <> Some out_of_fuel /\
  ((forall n, cenv_now n <= cenv_now (S n)) -> err = None ->
    forall r, r ∈ rows' -> cleanable opt os (cenv_now n) r = false).
Proof.
  revert n total rows. induction fuel as [|fuel IH]; intros n total rows Hu Hf; [lia|].
  cbn [cleanup_from]. destruct (cenv_fails n).
  { split_and!; [done|lia|auto|done|done]. }
  set (P := cleanable opt os (cenv_now n)). set (gone := to_delete limit P rows).
  assert (Hp : rows ≡ₚ gone ++ delete_using gone rows).
  { apply delete_using_perm; [done| |by apply to_delete_NoDup, unique_NoDup]. by intros r [? _]%to_delete_sub. }
  assert (Hl : length rows = (length gone + length (delete_using gone rows))%nat) by (by rewrite Hp at 1; rewrite length_app).
  assert (Hg : forall r, r ∈ rows -> r ∈ delete_using gone rows \/ exists i, cleanable opt os (cenv_now i) r = true).
  { intros r. rewrite Hp at 1. intros [Hr|?]%elem_of_app; [|auto]. right. exists n. apply (to_delete_sub _ _ _ Hr). }
  pose proof (delete_using_sublist gone rows) as Hs.
  destruct (Nat.ltb_spec (length gone) limit) as [Hlt|Hge].
  - split_and!; [done|lia|done|done|]. intros _ _ r Hr. apply not_true_iff_false. intros HP.
    unfold delete_using in Hr. rewrite list_elem_of_In, filter_In, <- list_elem_of_In, negb_true_iff, bool_decide_eq_false in Hr.
    destruct Hr as [Hr Hk]. apply Hk, list_elem_of_fmap_2. by apply to_delete_all.
  - destruct (cenv_done n); [split_and!; [done|lia|done|done|done]|].
    specialize (IH (S n) (total + Z.of_nat (length gone)) (delete_using gone rows)).
    destruct (cleanup_from _ _ _ _ _ _ _) as [[total' err] rows'].
    destruct IH as (I1 & I2 & I3 & I4 & I5); [by eapply sublist_unique|lia|].
    split_and!; [by etrans|lia| |done|].
    + intros r [Hr|?]%Hg; auto.
    + intros Hm He r Hr. specialize (I5 Hm He r Hr). apply not_true_iff_false. intros HP.
      apply (cleanable_mono _ (cenv_now (S n))) in HP; [congruence|done].
Qed.
End deletion.

Lemma batch_size_pos opt : 0 < batch_size opt.
Proof. unfold batch_size. destruct (Z.leb_spec (co_BatchSize opt) 0); lia. Qed.

Lemma least_le z l x : x = z \/ x ∈ l -> least z l <= x.
Proof.
  assert (Hz : forall l z, least z l <= z).
  { clear. induction l as [|y l IH]; intros z; cbn; [lia|]. specialize (IH (Z.min z y)). lia. }
  intros [->|Hx]; [done|]. revert z. induction Hx as [y l|y z l Hx IH]; intros w; cbn; [|done].
  specialize (Hz l (Z.min w y)). lia.
Qed.

(** One row per group, the primary key of the offsets. *)
Definition groups_unique (os : list OffsetRow) : Prop := NoDup (of_consumer_group <$> os).

(** The frontier is behind every group, each of which is registered. *)
Lemma frontier_spec opt os f g :
  groups_unique os -> frontier opt os = Some f -> g ∈ co_ConsumerGroups opt ->
  exists o, o ∈ os /\ of_consumer_group o = g /\ of_topic o = co_Topic opt /\ f <= of_last_tx o.
Proof.
  unfold frontier, offs. intros Hu Hf Hg.
  set (l := List.filter _ os) in Hf.
  assert (Hl : forall o, o ∈ l -> o ∈ os /\ of_consumer_group o ∈ co_ConsumerGroups opt /\ of_topic o = co_Topic opt).
  { intros o. unfold l. rewrite list_elem_of_In, filter_In, <- list_elem_of_In, andb_true_iff, !bool_decide_eq_true. done. }
  assert (Hn : NoDup (of_consumer_group <$> l)) by by apply NoDup_fmap_filter.
  destruct (of_last_tx <$> l) as [|x xs] eqn:Ex; [done|].
  destruct (Nat.eqb_spec (length (x :: xs)) (length (co_ConsumerGroups opt))) as [Hc|]; [|done].
  simplify_eq. rewrite <- Ex, length_fmap in Hc.
  assert (Hin : g ∈ of_consumer_group <$> l).
  { assert (Hsub : (of_consumer_group <$> l) ⊆+ co_ConsumerGroups opt).
    { apply NoDup_submseteq; [done|]. intros y (o & -> & Ho)%list_elem_of_fmap. apply (Hl _ Ho). }
    apply submseteq_length_Permutation in Hsub; [by rewrite Hsub|]. rewrite length_fmap. lia. }
  apply list_elem_of_fmap in Hin as (o & -> & Ho). exists o.
  destruct (Hl _ Ho) as (? & ? & ?). split_and!; try done.
  apply least_le. apply elem_of_cons. rewrite <- Ex. by apply list_elem_of_fmap_2.
Qed.

Lemma cleanable_consumed opt os now r g :
  groups_unique os -> cleanable opt os now r = true -> g ∈ co_ConsumerGroups opt ->
  exists o, o ∈ os /\ of_consumer_group o = g /\ of_topic o = co_Topic opt /\ rr_transaction_id r < of_last_tx o.
Proof.
  intros Hu Hd Hg. unfold cleanable in Hd. destruct (frontier opt os) as [f|] eqn:Hf; [|done].
  rewrite andb_true_iff, !Z.ltb_lt in Hd.
  destruct (frontier_spec _ _ _ _ Hu Hf Hg) as (o & ? & ? & ? & ?). exists o. split_and!; try done; lia.
Qed.

Lemma cleanable_old opt os now r : cleanable opt os now r = true -> rr_created_at r < now - co_RetentionDays opt * day.
Proof. unfold cleanable. destruct (frontier opt os); [|done]. rewrite andb_true_iff, !Z.ltb_lt. by intros [_ ?]. Qed.

Lemma Cleanup_run {C : CleanupEnv} opt os rows : rows_unique rows ->
  let '(n, err, rows') := Cleanup opt os rows in
  rows' `sublist_of` rows /\ n = Z.of_nat (length rows) - Z.of_nat (length rows') /\
  (forall r, r ∈ rows -> r ∈ rows' \/ exists i, cleanable opt os (cenv_now i) r = true) /\
  err <> Some out_of_fuel /\
  ((forall i, cenv_now i <= cenv_now (S i)) -> err = None ->
    forall r, r ∈ rows' -> cleanable opt os (cenv_now 0) r = false).
Proof.
  intros Hu. pose proof (batch_size_pos opt) as Hb. unfold Cleanup.
  exact (cleanup_from_spec opt os (Z.to_nat (batch_size opt)) ltac:(lia) (S (length rows)) 0 0 rows Hu ltac:(lia)).
Qed.

(** (C25) Cleanup of the outbox, whatever the batch size asked for and however
    many batches it takes: it ends, removes rows only, reports how many, and
    every row it removes is older than the retention and belongs to a
    transaction that every consumer group, each of them registered for the
    topic, has gone past.  When it reports no error, no row that qualified at
    its start is left. *)
Theorem Cleanup_removes_consumed_only {C : CleanupEnv} (opt : OutboxCleanupOptions) (os : list OffsetRow) (rows : list RelayRow) :
  rows_unique rows -> groups_unique os ->
  let '(n, err, rows') := Cleanup opt os rows in
  rows' `sublist_of` rows /\ n = Z.of_nat (length rows) - Z.of_nat (length rows') /\ err <> Some out_of_fuel /\
  (forall r, r ∈ rows -> r ∉ rows' ->
    (exists i, rr_created_at r < cenv_now i - co_RetentionDays opt * day) /\
    forall g, g ∈ co_ConsumerGroups opt ->
      exists o, o ∈ os /\ of_consumer_group o = g /\ of_topic o = co_Topic opt /\ rr_transaction_id r < of_last_tx o) /\
  ((forall i, cenv_now i <= cenv_now (S i)) -> err = None ->
    forall r, r ∈ rows' -> cleanable opt os (cenv_now 0) r = false).
Proof.
  intros Hu Hgu. pose proof (Cleanup_run opt os rows Hu) as H. destruct (Cleanup opt os rows) as [[n err] rows'].
  destruct H as (H1 & H2 & H3 & H4 & H5). split_and!; [done|done|done| |done].
  intros r Hr Hn. destruct (H3 r Hr) as [?|[i Hd]]; [done|].
  split; [exists i; by apply (cleanable_old opt os)|]. intros g. by apply (cleanable_consumed _ _ (cenv_now i)).
Qed.

(** ** What the broker has taken *)
Section delivery.
Context {W : Watermill}.

Definition delivered (b : broker) (m : Msg) : Prop :=
  (topic_of m, m) ∈ taken b \/
  exists md, (PoisonQueueTopic, MkMsg (om_uuid m) (om_payload m) md) ∈ taken b.

(** [e] is [m] on its topic, or in the dead letter queue. *)
Definition copy_of_msg (e : string * Msg) (m : Msg) : Prop :=
  om_uuid e.2 = om_uuid m /\ om_payload e.2 = om_payload m /\ (e.1 = topic_of m \/ e.1 = PoisonQueueTopic).

(** From [b] to [b'] by handling [m]. *)
Definition handling (m : Msg) (b b' : broker) : Prop :=
  taken b ⊆ taken b' /\ forall e, e ∈ taken b' -> e ∈ taken b \/ copy_of_msg e m.

#[export] Instance handling_preorder m : PreOrder (handling m).
Proof.
  split; [by intros b; split; auto|]. intros b1 b2 b3 [S1 H1] [S2 H2]. split; [by etrans|].
  intros e [He|?]%H2; auto.
Qed.

Lemma publish_handling topic m m' b :
  copy_of_msg (topic, m') m -> handling m b (publish topic m' b).2.
Proof.
  intros Hc. destruct (publish_law topic m' b) as (H1 & H2 & _). split; [done|].
  intros e He%H2. apply elem_of_cons in He as [->|?]; auto.
Qed.

Lemma handle_handling m b : handling m b (handleOutboxEvent m b).2.
Proof. apply publish_handling. by split_and!; [| |left]. Qed.

Lemma retry_handling n m b : handling m b (Retry n (handleOutboxEvent m) b).2 /\
  ((Retry n (handleOutboxEvent m) b).1 = true -> (topic_of m, m) ∈ taken (Retry n (handleOutboxEvent m) b).2).
Proof.
  destruct (retry_law n (handleOutboxEvent m) b) as (k & _ & ->). split.
  - etrans; [|apply handle_handling]. induction k as [|k IH]; [done|]. cbn. etrans; [exact IH|apply handle_handling].
  - apply publish_law.
Qed.

(** An acknowledged message is in the broker. *)
Lemma relay_one_handling m b : handling m b (relay_one m b).2 /\ ((relay_one m b).1 = true -> delivered (relay_one m b).2 m).
Proof.
  unfold relay_one. pose proof (poison_law PoisonQueueTopic m (Retry 5 (handleOutboxEvent m)) b) as Hp.
  destruct (retry_handling 5 m b) as [Hh Ht]. destruct (Retry _ _ _).1.
  - rewrite Hp. split; [done|]. intros _. left. by apply Ht.
  - destruct Hp as [md ->]. split.
    + etrans; [exact Hh|]. apply publish_handling. by split_and!; [| |right].
    + intros Ho. right. exists md. by apply publish_law.
Qed.

Lemma delivered_mono m m' b b' : handling m' b b' -> delivered b m -> delivered b' m.
Proof. intros [H _] [?|[md ?]]; [left|right; exists md]; by apply H. Qed.
End delivery.

(** ** The invariant of the relay *)
Section invariant.
Context {W : Watermill}.

Definition registered (os : list OffsetRow) : Prop :=
  os = [] \/ exists o, os = [o] /\ of_consumer_group o = ConsumerGroupName /\ of_topic o = OutboxTopic.

Record relay_ok (s : relay) : Prop := {
  ok_unique : rows_unique (r_rows s);
  ok_logged r : r ∈ r_rows s -> r ∈ r_log s;
  ok_tx r : r ∈ r_log s -> 0 < rr_transaction_id r;
  ok_registered : registered (r_offsets s);
  ok_kept r : r ∈ r_log s -> r ∈ r_rows s \/ ~ not_reached (progress s) r;
  ok_delivered r : r ∈ r_log s -> not_reached (progress s) r \/ delivered (r_broker s) (rr_msg r);
  ok_origin e : e ∈ taken (r_broker s) -> exists r, r ∈ r_log s /\ copy_of_msg e (rr_msg r) }.

Lemma key_lt_trans k1 k2 k3 : key_lt k1 k2 -> key_lt k2 k3 -> key_lt k1 k3.
Proof. unfold key_lt. lia. Qed.

Lemma key_lt_irrefl k : ~ key_lt k k.
Proof. unfold key_lt. lia. Qed.

Lemma progress_acked s r o : progress s = Some o -> registered (r_offsets s) ->
  exists o', find_first is_progress (acked r (r_offsets s)) = Some o' /\
    (of_last_tx o', of_offset_acked o') = rr_key r /\ registered (acked r (r_offsets s)).
Proof.
  unfold progress. intros Hp [E|(o1 & E & Hg & Ht)]; rewrite E in *; [done|].
  assert (Hb : forall o, of_consumer_group o = ConsumerGroupName -> is_progress o = true) by (intros ? ?; by apply bool_decide_eq_true).
  unfold acked, update_where. cbn. rewrite (Hb o1), (Hb (MkOffsetRow _ _ _ _)) by done.
  eexists. split_and!; [done|done|]. right. eexists. by split_and!.
Qed.

Lemma relay_ok_start s : relay_start s -> relay_ok s.
Proof.
  intros (H1 & H2 & H3 & H4). split; rewrite ?H1, ?H2, ?H3, ?H4; try (by intros ? ?%not_elem_of_nil); [constructor|by left].
Qed.

(** A subscriber that has not started is behind every row. *)
Lemma relay_ok_register s : relay_ok s -> progress s = None ->
  relay_ok (MkRelay (r_rows s) (r_offsets s ++ [MkOffsetRow ConsumerGroupName OutboxTopic 0 0]) (r_broker s) (r_log s)).
Proof.
  intros [H1 H2 H3 H4 H5 H6 H7] Hp.
  assert (r_offsets s = []) as Hr.
  { destruct H4 as [?|(o & Ho & Hg & _)]; [done|]. unfold progress in Hp. rewrite Ho in Hp. cbn in Hp.
    unfold is_progress in Hp. by rewrite bool_decide_eq_true_2 in Hp. }
  split; cbn [r_rows r_offsets r_broker r_log]; rewrite ?Hr; try done.
  - right. by eexists.
  - intros r Hl. destruct (H5 r Hl) as [?|Hn]; [auto|]. rewrite Hp in Hn. by destruct Hn.
  - intros r Hl. left. left. cbn. by apply H3.
Qed.

Lemma relay_ok_commit s r : relay_ok s -> 0 < rr_transaction_id r -> not_reached (progress s) r ->
  (forall r', r' ∈ r_log s -> rr_key r' <> rr_key r) ->
  relay_ok (MkRelay (r_rows s ++ [r]) (r_offsets s) (r_broker s) (r_log s ++ [r])).
Proof.
  intros [H1 H2 H3 H4 H5 H6 H7] Ht Ha Hk.
  assert (Hlog : forall x, x ∈ r_log s ++ [r] <-> x ∈ r_log s \/ x = r) by (intros x; by rewrite elem_of_app, list_elem_of_singleton).
  split; cbn [r_rows r_offsets r_broker r_log]; try done.
  - apply NoDup_fmap_snoc; [done|]. intros (x & Hx & Hin)%list_elem_of_fmap. by eapply Hk; [apply H2|].
  - intros x. rewrite Hlog, elem_of_app, list_elem_of_singleton. naive_solver.
  - intros x [?| ->]%Hlog; auto.
  - intros x [Hx| ->]%Hlog; [|left; apply elem_of_app; right; by apply list_elem_of_singleton].
    destruct (H5 x Hx); [left; apply elem_of_app|right]; auto.
  - intros x [Hx| ->]%Hlog; [by apply H6|by left].
  - intros e (x & Hx & ?)%H7. exists x. rewrite Hlog. auto.
Qed.

(** Handling the next row, whether its acknowledgement is saved or not. *)
Lemma relay_ok_again s r b : relay_ok s -> next_row s r -> handling (rr_msg r) (r_broker s) b ->
  relay_ok (MkRelay (r_rows s) (r_offsets s) b (r_log s)).
Proof.
  intros [H1 H2 H3 H4 H5 H6 H7] (_ & Hr & _) Hh.
  split; cbn [r_rows r_offsets r_broker r_log]; try done.
  - intros x [?|Hx]%H6; [by left|right]. by eapply delivered_mono.
  - intros e [?|?]%Hh; [auto|]. exists r. auto.
Qed.

Lemma relay_ok_ack s r : relay_ok s -> next_row s r -> delivered (r_broker s) (rr_msg r) ->
  relay_ok (MkRelay (r_rows s) (acked r (r_offsets s)) (r_broker s) (r_log s)).
Proof.
  intros [H1 H2 H3 H4 H5 H6 H7] (Hp & Hr & Ha & Hmin) Hd.
  destruct (progress s) as [o|] eqn:Ho; [|done].
  destruct (progress_acked s r o Ho H4) as (o' & Hf & Hk & Hreg).
  assert (Hah : forall x, not_reached (Some o') x -> not_reached (Some o) x).
  { intros x. cbn. rewrite Hk. by apply key_lt_trans. }
  split; cbn [r_rows r_offsets r_broker r_log]; unfold progress; cbn [r_offsets]; rewrite ?Hf; try done.
  - intros x Hx. destruct (H5 x Hx) as [?|Hn]; [by left|right]. auto.
  - intros x Hx. destruct (decide (not_reached (Some o') x)) as [?|Hn]; [by left|right].
    destruct (H6 x Hx) as [Hax|?]; [|done].
    destruct (H5 x Hx) as [Hin|Hnx]; [|done].
    destruct (Hmin x Hin Hax) as [He|Hl].
    + by rewrite (NoDup_fmap_inj rr_key (r_rows s) x r).
    + destruct Hn. cbn. by rewrite Hk.
Qed.

Lemma registered_unique os : registered os -> groups_unique os.
Proof. intros [->|(o & -> & _)]; repeat constructor. by intros ?%not_elem_of_nil. Qed.

(** Cleanup takes only what the subscriber has gone past. *)
Lemma relay_ok_cleanup {C : CleanupEnv} s : relay_ok s ->
  relay_ok (MkRelay (Cleanup outboxCleanupOptions (r_offsets s) (r_rows s)).2 (r_offsets s) (r_broker s) (r_log s)).
Proof.
  intros [H1 H2 H3 H4 H5 H6 H7]. pose proof (Cleanup_run outboxCleanupOptions (r_offsets s) (r_rows s) H1) as H.
  destruct (Cleanup _ _ _) as [[n err] rows']. destruct H as (Hs & _ & Hd & _).
  split; cbn [r_rows r_offsets r_broker r_log snd]; try done.
  - by eapply sublist_unique.
  - intros r Hr. by apply H2, (sublist_subseteq _ _ Hs).
  - intros r Hr. destruct (H5 r Hr) as [Hin|?]; [|by right].
    destruct (Hd r Hin) as [?|[i Hdel]]; [by left|right].
    destruct (cleanable_consumed _ _ _ _ ConsumerGroupName (registered_unique _ H4) Hdel) as (o & Ho & Hg & Ht & Hlt); [by apply list_elem_of_singleton|].
    unfold progress. cbn [r_offsets]. destruct H4 as [E|(o1 & E & Hg1 & _)]; rewrite E in Ho |- *.
    + by apply not_elem_of_nil in Ho.
    + apply list_elem_of_singleton in Ho as ->. cbn. unfold is_progress. rewrite bool_decide_eq_true_2 by done.
      cbn. unfold key_lt. cbn. lia.
Qed.

Lemma relay_step_ok s s' : relay_step s s' -> relay_ok s -> relay_ok s'.
Proof.
  intros H Hs; destruct H as [r Ht Ha Hk|Hp|r b Hn Hr|r ok b Hn Hr|C].
  - by apply relay_ok_commit.
  - by apply relay_ok_register.
  - destruct (relay_one_handling (rr_msg r) (r_broker s)) as [Hh Hd]. rewrite Hr in *.
    apply (relay_ok_ack (MkRelay (r_rows s) (r_offsets s) b (r_log s))); [by eapply relay_ok_again|done|by apply Hd].
  - destruct (relay_one_handling (rr_msg r) (r_broker s)) as [Hh _]. rewrite Hr in Hh. by eapply relay_ok_again.
  - by apply relay_ok_cleanup.
Qed.

Lemma relay_reachable_ok s s' : relay_start s -> rtc relay_step s s' -> relay_ok s'.
Proof. intros Hs%relay_ok_start. induction 1; eauto using relay_step_ok. Qed.


(** ** The outbox drains *)
Lemma exists_least (l : list RelayRow) : l <> [] -> exists r, r ∈ l /\ forall r', r' ∈ l -> outbox_le r r'.
Proof.
  induction l as [|x l IH]; [done|]. intros _. destruct (decide (l = [])) as [->|Hl].
  { exists x. split; [by left|]. intros r' ->%list_elem_of_singleton. by left. }
  destruct (IH Hl) as (y & Hy & Hmin). destruct (decide (outbox_le x y)) as [Hxy|Hxy].
  - exists x. split; [by left|]. intros r' [->|Hr]%elem_of_cons; [by left|].
    specialize (Hmin _ Hr). unfold outbox_le, key_lt, rr_key in *. cbn in *. intuition (simplify_eq; auto with lia).
    all: first [left; f_equal; lia | right; lia].
  - exists y. split; [by right|]. intros r' [->|Hr]%elem_of_cons; [|auto].
    destruct x as [tx ox ? ?], y as [ty oy ? ?]. unfold outbox_le, key_lt, rr_key in *. cbn in *.
    destruct (decide (ty = tx)) as [->|?]; [destruct (decide (oy = ox)) as [->|?]|]; [by left|right; lia|].
    right. left. apply Z.le_neq. split; [|done]. apply Z.nlt_ge. intros ?. apply Hxy. auto.
Qed.

Lemma filter_fewer {A} (P Q : A -> Prop) `{forall x, Decision (P x), forall x, Decision (Q x)} (l : list A) x :
  (forall y, P y -> Q y) -> x ∈ l -> Q x -> ~ P x -> (length (filter P l) < length (filter Q l))%nat.
Proof.
  intros Hpq Hx Hq Hp.
  assert (Hle : forall l, (length (filter P l) <= length (filter Q l))%nat).
  { induction l0 as [|y l0 IH]; [done|]. rewrite !filter_cons. repeat case_decide; cbn; naive_solver lia. }
  induction Hx as [x l|x y l Hx IH]; rewrite !filter_cons.
  - rewrite decide_False, decide_True by done. cbn. specialize (Hle l). lia.
  - specialize (IH Hq Hp). repeat case_decide; cbn; naive_solver lia.
Qed.

#[export] Instance not_reached_dec o r : Decision (not_reached o r).
Proof. destruct o; cbn; apply _. Defined.

Definition unread_rows (s : relay) : list RelayRow := filter (not_reached (progress s)) (r_rows s).

Lemma relay_one_taken m b : (forall m b, (publish PoisonQueueTopic m b).1 = true) -> (relay_one m b).1 = true.
Proof.
  intros Hp. unfold relay_one. pose proof (poison_law PoisonQueueTopic m (Retry 5 (handleOutboxEvent m)) b) as H.
  destruct (Retry _ _ _).1; [by rewrite H|]. destruct H as [md ->]. apply Hp.
Qed.

(** One message less is unread_rows after it was handled. *)
Lemma relay_next s : (forall m b, (publish PoisonQueueTopic m b).1 = true) ->
  relay_ok s -> progress s <> None -> unread_rows s <> [] ->
  exists s', relay_step s s' /\ progress s' <> None /\ r_rows s' = r_rows s /\ (length (unread_rows s') < length (unread_rows s))%nat.
Proof.
  intros Hpub Hs Hp Hne. destruct (exists_least _ Hne) as (r & Hr & Hmin).
  unfold unread_rows in Hr. apply list_elem_of_filter in Hr as [Ha Hin].
  assert (Hn : next_row s r).
  { split_and!; [done|done|done|]. intros r' Hr' Ha'. apply Hmin. unfold unread_rows. by apply list_elem_of_filter. }
  pose proof (relay_one_taken (rr_msg r) (r_broker s) Hpub) as Ht.
  destruct (relay_one (rr_msg r) (r_broker s)) as [ok b] eqn:Hone. cbn in Ht. subst ok.
  eexists. split; [by eapply rs_relay|]. unfold progress at 1. cbn [r_offsets r_rows].
  destruct (progress s) as [o|] eqn:Ho; [|done].
  destruct (progress_acked s r o Ho (ok_registered _ Hs)) as (o' & Hf & Hk & _).
  rewrite Hf. split_and!; [done|done|]. unfold unread_rows, progress. cbn [r_offsets r_rows]. rewrite Hf.
  fold (progress s). rewrite Ho.
  assert (Hah : forall x, not_reached (Some o') x -> not_reached (Some o) x) by (intros x; cbn; rewrite Hk; by apply key_lt_trans).
  assert (Hnr : ~ not_reached (Some o') r) by (cbn; rewrite Hk; apply key_lt_irrefl).
  by apply (filter_fewer _ _ _ r).
Qed.

Lemma relay_drains_from s1 : (forall m b, (publish PoisonQueueTopic m b).1 = true) ->
  progress s1 <> None -> relay_ok s1 ->
  exists s', rtc relay_step s1 s' /\ r_rows s' = r_rows s1 /\ unread_rows s' = [] /\
    forall r, r ∈ r_log s' -> delivered (r_broker s') (rr_msg r).
Proof.
  intros Hpub Hp Hs1.
  remember (length (unread_rows s1)) as n eqn:Hn. revert s1 Hn Hp Hs1.
  induction n as [n IH] using lt_wf_ind. intros s1 -> Hp Hs1.
  destruct (decide (unread_rows s1 = [])) as [He|He].
  - exists s1. split_and!; [done|done|done|]. intros r Hl.
    destruct (ok_delivered _ Hs1 r Hl) as [Ha|?]; [|done]. destruct (ok_kept _ Hs1 r Hl) as [Hin|Hn]; [|done].
    assert (Hx : r ∈ unread_rows s1) by by apply list_elem_of_filter. rewrite He in Hx. by apply not_elem_of_nil in Hx.
  - destruct (relay_next s1 Hpub Hs1 Hp He) as (s2 & Hst & Hp2 & Hrows & Hlt).
    destruct (IH _ Hlt s2 eq_refl Hp2) as (s' & Hr' & E & ? & ?); [by eapply relay_step_ok|].
    exists s'. split_and!; [by eapply rtc_l|by rewrite E|done|done].
Qed.
End invariant.

(** ** A broker, and the properties at a few rows

    It refuses the topic "closed"; everything else is kept. *)
Fixpoint retry_times {B} (n : nat) (h : B -> bool * B) (b : B) : bool * B :=
  let '(ok, b') := h b in
  if ok then (true, b') else match n with O => (false, b') | S n' => retry_times n' h b' end.

#[refine] Definition sample_broker : Watermill := {|
  broker := list (string * Msg);
  taken b := b;
  publish topic m b := if bool_decide (topic = "closed") then (false, b) else (true, (topic, m) :: b);
  Retry := @retry_times _;
  PoisonQueue topic m h b :=
    let '(ok, b') := h b in
    if ok then (true, b') else if bool_decide (topic = "closed") then (false, b') else (true, (topic, m) :: b') |}.
Proof.
  - intros topic m b. case_bool_decide; cbn; (split_and!; [set_solver|set_solver|]); [done|by left].
  - intros n h. induction n as [|n IH]; intros b; cbn; destruct (h b) as [[] b'] eqn:Hb.
    1-3: exists 0%nat; (split; [lia|]); cbn; by rewrite Hb.
    destruct (IH b') as (k & Hk & ->). exists (S k). split; [lia|].
    by rewrite Nat.iter_succ_r, Hb.
  - intros topic m h b. destruct (h b) as [[] b']; cbn; [done|]. exists (om_metadata m). by destruct m.
Defined.

#[local] Existing Instance sample_broker.

Definition msg_a : Msg := MkMsg "a" "{}" (<[MetadataRoutingKey := "im.thread.created"]> ∅).
Definition msg_b : Msg := MkMsg "b" "{}" (<[MetadataRoutingKey := "closed"]> ∅).
Definition row_a : RelayRow := MkRelayRow 5 1 0 msg_a.
Definition row_b : RelayRow := MkRelayRow 6 2 0 msg_b.

#[local] Instance ten_days_later : CleanupEnv := {| cenv_now _ := 10 * day; cenv_fails _ := false; cenv_done _ := false |}.

Lemma Cleanup_removes_consumed_only_witness :
  let os := [MkOffsetRow ConsumerGroupName OutboxTopic 2 6] in
  rows_unique [row_b; row_a] /\ Cleanup outboxCleanupOptions os [row_b; row_a] = (1, None, [row_b]) /\
  (forall g, g ∈ [ConsumerGroupName] ->
    exists o, o ∈ os /\ of_consumer_group o = g /\ of_topic o = OutboxTopic /\ 5 < of_last_tx o) /\
  cleanable outboxCleanupOptions os (10 * day) row_b = false.
Proof.
  intros os. assert (rows_unique [row_b; row_a]) as Hu by (by apply (bool_decide_unpack _)).
  assert (groups_unique os) as Hg by (by apply (bool_decide_unpack _)).
  assert (Cleanup outboxCleanupOptions os [row_b; row_a] = (1, None, [row_b])) as Hc by reflexivity.
  pose proof (Cleanup_removes_consumed_only outboxCleanupOptions os [row_b; row_a] Hu Hg) as H. rewrite Hc in H.
  destruct H as (_ & _ & _ & Hr & Hk). split_and!; [done|done| |].
  - apply (Hr row_a); [right; by left|]. by intros ?%list_elem_of_singleton.
  - apply Hk; [intros; done|done|by left].
Defined.

Definition empty_relay : relay := MkRelay [] [] ([] : list (string * Msg)) [].

(** The event of [row_b] has no topic that takes it. *)
Definition after_commits : relay :=
  MkRelay [row_a; row_b] [MkOffsetRow ConsumerGroupName OutboxTopic 0 0] ([] : list (string * Msg)) [row_a; row_b].

Lemma commits_reached : rtc relay_step empty_relay after_commits.
Proof.
  eapply rtc_l; [apply (rs_commit _ row_a); [done|done|by intros ? ?%not_elem_of_nil]|].
  eapply rtc_l; [apply (rs_commit _ row_b); [done|done|by intros ? ->%list_elem_of_singleton]|].
  eapply rtc_l; [by apply rs_register|]. apply rtc_refl.
Qed.

(** Both were relayed, and [row_a] cleaned up. *)
Definition after_cleanup : relay :=
  MkRelay [row_b] [MkOffsetRow ConsumerGroupName OutboxTopic 2 6]
    ([(PoisonQueueTopic, msg_b); ("im.thread.created", msg_a)] : list (string * Msg)) [row_a; row_b].

Lemma cleanup_reached : rtc relay_step empty_relay after_cleanup.
Proof.
  etrans; [apply commits_reached|].
  eapply rtc_l; [eapply (rs_relay _ row_a); [|reflexivity]|].
  { split_and!; [done|by left|by left|]. intros r [->|[->|?%not_elem_of_nil]%elem_of_cons]%elem_of_cons _; [by left|right; by left|done]. }
  eapply rtc_l; [eapply (rs_relay _ row_b); [|reflexivity]|].
  { split_and!; [done|right; by left|by left|].
    intros r [->|[->|?%not_elem_of_nil]%elem_of_cons]%elem_of_cons Ha; [|by left|done]. by destruct Ha as [Ha|[_ Ha]]; apply Z.lt_irrefl in Ha. }
  eapply rtc_l; [by eapply (rs_cleanup _ ten_days_later)|]. apply rtc_refl.
Qed.


